(* ===== verification/_CoqProject ===== *)
-Q . S2P
Prelude.v
Mem.v
KString.v
Bitmap.v
Interrupt.v
KList.v
Thread.v
Timer.v
Sync.v
ThreadInit.v
Idle.v
IOQueue.v
Keyboard.v
Paging.v
Pool.v
Heap.v
HeapPages.v
Stdio.v
Block.v
Ide.v
Partition.v
FsState.v
FsAlloc.v
Inode.v
FsFile.v
FsWrite.v
FsRead.v
Dir.v
FsPath.v
FsCalls.v
FsMount.v
DirSpec.v
DirDelete.v
FsSearch.v
FsMountSpec.v
FsCallsSpec.v
FsCreate.v
FsOpen.v
FsUnlink.v
FsMkdir.v
FsCwd.v
Tss.v
Entry.v
Process.v
ProcessSpec.v
Syscall.v
IdeInit.v
MemInit.v
Startup.v
Boot.v
Main.v
