(* ===== verification/Prelude.v ===== *)
(** * ElephantOS: a verification of the kernel

    ElephantOS is a small 32-bit kernel for one i386 processor: preemptive threads, locks, virtual memory,
    a heap, user processes with system calls, drivers for the clock, the keyboard and ATA disks, and a
    file system. This library translates its C code (and the few assembly routines that the C code cannot
    do without) into executable definitions and proves what each part promises to the others.

    ** The program and its model

    The parts, from the bottom up; a file requires only files above it in this list.

    - Prelude (this file): outcomes of kernel code, loops with fuel, machine integers, the tactics and
      hint databases of the library.
    - Mem, KString, Bitmap, KList: the byte memory of the C code; lib/string.c, lib/kernel/bitmap.c,
      lib/kernel/list.c.
    - Interrupt: kernel/interrupt.c, the interrupt flag, the gates and the handler table.
    - Thread, Timer, Sync, ThreadInit, Idle: thread/thread.c with switch.S, device/timer.c, thread/sync.c. The control blocks are
      records by address, the lists of threads are sequences (KList shows that list.c keeps such
      sequences in memory), and a thread that is not running has a resume point in place of its stack. Sync
      is a transition system: one step is one statement of the running thread, a clock interrupt
      or a call, so the theorems there speak about every interleaving.
    - IOQueue, Keyboard: device/ioqueue.c, device/keyboard.c.
    - Paging, Pool, Heap, HeapPages, MemInit: kernel/memory.c. Paging has the walk of the processor through the tables
      in physical memory and the self-map the kernel uses to change them; Pool has frames, pages and
      the operations on both; Heap has sys_malloc and sys_free over the interface PageAllocator, which
      HeapPages proves of Pool; MemInit starts from the tables that the loader leaves.
    - Stdio: lib/stdio.c, lib/kernel/stdio-kernel.c.
    - Block, Ide, Partition, IdeInit: device/ide.c over the interface AtaChannel, the documented behaviour of a drive. Ide
      proves the interface BlockDevice (of Block) of the driver; partition scan and file system are
      proved against BlockDevice.
    - FsState, FsAlloc, Inode, FsFile, Dir, FsPath, FsCalls, FsMount: fs/inode.c, fs/file.c, fs/dir.c, fs/fs.c, every
      function. The theorems are in FsWrite, FsRead, DirSpec, DirDelete, FsSearch, FsMountSpec, FsCallsSpec,
      FsCreate, FsOpen, FsUnlink, FsMkdir and FsCwd; FsOpen and FsCwd put the others together, from a blank disk to a
      file that is read back and to a directory that is entered.
    - Tss, Entry, Process, ProcessSpec, Syscall: userprog/tss.c, the entry points of kernel/kernel.asm,
      userprog/process.c, userprog/syscall-init.c, lib/user/syscall.c.
    - Startup, Boot, Main: device/console.c, kernel/debug.c, idt_init and general_intr_handler of
      kernel/interrupt.c, kernel/init.c, main of kernel/main.c.

    Definitions have the names of the C functions. Where a function is long, its loop bodies and branches are
    definitions of their own, named after what they do. Integers are values of [Z] with the wrap-around of
    their C type written out ([u8], [u16], [u32], [s16], [s32]). A record stands for a struct; an object
    that several places point to has an address.

    ** Outcomes, fuel and bounds

    A definition that can fail returns an [outcome]. [Panic] is a failed ASSERT or a PANIC, after which the
    kernel spins; [Fault] an access outside of memory or of an array; [Blocked] a thread that has to wait for
    another one; [OutOfFuel] a loop that has not ended. C loops are [loop fuel body s]. Where the loop is
    bounded by its data the fuel is that bound (128 rounds for a byte counter that grows by 2, one round
    more than there are addresses for a scan of memory), and the theorems state that the function returns
    [Ok], so the fuel is enough. Where the code has no bound, as in the chain of extended partitions, the
    fuel is an argument and the theorem says how much is enough. A loop that does not end is stated for every
    amount of fuel.

    ** What the theorems show

    - Threads: in every interleaving the scheduler's invariant holds and no assertion fails, locks exclude each
      other, no wakeup is lost, threads that yield take turns, the idle thread gives way; sleeping ends; a new thread starts in its function.
    - Memory: pages are handed out once, mapped to frames that were free, and come back when they are given
      back; sys_malloc and sys_free refine a finite map of allocations that do not overlap; mem_init
      establishes the invariants from the state of the loader.
    - Devices: the ring buffer is a bounded queue and serves a blocked reader, the keyboard maps keys to characters, the disk driver reads and
      writes exactly the given sectors whenever the interrupt comes.
    - Files: appending and reading back, inodes shared by their openers and stored in the table, directories as
      sequences of entries, path search as a walk through a tree, formatting followed by mounting, creating a
      file and removing it, making a directory, the path of the working directory, giving back what was taken when a
      resource is missing, and runs of all this that start with a blank disk.
    - Processes: process_execute makes a well-formed process, and running it reaches the first instruction of the
      program on a fresh stack in its own directory; interrupts are invisible to the program they interrupt;
      system calls reach the kernel and return its result, malloc down to the heap.
    - Start: init_all brings all of this up from a machine that the loader has prepared; main then prints what
      sys_stat says about the root directory and /dir1.
    - Some theorems state where the code does not do what it means to do: a deletion that does not end, a sector
      that is marked free outside of the partition, a path that is cut short, an interrupt table with a gap.

    ** Interfaces and hypotheses

    [AddrV2P] (Thread) is the translation of the directory's address that the scheduler asks the memory manager
    for; [PageAllocator] (Heap), [BlockDevice] (Block), [SysFunctions] (Syscall) are promises between parts and have
    instances here. [AtaChannel], [AtaReady] and [AtaIdentify] state what the ATA standard says about a drive, [Screen] is the
    text screen; the examples give instances of both. Which allocations fail in the
    file system is an argument, so the theorems cover those failures that the code handles.

    ** Not modelled

    - boot/mbr.S and boot/loader.S run before the kernel; what they leave is the record [loaded] of MemInit
      and [powered_on] of Boot. lib/kernel/print.S and the port instructions of lib/kernel/io.h are interfaces.
    - k_thread_a, k_thread_b, u_prog_a, u_prog_b of kernel/main.c: tests that nothing calls.
    - sys_rmdir and the directory streams are defined but have no theorem of their own beyond those about the operations
      they are made of; the paths of sys_open, sys_unlink and sys_mkdir in their theorems are names in the root
      directory, with memory for the buffers, while [file_create], [sys_chdir], [sys_stat] and [sys_getcwd] are covered for
      every directory of the tree.
    - Messages printed by printk, and output before the console exists, unless they are all that a function does.
    - Interrupts by the clock while the file system or the disk driver runs: the theorems about
      those parts are about the running thread; that locks protect such runs is the subject of Sync. *)

From stdpp Require Import base numbers list gmap.
From Stdlib Require Import ZArith Lia.

Declare Scope kernel_scope.
Delimit Scope kernel_scope with kernel.
Open Scope Z_scope.

#[global] Arguments Z.eqb : simpl never.
#[global] Arguments Z.ltb : simpl never.
#[global] Arguments Z.leb : simpl never.
#[global] Arguments Z.gtb : simpl never.
#[global] Arguments Z.geb : simpl never.
#[global] Arguments Z.testbit : simpl never.
#[global] Arguments Z.to_nat : simpl never.

(** ** Outcomes of kernel code *)

(** What running a piece of kernel code can come to.  [Panic] is
    [panic_spin] (kernel/debug.c): a failed [ASSERT] or a [PANIC] prints a
    message with interrupts off and spins for ever.  [Fault] is an access to
    memory that is not there.  [Blocked] is a thread that was suspended and
    has to be woken by another one.  [OutOfFuel] is a loop that did not finish
    within the bound the definition gives it. *)
Inductive outcome (A : Type) : Type :=
  | Ok (a : A)
  | Panic
  | Fault
  | Blocked
  | OutOfFuel.
Arguments Ok {A} _.
Arguments Panic {A}.
Arguments Fault {A}.
Arguments Blocked {A}.
Arguments OutOfFuel {A}.

#[export] Instance outcome_ret : MRet outcome := λ A a, Ok a.
#[export] Instance outcome_bind : MBind outcome := λ A B f x,
  match x with
  | Ok a => f a
  | Panic => Panic
  | Fault => Fault
  | Blocked => Blocked
  | OutOfFuel => OutOfFuel
  end.

(** [ASSERT(CONDITION)] of kernel/debug.h. *)
Definition ASSERT (c : bool) : outcome unit := if c then Ok tt else Panic.

Definition from_option_fault {A} (o : option A) : outcome A :=
  match o with Some a => Ok a | None => Fault end.

(** ** While loops

    [loop fuel body s] is [while (1) { body }]: the body either goes on with a
    new value of the loop variables ([inl]) or leaves the loop with a result
    ([inr]). *)
Fixpoint loop {S R : Type} (fuel : nat) (body : S → outcome (S + R)) (s : S)
    : outcome R :=
  match fuel with
  | O => OutOfFuel
  | Datatypes.S fuel' =>
      match body s with
      | Ok (inl s') => loop fuel' body s'
      | Ok (inr r) => Ok r
      | Panic => Panic
      | Fault => Fault
      | Blocked => Blocked
      | OutOfFuel => OutOfFuel
      end
  end.

Section loop_rules.
Context {S R : Type} (body : S → outcome (S + R)).

(** Total correctness: an invariant, a variant that decreases and a
    postcondition established on exit. *)
Lemma loop_total (I : S → Prop) (V : S → nat) (Q : R → Prop) :
  (∀ s, I s →
     (∃ s', body s = Ok (inl s') ∧ I s' ∧ (V s' < V s)%nat) ∨
     (∃ r, body s = Ok (inr r) ∧ Q r)) →
  ∀ fuel s, I s → (V s < fuel)%nat → ∃ r, loop fuel body s = Ok r ∧ Q r.
Proof.
  intros Hbody fuel. induction fuel as [|fuel IH]; intros s HI HV; [lia|].
  cbn. destruct (Hbody s HI) as [(s' & -> & HI' & HV') | (r & -> & HQ)].
  - apply IH; [done | lia].
  - eauto.
Qed.

(** A loop whose body always goes on never returns, whatever the fuel. *)
Lemma loop_diverges (I : S → Prop) :
  (∀ s, I s → ∃ s', body s = Ok (inl s') ∧ I s') →
  ∀ fuel s, I s → loop fuel body s = OutOfFuel.
Proof.
  intros Hbody fuel. induction fuel as [|fuel IH]; intros s HI; [done|].
  cbn. destruct (Hbody s HI) as (s' & -> & HI'). eauto.
Qed.

(** More fuel does not change a result. *)
Lemma loop_fuel_mono fuel fuel' s r :
  loop fuel body s = Ok r → (fuel ≤ fuel')%nat → loop fuel' body s = Ok r.
Proof.
  revert fuel' s. induction fuel as [|fuel IH]; intros fuel' s H Hle; [done|].
  destruct fuel' as [|fuel']; [lia|]. cbn in *.
  destruct (body s) as [[s'|r']| | | |]; try done.
  apply IH; [done | lia].
Qed.

Lemma loop_step fuel s s' :
  body s = Ok (inl s') → loop (Datatypes.S fuel) body s = loop fuel body s'.
Proof. intros H. cbn. by rewrite H. Qed.

Lemma loop_exit fuel s r :
  body s = Ok (inr r) → loop (Datatypes.S fuel) body s = Ok r.
Proof. intros H. cbn. by rewrite H. Qed.
End loop_rules.

(** ** Machine integers *)

Definition u8 (z : Z) : Z := z mod 2 ^ 8.
Definition u16 (z : Z) : Z := z mod 2 ^ 16.
Definition u32 (z : Z) : Z := z mod 2 ^ 32.
Definition s8 (z : Z) : Z := if u8 z <? 2 ^ 7 then u8 z else u8 z - 2 ^ 8.
Definition s16 (z : Z) : Z := if u16 z <? 2 ^ 15 then u16 z else u16 z - 2 ^ 16.
Definition s32 (z : Z) : Z := if u32 z <? 2 ^ 31 then u32 z else u32 z - 2 ^ 32.

Definition NULL : Z := 0.
Definition PG_SIZE : Z := 4096.
Definition K_HEAP_START : Z := 3222274048.

(** [DIV_ROUND_UP(X, STEP)] of kernel/global.h on 32-bit operands. *)
Definition DIV_ROUND_UP (x step : Z) : Z := u32 (x + step - 1) / step.

(** C truth values: [0] is false. *)
Definition truth (z : Z) : bool := negb (z =? 0).

(** [lia] with quotients and remainders turned into equations. *)
Ltac zdlia := Z.div_mod_to_equations; lia.

Create HintDb kernel discriminated.
Create Rewrite HintDb kernel.

Lemma u8_range z : 0 ≤ u8 z < 256.
Proof. by apply Z.mod_pos_bound. Qed.
Lemma u16_range z : 0 ≤ u16 z < 65536.
Proof. by apply Z.mod_pos_bound. Qed.
Lemma u32_range z : 0 ≤ u32 z < 4294967296.
Proof. by apply Z.mod_pos_bound. Qed.
Lemma u8_small z : 0 ≤ z < 256 → u8 z = z.
Proof. intros. by apply Z.mod_small. Qed.
Lemma u16_small z : 0 ≤ z < 65536 → u16 z = z.
Proof. intros. by apply Z.mod_small. Qed.
Lemma u32_small z : 0 ≤ z < 4294967296 → u32 z = z.
Proof. intros. by apply Z.mod_small. Qed.
Lemma s8_small z : 0 ≤ z < 128 → s8 z = z.
Proof. intros. unfold s8. rewrite u8_small by lia. destruct (Z.ltb_spec z (2 ^ 7)); lia. Qed.
Lemma s32_small z : -2147483648 ≤ z < 2147483648 → s32 z = z.
Proof.
  intros. unfold s32, u32. change (2 ^ 31) with 2147483648.
  change (2 ^ 32) with 4294967296. destruct (Z.ltb_spec (z mod 4294967296) 2147483648); zdlia.
Qed.
Lemma u32_s32 v : u32 (s32 (u32 v)) = u32 v.
Proof. unfold s32, u32. change (2 ^ 31) with 2147483648. change (2 ^ 32) with 4294967296. case_match; zdlia. Qed.
Lemma s32_u32 v : s32 (u32 v) = s32 v.
Proof. unfold s32. by rewrite (u32_small (u32 v)) by apply u32_range. Qed.

#[export] Hint Rewrite u8_small u16_small u32_small s8_small s32_small
  using lia : kernel.
#[export] Hint Resolve u8_range u16_range u32_range : kernel.

(** ** Tactics *)

(** Unfold the outcome monad and reduce. *)
Ltac omonad := unfold mbind, outcome_bind, mret, outcome_ret in *; cbn [fst snd] in *.

(** Reduce the outcome monad only. *)
Ltac ocbn := cbn [mbind outcome_bind mret outcome_ret ASSERT from_option_fault fst snd negb andb orb].

(** Case analysis on the first [match]/[if] of the goal, booleans of [Z]
    comparisons turned into propositions for [lia]. *)
Ltac zcase :=
  match goal with
  | |- context [?a =? ?b] => destruct (Z.eqb_spec a b)
  | |- context [?a <? ?b] => destruct (Z.ltb_spec a b)
  | |- context [?a <=? ?b] => destruct (Z.leb_spec a b)
  | |- context [?a >? ?b] => rewrite (Z.gtb_ltb a b)
  | |- context [?a >=? ?b] => rewrite (Z.geb_leb a b)
  end.

(** Case analysis on the first decided proposition of the goal. *)
Tactic Notation "gdecide" "as" ident(E) :=
  match goal with
  | |- context [@bool_decide ?P ?d] => destruct (@bool_decide_reflect P d) as [E|E]
  | |- context [@decide ?P ?d] => destruct (@decide P d) as [E|E]
  end.
Tactic Notation "gdecide" := let E := fresh "E" in gdecide as E.

(** Invert a successful [Ok _ = Ok _] and the pairs inside. *)
Ltac inv_ok :=
  repeat match goal with
  | H : Ok _ = Ok _ |- _ => injection H as H
  | H : (_, _) = (_, _) |- _ => injection H as ? ?
  end; subst.

Lemma bind_ok {A B} (f : A → outcome B) (x : outcome A) b :
  (x ≫= f) = Ok b → ∃ a, x = Ok a ∧ f a = Ok b.
Proof. destruct x; cbn; intros H; try discriminate. eauto. Qed.

Lemma assert_ok c : ASSERT c = Ok tt ↔ c = true.
Proof. by destruct c. Qed.

(** ** Bits *)

Lemma testbit_pow2 i j : 0 ≤ i → Z.testbit (2 ^ i) j = bool_decide (i = j).
Proof.
  intros Hi. case_bool_decide as H; subst.
  - by apply Z.pow2_bits_true.
  - by apply Z.pow2_bits_false.
Qed.

(** A value below [2 ^ n] has no bit at or above [n]. *)
Lemma testbit_above z n i : 0 ≤ z < 2 ^ n → n ≤ i → Z.testbit z i = false.
Proof.
  intros Hz Hi. destruct (Z.eq_dec z 0) as [->|]; [apply Z.bits_0|].
  assert (0 ≤ n). { destruct (Z.lt_ge_cases n 0); [|lia]. rewrite Z.pow_neg_r in Hz; lia. }
  apply Z.bits_above_log2; [lia|].
  assert (Z.log2 z < n) by (apply Z.log2_lt_pow2; lia). lia.
Qed.

Lemma land_pow2_testbit z i :
  0 ≤ i → Z.land z (2 ^ i) = if Z.testbit z i then 2 ^ i else 0.
Proof.
  intros Hi. apply Z.bits_inj'. intros j Hj.
  rewrite Z.land_spec, testbit_pow2 by done.
  case_bool_decide as H; [subst j|].
  - destruct (Z.testbit z i); [|by rewrite Z.bits_0].
    by rewrite Z.pow2_bits_true.
  - rewrite andb_false_r. destruct (Z.testbit z i); [|by rewrite Z.bits_0].
    by rewrite Z.pow2_bits_false.
Qed.

Lemma truth_land_pow2 z i : 0 ≤ i → truth (Z.land z (2 ^ i)) = Z.testbit z i.
Proof.
  intros Hi. rewrite land_pow2_testbit by done. unfold truth.
  pose proof (Z.pow_pos_nonneg 2 i ltac:(lia) Hi).
  destruct (Z.testbit z i); destruct (Z.eqb_spec (2 ^ i) 0); done || lia.
Qed.
