(* ===== verification/Mem.v ===== *)
(** * Byte-addressed memory

    The memory the C code of the kernel works on: a finite map from byte
    addresses to bytes.  32-bit words are little-endian, as on the i386 the
    kernel is compiled for.  An access outside the map is a [Fault]. *)

From stdpp Require Import base numbers list gmap.
From Stdlib Require Import ZArith Lia.
From S2P Require Import Prelude.

Abbreviation mem := (gmap Z Z).

Implicit Types (m : mem) (p q v n : Z).

Definition load8 m p : outcome Z := from_option_fault (m !! p).

Definition store8 m p v : outcome mem :=
  match m !! p with
  | Some _ => Ok (<[p := u8 v]> m)
  | None => Fault
  end.

Definition load32 m p : outcome Z :=
  b0 ← load8 m p;
  b1 ← load8 m (p + 1);
  b2 ← load8 m (p + 2);
  b3 ← load8 m (p + 3);
  Ok (b0 + b1 * 2 ^ 8 + b2 * 2 ^ 16 + b3 * 2 ^ 24).

Definition store32 m p v : outcome mem :=
  m ← store8 m p v;
  m ← store8 m (p + 1) (Z.shiftr v 8);
  m ← store8 m (p + 2) (Z.shiftr v 16);
  store8 m (p + 3) (Z.shiftr v 24).

(** The [n] bytes from [p] are there. *)
Definition valid m p n : Prop := ∀ a, p ≤ a < p + n → is_Some (m !! a).

(** Every byte of the memory is a byte. *)
Definition wf_mem m : Prop := ∀ a b, m !! a = Some b → 0 ≤ b < 256.

(** The memory after a 32-bit store that does not fault. *)
Definition put32 m p v : mem :=
  <[p + 3 := u8 (Z.shiftr v 24)]> (<[p + 2 := u8 (Z.shiftr v 16)]>
    (<[p + 1 := u8 (Z.shiftr v 8)]> (<[p := u8 v]> m))).

(** ** Laws of loads and stores *)

Lemma load8_Some m p b : m !! p = Some b → load8 m p = Ok b.
Proof. unfold load8. by intros ->. Qed.

Lemma load8_ok m p b : load8 m p = Ok b → m !! p = Some b.
Proof. unfold load8. by destruct (m !! p); intros [= ->]. Qed.

Lemma store8_valid m p v : is_Some (m !! p) → store8 m p v = Ok (<[p := u8 v]> m).
Proof. unfold store8. by intros [? ->]. Qed.

Lemma valid_sub m p n q k : valid m p n → p ≤ q → q + k ≤ p + n → valid m q k.
Proof. intros H ?? a ?. apply H. lia. Qed.

Lemma valid_insert m p n q v : valid m p n → valid (<[q := v]> m) p n.
Proof. intros H a Ha. rewrite lookup_insert_is_Some. destruct (decide (q = a)); eauto. Qed.

Lemma store32_valid m p v : valid m p 4 → store32 m p v = Ok (put32 m p v).
Proof.
  intros H. unfold store32, put32.
  rewrite store8_valid by (apply H; lia). cbn.
  rewrite store8_valid by (apply (valid_insert _ p 4); [done|lia]). cbn.
  rewrite store8_valid by (apply (valid_insert _ p 4); [by apply valid_insert|lia]). cbn.
  by rewrite store8_valid
    by (apply (valid_insert _ p 4); [by repeat apply valid_insert|lia]).
Qed.

Lemma put32_lookup_ne m p v a : a < p ∨ p + 4 ≤ a → put32 m p v !! a = m !! a.
Proof. intros. unfold put32. rewrite !lookup_insert_ne by lia. done. Qed.

Lemma put32_valid m p v q n : valid m q n → valid (put32 m p v) q n.
Proof. intros H. unfold put32. by repeat apply valid_insert. Qed.

Lemma put32_wf m p v : wf_mem m → wf_mem (put32 m p v).
Proof.
  intros H a b. unfold put32. rewrite !lookup_insert.
  repeat case_decide; intros Hb; try (injection Hb as <-; apply u8_range). eauto.
Qed.

Lemma u8_byte v i : 0 ≤ i → u8 (Z.shiftr v i) = (v / 2 ^ i) mod 256.
Proof. intros. unfold u8. rewrite Z.shiftr_div_pow2 by done. done. Qed.

Lemma load32_put32_eq m p v : load32 (put32 m p v) p = Ok (u32 v).
Proof.
  unfold load32, put32, load8.
  do 3 rewrite (lookup_insert_ne _ _ p) by lia. rewrite lookup_insert_eq.
  do 2 rewrite (lookup_insert_ne _ _ (p + 1)) by lia. rewrite lookup_insert_eq.
  rewrite (lookup_insert_ne _ _ (p + 2)) by lia. rewrite !lookup_insert_eq. cbn.
  f_equal. rewrite !u8_byte by lia. unfold u8, u32.
  change (2 ^ 32) with 4294967296; change (2 ^ 24) with 16777216;
    change (2 ^ 16) with 65536; change (2 ^ 8) with 256.
  zdlia.
Qed.

Lemma load32_lookup_ext m m' p :
  (∀ a, p ≤ a < p + 4 → m' !! a = m !! a) → load32 m' p = load32 m p.
Proof. intros H. unfold load32, load8. by rewrite !H by lia. Qed.

Lemma load32_put32_ne m p v q :
  q + 4 ≤ p ∨ p + 4 ≤ q → load32 (put32 m p v) q = load32 m q.
Proof. intros. apply load32_lookup_ext. intros. apply put32_lookup_ne. lia. Qed.

Lemma load32_valid m p : wf_mem m → valid m p 4 →
  ∃ v, load32 m p = Ok v ∧ 0 ≤ v < 2 ^ 32.
Proof.
  intros Hwf H.
  destruct (H p) as [b0 H0]; [lia|]. destruct (H (p + 1)) as [b1 H1]; [lia|].
  destruct (H (p + 2)) as [b2 H2]; [lia|]. destruct (H (p + 3)) as [b3 H3]; [lia|].
  unfold load32, load8. rewrite H0, H1, H2, H3. cbn. eexists; split; [done|].
  apply Hwf in H0, H1, H2, H3. change (2 ^ 32) with 4294967296; lia.
Qed.

Lemma load32_is_valid m p v : load32 m p = Ok v → valid m p 4.
Proof.
  unfold load32, load8. intros H a Ha.
  assert (a = p ∨ a = p + 1 ∨ a = p + 2 ∨ a = p + 3) as C by lia.
  destruct (m !! p) eqn:E0; [cbn in H|done].
  destruct (m !! (p + 1)) eqn:E1; [cbn in H|done].
  destruct (m !! (p + 2)) eqn:E2; [cbn in H|done].
  destruct (m !! (p + 3)) eqn:E3; [cbn in H|done].
  destruct C as [-> | [-> | [-> | ->]]]; eauto.
Qed.

(** ** Byte ranges *)

(** [bytes_at m p l]: the bytes [l] are stored from [p] on. *)
Definition bytes_at m p (l : list Z) : Prop :=
  ∀ i b, l !! i = Some b → m !! (p + Z.of_nat i) = Some b.

Lemma bytes_at_cons m p b l :
  bytes_at m p (b :: l) ↔ m !! p = Some b ∧ bytes_at m (p + 1) l.
Proof.
  split.
  - intros H. split.
    + specialize (H 0%nat b eq_refl). by rewrite Z.add_0_r in H.
    + intros i c Hi. specialize (H (S i) c Hi). rewrite <- H. f_equal. lia.
  - intros [H0 H] [|i] c Hi; cbn in Hi.
    + injection Hi as <-. by rewrite Z.add_0_r.
    + specialize (H i c Hi). rewrite <- H. f_equal. lia.
Qed.

Lemma bytes_at_app m p l1 l2 :
  bytes_at m p (l1 ++ l2) ↔ bytes_at m p l1 ∧ bytes_at m (p + Z.of_nat (length l1)) l2.
Proof.
  revert p. induction l1 as [|b l1 IH]; intros p; cbn [app length].
  - rewrite Z.add_0_r. split; [split|]; [|done|intros [_ ?]; done].
    intros i c Hi. by rewrite lookup_nil in Hi.
  - rewrite !bytes_at_cons, IH.
    replace (p + 1 + Z.of_nat (length l1)) with (p + Z.of_nat (S (length l1))) by lia.
    tauto.
Qed.

Lemma bytes_at_valid m p l : bytes_at m p l → valid m p (Z.of_nat (length l)).
Proof.
  intros H a Ha. destruct (lookup_lt_is_Some_2 l (Z.to_nat (a - p))) as [b Hb]; [lia|].
  exists b. specialize (H _ _ Hb). by replace a with (p + Z.of_nat (Z.to_nat (a - p))) by lia.
Qed.

Lemma bytes_at_ext m m' p l :
  (∀ a, p ≤ a < p + Z.of_nat (length l) → m' !! a = m !! a) →
  bytes_at m p l → bytes_at m' p l.
Proof.
  intros Hext H i b Hi. rewrite Hext; [by apply H|].
  apply lookup_lt_Some in Hi. lia.
Qed.

(** A range that is there is no longer than the memory. *)
Lemma valid_size m p n : 0 ≤ n → valid m p n → n ≤ Z.of_nat (size m).
Proof.
  intros Hn H. rewrite <- (Z2Nat.id n) by done. apply inj_le.
  set (l := (λ i, p + Z.of_nat i) <$> seq 0 (Z.to_nat n)).
  assert (NoDup l) as Hnd.
  { apply NoDup_fmap_2; [intros i j; lia | apply NoDup_seq]. }
  assert (list_to_set l ⊆ dom m) as Hsub.
  { intros a Ha. apply elem_of_dom. apply elem_of_list_to_set in Ha.
    apply list_elem_of_fmap in Ha as (i & -> & Hi). apply elem_of_seq in Hi. apply H. lia. }
  apply subseteq_size in Hsub. rewrite size_list_to_set, size_dom in Hsub by done.
  unfold l in Hsub. by rewrite length_fmap, length_seq in Hsub.
Qed.

(** ** Deciding the predicates on a concrete memory *)

Definition valid_b m p n : bool := forallb (λ a, bool_decide (is_Some (m !! a))) (seqZ p n).

Lemma valid_b_ok m p n : valid_b m p n = true → valid m p n.
Proof.
  intros H a Ha. unfold valid_b in H. rewrite forallb_forall in H.
  apply (proj1 (bool_decide_eq_true _)), H, list_elem_of_In, elem_of_seqZ. lia.
Qed.

Fixpoint bytes_at_b m p (l : list Z) : bool :=
  match l with
  | [] => true
  | b :: l' => bool_decide (m !! p = Some b) && bytes_at_b m (p + 1) l'
  end.

Lemma bytes_at_b_ok m p l : bytes_at_b m p l = true → bytes_at m p l.
Proof.
  revert p. induction l as [|b l IH]; intros p H.
  - intros i c Hi. by rewrite lookup_nil in Hi.
  - cbn in H. apply andb_true_iff in H as [H1 H2]. apply bytes_at_cons.
    split; [by apply bool_decide_eq_true in H1|auto].
Qed.

Definition wf_mem_b m : bool := forallb (λ '(_, b), (0 <=? b) && (b <? 256)) (map_to_list m).

Lemma wf_mem_b_ok m : wf_mem_b m = true → wf_mem m.
Proof.
  unfold wf_mem_b. rewrite forallb_forall. intros H a b Hb.
  specialize (H (a, b)). cbn in H. rewrite andb_true_iff in H.
  destruct H as [H1 H2]; [by apply list_elem_of_In, elem_of_map_to_list|]. lia.
Qed.

(** The memory that holds the bytes [l] from [p] on and nothing else. *)
Fixpoint mem_of (p : Z) (l : list Z) : mem :=
  match l with
  | [] => ∅
  | b :: l' => <[p := b]> (mem_of (p + 1) l')
  end.

(** [n] bytes of zeros. *)
Definition zeros (p n : Z) : mem := mem_of p (replicate (Z.to_nat n) 0).

Lemma zeros_lookup p n a : zeros p n !! a = if bool_decide (p ≤ a < p + n) then Some 0 else None.
Proof.
  assert (∀ (k : nat) p, mem_of p (replicate k 0) !! a =
    if bool_decide (p ≤ a < p + Z.of_nat k) then Some 0 else None) as H.
  { intros k. induction k as [|k IH]; intros q; cbn [replicate mem_of].
    - by rewrite lookup_empty, bool_decide_eq_false_2 by lia.
    - destruct (decide (a = q)) as [->|Hne].
      + by rewrite lookup_insert_eq, bool_decide_eq_true_2 by lia.
      + rewrite lookup_insert_ne, IH by done. repeat case_bool_decide; lia || done. }
  unfold zeros. rewrite H. repeat case_bool_decide; lia || done.
Qed.

(** Every byte is zero. *)
Definition blank m : Prop := ∀ a b, m !! a = Some b → b = 0.

Lemma zeros_blank p n : blank (zeros p n).
Proof. intros a b. rewrite zeros_lookup. case_bool_decide; congruence. Qed.

Lemma zeros_valid p n : valid (zeros p n) p n.
Proof. intros a Ha. rewrite zeros_lookup, bool_decide_eq_true_2 by lia. by eexists. Qed.

Lemma union_blank m m' : blank m → blank m' → blank (m ∪ m').
Proof. intros H H' a b [?|[_ ?]]%lookup_union_Some_raw; eauto. Qed.

Lemma union_valid m m' p n : valid m p n ∨ valid m' p n → valid (m ∪ m') p n.
Proof.
  intros Hv a Ha. apply lookup_union_is_Some. destruct Hv as [Hv|Hv]; [left|right]; by apply Hv.
Qed.

Lemma load32_blank m p : blank m → valid m p 4 → load32 m p = Ok 0.
Proof.
  intros Hb Hv. assert (∀ i, 0 ≤ i < 4 → load8 m (p + i) = Ok 0) as H.
  { intros i Hi. destruct (Hv (p + i)) as [b Hb']; [lia|]. apply load8_Some. by rewrite Hb', (Hb _ _ Hb'). }
  unfold load32. rewrite <- (Z.add_0_r p) at 1. by rewrite !H by lia.
Qed.
