(* ===== verification/KString.v ===== *)
(** * lib/string.c: memory blocks and C strings

    Every function of the file on the byte memory of [Mem].  [char] is signed
    on the i386 target, so a byte read through a [char] pointer is taken with
    [s8].  A scan has [S (size m)] rounds of fuel: it visits one address more
    each round and faults as soon as it leaves the memory, so it cannot use
    more rounds than there are addresses ([valid_size]). *)

From stdpp Require Import base numbers list gmap.
From Stdlib Require Import ZArith Lia.
From S2P Require Import Prelude Mem.

Implicit Types (m : mem) (p q : Z).

(** The loop of [memset]. *)
Definition memset_bytes m (dst value size : Z) : outcome mem :=
  loop (S (Z.to_nat size)) (λ '(m, dst, size),
    if size >? 0 then
      m ← store8 m dst value;
      Ok (inl (m, dst + 1, size - 1))
    else Ok (inr m)) (m, dst, size).

Definition memset m (dst_ value size : Z) : outcome mem :=
  ASSERT (negb (dst_ =? NULL));;
  memset_bytes m dst_ value size.

Definition memcpy m (dst_ src_ size : Z) : outcome mem :=
  ASSERT (negb (dst_ =? NULL) && negb (src_ =? NULL));;
  loop (S (Z.to_nat size)) (λ '(m, dst, src, size),
    if size >? 0 then
      b ← load8 m src;
      m ← store8 m dst b;
      Ok (inl (m, dst + 1, src + 1, size - 1))
    else Ok (inr m)) (m, dst_, src_, size).

Definition memcmp m (a_ b_ size : Z) : outcome Z :=
  ASSERT (negb (a_ =? NULL) || negb (b_ =? NULL));;
  loop (S (Z.to_nat size)) (λ '(a, b, size),
    if size >? 0 then
      x ← load8 m a;
      y ← load8 m b;
      if negb (s8 x =? s8 y) then Ok (inr (if s8 x >? s8 y then 1 else -1))
      else Ok (inl (a + 1, b + 1, size - 1))
    else Ok (inr 0)) (a_, b_, size).

Definition strcpy m (dst_ src_ : Z) : outcome (Z * mem) :=
  ASSERT (negb (dst_ =? NULL) && negb (src_ =? NULL));;
  let r := dst_ in
  m ← loop (S (size m)) (λ '(m, dst, src),
    b ← load8 m src;
    m ← store8 m dst b;
    if truth b then Ok (inl (m, dst + 1, src + 1)) else Ok (inr m)) (m, dst_, src_);
  Ok (r, m).

Definition strlen m (str : Z) : outcome Z :=
  ASSERT (negb (str =? NULL));;
  p ← loop (S (size m)) (λ p,
    b ← load8 m p;
    if truth b then Ok (inl (p + 1)) else Ok (inr (p + 1))) str;
  Ok (u32 (p - str - 1)).

Definition strcmp m (a b : Z) : outcome Z :=
  ASSERT (negb (a =? NULL) && negb (b =? NULL));;
  '(a, b) ← loop (S (size m)) (λ '(a, b),
    x ← load8 m a;
    if truth x then
      y ← load8 m b;
      if s8 x =? s8 y then Ok (inl (a + 1, b + 1)) else Ok (inr (a, b))
    else Ok (inr (a, b))) (a, b);
  x ← load8 m a;
  y ← load8 m b;
  Ok (if s8 x <? s8 y then -1 else if s8 x >? s8 y then 1 else 0).

Definition strchr m (str ch : Z) : outcome Z :=
  ASSERT (negb (str =? NULL));;
  loop (S (size m)) (λ str,
    b ← load8 m str;
    if truth b then
      if s8 b =? ch then Ok (inr str) else Ok (inl (str + 1))
    else Ok (inr NULL)) str.

Definition strrchr m (str ch : Z) : outcome Z :=
  ASSERT (negb (str =? NULL));;
  loop (S (size m)) (λ '(str, last_char),
    b ← load8 m str;
    if truth b then
      Ok (inl (str + 1, if s8 b =? ch then str else last_char))
    else Ok (inr last_char)) (str, NULL).

Definition strcat m (dst_ src_ : Z) : outcome (Z * mem) :=
  ASSERT (negb (dst_ =? NULL) && negb (src_ =? NULL));;
  str ← loop (S (size m)) (λ str,
    b ← load8 m str;
    if truth b then Ok (inl (str + 1)) else Ok (inr (str + 1))) dst_;
  m ← loop (S (size m)) (λ '(m, dst, src),
    b ← load8 m src;
    m ← store8 m dst b;
    if truth b then Ok (inl (m, dst + 1, src + 1)) else Ok (inr m)) (m, str - 1, src_);
  Ok (dst_, m).

Definition strchrs m (str ch : Z) : outcome Z :=
  ASSERT (negb (str =? NULL));;
  loop (S (size m)) (λ '(p, ch_cnt),
    b ← load8 m p;
    if truth b then
      Ok (inl (p + 1, if s8 b =? ch then u32 (ch_cnt + 1) else ch_cnt))
    else Ok (inr ch_cnt)) (str, 0).

(** ** C strings in memory *)

Definition char_ok (b : Z) : Prop := 0 < b < 256.

(** [cstr m p s]: the string [s], with its terminating zero, is at [p]. *)
Definition cstr m p (s : list Z) : Prop := bytes_at m p (s ++ [0]) ∧ Forall char_ok s.

(** Order of the strings [strcmp] decides: signed bytes, shorter first. *)
Fixpoint cmp_chars (s t : list Z) : Z :=
  match s, t with
  | [], [] => 0
  | [], y :: _ => if 0 <? s8 y then -1 else if 0 >? s8 y then 1 else 0
  | x :: _, [] => if s8 x <? 0 then -1 else if s8 x >? 0 then 1 else 0
  | x :: s', y :: t' =>
      if s8 x =? s8 y then cmp_chars s' t'
      else if s8 x <? s8 y then -1 else if s8 x >? s8 y then 1 else 0
  end.

(** Address of the last [ch] of [s] when [s] starts at [p]; [acc] if none. *)
Fixpoint last_occ (ch p : Z) (s : list Z) (acc : Z) : Z :=
  match s with
  | [] => acc
  | b :: s' => last_occ ch (p + 1) s' (if b =? ch then p else acc)
  end.

Lemma s8_inj x y : 0 ≤ x < 256 → 0 ≤ y < 256 → s8 x = s8 y → x = y.
Proof.
  intros Hx Hy. unfold s8. rewrite !u8_small by lia.
  change (2 ^ 7) with 128; change (2 ^ 8) with 256.
  destruct (Z.ltb_spec x 128), (Z.ltb_spec y 128); lia.
Qed.

Lemma s8_nonzero x : char_ok x → s8 x ≠ 0.
Proof. unfold char_ok. intros Hx H. assert (x = 0) by (by apply s8_inj; [lia..|]). lia. Qed.

Lemma s8_eq_ascii x ch : char_ok x → 0 ≤ ch < 128 → (s8 x =? ch) = (x =? ch).
Proof.
  unfold char_ok. intros Hx Hc. apply eq_true_iff_eq. rewrite !Z.eqb_eq. split; intros H.
  - apply s8_inj; [lia..|]. by rewrite H, s8_small by lia.
  - subst. by apply s8_small.
Qed.

Lemma cstr_nil m p : cstr m p [] ↔ m !! p = Some 0.
Proof.
  unfold cstr. cbn. rewrite bytes_at_cons. split; [tauto|]. intros H.
  split; [split; [done|]|constructor]. intros i b Hi. by rewrite lookup_nil in Hi.
Qed.

Lemma cstr_cons m p b s :
  cstr m p (b :: s) ↔ m !! p = Some b ∧ char_ok b ∧ cstr m (p + 1) s.
Proof. unfold cstr. cbn. rewrite bytes_at_cons, Forall_cons. tauto. Qed.

Lemma cstr_ext m m' p s :
  (∀ a, p ≤ a ≤ p + Z.of_nat (length s) → m' !! a = m !! a) → cstr m p s → cstr m' p s.
Proof.
  intros H [Hb Hs]. split; [|done]. eapply bytes_at_ext; [|done].
  rewrite length_app. cbn. intros a Ha. apply H. lia.
Qed.

Lemma cstr_size m p s : cstr m p s → (length s < size m)%nat.
Proof.
  intros [Hb _]. apply bytes_at_valid, valid_size in Hb; [|lia].
  rewrite length_app in Hb. cbn in Hb. lia.
Qed.

Lemma truth_char b : char_ok b → truth b = true.
Proof. unfold char_ok, truth. intros. destruct (Z.eqb_spec b 0); [lia|done]. Qed.
#[export] Hint Rewrite truth_char using assumption : kernel.

Lemma NULL_ne p : p ≠ NULL → negb (p =? NULL) = true.
Proof. intros. by destruct (Z.eqb_spec p NULL). Qed.

(** ** Blocks of memory *)

Lemma memset_loop m p v n fuel :
  0 ≤ n → (Z.to_nat n < fuel)%nat → valid m p n →
  ∃ m', loop fuel (λ '(m, dst, size),
      if size >? 0 then
        m ← store8 m dst v; Ok (inl (m, dst + 1, size - 1))
      else Ok (inr m)) (m, p, n) = Ok m' ∧
    ∀ a, m' !! a = if bool_decide (p ≤ a < p + n) then Some (u8 v) else m !! a.
Proof.
  revert m p n. induction fuel as [|fuel IH]; intros m p n Hn Hf Hv; [lia|].
  cbn. destruct (Z.gtb_spec n 0).
  - rewrite store8_valid by (apply Hv; lia). cbn.
    destruct (IH (<[p:=u8 v]> m) (p + 1) (n - 1)) as (m' & -> & Hm'); [lia|lia| |].
    { apply valid_insert. eapply valid_sub; [done|lia|lia]. }
    exists m'. split; [done|]. intros a. rewrite Hm', lookup_insert.
    repeat case_bool_decide; try case_decide; done || lia.
  - exists m. split; [done|]. intros a. by rewrite bool_decide_eq_false_2 by lia.
Qed.

Lemma memset_bytes_spec m p v n :
  0 ≤ n → valid m p n →
  ∃ m', memset_bytes m p v n = Ok m' ∧
    ∀ a, m' !! a = if bool_decide (p ≤ a < p + n) then Some (u8 v) else m !! a.
Proof. intros Hn Hv. unfold memset_bytes. apply memset_loop; [done|lia|done]. Qed.

(** [memset] sets exactly the [size] bytes from [dst_]. *)
Lemma memset_spec m p v n :
  p ≠ NULL → 0 ≤ n → valid m p n →
  ∃ m', memset m p v n = Ok m' ∧
    ∀ a, m' !! a = if bool_decide (p ≤ a < p + n) then Some (u8 v) else m !! a.
Proof.
  intros Hp Hn Hv. unfold memset. rewrite (NULL_ne p Hp). cbn [ASSERT mbind outcome_bind].
  by apply memset_bytes_spec.
Qed.

Lemma memcpy_loop m dst src n fuel :
  0 ≤ n → (Z.to_nat n < fuel)%nat → wf_mem m →
  valid m dst n → valid m src n → (dst ≤ src ∨ src + n ≤ dst) →
  ∃ m', loop fuel (λ '(m, dst, src, size),
      if size >? 0 then
        b ← load8 m src; m ← store8 m dst b; Ok (inl (m, dst + 1, src + 1, size - 1))
      else Ok (inr m)) (m, dst, src, n) = Ok m' ∧
    ∀ a, m' !! a = if bool_decide (dst ≤ a < dst + n) then m !! (src + (a - dst)) else m !! a.
Proof.
  revert m dst src n. induction fuel as [|fuel IH]; intros m dst src n Hn Hf Hw Hd Hs Ho; [lia|].
  cbn. destruct (Z.gtb_spec n 0).
  - destruct (Hs src) as [b Hb]; [lia|]. rewrite (load8_Some _ _ _ Hb). cbn.
    rewrite store8_valid by (apply Hd; lia). cbn.
    rewrite (u8_small b) by eauto.
    destruct (IH (<[dst:=b]> m) (dst + 1) (src + 1) (n - 1)) as (m' & -> & Hm'); try lia.
    { intros a c. rewrite lookup_insert. case_decide; [intros [= <-]|]; eauto. }
    { apply valid_insert. eapply valid_sub; [exact Hd|lia|lia]. }
    { apply valid_insert. eapply valid_sub; [exact Hs|lia|lia]. }
    exists m'. split; [done|]. intros a. rewrite Hm', !lookup_insert.
    repeat case_bool_decide; repeat case_decide; subst;
      try lia; try done; try (f_equal; lia).
    replace (src + (a - a)) with src by lia. done.
  - exists m. split; [done|]. intros a. by rewrite bool_decide_eq_false_2 by lia.
Qed.

(** [memcpy] copies the [n] bytes from [src] to [dst] and changes no other
    byte, for every pair of ranges that do not overlap and also when the
    destination starts at or below the source. *)
Theorem memcpy_correct m dst src n :
  dst ≠ NULL → src ≠ NULL → 0 ≤ n → wf_mem m →
  valid m dst n → valid m src n → (dst ≤ src ∨ src + n ≤ dst) →
  ∃ m', memcpy m dst src n = Ok m' ∧
    ∀ a, m' !! a = if bool_decide (dst ≤ a < dst + n) then m !! (src + (a - dst)) else m !! a.
Proof.
  intros Hp Hq Hn Hw Hd Hs Ho. unfold memcpy. rewrite (NULL_ne dst Hp), (NULL_ne src Hq).
  cbn [ASSERT mbind outcome_bind andb]. apply memcpy_loop; done || lia.
Qed.

(** ** Strings *)

Lemma scan_end_loop m p s fuel :
  cstr m p s → (length s < fuel)%nat →
  loop fuel (λ p, b ← load8 m p; if truth b then Ok (inl (p + 1)) else Ok (inr (p + 1))) p
  = Ok (p + Z.of_nat (length s) + 1).
Proof.
  revert p fuel. induction s as [|b s IH]; intros p [|fuel] Hs Hf; cbn in Hf; try lia.
  - apply cstr_nil in Hs. cbn. rewrite (load8_Some _ _ _ Hs). cbn. f_equal. lia.
  - apply cstr_cons in Hs as (Hb & Hc & Hs). cbn. rewrite (load8_Some _ _ _ Hb). cbn.
    rewrite truth_char by done. rewrite IH by (done || lia). f_equal. cbn. lia.
Qed.

Lemma strlen_spec m p s :
  p ≠ NULL → cstr m p s → Z.of_nat (length s) < 2 ^ 32 →
  strlen m p = Ok (Z.of_nat (length s)).
Proof.
  intros Hp Hs Hl. unfold strlen. rewrite (NULL_ne p Hp). cbn [ASSERT mbind outcome_bind].
  rewrite (scan_end_loop m p s) by (done || pose proof (cstr_size _ _ _ Hs); lia).
  cbn. f_equal. rewrite u32_small by lia. lia.
Qed.

Lemma copy_loop m dst src s fuel :
  cstr m src s → (length s < fuel)%nat → valid m dst (Z.of_nat (length s) + 1) →
  (dst + Z.of_nat (length s) < src ∨ src + Z.of_nat (length s) < dst) →
  ∃ m', loop fuel (λ '(m, dst, src),
      b ← load8 m src; m ← store8 m dst b;
      if truth b then Ok (inl (m, dst + 1, src + 1)) else Ok (inr m)) (m, dst, src) = Ok m' ∧
    cstr m' dst s ∧
    ∀ a, a < dst ∨ dst + Z.of_nat (length s) < a → m' !! a = m !! a.
Proof.
  revert m dst src fuel.
  induction s as [|b s IH]; intros m dst src [|fuel] Hs Hf Hd Ho; cbn [length] in *; try lia.
  - apply cstr_nil in Hs. cbn. rewrite (load8_Some _ _ _ Hs). cbn.
    rewrite store8_valid by (apply Hd; lia). cbn. eexists; split; [done|]. split.
    + apply cstr_nil. by rewrite lookup_insert_eq.
    + intros a Ha. apply lookup_insert_ne. lia.
  - apply cstr_cons in Hs as (Hb & Hc & Hs). cbn. rewrite (load8_Some _ _ _ Hb). cbn.
    rewrite store8_valid by (apply Hd; lia). cbn. rewrite truth_char by done.
    destruct (IH (<[dst:=u8 b]> m) (dst + 1) (src + 1) fuel) as (m' & -> & Hcs & Hout); try lia.
    { eapply cstr_ext; [|done]. intros a Ha. apply lookup_insert_ne. lia. }
    { apply valid_insert. eapply valid_sub; [done|lia|lia]. }
    exists m'. split; [done|]. split.
    + apply cstr_cons. split; [|done]. rewrite Hout by lia.
      unfold char_ok in Hc. by rewrite lookup_insert_eq, u8_small by lia.
    + intros a Ha. rewrite Hout by lia. apply lookup_insert_ne. lia.
Qed.

Lemma strcpy_spec m dst src s :
  dst ≠ NULL → src ≠ NULL → cstr m src s → valid m dst (Z.of_nat (length s) + 1) →
  (dst + Z.of_nat (length s) < src ∨ src + Z.of_nat (length s) < dst) →
  ∃ m', strcpy m dst src = Ok (dst, m') ∧ cstr m' dst s ∧
    ∀ a, a < dst ∨ dst + Z.of_nat (length s) < a → m' !! a = m !! a.
Proof.
  intros Hp Hq Hs Hd Ho. unfold strcpy. rewrite (NULL_ne dst Hp), (NULL_ne src Hq).
  cbn [ASSERT mbind outcome_bind andb].
  destruct (copy_loop m dst src s (S (size m))) as (m' & -> & H); [done| |done|done|].
  { pose proof (cstr_size _ _ _ Hs). lia. }
  cbn. eauto.
Qed.

Lemma strcmp_loop m a b s t fuel :
  cstr m a s → cstr m b t → (length s < fuel)%nat →
  ∃ a' b' x y, loop fuel (λ '(a, b),
      x ← load8 m a;
      if truth x then
        y ← load8 m b;
        if s8 x =? s8 y then Ok (inl (a + 1, b + 1)) else Ok (inr (a, b))
      else Ok (inr (a, b))) (a, b) = Ok (a', b') ∧
    load8 m a' = Ok x ∧ load8 m b' = Ok y ∧
    cmp_chars s t = if s8 x <? s8 y then -1 else if s8 x >? s8 y then 1 else 0.
Proof.
  revert a b t fuel. induction s as [|x s IH]; intros a b t [|fuel] Ha Hb Hf; cbn in Hf; try lia.
  - apply cstr_nil, load8_Some in Ha. cbn. rewrite Ha. cbn.
    destruct t as [|y t].
    + apply cstr_nil, load8_Some in Hb. by do 4 eexists.
    + apply cstr_cons in Hb as (Hb & _ & _). apply load8_Some in Hb. by do 4 eexists.
  - apply cstr_cons in Ha as (Ha & Hx & Hs). apply load8_Some in Ha.
    cbn. rewrite Ha. cbn. rewrite truth_char by done. destruct t as [|y t].
    + apply cstr_nil, load8_Some in Hb. rewrite Hb. cbn.
      destruct (Z.eqb_spec (s8 x) (s8 0)) as [E|E].
      { exfalso. by apply (s8_nonzero x). }
      by do 4 eexists.
    + apply cstr_cons in Hb as (Hb & Hy & Ht). apply load8_Some in Hb. rewrite Hb. cbn.
      destruct (Z.eqb_spec (s8 x) (s8 y)).
      * apply (IH (a + 1) (b + 1) t fuel); done || lia.
      * by do 4 eexists.
Qed.

Lemma strcmp_spec m a b s t :
  a ≠ NULL → b ≠ NULL → cstr m a s → cstr m b t → strcmp m a b = Ok (cmp_chars s t).
Proof.
  intros Ha Hb Hs Ht. unfold strcmp. rewrite (NULL_ne a Ha), (NULL_ne b Hb).
  cbn [ASSERT mbind outcome_bind andb].
  destruct (strcmp_loop m a b s t (S (size m))) as (a' & b' & x & y & -> & Hx & Hy & ->);
    [done|done| |].
  { pose proof (cstr_size _ _ _ Hs). lia. }
  cbn. rewrite Hx. cbn. by rewrite Hy.
Qed.

(** The comparison is zero on equal strings only. *)
Lemma cmp_chars_eq s t : Forall char_ok s → Forall char_ok t → cmp_chars s t = 0 ↔ s = t.
Proof.
  intros Hs. revert t. induction Hs as [|x s Hx Hs IH]; intros [|y t] Ht; cbn; try done.
  - apply Forall_cons in Ht as [Hy _]. pose proof (s8_nonzero y Hy).
    split; [|done]. repeat zcase; lia.
  - pose proof (s8_nonzero x Hx). split; [|done]. repeat zcase; lia.
  - apply Forall_cons in Ht as [Hy Ht]. destruct (Z.eqb_spec (s8 x) (s8 y)) as [E|E].
    + rewrite IH by done. unfold char_ok in *. apply s8_inj in E; [|lia..].
      subst. split; [by intros ->|by intros [= ->]].
    + split; [|intros [= -> ->]; done]. repeat zcase; lia.
Qed.

Lemma cmp_chars_sign s t : cmp_chars s t = -1 ∨ cmp_chars s t = 0 ∨ cmp_chars s t = 1.
Proof.
  revert t. induction s as [|x s IH]; intros [|y t]; cbn; try tauto;
    repeat case_match; try tauto; apply IH.
Qed.

Lemma strrchr_loop m p s ch acc fuel :
  0 ≤ ch < 128 → cstr m p s → (length s < fuel)%nat →
  loop fuel (λ '(str, last_char),
    b ← load8 m str;
    if truth b then Ok (inl (str + 1, if s8 b =? ch then str else last_char))
    else Ok (inr last_char)) (p, acc) = Ok (last_occ ch p s acc).
Proof.
  intros Hch. revert p acc fuel.
  induction s as [|b s IH]; intros p acc [|fuel] Hs Hf; cbn [length] in Hf; try lia.
  - apply cstr_nil in Hs. cbn. by rewrite (load8_Some _ _ _ Hs).
  - apply cstr_cons in Hs as (Hb & Hc & Hs). cbn. rewrite (load8_Some _ _ _ Hb). cbn.
    rewrite truth_char, s8_eq_ascii by done. apply IH; done || lia.
Qed.

Lemma strrchr_spec m p s ch :
  p ≠ NULL → 0 ≤ ch < 128 → cstr m p s → strrchr m p ch = Ok (last_occ ch p s NULL).
Proof.
  intros Hp Hch Hs. unfold strrchr. rewrite (NULL_ne p Hp). cbn [ASSERT mbind outcome_bind].
  apply strrchr_loop; [done|done|]. pose proof (cstr_size _ _ _ Hs). lia.
Qed.

(** [last_occ] is the last occurrence. *)
Lemma last_occ_app ch p s t acc :
  last_occ ch p (s ++ t) acc = last_occ ch (p + Z.of_nat (length s)) t (last_occ ch p s acc).
Proof.
  revert p acc. induction s as [|b s IH]; intros p acc; cbn [app last_occ length].
  - by rewrite Z.add_0_r.
  - rewrite IH. f_equal. lia.
Qed.

Lemma last_occ_notin ch p s acc : ch ∉ s → last_occ ch p s acc = acc.
Proof.
  revert p acc. induction s as [|b s IH]; intros p acc H; cbn; [done|].
  rewrite not_elem_of_cons in H. destruct (Z.eqb_spec b ch); [naive_solver|].
  apply IH. naive_solver.
Qed.

Lemma last_occ_last ch p s t acc :
  ch ∉ t → last_occ ch p (s ++ ch :: t) acc = p + Z.of_nat (length s).
Proof. intros H. rewrite last_occ_app. cbn. by rewrite Z.eqb_refl, last_occ_notin. Qed.

(** [strcat] leaves the concatenation of the two strings at [dst_], returns
    [dst_] and writes nowhere else, when there is room behind [dst_] and the
    source is not in it. *)
Theorem strcat_correct m dst src s t :
  dst ≠ NULL → src ≠ NULL → cstr m dst s → cstr m src t →
  valid m dst (Z.of_nat (length s) + Z.of_nat (length t) + 1) →
  (dst + Z.of_nat (length s) + Z.of_nat (length t) < src ∨
   src + Z.of_nat (length t) < dst) →
  ∃ m', strcat m dst src = Ok (dst, m') ∧ cstr m' dst (s ++ t) ∧
    ∀ a, a < dst ∨ dst + Z.of_nat (length (s ++ t)) < a → m' !! a = m !! a.
Proof.
  intros Hp Hq Hs Ht Hv Ho. unfold strcat. rewrite (NULL_ne dst Hp), (NULL_ne src Hq).
  cbn [ASSERT mbind outcome_bind andb].
  rewrite (scan_end_loop m dst s) by (done || pose proof (cstr_size _ _ _ Hs); lia).
  cbn [mbind outcome_bind].
  replace (dst + Z.of_nat (length s) + 1 - 1) with (dst + Z.of_nat (length s)) by lia.
  destruct (copy_loop m (dst + Z.of_nat (length s)) src t (S (size m)))
    as (m' & -> & Hc & Hout); [done| | |lia|].
  { pose proof (cstr_size _ _ _ Ht). lia. }
  { eapply valid_sub; [done|lia|lia]. }
  cbn. eexists; split; [done|]. split.
  - destruct Hs as [Hs Hs']. destruct Hc as [Hc Hc']. split; [|by apply Forall_app].
    rewrite <- app_assoc. apply bytes_at_app. split; [|done].
    apply bytes_at_app in Hs as [Hs _]. eapply bytes_at_ext; [|done]. intros. apply Hout. lia.
  - rewrite length_app. intros a Ha. apply Hout. lia.
Qed.

Definition count_char (ch : Z) (s : list Z) : nat := length (filter (λ b, b = ch) s).

Lemma strchrs_loop m p s ch k fuel :
  0 ≤ ch < 128 → cstr m p s → (length s < fuel)%nat →
  0 ≤ k → k + Z.of_nat (length s) < 2 ^ 32 →
  loop fuel (λ '(p, ch_cnt),
    b ← load8 m p;
    if truth b then Ok (inl (p + 1, if s8 b =? ch then u32 (ch_cnt + 1) else ch_cnt))
    else Ok (inr ch_cnt)) (p, k) = Ok (k + Z.of_nat (count_char ch s)).
Proof.
  intros Hch. change (2 ^ 32) with 4294967296. revert p k fuel. unfold count_char.
  induction s as [|b s IH]; intros p k [|fuel] Hs Hf Hk Hl; cbn [length] in *; try lia.
  - apply cstr_nil in Hs. cbn. rewrite (load8_Some _ _ _ Hs). cbn. f_equal. lia.
  - apply cstr_cons in Hs as (Hb & Hc & Hs). cbn [loop]. rewrite (load8_Some _ _ _ Hb).
    cbn [mbind outcome_bind]. rewrite truth_char, s8_eq_ascii by done.
    rewrite filter_cons. destruct (Z.eqb_spec b ch) as [E|E].
    + rewrite decide_True by done. rewrite u32_small by lia.
      rewrite IH by (done || lia). f_equal. cbn [length]. lia.
    + rewrite decide_False by done. apply IH; done || lia.
Qed.

Lemma strchrs_spec m p s ch :
  p ≠ NULL → 0 ≤ ch < 128 → cstr m p s → Z.of_nat (length s) < 2 ^ 32 →
  strchrs m p ch = Ok (Z.of_nat (count_char ch s)).
Proof.
  intros Hp Hch Hs Hl. unfold strchrs. rewrite (NULL_ne p Hp). cbn [ASSERT mbind outcome_bind].
  rewrite (strchrs_loop m p s) by (done || pose proof (cstr_size _ _ _ Hs); lia). done.
Qed.

Lemma strchr_high_loop m p s ch fuel :
  128 ≤ ch < 256 → cstr m p s → (length s < fuel)%nat →
  loop fuel (λ str,
    b ← load8 m str;
    if truth b then if s8 b =? ch then Ok (inr str) else Ok (inl (str + 1))
    else Ok (inr NULL)) p = Ok NULL.
Proof.
  intros Hch. revert p fuel.
  induction s as [|b s IH]; intros p [|fuel] Hs Hf; cbn [length] in Hf; try lia.
  - apply cstr_nil in Hs. cbn. by rewrite (load8_Some _ _ _ Hs).
  - apply cstr_cons in Hs as (Hb & Hc & Hs). cbn. rewrite (load8_Some _ _ _ Hb). cbn.
    rewrite truth_char by done.
    assert (s8 b < 128).
    { unfold s8. pose proof (u8_range b). change (2 ^ 7) with 128; change (2 ^ 8) with 256.
      destruct (Z.ltb_spec (u8 b) 128); lia. }
    destruct (Z.eqb_spec (s8 b) ch); [lia|]. apply IH; done || lia.
Qed.

(** ** Deciding [cstr] *)

Definition cstr_b m p (s : list Z) : bool :=
  bytes_at_b m p (s ++ [0]) && forallb (λ b, (0 <? b) && (b <? 256)) s.

Lemma cstr_b_ok m p s : cstr_b m p s = true → cstr m p s.
Proof.
  unfold cstr_b. rewrite andb_true_iff. intros [H1 H2]. split; [by apply bytes_at_b_ok|].
  apply Forall_forall. intros b Hb. rewrite forallb_forall in H2.
  specialize (H2 b (proj1 (list_elem_of_In _ _) Hb)). unfold char_ok. lia.
Qed.

(** ** Properties *)

Definition demo_mem : mem := mem_of 100 [47; 97; 0; 0; 0; 0; 47; 98; 0].

Lemma memcpy_correct_witness :
  ∃ m', memcpy demo_mem 101 106 3 = Ok m' ∧
    ∀ a, m' !! a = if bool_decide (101 ≤ a < 101 + 3) then demo_mem !! (106 + (a - 101))
                   else demo_mem !! a.
Proof.
  apply (memcpy_correct demo_mem 101 106 3); [done|done|lia| | | |lia].
  - apply wf_mem_b_ok. vm_compute. reflexivity.
  - apply valid_b_ok. vm_compute. reflexivity.
  - apply valid_b_ok. vm_compute. reflexivity.
Defined.

(** [strcmp] returns -1, 0 or 1 on any two strings of the memory, and 0
    exactly when they are equal. *)
Theorem strcmp_correct m a b s t :
  a ≠ NULL → b ≠ NULL → cstr m a s → cstr m b t →
  ∃ r, strcmp m a b = Ok r ∧ (r = -1 ∨ r = 0 ∨ r = 1) ∧ (r = 0 ↔ s = t).
Proof.
  intros Ha Hb Hs Ht. exists (cmp_chars s t). split; [by apply strcmp_spec|]. split.
  - apply cmp_chars_sign.
  - apply cmp_chars_eq; [apply Hs|apply Ht].
Qed.

Lemma strcmp_correct_witness :
  ∃ r, strcmp demo_mem 100 106 = Ok r ∧ (r = -1 ∨ r = 0 ∨ r = 1) ∧ (r = 0 ↔ [47; 97] = [47; 98]).
Proof.
  apply (strcmp_correct demo_mem 100 106); [done|done| |];
    apply cstr_b_ok; vm_compute; reflexivity.
Defined.

Lemma strcat_correct_witness :
  ∃ m', strcat demo_mem 100 106 = Ok (100, m') ∧ cstr m' 100 ([47; 97] ++ [47; 98]) ∧
    ∀ a, a < 100 ∨ 100 + 4 < a → m' !! a = demo_mem !! a.
Proof.
  apply (strcat_correct demo_mem 100 106 [47; 97] [47; 98]); [done|done|..|cbn; lia].
  - apply cstr_b_ok. vm_compute. reflexivity.
  - apply cstr_b_ok. vm_compute. reflexivity.
  - apply valid_b_ok. vm_compute. reflexivity.
Defined.

(** [strrchr] returns the address of the last occurrence of an ASCII
    character, and [NULL] when the string has none. *)
Theorem strrchr_correct m p s ch :
  p ≠ NULL → 0 ≤ ch < 128 → cstr m p s →
  ((ch ∉ s) ∧ strrchr m p ch = Ok NULL) ∨
  (∃ s1 s2, s = s1 ++ ch :: s2 ∧ (ch ∉ s2) ∧ strrchr m p ch = Ok (p + Z.of_nat (length s1))).
Proof.
  intros Hp Hch Hs. rewrite (strrchr_spec m p s ch Hp Hch Hs).
  destruct (decide (ch ∈ s)) as [Hin|Hin].
  - right. destruct (list_elem_of_split_r _ _ Hin) as (s1 & s2 & -> & Hn).
    exists s1, s2. split; [done|]. split; [done|]. by rewrite last_occ_last.
  - left. by rewrite last_occ_notin.
Qed.

Lemma strrchr_correct_witness :
  ((47 ∉ [47; 97]) ∧ strrchr demo_mem 100 47 = Ok NULL) ∨
  (∃ s1 s2, [47; 97] = s1 ++ 47 :: s2 ∧ (47 ∉ s2) ∧
     strrchr demo_mem 100 47 = Ok (100 + Z.of_nat (length s1))).
Proof.
  apply (strrchr_correct demo_mem 100 [47; 97] 47); [done|lia|].
  apply cstr_b_ok. vm_compute. reflexivity.
Defined.

(** [strchr] never finds a character above 127: it compares a signed [char]
    with a [uint8_t], so it answers [NULL] although the string contains it. *)
Theorem strchr_high_never_found m p s ch :
  p ≠ NULL → 128 ≤ ch < 256 → cstr m p s → strchr m p ch = Ok NULL.
Proof.
  intros Hp Hch Hs. unfold strchr. rewrite (NULL_ne p Hp). ocbn.
  apply (strchr_high_loop m p s ch); [done|done|]. apply cstr_size in Hs. lia.
Qed.

Lemma strchr_high_never_found_witness :
  strchr (mem_of 100 [200; 0]) 100 200 = Ok NULL.
Proof.
  apply (strchr_high_never_found _ 100 [200] 200); [done|lia|].
  apply cstr_b_ok. vm_compute. reflexivity.
Defined.
