(* ===== verification/Bitmap.v ===== *)
(** * lib/kernel/bitmap.c: bitmaps

    [bits] is the byte array the field of that name points to: the bitmap
    proper is its first [btmp_bytes_len] bytes, what follows is the memory
    behind it, which [bitmap_scan] also looks at.  An index past the array is
    a [Fault]. *)

From stdpp Require Import base numbers list gmap.
From Stdlib Require Import ZArith Lia.
From S2P Require Import Prelude.

Record bitmap := Bitmap {
  btmp_bytes_len : Z;
  bits : list Z
}.

Definition BITMAP_MASK : Z := 1.

(** [btmp->bits[i]]. *)
Definition bits_at (btmp : bitmap) (i : Z) : outcome Z :=
  if i <? 0 then Fault else from_option_fault (bits btmp !! Z.to_nat i).

(** [memset(btmp->bits, 0, btmp->btmp_bytes_len)]. *)
Definition bitmap_init (btmp : bitmap) : outcome bitmap :=
  if Z.of_nat (length (bits btmp)) <? btmp_bytes_len btmp then Fault
  else Ok (Bitmap (btmp_bytes_len btmp)
             (replicate (Z.to_nat (btmp_bytes_len btmp)) 0 ++
              drop (Z.to_nat (btmp_bytes_len btmp)) (bits btmp))).

Definition bitmap_scan_test (btmp : bitmap) (bit_idx : Z) : outcome bool :=
  let byte_idx := bit_idx / 8 in
  let bit_odd := bit_idx mod 8 in
  b ← bits_at btmp byte_idx;
  Ok (truth (Z.land b (Z.shiftl BITMAP_MASK bit_odd))).

(** The three loops of [bitmap_scan], in order. *)
Definition scan_bytes (btmp : bitmap) : outcome Z :=
  loop (S (length (bits btmp))) (λ idx_byte,
    b ← bits_at btmp idx_byte;
    if (255 =? b) && (idx_byte <? btmp_bytes_len btmp) then Ok (inl (idx_byte + 1))
    else Ok (inr idx_byte)) 0.

Definition scan_bits (btmp : bitmap) (idx_byte : Z) : outcome Z :=
  loop 9 (λ idx_bit,
    b ← bits_at btmp idx_byte;
    if truth (Z.land (u8 (Z.shiftl BITMAP_MASK idx_bit)) b) then Ok (inl (idx_bit + 1))
    else Ok (inr idx_bit)) 0.

Definition scan_run (btmp : bitmap) (cnt bit_left next_bit count : Z) : outcome Z :=
  loop (S (Z.to_nat bit_left)) (λ '(bit_left, next_bit, count),
    if bit_left >? 0 then
      t ← bitmap_scan_test btmp next_bit;
      let count := if negb t then u32 (count + 1) else 0 in
      if count =? cnt then Ok (inr (s32 (u32 (next_bit - cnt + 1))))
      else Ok (inl (bit_left - 1, u32 (next_bit + 1), count))
    else Ok (inr (-1))) (bit_left, next_bit, count).

Definition bitmap_scan (btmp : bitmap) (cnt : Z) : outcome Z :=
  idx_byte ← scan_bytes btmp;
  ASSERT (idx_byte <? btmp_bytes_len btmp);;
  if idx_byte =? btmp_bytes_len btmp then Ok (-1)
  else
    idx_bit ← scan_bits btmp idx_byte;
    let bit_idx_start := s32 (idx_byte * 8 + idx_bit) in
    if cnt =? 1 then Ok bit_idx_start
    else
      let bit_left := u32 (btmp_bytes_len btmp * 8 - bit_idx_start) in
      let next_bit := u32 (bit_idx_start + 1) in
      scan_run btmp cnt bit_left next_bit 1.

Definition bitmap_set (btmp : bitmap) (bit_idx value : Z) : outcome bitmap :=
  ASSERT ((value =? 0) || (value =? 1));;
  let byte_idx := bit_idx / 8 in
  let bit_odd := bit_idx mod 8 in
  b ← bits_at btmp byte_idx;
  let b' := if truth value then u8 (Z.lor b (Z.shiftl BITMAP_MASK bit_odd))
            else u8 (Z.land b (Z.lnot (Z.shiftl BITMAP_MASK bit_odd))) in
  Ok (Bitmap (btmp_bytes_len btmp) (<[Z.to_nat byte_idx := b']> (bits btmp))).

(** ** The bits of a bitmap *)

(** Bit [i] of the byte array, [true] past its end. *)
Definition bitv (l : list Z) (i : Z) : bool :=
  match l !! Z.to_nat (i / 8) with
  | Some b => Z.testbit b (i mod 8)
  | None => true
  end.

Definition bit (btmp : bitmap) (i : Z) : bool := bitv (bits btmp) i.
Definition nbits (btmp : bitmap) : Z := btmp_bytes_len btmp * 8.

(** A bitmap as the kernel builds them: bytes, and a length in bits that an
    [int] can hold. *)
Record wf_bitmap (btmp : bitmap) : Prop := {
  wf_bytes : Forall (λ b, 0 ≤ b < 256) (bits btmp);
  wf_len : 0 ≤ btmp_bytes_len btmp ≤ Z.of_nat (length (bits btmp));
  wf_int : nbits btmp < 2 ^ 31 - 16
}.

(** [cnt] free bits from [s] on. *)
Definition free_run (btmp : bitmap) (s cnt : Z) : Prop :=
  ∀ k, s ≤ k < s + cnt → bit btmp k = false.

(** [r] is the first free bit. *)
Definition first_free (btmp : bitmap) (r : Z) : Prop :=
  0 ≤ r < nbits btmp ∧ bit btmp r = false ∧ ∀ k, 0 ≤ k < r → bit btmp k = true.

Implicit Types (btmp : bitmap) (b i j k s r cnt : Z).

Lemma wf_lookup btmp n b : wf_bitmap btmp → bits btmp !! n = Some b → 0 ≤ b < 256.
Proof. intros H Hb. exact (Forall_lookup_1 _ _ _ _ (wf_bytes _ H) Hb). Qed.

Lemma bits_at_lookup btmp i b :
  0 ≤ i → bits btmp !! Z.to_nat i = Some b → bits_at btmp i = Ok b.
Proof. unfold bits_at. intros ? ->. by destruct (Z.ltb_spec i 0); [lia|]. Qed.

Lemma bits_at_in btmp i :
  0 ≤ i < Z.of_nat (length (bits btmp)) →
  ∃ b, bits btmp !! Z.to_nat i = Some b ∧ bits_at btmp i = Ok b.
Proof.
  intros Hi. destruct (lookup_lt_is_Some_2 (bits btmp) (Z.to_nat i)) as [b Hb]; [lia|].
  exists b. split; [done|]. by apply bits_at_lookup; [lia|].
Qed.

Lemma bit_lookup btmp q k b :
  0 ≤ q → 0 ≤ k < 8 → bits btmp !! Z.to_nat q = Some b →
  bit btmp (q * 8 + k) = Z.testbit b k.
Proof.
  intros Hq Hk Hb. unfold bit, bitv.
  replace ((q * 8 + k) / 8) with q by zdlia.
  replace ((q * 8 + k) mod 8) with k by zdlia. by rewrite Hb.
Qed.

Lemma shiftl_mask k : 0 ≤ k → Z.shiftl BITMAP_MASK k = 2 ^ k.
Proof. intros. unfold BITMAP_MASK. rewrite Z.shiftl_mul_pow2 by done. lia. Qed.

Lemma bitmap_scan_test_bit btmp i :
  0 ≤ i < Z.of_nat (length (bits btmp)) * 8 → bitmap_scan_test btmp i = Ok (bit btmp i).
Proof.
  intros Hi. unfold bitmap_scan_test.
  destruct (bits_at_in btmp (i / 8)) as (b & Hb & ->); [zdlia|]. cbn.
  rewrite shiftl_mask, truth_land_pow2 by zdlia. f_equal.
  rewrite <- (bit_lookup btmp (i / 8) (i mod 8) b) by (done || zdlia).
  f_equal. zdlia.
Qed.

(** A byte is [0xff] exactly when its eight bits are set. *)
Lemma byte_full b : 0 ≤ b < 256 → b = 255 ↔ ∀ k, 0 ≤ k < 8 → Z.testbit b k = true.
Proof.
  intros Hb. split.
  - intros -> k Hk. change 255 with (Z.ones 8). apply Z.ones_spec_low. lia.
  - intros H. apply Z.bits_inj'. intros k Hk. change 255 with (Z.ones 8).
    destruct (Z.lt_ge_cases k 8).
    + by rewrite H, Z.ones_spec_low by lia.
    + rewrite Z.ones_spec_high by lia. apply testbit_above with (n := 8); lia.
Qed.

(** ** Searching for one free bit *)

Lemma scan_bytes_loop btmp i fuel :
  wf_bitmap btmp → 0 ≤ i → (∀ k, 0 ≤ k < i * 8 → bit btmp k = true) →
  i < Z.of_nat (length (bits btmp)) →
  i ≤ btmp_bytes_len btmp → (Z.to_nat (btmp_bytes_len btmp - i) < fuel)%nat →
  (∃ k, 0 ≤ k < nbits btmp ∧ bit btmp k = false) ∨
    btmp_bytes_len btmp < Z.of_nat (length (bits btmp)) →
  ∃ j, loop fuel (λ idx_byte,
      b ← bits_at btmp idx_byte;
      if (255 =? b) && (idx_byte <? btmp_bytes_len btmp) then Ok (inl (idx_byte + 1))
      else Ok (inr idx_byte)) i = Ok j ∧
    0 ≤ j ≤ btmp_bytes_len btmp ∧ (∀ k, 0 ≤ k < j * 8 → bit btmp k = true) ∧
    (j < btmp_bytes_len btmp → ∃ k, 0 ≤ k < 8 ∧ bit btmp (j * 8 + k) = false).
Proof.
  intros Hwf. revert i. induction fuel as [|fuel IH]; intros i Hi Hset Hlt Hle Hf Hex; [lia|].
  cbn. destruct (bits_at_in btmp i) as (b & Hb & ->); [lia|]. cbn.
  assert (0 ≤ b < 256) as Hbr by (by eapply wf_lookup).
  destruct (Z.eqb_spec 255 b) as [<-|Hne]; cbn.
  - assert (∀ k, 0 ≤ k < (i + 1) * 8 → bit btmp k = true) as Hset'.
    { intros k Hk. destruct (Z.lt_ge_cases k (i * 8)); [apply Hset; lia|].
      replace k with (i * 8 + (k - i * 8)) by lia.
      rewrite (bit_lookup _ _ _ 255) by (done || lia). apply (proj1 (byte_full 255 ltac:(lia)) eq_refl). lia. }
    destruct (Z.ltb_spec i (btmp_bytes_len btmp)).
    + apply IH; try lia; [done| |done].
      destruct Hex as [(k & Hk & Hkf)|?]; [|lia].
      destruct (Z.lt_ge_cases k ((i + 1) * 8)) as [Hlk|].
      { rewrite Hset' in Hkf by lia. done. }
      pose proof (wf_len _ Hwf). unfold nbits in Hk. lia.
    + exists i. split; [done|]. split; [lia|]. split; [done|intros; lia].
  - exists i. split; [done|]. split; [lia|]. split; [done|]. intros _.
    destruct (decide (Exists (λ k, Z.testbit b k = false) (seqZ 0 8))) as [He|He].
    + apply Exists_exists in He as (k & Hk & Hkf). apply elem_of_seqZ in Hk.
      exists k. split; [lia|]. by rewrite (bit_lookup _ _ _ b) by (done || lia).
    + exfalso. apply Hne. symmetry. apply byte_full; [done|]. intros k Hk.
      destruct (Z.testbit b k) eqn:E; [done|]. exfalso. apply He, Exists_exists.
      exists k. split; [apply elem_of_seqZ; lia|done].
Qed.

Lemma scan_bits_loop btmp q b k fuel :
  0 ≤ q → bits btmp !! Z.to_nat q = Some b → 0 ≤ b < 256 →
  (∃ k', k ≤ k' < 8 ∧ Z.testbit b k' = false) → 0 ≤ k →
  (∀ k', 0 ≤ k' < k → Z.testbit b k' = true) → (Z.to_nat (8 - k) < fuel)%nat →
  ∃ j, loop fuel (λ idx_bit,
      b ← bits_at btmp q;
      if truth (Z.land (u8 (Z.shiftl BITMAP_MASK idx_bit)) b) then Ok (inl (idx_bit + 1))
      else Ok (inr idx_bit)) k = Ok j ∧
    0 ≤ j < 8 ∧ Z.testbit b j = false ∧ ∀ k', 0 ≤ k' < j → Z.testbit b k' = true.
Proof.
  intros Hq Hb Hbr. revert k. induction fuel as [|fuel IH]; intros k Hex Hk Hset Hf; [lia|].
  destruct Hex as (k' & Hk' & Hkf).
  match goal with |- context [loop _ ?f _] =>
    assert (f k = if Z.testbit b k then Ok (inl (k + 1)) else Ok (inr k)) as Hbody end.
  { rewrite (bits_at_lookup _ _ _ Hq Hb). cbn.
    rewrite shiftl_mask, u8_small, Z.land_comm, truth_land_pow2; try lia; [done|].
    split; [lia|]. change 256 with (2 ^ 8). apply Z.pow_lt_mono_r; lia. }
  cbn [loop]. rewrite Hbody.
  destruct (Z.testbit b k) eqn:E.
  - apply IH; [|lia| |lia].
    + exists k'. split; [|done]. destruct (Z.eq_dec k k'); [congruence|lia].
    + intros k0 Hk0. destruct (Z.eq_dec k0 k) as [->|]; [done|]. apply Hset. lia.
  - exists k. split; [done|]. split; [lia|done].
Qed.

(** The two loops that look for the first free bit find it. *)
Lemma scan_first_free btmp :
  wf_bitmap btmp → (∃ k, 0 ≤ k < nbits btmp ∧ bit btmp k = false) →
  ∃ q j, scan_bytes btmp = Ok q ∧ q < btmp_bytes_len btmp ∧ scan_bits btmp q = Ok j ∧
    0 ≤ q ∧ 0 ≤ j < 8 ∧ first_free btmp (q * 8 + j).
Proof.
  intros Hwf Hex. pose proof (wf_len _ Hwf) as Hlen.
  assert (0 < btmp_bytes_len btmp).
  { destruct Hex as (k & Hk & _). unfold nbits in Hk. lia. }
  destruct (scan_bytes_loop btmp 0 (S (length (bits btmp)))) as (q & Hscan & Hq & Hset & Hfree);
    [done|lia|intros; lia|lia|lia|lia|by left|].
  assert (q < btmp_bytes_len btmp) as Hlt.
  { destruct Hex as (k & Hk & Hkf). unfold nbits in Hk.
    destruct (Z.lt_ge_cases q (btmp_bytes_len btmp)); [done|].
    rewrite Hset in Hkf by lia. done. }
  destruct (bits_at_in btmp q) as (b & Hb & _); [lia|].
  assert (0 ≤ b < 256) as Hbr by (by eapply wf_lookup).
  destruct (Hfree Hlt) as (k & Hk & Hkf).
  rewrite (bit_lookup _ _ _ b) in Hkf by (done || lia).
  destruct (scan_bits_loop btmp q b 0 9) as (j & Hj & Hjr & Hjf & Hjset);
    [lia|done|done|exists k; split; [lia|done]|lia|intros; lia|lia|].
  exists q, j. split; [exact Hscan|]. split; [done|]. split; [exact Hj|].
  split; [lia|]. split; [done|]. split; [unfold nbits; lia|]. split.
  - by rewrite (bit_lookup _ _ _ b) by (done || lia).
  - intros k' Hk'. destruct (Z.lt_ge_cases k' (q * 8)); [apply Hset; lia|].
    replace k' with (q * 8 + (k' - q * 8)) by lia.
    rewrite (bit_lookup _ _ _ b) by (done || lia). apply Hjset. lia.
Qed.

Lemma bitmap_scan_one btmp :
  wf_bitmap btmp → (∃ k, 0 ≤ k < nbits btmp ∧ bit btmp k = false) →
  ∃ r, bitmap_scan btmp 1 = Ok r ∧ first_free btmp r.
Proof.
  intros Hwf Hex. destruct (scan_first_free btmp Hwf Hex)
    as (q & j & Hq & Hlt & Hj & Hq0 & Hj0 & Hff).
  exists (q * 8 + j). split; [|done]. unfold bitmap_scan. rewrite Hq. ocbn.
  destruct (Z.ltb_spec q (btmp_bytes_len btmp)); [|lia]. ocbn.
  destruct (Z.eqb_spec q (btmp_bytes_len btmp)); [lia|]. rewrite Hj. ocbn.
  destruct Hff as [Hr _]. pose proof (wf_int _ Hwf). by rewrite s32_small by lia.
Qed.

(** ** Searching for a run of free bits *)

(** What [scan_run] keeps true: [count] free bits end just before [next_bit],
    no run of [cnt] bits does, and the run cannot be extended to the left. *)
Definition run_inv btmp cnt '((bit_left, next_bit, count) : Z * Z * Z) : Prop :=
  0 ≤ bit_left ∧ bit_left + next_bit = nbits btmp + 1 ∧
  0 ≤ count < cnt ∧ count ≤ next_bit ∧
  (∀ k, next_bit - count ≤ k < next_bit → bit btmp k = false) ∧
  (next_bit - count = 0 ∨ bit btmp (next_bit - count - 1) = true) ∧
  (∀ s, 0 ≤ s → s + cnt ≤ next_bit → ¬ free_run btmp s cnt).

(** The answer of a search for [cnt] bits among the first [n] bits. *)
Definition run_answer btmp cnt n r : Prop :=
  (r = -1 ∧ ∀ s, 0 ≤ s → s + cnt ≤ n → ¬ free_run btmp s cnt) ∨
  (0 ≤ r ∧ r + cnt ≤ n ∧ free_run btmp r cnt ∧
   ∀ s, 0 ≤ s < r → ¬ free_run btmp s cnt).

(** One more free bit. *)
Lemma run_inv_free btmp cnt left nb c :
  run_inv btmp cnt (left, nb, c) → 0 < left → bit btmp nb = false → c + 1 < cnt →
  run_inv btmp cnt (left - 1, nb + 1, c + 1).
Proof.
  intros (? & ? & ? & ? & Hrun & Hmax & Hno) Hl Hb Hc.
  split_and!; try lia.
  - intros k Hk. destruct (Z.eq_dec k nb) as [->|]; [done|]. apply Hrun. lia.
  - destruct Hmax as [?|Hmax]; [left; lia|right]. by replace (nb + 1 - (c + 1) - 1) with (nb - c - 1) by lia.
  - intros s Hs Hle Hfree. destruct (Z.eq_dec (s + cnt) (nb + 1)).
    + destruct Hmax as [?|Hmax]; [lia|].
      rewrite Hfree in Hmax by lia. done.
    + apply (Hno s); [done|lia|done].
Qed.

(** A used bit. *)
Lemma run_inv_used btmp cnt left nb c :
  run_inv btmp cnt (left, nb, c) → 0 < left → bit btmp nb = true →
  run_inv btmp cnt (left - 1, nb + 1, 0).
Proof.
  intros (? & ? & ? & ? & Hrun & Hmax & Hno) Hl Hb.
  split_and!; try lia.
  - right. by replace (nb + 1 - 0 - 1) with nb by lia.
  - intros s Hs Hle Hfree. destruct (Z.eq_dec (s + cnt) (nb + 1)).
    + rewrite Hfree in Hb by lia. done.
    + apply (Hno s); [done|lia|done].
Qed.

Lemma scan_run_loop btmp cnt left nb c fuel :
  wf_bitmap btmp → btmp_bytes_len btmp < Z.of_nat (length (bits btmp)) →
  2 ≤ cnt < 2 ^ 31 → run_inv btmp cnt (left, nb, c) → (Z.to_nat left < fuel)%nat →
  ∃ r, loop fuel (λ '(bit_left, next_bit, count),
      if bit_left >? 0 then
        t ← bitmap_scan_test btmp next_bit;
        let count := if negb t then u32 (count + 1) else 0 in
        if count =? cnt then Ok (inr (s32 (u32 (next_bit - cnt + 1))))
        else Ok (inl (bit_left - 1, u32 (next_bit + 1), count))
      else Ok (inr (-1))) (left, nb, c) = Ok r ∧ run_answer btmp cnt (nbits btmp + 1) r.
Proof.
  intros Hwf Hpast Hcnt. change (2 ^ 31) with 2147483648 in Hcnt.
  pose proof (wf_int _ Hwf) as Hint. change (2 ^ 31 - 16) with 2147483632 in Hint.
  revert left nb c. induction fuel as [|fuel IH]; intros left nb c HI Hf; [lia|].
  pose proof HI as (Hl & Hsum & Hc & Hcn & Hrun & Hmax & Hno).
  cbn [loop]. rewrite Z.gtb_ltb. destruct (Z.ltb_spec 0 left); ocbn.
  - rewrite bitmap_scan_test_bit by (unfold nbits in *; lia). ocbn.
    rewrite (u32_small (c + 1)), (u32_small (nb + 1)) by lia.
    destruct (bit btmp nb) eqn:Eb; ocbn.
    + destruct (Z.eqb_spec 0 cnt); [lia|]. apply IH; [|lia]. by eapply run_inv_used.
    + destruct (Z.eqb_spec (c + 1) cnt).
      * exists (nb - cnt + 1). rewrite u32_small, s32_small by lia. split; [done|]. right.
        split_and!; try lia.
        -- intros k Hk. destruct (Z.eq_dec k nb) as [->|]; [done|]. apply Hrun. lia.
        -- intros s Hs. apply Hno; lia.
      * apply IH; [|lia]. apply run_inv_free; done || lia.
  - exists (-1). split; [done|]. left. split; [done|]. intros s Hs Hle. apply Hno; lia.
Qed.

Lemma bitmap_scan_run btmp cnt :
  wf_bitmap btmp → btmp_bytes_len btmp < Z.of_nat (length (bits btmp)) →
  (∃ k, 0 ≤ k < nbits btmp ∧ bit btmp k = false) → 2 ≤ cnt < 2 ^ 31 →
  ∃ r, bitmap_scan btmp cnt = Ok r ∧ run_answer btmp cnt (nbits btmp + 1) r.
Proof.
  intros Hwf Hpast Hex Hcnt. destruct (scan_first_free btmp Hwf Hex)
    as (q & j & Hq & Hlt & Hj & Hq0 & Hj0 & (Hr & Hfr & Hsetb)).
  pose proof (wf_int _ Hwf) as Hint. change (2 ^ 31 - 16) with 2147483632 in Hint.
  unfold bitmap_scan. rewrite Hq. ocbn.
  destruct (Z.ltb_spec q (btmp_bytes_len btmp)); [|lia]. ocbn.
  destruct (Z.eqb_spec q (btmp_bytes_len btmp)); [lia|]. rewrite Hj. ocbn.
  rewrite s32_small by lia. destruct (Z.eqb_spec cnt 1); [lia|].
  unfold scan_run. fold (nbits btmp). rewrite !u32_small by lia.
  apply scan_run_loop; [done|done|done| |lia].
  split_and!; try lia.
  - intros k Hk. by replace k with (q * 8 + j) by lia.
  - destruct (Z.eq_dec (q * 8 + j) 0); [left; lia|right].
    apply Hsetb. lia.
  - intros s Hs Hle Hfree. destruct (Z.eq_dec s (q * 8 + j)); [lia|].
    assert (bit btmp s = true) as E by (apply Hsetb; lia).
    rewrite Hfree in E by lia. done.
Qed.

(** With the bit behind the bitmap in use, the answer is about the bitmap. *)
Lemma run_answer_guard btmp cnt r :
  bit btmp (nbits btmp) = true → 1 ≤ cnt →
  run_answer btmp cnt (nbits btmp + 1) r → run_answer btmp cnt (nbits btmp) r.
Proof.
  intros Hg Hc [[-> Hno]|(? & ? & Hfree & Hmin)]; [left|right].
  - split; [done|]. intros s ? ?. apply Hno; lia.
  - split_and!; [done| |done|done]. destruct (Z.eq_dec (r + cnt) (nbits btmp + 1)); [|lia].
    rewrite Hfree in Hg by lia. done.
Qed.

(** ** Setting a bit *)

(** A full bitmap. *)
Lemma bitmap_scan_full btmp cnt :
  wf_bitmap btmp → btmp_bytes_len btmp < Z.of_nat (length (bits btmp)) →
  (∀ k, 0 ≤ k < nbits btmp → bit btmp k = true) → bitmap_scan btmp cnt = Panic.
Proof.
  intros Hwf Hpast Hset. pose proof (wf_len _ Hwf).
  destruct (scan_bytes_loop btmp 0 (S (length (bits btmp)))) as (q & Hscan & Hq & _ & Hfree);
    [done|lia|intros; lia|lia|lia|lia|by right|].
  assert (q = btmp_bytes_len btmp) as ->.
  { destruct (Z.eq_dec q (btmp_bytes_len btmp)); [done|].
    destruct Hfree as (k & Hk & Hkf); [lia|].
    rewrite Hset in Hkf by (unfold nbits; lia). done. }
  unfold bitmap_scan. unfold scan_bytes. rewrite Hscan. ocbn.
  destruct (Z.ltb_spec (btmp_bytes_len btmp) (btmp_bytes_len btmp)); [lia|done].
Qed.

Lemma set_byte_testbit b k value j :
  0 ≤ b < 256 → 0 ≤ k < 8 → 0 ≤ j < 8 → value = 0 ∨ value = 1 →
  Z.testbit (if truth value then u8 (Z.lor b (Z.shiftl BITMAP_MASK k))
             else u8 (Z.land b (Z.lnot (Z.shiftl BITMAP_MASK k)))) j =
  if bool_decide (j = k) then truth value else Z.testbit b j.
Proof.
  intros Hb Hk Hj [-> | ->];
    [change (truth 0) with false|change (truth 1) with true]; unfold u8;
    rewrite Z.mod_pow2_bits_low, shiftl_mask by lia.
  - rewrite Z.land_spec, Z.lnot_spec, testbit_pow2 by lia.
    repeat case_bool_decide; try lia; cbn; by rewrite ?andb_true_r, ?andb_false_r.
  - rewrite Z.lor_spec, testbit_pow2 by lia.
    repeat case_bool_decide; try lia; cbn; by rewrite ?orb_true_r, ?orb_false_r.
Qed.

Lemma bitmap_set_spec btmp i value :
  wf_bitmap btmp → 0 ≤ i < Z.of_nat (length (bits btmp)) * 8 → value = 0 ∨ value = 1 →
  ∃ btmp', bitmap_set btmp i value = Ok btmp' ∧ wf_bitmap btmp' ∧
    btmp_bytes_len btmp' = btmp_bytes_len btmp ∧
    length (bits btmp') = length (bits btmp) ∧
    ∀ j, 0 ≤ j → bit btmp' j = if bool_decide (j = i) then truth value else bit btmp j.
Proof.
  intros Hwf Hi Hv. unfold bitmap_set.
  assert ((value =? 0) || (value =? 1) = true) as -> by (destruct Hv as [-> | ->]; done).
  destruct (bits_at_in btmp (i / 8)) as (b & Hb & ->); [zdlia|]. ocbn.
  pose proof (wf_lookup _ _ _ Hwf Hb) as Hbr.
  eexists; split; [done|]. split; [|split; [done|split; [cbn; by rewrite length_insert|]]].
  - destruct Hwf as [H1 H2 H3]. split; cbn [bits btmp_bytes_len]; [|by rewrite length_insert|done].
    apply Forall_insert; [done|]. case_match; apply u8_range.
  - intros j Hj. unfold bit, bitv. cbn. destruct (Z.eq_dec (j / 8) (i / 8)) as [E|E].
    + rewrite E, list_lookup_insert_eq by zdlia. rewrite Hb.
      rewrite set_byte_testbit by (done || zdlia).
      repeat case_bool_decide; done || zdlia.
    + rewrite list_lookup_insert_ne by zdlia.
      rewrite bool_decide_eq_false_2 by congruence. done.
Qed.

(** A freshly initialised bitmap is free throughout. *)
Lemma bitmap_init_spec btmp :
  wf_bitmap btmp →
  ∃ btmp', bitmap_init btmp = Ok btmp' ∧ wf_bitmap btmp' ∧
    btmp_bytes_len btmp' = btmp_bytes_len btmp ∧
    length (bits btmp') = length (bits btmp) ∧
    (∀ j, 0 ≤ j < nbits btmp → bit btmp' j = false) ∧
    (∀ j, nbits btmp ≤ j → bit btmp' j = bit btmp j).
Proof.
  intros [H1 H2 H3]. unfold bitmap_init. destruct (Z.ltb_spec (Z.of_nat (length (bits btmp)))
    (btmp_bytes_len btmp)); [lia|]. eexists; split; [done|].
  assert (length (replicate (Z.to_nat (btmp_bytes_len btmp)) 0 ++
    drop (Z.to_nat (btmp_bytes_len btmp)) (bits btmp)) = length (bits btmp)) as Hlen.
  { rewrite length_app, length_replicate, length_drop. lia. }
  split_and!; [|done|done| |].
  - split; cbn; [|by rewrite Hlen|done]. apply Forall_app. split.
    + by apply Forall_replicate.
    + by apply Forall_drop.
  - intros j Hj. unfold bit, bitv, nbits in *. cbn.
    rewrite lookup_app_l by (rewrite length_replicate; zdlia).
    rewrite lookup_replicate_2 by zdlia. apply Z.bits_0.
  - intros j Hj. unfold bit, bitv, nbits in *. cbn.
    rewrite lookup_app_r by (rewrite length_replicate; zdlia).
    rewrite length_replicate, lookup_drop.
    assert (btmp_bytes_len btmp ≤ j / 8) by zdlia.
    by replace (Z.to_nat (btmp_bytes_len btmp) +
      (Z.to_nat (j / 8) - Z.to_nat (btmp_bytes_len btmp)))%nat with (Z.to_nat (j / 8)) by lia.
Qed.

(** ** Deciding well-formedness *)

Definition wf_bitmap_b btmp : bool :=
  forallb (λ b, (0 <=? b) && (b <? 256)) (bits btmp) &&
  (0 <=? btmp_bytes_len btmp) && (btmp_bytes_len btmp <=? Z.of_nat (length (bits btmp))) &&
  (nbits btmp <? 2 ^ 31 - 16).

Lemma wf_bitmap_b_ok btmp : wf_bitmap_b btmp = true → wf_bitmap btmp.
Proof.
  unfold wf_bitmap_b. rewrite !andb_true_iff, forallb_forall. intros [[[H1 H2] H3] H4].
  split; [|lia|lia]. apply Forall_forall. intros b Hb.
  specialize (H1 b (proj1 (list_elem_of_In _ _) Hb)). lia.
Qed.

(** ** Properties *)

(** A request for one bit: when the bitmap has a free bit, [bitmap_scan]
    returns the first one (every bit before it is in use). *)
Theorem bitmap_scan_first_fit btmp :
  wf_bitmap btmp → (∃ k, 0 ≤ k < nbits btmp ∧ bit btmp k = false) →
  ∃ r, bitmap_scan btmp 1 = Ok r ∧ 0 ≤ r < nbits btmp ∧ bit btmp r = false ∧
    ∀ k, 0 ≤ k < r → bit btmp k = true.
Proof. apply bitmap_scan_one. Qed.

Lemma bitmap_scan_first_fit_witness :
  ∃ r, bitmap_scan (Bitmap 2 [255; 3]) 1 = Ok r ∧ 0 ≤ r < nbits (Bitmap 2 [255; 3]) ∧
    bit (Bitmap 2 [255; 3]) r = false ∧
    ∀ k, 0 ≤ k < r → bit (Bitmap 2 [255; 3]) k = true.
Proof.
  apply (bitmap_scan_first_fit (Bitmap 2 [255; 3])).
  - apply wf_bitmap_b_ok. vm_compute. reflexivity.
  - exists 10. split; [unfold nbits; cbn; lia|vm_compute; reflexivity].
Defined.

(** A request for [cnt] > 1 bits: with the byte behind the bitmap readable
    and its lowest bit set, [bitmap_scan] returns the first position of [cnt]
    consecutive free bits inside the bitmap, and -1 exactly when there is none. *)
Theorem bitmap_scan_run_first_fit btmp cnt :
  wf_bitmap btmp → btmp_bytes_len btmp < Z.of_nat (length (bits btmp)) →
  bit btmp (nbits btmp) = true →
  (∃ k, 0 ≤ k < nbits btmp ∧ bit btmp k = false) → 2 ≤ cnt < 2 ^ 31 →
  ∃ r, bitmap_scan btmp cnt = Ok r ∧
    ((r = -1 ∧ ∀ s, 0 ≤ s → s + cnt ≤ nbits btmp → ¬ free_run btmp s cnt) ∨
     (0 ≤ r ∧ r + cnt ≤ nbits btmp ∧ free_run btmp r cnt ∧
      ∀ s, 0 ≤ s < r → ¬ free_run btmp s cnt)).
Proof.
  intros Hwf Hpast Hg Hex Hcnt. destruct (bitmap_scan_run btmp cnt Hwf Hpast Hex Hcnt)
    as (r & Hr & Ha). exists r. split; [done|]. apply run_answer_guard; done || lia.
Qed.

Lemma bitmap_scan_run_first_fit_witness :
  let btmp := Bitmap 2 [93; 255 - 64; 1] in
  ∃ r, bitmap_scan btmp 2 = Ok r ∧
    ((r = -1 ∧ ∀ s, 0 ≤ s → s + 2 ≤ nbits btmp → ¬ free_run btmp s 2) ∨
     (0 ≤ r ∧ r + 2 ≤ nbits btmp ∧ free_run btmp r 2 ∧
      ∀ s, 0 ≤ s < r → ¬ free_run btmp s 2)).
Proof.
  intros btmp. apply (bitmap_scan_run_first_fit btmp 2); [..|lia].
  - apply wf_bitmap_b_ok. vm_compute. reflexivity.
  - cbn. lia.
  - vm_compute. reflexivity.
  - exists 1. split; [unfold nbits; cbn; lia|vm_compute; reflexivity].
Defined.

(** [bitmap_scan] looks one bit past the bitmap: if only the last bit is
    free and the bit behind the bitmap happens to be clear, a request for two
    bits is answered with the last bit, although the bitmap has no two
    consecutive bits from there on. *)
Theorem bitmap_scan_overruns btmp :
  wf_bitmap btmp → btmp_bytes_len btmp < Z.of_nat (length (bits btmp)) →
  0 < nbits btmp → (∀ k, 0 ≤ k < nbits btmp - 1 → bit btmp k = true) →
  bit btmp (nbits btmp - 1) = false → bit btmp (nbits btmp) = false →
  bitmap_scan btmp 2 = Ok (nbits btmp - 1).
Proof.
  intros Hwf Hpast Hpos Hset Hlast Hafter.
  destruct (bitmap_scan_run btmp 2) as (r & Hr & Ha); [done|done| |lia|].
  { exists (nbits btmp - 1). split; [lia|done]. }
  rewrite Hr. f_equal. destruct Ha as [[-> Hno]|(H1 & H2 & Hfree & Hmin)].
  - exfalso. apply (Hno (nbits btmp - 1)); [lia|lia|]. intros k Hk.
    assert (k = nbits btmp - 1 ∨ k = nbits btmp) as [-> | ->] by lia; done.
  - destruct (Z.eq_dec r (nbits btmp - 1)); [done|].
    assert (bit btmp r = true) as E by (apply Hset; lia). rewrite Hfree in E by lia. done.
Qed.

Lemma bitmap_scan_overruns_witness :
  bitmap_scan (Bitmap 1 [127; 0]) 2 = Ok (nbits (Bitmap 1 [127; 0]) - 1).
Proof.
  apply (bitmap_scan_overruns (Bitmap 1 [127; 0])).
  - apply wf_bitmap_b_ok. vm_compute. reflexivity.
  - cbn. lia.
  - vm_compute. reflexivity.
  - intros k Hk. change (nbits (Bitmap 1 [127; 0]) - 1) with 7 in Hk.
    assert (k ∈ seqZ 0 7) as Hin by (apply elem_of_seqZ; lia). clear Hk. revert k Hin.
    apply Forall_forall. by repeat constructor.
  - vm_compute. reflexivity.
  - vm_compute. reflexivity.
Defined.

(** A full bitmap: the search does not return -1, the assertion in front of
    the test for that case stops the kernel. *)
Theorem bitmap_scan_full_panics btmp cnt :
  wf_bitmap btmp → btmp_bytes_len btmp < Z.of_nat (length (bits btmp)) →
  (∀ k, 0 ≤ k < nbits btmp → bit btmp k = true) → bitmap_scan btmp cnt = Panic.
Proof. apply bitmap_scan_full. Qed.

Lemma bitmap_scan_full_panics_witness : bitmap_scan (Bitmap 1 [255; 0]) 1 = Panic.
Proof.
  apply (bitmap_scan_full_panics (Bitmap 1 [255; 0]) 1).
  - apply wf_bitmap_b_ok. vm_compute. reflexivity.
  - cbn. lia.
  - intros k Hk. change (nbits (Bitmap 1 [255; 0])) with 8 in Hk.
    assert (k ∈ seqZ 0 8) as Hin by (apply elem_of_seqZ; lia). clear Hk. revert k Hin.
    apply Forall_forall. by repeat constructor.
Defined.

(** [bitmap_set] changes the bit it is asked to change, to the value it is
    given, and no other; the bitmap stays well formed. *)
Theorem bitmap_set_correct btmp i value :
  wf_bitmap btmp → 0 ≤ i < Z.of_nat (length (bits btmp)) * 8 → value = 0 ∨ value = 1 →
  ∃ btmp', bitmap_set btmp i value = Ok btmp' ∧ wf_bitmap btmp' ∧
    btmp_bytes_len btmp' = btmp_bytes_len btmp ∧
    bitmap_scan_test btmp' i = Ok (truth value) ∧
    ∀ j, 0 ≤ j → j ≠ i → bit btmp' j = bit btmp j.
Proof.
  intros Hwf Hi Hv. destruct (bitmap_set_spec btmp i value Hwf Hi Hv)
    as (btmp' & H1 & H2 & H3 & H4 & H5). exists btmp'. split_and!; try done.
  - rewrite bitmap_scan_test_bit by (rewrite H4; lia). rewrite H5 by lia.
    by rewrite bool_decide_eq_true_2.
  - intros j Hj Hne. rewrite H5 by done. by rewrite bool_decide_eq_false_2.
Qed.

Lemma bitmap_set_correct_witness :
  ∃ btmp', bitmap_set (Bitmap 2 [0; 0]) 9 1 = Ok btmp' ∧ wf_bitmap btmp' ∧
    btmp_bytes_len btmp' = 2 ∧ bitmap_scan_test btmp' 9 = Ok (truth 1) ∧
    ∀ j, 0 ≤ j → j ≠ 9 → bit btmp' j = bit (Bitmap 2 [0; 0]) j.
Proof.
  apply (bitmap_set_correct (Bitmap 2 [0; 0]) 9 1); [|cbn; lia|by right].
  apply wf_bitmap_b_ok. vm_compute. reflexivity.
Defined.
