(* ===== verification/Interrupt.v ===== *)
(** * kernel/interrupt.c: the interrupt flag and the descriptor table

    [machine] is the part of the processor state that the C code of the kernel
    reads and writes everywhere: the memory and the [eflags] register, whose
    bit 9 says whether interrupts are let through. *)

From stdpp Require Import base numbers list gmap strings.
From Stdlib Require Import ZArith Lia.
From S2P Require Import Prelude Mem.

Record machine := Machine {
  ram : mem;
  eflags : Z
}.

(** ** Switching interrupts off and on *)

Inductive intr_status := INTR_OFF | INTR_ON.
#[export] Instance intr_status_eq_dec : EqDecision intr_status.
Proof. solve_decision. Defined.

Definition EFLAGS_IF : Z := 512.

Definition intr_get_status (s : machine) : intr_status :=
  if truth (Z.land EFLAGS_IF (eflags s)) then INTR_ON else INTR_OFF.

(** The instructions [sti] and [cli]. *)
Definition sti (s : machine) : machine := Machine (ram s) (Z.lor (eflags s) EFLAGS_IF).
Definition cli (s : machine) : machine :=
  Machine (ram s) (Z.land (eflags s) (Z.lnot EFLAGS_IF)).

Definition intr_enable (s : machine) : intr_status * machine :=
  match intr_get_status s with
  | INTR_ON => (INTR_ON, s)
  | INTR_OFF => (INTR_OFF, sti s)
  end.

Definition intr_disable (s : machine) : intr_status * machine :=
  match intr_get_status s with
  | INTR_ON => (INTR_ON, cli s)
  | INTR_OFF => (INTR_OFF, s)
  end.

Definition intr_set_status (s : machine) (status : intr_status) : intr_status * machine :=
  match status with
  | INTR_ON => intr_enable s
  | INTR_OFF => intr_disable s
  end.

(** ** Gates of the interrupt descriptor table *)

Definition IDT_DESC_CNT : Z := 129.
Definition SELECTOR_K_CODE : Z := Z.shiftl 1 3 + Z.shiftl 0 2 + 0.
Definition IDT_DESC_ATTR_DPL0 : Z := Z.shiftl 1 7 + Z.shiftl 0 5 + 14.
Definition IDT_DESC_ATTR_DPL3 : Z := Z.shiftl 1 7 + Z.shiftl 3 5 + 14.

Record gate_desc := GateDesc {
  func_offset_low_word : Z;
  selector : Z;
  dcount : Z;
  attribute : Z;
  func_offset_high_word : Z
}.

Definition make_idt_desc (attr function : Z) : gate_desc :=
  GateDesc (u16 (Z.land function 65535)) SELECTOR_K_CODE 0 (u8 attr)
           (u16 (Z.shiftr (Z.land function 4294901760) 16)).

(** The table after [idt_desc_init]: [intr_entry_table] and [syscall_handler]
    are the entry points of kernel/kernel.asm. *)
Definition idt_desc_init (intr_entry_table : list Z) (syscall_handler : Z)
    : outcome (list gate_desc) :=
  idt ← loop (S (Z.to_nat IDT_DESC_CNT)) (λ '(i, idt),
    if i <? IDT_DESC_CNT then
      f ← from_option_fault (intr_entry_table !! Z.to_nat i);
      Ok (inl (i + 1, idt ++ [make_idt_desc IDT_DESC_ATTR_DPL0 f]))
    else Ok (inr idt)) (0, []);
  Ok (<[Z.to_nat (IDT_DESC_CNT - 1) := make_idt_desc IDT_DESC_ATTR_DPL3 syscall_handler]> idt).

(** [register_handler] on [idt_table]; an index past the table is a [Fault]. *)
Definition register_handler (idt_table : list Z) (vector_no function : Z)
    : outcome (list Z) :=
  if Z.of_nat (length idt_table) <=? u8 vector_no then Fault
  else Ok (<[Z.to_nat (u8 vector_no) := function]> idt_table).

Open Scope string_scope.

Definition exception_names : list (Z * string) :=
  [(0, "#DE Divide Error"); (1, "#DB Debug Exception"); (2, "NMI Interrupt");
   (3, "#BP Breakpoint Exception"); (4, "#OF Overflow Exception");
   (5, "#BR BOUND Range Exceeded Exception"); (6, "#UD Invalid Opcode Exception");
   (7, "#NM Device No七 Available Exception"); (8, "JIDF Double Fault Exception");
   (9, "Coprocessor Segment Overrun"); (10, "#TS Invalid TSS Exception");
   (11, "#NP Segment Not Present"); (12, "#SS Stack Fault Exception");
   (13, "#GP General Protection Exception"); (14, "#PF Page-Fault Exception");
   (16, "#MF x87 FPU F'loating-Point Error"); (17, "#AC Alignment Check Exception");
   (18, "#MC Machine-Check Exception"); (19, "#XF SIMD Floating-Point Exception")].

(** [idt_table] and [intr_name] after [exception_init]. *)
Definition exception_init (general_intr_handler : Z) : list Z * list string :=
  (replicate (Z.to_nat IDT_DESC_CNT) general_intr_handler,
   foldl (λ names '(i, s), <[Z.to_nat i := s]> names)
         (replicate (Z.to_nat IDT_DESC_CNT) "unknown") exception_names).

Close Scope string_scope.

(** [pic_init]: the bytes written to the ports of the two 8259A. *)
Definition PIC_M_CTRL : Z := 32.
Definition PIC_M_DATA : Z := 33.
Definition PIC_S_CTRL : Z := 160.
Definition PIC_S_DATA : Z := 161.
Definition pic_init : list (Z * Z) :=
  [(PIC_M_CTRL, 17); (PIC_M_DATA, 32); (PIC_M_DATA, 4); (PIC_M_DATA, 1);
   (PIC_S_CTRL, 17); (PIC_S_DATA, 40); (PIC_S_DATA, 2); (PIC_S_DATA, 1);
   (PIC_M_DATA, 248); (PIC_S_DATA, 191)].

(** The operand [lidt] loads: table limit and base. *)
Definition idt_operand (idt_addr : Z) : Z :=
  Z.lor (IDT_DESC_CNT * 8 - 1) (Z.shiftl (u32 idt_addr) 16).

(** ** Lemmas on the interrupt flag *)

Implicit Types s : machine.

Lemma intr_get_status_bit s :
  intr_get_status s = if Z.testbit (eflags s) 9 then INTR_ON else INTR_OFF.
Proof.
  unfold intr_get_status. rewrite Z.land_comm. change EFLAGS_IF with (2 ^ 9).
  by rewrite truth_land_pow2.
Qed.

Lemma eflags_bit9 s : eflags s = if Z.testbit (eflags s) 9
  then Z.lor (eflags s) EFLAGS_IF else Z.land (eflags s) (Z.lnot EFLAGS_IF).
Proof.
  apply Z.bits_inj'. intros j Hj. change EFLAGS_IF with (2 ^ 9).
  destruct (Z.testbit (eflags s) 9) eqn:E.
  - rewrite Z.lor_spec, testbit_pow2 by lia. case_bool_decide; subst;
      by rewrite ?orb_false_r, ?orb_true_r.
  - rewrite Z.land_spec, Z.lnot_spec, testbit_pow2 by lia. case_bool_decide; subst; cbn;
      by rewrite ?andb_true_r, ?andb_false_r.
Qed.

Lemma intr_disable_off s : intr_get_status (intr_disable s).2 = INTR_OFF.
Proof.
  unfold intr_disable. destruct (intr_get_status s) eqn:E; [done|].
  cbn. rewrite intr_get_status_bit. cbn.
  change EFLAGS_IF with (2 ^ 9). rewrite Z.land_spec, Z.lnot_spec, testbit_pow2 by lia.
  cbn. by rewrite andb_false_r.
Qed.

Lemma intr_disable_ram s : ram (intr_disable s).2 = ram s.
Proof. unfold intr_disable. by destruct (intr_get_status s). Qed.

Lemma intr_disable_eflags s m :
  eflags (intr_set_status (Machine m (eflags (intr_disable s).2)) (intr_disable s).1).2
  = eflags s.
Proof.
  unfold intr_disable. destruct (intr_get_status s) eqn:E; cbn.
  - unfold intr_disable. rewrite intr_get_status_bit in *. cbn.
    by destruct (Z.testbit (eflags s) 9).
  - unfold intr_enable. rewrite intr_get_status_bit in *. cbn.
    change EFLAGS_IF with (2 ^ 9). rewrite Z.land_spec, Z.lnot_spec, testbit_pow2 by lia.
    cbn. rewrite andb_false_r. cbn. rewrite (eflags_bit9 s) at 2.
    destruct (Z.testbit (eflags s) 9) eqn:E9; [|done].
    change EFLAGS_IF with (2 ^ 9).
    apply Z.bits_inj'. intros j Hj.
    rewrite !Z.lor_spec, Z.land_spec, Z.lnot_spec, testbit_pow2 by lia.
    case_bool_decide; subst; cbn; by rewrite ?orb_true_r, ?andb_true_r.
Qed.

Lemma intr_set_status_ram s status : ram (intr_set_status s status).2 = ram s.
Proof. destruct status; unfold intr_set_status, intr_enable, intr_disable; by destruct (intr_get_status s). Qed.

(** [old = intr_disable(); body; intr_set_status(old)], with a body that works
    on the memory alone, is the body with the interrupt flag as it was. *)
Definition critical {A} (s : machine) (body : mem → outcome (A * mem)) : outcome (A * machine) :=
  let '(old_status, s) := intr_disable s in
  '(a, m) ← body (ram s);
  let '(_, s) := intr_set_status (Machine m (eflags s)) old_status in
  Ok (a, s).

Lemma critical_ok {A} s (body : mem → outcome (A * mem)) a m :
  body (ram s) = Ok (a, m) → critical s body = Ok (a, Machine m (eflags s)).
Proof.
  intros H. unfold critical. destruct (intr_disable s) as [old s1] eqn:E.
  assert (s1 = (intr_disable s).2) as -> by by rewrite E.
  assert (old = (intr_disable s).1) as -> by by rewrite E.
  rewrite intr_disable_ram, H. ocbn.
  destruct (intr_set_status _ _) as [x s2] eqn:E2.
  assert (s2 = (intr_set_status (Machine m (eflags (intr_disable s).2)) (intr_disable s).1).2)
    as -> by by rewrite E2.
  do 2 f_equal. pose proof (intr_disable_eflags s m) as He.
  pose proof (intr_set_status_ram (Machine m (eflags (intr_disable s).2)) (intr_disable s).1) as Hr.
  destruct (intr_set_status _ _).2 as [r e]. cbn in *. by subst.
Qed.
