(* ===== verification/KList.v ===== *)
(** * lib/kernel/list.c: intrusive doubly linked lists

    A [struct list_elem] at address [e] has its [prev] pointer at [e] and its
    [next] pointer at [e + 4]; a [struct list] at [plist] has its [head]
    element at [plist] and its [tail] element at [plist + 8].  [dll m plist xs]
    says that the elements between head and tail are exactly [xs], in order;
    the operations are proved to act on [xs] as the operations of a sequence. *)

From stdpp Require Import base numbers list gmap.
From Stdlib Require Import ZArith Lia.
From S2P Require Import Prelude Mem Interrupt.

Definition head (plist : Z) : Z := plist.
Definition tail (plist : Z) : Z := plist + 8.
Definition load_prev (m : mem) (e : Z) : outcome Z := load32 m e.
Definition load_next (m : mem) (e : Z) : outcome Z := load32 m (e + 4).
Definition store_prev (m : mem) (e v : Z) : outcome mem := store32 m e v.
Definition store_next (m : mem) (e v : Z) : outcome mem := store32 m (e + 4) v.

Definition list_init (s : machine) (plist : Z) : outcome machine :=
  m ← store_prev (ram s) (head plist) NULL;
  m ← store_next m (head plist) (tail plist);
  m ← store_prev m (tail plist) (head plist);
  m ← store_next m (tail plist) NULL;
  Ok (Machine m (eflags s)).

Definition list_insert_before (s : machine) (before elem : Z) : outcome machine :=
  '(_, s) ← critical s (λ m,
    p ← load_prev m before;
    m ← store_next m p elem;
    p ← load_prev m before;
    m ← store_prev m elem p;
    m ← store_next m elem before;
    m ← store_prev m before elem;
    Ok (tt, m));
  Ok s.

Definition list_push (s : machine) (plist elem : Z) : outcome machine :=
  first ← load_next (ram s) (head plist);
  list_insert_before s first elem.

Definition list_append (s : machine) (plist elem : Z) : outcome machine :=
  list_insert_before s (tail plist) elem.

Definition list_remove (s : machine) (pelem : Z) : outcome machine :=
  '(_, s) ← critical s (λ m,
    p ← load_prev m pelem;
    n ← load_next m pelem;
    m ← store_next m p n;
    n ← load_next m pelem;
    p ← load_prev m pelem;
    m ← store_prev m n p;
    Ok (tt, m));
  Ok s.

Definition list_pop (s : machine) (plist : Z) : outcome (Z * machine) :=
  elem ← load_next (ram s) (head plist);
  s ← list_remove s elem;
  Ok (elem, s).

Definition elem_find (s : machine) (plist obj_elem : Z) : outcome bool :=
  elem ← load_next (ram s) (head plist);
  loop (S (size (ram s))) (λ elem,
    if elem =? tail plist then Ok (inr false)
    else if elem =? obj_elem then Ok (inr true)
    else n ← load_next (ram s) elem; Ok (inl n)) elem.

Definition list_empty (s : machine) (plist : Z) : outcome bool :=
  n ← load_next (ram s) (head plist);
  Ok (n =? tail plist).

(** [func] gets the element and [arg], and may change the machine. *)
Definition list_traversal (s : machine) (plist : Z)
    (func : machine → Z → Z → outcome (bool * machine)) (arg : Z) : outcome (Z * machine) :=
  elem ← load_next (ram s) (head plist);
  e ← list_empty s plist;
  if (e : bool) then Ok (NULL, s)
  else
    loop (S (size (ram s))) (λ '(elem, s),
      if elem =? tail plist then Ok (inr (NULL, s))
      else
        '(hit, s) ← func s elem arg;
        if (hit : bool) then Ok (inr (elem, s))
        else n ← load_next (ram s) elem; Ok (inl (n, s))) (elem, s).

Definition list_len (s : machine) (plist : Z) : outcome Z :=
  elem ← load_next (ram s) (head plist);
  loop (S (size (ram s))) (λ '(elem, length),
    if elem =? tail plist then Ok (inr length)
    else n ← load_next (ram s) elem; Ok (inl (n, u32 (length + 1)))) (elem, 0).

(** ** Representation *)

(** The eight bytes of two elements do not overlap. *)
Definition node_sep (a b : Z) : Prop := a + 8 ≤ b ∨ b + 8 ≤ a.

Fixpoint separated (l : list Z) : Prop :=
  match l with
  | [] => True
  | a :: l' => Forall (node_sep a) l' ∧ separated l'
  end.

(** Neighbours of [l] point at each other. *)
Fixpoint linked (m : mem) (l : list Z) : Prop :=
  match l with
  | a :: ((b :: _) as l') => load_next m a = Ok b ∧ load_prev m b = Ok a ∧ linked m l'
  | _ => True
  end.

Definition node_ok (m : mem) (a : Z) : Prop := 0 < a < 2 ^ 32 - 8 ∧ valid m a 8.

Definition nodes (plist : Z) (xs : list Z) : list Z := head plist :: xs ++ [tail plist].

Record dll (m : mem) (plist : Z) (xs : list Z) : Prop := {
  dll_linked : linked m (nodes plist xs);
  dll_sep : separated (nodes plist xs);
  dll_ok : Forall (node_ok m) (nodes plist xs)
}.

(** [m'] agrees with [m] outside the elements [l]. *)
Definition same_outside (m m' : mem) (l : list Z) : Prop :=
  ∀ a, Forall (λ n, a < n ∨ n + 8 ≤ a) l → m' !! a = m !! a.

Implicit Types (m : mem) (s : machine) (a b e p q v : Z) (l xs : list Z).

Lemma separated_app l1 l2 :
  separated (l1 ++ l2) ↔
  separated l1 ∧ separated l2 ∧ Forall (λ a, Forall (node_sep a) l2) l1.
Proof.
  induction l1 as [|a l1 IH]; cbn.
  - split; [intros; split_and!; by try constructor|tauto].
  - rewrite IH, Forall_app, Forall_cons. tauto.
Qed.

Lemma separated_perm l l' : l ≡ₚ l' → separated l → separated l'.
Proof.
  induction 1 as [|a l l' Hp IH|a b l|]; cbn; [done| | |tauto].
  - intros [H1 H2]. split; [by rewrite <- Hp|auto].
  - rewrite !Forall_cons. unfold node_sep. intros [[? ?] [? ?]]. split_and!; try done. lia.
Qed.

Lemma perm_pull (l1 : list Z) (a e : Z) l2 : l1 ++ a :: e :: l2 ≡ₚ e :: l1 ++ a :: l2.
Proof. rewrite (Permutation_middle l1 (a :: l2) e). apply Permutation_app_head, perm_swap. Qed.

Lemma separated_NoDup l : separated l → NoDup l.
Proof.
  induction l as [|a l IH]; cbn; [constructor|]. intros [H1 H2].
  apply NoDup_cons. split; [|auto]. intros Hin.
  rewrite Forall_forall in H1. specialize (H1 a Hin). unfold node_sep in H1. lia.
Qed.

Lemma linked_app m l1 a l2 :
  linked m (l1 ++ a :: l2) ↔ linked m (l1 ++ [a]) ∧ linked m (a :: l2).
Proof.
  induction l1 as [|b l1 IH]; cbn [app]; [cbn; tauto|].
  destruct l1 as [|c l1]; cbn [app] in *; [cbn; tauto|].
  change (linked m (b :: c :: l1 ++ a :: l2)) with
    (load_next m b = Ok c ∧ load_prev m c = Ok b ∧ linked m (c :: l1 ++ a :: l2)).
  change (linked m (b :: c :: l1 ++ [a])) with
    (load_next m b = Ok c ∧ load_prev m c = Ok b ∧ linked m (c :: l1 ++ [a])).
  rewrite IH. tauto.
Qed.

(** The words a segment of a list depends on. *)
Lemma linked_ext m m' l :
  (∀ a, a ∈ l → load32 m' a = load32 m a ∧ load32 m' (a + 4) = load32 m (a + 4)) →
  linked m l → linked m' l.
Proof.
  intros H. induction l as [|a [|b l] IH]; [done|done|].
  intros (Hn & Hp & Hl). split_and!.
  - unfold load_next in *. destruct (H a) as [_ ->]; [by left|done].
  - unfold load_prev in *. destruct (H b) as [-> _]; [by right; left|done].
  - apply IH; [|done]. intros c Hc. apply H. by right.
Qed.

(** A store outside the elements leaves them linked. *)
Lemma linked_put_out m l p v :
  Forall (λ a, p + 4 ≤ a ∨ a + 8 ≤ p) l → linked m l → linked (put32 m p v) l.
Proof.
  intros H. apply linked_ext. intros a Ha. rewrite Forall_forall in H.
  specialize (H a Ha). cbn in H. split; apply load32_put32_ne; lia.
Qed.

(** A store to an element apart. *)
Lemma linked_put_node m l e p v :
  Forall (node_sep e) l → e ≤ p → p + 4 ≤ e + 8 → linked m l → linked (put32 m p v) l.
Proof.
  intros H H1 H2. apply linked_put_out. eapply Forall_impl; [exact H|].
  unfold node_sep. intros; lia.
Qed.

Lemma Forall_sep_sym l b : Forall (λ c, node_sep c b) l → Forall (node_sep b) l.
Proof. intros H. eapply Forall_impl; [exact H|]. unfold node_sep. intros; lia. Qed.

(** A store to the [next] pointer of the last element of a segment. *)
Lemma linked_put_last m l a v :
  separated (l ++ [a]) → linked m (l ++ [a]) → linked (put32 m (a + 4) v) (l ++ [a]).
Proof.
  induction l as [|b l IH]; [done|]. cbn [app]. intros [Hb Hs] Hl.
  rewrite Forall_app, Forall_singleton in Hb. destruct Hb as [Hb Hba].
  destruct l as [|c l]; cbn [app] in *.
  - destruct Hl as (Hn & Hp & _). unfold node_sep, load_next, load_prev in *. split_and!; [..|done];
      unfold load_next, load_prev; rewrite load32_put32_ne by lia; done.
  - destruct Hl as (Hn & Hp & Hl). apply Forall_cons in Hb as [Hbc _].
    destruct Hs as [Hc Hs]. rewrite Forall_app, Forall_singleton in Hc. destruct Hc as [Hc Hca].
    unfold node_sep, load_next, load_prev in *. split_and!.
    + unfold load_next. rewrite load32_put32_ne by lia. done.
    + unfold load_prev. rewrite load32_put32_ne by lia. done.
    + apply IH; [|done]. split; [|done]. by apply Forall_app; split; [|apply Forall_singleton].
Qed.

(** A store to the [prev] pointer of the first element of a segment. *)
Lemma linked_put_first m a l v :
  separated (a :: l) → linked m (a :: l) → linked (put32 m a v) (a :: l).
Proof.
  intros [Ha Hs] Hl. destruct l as [|b l]; [done|]. destruct Hl as (Hn & Hp & Hl).
  pose proof Ha as Ha'. apply Forall_cons in Ha' as [Hab _]. unfold node_sep in Hab.
  split_and!.
  - unfold load_next in *. by rewrite load32_put32_ne by lia.
  - unfold load_prev in *. by rewrite load32_put32_ne by lia.
  - apply linked_put_out; [|done]. eapply Forall_impl; [done|]. unfold node_sep. intros; lia.
Qed.

Lemma node_ok_put m a p v : node_ok m a → node_ok (put32 m p v) a.
Proof. intros [H1 H2]. split; [done|]. by apply put32_valid. Qed.

Lemma store_next_ok m a v : valid m a 8 → store_next m a v = Ok (put32 m (a + 4) v).
Proof. intros H. apply store32_valid. eapply valid_sub; [exact H|lia|lia]. Qed.

Lemma store_prev_ok m a v : valid m a 8 → store_prev m a v = Ok (put32 m a v).
Proof. intros H. apply store32_valid. eapply valid_sub; [exact H|lia|lia]. Qed.

(** Membership in a list written out with [::] and [++]. *)
Ltac list_in := repeat first [rewrite elem_of_app | rewrite elem_of_cons]; tauto.

(** ** Insertion and removal in the middle of a list *)

Lemma same_outside_put m p v n l : n ∈ l → n ≤ p → p + 4 ≤ n + 8 → same_outside m (put32 m p v) l.
Proof.
  intros Hn H1 H2 a Ha. rewrite Forall_forall in Ha. specialize (Ha n Hn). cbn in Ha.
  apply put32_lookup_ne. lia.
Qed.

Lemma same_outside_trans m1 m2 m3 l :
  same_outside m1 m2 l → same_outside m2 m3 l → same_outside m1 m3 l.
Proof. intros H1 H2 a Ha. rewrite H2 by done. by apply H1. Qed.

Lemma separated_app_sep l1 l2 a b : separated (l1 ++ l2) → a ∈ l1 → b ∈ l2 → node_sep a b.
Proof.
  rewrite separated_app. intros (_ & _ & H) Ha Hb.
  rewrite Forall_forall in H. specialize (H a Ha). rewrite Forall_forall in H. auto.
Qed.

(** What is known of two neighbours [a], [b] and an element [e] apart. *)
Section neighbours.
Context (m : mem) (l1 l2 : list Z) (a b : Z).
Context (Hlinked : linked m (l1 ++ a :: b :: l2)).
Context (Hsep : separated (l1 ++ a :: b :: l2)).
Context (Hok : Forall (node_ok m) (l1 ++ a :: b :: l2)).

Lemma neighbours_linked :
  linked m (l1 ++ [a]) ∧ load_next m a = Ok b ∧ load_prev m b = Ok a ∧ linked m (b :: l2).
Proof. apply linked_app in Hlinked as [H1 (H2 & H3 & H4)]. done. Qed.

Lemma neighbours_ok : node_ok m a ∧ node_ok m b.
Proof.
  rewrite !Forall_app, !Forall_cons in Hok. tauto.
Qed.

Lemma neighbours_sep :
  node_sep a b ∧ separated (l1 ++ [a]) ∧ separated (b :: l2) ∧
  Forall (λ c, node_sep c b) l1 ∧ Forall (node_sep a) l2.
Proof.
  replace (l1 ++ a :: b :: l2) with ((l1 ++ [a]) ++ b :: l2) in Hsep
    by by rewrite <- app_assoc.
  apply separated_app in Hsep as (H1 & H2 & H3).
  rewrite Forall_app, Forall_singleton, Forall_cons in H3. destruct H3 as (H3 & H4 & H5).
  split_and!; try done. eapply Forall_impl; [exact H3|]. intros c Hc.
  by apply Forall_cons in Hc as [? _].
Qed.
End neighbours.

Lemma insert_before_linked m l1 l2 a b e :
  linked m (l1 ++ a :: b :: l2) → separated (e :: l1 ++ a :: b :: l2) →
  Forall (node_ok m) (e :: l1 ++ a :: b :: l2) →
  ∃ m', ∀ s, ram s = m →
    list_insert_before s b e = Ok (Machine m' (eflags s)) ∧
    linked m' (l1 ++ a :: e :: b :: l2) ∧
    (∀ c, node_ok m c → node_ok m' c) ∧ same_outside m m' (e :: l1 ++ a :: b :: l2).
Proof.
  intros Hl [He Hs] Hok. apply Forall_cons in Hok as [Hoke Hok].
  destruct (neighbours_linked _ _ _ _ _ Hl) as (Hl1 & Hab & Hba & Hl2).
  destruct (neighbours_ok _ _ _ _ _ Hok) as [[Ha Hva] [Hb Hvb]].
  destruct (neighbours_sep _ _ _ _ Hs) as (Hsab & Hs1 & Hs2 & Hs3 & Hs4).
  destruct Hoke as [Her Hve]. change (2 ^ 32 - 8) with 4294967288 in *.
  assert (node_sep e a ∧ node_sep e b) as [Hea Heb].
  { rewrite Forall_app, !Forall_cons in He. tauto. }
  assert (Forall (node_sep e) l1 ∧ Forall (node_sep e) l2) as [Hel1 Hel2].
  { rewrite Forall_app, !Forall_cons in He. tauto. }
  set (m1 := put32 m (a + 4) e). set (m2 := put32 m1 e a).
  set (m3 := put32 m2 (e + 4) b). set (m4 := put32 m3 b e).
  exists m4. intros s <-. unfold node_sep in Hea, Heb, Hsab.
  split; [|split; [|split]].
  - unfold list_insert_before. erewrite critical_ok; [done|].
    rewrite Hba. ocbn. rewrite store_next_ok by done. ocbn. fold m1.
    assert (load_prev m1 b = Ok a) as ->
      by (unfold m1, load_prev; rewrite load32_put32_ne by lia; done).
    ocbn. rewrite store_prev_ok by (by apply put32_valid). ocbn. fold m2.
    rewrite store_next_ok by (by repeat apply put32_valid). ocbn. fold m3.
    by rewrite store_prev_ok by (by repeat apply put32_valid).
  - apply linked_app. split.
    + apply (linked_put_node _ _ b); [|lia|lia|].
      { apply Forall_app. split; [by apply Forall_sep_sym|].
        apply Forall_singleton. unfold node_sep. lia. }
      apply (linked_put_node _ _ e); [by apply Forall_app; split; [|apply Forall_singleton]|lia|lia|].
      apply (linked_put_node _ _ e); [by apply Forall_app; split; [|apply Forall_singleton]|lia|lia|].
      by apply linked_put_last.
    + unfold m4, m3, m2, m1. cbn [linked]. unfold load_next, load_prev. split_and!.
      * do 3 rewrite load32_put32_ne by lia. by rewrite load32_put32_eq, u32_small by lia.
      * do 2 rewrite load32_put32_ne by lia. by rewrite load32_put32_eq, u32_small by lia.
      * rewrite load32_put32_ne by lia. by rewrite load32_put32_eq, u32_small by lia.
      * by rewrite load32_put32_eq, u32_small by lia.
      * apply linked_put_first; [done|].
        apply (linked_put_node _ _ e); [by apply Forall_cons|lia|lia|].
        apply (linked_put_node _ _ e); [by apply Forall_cons|lia|lia|].
        by apply (linked_put_node _ _ a); [apply Forall_cons|lia|lia|].
  - intros c Hc. by repeat apply node_ok_put.
  - apply (same_outside_trans _ m3); [apply (same_outside_trans _ m2);
      [apply (same_outside_trans _ m1)|]|].
    + by apply (same_outside_put _ _ _ a); [list_in|lia|lia].
    + by apply (same_outside_put _ _ _ e); [list_in|lia|lia].
    + by apply (same_outside_put _ _ _ e); [list_in|lia|lia].
    + by apply (same_outside_put _ _ _ b); [list_in|lia|lia].
Qed.

Lemma remove_linked m l1 l2 a e b :
  linked m (l1 ++ a :: e :: b :: l2) → separated (l1 ++ a :: e :: b :: l2) →
  Forall (node_ok m) (l1 ++ a :: e :: b :: l2) →
  ∃ m', ∀ s, ram s = m →
    list_remove s e = Ok (Machine m' (eflags s)) ∧
    linked m' (l1 ++ a :: b :: l2) ∧
    (∀ c, node_ok m c → node_ok m' c) ∧ same_outside m m' (l1 ++ a :: b :: l2).
Proof.
  intros Hl Hs Hok.
  destruct (neighbours_linked _ _ _ _ _ Hl) as (Hl1 & Hae & Hea & (Heb & Hbe & Hl2)).
  rewrite Forall_app, !Forall_cons in Hok.
  destruct Hok as (_ & [Ha Hva] & _ & [Hb Hvb] & _).
  assert (separated (l1 ++ a :: b :: l2)) as Hs'.
  { eapply separated_perm in Hs; [|apply perm_pull]. by destruct Hs. }
  destruct (neighbours_sep _ _ _ _ Hs) as (Hsae & _ & [Hse _] & _ & _).
  apply Forall_cons in Hse as [Hseb _].
  destruct (neighbours_sep _ _ _ _ Hs') as (Hsab & Hs1 & Hs2 & Hs3 & Hs4).
  change (2 ^ 32 - 8) with 4294967288 in *.
  set (m1 := put32 m (a + 4) b). set (m2 := put32 m1 b a).
  exists m2. intros s <-. unfold node_sep in Hsae, Hseb, Hsab. split; [|split; [|split]].
  - unfold list_remove. erewrite critical_ok; [done|].
    rewrite Hea. ocbn. rewrite Heb. ocbn. rewrite store_next_ok by done. ocbn. fold m1.
    assert (load_next m1 e = Ok b) as ->
      by (unfold m1, load_next in *; rewrite load32_put32_ne by lia; done).
    assert (load_prev m1 e = Ok a) as ->
      by (unfold m1, load_prev in *; rewrite load32_put32_ne by lia; done).
    ocbn. by rewrite store_prev_ok by (by apply put32_valid).
  - apply linked_app. split.
    + apply (linked_put_node _ _ b); [|lia|lia|by apply linked_put_last].
      apply Forall_app. split; [by apply Forall_sep_sym|].
      apply Forall_singleton. unfold node_sep. lia.
    + cbn [linked]. unfold m2, m1, load_next, load_prev. split_and!.
      * rewrite load32_put32_ne by lia. by rewrite load32_put32_eq, u32_small by lia.
      * by rewrite load32_put32_eq, u32_small by lia.
      * apply linked_put_first; [done|].
        by apply (linked_put_node _ _ a); [apply Forall_cons|lia|lia|].
  - intros c Hc. by repeat apply node_ok_put.
  - apply (same_outside_trans _ m1).
    + by apply (same_outside_put _ _ _ a); [list_in|lia|lia].
    + by apply (same_outside_put _ _ _ b); [list_in|lia|lia].
Qed.

(** ** The operations on a list as operations on a sequence *)

(** [e] can be put into a list: it is an element, and apart from the others. *)
Definition fresh_node (m : mem) (plist : Z) (xs : list Z) (e : Z) : Prop :=
  node_ok m e ∧ Forall (node_sep e) (nodes plist xs).

Lemma split_last (x : Z) l : ∃ l' y, x :: l = l' ++ [y].
Proof.
  revert x. induction l as [|z l IH]; intros x; [by exists [], x|].
  destruct (IH z) as (l' & y & ->). by exists (x :: l'), y.
Qed.

Lemma insert_dll m plist xs l1 a b l2 e :
  dll m plist xs → fresh_node m plist xs e → nodes plist xs = l1 ++ a :: b :: l2 →
  ∀ ys, nodes plist ys = l1 ++ a :: e :: b :: l2 →
  ∃ m', ∀ s, ram s = m → list_insert_before s b e = Ok (Machine m' (eflags s)) ∧
    dll m' plist ys ∧ same_outside m m' (e :: nodes plist xs).
Proof.
  intros [Hl Hs Hok] [Hoke He] E ys Eys. rewrite E in *.
  destruct (insert_before_linked m l1 l2 a b e Hl) as (m' & Hm').
  { by split. } { by apply Forall_cons. }
  exists m'. intros s Hram. destruct (Hm' s Hram) as (H1 & H2 & H3 & H4).
  split; [done|]. split; [|done]. rewrite <- Eys in H2. split; [done|..]; rewrite Eys.
  - eapply separated_perm; [symmetry; apply perm_pull|by split].
  - rewrite Forall_app, !Forall_cons in *.
    destruct Hok as (Hok1 & ? & ? & Hok2). split_and!; auto;
      (eapply Forall_impl; [eassumption|auto]).
Qed.

Lemma list_append_spec m plist xs e :
  dll m plist xs → fresh_node m plist xs e →
  ∃ m', ∀ s, ram s = m → list_append s plist e = Ok (Machine m' (eflags s)) ∧
    dll m' plist (xs ++ [e]) ∧ same_outside m m' (e :: nodes plist xs).
Proof.
  intros Hd Hf. destruct (split_last (head plist) xs) as (l' & y & E).
  apply (insert_dll m plist xs l' y (tail plist) [] e Hd Hf).
  - unfold nodes. rewrite app_comm_cons, E, <- app_assoc. done.
  - unfold nodes. rewrite app_comm_cons, app_comm_cons, E, <- !app_assoc. done.
Qed.

Lemma list_push_spec m plist xs e :
  dll m plist xs → fresh_node m plist xs e →
  ∃ m', ∀ s, ram s = m → list_push s plist e = Ok (Machine m' (eflags s)) ∧
    dll m' plist (e :: xs) ∧ same_outside m m' (e :: nodes plist xs).
Proof.
  intros Hd Hf.
  assert (∃ b l2, xs ++ [tail plist] = b :: l2) as (b & l2 & E)
    by (destruct xs; cbn; eauto).
  destruct (insert_dll m plist xs [] (head plist) b l2 e Hd Hf) with (ys := e :: xs)
    as (m' & Hm').
  { unfold nodes. by rewrite E. } { unfold nodes. cbn. by rewrite E. }
  exists m'. intros s Hram. destruct (Hm' s Hram) as (H1 & H2 & H3).
  split; [|done]. unfold list_push. destruct Hd as [Hl _ _]. unfold nodes in Hl.
  rewrite E in Hl. destruct Hl as [Hn _]. rewrite Hram, Hn. ocbn. done.
Qed.

Lemma list_remove_spec m plist xs1 e xs2 :
  dll m plist (xs1 ++ e :: xs2) →
  ∃ m', ∀ s, ram s = m → list_remove s e = Ok (Machine m' (eflags s)) ∧
    dll m' plist (xs1 ++ xs2) ∧ same_outside m m' (nodes plist (xs1 ++ xs2)).
Proof.
  intros [Hl Hs Hok]. destruct (split_last (head plist) xs1) as (l1 & a & E1).
  assert (∃ b l2, xs2 ++ [tail plist] = b :: l2) as (b & l2 & E2)
    by (destruct xs2; cbn; eauto).
  assert (nodes plist (xs1 ++ e :: xs2) = l1 ++ a :: e :: b :: l2) as E.
  { unfold nodes. rewrite <- app_assoc, app_comm_cons, E1. cbn. rewrite E2.
    by rewrite <- app_assoc. }
  assert (nodes plist (xs1 ++ xs2) = l1 ++ a :: b :: l2) as E'.
  { unfold nodes. rewrite <- app_assoc, app_comm_cons, E1, E2. by rewrite <- app_assoc. }
  rewrite E in *. destruct (remove_linked m l1 l2 a e b Hl Hs Hok) as (m' & Hm').
  exists m'. intros s Hram. destruct (Hm' s Hram) as (H1 & H2 & H3 & H4).
  split; [done|]. rewrite E'. split; [|done]. split; rewrite E'; [done|..].
  - eapply separated_perm in Hs; [|apply perm_pull]. by destruct Hs.
  - rewrite Forall_app, !Forall_cons in *.
    destruct Hok as (Hok1 & ? & ? & ? & Hok2). split_and!; auto;
      (eapply Forall_impl; [eassumption|auto]).
Qed.

Lemma list_pop_spec m plist e xs :
  dll m plist (e :: xs) →
  ∃ m', ∀ s, ram s = m → list_pop s plist = Ok (e, Machine m' (eflags s)) ∧
    dll m' plist xs ∧ same_outside m m' (nodes plist xs).
Proof.
  intros Hd. destruct (list_remove_spec m plist [] e xs Hd) as (m' & Hm').
  exists m'. intros s Hram. destruct (Hm' s Hram) as (H1 & H2).
  split; [|done]. unfold list_pop. destruct Hd as [[Hn _] _ _].
  rewrite Hram, Hn. ocbn. by rewrite H1.
Qed.

Lemma list_init_spec m plist :
  node_ok m (head plist) → node_ok m (tail plist) →
  ∃ m', (∀ s, ram s = m → list_init s plist = Ok (Machine m' (eflags s))) ∧ dll m' plist [] ∧
    (∀ a, a < plist ∨ plist + 16 ≤ a → m' !! a = m !! a) ∧ (∀ a n, valid m a n → valid m' a n).
Proof.
  intros [Hh Hvh] [Ht Hvt]. change (2 ^ 32 - 8) with 4294967288 in *.
  unfold head, tail in *.
  set (m1 := put32 m plist NULL). set (m2 := put32 m1 (plist + 4) (plist + 8)).
  set (m3 := put32 m2 (plist + 8) plist). set (m4 := put32 m3 (plist + 8 + 4) NULL).
  exists m4. split; [|split; [split|split]].
  - intros s <-. unfold list_init, head, tail. rewrite store_prev_ok by done. ocbn. fold m1.
    rewrite store_next_ok by (by apply put32_valid). ocbn. fold m2.
    rewrite store_prev_ok by (by repeat apply put32_valid). ocbn. fold m3.
    by rewrite store_next_ok by (by repeat apply put32_valid).
  - unfold nodes, head, tail, m4, m3, m2. cbn [app linked].
    unfold load_next, load_prev. split_and!; [| |done].
    + do 2 rewrite load32_put32_ne by lia. by rewrite load32_put32_eq, u32_small by lia.
    + rewrite load32_put32_ne by lia. by rewrite load32_put32_eq, u32_small by lia.
  - unfold nodes, head, tail, node_sep. cbn.
    split; [apply Forall_singleton; unfold node_sep; lia|]. split; [constructor|done].
  - unfold nodes, head, tail. cbn [app]. apply Forall_cons. rewrite Forall_singleton.
    split; repeat apply node_ok_put; by split.
  - intros a Ha. unfold m4, m3, m2, m1. by rewrite !put32_lookup_ne by lia.
  - intros a n Hv. by repeat apply put32_valid.
Qed.

(** ** Framing *)

(** A list depends on its own elements only. *)
Lemma dll_frame m m' plist xs :
  dll m plist xs → (∀ n a, n ∈ nodes plist xs → n ≤ a < n + 8 → m' !! a = m !! a) → dll m' plist xs.
Proof.
  intros [Hl Hs Hok] Hsame. split; [|done|].
  - revert Hl. apply linked_ext. intros a Ha.
    split; apply load32_lookup_ext; intros x Hx; apply (Hsame a); done || lia.
  - rewrite Forall_forall in *. intros n Hn. destruct (Hok n Hn) as [Hr Hv]. split; [done|].
    intros a Ha. rewrite (Hsame n) by done. by apply Hv.
Qed.

(** An operation on elements that are there before and after changes the memory
    at no new address. *)
Lemma same_outside_dom m m' l a :
  same_outside m m' l → Forall (λ n, valid m n 8) l → Forall (λ n, valid m' n 8) l →
  is_Some (m' !! a) ↔ is_Some (m !! a).
Proof.
  intros Hsame Hv Hv'. destruct (decide (Exists (λ n, n ≤ a < n + 8) l)) as [Hin|Hout].
  - apply Exists_exists in Hin as (n & Hn & Ha). rewrite Forall_forall in Hv, Hv'.
    split; intros _; [by apply (Hv n)|by apply (Hv' n)].
  - rewrite Hsame; [done|]. apply not_Exists_Forall in Hout; [|tc_solve]. 
    eapply Forall_impl; [exact Hout|]. cbn. lia.
Qed.

Lemma dll_nodes_valid m plist xs n : dll m plist xs → n ∈ nodes plist xs → valid m n 8.
Proof. intros [_ _ Hok] Hn. rewrite Forall_forall in Hok. by apply Hok. Qed.

(** ** Walking along a list *)

Lemma nodes_size m l : Forall (node_ok m) l → NoDup l → (length l ≤ size m)%nat.
Proof.
  intros Hok Hnd. rewrite <- (size_list_to_set (C := gset Z) l) by done.
  rewrite <- size_dom. apply subseteq_size. intros a Ha.
  apply elem_of_list_to_set in Ha. rewrite Forall_forall in Hok.
  destruct (Hok a Ha) as [_ Hv]. apply elem_of_dom, Hv. lia.
Qed.

Lemma dll_size m plist xs : dll m plist xs → (S (length xs) < size m)%nat.
Proof.
  intros [_ Hs Hok]. apply separated_NoDup in Hs.
  pose proof (nodes_size _ _ Hok Hs) as H. unfold nodes in H.
  cbn in H. rewrite length_app in H. cbn in H. lia.
Qed.

Lemma dll_tail_notin m plist xs : dll m plist xs → tail plist ∉ xs.
Proof.
  intros [_ Hs _]. apply separated_NoDup in Hs. unfold nodes in Hs.
  apply NoDup_cons in Hs as [_ Hs]. apply NoDup_app in Hs as (_ & Hs & _).
  intros Hin. apply (Hs _ Hin). by left.
Qed.

(** The first element of [xs ++ [t]]. *)
Definition first_or (xs : list Z) (t : Z) : Z := match xs with [] => t | x :: _ => x end.

Lemma dll_first m plist xs :
  dll m plist xs → load_next m (head plist) = Ok (first_or xs (tail plist)).
Proof. intros [Hl _ _]. unfold nodes in Hl. destruct xs; by destruct Hl. Qed.

(** Induction along a list: from any element the walk reaches the next. *)
Lemma walk_step m x xs t :
  linked m ((x :: xs) ++ [t]) → load_next m x = Ok (first_or xs t) ∧ linked m (xs ++ [t]).
Proof. destruct xs as [|y xs]; cbn [app]; intros H; destruct H as (? & ? & ?); done. Qed.

Lemma dll_walk m plist xs : dll m plist xs → linked m (xs ++ [tail plist]).
Proof. intros [Hl _ _]. unfold nodes in Hl. destruct xs; [done|]. by destruct Hl as (_ & _ & ?). Qed.

Lemma find_loop m xs t obj fuel :
  linked m (xs ++ [t]) → t ∉ xs → (length xs < fuel)%nat →
  loop fuel (λ elem,
    if elem =? t then Ok (inr false)
    else if elem =? obj then Ok (inr true)
    else n ← load_next m elem; Ok (inl n)) (first_or xs t) = Ok (bool_decide (obj ∈ xs)).
Proof.
  revert fuel. induction xs as [|x xs IH]; intros [|fuel] Hl Ht Hf; cbn [length] in Hf; try lia.
  - cbn. by rewrite Z.eqb_refl.
  - apply walk_step in Hl as [Hn Hl]. rewrite not_elem_of_cons in Ht. destruct Ht as [Hne Ht].
    cbn [loop first_or]. destruct (Z.eqb_spec x t); [congruence|].
    destruct (Z.eqb_spec x obj) as [->|Hxo].
    + by rewrite bool_decide_eq_true_2 by by left.
    + rewrite Hn. ocbn. rewrite IH by (done || lia). f_equal. apply bool_decide_ext.
      rewrite elem_of_cons. naive_solver.
Qed.

Lemma elem_find_spec s plist xs obj :
  dll (ram s) plist xs → elem_find s plist obj = Ok (bool_decide (obj ∈ xs)).
Proof.
  intros Hd. unfold elem_find. rewrite (dll_first _ _ _ Hd). ocbn.
  apply find_loop; [by apply dll_walk|by eapply dll_tail_notin|].
  apply dll_size in Hd. lia.
Qed.

Lemma list_empty_spec s plist xs :
  dll (ram s) plist xs → list_empty s plist = Ok (bool_decide (xs = [])).
Proof.
  intros Hd. unfold list_empty. rewrite (dll_first _ _ _ Hd). ocbn. f_equal.
  destruct xs as [|x xs]; cbn; [apply Z.eqb_refl|].
  apply dll_tail_notin in Hd. rewrite not_elem_of_cons in Hd.
  destruct (Z.eqb_spec x (tail plist)); naive_solver.
Qed.

Lemma len_loop m xs t k fuel :
  linked m (xs ++ [t]) → t ∉ xs → (length xs < fuel)%nat →
  0 ≤ k → k + Z.of_nat (length xs) < 2 ^ 32 →
  loop fuel (λ '(elem, length),
    if elem =? t then Ok (inr length)
    else n ← load_next m elem; Ok (inl (n, u32 (length + 1)))) (first_or xs t, k)
  = Ok (k + Z.of_nat (length xs)).
Proof.
  change (2 ^ 32) with 4294967296. revert k fuel.
  induction xs as [|x xs IH]; intros k [|fuel] Hl Ht Hf Hk Hb; cbn [length] in *; try lia.
  - cbn. rewrite Z.eqb_refl. f_equal. lia.
  - apply walk_step in Hl as [Hn Hl]. rewrite not_elem_of_cons in Ht. destruct Ht as [Hne Ht].
    cbn [loop first_or]. destruct (Z.eqb_spec x t); [congruence|].
    rewrite Hn. ocbn. rewrite u32_small by lia. rewrite IH by (done || lia). f_equal. lia.
Qed.

Lemma list_len_spec s plist xs :
  dll (ram s) plist xs → Z.of_nat (length xs) < 2 ^ 32 →
  list_len s plist = Ok (Z.of_nat (length xs)).
Proof.
  intros Hd Hb. unfold list_len. rewrite (dll_first _ _ _ Hd). ocbn.
  rewrite len_loop; [done|by apply dll_walk|by eapply dll_tail_notin| |lia|lia].
  apply dll_size in Hd. lia.
Qed.

(** A search with a callback that only looks at the machine. *)
Lemma traversal_loop s xs t (f : Z → bool) arg fuel :
  linked (ram s) (xs ++ [t]) → t ∉ xs → (length xs < fuel)%nat →
  loop fuel (λ '(elem, s),
    if elem =? t then Ok (inr (NULL, s))
    else
      '(hit, s) ← (λ s e (_ : Z), Ok (f e, s)) s elem arg;
      if (hit : bool) then Ok (inr (elem, s))
      else n ← load_next (ram s) elem; Ok (inl (n, s))) (first_or xs t, s)
  = Ok (first_or (filter (λ e, f e = true) xs) NULL, s).
Proof.
  revert fuel. induction xs as [|x xs IH]; intros [|fuel] Hl Ht Hf; cbn [length] in Hf; try lia.
  - cbn. by rewrite Z.eqb_refl.
  - apply walk_step in Hl as [Hn Hl]. rewrite not_elem_of_cons in Ht. destruct Ht as [Hne Ht].
    cbn [loop first_or]. destruct (Z.eqb_spec x t); [congruence|]. ocbn.
    rewrite filter_cons. destruct (f x) eqn:E.
    + by rewrite decide_True by done.
    + rewrite decide_False by done. rewrite Hn. ocbn. apply IH; done || lia.
Qed.

Lemma list_traversal_spec s plist xs (f : Z → bool) arg :
  dll (ram s) plist xs →
  list_traversal s plist (λ s e _, Ok (f e, s)) arg
  = Ok (first_or (filter (λ e, f e = true) xs) NULL, s).
Proof.
  intros Hd. unfold list_traversal.
  rewrite (dll_first _ _ _ Hd), (list_empty_spec _ _ _ Hd). ocbn.
  case_bool_decide; [by subst|].
  apply (traversal_loop s xs (tail plist) f arg); [by apply dll_walk|by eapply dll_tail_notin|].
  apply dll_size in Hd. lia.
Qed.

(** ** Deciding the representation *)

Definition load_is m p v : bool := match load32 m p with Ok w => w =? v | _ => false end.

Fixpoint linked_b m l : bool :=
  match l with
  | a :: ((b :: _) as l') => load_is m (a + 4) b && load_is m b a && linked_b m l'
  | _ => true
  end.

Fixpoint separated_b l : bool :=
  match l with
  | [] => true
  | a :: l' => forallb (λ b, (a + 8 <=? b) || (b + 8 <=? a)) l' && separated_b l'
  end.

Definition node_ok_b m a : bool := (0 <? a) && (a <? 2 ^ 32 - 8) && valid_b m a 8.

Definition dll_b m plist xs : bool :=
  linked_b m (nodes plist xs) && separated_b (nodes plist xs) &&
  forallb (node_ok_b m) (nodes plist xs).

Lemma load_is_ok m p v : load_is m p v = true → load32 m p = Ok v.
Proof. unfold load_is. destruct (load32 m p); try done. intros ?. f_equal. lia. Qed.

Lemma linked_b_ok m l : linked_b m l = true → linked m l.
Proof.
  induction l as [|a [|b l] IH]; [done|done|]. cbn [linked_b].
  rewrite !andb_true_iff. intros [[H1 H2] H3].
  split_and!; [by apply load_is_ok|by apply load_is_ok|auto].
Qed.

Lemma separated_b_ok l : separated_b l = true → separated l.
Proof.
  induction l as [|a l IH]; [done|]. cbn. rewrite andb_true_iff, forallb_forall.
  intros [H1 H2]. split; [|auto]. apply Forall_forall. intros b Hb.
  specialize (H1 b (proj1 (list_elem_of_In _ _) Hb)). unfold node_sep. lia.
Qed.

Lemma node_ok_b_ok m a : node_ok_b m a = true → node_ok m a.
Proof.
  unfold node_ok_b. rewrite !andb_true_iff. intros [[H1 H2] H3].
  split; [lia|by apply valid_b_ok].
Qed.

Lemma dll_b_ok m plist xs : dll_b m plist xs = true → dll m plist xs.
Proof.
  unfold dll_b. rewrite !andb_true_iff, forallb_forall. intros [[H1 H2] H3].
  split; [by apply linked_b_ok|by apply separated_b_ok|].
  apply Forall_forall. intros a Ha. apply node_ok_b_ok, H3. by apply list_elem_of_In.
Qed.

Definition fresh_node_b m plist xs e : bool :=
  node_ok_b m e && forallb (λ b, (e + 8 <=? b) || (b + 8 <=? e)) (nodes plist xs).

Lemma fresh_node_b_ok m plist xs e : fresh_node_b m plist xs e = true → fresh_node m plist xs e.
Proof.
  unfold fresh_node_b. rewrite andb_true_iff, forallb_forall. intros [H1 H2].
  split; [by apply node_ok_b_ok|]. apply Forall_forall. intros b Hb.
  specialize (H2 b (proj1 (list_elem_of_In _ _) Hb)). unfold node_sep. lia.
Qed.

(** ** Properties *)

(** A list built with [list_init] and changed with [list_push] and
    [list_append] holds exactly the elements put in, in order: [list_init]
    makes an empty list, [list_push] adds in front, [list_append] adds at the
    end.  The interrupt flag is as before and no byte outside the elements
    involved changes. *)
Theorem list_insert_refines_sequence m plist xs e :
  dll m plist xs → fresh_node m plist xs e →
  ∃ m1 m2, ∀ s, ram s = m →
    (list_append s plist e = Ok (Machine m1 (eflags s)) ∧ dll m1 plist (xs ++ [e]) ∧
     same_outside m m1 (e :: nodes plist xs)) ∧
    (list_push s plist e = Ok (Machine m2 (eflags s)) ∧ dll m2 plist (e :: xs) ∧
     same_outside m m2 (e :: nodes plist xs)).
Proof.
  intros Hd Hf. destruct (list_append_spec m plist xs e Hd Hf) as (m1 & H1).
  destruct (list_push_spec m plist xs e Hd Hf) as (m2 & H2).
  exists m1, m2. intros s Hs. auto.
Qed.

Definition demo_machine : machine := Machine (mem_of 1000 (replicate 120 0)) 514.

(** A list at 1000 with the elements 1040 and 1060. *)
Definition demo_list : mem :=
  match (s ← list_init demo_machine 1000; s ← list_append s 1000 1040;
         s ← list_append s 1000 1060; Ok s) with
  | Ok s => ram s
  | _ => ∅
  end.

Lemma list_insert_refines_sequence_witness :
  ∃ m1 m2, ∀ s, ram s = demo_list →
    (list_append s 1000 1080 = Ok (Machine m1 (eflags s)) ∧
     dll m1 1000 ([1040; 1060] ++ [1080]) ∧
     same_outside demo_list m1 (1080 :: nodes 1000 [1040; 1060])) ∧
    (list_push s 1000 1080 = Ok (Machine m2 (eflags s)) ∧
     dll m2 1000 (1080 :: [1040; 1060]) ∧
     same_outside demo_list m2 (1080 :: nodes 1000 [1040; 1060])).
Proof.
  apply (list_insert_refines_sequence demo_list 1000 [1040; 1060] 1080).
  - apply dll_b_ok. vm_compute. reflexivity.
  - apply fresh_node_b_ok. vm_compute. reflexivity.
Defined.

(** [list_remove] takes exactly the given element out of the list it is in,
    wherever it stands, and [list_pop] returns the first element and leaves the
    rest. *)
Theorem list_remove_refines_sequence m plist xs1 e xs2 :
  dll m plist (xs1 ++ e :: xs2) →
  ∃ m', ∀ s, ram s = m →
    list_remove s e = Ok (Machine m' (eflags s)) ∧
    dll m' plist (xs1 ++ xs2) ∧ same_outside m m' (nodes plist (xs1 ++ xs2)) ∧
    (xs1 = [] → list_pop s plist = Ok (e, Machine m' (eflags s))).
Proof.
  intros Hd. destruct (list_remove_spec m plist xs1 e xs2 Hd) as (m' & Hm').
  exists m'. intros s Hs. destruct (Hm' s Hs) as (H1 & H2 & H3).
  split_and!; try done. intros ->. destruct Hd as [[Hn _] _ _].
  unfold list_pop. rewrite Hs, Hn. ocbn. by rewrite H1.
Qed.

Lemma list_remove_refines_sequence_witness :
  ∃ m', ∀ s, ram s = demo_list →
    list_remove s 1040 = Ok (Machine m' (eflags s)) ∧
    dll m' 1000 ([] ++ [1060]) ∧ same_outside demo_list m' (nodes 1000 ([] ++ [1060])) ∧
    (@nil Z = [] → list_pop s 1000 = Ok (1040, Machine m' (eflags s))).
Proof.
  apply (list_remove_refines_sequence demo_list 1000 [] 1040 [1060]).
  apply dll_b_ok. vm_compute. reflexivity.
Defined.

(** The walks along a list terminate and answer about its elements:
    [elem_find] says whether the element is in it, [list_len] how many there
    are, [list_empty] whether there is none, and [list_traversal] finds the
    first element the callback accepts, or [NULL]. *)
Theorem list_walks_correct s plist xs obj (f : Z → bool) arg :
  dll (ram s) plist xs → Z.of_nat (length xs) < 2 ^ 32 →
  elem_find s plist obj = Ok (bool_decide (obj ∈ xs)) ∧
  list_len s plist = Ok (Z.of_nat (length xs)) ∧
  list_empty s plist = Ok (bool_decide (xs = [])) ∧
  list_traversal s plist (λ s e _, Ok (f e, s)) arg
    = Ok (first_or (filter (λ e, f e = true) xs) NULL, s).
Proof.
  intros Hd Hl. split_and!.
  - by apply elem_find_spec.
  - by apply list_len_spec.
  - by apply list_empty_spec.
  - by apply list_traversal_spec.
Qed.

Lemma list_walks_correct_witness :
  let s := Machine demo_list 2 in
  elem_find s 1000 1060 = Ok (bool_decide (1060 ∈ [1040; 1060])) ∧
  list_len s 1000 = Ok (Z.of_nat (length [1040; 1060])) ∧
  list_empty s 1000 = Ok (bool_decide ([1040; 1060] = [])) ∧
  list_traversal s 1000 (λ s e _, Ok (e >? 1050, s)) 0
    = Ok (first_or (filter (λ e, (e >? 1050) = true) [1040; 1060]) NULL, s).
Proof.
  intros s. apply (list_walks_correct s 1000 [1040; 1060] 1060 (λ e, e >? 1050) 0); [|cbn; lia].
  apply dll_b_ok. vm_compute. reflexivity.
Defined.
