(* ===== verification/Thread.v ===== *)
(** * thread/thread.c: the scheduler

    The scheduler works on process control blocks, which are page-aligned
    records found through their address, and on two lists threaded through
    them.  [task_struct] is the record, [tasks] the control blocks by address;
    the two lists are the sequences of control blocks that [KList] shows
    list.c to maintain ([elem2entry] turns a [general_tag] back into the
    control block it is part of).

    A call of [schedule] does not come back before the thread is chosen again.
    What the thread still has to do then is on its kernel stack; [resume] keeps
    it, as the point where [schedule] was called.  So [thread_block] and
    [thread_yield] below run from the call by the current thread to the moment
    the next thread has left its own call. *)

From stdpp Require Import base numbers list gmap.
From Stdlib Require Import ZArith Lia.
From S2P Require Import Prelude Interrupt.

(** ** Data *)

Inductive task_status :=
  | TASK_RUNNING | TASK_READY | TASK_BLOCKED | TASK_WAITING | TASK_HANGING | TASK_DIED.
#[export] Instance task_status_eq_dec : EqDecision task_status.
Proof. solve_decision. Defined.

(** The fields of the control block that the scheduler and the file system
    use.  [general_tag] and [all_list_tag] are the membership of the block in
    the lists. *)
Record task_struct := TaskStruct {
  self_kstack : Z;
  pid : Z;
  status : task_status;
  name : list Z;
  priority : Z;
  ticks : Z;
  elapsed_ticks : Z;
  pgdir : Z;
  fd_table : list Z;
  cwd_inode_nr : Z;
  stack_magic : Z
}.

(** Where a thread that is not running called [schedule], with the interrupt
    state it goes back to. *)
Inductive resume_point :=
  | in_kernel_thread
  | in_thread_block (old_status : intr_status)
  | in_thread_yield (old_status : intr_status)
  | in_intr_timer_handler.
#[export] Instance resume_point_eq_dec : EqDecision resume_point.
Proof. solve_decision. Defined.

Record kstate := KState {
  tasks : gmap Z task_struct;
  thread_ready_list : list Z;
  thread_all_list : list Z;
  running_thread : Z;
  main_thread : Z;
  idle_thread : Z;
  intr : intr_status;
  resume : gmap Z resume_point;
  cr3 : Z;
  tss_esp0 : Z
}.

Definition set_tasks (s : kstate) (ts : gmap Z task_struct) : kstate :=
  KState ts (thread_ready_list s) (thread_all_list s) (running_thread s) (main_thread s)
    (idle_thread s) (intr s) (resume s) (cr3 s) (tss_esp0 s).
Definition set_ready (s : kstate) (l : list Z) : kstate :=
  KState (tasks s) l (thread_all_list s) (running_thread s) (main_thread s)
    (idle_thread s) (intr s) (resume s) (cr3 s) (tss_esp0 s).
Definition set_all (s : kstate) (l : list Z) : kstate :=
  KState (tasks s) (thread_ready_list s) l (running_thread s) (main_thread s)
    (idle_thread s) (intr s) (resume s) (cr3 s) (tss_esp0 s).
Definition set_running (s : kstate) (t : Z) : kstate :=
  KState (tasks s) (thread_ready_list s) (thread_all_list s) t (main_thread s)
    (idle_thread s) (intr s) (resume s) (cr3 s) (tss_esp0 s).
Definition set_intr (s : kstate) (i : intr_status) : kstate :=
  KState (tasks s) (thread_ready_list s) (thread_all_list s) (running_thread s) (main_thread s)
    (idle_thread s) i (resume s) (cr3 s) (tss_esp0 s).
Definition set_resume (s : kstate) (r : gmap Z resume_point) : kstate :=
  KState (tasks s) (thread_ready_list s) (thread_all_list s) (running_thread s) (main_thread s)
    (idle_thread s) (intr s) r (cr3 s) (tss_esp0 s).
Definition set_mmu (s : kstate) (c e : Z) : kstate :=
  KState (tasks s) (thread_ready_list s) (thread_all_list s) (running_thread s) (main_thread s)
    (idle_thread s) (intr s) (resume s) c e.

Definition with_status (t : task_struct) (st : task_status) : task_struct :=
  TaskStruct (self_kstack t) (pid t) st (name t) (priority t) (ticks t) (elapsed_ticks t)
    (pgdir t) (fd_table t) (cwd_inode_nr t) (stack_magic t).
Definition with_ticks (t : task_struct) (n : Z) : task_struct :=
  TaskStruct (self_kstack t) (pid t) (status t) (name t) (priority t) n (elapsed_ticks t)
    (pgdir t) (fd_table t) (cwd_inode_nr t) (stack_magic t).
Definition with_elapsed_ticks (t : task_struct) (n : Z) : task_struct :=
  TaskStruct (self_kstack t) (pid t) (status t) (name t) (priority t) (ticks t) n
    (pgdir t) (fd_table t) (cwd_inode_nr t) (stack_magic t).

(** Reading and changing the control block at an address. *)
Definition pcb (s : kstate) (t : Z) : outcome task_struct := from_option_fault (tasks s !! t).
Definition upd (s : kstate) (t : Z) (f : task_struct → task_struct) : kstate :=
  set_tasks s (alter f t (tasks s)).

(** ** Operations *)

(** What the scheduler needs from the memory manager: the physical address
    behind a kernel virtual address (kernel/memory.c [addr_v2p]). *)
Class AddrV2P := addr_v2p : Z → Z.

Section operations.
Context `{AddrV2P}.

(** userprog/process.c [page_dir_activate]: kernel threads run on the kernel's
    page directory, at 0x100000. *)
Definition page_dir_activate (s : kstate) (p_thread : Z) : outcome kstate :=
  t ← pcb s p_thread;
  let pagedir_phy_addr := if pgdir t =? NULL then 1048576 else addr_v2p (pgdir t) in
  Ok (set_mmu s pagedir_phy_addr (tss_esp0 s)).

(** userprog/process.c [process_activate], with userprog/tss.c
    [update_tss_esp]. *)
Definition process_activate (s : kstate) (p_thread : Z) : outcome kstate :=
  ASSERT (negb (p_thread =? NULL));;
  s ← page_dir_activate s p_thread;
  t ← pcb s p_thread;
  Ok (if negb (pgdir t =? NULL) then set_mmu s (cr3 s) (u32 (p_thread + PG_SIZE)) else s).

Definition is_blocked (st : task_status) : bool :=
  bool_decide (st = TASK_BLOCKED) || bool_decide (st = TASK_WAITING)
  || bool_decide (st = TASK_HANGING).

Definition thread_unblock (s : kstate) (pthread : Z) : outcome kstate :=
  let old_status := intr s in
  let s := set_intr s INTR_OFF in
  t ← pcb s pthread;
  ASSERT (is_blocked (status t));;
  s ← (if negb (bool_decide (status t = TASK_READY)) then
         ASSERT (negb (bool_decide (pthread ∈ thread_ready_list s)));;
         if bool_decide (pthread ∈ thread_ready_list s) then Panic
         else
           let s := set_ready s (pthread :: thread_ready_list s) in
           Ok (upd s pthread (λ t, with_status t TASK_READY))
       else Ok s);
  Ok (set_intr s old_status).

(** thread/switch.S: the stack pointer, and with it the current thread,
    changes to [next]. *)
Definition switch_to (s : kstate) (next : Z) : kstate := set_running s next.

(** The three parts of [schedule]: a thread whose time is up goes to the end of
    the queue; if nothing is ready, the idle thread is; the first thread of the
    queue gets the processor. *)
Definition requeue_current (s : kstate) : outcome kstate :=
  let cur := running_thread s in
  t ← pcb s cur;
  if bool_decide (status t = TASK_RUNNING) then
    ASSERT (negb (bool_decide (cur ∈ thread_ready_list s)));;
    let s := set_ready s (thread_ready_list s ++ [cur]) in
    let s := upd s cur (λ t, with_ticks t (priority t)) in
    Ok (upd s cur (λ t, with_status t TASK_READY))
  else Ok s.

Definition wake_idle (s : kstate) : outcome kstate :=
  if bool_decide (thread_ready_list s = []) then thread_unblock s (idle_thread s) else Ok s.

Definition run_next (s : kstate) : outcome kstate :=
  match thread_ready_list s with
  | [] => Fault
  | next :: rest =>
      let s := set_ready s rest in
      _ ← pcb s next;
      let s := upd s next (λ t, with_status t TASK_RUNNING) in
      s ← process_activate s next;
      Ok (switch_to s next)
  end.

Definition schedule (s : kstate) : outcome kstate :=
  ASSERT (bool_decide (intr s = INTR_OFF));;
  s ← requeue_current s;
  s ← wake_idle s;
  run_next s.

(** Back in the thread that was chosen: what remains of the call in which it
    was switched away. *)
Definition finish_switch (s : kstate) : outcome kstate :=
  r ← from_option_fault (resume s !! running_thread s);
  let s := set_resume s (delete (running_thread s) (resume s)) in
  Ok (set_intr s match r with
                 | in_kernel_thread => INTR_ON
                 | in_thread_block old_status => old_status
                 | in_thread_yield old_status => old_status
                 | in_intr_timer_handler => INTR_ON
                 end).

Definition thread_block (s : kstate) (stat : task_status) : outcome kstate :=
  ASSERT (is_blocked stat);;
  let old_status := intr s in
  let s := set_intr s INTR_OFF in
  let cur_thread := running_thread s in
  _ ← pcb s cur_thread;
  let s := upd s cur_thread (λ t, with_status t stat) in
  let s := set_resume s (<[cur_thread := in_thread_block old_status]> (resume s)) in
  s ← schedule s;
  finish_switch s.

Definition thread_yield (s : kstate) : outcome kstate :=
  let cur := running_thread s in
  let old_status := intr s in
  let s := set_intr s INTR_OFF in
  ASSERT (negb (bool_decide (cur ∈ thread_ready_list s)));;
  let s := set_ready s (thread_ready_list s ++ [cur]) in
  _ ← pcb s cur;
  let s := upd s cur (λ t, with_status t TASK_READY) in
  let s := set_resume s (<[cur := in_thread_yield old_status]> (resume s)) in
  s ← schedule s;
  finish_switch s.

(** The end of [thread_start]: the new thread, whose control block [init_thread]
    and [thread_create] have filled in as [p], enters both lists. *)
Definition thread_enqueue (s : kstate) (thread : Z) (p : task_struct) : outcome kstate :=
  let s := set_tasks s (<[thread := p]> (tasks s)) in
  let s := set_resume s (<[thread := in_kernel_thread]> (resume s)) in
  ASSERT (negb (bool_decide (thread ∈ thread_ready_list s)));;
  let s := set_ready s (thread_ready_list s ++ [thread]) in
  ASSERT (negb (bool_decide (thread ∈ thread_all_list s)));;
  Ok (set_all s (thread_all_list s ++ [thread])).

End operations.

(** ** The invariant of the scheduler *)

(** The status of the thread at an address. *)
Definition st (s : kstate) (t : Z) : option task_status := status <$> tasks s !! t.

(** A thread that is ready or running, or that [thread_unblock] accepts. *)
Definition wakeable (x : task_status) : Prop := x ≠ TASK_DIED.

(** What holds whenever [schedule] is called and when it is left: the queue
    holds each ready thread once and no other; no thread but the current one
    is marked as running; the idle thread can be woken; every thread that will
    be chosen has a place to go on from. *)
Record sched_core (s : kstate) : Prop := SchedCore {
  core_nodup : NoDup (thread_ready_list s);
  core_ready t : t ∈ thread_ready_list s ↔ st s t = Some TASK_READY;
  core_running t : st s t = Some TASK_RUNNING → t = running_thread s;
  core_cur : is_Some (st s (running_thread s));
  core_idle : ∃ x, st s (idle_thread s) = Some x ∧ wakeable x;
  core_null : st s NULL = None
}.

(** The invariant between two operations of the current thread: in addition
    the current thread is marked as running, exactly the others have a place to
    go on from, and the list of all threads holds them all. *)
Record sched_inv (s : kstate) : Prop := SchedInv {
  inv_core : sched_core s;
  inv_cur : st s (running_thread s) = Some TASK_RUNNING;
  inv_resume t : is_Some (resume s !! t) ↔ is_Some (st s t) ∧ t ≠ running_thread s;
  inv_all t : t ∈ thread_all_list s ↔ is_Some (st s t)
}.

(** The queue from which [schedule] takes the first thread. *)
Definition next_queue (s : kstate) : list Z :=
  match thread_ready_list s ++
        (if bool_decide (st s (running_thread s) = Some TASK_RUNNING)
         then [running_thread s] else []) with
  | [] => [idle_thread s]
  | q => q
  end.

(** [upd] with a change of status, and with one that keeps it. *)
Lemma st_upd_status s t x t' :
  is_Some (st s t) →
  st (upd s t (λ p, with_status p x)) t' = if decide (t = t') then Some x else st s t'.
Proof.
  unfold st, upd. cbn. rewrite lookup_alter. intros [y Hy]. case_decide; [|done].
  subst t'. by destruct (tasks s !! t).
Qed.

Lemma st_upd_keep s t f t' :
  (∀ p, status (f p) = status p) → st (upd s t f) t' = st s t'.
Proof.
  intros Hf. unfold st, upd. cbn. rewrite lookup_alter. case_decide; [|done].
  subst t'. destruct (tasks s !! t); cbn; by rewrite ?Hf.
Qed.

Lemma pcb_st s t x : st s t = Some x → ∃ p, pcb s t = Ok p ∧ status p = x.
Proof.
  unfold st, pcb. destruct (tasks s !! t) as [p|]; [|done].
  intros [= <-]. by exists p.
Qed.

(** The queues and registers other than the control blocks. *)
Record same_frame (s s' : kstate) : Prop := SameFrame {
  sf_all : thread_all_list s' = thread_all_list s;
  sf_main : main_thread s' = main_thread s;
  sf_idle : idle_thread s' = idle_thread s;
  sf_resume : resume s' = resume s;
  sf_intr : intr s' = intr s
}.

#[export] Instance same_frame_preorder : PreOrder same_frame.
Proof.
  split; [done|]. intros s1 s2 s3 [] []. constructor; congruence.
Qed.

(** What no scheduling decision touches: the control blocks agree but for the
    status and the remaining time slice. *)
Definition static (p : task_struct) : task_struct := with_ticks (with_status p TASK_READY) 0.
Definition kept (s s' : kstate) : Prop :=
  ∀ t, static <$> tasks s' !! t = static <$> tasks s !! t.

#[export] Instance kept_preorder : PreOrder kept.
Proof. split; [by intros s t|]. intros s1 s2 s3 H1 H2 t. by rewrite H2, H1. Qed.

Lemma kept_upd s s' t f :
  tasks s' = alter f t (tasks s) → (∀ p, static (f p) = static p) → kept s s'.
Proof.
  intros E Hf t'. rewrite E, lookup_alter. gdecide; [|done].
  subst t'. destruct (tasks s !! t); cbn; by rewrite ?Hf.
Qed.

Section specs.
Context `{AddrV2P}.
Implicit Types s : kstate.

Lemma thread_unblock_eq s t x :
  st s t = Some x → is_blocked x = true → t ∉ thread_ready_list s →
  thread_unblock s t =
  Ok (upd (set_ready s (t :: thread_ready_list s)) t (λ p, with_status p TASK_READY)).
Proof.
  intros Hst Hb Hn. destruct (pcb_st _ _ _ Hst) as (p & Hp & Hx).
  unfold thread_unblock. change (pcb (set_intr s INTR_OFF) t) with (pcb s t).
  rewrite Hp. ocbn. rewrite Hx, Hb. ocbn.
  rewrite (bool_decide_eq_false_2 (x = TASK_READY)) by (by intros ->). ocbn.
  rewrite (bool_decide_eq_false_2 (t ∈ _)) by done. ocbn. by destruct s.
Qed.

Lemma requeue_spec s :
  sched_core s →
  ∃ s', requeue_current s = Ok s' ∧ sched_core s' ∧ same_frame s s' ∧
    running_thread s' = running_thread s ∧
    thread_ready_list s' = thread_ready_list s ++
      (if bool_decide (st s (running_thread s) = Some TASK_RUNNING)
       then [running_thread s] else []) ∧
    (∀ t, st s' t = if bool_decide (st s t = Some TASK_RUNNING) then Some TASK_READY else st s t).
Proof.
  intros [Hnd Hr Hrun [x Hc] Hi H0]. unfold requeue_current.
  destruct (pcb_st _ _ _ Hc) as (p & Hp & Hx). rewrite Hp. ocbn. rewrite Hx, Hc.
  destruct (decide (x = TASK_RUNNING)) as [->|Hx'].
  - rewrite !bool_decide_eq_true_2 by done.
    assert (running_thread s ∉ thread_ready_list s) as Hnin.
    { rewrite Hr, Hc. by intros [=]. }
    rewrite bool_decide_eq_false_2 by done. ocbn. eexists. split; [done|].
    set (s' := upd _ _ _).
    assert (∀ t, st s' t = if decide (running_thread s = t) then Some TASK_READY else st s t) as Hs'.
    { intros t. unfold s'. rewrite st_upd_status.
      - cbn. case_decide; [done|]. by rewrite st_upd_keep.
      - rewrite st_upd_keep by done. cbn. by exists TASK_RUNNING. }
    assert (∀ t, st s' t = if bool_decide (st s t = Some TASK_RUNNING)
                           then Some TASK_READY else st s t) as Hs''.
    { intros t. rewrite Hs'. case_decide as Ht; [subst t; by rewrite Hc|].
      case_bool_decide as Ht'; [|done]. by apply Hrun in Ht'. }
    split; [constructor; cbn|split_and!; try done].
    + apply NoDup_app. split_and!; [done| |by apply NoDup_singleton].
      by intros t Ht ->%list_elem_of_singleton.
    + intros t. rewrite elem_of_app, list_elem_of_singleton, Hr, Hs'.
      case_decide; [subst; split; auto|].
      split; [intros [?|?]; congruence | auto].
    + intros t. rewrite Hs'. case_decide; [done|]. apply Hrun.
    + rewrite Hs'. by case_decide.
    + destruct Hi as (y & Hy & Hw). rewrite Hs'. case_decide; eauto. by exists TASK_READY.
    + rewrite Hs'. case_decide as E; [|done]. rewrite E in Hc. congruence.
  - rewrite !bool_decide_eq_false_2 by congruence.
    exists s. rewrite app_nil_r. split; [done|]. split; [constructor; try done; by exists x|].
    split_and!; try done.
    intros t. case_bool_decide as Ht; [|done]. apply Hrun in Ht as E. subst t. congruence.
Qed.

Lemma wake_idle_spec s :
  sched_core s → (∀ t, st s t ≠ Some TASK_RUNNING) →
  ∃ s', wake_idle s = Ok s' ∧ sched_core s' ∧ same_frame s s' ∧
    running_thread s' = running_thread s ∧
    thread_ready_list s' = match thread_ready_list s with [] => [idle_thread s] | q => q end ∧
    (∀ t, st s' t = if bool_decide (t = idle_thread s ∧ thread_ready_list s = [])
                    then Some TASK_READY else st s t).
Proof.
  intros Hcore Hnr. pose proof Hcore as [Hnd Hr Hrun Hc (x & Hx & Hw) H0]. unfold wake_idle.
  case_bool_decide as He.
  - assert (idle_thread s ∉ thread_ready_list s) as Hn by (rewrite He; set_solver).
    assert (is_blocked x = true) as Hb.
    { destruct x; try done; [by destruct (Hnr (idle_thread s))|]. exfalso. by apply Hn, Hr. }
    rewrite (thread_unblock_eq _ _ x) by done. eexists. split; [done|].
    set (s' := upd _ _ _).
    assert (∀ t, st s' t = if decide (idle_thread s = t) then Some TASK_READY else st s t) as Hs'.
    { intros t. unfold s'. rewrite st_upd_status; [|cbn; by exists x]. by case_decide. }
    split; [constructor; cbn|split_and!; try done].
    + apply NoDup_cons. split; done.
    + intros t. rewrite elem_of_cons, Hr, Hs'. case_decide; [subst; split; auto|].
      split; [intros [?|?]; congruence | auto].
    + intros t. rewrite Hs'. case_decide; [done|]. intros E. by apply Hnr in E.
    + rewrite Hs'. by case_decide.
    + exists TASK_READY. rewrite Hs'. by case_decide.
    + rewrite Hs'. case_decide as E; [|done]. rewrite E in Hx. congruence.
    + cbn. by rewrite He.
    + intros t. rewrite Hs'. case_decide; case_bool_decide as E; try done; exfalso; [apply E; auto | by destruct E].
  - exists s. split_and!; try done; [by destruct (thread_ready_list s)|].
    intros t. rewrite bool_decide_eq_false_2; [done|]. by intros [_ ?].
Qed.

Lemma process_activate_frame s t :
  t ≠ NULL → is_Some (st s t) →
  ∃ c e, process_activate s t = Ok (set_mmu s c e).
Proof.
  intros Hn [x Hx]. destruct (pcb_st _ _ _ Hx) as (p & Hp & _).
  unfold process_activate, page_dir_activate. destruct (Z.eqb_spec t NULL); [done|]. ocbn.
  rewrite Hp. ocbn. change (pcb (set_mmu s ?a ?b) t) with (pcb s t). rewrite Hp. ocbn.
  destruct (pgdir p =? NULL); cbn; eauto.
Qed.

Lemma run_next_spec s next rest :
  sched_core s → (∀ t, st s t ≠ Some TASK_RUNNING) → thread_ready_list s = next :: rest →
  ∃ s', run_next s = Ok s' ∧ sched_core s' ∧ same_frame s s' ∧
    running_thread s' = next ∧ thread_ready_list s' = rest ∧
    (∀ t, st s' t = if decide (t = next) then Some TASK_RUNNING else st s t).
Proof.
  intros [Hnd Hr Hrun Hc (x & Hx & Hw) H0] Hnr Hq. unfold run_next. rewrite Hq.
  assert (st s next = Some TASK_READY) as Hn by (apply Hr; rewrite Hq; left).
  destruct (pcb_st _ _ _ Hn) as (p & Hp & _).
  change (pcb (set_ready s rest) next) with (pcb s next). rewrite Hp. ocbn.
  set (s1 := upd _ _ _).
  assert (∀ t, st s1 t = if decide (t = next) then Some TASK_RUNNING else st s t) as Hs1.
  { intros t. unfold s1. rewrite st_upd_status; [|by exists TASK_READY].
    repeat case_decide; done || congruence. }
  assert (next ≠ NULL) as Hnn by (intros E; rewrite E in Hn; congruence).
  destruct (process_activate_frame s1 next) as (c & e & ->); [done| |].
  { rewrite Hs1. by case_decide. }
  ocbn. eexists. split; [done|]. set (s' := switch_to _ _).
  assert (∀ t, st s' t = if decide (t = next) then Some TASK_RUNNING else st s t) as Hs' by apply Hs1.
  rewrite Hq in Hnd, Hr. apply NoDup_cons in Hnd as [Hnin Hnd].
  split; [constructor; cbn|split_and!; done].
  - done.
  - intros t. specialize (Hr t). rewrite elem_of_cons in Hr. rewrite Hs'.
    case_decide as E; [subst t; split; [done|intros [=]]|]. rewrite <- Hr. split; [auto|by intros [?|?]].
  - intros t. rewrite Hs'. case_decide; [done|]. intros E. by apply Hnr in E.
  - rewrite Hs'. by case_decide.
  - rewrite Hs'. case_decide; eauto. by exists TASK_RUNNING.
  - rewrite Hs'. case_decide; congruence.
Qed.

(** [schedule] always finds a thread to run: the first of the queue, to whose
    end the current thread goes if it can still run. *)
Lemma schedule_spec s :
  sched_core s → intr s = INTR_OFF →
  ∃ s', schedule s = Ok s' ∧ sched_core s' ∧ same_frame s s' ∧
    running_thread s' :: thread_ready_list s' = next_queue s ∧
    st s' (running_thread s') = Some TASK_RUNNING ∧
    (∀ t, t ∉ next_queue s → st s' t = st s t) ∧
    (∀ t, is_Some (st s' t) ↔ is_Some (st s t)).
Proof.
  intros Hcore Hi. unfold schedule. rewrite bool_decide_eq_true_2 by done. ocbn.
  destruct (requeue_spec s Hcore) as (s1 & -> & Hc1 & Hf1 & Hr1 & Hq1 & Hst1). ocbn.
  assert (∀ t, st s1 t ≠ Some TASK_RUNNING) as Hnr1.
  { intros t. rewrite Hst1. gdecide; congruence. }
  destruct (wake_idle_spec s1 Hc1 Hnr1) as (s2 & -> & Hc2 & Hf2 & Hr2 & Hq2 & Hst2). ocbn.
  assert (∀ t, st s2 t ≠ Some TASK_RUNNING) as Hnr2.
  { intros t. rewrite Hst2. gdecide; [congruence|apply Hnr1]. }
  assert (next_queue s = thread_ready_list s2) as Hnq.
  { unfold next_queue. rewrite Hq2, Hq1, (sf_idle _ _ Hf1). done. }
  destruct (thread_ready_list s2) as [|next rest] eqn:Eq2.
  { rewrite Hq1 in Hq2. by destruct (thread_ready_list s ++ _). }
  destruct (run_next_spec s2 next rest Hc2 Hnr2 Eq2) as (s3 & -> & Hc3 & Hf3 & Hr3 & Hq3 & Hst3).
  exists s3. split_and!; try done.
  - by rewrite Hf1, Hf2.
  - by rewrite Hr3, Hq3, Hnq.
  - rewrite Hst3, Hr3. by gdecide.
  - intros t Ht. rewrite Hnq in Ht. rewrite Hst3. gdecide; [set_solver|].
    rewrite Hst2. gdecide as E2.
    { destruct E2 as [-> E2]. rewrite E2 in Hq2. set_solver. }
    rewrite Hst1. gdecide as E1; [|done]. exfalso. apply Ht.
    apply (core_running _ Hcore) in E1 as Ec. subst t. rewrite Hq2, Hq1.
    rewrite bool_decide_eq_true_2 by done. destruct (thread_ready_list s); cbn; set_solver.
  - intros t. rewrite Hst3. gdecide as E.
    + subst t. assert (st s2 next = Some TASK_READY) as E2.
      { apply (core_ready _ Hc2). rewrite Eq2. set_solver. }
      revert E2. rewrite Hst2. gdecide as E3; intros E2.
      * destruct E3 as [-> _]. destruct (core_idle _ Hcore) as (x & Hx & _).
        rewrite (sf_idle _ _ Hf1). rewrite Hx. split; eauto.
      * revert E2. rewrite Hst1. gdecide as E4; intros E2; rewrite ?E2, ?E4; split; eauto.
    + rewrite Hst2. gdecide as E3.
      * destruct E3 as [-> _]. destruct (core_idle _ Hcore) as (x & Hx & _).
        rewrite (sf_idle _ _ Hf1), Hx. split; eauto.
      * rewrite Hst1. gdecide as E4; [rewrite E4|done]. split; eauto.
Qed.

(** Leaving the call in which the chosen thread was switched away. *)
Definition resume_intr (r : resume_point) : intr_status :=
  match r with
  | in_kernel_thread | in_intr_timer_handler => INTR_ON
  | in_thread_block old_status | in_thread_yield old_status => old_status
  end.

(** The result of a switch from state [s], in which the caller of [schedule] has
    stored the place to go on from, to the first thread of the queue [q]. *)
Record switched (s s' : kstate) (q : list Z) : Prop := Switched {
  sw_inv : sched_inv s';
  sw_queue : running_thread s' :: thread_ready_list s' = q;
  sw_all : thread_all_list s' = thread_all_list s;
  sw_main : main_thread s' = main_thread s;
  sw_idle : idle_thread s' = idle_thread s;
  sw_frame t : t ∉ q → st s' t = st s t;
  sw_dom t : is_Some (st s' t) ↔ is_Some (st s t);
  sw_resume : resume s' = delete (running_thread s') (resume s);
  sw_intr : Some (intr s') = resume_intr <$> resume s !! running_thread s'
}.

Lemma switch_spec s :
  sched_core s → intr s = INTR_OFF → (∀ t, is_Some (resume s !! t) ↔ is_Some (st s t)) →
  (∀ t, t ∈ thread_all_list s ↔ is_Some (st s t)) →
  ∃ s', (s ← schedule s; finish_switch s) = Ok s' ∧ switched s s' (next_queue s).
Proof.
  intros Hc Hi Hres Hall.
  destruct (schedule_spec s Hc Hi) as (s1 & -> & Hc1 & [Ha Hm Hid Hr Hi1] & Hq & Hrun & Hfr & Hdom).
  ocbn. unfold finish_switch. rewrite Hr.
  destruct (Hres (running_thread s1)) as [_ [r Hr1]]; [by apply Hdom; exists TASK_RUNNING|].
  rewrite Hr1. ocbn. eexists. split; [done|]. constructor; try done.
  - split; [destruct Hc1; by constructor|done|..]; intros t; cbn;
      change (st _ t) with (st s1 t); rewrite Hdom; [|by rewrite Ha].
    rewrite <- Hres, lookup_delete_is_Some. split; intros []; done.
  - cbn. by rewrite Hr1.
Qed.

(** The current thread about to call [schedule] with status [x], to go on at
    [r]: the state that [thread_block] and [thread_yield] build. *)
Definition leaving (s : kstate) (x : task_status) (r : resume_point) : kstate :=
  let cur := running_thread s in
  set_resume (upd (set_intr s INTR_OFF) cur (λ t, with_status t x)) (<[cur := r]> (resume s)).

Lemma st_leaving s x r t :
  sched_inv s → st (leaving s x r) t = if decide (running_thread s = t) then Some x else st s t.
Proof.
  intros [_ Hcur _ _]. unfold leaving. change (st (set_resume ?a ?b) t) with (st a t).
  by rewrite st_upd_status by (by exists TASK_RUNNING).
Qed.

Lemma leaving_resume s x r t :
  sched_inv s → is_Some (resume (leaving s x r) !! t) ↔ is_Some (st (leaving s x r) t).
Proof.
  intros Hinv. rewrite st_leaving by done. cbn. rewrite lookup_insert_is_Some, (inv_resume _ Hinv).
  gdecide as E; [split; [eauto|by left]|]. split; [by intros [?|(_ & ? & _)]|].
  intros ?. right. by repeat split; auto.
Qed.

Lemma leaving_all s x r t :
  sched_inv s → t ∈ thread_all_list (leaving s x r) ↔ is_Some (st (leaving s x r) t).
Proof.
  intros Hinv. rewrite st_leaving by done. cbn. rewrite (inv_all _ Hinv).
  gdecide as E; [|done]. subst t. rewrite (inv_cur _ Hinv). split; eauto.
Qed.

Lemma current_not_ready s : sched_inv s → running_thread s ∉ thread_ready_list s.
Proof. intros [[] Hcur _ _]. rewrite core_ready0, Hcur. by intros [=]. Qed.

Lemma thread_block_spec s stat :
  sched_inv s → is_blocked stat = true →
  ∃ s', thread_block s stat = Ok s' ∧
    switched (leaving s stat (in_thread_block (intr s))) s'
      match thread_ready_list s with [] => [idle_thread s] | q => q end.
Proof.
  intros Hinv Hb. pose proof Hinv as [[Hnd Hr Hrun Hc (x & Hx & Hw) H0] Hcur _ _].
  unfold thread_block. rewrite Hb. ocbn. destruct (pcb_st _ _ _ Hcur) as (p & Hp & _).
  change (pcb (set_intr s INTR_OFF) ?t) with (pcb s t). cbn [running_thread set_intr].
  rewrite Hp. ocbn. set (s1 := set_resume _ _). change s1 with (leaving s stat (in_thread_block (intr s))).
  assert (stat ≠ TASK_RUNNING ∧ stat ≠ TASK_READY ∧ stat ≠ TASK_DIED) as (N1 & N2 & N3)
    by (destruct stat; done).
  set (s2 := leaving _ _ _).
  assert (∀ t, st s2 t = if decide (running_thread s = t) then Some stat else st s t) as Hs2
    by (intros; by apply st_leaving).
  assert (next_queue s2 = match thread_ready_list s with [] => [idle_thread s] | q => q end) as <-.
  { unfold next_queue. rewrite Hs2. cbn [running_thread leaving s2 set_resume upd set_tasks set_intr].
    destruct (decide _); [|done]. rewrite bool_decide_eq_false_2 by congruence.
    by rewrite app_nil_r. }
  apply switch_spec; [|done|intros t; by apply leaving_resume|intros t; by apply leaving_all].
  constructor; try intros t; rewrite ?Hs2;
    cbn [running_thread thread_ready_list idle_thread s2 leaving set_resume upd set_tasks set_intr].
  - done.
  - rewrite Hr. gdecide; [|done]. subst t. rewrite Hcur. split; congruence.
  - gdecide; [congruence|apply Hrun].
  - by gdecide.
  - gdecide; [by exists stat|by exists x].
  - gdecide as E; [|done]. rewrite E in Hcur. congruence.
Qed.

Lemma thread_yield_spec s :
  sched_inv s →
  ∃ s', thread_yield s = Ok s' ∧
    switched (set_ready (leaving s TASK_READY (in_thread_yield (intr s)))
                (thread_ready_list s ++ [running_thread s])) s'
      (thread_ready_list s ++ [running_thread s]).
Proof.
  intros Hinv. pose proof Hinv as [[Hnd Hr Hrun Hc (x & Hx & Hw) H0] Hcur _ _].
  pose proof (current_not_ready s Hinv) as Hnin.
  unfold thread_yield. cbn [thread_ready_list set_intr].
  rewrite bool_decide_eq_false_2 by done. ocbn. destruct (pcb_st _ _ _ Hcur) as (p & Hp & _).
  change (pcb (set_ready _ _) ?t) with (pcb s t). rewrite Hp. ocbn.
  set (s1 := set_resume _ _).
  set (s2 := set_ready (leaving _ _ _) _). change s1 with s2. clear s1.
  assert (∀ t, st s2 t = if decide (running_thread s = t) then Some TASK_READY else st s t) as Hs2
    by (intros; by apply st_leaving).
  assert (next_queue s2 = thread_ready_list s ++ [running_thread s]) as <-.
  { unfold next_queue. rewrite Hs2. cbn [running_thread leaving s2 set_ready set_resume upd set_tasks set_intr].
    destruct (decide _); [|done]. rewrite bool_decide_eq_false_2 by congruence.
    rewrite app_nil_r. cbn. by destruct (thread_ready_list s). }
  apply switch_spec; [|done|intros t; by apply leaving_resume|intros t; by apply leaving_all].
  constructor; try intros t; rewrite ?Hs2;
    cbn [running_thread thread_ready_list idle_thread s2 set_ready leaving set_resume upd set_tasks set_intr].
  - apply NoDup_app. split_and!; [done| |by apply NoDup_singleton].
    by intros t Ht ->%list_elem_of_singleton.
  - rewrite elem_of_app, list_elem_of_singleton, Hr. gdecide; [subst; split; auto|].
    split; [intros [?|?]; congruence | auto].
  - gdecide; [congruence|apply Hrun].
  - by gdecide.
  - gdecide; [by exists TASK_READY|by exists x].
  - gdecide as E; [|done]. rewrite E in Hcur. congruence.
Qed.

Lemma thread_unblock_spec s t x :
  sched_inv s → st s t = Some x → is_blocked x = true →
  ∃ s', thread_unblock s t = Ok s' ∧ sched_inv s' ∧ same_frame s s' ∧
    running_thread s' = running_thread s ∧ thread_ready_list s' = t :: thread_ready_list s ∧
    (∀ t', st s' t' = if decide (t = t') then Some TASK_READY else st s t').
Proof.
  intros [[Hnd Hr Hrun Hc (y & Hy & Hw) H0] Hcur Hres Hall] Hx Hb.
  assert (t ∉ thread_ready_list s) as Hn by (rewrite Hr, Hx; intros [= ->]; done).
  rewrite (thread_unblock_eq _ _ x) by done. eexists. split; [done|]. set (s' := upd _ _ _).
  assert (∀ t', st s' t' = if decide (t = t') then Some TASK_READY else st s t') as Hs'.
  { intros t'. unfold s'. by rewrite st_upd_status by (by exists x). }
  assert (t ≠ running_thread s) as Hne.
  { intros ->. rewrite Hcur in Hx. injection Hx as <-. done. }
  split; [|split_and!; done]. split; [constructor|..]; try intros t'; rewrite ?Hs'; cbn.
  - by apply NoDup_cons.
  - rewrite elem_of_cons, Hr. gdecide; [subst; split; auto|].
    split; [intros [?|?]; congruence | auto].
  - gdecide; [congruence|apply Hrun].
  - by gdecide.
  - gdecide; [by exists TASK_READY|by exists y].
  - gdecide as E; [|done]. rewrite E in Hx. congruence.
  - by gdecide.
  - rewrite Hres. gdecide as E; [|done]. subst t'. rewrite Hx. split; intros [? ?]; eauto.
  - rewrite Hall. gdecide as E; [|done]. subst t'. rewrite Hx. split; eauto.
Qed.

Lemma thread_enqueue_spec s t p :
  sched_inv s → st s t = None → t ≠ NULL → status p = TASK_READY →
  ∃ s', thread_enqueue s t p = Ok s' ∧ sched_inv s' ∧
    running_thread s' = running_thread s ∧ idle_thread s' = idle_thread s ∧
    main_thread s' = main_thread s ∧ intr s' = intr s ∧
    thread_ready_list s' = thread_ready_list s ++ [t] ∧
    thread_all_list s' = thread_all_list s ++ [t] ∧
    tasks s' = <[t := p]> (tasks s) ∧ resume s' = <[t := in_kernel_thread]> (resume s) ∧
    (∀ t', st s' t' = if decide (t = t') then Some TASK_READY else st s t').
Proof.
  intros [[Hnd Hr Hrun Hc (y & Hy & Hw) H0] Hcur Hres Hall] Ht Hn Hp. unfold thread_enqueue.
  cbn [thread_ready_list thread_all_list set_tasks set_resume set_ready].
  assert (t ∉ thread_ready_list s) as Hn1 by (rewrite Hr, Ht; by intros [=]).
  rewrite (bool_decide_eq_false_2 (t ∈ thread_ready_list s)) by done. ocbn.
  rewrite (bool_decide_eq_false_2 (t ∈ thread_all_list s))
    by (rewrite Hall, Ht; by intros [? [=]]). ocbn.
  eexists. split; [done|]. set (s' := set_all _ _).
  assert (∀ t', st s' t' = if decide (t = t') then Some TASK_READY else st s t') as Hs'.
  { intros t'. unfold st, s'. cbn. rewrite lookup_insert. gdecide; [|done]. cbn. by rewrite Hp. }
  assert (t ≠ running_thread s) as Hne by (intros ->; congruence).
  split; [|split_and!; done]. split; [constructor|..]; try intros t'; rewrite ?Hs'; cbn.
  - apply NoDup_app. split_and!; [done| |by apply NoDup_singleton].
    by intros t' Ht' ->%list_elem_of_singleton.
  - rewrite elem_of_app, list_elem_of_singleton, Hr. gdecide; [subst; split; auto|].
    split; [intros [?|?]; congruence | auto].
  - gdecide; [congruence|apply Hrun].
  - by gdecide.
  - gdecide; [by exists TASK_READY|by exists y].
  - gdecide as E; [|done]. congruence.
  - by gdecide.
  - rewrite lookup_insert_is_Some, Hres. gdecide as E.
    + subst t'. split; [by eauto|by left].
    + split; [by intros [?|(_ & ? & ?)]|]. intros ?. by right.
  - rewrite elem_of_app, list_elem_of_singleton, Hall. gdecide as E.
    + subst t'. split; [by eauto|by right].
    + split; [intros [?|?]; [done|congruence]|by left].
Qed.

(** No scheduling operation changes anything else of a control block. *)
Lemma thread_unblock_kept s t s' : thread_unblock s t = Ok s' → kept s s'.
Proof.
  unfold thread_unblock. destruct (pcb _ _); ocbn; [|done..].
  destruct (is_blocked _); ocbn; [|done].
  destruct (negb _); ocbn; [|by intros [= <-]].
  destruct (bool_decide _); ocbn; [done|]. intros [= <-]. by eapply kept_upd.
Qed.

Lemma process_activate_kept s t s' : process_activate s t = Ok s' → kept s s'.
Proof.
  unfold process_activate, page_dir_activate. destruct (negb _); ocbn; [|done].
  destruct (pcb s t) as [p| | | |]; ocbn; [|done..].
  destruct (pcb _ t) as [p'| | | |]; ocbn; [|done..].
  destruct (pgdir p' =? NULL); by intros [= <-].
Qed.

Lemma schedule_kept s s' : schedule s = Ok s' → kept s s'.
Proof.
  unfold schedule. intros (? & _ & (s1 & H1 & (s2 & H2 & H3)%bind_ok)%bind_ok)%bind_ok.
  transitivity s1; [|transitivity s2].
  - revert H1. unfold requeue_current. destruct (pcb _ _) as [p| | | |]; ocbn; [|done..].
    destruct (bool_decide _); ocbn; [|by intros [= <-]].
    destruct (bool_decide _); ocbn; [done|]. intros [= <-].
    transitivity (upd (set_ready s (thread_ready_list s ++ [running_thread s])) (running_thread s)
      (λ t, with_ticks t (priority t))); by eapply kept_upd.
  - revert H2. unfold wake_idle. destruct (bool_decide _); [|by intros [= <-]].
    apply thread_unblock_kept.
  - revert H3. unfold run_next. destruct (thread_ready_list s2) as [|next rest]; [done|].
    destruct (pcb _ _); ocbn; [|done..]. intros (s3 & H3 & [= <-])%bind_ok.
    apply process_activate_kept in H3. transitivity s3; [|done].
    etransitivity; [|done]. by eapply kept_upd.
Qed.

Lemma switch_kept s s' : (s ← schedule s; finish_switch s) = Ok s' → kept s s'.
Proof.
  intros (s1 & H1%schedule_kept & H2)%bind_ok. revert H2. unfold finish_switch.
  destruct (resume s1 !! _); ocbn; [|done]. by intros [= <-].
Qed.

Lemma thread_block_kept s stat s' : thread_block s stat = Ok s' → kept s s'.
Proof.
  unfold thread_block. destruct (is_blocked stat); ocbn; [|done].
  destruct (pcb _ _); ocbn; [|done..]. intros Hs%switch_kept. etransitivity; [|exact Hs].
  by eapply kept_upd.
Qed.

Lemma thread_yield_kept s s' : thread_yield s = Ok s' → kept s s'.
Proof.
  unfold thread_yield. destruct (bool_decide _); ocbn; [done|].
  destruct (pcb _ _); ocbn; [|done..]. intros Hs%switch_kept. etransitivity; [|exact Hs].
  by eapply kept_upd.
Qed.
End specs.

(** ** Round robin *)

Section round_robin.
Context `{AddrV2P}.

(** [n] threads in a row give the processor away. *)
Fixpoint yields (n : nat) (s : kstate) : outcome kstate :=
  match n with
  | O => Ok s
  | S n' => s ← yields n' s; thread_yield s
  end.

Lemma yields_rotate n s :
  sched_inv s → (n ≤ S (length (thread_ready_list s)))%nat →
  ∃ s', yields n s = Ok s' ∧ sched_inv s' ∧
    running_thread s' :: thread_ready_list s' =
      drop n (running_thread s :: thread_ready_list s) ++
      take n (running_thread s :: thread_ready_list s).
Proof.
  intros Hinv. set (q := running_thread s :: thread_ready_list s).
  assert (S (length (thread_ready_list s)) = length q) as -> by done.
  induction n as [|n IH]; intros Hn.
  - exists s. by rewrite drop_0, take_0, app_nil_r.
  - destruct IH as (s1 & Heq & Hinv1 & Hq); [lia|]. cbn [yields]. rewrite Heq. ocbn.
    destruct (thread_yield_spec s1 Hinv1) as (s2 & Hy & Hsw). exists s2.
    split; [done|]. split; [apply Hsw|]. rewrite (sw_queue _ _ _ Hsw).
    destruct (lookup_lt_is_Some_2 q n) as [x Hx]; [lia|].
    rewrite (drop_S _ _ _ Hx) in Hq. cbn in Hq. injection Hq as -> ->.
    rewrite (take_S_r _ _ _ Hx), app_assoc. done.
Qed.

(** C33. Round robin: when the threads give the processor away in turn, the
    [i]-th thread of the ready list runs after [i] switches, and after one round
    the thread that began runs again with the ready list as it was; no call of
    [thread_yield] fails. *)
Theorem round_robin s :
  sched_inv s →
  (∀ i t, thread_ready_list s !! i = Some t →
     ∃ s', yields (S i) s = Ok s' ∧ running_thread s' = t) ∧
  (∃ s', yields (S (length (thread_ready_list s))) s = Ok s' ∧
     running_thread s' = running_thread s ∧ thread_ready_list s' = thread_ready_list s).
Proof.
  intros Hinv. split.
  - intros i t Ht. pose proof (lookup_lt_Some _ _ _ Ht).
    destruct (yields_rotate (S i) s Hinv) as (s' & Heq & _ & Hq); [lia|]. exists s'.
    split; [done|]. cbn in Hq. rewrite (drop_S _ _ _ Ht) in Hq. by injection Hq.
  - destruct (yields_rotate (S (length (thread_ready_list s))) s Hinv) as (s' & Heq & _ & Hq); [lia|].
    exists s'. split; [done|]. cbn in Hq. rewrite drop_all, firstn_all in Hq. by injection Hq.
Qed.
End round_robin.

(** ** Deciding the invariant on a concrete state *)

Definition sched_inv_b (s : kstate) : bool :=
  let q := thread_ready_list s in
  bool_decide (NoDup q) && bool_decide (Forall (λ t, st s t = Some TASK_READY) q) &&
  bool_decide (map_Forall (λ t p,
    (status p = TASK_READY → t ∈ q) ∧ (status p = TASK_RUNNING → t = running_thread s) ∧
    (t ≠ running_thread s → is_Some (resume s !! t))) (tasks s)) &&
  bool_decide (st s (running_thread s) = Some TASK_RUNNING) &&
  bool_decide (is_Some (st s (idle_thread s)) ∧ st s (idle_thread s) ≠ Some TASK_DIED) &&
  bool_decide (st s NULL = None) &&
  bool_decide (map_Forall (λ t _, is_Some (st s t) ∧ t ≠ running_thread s) (resume s)) &&
  bool_decide (Forall (λ t, is_Some (st s t)) (thread_all_list s)) &&
  bool_decide (map_Forall (λ t _, t ∈ thread_all_list s) (tasks s)).

Lemma sched_inv_b_ok s : sched_inv_b s = true → sched_inv s.
Proof.
  unfold sched_inv_b. rewrite !andb_true_iff, !bool_decide_eq_true.
  intros [[[[[[[[Hnd Hq] Ht] Hc] [[x Hi] Hi']] H0] Hr] Ha] Ha'].
  rewrite Forall_forall in Hq, Ha.
  split; [constructor|..]; try done.
  - intros t. split; [apply Hq|]. unfold st. destruct (tasks s !! t) as [p|] eqn:E; [|done].
    intros [= Hp]. destruct (Ht t p E) as (H1 & _ & _). auto.
  - intros t. unfold st. destruct (tasks s !! t) as [p|] eqn:E; [|done].
    intros [= Hp]. destruct (Ht t p E) as (_ & H1 & _). auto.
  - exists x. split; [done|]. intros ->. done.
  - intros t. split; [intros [r Hr']; by apply (Hr t r)|]. unfold st.
    intros [[y Hy] Hne]. destruct (tasks s !! t) as [p|] eqn:E; [|done].
    destruct (Ht t p E) as (_ & _ & H1). auto.
  - intros t. split; [apply Ha|]. unfold st. intros [y Hy].
    destruct (tasks s !! t) as [p|] eqn:E; [|done]. by apply (Ha' t p).
Qed.

Module RoundRobinExample.
#[local] Instance v2p : AddrV2P := λ v, v - 3221225472.

Definition task (x : task_status) : task_struct :=
  TaskStruct 0 0 x [] 31 31 0 NULL [] 0 428280086.

Definition three : kstate :=
  KState (<[4096 := task TASK_RUNNING]> (<[8192 := task TASK_READY]>
           (<[12288 := task TASK_READY]> ∅)))
         [8192; 12288] [4096; 8192; 12288] 4096 4096 12288 INTR_ON
         (<[8192 := in_kernel_thread]> (<[12288 := in_kernel_thread]> ∅)) 1048576 0.

Lemma round_robin_witness :
  ∃ s', yields 2 three = Ok s' ∧ running_thread s' = 12288.
Proof.
  exact (proj1 (round_robin three (sched_inv_b_ok three ltac:(by vm_compute))) 1%nat 12288 eq_refl).
Defined.
End RoundRobinExample.
