(* ===== verification/Timer.v ===== *)
(** * device/timer.c: the clock interrupt and sleeping

    The clock interrupt charges the current thread a tick and calls
    [schedule] when its time slice is used up.  [frequency_set] programs the
    8253 with three port writes. *)

From stdpp Require Import base numbers list gmap.
From Stdlib Require Import ZArith Lia.
From S2P Require Import Prelude Interrupt Thread.

Definition IRQ0_FREQUENCY : Z := 100.
Definition INPUT_FREQUENCY : Z := 1193180.
Definition COUNTER0_VALUE : Z := INPUT_FREQUENCY / IRQ0_FREQUENCY.
Definition COUNTER0_PORT : Z := 64.
Definition COUNTER0_NO : Z := 0.
Definition COUNTER_MODE : Z := 2.
Definition READ_WRITE_LATCH : Z := 3.
Definition PIT_CONTROL_PORT : Z := 67.
Definition mil_seconds_per_intr : Z := 1000 / IRQ0_FREQUENCY.
Definition stack_magic_number : Z := 428280086.

(** The [outb]s of [frequency_set], port and value.  The cast in
    [(uint8_t) counter_value >> 8] binds tighter than the shift. *)
Definition frequency_set (counter_port counter_no rwl counter_mode counter_value : Z)
    : list (Z * Z) :=
  [(PIT_CONTROL_PORT,
      u8 (Z.lor (Z.lor (Z.shiftl (u8 counter_no) 6) (Z.shiftl (u8 rwl) 4))
                (Z.shiftl (u8 counter_mode) 1)));
   (u8 counter_port, u8 (u16 counter_value));
   (u8 counter_port, Z.shiftr (u8 (u16 counter_value)) 8)].

(** [timer_init]: the port writes, and the handler table with the handler for
    vector 0x20 entered. *)
Definition timer_init (intr_timer_handler : Z) (idt_table : list Z)
    : outcome (list (Z * Z) * list Z) :=
  idt_table ← register_handler idt_table 32 intr_timer_handler;
  Ok (frequency_set COUNTER0_PORT COUNTER0_NO READ_WRITE_LATCH COUNTER_MODE COUNTER0_VALUE,
      idt_table).

Section handler.
Context `{AddrV2P}.

(** [intr_timer_handler], on the global [ticks] and the scheduler's state.
    When it calls [schedule], it is left in the thread chosen. *)
Definition intr_timer_handler (now : Z) (s : kstate) : outcome (Z * kstate) :=
  let cur_thread := running_thread s in
  t ← pcb s cur_thread;
  ASSERT (stack_magic t =? stack_magic_number);;
  let s := upd s cur_thread (λ t, with_elapsed_ticks t (u32 (elapsed_ticks t + 1))) in
  let now := u32 (now + 1) in
  if ticks t =? 0 then
    let s := set_resume s (<[cur_thread := in_intr_timer_handler]> (resume s)) in
    s ← (s ← schedule s; finish_switch s);
    Ok (now, s)
  else Ok (now, upd s cur_thread (λ t, with_ticks t (u8 (ticks t - 1)))).

(** The interrupt as the processor takes it: only with interrupts on, through
    a gate that switches them off; [iret] switches them on again. *)
Definition clock_interrupt (now : Z) (s : kstate) : outcome (Z * kstate) :=
  match intr s with
  | INTR_OFF => Ok (now, s)
  | INTR_ON =>
      '(now, s') ← intr_timer_handler now (set_intr s INTR_OFF);
      Ok (now, if bool_decide (running_thread s' = running_thread s)
               then set_intr s' INTR_ON else s')
  end.
End handler.

(** [ticks_to_sleep]: the loop gives the processor away until enough ticks have
    passed.  [ticks_at n] is the value of the global counter at the [n]-th test;
    the result is the number of calls of [thread_yield]. *)
Definition ticks_to_sleep (fuel : nat) (ticks_at : nat → Z) (start_tick sleep_ticks : Z)
    : outcome nat :=
  loop fuel (λ n, if u32 (ticks_at n - start_tick) <? sleep_ticks then Ok (inl (S n))
                  else Ok (inr n)) O.

Definition mtime_sleep (fuel : nat) (ticks_at : nat → Z) (start_tick m_seconds : Z)
    : outcome nat :=
  let sleep_ticks := DIV_ROUND_UP m_seconds mil_seconds_per_intr in
  ASSERT (0 <? sleep_ticks);;
  ticks_to_sleep fuel ticks_at start_tick sleep_ticks.

(** ** The clock interrupt and the scheduler's invariant *)

(** Every control block carries the magic number at the end of its stack. *)
Definition magic_ok (s : kstate) : Prop :=
  ∀ t p, tasks s !! t = Some p → stack_magic p = stack_magic_number.

Lemma magic_kept s s' : kept s s' → magic_ok s → magic_ok s'.
Proof.
  intros Hk Hm t p Hp. specialize (Hk t). rewrite Hp in Hk. cbn in Hk.
  destruct (tasks s !! t) as [p'|] eqn:E; [|done]. injection Hk as Hk.
  by rewrite <- (Hm t p' E).
Qed.

Lemma magic_upd s t f :
  (∀ p, stack_magic (f p) = stack_magic p) → magic_ok s → magic_ok (upd s t f).
Proof.
  intros Hf Hm t' p. unfold upd. cbn. rewrite lookup_alter. gdecide; [|apply Hm].
  destruct (tasks s !! t) as [q|] eqn:Eq; [|done]. cbn. intros [= <-]. rewrite Hf. eauto.
Qed.

Section handler_spec.
Context `{AddrV2P}.
Implicit Types s : kstate.

(** A state in which some control block differs in fields other than the
    status satisfies the invariant as well. *)
Lemma sched_inv_upd_keep s t f :
  (∀ p, status (f p) = status p) → sched_inv s → sched_inv (upd s t f).
Proof.
  intros Hf [[Hnd Hr Hrun Hc Hi H0] Hcur Hres Hall].
  split; [constructor|..]; cbn; try intros t'; rewrite ?st_upd_keep by done; eauto.
Qed.

Lemma sched_inv_intr s i : sched_inv s → sched_inv (set_intr s i).
Proof. intros [[] ]. by split; [constructor|..]. Qed.

(** [switched] sees the state before only through its scheduling part. *)
Lemma switched_from s1 s2 s' q :
  (∀ t, st s1 t = st s2 t) → thread_all_list s1 = thread_all_list s2 →
  main_thread s1 = main_thread s2 → idle_thread s1 = idle_thread s2 →
  resume s1 = resume s2 → switched s1 s' q → switched s2 s' q.
Proof.
  intros Hst Ha Hm Hi Hr []. constructor; try congruence; intros t.
  - intros Ht. rewrite <- Hst. auto.
  - by rewrite <- Hst.
Qed.

(** The clock interrupt in any thread: it charges the thread, and at the end of
    the time slice the thread goes to the end of the queue. *)
Lemma clock_interrupt_spec now s :
  sched_inv s → magic_ok s → intr s = INTR_ON →
  ∃ s', clock_interrupt now s = Ok (u32 (now + 1), s') ∧ sched_inv s' ∧ magic_ok s' ∧
    thread_all_list s' = thread_all_list s ∧ main_thread s' = main_thread s ∧
    idle_thread s' = idle_thread s ∧
    (∀ t, is_Some (st s' t) ↔ is_Some (st s t)) ∧
    ((running_thread s' = running_thread s ∧ thread_ready_list s' = thread_ready_list s ∧
      resume s' = resume s ∧ intr s' = INTR_ON ∧ ∀ t, st s' t = st s t) ∨
     switched (set_resume (set_intr s INTR_OFF)
                 (<[running_thread s := in_intr_timer_handler]> (resume s))) s'
       (thread_ready_list s ++ [running_thread s])).
Proof.
  intros Hinv Hm Hi. unfold clock_interrupt. rewrite Hi. unfold intr_timer_handler.
  pose proof (inv_cur _ Hinv) as Hcur. destruct (pcb_st _ _ _ Hcur) as (p & Hp & Hst).
  change (pcb (set_intr _ _) ?t) with (pcb s t). cbn [running_thread set_intr]. rewrite Hp. ocbn.
  rewrite (Hm (running_thread s) p), Z.eqb_refl; cycle 1.
  { revert Hp. unfold pcb. by destruct (tasks s !! _); intros [= ->]. }
  ocbn. set (s1 := upd (set_intr s INTR_OFF) _ _).
  assert (sched_inv s1) as Hinv1 by (apply sched_inv_upd_keep, sched_inv_intr; done).
  assert (magic_ok s1) as Hm1 by (by apply magic_upd).
  assert (∀ t, st s1 t = st s t) as Hst1
    by (intros t; unfold s1; by rewrite st_upd_keep).
  destruct (ticks p =? 0).
  - set (s2 := set_resume _ _).
    assert (∀ t, st s2 t = st s t) as Hst2 by (intros; apply Hst1).
    assert (next_queue s2 = thread_ready_list s ++ [running_thread s]) as Hq.
    { unfold next_queue. rewrite Hst2.
      cbn [running_thread s2 s1 set_resume upd set_tasks set_intr thread_ready_list].
      rewrite bool_decide_eq_true_2 by done. by destruct (thread_ready_list s). }
    destruct (switch_spec s2) as (s3 & Heq & Hsw).
    { destruct Hinv1 as [[] ]. by constructor. }
    { done. }
    { intros t. rewrite Hst2. cbn. rewrite lookup_insert_is_Some, (inv_resume _ Hinv).
      destruct (decide (running_thread s = t)) as [<-|]; [rewrite Hcur; split; eauto|].
      split; [by intros [?|(_ & ? & _)]|]. intros ?. right. by repeat split; auto. }
    { intros t. rewrite Hst2. apply (inv_all _ Hinv). }
    rewrite Heq. ocbn. rewrite Hq in Hsw.
    pose proof (switch_kept _ _ Heq) as Hk.
    assert ((if bool_decide (running_thread s3 = running_thread s)
             then set_intr s3 INTR_ON else s3) = s3) as ->.
    { gdecide as E; [|done]. pose proof (sw_intr _ _ _ Hsw) as Hi3. rewrite E in Hi3.
      cbn in Hi3. rewrite lookup_insert_eq in Hi3. injection Hi3 as Hon.
      rewrite <- Hon. by destruct s3. }
    exists s3. split; [done|]. split_and!; try apply Hsw.
    + by eapply magic_kept.
    + intros t. by rewrite (sw_dom _ _ _ Hsw), Hst2.
    + right. by eapply switched_from.
  - eexists. split; [done|]. rewrite bool_decide_eq_true_2 by done.
    assert (∀ t, st (upd s1 (running_thread s) (λ t, with_ticks t (u8 (ticks t - 1)))) t = st s t)
      as Hst3 by (intros t; rewrite st_upd_keep; [apply Hst1|done]).
    split_and!; try done.
    + by apply sched_inv_intr, sched_inv_upd_keep.
    + by apply (magic_upd s1).
    + intros t. change (st (set_intr ?a ?b) t) with (st a t). by rewrite Hst3.
    + left. split_and!; try done.
Qed.
End handler_spec.

(** ** Programming the 8253 *)

(** The 16-bit count the 8253 latches from the two bytes sent to its data
    port, low byte first. *)
Definition latched_count (writes : list (Z * Z)) (port : Z) : Z :=
  match filter (λ w, w.1 = port) writes with
  | [(_, low); (_, high)] => low + 256 * high
  | _ => 0
  end.

(** [frequency_set] never sends the high byte of the count: the counter is
    loaded with the count modulo 256.  So [timer_init] loads 155 where it means
    11931, and the clock ticks 76 times too fast. *)
Theorem frequency_set_drops_high_byte port no rwl mode v idt h :
  length idt = 129%nat → 0 ≤ port < 256 → port ≠ PIT_CONTROL_PORT →
  latched_count (frequency_set port no rwl mode v) port = v mod 256 ∧
  (∃ idt', timer_init h idt =
     Ok (frequency_set COUNTER0_PORT COUNTER0_NO READ_WRITE_LATCH COUNTER_MODE COUNTER0_VALUE,
         idt') ∧ idt' !! 32%nat = Some h) ∧
  COUNTER0_VALUE = 11931 ∧
  latched_count (frequency_set COUNTER0_PORT COUNTER0_NO READ_WRITE_LATCH COUNTER_MODE
    COUNTER0_VALUE) COUNTER0_PORT = 155.
Proof.
  intros Hl Hp Hne. split_and!.
  - unfold latched_count, frequency_set. rewrite (u8_small port) by lia.
    rewrite filter_cons_False by (cbn; congruence).
    rewrite !filter_cons_True by done. rewrite filter_nil.
    rewrite Z.shiftr_div_pow2, (Z.div_small (u8 _)) by (pose proof (u8_range (u16 v)); lia).
    unfold u8, u16. change (2 ^ 16) with 65536. change (2 ^ 8) with 256. zdlia.
  - unfold timer_init, register_handler. rewrite Hl. cbn. eexists. split; [done|].
    change (Z.to_nat (u8 32)) with 32%nat. rewrite list_lookup_insert_eq; [done|lia].
  - done.
  - done.
Qed.

Lemma frequency_set_drops_high_byte_witness :
  latched_count (frequency_set 64 0 3 2 11931) 64 = 155.
Proof.
  exact (proj1 (frequency_set_drops_high_byte 64 0 3 2 11931 (replicate 129 0) 7
    eq_refl ltac:(lia) ltac:(done))).
Defined.

(** ** Sleeping *)

(** C39. A sleep of [m] milliseconds ends at the first test of the tick counter
    at which [m / 10] ticks, rounded up, have passed since it began, however
    often other threads run in between and also when the 32-bit counter wraps
    around; a sleep of no milliseconds stops the kernel. *)
Theorem mtime_sleep_correct (elapsed : nat → Z) start m n fuel :
  0 < m ≤ 4294967286 →
  (∀ i, (i ≤ n)%nat → 0 ≤ elapsed i < 2 ^ 32) →
  (∀ i, (i < n)%nat → elapsed i < (m + 9) / 10) →
  (m + 9) / 10 ≤ elapsed n → (n < fuel)%nat →
  mtime_sleep fuel (λ i, u32 (start + elapsed i)) start m = Ok n ∧
  mtime_sleep fuel (λ i, u32 (start + elapsed i)) start 0 = Panic.
Proof.
  intros Hm Hr Hlt Hn Hf. unfold mtime_sleep, DIV_ROUND_UP.
  change mil_seconds_per_intr with 10. split; [|done].
  rewrite (u32_small (m + 10 - 1)) by lia. replace (m + 10 - 1) with (m + 9) by lia.
  destruct (Z.ltb_spec 0 ((m + 9) / 10)); [|zdlia]. ocbn. unfold ticks_to_sleep.
  set (body := λ i : nat, _).
  assert (∀ i, (i ≤ n)%nat → u32 (u32 (start + elapsed i) - start) = elapsed i) as He.
  { intros i Hi. specialize (Hr i Hi). unfold u32.
    rewrite Zminus_mod_idemp_l. replace (start + elapsed i - start) with (elapsed i) by lia.
    by apply Z.mod_small. }
  destruct (loop_total body (λ i, (i ≤ n)%nat) (λ i, (n - i)%nat) (eq n)) with (fuel := fuel) (s := O)
    as (r & Hr' & <-); [|lia|lia|done].
  intros i Hi. unfold body. rewrite He by done.
  destruct (decide (i = n)) as [->|Hne].
  - right. exists n. destruct (Z.ltb_spec (elapsed n) ((m + 9) / 10)); [lia|done].
  - left. exists (S i). specialize (Hlt i ltac:(lia)).
    destruct (Z.ltb_spec (elapsed i) ((m + 9) / 10)); [|lia]. split; [done|lia].
Qed.

Lemma mtime_sleep_correct_witness :
  mtime_sleep 20 (λ i, u32 (4294967290 + 3 * Z.of_nat i)) 4294967290 95 = Ok 4%nat.
Proof.
  refine (proj1 (mtime_sleep_correct (λ i, 3 * Z.of_nat i) 4294967290 95 4 20 _ _ _ _ _));
    [lia|intros; lia| |vm_compute; congruence|lia].
  intros i Hi. change ((95 + 9) / 10) with 10. lia.
Defined.
