(* ===== verification/Sync.v ===== *)
(** * thread/sync.c: semaphores and locks, under preemption

    The code of sync.c runs in many threads at once: the clock interrupt may
    take the processor from a thread between any two of its statements while
    interrupts are on, and [sema_down] gives it away itself.  [pc] says between
    which statements of [lock_acquire] or [lock_release] a thread is; [lock_step]
    runs the current thread to its next statement; [step] is one step of the
    whole system: a statement of the current thread, a clock interrupt, or a
    call.  What [sema_down] and [sema_up] do with interrupts off is one step, up
    to the switch to another thread in [thread_block]. *)

From stdpp Require Import base numbers list gmap.
From Stdlib Require Import ZArith Lia.
From S2P Require Import Prelude Interrupt Thread Timer.

(** ** Data *)

Record semaphore := Semaphore {
  value : Z;
  waiters : list Z
}.

Record lock := Lock {
  holder : Z;
  sema : semaphore;
  holder_repeat_nr : Z
}.

Definition sema_init (v : Z) : semaphore := Semaphore (u8 v) [].
Definition lock_init : lock := Lock NULL (sema_init 1) 0.

(** Where a thread is in sync.c.  [DownLoop l old] is the head of the [while]
    of [sema_down] on the semaphore of lock [l], entered with interrupt state
    [old]. *)
Inductive pc :=
  | User
  | AcqTest (l : Z)
  | DownEnter (l : Z)
  | DownLoop (l : Z) (old_status : intr_status)
  | AcqHolder (l : Z)
  | AcqRepeat (l : Z)
  | AcqAgain (l : Z)
  | RelCheck (l : Z)
  | RelTest (l : Z)
  | RelDec (l : Z)
  | RelHolder (l : Z)
  | RelRepeat (l : Z)
  | UpEnter (l : Z).
#[export] Instance pc_eq_dec : EqDecision pc.
Proof. solve_decision. Defined.

Record sys := Sys {
  ks : kstate;
  locks : gmap Z lock;
  pcs : gmap Z pc;
  now : Z
}.

Definition pc_of (σ : sys) (t : Z) : pc := default User (pcs σ !! t).
Definition set_pc (σ : sys) (p : pc) : sys :=
  Sys (ks σ) (locks σ) (<[running_thread (ks σ) := p]> (pcs σ)) (now σ).
Definition set_ks (σ : sys) (s : kstate) : sys := Sys s (locks σ) (pcs σ) (now σ).
Definition set_lock (σ : sys) (l : Z) (lk : lock) : sys :=
  Sys (ks σ) (<[l := lk]> (locks σ)) (pcs σ) (now σ).

(** ** Operations *)

Section operations.
Context `{AddrV2P}.

(** One round of the [while] of [sema_down], with interrupts off: [inl] when the
    thread was blocked (the state is that of the thread which runs instead),
    [inr] when it got the semaphore. *)
Definition sema_down_round (s : kstate) (sm : semaphore)
    : outcome (semaphore * kstate + semaphore) :=
  if value sm =? 0 then
    ASSERT (negb (bool_decide (running_thread s ∈ waiters sm)));;
    if bool_decide (running_thread s ∈ waiters sm) then Panic
    else
      let sm := Semaphore (value sm) (waiters sm ++ [running_thread s]) in
      s ← thread_block s TASK_BLOCKED;
      Ok (inl (sm, s))
  else
    let sm := Semaphore (u8 (value sm - 1)) (waiters sm) in
    ASSERT (value sm =? 0);;
    Ok (inr sm).

Definition sema_up (s : kstate) (sm : semaphore) : outcome (semaphore * kstate) :=
  let old_status := intr s in
  let s := set_intr s INTR_OFF in
  ASSERT (value sm =? 0);;
  '(sm, s) ← match waiters sm with
             | [] => Ok (sm, s)
             | thread_blocked :: rest =>
                 s ← thread_unblock s thread_blocked;
                 Ok (Semaphore (value sm) rest, s)
             end;
  let sm := Semaphore (u8 (value sm + 1)) (waiters sm) in
  ASSERT (value sm =? 1);;
  Ok (sm, set_intr s old_status).

(** The next statement of the current thread in [lock_acquire] or
    [lock_release]. *)
Definition lock_step (σ : sys) : outcome sys :=
  let s := ks σ in
  let cur := running_thread s in
  match pc_of σ cur with
  | User => Ok σ
  | AcqTest l =>
      lk ← from_option_fault (locks σ !! l);
      Ok (set_pc σ (if negb (holder lk =? cur) then DownEnter l else AcqAgain l))
  | DownEnter l =>
      Ok (set_pc (set_ks σ (set_intr s INTR_OFF)) (DownLoop l (intr s)))
  | DownLoop l old_status =>
      lk ← from_option_fault (locks σ !! l);
      r ← sema_down_round s (sema lk);
      match r with
      | inl (sm, s') => Ok (set_ks (set_lock σ l (Lock (holder lk) sm (holder_repeat_nr lk))) s')
      | inr sm =>
          let σ := set_lock σ l (Lock (holder lk) sm (holder_repeat_nr lk)) in
          Ok (set_pc (set_ks σ (set_intr s old_status)) (AcqHolder l))
      end
  | AcqHolder l =>
      lk ← from_option_fault (locks σ !! l);
      Ok (set_pc (set_lock σ l (Lock cur (sema lk) (holder_repeat_nr lk))) (AcqRepeat l))
  | AcqRepeat l =>
      lk ← from_option_fault (locks σ !! l);
      ASSERT (holder_repeat_nr lk =? 0);;
      Ok (set_pc (set_lock σ l (Lock (holder lk) (sema lk) 1)) User)
  | AcqAgain l =>
      lk ← from_option_fault (locks σ !! l);
      Ok (set_pc (set_lock σ l (Lock (holder lk) (sema lk) (u32 (holder_repeat_nr lk + 1)))) User)
  | RelCheck l =>
      lk ← from_option_fault (locks σ !! l);
      ASSERT (holder lk =? cur);;
      Ok (set_pc σ (RelTest l))
  | RelTest l =>
      lk ← from_option_fault (locks σ !! l);
      Ok (set_pc σ (if 1 <? holder_repeat_nr lk then RelDec l else RelHolder l))
  | RelDec l =>
      lk ← from_option_fault (locks σ !! l);
      Ok (set_pc (set_lock σ l (Lock (holder lk) (sema lk) (u32 (holder_repeat_nr lk - 1)))) User)
  | RelHolder l =>
      lk ← from_option_fault (locks σ !! l);
      ASSERT (holder_repeat_nr lk =? 1);;
      Ok (set_pc (set_lock σ l (Lock NULL (sema lk) (holder_repeat_nr lk))) (RelRepeat l))
  | RelRepeat l =>
      lk ← from_option_fault (locks σ !! l);
      Ok (set_pc (set_lock σ l (Lock (holder lk) (sema lk) 0)) (UpEnter l))
  | UpEnter l =>
      lk ← from_option_fault (locks σ !! l);
      '(sm, s') ← sema_up s (sema lk);
      Ok (set_pc (set_ks (set_lock σ l (Lock (holder lk) sm (holder_repeat_nr lk))) s') User)
  end.

(** The calls: the current thread enters [lock_acquire] or [lock_release]. *)
Definition lock_acquire (σ : sys) (l : Z) : sys := set_pc σ (AcqTest l).
Definition lock_release (σ : sys) (l : Z) : sys := set_pc σ (RelCheck l).

(** One step of the system, as an outcome: a statement that panics is a step
    too.  The conditions are what the callers of sync.c see to: a lock is
    released by its holder only, and not acquired 2^32 times over; the idle
    thread uses no lock; [thread_unblock] is called from outside of sync.c only
    for a thread that blocked outside of sync.c; a new thread's control block is
    a page that no thread uses. *)
Inductive step (σ : sys) : outcome sys → Prop :=
  | step_statement : step σ (lock_step σ)
  | step_clock :
      step σ ('(n, s) ← clock_interrupt (now σ) (ks σ); Ok (Sys s (locks σ) (pcs σ) n))
  | step_acquire l lk :
      pc_of σ (running_thread (ks σ)) = User → running_thread (ks σ) ≠ idle_thread (ks σ) →
      locks σ !! l = Some lk →
      (holder lk = running_thread (ks σ) → holder_repeat_nr lk < 4294967295) →
      step σ (Ok (lock_acquire σ l))
  | step_release l lk :
      pc_of σ (running_thread (ks σ)) = User → running_thread (ks σ) ≠ idle_thread (ks σ) →
      locks σ !! l = Some lk → holder lk = running_thread (ks σ) →
      step σ (Ok (lock_release σ l))
  | step_yield :
      pc_of σ (running_thread (ks σ)) = User →
      step σ (s ← thread_yield (ks σ); Ok (set_ks σ s))
  | step_block stat :
      pc_of σ (running_thread (ks σ)) = User → is_blocked stat = true →
      step σ (s ← thread_block (ks σ) stat; Ok (set_ks σ s))
  | step_unblock t x :
      pc_of σ (running_thread (ks σ)) = User → pc_of σ t = User →
      st (ks σ) t = Some x → is_blocked x = true →
      step σ (s ← thread_unblock (ks σ) t; Ok (set_ks σ s))
  | step_spawn t p :
      pc_of σ (running_thread (ks σ)) = User → pcs σ !! t = None →
      st (ks σ) t = None → t ≠ NULL → status p = TASK_READY →
      stack_magic p = stack_magic_number →
      step σ (s ← thread_enqueue (ks σ) t p; Ok (set_ks σ s))
  | step_intr i :
      pc_of σ (running_thread (ks σ)) = User →
      step σ (Ok (set_ks σ (set_intr (ks σ) i))).

(** The states the system comes to. *)
Inductive reachable (σ0 : sys) : outcome sys → Prop :=
  | reach_start : reachable σ0 (Ok σ0)
  | reach_step σ o : reachable σ0 (Ok σ) → step σ o → reachable σ0 o.
End operations.

(** ** The invariant *)

(** The statements between which a thread has the lock's semaphore. *)
Definition inside (l : Z) (p : pc) : bool :=
  match p with
  | AcqHolder l' | AcqRepeat l' | AcqAgain l' | RelCheck l' | RelTest l' | RelDec l'
  | RelHolder l' | RelRepeat l' | UpEnter l' => l' =? l
  | _ => false
  end.

(** The lock a thread is working on. *)
Definition pc_lock (p : pc) : option Z :=
  match p with
  | User => None
  | AcqTest l | DownEnter l | DownLoop l _ | AcqHolder l | AcqRepeat l | AcqAgain l
  | RelCheck l | RelTest l | RelDec l | RelHolder l | RelRepeat l | UpEnter l => Some l
  end.

(** The lock and its owner at [p]. *)
Definition owner_ok (l : Z) (lk : lock) (o : Z) (p : pc) : Prop :=
  match p with
  | AcqHolder l' | UpEnter l' =>
      if l' =? l then holder lk = NULL ∧ holder_repeat_nr lk = 0
      else holder lk = o ∧ 1 ≤ holder_repeat_nr lk < 4294967296
  | AcqRepeat l' =>
      holder lk = o ∧
      if l' =? l then holder_repeat_nr lk = 0 else 1 ≤ holder_repeat_nr lk < 4294967296
  | RelRepeat l' =>
      if l' =? l then holder lk = NULL ∧ holder_repeat_nr lk = 1
      else holder lk = o ∧ 1 ≤ holder_repeat_nr lk < 4294967296
  | _ =>
      holder lk = o ∧ 1 ≤ holder_repeat_nr lk < 4294967296 ∧
      match p with
      | AcqTest l' | AcqAgain l' => l' = l → holder_repeat_nr lk < 4294967295
      | RelDec l' => l' = l → 2 ≤ holder_repeat_nr lk
      | RelHolder l' => l' = l → holder_repeat_nr lk = 1
      | DownEnter l' | DownLoop l' _ => l' ≠ l
      | _ => True
      end
  end.

(** A lock is free, or has one owner; only the owner is past [sema_down]. *)
Definition lock_ok (σ : sys) (l : Z) (lk : lock) : Prop :=
  (value (sema lk) = 1 ∧ holder lk = NULL ∧ holder_repeat_nr lk = 0 ∧
   ∀ t, inside l (pc_of σ t) = false) ∨
  (∃ o, value (sema lk) = 0 ∧ o ≠ NULL ∧ owner_ok l lk o (pc_of σ o) ∧
   ∀ t, inside l (pc_of σ t) = true → t = o).

Definition awake (s : kstate) (t : Z) : Prop :=
  st s t = Some TASK_READY ∨ st s t = Some TASK_RUNNING.

(** The threads in the waiting list are those that are blocked in [sema_down];
    when the lock is free and threads wait, one of them is awake to take it. *)
Record waiters_ok (σ : sys) (l : Z) (lk : lock) : Prop := WaitersOk {
  wait_nodup : NoDup (waiters (sema lk));
  wait_blocked t : t ∈ waiters (sema lk) ↔
    st (ks σ) t = Some TASK_BLOCKED ∧ ∃ old, pc_of σ t = DownLoop l old;
  wait_awake : value (sema lk) = 1 → waiters (sema lk) ≠ [] →
    ∃ t old, pc_of σ t = DownLoop l old ∧ awake (ks σ) t
}.

Record sync_inv (σ : sys) : Prop := SyncInv {
  sync_sched : sched_inv (ks σ);
  sync_magic : magic_ok (ks σ);
  sync_idle : pc_of σ (idle_thread (ks σ)) = User;
  sync_known t l : pc_lock (pc_of σ t) = Some l → is_Some (locks σ !! l);
  sync_down t l old : pc_of σ t = DownLoop l old →
    awake (ks σ) t ∨ st (ks σ) t = Some TASK_BLOCKED;
  sync_lock l lk : locks σ !! l = Some lk → lock_ok σ l lk;
  sync_wait l lk : locks σ !! l = Some lk → waiters_ok σ l lk
}.

(** ** Preservation *)

Implicit Types (σ : sys) (l t o : Z) (lk : lock) (p : pc).

(** The system with the current thread at [p], lock [l] as [lk] and the
    scheduler's state [s]. *)
Definition moved σ (s : kstate) l lk p : sys :=
  Sys s (<[l := lk]> (locks σ)) (<[running_thread (ks σ) := p]> (pcs σ)) (now σ).

Lemma pc_of_moved σ s l lk p t :
  pc_of (moved σ s l lk p) t = if decide (running_thread (ks σ) = t) then p else pc_of σ t.
Proof. unfold pc_of, moved. cbn. rewrite lookup_insert. by gdecide. Qed.

Lemma inside_lock l p : inside l p = true → pc_lock p = Some l.
Proof. destruct p; cbn; intros H; try done; by apply Z.eqb_eq in H as ->. Qed.

(** A thread that works on no lock, or on another one, owns [l] only as its
    recorded holder. *)
Lemma owner_ok_away l lk o p :
  pc_lock p ≠ Some l →
  owner_ok l lk o p ↔ holder lk = o ∧ 1 ≤ holder_repeat_nr lk < 4294967296.
Proof.
  destruct p as [|l'|l'|l'|l'|l'|l'|l'|l'|l'|l'|l'|l']; cbn; intros H;
    try (destruct (Z.eqb_spec l' l) as [->|]); try tauto;
    assert (l' ≠ l) by congruence; tauto.
Qed.

(** The owner is the recorded holder, or there is none. *)
Lemma owner_ok_holder l lk o p : owner_ok l lk o p → holder lk = o ∨ holder lk = NULL.
Proof. destruct p; cbn; try destruct (_ =? l); tauto. Qed.

Section preservation.
Variable σ : sys.
Hypothesis Hσ : sync_inv σ.
Let s := ks σ.
Let cur := running_thread (ks σ).

Lemma cur_not_null : cur ≠ NULL.
Proof.
  intros E. pose proof (inv_cur _ (sync_sched _ Hσ)) as Hc.
  pose proof (core_null _ (inv_core _ (sync_sched _ Hσ))) as H0.
  change (st s cur = Some TASK_RUNNING) in Hc. rewrite E in Hc. unfold s in Hc. congruence.
Qed.

(** The owner of a lock moves on in the critical statements, or leaves them as
    the recorded holder. *)
Lemma lock_ok_owner s' l lk lk' p' :
  locks σ !! l = Some lk → inside l (pc_of σ cur) = true →
  (value (sema lk) = 0 → owner_ok l lk cur (pc_of σ cur) →
   value (sema lk') = 0 ∧ owner_ok l lk' cur p') →
  lock_ok (moved σ s' l lk' p') l lk'.
Proof.
  intros Hl Hin Hnew.
  destruct (sync_lock _ Hσ l lk Hl) as [(_ & _ & _ & Hno)|(o & Hv & Ho & Hok & Hu)].
  { by rewrite Hno in Hin. }
  pose proof (Hu _ Hin) as <-. destruct (Hnew Hv Hok) as [Hv' Hok'].
  right. exists cur. split_and!; [done|apply cur_not_null|..].
  - rewrite pc_of_moved. by destruct (decide _).
  - intros t. rewrite pc_of_moved. gdecide as E; [done|]. apply Hu.
Qed.

(** A thread moves on outside of the critical statements. *)
Lemma lock_ok_outside s' l lk p' :
  locks σ !! l = Some lk → inside l p' = false →
  (owner_ok l lk cur (pc_of σ cur) → owner_ok l lk cur p') →
  lock_ok (moved σ s' l lk p') l lk.
Proof.
  intros Hl Hin Hnew.
  destruct (sync_lock _ Hσ l lk Hl) as [(Hv & Hh & Hr & Hno)|(o & Hv & Ho & Hok & Hu)].
  - left. split_and!; try done. intros t. rewrite pc_of_moved. by gdecide.
  - right. exists o. split_and!; try done.
    + rewrite pc_of_moved. gdecide as E; [subst o; auto|done].
    + intros t. rewrite pc_of_moved. gdecide as E; [congruence|apply Hu].
Qed.

(** A lock on which the current thread does not work is not affected. *)
Lemma lock_ok_away s' l lk' p' l1 lk1 :
  locks σ !! l1 = Some lk1 → l1 ≠ l →
  pc_lock (pc_of σ cur) ≠ Some l1 → pc_lock p' ≠ Some l1 →
  lock_ok (moved σ s' l lk' p') l1 lk1.
Proof.
  intros Hl Hne Hp Hp'.
  assert (inside l1 p' = false) as Hin.
  { destruct (inside l1 p') eqn:E; [|done]. by apply inside_lock in E. }
  destruct (sync_lock _ Hσ l1 lk1 Hl) as [(Hv & Hh & Hr & Hno)|(o & Hv & Ho & Hok & Hu)].
  - left. split_and!; try done. intros t. rewrite pc_of_moved. by gdecide.
  - right. exists o. split_and!; try done.
    + rewrite pc_of_moved. gdecide as E; [subst o|done].
      rewrite owner_ok_away in Hok |- * by done. done.
    + intros t. rewrite pc_of_moved. gdecide as E; [congruence|apply Hu].
Qed.

(** A statement that changes no thread's status. *)
Lemma statement_inv i l lk lk' p' :
  locks σ !! l = Some lk →
  pc_of σ cur = User ∨ pc_lock (pc_of σ cur) = Some l →
  p' = User ∨ pc_lock p' = Some l ∧ cur ≠ idle_thread s →
  waiters (sema lk') = waiters (sema lk) →
  (value (sema lk') = 1 → waiters (sema lk) ≠ [] →
   value (sema lk) = 1 ∧ ∀ old, pc_of σ cur ≠ DownLoop l old) →
  lock_ok (moved σ (set_intr s i) l lk' p') l lk' →
  sync_inv (moved σ (set_intr s i) l lk' p').
Proof.
  intros Hl Hp Hp' Hw Hv Hok. pose proof Hσ as [Hs Hm Hi Hk Hd Hlk Hwt].
  pose proof (inv_cur _ Hs) as Hcur. change (st s cur = Some TASK_RUNNING) in Hcur.
  assert (∀ l1, l1 ≠ l → pc_lock (pc_of σ cur) ≠ Some l1) as Hq.
  { intros l1 Hne. destruct Hp as [->| ->]; [done|congruence]. }
  assert (∀ l1, l1 ≠ l → pc_lock p' ≠ Some l1) as Hq'.
  { intros l1 Hne. destruct Hp' as [->|[-> _]]; [done|congruence]. }
  assert (∀ l1 lk1, waiters_ok σ l1 lk1 → l1 ≠ l →
    waiters_ok (moved σ (set_intr s i) l lk' p') l1 lk1) as Haway.
  { intros l1 lk1 [Hnd Hbl Haw] Hne.
    assert (∀ t old, pc_of (moved σ (set_intr s i) l lk' p') t = DownLoop l1 old
                     ↔ pc_of σ t = DownLoop l1 old) as Heq.
    { intros t old. rewrite pc_of_moved. gdecide as E; [|done]. rewrite <- E. fold cur.
      specialize (Hq l1 Hne). specialize (Hq' l1 Hne).
      split; intros E1; rewrite E1 in *; done. }
    split; [done|..].
    - intros t. rewrite Hbl. by setoid_rewrite Heq.
    - intros H1 H2. destruct (Haw H1 H2) as (t & old & Ht & Ha). exists t, old.
      by rewrite Heq. }
  split; try done.
  - by apply sched_inv_intr.
  - rewrite pc_of_moved. gdecide as E; [|done]. destruct Hp' as [->|[_ []]]; done.
  - intros t l1. rewrite pc_of_moved. cbn. rewrite lookup_insert_is_Some'. gdecide as E.
    + destruct Hp' as [->|[-> _]]; [done|]. intros [= <-]. by left.
    + intros ?. right. by eapply Hk.
  - intros t l1 old. rewrite pc_of_moved. gdecide as E; [|apply Hd].
    intros _. left. right. by rewrite <- E.
  - intros l1 lk1. cbn. rewrite lookup_insert. gdecide as E; [by intros [= <-]; subst|].
    intros Hl1. apply lock_ok_away; auto.
  - intros l1 lk1. cbn. rewrite lookup_insert. gdecide as E; [|intros; apply Haway; auto].
    intros [= <-]. subst l1. destruct (Hwt l lk Hl) as [Hnd Hbl Haw].
    split; rewrite ?Hw; [done|..].
    + intros t. rewrite Hbl, pc_of_moved. gdecide as E1; [|done]. rewrite <- E1. fold cur s.
      change (st (ks (moved σ (set_intr s i) l lk' p')) cur) with (st s cur). rewrite Hcur.
      split; intros [[=] _].
    + intros H1 H2. destruct (Hv H1 H2) as [Hv1 Hnot]. destruct (Haw Hv1 H2) as (t & old & Ht & Ha).
      exists t, old. rewrite pc_of_moved. gdecide as E1; [|done].
      rewrite <- E1 in Ht. by apply Hnot in Ht.
Qed.
End preservation.

(** A step of the scheduler that leaves the threads in sync.c blocked or awake
    as they are. *)
Lemma scheduler_inv σ s' n :
  sync_inv σ → sched_inv s' → magic_ok s' → idle_thread s' = idle_thread (ks σ) →
  (∀ t, pc_of σ t ≠ User →
    (st s' t = Some TASK_BLOCKED ↔ st (ks σ) t = Some TASK_BLOCKED) ∧
    (awake (ks σ) t → awake s' t)) →
  sync_inv (Sys s' (locks σ) (pcs σ) n).
Proof.
  intros [Hs Hm Hi Hk Hd Hlk Hwt] Hs' Hm' Hid Hst.
  assert (∀ t, pc_of (Sys s' (locks σ) (pcs σ) n) t = pc_of σ t) as Hpc by done.
  split; try done.
  - cbn. by rewrite Hid.
  - intros t l old Ht. destruct (Hst t) as [Hb Ha]; [by rewrite Hpc in Ht; congruence|].
    destruct (Hd t l old Ht) as [?|?]; [left; auto|right; by apply Hb].
  - intros l lk Hl. destruct (Hwt l lk Hl) as [Hnd Hbl Haw]. split; [done|..].
    + intros t. rewrite Hbl, Hpc. split; intros [? [old Ht]]; (split; [|by exists old]);
        apply (Hst t); try done; congruence.
    + intros H1 H2. destruct (Haw H1 H2) as (t & old & Ht & Ha). exists t, old.
      split; [done|]. apply Hst; [congruence|done].
Qed.

(** After a switch, the threads of the queue are ready or running and the
    others are as before. *)
Lemma switched_awake `{AddrV2P} s s' q t :
  switched s s' q →
  (t ∈ q → awake s' t) ∧ (t ∉ q → st s' t = st s t).
Proof.
  intros [Hinv Hq _ _ _ Hfr _ _ _]. split; [|apply Hfr].
  rewrite <- Hq. intros [->|Ht]%elem_of_cons.
  - right. apply (inv_cur _ Hinv).
  - left. by apply (core_ready _ (inv_core _ Hinv)).
Qed.

Section switches.
Context `{AddrV2P}.
Variable σ : sys.
Hypothesis Hσ : sync_inv σ.

(** Switching to the first thread of [q], which holds ready threads, the idle
    thread and the current one only. *)
Lemma switched_inv s1 s' q n :
  switched s1 s' q → kept (ks σ) s' ∨ magic_ok s' →
  idle_thread s1 = idle_thread (ks σ) →
  (∀ t, t ∈ q → awake (ks σ) t ∨ t = idle_thread (ks σ)) →
  (∀ t, st (ks σ) t = Some TASK_READY → t ∈ q) →
  (∀ t, t ≠ running_thread (ks σ) → st s1 t = st (ks σ) t) →
  pc_of σ (running_thread (ks σ)) = User ∨ running_thread (ks σ) ∈ q →
  sync_inv (Sys s' (locks σ) (pcs σ) n).
Proof.
  intros Hsw Hk Hid Hq Hrq Hst Hcur. pose proof Hσ as [Hs Hm Hi _ _ _ _].
  apply scheduler_inv; [done|apply Hsw| |by rewrite (sw_idle _ _ _ Hsw)|].
  { destruct Hk; [by eapply magic_kept|done]. }
  intros t Ht. destruct (switched_awake _ _ _ t Hsw) as [Hin Hout].
  destruct (decide (t ∈ q)) as [E|E].
  - specialize (Hin E). split; [|done].
    destruct (Hq t E) as [Ha|Ha]; [|subst t; congruence].
    split; intros Hb; [destruct Hin|destruct Ha]; congruence.
  - assert (t ≠ running_thread (ks σ)) as Hne by (intros ->; by destruct Hcur).
    rewrite Hout, Hst by done. split; [done|]. intros [Ha|Ha].
    + by apply Hrq in Ha.
    + by apply (core_running _ (inv_core _ Hs)) in Ha.
Qed.

Lemma ready_awake t : t ∈ thread_ready_list (ks σ) → awake (ks σ) t.
Proof. intros Ht. left. by apply (core_ready _ (inv_core _ (sync_sched _ Hσ))). Qed.

Lemma current_awake : awake (ks σ) (running_thread (ks σ)).
Proof. right. apply (inv_cur _ (sync_sched _ Hσ)). Qed.

Lemma queue_end_awake t :
  t ∈ thread_ready_list (ks σ) ++ [running_thread (ks σ)] → awake (ks σ) t ∨ t = idle_thread (ks σ).
Proof.
  intros [Ht|Ht%list_elem_of_singleton]%elem_of_app; left; [by apply ready_awake|].
  subst t. apply current_awake.
Qed.

Lemma queue_ready t (q : list Z) : st (ks σ) t = Some TASK_READY → t ∈ thread_ready_list (ks σ) ++ q.
Proof.
  intros Ht. apply elem_of_app. left. by apply (core_ready _ (inv_core _ (sync_sched _ Hσ))).
Qed.

Lemma yield_inv : pc_of σ (running_thread (ks σ)) = User →
  ∃ s', thread_yield (ks σ) = Ok s' ∧ sync_inv (set_ks σ s').
Proof.
  intros Hpc. destruct (thread_yield_spec _ (sync_sched _ Hσ)) as (s' & Heq & Hsw).
  exists s'. split; [done|]. eapply (switched_inv _ s' _ (now σ) Hsw); auto.
  - left. by apply thread_yield_kept.
  - apply queue_end_awake.
  - intros t. apply queue_ready.
  - intros t Ht. change (st (set_ready ?a ?b) t) with (st a t).
    rewrite st_leaving by apply Hσ. by destruct (decide _).
Qed.

Lemma clock_inv : ∃ s' n, clock_interrupt (now σ) (ks σ) = Ok (n, s') ∧
  sync_inv (Sys s' (locks σ) (pcs σ) n).
Proof.
  destruct (intr (ks σ)) eqn:Hi.
  { exists (ks σ), (now σ). unfold clock_interrupt. rewrite Hi. by destruct σ. }
  destruct (clock_interrupt_spec (now σ) _ (sync_sched _ Hσ) (sync_magic _ Hσ) Hi)
    as (s' & Heq & Hs' & Hm' & _ & _ & Hid & _ & Hcase).
  exists s', (u32 (now σ + 1)). split; [done|].
  destruct Hcase as [(_ & _ & _ & _ & Hst)|Hsw].
  - apply scheduler_inv; try done. intros t Ht. unfold awake. by rewrite !Hst.
  - eapply (switched_inv _ s' _ _ Hsw); auto.
    + apply queue_end_awake.
    + intros t. apply queue_ready.
    + right. apply elem_of_app. right. by apply list_elem_of_singleton.
Qed.

Lemma block_inv stat : pc_of σ (running_thread (ks σ)) = User → is_blocked stat = true →
  ∃ s', thread_block (ks σ) stat = Ok s' ∧ sync_inv (set_ks σ s').
Proof.
  intros Hpc Hb. destruct (thread_block_spec _ stat (sync_sched _ Hσ) Hb) as (s' & Heq & Hsw).
  exists s'. split; [done|]. eapply (switched_inv _ s' _ (now σ) Hsw); auto.
  - left. by eapply thread_block_kept.
  - intros t. destruct (thread_ready_list (ks σ)) as [|t1 q] eqn:E.
    + intros ->%list_elem_of_singleton. by right.
    + intros Ht. left. apply ready_awake. by rewrite E.
  - intros t Ht. apply (core_ready _ (inv_core _ (sync_sched _ Hσ))) in Ht.
    by destruct (thread_ready_list (ks σ)); [apply not_elem_of_nil in Ht|].
  - intros t Ht. rewrite st_leaving by apply Hσ. by destruct (decide _).
Qed.

Lemma spawn_inv t (p : task_struct) :
  pcs σ !! t = None → st (ks σ) t = None → t ≠ NULL → status p = TASK_READY →
  stack_magic p = stack_magic_number →
  ∃ s', thread_enqueue (ks σ) t p = Ok s' ∧ sync_inv (set_ks σ s').
Proof.
  intros Hpc Ht Hn Hp Hm.
  destruct (thread_enqueue_spec _ t p (sync_sched _ Hσ) Ht Hn Hp) as
    (s' & Heq & Hs' & _ & Hid & _ & _ & _ & _ & Htk & _ & Hst).
  exists s'. split; [done|]. apply scheduler_inv; try done.
  - intros t' p'. rewrite Htk, lookup_insert. gdecide; [by intros [= <-]|apply Hσ].
  - intros t' Ht'. unfold awake. rewrite !Hst. destruct (decide (t = t')) as [<-|]; [|done].
    unfold pc_of in Ht'. by rewrite Hpc in Ht'.
Qed.

Lemma unblock_inv t x : pc_of σ t = User → st (ks σ) t = Some x → is_blocked x = true →
  ∃ s', thread_unblock (ks σ) t = Ok s' ∧ sync_inv (set_ks σ s').
Proof.
  intros Hpc Hx Hb.
  destruct (thread_unblock_spec _ t x (sync_sched _ Hσ) Hx Hb) as (s' & Heq & Hs' & Hf & _ & _ & Hst).
  exists s'. split; [done|]. apply scheduler_inv; try done.
  - eapply magic_kept; [by eapply thread_unblock_kept|apply Hσ].
  - apply Hf.
  - intros t' Ht'. unfold awake. rewrite !Hst. by destruct (decide (t = t')) as [->|].
Qed.

(** After the current thread has blocked in [sema_down], the states of the threads inside sync.c. *)
Lemma down_states l old s' : pc_of σ (running_thread (ks σ)) = DownLoop l old → thread_block (ks σ) TASK_BLOCKED = Ok s' →
  st s' (running_thread (ks σ)) = Some TASK_BLOCKED ∧
  ∀ t, pc_of σ t ≠ User → t ≠ running_thread (ks σ) →
    (st s' t = Some TASK_BLOCKED ↔ st (ks σ) t = Some TASK_BLOCKED) ∧ (awake (ks σ) t → awake s' t).
Proof.
  intros Hpc Heq. pose proof Hσ as [Hs _ Hi _ _ _ _]. set (cur := running_thread (ks σ)) in *.
  assert (st (ks σ) cur = Some TASK_RUNNING) as Hcur by apply Hs.
  destruct (thread_block_spec _ TASK_BLOCKED Hs eq_refl) as (s1 & Heq1 & Hsw). assert (s1 = s') as -> by congruence.
  assert (∀ t, st (leaving (ks σ) TASK_BLOCKED (in_thread_block (intr (ks σ)))) t =
    if decide (cur = t) then Some TASK_BLOCKED else st (ks σ) t) as Hst by (intros; by apply st_leaving).
  set (q := match thread_ready_list (ks σ) with [] => _ | _ => _ end) in Hsw.
  assert (∀ t, t ∈ q → pc_of σ t ≠ User → st (ks σ) t = Some TASK_READY) as Hq.
  { intros t Ht Hp. apply (core_ready _ (inv_core _ Hs)). unfold q in Ht.
    destruct (thread_ready_list (ks σ)); [|done]. apply list_elem_of_singleton in Ht. subst t. congruence. }
  split.
  - destruct (switched_awake _ _ _ cur Hsw) as [_ Hout]. rewrite Hout, Hst; [by destruct (decide _)|].
    intros Ht. apply Hq in Ht; congruence.
  - intros t Hp Hne. destruct (switched_awake _ _ _ t Hsw) as [Hin Hout]. destruct (decide (t ∈ q)) as [E|E].
    + specialize (Hin E). rewrite (Hq t E Hp). split; [|done]. split; [destruct Hin; congruence|done].
    + rewrite Hout, Hst by done. destruct (decide _); [congruence|]. split; [done|].
      intros [Ha|Ha]; [|by apply (core_running _ (inv_core _ Hs)) in Ha].
      exfalso. apply E. apply (core_ready _ (inv_core _ Hs)) in Ha. unfold q.
      destruct (thread_ready_list (ks σ)); [by apply not_elem_of_nil in Ha|done].
Qed.

(** The waiters of the lock, with the current thread behind the others, and those of another one. *)
Lemma down_waiters l old lk lk' s' : pc_of σ (running_thread (ks σ)) = DownLoop l old → thread_block (ks σ) TASK_BLOCKED = Ok s' →
  locks σ !! l = Some lk → value (sema lk) = 0 → sema lk' = Semaphore 0 (waiters (sema lk) ++ [running_thread (ks σ)]) →
  waiters_ok (set_ks (set_lock σ l lk') s') l lk' ∧
  ∀ l1 lk1, l1 ≠ l → locks σ !! l1 = Some lk1 → waiters_ok (set_ks (set_lock σ l lk') s') l1 lk1.
Proof.
  intros Hpc Heq Hl Hv Hsm. destruct (down_states l old s' Hpc Heq) as [Hb Ho]. pose proof Hσ as [Hs _ _ _ _ _ Hwt].
  set (cur := running_thread (ks σ)) in *. assert (st (ks σ) cur = Some TASK_RUNNING) as Hcur by apply Hs. split.
  - destruct (Hwt l lk Hl) as [Hnd Hbl Haw]. split; rewrite ?Hsm; cbn; [| |done].
    + apply NoDup_app. split_and!; [done| |by apply NoDup_singleton].
      intros t Ht ->%list_elem_of_singleton. apply Hbl in Ht as [E _]. congruence.
    + intros t. rewrite elem_of_app, list_elem_of_singleton, Hbl. change (pc_of _ t) with (pc_of σ t).
      destruct (decide (t = cur)) as [->|Hne]; [rewrite Hb, Hpc; split; [by eauto|by right]|]. split.
      * intros [[Ht [o Hp]]|?]; [|done]. split; [|by eauto]. apply Ho; [congruence|done|done].
      * intros [Ht [o Hp]]. left. split; [|by eauto]. apply Ho; [congruence|done|done].
  - intros l1 lk1 Hne Hl1. destruct (Hwt l1 lk1 Hl1) as [Hnd Hbl Haw]. split; [done|..].
    + intros t. rewrite Hbl. change (pc_of (set_ks _ _) t) with (pc_of σ t).
      split; intros [Ht [o Hp]]; (split; [|by eauto]); apply (Ho t); first [done|congruence].
    + intros H1 H2. destruct (Haw H1 H2) as (t & o & Ht & Ha). exists t, o. split; [done|]. apply Ho; [congruence|congruence|done].
Qed.

(** [sema_down] on a semaphore that is taken. *)
Lemma down_blocks l old lk :
  pc_of σ (running_thread (ks σ)) = DownLoop l old → locks σ !! l = Some lk →
  value (sema lk) = 0 →
  ∃ σ', lock_step σ = Ok σ' ∧ sync_inv σ'.
Proof.
  intros Hpc Hl Hv. pose proof Hσ as [Hs Hm Hi Hk Hd Hlk Hwt].
  set (cur := running_thread (ks σ)) in *.
  assert (cur ∉ waiters (sema lk)) as Hnin.
  { rewrite (wait_blocked _ _ _ (Hwt l lk Hl)). unfold cur. rewrite (inv_cur _ Hs). by intros [[=] _]. }
  destruct (thread_block_spec _ TASK_BLOCKED Hs eq_refl) as (s' & Heq & Hsw).
  unfold lock_step. fold cur. rewrite Hpc, Hl. ocbn. unfold sema_down_round. fold cur.
  rewrite Hv, bool_decide_eq_false_2 by done. ocbn. rewrite Heq. ocbn. eexists. split; [done|].
  set (lk' := Lock _ _ _). destruct (down_states l old s' Hpc Heq) as [Hb Ho].
  destruct (down_waiters l old lk lk' s' Hpc Heq Hl Hv eq_refl) as [Hw1 Hw2].
  split; cbn.
  - apply Hsw.
  - by eapply magic_kept; [eapply thread_block_kept|].
  - by rewrite (sw_idle _ _ _ Hsw).
  - intros t l1 Ht. rewrite lookup_insert_is_Some'. right. by eapply Hk.
  - intros t l1 old1 Ht. destruct (decide (t = cur)) as [->|Hne]; [by right|].
    destruct (Ho t) as [Hb1 Ha1]; [change (pc_of σ t = DownLoop l1 old1) in Ht; congruence|done|].
    destruct (Hd t l1 old1 Ht) as [?|?]; [left; auto|right; by apply Hb1].
  - intros l1 lk1. rewrite lookup_insert. gdecide as E; [intros [= <-]; subst l1|apply Hlk].
    destruct (Hlk l lk Hl) as [(? & ?)|(o & Hv1 & H1)]; [congruence|]. right. by exists o.
  - intros l1 lk1. rewrite lookup_insert. gdecide as E; [intros [= <-]; by subst l1|]. by apply Hw2.
Qed.

(** After [sema_up] has woken the first waiter [w]: the waiters of the lock, of which [w] is about to take it, and
    those of another one. *)
Lemma up_waiters l lk lk' w rest s' : pc_of σ (running_thread (ks σ)) = UpEnter l → locks σ !! l = Some lk →
  waiters (sema lk) = w :: rest → waiters (sema lk') = rest →
  (∀ t, st s' t = if decide (w = t) then Some TASK_READY else st (ks σ) t) →
  waiters_ok (moved σ s' l lk' User) l lk' ∧
  ∀ l1 lk1, l1 ≠ l → locks σ !! l1 = Some lk1 → waiters_ok (moved σ s' l lk' User) l1 lk1.
Proof.
  intros Hpc Hl Ew Ew' Hst. pose proof Hσ as [Hs _ _ _ _ _ Hwt]. set (cur := running_thread (ks σ)) in *.
  assert (st (ks σ) cur = Some TASK_RUNNING) as Hcur by apply Hs. destruct (Hwt l lk Hl) as [Hnd Hbl Haw]. rewrite Ew in Hnd, Hbl.
  destruct (proj1 (Hbl w)) as [Hw [old Hwpc]]; [left|]. apply NoDup_cons in Hnd as [Hwn Hnd]. split.
  - split; rewrite ?Ew'; [done|..].
    + intros t. change (ks (moved _ _ _ _ _)) with s'. rewrite Hst, pc_of_moved. specialize (Hbl t). rewrite elem_of_cons in Hbl.
      destruct (decide (w = t)) as [<-|]; [split; [done|by intros [[=] _]]|].
      destruct (decide (running_thread (ks σ) = t)) as [<-|]; [|rewrite <- Hbl; split; [by right|by intros [?|?]]].
      fold cur in Hbl |- *. rewrite Hcur in *. split; [intros Ht|by intros [[=] _]]. destruct Hbl as [[[=] _] _]. by right.
    + intros _ _. exists w, old. rewrite pc_of_moved. split; [by destruct (decide _) as [E|]; [fold cur in E; congruence|]|].
      left. change (ks (moved _ _ _ _ _)) with s'. rewrite Hst. by destruct (decide _).
  - intros l1 lk1 Hne Hl1. destruct (Hwt l1 lk1 Hl1) as [Hnd1 Hbl1 Haw1]. split; [done|..].
    + intros t. change (ks (moved _ _ _ _ _)) with s'. rewrite Hbl1, Hst, pc_of_moved. destruct (decide (w = t)) as [<-|].
      { split; [intros [_ [? ?]]; congruence|by intros [[=] _]]. }
      destruct (decide (running_thread (ks σ) = t)) as [<-|]; [|done]. fold cur. rewrite Hcur. split; by intros [[=] _].
    + intros H1 H2. destruct (Haw1 H1 H2) as (t & o & Ht & Ha). exists t, o. rewrite pc_of_moved. unfold awake.
      change (ks (moved _ _ _ _ _)) with s'. rewrite Hst.
      destruct (decide (running_thread (ks σ) = t)) as [<-|]; [fold cur in Ht; congruence|].
      split; [done|]. destruct (decide (w = t)); [by left|apply Ha].
Qed.

(** [sema_up] by the owner: the lock is free, and the first waiter awake. *)
Lemma up_inv l lk :
  pc_of σ (running_thread (ks σ)) = UpEnter l → locks σ !! l = Some lk →
  ∃ σ', lock_step σ = Ok σ' ∧ sync_inv σ'.
Proof.
  intros Hpc Hl. pose proof Hσ as [Hs Hm Hi Hk Hd Hlk Hwt].
  set (cur := running_thread (ks σ)) in *.
  assert (st (ks σ) cur = Some TASK_RUNNING) as Hcur by apply Hs.
  destruct (Hlk l lk Hl) as [(_ & _ & _ & Hno)|(o & Hv & Ho & Hok & Hu)].
  { specialize (Hno cur). rewrite Hpc in Hno. cbn in Hno. by rewrite Z.eqb_refl in Hno. }
  assert (cur = o) as <- by (apply Hu; rewrite Hpc; apply Z.eqb_refl).
  rewrite Hpc in Hok. cbn in Hok. rewrite Z.eqb_refl in Hok. destruct Hok as [Hh Hr].
  assert (∀ s' lk', value (sema lk') = 1 → holder lk' = NULL → holder_repeat_nr lk' = 0 →
    lock_ok (moved σ s' l lk' User) l lk') as Hfree.
  { intros s' lk' H1 H2 H3. left. split_and!; try done. intros t. rewrite pc_of_moved.
    gdecide as E; [done|]. destruct (inside l (pc_of σ t)) eqn:E1; [|done]. by apply Hu in E1. }
  unfold lock_step. fold cur. rewrite Hpc, Hl. ocbn. unfold sema_up. rewrite Hv. ocbn.
  destruct (Hwt l lk Hl) as [Hnd Hbl Haw].
  destruct (waiters (sema lk)) as [|w rest] eqn:Ew; ocbn.
  { rewrite Hv. eexists. split; [done|].
    eapply (statement_inv σ Hσ (intr (ks σ)) l lk); [done|right; by fold cur; rewrite Hpc|by left|..].
    - done.
    - rewrite Ew. done.
    - by apply Hfree. }
  destruct (proj1 (Hbl w)) as [Hw [old Hwpc]]; [left|].
  destruct (thread_unblock_spec (set_intr (ks σ) INTR_OFF) w TASK_BLOCKED) as
    (s' & Heq & Hs' & [Ha1 Hm1 Hid1 Hr1 Hi1] & Hrun' & Hq' & Hst'); [by apply sched_inv_intr|done|done|].
  rewrite Heq. ocbn. cbn [value waiters]. eexists. split; [done|].
  set (lk' := Lock _ _ _).
  replace (set_pc _ User) with (moved σ (set_intr s' (intr (ks σ))) l lk' User)
    by (unfold moved, set_pc; cbn; by rewrite Hrun').
  assert (w ≠ cur) as Hwc by congruence.
  assert (∀ t, st (set_intr s' (intr (ks σ))) t = if decide (w = t) then Some TASK_READY else st (ks σ) t) as Hst by (intros t; apply Hst').
  destruct (up_waiters l lk lk' w rest _ Hpc Hl Ew eq_refl Hst) as [Hw1 Hw2].
  split.
  - by apply sched_inv_intr.
  - eapply (magic_kept (set_intr (ks σ) INTR_OFF)); [|done]. by apply thread_unblock_kept in Heq.
  - rewrite pc_of_moved. cbn. rewrite Hid1. cbn. by gdecide.
  - intros t l1. rewrite pc_of_moved. cbn. rewrite lookup_insert_is_Some'. gdecide; [done|].
    intros ?. right. by eapply Hk.
  - intros t l1 old1. unfold awake. change (ks (moved _ _ _ _ _)) with (set_intr s' (intr (ks σ))). rewrite Hst, pc_of_moved.
    destruct (decide (w = t)); [by left; left|]. destruct (decide _); [done|]. apply Hd.
  - intros l1 lk1. cbn. rewrite lookup_insert. gdecide as E.
    + intros [= <-]. subst l1. by apply Hfree.
    + intros Hl1. apply lock_ok_away; auto. fold cur. rewrite Hpc. cbn. congruence.
  - intros l1 lk1. cbn. rewrite lookup_insert. gdecide as E; [intros [= <-]; by subst l1|]. by apply Hw2.
Qed.
End switches.

(** ** Every statement preserves the invariant and none panics *)

Section statements.
Context `{AddrV2P}.
Variable σ : sys.
Hypothesis Hσ : sync_inv σ.

Lemma known_lock l :
  pc_lock (pc_of σ (running_thread (ks σ))) = Some l → ∃ lk, locks σ !! l = Some lk.
Proof. intros Hp. destruct (sync_known _ Hσ _ l Hp) as [lk Hl]. by exists lk. Qed.

Lemma busy_not_idle : pc_of σ (running_thread (ks σ)) ≠ User →
  running_thread (ks σ) ≠ idle_thread (ks σ).
Proof. intros Hp E. apply Hp. rewrite E. apply (sync_idle _ Hσ). Qed.

Lemma moved_id l lk p : locks σ !! l = Some lk →
  set_pc σ p = moved σ (set_intr (ks σ) (intr (ks σ))) l lk p.
Proof.
  intros Hl. unfold set_pc, moved. rewrite (insert_id (locks σ)) by done. f_equal. by destruct (ks σ).
Qed.

Lemma moved_lock l lk p :
  set_pc (set_lock σ l lk) p = moved σ (set_intr (ks σ) (intr (ks σ))) l lk p.
Proof. unfold set_pc, set_lock, moved. cbn. f_equal. by destruct (ks σ). Qed.

(** The statements of the owner. *)
Lemma owner_step l lk lk' p' :
  locks σ !! l = Some lk → inside l (pc_of σ (running_thread (ks σ))) = true →
  p' = User ∨ pc_lock p' = Some l → sema lk' = sema lk →
  (owner_ok l lk (running_thread (ks σ)) (pc_of σ (running_thread (ks σ))) →
   owner_ok l lk' (running_thread (ks σ)) p') →
  sync_inv (moved σ (set_intr (ks σ) (intr (ks σ))) l lk' p').
Proof.
  intros Hl Hin Hp' Hsm Hok. pose proof (inside_lock _ _ Hin) as Hpl.
  apply (statement_inv σ Hσ _ l lk); [done|by right| |by rewrite Hsm|..].
  - destruct Hp'; [by left|right]. split; [done|]. apply busy_not_idle. intros E. by rewrite E in Hpl.
  - rewrite Hsm. intros Hv _. split; [done|]. intros old E. by rewrite E in Hin.
  - apply (lock_ok_owner σ Hσ _ l lk); [done|done|]. rewrite Hsm. auto.
Qed.

Lemma owner_info l lk :
  locks σ !! l = Some lk → inside l (pc_of σ (running_thread (ks σ))) = true →
  owner_ok l lk (running_thread (ks σ)) (pc_of σ (running_thread (ks σ))).
Proof.
  intros Hl Hin. destruct (sync_lock _ Hσ l lk Hl) as [(_ & _ & _ & Hno)|(o & _ & _ & Hok & Hu)].
  - by rewrite Hno in Hin.
  - by rewrite (Hu _ Hin).
Qed.

(** The test of the holder. *)
Lemma acq_test_inv l lk : pc_of σ (running_thread (ks σ)) = AcqTest l → locks σ !! l = Some lk → ∃ σ', lock_step σ = Ok σ' ∧ sync_inv σ'.
Proof.
  intros Hpc Hl. pose proof (cur_not_null σ Hσ) as Hn0. unfold lock_step. rewrite Hpc, Hl. ocbn. eexists. split; [done|].
  rewrite (moved_id l lk) by done. apply (statement_inv σ Hσ _ l lk); [done|right; by rewrite Hpc| |done|..].
  - right. split; [by destruct (negb _)|]. apply busy_not_idle. by rewrite Hpc.
  - intros Hv _. split; [done|]. intros old. by rewrite Hpc.
  - destruct (Z.eqb_spec (holder lk) (running_thread (ks σ))) as [Eh|Eh]; cbn.
    + destruct (sync_lock _ Hσ l lk Hl) as [(_ & Hh & _)|(o & Hv & Ho & Hok & Hu)]; [congruence|].
      assert (o = running_thread (ks σ)) as -> by (apply owner_ok_holder in Hok as [?|?]; congruence).
      right. exists (running_thread (ks σ)). split_and!; try done.
      * rewrite pc_of_moved. destruct (decide _); [|done]. rewrite Hpc in Hok. done.
      * intros t. rewrite pc_of_moved. gdecide; [done|]. apply Hu.
    + apply (lock_ok_outside σ Hσ _ l lk); [done|done|]. rewrite Hpc. cbn. intros [? _]. congruence.
Qed.

(** [sema_down] switches interrupts off. *)
Lemma down_enter_inv l lk : pc_of σ (running_thread (ks σ)) = DownEnter l → locks σ !! l = Some lk → ∃ σ', lock_step σ = Ok σ' ∧ sync_inv σ'.
Proof.
  intros Hpc Hl. unfold lock_step. rewrite Hpc. eexists. split; [done|].
  replace (set_pc _ _) with (moved σ (set_intr (ks σ) INTR_OFF) l lk (DownLoop l (intr (ks σ))))
    by (unfold moved, set_pc; cbn; by rewrite (insert_id (locks σ))).
  apply (statement_inv σ Hσ _ l lk); [done|right; by rewrite Hpc| |done|..].
  - right. split; [done|]. apply busy_not_idle. by rewrite Hpc.
  - intros Hv _. split; [done|]. intros o. by rewrite Hpc.
  - apply (lock_ok_outside σ Hσ _ l lk); [done|done|]. by rewrite Hpc.
Qed.

(** A round of [sema_down]: it takes the semaphore or blocks. *)
Lemma down_round_inv l old lk : pc_of σ (running_thread (ks σ)) = DownLoop l old → locks σ !! l = Some lk → ∃ σ', lock_step σ = Ok σ' ∧ sync_inv σ'.
Proof.
  intros Hpc Hl. pose proof (cur_not_null σ Hσ) as Hn0. destruct (sync_lock _ Hσ l lk Hl) as [(Hv & Hh & Hr & Hno)|(o & Hv & _)]; [|by apply (down_blocks σ Hσ l old lk)].
  unfold lock_step. rewrite Hpc, Hl. ocbn. unfold sema_down_round. rewrite Hv. ocbn. cbn [value waiters]. eexists. split; [done|].
  set (lk' := Lock _ _ _). change (sync_inv (moved σ (set_intr (ks σ) old) l lk' (AcqHolder l))).
  apply (statement_inv σ Hσ _ l lk); [done|right; by rewrite Hpc| |done|done|].
  - right. split; [done|]. apply busy_not_idle. by rewrite Hpc.
  - right. exists (running_thread (ks σ)). split_and!; try done.
    + rewrite pc_of_moved. destruct (decide _); [|done]. cbn. by rewrite Z.eqb_refl.
    + intros t. rewrite pc_of_moved. gdecide; [done|]. by rewrite Hno.
Qed.

Lemma lock_step_inv : ∃ σ', lock_step σ = Ok σ' ∧ sync_inv σ'.
Proof.
  pose proof (cur_not_null σ Hσ) as Hn0.
  destruct (pc_of σ (running_thread (ks σ))) as [|l|l|l old|l|l|l|l|l|l|l|l|l] eqn:Hpc;
    [exists σ; unfold lock_step; by rewrite Hpc|..];
    (destruct (known_lock l) as [lk Hl]; [by rewrite Hpc|]);
    [..|by apply (up_inv σ Hσ l lk)];
    try (assert (inside l (pc_of σ (running_thread (ks σ))) = true) as Hin
           by (rewrite Hpc; apply Z.eqb_refl);
         pose proof (owner_info l lk Hl Hin) as Hok;
         pose proof (λ lk' p', owner_step l lk lk' p' Hl Hin) as Hstep;
         rewrite Hpc in Hstep, Hok; cbn in Hok; rewrite ?Z.eqb_refl in Hok;
         unfold lock_step; rewrite Hpc, Hl; ocbn).
  - by apply (acq_test_inv l lk).
  - by apply (down_enter_inv l lk).
  - by apply (down_round_inv l old lk).
  - eexists. split; [done|]. rewrite moved_lock. apply Hstep; [by right|done|].
    intros _. cbn. rewrite Z.eqb_refl. by destruct Hok.
  - destruct Hok as [Hh ->]. ocbn. eexists. split; [done|]. rewrite moved_lock.
    apply Hstep; [by left|done|]. intros _. cbn. lia.
  - eexists. split; [done|]. rewrite moved_lock. apply Hstep; [by left|done|].
    intros _. destruct Hok as (Hh & Hr & Hb). specialize (Hb eq_refl). cbn.
    rewrite u32_small by lia. lia.
  - destruct Hok as (Hh & Hr & _). rewrite Hh, Z.eqb_refl. ocbn. eexists. split; [done|].
    rewrite (moved_id l lk) by done. apply Hstep; [by right|done|done].
  - eexists. split; [done|]. rewrite (moved_id l lk) by done. destruct Hok as (Hh & Hr & _).
    apply Hstep; [by destruct (1 <? _); right|done|]. intros _.
    destruct (Z.ltb_spec 1 (holder_repeat_nr lk)); cbn; (split; [done|]; split; [done|]); lia.
  - eexists. split; [done|]. rewrite moved_lock. apply Hstep; [by left|done|].
    intros _. destruct Hok as (Hh & Hr & Hb). specialize (Hb eq_refl). cbn.
    rewrite u32_small by lia. lia.
  - destruct Hok as (Hh & Hr & Hb). rewrite (Hb eq_refl). ocbn. eexists. split; [done|].
    rewrite moved_lock. apply Hstep; [by right|done|]. intros _. cbn. by rewrite Z.eqb_refl.
  - destruct Hok as [Hh Hr]. eexists. split; [done|]. rewrite moved_lock.
    apply Hstep; [by right|done|]. intros _. cbn. by rewrite Z.eqb_refl.
Qed.

Lemma call_inv l lk p :
  locks σ !! l = Some lk → pc_of σ (running_thread (ks σ)) = User →
  running_thread (ks σ) ≠ idle_thread (ks σ) → pc_lock p = Some l →
  (inside l p = true → holder lk = running_thread (ks σ)) →
  (owner_ok l lk (running_thread (ks σ)) User → owner_ok l lk (running_thread (ks σ)) p) →
  sync_inv (set_pc σ p).
Proof.
  intros Hl Hpc Hni Hp Hin Hok. pose proof (cur_not_null σ Hσ) as Hn0.
  rewrite (moved_id l lk) by done.
  apply (statement_inv σ Hσ _ l lk); [done|by left|by right|done|..].
  - intros Hv _. split; [done|]. intros old. by rewrite Hpc.
  - destruct (inside l p) eqn:Ei; [|apply (lock_ok_outside σ Hσ _ l lk); rewrite ?Hpc; done].
    specialize (Hin eq_refl).
    destruct (sync_lock _ Hσ l lk Hl) as [(_ & Hh & _)|(o & Hv & Ho & Ho' & Hu)]; [congruence|].
    assert (o = running_thread (ks σ)) as ->.
    { apply owner_ok_holder in Ho' as [?|?]; congruence. }
    right. exists (running_thread (ks σ)). split_and!; try done.
    + rewrite pc_of_moved. destruct (decide _); [|done]. rewrite Hpc in Ho'. auto.
    + intros t. rewrite pc_of_moved. gdecide; [done|]. apply Hu.
Qed.

Lemma step_inv r : step σ r → ∃ σ', r = Ok σ' ∧ sync_inv σ'.
Proof.
  destruct 1 as [| |l lk Hp Hi Hl Hr|l lk Hp Hi Hl Hh|Hp|stat Hp Hb|t x Hp Ht Hx Hb
    |t p Hp Hpt Ht Hn Hst Hm|i Hp].
  - apply lock_step_inv.
  - destruct (clock_inv σ Hσ) as (s' & n & -> & Hinv). by eexists.
  - eexists. split; [done|]. apply (call_inv l lk); try done. cbn. intros (? & ? & _). auto.
  - eexists. split; [done|]. by apply (call_inv l lk).
  - destruct (yield_inv σ Hσ Hp) as (s' & -> & Hinv). by eexists.
  - destruct (block_inv σ Hσ stat Hp Hb) as (s' & -> & Hinv). by eexists.
  - destruct (unblock_inv σ Hσ t x Ht Hx Hb) as (s' & -> & Hinv). by eexists.
  - destruct (spawn_inv σ Hσ t p) as (s' & -> & Hinv); try done. by eexists.
  - eexists. split; [done|]. apply scheduler_inv; try done; [|apply Hσ].
    apply sched_inv_intr. apply Hσ.
Qed.
End statements.

(** ** Running a schedule

    [exec] carries out one step chosen by an event, if its condition holds. *)

Inductive event :=
  | EStatement | EClock | EAcquire (l : Z) | ERelease (l : Z) | EYield
  | EBlock (stat : task_status) | EUnblock (t : Z).

Section schedules.
Context `{AddrV2P}.

Definition exec (σ : sys) (e : event) : option (outcome sys) :=
  let cur := running_thread (ks σ) in
  match e with
  | EStatement => Some (lock_step σ)
  | EClock =>
      Some ('(n, s) ← clock_interrupt (now σ) (ks σ); Ok (Sys s (locks σ) (pcs σ) n))
  | EAcquire l =>
      lk ← locks σ !! l;
      if bool_decide (pc_of σ cur = User ∧ cur ≠ idle_thread (ks σ) ∧
                      (holder lk = cur → holder_repeat_nr lk < 4294967295))
      then Some (Ok (lock_acquire σ l)) else None
  | ERelease l =>
      lk ← locks σ !! l;
      if bool_decide (pc_of σ cur = User ∧ cur ≠ idle_thread (ks σ) ∧ holder lk = cur)
      then Some (Ok (lock_release σ l)) else None
  | EYield =>
      if bool_decide (pc_of σ cur = User)
      then Some (s ← thread_yield (ks σ); Ok (set_ks σ s)) else None
  | EBlock stat =>
      if bool_decide (pc_of σ cur = User ∧ is_blocked stat = true)
      then Some (s ← thread_block (ks σ) stat; Ok (set_ks σ s)) else None
  | EUnblock t =>
      x ← st (ks σ) t;
      if bool_decide (pc_of σ cur = User ∧ pc_of σ t = User ∧ is_blocked x = true)
      then Some (s ← thread_unblock (ks σ) t; Ok (set_ks σ s)) else None
  end.

Fixpoint run_schedule (σ : sys) (es : list event) : option (outcome sys) :=
  match es with
  | [] => Some (Ok σ)
  | e :: es' =>
      r ← exec σ e;
      match r with
      | Ok σ' => run_schedule σ' es'
      | _ => Some r
      end
  end.

Lemma exec_step σ e r : exec σ e = Some r → step σ r.
Proof.
  destruct e as [| |l|l| |stat|t]; cbn; intros He.
  - injection He as <-. apply step_statement.
  - injection He as <-. apply step_clock.
  - destruct (locks σ !! l) as [lk|] eqn:E; [cbn in He|done]. revert He.
    gdecide as D; [|done]. intros [= <-]. destruct D as (? & ? & ?). by eapply step_acquire.
  - destruct (locks σ !! l) as [lk|] eqn:E; [cbn in He|done]. revert He.
    gdecide as D; [|done]. intros [= <-]. destruct D as (? & ? & ?). by eapply step_release.
  - revert He. gdecide as D; [|done]. intros [= <-]. by apply step_yield.
  - revert He. gdecide as D; [|done]. intros [= <-]. destruct D. by apply step_block.
  - destruct (st (ks σ) t) as [x|] eqn:E; [cbn in He|done]. revert He.
    gdecide as D; [|done]. intros [= <-]. destruct D as (? & ? & ?). by eapply step_unblock.
Qed.

Lemma run_schedule_reachable_from σ es r : ∀ σ1,
  reachable σ (Ok σ1) → run_schedule σ1 es = Some r → reachable σ r.
Proof.
  induction es as [|e es IH]; intros σ1 H0; cbn; [by intros [= <-]|].
  destruct (exec σ1 e) as [r1|] eqn:E; [cbn|done]. apply exec_step in E.
  assert (reachable σ r1) as H1 by (by eapply reach_step).
  destruct r1; [by apply IH|by intros [= <-]..].
Qed.

Lemma run_schedule_reachable σ es r : run_schedule σ es = Some r → reachable σ r.
Proof. apply run_schedule_reachable_from. constructor. Qed.
End schedules.

(** ** The system from its start *)

(** Threads outside of sync.c and locks that were initialised. *)
Record started (σ : sys) : Prop := Started {
  start_sched : sched_inv (ks σ);
  start_magic : magic_ok (ks σ);
  start_pcs t : pc_of σ t = User;
  start_locks l lk : locks σ !! l = Some lk → lk = lock_init
}.

Lemma started_inv σ : started σ → sync_inv σ.
Proof.
  intros [Hs Hm Hpc Hl].
  split; try done; try intros t; try rewrite Hpc; try done.
  - intros lk ->%Hl. left. split_and!; try done. intros t'. by rewrite Hpc.
  - intros lk ->%Hl. split; cbn; [apply NoDup_nil_2| |done].
    intros t'. rewrite Hpc. split; [by intros ?%not_elem_of_nil|]. by intros [_ [? [=]]].
Qed.

Section theorems.
Context `{AddrV2P}.

Lemma reachable_inv σ0 r : started σ0 → reachable σ0 r → ∃ σ, r = Ok σ ∧ sync_inv σ.
Proof.
  intros H0. induction 1 as [|σ r _ (σ1 & [= <-] & Hinv) Hstep].
  - exists σ0. split; [done|by apply started_inv].
  - by apply (step_inv σ Hinv).
Qed.

(** The recorded holder changes only by its own [lock_release]. *)
Lemma holder_step σ σ' l lk :
  sync_inv σ → step σ (Ok σ') → locks σ !! l = Some lk → holder lk ≠ NULL →
  (∃ lk', locks σ' !! l = Some lk' ∧ holder lk' = holder lk) ∨
  (running_thread (ks σ) = holder lk ∧ pc_of σ (holder lk) = RelHolder l).
Proof.
  intros Hσ Hstep Hl Hh. remember (Ok σ') as r eqn:Er.
  assert (∀ l1 lk1 lk1', locks σ !! l1 = Some lk1 → holder lk1' = holder lk1 →
    ∃ lk', <[l1 := lk1']> (locks σ) !! l = Some lk' ∧ holder lk' = holder lk) as Hkeep.
  { intros l1 lk1 lk1' H1 H2. rewrite lookup_insert.
    gdecide as E; [|by exists lk]. exists lk1'. split; congruence. }
  destruct Hstep as [| | | |Hp|stat Hp Hb|t x Hp Ht Hx Hb| |];
    try (injection Er as <-; left; by exists lk);
    try (left; match type of Er with (?x ≫= _) = _ => destruct x end; try done;
         cbn in Er; try (destruct a); injection Er as <-; by exists lk).
  unfold lock_step in Er.
  destruct (pc_of σ (running_thread (ks σ))) as [|l1|l1|l1 old|l1|l1|l1|l1|l1|l1|l1|l1|l1] eqn:Hpc;
    [by injection Er as <-; left; exists lk|..];
    (destruct (locks σ !! l1) as [lk1|] eqn:Hl1; cbn in Er;
      [|by try done; injection Er as <-; left; exists lk]);
    try (destruct (holder_repeat_nr lk1 =? _) in Er; cbn in Er; [|done]);
    try (destruct (holder lk1 =? _) in Er; cbn in Er; [|done]);
    try (injection Er as <-; left; cbn; first [by exists lk | by apply (Hkeep l1 lk1)]).
  - left. destruct (sema_down_round _ _) as [[[sm s']|sm]| | | |]; cbn in Er; try done;
      injection Er as <-; by apply (Hkeep l1 lk1).
  - injection Er as <-. left. cbn. destruct (decide (l1 = l)) as [->|Hne].
    + pose proof (owner_info σ Hσ l lk1 Hl1) as Hok. rewrite Hpc in Hok. cbn in Hok.
      rewrite Z.eqb_refl in Hok. destruct Hok; [done|]. congruence.
    + exists lk. by rewrite lookup_insert_ne.
  - injection Er as <-. destruct (decide (l1 = l)) as [->|Hne].
    + right. pose proof (owner_info σ Hσ l lk1 Hl1) as Hok. rewrite Hpc in Hok. cbn in Hok.
      rewrite Z.eqb_refl in Hok. destruct Hok as (Hh1 & _); [done|].
      assert (lk1 = lk) as -> by congruence. by rewrite Hh1.
    + left. exists lk. cbn. by rewrite lookup_insert_ne.
  - left. destruct (sema_up _ _) as [[sm s']| | | |]; cbn in Er; try done.
    injection Er as <-. by apply (Hkeep l1 lk1).
Qed.

(** C1. However the threads are interleaved, no assertion of sync.c or of the
    scheduler fails and nothing is read that is not there; at every moment the
    scheduler's state is consistent: the current thread and no other is marked
    as running, the ready list holds each ready thread once and nothing else,
    and every thread but the current one has a place to go on from. *)
Theorem threads_run_safely σ0 r :
  started σ0 → reachable σ0 r → ∃ σ, r = Ok σ ∧ sched_inv (ks σ).
Proof.
  intros H0 Hr. destruct (reachable_inv σ0 r H0 Hr) as (σ & -> & Hσ). exists σ.
  split; [done|apply Hσ].
Qed.

(** C2. Mutual exclusion: in every reachable state at most one thread is
    between [sema_down] of [lock_acquire] and the end of [lock_release] of a
    lock, it is the recorded holder if there is one, and no step of any other
    thread takes the lock away from the holder. *)
Theorem lock_mutual_exclusion σ0 σ l lk :
  started σ0 → reachable σ0 (Ok σ) → locks σ !! l = Some lk →
  (∀ t1 t2, inside l (pc_of σ t1) = true → inside l (pc_of σ t2) = true → t1 = t2) ∧
  (∀ t, inside l (pc_of σ t) = true → holder lk = t ∨ holder lk = NULL) ∧
  (holder lk ≠ NULL → value (sema lk) = 0) ∧
  (∀ σ', step σ (Ok σ') → holder lk ≠ NULL →
    (∃ lk', locks σ' !! l = Some lk' ∧ holder lk' = holder lk) ∨
    (running_thread (ks σ) = holder lk ∧ pc_of σ (holder lk) = RelHolder l)).
Proof.
  intros H0 Hr Hl. destruct (reachable_inv σ0 _ H0 Hr) as (σ1 & [= <-] & Hσ).
  split_and!.
  - intros t1 t2 H1 H2.
    destruct (sync_lock _ Hσ l lk Hl) as [(_ & _ & _ & Hno)|(o & _ & _ & _ & Hu)].
    + by rewrite Hno in H1.
    + by rewrite (Hu t1 H1), (Hu t2 H2).
  - intros t H1.
    destruct (sync_lock _ Hσ l lk Hl) as [(_ & _ & _ & Hno)|(o & _ & _ & Hok & Hu)].
    + by rewrite Hno in H1.
    + rewrite (Hu t H1). by apply owner_ok_holder in Hok.
  - intros Hh. destruct (sync_lock _ Hσ l lk Hl) as [(_ & ? & _)|(o & Hv & _)]; done.
  - intros σ' Hstep Hh. by apply holder_step.
Qed.

(** C3. No wakeup is lost: the waiting list of a lock holds exactly the threads
    that are blocked in [sema_down] on it; when the lock is free and threads
    wait, one of the threads in [sema_down] is running or in the ready list, and
    it is there that a thread blocked on a taken lock finds an owner. *)
Theorem no_lost_wakeup σ0 σ l lk :
  started σ0 → reachable σ0 (Ok σ) → locks σ !! l = Some lk →
  (∀ t, t ∈ waiters (sema lk) ↔
     st (ks σ) t = Some TASK_BLOCKED ∧ ∃ old, pc_of σ t = DownLoop l old) ∧
  (value (sema lk) = 1 → waiters (sema lk) ≠ [] →
     ∃ t old, pc_of σ t = DownLoop l old ∧
       (t = running_thread (ks σ) ∨ t ∈ thread_ready_list (ks σ))) ∧
  (value (sema lk) ≠ 1 →
     ∃ o, o ≠ NULL ∧ (holder lk = o ∨ inside l (pc_of σ o) = true)).
Proof.
  intros H0 Hr Hl. destruct (reachable_inv σ0 _ H0 Hr) as (σ1 & [= <-] & Hσ).
  destruct (sync_wait _ Hσ l lk Hl) as [Hnd Hbl Haw]. split_and!; [done|..].
  - intros H1 H2. destruct (Haw H1 H2) as (t & old & Ht & Ha). exists t, old. split; [done|].
    destruct Ha as [Ha|Ha].
    + right. by apply (core_ready _ (inv_core _ (sync_sched _ Hσ))).
    + left. by apply (core_running _ (inv_core _ (sync_sched _ Hσ))).
  - intros Hv. destruct (sync_lock _ Hσ l lk Hl) as [(? & _)|(o & _ & Ho & Hok & _)]; [done|].
    exists o. split; [done|]. destruct (owner_ok_holder _ _ _ _ Hok) as [?|Hh]; [by left|right].
    destruct (pc_of σ o) as [|l'|l'|l'|l'|l'|l'|l'|l'|l'|l'|l'|l']; cbn in Hok |- *;
      try destruct (Z.eqb_spec l' l); try done; try (destruct Hok as [E _]; congruence).
Qed.
End theorems.

(** ** A run of three threads and one lock

    The main thread takes the lock, takes it again and is preempted inside; the
    worker blocks on it; the main thread releases it twice. *)

Module Demo.
#[local] Instance demo_v2p : AddrV2P := λ v, v - 3221225472.

Definition task (x : task_status) (prio : Z) : task_struct :=
  TaskStruct 0 0 x [] prio 0 0 NULL [] 0 stack_magic_number.

Definition main : Z := 3221872640.
Definition idle : Z := 3222274048.
Definition worker : Z := 3222278144.

Definition boot : sys :=
  Sys (KState (<[main := task TASK_RUNNING 31]> (<[idle := task TASK_BLOCKED 10]>
                (<[worker := task TASK_READY 31]> ∅)))
              [worker] [main; idle; worker] main main idle INTR_ON
              (<[idle := in_thread_block INTR_ON]> (<[worker := in_kernel_thread]> ∅)) 1048576 0)
      (<[7 := lock_init]> ∅) ∅ 0.

Definition acquire : list event :=
  EAcquire 7 :: replicate 5 EStatement.
Definition contended : list event :=
  acquire ++ [EAcquire 7; EStatement; EStatement; EClock; EAcquire 7] ++ replicate 3 EStatement.
Definition handover : list event :=
  contended ++ [ERelease 7] ++ replicate 3 EStatement ++ [ERelease 7] ++ replicate 5 EStatement.

Lemma boot_started : started boot.
Proof.
  split.
  - apply sched_inv_b_ok. by vm_compute.
  - intros t p. cbn. rewrite !lookup_insert. repeat gdecide; try (by intros [= <-]).
  - done.
  - intros l lk. cbn. rewrite lookup_insert. gdecide; [by intros [= <-]|]. by rewrite lookup_empty.
Defined.

Definition after (es : list event) : sys :=
  match run_schedule boot es with Some (Ok σ) => σ | _ => boot end.

Definition runs (es : list event) : bool :=
  match run_schedule boot es with Some (Ok _) => true | _ => false end.

Lemma after_reachable es : runs es = true → reachable boot (Ok (after es)).
Proof.
  intros Hr. apply (run_schedule_reachable _ es). unfold after. revert Hr. unfold runs.
  by destruct (run_schedule boot es) as [[| | | |]|].
Qed.

Lemma threads_run_safely_witness :
  ∃ σ, Ok (after handover) = Ok σ ∧ sched_inv (ks σ).
Proof.
  exact (threads_run_safely boot _ boot_started (after_reachable handover ltac:(by vm_compute))).
Defined.

Lemma lock_mutual_exclusion_witness :
  value (sema (Lock main (Semaphore 0 [worker]) 2)) = 0 ∧
  ∀ t1 t2, inside 7 (pc_of (after contended) t1) = true →
           inside 7 (pc_of (after contended) t2) = true → t1 = t2.
Proof.
  destruct (lock_mutual_exclusion boot (after contended) 7 (Lock main (Semaphore 0 [worker]) 2)
    boot_started (after_reachable contended ltac:(by vm_compute)) ltac:(by vm_compute))
    as (H1 & _ & H3 & _).
  split; [by apply H3|exact H1].
Defined.

Lemma no_lost_wakeup_witness :
  worker ∈ [worker] ↔
     st (ks (after contended)) worker = Some TASK_BLOCKED ∧
     ∃ old, pc_of (after contended) worker = DownLoop 7 old.
Proof.
  exact (proj1 (no_lost_wakeup boot (after contended) 7 (Lock main (Semaphore 0 [worker]) 2)
    boot_started (after_reachable contended ltac:(by vm_compute)) ltac:(by vm_compute)) worker).
Defined.

(** The run ends with the lock free and the worker awake in [sema_down]. *)
Example handover_result :
  locks (after handover) !! 7 = Some (Lock NULL (Semaphore 1 []) 0) ∧
  thread_ready_list (ks (after handover)) = [worker] ∧
  pc_of (after handover) worker = DownLoop 7 INTR_ON.
Proof. by vm_compute. Qed.
End Demo.
