(* ===== verification/ThreadInit.v ===== *)
(** * thread/thread.c: creating threads

    Process numbers, the control block and first stack of a new thread, and
    [thread_init], after which the scheduler and the locks are in the state
    from which [Sync] starts. *)

From stdpp Require Import base numbers list gmap strings.
From Stdlib Require Import ZArith Lia Ascii.
From S2P Require Import Prelude Interrupt Thread Timer Sync.

(** ** Data *)

(** The stack a new thread starts with; [ret] in [switch_to] takes [eip]. *)
Record thread_stack := ThreadStack {
  ebp : Z;
  ebx : Z;
  edi : Z;
  esi : Z;
  eip : Z;
  function : Z;
  func_arg : Z
}.

(** The system with what thread.c keeps besides: the counter of
    [allocate_pid] and the stacks made by [thread_create], by their address. *)
Record kernel := Kernel {
  sy : sys;
  next_pid : Z;
  kthread_stacks : gmap Z thread_stack
}.

Definition sizeof_intr_stack : Z := 19 * 4.
Definition sizeof_thread_stack : Z := 8 * 4.
Definition sizeof_task_struct : Z := 276.
Definition MAX_FILES_OPEN_PER_PROC : Z := 8.

(** The address of the lock [pid_lock]. *)
Definition pid_lock : Z := 1.

(** ** Operations *)

Section operations.
Context `{AddrV2P}.

(** The current thread runs the statements of a call into sync.c to the end of
    the call; [Blocked] when it has to wait. *)
Fixpoint run_call (fuel : nat) (t : Z) (σ : sys) : outcome sys :=
  match fuel with
  | O => OutOfFuel
  | S fuel' =>
      if negb (bool_decide (running_thread (ks σ) = t)) then Blocked
      else if bool_decide (pc_of σ t = User) then Ok σ
      else σ ← lock_step σ; run_call fuel' t σ
  end.

Definition call_acquire (σ : sys) (l : Z) : outcome sys :=
  run_call 8 (running_thread (ks σ)) (lock_acquire σ l).
Definition call_release (σ : sys) (l : Z) : outcome sys :=
  run_call 8 (running_thread (ks σ)) (lock_release σ l).

Definition allocate_pid (k : kernel) : outcome (Z * kernel) :=
  σ ← call_acquire (sy k) pid_lock;
  let next_pid := s16 (next_pid k + 1) in
  σ ← call_release σ pid_lock;
  Ok (next_pid, Kernel σ next_pid (kthread_stacks k)).

(** [strcpy] into the 16 bytes of [name], which [memset] has cleared. *)
Definition copy_name (name : list Z) : outcome (list Z) :=
  if (length name <? 16)%nat then Ok (name ++ replicate (16 - length name) 0) else Fault.

Definition init_thread (k : kernel) (pthread : Z) (name : list Z) (prio : Z)
    : outcome (task_struct * kernel) :=
  '(pid, k) ← allocate_pid k;
  name ← copy_name name;
  let status := if bool_decide (pthread = main_thread (ks (sy k)))
                then TASK_RUNNING else TASK_READY in
  let fd_table := [0; 1; 2] ++ replicate (Z.to_nat (MAX_FILES_OPEN_PER_PROC - 3)) (-1) in
  Ok (TaskStruct (u32 (pthread + PG_SIZE)) pid status name (u8 prio) (u8 prio) 0 NULL
        fd_table 0 stack_magic_number, k).

(** [thread_create]: [self_kstack] is a pointer to 32-bit words, so each
    subtraction moves it by four times the size. *)
Definition thread_create (p : task_struct) (kernel_thread func arg : Z)
    : task_struct * thread_stack :=
  let sp := u32 (self_kstack p - 4 * sizeof_intr_stack) in
  let sp := u32 (sp - 4 * sizeof_thread_stack) in
  (TaskStruct sp (pid p) (status p) (name p) (priority p) (ticks p) (elapsed_ticks p)
     (pgdir p) (fd_table p) (cwd_inode_nr p) (stack_magic p),
   ThreadStack 0 0 0 0 kernel_thread func arg).

(** [thread_start] on the page that [get_kernel_pages(1)] returned. *)
Definition thread_start (k : kernel) (thread : Z) (name : list Z)
    (prio kernel_thread func arg : Z) : outcome (Z * kernel) :=
  '(p, k) ← init_thread k thread name prio;
  let '(p, stack) := thread_create p kernel_thread func arg in
  s ← thread_enqueue (ks (sy k)) thread p;
  Ok (thread, Kernel (set_ks (sy k) s) (next_pid k)
                (<[self_kstack p := stack]> (kthread_stacks k))).

Definition set_main (s : kstate) (t : Z) : kstate :=
  KState (tasks s) (thread_ready_list s) (thread_all_list s) (running_thread s) t
    (idle_thread s) (intr s) (resume s) (cr3 s) (tss_esp0 s).
Definition set_idle (s : kstate) (t : Z) : kstate :=
  KState (tasks s) (thread_ready_list s) (thread_all_list s) (running_thread s) (main_thread s)
    t (intr s) (resume s) (cr3 s) (tss_esp0 s).

Definition bytes (s : string) : list Z :=
  (λ c, Z.of_N (N_of_ascii c)) <$> String.list_ascii_of_string s.

Definition make_main_thread (k : kernel) : outcome kernel :=
  let s := ks (sy k) in
  let main := running_thread s in
  let k := Kernel (set_ks (sy k) (set_main s main)) (next_pid k) (kthread_stacks k) in
  '(p, k) ← init_thread k main (bytes "main") 31;
  let s := ks (sy k) in
  let s := set_tasks s (<[main := p]> (tasks s)) in
  ASSERT (negb (bool_decide (main ∈ thread_all_list s)));;
  let s := set_all s (thread_all_list s ++ [main]) in
  Ok (Kernel (set_ks (sy k) s) (next_pid k) (kthread_stacks k)).

(** [thread_init]; [page] is the page for the idle thread. *)
Definition thread_init (k : kernel) (page kernel_thread idle : Z) : outcome kernel :=
  let s := set_all (set_ready (ks (sy k)) []) [] in
  let σ := set_lock (set_ks (sy k) s) pid_lock lock_init in
  k ← make_main_thread (Kernel σ (next_pid k) (kthread_stacks k));
  '(t, k) ← thread_start k page (bytes "idle") 10 kernel_thread idle NULL;
  Ok (Kernel (set_ks (sy k) (set_idle (ks (sy k)) t)) (next_pid k) (kthread_stacks k)).
End operations.

(** ** A lock that nobody else uses *)

(** The system with the current thread at another place, another interrupt
    state and another value of the lock. *)
Definition at_pc (σ : sys) (l : Z) (i : intr_status) (lk : lock) (p : pc) : sys :=
  moved σ (set_intr (ks σ) i) l lk p.

Section calls.
Context `{AddrV2P}.
Variables (σ : sys) (l : Z).
Abbreviation cur := (running_thread (ks σ)).

Lemma pc_at i lk p : pc_of (at_pc σ l i lk p) cur = p.
Proof. unfold at_pc. rewrite pc_of_moved. by destruct (decide _). Qed.

Lemma lock_at i lk p : locks (at_pc σ l i lk p) !! l = Some lk.
Proof. cbn. by rewrite lookup_insert_eq. Qed.

Lemma at_pc_move i lk p p' : set_pc (at_pc σ l i lk p) p' = at_pc σ l i lk p'.
Proof. unfold set_pc, at_pc, moved. cbn. by rewrite insert_insert_eq. Qed.

Lemma at_pc_lock i lk p lk' : set_lock (at_pc σ l i lk p) l lk' = at_pc σ l i lk' p.
Proof. unfold set_lock, at_pc, moved. cbn. by rewrite insert_insert_eq. Qed.

Lemma at_pc_intr i lk p i1 i' :
  set_ks (at_pc σ l i lk p) (set_intr (set_intr (ks σ) i1) i') = at_pc σ l i' lk p.
Proof. done. Qed.

Lemma at_pc_intr2 i lk p i1 i2 i' :
  set_ks (at_pc σ l i lk p) (set_intr (set_intr (set_intr (ks σ) i1) i2) i') =
  at_pc σ l i' lk p.
Proof. done. Qed.

Lemma run_call_step fuel i lk p i' lk' p' :
  p ≠ User → lock_step (at_pc σ l i lk p) = Ok (at_pc σ l i' lk' p') →
  run_call (S fuel) cur (at_pc σ l i lk p) = run_call fuel cur (at_pc σ l i' lk' p').
Proof.
  intros Hp Hs. cbn [run_call]. rewrite bool_decide_eq_true_2 by done. cbn [negb].
  rewrite pc_at, bool_decide_eq_false_2 by done. by rewrite Hs.
Qed.

Lemma run_call_done fuel i lk :
  run_call (S fuel) cur (at_pc σ l i lk User) = Ok (at_pc σ l i lk User).
Proof.
  cbn [run_call]. rewrite bool_decide_eq_true_2 by done. cbn [negb].
  by rewrite pc_at, bool_decide_eq_true_2.
Qed.

(** One statement of the current thread, evaluated. *)
Ltac statement i lk p :=
  rewrite (run_call_step _ _ _ _ i lk p);
  [| done
   | unfold lock_step; cbn [ks at_pc moved running_thread set_intr];
     rewrite pc_at, ?lock_at; ocbn; unfold sema_down_round, sema_up;
     do 2 (cbn [sema value waiters holder holder_repeat_nr];
       change (u8 (1 - 1)) with 0; change (u8 (0 + 1)) with 1;
       change (1 =? 0) with false; change (0 =? 0) with true; change (1 =? 1) with true;
       ocbn); rewrite ?at_pc_lock, ?at_pc_intr, ?at_pc_intr2, ?at_pc_move; try done ].

(** Acquiring a free lock takes five statements and no waiting. *)
Lemma call_acquire_free :
  cur ≠ NULL → locks σ !! l = Some (Lock NULL (Semaphore 1 []) 0) →
  call_acquire σ l = Ok (at_pc σ l (intr (ks σ)) (Lock cur (Semaphore 0 []) 1) User).
Proof.
  intros Hn Hl. unfold call_acquire, lock_acquire. rewrite (moved_id σ l _ _ Hl).
  change (moved _ _ _ _ _) with
    (at_pc σ l (intr (ks σ)) (Lock NULL (Semaphore 1 []) 0) (AcqTest l)).
  statement (intr (ks σ)) (Lock NULL (Semaphore 1 []) 0) (DownEnter l).
  2:{ by destruct (Z.eqb_spec NULL cur). }
  statement INTR_OFF (Lock NULL (Semaphore 1 []) 0) (DownLoop l (intr (ks σ))).
  statement (intr (ks σ)) (Lock NULL (Semaphore 0 []) 0) (AcqHolder l).
  statement (intr (ks σ)) (Lock cur (Semaphore 0 []) 0) (AcqRepeat l).
  statement (intr (ks σ)) (Lock cur (Semaphore 0 []) 1) User.
  apply run_call_done.
Qed.

(** Releasing it again takes five as well. *)
Lemma call_release_held i :
  call_release (at_pc σ l i (Lock cur (Semaphore 0 []) 1) User) l =
  Ok (at_pc σ l i (Lock NULL (Semaphore 1 []) 0) User).
Proof.
  unfold call_release, lock_release. cbn [ks at_pc moved running_thread set_intr].
  change (moved _ _ _ _ _) with (at_pc σ l i (Lock cur (Semaphore 0 []) 1) User).
  rewrite at_pc_move.
  statement i (Lock cur (Semaphore 0 []) 1) (RelTest l).
  2:{ by rewrite Z.eqb_refl. }
  statement i (Lock cur (Semaphore 0 []) 1) (RelHolder l).
  statement i (Lock NULL (Semaphore 0 []) 1) (RelRepeat l).
  statement i (Lock NULL (Semaphore 0 []) 0) (UpEnter l).
  statement i (Lock NULL (Semaphore 1 []) 0) User.
  apply run_call_done.
Qed.
End calls.

(** ** Creating threads *)

Section specs.
Context `{AddrV2P}.

(** The state after a process number was allocated, with nobody else at the
    lock. *)
Definition pid_taken (k : kernel) : kernel :=
  Kernel (at_pc (sy k) pid_lock (intr (ks (sy k))) lock_init User) (s16 (next_pid k + 1))
         (kthread_stacks k).

Lemma allocate_pid_free k :
  running_thread (ks (sy k)) ≠ NULL → locks (sy k) !! pid_lock = Some lock_init →
  allocate_pid k = Ok (s16 (next_pid k + 1), pid_taken k).
Proof.
  intros Hn Hl. unfold allocate_pid. rewrite call_acquire_free by done. ocbn.
  by rewrite call_release_held.
Qed.

Lemma ks_pid_taken k : ks (sy (pid_taken k)) = ks (sy k).
Proof. cbn. by destruct (ks (sy k)). Qed.

Lemma pc_pid_taken k t : pc_of (sy k) (running_thread (ks (sy k))) = User →
  pc_of (sy (pid_taken k)) t = pc_of (sy k) t.
Proof.
  intros Hp. cbn. unfold at_pc. rewrite pc_of_moved. gdecide; [|done]. by subst.
Qed.

Lemma locks_pid_taken k : locks (sy k) !! pid_lock = Some lock_init →
  locks (sy (pid_taken k)) = locks (sy k).
Proof. intros Hl. cbn. by rewrite insert_id. Qed.

(** The control block [init_thread] and [thread_create] make for a thread that
    is not the main thread. *)
Definition new_task (k : kernel) (thread : Z) (nm : list Z) (prio : Z) : task_struct :=
  TaskStruct (u32 (u32 (u32 (thread + PG_SIZE) - 304) - 128)) (s16 (next_pid k + 1)) TASK_READY
    (nm ++ replicate (16 - length nm) 0) (u8 prio) (u8 prio) 0 NULL
    [0; 1; 2; -1; -1; -1; -1; -1] 0 stack_magic_number.

Lemma thread_start_spec k thread nm prio kt f a :
  sched_inv (ks (sy k)) → locks (sy k) !! pid_lock = Some lock_init →
  st (ks (sy k)) thread = None → thread ≠ NULL → thread ≠ main_thread (ks (sy k)) →
  (length nm < 16)%nat →
  ∃ s', thread_start k thread nm prio kt f a =
    Ok (thread, Kernel (set_ks (sy (pid_taken k)) s') (s16 (next_pid k + 1))
          (<[self_kstack (new_task k thread nm prio) := ThreadStack 0 0 0 0 kt f a]>
             (kthread_stacks k))) ∧
    thread_enqueue (ks (sy k)) thread (new_task k thread nm prio) = Ok s' ∧ sched_inv s'.
Proof.
  intros Hs Hl Ht Hn Hm Hnm. unfold thread_start, init_thread.
  assert (running_thread (ks (sy k)) ≠ NULL) as Hc.
  { intros E. pose proof (inv_cur _ Hs) as Hc. rewrite E, (core_null _ (inv_core _ Hs)) in Hc. done. }
  rewrite allocate_pid_free by done. ocbn. unfold copy_name.
  destruct (Nat.ltb_spec (length nm) 16); [|lia]. ocbn.
  rewrite ks_pid_taken, bool_decide_eq_false_2 by done.
  set (p := TaskStruct _ _ _ _ _ _ _ _ _ _ _).
  destruct (thread_enqueue_spec (ks (sy k)) thread (new_task k thread nm prio)) as (s' & Heq & Hs' & _);
    [done..|].
  exists s'. change (thread_create p kt f a) with (new_task k thread nm prio, ThreadStack 0 0 0 0 kt f a).
  cbv beta iota. rewrite Heq. done.
Qed.

(** [thread_start] makes a runnable thread, with interrupts in any state
    and nobody else at the lock of the process numbers: it returns the new
    thread, which stands at the end of both lists with a fresh number, a full
    time slice and the three standard descriptors; its first stack lies in its
    page above the control block; the scheduler's invariant is kept. *)
Theorem thread_start_correct k thread nm prio kt f a :
  sched_inv (ks (sy k)) → locks (sy k) !! pid_lock = Some lock_init →
  st (ks (sy k)) thread = None → 0 < thread < 4294959104 → thread ≠ main_thread (ks (sy k)) →
  (length nm < 16)%nat → 0 ≤ prio < 256 →
  ∃ k' p, thread_start k thread nm prio kt f a = Ok (thread, k') ∧
    sched_inv (ks (sy k')) ∧
    thread_ready_list (ks (sy k')) = thread_ready_list (ks (sy k)) ++ [thread] ∧
    thread_all_list (ks (sy k')) = thread_all_list (ks (sy k)) ++ [thread] ∧
    running_thread (ks (sy k')) = running_thread (ks (sy k)) ∧
    tasks (ks (sy k')) !! thread = Some p ∧
    status p = TASK_READY ∧ pid p = s16 (next_pid k + 1) ∧ next_pid k' = pid p ∧
    priority p = prio ∧ ticks p = prio ∧ fd_table p = [0; 1; 2; -1; -1; -1; -1; -1] ∧
    resume (ks (sy k')) !! thread = Some in_kernel_thread ∧
    thread + sizeof_task_struct ≤ self_kstack p ∧
    self_kstack p + sizeof_thread_stack + sizeof_intr_stack ≤ thread + PG_SIZE ∧
    kthread_stacks k' !! self_kstack p = Some (ThreadStack 0 0 0 0 kt f a).
Proof.
  intros Hs Hl Ht Hr Hm Hnm Hp.
  assert (thread ≠ NULL) as Hn by (unfold NULL; lia).
  destruct (thread_start_spec k thread nm prio kt f a Hs Hl Ht Hn Hm Hnm) as (s' & Heq & Hen & Hs').
  destruct (thread_enqueue_spec (ks (sy k)) thread (new_task k thread nm prio))
    as (s1 & Heq1 & _ & Hrun & _ & _ & _ & Hq & Ha & Htk & Hres & _); [done..|].
  assert (s1 = s') as -> by congruence.
  assert (u32 (u32 (u32 (thread + 4096) - 304) - 128) = thread + 3664) as Hsp.
  { rewrite (u32_small (thread + 4096)), (u32_small (thread + 4096 - 304)), u32_small by lia. lia. }
  do 2 eexists. split; [exact Heq|]. cbn [sy ks set_ks next_pid kthread_stacks].
  split_and!; try done; try (rewrite ?Htk, ?Hres; by rewrite lookup_insert_eq);
    cbn [priority ticks self_kstack new_task]; unfold sizeof_task_struct, sizeof_thread_stack,
    sizeof_intr_stack, PG_SIZE; rewrite ?u8_small by lia; try done.
  - rewrite Hsp. lia.
  - rewrite Hsp. lia.
Qed.

(** The main thread running and the idle thread ready. *)
Lemma two_threads_inv main idle p1 p2 i c e :
  main ≠ NULL → idle ≠ NULL → main ≠ idle → status p1 = TASK_RUNNING → status p2 = TASK_READY →
  sched_inv (KState (<[idle := p2]> (<[main := p1]> ∅)) [idle] [main; idle] main main idle i
               (<[idle := in_kernel_thread]> ∅) c e).
Proof.
  intros Hm Hi Hne H1 H2. set (s := KState _ _ _ _ _ _ _ _ _ _).
  assert (∀ t, st s t = if decide (t = idle) then Some TASK_READY
                        else if decide (t = main) then Some TASK_RUNNING else None) as Hst.
  { intros t. unfold st, s. cbn. rewrite !lookup_insert, lookup_empty.
    repeat gdecide; cbn; congruence. }
  split; [constructor|..]; try intros t; rewrite ?Hst; cbn.
  - apply NoDup_singleton.
  - rewrite list_elem_of_singleton. repeat gdecide; split; congruence.
  - repeat gdecide; congruence.
  - repeat gdecide; by eauto.
  - exists TASK_READY. split; [by gdecide|done].
  - repeat gdecide; congruence.
  - repeat gdecide; congruence.
  - rewrite lookup_insert_is_Some', lookup_empty. split.
    + intros [<-|[? [=]]]. split; [|done]. by gdecide.
    + intros [Ht Hn]. left. revert Ht. repeat gdecide; done.
  - rewrite elem_of_cons, list_elem_of_singleton.
    repeat gdecide; subst; (split; [intros [?|?]; by eauto|intros [? [=]]; by auto]).
Qed.

Lemma thread_enqueue_eq s t p :
  t ∉ thread_ready_list s → t ∉ thread_all_list s →
  thread_enqueue s t p =
  Ok (set_all (set_ready (set_resume (set_tasks s (<[t := p]> (tasks s)))
                            (<[t := in_kernel_thread]> (resume s)))
                 (thread_ready_list s ++ [t])) (thread_all_list s ++ [t])).
Proof.
  intros H1 H2. unfold thread_enqueue.
  rewrite (bool_decide_eq_false_2 (t ∈ thread_ready_list _)) by done. ocbn.
  by rewrite (bool_decide_eq_false_2 (t ∈ thread_all_list _)) by done.
Qed.

Lemma make_main_spec k :
  let main := running_thread (ks (sy k)) in
  let s := set_main (ks (sy k)) main in
  let k1 := Kernel (set_ks (sy k) s) (next_pid k) (kthread_stacks k) in
  main ≠ NULL → locks (sy k) !! pid_lock = Some lock_init →
  main ∉ thread_all_list (ks (sy k)) →
  make_main_thread k =
  Ok (Kernel (set_ks (sy (pid_taken k1))
         (set_all (set_tasks s (<[main := TaskStruct (u32 (main + PG_SIZE)) (s16 (next_pid k + 1))
             TASK_RUNNING (bytes "main" ++ replicate 12 0) 31 31 0 NULL
             [0; 1; 2; -1; -1; -1; -1; -1] 0 stack_magic_number]> (tasks s)))
           (thread_all_list s ++ [main])))
       (s16 (next_pid k + 1)) (kthread_stacks k)).
Proof.
  intros main s k1 Hm Hl Ha. unfold make_main_thread, init_thread. fold main. fold s. fold k1.
  rewrite allocate_pid_free by done. ocbn. change (copy_name (bytes "main")) with
    (Ok (bytes "main" ++ replicate 12 0)). ocbn. rewrite ks_pid_taken.
  rewrite (bool_decide_eq_true_2 (main = _)) by done.
  rewrite (bool_decide_eq_false_2 (main ∈ _)) by done. done.
Qed.

(** [thread_init] brings the system into the state from which the claims
    about [Sync] start: the main thread runs as process 1, the idle thread
    stands in the ready list as process 2, both are in the list of all threads,
    the lock of the process numbers is free and no thread is inside sync.c. *)
Lemma thread_init_spec k page kt idle :
  let main := running_thread (ks (sy k)) in
  main ≠ NULL → page ≠ NULL → main ≠ page →
  tasks (ks (sy k)) = ∅ → resume (ks (sy k)) = ∅ → locks (sy k) = ∅ → pcs (sy k) = ∅ →
  next_pid k = 0 →
  ∃ k' p1 p2, thread_init k page kt idle = Ok k' ∧ started (sy k') ∧
    thread_ready_list (ks (sy k')) = [page] ∧ thread_all_list (ks (sy k')) = [main; page] ∧
    running_thread (ks (sy k')) = main ∧ idle_thread (ks (sy k')) = page ∧
    tasks (ks (sy k')) !! main = Some p1 ∧ pid p1 = 1 ∧
    tasks (ks (sy k')) !! page = Some p2 ∧ pid p2 = 2.
Proof.
  intros main Hm Hp Hne Ht Hr Hl Hpc Hk. subst main.
  destruct k as [[[ts rl al main mt it i rs c e] lks ps n] np stk].
  cbn [sy ks locks pcs next_pid tasks resume running_thread] in *. subst.
  unfold thread_init. cbv zeta. rewrite make_main_spec; [|done|by cbn; rewrite lookup_insert_eq|apply not_elem_of_nil].
  ocbn. unfold thread_start, init_thread. cbv zeta.
  rewrite allocate_pid_free; [|done|by cbn; rewrite !lookup_insert_eq].
  cbn [mbind outcome_bind]. change (copy_name (bytes "idle")) with
    (Ok (bytes "idle" ++ replicate 12 0)). ocbn. rewrite ks_pid_taken.
  rewrite (bool_decide_eq_false_2 (page = _)) by (cbn; congruence). ocbn.
  unfold thread_create. cbv zeta beta iota. rewrite thread_enqueue_eq; cycle 1.
  { apply not_elem_of_nil. }
  { cbn. rewrite list_elem_of_singleton. congruence. }
  ocbn. do 3 eexists. split; [reflexivity|]. cbn [sy ks set_ks].
  split; [|cbn; rewrite (lookup_insert_ne _ page main), !lookup_insert_eq by congruence; done].
  split.
  - by apply two_threads_inv.
  - intros t p. cbn. rewrite !lookup_insert, lookup_empty.
    repeat gdecide; [by intros [= <-]..|done].
  - intros t. unfold pc_of. cbn. rewrite !lookup_insert, lookup_empty. by repeat gdecide.
  - intros l lk. cbn. rewrite !lookup_insert, lookup_empty. repeat gdecide; [by intros [= <-]..|done].
Qed.
End specs.

(** ** The boot of the kernel, evaluated *)

Module BootExample.
#[local] Instance boot_v2p : AddrV2P := λ v, v - 3221225472.

(** The kernel as the loader leaves it, with the stack in 0xc009e000. *)
Definition power_on : kernel :=
  Kernel (Sys (KState ∅ [] [] 3221872640 0 0 INTR_OFF ∅ 1048576 0) ∅ ∅ 0) 0 ∅.

Definition booted : kernel :=
  match thread_init power_on 3222274048 16 32 with Ok k => k | _ => power_on end.

Lemma thread_start_correct_witness :
  ∃ k', thread_start booted 3222278144 (bytes "shell") 31 16 48 0 = Ok (3222278144, k') ∧
    thread_ready_list (ks (sy k')) = [3222274048; 3222278144].
Proof.
  destruct (thread_start_correct booted 3222278144 (bytes "shell") 31 16 48 0) as
    (k' & p & H1 & _ & H2 & _);
    [apply sched_inv_b_ok; by vm_compute|by vm_compute|by vm_compute|lia|by vm_compute
    |vm_compute; lia|lia|].
  exists k'. split; [exact H1|]. rewrite H2. by vm_compute.
Defined.
End BootExample.
