(* ===== verification/Idle.v ===== *)
(** * thread/thread.c: the running thread and the idle thread

    [running_thread] finds the control block from the stack pointer: block and stack
    share a page. [idle] runs when no other thread is ready. *)

From stdpp Require Import base numbers list gmap.
From Stdlib Require Import ZArith Lia.
From S2P Require Import Prelude Interrupt Thread.

(** [running_thread()] for the stack pointer [esp]; elsewhere the state names the
    thread itself. *)
Definition running_thread_at (esp : Z) : Z := Z.land esp 0xfffff000.

(** While the stack stays in the page of the control block, above it, the result is
    the control block. *)
Lemma running_thread_page (block esp : Z) : block mod 4096 = 0 → 0 ≤ block → block + 4096 ≤ 2 ^ 32 → block ≤ esp < block + 4096 →
  running_thread_at esp = block.
Proof.
  intros Hb H0 Hmax He. unfold running_thread_at.
  assert (esp / 4096 = block / 4096) as Hq by zdlia.
  replace 0xfffff000 with (Z.shiftl (Z.ones 20) 12) by reflexivity.
  assert (Z.land esp (Z.shiftl (Z.ones 20) 12) = Z.shiftl (Z.land (Z.shiftr esp 12) (Z.ones 20)) 12) as ->.
  { apply Z.bits_inj'. intros k Hk. rewrite Z.land_spec, !Z.shiftl_spec by done.
    destruct (decide (k < 12)) as [Hlt|Hge].
    - rewrite !(Z.testbit_neg_r _ (k - 12)) by lia. apply andb_false_r.
    - rewrite Z.land_spec, Z.shiftr_spec by lia. by replace (k - 12 + 12) with k by lia. }
  rewrite Z.land_ones, Z.shiftr_div_pow2, Z.shiftl_mul_pow2 by lia. change (2 ^ 12) with 4096. change (2 ^ 20) with 1048576.
  rewrite Hq, Z.mod_small by zdlia. zdlia.
Qed.

Section idle.
Context `{AddrV2P}.

(** A round of the loop of [idle]. [thread_block] returns in the thread that runs next:
    only when it is [idle] itself, [sti; hlt] follows. *)
Definition idle_round (s : kstate) : outcome kstate :=
  let self := running_thread s in
  s ← thread_block s TASK_BLOCKED;
  if running_thread s =? self then Ok (set_intr s INTR_ON) else Ok s.

(** [idle] gives way: when a thread is ready, it runs that one and stays blocked until
    [schedule] finds no other thread; when none is, it goes on itself and halts the
    processor with interrupts on. The scheduler's state stays consistent. *)
Theorem idle_gives_way s : sched_inv s → running_thread s = idle_thread s →
  ∃ s', idle_round s = Ok s' ∧ sched_inv s' ∧
    match thread_ready_list s with
    | [] => running_thread s' = idle_thread s ∧ thread_ready_list s' = [] ∧ intr s' = INTR_ON
    | t :: q => running_thread s' = t ∧ thread_ready_list s' = q ∧ st s' (idle_thread s) = Some TASK_BLOCKED
    end.
Proof.
  intros Hinv Hidle. destruct (thread_block_spec s TASK_BLOCKED Hinv eq_refl) as (s1 & Hb & Hsw). unfold idle_round. rewrite Hb. ocbn.
  pose proof (sw_queue _ _ _ Hsw) as Hq. pose proof (current_not_ready s Hinv) as Hcur. rewrite Hidle in *.
  destruct (thread_ready_list s) as [|t q] eqn:E.
  - injection Hq as Hrun Hready. rewrite Hrun, Z.eqb_refl. eexists. split; [done|]. split; [|by split_and!].
    destruct (sw_inv _ _ _ Hsw) as [[] ? ? ?]. by constructor; [constructor|..].
  - injection Hq as Hrun Hready. assert (t ≠ idle_thread s) as Hne by (intros ->; apply Hcur; left).
    rewrite Hrun, (proj2 (Z.eqb_neq _ _) Hne). exists s1. split; [done|]. split; [apply (sw_inv _ _ _ Hsw)|].
    split; [done|]. split; [done|]. rewrite (sw_frame _ _ _ Hsw) by done. rewrite st_leaving by done. by rewrite decide_True.
Qed.
End idle.

Module IdleExample.
Import RoundRobinExample.
#[local] Existing Instance v2p.

(** [idle], at 4096, runs while the thread at 8192 is ready. *)
Definition waiting : kstate :=
  KState (<[4096 := task TASK_RUNNING]> (<[8192 := task TASK_READY]> ∅)) [8192] [4096; 8192] 4096 8192 4096 INTR_ON
         (<[8192 := in_kernel_thread]> ∅) 1048576 0.

Lemma idle_gives_way_witness : ∃ s', idle_round waiting = Ok s' ∧ running_thread s' = 8192 ∧ st s' 4096 = Some TASK_BLOCKED.
Proof.
  destruct (idle_gives_way waiting (sched_inv_b_ok waiting ltac:(by vm_compute)) eq_refl) as (s' & Hs & _ & Hr & _ & Hb).
  exists s'. split; [exact Hs|]. split; [exact Hr|exact Hb].
Defined.
End IdleExample.
