(* ===== verification/IOQueue.v ===== *)
(** * device/ioqueue.c: the ring buffer between a driver and its readers

    A queue of characters in an array of 64, one slot of which stays empty.  A
    reader that finds it empty records itself in [consumer] and blocks, holding
    the queue's lock; the writer wakes it.  As [ioq_wait] switches to another
    thread, [ioq_getchar] and [ioq_putchar] are given from the head of their
    [while] to the switch or to the return ([_head]), and from the return of
    [ioq_wait] on ([_wake]). *)

From stdpp Require Import base numbers list gmap.
From Stdlib Require Import ZArith Lia.
From S2P Require Import Prelude Interrupt Thread Timer Sync ThreadInit.

Definition bufsize : Z := 64.

(** [ioq_lock] is the address of the lock, which is a lock of the system. *)
Record ioqueue := IOQueue {
  ioq_lock : Z;
  producer : Z;
  consumer : Z;
  buf : list Z;
  head : Z;
  tail : Z
}.

Implicit Types (q : ioqueue) (σ : sys).

(** ** Operations *)

(** [ioqueue_init] on a queue whose memory holds [b]; the lock is initialised
    in the system. *)
Definition ioqueue_init σ (l : Z) (b : list Z) : sys * ioqueue :=
  (set_lock σ l lock_init, IOQueue l NULL NULL b 0 0).

Definition next_pos (pos : Z) : Z := Z.rem (s32 (pos + 1)) bufsize.

Definition ioq_full σ q : outcome bool :=
  ASSERT (bool_decide (intr (ks σ) = INTR_OFF));;
  Ok (next_pos (head q) =? tail q).

Definition ioq_empty σ q : outcome bool :=
  ASSERT (bool_decide (intr (ks σ) = INTR_OFF));;
  Ok (head q =? tail q).

Section operations.
Context `{AddrV2P}.

(** [ioq_wait] up to the switch: the new value of the waiter and the system
    with another thread running. *)
Definition ioq_wait σ (waiter : Z) : outcome (Z * sys) :=
  ASSERT (waiter =? NULL);;
  let waiter := running_thread (ks σ) in
  s ← thread_block (ks σ) TASK_BLOCKED;
  Ok (waiter, set_ks σ s).

Definition wakeup σ (waiter : Z) : outcome (Z * sys) :=
  ASSERT (negb (waiter =? NULL));;
  s ← thread_unblock (ks σ) waiter;
  Ok (NULL, set_ks σ s).

(** What [ioq_getchar] has come to. *)
Inductive io_result :=
  | IoDone (byte : Z)
  | IoWait.

Definition ioq_getchar_head σ q : outcome (io_result * sys * ioqueue) :=
  empty ← ioq_empty σ q;
  if empty : bool then
    σ ← call_acquire σ (ioq_lock q);
    '(w, σ) ← ioq_wait σ (consumer q);
    Ok (IoWait, σ, IOQueue (ioq_lock q) (producer q) w (buf q) (head q) (tail q))
  else
    byte ← from_option_fault (buf q !! Z.to_nat (tail q));
    let q := IOQueue (ioq_lock q) (producer q) (consumer q) (buf q) (head q)
               (next_pos (tail q)) in
    if negb (producer q =? NULL) then
      '(w, σ) ← wakeup σ (producer q);
      Ok (IoDone byte, σ, IOQueue (ioq_lock q) w (consumer q) (buf q) (head q) (tail q))
    else Ok (IoDone byte, σ, q).

Definition ioq_getchar σ q : outcome (io_result * sys * ioqueue) :=
  ASSERT (bool_decide (intr (ks σ) = INTR_OFF));;
  ioq_getchar_head σ q.

(** The reader is back from [ioq_wait]. *)
Definition ioq_getchar_wake σ q : outcome (io_result * sys * ioqueue) :=
  σ ← call_release σ (ioq_lock q);
  ioq_getchar_head σ q.

Definition ioq_putchar_head σ q (byte : Z) : outcome (io_result * sys * ioqueue) :=
  full ← ioq_full σ q;
  if full : bool then
    σ ← call_acquire σ (ioq_lock q);
    '(w, σ) ← ioq_wait σ (producer q);
    Ok (IoWait, σ, IOQueue (ioq_lock q) w (consumer q) (buf q) (head q) (tail q))
  else if (Z.to_nat (head q) <? length (buf q))%nat then
    let q := IOQueue (ioq_lock q) (producer q) (consumer q)
               (<[Z.to_nat (head q) := s8 byte]> (buf q)) (next_pos (head q)) (tail q) in
    if negb (consumer q =? NULL) then
      '(w, σ) ← wakeup σ (consumer q);
      Ok (IoDone byte, σ, IOQueue (ioq_lock q) (producer q) w (buf q) (head q) (tail q))
    else Ok (IoDone byte, σ, q)
  else Fault.

Definition ioq_putchar σ q (byte : Z) : outcome (io_result * sys * ioqueue) :=
  ASSERT (bool_decide (intr (ks σ) = INTR_OFF));;
  ioq_putchar_head σ q byte.

Definition ioq_putchar_wake σ q (byte : Z) : outcome (io_result * sys * ioqueue) :=
  σ ← call_release σ (ioq_lock q);
  ioq_putchar_head σ q byte.
End operations.

(** ** The queue of characters *)

Definition wf_ioqueue q : Prop :=
  length (buf q) = Z.to_nat bufsize ∧ 0 ≤ head q < bufsize ∧ 0 ≤ tail q < bufsize.

Definition count q : nat := Z.to_nat ((head q - tail q) mod bufsize).

(** The characters from [tail] to [head]. *)
Definition contents q : list Z :=
  (λ i, buf q !!! Z.to_nat ((tail q + Z.of_nat i) mod bufsize)) <$> seq 0 (count q).

Definition capacity : nat := 63.

Lemma next_pos_mod pos : 0 ≤ pos < bufsize → next_pos pos = (pos + 1) mod bufsize.
Proof.
  unfold next_pos, bufsize. intros Hp. rewrite s32_small by lia. apply Z.rem_mod_nonneg; lia.
Qed.

Lemma length_contents q : length (contents q) = count q.
Proof. unfold contents. by rewrite length_fmap, length_seq. Qed.

Lemma full_iff q : wf_ioqueue q →
  (next_pos (head q) =? tail q) = true ↔ length (contents q) = capacity.
Proof.
  intros (Hb & Hh & Ht). rewrite length_contents, next_pos_mod, Z.eqb_eq by done.
  unfold count, capacity, bufsize in *. zdlia.
Qed.

Lemma empty_iff q : wf_ioqueue q →
  (head q =? tail q) = true ↔ contents q = [].
Proof.
  intros (Hb & Hh & Ht). rewrite <- length_zero_iff_nil, length_contents, Z.eqb_eq.
  unfold count, bufsize in *. zdlia.
Qed.

(** Taking the character at [tail]. *)
Lemma contents_get q : wf_ioqueue q → contents q ≠ [] →
  let q' := IOQueue (ioq_lock q) (producer q) (consumer q) (buf q) (head q) (next_pos (tail q)) in
  ∃ c, buf q !! Z.to_nat (tail q) = Some c ∧ wf_ioqueue q' ∧ contents q = c :: contents q'.
Proof.
  intros Hwf Hne q'. pose proof Hwf as (Hb & Hh & Ht).
  destruct (lookup_lt_is_Some_2 (buf q) (Z.to_nat (tail q))) as [c Hc].
  { unfold bufsize in *. lia. }
  assert (count q = S (count q')) as Hcnt.
  { assert (count q ≠ 0%nat) as Hc0.
    { intros E. apply Hne. apply length_zero_iff_nil. by rewrite length_contents. }
    revert Hc0. unfold count, q'. cbn. rewrite next_pos_mod by done. unfold bufsize in *. zdlia. }
  exists c. split; [done|]. split.
  { unfold q', wf_ioqueue. cbn. rewrite next_pos_mod by done. split; [done|].
    split; [done|]. by apply Z.mod_pos_bound. }
  unfold contents. rewrite Hcnt. cbn [seq fmap list_fmap]. f_equal.
  - rewrite Z.add_0_r, Z.mod_small by done. by apply list_lookup_total_correct.
  - rewrite <- seq_shift, <- list_fmap_compose. apply list_fmap_ext. intros _ i _. cbn.
    rewrite next_pos_mod by done. do 2 f_equal.
    rewrite Zplus_mod_idemp_l. f_equal. lia.
Qed.

(** Storing a character at [head]. *)
Lemma contents_put q c : wf_ioqueue q → (length (contents q) < capacity)%nat →
  let q' := IOQueue (ioq_lock q) (producer q) (consumer q) (<[Z.to_nat (head q) := c]> (buf q))
              (next_pos (head q)) (tail q) in
  wf_ioqueue q' ∧ contents q' = contents q ++ [c].
Proof.
  intros Hwf Hlt q'. pose proof Hwf as (Hb & Hh & Ht).
  rewrite length_contents in Hlt.
  assert (count q' = S (count q)) as Hcnt.
  { revert Hlt. unfold count, q', capacity. cbn. rewrite next_pos_mod by done.
    unfold bufsize in *. zdlia. }
  split.
  { unfold q', wf_ioqueue. cbn. rewrite length_insert, next_pos_mod by done. split; [done|].
    split; [by apply Z.mod_pos_bound|done]. }
  unfold contents. rewrite Hcnt, seq_S, fmap_app. cbn [fmap list_fmap].
  assert (∀ i, (i < count q)%nat →
    Z.to_nat (head q) ≠ Z.to_nat ((tail q + Z.of_nat i) mod bufsize)) as Hne.
  { intros i Hi. revert Hi Hlt. unfold count, capacity, bufsize in *. zdlia. }
  f_equal.
  - apply list_fmap_ext. intros n i Hi. cbn. apply lookup_seq in Hi as [-> Hi].
    rewrite list_lookup_total_insert_ne; [done|]. by apply Hne.
  - f_equal. cbn. replace ((tail q + Z.of_nat (count q)) mod bufsize) with (head q).
    + apply list_lookup_total_insert_eq. unfold bufsize in *. lia.
    + unfold count, bufsize in *. zdlia.
Qed.

(** ** Theorems *)

(** The recorded waiter, if any, is blocked. *)
Definition waiter_ok σ (w : Z) : Prop := w = NULL ∨ st (ks σ) w = Some TASK_BLOCKED.

Section theorems.
Context `{AddrV2P}.

Lemma wakeup_spec σ w :
  sched_inv (ks σ) → st (ks σ) w = Some TASK_BLOCKED → w ≠ NULL →
  ∃ s', wakeup σ w = Ok (NULL, set_ks σ s') ∧ sched_inv s' ∧
    thread_ready_list s' = w :: thread_ready_list (ks σ) ∧
    running_thread s' = running_thread (ks σ) ∧ intr s' = intr (ks σ).
Proof.
  intros Hs Hw Hn. unfold wakeup. destruct (Z.eqb_spec w NULL); [done|]. ocbn.
  destruct (thread_unblock_spec _ w _ Hs Hw eq_refl) as (s' & -> & Hs' & Hf & Hr & Hq & _).
  ocbn. exists s'. split_and!; try done. apply Hf.
Qed.

Lemma ioq_full_spec σ q : intr (ks σ) = INTR_OFF → wf_ioqueue q →
  ioq_full σ q = Ok (bool_decide (length (contents q) = capacity)).
Proof.
  intros Hi Hwf. unfold ioq_full. rewrite bool_decide_eq_true_2 by done. ocbn. f_equal.
  apply eq_true_iff_eq. rewrite bool_decide_eq_true. by apply full_iff.
Qed.

Lemma ioq_empty_spec σ q : intr (ks σ) = INTR_OFF → wf_ioqueue q →
  ioq_empty σ q = Ok (bool_decide (contents q = [])).
Proof.
  intros Hi Hwf. unfold ioq_empty. rewrite bool_decide_eq_true_2 by done. ocbn. f_equal.
  apply eq_true_iff_eq. rewrite bool_decide_eq_true. by apply empty_iff.
Qed.

Lemma ioq_putchar_spec σ q b :
  intr (ks σ) = INTR_OFF → sched_inv (ks σ) → wf_ioqueue q → waiter_ok σ (consumer q) →
  (length (contents q) < capacity)%nat →
  ∃ s' q', ioq_putchar σ q b = Ok (IoDone b, set_ks σ s', q') ∧ wf_ioqueue q' ∧
    contents q' = contents q ++ [s8 b] ∧ consumer q' = NULL ∧ producer q' = producer q ∧
    ioq_lock q' = ioq_lock q ∧ sched_inv s' ∧
    thread_ready_list s' =
      (if consumer q =? NULL then [] else [consumer q]) ++ thread_ready_list (ks σ).
Proof.
  intros Hi Hs Hwf Hc Hlt. unfold ioq_putchar, ioq_putchar_head.
  rewrite bool_decide_eq_true_2 by done. ocbn. rewrite ioq_full_spec by done. ocbn.
  rewrite bool_decide_eq_false_2 by lia.
  destruct (Nat.ltb_spec (Z.to_nat (head q)) (length (buf q))) as [_|Hbad].
  2:{ destruct Hwf as (Hb & Hh & _). unfold bufsize in *. lia. }
  destruct (contents_put q (s8 b) Hwf Hlt) as [Hwf' Hcont]. cbn [consumer].
  destruct (Z.eqb_spec (consumer q) NULL) as [E|E]; cbn [negb].
  - exists (ks σ). eexists. split; [by destruct σ|]. done.
  - destruct Hc as [?|Hc]; [done|].
    destruct (wakeup_spec σ (consumer q) Hs Hc E) as (s' & -> & Hs' & Hq & _). ocbn.
    exists s'. eexists. split; [done|]. done.
Qed.

Lemma ioq_getchar_head_spec σ q c rest :
  intr (ks σ) = INTR_OFF → sched_inv (ks σ) → wf_ioqueue q → waiter_ok σ (producer q) →
  contents q = c :: rest →
  ∃ s' q', ioq_getchar_head σ q = Ok (IoDone c, set_ks σ s', q') ∧ wf_ioqueue q' ∧
    contents q' = rest ∧ producer q' = NULL ∧ sched_inv s' ∧
    thread_ready_list s' =
      (if producer q =? NULL then [] else [producer q]) ++ thread_ready_list (ks σ).
Proof.
  intros Hi Hs Hwf Hp Hcr. unfold ioq_getchar_head. rewrite ioq_empty_spec by done. ocbn.
  rewrite bool_decide_eq_false_2 by (by rewrite Hcr).
  destruct (contents_get q Hwf) as (c' & Hc' & Hwf' & Hcont); [by rewrite Hcr|].
  rewrite Hc'. ocbn. rewrite Hcr in Hcont. injection Hcont as <- ->. cbn [producer].
  destruct (Z.eqb_spec (producer q) NULL) as [E|E]; cbn [negb].
  - exists (ks σ). eexists. split; [by destruct σ|]. done.
  - destruct Hp as [?|Hp]; [done|].
    destruct (wakeup_spec σ (producer q) Hs Hp E) as (s' & -> & Hs' & Hq & _). ocbn.
    exists s'. eexists. split; [done|]. done.
Qed.

(** C37. With interrupts off, the queue is a first-in first-out queue of at
    most 63 characters: [ioq_putchar] on a queue that is not full adds a character at
    the end, [ioq_getchar] on one that is not empty takes the first, and each
    wakes the thread that waits for it, which goes to the front of the ready
    list; [ioq_full] and [ioq_empty] say when they would wait. *)
Theorem ioqueue_refines_fifo σ q b :
  intr (ks σ) = INTR_OFF → sched_inv (ks σ) → wf_ioqueue q →
  waiter_ok σ (consumer q) → waiter_ok σ (producer q) →
  ioq_full σ q = Ok (bool_decide (length (contents q) = capacity)) ∧
  ioq_empty σ q = Ok (bool_decide (contents q = [])) ∧
  ((length (contents q) < capacity)%nat → ∃ s' q',
     ioq_putchar σ q b = Ok (IoDone b, set_ks σ s', q') ∧ wf_ioqueue q' ∧
     contents q' = contents q ++ [s8 b] ∧ consumer q' = NULL ∧ sched_inv s' ∧
     thread_ready_list s' =
       (if consumer q =? NULL then [] else [consumer q]) ++ thread_ready_list (ks σ)) ∧
  (∀ c rest, contents q = c :: rest → ∃ s' q',
     ioq_getchar σ q = Ok (IoDone c, set_ks σ s', q') ∧ wf_ioqueue q' ∧
     contents q' = rest ∧ producer q' = NULL ∧ sched_inv s' ∧
     thread_ready_list s' =
       (if producer q =? NULL then [] else [producer q]) ++ thread_ready_list (ks σ)).
Proof.
  intros Hi Hs Hwf Hc Hp. split_and!.
  - by apply ioq_full_spec.
  - by apply ioq_empty_spec.
  - intros Hlt. destruct (ioq_putchar_spec σ q b) as (s' & q' & ?); [done..|].
    exists s', q'. tauto.
  - intros c rest Hcr. unfold ioq_getchar. rewrite bool_decide_eq_true_2 by done. ocbn.
    by apply ioq_getchar_head_spec.
Qed.

(** The lock as its only user left it. *)
Lemma at_pc_id σ l lk :
  locks σ !! l = Some lk → pcs σ !! running_thread (ks σ) = Some User →
  σ = at_pc σ l (intr (ks σ)) lk User.
Proof.
  intros Hl Hp. unfold at_pc, moved. rewrite !insert_id by done. destruct σ as [s ? ? ?].
  cbn. by destruct s.
Qed.

(** A reader that finds the queue empty is not lost: it blocks, recorded as
    the consumer and holding the lock; the next [ioq_putchar] puts it to the front
    of the ready list; and when it runs again it gives the lock back and gets
    that character. *)
Theorem ioqueue_reader_is_served σ q b :
  intr (ks σ) = INTR_OFF → sched_inv (ks σ) → wf_ioqueue q → contents q = [] →
  consumer q = NULL → producer q = NULL → locks σ !! ioq_lock q = Some lock_init →
  running_thread (ks σ) ≠ idle_thread (ks σ) →
  let t := running_thread (ks σ) in
  ∃ σ1 q1, ioq_getchar σ q = Ok (IoWait, σ1, q1) ∧ sched_inv (ks σ1) ∧
    consumer q1 = t ∧ st (ks σ1) t = Some TASK_BLOCKED ∧
    ∀ s2, s2 = set_intr (ks σ1) INTR_OFF →
    ∃ s3 q3, ioq_putchar (set_ks σ1 s2) q1 b = Ok (IoDone b, set_ks σ1 s3, q3) ∧
      thread_ready_list s3 = t :: thread_ready_list (ks σ1) ∧
      ∀ s4, running_thread s4 = t → intr s4 = INTR_OFF → sched_inv s4 →
      ∃ σ5 q5, ioq_getchar_wake (set_ks σ1 s4) q3 = Ok (IoDone (s8 b), σ5, q5) ∧
        contents q5 = [] ∧ locks σ5 !! ioq_lock q = Some lock_init.
Proof.
  intros Hi Hs Hwf He Hc Hp Hl Hid t.
  assert (t ≠ NULL) as Hn.
  { intros E. pose proof (inv_cur _ Hs) as H1. fold t in H1.
    rewrite E, (core_null _ (inv_core _ Hs)) in H1. done. }
  unfold ioq_getchar, ioq_getchar_head, ioq_empty.
  rewrite bool_decide_eq_true_2 by done. ocbn.
  rewrite (proj2 (empty_iff q Hwf) He), (call_acquire_free σ (ioq_lock q) Hn Hl). ocbn.
  unfold ioq_wait. rewrite Hc. ocbn. fold t.
  set (σa := at_pc _ _ _ _ _).
  assert (ks σa = ks σ) as Hks by (cbn; by destruct (ks σ)).
  rewrite Hks. destruct (thread_block_spec (ks σ) TASK_BLOCKED Hs eq_refl) as (s1 & -> & Hsw).
  ocbn. eexists _, _. split; [done|]. cbn [ks set_ks consumer].
  assert (st s1 t = Some TASK_BLOCKED) as Hb.
  { rewrite (sw_frame _ _ _ Hsw), st_leaving by first [done | intros Ht;
      destruct (thread_ready_list (ks σ)) eqn:E;
      [apply list_elem_of_singleton in Ht; done
      |rewrite <- E in Ht; by apply (current_not_ready _ Hs)]].
    by destruct (decide _). }
  split; [apply Hsw|]. split; [done|]. split; [done|]. intros s2 ->.
  set (q1 := IOQueue _ _ _ _ _ _). set (σ1 := set_ks σa s1).
  assert (contents q1 = []) as Hc1 by exact He.
  destruct (ioq_putchar_spec (set_ks σ1 (set_intr s1 INTR_OFF)) q1 b)
    as (s3 & q3 & Hput & Hwf3 & Hc3 & _ & Hp3 & Hl3 & _ & Hq3);
    [done|apply sched_inv_intr, Hsw|done|by right|rewrite Hc1; unfold capacity; cbn; lia|].
  exists s3, q3. split; [done|]. split.
  { rewrite Hq3. change (consumer q1) with t. by destruct (Z.eqb_spec t NULL). }
  intros s4 Hr4 Hi4 Hs4. unfold ioq_getchar_wake.
  assert (locks (set_ks σ1 s4) !! ioq_lock q3 = Some (Lock t (Semaphore 0 []) 1)) as Hl4.
  { rewrite Hl3. cbn. by rewrite lookup_insert_eq. }
  rewrite (at_pc_id (set_ks σ1 s4) (ioq_lock q3) (Lock t (Semaphore 0 []) 1)); [|done|].
  2:{ cbn. rewrite Hr4. by rewrite lookup_insert_eq. }
  pose proof (call_release_held (set_ks σ1 s4) (ioq_lock q3) (intr (ks (set_ks σ1 s4)))) as Hrel.
  change (running_thread (ks (set_ks σ1 s4))) with (running_thread s4) in Hrel.
  rewrite Hr4 in Hrel. rewrite Hrel. ocbn.
  set (σ5 := at_pc _ _ _ _ _).
  assert (ks σ5 = s4) as Hks5 by (cbn; by destruct s4).
  destruct (ioq_getchar_head_spec σ5 q3 (s8 b) []) as (s5 & q5 & Hget & _ & Hc5 & _);
    rewrite ?Hks5; try done; [left; by rewrite Hp3|by rewrite Hc3, Hc1|].
  exists (set_ks σ5 s5), q5. split; [done|]. split; [done|].
  cbn. rewrite Hl3. by rewrite lookup_insert_eq.
Qed.
End theorems.

(** ** A reader and the keyboard's queue *)

Module QueueExample.
#[local] Instance queue_v2p : AddrV2P := λ v, v - 3221225472.

Definition task (x : task_status) : task_struct :=
  TaskStruct 0 0 x [] 31 31 0 NULL [] 0 stack_magic_number.

(** The reader at 4096 runs with interrupts off; another thread is ready. *)
Definition before : sys :=
  Sys (KState (<[4096 := task TASK_RUNNING]> (<[8192 := task TASK_READY]> ∅))
         [8192] [4096; 8192] 4096 4096 8192 INTR_OFF
         (<[8192 := in_kernel_thread]> ∅) 1048576 0)
      (<[7 := lock_init]> ∅) ∅ 0.

Definition empty_queue : ioqueue := IOQueue 7 NULL NULL (replicate 64 0) 62 62.

(** The queue with the characters 65 and 66, which wrap around the end. *)
Definition two_chars : ioqueue :=
  IOQueue 7 NULL NULL (<[63%nat := 65]> (<[0%nat := 66]> (replicate 64 0))) 1 63.

Lemma before_inv : sched_inv (ks before).
Proof. apply sched_inv_b_ok. by vm_compute. Qed.

Lemma ioqueue_refines_fifo_witness :
  ∃ s' q', ioq_getchar before two_chars = Ok (IoDone 65, set_ks before s', q') ∧
    contents q' = [66].
Proof.
  destruct (ioqueue_refines_fifo before two_chars 67 eq_refl before_inv) as (_ & _ & _ & Hget);
    [split_and!; done|by left|by left|].
  destruct (Hget 65 [66]) as (s' & q' & H1 & _ & H2 & _); [by vm_compute|]. by exists s', q'.
Defined.

Lemma ioqueue_reader_is_served_witness :
  ∃ σ1 q1, ioq_getchar before empty_queue = Ok (IoWait, σ1, q1) ∧ consumer q1 = 4096.
Proof.
  destruct (ioqueue_reader_is_served before empty_queue 97 eq_refl before_inv) as
    (σ1 & q1 & H1 & _ & H2 & _); try done.
  by exists σ1, q1.
Defined.
End QueueExample.
