(* ===== verification/Keyboard.v ===== *)
(** * device/keyboard.c: scan codes to characters

    The interrupt handler for vector 0x21 is a state machine over the scan
    codes the keyboard sends: it keeps which modifier keys are down and puts
    the characters of the other keys into [kbd_buf]. *)

From stdpp Require Import base numbers list gmap.
From Stdlib Require Import ZArith Lia.
From S2P Require Import Prelude Interrupt Thread Timer Sync ThreadInit IOQueue.

Definition esc : Z := 27.
Definition backspace : Z := 8.
Definition tab : Z := 9.
Definition enter : Z := 13.
Definition char_invisible : Z := 0.

Definition shift_l_make : Z := 42.
Definition shift_r_make : Z := 54.
Definition alt_l_make : Z := 56.
Definition alt_r_make : Z := 57400.
Definition ctrl_l_make : Z := 29.
Definition ctrl_r_make : Z := 57373.
Definition caps_lock_make : Z := 58.

(** The static variables of the driver and its buffer. *)
Record kbd := Kbd {
  ctrl_status : bool;
  shift_status : bool;
  alt_status : bool;
  caps_lock_status : bool;
  ext_scancode : bool;
  kbd_buf : ioqueue
}.

(** The character of a key alone and with shift, by make code. *)
Definition keymap : list (Z * Z) :=
  [(0, 0); (esc, esc); (49, 33); (50, 64); (51, 35); (52, 36); (53, 37); (54, 94);
   (55, 38); (56, 42); (57, 40); (48, 41); (45, 95); (61, 43); (backspace, backspace); (tab, tab);
   (113, 81); (119, 87); (101, 69); (114, 82); (116, 84); (121, 89); (117, 85); (105, 73);
   (111, 79); (112, 80); (91, 123); (93, 125); (enter, enter);
   (char_invisible, char_invisible);
   (97, 65); (115, 83); (100, 68); (102, 70); (103, 71); (104, 72); (106, 74); (107, 75);
   (108, 76); (59, 58); (39, 34); (96, 126); (char_invisible, char_invisible); (92, 124);
   (122, 90); (120, 88); (99, 67); (118, 86); (98, 66); (110, 78); (109, 77); (44, 60);
   (46, 62); (47, 63); (char_invisible, char_invisible); (42, 42);
   (char_invisible, char_invisible); (32, 32); (char_invisible, char_invisible)].

(** The keys with two characters that caps lock does not affect. *)
Definition two_char_key (scancode : Z) : bool :=
  (scancode <? 14) || (scancode =? 41) || (scancode =? 26) || (scancode =? 27)
  || (scancode =? 43) || (scancode =? 39) || (scancode =? 40) || (scancode =? 51)
  || (scancode =? 52) || (scancode =? 53).

Definition set_ctrl (k : kbd) b :=
  Kbd b (shift_status k) (alt_status k) (caps_lock_status k) (ext_scancode k) (kbd_buf k).
Definition set_shift (k : kbd) b :=
  Kbd (ctrl_status k) b (alt_status k) (caps_lock_status k) (ext_scancode k) (kbd_buf k).
Definition set_alt (k : kbd) b :=
  Kbd (ctrl_status k) (shift_status k) b (caps_lock_status k) (ext_scancode k) (kbd_buf k).
Definition set_caps (k : kbd) b :=
  Kbd (ctrl_status k) (shift_status k) (alt_status k) b (ext_scancode k) (kbd_buf k).
Definition set_ext (k : kbd) b :=
  Kbd (ctrl_status k) (shift_status k) (alt_status k) (caps_lock_status k) b (kbd_buf k).
Definition set_buf (k : kbd) q :=
  Kbd (ctrl_status k) (shift_status k) (alt_status k) (caps_lock_status k) (ext_scancode k) q.

Section handler.
Context `{AddrV2P}.

(** [intr_keyboard_handler] on the byte [inb] read from port 0x60. *)
Definition intr_keyboard_handler (σ : sys) (k : kbd) (byte : Z) : outcome (sys * kbd) :=
  let shift_down_last := shift_status k in
  let caps_lock_last := caps_lock_status k in
  let scancode := u8 byte in
  if scancode =? 224 then Ok (σ, set_ext k true)
  else
    let '(scancode, k) :=
      if ext_scancode k then (Z.lor 57344 scancode, set_ext k false) else (scancode, k) in
    let break_code := negb (Z.land scancode 128 =? 0) in
    if break_code then
      let make_code := Z.land scancode 65407 in
      if (make_code =? ctrl_l_make) || (make_code =? ctrl_r_make) then Ok (σ, set_ctrl k false)
      else if (make_code =? shift_l_make) || (make_code =? shift_r_make)
      then Ok (σ, set_shift k false)
      else if (make_code =? alt_l_make) || (make_code =? alt_r_make) then Ok (σ, set_alt k false)
      else Ok (σ, k)
    else if ((0 <? scancode) && (scancode <? 59)) || (scancode =? alt_r_make)
            || (scancode =? ctrl_r_make) then
      let shift :=
        if two_char_key scancode then shift_down_last
        else if shift_down_last && caps_lock_last then false
        else if shift_down_last || caps_lock_last then true
        else false in
      let scancode := Z.land scancode 255 in
      let index := u8 scancode in
      '(plain, shifted) ← from_option_fault (keymap !! Z.to_nat index);
      let cur_char := if shift : bool then shifted else plain in
      if negb (cur_char =? 0) then
        full ← ioq_full σ (kbd_buf k);
        if negb full then
          '(_, σ, q) ← ioq_putchar σ (kbd_buf k) cur_char;
          Ok (σ, set_buf k q)
        else Ok (σ, k)
      else if (scancode =? ctrl_l_make) || (scancode =? ctrl_r_make) then Ok (σ, set_ctrl k true)
      else if (scancode =? shift_l_make) || (scancode =? shift_r_make)
      then Ok (σ, set_shift k true)
      else if (scancode =? alt_l_make) || (scancode =? alt_r_make) then Ok (σ, set_alt k true)
      else if scancode =? caps_lock_make then Ok (σ, set_caps k (negb (caps_lock_status k)))
      else Ok (σ, k)
    else Ok (σ, k).

(** [keyboard_init]: the buffer, whose memory holds [b] and whose lock is at
    [l], and the handler table. *)
Definition keyboard_init (σ : sys) (k : kbd) (l : Z) (b : list Z) (handler : Z)
    (idt_table : list Z) : outcome (sys * kbd * list Z) :=
  let '(σ, q) := ioqueue_init σ l b in
  idt_table ← register_handler idt_table 33 handler;
  Ok (σ, set_buf k q, idt_table).
End handler.

(** ** Theorems *)

(** What the handler finds when the interrupt comes: interrupts off, the
    scheduler's state consistent, a well-formed buffer whose recorded reader is
    blocked. *)
Record kbd_ready (σ : sys) (k : kbd) : Prop := KbdReady {
  kr_intr : intr (ks σ) = INTR_OFF;
  kr_sched : sched_inv (ks σ);
  kr_buf : wf_ioqueue (kbd_buf k);
  kr_consumer : waiter_ok σ (consumer (kbd_buf k))
}.

Lemma length_keymap : length keymap = 59%nat.
Proof. done. Qed.

(** The test for a letter or another key that caps lock affects. *)
Definition shifted_by (k : kbd) (c : Z) : bool :=
  if two_char_key c then shift_status k else xorb (shift_status k) (caps_lock_status k).

Section theorems.
Context `{AddrV2P}.

(** Putting a character, or dropping it when the buffer is full. *)
Lemma deliver_spec σ k c : kbd_ready σ k →
  ∃ s' q', (full ← ioq_full σ (kbd_buf k);
     if negb full then '(_, σ, q) ← ioq_putchar σ (kbd_buf k) c; Ok (σ, set_buf k q)
     else Ok (σ, k)) = Ok (set_ks σ s', set_buf k q') ∧
    sched_inv s' ∧ wf_ioqueue q' ∧
    contents q' = contents (kbd_buf k) ++
      (if bool_decide (length (contents (kbd_buf k)) = capacity) then [] else [s8 c]).
Proof.
  intros [Hi Hs Hwf Hc]. rewrite ioq_full_spec by done. ocbn.
  assert (length (contents (kbd_buf k)) ≤ capacity)%nat as Hle.
  { rewrite length_contents. unfold count, capacity, bufsize. zdlia. }
  gdecide as E; cbn [negb].
  - exists (ks σ), (kbd_buf k). rewrite app_nil_r. split; [by destruct σ, k|done].
  - destruct (ioq_putchar_spec σ (kbd_buf k) c) as (s' & q' & -> & Hwf' & Hcont & _ & _ & _ & Hs' & _);
      [done..|lia|]. ocbn. by exists s', q'.
Qed.

Lemma set_ks_id σ : set_ks σ (ks σ) = σ.
Proof. by destruct σ. Qed.

(** The part of the handler for make codes. *)
Lemma make_spec σ k c :
  kbd_ready σ k → ext_scancode k = false → 0 < c < 59 →
  ∃ plain shifted, keymap !! Z.to_nat c = Some (plain, shifted) ∧
    let char := if shifted_by k c then shifted else plain in
    (char ≠ 0 → intr_keyboard_handler σ k c =
       (full ← ioq_full σ (kbd_buf k);
        if negb full then '(_, σ, q) ← ioq_putchar σ (kbd_buf k) char; Ok (σ, set_buf k q)
        else Ok (σ, k))).
Proof.
  intros Hk He Hc.
  destruct (lookup_lt_is_Some_2 keymap (Z.to_nat c)) as [[plain shifted] Hkm].
  { rewrite length_keymap. lia. }
  exists plain, shifted. split; [done|]. intros Hch.
  unfold intr_keyboard_handler. rewrite u8_small by lia.
  destruct (Z.eqb_spec c 224); [lia|]. rewrite He. cbv beta iota zeta.
  assert (Z.land c 128 = 0) as ->.
  { change 128 with (2 ^ 7). rewrite land_pow2_testbit by lia.
    rewrite (testbit_above c 7) by lia. done. }
  cbn [negb Z.eqb]. change (0 =? 0) with true. cbn [negb].
  destruct (Z.ltb_spec 0 c); [|lia]. destruct (Z.ltb_spec c 59); [|lia]. cbn [andb orb].
  assert (Z.land c 255 = c) as ->.
  { change 255 with (Z.ones 8). rewrite Z.land_ones by lia. apply Z.mod_small. lia. }
  rewrite u8_small by lia. rewrite Hkm. ocbn.
  assert ((if two_char_key c then shift_status k
           else if shift_status k && caps_lock_status k then false
           else if shift_status k || caps_lock_status k then true else false) = shifted_by k c) as ->.
  { unfold shifted_by. by destruct (two_char_key c), (shift_status k), (caps_lock_status k). }
  destruct (Z.eqb_spec (if shifted_by k c then shifted else plain) 0); done.
Qed.

(** C38. A key that has a character, pressed alone or with modifiers, adds
    exactly that character to the buffer: of a key with two characters the
    second with shift, of a letter the capital when one of shift and caps lock
    is on, but not both.  When the buffer is full the key is dropped; the
    modifiers do not change, and the handler never blocks. *)
Theorem keyboard_types_key σ k c plain shifted :
  kbd_ready σ k → ext_scancode k = false → 0 < c < 59 →
  keymap !! Z.to_nat c = Some (plain, shifted) → plain ≠ 0 → shifted ≠ 0 →
  ∃ s' q', intr_keyboard_handler σ k c = Ok (set_ks σ s', set_buf k q') ∧
    sched_inv s' ∧ wf_ioqueue q' ∧
    contents q' = contents (kbd_buf k) ++
      (if bool_decide (length (contents (kbd_buf k)) = capacity) then []
       else [if (if two_char_key c then shift_status k
                 else xorb (shift_status k) (caps_lock_status k)) then s8 shifted else s8 plain]).
Proof.
  intros Hk He Hc Hkm Hp Hs.
  destruct (make_spec σ k c Hk He Hc) as (p' & s'' & Hkm' & Hm). rewrite Hkm in Hkm'.
  injection Hkm' as <- <-.
  rewrite Hm by (by destruct (shifted_by k c)).
  destruct (deliver_spec σ k (if shifted_by k c then shifted else plain) Hk)
    as (s' & q' & Heq & Hs' & Hwf' & Hcont).
  exists s', q'. split; [done|]. split; [done|]. split; [done|]. rewrite Hcont.
  f_equal. gdecide; [done|]. f_equal. unfold shifted_by. by destruct (two_char_key c), (shift_status k),
    (caps_lock_status k).
Qed.

(** Whatever byte the keyboard sends, in whatever state, the handler
    returns: it reads no entry outside of its table and no assertion fails; it
    adds at most one character to the buffer, keeps the scheduler's invariant,
    and is ready for the next interrupt. *)
Theorem keyboard_handler_total σ k byte :
  kbd_ready σ k →
  ∃ s' k', intr_keyboard_handler σ k byte = Ok (set_ks σ s', k') ∧
    sched_inv s' ∧ wf_ioqueue (kbd_buf k') ∧
    (contents (kbd_buf k') = contents (kbd_buf k) ∨
     ∃ c, contents (kbd_buf k') = contents (kbd_buf k) ++ [c]).
Proof.
  intros Hk. unfold intr_keyboard_handler.
  assert (∀ k', kbd_buf k' = kbd_buf k →
    ∃ s' k'', Ok (σ, k') = Ok (set_ks σ s', k'') ∧ sched_inv s' ∧ wf_ioqueue (kbd_buf k'') ∧
    (contents (kbd_buf k'') = contents (kbd_buf k) ∨
     ∃ c, contents (kbd_buf k'') = contents (kbd_buf k) ++ [c])) as Hsame.
  { intros k' Hb. exists (ks σ), k'. rewrite set_ks_id, Hb. destruct Hk. split_and!; auto. }
  destruct (u8 byte =? 224); [by apply Hsame|].
  set (sc := if ext_scancode k then _ else _).
  assert (∃ c k1, sc = (c, k1) ∧ kbd_buf k1 = kbd_buf k) as (c & k1 & -> & Hb1).
  { unfold sc. destruct (ext_scancode k); by eexists _, _. }
  destruct (negb (Z.land c 128 =? 0)).
  { repeat match goal with |- context [if ?b then _ else _] => destruct b end; by apply Hsame. }
  destruct (((0 <? c) && (c <? 59)) || (c =? alt_r_make) || (c =? ctrl_r_make)) eqn:Hr;
    [|by apply Hsame].
  set (sh := if two_char_key c then _ else _).
  destruct (lookup_lt_is_Some_2 keymap (Z.to_nat (u8 (Z.land c 255)))) as [[plain shifted] Hkm].
  { rewrite length_keymap. apply orb_true_iff in Hr as [[[H1 H2]%andb_true_iff|H1]%orb_true_iff|H1].
    - change 255 with (Z.ones 8). rewrite Z.land_ones by lia. rewrite Z.mod_small, u8_small by lia. lia.
    - apply Z.eqb_eq in H1 as ->. vm_compute. lia.
    - apply Z.eqb_eq in H1 as ->. vm_compute. lia. }
  rewrite Hkm. ocbn. destruct (negb _).
  - destruct (deliver_spec σ k1 (if sh then shifted else plain)) as (s' & q' & Heq & Hs' & Hwf' & Hcont).
    { destruct Hk. constructor; by rewrite ?Hb1. }
    rewrite Heq. exists s', (set_buf k1 q'). split_and!; try done. cbn. rewrite Hcont, Hb1.
    gdecide; [left; apply app_nil_r|right; by eexists].
  - repeat match goal with |- context [if ?b then _ else _] => destruct b end; by apply Hsame.
Qed.

(** The modifier keys: pressing shift, control or alt, left or right,
    switches its state on and letting it go switches it off again, the right
    control and alt keys with their two-byte codes; each press of caps lock
    toggles it and its release does nothing; none of them adds a character. *)
Theorem keyboard_modifiers σ k :
  ext_scancode k = false →
  (intr_keyboard_handler σ k 42 = Ok (σ, set_shift k true) ∧
   intr_keyboard_handler σ k 170 = Ok (σ, set_shift k false) ∧
   intr_keyboard_handler σ k 54 = Ok (σ, set_shift k true) ∧
   intr_keyboard_handler σ k 182 = Ok (σ, set_shift k false)) ∧
  (intr_keyboard_handler σ k 29 = Ok (σ, set_ctrl k true) ∧
   intr_keyboard_handler σ k 157 = Ok (σ, set_ctrl k false) ∧
   ('(σ, k) ← intr_keyboard_handler σ k 224; intr_keyboard_handler σ k 29) =
     Ok (σ, set_ctrl k true) ∧
   ('(σ, k) ← intr_keyboard_handler σ k 224; intr_keyboard_handler σ k 157) =
     Ok (σ, set_ctrl k false)) ∧
  (intr_keyboard_handler σ k 56 = Ok (σ, set_alt k true) ∧
   intr_keyboard_handler σ k 184 = Ok (σ, set_alt k false) ∧
   ('(σ, k) ← intr_keyboard_handler σ k 224; intr_keyboard_handler σ k 56) =
     Ok (σ, set_alt k true) ∧
   ('(σ, k) ← intr_keyboard_handler σ k 224; intr_keyboard_handler σ k 184) =
     Ok (σ, set_alt k false)) ∧
  intr_keyboard_handler σ k 58 = Ok (σ, set_caps k (negb (caps_lock_status k))) ∧
  intr_keyboard_handler σ k 186 = Ok (σ, k).
Proof.
  destruct k as [ct sh al ca ex q]. cbn [ext_scancode]. intros ->.
  split_and!; destruct sh, ca; reflexivity.
Qed.
End theorems.

Module KeyboardExample.
Import QueueExample.
#[local] Existing Instance queue_v2p.

(** Caps lock on, shift down, one character in the buffer. *)
Definition idle_kbd : kbd := Kbd false true false true false two_chars.

Lemma idle_ready : kbd_ready before idle_kbd.
Proof. split; [done|apply before_inv|by split_and!|by left]. Qed.

Lemma keyboard_types_key_witness :
  ∃ s' q', intr_keyboard_handler before idle_kbd 30 = Ok (set_ks before s', set_buf idle_kbd q') ∧
    contents q' = [65; 66; 97].
Proof.
  destruct (keyboard_types_key before idle_kbd 30 97 65 idle_ready) as (s' & q' & H1 & _ & _ & H2);
    [done|lia|done|done|done|].
  exists s', q'. split; [exact H1|]. rewrite H2. by vm_compute.
Defined.

Lemma keyboard_handler_total_witness :
  ∃ s' k', intr_keyboard_handler before idle_kbd 255 = Ok (set_ks before s', k').
Proof.
  destruct (keyboard_handler_total before idle_kbd 255 idle_ready) as (s' & k' & H1 & _).
  by exists s', k'.
Defined.

Lemma keyboard_modifiers_witness :
  intr_keyboard_handler before idle_kbd 58 = Ok (before, set_caps idle_kbd false).
Proof. exact (proj1 (proj2 (proj2 (proj2 (keyboard_modifiers before idle_kbd eq_refl))))). Defined.
End KeyboardExample.
