(* ===== verification/Paging.v ===== *)
(** * kernel/memory.c: page tables

    The kernel reads and writes its page tables through the tables themselves:
    the last entry of the page directory points to the directory, so that
    [pde_ptr] and [pte_ptr] can compute a virtual address for every entry.
    [translate] is the walk of the processor over the physical memory [m] from
    the directory at [dir]; a missing entry is a page fault. *)

From stdpp Require Import base numbers list gmap.
From Stdlib Require Import ZArith Lia.
From S2P Require Import Prelude Mem KString.

Implicit Types (m : mem) (dir va e : Z).

(** ** Definitions *)

Definition PG_P_1 : Z := 1.
Definition PG_RW_W : Z := 2.
Definition PG_US_U : Z := 4.

Definition PDE_IDX (addr : Z) : Z := Z.shiftr (Z.land addr 4290772992) 22.
Definition PTE_IDX (addr : Z) : Z := Z.shiftr (Z.land addr 4190208) 12.

Definition pte_ptr (vaddr : Z) : Z :=
  u32 (4290772992 + Z.shiftr (Z.land vaddr 4290772992) 10 + PTE_IDX vaddr * 4).

Definition pde_ptr (vaddr : Z) : Z := u32 (4294963200 + PDE_IDX vaddr * 4).

(** The frame an entry points to, and its present bit. *)
Definition entry_base e : Z := Z.land e 4294963200.
Definition entry_present e : bool := truth (Z.land e 1).

(** The processor's walk. *)
Definition translate m dir va : outcome Z :=
  pde ← load32 m (dir + 4 * (va / 2 ^ 22));
  if entry_present pde then
    pte ← load32 m (entry_base pde + 4 * (va / 2 ^ 12 mod 1024));
    if entry_present pte then Ok (entry_base pte + va mod 4096) else Fault
  else Fault.

(** Accesses through virtual addresses. *)
Definition vload32 m dir va : outcome Z := pa ← translate m dir va; load32 m pa.
Definition vstore32 m dir va (v : Z) : outcome mem := pa ← translate m dir va; store32 m pa v.

Definition addr_v2p m dir (vaddr : Z) : outcome Z :=
  pte ← vload32 m dir (pte_ptr vaddr);
  Ok (u32 (Z.land pte 4294963200 + Z.land vaddr 4095)).

Definition page_table_pte_remove m dir (vaddr : Z) : outcome mem :=
  let pte := pte_ptr vaddr in
  e ← vload32 m dir pte;
  vstore32 m dir pte (Z.land e (Z.lnot PG_P_1)).

(** ** Arithmetic of addresses and entries *)

Lemma land_low_zero e n : 0 ≤ n →
  Z.land e (Z.shiftl (Z.ones (32 - n)) n) = (e mod 2 ^ 32) / 2 ^ n * 2 ^ n ∨ 32 < n.
Proof.
  intros Hn. destruct (Z.lt_ge_cases 32 n) as [?|Hle]; [by right|left].
  rewrite <- Z.shiftr_div_pow2, <- Z.shiftl_mul_pow2, <- Z.land_ones by lia.
  apply Z.bits_inj'. intros j Hj.
  rewrite Z.land_spec, !Z.shiftl_spec by lia.
  destruct (Z.lt_ge_cases j n).
  - rewrite !(Z.testbit_neg_r _ (j - n)) by lia. by rewrite andb_false_r.
  - rewrite Z.shiftr_spec, Z.land_spec by lia. replace (j - n + n) with j by lia.
    f_equal. destruct (Z.lt_ge_cases j 32).
    + rewrite !Z.ones_spec_low by lia. done.
    + rewrite !Z.ones_spec_high by lia. done.
Qed.

Lemma land_4k e : 0 ≤ e < 2 ^ 32 → Z.land e 4294963200 = e / 4096 * 4096.
Proof.
  intros He. destruct (land_low_zero e 12) as [H|H]; [lia| |lia].
  change (Z.shiftl (Z.ones (32 - 12)) 12) with 4294963200 in H.
  rewrite H, (Z.mod_small e) by lia. done.
Qed.

Lemma land_4m e : 0 ≤ e < 2 ^ 32 → Z.land e 4290772992 = e / 4194304 * 4194304.
Proof.
  intros He. destruct (land_low_zero e 22) as [H|H]; [lia| |lia].
  change (Z.shiftl (Z.ones (32 - 22)) 22) with 4290772992 in H.
  rewrite H, (Z.mod_small e) by lia. done.
Qed.

Lemma PDE_IDX_div va : 0 ≤ va < 2 ^ 32 → PDE_IDX va = va / 4194304.
Proof.
  intros Hv. unfold PDE_IDX. rewrite land_4m, Z.shiftr_div_pow2 by lia.
  change (2 ^ 22) with 4194304. zdlia.
Qed.

Lemma PTE_IDX_div va : 0 ≤ va < 2 ^ 32 → PTE_IDX va = va / 4096 mod 1024.
Proof.
  intros Hv. unfold PTE_IDX.
  replace (Z.land va 4190208) with (Z.land (Z.land va (Z.ones 22)) 4294963200).
  2:{ rewrite <- Z.land_assoc. done. }
  rewrite Z.land_ones by lia. rewrite land_4k, Z.shiftr_div_pow2.
  - change (2 ^ 22) with 4194304. change (2 ^ 12) with 4096. zdlia.
  - lia.
  - pose proof (Z.mod_pos_bound va (2 ^ 22)). change (2 ^ 22) with 4194304 in *. lia.
Qed.

Lemma pte_ptr_eq va : 0 ≤ va < 2 ^ 32 →
  pte_ptr va = 4290772992 + va / 4194304 * 4096 + (va / 4096 mod 1024) * 4.
Proof.
  intros Hv. unfold pte_ptr. rewrite land_4m, PTE_IDX_div, Z.shiftr_div_pow2 by lia.
  change (2 ^ 10) with 1024. change (2 ^ 32) with 4294967296 in Hv.
  rewrite u32_small; [zdlia|]. zdlia.
Qed.

Lemma pde_ptr_eq va : 0 ≤ va < 2 ^ 32 → pde_ptr va = 4294963200 + va / 4194304 * 4.
Proof.
  intros Hv. unfold pde_ptr. rewrite PDE_IDX_div by lia. change (2 ^ 32) with 4294967296 in Hv.
  rewrite u32_small; zdlia.
Qed.

Lemma entry_present_odd e : entry_present e = Z.odd e.
Proof.
  unfold entry_present. change 1 with (2 ^ 0). rewrite truth_land_pow2 by lia. apply Z.bit0_odd.
Qed.

(** An entry for the aligned frame [f]. *)
Lemma entry_make f : 0 ≤ f < 2 ^ 32 → f mod 4096 = 0 →
  let e := Z.lor (Z.lor (Z.lor f PG_US_U) PG_RW_W) PG_P_1 in
  e = f + 7 ∧ entry_base e = f ∧ entry_present e = true ∧ 0 ≤ e < 2 ^ 32.
Proof.
  intros Hf Ha e.
  assert (e = f + 7) as He.
  { unfold e, PG_US_U, PG_RW_W, PG_P_1. rewrite <- !Z.lor_assoc.
    change (Z.lor 4 (Z.lor 2 1)) with 7. pose proof (Z.add_lor_land f 7) as H.
    assert (Z.land f 7 = 0) as H0.
    { change 7 with (Z.ones 3). rewrite Z.land_ones by lia. change (2 ^ 3) with 8. zdlia. }
    lia. }
  rewrite He. change (2 ^ 32) with 4294967296 in *.
  assert (0 ≤ f + 7 < 4294967296) by zdlia. split_and!; try lia.
  - unfold entry_base. rewrite land_4k by (change (2 ^ 32) with 4294967296; lia). zdlia.
  - rewrite entry_present_odd, Z.odd_add. replace f with (2 * (f / 2)) by zdlia.
    by rewrite Z.odd_mul.
Qed.

Lemma entry_base_range e : 0 ≤ e < 2 ^ 32 →
  0 ≤ entry_base e < 2 ^ 32 ∧ entry_base e mod 4096 = 0.
Proof. intros He. unfold entry_base. rewrite land_4k by done. zdlia. Qed.

(** ** Well-formed page tables *)

(** A directory that maps itself, with its tables elsewhere in memory. *)
Record pt_wf m dir : Prop := PtWf {
  pt_mem : wf_mem m;
  pt_dir : 0 ≤ dir < 2 ^ 32 ∧ dir mod 4096 = 0;
  pt_dir_valid : valid m dir 4096;
  pt_self : ∃ e, load32 m (dir + 4 * 1023) = Ok e ∧ entry_present e = true ∧ entry_base e = dir;
  pt_table i e : 0 ≤ i < 1023 → load32 m (dir + 4 * i) = Ok e → entry_present e = true →
    valid m (entry_base e) 4096 ∧ entry_base e ≠ dir
}.

(** The table for [va], and the address of the entry for [va] in it. *)
Definition table_of m dir va (t : Z) : Prop :=
  ∃ e, load32 m (dir + 4 * (va / 2 ^ 22)) = Ok e ∧ entry_present e = true ∧ entry_base e = t.
Definition slot (t va : Z) : Z := t + 4 * (va / 2 ^ 12 mod 1024).

Lemma table_of_det m dir va t t' : table_of m dir va t → table_of m dir va t' → t = t'.
Proof. intros (e & He & _ & <-) (e' & He' & _ & <-). congruence. Qed.

Lemma translate_table m dir va t : table_of m dir va t →
  translate m dir va = (pte ← load32 m (slot t va);
    if entry_present pte then Ok (entry_base pte + va mod 4096) else Fault).
Proof. intros (e & He & Hp & <-). unfold translate. rewrite He. ocbn. by rewrite Hp. Qed.

Lemma va_bounds va : 0 ≤ va < 2 ^ 32 → 0 ≤ va / 2 ^ 22 < 1024 ∧ 0 ≤ va / 2 ^ 12 mod 1024 < 1024.
Proof. change (2 ^ 32) with 4294967296. change (2 ^ 22) with 4194304. change (2 ^ 12) with 4096. zdlia. Qed.

(** The address of a directory entry through the self-map. *)
Lemma translate_pde_ptr m dir va : pt_wf m dir → 0 ≤ va < 2 ^ 32 →
  translate m dir (pde_ptr va) = Ok (dir + 4 * (va / 2 ^ 22)).
Proof.
  intros [_ _ _ (e & He & Hp & Hb) _] Hv. rewrite pde_ptr_eq by done.
  change (2 ^ 32) with 4294967296 in Hv. unfold translate.
  change (2 ^ 22) with 4194304. change (2 ^ 12) with 4096.
  replace ((4294963200 + va / 4194304 * 4) / 4194304) with 1023 by zdlia.
  rewrite He. ocbn. rewrite Hp, Hb.
  replace ((4294963200 + va / 4194304 * 4) / 4096 mod 1024) with 1023 by zdlia.
  rewrite He. ocbn. rewrite Hp, Hb. f_equal. zdlia.
Qed.

(** The address of a table entry through the self-map. *)
Lemma translate_pte_ptr m dir va t : pt_wf m dir → 0 ≤ va < 2 ^ 32 → table_of m dir va t →
  translate m dir (pte_ptr va) = Ok (slot t va).
Proof.
  intros [_ _ _ (e & He & Hp & Hb) _] Hv (e' & He' & Hp' & Hb'). rewrite pte_ptr_eq by done.
  change (2 ^ 32) with 4294967296 in Hv. unfold translate, slot.
  change (2 ^ 22) with 4194304 in *. change (2 ^ 12) with 4096.
  replace ((4290772992 + va / 4194304 * 4096 + va / 4096 mod 1024 * 4) / 4194304) with 1023 by zdlia.
  rewrite He. ocbn. rewrite Hp, Hb.
  replace ((4290772992 + va / 4194304 * 4096 + va / 4096 mod 1024 * 4) / 4096 mod 1024)
    with (va / 4194304) by zdlia.
  rewrite He'. ocbn. rewrite Hp', Hb'. f_equal. zdlia.
Qed.

(** [addr_v2p] is the processor's translation. *)
Lemma addr_v2p_spec m dir va pa : pt_wf m dir → 0 ≤ va < 2 ^ 32 →
  translate m dir va = Ok pa → addr_v2p m dir va = Ok pa.
Proof.
  intros Hwf Hv Ht. pose proof Ht as Ht'. unfold translate in Ht'.
  apply bind_ok in Ht' as (e & He & Ht'). destruct (entry_present e) eqn:Hp; [|done].
  assert (table_of m dir va (entry_base e)) as Htab by (by exists e).
  apply bind_ok in Ht' as (pte & Hpte & Ht').
  unfold addr_v2p, vload32. rewrite (translate_pte_ptr _ _ _ (entry_base e)) by done. ocbn.
  unfold slot. rewrite Hpte. ocbn. destruct (entry_present pte); [|done]. injection Ht' as <-.
  assert (0 ≤ pte < 2 ^ 32) as Hr.
  { destruct (load32_valid m (entry_base e + 4 * (va / 2 ^ 12 mod 1024))) as (v & Hv' & Hr).
    - apply Hwf.
    - by eapply load32_is_valid.
    - congruence. }
  change 4095 with (Z.ones 12). rewrite Z.land_ones by lia. f_equal.
  pose proof (entry_base_range pte Hr) as [? ?]. unfold entry_base in *.
  change (2 ^ 12) with 4096. change (2 ^ 32) with 4294967296 in *. apply u32_small. zdlia.
Qed.

Lemma slot_in t va : 0 ≤ va < 2 ^ 32 → t ≤ slot t va ∧ slot t va + 4 ≤ t + 4096.
Proof. intros Hv. unfold slot. pose proof (va_bounds va Hv). lia. Qed.

(** Two aligned frames are the same or do not meet. *)
Lemma frames_apart a b : a mod 4096 = 0 → b mod 4096 = 0 → a ≠ b → a + 4096 ≤ b ∨ b + 4096 ≤ a.
Proof. intros. zdlia. Qed.

Lemma slots_apart t t' va va' : t mod 4096 = 0 → t' mod 4096 = 0 →
  0 ≤ va < 2 ^ 32 → 0 ≤ va' < 2 ^ 32 → slot t va ≠ slot t' va' →
  slot t va + 4 ≤ slot t' va' ∨ slot t' va' + 4 ≤ slot t va.
Proof.
  intros Ht Ht' Hv Hv' Hne. unfold slot in *.
  pose proof (va_bounds va Hv). pose proof (va_bounds va' Hv').
  destruct (decide (t = t')) as [->|Hn]; [lia|]. destruct (frames_apart t t' Ht Ht' Hn); lia.
Qed.

Lemma table_base m dir va t : pt_wf m dir → table_of m dir va t →
  0 ≤ t < 2 ^ 32 ∧ t mod 4096 = 0.
Proof.
  intros Hwf (e & He & Hp & <-). apply entry_base_range.
  destruct (load32_valid m (dir + 4 * (va / 2 ^ 22))) as (v & Hv & Hr);
    [apply Hwf|by eapply load32_is_valid|]. congruence.
Qed.

Lemma table_valid m dir va t : pt_wf m dir → 0 ≤ va < 4290772992 → table_of m dir va t →
  valid m t 4096 ∧ t ≠ dir.
Proof.
  intros Hwf Hv (e & He & Hp & <-). apply (pt_table _ _ Hwf (va / 2 ^ 22)); try done.
  change (2 ^ 22) with 4194304. zdlia.
Qed.

(** Writing the entry for [va] in its table [t]: the directory is as before, the
    entry is the new one, and the entries for other pages are as before. *)
Section write_entry.
Variables (m : mem) (dir va t v : Z).
Hypothesis Hwf : pt_wf m dir.
Hypothesis Hva : 0 ≤ va < 4290772992.
Hypothesis Ht : table_of m dir va t.
Let m' := put32 m (slot t va) v.

Lemma write_entry_dir a : dir ≤ a < dir + 4096 → m' !! a = m !! a.
Proof.
  intros Ha. destruct (table_base _ _ _ _ Hwf Ht) as [_ Hal].
  destruct (table_valid _ _ _ _ Hwf Hva Ht) as [_ Hne].
  destruct (frames_apart t dir Hal (proj2 (pt_dir _ _ Hwf)) Hne);
    destruct (slot_in t va); try lia; apply put32_lookup_ne; lia.
Qed.

Lemma write_entry_pde i : 0 ≤ i < 1024 → load32 m' (dir + 4 * i) = load32 m (dir + 4 * i).
Proof. intros Hi. apply load32_lookup_ext. intros a Ha. apply write_entry_dir. lia. Qed.

Lemma write_entry_table va' t' : 0 ≤ va' < 2 ^ 32 → table_of m' dir va' t' ↔ table_of m dir va' t'.
Proof. intros Hv. unfold table_of. rewrite write_entry_pde; [done|]. by apply va_bounds. Qed.

Lemma write_entry_wf : pt_wf m' dir.
Proof.
  pose proof Hwf as [Hm Hd Hdv (e & He & Hp & Hb) Htab]. split.
  - by apply put32_wf.
  - done.
  - by apply put32_valid.
  - exists e. by rewrite write_entry_pde by lia.
  - intros i e' Hi. rewrite write_entry_pde by lia. intros He' Hp'.
    destruct (Htab i e' Hi He' Hp'). split; [by apply put32_valid|done].
Qed.

Lemma write_entry_same : 0 ≤ v < 2 ^ 32 → translate m' dir va =
  if entry_present v then Ok (entry_base v + va mod 4096) else Fault.
Proof.
  intros Hv. rewrite (translate_table m' dir va t) by (apply write_entry_table; [lia|done]).
  unfold m'. rewrite load32_put32_eq. ocbn. unfold u32. by rewrite Z.mod_small.
Qed.

Lemma write_entry_other va' : 0 ≤ va' < 2 ^ 32 →
  (∀ t', table_of m dir va' t' → slot t' va' ≠ slot t va) →
  translate m' dir va' = translate m dir va'.
Proof.
  intros Hv' Hne. destruct (table_base _ _ _ _ Hwf Ht) as [_ Hal].
  unfold translate. rewrite write_entry_pde by (by apply va_bounds).
  destruct (load32 m (dir + 4 * (va' / 2 ^ 22))) as [e| | | |] eqn:He; ocbn; try done.
  destruct (entry_present e) eqn:Hp; [|done].
  assert (table_of m dir va' (entry_base e)) as Ht' by (by exists e).
  destruct (table_base _ _ _ _ Hwf Ht') as [_ Hal'].
  unfold m'. rewrite load32_put32_ne; [done|].
  fold (slot (entry_base e) va'). apply slots_apart; try done; [lia|]. by apply Hne.
Qed.
End write_entry.

(** Removing the entry for [va] makes every access to its page fault and leaves
    the other pages alone. *)
Lemma page_table_pte_remove_spec m dir va t :
  pt_wf m dir → 0 ≤ va < 4290772992 → table_of m dir va t →
  ∃ m', page_table_pte_remove m dir va = Ok m' ∧ pt_wf m' dir ∧
    (∀ a, m' !! a = m !! a ∨ slot t va ≤ a < slot t va + 4) ∧
    (∀ va' t', 0 ≤ va' < 2 ^ 32 → table_of m' dir va' t' ↔ table_of m dir va' t') ∧
    translate m' dir va = Fault ∧
    (∀ va', 0 ≤ va' < 2 ^ 32 → (∀ t', table_of m dir va' t' → slot t' va' ≠ slot t va) →
       translate m' dir va' = translate m dir va').
Proof.
  intros Hwf Hva Ht. unfold page_table_pte_remove, vload32, vstore32.
  rewrite (translate_pte_ptr m dir va t) by (done || lia). ocbn.
  destruct (table_valid _ _ _ _ Hwf Hva Ht) as [Hval _].
  assert (valid m (slot t va) 4) as Hs by (destruct (slot_in t va); [lia|];
    eapply valid_sub; [done|lia|lia]).
  destruct (load32_valid m (slot t va)) as (e & He & Hr); [apply Hwf|done|].
  rewrite He. ocbn. rewrite store32_valid by done. eexists. split; [done|].
  set (e' := Z.land e (Z.lnot PG_P_1)).
  assert (0 ≤ e' < 2 ^ 32) as Hr'.
  { unfold e'. rewrite <- Z.ldiff_land. change PG_P_1 with (Z.ones 1).
    rewrite Z.ldiff_ones_r, Z.shiftl_mul_pow2, Z.shiftr_div_pow2 by lia.
    change (2 ^ 32) with 4294967296 in *. change (2 ^ 1) with 2. zdlia. }
  split; [by apply write_entry_wf|]. split.
  { intros a. destruct (decide (slot t va ≤ a < slot t va + 4)); [by right|left].
    apply put32_lookup_ne. lia. }
  split; [intros va' t' Hv'; by apply write_entry_table|]. split.
  - rewrite (write_entry_same m dir va t) by done.
    replace (entry_present e') with false; [done|].
    rewrite entry_present_odd, <- Z.bit0_odd. unfold e'. rewrite Z.land_spec, Z.lnot_spec by lia.
    change (Z.testbit PG_P_1 0) with true. by rewrite andb_false_r.
  - intros va' Hv' Hne. by apply write_entry_other.
Qed.

(** C36. The self-map works: in well-formed page tables the virtual address
    [pde_ptr] computes leads to the directory entry for [va], the one [pte_ptr]
    computes to the table entry for [va], and [addr_v2p] returns the physical
    address the processor translates [va] to. *)
Theorem self_map_reaches_entries m dir va :
  pt_wf m dir → 0 ≤ va < 2 ^ 32 →
  translate m dir (pde_ptr va) = Ok (dir + 4 * PDE_IDX va) ∧
  (∀ t, table_of m dir va t → translate m dir (pte_ptr va) = Ok (t + 4 * PTE_IDX va)) ∧
  (∀ pa, translate m dir va = Ok pa → addr_v2p m dir va = Ok pa).
Proof.
  intros Hwf Hv. rewrite PDE_IDX_div, PTE_IDX_div by done. split_and!.
  - by rewrite translate_pde_ptr.
  - intros t Ht. by rewrite (translate_pte_ptr m dir va t).
  - intros pa. by apply addr_v2p_spec.
Qed.

(** ** An example *)

(** A directory in blank memory that maps nothing but itself. *)
Section blank_directory.
Variables (m0 : mem) (dir : Z).
Hypothesis Hb : blank m0.
Hypothesis Hv : valid m0 dir 4096.
Hypothesis Hd : 0 ≤ dir < 2 ^ 32 - 4096 ∧ dir mod 4096 = 0.
Let m := put32 m0 (dir + 4 * 1023) (dir + 7).

Lemma blank_directory_pde i : 0 ≤ i < 1023 → load32 m (dir + 4 * i) = Ok 0.
Proof.
  intros Hi. unfold m. rewrite load32_put32_ne by lia. apply load32_blank; [done|].
  eapply valid_sub; [done|lia|lia].
Qed.

Lemma blank_directory_wf : pt_wf m dir.
Proof using Hb Hv Hd.
  assert (dir + 7 = Z.lor (Z.lor (Z.lor dir PG_US_U) PG_RW_W) PG_P_1) as E.
  { destruct (entry_make dir) as [-> _]; [lia|lia|done]. }
  destruct (entry_make dir) as (_ & Eb & Ep & Er); [lia|lia|]. rewrite <- E in Eb, Ep, Er.
  split.
  - apply put32_wf. intros a b Hab. rewrite (Hb _ _ Hab). lia.
  - lia.
  - by apply put32_valid.
  - exists (dir + 7). split; [|done]. unfold m. rewrite load32_put32_eq. f_equal. unfold u32.
    apply Z.mod_small. lia.
  - intros i e Hi. rewrite blank_directory_pde by done. intros [= <-] He. by vm_compute in He.
Qed.
End blank_directory.

Module PagingExample.
Definition phys : mem := put32 (zeros 4096 4096) (4096 + 4 * 1023) (4096 + 7).

Lemma self_map_reaches_entries_witness :
  translate phys 4096 (pde_ptr 3221225477) = Ok (4096 + 4 * 768) ∧
  addr_v2p phys 4096 4294963205 = Ok 4101.
Proof.
  assert (pt_wf phys 4096) as Hwf.
  { apply blank_directory_wf; [apply zeros_blank|apply zeros_valid|done]. }
  split.
  - destruct (self_map_reaches_entries phys 4096 3221225477) as (H1 & _); [done|lia|exact H1].
  - destruct (self_map_reaches_entries phys 4096 4294963205) as (_ & _ & H3); [done|lia|].
    apply H3. by vm_compute.
Defined.
End PagingExample.
