(* ===== verification/Pool.v ===== *)
(** * kernel/memory.c: physical frames and virtual pages

    Two pools of physical frames and the pools of virtual addresses of the
    kernel and of the current process, each with a bitmap, and the operations
    that hand out pages: a page is a virtual address from the one, a frame from
    the other and an entry of the page table (see [Paging]) that joins them.

    The bitmaps are values of their own rather than bytes of [phys]; of the
    pool locks, which other threads contend for as described in [Sync], [depth]
    counts how often the current thread holds them. *)

From stdpp Require Import base numbers list gmap.
From Stdlib Require Import ZArith Lia.
From S2P Require Import Prelude Mem KString Bitmap Paging.

(** ** Data *)

Inductive pool_flags := PF_KERNEL | PF_USER.
#[export] Instance pool_flags_eq_dec : EqDecision pool_flags.
Proof. solve_decision. Defined.

Record pool := Pool {
  pool_bitmap : bitmap;
  phy_addr_start : Z;
  pool_size : Z;
  depth : Z
}.

Record virtual_addr := VirtualAddr {
  vaddr_bitmap : bitmap;
  vaddr_start : Z
}.

(** The state of the memory manager; [pgdir] and [userprog_vaddr] are those of
    the running thread, [dir] is the page directory it runs on. *)
Record mm := MM {
  phys : mem;
  dir : Z;
  kernel_pool : pool;
  user_pool : pool;
  kernel_vaddr : virtual_addr;
  pgdir : Z;
  userprog_vaddr : virtual_addr
}.

Definition MEM_BITMAP_BASE : Z := 3221856256.

Definition pool_of (k : mm) (pf : pool_flags) : pool :=
  match pf with PF_KERNEL => kernel_pool k | PF_USER => user_pool k end.
Definition set_pool (k : mm) (pf : pool_flags) (p : pool) : mm :=
  match pf with
  | PF_KERNEL => MM (phys k) (dir k) p (user_pool k) (kernel_vaddr k) (pgdir k) (userprog_vaddr k)
  | PF_USER => MM (phys k) (dir k) (kernel_pool k) p (kernel_vaddr k) (pgdir k) (userprog_vaddr k)
  end.
Definition vspace (k : mm) (pf : pool_flags) : virtual_addr :=
  match pf with PF_KERNEL => kernel_vaddr k | PF_USER => userprog_vaddr k end.
Definition set_vspace (k : mm) (pf : pool_flags) (v : virtual_addr) : mm :=
  match pf with
  | PF_KERNEL => MM (phys k) (dir k) (kernel_pool k) (user_pool k) v (pgdir k) (userprog_vaddr k)
  | PF_USER => MM (phys k) (dir k) (kernel_pool k) (user_pool k) (kernel_vaddr k) (pgdir k) v
  end.
Definition set_phys (k : mm) (m : mem) : mm :=
  MM m (dir k) (kernel_pool k) (user_pool k) (kernel_vaddr k) (pgdir k) (userprog_vaddr k).
Definition with_bitmap (p : pool) (b : bitmap) : pool :=
  Pool b (phy_addr_start p) (pool_size p) (depth p).

(** ** Frames *)

Definition palloc (p : pool) : outcome (Z * pool) :=
  bit_idx ← bitmap_scan (pool_bitmap p) 1;
  if bit_idx =? -1 then Ok (NULL, p)
  else
    b ← bitmap_set (pool_bitmap p) bit_idx 1;
    Ok (u32 (bit_idx * PG_SIZE + phy_addr_start p), with_bitmap p b).

Definition pfree (k : mm) (pg_phy_addr : Z) : outcome mm :=
  let pf := if phy_addr_start (user_pool k) <=? pg_phy_addr then PF_USER else PF_KERNEL in
  let mem_pool := pool_of k pf in
  let bit_idx := u32 (pg_phy_addr - phy_addr_start mem_pool) / PG_SIZE in
  b ← bitmap_set (pool_bitmap mem_pool) bit_idx 0;
  Ok (set_pool k pf (with_bitmap mem_pool b)).

(** [bitmap_set(&bitmap, start + cnt, value)] for [cnt] from 0 to [pg_cnt - 1]. *)
Fixpoint set_bits (b : bitmap) (start : Z) (pg_cnt : nat) (value : Z) : outcome bitmap :=
  match pg_cnt with
  | O => Ok b
  | S n => b ← bitmap_set b (u32 start) value; set_bits b (start + 1) n value
  end.

(** ** Virtual addresses *)

Definition vaddr_get (k : mm) (pf : pool_flags) (pg_cnt : Z) : outcome (Z * mm) :=
  let v := vspace k pf in
  bit_idx_start ← bitmap_scan (vaddr_bitmap v) pg_cnt;
  if bit_idx_start =? -1 then Ok (NULL, k)
  else
    b ← set_bits (vaddr_bitmap v) bit_idx_start (Z.to_nat pg_cnt) 1;
    let start := u32 (vaddr_start v + bit_idx_start * PG_SIZE) in
    let k := set_vspace k pf (VirtualAddr b (vaddr_start v)) in
    match pf with
    | PF_KERNEL => Ok (start, k)
    | PF_USER => ASSERT (start <? 3221225472 - PG_SIZE);; Ok (start, k)
    end.

Definition vaddr_remove (k : mm) (pf : pool_flags) (vaddr pg_cnt : Z) : outcome mm :=
  let v := vspace k pf in
  let bit_idx_start := u32 (vaddr - vaddr_start v) / PG_SIZE in
  b ← set_bits (vaddr_bitmap v) bit_idx_start (Z.to_nat pg_cnt) 0;
  Ok (set_vspace k pf (VirtualAddr b (vaddr_start v))).

(** ** Pages *)

(** The entry for a frame: present, writable, for the user too. *)
Definition user_entry (phyaddr : Z) : Z := Z.lor (Z.lor (Z.lor phyaddr PG_US_U) PG_RW_W) PG_P_1.

(** [memset(va, 0, n * PG_SIZE)] on [n] pages through the page table. *)
Fixpoint clear_pages (m : mem) (d va : Z) (n : nat) : outcome mem :=
  match n with
  | O => Ok m
  | S n' =>
      pa ← translate m d va;
      m ← memset_bytes m pa 0 PG_SIZE;
      clear_pages m d (u32 (va + PG_SIZE)) n'
  end.
Definition vmemset0 (m : mem) (d va : Z) (n : nat) : outcome mem :=
  ASSERT (negb (va =? NULL));;
  clear_pages m d va n.

Definition page_table_add (k : mm) (vaddr page_phyaddr : Z) : outcome mm :=
  let d := dir k in
  let pde := pde_ptr vaddr in
  let pte := pte_ptr vaddr in
  e ← vload32 (phys k) d pde;
  if truth (Z.land e 1) then
    p ← vload32 (phys k) d pte;
    ASSERT (negb (truth (Z.land p 1)));;
    p ← vload32 (phys k) d pte;
    if negb (truth (Z.land p 1)) then
      m ← vstore32 (phys k) d pte (user_entry page_phyaddr);
      Ok (set_phys k m)
    else Panic
  else
    '(pde_phyaddr, kp) ← palloc (kernel_pool k);
    let k := set_pool k PF_KERNEL kp in
    m ← vstore32 (phys k) d pde (user_entry pde_phyaddr);
    m ← vmemset0 m d (Z.land pte 4294963200) 1;
    p ← vload32 m d pte;
    ASSERT (negb (truth (Z.land p 1)));;
    m ← vstore32 m d pte (user_entry page_phyaddr);
    Ok (set_phys k m).

Definition malloc_page (k : mm) (pf : pool_flags) (pg_cnt : Z) : outcome (Z * mm) :=
  ASSERT ((0 <? pg_cnt) && (pg_cnt <? 3840));;
  '(vaddr_start, k) ← vaddr_get k pf pg_cnt;
  if vaddr_start =? NULL then Ok (NULL, k)
  else
    loop (S (Z.to_nat pg_cnt)) (λ '(cnt, vaddr, k),
      if 0 <? cnt then
        '(page_phyaddr, p) ← palloc (pool_of k pf);
        let k := set_pool k pf p in
        if page_phyaddr =? NULL then Ok (inr (NULL, k))
        else
          k ← page_table_add k vaddr page_phyaddr;
          Ok (inl (cnt - 1, u32 (vaddr + PG_SIZE), k))
      else Ok (inr (vaddr_start, k))) (pg_cnt, vaddr_start, k).

(** The loop of [mfree_page] over the pages from [vaddr]; [ok] is the test of the
    frame's address. *)
Fixpoint free_frames (k : mm) (vaddr : Z) (pg_cnt : nat) (ok : Z → bool) : outcome mm :=
  match pg_cnt with
  | O => Ok k
  | S n =>
      pg_phy_addr ← addr_v2p (phys k) (dir k) vaddr;
      ASSERT ((pg_phy_addr mod PG_SIZE =? 0) && ok pg_phy_addr);;
      k ← pfree k pg_phy_addr;
      m ← page_table_pte_remove (phys k) (dir k) vaddr;
      free_frames (set_phys k m) (u32 (vaddr + PG_SIZE)) n ok
  end.

Definition mfree_page (k : mm) (pf : pool_flags) (vaddr pg_cnt : Z) : outcome mm :=
  ASSERT ((1 <=? pg_cnt) && (vaddr mod PG_SIZE =? 0));;
  pg_phy_addr ← addr_v2p (phys k) (dir k) vaddr;
  ASSERT ((pg_phy_addr mod PG_SIZE =? 0) && (1056768 <=? pg_phy_addr));;
  let up := phy_addr_start (user_pool k) in
  let kp := phy_addr_start (kernel_pool k) in
  k ← (if up <=? pg_phy_addr then free_frames k vaddr (Z.to_nat pg_cnt) (λ a, up <=? a)
       else free_frames k vaddr (Z.to_nat pg_cnt) (λ a, (kp <=? a) && (a <? up)));
  vaddr_remove k pf vaddr pg_cnt.

Definition get_kernel_pages (k : mm) (pg_cnt : Z) : outcome (Z * mm) :=
  '(vaddr, k) ← malloc_page k PF_KERNEL pg_cnt;
  if negb (vaddr =? NULL) then
    m ← vmemset0 (phys k) (dir k) vaddr (Z.to_nat pg_cnt);
    Ok (vaddr, set_phys k m)
  else Ok (vaddr, k).

(** The pool's lock, by a thread that finds it free or holds it. *)
Definition pool_acquire (k : mm) (pf : pool_flags) : mm :=
  let p := pool_of k pf in
  set_pool k pf (Pool (pool_bitmap p) (phy_addr_start p) (pool_size p) (depth p + 1)).
Definition pool_release (k : mm) (pf : pool_flags) : outcome mm :=
  let p := pool_of k pf in
  ASSERT (1 <=? depth p);;
  Ok (set_pool k pf (Pool (pool_bitmap p) (phy_addr_start p) (pool_size p) (depth p - 1))).

Definition get_user_pages (k : mm) (pg_cnt : Z) : outcome (Z * mm) :=
  let k := pool_acquire k PF_USER in
  '(vaddr, k) ← malloc_page k PF_USER pg_cnt;
  m ← vmemset0 (phys k) (dir k) vaddr (Z.to_nat pg_cnt);
  k ← pool_release (set_phys k m) PF_USER;
  Ok (vaddr, k).

Definition get_a_page (k : mm) (pf : pool_flags) (vaddr : Z) : outcome (Z * mm) :=
  let k := pool_acquire k pf in
  k ← match (pgdir k =? NULL), pf with
      | false, PF_USER | true, PF_KERNEL =>
          let v := vspace k pf in
          let bit_idx := s32 (u32 (vaddr - vaddr_start v) / PG_SIZE) in
          ASSERT (0 <? bit_idx);;
          b ← bitmap_set (vaddr_bitmap v) bit_idx 1;
          Ok (set_vspace k pf (VirtualAddr b (vaddr_start v)))
      | _, _ => Panic
      end;
  '(page_phyaddr, p) ← palloc (pool_of k pf);
  let k := set_pool k pf p in
  if page_phyaddr =? NULL then Ok (NULL, k)
  else
    k ← page_table_add k vaddr page_phyaddr;
    k ← pool_release k pf;
    Ok (vaddr, k).

(** ** Initialisation *)

(** [mem_pool_init]; [area] are the bytes from [MEM_BITMAP_BASE] on, where the
    three bitmaps lie one behind the other. What a pool's bitmap holds behind its
    own bytes is the state of the area before the others were cleared; a search
    for one frame reads it only when the pool is full, and to no effect. *)
Definition mem_pool_init (all_mem : Z) (area : list Z) : outcome (pool * pool * virtual_addr) :=
  let page_table_size := PG_SIZE * 256 in
  let used_mem := u32 (page_table_size + 1048576) in
  let free_mem := u32 (all_mem - used_mem) in
  let all_free_pages := u16 (free_mem / PG_SIZE) in
  let kernel_free_pages := u16 (all_free_pages / 2) in
  let user_free_pages := u16 (all_free_pages - kernel_free_pages) in
  let kbm_length := kernel_free_pages / 8 in
  let ubm_length := user_free_pages / 8 in
  let kp_start := used_mem in
  let up_start := u32 (kp_start + kernel_free_pages * PG_SIZE) in
  kb ← bitmap_init (Bitmap kbm_length area);
  ub ← bitmap_init (Bitmap ubm_length (drop (Z.to_nat kbm_length) area));
  vb ← bitmap_init (Bitmap kbm_length (drop (Z.to_nat (kbm_length + ubm_length)) area));
  Ok (Pool kb kp_start (u32 (kernel_free_pages * PG_SIZE)) 0,
      Pool ub up_start (u32 (user_free_pages * PG_SIZE)) 0,
      VirtualAddr vb K_HEAP_START).

(** ** The invariant of the memory manager *)

Implicit Types (k : mm) (pf : pool_flags) (va f t : Z).

Definition free_in (p : pool) f : Prop :=
  ∃ i, 0 ≤ i < nbits (pool_bitmap p) ∧ f = phy_addr_start p + i * PG_SIZE ∧
    bit (pool_bitmap p) i = false.
Definition free_frame k f : Prop := free_in (kernel_pool k) f ∨ free_in (user_pool k) f.

(** A pool of aligned frames that are there. *)
Record pool_wf (m : mem) (p : pool) : Prop := PoolWf {
  pw_bitmap : wf_bitmap (pool_bitmap p);
  pw_aligned : phy_addr_start p mod 4096 = 0;
  pw_range : 0 < phy_addr_start p ∧ phy_addr_start p + nbits (pool_bitmap p) * PG_SIZE ≤ 2 ^ 32;
  pw_valid i : 0 ≤ i < nbits (pool_bitmap p) → valid m (phy_addr_start p + i * PG_SIZE) 4096
}.

(** The addresses the manager hands out: neither the first 4 MB, whose table is
    also that of the kernel's first 4 MB, nor the self-map. *)
Definition managed va : Prop := 4194304 ≤ va < 4290772992.

(** The page of [va] is mapped to frame [f]. *)
Definition maps (m : mem) (d : Z) va f : Prop :=
  ∃ t pte, table_of m d va t ∧ load32 m (slot t va) = Ok pte ∧
    entry_present pte = true ∧ entry_base pte = f.

(** [f] is the page directory or one of its tables. *)
Definition is_table (m : mem) (d f : Z) : Prop :=
  f = d ∨ ∃ i e, 0 ≤ i < 1023 ∧ load32 m (d + 4 * i) = Ok e ∧ entry_present e = true ∧ entry_base e = f.

(** A mapped page is no table; only the directory may be mapped besides, as that of a
    process is. *)
Record mm_inv k : Prop := MMInv {
  mi_pt : pt_wf (phys k) (dir k);
  mi_kpool : pool_wf (phys k) (kernel_pool k);
  mi_upool : pool_wf (phys k) (user_pool k);
  mi_apart : phy_addr_start (kernel_pool k) + nbits (pool_bitmap (kernel_pool k)) * PG_SIZE
             ≤ phy_addr_start (user_pool k);
  mi_tables f : is_table (phys k) (dir k) f → ¬ free_frame k f;
  mi_inj i j e e' : 1 ≤ i < 1023 → 1 ≤ j < 1023 →
    load32 (phys k) (dir k + 4 * i) = Ok e → load32 (phys k) (dir k + 4 * j) = Ok e' →
    entry_present e = true → entry_present e' = true → entry_base e = entry_base e' → i = j;
  mi_mapped va f : managed va → maps (phys k) (dir k) va f →
    ¬ free_frame k f ∧ (is_table (phys k) (dir k) f → f = dir k);
  mi_shared va va' f : managed va → managed va' →
    maps (phys k) (dir k) va f → maps (phys k) (dir k) va' f → va / 4096 = va' / 4096
}.

(** The same frames, of which no more are free. *)
Record pool_le (p' p : pool) : Prop := PoolLe {
  pl_start : phy_addr_start p' = phy_addr_start p;
  pl_nbits : nbits (pool_bitmap p') = nbits (pool_bitmap p);
  pl_free f : free_in p' f → free_in p f
}.

#[export] Instance pool_le_preorder : PreOrder pool_le.
Proof.
  split; [done|]. intros p1 p2 p3 [S1 N1 F1] [S2 N2 F2]. split; [congruence|congruence|auto].
Qed.

(** [a] is a byte of a page that is mapped, other than the directory. *)
Definition data_byte k (a : Z) : Prop :=
  ∃ va f, managed va ∧ maps (phys k) (dir k) va f ∧ f ≤ a < f + 4096 ∧ f ≠ dir k.

(** A frame that was handed out and is not in use yet. *)
Definition fresh k f : Prop :=
  0 < f < 2 ^ 32 ∧ f mod 4096 = 0 ∧ valid (phys k) f 4096 ∧
  ¬ free_frame k f ∧ ¬ is_table (phys k) (dir k) f ∧
  ∀ va, managed va → ¬ maps (phys k) (dir k) va f.

Lemma pool_of_wf k pf : mm_inv k → pool_wf (phys k) (pool_of k pf).
Proof. intros Hk. destruct pf; apply Hk. Qed.

Lemma free_in_frame k pf f : free_in (pool_of k pf) f → free_frame k f.
Proof. destruct pf; [by left|by right]. Qed.

Lemma free_not_dir k pf f : mm_inv k → free_in (pool_of k pf) f → f ≠ dir k.
Proof. intros Hk Hf ->. apply (mi_tables _ Hk (dir k)); [by left|by apply (free_in_frame k pf)]. Qed.

Lemma free_in_range m p f : pool_wf m p → free_in p f →
  phy_addr_start p ≤ f < phy_addr_start p + nbits (pool_bitmap p) * PG_SIZE ∧
  0 < f < 2 ^ 32 ∧ f mod 4096 = 0 ∧ valid m f 4096.
Proof.
  intros [_ Ha Hr Hv] (i & Hi & -> & _). unfold PG_SIZE in *. split_and!; try lia; [zdlia|by apply Hv].
Qed.

(** The pools have no frame in common. *)
Lemma pools_apart k f : mm_inv k → free_in (kernel_pool k) f → free_in (user_pool k) f → False.
Proof.
  intros Hk H1 H2. apply (free_in_range _ _ _ (mi_kpool _ Hk)) in H1 as [H1 _].
  apply (free_in_range _ _ _ (mi_upool _ Hk)) in H2 as [H2 _]. pose proof (mi_apart _ Hk). lia.
Qed.

(** [palloc] takes the first free frame of its pool. *)
Lemma palloc_frame m p :
  pool_wf m p → (∃ i, 0 ≤ i < nbits (pool_bitmap p) ∧ bit (pool_bitmap p) i = false) →
  ∃ f p', palloc p = Ok (f, p') ∧ free_in p f ∧ f ≠ NULL ∧ pool_wf m p' ∧
    phy_addr_start p' = phy_addr_start p ∧ nbits (pool_bitmap p') = nbits (pool_bitmap p) ∧
    pool_size p' = pool_size p ∧ depth p' = depth p ∧
    length (bits (pool_bitmap p')) = length (bits (pool_bitmap p)) ∧
    (∃ r, f = phy_addr_start p + r * PG_SIZE ∧ first_free (pool_bitmap p) r ∧
      ∀ j, 0 ≤ j → bit (pool_bitmap p') j = if bool_decide (j = r) then true else bit (pool_bitmap p) j) ∧
    (∀ f', free_in p' f' ↔ free_in p f' ∧ f' ≠ f).
Proof.
  intros [Hb Ha Hr Hv] Hex. unfold palloc.
  destruct (bitmap_scan_one _ Hb Hex) as (r & -> & Hff). ocbn.
  pose proof Hff as (Hr0 & Hfree & Hmin).
  destruct (Z.eqb_spec r (-1)); [lia|].
  destruct (bitmap_set_spec (pool_bitmap p) r 1 Hb) as (b' & -> & Hb' & Hl' & Hlen & Hbit).
  { pose proof (wf_len _ Hb). unfold nbits in *. lia. }
  { by right. }
  ocbn. change (truth 1) with true in Hbit.
  assert (nbits b' = nbits (pool_bitmap p)) as Hn by (unfold nbits; by rewrite Hl').
  unfold PG_SIZE in *. rewrite u32_small by lia.
  exists (r * 4096 + phy_addr_start p), (with_bitmap p b'). split; [done|]. split_and!; try done.
  - exists r. unfold PG_SIZE. split_and!; try done; lia.
  - unfold NULL. lia.
  - split; cbn; rewrite ?Hn; done.
  - exists r. unfold PG_SIZE. split_and!; try done; lia.
  - intros f'. split.
    + intros (i & Hi & -> & Hf). cbn in Hi, Hf. rewrite Hn in Hi. rewrite Hbit in Hf by lia.
      revert Hf. gdecide as E; [done|]. intros Hf. split; [by exists i|cbn; unfold PG_SIZE; lia].
    + intros [(i & Hi & -> & Hf) Hne]. exists i. cbn. rewrite Hn, Hbit by lia.
      rewrite bool_decide_eq_false_2 by (unfold PG_SIZE in *; intros ->; lia). done.
Qed.

(** Fewer free frames keep the invariant. *)
Lemma mm_inv_fewer k k' :
  mm_inv k → phys k' = phys k → dir k' = dir k →
  pool_wf (phys k) (kernel_pool k') → pool_wf (phys k) (user_pool k') →
  phy_addr_start (kernel_pool k') + nbits (pool_bitmap (kernel_pool k')) * PG_SIZE
    ≤ phy_addr_start (user_pool k') →
  (∀ f, free_frame k' f → free_frame k f) → mm_inv k'.
Proof.
  intros [Hpt Hkp Hup Hap Htab Hinj Hmap Hsh] Hp Hd Hkp' Hup' Hap' Hf.
  split; rewrite ?Hp, ?Hd; try done.
  - intros f Ht Hff. by eapply Htab, Hf.
  - intros va f Hv Hm. destruct (Hmap va f Hv Hm). split; [|done]. intros Hff. by apply Hf in Hff.
Qed.

Lemma palloc_inv k pf :
  mm_inv k →
  (∃ i, 0 ≤ i < nbits (pool_bitmap (pool_of k pf)) ∧ bit (pool_bitmap (pool_of k pf)) i = false) →
  ∃ f p', palloc (pool_of k pf) = Ok (f, p') ∧ mm_inv (set_pool k pf p') ∧
    fresh (set_pool k pf p') f ∧ free_in (pool_of k pf) f ∧
    (∀ f', free_frame (set_pool k pf p') f' ↔ free_frame k f' ∧ f' ≠ f).
Proof.
  intros Hk Hex. pose proof (pool_of_wf k pf Hk) as Hwf.
  destruct (palloc_frame (phys k) _ Hwf Hex)
    as (f & p' & Heq & Hfree & Hn & Hwf' & Hs & Hnb & _ & _ & _ & _ & Hiff).
  exists f, p'. split; [done|].
  assert (∀ f', free_frame (set_pool k pf p') f' ↔ free_frame k f' ∧ f' ≠ f) as Hff.
  { intros f'. pose proof (pools_apart k f Hk) as Hap. unfold free_frame.
    destruct pf; cbn in *; rewrite Hiff; split.
    - intros [[? ?]|?]; (split; [by auto|]); [done|]. intros ->. auto.
    - intros [[?|?] ?]; auto.
    - intros [?|[? ?]]; (split; [by auto|]); [|done]. intros ->. auto.
    - intros [[?|?] ?]; auto. }
  assert (free_frame k f) as Hfk by (by apply (free_in_frame k pf)).
  assert (mm_inv (set_pool k pf p')) as Hinv.
  { destruct pf; (eapply (mm_inv_fewer k); [done|done|done|..]); try apply Hk; try done;
      try (cbn in *; rewrite ?Hs, ?Hnb; apply Hk); intros f' Hf'; by apply Hff. }
  split; [done|]. split; [|done].
  destruct (free_in_range _ _ _ Hwf Hfree) as (_ & Hr & Ha & Hv).
  assert (phys (set_pool k pf p') = phys k ∧ dir (set_pool k pf p') = dir k) as [Ep Ed]
    by (by destruct pf).
  unfold fresh. rewrite Ep, Ed.
  do 3 (split; [done|]). split; [by intros [_ ?]%Hff|]. split.
  - intros Ht. by apply (mi_tables _ Hk f) in Ht.
  - intros va Hva Hm. by apply (mi_mapped _ Hk) in Hm as [? _].
Qed.

(** ** Adding an entry *)

Lemma managed_idx va : managed va → 1 ≤ va / 2 ^ 22 < 1023.
Proof. unfold managed. change (2 ^ 22) with 4194304. zdlia. Qed.

Lemma managed_range va : managed va → 0 ≤ va < 4290772992 ∧ 0 ≤ va < 2 ^ 32.
Proof. unfold managed. change (2 ^ 32) with 4294967296. lia. Qed.

(** The entries for different managed pages lie at different places. *)
Lemma slots_differ k va va' t t' :
  mm_inv k → managed va → managed va' → va / 4096 ≠ va' / 4096 →
  table_of (phys k) (dir k) va t → table_of (phys k) (dir k) va' t' →
  slot t' va' ≠ slot t va.
Proof.
  intros Hk Hv Hv' Hne Ht Ht' E. pose proof (mi_pt _ Hk) as Hpt.
  destruct (table_base _ _ _ _ Hpt Ht) as [_ Ha].
  destruct (table_base _ _ _ _ Hpt Ht') as [_ Ha'].
  pose proof (managed_range _ Hv) as [_ Hr]. pose proof (managed_range _ Hv') as [_ Hr'].
  destruct (slot_in t va Hr), (slot_in t' va' Hr').
  assert (t = t') as Et.
  { destruct (decide (t = t')) as [|Hn]; [done|]. destruct (frames_apart t t'); try done; lia. }
  destruct Ht as (e & He & Hp & Hb), Ht' as (e' & He' & Hp' & Hb').
  assert (va / 2 ^ 22 = va' / 2 ^ 22) as Ei.
  { eapply (mi_inj _ Hk); [by apply managed_idx|by apply managed_idx|done|done|done|done|congruence]. }
  subst t'. unfold slot in E. change (2 ^ 12) with 4096 in E. change (2 ^ 22) with 4194304 in Ei.
  zdlia.
Qed.

(** [maps] depends on the page of the address only. *)
Lemma maps_page m d va va' f : va / 4096 = va' / 4096 → maps m d va f → maps m d va' f.
Proof.
  intros E (t & pte & (e & He & Hp & Hb) & Hl & Hpr & Hbase).
  assert (va / 2 ^ 22 = va' / 2 ^ 22) as E2.
  { change (2 ^ 22) with (4096 * 1024). rewrite <- !Z.div_div by lia. by rewrite E. }
  exists t, pte. split_and!; try done.
  - exists e. by rewrite <- E2.
  - unfold slot in *. change (2 ^ 12) with 4096 in *. by rewrite <- E.
Qed.

Lemma maps_det m d va f f' : maps m d va f → maps m d va f' → f = f'.
Proof.
  intros (t & e & Ht & He & _ & <-) (t' & e' & Ht' & He' & _ & <-).
  assert (t = t') as <- by (by eapply table_of_det). congruence.
Qed.

Lemma maps_translate m d va f : maps m d va f ↔ ∃ pa, translate m d va = Ok pa ∧ f = pa - va mod 4096.
Proof.
  split.
  - intros (t & pte & Ht & Hl & Hp & <-). exists (entry_base pte + va mod 4096).
    rewrite (translate_table m d va t Ht), Hl. ocbn. rewrite Hp. split; [done|lia].
  - intros (pa & Htr & ->). unfold translate in Htr. apply bind_ok in Htr as (e & He & Htr).
    destruct (entry_present e) eqn:Hp; [|done]. apply bind_ok in Htr as (pte & Hl & Htr).
    destruct (entry_present pte) eqn:Hp'; [|done]. injection Htr as <-.
    exists (entry_base e), pte. split_and!; try done; [by exists e|lia].
Qed.

Lemma maps_aligned k va f : mm_inv k → maps (phys k) (dir k) va f → f mod 4096 = 0.
Proof.
  intros Hk (t & pte & _ & Hl & _ & <-). apply entry_base_range.
  destruct (load32_valid (phys k) (slot t va)) as (v & Hv & Hr);
    [apply (mi_pt _ Hk)|by eapply load32_is_valid|]. congruence.
Qed.

(** A byte of a mapped page lies in no table and in no free frame. *)
Lemma data_byte_apart k a t :
  mm_inv k → data_byte k a → is_table (phys k) (dir k) t ∨ free_frame k t ∨ fresh k t →
  t mod 4096 = 0 → a < t ∨ t + 4096 ≤ a.
Proof.
  intros Hk (va & f & Hva & Hm & Ha & Hnd) Ht Hal. pose proof (maps_aligned _ _ _ Hk Hm) as Hfa.
  destruct (mi_mapped _ Hk va f Hva Hm) as [Hn1 Hn2].
  destruct (frames_apart f t Hfa Hal); [|lia|lia].
  intros ->. destruct Ht as [?|[?|(_ & _ & _ & _ & _ & Hno)]]; [by apply Hnd, Hn2|done|]. by apply (Hno va).
Qed.

Lemma pool_wf_mem m m' p : (∀ a n, valid m a n → valid m' a n) → pool_wf m p → pool_wf m' p.
Proof. intros Hv [H1 H2 H3 H4]. split; auto. Qed.

Lemma free_frame_phys k m f : free_frame (set_phys k m) f ↔ free_frame k f.
Proof. done. Qed.

(** Writing the entry of a page that is not mapped yet. *)
Section map_entry.
Variables (k : mm) (va t f : Z).
Hypothesis Hk : mm_inv k.
Hypothesis Hva : managed va.
Hypothesis Ht : table_of (phys k) (dir k) va t.
Hypothesis Hf : fresh k f.
Let m := phys k.
Let m' := put32 m (slot t va) (user_entry f).

Lemma map_entry_pde i : 0 ≤ i < 1024 → load32 m' (dir k + 4 * i) = load32 m (dir k + 4 * i).
Proof.
  apply write_entry_pde; [apply Hk|by apply managed_range|done].
Qed.

Lemma map_entry_table va' t' : managed va' → table_of m' (dir k) va' t' ↔ table_of m (dir k) va' t'.
Proof.
  intros Hv'. apply write_entry_table; [apply Hk|by apply managed_range|done|by apply managed_range].
Qed.

Lemma map_entry_is_table f' : is_table m' (dir k) f' ↔ is_table m (dir k) f'.
Proof.
  unfold is_table. split; (intros [?|(i & e & Hi & He & ?)]; [by left|right]); exists i, e;
    (split; [done|]); revert He; rewrite map_entry_pde by lia; done.
Qed.

Lemma map_entry_new : maps m' (dir k) va f.
Proof.
  destruct Hf as (Hr & Ha & _).
  destruct (entry_make f) as (E & Hb & Hp & Hr'); [lia|done|].
  exists t, (user_entry f). split_and!; try done.
  - by apply map_entry_table.
  - unfold m'. rewrite load32_put32_eq. f_equal. unfold u32. by apply Z.mod_small.
Qed.

Lemma map_entry_other va' f' : managed va' → va' / 4096 ≠ va / 4096 →
  maps m' (dir k) va' f' ↔ maps m (dir k) va' f'.
Proof.
  intros Hv' Hne. unfold maps.
  assert (∀ t', table_of m (dir k) va' t' → load32 m' (slot t' va') = load32 m (slot t' va')) as Hl.
  { intros t' Ht'. apply load32_put32_ne.
    destruct (table_base _ _ _ _ (mi_pt _ Hk) Ht) as [_ Ha].
    destruct (table_base _ _ _ _ (mi_pt _ Hk) Ht') as [_ Ha'].
    apply slots_apart; try done; [by apply managed_range..|].
    by apply (slots_differ k). }
  split; intros (t' & pte & Ht' & Hl' & ?); exists t', pte; rewrite ?map_entry_table in * by done;
    (split; [done|]); rewrite Hl in * by done; done.
Qed.

Lemma map_entry_data a : data_byte k a → m' !! a = m !! a.
Proof using Hk Hva Ht.
  intros Ha. pose proof (managed_range _ Hva) as [_ Hr]. destruct (slot_in t va Hr).
  destruct (table_base _ _ _ _ (mi_pt _ Hk) Ht) as [_ Hta].
  apply put32_lookup_ne. destruct (data_byte_apart k a t Hk Ha); [|done|lia|lia].
  left. right. destruct Ht as (e & He & Hp & Hb). pose proof (managed_idx _ Hva).
  exists (va / 2 ^ 22), e. split; [lia|done].
Qed.

Lemma map_entry_inv : mm_inv (set_phys k m').
Proof.
  pose proof Hk as [Hpt Hkp Hup Hap Htab Hinj Hmap Hsh].
  destruct Hf as (Hr & Ha & Hvl & Hnf & Hnt & Hnm).
  assert (∀ a n, valid m a n → valid m' a n) as Hval by (intros; by apply put32_valid).
  split; cbn [phys dir kernel_pool user_pool set_phys].
  - apply write_entry_wf; [done|by apply managed_range|done].
  - by eapply pool_wf_mem.
  - by eapply pool_wf_mem.
  - done.
  - intros f'. rewrite map_entry_is_table, free_frame_phys. apply Htab.
  - intros i j e e' Hi Hj. rewrite !map_entry_pde by lia. by apply Hinj.
  - intros va' f' Hv' Hm'. rewrite map_entry_is_table, free_frame_phys.
    destruct (decide (va' / 4096 = va / 4096)) as [E|E].
    + assert (f' = f) as -> by (eapply maps_det; [by eapply maps_page|apply map_entry_new]). done.
    + apply (Hmap va'); [done|]. by apply map_entry_other.
  - intros va1 va2 f' Hv1 Hv2 H1 H2.
    destruct (decide (va1 / 4096 = va / 4096)) as [E1|E1],
             (decide (va2 / 4096 = va / 4096)) as [E2|E2]; [congruence|..].
    + assert (f' = f) as -> by (eapply maps_det; [by eapply maps_page|apply map_entry_new]).
      apply map_entry_other in H2; [|done..]. by apply Hnm in H2.
    + assert (f' = f) as -> by (eapply maps_det; [by eapply (maps_page _ _ va2)|apply map_entry_new]).
      apply map_entry_other in H1; [|done..]. by apply Hnm in H1.
    + apply map_entry_other in H1, H2; try done. by eapply Hsh.
Qed.
End map_entry.

(** A new, empty page table at frame [F]. *)
Section new_table.
Variables (k : mm) (va F e0 : Z) (m2 : mem).
Hypothesis Hk : mm_inv k.
Hypothesis Hva : managed va.
Hypothesis He0 : load32 (phys k) (dir k + 4 * (va / 2 ^ 22)) = Ok e0.
Hypothesis Hp0 : entry_present e0 = false.
Hypothesis HF : fresh k F.
Let m := phys k.
Let d := dir k.
Let idx := va / 2 ^ 22.
Let m1 := put32 m (d + 4 * idx) (user_entry F).
Hypothesis Hm2 : ∀ a, m2 !! a = if bool_decide (F ≤ a < F + 4096) then Some 0 else m1 !! a.

Lemma new_table_apart : F + 4096 ≤ d ∨ d + 4096 ≤ F.
Proof.
  destruct HF as (_ & Ha & _ & _ & Hnt & _). apply frames_apart; [done|apply (pt_dir _ _ (mi_pt _ Hk))|].
  intros ->. apply Hnt. by left.
Qed.

Lemma new_table_idx : 1 ≤ idx < 1023.
Proof. by apply managed_idx. Qed.

Lemma new_table_entry : load32 m1 (d + 4 * idx) = Ok (user_entry F) ∧
  entry_base (user_entry F) = F ∧ entry_present (user_entry F) = true.
Proof.
  destruct HF as (Hr & Ha & _). destruct (entry_make F) as (_ & Hb & Hp & Hr'); [lia|done|].
  split; [|done]. unfold m1. rewrite load32_put32_eq. f_equal. unfold u32. by apply Z.mod_small.
Qed.

Lemma new_table_pde1 i : 0 ≤ i < 1024 →
  load32 m1 (d + 4 * i) = if decide (i = idx) then Ok (user_entry F) else load32 m (d + 4 * i).
Proof.
  intros Hi. gdecide as E; [subst i; apply new_table_entry|].
  unfold m1. rewrite load32_put32_ne; [done|]. lia.
Qed.

Lemma new_table_pde i : 0 ≤ i < 1024 →
  load32 m2 (d + 4 * i) = if decide (i = idx) then Ok (user_entry F) else load32 m (d + 4 * i).
Proof.
  intros Hi. rewrite <- new_table_pde1 by done. apply load32_lookup_ext. intros a Ha.
  rewrite Hm2, bool_decide_eq_false_2; [done|]. pose proof new_table_apart. lia.
Qed.

Lemma new_table_valid a n : valid m a n → valid m1 a n ∧ valid m2 a n.
Proof.
  intros Hv. assert (valid m1 a n) as H1 by (by apply put32_valid). split; [done|].
  intros x Hx. rewrite Hm2. gdecide; [by eexists|]. by apply H1.
Qed.

(** Both while the table is cleared and afterwards. *)
Lemma new_table_pt mm' :
  wf_mem mm' → (∀ a n, valid m a n → valid mm' a n) →
  (∀ i, 0 ≤ i < 1024 → load32 mm' (d + 4 * i) =
     if decide (i = idx) then Ok (user_entry F) else load32 m (d + 4 * i)) →
  pt_wf mm' d ∧ ∀ va', va' / 2 ^ 22 = idx → table_of mm' d va' F.
Proof using Hk Hva HF.
  clear Hm2 m2.
  intros Hm' Hv Hpde. pose proof (mi_pt _ Hk) as [_ Hd Hdv (e & He & Hp & Hb) Htab].
  pose proof new_table_idx. destruct new_table_entry as (_ & Hb' & Hp'). split; [split; auto|].
  - exists e. rewrite Hpde by lia. destruct (decide _); [lia|done].
  - intros i e' Hi. rewrite Hpde by lia. gdecide as E.
    + intros [= <-] _. rewrite Hb'. destruct HF as (_ & _ & HvF & _ & Hnt & _).
      split; [by apply Hv|]. intros ->. apply Hnt. by left.
    + intros He' Hp1. destruct (Htab i e' Hi He' Hp1). split; [by apply Hv|done].
  - intros va' Hi'. exists (user_entry F). rewrite Hi', Hpde by lia. by destruct (decide _).
Qed.

Lemma new_table_wf : wf_mem m1 ∧ wf_mem m2.
Proof.
  assert (wf_mem m1) as H1 by (apply put32_wf, (pt_mem _ _ (mi_pt _ Hk))). split; [done|].
  intros a b. rewrite Hm2. gdecide; [intros [= <-]; lia|]. apply H1.
Qed.

Lemma new_table_pt2 : pt_wf m2 d ∧ ∀ va', va' / 2 ^ 22 = idx → table_of m2 d va' F.
Proof.
  apply new_table_pt; [apply new_table_wf|intros; by apply new_table_valid|apply new_table_pde].
Qed.

(** Its entries are absent, those of the other tables unchanged. *)
Lemma new_table_slot va' : 0 ≤ va' < 2 ^ 32 → load32 m2 (slot F va') = Ok 0.
Proof.
  intros Hv. destruct (slot_in F va' Hv). unfold load32, load8.
  rewrite !Hm2, !bool_decide_eq_true_2 by lia. done.
Qed.

Lemma new_table_maps va' f' : managed va' → maps m2 d va' f' ↔ maps m d va' f'.
Proof.
  intros Hv'. pose proof (managed_range _ Hv') as [_ Hr']. pose proof (va_bounds _ Hr') as [Hi' _].
  pose proof (managed_idx _ Hv') as Hi1.
  destruct new_table_pt2 as [Hpt2 Htab2].
  destruct (decide (va' / 2 ^ 22 = idx)) as [E|E].
  - split; intros (t & pte & Ht & Hl & Hp & Hb); exfalso.
    + assert (t = F) as -> by (eapply table_of_det; [exact Ht|by apply Htab2]).
      rewrite new_table_slot in Hl by done. injection Hl as <-. done.
    + destruct Ht as (e & He & Hpe & _). rewrite E in He. unfold m, d, idx in He. congruence.
  - assert (∀ t, table_of m2 d va' t ↔ table_of m d va' t) as Htt.
    { intros t. unfold table_of. rewrite new_table_pde by done. by destruct (decide _). }
    assert (∀ t, table_of m d va' t → load32 m2 (slot t va') = load32 m (slot t va')) as Hl.
    { intros t Ht. destruct (slot_in t va' Hr').
      destruct (table_base _ _ _ _ (mi_pt _ Hk) Ht) as [_ Ha].
      assert (is_table m d t) as Hit.
      { right. destruct Ht as (e & He & Hpe & Hbe). exists (va' / 2 ^ 22), e. split; [lia|done]. }
      destruct HF as (_ & HaF & _ & _ & Hnt & _).
      destruct (table_valid _ _ _ _ (mi_pt _ Hk) (proj1 (managed_range _ Hv')) Ht) as [_ Hnd].
      apply load32_lookup_ext. intros a Ha'. rewrite Hm2, bool_decide_eq_false_2.
      - unfold m1. apply put32_lookup_ne. pose proof new_table_idx.
        destruct (frames_apart t d Ha) as [?|?]; [apply (pt_dir _ _ (mi_pt _ Hk))|done|lia|lia].
      - destruct (frames_apart t F Ha HaF) as [?|?]; [intros ->; done|lia|lia]. }
    split; intros (t & pte & Ht & Hl' & ?); exists t, pte; rewrite ?Htt in *; (split; [done|]);
      rewrite Hl in * by done; done.
Qed.

Lemma new_table_is_table f' : is_table m2 d f' ↔ is_table m d f' ∨ f' = F.
Proof.
  unfold is_table. destruct new_table_entry as (_ & Hb' & Hp'). pose proof new_table_idx. split.
  - intros [->|(i & e & Hi & He & Hp & Hb)]; [by left; left|]. rewrite new_table_pde in He by lia.
    destruct (decide (i = idx)).
    + injection He as <-. right. congruence.
    + left. right. by exists i, e.
  - intros [[->|(i & e & Hi & He & Hp & Hb)]| ->].
    + by left.
    + right. exists i, e. rewrite new_table_pde by lia. gdecide as E; [|done].
      subst i. unfold m, d, idx in He. congruence.
    + right. exists idx, (user_entry F). rewrite new_table_pde by lia. split; [lia|].
      by destruct (decide _).
Qed.

Lemma new_table_inv : mm_inv (set_phys k m2).
Proof.
  pose proof Hk as [Hpt Hkp Hup Hap Htab Hinj Hmap Hsh].
  destruct HF as (Hr & Ha & Hvl & Hnf & Hnt & Hnm). destruct new_table_entry as (_ & Hb' & Hp').
  split; cbn [phys dir kernel_pool user_pool set_phys].
  - apply new_table_pt2.
  - eapply pool_wf_mem; [|done]. intros; by apply new_table_valid.
  - eapply pool_wf_mem; [|done]. intros; by apply new_table_valid.
  - done.
  - intros f'. rewrite free_frame_phys. fold d. rewrite new_table_is_table. intros [?| ->]; auto.
  - intros i j e e' Hi Hj. fold d. rewrite !new_table_pde by lia.
    assert (∀ j e, 1 ≤ j < 1023 → load32 m (d + 4 * j) = Ok e → entry_present e = true →
      entry_base e ≠ F) as Hne.
    { intros j' e1 Hj' He1 Hp1 E. apply Hnt. right. exists j', e1. split; [lia|done]. }
    destruct (decide (i = idx)) as [->|E1], (decide (j = idx)) as [->|E2];
      intros He He' Hp Hp2 Heq; [done|..].
    + injection He as <-. exfalso. apply (Hne j e' Hj He' Hp2). congruence.
    + injection He' as <-. exfalso. apply (Hne i e Hi He Hp). congruence.
    + by eapply Hinj.
  - intros va' f' Hv'. fold d. rewrite new_table_maps, new_table_is_table, free_frame_phys by done.
    intros Hm'. destruct (Hmap va' f' Hv' Hm'). split; [done|]. intros [?| ->]; [auto|].
    by apply Hnm in Hm'.
  - intros va1 va2 f' Hv1 Hv2. fold d. rewrite !new_table_maps by done. by apply Hsh.
Qed.

Lemma new_table_data a : data_byte k a → m2 !! a = m !! a.
Proof using Hk Hva HF Hm2.
  intros Ha. pose proof new_table_idx. pose proof (pt_dir _ _ (mi_pt _ Hk)) as [_ Hd]. fold d in Hd.
  assert (F mod 4096 = 0) as HFa by apply HF.
  assert (a < F ∨ F + 4096 ≤ a) by (apply (data_byte_apart k); auto).
  assert (a < d ∨ d + 4096 ≤ a) by (apply (data_byte_apart k); [done|done| |done]; by do 2 left).
  rewrite Hm2, bool_decide_eq_false_2 by lia. unfold m1. apply put32_lookup_ne. lia.
Qed.

Lemma new_table_fresh f : fresh k f → f ≠ F → fresh (set_phys k m2) f.
Proof.
  intros (Hr & Ha & Hv & Hnf & Hnt & Hnm) Hne. split_and!; try done; try lia.
  - by apply new_table_valid.
  - cbn. fold d. rewrite new_table_is_table. by intros [?|?].
  - intros va' Hv'. cbn. fold d. rewrite new_table_maps by done. by apply Hnm.
Qed.
End new_table.

(** ** Counting free frames *)

Definition free_count (p : pool) : nat :=
  length (filter (λ i, bit (pool_bitmap p) i = false) (seqZ 0 (nbits (pool_bitmap p)))).

Lemma length_filter_remove (P Q : Z → Prop) `{∀ x, Decision (P x), ∀ x, Decision (Q x)} l r :
  NoDup l → r ∈ l → P r → (∀ x, x ∈ l → Q x ↔ P x ∧ x ≠ r) →
  length (filter P l) = S (length (filter Q l)).
Proof.
  intros Hnd. induction Hnd as [|x l Hx Hnd IH]; intros Hr HP HQ; [by apply not_elem_of_nil in Hr|].
  destruct (decide (x = r)) as [->|Hne].
  - rewrite filter_cons_True, (filter_cons_False Q) by (rewrite ?HQ by left; tauto). cbn. f_equal.
    f_equal. clear IH Hr. induction l as [|y l IHl]; [done|].
    assert (y ≠ r) by (intros ->; apply Hx; left).
    assert (Q y ↔ P y) as E by (rewrite HQ by (right; left); tauto).
    apply NoDup_cons in Hnd as [_ Hnd].
    assert (filter P l = filter Q l) as El.
    { apply IHl; [|done|]. { intros Hr. apply Hx. by right. }
      intros z Hz. apply HQ. apply elem_of_cons in Hz as [->|Hz]; [left|right; by right]. }
    destruct (decide (P y)).
    + rewrite !filter_cons_True by tauto. by rewrite El.
    + rewrite !filter_cons_False by tauto. by rewrite El.
  - apply elem_of_cons in Hr as [?|Hr]; [congruence|].
    assert (Q x ↔ P x) as E by (rewrite HQ by left; tauto).
    assert (length (filter P l) = S (length (filter Q l))) as El.
    { apply IH; try done. intros y Hy. apply HQ. by right. }
    destruct (decide (P x)).
    + rewrite !filter_cons_True by tauto. cbn. by rewrite El.
    + rewrite !filter_cons_False by tauto. done.
Qed.

Lemma free_count_pos p : (0 < free_count p)%nat ↔
  ∃ i, 0 ≤ i < nbits (pool_bitmap p) ∧ bit (pool_bitmap p) i = false.
Proof.
  unfold free_count. split.
  - intros Hl. destruct (filter _ _) as [|i l] eqn:E; [cbn in Hl; lia|].
    assert (i ∈ i :: l) as Hi by left. rewrite <- E in Hi.
    apply list_elem_of_filter in Hi as [Hb Hi]. apply elem_of_seqZ in Hi. exists i. split; [lia|done].
  - intros (i & Hi & Hb).
    assert (i ∈ filter (λ i, bit (pool_bitmap p) i = false) (seqZ 0 (nbits (pool_bitmap p)))) as Hin.
    { apply list_elem_of_filter. split; [done|]. apply elem_of_seqZ. lia. }
    destruct (filter _ _); [by apply not_elem_of_nil in Hin|cbn; lia].
Qed.

Lemma free_count_take p p' r :
  nbits (pool_bitmap p') = nbits (pool_bitmap p) → first_free (pool_bitmap p) r →
  (∀ j, 0 ≤ j → bit (pool_bitmap p') j = if bool_decide (j = r) then true else bit (pool_bitmap p) j) →
  free_count p = S (free_count p').
Proof.
  intros Hn (Hr & Hb & _) Hbit. unfold free_count. rewrite Hn.
  apply (length_filter_remove _ _ _ r).
  - apply NoDup_seqZ.
  - apply elem_of_seqZ. lia.
  - done.
  - intros x Hx%elem_of_seqZ. rewrite Hbit by lia. gdecide; split; try done; tauto.
Qed.

(** [palloc] with everything the callers need. *)
Lemma palloc_spec k pf :
  mm_inv k → (0 < free_count (pool_of k pf))%nat →
  ∃ f p', palloc (pool_of k pf) = Ok (f, p') ∧ mm_inv (set_pool k pf p') ∧
    fresh (set_pool k pf p') f ∧ free_in (pool_of k pf) f ∧
    (∀ f', free_frame (set_pool k pf p') f' ↔ free_frame k f' ∧ f' ≠ f) ∧
    free_count (pool_of k pf) = S (free_count p') ∧ pool_le p' (pool_of k pf).
Proof.
  intros Hk Hc. apply free_count_pos in Hc.
  destruct (palloc_inv k pf Hk Hc) as (f & p' & Heq & H1 & H2 & H3 & H4).
  destruct (palloc_frame (phys k) _ (pool_of_wf k pf Hk) Hc)
    as (f1 & p1 & Heq1 & _ & _ & _ & Hst & Hnb & _ & _ & _ & (r & _ & Hff & Hbit) & Hiff).
  rewrite Heq in Heq1. injection Heq1 as <- <-.
  exists f, p'. split_and!; try done; [by eapply free_count_take|].
  split; [done|done|]. intros f'. rewrite Hiff. tauto.
Qed.

(** ** Mapping a page *)

Lemma valid_entry k va t : mm_inv k → managed va → table_of (phys k) (dir k) va t →
  valid (phys k) (slot t va) 4.
Proof.
  intros Hk Hva Ht. pose proof (managed_range _ Hva) as [Hr Hr2].
  destruct (table_valid _ _ _ _ (mi_pt _ Hk) Hr Ht) as [Hv _]. destruct (slot_in t va Hr2).
  eapply valid_sub; [done|lia|lia].
Qed.

(** Reading the entry of a page that is not mapped. *)
Lemma read_absent k va t : mm_inv k → managed va → table_of (phys k) (dir k) va t →
  (∀ f, ¬ maps (phys k) (dir k) va f) →
  ∃ p, vload32 (phys k) (dir k) (pte_ptr va) = Ok p ∧ truth (Z.land p 1) = false.
Proof.
  intros Hk Hva Ht Hno. pose proof (managed_range _ Hva) as [_ Hr2]. unfold vload32.
  rewrite (translate_pte_ptr _ _ _ t) by (apply Hk || done). ocbn.
  destruct (load32_valid (phys k) (slot t va)) as (p & Hp & _);
    [apply (mi_pt _ Hk)|by apply valid_entry|]. exists p. split; [done|].
  destruct (truth (Z.land p 1)) eqn:E; [|done]. exfalso. apply (Hno (entry_base p)).
  exists t, p. done.
Qed.

(** Writing it. *)
Lemma write_absent k va t v : mm_inv k → managed va → table_of (phys k) (dir k) va t →
  vstore32 (phys k) (dir k) (pte_ptr va) v = Ok (put32 (phys k) (slot t va) v).
Proof.
  intros Hk Hva Ht. pose proof (managed_range _ Hva) as [_ Hr2]. unfold vstore32.
  rewrite (translate_pte_ptr _ _ _ t) by (apply Hk || done). ocbn.
  apply store32_valid. by apply valid_entry.
Qed.

(** The directory entry, read and written. *)
Lemma vload32_pde k va : mm_inv k → 0 ≤ va < 2 ^ 32 →
  vload32 (phys k) (dir k) (pde_ptr va) = load32 (phys k) (dir k + 4 * (va / 2 ^ 22)).
Proof. intros Hk Hva. unfold vload32. by rewrite translate_pde_ptr by (apply Hk || done). Qed.

Lemma vstore32_pde k va v : mm_inv k → 0 ≤ va < 2 ^ 32 →
  vstore32 (phys k) (dir k) (pde_ptr va) v = Ok (put32 (phys k) (dir k + 4 * (va / 2 ^ 22)) v).
Proof.
  intros Hk Hva. pose proof (va_bounds _ Hva) as [Hidx _]. unfold vstore32.
  rewrite translate_pde_ptr by (apply Hk || done). ocbn. apply store32_valid.
  eapply valid_sub; [apply (pt_dir_valid _ _ (mi_pt _ Hk))|lia|lia].
Qed.

(** Clearing the table that [pte_ptr va] lies in. *)
Lemma clear_table m d va t :
  pt_wf m d → managed va → (∀ va', va' / 2 ^ 22 = va / 2 ^ 22 → table_of m d va' t) → valid m t 4096 →
  ∃ m2, vmemset0 m d (Z.land (pte_ptr va) 4294963200) 1 = Ok m2 ∧
    ∀ a, m2 !! a = if bool_decide (t ≤ a < t + 4096) then Some 0 else m !! a.
Proof.
  intros Hpt Hva Ht Hv. pose proof (managed_range _ Hva) as [Hr Hr2].
  change (2 ^ 32) with 4294967296 in Hr2.
  set (va0 := va / 2 ^ 22 * 2 ^ 22).
  assert (va0 / 2 ^ 22 = va / 2 ^ 22) as E0.
  { unfold va0. change (2 ^ 22) with 4194304. zdlia. }
  assert (0 ≤ va0 < 2 ^ 32) as Hr0.
  { unfold va0. change (2 ^ 22) with 4194304. change (2 ^ 32) with 4294967296. zdlia. }
  assert (Z.land (pte_ptr va) 4294963200 = pte_ptr va0) as ->.
  { rewrite !pte_ptr_eq by (done || (change (2 ^ 32) with 4294967296; lia)).
    rewrite land_4k; [unfold va0; change (2 ^ 22) with 4194304; zdlia|].
    change (2 ^ 32) with 4294967296. zdlia. }
  assert (translate m d (pte_ptr va0) = Ok t) as Htr.
  { rewrite (translate_pte_ptr m d va0 t) by (done || by apply Ht). f_equal. unfold slot, va0.
    change (2 ^ 22) with 4194304. change (2 ^ 12) with 4096. zdlia. }
  destruct (memset_bytes_spec m t 0 4096) as (m2 & Hm2 & Hl); [lia|done|].
  exists m2. split; [|done]. unfold vmemset0, clear_pages. destruct (Z.eqb_spec (pte_ptr va0) NULL) as [E|_].
  { exfalso. rewrite pte_ptr_eq in E by done. unfold NULL in E.
    change (2 ^ 32) with 4294967296 in Hr0. zdlia. }
  ocbn. rewrite Htr. ocbn. change PG_SIZE with 4096. by rewrite Hm2.
Qed.

(** What [page_table_add] leaves as it is. *)
Record mapped_one k k' va f : Prop := MappedOne {
  mo_inv : mm_inv k';
  mo_dir : dir k' = dir k;
  mo_new : maps (phys k') (dir k) va f;
  mo_other va' f' : managed va' → va' / 4096 ≠ va / 4096 →
    maps (phys k') (dir k) va' f' ↔ maps (phys k) (dir k) va' f';
  mo_user : user_pool k' = user_pool k;
  mo_kernel : (free_count (kernel_pool k) ≤ S (free_count (kernel_pool k')))%nat;
  mo_kspace : kernel_vaddr k' = kernel_vaddr k;
  mo_uspace : userprog_vaddr k' = userprog_vaddr k;
  mo_pool pf : pool_le (pool_of k' pf) (pool_of k pf);
  mo_data a : data_byte k a → phys k' !! a = phys k !! a
}.

(** A new table for the directory entry [e] of [va], in a frame that was free: it maps nothing yet. *)
Lemma add_table k va f e :
  mm_inv k → managed va → fresh k f → (0 < free_count (kernel_pool k))%nat →
  load32 (phys k) (dir k + 4 * (va / 2 ^ 22)) = Ok e → entry_present e = false →
  ∃ F kp m1 m2, palloc (kernel_pool k) = Ok (F, kp) ∧ vstore32 (phys k) (dir k) (pde_ptr va) (user_entry F) = Ok m1 ∧
    vmemset0 m1 (dir k) (Z.land (pte_ptr va) 4294963200) 1 = Ok m2 ∧
    let k2 := set_phys (set_pool k PF_KERNEL kp) m2 in
    mm_inv k2 ∧ fresh k2 f ∧ table_of m2 (dir k) va F ∧
    (∀ va' f', managed va' → maps m2 (dir k) va' f' ↔ maps (phys k) (dir k) va' f') ∧
    (∀ a, data_byte k a → m2 !! a = phys k !! a) ∧
    (free_count (kernel_pool k) ≤ S (free_count kp))%nat ∧ pool_le kp (kernel_pool k).
Proof.
  intros Hk Hva Hf Hfree He Hp. pose proof (managed_range _ Hva) as [Hr Hr2].
  destruct (palloc_spec k PF_KERNEL Hk Hfree) as (F & kp & HeqF & Hk1 & HF & HFf & Hff & Hcnt & Hle).
  cbn [pool_of] in HeqF, Hcnt, HFf, Hle. set (k1 := set_pool k PF_KERNEL kp) in *.
  assert (fresh k1 f) as Hf1.
  { destruct Hf as (? & ? & ? & Hnf & ? & ?). split_and!; try done; try lia. by intros [? _]%Hff. }
  assert (f ≠ F) as HfF.
  { destruct Hf as (_ & _ & _ & Hnf & _). intros ->. apply Hnf. by left. }
  change (dir k) with (dir k1) in *. change (phys k) with (phys k1) in *. exists F, kp.
  rewrite vstore32_pde by done. set (m1 := put32 _ _ _).
  assert (pt_wf m1 (dir k1) ∧ ∀ va', va' / 2 ^ 22 = va / 2 ^ 22 → table_of m1 (dir k1) va' F) as [Hpt1 Htab1].
  { apply (new_table_pt k1 va F); try done.
    - apply put32_wf, (pt_mem _ _ (mi_pt _ Hk1)).
    - intros; by apply put32_valid.
    - intros i Hi. by apply new_table_pde1. }
  destruct (clear_table m1 (dir k1) va F) as (m2 & Hm & Hm2); [done|done|done|apply put32_valid; apply HF|].
  exists m1, m2. destruct (new_table_pt2 k1 va F m2) as [_ Htab2]; try done. cbv zeta. split_and!; try done.
  - by eapply (new_table_inv k1 va F e).
  - by eapply (new_table_fresh k1 va F e).
  - by apply Htab2.
  - intros va' f'. by eapply (new_table_maps k1 va F e).
  - intros a Ha. by apply (new_table_data k1 va F m2).
  - lia.
Qed.

Lemma page_table_add_spec k va f :
  mm_inv k → managed va → (∀ f', ¬ maps (phys k) (dir k) va f') → fresh k f →
  (0 < free_count (kernel_pool k))%nat →
  ∃ k', page_table_add k va f = Ok k' ∧ mapped_one k k' va f.
Proof.
  intros Hk Hva Hno Hf Hfree. pose proof (managed_range _ Hva) as [Hr Hr2].
  pose proof (va_bounds _ Hr2) as [Hidx _].
  unfold page_table_add. cbv zeta. rewrite vload32_pde by done.
  destruct (load32_valid (phys k) (dir k + 4 * (va / 2 ^ 22))) as (e & He & _).
  { apply (mi_pt _ Hk). }
  { eapply valid_sub; [apply (pt_dir_valid _ _ (mi_pt _ Hk))|lia|lia]. }
  rewrite He. ocbn. fold (entry_present e). destruct (entry_present e) eqn:Hp.
  - assert (table_of (phys k) (dir k) va (entry_base e)) as Ht by (by exists e).
    destruct (read_absent k va _ Hk Hva Ht Hno) as (p & -> & Hp0). ocbn. rewrite Hp0. ocbn.
    rewrite (write_absent k va (entry_base e)) by done. ocbn.
    eexists. split; [done|]. split; try done; cbn.
    + by apply map_entry_inv.
    + by apply map_entry_new.
    + intros va' f' Hv' Hne. by apply map_entry_other.
    + lia.
    + intros a Ha. by eapply map_entry_data.
  - destruct (add_table k va f e Hk Hva Hf Hfree He Hp) as (F & kp & m1 & m2 & -> & Hst & Hcl & Hk2 & Hf2 & Ht2 & Hmaps2 & Hdata & Hcnt & Hle).
    ocbn. set (k2 := set_phys (set_pool k PF_KERNEL kp) m2) in *. cbn [phys set_pool]. rewrite Hst. ocbn. rewrite Hcl. ocbn.
    destruct (read_absent k2 va F Hk2 Hva Ht2) as (p & Hrd & Hp0); [intros f' Hm'; apply (Hno f'); by apply Hmaps2|].
    cbn [phys dir set_phys set_pool k2] in Hrd. rewrite Hrd. ocbn. rewrite Hp0. ocbn.
    pose proof (write_absent k2 va F (user_entry f) Hk2 Hva Ht2) as Hwr.
    cbn [phys dir set_phys set_pool k2] in Hwr. rewrite Hwr. ocbn. eexists. split; [done|].
    split; try done; cbn.
    + by apply (map_entry_inv k2 va F f).
    + by apply (map_entry_new k2 va F f).
    + intros va' f' Hv' Hne. etransitivity; [|by apply (Hmaps2 va' f')]. by apply (map_entry_other k2 va F f).
    + by intros [].
    + intros a Ha. assert (data_byte k2 a) as Ha2.
      { destruct Ha as (va' & f' & Hv' & Hm' & ?). exists va', f'. split; [done|]. split; [by apply Hmaps2|done]. }
      etransitivity; [by apply (map_entry_data k2 va F f)|]. by apply Hdata.
Qed.

(** ** Runs of virtual pages *)

Lemma set_bits_spec b start n v :
  wf_bitmap b → 0 ≤ start → start + Z.of_nat n ≤ Z.of_nat (length (bits b)) * 8 →
  start + Z.of_nat n ≤ 2 ^ 32 → v = 0 ∨ v = 1 →
  ∃ b', set_bits b start n v = Ok b' ∧ wf_bitmap b' ∧
    btmp_bytes_len b' = btmp_bytes_len b ∧ length (bits b') = length (bits b) ∧
    ∀ j, 0 ≤ j → bit b' j = if bool_decide (start ≤ j < start + Z.of_nat n) then truth v else bit b j.
Proof.
  revert b start. induction n as [|n IH]; intros b start Hwf Hs Hl H32 Hv; cbn [set_bits].
  - exists b. split_and!; try done. intros j Hj. by rewrite bool_decide_eq_false_2 by lia.
  - change (2 ^ 32) with 4294967296 in *. rewrite u32_small by lia.
    destruct (bitmap_set_spec b start v Hwf) as (b1 & -> & Hwf1 & Hl1 & Hlen1 & Hb1); [lia|done|].
    ocbn. destruct (IH b1 (start + 1)) as (b' & -> & Hwf' & Hl' & Hlen' & Hb'); try done; try lia.
    exists b'. split; [done|]. split; [done|]. split; [congruence|]. split; [congruence|].
    intros j Hj. rewrite Hb', Hb1 by done.
    destruct (decide (j = start)) as [->|].
    + rewrite (bool_decide_eq_false_2 (start + 1 ≤ _ < _)), !bool_decide_eq_true_2 by lia. done.
    + rewrite (bool_decide_eq_false_2 (j = start)) by done.
      destruct (decide (start + 1 ≤ j < start + 1 + Z.of_nat n)).
      * rewrite !bool_decide_eq_true_2 by lia. done.
      * rewrite !bool_decide_eq_false_2 by lia. done.
Qed.

(** A bitmap in front of a bit that is in use. *)
Record guarded (b : bitmap) : Prop := Guarded {
  gd_wf : wf_bitmap b;
  gd_past : btmp_bytes_len b < Z.of_nat (length (bits b));
  gd_bit : bit b (nbits b) = true
}.

Lemma scan_fit b n :
  guarded b → 1 ≤ n < 2 ^ 31 → (∃ s, 0 ≤ s ∧ s + n ≤ nbits b ∧ free_run b s n) →
  ∃ r, bitmap_scan b n = Ok r ∧ 0 ≤ r ∧ r + n ≤ nbits b ∧ free_run b r n ∧
    ∀ s, 0 ≤ s < r → ¬ free_run b s n.
Proof.
  intros [Hwf Hpast Hg] Hn (s & Hs & Hsn & Hrun).
  assert (∃ i, 0 ≤ i < nbits b ∧ bit b i = false) as Hex.
  { exists s. split; [lia|]. apply Hrun. lia. }
  destruct (decide (n = 1)) as [->|Hne].
  - destruct (bitmap_scan_one b Hwf Hex) as (r & -> & (Hr & Hb & Hmin)). exists r.
    split; [done|]. split_and!; try lia.
    + intros i Hi. by replace i with r by lia.
    + intros s' Hs' Hrun'. specialize (Hrun' s' ltac:(lia)). rewrite Hmin in Hrun' by lia. done.
  - destruct (bitmap_scan_run b n Hwf Hpast Hex) as (r & -> & Ha); [lia|].
    apply run_answer_guard in Ha; [|done|lia]. exists r. split; [done|].
    destruct Ha as [[-> Hno]|Ha]; [|done]. exfalso. by eapply (Hno s).
Qed.

(** The pool of virtual addresses: aligned and managed, and its free pages are
    not mapped. *)
Record space_inv k pf : Prop := SpaceInv {
  sp_guard : guarded (vaddr_bitmap (vspace k pf));
  sp_align : vaddr_start (vspace k pf) mod 4096 = 0;
  sp_range : 4194304 ≤ vaddr_start (vspace k pf) ∧
    vaddr_start (vspace k pf) + nbits (vaddr_bitmap (vspace k pf)) * PG_SIZE ≤ 4290772992;
  sp_free i f : 0 ≤ i < nbits (vaddr_bitmap (vspace k pf)) →
    bit (vaddr_bitmap (vspace k pf)) i = false →
    ¬ maps (phys k) (dir k) (vaddr_start (vspace k pf) + i * PG_SIZE) f
}.

(** User pages end below the page of the user stack. *)
Definition below_stack k pf n : Prop :=
  pf = PF_USER → ∀ s, 0 ≤ s → s + n ≤ nbits (vaddr_bitmap (vspace k pf)) →
    free_run (vaddr_bitmap (vspace k pf)) s n →
    vaddr_start (vspace k pf) + s * PG_SIZE < 3221221376.

(** [vaddr_get] takes the first run of free pages. *)
Lemma vaddr_get_spec k pf n :
  space_inv k pf → 1 ≤ n < 3840 → below_stack k pf n →
  (∃ s, 0 ≤ s ∧ s + n ≤ nbits (vaddr_bitmap (vspace k pf)) ∧
     free_run (vaddr_bitmap (vspace k pf)) s n) →
  ∃ r b, let v := vspace k pf in
    vaddr_get k pf n =
      Ok (vaddr_start v + r * PG_SIZE, set_vspace k pf (VirtualAddr b (vaddr_start v))) ∧
    0 ≤ r ∧ r + n ≤ nbits (vaddr_bitmap v) ∧ free_run (vaddr_bitmap v) r n ∧
    (∀ s, 0 ≤ s < r → ¬ free_run (vaddr_bitmap v) s n) ∧
    guarded b ∧ nbits b = nbits (vaddr_bitmap v) ∧
    ∀ j, 0 ≤ j → bit b j = if bool_decide (r ≤ j < r + n) then true else bit (vaddr_bitmap v) j.
Proof.
  intros [Hg Ha Hr Hfree] Hn Hst Hex. unfold vaddr_get. set (v := vspace k pf) in *. cbv zeta.
  destruct (scan_fit _ n Hg) as (r & -> & Hr0 & Hrn & Hrun & Hmin); [lia|done|]. ocbn.
  destruct (Z.eqb_spec r (-1)); [lia|].
  pose proof (gd_past _ Hg). pose proof (wf_int _ (gd_wf _ Hg)).
  destruct (set_bits_spec (vaddr_bitmap v) r (Z.to_nat n) 1)
    as (b & -> & Hwf & Hl & Hlen & Hbit); [apply Hg|lia|unfold nbits in *; lia|lia|by right|].
  ocbn. rewrite Z2Nat.id in Hbit by lia. change (truth 1) with true in Hbit.
  assert (nbits b = nbits (vaddr_bitmap v)) as Hnb by (unfold nbits; by rewrite Hl).
  unfold PG_SIZE in *. rewrite u32_small by lia.
  exists r, b. split.
  { destruct pf; [done|]. specialize (Hst eq_refl r Hr0 Hrn Hrun). fold v in Hst.
    change (3221225472 - 4096) with 3221221376.
    destruct (Z.ltb_spec (vaddr_start v + r * 4096) 3221221376); [done|unfold PG_SIZE in *; lia]. }
  split_and!; try done. split; [done|by rewrite Hl, Hlen|]. rewrite Hbit, Hnb by lia.
  rewrite bool_decide_eq_false_2 by lia. apply Hg.
Qed.

(** ** Allocating pages *)

(** Frames for [n] pages and for the tables they may need. *)
Definition resources k pf (n : nat) : Prop :=
  match pf with
  | PF_KERNEL => (2 * n ≤ free_count (kernel_pool k))%nat
  | PF_USER => (n ≤ free_count (user_pool k) ∧ n ≤ free_count (kernel_pool k))%nat
  end.

(** The result of mapping the [n] pages from [va]. *)
Record mapped_run k pf k' va (n : nat) : Prop := MappedRun {
  mr_inv : mm_inv k';
  mr_dir : dir k' = dir k;
  mr_new i : 0 ≤ i < Z.of_nat n → ∃ f,
    maps (phys k') (dir k) (va + i * PG_SIZE) f ∧ free_in (pool_of k pf) f;
  mr_other va' f : managed va' → ¬ (va / 4096 ≤ va' / 4096 < va / 4096 + Z.of_nat n) →
    maps (phys k') (dir k) va' f ↔ maps (phys k) (dir k) va' f;
  mr_kspace : kernel_vaddr k' = kernel_vaddr k;
  mr_uspace : userprog_vaddr k' = userprog_vaddr k;
  mr_pool pf' : pool_le (pool_of k' pf') (pool_of k pf');
  mr_data a : data_byte k a → phys k' !! a = phys k !! a;
  mr_upool : pf = PF_KERNEL → user_pool k' = user_pool k
}.

Definition malloc_body (vaddr_start : Z) pf : Z * Z * mm → outcome (Z * Z * mm + Z * mm) :=
  λ '(cnt, vaddr, k),
      if 0 <? cnt then
        '(page_phyaddr, p) ← palloc (pool_of k pf);
        let k := set_pool k pf p in
        if page_phyaddr =? NULL then Ok (inr (NULL, k))
        else
          k ← page_table_add k vaddr page_phyaddr;
          Ok (inl (cnt - 1, u32 (vaddr + PG_SIZE), k))
      else Ok (inr (vaddr_start, k)).

(** One page. *)
Lemma malloc_body_step k pf va n q vs :
  mm_inv k → managed va → va mod 4096 = 0 → va + PG_SIZE ≤ 4290772992 →
  (∀ f, ¬ maps (phys k) (dir k) va f) → resources k pf (S q) →
  ∃ k', malloc_body vs pf (Z.of_nat (S n), va, k) = Ok (inl (Z.of_nat n, va + PG_SIZE, k')) ∧
    mapped_run k pf k' va 1 ∧ resources k' pf q.
Proof.
  intros Hk Hva Hal Hend Hno Hres. unfold malloc_body, PG_SIZE in *.
  destruct (Z.ltb_spec 0 (Z.of_nat (S n))); [|lia].
  destruct (palloc_spec k pf Hk) as (f & p' & -> & Hk1 & Hf & Hfree & Hff & Hcnt & Hle).
  { destruct pf; cbn in *; lia. }
  ocbn. destruct (Z.eqb_spec f NULL) as [E|_].
  { destruct Hf as ([? _] & _). unfold NULL in E. lia. }
  destruct (page_table_add_spec (set_pool k pf p') va f) as (k2 & -> & [Hinv Hd Hnew Hoth Hu Hkc Hks Hus Hpl Hdat]).
  { done. } { done. } { by destruct pf. } { done. } { destruct pf; cbn in *; lia. }
  ocbn. rewrite u32_small by (unfold managed in *; lia).
  exists k2. split; [by replace (Z.of_nat (S n) - 1) with (Z.of_nat n) by lia|].
  assert (phys (set_pool k pf p') = phys k ∧ dir (set_pool k pf p') = dir k) as [Ep Ed]
    by (by destruct pf).
  rewrite Ed in *. rewrite Ep in *. split.
  - split; try done.
    + intros i Hi. exists f. replace (va + i * PG_SIZE) with va by (unfold PG_SIZE; lia).
      done.
    + intros va' f' Hv' Hne. apply Hoth; [done|lia].
    + by destruct pf.
    + by destruct pf.
    + intros pf'. etransitivity; [apply Hpl|]. by destruct pf, pf'.
    + intros a Ha. rewrite Hdat; [done|]. by destruct pf.
    + intros Hpf. by rewrite Hu, Hpf.
  - destruct pf; cbn in *.
    + lia.
    + rewrite Hu. lia.
Qed.

(** Mapping more pages behind the first. *)
Lemma mapped_run_cons k pf k1 k2 va n :
  mapped_run k pf k1 va 1 → mapped_run k1 pf k2 (va + PG_SIZE) n → va mod 4096 = 0 →
  managed va → va + PG_SIZE * Z.of_nat (S n) ≤ 4290772992 → (∀ f, ¬ maps (phys k) (dir k) va f) →
  mapped_run k pf k2 va (S n).
Proof.
  intros [I1 D1 N1 O1 K1 U1 F1 A1 P1] [I2 D2 N2 O2 K2 U2 F2 A2 P2] Ha Hm Hend Hno. unfold PG_SIZE, managed in *.
  split; try congruence; try done.
  - intros i Hi. destruct (decide (i = 0)) as [->|Hi0].
    + destruct (N1 0) as (f & Hf & Hff); [lia|]. exists f. split; [|done].
      rewrite <- D1. apply O2; [unfold managed; lia|zdlia|]. by rewrite D1.
    + destruct (N2 (i - 1)) as (f & Hf & Hff); [lia|]. exists f. split; [|by apply (F1 pf)].
      replace (va + i * PG_SIZE) with (va + 4096 + (i - 1) * 4096) by (unfold PG_SIZE; lia).
      by rewrite <- D1.
  - intros va' f Hv' Hne. unfold managed in Hv'. etransitivity; [|apply O1; [done|lia]].
    rewrite <- D1. apply O2; [done|]. zdlia.
  - intros pf'. by rewrite F2.
  - intros a Hd. rewrite <- A1 by done. apply A2. destruct Hd as (va' & f' & Hv' & Hm' & Hr).
    exists va', f'. split; [done|]. rewrite D1. split; [|done]. apply O1; [done| |done].
    intros Hp. apply (Hno f'). eapply maps_page; [|done]. lia.
  - intros Hpf. by rewrite P2, P1.
Qed.

Lemma mapped_run_nil k pf va : mm_inv k → mapped_run k pf k va 0.
Proof. intros Hk. split; try done. intros; lia. Qed.

Lemma malloc_loop pf vs q n : ∀ k va fuel,
  mm_inv k → managed va → va mod 4096 = 0 → va + PG_SIZE * Z.of_nat n ≤ 4290772992 →
  (∀ i f, 0 ≤ i < Z.of_nat n → ¬ maps (phys k) (dir k) (va + i * PG_SIZE) f) →
  resources k pf (n + q) → (n < fuel)%nat →
  ∃ k', loop fuel (malloc_body vs pf) (Z.of_nat n, va, k) = Ok (vs, k') ∧ mapped_run k pf k' va n ∧ resources k' pf q.
Proof.
  induction n as [|n IH]; intros k va fuel Hk Hva Hal Hend Hno Hres Hf.
  - destruct fuel as [|fuel]; [lia|]. exists k. split; [done|]. split; [by apply mapped_run_nil|done].
  - destruct fuel as [|fuel]; [lia|].
    destruct (malloc_body_step k pf va n (n + q) vs) as (k1 & Hb & H1 & Hres1); try done.
    { unfold PG_SIZE in *. lia. }
    { intros f. replace va with (va + 0 * PG_SIZE) by lia. apply Hno. lia. }
    rewrite (loop_step _ _ _ _ Hb).
    assert (∀ f, ¬ maps (phys k) (dir k) va f) as Hno0.
    { intros f. rewrite <- (Z.add_0_r va). apply (Hno 0). lia. }
    destruct (decide (n = 0%nat)) as [->|Hn0].
    { destruct fuel as [|fuel]; [lia|]. exists k1. split; [done|]. split; [|done].
      eapply mapped_run_cons; [done|by apply mapped_run_nil, H1|done|done|done|done]. }
    destruct (IH k1 (va + PG_SIZE) fuel) as (k2 & Heq & H2 & Hres2); try done; try lia.
    + apply H1.
    + unfold managed, PG_SIZE in *. lia.
    + unfold PG_SIZE. zdlia.
    + intros i f Hi Hm. unfold PG_SIZE in *. rewrite (mr_dir _ _ _ _ _ H1) in Hm.
      apply (mr_other _ _ _ _ _ H1) in Hm.
      * apply (Hno (i + 1) f); [lia|]. by replace (va + (i + 1) * 4096) with (va + 4096 + i * 4096) by lia.
      * unfold managed in *. lia.
      * zdlia.
    + exists k2. split; [done|]. split; [by eapply mapped_run_cons|done].
Qed.

Lemma resources_space k pf v n : resources (set_vspace k pf v) pf n ↔ resources k pf n.
Proof. by destruct pf. Qed.

Lemma mm_inv_space k pf v : mm_inv k → mm_inv (set_vspace k pf v).
Proof. intros []. destruct pf; by split. Qed.

(** [malloc_page] when there are addresses and frames: it returns the first run
    of free pages, each mapped to a frame that was free; [q] more pages can be
    given afterwards if there were frames for them. *)
Lemma malloc_page_more k pf n q :
  mm_inv k → space_inv k pf → 1 ≤ n < 3840 → below_stack k pf n →
  (∃ s, 0 ≤ s ∧ s + n ≤ nbits (vaddr_bitmap (vspace k pf)) ∧
     free_run (vaddr_bitmap (vspace k pf)) s n) →
  resources k pf (Z.to_nat n + q) →
  ∃ r k', let v := vspace k pf in let va := vaddr_start v + r * PG_SIZE in
    malloc_page k pf n = Ok (va, k') ∧ resources k' pf q ∧
    0 ≤ r ∧ r + n ≤ nbits (vaddr_bitmap v) ∧ free_run (vaddr_bitmap v) r n ∧
    (∀ s, 0 ≤ s < r → ¬ free_run (vaddr_bitmap v) s n) ∧
    space_inv k' pf ∧ mapped_run (set_vspace k pf (vspace k' pf)) pf k' va (Z.to_nat n) ∧
    vaddr_start (vspace k' pf) = vaddr_start v ∧
    nbits (vaddr_bitmap (vspace k' pf)) = nbits (vaddr_bitmap v) ∧
    (∀ j, 0 ≤ j → bit (vaddr_bitmap (vspace k' pf)) j =
       if bool_decide (r ≤ j < r + n) then true else bit (vaddr_bitmap v) j).
Proof.
  intros Hk Hsp Hn Hst Hex Hres. unfold malloc_page.
  assert ((0 <? n) && (n <? 3840) = true) as -> by lia. ocbn.
  destruct (vaddr_get_spec k pf n Hsp Hn Hst Hex)
    as (r & b & Heq & Hr & Hrn & Hrun & Hmin & Hg & Hnb & Hbit).
  rewrite Heq. ocbn. pose proof Hsp as [_ Hal Hrng Hfree].
  set (v := vspace k pf) in *. set (va := vaddr_start v + r * PG_SIZE) in *.
  assert (va mod 4096 = 0) as Hva by (unfold va, PG_SIZE in *; zdlia).
  assert (managed va ∧ va + PG_SIZE * n ≤ 4290772992) as [Hm Hend].
  { unfold managed, va, PG_SIZE in *. lia. }
  destruct (Z.eqb_spec va NULL) as [E|_]; [unfold NULL, managed in *; lia|].
  set (k1 := set_vspace k pf (VirtualAddr b (vaddr_start v))).
  assert (phys k1 = phys k ∧ dir k1 = dir k) as [Ep Ed] by (by destruct pf).
  destruct (malloc_loop pf va q (Z.to_nat n) k1 va (S (Z.to_nat n))) as (k' & Hl & Hmr & Hres'); try lia; try done.
  - by apply mm_inv_space.
  - intros i f Hi. rewrite Ep, Ed.
    replace (va + i * PG_SIZE) with (vaddr_start v + (r + i) * PG_SIZE) by (unfold va; lia).
    apply Hfree; [lia|]. apply Hrun. lia.
  - by apply resources_space.
  - rewrite Z2Nat.id in Hl by lia. unfold malloc_body in Hl. rewrite Hl.
    exists r, k'. assert (vspace k' pf = VirtualAddr b (vaddr_start v)) as Ev.
    { destruct Hmr. by destruct pf. }
    rewrite Ev. split; [done|]. split_and!; try done.
    split; rewrite ?Ev; cbn [vaddr_bitmap vaddr_start]; rewrite ?Hnb; try done.
    intros i f Hi. rewrite Hbit by lia. gdecide as E; [done|]. intros Hb Hmp.
    rewrite (mr_dir _ _ _ _ _ Hmr) in Hmp. apply (mr_other _ _ _ _ _ Hmr) in Hmp.
    + rewrite Ep, Ed in Hmp. by eapply Hfree.
    + unfold managed, PG_SIZE in *. lia.
    + rewrite Z2Nat.id by lia. unfold va, PG_SIZE in *. zdlia.
Qed.

Lemma malloc_page_spec k pf n :
  mm_inv k → space_inv k pf → 1 ≤ n < 3840 → below_stack k pf n →
  (∃ s, 0 ≤ s ∧ s + n ≤ nbits (vaddr_bitmap (vspace k pf)) ∧
     free_run (vaddr_bitmap (vspace k pf)) s n) →
  resources k pf (Z.to_nat n) →
  ∃ r k', let v := vspace k pf in let va := vaddr_start v + r * PG_SIZE in
    malloc_page k pf n = Ok (va, k') ∧
    0 ≤ r ∧ r + n ≤ nbits (vaddr_bitmap v) ∧ free_run (vaddr_bitmap v) r n ∧
    (∀ s, 0 ≤ s < r → ¬ free_run (vaddr_bitmap v) s n) ∧
    space_inv k' pf ∧ mapped_run (set_vspace k pf (vspace k' pf)) pf k' va (Z.to_nat n) ∧
    vaddr_start (vspace k' pf) = vaddr_start v ∧
    nbits (vaddr_bitmap (vspace k' pf)) = nbits (vaddr_bitmap v) ∧
    (∀ j, 0 ≤ j → bit (vaddr_bitmap (vspace k' pf)) j =
       if bool_decide (r ≤ j < r + n) then true else bit (vaddr_bitmap v) j).
Proof.
  intros Hk Hsp Hn Hst Hex Hres.
  destruct (malloc_page_more k pf n 0 Hk Hsp Hn Hst Hex) as (r & k' & Heq & _ & Hrest); [by rewrite Nat.add_0_r|].
  by exists r, k'.
Qed.

(** ** Writing to the pages *)

(** A change of the memory in frame [f], which holds no page table. *)
Section data_write.
Variables (k : mm) (f : Z) (m' : mem).
Hypothesis Hk : mm_inv k.
Hypothesis Hal : f mod 4096 = 0.
Hypothesis Hnt : ¬ is_table (phys k) (dir k) f.
Hypothesis Hwf : wf_mem m'.
Hypothesis Hsame : ∀ a, ¬ (f ≤ a < f + 4096) → m' !! a = phys k !! a.
Hypothesis Hvalid : ∀ a, is_Some (phys k !! a) → is_Some (m' !! a).

Lemma data_write_load t a : is_table (phys k) (dir k) t → t mod 4096 = 0 →
  t ≤ a → a + 4 ≤ t + 4096 → load32 m' a = load32 (phys k) a.
Proof using Hal Hnt Hsame.
  intros Ht Ha H1 H2. apply load32_lookup_ext. intros x Hx. apply Hsame.
  destruct (frames_apart f t Hal Ha); [intros ->; done|lia|lia].
Qed.

Lemma data_write_pde i : 0 ≤ i < 1024 → load32 m' (dir k + 4 * i) = load32 (phys k) (dir k + 4 * i).
Proof using Hk Hal Hnt Hsame.
  intros Hi. apply (data_write_load (dir k)); [by left|apply (pt_dir _ _ (mi_pt _ Hk))|lia|lia].
Qed.

Lemma data_write_maps va f' : managed va → maps m' (dir k) va f' ↔ maps (phys k) (dir k) va f'.
Proof using Hk Hal Hnt Hsame.
  intros Hv. pose proof (managed_range _ Hv) as [_ Hr]. pose proof (va_bounds _ Hr) as [Hi _].
  pose proof (managed_idx _ Hv).
  assert (∀ t, table_of m' (dir k) va t ↔ table_of (phys k) (dir k) va t) as Htt.
  { intros t. unfold table_of. by rewrite data_write_pde. }
  assert (∀ t, table_of (phys k) (dir k) va t → load32 m' (slot t va) = load32 (phys k) (slot t va)) as Hl.
  { intros t Ht. destruct (slot_in t va Hr).
    destruct (table_base _ _ _ _ (mi_pt _ Hk) Ht) as [_ Ha].
    apply (data_write_load t); [|done|done|done]. right.
    destruct Ht as (e & He & Hp & Hb). exists (va / 2 ^ 22), e. split; [lia|done]. }
  split; intros (t & pte & Ht & Hl' & ?); exists t, pte; rewrite ?Htt in *; (split; [done|]);
    rewrite Hl in * by done; done.
Qed.

Lemma data_write_is_table f' : is_table m' (dir k) f' ↔ is_table (phys k) (dir k) f'.
Proof using Hk Hal Hnt Hsame.
  unfold is_table. split; (intros [?|(i & e & Hi & He & ?)]; [by left|right]); exists i, e;
    (split; [done|]); revert He; rewrite data_write_pde by lia; done.
Qed.

Lemma data_write_inv : mm_inv (set_phys k m').
Proof.
  pose proof Hk as [[Hm Hd Hdv (e & He & Hp & Hb) Htab] Hkp Hup Hap Ht Hinj Hmap Hsh].
  assert (∀ a n, valid (phys k) a n → valid m' a n) as Hval.
  { intros a n Hv x Hx. by apply Hvalid, Hv. }
  split; cbn [phys dir kernel_pool user_pool set_phys].
  - split; try done; [by apply Hval| |].
    + exists e. by rewrite data_write_pde by lia.
    + intros i e' Hi. rewrite data_write_pde by lia. intros He' Hp'.
      destruct (Htab i e' Hi He' Hp'). split; [by apply Hval|done].
  - by eapply pool_wf_mem.
  - by eapply pool_wf_mem.
  - done.
  - intros f'. rewrite data_write_is_table. apply Ht.
  - intros i j e1 e2 Hi Hj. rewrite !data_write_pde by lia. by apply Hinj.
  - intros va f' Hv. rewrite data_write_maps, data_write_is_table by done. by apply Hmap.
  - intros va va' f' Hv Hv'. rewrite !data_write_maps by done. by apply Hsh.
Qed.
End data_write.

(** Clearing a run of pages clears exactly their frames. *)
Lemma clear_pages_spec n : ∀ k va,
  mm_inv k → managed va → va mod 4096 = 0 → va + PG_SIZE * Z.of_nat n ≤ 4290772992 →
  (∀ i, 0 ≤ i < Z.of_nat n → ∃ f, maps (phys k) (dir k) (va + i * PG_SIZE) f ∧
     f mod 4096 = 0 ∧ valid (phys k) f 4096 ∧ f ≠ dir k) →
  ∃ m', clear_pages (phys k) (dir k) va n = Ok m' ∧ mm_inv (set_phys k m') ∧
    (∀ va' f, managed va' → maps m' (dir k) va' f ↔ maps (phys k) (dir k) va' f) ∧
    (∀ i f a, 0 ≤ i < Z.of_nat n → maps (phys k) (dir k) (va + i * PG_SIZE) f →
       f ≤ a < f + 4096 → m' !! a = Some 0) ∧
    (∀ a, (∀ i f, 0 ≤ i < Z.of_nat n → maps (phys k) (dir k) (va + i * PG_SIZE) f →
       ¬ (f ≤ a < f + 4096)) → m' !! a = phys k !! a).
Proof.
  induction n as [|n IH]; intros k va Hk Hva Hal Hend Hmap.
  { exists (phys k). split; [done|]. split; [by destruct k|]. split_and!; try done. intros; lia. }
  unfold PG_SIZE in *. destruct (Hmap 0) as (f & Hf & Hfa & Hfv & Hfd); [lia|].
  replace (va + 0 * 4096) with va in Hf by lia.
  cbn [clear_pages]. destruct (proj1 (maps_translate _ _ _ _) Hf) as (pa & Htr & Epa).
  rewrite Hal, Z.sub_0_r in Epa. subst pa. rewrite Htr. ocbn. unfold PG_SIZE.
  destruct (memset_bytes_spec (phys k) f 0 4096) as (m1 & -> & Hm1); [lia|done|]. ocbn.
  assert (¬ is_table (phys k) (dir k) f) as Hnt by (intros Hit; by apply Hfd, (mi_mapped _ Hk va)).
  assert (∀ a, ¬ (f ≤ a < f + 4096) → m1 !! a = phys k !! a) as Hsame.
  { intros a Ha. by rewrite Hm1, bool_decide_eq_false_2. }
  assert (mm_inv (set_phys k m1)) as Hk1.
  { apply (data_write_inv k f); try done.
    - intros a b. rewrite Hm1. gdecide; [intros [= <-]; unfold u8; by vm_compute|].
      apply (pt_mem _ _ (mi_pt _ Hk)).
    - intros a Ha. rewrite Hm1. gdecide; [by eexists|done]. }
  assert (∀ va' f', managed va' → maps m1 (dir k) va' f' ↔ maps (phys k) (dir k) va' f') as Hmp1.
  { intros va' f'. by apply (data_write_maps k f). }
  destruct (decide (n = 0%nat)) as [->|Hn0].
  { exists m1. split; [done|]. split; [done|]. split; [done|]. split.
    - intros i f' a Hi Hf' Ha. replace i with 0 in Hf' by lia. rewrite Z.add_0_r in Hf'.
      assert (f' = f) as -> by (by eapply maps_det). by rewrite Hm1, bool_decide_eq_true_2.
    - intros a Ha. apply Hsame. apply (Ha 0 f); [lia|]. by rewrite Z.add_0_r. }
  rewrite u32_small by (unfold managed in *; lia).
  destruct (IH (set_phys k m1) (va + 4096)) as (m' & Heq & Hk' & Hmp & Hz & Hs); try done.
  { unfold managed in *. lia. } { zdlia. } { lia. }
  { intros i Hi. destruct (Hmap (i + 1)) as (f' & Hf' & ? & Hv' & ?); [lia|]. exists f'.
    replace (va + 4096 + i * 4096) with (va + (i + 1) * 4096) by lia.
    split; [apply Hmp1; [unfold managed in *; lia|done]|]. split; [done|].
    split; [|done]. intros a Ha. cbn. rewrite Hm1. gdecide; [by eexists|]. by apply Hv'. }
  cbn [phys dir set_phys] in *. exists m'. split; [done|]. split; [done|]. split; [|split].
  - intros va' f' Hv'. rewrite Hmp, Hmp1 by done. done.
  - intros i f' a Hi Hf' Ha. destruct (decide (i = 0)) as [->|Hi0].
    + rewrite Z.add_0_r in Hf'. assert (f' = f) as -> by (by eapply maps_det).
      destruct (decide (m' !! a = m1 !! a)) as [->|Hne]; [by rewrite Hm1, bool_decide_eq_true_2|].
      exfalso. apply Hne, Hs. intros i' f'' Hi' Hf'' Ha'.
      apply Hmp1 in Hf''; [|unfold managed in *; lia].
      assert (f'' = f) as ->.
      { destruct (decide (f'' = f)); [done|]. destruct (Hmap (i' + 1)) as (f3 & Hf3 & Ha3 & _); [lia|].
        replace (va + (i' + 1) * 4096) with (va + 4096 + i' * 4096) in Hf3 by lia.
        assert (f3 = f'') as -> by (by eapply maps_det).
        destruct (frames_apart f'' f Ha3 Hfa); [done|lia|lia]. }
      assert (va / 4096 = (va + 4096 + i' * 4096) / 4096).
      { eapply (mi_shared _ Hk); [done| |done|done]. unfold managed in *. lia. }
      zdlia.
    + apply (Hz (i - 1) f'); [lia| |done].
      replace (va + 4096 + (i - 1) * 4096) with (va + i * 4096) by lia.
      apply Hmp1; [unfold managed in *; lia|done].
  - intros a Ha. rewrite Hs.
    + apply Hsame. apply (Ha 0 f); [lia|]. by rewrite Z.add_0_r.
    + intros i f' Hi Hf'. apply (Ha (i + 1) f'); [lia|].
      replace (va + (i + 1) * 4096) with (va + 4096 + i * 4096) by lia.
      apply Hmp1; [unfold managed in *; lia|done].
Qed.

(** ** Giving pages back *)

Definition in_pool (p : pool) f : Prop :=
  ∃ i, 0 ≤ i < nbits (pool_bitmap p) ∧ f = phy_addr_start p + i * PG_SIZE.

(** A frame that may hold a page: not the directory. *)
Definition page_frame k pf f : Prop := in_pool (pool_of k pf) f ∧ f ≠ dir k.

Lemma in_pool_range m p f : pool_wf m p → in_pool p f →
  phy_addr_start p ≤ f < phy_addr_start p + nbits (pool_bitmap p) * PG_SIZE ∧
  0 < f < 2 ^ 32 ∧ f mod 4096 = 0 ∧ valid m f 4096.
Proof.
  intros [_ Ha Hr Hv] (i & Hi & ->). unfold PG_SIZE in *. split_and!; try lia; [zdlia|by apply Hv].
Qed.

Lemma free_in_in_pool p f : free_in p f → in_pool p f.
Proof. intros (i & Hi & -> & _). by exists i. Qed.

(** [pfree] makes exactly the frame free, in the pool it belongs to. *)
Lemma pfree_spec k pf f :
  mm_inv k → in_pool (pool_of k pf) f →
  ∃ p', pfree k f = Ok (set_pool k pf p') ∧ pool_wf (phys k) p' ∧
    phy_addr_start p' = phy_addr_start (pool_of k pf) ∧
    nbits (pool_bitmap p') = nbits (pool_bitmap (pool_of k pf)) ∧
    (∀ f', free_in p' f' ↔ free_in (pool_of k pf) f' ∨ f' = f).
Proof.
  intros Hk Hin. pose proof (pool_of_wf k pf Hk) as Hwf.
  destruct (in_pool_range _ _ _ Hwf Hin) as (Hr & _). unfold pfree.
  assert ((if phy_addr_start (user_pool k) <=? f then PF_USER else PF_KERNEL) = pf) as ->.
  { pose proof (mi_apart _ Hk). destruct pf; cbn in Hr;
      destruct (Z.leb_spec (phy_addr_start (user_pool k)) f); done || lia. }
  destruct Hin as (i & Hi & ->). set (p := pool_of k pf) in *.
  assert (u32 (phy_addr_start p + i * PG_SIZE - phy_addr_start p) / PG_SIZE = i) as ->.
  { destruct (pw_range _ _ Hwf). unfold PG_SIZE in *. change (2 ^ 32) with 4294967296 in *.
    rewrite u32_small by lia. zdlia. }
  destruct (bitmap_set_spec (pool_bitmap p) i 0) as (b & -> & Hb & Hl & Hlen & Hbit).
  { apply Hwf. } { pose proof (wf_len _ (pw_bitmap _ _ Hwf)). unfold nbits in *. lia. } { by left. }
  ocbn. change (truth 0) with false in Hbit.
  assert (nbits b = nbits (pool_bitmap p)) as Hn by (unfold nbits; by rewrite Hl).
  exists (with_bitmap p b). split; [done|]. split_and!; try done.
  - destruct Hwf. split; cbn; rewrite ?Hn; done.
  - intros f'. split.
    + intros (j & Hj & -> & Hf). cbn in Hj, Hf. rewrite Hn in Hj. rewrite Hbit in Hf by lia.
      revert Hf. gdecide as E; [subst; by right|]. intros Hf. left. by exists j.
    + intros [(j & Hj & -> & Hf)| ->]; [exists j|exists i]; cbn; rewrite Hn, Hbit by lia;
        by gdecide.
Qed.

(** Removing the entry of a page touches neither the directory nor what memory there is. *)
Lemma pte_removed k va t m :
  mm_inv k → managed va → table_of (phys k) (dir k) va t → page_table_pte_remove (phys k) (dir k) va = Ok m →
  (∀ a, m !! a = phys k !! a ∨ slot t va ≤ a < slot t va + 4) →
  (∀ i e, 0 ≤ i < 1023 → load32 m (dir k + 4 * i) = Ok e ↔ load32 (phys k) (dir k + 4 * i) = Ok e) ∧
  (∀ f, is_table m (dir k) f ↔ is_table (phys k) (dir k) f) ∧ (∀ a n, valid (phys k) a n → valid m a n).
Proof.
  intros Hk Hva Ht Hrm Hbytes. pose proof (managed_range _ Hva) as [Hr Hr2].
  assert (∀ i e, 0 ≤ i < 1023 → load32 m (dir k + 4 * i) = Ok e ↔ load32 (phys k) (dir k + 4 * i) = Ok e) as Hpde.
  { intros i e Hi. rewrite (load32_lookup_ext (phys k) m); [done|]. intros a Ha.
    destruct (Hbytes a) as [?|Hsl]; [done|]. exfalso.
    destruct (table_base _ _ _ _ (mi_pt _ Hk) Ht) as [_ Hta]. destruct (slot_in t va Hr2).
    destruct (table_valid _ _ _ _ (mi_pt _ Hk) Hr Ht) as [_ Htd].
    destruct (frames_apart t (dir k) Hta) as [?|?]; [apply (pt_dir _ _ (mi_pt _ Hk))|done|lia|lia]. }
  split; [done|]. split.
  - intros f'. unfold is_table. split; (intros [?|(i & e & Hi & He & ?)]; [by left|right]); exists i, e;
      (split; [done|]); (split; [by apply Hpde|done]).
  - intros a0 n Hv a Ha. specialize (Hv a Ha). destruct (Hbytes a) as [->|Hsl]; [done|].
    unfold page_table_pte_remove in Hrm. apply bind_ok in Hrm as (e & _ & Hrm).
    unfold vstore32 in Hrm. rewrite (translate_pte_ptr _ _ _ t) in Hrm by (apply Hk || done).
    cbn in Hrm. rewrite store32_valid in Hrm by (by apply valid_entry). injection Hrm as <-.
    apply (put32_valid (phys k) (slot t va) _ a 1); [|lia]. intros x Hx. by replace x with a by lia.
Qed.

(** One round of [mfree_page]: the page is not mapped any more, its frame is free. *)
Lemma unmap_page k pf va f :
  mm_inv k → managed va → va mod 4096 = 0 → maps (phys k) (dir k) va f → page_frame k pf f →
  addr_v2p (phys k) (dir k) va = Ok f ∧
  ∃ k1 m, pfree k f = Ok k1 ∧ phys k1 = phys k ∧ dir k1 = dir k ∧
    page_table_pte_remove (phys k) (dir k) va = Ok m ∧
    let k2 := set_phys k1 m in
    mm_inv k2 ∧ (∀ f', ¬ maps m (dir k) va f') ∧
    (∀ va' f', managed va' → va' / 4096 ≠ va / 4096 →
       maps m (dir k) va' f' ↔ maps (phys k) (dir k) va' f') ∧
    (∀ pf' f', in_pool (pool_of k2 pf') f' ↔ in_pool (pool_of k pf') f') ∧
    (∀ f', free_frame k2 f' ↔ free_frame k f' ∨ f' = f) ∧
    (∀ f', free_in (pool_of k2 pf) f' ↔ free_in (pool_of k pf) f' ∨ f' = f) ∧
    kernel_vaddr k2 = kernel_vaddr k ∧ userprog_vaddr k2 = userprog_vaddr k ∧
    (∀ pf', phy_addr_start (pool_of k2 pf') = phy_addr_start (pool_of k pf')).
Proof.
  intros Hk Hva Hal Hf [Hin Hnd]. pose proof (managed_range _ Hva) as [Hr Hr2].
  destruct (proj1 (maps_translate _ _ _ _) Hf) as (pa & Htr & Epa).
  rewrite Hal, Z.sub_0_r in Epa. subst pa.
  split; [apply addr_v2p_spec; [apply Hk|done|done]|].
  destruct (pfree_spec k pf f Hk Hin) as (p' & Heq & Hwf' & Hst & Hnb & Hfi).
  destruct Hf as (t & pte & Ht & Hl & Hpp & Hb).
  assert (maps (phys k) (dir k) va f) as Hf by (by exists t, pte).
  destruct (page_table_pte_remove_spec (phys k) (dir k) va t) as (m & Hrm & Hpt & Hbytes & Htt & Hfault & Hoth);
    [apply Hk|done|done|].
  assert (∀ va' f', managed va' → va' / 4096 ≠ va / 4096 →
       maps m (dir k) va' f' ↔ maps (phys k) (dir k) va' f') as Hmo.
  { intros va' f' Hv' Hne. rewrite !maps_translate. rewrite Hoth; [done|by apply managed_range|].
    intros t' Ht'. by apply (slots_differ k va va' t t'). }
  assert (∀ f', ¬ maps m (dir k) va f') as Hgone.
  { intros f' Hm. apply maps_translate in Hm as (pa & Hm & _). congruence. }
  exists (set_pool k pf p'), m. split; [done|].
  assert (phys (set_pool k pf p') = phys k ∧ dir (set_pool k pf p') = dir k) as [Ep Ed] by (by destruct pf).
  split; [done|]. split; [done|]. split; [done|]. cbv zeta.
  assert (∀ f', free_frame (set_phys (set_pool k pf p') m) f' ↔ free_frame k f' ∨ f' = f) as Hff.
  { intros f'. rewrite free_frame_phys. unfold free_frame.
    destruct pf; cbn; rewrite Hfi; tauto. }
  destruct (pte_removed k va t m Hk Hva Ht Hrm Hbytes) as (Hpde & Hit & Hval).
  pose proof Hk as [_ Hkp Hup Hap Htab Hinj Hmap Hsh].
  destruct (Hmap va f Hva Hf) as [Hnf Hnt].
  split.
  { split; cbn [phys dir set_phys]; rewrite ?Ed.
    - done.
    - eapply (pool_wf_mem (phys k)); [exact Hval|]. by destruct pf.
    - eapply (pool_wf_mem (phys k)); [exact Hval|]. by destruct pf.
    - destruct pf; cbn in *; rewrite ?Hst, ?Hnb; done.
    - intros f'. rewrite Hit. intros Ht' [?| ->]%Hff; [by eapply Htab|by apply Hnd, Hnt].
    - intros i j e e' Hi Hj. rewrite !Hpde by lia. by apply Hinj.
    - intros va' f' Hv' Hm. rewrite Hit. destruct (decide (va' / 4096 = va / 4096)) as [E|E].
      + exfalso. apply (Hgone f'). by eapply maps_page.
      + apply Hmo in Hm; [|done..]. destruct (Hmap va' f' Hv' Hm) as [Hn1 Hn2]. split; [|done].
        intros [?| ->]%Hff; [done|]. apply E. by eapply Hsh.
    - intros va1 va2 f' Hv1 Hv2 H1 H2.
      destruct (decide (va1 / 4096 = va / 4096)) as [E1|E1].
      { exfalso. apply (Hgone f'). by eapply maps_page. }
      destruct (decide (va2 / 4096 = va / 4096)) as [E2|E2].
      { exfalso. apply (Hgone f'). by eapply maps_page. }
      apply Hmo in H1, H2; try done. by eapply Hsh. }
  split; [done|]. split; [done|]. split.
  { intros pf' f'. unfold in_pool. destruct pf, pf'; cbn in *; by rewrite ?Hst, ?Hnb. }
  split; [done|]. split; [by destruct pf|]. split; [by destruct pf|]. split; [by destruct pf|].
  intros pf'. by destruct pf, pf'.
Qed.

(** The result of giving back the [n] pages from [va]. *)
Record unmapped_run k k' va (n : nat) : Prop := UnmappedRun {
  ur_inv : mm_inv k';
  ur_dir : dir k' = dir k;
  ur_gone i f : 0 ≤ i < Z.of_nat n → ¬ maps (phys k') (dir k) (va + i * PG_SIZE) f;
  ur_other va' f : managed va' → ¬ (va / 4096 ≤ va' / 4096 < va / 4096 + Z.of_nat n) →
    maps (phys k') (dir k) va' f ↔ maps (phys k) (dir k) va' f;
  ur_free f : free_frame k' f ↔ free_frame k f ∨
    ∃ i, 0 ≤ i < Z.of_nat n ∧ maps (phys k) (dir k) (va + i * PG_SIZE) f;
  ur_kspace : kernel_vaddr k' = kernel_vaddr k;
  ur_uspace : userprog_vaddr k' = userprog_vaddr k;
  ur_pool pf f : in_pool (pool_of k' pf) f ↔ in_pool (pool_of k pf) f;
  ur_start pf : phy_addr_start (pool_of k' pf) = phy_addr_start (pool_of k pf)
}.

Lemma free_frames_spec pf ok n : ∀ k va,
  mm_inv k → managed va → va mod 4096 = 0 → va + PG_SIZE * Z.of_nat n ≤ 4290772992 →
  (∀ i, 0 ≤ i < Z.of_nat n → ∃ f, maps (phys k) (dir k) (va + i * PG_SIZE) f ∧
     page_frame k pf f) →
  (∀ f, in_pool (pool_of k pf) f → ok f = true) →
  ∃ k', free_frames k va n ok = Ok k' ∧ unmapped_run k k' va n.
Proof.
  induction n as [|n IH]; intros k va Hk Hva Hal Hend Hmap Hok.
  { exists k. split; [done|]. split; try done; [intros; lia|].
    intros f. split; [by left|]. intros [?|(i & ? & _)]; [done|lia]. }
  unfold PG_SIZE in *. destruct (Hmap 0) as (f & Hf & Hin); [lia|].
  replace (va + 0 * 4096) with va in Hf by lia. cbn [free_frames].
  destruct (unmap_page k pf va f Hk Hva Hal Hf Hin)
    as (-> & k1 & m & Hpf & Ep & Ed & Hrm & Hk2 & Hgone & Hoth & Hinp & Hff & _ & Hks & Hus & Hst).
  destruct (in_pool_range _ _ _ (pool_of_wf k pf Hk) (proj1 Hin)) as (_ & _ & Hfa & _).
  ocbn. unfold PG_SIZE. rewrite Hfa, (Hok f (proj1 Hin)). ocbn. rewrite Hpf. ocbn. rewrite Ep, Ed, Hrm. ocbn.
  set (k2 := set_phys k1 m) in *.
  assert (dir k2 = dir k) as Ed2 by done.
  destruct (decide (n = 0%nat)) as [->|Hn0].
  { exists k2. split; [done|]. split; try done.
    - intros i f' Hi. by replace (va + i * PG_SIZE) with va by (unfold PG_SIZE; lia).
    - intros va' f' Hv' Hne. apply Hoth; [done|lia].
    - intros f'. rewrite Hff. split; (intros [?|Hx]; [by left|right]).
      + subst f'. exists 0. split; [lia|]. by rewrite Z.add_0_r.
      + destruct Hx as (i & Hi & Hx). replace (va + i * PG_SIZE) with va in Hx by (unfold PG_SIZE; lia).
        by eapply maps_det. }
  rewrite u32_small by (unfold managed in *; lia).
  assert (∀ i f', 0 ≤ i < Z.of_nat n →
    maps m (dir k) (va + 4096 + i * 4096) f' ↔ maps (phys k) (dir k) (va + (i + 1) * 4096) f') as Hsh.
  { intros i f' Hi. replace (va + (i + 1) * 4096) with (va + 4096 + i * 4096) by lia.
    apply Hoth; [unfold managed in *; lia|zdlia]. }
  destruct (IH k2 (va + 4096)) as (k' & Heq & [I' D' G' O' F' K' U' L' S']); try done.
  { unfold managed in *; lia. } { zdlia. } { lia. }
  { intros i Hi. destruct (Hmap (i + 1)) as (f' & Hf' & Hin' & Hnd'); [lia|]. exists f'. unfold page_frame. rewrite Ed2, Hinp.
    split; [by apply Hsh|done]. }
  { intros f' Hf'. by apply Hok, Hinp. }
  unfold PG_SIZE in *. change (phys k2) with m in *. rewrite Ed2 in *.
  exists k'. split; [done|]. split; try congruence.
  - intros i f' Hi. unfold PG_SIZE. destruct (decide (i = 0)) as [->|Hi0].
    + rewrite Z.add_0_r. rewrite O'; [apply Hgone|done|zdlia].
    + replace (va + i * 4096) with (va + 4096 + (i - 1) * 4096) by lia. apply G'. lia.
  - intros va' f' Hv' Hne. rewrite O' by (done || zdlia). apply Hoth; [done|lia].
  - intros f'. rewrite F', Hff. unfold PG_SIZE. split.
    + intros [[?| ->]|(i & Hi & Hx)]; [by left|right; exists 0|right; exists (i + 1)].
      * split; [lia|by rewrite Z.add_0_r].
      * split; [lia|by apply Hsh].
    + intros [?|(i & Hi & Hx)]; [by left; left|]. destruct (decide (i = 0)) as [->|Hi0].
      * left. right. rewrite Z.add_0_r in Hx. by eapply maps_det.
      * right. exists (i - 1). split; [lia|]. apply Hsh; [lia|].
        by replace (i - 1 + 1) with i by lia.
  - intros pf' f'. by rewrite L', Hinp.
Qed.

(** [mfree_page] on pages of one pool. *)
Lemma mfree_page_spec k pf r n :
  let v := vspace k pf in let va := vaddr_start v + r * PG_SIZE in
  mm_inv k → space_inv k pf → 1056768 ≤ phy_addr_start (kernel_pool k) →
  0 ≤ r → 1 ≤ n → r + n ≤ nbits (vaddr_bitmap v) →
  (∀ i, 0 ≤ i < n → ∃ f, maps (phys k) (dir k) (va + i * PG_SIZE) f ∧ page_frame k pf f) →
  ∃ k', mfree_page k pf va n = Ok k' ∧ space_inv k' pf ∧
    unmapped_run (set_vspace k pf (vspace k' pf)) k' va (Z.to_nat n) ∧
    vaddr_start (vspace k' pf) = vaddr_start v ∧
    nbits (vaddr_bitmap (vspace k' pf)) = nbits (vaddr_bitmap v) ∧
    (∀ j, 0 ≤ j → bit (vaddr_bitmap (vspace k' pf)) j =
       if bool_decide (r ≤ j < r + n) then false else bit (vaddr_bitmap v) j).
Proof.
  intros v va Hk Hsp Hlow Hr Hn Hrn Hmap. pose proof Hsp as [Hg Hal Hrng Hfree]. fold v in Hg, Hal, Hrng, Hfree.
  assert (va mod 4096 = 0) as Hva by (unfold va, PG_SIZE in *; zdlia).
  assert (managed va ∧ va + PG_SIZE * n ≤ 4290772992) as [Hm Hend].
  { unfold managed, va, PG_SIZE in *. lia. }
  destruct (Hmap 0) as (f & Hf & Hin); [lia|]. rewrite Z.add_0_r in Hf.
  destruct (in_pool_range _ _ _ (pool_of_wf k pf Hk) (proj1 Hin)) as (Hfr & _ & Hfa & _).
  destruct (unmap_page k pf va f Hk Hm Hva Hf Hin) as (Hv2p & _).
  unfold mfree_page. change (va mod PG_SIZE) with (va mod 4096). rewrite Hva.
  destruct (Z.leb_spec 1 n); [|lia]. ocbn. rewrite Hv2p. ocbn.
  change (f mod PG_SIZE) with (f mod 4096). rewrite Hfa.
  pose proof (mi_apart _ Hk) as Hap. pose proof (pw_range _ _ (mi_kpool _ Hk)) as [? _].
  assert (0 ≤ nbits (pool_bitmap (kernel_pool k))) as Hnn.
  { pose proof (wf_len _ (pw_bitmap _ _ (mi_kpool _ Hk))). unfold nbits. lia. }
  assert (1056768 ≤ f) as Hf2 by (destruct pf; cbn in Hfr; unfold PG_SIZE in *; lia).
  destruct (Z.leb_spec 1056768 f); [|lia]. ocbn.
  set (ok := if phy_addr_start (user_pool k) <=? f then λ a, phy_addr_start (user_pool k) <=? a
             else λ a, (phy_addr_start (kernel_pool k) <=? a) && (a <? phy_addr_start (user_pool k))).
  destruct (free_frames_spec pf ok (Z.to_nat n) k va) as (k1 & Heq & Hur); try done.
  { by rewrite Z2Nat.id by lia. } { by rewrite Z2Nat.id by lia. }
  { intros f' Hf'. destruct (in_pool_range _ _ _ (pool_of_wf k pf Hk) Hf') as (Hfr' & _).
    unfold ok. destruct pf; cbn in *; destruct (Z.leb_spec (phy_addr_start (user_pool k)) f);
      lia. }
  assert ((if phy_addr_start (user_pool k) <=? f
    then free_frames k va (Z.to_nat n) (λ a, phy_addr_start (user_pool k) <=? a)
    else free_frames k va (Z.to_nat n) (λ a, (phy_addr_start (kernel_pool k) <=? a) &&
           (a <? phy_addr_start (user_pool k)))) = Ok k1) as ->.
  { unfold ok in Heq. by destruct (phy_addr_start (user_pool k) <=? f). }
  ocbn. unfold vaddr_remove. pose proof Hur as [I1 D1 G1 O1 F1 K1 U1 L1 S1].
  assert (vspace k1 pf = v) as -> by (destruct pf; unfold v; cbn; congruence).
  assert (u32 (va - vaddr_start v) / PG_SIZE = r) as ->.
  { unfold va, PG_SIZE in *. rewrite u32_small by lia. zdlia. }
  pose proof (gd_past _ Hg). pose proof (wf_int _ (gd_wf _ Hg)).
  destruct (set_bits_spec (vaddr_bitmap v) r (Z.to_nat n) 0) as (b & -> & Hwf & Hl & Hlen & Hbit);
    [apply Hg|lia|unfold nbits in *; lia|lia|by left|].
  ocbn. rewrite Z2Nat.id in Hbit by lia. change (truth 0) with false in Hbit.
  assert (nbits b = nbits (vaddr_bitmap v)) as Hnb by (unfold nbits; by rewrite Hl).
  set (v' := VirtualAddr b (vaddr_start v)). set (k' := set_vspace k1 pf v').
  exists k'. split; [done|].
  assert (vspace k' pf = v') as Ev by (by destruct pf). rewrite Ev.
  assert (phys k' = phys k1 ∧ dir k' = dir k1) as [Ep Ed] by (by destruct pf).
  split.
  { split; rewrite ?Ev; cbn [vaddr_bitmap vaddr_start v']; rewrite ?Hnb; try done.
    - split; [done|by rewrite Hl, Hlen|]. rewrite Hbit, Hnb by (unfold nbits in *; lia).
      rewrite bool_decide_eq_false_2 by lia. apply Hg.
    - intros i f' Hi Hb Hmp. rewrite Ep, Ed, D1 in Hmp. rewrite Hbit in Hb by lia.
      destruct (decide (r ≤ i < r + n)) as [E|E].
      + apply (G1 (i - r) f'); [lia|]. unfold va.
        by replace (vaddr_start v + r * PG_SIZE + (i - r) * PG_SIZE)
          with (vaddr_start v + i * PG_SIZE) by lia.
      + rewrite bool_decide_eq_false_2 in Hb by done. apply (Hfree i f'); [done|done|].
        apply O1; [unfold managed, PG_SIZE in *; lia| |done].
        rewrite Z2Nat.id by lia. unfold va, PG_SIZE in *. zdlia. }
  split; [|split_and!; done]. by destruct pf; split; try done; apply mm_inv_space.
Qed.

(** ** Properties *)


(** The pages of a run that was just mapped, ready to be cleared. *)
Lemma mapped_run_frames k pf k' va n i :
  mapped_run k pf k' va n → mm_inv k → 0 ≤ i < Z.of_nat n →
  ∃ f, maps (phys k') (dir k') (va + i * PG_SIZE) f ∧ f mod 4096 = 0 ∧ valid (phys k') f 4096 ∧
    free_in (pool_of k pf) f.
Proof.
  intros Hmr Hk Hi. destruct (mr_new _ _ _ _ _ Hmr i Hi) as (f & Hf & Hfr). exists f.
  rewrite (mr_dir _ _ _ _ _ Hmr). split; [done|].
  destruct (free_in_range _ _ _ (pool_of_wf k pf Hk) Hfr) as (_ & _ & Ha & _). split; [done|]. split; [|done].
  destruct Hfr as (b & Hb & -> & _). destruct (mr_pool _ _ _ _ _ Hmr pf) as [<- Hn _].
  apply (pw_valid _ _ (pool_of_wf k' pf (mr_inv _ _ _ _ _ Hmr))). by rewrite Hn.
Qed.

(** What [get_kernel_pages] does: the [n] pages of the first free run are at [va]. *)
Record kernel_pages k k' (va r n : Z) : Prop := {
  kp_inv : mm_inv k';
  kp_dir : dir k' = dir k;
  kp_va : va = vaddr_start (kernel_vaddr k) + r * PG_SIZE ∧ va mod 4096 = 0;
  kp_run : 0 ≤ r ∧ r + n ≤ nbits (vaddr_bitmap (kernel_vaddr k)) ∧ free_run (vaddr_bitmap (kernel_vaddr k)) r n;
  kp_first s : 0 ≤ s < r → ¬ free_run (vaddr_bitmap (kernel_vaddr k)) s n;
  kp_zero a : va ≤ a < va + n * PG_SIZE → ∃ pa, translate (phys k') (dir k') a = Ok pa ∧ phys k' !! pa = Some 0;
  kp_frames i f : 0 ≤ i < n → maps (phys k') (dir k') (va + i * PG_SIZE) f → free_in (kernel_pool k) f;
  kp_data a : data_byte k a → phys k' !! a = phys k !! a;
  kp_space : space_inv k' PF_KERNEL;
  kp_start : vaddr_start (kernel_vaddr k') = vaddr_start (kernel_vaddr k);
  kp_nbits : nbits (vaddr_bitmap (kernel_vaddr k')) = nbits (vaddr_bitmap (kernel_vaddr k));
  kp_bits j : 0 ≤ j → bit (vaddr_bitmap (kernel_vaddr k')) j =
    if bool_decide (r ≤ j < r + n) then true else bit (vaddr_bitmap (kernel_vaddr k)) j;
  kp_kept va' f : managed va' → maps (phys k) (dir k) va' f → maps (phys k') (dir k') va' f;
  kp_user : user_pool k' = user_pool k
}.

Lemma get_kernel_pages_spec k n q :
  mm_inv k → space_inv k PF_KERNEL → 1 ≤ n < 3840 →
  (∃ s, 0 ≤ s ∧ s + n ≤ nbits (vaddr_bitmap (kernel_vaddr k)) ∧
     free_run (vaddr_bitmap (kernel_vaddr k)) s n) →
  resources k PF_KERNEL (Z.to_nat n + q) →
  ∃ va r k', get_kernel_pages k n = Ok (va, k') ∧ kernel_pages k k' va r n ∧ resources k' PF_KERNEL q.
Proof.
  intros Hk Hsp Hn Hex Hres.
  destruct (malloc_page_more k PF_KERNEL n q Hk Hsp Hn ltac:(done) Hex Hres)
    as (r & k1 & Heq & Hres1 & Hr & Hrn & Hrun & Hmin & Hsp1 & Hmr & Hst1 & Hnb1 & Hbits1).
  cbn [vspace] in *. pose proof Hsp as [_ Hal [Hlo Hhi] _]. cbn [vspace] in *.
  set (va := vaddr_start (kernel_vaddr k) + r * PG_SIZE) in *.
  assert (va mod 4096 = 0) as Hva by (unfold va, PG_SIZE in *; zdlia).
  assert (managed va ∧ va + PG_SIZE * n ≤ 4290772992) as [Hm Hend].
  { unfold managed, va, PG_SIZE in *. lia. }
  unfold get_kernel_pages. rewrite Heq. ocbn.
  destruct (Z.eqb_spec va NULL) as [E|_]; [unfold NULL, managed in *; lia|]. unfold vmemset0.
  destruct (Z.eqb_spec va NULL) as [E|_]; [unfold NULL, managed in *; lia|]. ocbn.
  assert (∀ i, 0 ≤ i < Z.of_nat (Z.to_nat n) → ∃ f, maps (phys k1) (dir k1) (va + i * PG_SIZE) f ∧
     f mod 4096 = 0 ∧ valid (phys k1) f 4096 ∧ free_in (kernel_pool k) f) as Hfr.
  { intros i Hi. by apply (mapped_run_frames _ _ _ _ _ i Hmr); [apply mm_inv_space|]. }
  destruct (clear_pages_spec (Z.to_nat n) k1 va) as (m & -> & Hinv & Hmaps & Hz & Hs).
  { apply Hmr. } { done. } { done. } { by rewrite Z2Nat.id by lia. }
  { intros i Hi. destruct (Hfr i Hi) as (f & ? & ? & ? & Hff). exists f. rewrite (mr_dir _ _ _ _ _ Hmr) at 2.
    split_and!; try done. by apply (free_not_dir k PF_KERNEL). }
  ocbn. exists va, r, (set_phys k1 m). split; [done|]. split; [|done]. rewrite Z2Nat.id in * by lia.
  constructor; try done; [apply (mr_dir _ _ _ _ _ Hmr)|..].
  - intros a Ha. unfold PG_SIZE in *. set (i := (a - va) / 4096).
    assert (0 ≤ i < n) as Hi by (unfold i; zdlia).
    destruct (Hfr i Hi) as (f & Hf & Hfa & _). cbn [phys dir set_phys].
    assert (maps m (dir k1) (va + i * 4096) f) as Hf'.
    { apply Hmaps; [unfold managed in *; lia|done]. }
    apply (maps_page _ _ _ a) in Hf'; [|unfold i; zdlia].
    apply maps_translate in Hf' as (pa & Htr & Epa). exists pa. split; [done|].
    apply (Hz i f); [done|done|]. zdlia.
  - intros i f Hi Hf. cbn [phys dir set_phys] in Hf. apply Hmaps in Hf; [|unfold managed, PG_SIZE in *; lia].
    destruct (Hfr i Hi) as (f' & Hf' & _ & _ & Hfree). by rewrite (maps_det _ _ _ _ _ Hf Hf').
  - intros a Ha. cbn [phys set_phys]. rewrite Hs.
    + apply (mr_data _ _ _ _ _ Hmr). exact Ha.
    + intros i f Hi Hf. destruct (Hfr i Hi) as (f' & Hf' & Hfa & _ & Hfree).
      assert (f' = f) as -> by (by eapply maps_det).
      destruct (data_byte_apart k a f Hk Ha); [right; left; by left|done|lia|lia].
  - destruct Hsp1 as [G A [R1 R2] F]. constructor; try done. intros i f Hi Hb Hf. cbn [phys dir set_phys] in Hf.
    apply (F i f Hi Hb). apply Hmaps; [|done]. cbn [vspace] in *. unfold managed, PG_SIZE in *. cbn [vspace kernel_vaddr set_phys] in Hi |- *. lia.
  - intros va' f Hv' Hf. cbn [phys dir set_phys]. apply Hmaps; [done|]. rewrite (mr_dir _ _ _ _ _ Hmr).
    apply (mr_other _ _ _ _ _ Hmr); [done| |done]. rewrite Z2Nat.id by lia. intros Hin.
    apply (sp_free _ _ Hsp (va' / 4096 - va / 4096 + r) f); cbn [vspace]; [lia|apply Hrun; lia|].
    apply (maps_page _ _ _ _ _) with (2 := Hf). unfold va, PG_SIZE in *. zdlia.
  - cbn [user_pool set_phys]. by rewrite (mr_upool _ _ _ _ _ Hmr).
Qed.

(** [get_kernel_pages] returns [n] pages in the kernel's heap every byte of
    which reads as zero through the page tables, and writes to no page in use. *)
Theorem get_kernel_pages_zeroed k n :
  mm_inv k → space_inv k PF_KERNEL → 1 ≤ n < 3840 →
  (∃ s, 0 ≤ s ∧ s + n ≤ nbits (vaddr_bitmap (kernel_vaddr k)) ∧
     free_run (vaddr_bitmap (kernel_vaddr k)) s n) →
  resources k PF_KERNEL (Z.to_nat n) →
  ∃ va k', get_kernel_pages k n = Ok (va, k') ∧ mm_inv k' ∧ va mod 4096 = 0 ∧
    vaddr_start (kernel_vaddr k) ≤ va ∧
    va + n * PG_SIZE ≤ vaddr_start (kernel_vaddr k) + nbits (vaddr_bitmap (kernel_vaddr k)) * PG_SIZE ∧
    (∀ a, va ≤ a < va + n * PG_SIZE → ∃ pa, translate (phys k') (dir k') a = Ok pa ∧ phys k' !! pa = Some 0) ∧
    (∀ a, data_byte k a → phys k' !! a = phys k !! a).
Proof.
  intros Hk Hsp Hn Hex Hres.
  destruct (get_kernel_pages_spec k n 0 Hk Hsp Hn Hex) as (va & r & k' & Heq & [I _ [E A] [R1 [R2 _]] _ Z _ D _ _ _ _ _ _] & _);
    [by rewrite Nat.add_0_r|].
  exists va, k'. unfold PG_SIZE in *. split_and!; try done; lia.
Qed.


(** An exhausted pool: when a page can be had but no frame, [malloc_page]
    does not return [NULL], the search for a frame stops the kernel. *)
Theorem exhausted_pool_panics k pf :
  space_inv k pf → below_stack k pf 1 → free_run (vaddr_bitmap (vspace k pf)) 0 1 →
  1 ≤ nbits (vaddr_bitmap (vspace k pf)) → wf_bitmap (pool_bitmap (pool_of k pf)) →
  btmp_bytes_len (pool_bitmap (pool_of k pf)) < Z.of_nat (length (bits (pool_bitmap (pool_of k pf)))) →
  (∀ i, 0 ≤ i < nbits (pool_bitmap (pool_of k pf)) → bit (pool_bitmap (pool_of k pf)) i = true) →
  malloc_page k pf 1 = Panic.
Proof.
  intros Hsp Hst Hrun Hn Hwf Hpast Hfull. unfold malloc_page.
  destruct (vaddr_get_spec k pf 1) as (r & b & -> & Hr & _); [done|lia|done| |].
  { exists 0. split_and!; try done; lia. }
  ocbn. pose proof (sp_range _ _ Hsp). set (va := _ + _).
  destruct (Z.eqb_spec va NULL) as [E|_]; [unfold va, NULL, PG_SIZE in *; lia|].
  assert (∀ w, pool_of (set_vspace k pf w) pf = pool_of k pf) as Es by (by destruct pf).
  change (Z.to_nat 1) with 1%nat. cbn [loop]. destruct (Z.ltb_spec 0 1); [|lia].
  rewrite Es. unfold palloc. by rewrite bitmap_scan_full.
Qed.

(** What [mem_pool_init] makes of [all_mem] bytes of memory: the kernel's and the user's
    frames lie one behind the other between 2 MB and the end of memory, all
    frames and all pages of the kernel's heap are free, the heap has a page for
    every kernel frame, and fewer than 16 frames are left out. *)
Record pools_made (all_mem : Z) (area : list Z) (kp up : pool) (kv : virtual_addr) : Prop := {
  pm_wf : wf_bitmap (pool_bitmap kp) ∧ wf_bitmap (pool_bitmap up) ∧ wf_bitmap (vaddr_bitmap kv);
  pm_start : phy_addr_start kp = 2097152 ∧ phy_addr_start up mod 4096 = 0;
  pm_apart : phy_addr_start kp + nbits (pool_bitmap kp) * PG_SIZE ≤ phy_addr_start up;
  pm_end : phy_addr_start up + nbits (pool_bitmap up) * PG_SIZE ≤ all_mem;
  pm_all : (all_mem - 2097152) / 4096 - 16 < nbits (pool_bitmap kp) + nbits (pool_bitmap up) ≤ (all_mem - 2097152) / 4096;
  pm_heap : vaddr_start kv = K_HEAP_START ∧ nbits (vaddr_bitmap kv) = nbits (pool_bitmap kp);
  pm_kfree i : 0 ≤ i < nbits (pool_bitmap kp) → bit (pool_bitmap kp) i = false ∧ bit (vaddr_bitmap kv) i = false;
  pm_ufree i : 0 ≤ i < nbits (pool_bitmap up) → bit (pool_bitmap up) i = false;
  pm_depth : depth kp = 0 ∧ depth up = 0;
  pm_behind : let n := Z.to_nat (btmp_bytes_len (pool_bitmap kp) + btmp_bytes_len (pool_bitmap up)) in
    length (bits (vaddr_bitmap kv)) = length (drop n area) ∧
    ∀ j, nbits (vaddr_bitmap kv) ≤ j → bit (vaddr_bitmap kv) j = bit (Bitmap (btmp_bytes_len (pool_bitmap kp)) (drop n area)) j;
  pm_half : (all_mem - 2097152) / 4096 / 2 - 8 < nbits (pool_bitmap kp)
}.

Lemma mem_pool_init_spec all_mem area :
  let pages := (all_mem - 2097152) / 4096 in
  2097152 ≤ all_mem → pages < 65536 → pages ≤ Z.of_nat (length area) * 4 → Forall (λ b, 0 ≤ b < 256) area →
  ∃ kp up kv, mem_pool_init all_mem area = Ok (kp, up, kv) ∧ pools_made all_mem area kp up kv.
Proof.
  intros pages Hall Hp Harea Hb. unfold mem_pool_init.
  change (u32 (PG_SIZE * 256 + 1048576)) with 2097152. unfold PG_SIZE.
  rewrite (u32_small (all_mem - 2097152)) by (unfold pages in *; zdlia). fold pages.
  assert (0 ≤ pages) by (unfold pages; zdlia).
  unfold u16. rewrite (Z.mod_small pages), (Z.mod_small (pages / 2)), (Z.mod_small (pages - pages / 2)) by zdlia.
  set (kf := pages / 2). set (uf := pages - kf). cbv zeta.
  assert (0 ≤ kf < 32768 ∧ 0 ≤ uf ≤ 32768) as [Hkf Huf] by (unfold uf, kf; zdlia).
  assert (kf / 8 + uf / 8 + kf / 8 ≤ Z.of_nat (length area)) as Hlen by (unfold uf, kf in *; zdlia).
  assert (∀ n s, 0 ≤ s → 0 ≤ n ≤ 4096 → s + n ≤ Z.of_nat (length area) →
    wf_bitmap (Bitmap n (drop (Z.to_nat s) area))) as Hwf.
  { intros n s Hs Hn Hl. split; cbn; [by apply Forall_drop|rewrite length_drop; lia|unfold nbits; cbn; lia]. }
  destruct (bitmap_init_spec (Bitmap (kf / 8) area)) as (kb & -> & Wk & Lk & _ & Zk & _);
    [rewrite <- (drop_0 area); apply (Hwf _ 0); zdlia|].
  destruct (bitmap_init_spec (Bitmap (uf / 8) (drop (Z.to_nat (kf / 8)) area)))
    as (ub & -> & Wu & Lu & _ & Zu & _); [apply Hwf; zdlia|].
  destruct (bitmap_init_spec (Bitmap (kf / 8) (drop (Z.to_nat (kf / 8 + uf / 8)) area)))
    as (vb & -> & Wv & Lv & Nv & Zv & Pv); [apply Hwf; zdlia|].
  ocbn. unfold nbits in *. cbn in Lk, Lu, Lv, Nv, Zk, Zu, Zv, Pv. eexists _, _, _. split; [done|].
  constructor; unfold nbits; cbn [pool_bitmap phy_addr_start vaddr_bitmap vaddr_start depth]; rewrite ?Lk, ?Lu, ?Lv, ?u32_small by lia; try done.
  - split; [done|zdlia].
  - unfold PG_SIZE. zdlia.
  - unfold uf, kf, pages, PG_SIZE in *. zdlia.
  - fold pages. unfold uf, kf. zdlia.
  - intros i Hi. split; [by apply Zk|by apply Zv].
  - fold pages kf. zdlia.
Qed.

(** Memory above 258 MB is lost: the number of free pages is kept in 16
    bits, so 256 MB more memory changes nothing. *)
Theorem memory_above_256MB_lost all_mem area :
  2097152 + 268435456 ≤ all_mem < 2 ^ 32 →
  mem_pool_init all_mem area = mem_pool_init (all_mem - 268435456) area.
Proof.
  intros Hm. unfold mem_pool_init.
  assert (u16 (u32 (all_mem - u32 (PG_SIZE * 256 + 1048576)) / PG_SIZE) =
          u16 (u32 (all_mem - 268435456 - u32 (PG_SIZE * 256 + 1048576)) / PG_SIZE)) as ->; [|done].
  change (u32 (PG_SIZE * 256 + 1048576)) with 2097152. unfold PG_SIZE, u16.
  change (2 ^ 32) with 4294967296 in *. rewrite !u32_small by lia. zdlia.
Qed.

(** ** A small machine *)

(** A directory that maps nothing but itself. *)
Lemma unmapped_inv k :
  pt_wf (phys k) (dir k) → pool_wf (phys k) (kernel_pool k) → pool_wf (phys k) (user_pool k) →
  phy_addr_start (kernel_pool k) + nbits (pool_bitmap (kernel_pool k)) * PG_SIZE
    ≤ phy_addr_start (user_pool k) →
  (∀ i, 0 ≤ i < 1023 → load32 (phys k) (dir k + 4 * i) = Ok 0) →
  dir k < phy_addr_start (kernel_pool k) →
  mm_inv k ∧ ∀ va f, managed va → ¬ maps (phys k) (dir k) va f.
Proof.
  intros Hpt Hkp Hup Hap Hno Hd.
  assert (∀ i e, 0 ≤ i < 1023 → load32 (phys k) (dir k + 4 * i) = Ok e → entry_present e = true → False)
    as Habs.
  { intros i e Hi He Hp. rewrite Hno in He by done. injection He as <-. by vm_compute in Hp. }
  assert (∀ va f, managed va → ¬ maps (phys k) (dir k) va f) as Hmaps.
  { intros va f Hva (t & pte & (e & He & Hp & _) & _). pose proof (managed_idx _ Hva).
    by eapply (Habs (va / 2 ^ 22) e); [lia|..]. }
  split; [|done]. split; try done.
  - intros f [->|(i & e & Hi & He & Hp & _)] Hf; [|by eapply Habs].
    destruct Hf as [(i & Hi & E & _)|(i & Hi & E & _)]; [unfold PG_SIZE in *; lia|].
    pose proof (wf_len _ (pw_bitmap _ _ Hkp)). unfold nbits, PG_SIZE in *. lia.
  - intros i j e e' Hi Hj He _ Hp. exfalso. by eapply (Habs i e); [lia|..].
  - intros va f Hva Hm. exfalso. by eapply Hmaps.
  - intros va va' f Hva _ Hm. exfalso. by eapply Hmaps.
Qed.

Lemma pool_wf_valid m p :
  wf_bitmap_b (pool_bitmap p) && (phy_addr_start p mod 4096 =? 0) && (0 <? phy_addr_start p) &&
  (phy_addr_start p + nbits (pool_bitmap p) * PG_SIZE <=? 2 ^ 32) = true →
  valid m (phy_addr_start p) (nbits (pool_bitmap p) * PG_SIZE) → pool_wf m p.
Proof.
  rewrite !andb_true_iff. intros [[[H1 H2] H3] H4] H5. split; [by apply wf_bitmap_b_ok|lia|lia|].
  intros i Hi. eapply valid_sub; [done| |]; unfold PG_SIZE in *; lia.
Qed.

Module PoolExample.
(** The directory at 4096 and eight frames from 2 MB on; the kernel's heap and
    the space of the process have eight pages each. *)
Definition blank_memory : mem := zeros 4096 4096 ∪ zeros 2097152 32768.
Definition memory : mem := put32 blank_memory (4096 + 4 * 1023) (4096 + 7).
Definition k0 : mm :=
  MM memory 4096 (Pool (Bitmap 1 [0; 0]) 2097152 32768 0) (Pool (Bitmap 0 [255]) 2129920 0 0)
    (VirtualAddr (Bitmap 1 [0; 255]) K_HEAP_START) 0 (VirtualAddr (Bitmap 1 [0; 255]) 134512640).

Lemma k0_inv : mm_inv k0 ∧ ∀ va f, managed va → ¬ maps (phys k0) (dir k0) va f.
Proof.
  assert (blank blank_memory) as Hb by (apply union_blank; apply zeros_blank).
  assert (valid blank_memory 4096 4096) as Hv by (apply union_valid; left; apply zeros_valid).
  assert (valid blank_memory 2097152 32768) as Hp by (apply union_valid; right; apply zeros_valid).
  apply unmapped_inv.
  - by apply blank_directory_wf; [..|done].
  - apply pool_wf_valid; [done|]. by apply put32_valid.
  - apply pool_wf_valid; [done|]. intros a Ha. change (nbits _) with 0 in Ha. lia.
  - done.
  - intros i Hi. by apply blank_directory_pde.
  - done.
Qed.

Lemma k0_space pf : space_inv k0 pf.
Proof.
  destruct k0_inv as [_ Hno]. split.
  - split; [apply wf_bitmap_b_ok|..]; by destruct pf; vm_compute.
  - by destruct pf.
  - by destruct pf; vm_compute.
  - intros i f Hi _. apply Hno. unfold managed, PG_SIZE.
    destruct pf; change (nbits _) with 8 in Hi; cbn; unfold K_HEAP_START; lia.
Qed.

Lemma k0_run pf : ∃ s, 0 ≤ s ∧ s + 2 ≤ nbits (vaddr_bitmap (vspace k0 pf)) ∧
  free_run (vaddr_bitmap (vspace k0 pf)) s 2.
Proof.
  exists 0. split; [lia|]. split; [by destruct pf|]. intros i Hi.
  assert (i = 0 ∨ i = 1) as [->| ->] by lia; by destruct pf; vm_compute.
Qed.


Lemma get_kernel_pages_zeroed_witness : ∃ va k', get_kernel_pages k0 2 = Ok (va, k') ∧ mm_inv k'.
Proof.
  destruct (get_kernel_pages_zeroed k0 2) as (va & k' & Heq & Hinv & _);
    [apply k0_inv|apply k0_space|lia|apply (k0_run PF_KERNEL)|by vm_compute; lia|].
  exists va, k'. split; [exact Heq|exact Hinv].
Defined.


(** The process finds pages in its space and no frame. *)
Lemma exhausted_pool_panics_witness : malloc_page k0 PF_USER 1 = Panic.
Proof.
  apply exhausted_pool_panics.
  - apply k0_space.
  - intros _ s Hs Hn _. change (nbits _) with 8 in Hn. cbn. unfold PG_SIZE. lia.
  - intros i Hi. replace i with 0 by lia. by vm_compute.
  - by vm_compute.
  - apply wf_bitmap_b_ok. by vm_compute.
  - by vm_compute.
  - intros i Hi. change (nbits _) with 0 in Hi. lia.
Defined.

(** 512 MB are used like 256 MB. *)
Lemma memory_above_256MB_lost_witness :
  mem_pool_init 536870912 (replicate (Z.to_nat 32768) 0) = mem_pool_init 268435456 (replicate (Z.to_nat 32768) 0).
Proof.
  exact (memory_above_256MB_lost 536870912 (replicate (Z.to_nat 32768) 0) ltac:(lia)).
Defined.
End PoolExample.
