(* ===== verification/Heap.v ===== *)
(** * kernel/memory.c: the heap

    [sys_malloc] and [sys_free]: requests above 1024 bytes get whole pages,
    smaller ones a block of 16, 32, ..., 1024 bytes out of a page (an arena) that
    is cut into blocks of one size; the free blocks of a size are linked in the
    list of its descriptor, through the blocks themselves.

    The memory is the address space of the running thread. The page allocator
    below the heap is an interface, [PageAllocator]; [HeapPages] proves that
    [malloc_page] and [mfree_page] of [Pool] implement it. *)

From stdpp Require Import base numbers list gmap.
From Stdlib Require Import ZArith Lia.
From S2P Require Import Prelude Mem KString Interrupt KList Paging.

(** ** The page allocator *)

(** What the heap relies on: [malloc_page] hands out runs of pages that were not
    in use, [mfree_page] takes them back. [pa_region] are the addresses the pages
    come from, [pa_used p pg] says that page number [pg] is in use, [pa_room]
    that there are [n] pages to give. *)
Class PageAllocator (P : Type) := {
  pa_malloc : P → Z → outcome (Z * P);
  pa_mfree : P → Z → Z → outcome P;
  pa_inv : P → Prop;
  pa_region : P → Z → Prop;
  pa_used : P → Z → Prop;
  pa_room : P → Z → Prop;
  pa_malloc_ok p n : pa_inv p → 1 ≤ n < 3840 → pa_room p n →
    ∃ va p', pa_malloc p n = Ok (va, p') ∧ pa_inv p' ∧
      va mod 4096 = 0 ∧ 4096 ≤ va ∧ va + n * PG_SIZE ≤ 4290772992 ∧
      (∀ a, va ≤ a < va + n * PG_SIZE → pa_region p a) ∧
      (∀ a, pa_region p' a ↔ pa_region p a) ∧
      (∀ pg, va / 4096 ≤ pg < va / 4096 + n → ¬ pa_used p pg) ∧
      (∀ pg, pa_used p' pg ↔ pa_used p pg ∨ va / 4096 ≤ pg < va / 4096 + n);
  pa_mfree_ok p va n : pa_inv p → va mod 4096 = 0 → 1 ≤ n →
    (∀ a, va ≤ a < va + n * PG_SIZE → pa_region p a) →
    (∀ pg, va / 4096 ≤ pg < va / 4096 + n → pa_used p pg) →
    ∃ p', pa_mfree p va n = Ok p' ∧ pa_inv p' ∧ (∀ a, pa_region p' a ↔ pa_region p a) ∧
      (∀ pg, pa_used p' pg ↔ pa_used p pg ∧ ¬ (va / 4096 ≤ pg < va / 4096 + n))
}.

(** ** Data *)

Definition DESC_CNT : Z := 7.
Definition sizeof_arena : Z := 12.
Definition sizeof_mem_block_desc : Z := 24.

(** The fields of [struct mem_block_desc] and [struct arena]. *)
Definition block_size (d : Z) : Z := d.
Definition blocks_per_arena (d : Z) : Z := d + 4.
Definition free_list (d : Z) : Z := d + 8.
Definition desc (a : Z) : Z := a.
Definition cnt (a : Z) : Z := a + 4.
Definition large (a : Z) : Z := a + 8.

(** What [sys_malloc] selects for the running thread: a kernel thread (one
    without a page directory) uses [k_block_descs] and the kernel's pool, a
    process the descriptors in its control block and the user's pool. *)
Record heap_env := HeapEnv {
  in_kernel : bool;
  env_descs : Z;
  env_pool_size : Z
}.
Definition select_env (pgdir k_block_descs u_block_desc kernel_size user_size : Z) : heap_env :=
  if pgdir =? NULL then HeapEnv true k_block_descs kernel_size
  else HeapEnv false u_block_desc user_size.

(** [junk] is what the frames of new pages hold. *)
Section heap.
Context {P : Type} `{PageAllocator P} (env : heap_env) (junk : Z → Z).

(** The machine, the page allocator and how often the running thread holds the
    pool's lock. *)
Record heap := Heap {
  mach : machine;
  pages : P;
  held : Z
}.
Definition h_ram (h : heap) : mem := ram (mach h).
Definition set_ram (h : heap) (m : mem) : heap := Heap (Machine m (eflags (mach h))) (pages h) (held h).
Definition set_mach (h : heap) (s : machine) : heap := Heap s (pages h) (held h).

(** ** Descriptors *)

Definition block_desc_init (s : machine) (desc_array : Z) : outcome machine :=
  loop (S (Z.to_nat DESC_CNT)) (λ '(desc_idx, bsize, s),
    if desc_idx <? DESC_CNT then
      let d := desc_array + sizeof_mem_block_desc * desc_idx in
      m ← store32 (ram s) (block_size d) bsize;
      m ← store32 m (blocks_per_arena d) ((PG_SIZE - sizeof_arena) / bsize);
      s ← list_init (Machine m (eflags s)) (free_list d);
      Ok (inl (u16 (desc_idx + 1), u16 (bsize * 2), s))
    else Ok (inr s)) (0, 16, s).

Definition arena2block (m : mem) (a idx : Z) : outcome Z :=
  d ← load32 m (desc a);
  bs ← load32 m (block_size d);
  Ok (u32 (a + sizeof_arena + idx * bs)).

Definition block2arena (b : Z) : Z := Z.land b 4294963200.

(** ** Pages of the address space *)

(** New pages come with whatever their frames held. *)
Definition map_pages (m : mem) (va n : Z) : mem :=
  foldr (λ a m, <[a := u8 (junk a)]> m) m (seqZ va (n * PG_SIZE)).
Definition unmap_pages (m : mem) (va n : Z) : mem :=
  filter (λ '(a, _), ¬ (va ≤ a < va + n * PG_SIZE)) m.

Definition heap_malloc_page (h : heap) (n : Z) : outcome (Z * heap) :=
  '(va, p) ← pa_malloc (pages h) n;
  let m := if va =? NULL then h_ram h else map_pages (h_ram h) va n in
  Ok (va, Heap (Machine m (eflags (mach h))) p (held h)).
Definition heap_mfree_page (h : heap) (va n : Z) : outcome heap :=
  p ← pa_mfree (pages h) va n;
  Ok (Heap (Machine (unmap_pages (h_ram h) va n) (eflags (mach h))) p (held h)).

Definition acquire (h : heap) : heap := Heap (mach h) (pages h) (held h + 1).
Definition release (h : heap) : outcome heap :=
  ASSERT (1 <=? held h);; Ok (Heap (mach h) (pages h) (held h - 1)).

(** ** [sys_malloc] *)

Definition find_desc (m : mem) (size : Z) : outcome Z :=
  loop (S (Z.to_nat DESC_CNT)) (λ desc_idx,
    if desc_idx <? DESC_CNT then
      bs ← load32 m (block_size (env_descs env + sizeof_mem_block_desc * desc_idx));
      if size <=? bs then Ok (inr desc_idx) else Ok (inl (u8 (desc_idx + 1)))
    else Ok (inr desc_idx)) 0.

(** The loop that cuts arena [a] into blocks. *)
Definition split_arena (s : machine) (d a : Z) : outcome machine :=
  loop (Z.to_nat 4096) (λ '(block_idx, s),
    n ← load32 (ram s) (blocks_per_arena d);
    if block_idx <? n then
      b ← arena2block (ram s) a block_idx;
      d' ← load32 (ram s) (desc a);
      e ← elem_find s (free_list d') b;
      ASSERT (negb e);;
      d' ← load32 (ram s) (desc a);
      s ← list_append s (free_list d') b;
      Ok (inl (u32 (block_idx + 1), s))
    else Ok (inr s)) (0, s).

(** A new arena for descriptor [d]; [None] when there is no page. *)
Definition new_arena (h : heap) (d : Z) : outcome (option heap) :=
  '(a, h) ← heap_malloc_page h 1;
  if a =? NULL then Ok None
  else
    m ← memset (h_ram h) a 0 PG_SIZE;
    m ← store32 m (desc a) d;
    m ← store32 m (large a) 0;
    n ← load32 m (blocks_per_arena d);
    m ← store32 m (cnt a) n;
    let '(old_status, s) := intr_disable (Machine m (eflags (mach h))) in
    s ← split_arena s d a;
    let '(_, s) := intr_set_status s old_status in
    Ok (Some (set_mach h s)).

Definition malloc_large (h : heap) (size : Z) : outcome (Z * heap) :=
  let page_cnt := DIV_ROUND_UP (u32 (size + sizeof_arena)) PG_SIZE in
  '(a, h) ← heap_malloc_page h page_cnt;
  if negb (a =? NULL) then
    m ← memset (h_ram h) a 0 (u32 (page_cnt * PG_SIZE));
    m ← store32 m (desc a) NULL;
    m ← store32 m (cnt a) page_cnt;
    m ← store32 m (large a) 1;
    h ← release (set_ram h m);
    Ok (a + sizeof_arena, h)
  else h ← release h; Ok (NULL, h).

(** Handing out the first free block of descriptor [d]. *)
Definition take_block (h : heap) (d : Z) : outcome (Z * heap) :=
  '(b, s) ← list_pop (mach h) (free_list d);
  let h := set_mach h s in
  bs ← load32 (h_ram h) (block_size d);
  m ← memset (h_ram h) b 0 bs;
  let a := block2arena b in
  c ← load32 m (cnt a);
  m ← store32 m (cnt a) (u32 (c - 1));
  h ← release (set_ram h m);
  Ok (b, h).

Definition malloc_small (h : heap) (size : Z) : outcome (Z * heap) :=
  desc_idx ← find_desc (h_ram h) size;
  let d := env_descs env + sizeof_mem_block_desc * desc_idx in
  e ← list_empty (mach h) (free_list d);
  if (e : bool) then
    h' ← new_arena h d;
    match h' with
    | None => h ← release h; Ok (NULL, h)
    | Some h => take_block h d
    end
  else take_block h d.

Definition sys_malloc (h : heap) (size : Z) : outcome (Z * heap) :=
  if negb ((0 <? size) && (size <? env_pool_size env)) then Ok (NULL, h)
  else
    let h := acquire h in
    if 1024 <? size then malloc_large h size else malloc_small h size.

(** ** [sys_free] *)

(** Taking the blocks of arena [a] out of the list of its descriptor. *)
Definition empty_arena (s : machine) (a : Z) : outcome machine :=
  loop (Z.to_nat 4096) (λ '(block_idx, s),
    d ← load32 (ram s) (desc a);
    n ← load32 (ram s) (blocks_per_arena d);
    if block_idx <? n then
      b ← arena2block (ram s) a block_idx;
      d ← load32 (ram s) (desc a);
      e ← elem_find s (free_list d) b;
      ASSERT e;;
      s ← list_remove s b;
      Ok (inl (u32 (block_idx + 1), s))
    else Ok (inr s)) (0, s).

Definition free_small (h : heap) (a b : Z) : outcome heap :=
  d ← load32 (h_ram h) (desc a);
  s ← list_append (mach h) (free_list d) b;
  let h := set_mach h s in
  c ← load32 (h_ram h) (cnt a);
  let c := u32 (c + 1) in
  m ← store32 (h_ram h) (cnt a) c;
  let h := set_ram h m in
  d ← load32 m (desc a);
  n ← load32 m (blocks_per_arena d);
  if c =? n then
    s ← empty_arena (mach h) a;
    heap_mfree_page (set_mach h s) a 1
  else Ok h.

Definition sys_free (h : heap) (ptr : Z) : outcome heap :=
  ASSERT (negb (ptr =? NULL));;
  (if in_kernel env then ASSERT (K_HEAP_START <=? ptr) else Ok tt);;
  let h := acquire h in
  let a := block2arena ptr in
  l ← load32 (h_ram h) (large a);
  ASSERT ((l =? 0) || (l =? 1));;
  d ← load32 (h_ram h) (desc a);
  h ← (if (d =? NULL) && (l =? 1) then
         n ← load32 (h_ram h) (cnt a); heap_mfree_page h a n
       else free_small h a ptr);
  release h.
End heap.
Arguments heap P : clear implicits.

(** ** Sizes *)

Definition bs (i : Z) : Z := 16 * 2 ^ i.
Definition bpa (i : Z) : Z := 4084 / bs i.

Lemma idx_cases i : 0 ≤ i < 7 → i = 0 ∨ i = 1 ∨ i = 2 ∨ i = 3 ∨ i = 4 ∨ i = 5 ∨ i = 6.
Proof. lia. Qed.

Lemma bs_facts i : 0 ≤ i < 7 →
  16 ≤ bs i ≤ 1024 ∧ 3 ≤ bpa i ≤ 255 ∧ bpa i * bs i ≤ 4084.
Proof. intros Hi. destruct (idx_cases i Hi) as [->|[->|[->|[->|[->|[->| ->]]]]]]; by vm_compute. Qed.

Lemma block_range i j : 0 ≤ i < 7 → 0 ≤ j < bpa i → 0 ≤ j * bs i ∧ j * bs i + bs i ≤ 4084.
Proof. intros Hi Hj. destruct (bs_facts i Hi) as (H1 & H2 & H3). nia. Qed.

Section heap_proofs.
Context {P : Type} `{PageAllocator P} (descs : Z).

Definition desc_of (i : Z) : Z := descs + sizeof_mem_block_desc * i.

(** ** The invariant *)

(** A run of pages the heap holds: an arena with blocks of size [bs i], or a
    large allocation of [n] pages. *)
Inductive region := Small (i : Z) | Large (n : Z).
Definition npages (r : region) : Z := match r with Small _ => 1 | Large n => n end.
Abbreviation regions := (gmap Z region).

(** [x] is block [j] of the arena at [a]. *)
Definition block_of (regs : regions) (a i j x : Z) : Prop :=
  regs !! a = Some (Small i) ∧ 0 ≤ i < 7 ∧ 0 ≤ j < bpa i ∧ x = a + 12 + j * bs i.

Definition header (m : mem) (a c : Z) (r : region) : Prop :=
  load32 m (cnt a) = Ok c ∧
  match r with
  | Small i => load32 m (desc a) = Ok (desc_of i) ∧ load32 m (large a) = Ok 0
  | Large n => load32 m (desc a) = Ok 0 ∧ load32 m (large a) = Ok 1 ∧ c = n
  end.

(** The invariant up to the number of free blocks an arena records. [fl i] are
    the free blocks of size [bs i], [regs] the runs of pages by their address. *)
Record hcore (m : mem) (p : P) (fl : Z → list Z) (regs : regions) (cnts : Z → Z) : Prop := HCore {
  hc_pages : pa_inv p;
  hc_range : 0 < descs ∧ descs + 168 < 2 ^ 32 - 8 ∧ valid m descs 168;
  hc_desc i : 0 ≤ i < 7 → load32 m (block_size (desc_of i)) = Ok (bs i) ∧
    load32 m (blocks_per_arena (desc_of i)) = Ok (bpa i);
  hc_list i : 0 ≤ i < 7 → dll m (free_list (desc_of i)) (fl i);
  hc_free i x : 0 ≤ i < 7 → x ∈ fl i → ∃ a j, block_of regs a i j x;
  hc_mapped a : is_Some (m !! a) → pa_region p a → pa_used p (a / 4096);
  hc_reg a r : regs !! a = Some r →
    a mod 4096 = 0 ∧ 4096 ≤ a ∧ 1 ≤ npages r ∧ a + npages r * 4096 ≤ 4290772992 ∧
    (descs + 168 ≤ a ∨ a + npages r * 4096 ≤ descs) ∧ valid m a (npages r * 4096) ∧
    (∀ x, a ≤ x < a + npages r * 4096 → pa_region p x) ∧
    (∀ pg, a / 4096 ≤ pg < a / 4096 + npages r → pa_used p pg) ∧
    (∀ i, r = Small i → 0 ≤ i < 7);
  hc_sep a b r s : regs !! a = Some r → regs !! b = Some s → a ≠ b →
    a + npages r * 4096 ≤ b ∨ b + npages s * 4096 ≤ a;
  hc_head a r : regs !! a = Some r → header m a (cnts a) r
}.

(** The free blocks of an arena. *)
Definition free_of (fl : Z → list Z) (a i : Z) : list Z := filter (λ x, x / 4096 * 4096 = a) (fl i).

Record heap_inv (h : heap P) (fl : Z → list Z) (regs : regions) : Prop := HeapInv {
  hi_core : ∃ cnts, hcore (h_ram h) (pages h) fl regs cnts ∧
    ∀ a i, regs !! a = Some (Small i) → cnts a = Z.of_nat (length (free_of fl a i));
  hi_some a i : regs !! a = Some (Small i) → Z.of_nat (length (free_of fl a i)) < bpa i
}.

(** The allocations: a block that is not free, or what follows the header of a
    large allocation; [n] is the number of bytes. *)
Definition live (fl : Z → list Z) (regs : regions) (x n : Z) : Prop :=
  (∃ a i j, block_of regs a i j x ∧ (x ∉ fl i) ∧ n = bs i) ∨
  (∃ a k, regs !! a = Some (Large k) ∧ x = a + 12 ∧ n = k * 4096 - 12).

(** ** Where things lie *)

Section layout.
Context (m : mem) (p : P) (fl : Z → list Z) (regs : regions) (cnts : Z → Z).
Context (Hc : hcore m p fl regs cnts).

Lemma block_in a i j x : block_of regs a i j x → a + 12 ≤ x ∧ x + bs i ≤ a + 4096 ∧ 16 ≤ bs i.
Proof.
  intros (_ & Hi & Hj & ->). pose proof (block_range i j Hi Hj). pose proof (bs_facts i Hi). lia.
Qed.

Lemma block_arena a i j x : block_of regs a i j x → x / 4096 * 4096 = a ∧ block2arena x = a.
Proof using Hc.
  intros Hb. destruct (block_in _ _ _ _ Hb) as (H1 & H2 & H3). destruct Hb as (Hr & _).
  destruct (hc_reg _ _ _ _ _ Hc _ _ Hr) as (Ha & Hlo & _ & Hhi & _). cbn in Hhi.
  assert (x / 4096 * 4096 = a) as E by zdlia. split; [done|]. unfold block2arena.
  by rewrite land_4k by lia.
Qed.

Lemma reg_range a r : regs !! a = Some r → 4096 ≤ a ∧ 1 ≤ npages r ∧ a + npages r * 4096 ≤ 4290772992.
Proof using Hc. intros Hr. destruct (hc_reg _ _ _ _ _ Hc _ _ Hr) as (_ & ? & ? & ? & _). done. Qed.

(** Blocks lie apart from each other, from the headers of the runs and from
    the descriptors. *)
Lemma block_block a i j x a' i' j' x' :
  block_of regs a i j x → block_of regs a' i' j' x' → x ≠ x' → x + bs i ≤ x' ∨ x' + bs i' ≤ x.
Proof using Hc.
  intros Hb Hb' Hne. pose proof (block_in _ _ _ _ Hb). pose proof (block_in _ _ _ _ Hb').
  destruct Hb as (Hr & Hi & Hj & ->), Hb' as (Hr' & Hi' & Hj' & ->).
  destruct (decide (a = a')) as [<-|Ha].
  - rewrite Hr in Hr'. injection Hr' as <-. pose proof (bs_facts i Hi).
    assert (j + 1 ≤ j' ∨ j' + 1 ≤ j) as [Hjj|Hjj].
    { destruct (decide (j = j')) as [->|]; [done|lia]. }
    + apply (Z.mul_le_mono_nonneg_r _ _ (bs i)) in Hjj; lia.
    + apply (Z.mul_le_mono_nonneg_r _ _ (bs i)) in Hjj; lia.
  - destruct (hc_sep _ _ _ _ _ Hc _ _ _ _ Hr Hr' Ha) as [Hs|Hs]; cbn in Hs; lia.
Qed.

Lemma block_header a i j x b r :
  block_of regs a i j x → regs !! b = Some r → x + bs i ≤ b ∨ b + 12 ≤ x.
Proof using Hc.
  intros Hb Hr'. pose proof (block_in _ _ _ _ Hb). destruct Hb as (Hr & _).
  destruct (decide (a = b)) as [<-|Ha]; [lia|].
  destruct (hc_sep _ _ _ _ _ Hc _ _ _ _ Hr Hr' Ha) as [Hs|Hs]; cbn in Hs;
    pose proof (reg_range _ _ Hr'); lia.
Qed.

Lemma block_descs a i j x : block_of regs a i j x → x + bs i ≤ descs ∨ descs + 168 ≤ x.
Proof using Hc.
  intros Hb. pose proof (block_in _ _ _ _ Hb). destruct Hb as (Hr & _).
  destruct (hc_reg _ _ _ _ _ Hc _ _ Hr) as (_ & _ & _ & _ & Hs & _). cbn in Hs. lia.
Qed.

Lemma block_large a i j x b k :
  block_of regs a i j x → regs !! b = Some (Large k) → x + bs i ≤ b ∨ b + k * 4096 ≤ x.
Proof using Hc.
  intros Hb Hr'. pose proof (block_in _ _ _ _ Hb). destruct Hb as (Hr & _).
  assert (a ≠ b) by (intros ->; congruence).
  destruct (hc_sep _ _ _ _ _ Hc _ _ _ _ Hr Hr') as [Hs|Hs]; [done|..]; cbn in Hs; lia.
Qed.

(** The elements of a free list are blocks, its ends are in the descriptor. *)
Lemma node_cases i n : 0 ≤ i < 7 → n ∈ nodes (free_list (desc_of i)) (fl i) →
  n = desc_of i + 8 ∨ n = desc_of i + 16 ∨ ∃ a j, block_of regs a i j n.
Proof using Hc.
  intros Hi. unfold nodes, head, tail, free_list. rewrite elem_of_cons, elem_of_app, elem_of_cons.
  intros [->|[Hn|[->|Hn]]]; [by left| |right; left; lia|by apply not_elem_of_nil in Hn].
  right; right. by apply (hc_free _ _ _ _ _ Hc).
Qed.
End layout.

(** ** Changing the memory under the invariant *)

Definition upd {A} (f : Z → A) (i : Z) (x : A) : Z → A := λ j, if decide (j = i) then x else f j.

Lemma upd_eq {A} (f : Z → A) i x : upd f i x i = x.
Proof. unfold upd. by destruct (decide _). Qed.
Lemma upd_ne {A} (f : Z → A) i x j : j ≠ i → upd f i x j = f j.
Proof. intros. unfold upd. by destruct (decide _). Qed.

Lemma header_frame m m' a c r :
  header m a c r → (∀ x, a ≤ x < a + 12 → m' !! x = m !! x) → header m' a c r.
Proof.
  intros Hh Hsame. unfold header, cnt, desc, large in *.
  rewrite (load32_lookup_ext m m' (a + 4)), (load32_lookup_ext m m' a), (load32_lookup_ext m m' (a + 8));
    [done|intros; apply Hsame; lia..].
Qed.

Lemma hcore_change m m' p fl fl' regs cnts cnts' :
  hcore m p fl regs cnts →
  (∀ x, is_Some (m' !! x) ↔ is_Some (m !! x)) →
  (∀ i x, 0 ≤ i < 7 → desc_of i ≤ x < desc_of i + 8 → m' !! x = m !! x) →
  (∀ i, 0 ≤ i < 7 → dll m' (free_list (desc_of i)) (fl' i)) →
  (∀ i x, 0 ≤ i < 7 → x ∈ fl' i → ∃ a j, block_of regs a i j x) →
  (∀ a r, regs !! a = Some r → header m' a (cnts' a) r) →
  hcore m' p fl' regs cnts'.
Proof.
  intros [H1 (R1 & R2 & R3) H3 H4 H5 H6 H7 H8 H9] Hdom Hdesc Hl Hf Hh.
  assert (∀ a n, valid m a n → valid m' a n) as Hv by (intros a n Hv x Hx; by apply Hdom, Hv).
  split; auto.
  - intros i Hi. destruct (H3 i Hi) as [E1 E2]. unfold block_size, blocks_per_arena in *.
    rewrite (load32_lookup_ext m m'), (load32_lookup_ext m m' (desc_of i + 4)); [done|..];
      intros x Hx; apply (Hdesc i); lia.
  - intros a Ha. apply H6. by apply Hdom.
  - intros a r Hr. destruct (H7 a r Hr) as (? & ? & ? & ? & ? & ? & ? & ? & ?). split_and!; auto.
Qed.

Section steps.
Context (m : mem) (p : P) (fl : Z → list Z) (regs : regions) (cnts : Z → Z).
Context (Hc : hcore m p fl regs cnts).

Lemma desc_range i : 0 ≤ i < 7 → descs ≤ desc_of i ∧ desc_of i + 24 ≤ descs + 168.
Proof using. unfold desc_of, sizeof_mem_block_desc. lia. Qed.

Lemma block_index a i j x a' i' j' : block_of regs a i j x → block_of regs a' i' j' x → i = i'.
Proof using Hc.
  intros Hb Hb'. destruct (block_arena _ _ _ _ _ Hc _ _ _ _ Hb) as [E1 _].
  destruct (block_arena _ _ _ _ _ Hc _ _ _ _ Hb') as [E2 _].
  destruct Hb as (Hr & _), Hb' as (Hr' & _). congruence.
Qed.

Lemma free_index a i j x k : block_of regs a i j x → 0 ≤ k < 7 → x ∈ fl k → k = i.
Proof using Hc.
  intros Hb Hk Hx. destruct (hc_free _ _ _ _ _ Hc k x Hk Hx) as (a' & j' & Hb').
  by eapply block_index.
Qed.

(** Writing to a block that is not free. *)
Lemma hcore_block m' a i j x n :
  block_of regs a i j x → x ∉ fl i → n ≤ bs i →
  (∀ y, is_Some (m' !! y) ↔ is_Some (m !! y)) →
  (∀ y, ¬ (x ≤ y < x + n) → m' !! y = m !! y) → hcore m' p fl regs cnts.
Proof using Hc.
  intros Hb Hx Hn Hdom Hsame. pose proof (block_descs _ _ _ _ _ Hc _ _ _ _ Hb) as Hd.
  apply (hcore_change m m' p fl fl regs cnts cnts Hc Hdom).
  - intros k y Hk Hy. apply Hsame. pose proof (desc_range k Hk). lia.
  - intros k Hk. eapply dll_frame; [by apply Hc|]. intros z y Hz Hy. apply Hsame.
    destruct (node_cases _ _ _ _ _ Hc k z Hk Hz) as [->|[->|(a' & j' & Hb')]].
    + pose proof (desc_range k Hk). lia.
    + pose proof (desc_range k Hk). lia.
    + destruct (decide (z = x)) as [->|Hne].
      * pose proof (block_index _ _ _ _ _ _ _ Hb Hb') as <-. exfalso. apply Hx.
        unfold nodes in Hz. rewrite elem_of_cons, elem_of_app, elem_of_cons in Hz.
        unfold head, tail, free_list in Hz. pose proof (block_in _ _ _ _ _ Hb).
        pose proof (desc_range i Hk).
        destruct Hz as [?|[?|[?|Hz]]]; [lia|done|lia|by apply not_elem_of_nil in Hz].
      * pose proof (block_in _ _ _ _ _ Hb').
        destruct (block_block _ _ _ _ _ Hc _ _ _ _ _ _ _ _ Hb' Hb Hne); lia.
  - apply Hc.
  - intros b r Hr. eapply header_frame; [by apply (hc_head _ _ _ _ _ Hc)|]. intros y Hy. apply Hsame.
    destruct (block_header _ _ _ _ _ Hc _ _ _ _ _ _ Hb Hr); lia.
Qed.

(** Writing the number of free blocks of an arena. *)
Lemma hcore_cnt a i v :
  regs !! a = Some (Small i) → 0 ≤ v < 2 ^ 32 →
  hcore (put32 m (cnt a) v) p fl regs (upd cnts a v).
Proof using Hc.
  intros Hr Hv. destruct (hc_reg _ _ _ _ _ Hc _ _ Hr) as (_ & Hlo & _ & Hhi & Hd & Hval & _).
  cbn in Hd, Hval. unfold cnt.
  assert (∀ y, ¬ (a + 4 ≤ y < a + 8) → put32 m (a + 4) v !! y = m !! y) as Hsame.
  { intros y Hy. apply put32_lookup_ne. lia. }
  apply (hcore_change m _ p fl fl regs cnts _ Hc).
  - intros y. split.
    + destruct (decide (a + 4 ≤ y < a + 8)); [intros _; apply Hval; lia|by rewrite Hsame].
    + intros Hy. apply (put32_valid m (a + 4) v y 1); [|lia]. intros z Hz. by replace z with y by lia.
  - intros k y Hk Hy. apply Hsame. pose proof (desc_range k Hk). lia.
  - intros k Hk. eapply dll_frame; [by apply Hc|]. intros z y Hz Hy. apply Hsame.
    destruct (node_cases _ _ _ _ _ Hc k z Hk Hz) as [->|[->|(a' & j' & Hb')]];
      [pose proof (desc_range k Hk); lia..|].
    pose proof (block_in _ _ _ _ _ Hb'). destruct (block_header _ _ _ _ _ Hc _ _ _ _ _ _ Hb' Hr); lia.
  - apply Hc.
  - intros b r Hr'. destruct (decide (b = a)) as [->|Hne].
    + rewrite Hr in Hr'. injection Hr' as <-. rewrite upd_eq.
      destruct (hc_head _ _ _ _ _ Hc _ _ Hr) as (_ & E1 & E2). unfold header, cnt, desc, large in *.
      rewrite load32_put32_eq, !load32_put32_ne by lia.
      split; [|done]. f_equal. unfold u32. by apply Z.mod_small.
    + rewrite upd_ne by done. eapply header_frame; [by apply (hc_head _ _ _ _ _ Hc)|].
      intros y Hy. apply Hsame. destruct (hc_sep _ _ _ _ _ Hc _ _ _ _ Hr Hr') as [Hs|Hs]; [done|..];
        cbn in Hs; pose proof (reg_range _ _ _ _ _ Hc _ _ Hr'); lia.
Qed.

(** An operation on the free list of size [i] that works on blocks [zs] of that size. *)
Lemma hcore_list m' i zs ys :
  0 ≤ i < 7 → dll m' (free_list (desc_of i)) ys →
  same_outside m m' (nodes (free_list (desc_of i)) zs) →
  (∀ z, z ∈ zs → ∃ a j, block_of regs a i j z) → (∀ y, y ∈ ys → y ∈ zs) →
  (∀ x, is_Some (m' !! x) ↔ is_Some (m !! x)) →
  hcore m' p (upd fl i ys) regs cnts.
Proof using Hc.
  intros Hi Hdll Hsame Hzs Hys Hdom. pose proof (desc_range i Hi) as Hdi.
  assert (∀ x, (x < desc_of i + 8 ∨ desc_of i + 24 ≤ x) →
    (∀ z a j, z ∈ zs → block_of regs a i j z → x < z ∨ z + 8 ≤ x) → m' !! x = m !! x) as Hs.
  { intros x Hx Hz. apply Hsame. unfold nodes, head, tail, free_list.
    apply Forall_cons. split; [lia|]. apply Forall_app. split; [|apply Forall_singleton; lia].
    apply Forall_forall. intros z Hzz. destruct (Hzs z Hzz) as (a & j & Hb). by eapply Hz. }
  apply (hcore_change m m' p fl _ regs cnts cnts Hc Hdom).
  - intros k x Hk Hx. pose proof (desc_range k Hk). apply Hs.
    { unfold desc_of, sizeof_mem_block_desc in *. lia. }
    intros z a j _ Hb. pose proof (block_in _ _ _ _ _ Hb).
    destruct (block_descs _ _ _ _ _ Hc _ _ _ _ Hb); lia.
  - intros k Hk. destruct (decide (k = i)) as [->|Hne]; [by rewrite upd_eq|]. rewrite upd_ne by done.
    eapply dll_frame; [by apply Hc|]. intros n x Hn Hx. pose proof (desc_range k Hk) as Hdk.
    destruct (node_cases _ _ _ _ _ Hc k n Hk Hn) as [E|[E|(a' & j' & Hb')]].
    1,2: apply Hs; [unfold desc_of, sizeof_mem_block_desc in *; lia|];
      intros z a j _ Hb; pose proof (block_in _ _ _ _ _ Hb);
      destruct (block_descs _ _ _ _ _ Hc _ _ _ _ Hb); lia.
    pose proof (block_in _ _ _ _ _ Hb'). apply Hs.
    { destruct (block_descs _ _ _ _ _ Hc _ _ _ _ Hb'); lia. }
    intros z a j _ Hb. pose proof (block_in _ _ _ _ _ Hb).
    assert (z ≠ n) as Hzn.
    { intros ->. apply Hne. symmetry. by eapply block_index. }
    destruct (block_block _ _ _ _ _ Hc _ _ _ _ _ _ _ _ Hb Hb' Hzn); lia.
  - intros k x Hk. destruct (decide (k = i)) as [->|Hne].
    + rewrite upd_eq. auto.
    + rewrite upd_ne by done. by apply Hc.
  - intros b r Hr. eapply header_frame; [by apply (hc_head _ _ _ _ _ Hc)|]. intros x Hx.
    destruct (hc_reg _ _ _ _ _ Hc _ _ Hr) as (_ & _ & Hn & _ & Hd & _). apply Hs; [lia|].
    intros z a j _ Hb. pose proof (block_in _ _ _ _ _ Hb).
    destruct (block_header _ _ _ _ _ Hc _ _ _ _ _ _ Hb Hr); lia.
Qed.
End steps.

(** ** Pages that come and go *)

Lemma map_pages_lookup junk m va n a : 0 ≤ n → map_pages junk m va n !! a =
  if bool_decide (va ≤ a < va + n * PG_SIZE) then Some (u8 (junk a)) else m !! a.
Proof.
  intros Hn. unfold map_pages, PG_SIZE. set (l := seqZ va (n * 4096)).
  assert (∀ x, x ∈ l ↔ va ≤ x < va + n * 4096) as Hl by (intros; unfold l; apply elem_of_seqZ).
  rewrite (bool_decide_ext _ (a ∈ l)) by (symmetry; apply Hl). clearbody l. clear Hl.
  induction l as [|b l IH]; cbn [foldr]; [done|]. destruct (decide (a = b)) as [->|Hne].
  - by rewrite lookup_insert_eq, bool_decide_eq_true_2 by by left.
  - rewrite lookup_insert_ne, IH by done. by rewrite (bool_decide_ext (a ∈ b :: l) (a ∈ l))
      by (rewrite elem_of_cons; naive_solver).
Qed.

Lemma unmap_pages_lookup m va n a : unmap_pages m va n !! a =
  if bool_decide (va ≤ a < va + n * PG_SIZE) then None else m !! a.
Proof.
  unfold unmap_pages. case_bool_decide as E.
  - apply map_lookup_filter_None. right. intros b _. cbn. tauto.
  - destruct (m !! a) as [b|] eqn:Hb.
    + by apply map_lookup_filter_Some.
    + apply map_lookup_filter_None. by left.
Qed.

Section region_steps.
Context (m : mem) (p : P) (fl : Z → list Z) (regs : regions) (cnts : Z → Z).
Context (Hc : hcore m p fl regs cnts).

Lemma block_of_insert a i j x b r : regs !! b = None →
  block_of regs a i j x → block_of (<[b := r]> regs) a i j x.
Proof using.
  intros Hb (Hr & ?). split; [|done]. rewrite lookup_insert_ne; [done|]. intros ->. congruence.
Qed.

(** New pages with a header. *)
Lemma hcore_new m' p' va r c :
  pa_inv p' → va mod 4096 = 0 → 4096 ≤ va → 1 ≤ npages r → va + npages r * PG_SIZE ≤ 4290772992 →
  (∀ i, r = Small i → 0 ≤ i < 7) →
  (∀ a, va ≤ a < va + npages r * PG_SIZE → pa_region p a) →
  (∀ a, pa_region p' a ↔ pa_region p a) →
  (∀ pg, va / 4096 ≤ pg < va / 4096 + npages r → ¬ pa_used p pg) →
  (∀ pg, pa_used p' pg ↔ pa_used p pg ∨ va / 4096 ≤ pg < va / 4096 + npages r) →
  (∀ a, ¬ (va ≤ a < va + npages r * PG_SIZE) → m' !! a = m !! a) →
  valid m' va (npages r * PG_SIZE) → header m' va c r →
  hcore m' p' fl (<[va := r]> regs) (upd cnts va c) ∧ regs !! va = None.
Proof using Hc.
  unfold PG_SIZE. intros Hinv Hal Hlo Hn Hhi Hidx Hreg Hreg' Hnew Hused Hsame Hval Hhead.
  pose proof Hc as [H1 (R1 & R2 & R3) H3 H4 H5 H6 H7 H8 H9].
  assert (∀ a, va ≤ a < va + npages r * 4096 → m !! a = None) as Hnone.
  { intros a Ha. destruct (m !! a) eqn:E; [|done]. exfalso. apply (Hnew (a / 4096)); [zdlia|].
    apply H6; [by rewrite E|by apply Hreg]. }
  assert (∀ a n, 0 < n → valid m a n → a + n ≤ va ∨ va + npages r * 4096 ≤ a) as Hapart.
  { intros a n Hn0 Hv. destruct (decide (a + n ≤ va)); [by left|].
    destruct (decide (va + npages r * 4096 ≤ a)); [by right|]. exfalso.
    destruct (Hv (Z.max a va)) as [b Hb]; [lia|]. rewrite Hnone in Hb by lia. done. }
  assert (∀ a n, 0 < n → valid m a n → valid m' a n) as Hvv.
  { intros a n Hn0 Hv x Hx. rewrite Hsame; [by apply Hv|]. destruct (Hapart a n Hn0 Hv); lia. }
  assert (∀ b s, regs !! b = Some s → b + npages s * 4096 ≤ va ∨ va + npages r * 4096 ≤ b) as Hrs.
  { intros b s Hs. destruct (H7 b s Hs) as (_ & _ & ? & _ & _ & Hv & _). apply Hapart; [lia|done]. }
  assert (regs !! va = None) as Hva.
  { destruct (regs !! va) as [s|] eqn:E; [|done]. destruct (Hrs _ _ E), (H7 _ _ E) as (_ & _ & ? & _); lia. }
  assert (descs + 168 ≤ va ∨ va + npages r * 4096 ≤ descs) as Hd by (apply Hapart; [lia|done]).
  split; [|done]. split; auto.
  - split_and!; [done|done|apply Hvv; [lia|done]].
  - intros i Hi. pose proof (desc_range i Hi). destruct (H3 i Hi) as [E1 E2].
    unfold block_size, blocks_per_arena in *.
    rewrite (load32_lookup_ext m m'), (load32_lookup_ext m m' (desc_of i + 4)); [done|..];
      intros x Hx; apply Hsame; lia.
  - intros i Hi. eapply dll_frame; [by apply H4|]. intros n a Hn' Ha. apply Hsame.
    destruct (Hapart n 8); [lia|by eapply dll_nodes_valid; [apply H4|]|lia|lia].
  - intros i x Hi Hx. destruct (H5 i x Hi Hx) as (a & j & Hb). exists a, j. by apply block_of_insert.
  - intros a Ha Hra. rewrite Hused. destruct (decide (va ≤ a < va + npages r * 4096)); [right; zdlia|].
    left. apply H6; [by rewrite Hsame in Ha|by apply Hreg'].
  - intros a s. destruct (decide (a = va)) as [->|Hne].
    + rewrite lookup_insert_eq. intros [= <-]. split_and!; try done.
      * intros x Hx. by apply Hreg', Hreg.
      * intros pg Hpg. apply Hused. by right.
    + rewrite lookup_insert_ne by done. intros Hs.
      destruct (H7 a s Hs) as (? & ? & ? & ? & ? & ? & Hx1 & Hx2 & ?). split_and!; try done.
      * apply Hvv; [lia|done].
      * intros x Hx. by apply Hreg', Hx1.
      * intros pg Hpg. apply Hused. left. by apply Hx2.
  - intros a b s t. destruct (decide (a = va)) as [->|Ha], (decide (b = va)) as [->|Hb];
      rewrite ?lookup_insert_eq, ?lookup_insert_ne by done; intros Hs Ht Hab; [done|..].
    + injection Hs as <-. destruct (Hrs _ _ Ht); auto.
    + injection Ht as <-. by apply Hrs.
    + by apply H8.
  - intros a s. destruct (decide (a = va)) as [->|Hne].
    + rewrite lookup_insert_eq, upd_eq. by intros [= <-].
    + rewrite lookup_insert_ne, upd_ne by done. intros Hs. eapply header_frame; [by apply H9|].
      intros x Hx. apply Hsame. destruct (Hrs _ _ Hs), (H7 _ _ Hs) as (_ & _ & ? & _); lia.
Qed.

(** Pages of a run without free blocks go. *)
Lemma hcore_drop p' a r :
  regs !! a = Some r → (∀ i x, 0 ≤ i < 7 → x ∈ fl i → ¬ (a ≤ x < a + npages r * PG_SIZE)) →
  pa_inv p' → (∀ x, pa_region p' x ↔ pa_region p x) →
  (∀ pg, pa_used p' pg ↔ pa_used p pg ∧ ¬ (a / 4096 ≤ pg < a / 4096 + npages r)) →
  hcore (unmap_pages m a (npages r)) p' fl (delete a regs) cnts.
Proof using Hc.
  unfold PG_SIZE. intros Hr Hfree Hinv Hreg Hused.
  pose proof Hc as [H1 (R1 & R2 & R3) H3 H4 H5 H6 H7 H8 H9]. set (m' := unmap_pages _ _ _).
  destruct (H7 a r Hr) as (Ha & Hlo & Hn & Hhi & Hd & _).
  assert (∀ x, ¬ (a ≤ x < a + npages r * 4096) → m' !! x = m !! x) as Hsame.
  { intros x Hx. unfold m'. rewrite unmap_pages_lookup. by rewrite bool_decide_eq_false_2. }
  assert (∀ b s, regs !! b = Some s → b ≠ a → b + npages s * 4096 ≤ a ∨ a + npages r * 4096 ≤ b) as Hrs.
  { intros b s Hs Hb. by apply (H8 b a s r). }
  assert (∀ i b j x, 0 ≤ i < 7 → x ∈ fl i → block_of regs b i j x → b ≠ a) as Hba.
  { intros i b j x Hi Hx Hb ->. apply (Hfree i x Hi Hx). destruct (block_in _ _ _ _ _ Hb).
    destruct Hb as (E & _). rewrite Hr in E. injection E as ->. cbn. lia. }
  split; auto.
  - split_and!; [done|done|]. intros x Hx. rewrite Hsame by lia. by apply R3.
  - intros i Hi. pose proof (desc_range i Hi). destruct (H3 i Hi) as [E1 E2].
    unfold block_size, blocks_per_arena in *.
    rewrite (load32_lookup_ext m m'), (load32_lookup_ext m m' (desc_of i + 4)); [done|..];
      intros x Hx; apply Hsame; lia.
  - intros i Hi. eapply dll_frame; [by apply H4|]. intros n x Hn' Hx. apply Hsame.
    pose proof (desc_range i Hi).
    destruct (node_cases _ _ _ _ _ Hc i n Hi Hn') as [->|[->|(b & j & Hb)]]; [lia|lia|].
    destruct (block_in _ _ _ _ _ Hb) as (? & ? & ?). destruct (decide (b = a)) as [->|Hne].
    + exfalso. destruct Hb as (E & _ & _ & En). rewrite Hr in E. injection E as ->. cbn in *.
      unfold nodes in Hn'. rewrite elem_of_cons, elem_of_app, elem_of_cons in Hn'.
      unfold head, tail, free_list in Hn'. 
      destruct Hn' as [?|[Hf|[?|Hz]]]; [lia| |lia|by apply not_elem_of_nil in Hz].
      apply (Hfree i n Hi Hf). lia.
    + destruct Hb as (E & _). destruct (Hrs b (Small i) E Hne) as [Hs|Hs]; cbn in Hs; lia.
  - intros i x Hi Hx. destruct (H5 i x Hi Hx) as (b & j & Hb). exists b, j.
    pose proof (Hba i b j x Hi Hx Hb). destruct Hb as (E & ?). split; [|done].
    by rewrite lookup_delete_ne.
  - intros x Hx Hrx. unfold m' in Hx. rewrite unmap_pages_lookup in Hx. unfold PG_SIZE in Hx.
    case_bool_decide; [by destruct Hx|]. apply Hused. split; [|zdlia]. apply H6; [done|by apply Hreg].
  - intros b s Hs. apply lookup_delete_Some in Hs as [Hne Hs].
    destruct (H7 b s Hs) as (? & ? & ? & ? & ? & Hv & Hx1 & Hx2 & ?). split_and!; try done.
    + intros x Hx. rewrite Hsame; [by apply Hv|]. destruct (Hrs b s Hs); [done|lia|lia].
    + intros x Hx. by apply Hreg, Hx1.
    + intros pg Hpg. apply Hused. split; [by apply Hx2|]. destruct (Hrs b s Hs); [done|zdlia|zdlia].
  - intros b c s t [_ Hs]%lookup_delete_Some [_ Ht]%lookup_delete_Some. by apply H8.
  - intros b s [Hne Hs]%lookup_delete_Some. eapply header_frame; [by apply H9|]. intros x Hx.
    apply Hsame. destruct (Hrs b s Hs), (H7 _ _ Hs) as (_ & _ & ? & _); [done|lia|lia].
Qed.
End region_steps.

(** ** The free lists *)

Lemma same_outside_perm m m' l l' : l ≡ₚ l' → same_outside m m' l → same_outside m m' l'.
Proof. intros Hp Hs a Ha. apply Hs. by rewrite Hp. Qed.

Lemma nodes_snoc d xs e : e :: nodes d xs ≡ₚ nodes d (xs ++ [e]).
Proof. unfold nodes. rewrite <- app_assoc. cbn. by rewrite perm_swap, Permutation_middle. Qed.

(** Bytes of the allocations a change leaves alone; [b] is excepted. *)
Definition keeps (m m' : mem) (fl : Z → list Z) (regs : regions) (b : Z) : Prop :=
  ∀ x n y, live fl regs x n → x ≠ b → x ≤ y < x + n → m' !! y = m !! y.

Section lists.
Context (m : mem) (p : P) (fl : Z → list Z) (regs : regions) (cnts : Z → Z).
Context (Hc : hcore m p fl regs cnts).

Lemma block_valid a i j x : block_of regs a i j x → valid m x (bs i) ∧ node_ok m x.
Proof using Hc.
  intros Hb. pose proof (block_in _ _ _ _ _ Hb) as (H1 & H2 & H3). destruct Hb as (Hr & _).
  destruct (hc_reg _ _ _ _ _ Hc _ _ Hr) as (_ & ? & _ & Hhi & _ & Hv & _). cbn in Hhi, Hv.
  assert (valid m x (bs i)) as Hvb by (eapply valid_sub; [done|lia|lia]).
  split; [done|]. split; [change (2 ^ 32) with 4294967296; lia|]. eapply valid_sub; [done|lia|lia].
Qed.

Lemma block_fresh a i j x : block_of regs a i j x → x ∉ fl i →
  fresh_node m (free_list (desc_of i)) (fl i) x.
Proof using Hc.
  intros Hb Hx. split; [by eapply block_valid|]. apply Forall_forall. intros n Hn. unfold node_sep.
  pose proof (block_in _ _ _ _ _ Hb). pose proof (block_descs _ _ _ _ _ Hc _ _ _ _ Hb).
  assert (0 ≤ i < 7) as Hi by apply Hb. pose proof (desc_range i Hi).
  unfold nodes, head, tail, free_list in Hn. rewrite elem_of_cons, elem_of_app, elem_of_cons in Hn.
  destruct Hn as [->|[Hf|[->|Hz]]]; [lia| |lia|by apply not_elem_of_nil in Hz].
  destruct (hc_free _ _ _ _ _ Hc i n Hi Hf) as (a' & j' & Hb').
  pose proof (block_in _ _ _ _ _ Hb').
  destruct (block_block _ _ _ _ _ Hc _ _ _ _ _ _ _ _ Hb Hb'); [by intros ->|lia|lia].
Qed.

(** Allocations lie apart from free blocks, headers and descriptors. *)
Lemma live_block x n a i j z : live fl regs x n → block_of regs a i j z → x ≠ z →
  x + n ≤ z ∨ z + bs i ≤ x.
Proof using Hc.
  intros [(b & k & l & Hb & _ & ->)|(b & k & Hr & -> & ->)] Hz Hne.
  - by eapply block_block.
  - pose proof (block_in _ _ _ _ _ Hz). destruct (block_large _ _ _ _ _ Hc _ _ _ _ _ _ Hz Hr); lia.
Qed.

Lemma live_not_free x n i z : live fl regs x n → 0 ≤ i < 7 → z ∈ fl i → x ≠ z.
Proof using Hc.
  intros Hl Hi Hz ->. destruct (hc_free _ _ _ _ _ Hc i z Hi Hz) as (a' & j' & Hb').
  destruct Hl as [(a & k & j & Hb & Hn & _)|(a & k & Hr & -> & _)].
  - assert (k = i) as -> by (by eapply block_index). done.
  - pose proof (block_in _ _ _ _ _ Hb') as Hin. destruct (reg_range _ _ _ _ _ Hc _ _ Hr) as (_ & Hk & _).
    cbn in Hk. destruct (block_large _ _ _ _ _ Hc _ _ _ _ _ _ Hb' Hr); lia.
Qed.

Lemma live_header x n a r : live fl regs x n → regs !! a = Some r → x + n ≤ a ∨ a + 12 ≤ x.
Proof using Hc.
  intros [(b & k & l & Hb & _ & ->)|(b & k & Hr & -> & ->)] Ha.
  - by eapply block_header.
  - destruct (decide (a = b)) as [->|Hne]; [lia|].
    destruct (reg_range _ _ _ _ _ Hc _ _ Ha) as (_ & Hn & _).
    destruct (hc_sep _ _ _ _ _ Hc _ _ _ _ Ha Hr Hne) as [Hs|Hs]; cbn in Hs; lia.
Qed.

Lemma live_descs x n : live fl regs x n → x + n ≤ descs ∨ descs + 168 ≤ x.
Proof using Hc.
  intros [(b & k & l & Hb & _ & ->)|(b & k & Hr & -> & ->)].
  - by eapply block_descs.
  - destruct (hc_reg _ _ _ _ _ Hc _ _ Hr) as (_ & _ & _ & _ & Hs & _). cbn in Hs. lia.
Qed.

(** Work on free blocks [zs] of size [i] keeps the allocations. *)
Lemma keeps_list m' i zs b :
  0 ≤ i < 7 → same_outside m m' (nodes (free_list (desc_of i)) zs) →
  (∀ z, z ∈ zs → z ∈ fl i ∨ z = b) → (∀ z, z ∈ zs → ∃ a j, block_of regs a i j z) →
  keeps m m' fl regs b.
Proof using Hc.
  intros Hi Hs Hz Hzb x n y Hl Hx Hy. apply Hs. pose proof (desc_range i Hi).
  destruct (live_descs _ _ Hl) as [?|?]; unfold nodes, head, tail, free_list;
    (apply Forall_cons; split; [lia|]; apply Forall_app; split; [|apply Forall_singleton; lia];
     apply Forall_forall; intros z Hzz; destruct (Hzb z Hzz) as (a & j & Hb);
     pose proof (block_in _ _ _ _ _ Hb);
     destruct (live_block x n _ _ _ _ Hl Hb);
       [destruct (Hz z Hzz) as [Hf| ->]; [by eapply live_not_free|done]|lia|lia]).
Qed.

Lemma hcore_pop i b xs :
  0 ≤ i < 7 → fl i = b :: xs →
  ∃ m', (∀ s, ram s = m → list_pop s (free_list (desc_of i)) = Ok (b, Machine m' (eflags s))) ∧
    hcore m' p (upd fl i xs) regs cnts ∧ (∀ b', keeps m m' fl regs b').
Proof using Hc.
  intros Hi E. pose proof (hc_list _ _ _ _ _ Hc i Hi) as Hd. rewrite E in Hd.
  destruct (list_pop_spec m _ b xs Hd) as (m' & Hm'). exists m'.
  destruct (Hm' (Machine m 0) eq_refl) as (_ & Hd' & Hs).
  split; [intros s Hs'; by apply Hm'|].
  assert (∀ z, z ∈ xs → ∃ a j, block_of regs a i j z) as Hzs.
  { intros z Hz. apply (hc_free _ _ _ _ _ Hc i z Hi). rewrite E. by right. }
  split; [|intros b'; apply (keeps_list m' i xs b' Hi Hs); [|done]; intros z Hz; left; rewrite E; by right].
  apply (hcore_list m p fl regs cnts Hc m' i xs xs Hi Hd' Hs Hzs); [done|].
  intros x. apply (same_outside_dom _ _ _ _ Hs); apply Forall_forall; intros n Hn.
  - apply (dll_nodes_valid _ _ _ _ Hd). unfold nodes in *.
    revert Hn. rewrite !elem_of_cons, !elem_of_app, !elem_of_cons. tauto.
  - by apply (dll_nodes_valid _ _ _ _ Hd').
Qed.

Lemma hcore_append a i j b :
  block_of regs a i j b → b ∉ fl i →
  ∃ m', (∀ s, ram s = m → list_append s (free_list (desc_of i)) b = Ok (Machine m' (eflags s))) ∧
    hcore m' p (upd fl i (fl i ++ [b])) regs cnts ∧ keeps m m' fl regs b.
Proof using Hc.
  intros Hb Hn. assert (0 ≤ i < 7) as Hi by apply Hb. pose proof (hc_list _ _ _ _ _ Hc i Hi) as Hd.
  destruct (list_append_spec m _ (fl i) b Hd) as (m' & Hm'); [by eapply block_fresh|]. exists m'.
  destruct (Hm' (Machine m 0) eq_refl) as (_ & Hd' & Hs).
  split; [intros s Hs'; by apply Hm'|].
  eapply same_outside_perm in Hs; [|apply nodes_snoc].
  assert (∀ z, z ∈ fl i ++ [b] → ∃ a j, block_of regs a i j z) as Hzs.
  { intros z [Hz|Hz]%elem_of_app; [by apply (hc_free _ _ _ _ _ Hc)|].
    apply list_elem_of_singleton in Hz as ->. by exists a, j. }
  split.
  - apply (hcore_list m p fl regs cnts Hc m' i _ _ Hi Hd' Hs Hzs); [done|].
    intros x. apply (same_outside_dom _ _ _ _ Hs); apply Forall_forall; intros n Hnn.
    + rewrite <- nodes_snoc in Hnn. apply elem_of_cons in Hnn as [->|Hnn].
      * by eapply block_valid.
      * by apply (dll_nodes_valid _ _ _ _ Hd).
    + by apply (dll_nodes_valid _ _ _ _ Hd').
  - apply (keeps_list m' i _ b Hi Hs); [|done]. intros z [Hz|Hz]%elem_of_app; [by left|].
    apply list_elem_of_singleton in Hz. by right.
Qed.

Lemma hcore_remove i b l1 l2 :
  0 ≤ i < 7 → fl i = l1 ++ b :: l2 →
  ∃ m', (∀ s, ram s = m → list_remove s b = Ok (Machine m' (eflags s))) ∧
    hcore m' p (upd fl i (l1 ++ l2)) regs cnts ∧ (∀ b', keeps m m' fl regs b').
Proof using Hc.
  intros Hi E. pose proof (hc_list _ _ _ _ _ Hc i Hi) as Hd. rewrite E in Hd.
  destruct (list_remove_spec m _ l1 b l2 Hd) as (m' & Hm'). exists m'.
  destruct (Hm' (Machine m 0) eq_refl) as (_ & Hd' & Hs).
  split; [intros s Hs'; by apply Hm'|].
  assert (∀ z, z ∈ l1 ++ l2 → z ∈ fl i) as Hin.
  { intros z. rewrite E, !elem_of_app, elem_of_cons. tauto. }
  assert (∀ z, z ∈ l1 ++ l2 → ∃ a j, block_of regs a i j z) as Hzs.
  { intros z Hz. by apply (hc_free _ _ _ _ _ Hc i z Hi), Hin. }
  split; [|intros b'; apply (keeps_list m' i _ b' Hi Hs); [|done]; intros z Hz; left; auto].
  apply (hcore_list m p fl regs cnts Hc m' i _ _ Hi Hd' Hs Hzs); [done|].
  intros x. apply (same_outside_dom _ _ _ _ Hs); apply Forall_forall; intros n Hn.
  - apply (dll_nodes_valid _ _ _ _ Hd). unfold nodes in *.
    revert Hn. rewrite !elem_of_cons, !elem_of_app, !elem_of_cons. tauto.
  - by apply (dll_nodes_valid _ _ _ _ Hd').
Qed.
End lists.

(** ** Taking a block *)

Lemma hcore_ext m p fl fl' regs cnts :
  (∀ i, 0 ≤ i < 7 → fl' i = fl i) → hcore m p fl regs cnts → hcore m p fl' regs cnts.
Proof.
  intros He [H1 H2 H3 H4 H5 H6 H7 H8 H9]. split; auto.
  - intros i Hi. rewrite He by done. auto.
  - intros i x Hi. rewrite He by done. auto.
Qed.

Lemma live_ext fl fl' regs x n : (∀ i, 0 ≤ i < 7 → fl' i = fl i) → live fl' regs x n ↔ live fl regs x n.
Proof.
  intros He. unfold live. split; (intros [(a & i & j & Hb & Hn & E)|?]; [left|by right]);
    exists a, i, j; (split; [done|]); assert (0 ≤ i < 7) by apply Hb; [rewrite <- He|rewrite He]; done.
Qed.

Lemma fl_nodup m p fl regs cnts i : hcore m p fl regs cnts → 0 ≤ i < 7 → NoDup (fl i).
Proof.
  intros Hc Hi. destruct (hc_list _ _ _ _ _ Hc i Hi) as [_ Hs _]. apply separated_NoDup in Hs.
  unfold nodes in Hs. apply NoDup_cons in Hs as [_ Hs]. by apply NoDup_app in Hs as (Hs & _).
Qed.

(** The recorded numbers of free blocks are right, and no arena is all free,
    except perhaps [a0]. *)
Definition counted (fl : Z → list Z) (regs : regions) (cnts : Z → Z) (a0 : Z) : Prop :=
  ∀ a i, regs !! a = Some (Small i) → cnts a = Z.of_nat (length (free_of fl a i)) ∧
    cnts a ≤ bpa i ∧ (a ≠ a0 → cnts a < bpa i).

(** Allocations after block [b] was taken off the list. *)
Lemma live_pop m p fl regs cnts a i j b xs x n :
  hcore m p fl regs cnts → block_of regs a i j b → fl i = b :: xs →
  live (upd fl i xs) regs x n ↔ live fl regs x n ∨ (x = b ∧ n = bs i).
Proof.
  intros Hc Hb E. assert (0 ≤ i < 7) as Hi by apply Hb.
  pose proof (fl_nodup _ _ _ _ _ i Hc Hi) as Hnd. rewrite E in Hnd. apply NoDup_cons in Hnd as [Hbx _].
  split.
  - intros [(a' & i' & j' & Hb' & Hn & ->)|?]; [|by left; right].
    destruct (decide (i' = i)) as [->|Hne].
    + rewrite upd_eq in Hn. destruct (decide (x = b)) as [->|Hxb]; [by right|]. left. left.
      exists a', i, j'. split_and!; try done. rewrite E, not_elem_of_cons. done.
    + rewrite upd_ne in Hn by done. left. left. by exists a', i', j'.
  - intros [[(a' & i' & j' & Hb' & Hn & ->)|?]|[-> ->]]; [|by right|].
    + left. exists a', i', j'. split_and!; try done. destruct (decide (i' = i)) as [->|Hne].
      * rewrite upd_eq. rewrite E, not_elem_of_cons in Hn. tauto.
      * by rewrite upd_ne.
    + left. exists a, i, j. split_and!; try done. by rewrite upd_eq.
Qed.

Lemma free_of_pop fl i b xs a' i' :
  fl i = b :: xs → Z.of_nat (length (free_of (upd fl i xs) a' i')) =
    Z.of_nat (length (free_of fl a' i')) - (if decide (i' = i ∧ b / 4096 * 4096 = a') then 1 else 0).
Proof.
  intros E. unfold free_of. destruct (decide (i' = i)) as [->|Hne].
  - rewrite upd_eq, E, filter_cons. repeat case_decide; try tauto; cbn [length]; lia.
  - rewrite upd_ne by done. case_decide; [tauto|lia].
Qed.

Lemma take_block_spec h fl regs cnts a i j b xs :
  hcore (h_ram h) (pages h) fl regs cnts → counted fl regs cnts a → block_of regs a i j b →
  fl i = b :: xs → 1 ≤ held h →
  ∃ m', take_block h (desc_of i) = Ok (b, Heap (Machine m' (eflags (mach h))) (pages h) (held h - 1)) ∧
    heap_inv (Heap (Machine m' (eflags (mach h))) (pages h) (held h - 1)) (upd fl i xs) regs ∧
    (∀ y, b ≤ y < b + bs i → m' !! y = Some 0) ∧ keeps (h_ram h) m' fl regs b.
Proof.
  intros Hc Hcnt Hb E Hheld. assert (0 ≤ i < 7) as Hi by apply Hb.
  pose proof (bs_facts i Hi) as Hbs. unfold take_block.
  destruct (hcore_pop _ _ _ _ _ Hc i b xs Hi E) as (m1 & -> & Hc1 & Hk1); [|done]. ocbn.
  cbn [h_ram set_mach mach ram].
  destruct (hc_desc _ _ _ _ _ Hc1 i Hi) as [-> _]. ocbn.
  destruct (block_valid _ _ _ _ _ Hc1 _ _ _ _ Hb) as [Hv [Hr _]].
  destruct (memset_spec m1 b 0 (bs i)) as (m2 & -> & Hm2); [unfold NULL; lia|lia|done|]. ocbn.
  assert (b ∉ xs) as Hbx.
  { pose proof (fl_nodup _ _ _ _ _ i Hc Hi) as Hnd. rewrite E in Hnd. by apply NoDup_cons in Hnd as [? _]. }
  assert (hcore m2 (pages h) (upd fl i xs) regs cnts) as Hc2.
  { apply (hcore_block m1 _ _ _ _ Hc1 m2 a i j b (bs i)); [done|by rewrite upd_eq|lia| |].
    - intros y. rewrite Hm2. gdecide as Ey; [|done]. split; intros _; [by apply Hv|by eexists].
    - intros y Hy. by rewrite Hm2, bool_decide_eq_false_2. }
  destruct (block_arena _ _ _ _ _ Hc _ _ _ _ Hb) as [Eb ->].
  assert (regs !! a = Some (Small i)) as Ha by apply Hb.
  destruct (Hcnt a i Ha) as (Ec & Hle & _).
  destruct (hc_head _ _ _ _ _ Hc2 _ _ Ha) as [Hcn _]. rewrite Hcn. ocbn.
  assert (1 ≤ cnts a) as Hpos.
  { rewrite Ec. unfold free_of. rewrite E, filter_cons, decide_True by done. cbn [length]. lia. }
  destruct (hc_reg _ _ _ _ _ Hc2 _ _ Ha) as (_ & Hlo & _ & Hhi & _ & Hva & _). cbn in Hva, Hhi.
  rewrite store32_valid by (eapply valid_sub; [exact Hva| |]; unfold cnt; lia). ocbn.
  unfold release. cbn [held set_ram set_mach mach pages eflags].
  destruct (Z.leb_spec 1 (held h)); [|lia]. ocbn.
  rewrite u32_small by lia. eexists. split; [done|].
  pose proof (hcore_cnt _ _ _ _ _ Hc2 a i (cnts a - 1) Ha ltac:(change (2 ^ 32) with 4294967296; lia)) as Hc3.
  split; [split; cbn [h_ram mach pages ram]|split].
  - eexists. split; [exact Hc3|]. intros a' i' Ha'. rewrite (free_of_pop _ i b) by done.
    destruct (Hcnt a' i' Ha') as (E' & _). destruct (decide (a' = a)) as [->|Hne].
    + rewrite upd_eq. rewrite decide_True; [lia|]. split; [congruence|done].
    + rewrite upd_ne by done. rewrite decide_False; [lia|]. intros [_ ?]. congruence.
  - intros a' i' Ha'. rewrite (free_of_pop _ i b) by done. destruct (Hcnt a' i' Ha') as (E' & Hle' & Hlt').
    destruct (decide (a' = a)) as [->|Hne].
    + rewrite decide_True; [lia|]. split; [congruence|done].
    + rewrite decide_False; [|intros [_ ?]; congruence]. specialize (Hlt' Hne). lia.
  - intros y Hy. pose proof (block_in _ _ _ _ _ Hb). rewrite put32_lookup_ne by (unfold cnt; lia).
    by rewrite Hm2, bool_decide_eq_true_2.
  - intros x n y Hl Hx Hy. 
    destruct (live_header _ _ _ _ _ Hc _ _ _ _ Hl Ha);
      (rewrite put32_lookup_ne by (unfold cnt; lia)); rewrite Hm2, bool_decide_eq_false_2;
      try (by apply (Hk1 b x n)); destruct (live_block _ _ _ _ _ Hc _ _ _ _ _ _ Hl Hb Hx); lia.
Qed.

(** ** Finding the size *)

Lemma find_desc_loop env m p fl regs cnts size : env_descs env = descs →
  hcore m p fl regs cnts → 0 < size ≤ 1024 → ∀ fuel k,
  0 ≤ k < 7 → 7 - k < Z.of_nat fuel → (∀ k', 0 ≤ k' < k → bs k' < size) →
  ∃ i, loop fuel (λ desc_idx,
      if desc_idx <? DESC_CNT then
        bs ← load32 m (block_size (env_descs env + sizeof_mem_block_desc * desc_idx));
        if size <=? bs then Ok (inr desc_idx) else Ok (inl (u8 (desc_idx + 1)))
      else Ok (inr desc_idx)) k = Ok i ∧
    0 ≤ i < 7 ∧ size ≤ bs i ∧ ∀ k', 0 ≤ k' < i → bs k' < size.
Proof.
  intros Ed Hc Hsize fuel. induction fuel as [|fuel IH]; intros k Hk Hf Hlt; [lia|]. cbn [loop].
  unfold DESC_CNT. destruct (Z.ltb_spec k 7); [|lia]. rewrite Ed. fold (desc_of k).
  destruct (hc_desc _ _ _ _ _ Hc k Hk) as [-> _]. ocbn. destruct (Z.leb_spec size (bs k)).
  - exists k. done.
  - destruct (decide (k = 6)) as [->|Hk6]; [change (bs 6) with 1024 in *; lia|].
    rewrite u8_small by lia. rewrite Ed in IH. apply IH; [lia|lia|]. intros k' Hk'.
    destruct (decide (k' = k)) as [->|]; [done|]. apply Hlt. lia.
Qed.

Lemma find_desc_spec env m p fl regs cnts size : env_descs env = descs →
  hcore m p fl regs cnts → 0 < size ≤ 1024 →
  ∃ i, find_desc env m size = Ok i ∧ 0 ≤ i < 7 ∧ size ≤ bs i ∧ ∀ k', 0 ≤ k' < i → bs k' < size.
Proof.
  intros Ed Hc Hs. unfold find_desc. eapply (find_desc_loop env m); try done. intros; lia.
Qed.

(** ** A new arena *)

Definition blocks (a i : Z) (k : nat) : list Z := (λ j, a + 12 + j * bs i) <$> seqZ 0 (Z.of_nat k).

Lemma blocks_elem a i k x : x ∈ blocks a i k ↔ ∃ j, 0 ≤ j < Z.of_nat k ∧ x = a + 12 + j * bs i.
Proof.
  unfold blocks. rewrite list_elem_of_fmap. split.
  - intros (j & -> & Hj%elem_of_seqZ). exists j. split; [lia|done].
  - intros (j & Hj & ->). exists j. split; [done|]. apply elem_of_seqZ. lia.
Qed.

Lemma blocks_snoc a i k : blocks a i (S k) = blocks a i k ++ [a + 12 + Z.of_nat k * bs i].
Proof.
  unfold blocks. rewrite Nat2Z.inj_succ, <- Z.add_1_r, seqZ_app, fmap_app by lia.
  done.
Qed.

Lemma blocks_length a i k : length (blocks a i k) = k.
Proof. unfold blocks. rewrite length_fmap, length_seqZ. lia. Qed.

Lemma arena2block_spec m p fl regs cnts a i j x :
  hcore m p fl regs cnts → block_of regs a i j x → arena2block m a j = Ok x.
Proof.
  intros Hc Hb. pose proof (block_in _ _ _ _ _ Hb). destruct Hb as (Hr & Hi & Hj & ->).
  unfold arena2block. destruct (hc_head _ _ _ _ _ Hc _ _ Hr) as (_ & -> & _). ocbn.
  destruct (hc_desc _ _ _ _ _ Hc i Hi) as [-> _]. ocbn. unfold sizeof_arena. rewrite u32_small; [done|].
  destruct (reg_range _ _ _ _ _ Hc _ _ Hr) as (? & _ & ?). cbn in *. lia.
Qed.

(** Splitting the arena from block [k] on. *)
Lemma split_arena_loop p fl regs cnts a i : regs !! a = Some (Small i) → 0 ≤ i < 7 →
  ∀ fuel (k : nat) s, Z.of_nat k ≤ bpa i → bpa i - Z.of_nat k < Z.of_nat fuel →
  hcore (ram s) p (upd fl i (blocks a i k)) regs cnts →
  ∃ m', loop fuel (λ '(block_idx, s),
      n ← load32 (ram s) (blocks_per_arena (desc_of i));
      if block_idx <? n then
        b ← arena2block (ram s) a block_idx;
        d' ← load32 (ram s) (desc a);
        e ← elem_find s (free_list d') b;
        ASSERT (negb e);;
        d' ← load32 (ram s) (desc a);
        s ← list_append s (free_list d') b;
        Ok (inl (u32 (block_idx + 1), s))
      else Ok (inr s)) (Z.of_nat k, s) = Ok (Machine m' (eflags s)) ∧
    hcore m' p (upd fl i (blocks a i (Z.to_nat (bpa i)))) regs cnts ∧
    (∀ x n y, live fl regs x n → (∀ j, 0 ≤ j < bpa i → x ≠ a + 12 + j * bs i) → x ≤ y < x + n → m' !! y = ram s !! y).
Proof.
  intros Hr Hi fuel. induction fuel as [|fuel IH]; intros k s Hk Hf Hc; [lia|]. cbn [loop].
  pose proof (bs_facts i Hi) as Hbs.
  destruct (hc_desc _ _ _ _ _ Hc i Hi) as [_ ->]. ocbn. destruct (Z.ltb_spec (Z.of_nat k) (bpa i)) as [Hlt|Hge].
  - assert (block_of regs a i (Z.of_nat k) (a + 12 + Z.of_nat k * bs i)) as Hb by (split_and!; done || lia).
    set (b := a + 12 + Z.of_nat k * bs i) in *.
    rewrite (arena2block_spec _ _ _ _ _ _ _ _ _ Hc Hb). ocbn.
    destruct (hc_head _ _ _ _ _ Hc _ _ Hr) as (_ & Hd & _). rewrite Hd. ocbn.
    pose proof (hc_list _ _ _ _ _ Hc i Hi) as Hdl. rewrite upd_eq in Hdl.
    assert (b ∉ blocks a i k) as Hnb.
    { rewrite blocks_elem. intros (j & Hj & E). unfold b in E.
      assert (j * bs i = Z.of_nat k * bs i) as E' by lia. apply Z.mul_cancel_r in E'; lia. }
    rewrite (elem_find_spec _ _ _ _ Hdl), bool_decide_eq_false_2 by done. ocbn.
    destruct (hcore_append _ _ _ _ _ Hc a i _ b Hb) as (m1 & Happ & Hc1 & Hk1); [by rewrite upd_eq|].
    rewrite (Happ s eq_refl). ocbn. rewrite u32_small by lia.
    replace (Z.of_nat k + 1) with (Z.of_nat (S k)) by lia.
    destruct (IH (S k) (Machine m1 (eflags s))) as (m' & Heq & Hc' & Hk').
    + lia.
    + lia.
    + eapply hcore_ext; [|exact Hc1]. intros i' _. rewrite blocks_snoc. fold b. unfold upd.
      by repeat case_decide.
    + exists m'. split; [exact Heq|]. split; [done|]. intros x n y Hl Hx Hy.
      rewrite (Hk' x n y Hl Hx Hy). cbn [ram]. apply (Hk1 x n); [|apply Hx; lia|done].
      destruct Hl as [(a' & i' & j' & Hb' & Hn & ->)|?]; [|by right]. left. exists a', i', j'.
      split_and!; try done. unfold upd. case_decide; [subst i'|done].
      rewrite blocks_elem. intros (j & Hj & ->). by apply (Hx j); [lia|].
  - exists (ram s). assert (Z.to_nat (bpa i) = k) as -> by lia. split; [by destruct s|]. done.
Qed.

(** Fresh, cleared pages before their header is written. *)
Lemma heap_pages_spec junk (h : heap P) fl regs cnts n :
  hcore (h_ram h) (pages h) fl regs cnts → 1 ≤ n < 3840 → pa_room (pages h) n →
  ∃ va p' m', heap_malloc_page junk h n = Ok (va, Heap (Machine (map_pages junk (h_ram h) va n) (eflags (mach h))) p' (held h)) ∧
    va ≠ NULL ∧ memset (map_pages junk (h_ram h) va n) va 0 (n * PG_SIZE) = Ok m' ∧
    (∀ a, m' !! a = if bool_decide (va ≤ a < va + n * PG_SIZE) then Some 0 else h_ram h !! a) ∧
    va mod 4096 = 0 ∧ 4096 ≤ va ∧ va + n * PG_SIZE ≤ 4290772992 ∧
    (∀ m2 r c, npages r = n → (∀ i, r = Small i → 0 ≤ i < 7) →
      (∀ a, ¬ (va ≤ a < va + n * PG_SIZE) → m2 !! a = h_ram h !! a) →
      valid m2 va (n * PG_SIZE) → header m2 va c r →
      hcore m2 p' fl (<[va := r]> regs) (upd cnts va c) ∧ regs !! va = None) ∧
    (∀ x k, live fl regs x k → x + k ≤ va ∨ va + n * PG_SIZE ≤ x) ∧
    (∀ a, pa_region p' a ↔ pa_region (pages h) a).
Proof.
  intros Hc Hn Hroom. unfold heap_malloc_page.
  destruct (pa_malloc_ok (pages h) n) as (va & p' & -> & Hinv & Hal & Hlo & Hhi & Hreg & Hreg' & Hnew & Hused);
    [apply Hc|done|done|]. ocbn.
  assert (va ≠ NULL) as Hnn by (unfold NULL; lia). destruct (Z.eqb_spec va NULL) as [|_]; [done|].
  assert (valid (map_pages junk (h_ram h) va n) va (n * PG_SIZE)) as Hv.
  { intros a Ha. rewrite map_pages_lookup, bool_decide_eq_true_2 by lia. by eexists. }
  destruct (memset_spec (map_pages junk (h_ram h) va n) va 0 (n * PG_SIZE)) as (m' & Hms & Hm');
    [done|unfold PG_SIZE; lia|done|].
  exists va, p', m'. split; [done|]. split; [done|]. split; [done|]. split.
  { intros a. rewrite Hm'. gdecide as E; [done|]. rewrite map_pages_lookup by lia.
    by rewrite bool_decide_eq_false_2. }
  split; [done|]. split; [done|]. split; [done|]. split; [|split; [|done]].
  - intros m2 r c <- Hidx Hsame Hval Hhead.
    apply (hcore_new (h_ram h) (pages h) fl regs cnts Hc m2 p' va r c); try done; lia.
  - intros x k Hl. unfold PG_SIZE in *.
    assert (0 < k ∧ valid (h_ram h) x k) as [Hk Hvx].
    { destruct Hl as [(b & i & j & Hb & _ & ->)|(b & q & Hr & -> & ->)].
      - pose proof (block_in _ _ _ _ _ Hb). split; [lia|]. by eapply block_valid.
      - destruct (hc_reg _ _ _ _ _ Hc _ _ Hr) as (_ & _ & ? & _ & _ & Hvv & _). cbn in *.
        split; [lia|]. eapply valid_sub; [done|lia|lia]. }
    destruct (decide (x + k ≤ va)); [by left|]. destruct (decide (va + n * 4096 ≤ x)); [by right|].
    exfalso. apply (Hnew (Z.max x va / 4096)); [zdlia|].
    apply (hc_mapped _ _ _ _ _ Hc); [apply Hvx; lia|apply Hreg; lia].
Qed.

(** Interrupts are off while the arena is split and as before afterwards. *)
Lemma intr_window {A} m f (body : machine → outcome machine) (k : machine → outcome A) m' :
  body (intr_disable (Machine m f)).2 = Ok (Machine m' (eflags (intr_disable (Machine m f)).2)) →
  (let '(old_status, s) := intr_disable (Machine m f) in
   s ← body s;
   let '(_, s) := intr_set_status s old_status in k s) = k (Machine m' f).
Proof.
  intros Hb. rewrite (surjective_pairing (intr_disable (Machine m f))), Hb. ocbn.
  rewrite (surjective_pairing (intr_set_status _ _)).
  pose proof (intr_disable_eflags (Machine m f) m') as He.
  pose proof (intr_set_status_ram (Machine m' (eflags (intr_disable (Machine m f)).2)) (intr_disable (Machine m f)).1) as Hr.
  destruct (intr_set_status _ _).2. cbn in *. by subst.
Qed.

Lemma new_arena_spec junk (h : heap P) fl regs cnts i :
  hcore (h_ram h) (pages h) fl regs cnts → 0 ≤ i < 7 → fl i = [] → pa_room (pages h) 1 →
  ∃ a p' m', new_arena junk h (desc_of i) = Ok (Some (Heap (Machine m' (eflags (mach h))) p' (held h))) ∧
    hcore m' p' (upd fl i (blocks a i (Z.to_nat (bpa i)))) (<[a := Small i]> regs) (upd cnts a (bpa i)) ∧
    regs !! a = None ∧ (∀ x k, live fl regs x k → x + k ≤ a ∨ a + 4096 ≤ x) ∧
    (∀ x n y, live fl regs x n → x ≤ y < x + n → m' !! y = h_ram h !! y) ∧
    (∀ x, pa_region p' x ↔ pa_region (pages h) x).
Proof.
  intros Hc Hi E Hroom. pose proof (bs_facts i Hi) as Hbs.
  destruct (heap_pages_spec junk h fl regs cnts 1 Hc ltac:(lia) Hroom)
    as (a & p' & m1 & Heq & Hnn & Hms & Hm1 & Hal & Hlo & Hhi & Hnew & Hapart & Hregion).
  unfold PG_SIZE in *. change (1 * 4096) with 4096 in *.
  unfold new_arena. rewrite Heq. ocbn. destruct (Z.eqb_spec a NULL); [done|]. cbn [h_ram mach ram eflags].
  unfold PG_SIZE. fold (h_ram h). rewrite Hms. ocbn.
  destruct (hc_range _ _ _ _ _ Hc) as (Hd1 & Hd2 & Hdv). pose proof (desc_range i Hi) as Hdi.
  assert (valid m1 a 4096) as Hv1.
  { intros x Hx. rewrite Hm1, bool_decide_eq_true_2 by done. by eexists. }
  unfold desc, cnt, large.
  rewrite store32_valid by (eapply valid_sub; [exact Hv1|lia|lia]). ocbn.
  set (m2 := put32 m1 a (desc_of i)).
  assert (valid m2 a 4096) as Hv2 by (by apply put32_valid).
  rewrite store32_valid by (eapply valid_sub; [exact Hv2|lia|lia]). ocbn. set (m3 := put32 m2 (a + 8) 0).
  assert (valid m3 a 4096) as Hv3 by (by apply put32_valid).
  set (m4 := put32 m3 (a + 4) (bpa i)).
  assert (∀ x, ¬ (a ≤ x < a + 4096) → m4 !! x = h_ram h !! x) as Hout.
  { intros x Hx. unfold m4, m3, m2. rewrite !put32_lookup_ne by lia.
    by rewrite Hm1, bool_decide_eq_false_2. }
  destruct (Hnew m4 (Small i) (bpa i)) as [Hc4 Hnone]; try done.
  { by intros ? [= <-]. } { by apply put32_valid. }
  { unfold m4, header, cnt, desc, large. rewrite load32_put32_eq, !load32_put32_ne by lia.
    rewrite u32_small by lia. split; [done|]. unfold m3. rewrite load32_put32_eq, load32_put32_ne by lia.
    split; [|done]. unfold m2. rewrite load32_put32_eq, u32_small; [done|]. change (2 ^ 32) with 4294967296 in *. lia. }
  assert (regs !! a = None) as Hna by done.
  assert (<[a := Small i]> regs !! a = Some (Small i)) as Hra by (by rewrite lookup_insert_eq).
  assert (load32 m3 (blocks_per_arena (desc_of i)) = Ok (bpa i)) as ->.
  { destruct (hc_desc _ _ _ _ _ Hc4 i Hi) as [_ <-]. symmetry. apply load32_put32_ne.
    destruct (hc_reg _ _ _ _ _ Hc4 a (Small i) Hra) as (_ & _ & _ & _ & Hs & _).
    cbn in Hs. unfold blocks_per_arena. lia. }
  ocbn. rewrite store32_valid by (eapply valid_sub; [exact Hv3|lia|lia]). ocbn. fold m4.
  assert (hcore m4 p' (upd fl i (blocks a i 0)) (<[a := Small i]> regs) (upd cnts a (bpa i))) as Hc5.
  { eapply hcore_ext; [|exact Hc4]. intros k _. unfold upd. case_decide; [by subst|done]. }
  set (s0 := (intr_disable (Machine m4 (eflags (mach h)))).2).
  assert (ram s0 = m4) as Hs0 by apply intr_disable_ram.
  destruct (split_arena_loop p' fl _ (upd cnts a (bpa i)) a i Hra Hi (Z.to_nat 4096) 0 s0)
    as (m5 & Hsp & Hc6 & Hk6); [lia|lia|by rewrite Hs0|].
  rewrite (intr_window m4 (eflags (mach h)) (λ s, split_arena s (desc_of i) a) _ m5 Hsp).
  exists a, p', m5. split; [done|]. split; [done|]. split; [done|]. split; [done|]. split; [|done].
  intros x n' y Hl Hy. rewrite (Hk6 x n' y).
  - rewrite Hs0. apply Hout. destruct (Hapart _ _ Hl); lia.
  - destruct Hl as [(b & k & l & Hb & Hf & ->)|(b & k & Hr & -> & ->)].
    + left. exists b, k, l. split; [by apply block_of_insert|done].
    + right. exists b, k. split; [|done]. rewrite lookup_insert_ne; [done|]. intros ->. congruence.
  - intros q Hq ->. pose proof (block_range i q Hi Hq). destruct (Hapart _ _ Hl); lia.
  - done.
Qed.

(** ** Allocation *)

(** [h'] is [h] with a new, cleared allocation of [n] bytes at [x]. *)
Record allocated (h h' : heap P) fl regs fl' regs' (x n : Z) : Prop := Allocated {
  al_inv : heap_inv h' fl' regs';
  al_live y k : live fl' regs' y k ↔ live fl regs y k ∨ (y = x ∧ k = n);
  al_apart y k : live fl regs y k → y + k ≤ x ∨ x + n ≤ y;
  al_zero y : x ≤ y < x + n → h_ram h' !! y = Some 0;
  al_keeps y k z : live fl regs y k → y ≤ z < y + k → h_ram h' !! z = h_ram h !! z;
  al_flags : eflags (mach h') = eflags (mach h);
  al_region a : pa_region (pages h') a ↔ pa_region (pages h) a
}.

Lemma inv_counted h fl regs a0 : heap_inv h fl regs →
  ∃ cnts, hcore (h_ram h) (pages h) fl regs cnts ∧ counted fl regs cnts a0.
Proof.
  intros [(cnts & Hc & Hcnt) Hsome]. exists cnts. split; [done|]. intros a i Ha.
  rewrite (Hcnt a i Ha). specialize (Hsome a i Ha). split_and!; [done|lia|done].
Qed.

(** Arena [a] is new and all its blocks are free. *)
Section fresh_arena.
Context (fl : Z → list Z) (regs : regions) (cnts : Z → Z) (a i : Z).
Hypothesis Hi : 0 ≤ i < 7.
Hypothesis Ha : a mod 4096 = 0.
Hypothesis Hnone : regs !! a = None.
Hypothesis Hnil : fl i = [].
Hypothesis Hal : ∀ b r, regs !! b = Some r → b mod 4096 = 0.
Let fl1 := upd fl i (blocks a i (Z.to_nat (bpa i))).
Let regs1 := <[a := Small i]> regs.

Lemma fresh_blocks_arena x : x ∈ blocks a i (Z.to_nat (bpa i)) → x / 4096 * 4096 = a.
Proof.
  rewrite blocks_elem. intros (j & Hj & ->). pose proof (bs_facts i Hi).
  pose proof (block_range i j Hi ltac:(lia)). zdlia.
Qed.

Lemma fresh_free_of a' i' : free_of fl1 a' i' =
  if decide (i' = i) then (if decide (a' = a) then blocks a i (Z.to_nat (bpa i)) else []) else free_of fl a' i'.
Proof.
  unfold free_of, fl1, upd. case_decide; [|done]. case_decide as Ea; [subst a'|].
  - generalize fresh_blocks_arena. generalize (blocks a i (Z.to_nat (bpa i))) as l.
    induction l as [|x l IH]; intros Hx; [done|]. rewrite filter_cons, decide_True by (apply Hx; by left).
    f_equal. apply IH. intros y Hy. apply Hx. by right.
  - generalize fresh_blocks_arena. generalize (blocks a i (Z.to_nat (bpa i))) as l.
    induction l as [|x l IH]; intros Hx; [done|]. rewrite filter_cons, decide_False.
    + apply IH. intros y Hy. apply Hx. by right.
    + intros Ex. apply Ea. rewrite <- Ex. apply Hx. by left.
Qed.

Lemma fresh_counted : counted fl regs cnts a → counted fl1 regs1 (upd cnts a (bpa i)) a.
Proof.
  intros Hcnt a' i'. unfold regs1. rewrite fresh_free_of. pose proof (bs_facts i Hi).
  destruct (decide (a' = a)) as [->|Hne].
  - rewrite lookup_insert_eq, upd_eq. intros [= <-]. rewrite decide_True by done.
    rewrite blocks_length. split_and!; [lia|lia|done].
  - rewrite lookup_insert_ne, upd_ne by done. intros Ha'. destruct (Hcnt a' i' Ha') as (E & Hle & Hlt).
    case_decide as Ei; [subst i'|done]. unfold free_of in E.
    rewrite Hnil in E. cbn in *. split_and!; [done|lia|lia].
Qed.

Lemma fresh_live x n : live fl1 regs1 x n ↔ live fl regs x n.
Proof.
  unfold live, regs1. split; (intros [(b & k & j & Hb & Hn & ->)|(b & k & Hr & -> & ->)]; [left|right]).
  - destruct (decide (b = a)) as [->|Hne].
    + exfalso. destruct Hb as (E & _ & Hj & ->). rewrite lookup_insert_eq in E. injection E as <-.
      apply Hn. unfold fl1. rewrite upd_eq, blocks_elem. exists j. split; [lia|done].
    + exists b, k, j. destruct Hb as (E & Hk & Hj & ->). rewrite lookup_insert_ne in E by done.
      split; [done|]. split; [|done]. intros Hf. apply Hn. unfold fl1, upd. case_decide; [|done].
      subst k. by rewrite Hnil in Hf; apply not_elem_of_nil in Hf.
  - exists b, k. split; [|done]. destruct (decide (b = a)) as [->|Hne].
    + by rewrite lookup_insert_eq in Hr.
    + by rewrite lookup_insert_ne in Hr.
  - assert (b ≠ a) as Hne by (intros ->; destruct Hb as (E & _); congruence).
    exists b, k, j. destruct Hb as (E & Hk & Hj & ->). split; [by split; [rewrite lookup_insert_ne|]|].
    split; [|done]. unfold fl1, upd. case_decide; [subst k|done]. rewrite blocks_elem.
    intros (j' & Hj' & Ej). pose proof (bs_facts i Hi).
    pose proof (block_range i j Hk Hj). pose proof (block_range i j' Hi ltac:(lia)).
    pose proof (bs_facts i Hk). specialize (Hal _ _ E). zdlia.
  - assert (b ≠ a) as Hne by (intros ->; congruence). exists b, k. by rewrite lookup_insert_ne.
Qed.
End fresh_arena.

Section malloc.
Context (env : heap_env) (junk : Z → Z).
Hypothesis Henv : env_descs env = descs.

Lemma malloc_small_spec h fl regs size :
  heap_inv h fl regs → 0 < size ≤ 1024 → pa_room (pages h) 1 → 1 ≤ held h →
  ∃ x i h' fl' regs', malloc_small env junk h size = Ok (x, h') ∧ 0 ≤ i < 7 ∧ size ≤ bs i ∧
    (∀ k, 0 ≤ k < i → bs k < size) ∧ allocated h h' fl regs fl' regs' x (bs i) ∧ held h' = held h - 1.
Proof using Henv.
  intros Hinv Hsize Hroom Hheld. destruct (inv_counted h fl regs 0 Hinv) as (cnts & Hc & _).
  unfold malloc_small.
  destruct (find_desc_spec env (h_ram h) _ _ _ _ size Henv Hc Hsize) as (i & -> & Hi & Hsz & Hmin). ocbn.
  rewrite Henv. fold (desc_of i). pose proof (hc_list _ _ _ _ _ Hc i Hi) as Hdl.
  rewrite (list_empty_spec (mach h) _ _ Hdl). ocbn. destruct (fl i) as [|b xs] eqn:E.
  - rewrite bool_decide_eq_true_2 by done.
    destruct (new_arena_spec junk h fl regs cnts i Hc Hi E Hroom)
      as (a & p' & m' & -> & Hc1 & Hnone & Hap & Hk1 & Hregion). ocbn.
    destruct (inv_counted h fl regs a Hinv) as (cnts' & Hc' & Hcnt).
    assert (regs !! a = Some (Small i) ∨ a mod 4096 = 0) as [?|Ha]; [right|congruence|].
    { destruct (hc_reg _ _ _ _ _ Hc1 a (Small i)) as (? & _); [by rewrite lookup_insert_eq|done]. }
    assert (∀ b r, regs !! b = Some r → b mod 4096 = 0) as Hal.
    { intros b r Hb. by destruct (hc_reg _ _ _ _ _ Hc _ _ Hb) as (? & _). }
    pose proof (bs_facts i Hi) as Hbs.
    destruct (blocks a i (Z.to_nat (bpa i))) as [|b xs] eqn:Eb.
    { pose proof (blocks_length a i (Z.to_nat (bpa i))) as El. rewrite Eb in El. cbn in El. lia. }
    assert (b ∈ blocks a i (Z.to_nat (bpa i))) as Hb by (rewrite Eb; by left).
    apply blocks_elem in Hb as (j & Hj & Exb).
    assert (block_of (<[a := Small i]> regs) a i j b) as Hb.
    { split_and!; try done; try lia. by rewrite lookup_insert_eq. }
    rewrite <- Eb in *.
    destruct (take_block_spec (Heap (Machine m' (eflags (mach h))) p' (held h))
      (upd fl i (blocks a i (Z.to_nat (bpa i)))) (<[a := Small i]> regs) (upd cnts a (bpa i)) a i j b xs)
      as (m2 & -> & Hinv2 & Hz & Hk2); [done| |done|by rewrite upd_eq|done|].
    { apply fresh_counted; try done.
      intros a' i' Ha'. destruct (Hcnt a' i' Ha') as (Ec & Hle & Hlt).
      destruct (hc_head _ _ _ _ _ Hc _ _ Ha') as [E1 _]. destruct (hc_head _ _ _ _ _ Hc' _ _ Ha') as [E2 _].
      assert (cnts a' = cnts' a') as -> by congruence. done. }
    ocbn. eexists b, i, _, _, _. split; [done|]. split; [done|]. split; [done|]. split; [done|].
    split; [|done]. pose proof (block_in _ _ _ _ _ Hb). split; [exact Hinv2|..].
    + intros y k. rewrite (live_pop m' p' _ _ (upd cnts a (bpa i)) a i j b xs) by (done || by rewrite upd_eq).
      by rewrite fresh_live.
    + intros y k Hl. destruct (Hap y k Hl); lia.
    + done.
    + intros y k z Hl Hz'. cbn [h_ram mach ram]. rewrite (Hk2 y k z); [by apply (Hk1 y k)|by apply fresh_live| |done].
      intros ->. assert (0 < k) by lia. destruct (Hap _ _ Hl); lia.
    + done.
    + done.
  - rewrite bool_decide_eq_false_2 by done.
    destruct (hc_free _ _ _ _ _ Hc i b Hi) as (a & j & Hb); [rewrite E; by left|].
    destruct (inv_counted h fl regs a Hinv) as (cnts' & Hc' & Hcnt).
    destruct (take_block_spec h fl regs cnts' a i j b xs) as (m2 & -> & Hinv2 & Hz & Hk2); try done.
    assert (∀ y k, live fl regs y k → y ≠ b) as Hyb.
    { intros y k Hl. eapply (live_not_free _ _ _ _ _ Hc); [done|done|]. rewrite E. by left. }
    ocbn. eexists b, i, _, _, _. split; [done|]. split; [done|]. split; [done|]. split; [done|].
    split; [|done]. split; [exact Hinv2|..].
    + intros y k. by apply (live_pop (h_ram h) (pages h) fl regs cnts a i j b xs).
    + intros y k Hl. by apply (live_block _ _ _ _ _ Hc y k a i j b); [..|by eapply Hyb].
    + done.
    + intros y k z Hl Hz'. by apply (Hk2 y k z); [done|by eapply Hyb|].
    + done.
    + done.
Qed.

Lemma malloc_large_spec h fl regs size :
  let n := (size + 12 + 4095) / 4096 in
  heap_inv h fl regs → 1024 < size → n < 3840 → pa_room (pages h) n → 1 ≤ held h →
  ∃ x h' fl' regs', malloc_large junk h size = Ok (x, h') ∧
    allocated h h' fl regs fl' regs' x (n * 4096 - 12) ∧ held h' = held h - 1.
Proof using.
  intros n Hinv Hsize Hn Hroom Hheld. destruct (inv_counted h fl regs 0 Hinv) as (cnts & Hc & _).
  unfold malloc_large. unfold sizeof_arena, DIV_ROUND_UP, PG_SIZE.
  assert (1 ≤ n ∧ size < 15728640) as [Hn1 Hs] by (unfold n in *; zdlia).
  rewrite (u32_small (size + 12)) by lia. rewrite u32_small by lia.
  replace (size + 12 + 4096 - 1) with (size + 12 + 4095) by lia. fold n.
  destruct (heap_pages_spec junk h fl regs cnts n Hc ltac:(lia) Hroom)
    as (a & p' & m1 & -> & Hnn & Hms & Hm1 & Hal & Hlo & Hhi & Hnew & Hapart & Hregion). ocbn.
  unfold PG_SIZE in *. destruct (Z.eqb_spec a NULL); [done|]. ocbn. cbn [h_ram mach ram eflags]. fold (h_ram h).
  rewrite u32_small by lia. rewrite Hms. ocbn.
  assert (valid m1 a (n * 4096)) as Hv1.
  { intros x Hx. rewrite Hm1, bool_decide_eq_true_2 by done. by eexists. }
  unfold desc, cnt, large. rewrite store32_valid by (eapply valid_sub; [exact Hv1|lia|lia]). ocbn.
  set (m2 := put32 m1 a NULL).
  assert (valid m2 a (n * 4096)) as Hv2 by (by apply put32_valid).
  rewrite store32_valid by (eapply valid_sub; [exact Hv2|lia|lia]). ocbn. set (m3 := put32 m2 (a + 4) n).
  assert (valid m3 a (n * 4096)) as Hv3 by (by apply put32_valid).
  rewrite store32_valid by (eapply valid_sub; [exact Hv3|lia|lia]). ocbn. set (m4 := put32 m3 (a + 8) 1).
  assert (∀ x, ¬ (a ≤ x < a + 12) → m4 !! x = m1 !! x) as Hout.
  { intros x Hx. unfold m4, m3, m2. by rewrite !put32_lookup_ne by lia. }
  destruct (Hnew m4 (Large n) n) as [Hc4 Hnone]; try done.
  { intros x Hx. rewrite Hout by lia. by rewrite Hm1, bool_decide_eq_false_2. }
  { by apply put32_valid. }
  { unfold header, cnt, desc, large, m4. rewrite load32_put32_eq, !load32_put32_ne by lia. unfold m3.
    rewrite load32_put32_eq, load32_put32_ne by lia. unfold m2. rewrite load32_put32_eq.
    by rewrite u32_small by lia. }
  unfold release. cbn [set_ram held mach pages eflags]. destruct (Z.leb_spec 1 (held h)); [|lia]. ocbn.
  eexists (a + 12), _, fl, (<[a := Large n]> regs). split; [done|]. split; [|done].
  assert (∀ y k, live fl (<[a:=Large n]> regs) y k ↔ live fl regs y k ∨ y = a + 12 ∧ k = n * 4096 - 12) as Hlive.
  { intros y k. unfold live. split.
    - intros [(b & i & j & Hb & Hf & ->)|(b & q & Hr & -> & ->)].
      + left. left. exists b, i, j. split; [|done]. destruct Hb as (E & ?). split; [|done].
        destruct (decide (b = a)) as [->|]; [by rewrite lookup_insert_eq in E|by rewrite lookup_insert_ne in E].
      + destruct (decide (b = a)) as [->|].
        * rewrite lookup_insert_eq in Hr. injection Hr as <-. by right.
        * rewrite lookup_insert_ne in Hr by done. left. right. by exists b, q.
    - intros [[(b & i & j & Hb & Hf & ->)|(b & q & Hr & -> & ->)]|[-> ->]].
      + left. exists b, i, j. split; [by apply block_of_insert|done].
      + right. exists b, q. rewrite lookup_insert_ne; [done|]. intros ->. congruence.
      + right. exists a, n. by rewrite lookup_insert_eq. }
  destruct Hinv as [(cnts0 & Hc0 & Hcnt) Hsome].
  split; cbn [h_ram mach ram pages].
  - split; cbn [h_ram mach ram pages].
    + exists (upd cnts a n). split; [done|]. intros b i Hb.
      assert (b ≠ a) as Hne by (intros ->; by rewrite lookup_insert_eq in Hb).
      rewrite lookup_insert_ne in Hb by done. rewrite upd_ne, <- (Hcnt b i Hb) by done.
      destruct (hc_head _ _ _ _ _ Hc _ _ Hb) as [E1 _]. destruct (hc_head _ _ _ _ _ Hc0 _ _ Hb) as [E2 _].
      congruence.
    + intros b i Hb. assert (b ≠ a) as Hne by (intros ->; by rewrite lookup_insert_eq in Hb).
      rewrite lookup_insert_ne in Hb by done. by apply Hsome.
  - done.
  - intros y k Hl. destruct (Hapart y k Hl); lia.
  - intros y Hy. rewrite Hout by lia. rewrite Hm1, bool_decide_eq_true_2; [done|lia].
  - intros y k z Hl Hz. destruct (Hapart y k Hl); rewrite Hout, Hm1, bool_decide_eq_false_2; try done; lia.
  - done.
  - done.
Qed.
End malloc.

(** ** Release *)

(** [h'] is [h] without the allocation at [x]. *)
Record freed (h h' : heap P) fl regs fl' regs' (x : Z) : Prop := Freed {
  fr_inv : heap_inv h' fl' regs';
  fr_live y k : live fl' regs' y k ↔ live fl regs y k ∧ y ≠ x;
  fr_keeps : keeps (h_ram h) (h_ram h') fl regs x;
  fr_flags : eflags (mach h') = eflags (mach h);
  fr_held : held h' = held h;
  fr_region a : pa_region (pages h') a ↔ pa_region (pages h) a
}.

Definition without (l xs : list Z) : list Z := filter (λ x, x ∉ l) xs.

Lemma without_elem l xs x : x ∈ without l xs ↔ (x ∈ xs) ∧ (x ∉ l).
Proof. unfold without. rewrite list_elem_of_filter. tauto. Qed.

Lemma without_all l xs : (∀ x, x ∈ xs → x ∉ l) → without l xs = xs.
Proof.
  intros Hx. induction xs as [|x xs IH]; [done|]. unfold without in *. rewrite filter_cons.
  rewrite decide_True by (apply Hx; by left). f_equal. apply IH. intros y Hy. apply Hx. by right.
Qed.

(** Removing one more element. *)
Lemma without_snoc l xs b l1 l2 :
  without l xs = l1 ++ b :: l2 → NoDup xs → without (l ++ [b]) xs = l1 ++ l2.
Proof.
  intros E Hnd.
  assert (NoDup (l1 ++ b :: l2)) as Hn by (rewrite <- E; by apply NoDup_filter).
  apply NoDup_app in Hn as (Hn1 & Hdis & Hn2). apply NoDup_cons in Hn2 as [Hb2 Hn2].
  transitivity (without [b] (without l xs)).
  - unfold without. rewrite list_filter_filter. apply list_filter_iff. intros x.
    rewrite not_elem_of_app. tauto.
  - rewrite E. unfold without. rewrite filter_app, filter_cons, decide_False.
    + fold (without [b] l1) (without [b] l2). rewrite !without_all; [done|..].
      * intros x Hx. rewrite list_elem_of_singleton. by intros ->.
      * intros x Hx. rewrite list_elem_of_singleton. intros ->. apply (Hdis _ Hx). by left.
    + intros Hx. apply Hx. by left.
Qed.

(** Taking the blocks of arena [a] from block [k] on out of the list. *)
Lemma empty_arena_loop p fl regs cnts a i xs : regs !! a = Some (Small i) → 0 ≤ i < 7 →
  NoDup xs → (∀ x, x ∈ blocks a i (Z.to_nat (bpa i)) → x ∈ xs) →
  ∀ fuel (k : nat) s, Z.of_nat k ≤ bpa i → bpa i - Z.of_nat k < Z.of_nat fuel →
  hcore (ram s) p (upd fl i (without (blocks a i k) xs)) regs cnts →
  ∃ m', loop fuel (λ '(block_idx, s),
      d ← load32 (ram s) (desc a);
      n ← load32 (ram s) (blocks_per_arena d);
      if block_idx <? n then
        b ← arena2block (ram s) a block_idx;
        d ← load32 (ram s) (desc a);
        e ← elem_find s (free_list d) b;
        ASSERT e;;
        s ← list_remove s b;
        Ok (inl (u32 (block_idx + 1), s))
      else Ok (inr s)) (Z.of_nat k, s) = Ok (Machine m' (eflags s)) ∧
    hcore m' p (upd fl i (without (blocks a i (Z.to_nat (bpa i))) xs)) regs cnts ∧
    (∀ x n y, live (upd fl i xs) regs x n → x ≤ y < x + n → m' !! y = ram s !! y).
Proof.
  intros Hr Hi Hnd Hall fuel. induction fuel as [|fuel IH]; intros k s Hk Hf Hc; [lia|]. cbn [loop].
  pose proof (bs_facts i Hi) as Hbs.
  destruct (hc_head _ _ _ _ _ Hc _ _ Hr) as (_ & Hd & _). rewrite Hd. ocbn.
  destruct (hc_desc _ _ _ _ _ Hc i Hi) as [_ ->]. ocbn. destruct (Z.ltb_spec (Z.of_nat k) (bpa i)) as [Hlt|Hge].
  - assert (block_of regs a i (Z.of_nat k) (a + 12 + Z.of_nat k * bs i)) as Hb by (split_and!; done || lia).
    set (b := a + 12 + Z.of_nat k * bs i) in *.
    rewrite (arena2block_spec _ _ _ _ _ _ _ _ _ Hc Hb). ocbn.
    pose proof (hc_list _ _ _ _ _ Hc i Hi) as Hdl. rewrite upd_eq in Hdl.
    assert (b ∈ without (blocks a i k) xs) as Hin.
    { apply without_elem. split.
      - apply Hall, blocks_elem. exists (Z.of_nat k). split; [lia|done].
      - rewrite blocks_elem. intros (j & Hj & E). unfold b in E.
        assert (j * bs i = Z.of_nat k * bs i) as E' by lia. apply Z.mul_cancel_r in E'; lia. }
    rewrite (elem_find_spec _ _ _ _ Hdl), bool_decide_eq_true_2 by done. ocbn.
    apply list_elem_of_split in Hin as (l1 & l2 & E).
    destruct (hcore_remove _ _ _ _ _ Hc i b l1 l2 Hi) as (m1 & Hrm & Hc1 & Hk1); [by rewrite upd_eq|].
    rewrite (Hrm s eq_refl). ocbn. rewrite u32_small by lia.
    replace (Z.of_nat k + 1) with (Z.of_nat (S k)) by lia.
    destruct (IH (S k) (Machine m1 (eflags s))) as (m' & Heq & Hc' & Hk').
    + lia.
    + lia.
    + eapply hcore_ext; [|exact Hc1]. intros i' _. rewrite blocks_snoc. fold b.
      rewrite (without_snoc _ _ _ _ _ E Hnd). unfold upd. by repeat case_decide.
    + exists m'. split; [exact Heq|]. split; [done|]. intros x n y Hl Hy.
      rewrite (Hk' x n y Hl Hy). cbn [ram]. apply (Hk1 (x - 1) x n); [|lia|done].
      destruct Hl as [(a' & i' & j' & Hb' & Hn & ->)|?]; [|by right]. left. exists a', i', j'.
      split_and!; try done. unfold upd in *. case_decide; [subst i'|done].
      rewrite without_elem. tauto.
  - exists (ram s). assert (Z.to_nat (bpa i) = k) as -> by lia. split; [by destruct s|]. done.
Qed.

(** A list without repetition that is as long as one that contains it. *)
Lemma nodup_full (l l' : list Z) : NoDup l → (∀ x, x ∈ l → x ∈ l') → (length l' ≤ length l)%nat →
  ∀ x, x ∈ l' → x ∈ l.
Proof.
  intros Hnd Hsub Hlen x Hx. rewrite list_elem_of_In. revert x Hx.
  setoid_rewrite list_elem_of_In. apply (List.NoDup_length_incl (l := l) (l' := l')).
  - by apply NoDup_ListNoDup.
  - done.
  - intros x. rewrite <- !list_elem_of_In. apply Hsub.
Qed.

(** Block [b] of arena [a] returns to the list. *)
Section free_block.
Context (m : mem) (p : P) (fl : Z → list Z) (regs : regions) (cnts : Z → Z).
Context (Hc : hcore m p fl regs cnts).
Context (Hcnt : counted fl regs cnts 0).
Context (a i j b : Z).
Context (Hb : block_of regs a i j b).
Context (Hn : b ∉ fl i).
Let xs := fl i ++ [b].
Let fl1 := upd fl i xs.

Lemma free_block_arena : b / 4096 * 4096 = a ∧ 0 ≤ i < 7 ∧ a ≠ 0.
Proof.
  split; [by apply (block_arena _ _ _ _ _ Hc a i j b Hb)|]. split; [apply Hb|].
  destruct Hb as (Hr & _). destruct (reg_range _ _ _ _ _ Hc _ _ Hr). lia.
Qed.

Lemma free_block_nodup : NoDup xs.
Proof.
  unfold xs. apply NoDup_app. split; [eapply fl_nodup; [done|apply Hb]|]. split; [|apply NoDup_singleton].
  intros x Hx. rewrite list_elem_of_singleton. by intros ->.
Qed.

Lemma free_block_count a' i' : Z.of_nat (length (free_of fl1 a' i')) =
  Z.of_nat (length (free_of fl a' i')) + (if decide (i' = i ∧ a' = a) then 1 else 0).
Proof.
  destruct free_block_arena as (Ea & _). unfold free_of, fl1, xs, upd. case_decide as Ei.
  - subst i'. rewrite filter_app, length_app, filter_cons, Ea. cbn [filter list_filter length].
    repeat case_decide; try (exfalso; naive_solver); cbn [length]; lia.
  - case_decide; [naive_solver|lia].
Qed.

(** When all blocks of the arena are free. *)
Lemma free_block_all : cnts a + 1 = bpa i → ∀ x, x ∈ blocks a i (Z.to_nat (bpa i)) → x ∈ xs.
Proof.
  destruct free_block_arena as (Ea & Hi & Ha0). intros Hfull x Hx.
  assert (regs !! a = Some (Small i)) as Hr by apply Hb.
  assert (x ∈ free_of fl1 a i) as Hin; [|apply list_elem_of_filter in Hin as [_ Hin]; unfold fl1 in Hin; by rewrite upd_eq in Hin].
  revert x Hx. apply nodup_full.
  - apply NoDup_filter. unfold fl1. rewrite upd_eq. apply free_block_nodup.
  - intros x Hx. apply list_elem_of_filter in Hx as [Ex Hx]. unfold fl1 in Hx. rewrite upd_eq in Hx.
    assert (∃ a' j', block_of regs a' i j' x) as (a' & j' & Hb').
    { unfold xs in Hx. rewrite elem_of_app, list_elem_of_singleton in Hx.
      destruct Hx as [Hx| ->]; [by apply (hc_free _ _ _ _ _ Hc)|by exists a, j]. }
    destruct (block_arena _ _ _ _ _ Hc _ _ _ _ Hb') as [Ea' _].
    destruct Hb' as (_ & _ & Hj' & ->). apply blocks_elem. exists j'. split; [lia|]. congruence.
  - rewrite blocks_length. pose proof (free_block_count a i) as Hcount.
    rewrite decide_True in Hcount by done. destruct (Hcnt a i Hr) as (E & _). lia.
Qed.

Lemma free_block_live x n : live fl1 regs x n ↔ live fl regs x n ∧ x ≠ b.
Proof.
  destruct free_block_arena as (Ea & Hi & Ha0). split.
  - intros Hl. assert (x ≠ b) as Hxb.
    { intros ->. destruct Hl as [(a' & i' & j' & Hb' & Hf & _)|(a' & k & Hr & E & _)].
      - assert (i' = i) as -> by (by eapply block_index). apply Hf. unfold fl1, xs. rewrite upd_eq.
        apply elem_of_app. right. by left.
      - pose proof (block_in _ _ _ _ _ Hb). destruct (reg_range _ _ _ _ _ Hc _ _ Hr) as (_ & Hk & _).
        cbn in Hk. destruct (block_large _ _ _ _ _ Hc _ _ _ _ _ _ Hb Hr); lia. }
    split; [|done]. destruct Hl as [(a' & i' & j' & Hb' & Hf & ->)|?]; [left|by right].
    exists a', i', j'. split_and!; try done. intros Hx. apply Hf. unfold fl1, upd. case_decide; [subst i'|done].
    apply elem_of_app. by left.
  - intros [[(a' & i' & j' & Hb' & Hf & ->)|?] Hxb]; [left|by right]. exists a', i', j'.
    split_and!; try done. unfold fl1, upd. case_decide; [subst i'|done].
    unfold xs. rewrite elem_of_app, list_elem_of_singleton. tauto.
Qed.

(** After the arena is gone. *)
Let fl2 := upd fl i (without (blocks a i (Z.to_nat (bpa i))) xs).

Lemma drop_arena_other x a' i' j' : block_of regs a' i' j' x → a' ≠ a → x ∉ blocks a i (Z.to_nat (bpa i)).
Proof.
  destruct free_block_arena as (Ea & Hi & Ha0). intros Hb' Hne. rewrite blocks_elem. intros (k & Hk & ->).
  apply Hne. destruct (block_arena _ _ _ _ _ Hc _ _ _ _ Hb') as [E1 _].
  assert (block_of regs a i k (a + 12 + k * bs i)) as Hbk.
  { split_and!; try done; try lia. apply Hb. }
  destruct (block_arena _ _ _ _ _ Hc _ _ _ _ Hbk) as [E2 _]. congruence.
Qed.

Lemma drop_arena_live x n : cnts a + 1 = bpa i →
  live fl2 (delete a regs) x n ↔ live fl1 regs x n.
Proof.
  intros Hfull. destruct free_block_arena as (Ea & Hi & Ha0).
  assert (regs !! a = Some (Small i)) as Hr by apply Hb. unfold live. split.
  - intros [(a' & i' & j' & (E & Hb') & Hf & ->)|(a' & k & E & -> & ->)].
    + apply lookup_delete_Some in E as [Hne E]. left. exists a', i', j'. split_and!; try done; try apply Hb'.
      intros Hx. apply Hf. unfold fl1, fl2, upd in *. case_decide; [subst i'|done].
      apply without_elem. split; [done|]. by eapply drop_arena_other; [split|].
    + apply lookup_delete_Some in E as [Hne E]. right. by exists a', k.
  - intros [(a' & i' & j' & (E & Hb') & Hf & ->)|(a' & k & E & -> & ->)].
    + assert (a' ≠ a) as Hne.
      { intros ->. rewrite Hr in E. injection E as <-. apply Hf. unfold fl1. rewrite upd_eq.
        apply free_block_all; [done|]. apply blocks_elem. exists j'. split; [lia|]. tauto. }
      left. exists a', i', j'. split; [split; [by rewrite lookup_delete_ne|done]|]. split; [|done].
      intros Hx. apply Hf. unfold fl1, fl2, upd in *. case_decide; [subst i'|done].
      by apply without_elem in Hx as [? _].
    + right. exists a', k. split; [|done]. rewrite lookup_delete_ne; [done|]. intros ->. congruence.
Qed.

Lemma drop_arena_count a' i' : regs !! a' = Some (Small i') → a' ≠ a →
  length (free_of fl2 a' i') = length (free_of fl a' i').
Proof.
  intros Hr' Hne. destruct free_block_arena as (Ea & Hi & Ha0). unfold free_of, fl2, upd.
  case_decide; [subst i'|done]. unfold without. rewrite list_filter_filter.
  transitivity (length (filter (λ x, x / 4096 * 4096 = a') xs)).
  - f_equal. apply list_filter_iff. intros x. split; [tauto|]. intros Ex. split; [done|].
    rewrite blocks_elem. intros (k & Hk & ->). apply Hne. rewrite <- Ex.
    assert (block_of regs a i k (a + 12 + k * bs i)) as Hbk.
    { split_and!; try done; try lia. apply Hb. }
    by destruct (block_arena _ _ _ _ _ Hc _ _ _ _ Hbk) as [E2 _].
  - unfold xs. rewrite filter_app, filter_cons, decide_False by congruence.
    cbn [filter list_filter]. by rewrite app_nil_r.
Qed.
(** Nothing that stays lies in the page of the arena. *)
Lemma drop_arena_apart x n y : cnts a + 1 = bpa i → live fl1 regs x n → x ≤ y < x + n → ¬ a ≤ y < a + 1 * PG_SIZE.
Proof.
  assert (regs !! a = Some (Small i)) as Hr by apply Hb. unfold PG_SIZE. intros Hfull Hl Hy Hin. apply drop_arena_live in Hl; [|done].
  destruct Hl as [(a' & i' & j' & Hb' & _ & ->)|(a' & q & E & -> & ->)].
  - pose proof (block_in _ _ _ _ _ Hb'). destruct Hb' as ([Hne E]%lookup_delete_Some & _).
    destruct (hc_sep _ _ _ _ _ Hc _ _ _ _ E Hr) as [Hs|Hs]; [done|..]; cbn in Hs; lia.
  - apply lookup_delete_Some in E as [Hne E]. destruct (reg_range _ _ _ _ _ Hc _ _ E) as (_ & Hq & _).
    destruct (hc_sep _ _ _ _ _ Hc _ _ _ _ E Hr) as [Hs|Hs]; [done|..]; cbn in Hs, Hq; lia.
Qed.

Lemma drop_arena_out m' cnts' k x : hcore m' p fl2 regs cnts' → 0 ≤ k < 7 → x ∈ fl2 k → ¬ a ≤ x < a + 1 * PG_SIZE.
Proof.
  assert (regs !! a = Some (Small i)) as Hr by apply Hb. intros Hc' Hk Hx Hin. unfold PG_SIZE in Hin.
  destruct (hc_reg _ _ _ _ _ Hc _ _ Hr) as (Hal & _).
  destruct (hc_free _ _ _ _ _ Hc' k x Hk Hx) as (a' & j' & Hb'). destruct (block_arena _ _ _ _ _ Hc _ _ _ _ Hb') as [E' _].
  assert (a' = a) as -> by zdlia. destruct Hb' as (Hr' & _ & Hj' & ->). rewrite Hr in Hr'. injection Hr' as <-.
  unfold fl2 in Hx. rewrite upd_eq, without_elem in Hx. apply (proj2 Hx), blocks_elem. exists j'. split; [lia|done].
Qed.

(** The counts with the block in the list. *)
Lemma keep_arena_count a' i' : regs !! a' = Some (Small i') → upd cnts a (cnts a + 1) a' = Z.of_nat (length (free_of fl1 a' i')).
Proof.
  intros Ha'. assert (regs !! a = Some (Small i)) as Hr by apply Hb. rewrite free_block_count.
  destruct (Hcnt a' i' Ha') as (E' & _). destruct (decide (a' = a)) as [->|Hne].
  - rewrite upd_eq, decide_True; [lia|]. split; [congruence|done].
  - rewrite upd_ne, decide_False by (done || (intros [_ ?]; done)). lia.
Qed.

Lemma keep_arena_some a' i' : cnts a + 1 ≠ bpa i → regs !! a' = Some (Small i') → Z.of_nat (length (free_of fl1 a' i')) < bpa i'.
Proof.
  destruct free_block_arena as (_ & _ & Ha0). intros Hnf Ha'. rewrite free_block_count.
  pose proof (reg_range _ _ _ _ _ Hc _ _ Ha') as Hrg. destruct (Hcnt a' i' Ha') as (E' & _ & Hlt'). specialize (Hlt' ltac:(lia)).
  case_decide as Ed; [|lia]. destruct Ed as [-> ->]. lia.
Qed.
End free_block.

(** The last block of an arena: the other blocks leave their list and the page goes back. *)
Lemma free_last h fl regs cnts a i j b m2 :
  heap_inv h fl regs → hcore (h_ram h) (pages h) fl regs cnts → counted fl regs cnts 0 → block_of regs a i j b → b ∉ fl i →
  hcore m2 (pages h) (upd fl i (fl i ++ [b])) regs (upd cnts a (cnts a + 1)) → keeps (h_ram h) m2 fl regs b → cnts a + 1 = bpa i →
  ∃ s3 h' fl', empty_arena (Machine m2 (eflags (mach h))) a = Ok s3 ∧
    heap_mfree_page (Heap s3 (pages h) (held h)) a 1 = Ok h' ∧ freed h h' fl regs fl' (delete a regs) b.
Proof.
  intros Hinv Hc Hcnt Hb Hn Hc2 Hk2 Hfull. destruct (free_block_arena _ _ _ _ _ Hc a i j b Hb) as (Ea & Hi & Ha0).
  assert (regs !! a = Some (Small i)) as Hr by apply Hb. pose proof (bs_facts i Hi) as Hbs. set (s2 := Machine m2 (eflags (mach h))).
  destruct (hc_reg _ _ _ _ _ Hc _ _ Hr) as (Hal & _ & _ & _ & _ & _ & Hreg & Hused & _). cbn in Hreg, Hused.
  destruct (empty_arena_loop (pages h) fl regs (upd cnts a (cnts a + 1)) a i (fl i ++ [b]) Hr Hi)
    with (fuel := Z.to_nat 4096) (k := 0%nat) (s := s2) as (m3 & Hem & Hc3 & Hk3); [| |lia|lia| |].
  { by eapply free_block_nodup. }
  { by apply (free_block_all (h_ram h) (pages h) fl regs cnts Hc Hcnt a i j b). }
  { eapply hcore_ext; [|exact Hc2]. intros k _. rewrite without_all; [done|].
    intros x _. rewrite blocks_elem. intros (q & Hq & _). lia. }
  destruct (pa_mfree_ok (pages h) a 1) as (p' & Hfree & Hp' & Hreg' & Hused'); [apply Hc|done|lia|unfold PG_SIZE; done|done|].
  eexists _, _, _. split; [exact Hem|]. unfold heap_mfree_page. cbn [pages]. rewrite Hfree. ocbn. split; [done|]. pose proof (hcore_drop _ _ _ _ _ Hc3 p' a (Small i) Hr) as Hc4. cbn [npages] in Hc4.
  specialize (Hc4 (λ k x, drop_arena_out (h_ram h) (pages h) fl regs cnts Hc a i j b Hb _ _ k x Hc3) Hp' Hreg' Hused').
  split; cbn [h_ram mach ram pages held eflags]; try done.
  - split; cbn [h_ram mach ram pages].
    + eexists. split; [exact Hc4|]. intros a' i' [Hne Ha']%lookup_delete_Some. rewrite upd_ne by done.
      destruct (Hcnt a' i' Ha') as (E' & _). rewrite E'. f_equal. symmetry. by apply (drop_arena_count (h_ram h) (pages h) fl regs cnts Hc a i j b Hb).
    + intros a' i' [Hne Ha']%lookup_delete_Some. rewrite (drop_arena_count (h_ram h) (pages h) fl regs cnts Hc a i j b Hb) by done.
      by apply (hi_some _ _ _ Hinv).
  - intros y k. rewrite (drop_arena_live (h_ram h) (pages h) fl regs cnts Hc Hcnt a i j b Hb Hn) by done.
    by apply (free_block_live (h_ram h) (pages h) fl regs cnts Hc a i j b).
  - intros x n y Hl Hx Hy. assert (live (upd fl i (fl i ++ [b])) regs x n) as Hl1 by (by apply (free_block_live (h_ram h) (pages h) fl regs cnts Hc a i j b)).
    rewrite unmap_pages_lookup, bool_decide_eq_false_2.
    + transitivity (m2 !! y); [by apply (Hk3 x n)|by apply (Hk2 x n)].
    + by apply (drop_arena_apart (h_ram h) (pages h) fl regs cnts Hc Hcnt a i j b Hb Hn x n y).
Qed.

Lemma free_small_spec h fl regs a i j b :
  heap_inv h fl regs → block_of regs a i j b → b ∉ fl i →
  ∃ h' fl' regs', free_small h a b = Ok h' ∧ freed h h' fl regs fl' regs' b.
Proof.
  intros Hinv Hb Hn. destruct (inv_counted h fl regs 0 Hinv) as (cnts & Hc & Hcnt).
  destruct (free_block_arena _ _ _ _ _ Hc a i j b Hb) as (Ea & Hi & Ha0).
  assert (regs !! a = Some (Small i)) as Hr by apply Hb. pose proof (bs_facts i Hi) as Hbs.
  destruct (Hcnt a i Hr) as (Ecnt & _ & Hlt). specialize (Hlt Ha0).
  unfold free_small. destruct (hc_head _ _ _ _ _ Hc _ _ Hr) as (_ & -> & _). ocbn.
  destruct (hcore_append _ _ _ _ _ Hc a i j b Hb Hn) as (m1 & -> & Hc1 & Hk1); [|done]. ocbn.
  cbn [h_ram set_mach mach ram eflags pages held].
  destruct (hc_head _ _ _ _ _ Hc1 _ _ Hr) as (Hcn & _). rewrite Hcn. ocbn.
  destruct (hc_reg _ _ _ _ _ Hc1 _ _ Hr) as (Hal & Hlo & _ & Hhi & _ & Hva & Hreg & Hused & _). cbn in Hva, Hhi, Hreg, Hused.
  rewrite store32_valid by (eapply valid_sub; [exact Hva| |]; unfold cnt; lia). ocbn.
  rewrite u32_small by lia.
  pose proof (hcore_cnt _ _ _ _ _ Hc1 a i (cnts a + 1) Hr ltac:(change (2 ^ 32) with 4294967296; lia)) as Hc2.
  set (m2 := put32 m1 (cnt a) (cnts a + 1)) in *.
  destruct (hc_head _ _ _ _ _ Hc2 _ _ Hr) as (_ & -> & _). ocbn.
  destruct (hc_desc _ _ _ _ _ Hc2 i Hi) as [_ ->]. ocbn.
  assert (keeps (h_ram h) m2 fl regs b) as Hk2.
  { intros x n y Hl Hx Hy. unfold m2. rewrite put32_lookup_ne; [by apply (Hk1 x n)|].
    destruct (live_header _ _ _ _ _ Hc _ _ _ _ Hl Hr); unfold cnt; lia. }
  destruct (Z.eqb_spec (cnts a + 1) (bpa i)) as [Hfull|Hnf].
  - destruct (free_last h fl regs cnts a i j b m2 Hinv Hc Hcnt Hb Hn Hc2 Hk2 Hfull) as (s3 & h' & fl' & Hem & Hfree & Hfr).
    unfold set_ram. cbn [mach set_mach eflags pages held]. rewrite Hem. ocbn. exists h', fl', (delete a regs). by split.
  - eexists _, _, regs. split; [done|]. split; cbn [h_ram set_ram set_mach mach ram pages held eflags]; try done.
    + split; cbn [h_ram mach ram pages].
      * eexists. split; [exact Hc2|]. intros a' i'. by apply (keep_arena_count (h_ram h) (pages h) fl regs cnts Hc Hcnt a i j b Hb).
      * intros a' i' Ha'. by apply (keep_arena_some (h_ram h) (pages h) fl regs cnts Hc Hcnt a i j b Hb).
    + intros y k. by apply (free_block_live (h_ram h) (pages h) fl regs cnts Hc a i j b).
Qed.

Lemma free_large_spec h fl regs a n :
  heap_inv h fl regs → regs !! a = Some (Large n) →
  ∃ h', heap_mfree_page h a n = Ok h' ∧ freed h h' fl regs fl (delete a regs) (a + 12).
Proof.
  intros Hinv Hr. pose proof Hinv as [(cnts & Hc & Hcnt) Hsome].
  destruct (hc_reg _ _ _ _ _ Hc _ _ Hr) as (Hal & Hlo & Hn1 & Hhi & _ & Hva & Hreg & Hused & _).
  cbn in Hn1, Hhi, Hva, Hreg, Hused. unfold heap_mfree_page.
  destruct (pa_mfree_ok (pages h) a n) as (p' & -> & Hp' & Hreg' & Hused');
    [apply Hc|done|done|unfold PG_SIZE; done|done|]. ocbn. eexists. split; [done|].
  assert (∀ k x, 0 ≤ k < 7 → x ∈ fl k → ¬ a ≤ x < a + n * PG_SIZE) as Hout.
  { intros k x Hk Hx Hin. destruct (hc_free _ _ _ _ _ Hc k x Hk Hx) as (a' & j' & Hb').
    pose proof (block_in _ _ _ _ _ Hb'). unfold PG_SIZE in Hin.
    destruct (block_large _ _ _ _ _ Hc _ _ _ _ _ _ Hb' Hr); lia. }
  pose proof (hcore_drop _ _ _ _ _ Hc p' a (Large n) Hr Hout Hp' Hreg' Hused') as Hc'. cbn [npages] in Hc'.
  assert (∀ y k, live fl (delete a regs) y k ↔ live fl regs y k ∧ y ≠ a + 12) as Hlive.
  { intros y k. unfold live. split.
    - intros [(a' & i & j & (E & Hb) & Hf & ->)|(a' & q & E & -> & ->)];
        apply lookup_delete_Some in E as [Hne E].
      + assert (block_of regs a' i j y) as Hb' by (by split). split; [left; by exists a', i, j|].
        pose proof (block_in _ _ _ _ _ Hb').
        destruct (block_large _ _ _ _ _ Hc _ _ _ _ _ _ Hb' Hr); lia.
      + split; [right; by exists a', q|]. lia.
    - intros [[(a' & i & j & (E & Hb) & Hf & ->)|(a' & q & E & -> & ->)] Hy].
      + left. exists a', i, j. split; [|done]. split; [|done]. rewrite lookup_delete_ne; [done|].
        intros ->. congruence.
      + right. exists a', q. split; [|done]. rewrite lookup_delete_ne; [done|]. intros ->. done. }
  split; cbn [h_ram mach ram pages held eflags]; try done.
  - split; cbn [h_ram mach ram pages].
    + exists cnts. split; [done|]. intros a' i [_ Ha']%lookup_delete_Some. by apply Hcnt.
    + intros a' i [_ Ha']%lookup_delete_Some. by apply Hsome.
  - intros x k y Hl Hx Hy. rewrite unmap_pages_lookup, bool_decide_eq_false_2; [done|].
    unfold PG_SIZE. destruct Hl as [(a' & i & j & Hb & _ & ->)|(a' & q & E & -> & ->)].
    + destruct (block_large _ _ _ _ _ Hc _ _ _ _ _ _ Hb Hr); lia.
    + assert (a' ≠ a) as Hne by (intros ->; done).
      destruct (hc_sep _ _ _ _ _ Hc _ _ _ _ E Hr Hne) as [Hs|Hs]; cbn in Hs; lia.
Qed.

Lemma sys_free_spec env h fl regs x n : env_descs env = descs →
  heap_inv h fl regs → live fl regs x n →
  (in_kernel env = true → ∀ a, pa_region (pages h) a → K_HEAP_START ≤ a) → 0 ≤ held h →
  ∃ h' fl' regs', sys_free env h x = Ok h' ∧ freed h h' fl regs fl' regs' x.
Proof.
  intros Ed Hinv Hl Hk Hheld. destruct (inv_counted h fl regs 0 Hinv) as (cnts & Hc & _).
  assert (0 < x) as Hx.
  { destruct Hl as [(a & i & j & Hb & _)|(a & k & Hr & -> & _)].
    - pose proof (block_in _ _ _ _ _ Hb). destruct Hb as (Hr & _).
      destruct (reg_range _ _ _ _ _ Hc _ _ Hr). lia.
    - destruct (reg_range _ _ _ _ _ Hc _ _ Hr). lia. }
  assert (pa_region (pages h) x) as Hrx.
  { destruct Hl as [(a & i & j & Hb & _)|(a & k & Hr & -> & _)].
    - pose proof (block_in _ _ _ _ _ Hb). destruct Hb as (Hr & _).
      destruct (hc_reg _ _ _ _ _ Hc _ _ Hr) as (_ & _ & _ & _ & _ & _ & Hreg & _). apply Hreg. cbn. lia.
    - destruct (hc_reg _ _ _ _ _ Hc _ _ Hr) as (_ & _ & ? & _ & _ & _ & Hreg & _). apply Hreg. cbn in *. lia. }
  unfold sys_free. destruct (Z.eqb_spec x NULL) as [E|_]; [unfold NULL in E; lia|]. ocbn.
  assert ((if in_kernel env then ASSERT (K_HEAP_START <=? x) else Ok tt) = Ok tt) as ->.
  { destruct (in_kernel env); [|done]. specialize (Hk eq_refl x Hrx). destruct (Z.leb_spec K_HEAP_START x); [done|lia]. }
  ocbn. set (h1 := acquire h).
  assert (heap_inv h1 fl regs) as Hinv1 by (destruct Hinv; by split).
  assert (∀ h2 fl' regs', freed h1 h2 fl regs fl' regs' x →
    ∃ h', release h2 = Ok h' ∧ freed h h' fl regs fl' regs' x) as Hrel.
  { intros h2 fl' regs' [I L K F G R]. unfold release. rewrite G. cbn [h1 acquire held].
    destruct (Z.leb_spec 1 (held h + 1)); [|lia]. ocbn. eexists. split; [done|].
    split; cbn [h_ram mach held]; try done; [by destruct I; split|lia]. }
  change (h_ram h1) with (h_ram h).
  destruct Hl as [(a & i & j & Hb & Hn & ->)|(a & k & Hr & -> & ->)].
  - destruct (block_arena _ _ _ _ _ Hc _ _ _ _ Hb) as [_ ->].
    assert (regs !! a = Some (Small i)) as Hr by apply Hb.
    destruct (hc_head _ _ _ _ _ Hc _ _ Hr) as (_ & Hd & Hlg). rewrite Hlg. ocbn.
    rewrite (Z.eqb_refl 0). ocbn. rewrite Hd. ocbn. destruct (Z.eqb_spec 0 1); [lia|]. rewrite andb_false_r.
    destruct (free_small_spec h1 fl regs a i j x Hinv1 Hb Hn) as (h2 & fl' & regs' & -> & Hf). ocbn.
    destruct (Hrel _ _ _ Hf) as (h' & -> & Hf'). by exists h', fl', regs'.
  - destruct (reg_range _ _ _ _ _ Hc _ _ Hr) as (Hlo & Hk1 & Hhi). cbn in Hk1, Hhi.
    destruct (hc_reg _ _ _ _ _ Hc _ _ Hr) as (Hal & _).
    assert (block2arena (a + 12) = a) as ->.
    { unfold block2arena. rewrite land_4k by (change (2 ^ 32) with 4294967296; lia). zdlia. }
    destruct (hc_head _ _ _ _ _ Hc _ _ Hr) as (Hcn & Hd & Hlg & Ek). rewrite Hlg. ocbn.
    rewrite (Z.eqb_refl 1), orb_true_r. ocbn. rewrite Hd. ocbn. change (0 =? NULL) with true. ocbn.
    rewrite Hcn, Ek. ocbn.
    destruct (free_large_spec h1 fl regs a k Hinv1 Hr) as (h2 & -> & Hf). ocbn.
    destruct (Hrel _ _ _ Hf) as (h' & -> & Hf'). by exists h', fl, (delete a regs).
Qed.

(** The pages a request may need. *)
Definition pages_needed (size : Z) : Z := if size <=? 1024 then 1 else (size + 12 + 4095) / 4096.

Lemma sys_malloc_spec env junk h fl regs size : env_descs env = descs →
  heap_inv h fl regs → 0 < size < env_pool_size env →
  pages_needed size < 3840 → pa_room (pages h) (pages_needed size) → 0 ≤ held h →
  ∃ x n h' fl' regs', sys_malloc env junk h size = Ok (x, h') ∧ size ≤ n ∧
    allocated h h' fl regs fl' regs' x n ∧ held h' = held h.
Proof.
  intros Ed Hinv Hs Hn Hroom Hheld. unfold sys_malloc, pages_needed in *.
  assert (negb ((0 <? size) && (size <? env_pool_size env)) = false) as -> by lia.
  assert (heap_inv (acquire h) fl regs) as Hinv1 by (destruct Hinv; by split).
  destruct (Z.leb_spec size 1024); destruct (Z.ltb_spec 1024 size); try lia.
  - destruct (malloc_small_spec env junk Ed (acquire h) fl regs size Hinv1)
      as (x & i & h' & fl' & regs' & -> & Hi & Hsz & _ & [A1 A2 A3 A4 A5 A6 A7] & Hh);
      [lia|done|cbn; lia|].
    exists x, (bs i), h', fl', regs'. split; [done|]. split; [done|]. split; [by split|]. cbn in Hh. lia.
  - destruct (malloc_large_spec junk (acquire h) fl regs size Hinv1)
      as (x & h' & fl' & regs' & -> & [A1 A2 A3 A4 A5 A6 A7] & Hh);
      [lia|done|done|cbn; lia|].
    eexists x, _, h', fl', regs'. split; [done|]. split; [|split; [by split|cbn in Hh; lia]]. zdlia.
Qed.
End heap_proofs.

(** ** Initialisation *)

Lemma block_desc_init_loop descs : 0 < descs → descs + 168 < 2 ^ 32 - 8 → ∀ fuel k s,
  0 ≤ k ≤ 7 → 7 - k < Z.of_nat fuel → valid (ram s) descs 168 →
  (∀ i, 0 ≤ i < k → load32 (ram s) (block_size (desc_of descs i)) = Ok (bs i) ∧
    load32 (ram s) (blocks_per_arena (desc_of descs i)) = Ok (bpa i) ∧
    dll (ram s) (free_list (desc_of descs i)) []) →
  ∃ m', loop fuel (λ '(desc_idx, bsize, s),
    if desc_idx <? DESC_CNT then
      let d := descs + sizeof_mem_block_desc * desc_idx in
      m ← store32 (ram s) (block_size d) bsize;
      m ← store32 m (blocks_per_arena d) ((PG_SIZE - sizeof_arena) / bsize);
      s ← list_init (Machine m (eflags s)) (free_list d);
      Ok (inl (u16 (desc_idx + 1), u16 (bsize * 2), s))
    else Ok (inr s)) (k, bs k, s) = Ok (Machine m' (eflags s)) ∧
    (∀ a, a < descs ∨ descs + 168 ≤ a → m' !! a = ram s !! a) ∧ valid m' descs 168 ∧
    (∀ i, 0 ≤ i < 7 → load32 m' (block_size (desc_of descs i)) = Ok (bs i) ∧
      load32 m' (blocks_per_arena (desc_of descs i)) = Ok (bpa i) ∧
      dll m' (free_list (desc_of descs i)) []).
Proof.
  change (2 ^ 32 - 8) with 4294967288.
  intros Hd1 Hd2 fuel. induction fuel as [|fuel IH]; intros k s Hk Hf Hv Hi; [lia|]. cbn [loop].
  unfold DESC_CNT. destruct (Z.ltb_spec k 7) as [Hlt|Hge].
  - cbv zeta. fold (desc_of descs k). pose proof (desc_range descs k ltac:(lia)) as Hdk.
    pose proof (bs_facts k ltac:(lia)) as Hbs. set (d := desc_of descs k) in *.
    unfold block_size at 1, blocks_per_arena at 1.
    rewrite store32_valid by (eapply valid_sub; [exact Hv|lia|lia]). ocbn. set (m1 := put32 (ram s) d (bs k)).
    assert (valid m1 descs 168) as Hv1 by (by apply put32_valid).
    rewrite store32_valid by (eapply valid_sub; [exact Hv1|lia|lia]). ocbn.
    change ((PG_SIZE - sizeof_arena) / bs k) with (bpa k). set (m2 := put32 m1 (d + 4) (bpa k)).
    assert (valid m2 descs 168) as Hv2 by (by apply put32_valid).
    destruct (list_init_spec m2 (free_list d)) as (m3 & Hli & Hdll & Hout & Hv3).
    { unfold head, free_list. split; [lia|]. eapply valid_sub; [exact Hv2|lia|lia]. }
    { unfold tail, free_list. split; [lia|]. eapply valid_sub; [exact Hv2|lia|lia]. }
    rewrite (Hli (Machine m2 (eflags s)) eq_refl). ocbn. unfold free_list in Hout.
    assert (∀ a, a < d ∨ d + 24 ≤ a → m3 !! a = ram s !! a) as Hsame.
    { intros a Ha. rewrite Hout by lia. unfold m2, m1. by rewrite !put32_lookup_ne by lia. }
    assert (u16 (k + 1) = k + 1 ∧ u16 (bs k * 2) = bs (k + 1)) as [-> ->].
    { rewrite !u16_small by lia. split; [done|]. unfold bs. rewrite Z.pow_add_r by lia. lia. }
    destruct (IH (k + 1) (Machine m3 (eflags s))) as (m' & Heq & Ho & Hv' & Hall).
    + lia.
    + lia.
    + by apply Hv3.
    + cbn [ram]. intros i Hi'. destruct (decide (i = k)) as [->|Hne].
      * fold d. unfold block_size, blocks_per_arena. split_and!; [..|done].
        -- rewrite (load32_lookup_ext m2) by (intros; apply Hout; lia). unfold m2.
           rewrite load32_put32_ne by lia. unfold m1. by rewrite load32_put32_eq, u32_small by lia.
        -- rewrite (load32_lookup_ext m2) by (intros; apply Hout; lia). unfold m2.
           by rewrite load32_put32_eq, u32_small by lia.
      * destruct (Hi i ltac:(lia)) as (E1 & E2 & E3). unfold block_size, blocks_per_arena, d, desc_of, sizeof_mem_block_desc in *.
        split_and!.
        -- rewrite (load32_lookup_ext (ram s)); [done|]. intros; apply Hsame; lia.
        -- rewrite (load32_lookup_ext (ram s)); [done|]. intros; apply Hsame; lia.
        -- eapply dll_frame; [done|]. intros n a Hn Ha. apply Hsame. unfold nodes, head, tail, free_list in Hn.
           cbn in Hn. rewrite elem_of_cons, list_elem_of_singleton in Hn. lia.
    + exists m'. split; [exact Heq|]. split; [|done]. intros a Ha. rewrite (Ho a Ha). cbn [ram]. apply Hsame. lia.
  - assert (k = 7) as -> by lia. exists (ram s). split; [by destruct s|]. done.
Qed.

(** [block_desc_init] makes the seven empty descriptors. *)
Lemma block_desc_init_spec descs s :
  0 < descs → descs + 168 < 2 ^ 32 - 8 → valid (ram s) descs 168 →
  ∃ m', block_desc_init s descs = Ok (Machine m' (eflags s)) ∧
    (∀ a, a < descs ∨ descs + 168 ≤ a → m' !! a = ram s !! a) ∧ valid m' descs 168 ∧
    (∀ i, 0 ≤ i < 7 → load32 m' (block_size (desc_of descs i)) = Ok (bs i) ∧
      load32 m' (blocks_per_arena (desc_of descs i)) = Ok (bpa i) ∧
      dll m' (free_list (desc_of descs i)) []).
Proof.
  intros H1 H2 Hv. unfold block_desc_init. change 16 with (bs 0) at 1.
  apply block_desc_init_loop; try done; intros; lia.
Qed.

(** The empty heap. *)
Lemma block_desc_init_inv {P} `{PageAllocator P} env s (p : P) (lock : Z) :
  let descs := env_descs env in
  0 < descs → descs + 168 < 2 ^ 32 - 8 → valid (ram s) descs 168 → pa_inv p →
  (∀ a, is_Some (ram s !! a) → pa_region p a → pa_used p (a / 4096)) →
  ∃ m', block_desc_init s descs = Ok (Machine m' (eflags s)) ∧
    (∀ a, a < descs ∨ descs + 168 ≤ a → m' !! a = ram s !! a) ∧
    heap_inv descs (Heap (Machine m' (eflags s)) p lock) (λ _, []) ∅ ∧
    (∀ x n, ¬ live (λ _, []) ∅ x n).
Proof.
  intros descs H1 H2 Hv Hp Hmap.
  destruct (block_desc_init_spec descs s H1 H2 Hv) as (m' & Heq & Hout & Hv' & Hall).
  exists m'. split; [done|]. split; [done|]. split.
  - split; [|by intros a i Ha; rewrite lookup_empty in Ha].
    exists (λ _, 0). split; [|by intros a i Ha; rewrite lookup_empty in Ha]. cbn [h_ram mach ram pages].
    split; try (by intros a r Ha; rewrite lookup_empty in Ha); try done.
    + intros i Hi. by destruct (Hall i Hi) as (? & ? & _).
    + intros i Hi. by destruct (Hall i Hi) as (_ & _ & ?).
    + intros i x _ Hx. by apply not_elem_of_nil in Hx.
    + intros a Ha. apply Hmap. destruct (decide (a < descs ∨ descs + 168 ≤ a)) as [Ho|Ho].
      * by rewrite <- Hout.
      * apply Hv. lia.
  - intros x n [(a & i & j & (Ha & _) & _)|(a & k & Ha & _)]; by rewrite lookup_empty in Ha.
Qed.

(** ** The abstract heap *)

(** The heap as its clients see it: the allocations, by address, with their
    sizes. *)
Definition heap_rel {P} `{PageAllocator P} (descs : Z) (h : heap P) (allocs : gmap Z Z) : Prop :=
  ∃ fl regs, heap_inv descs h fl regs ∧ ∀ x n, live fl regs x n ↔ allocs !! x = Some n.

Lemma live_pos {P} `{PageAllocator P} descs (h : heap P) fl regs x n :
  heap_inv descs h fl regs → live fl regs x n → 0 < x ∧ 0 < n.
Proof.
  intros [(cnts & Hc & _) _] [(a & i & j & Hb & _ & ->)|(a & k & Hr & -> & ->)].
  - pose proof (block_in _ _ _ _ _ Hb). destruct Hb as (Hr & _).
    destruct (reg_range _ _ _ _ _ _ Hc _ _ Hr). lia.
  - destruct (reg_range _ _ _ _ _ _ Hc _ _ Hr) as (? & Hk & _). cbn in Hk. lia.
Qed.

Lemma live_below {P} `{PageAllocator P} descs (h : heap P) fl regs x n :
  heap_inv descs h fl regs → live fl regs x n → x + n ≤ 4290772992.
Proof.
  intros [(cnts & Hc & _) _] [(a & i & j & Hb & _ & ->)|(a & k & Hr & -> & ->)].
  - pose proof (block_in _ _ _ _ _ Hb). destruct Hb as (Hr & _).
    destruct (hc_reg _ _ _ _ _ _ Hc _ _ Hr) as (_ & _ & _ & Hhi & _). cbn in Hhi. lia.
  - destruct (hc_reg _ _ _ _ _ _ Hc _ _ Hr) as (_ & _ & _ & Hhi & _). cbn in Hhi. lia.
Qed.

Lemma allocated_rel {P} `{PageAllocator P} descs (h h' : heap P) fl regs fl' regs' (A : gmap Z Z) x n :
  heap_inv descs h fl regs → (∀ x n, live fl regs x n ↔ A !! x = Some n) →
  allocated descs h h' fl regs fl' regs' x n →
  0 < x ∧ A !! x = None ∧ heap_rel descs h' (<[x := n]> A).
Proof.
  intros Hinv HA [I L Ap _ _ _ _].
  assert (live fl' regs' x n) as Hl by (apply L; by right).
  destruct (live_pos _ _ _ _ _ _ I Hl) as [Hx Hn].
  assert (A !! x = None) as Hnone.
  { destruct (A !! x) as [k|] eqn:E; [|done]. apply HA in E. destruct (live_pos _ _ _ _ _ _ Hinv E).
    destruct (Ap x k E); lia. }
  split; [done|]. split; [done|]. exists fl', regs'. split; [done|]. intros y k. rewrite L, HA.
  rewrite lookup_insert_Some. destruct (decide (x = y)) as [->|Hne]; [|naive_solver].
  rewrite Hnone. naive_solver.
Qed.

(** ** Properties *)

(** After [block_desc_init] the heap is empty and in order, for descriptors
    in memory and a page allocator in order, as long as no byte of the region of
    pages is mapped that is not in use; nothing outside the descriptors is
    written. *)
Theorem block_desc_init_correct {P} `{PageAllocator P} env s (p : P) (lock : Z) :
  let descs := env_descs env in
  0 < descs → descs + 168 < 2 ^ 32 - 8 → valid (ram s) descs 168 → pa_inv p →
  (∀ a, is_Some (ram s !! a) → pa_region p a → pa_used p (a / 4096)) →
  ∃ m', block_desc_init s descs = Ok (Machine m' (eflags s)) ∧
    (∀ a, a < descs ∨ descs + 168 ≤ a → m' !! a = ram s !! a) ∧
    heap_rel descs (Heap (Machine m' (eflags s)) p lock) ∅.
Proof.
  intros descs H1 H2 Hv Hp Hmap.
  destruct (block_desc_init_inv env s p lock H1 H2 Hv Hp Hmap) as (m' & Heq & Hout & Hinv & Hno).
  exists m'. split; [done|]. split; [done|]. exists (λ _, []), ∅. split; [done|].
  intros x n. rewrite lookup_empty. split; [intros Hl; by apply Hno in Hl|done].
Qed.

(** C24. [sys_malloc] of 1 byte up to the size of the pool, when the page
    allocator has the pages: it returns an address with at least [size] bytes
    that overlap no allocation, cleared; these bytes become an allocation and
    all others stay, with their contents; the lock is released and the interrupt
    flag is as before. Any other request gets [NULL] and changes nothing. *)
Theorem sys_malloc_correct {P} `{PageAllocator P} env junk (h : heap P) (A : gmap Z Z) size :
  heap_rel (env_descs env) h A → 0 ≤ held h →
  (0 < size < env_pool_size env → pages_needed size < 3840 → pa_room (pages h) (pages_needed size) →
   ∃ x n h', sys_malloc env junk h size = Ok (x, h') ∧ x ≠ NULL ∧ size ≤ n ∧ A !! x = None ∧
     heap_rel (env_descs env) h' (<[x := n]> A) ∧
     (∀ y, x ≤ y < x + n → h_ram h' !! y = Some 0) ∧
     (∀ y k, A !! y = Some k → (y + k ≤ x ∨ x + n ≤ y) ∧
        ∀ z, y ≤ z < y + k → h_ram h' !! z = h_ram h !! z) ∧
     held h' = held h ∧ eflags (mach h') = eflags (mach h)) ∧
  (¬ (0 < size < env_pool_size env) → sys_malloc env junk h size = Ok (NULL, h)).
Proof.
  intros (fl & regs & Hinv & HA) Hheld. split.
  - intros Hs Hn Hroom.
    destruct (sys_malloc_spec (env_descs env) env junk h fl regs size eq_refl Hinv Hs Hn Hroom Hheld)
      as (x & n & h' & fl' & regs' & Heq & Hsz & Hal & Hh).
    destruct (allocated_rel _ _ _ _ _ _ _ A _ _ Hinv HA Hal) as (Hx & Hnone & Hrel).
    destruct Hal as [_ _ Ap Z K F _].
    exists x, n, h'. split; [done|]. split; [unfold NULL; lia|]. split_and!; try done.
    intros y k Hy%HA. split; [by apply Ap|]. intros z Hz. by apply (K y k).
  - intros Hs. unfold sys_malloc.
    assert (negb ((0 <? size) && (size <? env_pool_size env)) = true) as -> by lia. done.
Qed.

