(* ===== verification/HeapPages.v ===== *)
(** * The heap over the page allocator

    [malloc_page] and [mfree_page] of [Pool], for the kernel's or the user's
    pool, implement the interface [PageAllocator] the heap is proved against:
    every page the bitmap of the space has taken is mapped to a frame of the pool. *)

From stdpp Require Import base numbers list gmap.
From Stdlib Require Import ZArith Lia.
From S2P Require Import Prelude Mem KString Bitmap Interrupt KList Paging Pool Heap.

Section pool_allocator.
Context (pf : pool_flags).

Definition first_page (k : mm) : Z := vaddr_start (vspace k pf) / 4096.
Definition space_bits (k : mm) : bitmap := vaddr_bitmap (vspace k pf).

Record pages_inv (k : mm) : Prop := PagesInv {
  pi_mm : mm_inv k;
  pi_space : space_inv k pf;
  pi_low : 1056768 ≤ phy_addr_start (kernel_pool k);
  pi_used i : 0 ≤ i < nbits (space_bits k) → bit (space_bits k) i = true →
    ∃ f, maps (phys k) (dir k) (vaddr_start (vspace k pf) + i * PG_SIZE) f ∧ page_frame k pf f
}.

Definition region_of (k : mm) (a : Z) : Prop :=
  vaddr_start (vspace k pf) ≤ a < vaddr_start (vspace k pf) + nbits (space_bits k) * PG_SIZE.
Definition page_used (k : mm) (pg : Z) : Prop :=
  0 ≤ pg - first_page k < nbits (space_bits k) ∧ bit (space_bits k) (pg - first_page k) = true.
Definition page_room (k : mm) (n : Z) : Prop :=
  below_stack k pf n ∧ resources k pf (Z.to_nat n) ∧
  ∃ s, 0 ≤ s ∧ s + n ≤ nbits (space_bits k) ∧ free_run (space_bits k) s n.

Lemma set_vspace_same k v : dir (set_vspace k pf v) = dir k ∧ phys (set_vspace k pf v) = phys k ∧
  ∀ pf', pool_of (set_vspace k pf v) pf' = pool_of k pf'.
Proof. destruct pf; split_and!; try done; by intros []. Qed.

Lemma pages_malloc_ok k n : pages_inv k → 1 ≤ n < 3840 → page_room k n →
  ∃ va k', malloc_page k pf n = Ok (va, k') ∧ pages_inv k' ∧
    va mod 4096 = 0 ∧ 4096 ≤ va ∧ va + n * PG_SIZE ≤ 4290772992 ∧
    (∀ a, va ≤ a < va + n * PG_SIZE → region_of k a) ∧
    (∀ a, region_of k' a ↔ region_of k a) ∧
    (∀ pg, va / 4096 ≤ pg < va / 4096 + n → ¬ page_used k pg) ∧
    (∀ pg, page_used k' pg ↔ page_used k pg ∨ va / 4096 ≤ pg < va / 4096 + n).
Proof.
  intros [Hk Hsp Hlow Hus] Hn (Hst & Hres & Hex).
  destruct (malloc_page_spec k pf n Hk Hsp Hn Hst Hex Hres)
    as (r & k' & Heq & Hr & Hrn & Hrun & _ & Hsp' & Hmr & Ev & En & Hbit).
  pose proof (sp_align _ _ Hsp) as Hal. pose proof (sp_range _ _ Hsp) as Hrng.
  destruct (set_vspace_same k (vspace k' pf)) as (E1 & E2 & E3).
  pose proof Hmr as [I D N O K U L A _]. rewrite E1, E2 in *. rewrite E3 in N.
  rewrite Z2Nat.id in N, O by lia.
  unfold region_of, page_used, first_page, space_bits in *.
  set (v := vspace k pf) in *. set (va := vaddr_start v + r * PG_SIZE) in *.
  assert (va / 4096 = vaddr_start v / 4096 + r) as Evp by (unfold va, PG_SIZE; zdlia).
  exists va, k'. split; [done|]. unfold PG_SIZE in *. split; [split; try done|].
  - destruct (L PF_KERNEL) as [Hs _ _]. rewrite E3 in Hs. cbn in Hs. lia.
  - unfold space_bits. intros i Hi. rewrite En in Hi. rewrite Ev, Hbit by lia.
    destruct (L pf) as [Hs Hnb _]. rewrite E3 in Hs, Hnb. unfold page_frame, in_pool. rewrite Hs, Hnb, D.
    fold (in_pool (pool_of k pf)). gdecide as E; intros Hb.
    + destruct (N (i - r)) as (f & Hf & Hff); [lia|]. exists f. split; [|split; [by apply free_in_in_pool|by apply (free_not_dir k pf)]].
      by replace (vaddr_start v + i * PG_SIZE) with (va + (i - r) * 4096) by (unfold va, PG_SIZE; lia).
    + destruct (Hus i Hi Hb) as (f & Hf & Hin). exists f. split; [|done].
      apply O; [unfold managed, PG_SIZE in *; lia| |done]. rewrite Evp. unfold PG_SIZE. zdlia.
  - split; [unfold va; zdlia|]. split; [unfold va; lia|]. split; [unfold va; lia|].
    split; [intros a Ha; unfold va in *; lia|]. split; [intros a; by rewrite Ev, En|]. rewrite Evp. split.
    + intros pg Hpg [_ Hb]. rewrite (Hrun (pg - vaddr_start v / 4096)) in Hb by lia. done.
    + intros pg. rewrite Ev, En. split.
      * intros [Hi Hb]. rewrite Hbit in Hb by lia.
        destruct (decide (r ≤ pg - vaddr_start v / 4096 < r + n)) as [E|E]; [right; lia|].
        rewrite bool_decide_eq_false_2 in Hb by done. by left.
      * intros [[Hi Hb]|Hin].
        -- split; [done|]. rewrite Hbit by lia. by gdecide.
        -- split; [lia|]. rewrite Hbit by lia. by rewrite bool_decide_eq_true_2 by lia.
Qed.

Lemma pages_mfree_ok k va n : pages_inv k → va mod 4096 = 0 → 1 ≤ n →
  (∀ a, va ≤ a < va + n * PG_SIZE → region_of k a) →
  (∀ pg, va / 4096 ≤ pg < va / 4096 + n → page_used k pg) →
  ∃ k', mfree_page k pf va n = Ok k' ∧ pages_inv k' ∧ (∀ a, region_of k' a ↔ region_of k a) ∧
    (∀ pg, page_used k' pg ↔ page_used k pg ∧ ¬ (va / 4096 ≤ pg < va / 4096 + n)).
Proof.
  intros [Hk Hsp Hlow Hus] Hva Hn Hreg Hpu. 
  pose proof (sp_align _ _ Hsp) as Hal. pose proof (sp_range _ _ Hsp) as Hrng.
  unfold region_of, page_used, first_page, space_bits in *.
  set (v := vspace k pf) in *. unfold PG_SIZE in *.
  set (r := (va - vaddr_start v) / 4096).
  pose proof (Hreg va ltac:(lia)). pose proof (Hreg (va + n * 4096 - 1) ltac:(lia)).
  assert (va = vaddr_start v + r * 4096) as Eva by (unfold r; zdlia).
  assert (0 ≤ r ∧ r + n ≤ nbits (vaddr_bitmap v)) as [Hr Hrn] by lia.
  assert (va / 4096 = vaddr_start v / 4096 + r) as Evp by zdlia.
  destruct (mfree_page_spec k pf r n) as (k' & Heq & Hsp' & [I D G O F K U L S] & Ev & En & Hbit); try done.
  { intros i Hi. fold v. unfold PG_SIZE. 
    replace (vaddr_start v + r * 4096 + i * 4096) with (vaddr_start v + (r + i) * 4096) by lia.
    apply Hus; [lia|]. destruct (Hpu (vaddr_start v / 4096 + (r + i))) as [_ Hb]; [lia|].
    by replace (vaddr_start v / 4096 + (r + i) - vaddr_start v / 4096) with (r + i) in Hb by lia. }
  destruct (set_vspace_same k (vspace k' pf)) as (E1 & E2 & E3). rewrite E1, E2 in *.
  fold v in Heq, G, O, Ev, En, Hbit. unfold PG_SIZE in *. rewrite <- Eva in Heq, G, O.
  rewrite Z2Nat.id in * by lia. exists k'. split; [done|]. split; [split; try done|].
  - pose proof (S PF_KERNEL) as Hs. rewrite E3 in Hs. cbn in Hs. lia.
  - unfold space_bits. intros i Hi. rewrite En in Hi. rewrite Ev, Hbit by lia.
    gdecide as E; [done|]. intros Hb. destruct (Hus i Hi Hb) as (f & Hf & Hin). exists f. rewrite D.
    split; [|split; [apply L; rewrite E3; apply Hin|rewrite D; apply Hin]]. apply O; [unfold managed, PG_SIZE in *; lia| |done].
    rewrite Evp. unfold PG_SIZE. zdlia.
  - split; [intros a; by rewrite Ev, En|]. intros pg. rewrite Ev, En, Evp. split.
    + intros [Hi Hb]. rewrite Hbit in Hb by lia.
      destruct (decide (r ≤ pg - vaddr_start v / 4096 < r + n)) as [E|E].
      * by rewrite bool_decide_eq_true_2 in Hb.
      * rewrite bool_decide_eq_false_2 in Hb by done. split; [done|lia].
    + intros [[Hi Hb] Hno]. split; [done|]. rewrite Hbit by lia.
      by rewrite bool_decide_eq_false_2 by lia.
Qed.

#[export] Instance pool_allocator : PageAllocator mm := {|
  pa_malloc k n := malloc_page k pf n;
  pa_mfree k va n := mfree_page k pf va n;
  pa_inv := pages_inv;
  pa_region := region_of;
  pa_used := page_used;
  pa_room := page_room;
  pa_malloc_ok := pages_malloc_ok;
  pa_mfree_ok := pages_mfree_ok
|}.
End pool_allocator.

(** ** A small kernel heap *)

Module HeapExample.
#[local] Instance kernel_pages : PageAllocator mm := pool_allocator PF_KERNEL.

(** [k_block_descs] at 0xc0010000, and the eight frames of [PoolExample]. *)
Definition env : heap_env := select_env 0 3221291008 0 32768 0.
Definition s0 : machine := Machine (zeros 3221291008 168) 514.

Lemma k0_pages : pages_inv PF_KERNEL PoolExample.k0.
Proof.
  split; [apply PoolExample.k0_inv|apply PoolExample.k0_space|by vm_compute|].
  intros i Hi Hb. exfalso. change (nbits _) with 8 in Hi.
  assert (i ∈ seqZ 0 8) as Hin by (apply elem_of_seqZ; lia). clear Hi. revert Hb.
  apply not_true_iff_false. revert i Hin. apply Forall_forall. by repeat constructor.
Qed.

Lemma k0_room n : 1 ≤ n ≤ 2 → page_room PF_KERNEL PoolExample.k0 n.
Proof.
  intros Hn. split; [done|]. split.
  - assert (n = 1 ∨ n = 2) as [->| ->] by lia; vm_compute; lia.
  - destruct (PoolExample.k0_run PF_KERNEL) as (s & Hs & Hsn & Hrun). exists s.
    split; [done|]. split; [unfold space_bits; lia|]. intros i Hi. apply Hrun. lia.
Qed.

Lemma s0_mapped a : is_Some (ram s0 !! a) → pa_region PoolExample.k0 a → pa_used PoolExample.k0 (a / 4096).
Proof.
  cbn. rewrite zeros_lookup. case_bool_decide as E; [|by intros [? ?]]. intros _ Hr. exfalso.
  unfold region_of in Hr. change (vaddr_start _) with 3222274048 in Hr. lia.
Qed.

(** The heap after its initialisation. *)
Lemma heap_start : ∃ m, heap_rel (env_descs env) (Heap (Machine m 514) PoolExample.k0 0) ∅.
Proof.
  destruct (block_desc_init_inv env s0 PoolExample.k0 0) as (m & _ & _ & Hinv & Hno);
    [by vm_compute|by vm_compute|apply zeros_valid|apply k0_pages|apply s0_mapped|].
  exists m, (λ _, []), ∅. split; [exact Hinv|]. intros x n. rewrite lookup_empty.
  split; [intros Hl; by apply Hno in Hl|done].
Qed.

Lemma block_desc_init_correct_witness :
  ∃ m, block_desc_init s0 (env_descs env) = Ok (Machine m 514) ∧
    heap_rel (env_descs env) (Heap (Machine m 514) PoolExample.k0 0) ∅.
Proof.
  destruct (block_desc_init_correct env s0 PoolExample.k0 0) as (m & Heq & _ & Hrel);
    [by vm_compute|by vm_compute|apply zeros_valid|apply k0_pages|apply s0_mapped|].
  exists m. split; [exact Heq|exact Hrel].
Defined.

(** 100 bytes get a block, 5000 bytes two pages. *)
Lemma sys_malloc_correct_witness :
  ∃ h : heap mm, heap_rel (env_descs env) h ∅ ∧
    (∃ x n h', sys_malloc env (λ _, 7) h 100 = Ok (x, h') ∧ heap_rel (env_descs env) h' (<[x := n]> ∅)) ∧
    (∃ x n h', sys_malloc env (λ _, 7) h 5000 = Ok (x, h') ∧ heap_rel (env_descs env) h' (<[x := n]> ∅)).
Proof.
  destruct heap_start as (m & Hrel). exists (Heap (Machine m 514) PoolExample.k0 0).
  split; [exact Hrel|]. split.
  - destruct (sys_malloc_correct env (λ _, 7) _ ∅ 100 Hrel) as [Hok _]; [cbn; lia|].
    destruct Hok as (x & n & h' & Heq & _ & _ & _ & Hrel' & _); [by vm_compute|by vm_compute|by apply k0_room|].
    exists x, n, h'. split; [exact Heq|exact Hrel'].
  - destruct (sys_malloc_correct env (λ _, 7) _ ∅ 5000 Hrel) as [Hok _]; [cbn; lia|].
    destruct Hok as (x & n & h' & Heq & _ & _ & _ & Hrel' & _); [by vm_compute|by vm_compute|by apply k0_room|].
    exists x, n, h'. split; [exact Heq|exact Hrel'].
Defined.

End HeapExample.
