(* ===== verification/Stdio.v ===== *)
(** * lib/stdio.c and lib/kernel/stdio-kernel.c: formatted output

    [vsprintf] works on the memory: the format, the arguments on the stack from
    [ap + 4] on, and the buffer. [render] is what it should print. The function
    never writes a terminating zero itself: the callers clear their buffer first. *)

From stdpp Require Import base numbers list gmap.
From Stdlib Require Import ZArith Lia.
From S2P Require Import Prelude Mem KString.

(** ** The functions *)

(** The recursion ends after at most 32 divisions for a base of 2 or more. *)
Fixpoint itoa (fuel : nat) (m : mem) (value buf_ptr base : Z) : outcome (mem * Z) :=
  match fuel with
  | O => OutOfFuel
  | S fuel =>
      let r := value mod base in
      let i := value / base in
      '(m, buf_ptr) ← (if truth i then itoa fuel m i buf_ptr base else Ok (m, buf_ptr));
      m ← store8 m buf_ptr (if r <? 10 then r + 48 else r - 10 + 65);
      Ok (m, buf_ptr + 1)
  end.

(** [va_arg(ap, t)]: the next word of the stack. *)
Definition va_arg32 (m : mem) (ap : Z) : outcome (Z * Z) := v ← load32 m (ap + 4); Ok (v, ap + 4).
Definition va_arg8 (m : mem) (ap : Z) : outcome (Z * Z) := v ← load8 m (ap + 4); Ok (v, ap + 4).

(** One round of the loop of [vsprintf]. *)
Definition vsprintf_round : mem * Z * Z * Z * Z → outcome (mem * Z * Z * Z * Z + mem) :=
  λ '(m, buf_ptr, index_ptr, index_char, ap),
  if negb (truth index_char) then Ok (inr m)
  else if negb (index_char =? 37) then
    m ← store8 m buf_ptr index_char;
    c ← load8 m (index_ptr + 1);
    Ok (inl (m, buf_ptr + 1, index_ptr + 1, c, ap))
  else
    c ← load8 m (index_ptr + 1);
    let index_ptr := index_ptr + 1 in
    if c =? 115 then
      '(arg_str, ap) ← va_arg32 m ap;
      '(_, m) ← strcpy m buf_ptr arg_str;
      n ← strlen m arg_str;
      c ← load8 m (index_ptr + 1);
      Ok (inl (m, buf_ptr + n, index_ptr + 1, c, ap))
    else if c =? 99 then
      '(ch, ap) ← va_arg8 m ap;
      m ← store8 m buf_ptr ch;
      c ← load8 m (index_ptr + 1);
      Ok (inl (m, buf_ptr + 1, index_ptr + 1, c, ap))
    else if c =? 100 then
      '(v, ap) ← va_arg32 m ap;
      let arg_int := s32 v in
      '(m, buf_ptr, arg_int) ← (if arg_int <? 0 then
          m ← store8 m buf_ptr 45; Ok (m, buf_ptr + 1, s32 (0 - arg_int))
        else Ok (m, buf_ptr, arg_int));
      '(m, buf_ptr) ← itoa 33 m (u32 arg_int) buf_ptr 10;
      c ← load8 m (index_ptr + 1);
      Ok (inl (m, buf_ptr, index_ptr + 1, c, ap))
    else if c =? 120 then
      '(v, ap) ← va_arg32 m ap;
      '(m, buf_ptr) ← itoa 33 m (u32 (s32 v)) buf_ptr 16;
      c ← load8 m (index_ptr + 1);
      Ok (inl (m, buf_ptr, index_ptr + 1, c, ap))
    else Ok (inl (m, buf_ptr, index_ptr, c, ap)).

Definition vsprintf (m : mem) (str format ap : Z) : outcome (Z * mem) :=
  c ← load8 m format;
  m ← loop (S (size m)) vsprintf_round (m, str, format, c, ap);
  n ← strlen m str;
  Ok (n, m).

(** [sprintf(buf, format, ...)]: the arguments follow [format] on the stack. *)
Definition sprintf (m : mem) (buf format format_addr : Z) : outcome (Z * mem) :=
  vsprintf m buf format format_addr.

(** [printf]: [buf] is the local array of 1024 bytes, [write] the system call. *)
Definition printf {R} (write : mem → Z → Z → Z → outcome R) (m : mem) (buf format format_addr : Z) : outcome R :=
  m ← memset_bytes m buf 0 1024;
  '(_, m) ← vsprintf m buf format format_addr;
  n ← strlen m buf;
  write m 1 buf n.

(** [printk], with [console_put_str] of device/console.c. *)
Definition printk {R} (console_put_str : mem → Z → outcome R) (m : mem) (buf format format_addr : Z) : outcome R :=
  m ← memset_bytes m buf 0 1024;
  '(_, m) ← vsprintf m buf format format_addr;
  console_put_str m buf.

(** ** What is to be printed *)

Definition digit_char (d : Z) : Z := if d <? 10 then d + 48 else d - 10 + 65.

Fixpoint digits (fuel : nat) (base v : Z) : list Z :=
  match fuel with
  | O => []
  | S fuel => (if truth (v / base) then digits fuel base (v / base) else []) ++ [digit_char (v mod base)]
  end.

Inductive arg := AStr (s : list Z) | AChar (c : Z) | AInt (z : Z).

Definition decimal (z : Z) : list Z := if z <? 0 then 45 :: digits 33 10 (- z) else digits 33 10 z.
Definition hexadecimal (z : Z) : list Z := digits 33 16 (u32 z).

Fixpoint render (fmt : list Z) (args : list arg) : option (list Z) :=
  match fmt with
  | [] => Some []
  | c :: rest =>
      if c =? 37 then
        match rest with
        | [] => Some []
        | k :: f =>
            if k =? 115 then
              match args with AStr s :: args => app s <$> render f args | _ => None end
            else if k =? 99 then
              match args with AChar c :: args => cons c <$> render f args | _ => None end
            else if k =? 100 then
              match args with AInt z :: args => app (decimal z) <$> render f args | _ => None end
            else if k =? 120 then
              match args with AInt z :: args => app (hexadecimal z) <$> render f args | _ => None end
            else render rest args
        end
      else cons c <$> render rest args
  end.

(** ** Numbers *)

Fixpoint digits_value (base : Z) (l : list Z) (acc : Z) : Z :=
  match l with
  | [] => acc
  | c :: l => digits_value base l (acc * base + (if c <? 65 then c - 48 else c - 55))
  end.

Lemma digits_value_app base l l' acc :
  digits_value base (l ++ l') acc = digits_value base l' (digits_value base l acc).
Proof. revert acc. induction l; intros; cbn; auto. Qed.

(** Reading the digits back gives the number. *)
Lemma digits_read fuel base v : 2 ≤ base ≤ 16 → 0 ≤ v < 2 ^ Z.of_nat fuel →
  digits_value base (digits fuel base v) 0 = v ∧ Forall char_ok (digits fuel base v).
Proof.
  intros Hb. revert v. induction fuel as [|fuel IH]; intros v Hv.
  { cbn in Hv. cbn. split; [lia|constructor]. }
  cbn [digits]. rewrite Nat2Z.inj_succ, Z.pow_succ_r in Hv by lia.
  assert (0 ≤ v mod base < base) as Hm by (apply Z.mod_pos_bound; lia).
  assert (0 ≤ v / base < 2 ^ Z.of_nat fuel) as Hd.
  { split; [apply Z.div_pos; lia|]. apply Z.div_lt_upper_bound; nia. }
  destruct (IH (v / base) Hd) as [IH1 IH2].
  assert (char_ok (digit_char (v mod base))) as Hc.
  { unfold char_ok, digit_char. destruct (Z.ltb_spec (v mod base) 10); lia. }
  assert ((if digit_char (v mod base) <? 65 then digit_char (v mod base) - 48 else digit_char (v mod base) - 55)
    = v mod base) as Hval.
  { unfold digit_char. destruct (Z.ltb_spec (v mod base) 10); zcase; lia. }
  rewrite digits_value_app, Forall_app, Forall_singleton. cbn [digits_value]. rewrite Hval.
  unfold truth. destruct (Z.eqb_spec (v / base) 0) as [E|E]; cbn [negb].
  - rewrite (Z.div_mod v base) at 2 by lia. rewrite E. cbn. split; [lia|]. split; [constructor|done].
  - rewrite IH1. pose proof (Z.div_mod v base). split; [lia|]. done.
Qed.

(** ** Writing into the buffer *)

(** [out] is written at [buf], followed by zeros up to [hi]; nothing else changes. *)
Record wrote (m m' : mem) (buf hi : Z) (out : list Z) : Prop := Wrote {
  wr_out : bytes_at m' buf out;
  wr_zero a : buf + Z.of_nat (length out) ≤ a < hi → m' !! a = Some 0;
  wr_same a : a < buf ∨ hi ≤ a → m' !! a = m !! a
}.

(** The rest of the buffer, from [buf] to [hi], is cleared. *)
Definition clear_from (m : mem) (buf hi : Z) : Prop := ∀ a, buf ≤ a < hi → m !! a = Some 0.

Lemma wrote_nil m buf hi : clear_from m buf hi → wrote m m buf hi [].
Proof.
  intros H. split; [intros i b Hi; by rewrite lookup_nil in Hi|intros a; cbn; intros; apply H; lia|done].
Qed.

Lemma wrote_app m m1 m2 buf hi o1 o2 :
  wrote m m1 buf hi o1 → wrote m1 m2 (buf + Z.of_nat (length o1)) hi o2 →
  buf + Z.of_nat (length o1) ≤ hi → wrote m m2 buf hi (o1 ++ o2).
Proof.
  intros [O1 Z1 S1] [O2 Z2 S2] Hle. split.
  - apply bytes_at_app. split; [|done]. eapply bytes_at_ext; [|exact O1]. intros a Ha. apply S2. lia.
  - intros a. rewrite length_app. intros Ha. apply Z2. lia.
  - intros a Ha. rewrite S2 by lia. apply S1. lia.
Qed.

Lemma wrote_clear m m' buf hi out : wrote m m' buf hi out → clear_from m' (buf + Z.of_nat (length out)) hi.
Proof. intros [_ Hz _]. exact Hz. Qed.

Lemma store_wrote m buf hi c : clear_from m buf hi → 0 ≤ c < 256 → buf < hi →
  ∃ m', store8 m buf c = Ok m' ∧ wrote m m' buf hi [c].
Proof.
  intros Hc Hr Hlt. rewrite store8_valid by (rewrite Hc by lia; by eexists).
  eexists. split; [done|]. rewrite u8_small by lia. split.
  - apply bytes_at_cons. split; [by rewrite lookup_insert_eq|].
    intros i b Hi. by rewrite lookup_nil in Hi.
  - cbn. intros a Ha. rewrite lookup_insert_ne by lia. apply Hc. lia.
  - intros a Ha. apply lookup_insert_ne. lia.
Qed.

Lemma digits_length fuel base v : (length (digits (S fuel) base v) ≥ 1)%nat.
Proof. cbn [digits]. rewrite length_app. cbn. lia. Qed.

Lemma itoa_spec fuel base : 2 ≤ base ≤ 16 → ∀ m v buf hi, 0 ≤ v < 2 ^ Z.of_nat fuel → (0 < fuel)%nat →
  clear_from m buf hi → buf + Z.of_nat (length (digits fuel base v)) ≤ hi →
  ∃ m', itoa fuel m v buf base = Ok (m', buf + Z.of_nat (length (digits fuel base v))) ∧
    wrote m m' buf hi (digits fuel base v).
Proof.
  intros Hb. induction fuel as [|fuel IH]; intros m v buf hi Hv Hf Hc Hroom; [lia|].
  cbn [itoa digits] in *. rewrite length_app in *. cbn [length] in *.
  rewrite Nat2Z.inj_succ, Z.pow_succ_r in Hv by lia.
  assert (0 ≤ v mod base < base) as Hm by (apply Z.mod_pos_bound; lia).
  assert (0 ≤ v / base < 2 ^ Z.of_nat fuel) as Hd.
  { split; [apply Z.div_pos; lia|]. apply Z.div_lt_upper_bound; nia. }
  fold (digit_char (v mod base)).
  assert (0 ≤ digit_char (v mod base) < 256) as Hdc.
  { unfold digit_char. destruct (Z.ltb_spec (v mod base) 10); lia. }
  destruct (truth (v / base)) eqn:E.
  - destruct (IH m (v / base) buf hi) as (m1 & -> & Hw1); try done; try lia.
    { destruct fuel; [|lia]. cbn in Hd. unfold truth in E. destruct (Z.eqb_spec (v / base) 0); [done|lia]. }
    ocbn. set (l := digits fuel base (v / base)) in *.
    destruct (store_wrote m1 (buf + Z.of_nat (length l)) hi (digit_char (v mod base))) as (m2 & -> & Hw2);
      [by eapply wrote_clear|done|lia|]. ocbn.
    exists m2. split; [do 2 f_equal; lia|]. eapply wrote_app; [done|done|lia].
  - ocbn. cbn [length app] in *. destruct (store_wrote m buf hi (digit_char (v mod base))) as (m2 & -> & Hw2); [done|done|lia|].
    ocbn. exists m2. split; [do 2 f_equal; lia|done].
Qed.

(** ** [vsprintf] *)

Section format.
Context (lo hi : Z).

(** The [n] bytes from [p] lie outside the buffer. *)
Definition apart (p n : Z) : Prop := p + n ≤ lo ∨ hi ≤ p.

Definition arg_at (m : mem) (p : Z) (a : arg) : Prop :=
  match a with
  | AStr s => ∃ q, load32 m p = Ok q ∧ q ≠ NULL ∧ cstr m q s ∧
      apart q (Z.of_nat (length s) + 1) ∧ Z.of_nat (length s) < 2 ^ 32
  | AChar c => m !! p = Some c ∧ char_ok c
  | AInt z => load32 m p = Ok (u32 z) ∧ -2 ^ 31 ≤ z < 2 ^ 31
  end.

(** The arguments on the stack behind [ap]. *)
Fixpoint args_at (m : mem) (ap : Z) (args : list arg) : Prop :=
  match args with
  | [] => True
  | a :: args => arg_at m (ap + 4) a ∧ apart (ap + 4) 4 ∧ args_at m (ap + 4) args
  end.

Definition outside_same (m m' : mem) : Prop := ∀ a, a < lo ∨ hi ≤ a → m' !! a = m !! a.

Lemma arg_at_frame m m' p a : outside_same m m' → apart p 4 → arg_at m p a → arg_at m' p a.
Proof.
  intros Hs Ha. unfold apart in Ha. destruct a; cbn.
  - intros (q & Hq & Hn & Hc & Hap & Hl). exists q. split_and!; try done.
    + rewrite <- Hq. apply load32_lookup_ext. intros x Hx. apply Hs. lia.
    + eapply cstr_ext; [|done]. intros x Hx. apply Hs. unfold apart in Hap. lia.
  - rewrite Hs by lia. done.
  - rewrite (load32_lookup_ext m m'); [done|]. intros x Hx. apply Hs. lia.
Qed.

Lemma args_at_frame m m' ap args : outside_same m m' → args_at m ap args → args_at m' ap args.
Proof.
  intros Hs. revert ap. induction args as [|a args IH]; intros ap; [done|]. cbn.
  intros (H1 & H2 & H3). split_and!; [by eapply arg_at_frame|done|auto].
Qed.

Lemma wrote_outside m m' buf out : lo ≤ buf → wrote m m' buf hi out → outside_same m m'.
Proof. intros Hl [_ _ Hs] a Ha. apply Hs. lia. Qed.

Lemma cstr_frame m m' p s : outside_same m m' → apart p (Z.of_nat (length s) + 1) → cstr m p s → cstr m' p s.
Proof. intros Hs Ha. apply cstr_ext. intros a Hr. apply Hs. unfold apart in Ha. lia. Qed.

(** The character the loop looks at. *)
Definition first_char (s : list Z) : Z := match s with [] => 0 | c :: _ => c end.

Lemma load_first m p s : cstr m p s → load8 m p = Ok (first_char s).
Proof.
  intros Hs. destruct s as [|c s]; [apply cstr_nil in Hs|apply cstr_cons in Hs as (Hs & _)]; by apply load8_Some.
Qed.

Lemma strcpy_wrote m buf q s : cstr m q s → q ≠ NULL → 0 < lo ≤ buf → apart q (Z.of_nat (length s) + 1) →
  clear_from m buf hi → buf + Z.of_nat (length s) < hi →
  ∃ m', strcpy m buf q = Ok (buf, m') ∧ wrote m m' buf hi s.
Proof.
  intros Hs Hq Hb Hap Hc Hroom. unfold apart in Hap.
  destruct (strcpy_spec m buf q s) as (m' & -> & [Hb' Hok] & Hout); [unfold NULL; lia|done|done| |lia|].
  { intros a Ha. rewrite Hc by lia. by eexists. }
  exists m'. split; [done|]. apply bytes_at_app in Hb' as [Hb1 Hb2]. apply bytes_at_cons in Hb2 as [Hz _].
  split; [done| |].
  - intros a Ha. destruct (decide (a = buf + Z.of_nat (length s))) as [->|]; [done|].
    rewrite Hout by lia. apply Hc. lia.
  - intros a Ha. apply Hout. lia.
Qed.

Lemma decimal_spec m buf z : -2 ^ 31 ≤ z < 2 ^ 31 → lo ≤ buf → clear_from m buf hi →
  buf + Z.of_nat (length (decimal z)) ≤ hi →
  ∃ m1 b1 z1 m', (if z <? 0 then m ← store8 m buf 45; Ok (m, buf + 1, s32 (0 - z)) else Ok (m, buf, z)) = Ok (m1, b1, z1) ∧
    itoa 33 m1 (u32 z1) b1 10 = Ok (m', buf + Z.of_nat (length (decimal z))) ∧ wrote m m' buf hi (decimal z).
Proof.
  change (2 ^ 31) with 2147483648. intros Hz Hlo Hc. unfold decimal.
  destruct (Z.ltb_spec z 0) as [Hneg|Hpos]; cbn [length]; intros Hroom.
  - destruct (store_wrote m buf hi 45) as (m1 & -> & Hw1); [done|lia|lia|]. ocbn.
    assert (u32 (s32 (0 - z)) = - z) as Ez.
    { unfold s32, u32. change (2 ^ 31) with 2147483648. change (2 ^ 32) with 4294967296.
      destruct (Z.ltb_spec ((0 - z) mod 4294967296) 2147483648); zdlia. }
    destruct (itoa_spec 33 10 ltac:(lia) m1 (- z) (buf + 1) hi) as (m2 & Hit & Hw2).
    { change (2 ^ Z.of_nat 33) with 8589934592. lia. } { lia. }
    { by apply (wrote_clear _ _ _ _ _ Hw1). } { lia. }
    exists m1, (buf + 1), (s32 (0 - z)), m2. split; [done|]. rewrite Ez, Hit.
    split; [do 2 f_equal; lia|]. apply (wrote_app m m1 m2 buf hi [45] (digits 33 10 (- z)) Hw1 Hw2). cbn. lia.
  - destruct (itoa_spec 33 10 ltac:(lia) m z buf hi) as (m2 & Hit & Hw2); [|lia|done|lia|].
    { change (2 ^ Z.of_nat 33) with 8589934592. lia. }
    exists m, buf, z, m2. split; [done|]. rewrite u32_small by lia. done.
Qed.

Lemma decimal_ok z : -2 ^ 31 ≤ z < 2 ^ 31 → Forall char_ok (decimal z).
Proof.
  change (2 ^ 31) with 2147483648. intros Hz. unfold decimal.
  destruct (Z.ltb_spec z 0); [apply Forall_cons; split; [unfold char_ok; lia|]|];
    (apply digits_read; [lia|]; change (2 ^ Z.of_nat 33) with 8589934592; lia).
Qed.

(** ** One round of the loop *)

(** The round at character [c] of the format prints the start [o1] of [out]; the rest is the text of what it leaves
    of the format, at most [n] characters, and of the arguments. *)
Definition round_prints m buf idx ap c (n : nat) out : Prop :=
  ∃ m1 f args1 idx1 ap1 o1 out1, wrote m m1 buf hi o1 ∧ Forall char_ok o1 ∧ out = o1 ++ out1 ∧ (length f ≤ n)%nat ∧
    cstr m idx1 f ∧ apart idx1 (Z.of_nat (length f) + 1) ∧ args_at m ap1 args1 ∧ render f args1 = Some out1 ∧
    vsprintf_round (m, buf, idx, c, ap) = Ok (inl (m1, buf + Z.of_nat (length o1), idx1, first_char f, ap1)).

Section round.
Context (m : mem) (buf idx ap : Z).
Hypothesis Hb : 0 < lo ≤ buf.
Hypothesis Hc : clear_from m buf hi.

(** The round for a percent sign, up to the switch on the next character. *)
Ltac percent Hk := unfold vsprintf_round; change (truth 37) with true; change (37 =? 37) with true; cbn [negb]; rewrite Hk; ocbn.

Section directive.
Context (k : Z) (f : list Z) (args : list arg) (out : list Z).
Hypothesis Hs : cstr m (idx + 1) (k :: f).
Hypothesis Hap : apart (idx + 1) (Z.of_nat (length (k :: f)) + 1).
Hypothesis Hren : render f args = Some out.

Let Hk : load8 m (idx + 1) = Ok k := load_first _ _ _ Hs.

Lemma rest_cstr : cstr m (idx + 1 + 1) f.
Proof using Hs. by destruct (proj1 (cstr_cons _ _ _ _) Hs) as (_ & _ & ?). Qed.

Lemma rest_apart : apart (idx + 1 + 1) (Z.of_nat (length f) + 1).
Proof using Hap. unfold apart in *. cbn in *. lia. Qed.

Lemma next_char m1 : outside_same m m1 → load8 m1 (idx + 1 + 1) = Ok (first_char f).
Proof using Hap Hs. intros Hso. apply load_first. eapply cstr_frame; [done|apply rest_apart|apply rest_cstr]. Qed.

(** A directive that takes one argument and prints [o1]. *)
Lemma directive_prints m1 o1 : wrote m m1 buf hi o1 → Forall char_ok o1 → args_at m (ap + 4) args →
  (outside_same m m1 → vsprintf_round (m, buf, idx, 37, ap) = Ok (inl (m1, buf + Z.of_nat (length o1), idx + 1 + 1, first_char f, ap + 4))) →
  round_prints m buf idx ap 37 (S (length f)) (o1 ++ out).
Proof using Hap Hs Hren Hb.
  intros Hw Hok Ha Hr. exists m1, f, args, (idx + 1 + 1), (ap + 4), o1, out. split_and!; try done; [lia|apply rest_cstr|apply rest_apart|].
  apply Hr. apply (wrote_outside _ _ buf o1); [apply Hb|done].
Qed.

Lemma string_round s : k = 115 → args_at m ap (AStr s :: args) → buf + Z.of_nat (length s) < hi →
  round_prints m buf idx ap 37 (S (length f)) (s ++ out).
Proof using Hap Hs Hren Hb Hc.
  intros E ((q & Hq & Hqn & Hqs & Hqa & Hql) & _ & Ha) Hroom. destruct (strcpy_wrote m buf q s) as (m1 & Hcp & Hw); try done.
  apply (directive_prints m1); [done|apply Hqs|done|]. intros Hso. percent Hk. rewrite E. unfold va_arg32. rewrite Hq. ocbn. rewrite Hcp. ocbn.
  rewrite (strlen_spec m1 q s) by (done || by eapply cstr_frame). ocbn. by rewrite next_char.
Qed.

Lemma char_round c0 : k = 99 → args_at m ap (AChar c0 :: args) → buf + 1 < hi → round_prints m buf idx ap 37 (S (length f)) ([c0] ++ out).
Proof using Hap Hs Hren Hb Hc.
  intros E ((Hch & Hcc) & _ & Ha) Hroom. pose proof Hcc as Hcr. unfold char_ok in Hcr.
  destruct (store_wrote m buf hi c0) as (m1 & Hst & Hw); [done|lia|lia|].
  apply (directive_prints m1); [done|by apply Forall_singleton|done|]. intros Hso. percent Hk. rewrite E. unfold va_arg8.
  rewrite (load8_Some _ _ _ Hch). ocbn. rewrite Hst. ocbn. by rewrite next_char.
Qed.

Lemma decimal_round z : k = 100 → args_at m ap (AInt z :: args) → buf + Z.of_nat (length (decimal z)) < hi →
  round_prints m buf idx ap 37 (S (length f)) (decimal z ++ out).
Proof using Hap Hs Hren Hb Hc.
  intros E ((Hz & Hzr) & _ & Ha) Hroom. destruct (decimal_spec m buf z Hzr (proj2 Hb) Hc) as (m1 & b1 & z1 & m2 & Hneg & Hit & Hw); [lia|].
  apply (directive_prints m2); [done|by apply decimal_ok|done|]. intros Hso. percent Hk. rewrite E. unfold va_arg32. rewrite Hz. ocbn.
  rewrite s32_u32, s32_small by lia. rewrite Hneg. ocbn. rewrite Hit. ocbn. by rewrite next_char.
Qed.

Lemma hexadecimal_round z : k = 120 → args_at m ap (AInt z :: args) → buf + Z.of_nat (length (hexadecimal z)) < hi →
  round_prints m buf idx ap 37 (S (length f)) (hexadecimal z ++ out).
Proof using Hap Hs Hren Hb Hc.
  intros E ((Hz & Hzr) & _ & Ha) Hroom. unfold hexadecimal in *. pose proof (u32_range z).
  assert (0 ≤ u32 z < 2 ^ Z.of_nat 33) as Hu by (change (2 ^ Z.of_nat 33) with 8589934592; lia).
  destruct (itoa_spec 33 16 ltac:(lia) m (u32 z) buf hi Hu) as (m2 & Hit & Hw); [lia|done|lia|].
  apply (directive_prints m2); [done|apply digits_read; [lia|done]|done|]. intros Hso. percent Hk. rewrite E. unfold va_arg32. rewrite Hz. ocbn.
  rewrite s32_u32, s32_small by lia. rewrite Hit. ocbn. by rewrite next_char.
Qed.
End directive.

(** A percent sign, whatever follows it. *)
Lemma percent_round rest args out : cstr m (idx + 1) rest → apart (idx + 1) (Z.of_nat (length rest) + 1) → args_at m ap args →
  render (37 :: rest) args = Some out → buf + Z.of_nat (length out) < hi → round_prints m buf idx ap 37 (length rest) out.
Proof using Hb Hc.
  intros Hs Hap Ha Hren Hroom. cbn [render] in Hren. change (37 =? 37) with true in Hren. cbv iota in Hren.
  destruct rest as [|k f].
  { injection Hren as <-. exists m, [], args, (idx + 1), ap, [], []. split_and!; try done; [by apply wrote_nil|].
    percent (load_first _ _ _ Hs). by rewrite Z.add_0_r. }
  destruct (Z.eqb_spec k 115) as [E|E1]; [|destruct (Z.eqb_spec k 99) as [E|E2]; [|destruct (Z.eqb_spec k 100) as [E|E3];
    [|destruct (Z.eqb_spec k 120) as [E|E4]]]].
  5:{ exists m, (k :: f), args, (idx + 1), ap, [], out. split_and!; try done; [by apply wrote_nil|]. percent (load_first _ _ _ Hs). cbn [first_char].
      destruct (Z.eqb_spec k 115); [done|]. destruct (Z.eqb_spec k 99); [done|]. destruct (Z.eqb_spec k 100); [done|].
      destruct (Z.eqb_spec k 120); [done|]. by rewrite Z.add_0_r. }
  all: destruct args as [|[?|?|?] args]; try done; destruct (render f args) as [out1|] eqn:Hr1; [|done]; injection Hren as <-;
    rewrite ?length_app in Hroom; cbn [length] in Hroom |- *.
  - by eapply string_round; [..|lia].
  - by eapply char_round; [..|lia].
  - by eapply decimal_round; [..|lia].
  - by eapply hexadecimal_round; [..|lia].
Qed.

(** Any other character. *)
Lemma plain_round c rest args out : c ≠ 37 → char_ok c → cstr m (idx + 1) rest → apart (idx + 1) (Z.of_nat (length rest) + 1) →
  args_at m ap args → render (c :: rest) args = Some out → buf + Z.of_nat (length out) < hi → round_prints m buf idx ap c (length rest) out.
Proof using Hb Hc.
  intros Ec Hcok Hs Hap Ha Hren Hroom. cbn [render] in Hren. rewrite (proj2 (Z.eqb_neq c 37)) in Hren by done.
  destruct (render rest args) as [out1|] eqn:Hr1; [|done]. injection Hren as <-. cbn [length] in Hroom. pose proof Hcok as Hcr. unfold char_ok in Hcr.
  destruct (store_wrote m buf hi c) as (m1 & Hst & Hw); [done|lia|lia|].
  exists m1, rest, args, (idx + 1), ap, [c], out1. split_and!; try done; [by apply Forall_singleton|].
  unfold vsprintf_round. rewrite (truth_char c), (proj2 (Z.eqb_neq c 37)) by done. cbn [negb]. rewrite Hst. ocbn.
  by rewrite (load_first m1 (idx + 1) rest) by (eapply cstr_frame; [apply (wrote_outside _ _ buf [c]); [apply Hb|done]|done..]).
Qed.
End round.

Lemma vsprintf_loop n : ∀ fmt args m buf idx ap fuel out,
  (length fmt ≤ n)%nat → cstr m idx fmt → apart idx (Z.of_nat (length fmt) + 1) → args_at m ap args →
  render fmt args = Some out → 0 < lo ≤ buf → buf + Z.of_nat (length out) < hi → clear_from m buf hi →
  (length fmt < fuel)%nat →
  ∃ m', loop fuel vsprintf_round (m, buf, idx, first_char fmt, ap) = Ok m' ∧ wrote m m' buf hi out ∧ Forall char_ok out.
Proof.
  induction n as [|n IH]; intros fmt args m buf idx ap fuel out Hn Hs Hap Hargs Hren Hb Hroom Hc Hf;
    (destruct fuel as [|fuel]; [lia|]); (destruct fmt as [|c rest]; [|]); cbn [length] in *; try lia.
  1,2: cbn in Hren; injection Hren as <-; exists m; split; [done|]; split; [by apply wrote_nil|constructor].
  apply cstr_cons in Hs as (Hc0 & Hcok & Hs).
  assert (apart (idx + 1) (Z.of_nat (length rest) + 1)) as Hap1 by (unfold apart in *; lia).
  assert (round_prints m buf idx ap c (length rest) out) as (m1 & f & args1 & idx1 & ap1 & o1 & out1 & Hw & Hok & -> & Hl & Hs1 & Hap2 & Ha1 & Hr1 & Hround).
  { destruct (decide (c = 37)) as [->|Hne]; [by eapply percent_round|by eapply plain_round]. }
  rewrite length_app in Hroom. pose proof (wrote_outside _ _ _ _ (proj2 Hb) Hw) as Hso.
  destruct (IH f args1 m1 (buf + Z.of_nat (length o1)) idx1 ap1 fuel out1) as (m' & Hloop & Hw' & Hok');
    [lia|by eapply cstr_frame|done|by eapply args_at_frame|done|lia|lia|by apply (wrote_clear _ _ _ _ _ Hw)|lia|].
  exists m'. split; [by rewrite (loop_step _ _ _ _ Hround)|]. split; [eapply wrote_app; [done|done|lia]|by apply Forall_app].
Qed.

(** [vsprintf] prints [render]'s text and returns its length. *)
Lemma vsprintf_spec m fmt args format ap out :
  cstr m format fmt → apart format (Z.of_nat (length fmt) + 1) → args_at m ap args →
  render fmt args = Some out → 0 < lo → lo + Z.of_nat (length out) < hi → hi < 2 ^ 32 →
  clear_from m lo hi →
  ∃ m', vsprintf m lo format ap = Ok (Z.of_nat (length out), m') ∧ cstr m' lo out ∧
    ∀ a, a < lo ∨ hi ≤ a → m' !! a = m !! a.
Proof.
  intros Hs Hap Hargs Hren Hlo Hroom Hhi Hc. unfold vsprintf. rewrite (load_first _ _ _ Hs). ocbn.
  destruct (vsprintf_loop (length fmt) fmt args m lo format ap (S (size m)) out)
    as (m' & -> & Hw & Hok); try done; try lia.
  { pose proof (cstr_size _ _ _ Hs). lia. }
  ocbn. destruct Hw as [Ho Hz Hsame].
  assert (cstr m' lo out) as Hs'.
  { split; [|done]. apply bytes_at_app. split; [done|]. apply bytes_at_cons. split; [apply Hz; lia|].
    intros i b Hi. by rewrite lookup_nil in Hi. }
  change (2 ^ 32) with 4294967296 in Hhi.
  rewrite (strlen_spec m' lo out); [|unfold NULL; lia|done|change (2 ^ 32) with 4294967296; lia].
  ocbn. by exists m'.
Qed.
End format.

(** ** Properties *)

(** C40. [printf] with a format, arguments and a result of less than 1024
    characters: the buffer is cleared, then [write(1, buf, n)] is called with the
    buffer holding exactly the text [render] gives, terminated, and [n] its
    length. Nothing outside the buffer changes. *)
Theorem printf_correct {R} (write : mem → Z → Z → Z → outcome R) m buf fmt args format ap out :
  0 < buf → buf + 1024 < 2 ^ 32 → valid m buf 1024 →
  cstr m format fmt → apart buf (buf + 1024) format (Z.of_nat (length fmt) + 1) →
  args_at buf (buf + 1024) m ap args →
  render fmt args = Some out → (length out < 1024)%nat →
  ∃ m', printf write m buf format ap = write m' 1 buf (Z.of_nat (length out)) ∧
    cstr m' buf out ∧ ∀ a, a < buf ∨ buf + 1024 ≤ a → m' !! a = m !! a.
Proof.
  intros Hb Hhi Hv Hs Hap Hargs Hren Hlen. unfold printf.
  destruct (memset_bytes_spec m buf 0 1024) as (m1 & -> & Hm1); [lia|done|]. ocbn.
  assert (outside_same buf (buf + 1024) m m1) as Hso.
  { intros a Ha. rewrite Hm1, bool_decide_eq_false_2; [done|lia]. }
  destruct (vsprintf_spec buf (buf + 1024) m1 fmt args format ap out) as (m2 & -> & Hs2 & Hsame); try done; try lia.
  { by eapply cstr_frame. } { by eapply args_at_frame. }
  { intros a Ha. by rewrite Hm1, bool_decide_eq_true_2. }
  ocbn. rewrite (strlen_spec m2 buf out); [|unfold NULL; lia|done|change (2 ^ 32) with 4294967296; lia].
  ocbn. exists m2. split; [done|]. split; [done|]. intros a Ha. rewrite Hsame by done. by apply Hso.
Qed.

(** Numbers survive printing: [itoa] writes the digits of every 32-bit
    value, in base 10 and 16, so that reading them back gives the value, and
    [%d] prints every [int], the least one included, as its sign and magnitude. *)
Theorem itoa_reads_back m v buf base hi :
  0 ≤ v < 2 ^ 32 → base = 10 ∨ base = 16 →
  clear_from m buf hi → buf + Z.of_nat (length (digits 33 base v)) ≤ hi →
  (∃ m', itoa 33 m v buf base = Ok (m', buf + Z.of_nat (length (digits 33 base v))) ∧
     bytes_at m' buf (digits 33 base v)) ∧
  digits_value base (digits 33 base v) 0 = v ∧
  ∀ z, -2 ^ 31 ≤ z < 0 → decimal z = 45 :: digits 33 10 (- z) ∧ digits_value 10 (digits 33 10 (- z)) 0 = - z.
Proof.
  intros Hv Hbase Hc Hroom. change (2 ^ 31) with 2147483648.
  assert (0 ≤ v < 2 ^ Z.of_nat 33) as Hv'.
  { change (2 ^ Z.of_nat 33) with 8589934592. change (2 ^ 32) with 4294967296 in Hv. lia. }
  split; [|split].
  - destruct (itoa_spec 33 base ltac:(lia) m v buf hi Hv') as (m' & Heq & Hw); [lia|done|done|].
    exists m'. split; [done|]. apply Hw.
  - apply digits_read; [lia|done].
  - intros z Hz. unfold decimal. destruct (Z.ltb_spec z 0); [|lia]. split; [done|].
    apply digits_read; [lia|]. change (2 ^ Z.of_nat 33) with 8589934592. lia.
Qed.

Module StdioExample.
(** The format [a%s %d%x%%!] with the arguments [hi], -7 and 255, and the buffer. *)
Definition fmt : list Z := [97; 37; 115; 32; 37; 100; 37; 120; 37; 37; 33].
Definition word (v : Z) : list Z := [v mod 256; v / 256 mod 256; v / 65536 mod 256; v / 16777216 mod 256].
Definition memory : mem :=
  mem_of 100 (fmt ++ [0]) ∪ mem_of 200 [104; 105; 0] ∪
  mem_of 304 (word 200 ++ word 4294967289 ++ word 255) ∪ zeros 1000 1024.
Definition args : list arg := [AStr [104; 105]; AInt (-7); AInt 255].

Lemma printf_correct_witness :
  render fmt args = Some [97; 104; 105; 32; 45; 55; 70; 70; 33] ∧
  ∃ m', printf (λ m fd buf n, Ok (m, fd, buf, n)) memory 1000 100 300 = Ok (m', 1, 1000, 9) ∧
    cstr m' 1000 [97; 104; 105; 32; 45; 55; 70; 70; 33].
Proof.
  split; [reflexivity|].
  destruct (printf_correct (λ m fd buf n, Ok (m, fd, buf, n)) memory 1000 fmt args 100 300
    [97; 104; 105; 32; 45; 55; 70; 70; 33]) as (m' & Heq & Hs & _).
  - lia.
  - done.
  - apply union_valid. right. apply zeros_valid.
  - split; [apply bytes_at_b_ok; by vm_compute|]. by repeat constructor.
  - by left.
  - split; [|split; [by left|split; [|split; [by left|split; [|split; [by left|done]]]]]].
    + exists 200. split; [by vm_compute|]. split; [done|].
      split; [split; [apply bytes_at_b_ok; by vm_compute|by repeat constructor]|]. split; [by left|done].
    + split; [by vm_compute|done].
    + split; [by vm_compute|done].
  - reflexivity.
  - cbn. lia.
  - exists m'. split; [exact Heq|exact Hs].
Defined.

Lemma itoa_reads_back_witness :
  (∃ m', itoa 33 (zeros 1000 16) 305419896 1000 16 = Ok (m', 1008) ∧
     bytes_at m' 1000 [49; 50; 51; 52; 53; 54; 55; 56]) ∧
  decimal (-2147483648) = [45; 50; 49; 52; 55; 52; 56; 51; 54; 52; 56].
Proof.
  destruct (itoa_reads_back (zeros 1000 16) 305419896 1000 16 1016) as ((m' & H1 & H2) & _ & _).
  - lia.
  - by right.
  - intros a Ha. rewrite zeros_lookup, bool_decide_eq_true_2; [done|lia].
  - by vm_compute.
  - split; [|reflexivity]. exists m'. split; [exact H1|exact H2].
Defined.
End StdioExample.
