(* ===== verification/Block.v ===== *)
(** * Sectors and block devices

    What the disk driver promises to the partition scan and the file system: a
    disk of sectors of 512 bytes that are read and written in runs. [Ide] proves
    that the driver keeps the promise. *)

From stdpp Require Import base numbers list.
From Stdlib Require Import ZArith Lia.
From S2P Require Import Prelude.

(** The sectors [lba], ..., [lba + n - 1] of [get], one behind the other. *)
Fixpoint sectors (get : Z → list Z) (lba : Z) (n : nat) : list Z :=
  match n with O => [] | S n => get lba ++ sectors get (lba + 1) n end.

(** Sector [i] of the data [bs]. *)
Definition nth_sector (bs : list Z) (i : Z) : list Z := take 512 (drop (Z.to_nat (i * 512)) bs).

Definition is_byte (b : Z) : Prop := 0 ≤ b < 256.

(** ** Sequences of sectors *)

Lemma sectors_app get lba n k :
  sectors get lba (n + k) = sectors get lba n ++ sectors get (lba + Z.of_nat n) k.
Proof.
  revert lba. induction n as [|n IH]; intros lba; cbn [sectors Nat.add app].
  - by rewrite Z.add_0_r.
  - rewrite IH, <- app_assoc. do 3 f_equal. lia.
Qed.

Lemma sectors_length get lba n :
  (∀ l, length (get l) = 512%nat) → length (sectors get lba n) = (n * 512)%nat.
Proof.
  intros Hl. revert lba. induction n as [|n IH]; intros lba; cbn [sectors]; [done|].
  rewrite length_app, Hl, IH. lia.
Qed.

Lemma sectors_Forall P get lba n : (∀ l, Forall P (get l)) → Forall P (sectors get lba n).
Proof.
  intros Hl. revert lba. induction n as [|n IH]; intros lba; cbn [sectors]; [done|].
  apply Forall_app; auto.
Qed.

Lemma sectors_ext get get' lba n :
  (∀ l, lba ≤ l < lba + Z.of_nat n → get' l = get l) → sectors get' lba n = sectors get lba n.
Proof.
  revert lba. induction n as [|n IH]; intros lba H; cbn [sectors]; [done|].
  rewrite H by lia. f_equal. apply IH. intros. apply H. lia.
Qed.

Lemma nth_sector_chunk bs k n i : 0 ≤ k → 0 ≤ i < n →
  nth_sector (take (Z.to_nat (n * 512)) (drop (Z.to_nat (k * 512)) bs)) i = nth_sector bs (k + i).
Proof.
  intros Hk Hi. unfold nth_sector. apply list_eq. intros j. rewrite !lookup_take.
  destruct (decide (j < 512)%nat) as [Hj|Hj]; [|done].
  rewrite lookup_drop, lookup_take, decide_True, !lookup_drop by lia. f_equal. lia.
Qed.

Lemma nth_sector_length bs i cnt : Z.of_nat (length bs) = cnt * 512 → 0 ≤ i < cnt →
  length (nth_sector bs i) = 512%nat.
Proof. intros Hl Hi. unfold nth_sector. rewrite length_take, length_drop. lia. Qed.

(** ** The interface *)

(** [bd_read d lba cnt] is [ide_read(hd, lba, buf, cnt)] with the bytes left in
    the buffer, [bd_write d lba bs cnt] is [ide_write(hd, lba, buf, cnt)] with
    the bytes [bs] in the buffer. *)
Class BlockDevice (D : Type) := {
  bd_read : D → Z → Z → outcome (list Z * D);
  bd_write : D → Z → list Z → Z → outcome D;
  bd_sector : D → Z → list Z;
  bd_ok : D → Prop;
  bd_size : Z;
  bd_sector_len d l : length (bd_sector d l) = 512%nat;
  bd_sector_bytes d l : Forall is_byte (bd_sector d l);
  bd_read_ok d lba cnt : bd_ok d → 0 ≤ lba → 1 ≤ cnt → lba + cnt ≤ bd_size →
    ∃ d', bd_read d lba cnt = Ok (sectors (bd_sector d) lba (Z.to_nat cnt), d') ∧ bd_ok d' ∧
      ∀ l, bd_sector d' l = bd_sector d l;
  bd_write_ok d lba bs cnt : bd_ok d → 0 ≤ lba → 1 ≤ cnt → lba + cnt ≤ bd_size →
    Z.of_nat (length bs) = cnt * 512 → Forall is_byte bs →
    ∃ d', bd_write d lba bs cnt = Ok d' ∧ bd_ok d' ∧
      ∀ l, bd_sector d' l =
        if bool_decide (lba ≤ l < lba + cnt) then nth_sector bs (l - lba) else bd_sector d l
}.

(** ** Fields of structures in a buffer *)

Definition byte_at (bs : list Z) (i : Z) : Z := default 0 (bs !! Z.to_nat i).
Definition le32_at (bs : list Z) (i : Z) : Z :=
  byte_at bs i + byte_at bs (i + 1) * 2 ^ 8 + byte_at bs (i + 2) * 2 ^ 16 + byte_at bs (i + 3) * 2 ^ 24.
Definition le32_bytes (v : Z) : list Z :=
  [u8 v; u8 (Z.shiftr v 8); u8 (Z.shiftr v 16); u8 (Z.shiftr v 24)].
(** [n] bytes from [i] on. *)
Definition slice (bs : list Z) (i n : Z) : list Z := take (Z.to_nat n) (drop (Z.to_nat i) bs).

Lemma slice_length bs i n : 0 ≤ i → 0 ≤ n → i + n ≤ Z.of_nat (length bs) → length (slice bs i n) = Z.to_nat n.
Proof. intros. unfold slice. rewrite length_take, length_drop. lia. Qed.

Lemma byte_at_range bs i : Forall is_byte bs → 0 ≤ byte_at bs i < 256.
Proof.
  intros Hb. unfold byte_at. destruct (bs !! Z.to_nat i) as [b|] eqn:E; cbn; [|lia].
  exact (Forall_lookup_1 _ _ _ _ Hb E).
Qed.

Lemma le32_at_range bs i : Forall is_byte bs → 0 ≤ le32_at bs i < 2 ^ 32.
Proof.
  intros Hb. unfold le32_at. pose proof (byte_at_range bs i Hb). pose proof (byte_at_range bs (i + 1) Hb).
  pose proof (byte_at_range bs (i + 2) Hb). pose proof (byte_at_range bs (i + 3) Hb). lia.
Qed.

Lemma byte_at_app_l bs bs' i : 0 ≤ i < Z.of_nat (length bs) → byte_at (bs ++ bs') i = byte_at bs i.
Proof. intros Hi. unfold byte_at. by rewrite lookup_app_l by lia. Qed.

Lemma byte_at_app_r bs bs' i : Z.of_nat (length bs) ≤ i →
  byte_at (bs ++ bs') i = byte_at bs' (i - Z.of_nat (length bs)).
Proof. intros Hi. unfold byte_at. rewrite lookup_app_r by lia. do 2 f_equal. lia. Qed.

Lemma le32_at_app_l bs bs' i : 0 ≤ i → i + 4 ≤ Z.of_nat (length bs) → le32_at (bs ++ bs') i = le32_at bs i.
Proof. intros Hi Hl. unfold le32_at. by rewrite !byte_at_app_l by lia. Qed.

Lemma le32_at_app_r bs bs' i : Z.of_nat (length bs) ≤ i →
  le32_at (bs ++ bs') i = le32_at bs' (i - Z.of_nat (length bs)).
Proof.
  intros Hi. unfold le32_at. rewrite !byte_at_app_r by lia.
  by rewrite !(Z.add_sub_swap i _ (Z.of_nat (length bs))).
Qed.

Lemma le32_bytes_length v : length (le32_bytes v) = 4%nat.
Proof. done. Qed.

Lemma le32_bytes_ok v : Forall is_byte (le32_bytes v).
Proof. repeat constructor; apply u8_range. Qed.

Lemma le32_at_bytes v : 0 ≤ v < 2 ^ 32 → le32_at (le32_bytes v) 0 = v.
Proof.
  intros Hv. change (u8 v + u8 (Z.shiftr v 8) * 2 ^ 8 + u8 (Z.shiftr v 16) * 2 ^ 16 +
    u8 (Z.shiftr v 24) * 2 ^ 24 = v). unfold u8. rewrite !Z.shiftr_div_pow2 by lia.
  change (2 ^ 8) with 256; change (2 ^ 16) with 65536; change (2 ^ 24) with 16777216.
  change (2 ^ 32) with 4294967296 in Hv. zdlia.
Qed.

Lemma sectors_one get lba : sectors get lba 1 = get lba.
Proof. cbn. by rewrite app_nil_r. Qed.

Lemma byte_at_nth_sector bs i r : 0 ≤ i → 0 ≤ r < 512 → byte_at (nth_sector bs i) r = byte_at bs (i * 512 + r).
Proof.
  intros Hi Hr. unfold byte_at, nth_sector. rewrite lookup_take_lt, lookup_drop by lia. do 2 f_equal. lia.
Qed.

Lemma byte_at_sectors get l n j : (∀ l, length (get l) = 512%nat) → 0 ≤ j < Z.of_nat n * 512 →
  byte_at (sectors get l n) j = byte_at (get (l + j / 512)) (j mod 512).
Proof.
  intros Hl. revert l j. induction n as [|n IH]; intros l j Hj; cbn [sectors]; [lia|].
  destruct (decide (j < 512)) as [Hs|Hs].
  - rewrite byte_at_app_l by (rewrite Hl; lia). rewrite Z.div_small, Z.mod_small, Z.add_0_r by lia. done.
  - rewrite byte_at_app_r by (rewrite Hl; lia). rewrite Hl. rewrite IH by lia.
    replace (l + 1 + (j - Z.of_nat 512) / 512) with (l + j / 512) by zdlia.
    f_equal. zdlia.
Qed.

(** ** A disk in memory *)
Module RamDisk.

(** 512 bytes, whatever [bs] is. *)
Definition padded (bs : list Z) : list Z := take 512 ((u8 <$> bs) ++ replicate 512 0).

Lemma padded_length bs : length (padded bs) = 512%nat.
Proof. unfold padded. rewrite length_take, length_app, length_replicate. lia. Qed.

Lemma padded_bytes bs : Forall is_byte (padded bs).
Proof.
  apply Forall_take, Forall_app. split.
  - apply Forall_fmap, Forall_true. intros. apply u8_range.
  - by apply Forall_replicate.
Qed.

Lemma padded_id bs : length bs = 512%nat → Forall is_byte bs → padded bs = bs.
Proof.
  intros Hl Hb. unfold padded. rewrite take_app_le by (rewrite length_fmap; lia).
  rewrite take_ge by (rewrite length_fmap; lia). rewrite <- (list_fmap_id bs) at 2.
  apply list_fmap_ext. intros i b Hi. apply u8_small. exact (Forall_lookup_1 _ _ _ _ Hb Hi).
Qed.

Definition ramdisk : Type := Z → list Z.

#[export] Program Instance ramdisk_device : BlockDevice ramdisk := {
  bd_read d lba cnt := Ok (sectors (λ l, padded (d l)) lba (Z.to_nat cnt), d);
  bd_write d lba bs cnt :=
    Ok (λ l, if bool_decide (lba ≤ l < lba + cnt) then nth_sector bs (l - lba) else d l);
  bd_sector d l := padded (d l);
  bd_ok _ := True;
  bd_size := 163840
}.
Next Obligation. intros. apply padded_length. Qed.
Next Obligation. intros. apply padded_bytes. Qed.
Next Obligation. intros. eexists. done. Qed.
Next Obligation.
  intros d lba bs cnt _ Hl Hc Hlc Hlen Hbs. eexists. split; [done|]. split; [done|]. intros l.
  cbn. case_bool_decide as Hin; [|done].
  apply padded_id; [eapply nth_sector_length; [done|lia]|]. by apply Forall_take, Forall_drop.
Qed.
End RamDisk.
