(* ===== verification/Ide.v ===== *)
(** * device/ide.c: the disk driver

    The driver programs the registers of an ATA channel, waits for the channel's
    interrupt and moves the data. The hardware is a parameter, [AtaChannel]: its
    operations are port accesses, the passing of time and raising the interrupt
    line, its laws what the ATA documentation says of the commands the driver
    uses. The semaphore [disk_done] and the channel's lock (see [Sync]) are kept
    as the value of the one and the number of times the running thread holds the
    other; [sema_down] on 0 waits for the interrupt, which runs
    [intr_hd_handler]. An interrupt may also come before the wait ([prompt]).

    At the end, the driver implements the interface [BlockDevice] on which the
    file system is built ([Block]). *)

From stdpp Require Import base numbers list gmap.
From Stdlib Require Import ZArith Lia.
From S2P Require Import Prelude Mem Block.

(** ** The hardware *)

(** What a drive is doing. *)
Inductive ata_phase :=
  | Idle
  | Reading (dev lba cnt : Z)
  | DataIn (dev lba cnt : Z)
  | DataOut (dev lba cnt : Z)
  | Writing.

Definition BIT_STAT_BSY : Z := 128.
Definition BIT_STAT_DRDY : Z := 64.
Definition BIT_STAT_DRQ : Z := 8.
Definition BIT_DEV_MBS : Z := 160.
Definition BIT_DEV_LBA : Z := 64.
Definition BIT_DEV_DEV : Z := 16.
Definition CMD_IDENTIFY : Z := 236.
Definition CMD_READ_SECTOR : Z := 32.
Definition CMD_WRITE_SECTOR : Z := 48.
Definition max_lba : Z := 80 * 1024 * 1024 / 512 - 1.

(** Registers of a channel, relative to its base port. *)
Definition reg_data : Z := 0.
Definition reg_sect_cnt : Z := 2.
Definition reg_lba_l : Z := 3.
Definition reg_lba_m : Z := 4.
Definition reg_lba_h : Z := 5.
Definition reg_dev : Z := 6.
Definition reg_status : Z := 7.
Definition reg_cmd : Z := reg_status.

(** The command block as a drive reads it. *)
Definition block_count (r : Z → Z) : Z := if r reg_sect_cnt =? 0 then 256 else r reg_sect_cnt.
Definition block_lba (r : Z → Z) : Z :=
  r reg_lba_l + r reg_lba_m * 2 ^ 8 + r reg_lba_h * 2 ^ 16 + (r reg_dev) mod 16 * 2 ^ 24.
Definition block_dev (r : Z → Z) : Z := if Z.testbit (r reg_dev) 4 then 1 else 0.

(** [lag d] is how many times 10 ms the drive will still be busy. *)
Class AtaChannel (D : Type) := {
  outb : D → Z → Z → D;
  inb : D → Z → Z * D;
  insw : D → Z → list Z * D;
  outsw : D → list Z → D;
  elapse : D → D;
  irq : D → option D;
  prompt : D → bool;
  phase : D → ata_phase;
  regs : D → Z → Z;
  lag : D → nat;
  sector : D → Z → Z → list Z;
  ata_sector_len d dev l : length (sector d dev l) = 512%nat;
  ata_sector_bytes d dev l : Forall is_byte (sector d dev l);
  ata_reg d r v : phase d = Idle → 2 ≤ r ≤ 6 →
    phase (outb d r v) = Idle ∧ (∀ r', regs (outb d r v) r' = if r' =? r then u8 v else regs d r') ∧
    ∀ dev l, sector (outb d r v) dev l = sector d dev l;
  ata_read d : phase d = Idle → Z.testbit (regs d reg_dev) 6 = true →
    phase (outb d reg_cmd CMD_READ_SECTOR) =
      Reading (block_dev (regs d)) (block_lba (regs d)) (block_count (regs d)) ∧
    ∀ dev l, sector (outb d reg_cmd CMD_READ_SECTOR) dev l = sector d dev l;
  ata_write d : phase d = Idle → Z.testbit (regs d reg_dev) 6 = true →
    phase (outb d reg_cmd CMD_WRITE_SECTOR) =
      DataOut (block_dev (regs d)) (block_lba (regs d)) (block_count (regs d)) ∧
    ∀ dev l, sector (outb d reg_cmd CMD_WRITE_SECTOR) dev l = sector d dev l;
  ata_irq d : match phase d with
    | Reading dev lba cnt => ∃ d', irq d = Some d' ∧ phase d' = DataIn dev lba cnt ∧
        ∀ dev l, sector d' dev l = sector d dev l
    | Writing => ∃ d', irq d = Some d' ∧ phase d' = Idle ∧ ∀ dev l, sector d' dev l = sector d dev l
    | _ => True
    end;
  ata_status d : phase (inb d reg_status).2 = phase d ∧ lag (inb d reg_status).2 = lag d ∧
    (∀ dev l, sector (inb d reg_status).2 dev l = sector d dev l) ∧
    match phase d with
    | DataIn _ _ _ | DataOut _ _ _ =>
        Z.testbit (inb d reg_status).1 7 = negb (bool_decide (lag d = 0%nat)) ∧
        (lag d = 0%nat → Z.testbit (inb d reg_status).1 3 = true)
    | _ => True
    end;
  ata_elapse d : phase (elapse d) = phase d ∧ lag (elapse d) = pred (lag d) ∧
    ∀ dev l, sector (elapse d) dev l = sector d dev l;
  ata_data_in d dev lba cnt : phase d = DataIn dev lba cnt → lag d = 0%nat →
    (insw d (cnt * 256)).1 = sectors (sector d dev) lba (Z.to_nat cnt) ∧
    phase (insw d (cnt * 256)).2 = Idle ∧
    ∀ dev l, sector (insw d (cnt * 256)).2 dev l = sector d dev l;
  ata_data_out d dev lba cnt bs : phase d = DataOut dev lba cnt → lag d = 0%nat →
    Z.of_nat (length bs) = cnt * 512 → Forall is_byte bs →
    phase (outsw d bs) = Writing ∧
    ∀ dev' l, sector (outsw d bs) dev' l =
      if bool_decide (dev' = dev ∧ lba ≤ l < lba + cnt) then nth_sector bs (l - lba) else sector d dev' l
}.

(** ** The driver *)

Record ide_channel := IdeChannel {
  port_base : Z;
  irq_no : Z;
  lock_held : Z;
  expecting_intr : bool;
  disk_done : Z
}.

Section driver.
Context {D : Type} `{AtaChannel D}.

(** The channel, its drives and the memory the buffers are in. *)
Record ide := Ide {
  channel : ide_channel;
  hw : D;
  iram : mem
}.
Definition set_hw (s : ide) (d : D) : ide := Ide (channel s) d (iram s).
Definition set_iram (s : ide) (m : mem) : ide := Ide (channel s) (hw s) m.
Definition set_expecting (s : ide) (b : bool) : ide :=
  Ide (IdeChannel (port_base (channel s)) (irq_no (channel s)) (lock_held (channel s)) b (disk_done (channel s))) (hw s) (iram s).
Definition set_done (s : ide) (n : Z) : ide :=
  Ide (IdeChannel (port_base (channel s)) (irq_no (channel s)) (lock_held (channel s)) (expecting_intr (channel s)) n) (hw s) (iram s).
Definition set_held (s : ide) (n : Z) : ide :=
  Ide (IdeChannel (port_base (channel s)) (irq_no (channel s)) n (expecting_intr (channel s)) (disk_done (channel s))) (hw s) (iram s).

Definition select_disk (s : ide) (dev_no : Z) : ide :=
  let reg_device := Z.lor BIT_DEV_MBS BIT_DEV_LBA in
  let reg_device := if dev_no =? 1 then Z.lor reg_device BIT_DEV_DEV else reg_device in
  set_hw s (outb (hw s) reg_dev reg_device).

Definition select_sector (s : ide) (dev_no lba sec_cnt : Z) : outcome ide :=
  ASSERT (lba <=? max_lba);;
  let d := outb (hw s) reg_sect_cnt sec_cnt in
  let d := outb d reg_lba_l lba in
  let d := outb d reg_lba_m (Z.shiftr lba 8) in
  let d := outb d reg_lba_h (Z.shiftr lba 16) in
  let d := outb d reg_dev (Z.lor (Z.lor (Z.lor BIT_DEV_MBS BIT_DEV_LBA)
             (if dev_no =? 1 then BIT_DEV_DEV else 0)) (Z.shiftr lba 24)) in
  Ok (set_hw s d).

Definition cmd_out (s : ide) (cmd : Z) : ide :=
  let s := set_expecting s true in
  set_hw s (outb (hw s) reg_cmd cmd).

Definition size_in_byte (sec_cnt : Z) : Z := if sec_cnt =? 0 then 256 * 512 else sec_cnt * 512.

(** Storing and fetching the bytes [insw] and [outsw] move. *)
Fixpoint store_bytes (m : mem) (p : Z) (bs : list Z) : outcome mem :=
  match bs with [] => Ok m | b :: bs => m ← store8 m p b; store_bytes m (p + 1) bs end.
Fixpoint load_bytes (m : mem) (p : Z) (n : nat) : outcome (list Z) :=
  match n with O => Ok [] | S n => b ← load8 m p; bs ← load_bytes m (p + 1) n; Ok (b :: bs) end.

Definition read_from_sector (s : ide) (buf sec_cnt : Z) : outcome ide :=
  let '(bs, d) := insw (hw s) (size_in_byte sec_cnt / 2) in
  m ← store_bytes (iram s) buf bs;
  Ok (set_iram (set_hw s d) m).

Definition write2sector (s : ide) (buf sec_cnt : Z) : outcome ide :=
  bs ← load_bytes (iram s) buf (Z.to_nat (size_in_byte sec_cnt));
  Ok (set_hw s (outsw (hw s) bs)).

(** [while (time_limit -= 10 >= 0)] subtracts the truth value of [10 >= 0];
    30000 rounds of fuel are more than a [uint16_t] of 30000 can take. *)
Definition busy_wait (s : ide) : outcome (bool * ide) :=
  loop (Z.to_nat 30001) (λ '(time_limit, s),
    let time_limit := u16 (time_limit - (if 0 <=? 10 then 1 else 0)) in
    if truth time_limit then
      let '(st, d) := inb (hw s) reg_status in
      if negb (truth (Z.land st BIT_STAT_BSY)) then
        let '(st, d) := inb d reg_status in
        Ok (inr (truth (Z.land st BIT_STAT_DRQ), set_hw s d))
      else Ok (inl (time_limit, set_hw s (elapse d)))
    else Ok (inr (false, s))) (30 * 1000, s).

Definition intr_hd_handler (s : ide) (irqno : Z) : outcome ide :=
  ASSERT ((irqno =? 46) || (irqno =? 47));;
  ASSERT (irq_no (channel s) =? irqno);;
  if expecting_intr (channel s) then
    let s := set_expecting s false in
    let s := set_done s (disk_done (channel s) + 1) in
    Ok (set_hw s (inb (hw s) reg_status).2)
  else Ok s.

(** The channel raises its interrupt now. *)
Definition take_interrupt (s : ide) : outcome (option ide) :=
  match irq (hw s) with
  | None => Ok None
  | Some d => s ← intr_hd_handler (set_hw s d) (irq_no (channel s)); Ok (Some s)
  end.

(** The moment between starting the drive and waiting for it. *)
Definition interrupt_window (s : ide) : outcome ide :=
  if prompt (hw s) then o ← take_interrupt s; Ok (default s o) else Ok s.

(** [sema_down(&channel->disk_done)] *)
Definition wait_disk (s : ide) : outcome ide :=
  if 0 <? disk_done (channel s) then Ok (set_done s (disk_done (channel s) - 1))
  else
    o ← take_interrupt s;
    match o with
    | Some s =>
        if 0 <? disk_done (channel s) then Ok (set_done s (disk_done (channel s) - 1)) else Blocked
    | None => Blocked
    end.

Definition lock_channel (s : ide) : ide := set_held s (lock_held (channel s) + 1).
Definition unlock_channel (s : ide) : outcome ide :=
  ASSERT (1 <=? lock_held (channel s));; Ok (set_held s (lock_held (channel s) - 1)).

Definition secs_this_time (secs_done sec_cnt : Z) : Z :=
  if u32 (secs_done + 256) <=? sec_cnt then 256 else u32 (sec_cnt - secs_done).

(** One round of the loops below, [secs_op] sectors. *)
Definition read_chunk (s : ide) (dev_no lba buf secs_op : Z) : outcome ide :=
  s ← select_sector s dev_no lba (u8 secs_op);
  let s := cmd_out s CMD_READ_SECTOR in
  s ← interrupt_window s ≫= wait_disk;
  '(ok, s) ← busy_wait s;
  if negb ok then Panic else read_from_sector s buf (u8 secs_op).

Definition write_chunk (s : ide) (dev_no lba buf secs_op : Z) : outcome ide :=
  s ← select_sector s dev_no lba (u8 secs_op);
  let s := cmd_out s CMD_WRITE_SECTOR in
  '(ok, s) ← busy_wait s;
  if negb ok then Panic
  else
    s ← write2sector s buf (u8 secs_op);
    interrupt_window s ≫= wait_disk.

Definition ide_read (s : ide) (dev_no lba buf sec_cnt : Z) : outcome ide :=
  ASSERT (lba <=? max_lba);;
  ASSERT (0 <? sec_cnt);;
  let s := select_disk (lock_channel s) dev_no in
  s ← loop (S (Z.to_nat sec_cnt)) (λ '(secs_done, s),
    if secs_done <? sec_cnt then
      let secs_op := secs_this_time secs_done sec_cnt in
      s ← read_chunk s dev_no (u32 (lba + secs_done)) (u32 (buf + secs_done * 512)) secs_op;
      Ok (inl (u32 (secs_done + secs_op), s))
    else Ok (inr s)) (0, s);
  unlock_channel s.

Definition ide_write (s : ide) (dev_no lba buf sec_cnt : Z) : outcome ide :=
  ASSERT (lba <=? max_lba);;
  ASSERT (0 <? sec_cnt);;
  let s := select_disk (lock_channel s) dev_no in
  s ← loop (S (Z.to_nat sec_cnt)) (λ '(secs_done, s),
    if secs_done <? sec_cnt then
      let secs_op := secs_this_time secs_done sec_cnt in
      s ← write_chunk s dev_no (u32 (lba + secs_done)) (u32 (buf + secs_done * 512)) secs_op;
      Ok (inl (u32 (secs_done + secs_op), s))
    else Ok (inr s)) (0, s);
  unlock_channel s.
End driver.
Arguments ide D : clear implicits.

(** The ATA documentation the driver relies on (ide.c, above [busy_wait]): a
    drive gets ready within 30 seconds. *)
Class AtaReady D `{AtaChannel D} := ata_30s : ∀ d : D, Z.of_nat (lag d) ≤ 3000.

(** ** Moving bytes *)

Lemma store_bytes_spec m p bs :
  valid m p (Z.of_nat (length bs)) → Forall is_byte bs →
  ∃ m', store_bytes m p bs = Ok m' ∧ bytes_at m' p bs ∧
    ∀ a, a < p ∨ p + Z.of_nat (length bs) ≤ a → m' !! a = m !! a.
Proof.
  revert m p. induction bs as [|b bs IH]; intros m p Hv Hb; cbn [length store_bytes] in *.
  - exists m. split; [done|]. split; [|done]. intros i c Hi. by rewrite lookup_nil in Hi.
  - apply Forall_cons in Hb as [Hb0 Hb]. unfold is_byte in Hb0.
    rewrite store8_valid by (apply Hv; lia). ocbn.
    destruct (IH (<[p:=u8 b]> m) (p + 1)) as (m' & -> & Hat & Ho); [|done|].
    + apply valid_insert. eapply valid_sub; [exact Hv|lia|lia].
    + exists m'. split; [done|]. split.
      * apply bytes_at_cons. split; [|done].
        by rewrite Ho, lookup_insert_eq, u8_small by lia.
      * intros a Ha. rewrite Ho, lookup_insert_ne by lia. done.
Qed.

Lemma load_bytes_spec m p bs : bytes_at m p bs → load_bytes m p (length bs) = Ok bs.
Proof.
  revert p. induction bs as [|b bs IH]; intros p H; cbn [length load_bytes]; [done|].
  apply bytes_at_cons in H as [H0 H]. rewrite (load8_Some _ _ _ H0). ocbn. by rewrite IH.
Qed.

Lemma bytes_at_range m p n : wf_mem m → valid m p (Z.of_nat n) →
  ∃ bs, length bs = n ∧ Forall is_byte bs ∧ bytes_at m p bs.
Proof.
  intros Hwf. revert p. induction n as [|n IH]; intros p Hv.
  - exists []. split; [done|]. split; [done|]. intros i c Hi. by rewrite lookup_nil in Hi.
  - destruct (Hv p) as [b Hb]; [lia|].
    destruct (IH (p + 1)) as (bs & Hl & Hf & Hat); [eapply valid_sub; [exact Hv|lia|lia]|].
    exists (b :: bs). split; [cbn; lia|]. split; [|by apply bytes_at_cons].
    constructor; [exact (Hwf _ _ Hb)|done].
Qed.

Lemma bytes_at_take_drop m p bs (i n : nat) : bytes_at m p bs →
  bytes_at m (p + Z.of_nat i) (take n (drop i bs)).
Proof.
  intros H j b Hj. apply lookup_take_Some in Hj as [Hj _]. rewrite lookup_drop in Hj.
  specialize (H _ _ Hj). rewrite <- H. f_equal. lia.
Qed.

(** ** The protocol with the drive *)

Section protocol.
Context {D : Type} `{AtaChannel D}.
Implicit Types (s : ide D) (d : D).

Definition same_disk d d' : Prop := ∀ dev l, sector d' dev l = sector d dev l.

(** Between two requests: no command running, no interrupt expected or counted. *)
Definition ready s : Prop :=
  phase (hw s) = Idle ∧ expecting_intr (channel s) = false ∧ disk_done (channel s) = 0 ∧
  (irq_no (channel s) = 46 ∨ irq_no (channel s) = 47).

Lemma outb_reg d r v : phase d = Idle → 2 ≤ r ≤ 6 →
  phase (outb d r v) = Idle ∧ (∀ r', regs (outb d r v) r' = if r' =? r then u8 v else regs d r') ∧
  same_disk d (outb d r v).
Proof. intros Hp Hr. destruct (ata_reg d r v Hp Hr) as (? & ? & ?). done. Qed.

Lemma dev_bits dev l : 0 ≤ l < 2 ^ 24 →
  let v := Z.lor (Z.lor (Z.lor BIT_DEV_MBS BIT_DEV_LBA) (if dev =? 1 then BIT_DEV_DEV else 0)) (Z.shiftr l 24) in
  u8 v = if dev =? 1 then 240 else 224.
Proof.
  intros Hl v. unfold v. rewrite Z.shiftr_div_pow2, Z.div_small by lia. by destruct (dev =? 1).
Qed.

Lemma lba_parts l : 0 ≤ l < 2 ^ 24 →
  u8 l + u8 (Z.shiftr l 8) * 2 ^ 8 + u8 (Z.shiftr l 16) * 2 ^ 16 = l.
Proof.
  intros Hl. rewrite !u8_byte by lia. unfold u8. change (2 ^ 8) with 256; change (2 ^ 16) with 65536.
  change (2 ^ 24) with 16777216 in Hl. zdlia.
Qed.

(** Decide which register a number is. *)
Ltac pick_reg := cbv [reg_dev reg_sect_cnt reg_lba_l reg_lba_m reg_lba_h Z.eqb Pos.eqb].

(** [select_sector] leaves the request in the drive's registers. *)
Lemma select_sector_spec s dev lba cnt :
  phase (hw s) = Idle → dev = 0 ∨ dev = 1 → 0 ≤ lba ≤ max_lba → 1 ≤ cnt ≤ 256 →
  ∃ d, select_sector s dev lba (u8 cnt) = Ok (set_hw s d) ∧ phase d = Idle ∧ same_disk (hw s) d ∧
    block_dev (regs d) = dev ∧ block_lba (regs d) = lba ∧ block_count (regs d) = cnt ∧
    Z.testbit (regs d reg_dev) 6 = true.
Proof.
  intros Hp Hdev Hlba Hcnt. unfold select_sector.
  assert (0 ≤ lba < 2 ^ 24) as Hl by (change max_lba with 163839 in Hlba; lia).
  rewrite (proj2 (Z.leb_le lba max_lba)) by lia. ocbn.
  destruct (outb_reg (hw s) reg_sect_cnt (u8 cnt) Hp) as (Hp1 & Hr1 & Hs1); [unfold reg_sect_cnt; lia|].
  set (d1 := outb (hw s) _ _) in *.
  destruct (outb_reg d1 reg_lba_l lba Hp1) as (Hp2 & Hr2 & Hs2); [unfold reg_lba_l; lia|].
  set (d2 := outb d1 _ _) in *.
  destruct (outb_reg d2 reg_lba_m (Z.shiftr lba 8) Hp2) as (Hp3 & Hr3 & Hs3); [unfold reg_lba_m; lia|].
  set (d3 := outb d2 _ _) in *.
  destruct (outb_reg d3 reg_lba_h (Z.shiftr lba 16) Hp3) as (Hp4 & Hr4 & Hs4); [unfold reg_lba_h; lia|].
  set (d4 := outb d3 _ _) in *. set (v := Z.lor (Z.lor _ _) _).
  destruct (outb_reg d4 reg_dev v Hp4) as (Hp5 & Hr5 & Hs5); [unfold reg_dev; lia|].
  set (d5 := outb d4 _ _) in *. exists d5. split; [done|]. split; [done|].
  assert (regs d5 reg_dev = if dev =? 1 then 240 else 224) as Hdv.
  { rewrite Hr5. pick_reg. by apply dev_bits. }
  split; [|split; [|split; [|split]]].
  - intros dv l. by rewrite Hs5, Hs4, Hs3, Hs2, Hs1.
  - unfold block_dev. rewrite Hdv. destruct Hdev as [-> | ->]; done.
  - unfold block_lba. rewrite Hdv.
    rewrite !Hr5, !Hr4, !Hr3, !Hr2, !Hr1. pick_reg.
    pose proof (lba_parts lba Hl). destruct Hdev as [-> | ->]; [change (224 mod 16) with 0 | change (240 mod 16) with 0]; lia.
  - unfold block_count. assert (regs d5 reg_sect_cnt = u8 cnt) as ->.
    { rewrite Hr5, Hr4, Hr3, Hr2, Hr1. pick_reg. apply Z.mod_mod. lia. }
    unfold u8. destruct (decide (cnt = 256)) as [->|]; [done|].
    rewrite Z.mod_small by lia. destruct (Z.eqb_spec cnt 0); lia.
  - rewrite Hdv. by destruct (dev =? 1).
Qed.

(** The driver after the interrupt it expected. *)
Definition served s d : ide D := set_hw (set_done (set_expecting s false) 0) d.

(** Waiting for the drive: the interrupt may come before or during the wait. *)
Lemma await_spec s d :
  expecting_intr (channel s) = true → disk_done (channel s) = 0 →
  irq_no (channel s) = 46 ∨ irq_no (channel s) = 47 → irq (hw s) = Some d →
  (interrupt_window s ≫= wait_disk) = Ok (served s (inb d reg_status).2).
Proof.
  intros He Hd Hi Hirq.
  assert (take_interrupt s = Ok (Some (set_hw (set_done (set_expecting s false) 1) (inb d reg_status).2))) as Ht.
  { unfold take_interrupt. rewrite Hirq. unfold intr_hd_handler. cbn [channel set_hw irq_no].
    rewrite Z.eqb_refl. replace ((irq_no (channel s) =? 46) || (irq_no (channel s) =? 47)) with true
      by (destruct Hi as [-> | ->]; done).
    ocbn. rewrite He. destruct s as [c h m]. cbn in *. by rewrite Hd. }
  unfold interrupt_window. destruct (prompt (hw s)).
  - rewrite Ht. destruct s; done.
  - ocbn. unfold wait_disk. rewrite Hd, Ht. destruct s; done.
Qed.

(** ** Polling the status *)

Definition transferring d : Prop :=
  match phase d with DataIn _ _ _ | DataOut _ _ _ => True | _ => False end.

Definition poll (x : Z * ide D) : outcome (Z * ide D + bool * ide D) :=
  let '(time_limit, s) := x in
  let time_limit := u16 (time_limit - (if 0 <=? 10 then 1 else 0)) in
  if truth time_limit then
    let '(st, d) := inb (hw s) reg_status in
    if negb (truth (Z.land st BIT_STAT_BSY)) then
      let '(st, d) := inb d reg_status in
      Ok (inr (truth (Z.land st BIT_STAT_DRQ), set_hw s d))
    else Ok (inl (time_limit, set_hw s (elapse d)))
  else Ok (inr (false, s)).

Lemma poll_busy n s : 1 < n < 65536 → transferring (hw s) → lag (hw s) ≠ 0%nat →
  ∃ d, poll (n, s) = Ok (inl (n - 1, set_hw s d)) ∧ phase d = phase (hw s) ∧
    lag d = pred (lag (hw s)) ∧ same_disk (hw s) d.
Proof.
  intros Hn Ht Hlag. unfold poll. change (if 0 <=? 10 then 1 else 0) with 1. rewrite u16_small by lia.
  replace (truth (n - 1)) with true by (unfold truth; zcase; [lia|done]).
  destruct (ata_status (hw s)) as (Hp & Hl & Hs & Hst).
  destruct (inb (hw s) reg_status) as [st d]. cbn [fst snd] in *.
  destruct (ata_elapse d) as (Hpe & Hle & Hse).
  exists (elapse d). change BIT_STAT_BSY with (2 ^ 7). rewrite truth_land_pow2 by lia.
  assert (Z.testbit st 7 = true) as ->.
  { unfold transferring in Ht. destruct (phase (hw s)); try done;
      destruct Hst as [-> _]; by rewrite bool_decide_eq_false_2. }
  split; [done|]. rewrite Hpe, Hle, Hl, Hp. split; [done|]. split; [done|].
  intros dv l. by rewrite Hse, Hs.
Qed.

Lemma poll_done n s : 1 < n < 65536 → transferring (hw s) → lag (hw s) = 0%nat →
  ∃ d, poll (n, s) = Ok (inr (true, set_hw s d)) ∧ phase d = phase (hw s) ∧
    lag d = 0%nat ∧ same_disk (hw s) d.
Proof.
  intros Hn Ht Hlag. unfold poll. change (if 0 <=? 10 then 1 else 0) with 1. rewrite u16_small by lia.
  replace (truth (n - 1)) with true by (unfold truth; zcase; [lia|done]).
  destruct (ata_status (hw s)) as (Hp & Hl & Hs & Hst).
  destruct (inb (hw s) reg_status) as [st d]. cbn [fst snd] in *.
  destruct (ata_status d) as (Hp' & Hl' & Hs' & Hst').
  destruct (inb d reg_status) as [st' d']. cbn [fst snd] in *.
  change BIT_STAT_BSY with (2 ^ 7). change BIT_STAT_DRQ with (2 ^ 3). rewrite !truth_land_pow2 by lia.
  assert (Z.testbit st 7 = false) as ->.
  { unfold transferring in Ht. destruct (phase (hw s)); try done;
      destruct Hst as [-> _]; by rewrite bool_decide_eq_true_2. }
  assert (Z.testbit st' 3 = true) as ->.
  { rewrite Hp in Hst'. unfold transferring in Ht. destruct (phase (hw s)); try done;
      apply Hst'; by rewrite Hl. }
  exists d'. split; [done|]. split; [congruence|]. split; [congruence|].
  intros dv l. by rewrite Hs', Hs.
Qed.

Lemma poll_loop fuel n s : 1 ≤ n < 65536 → (Z.to_nat n < fuel)%nat → transferring (hw s) →
  ∃ d, loop fuel poll (n, s) = Ok (bool_decide (Z.of_nat (lag (hw s)) < n - 1), set_hw s d) ∧
    phase d = phase (hw s) ∧ lag d = (lag (hw s) - Z.to_nat (n - 1))%nat ∧ same_disk (hw s) d.
Proof.
  revert n s. induction fuel as [|fuel IH]; intros n s Hn Hf Ht; [lia|].
  destruct (decide (n = 1)) as [->|Hn1].
  - exists (hw s). cbn. rewrite bool_decide_eq_false_2 by lia.
    destruct s. split; [done|]. split; [done|]. split; [|done]. cbn. lia.
  - destruct (decide (lag (hw s) = 0%nat)) as [Hl|Hl].
    + destruct (poll_done n s) as (d & Hd & Hp & Hl' & Hs); [lia|done|done|].
      exists d. rewrite (loop_exit _ _ _ _ Hd), bool_decide_eq_true_2 by lia.
      split; [done|]. split; [done|]. split; [lia|done].
    + destruct (poll_busy n s) as (d & Hd & Hp & Hl' & Hs); [lia|done|done|].
      rewrite (loop_step _ _ _ _ Hd).
      destruct (IH (n - 1) (set_hw s d)) as (d' & -> & Hp' & Hl'' & Hs').
      { lia. } { lia. } { unfold transferring. cbn. by rewrite Hp. }
      exists d'. cbn [hw set_hw] in *. split; [f_equal; f_equal|].
      { apply bool_decide_ext. lia. }
      split; [congruence|]. split; [lia|]. intros dv l. by rewrite Hs', Hs.
Qed.

(** [busy_wait] polls at most 29999 times, 10 ms apart. *)
Lemma busy_wait_spec s : transferring (hw s) →
  ∃ d, busy_wait s = Ok (bool_decide (Z.of_nat (lag (hw s)) < 29999), set_hw s d) ∧
    phase d = phase (hw s) ∧ Z.of_nat (lag d) = Z.max 0 (Z.of_nat (lag (hw s)) - 29999) ∧ same_disk (hw s) d.
Proof.
  intros Ht. destruct (poll_loop (Z.to_nat 30001) 30000 s) as (d & Hl & Hp & Hlag & Hs); [lia|lia|done|].
  exists d. change (busy_wait s) with (loop (Z.to_nat 30001) poll (30000, s)). rewrite Hl.
  split; [done|]. split; [done|]. split; [lia|done].
Qed.

(** ** One round *)

Lemma size_in_byte_chunk n : 1 ≤ n ≤ 256 → size_in_byte (u8 n) = n * 512.
Proof.
  intros Hn. unfold size_in_byte, u8. destruct (decide (n = 256)) as [->|]; [done|].
  rewrite Z.mod_small by lia. zcase; lia.
Qed.

Lemma served_channel s d e : ready s → channel (served (set_hw (set_expecting s e) d) d) = channel s.
Proof. intros (_ & He & Hd & _). destruct s as [[]]. cbn in *. by subst. Qed.

Context `{!AtaReady D}.

(** After a command that sends data, in state [d2]: the driver waits for the interrupt, then for the
    data, and stores it. *)
Definition await_data s (buf n : Z) : outcome (ide D) :=
  s ← interrupt_window s ≫= wait_disk;
  '(ok, s) ← busy_wait s;
  if negb ok then Panic else read_from_sector s buf (u8 n).

Lemma await_data_spec s d2 dev lba buf n :
  ready s → phase d2 = Reading dev lba n → 1 ≤ n ≤ 256 → valid (iram s) buf (n * 512) →
  ∃ s', await_data (set_hw (set_expecting s true) d2) buf n = Ok s' ∧ ready s' ∧ channel s' = channel s ∧
    same_disk d2 (hw s') ∧ bytes_at (iram s') buf (sectors (sector d2 dev) lba (Z.to_nat n)) ∧
    ∀ a, a < buf ∨ buf + n * 512 ≤ a → iram s' !! a = iram s !! a.
Proof.
  intros Hr Hp2 Hn Hv. pose proof Hr as (Hp & He & Hd & Hi). unfold await_data.
  pose proof (ata_irq d2) as Hirq. rewrite Hp2 in Hirq. destruct Hirq as (d3 & Hirq & Hp3 & Hs3).
  rewrite (await_spec _ d3) by done. ocbn.
  destruct (ata_status d3) as (Hp4 & _ & Hs4 & _). set (d4 := (inb d3 reg_status).2) in *.
  match goal with |- context [busy_wait ?x] => destruct (busy_wait_spec x) as (d5 & -> & Hp5 & Hl5 & Hs5) end.
  { unfold transferring. cbn. by rewrite Hp4, Hp3. }
  cbn [hw served set_hw set_done set_expecting] in *. pose proof (ata_30s d4). rewrite bool_decide_eq_true_2 by lia. ocbn.
  unfold read_from_sector. cbn [hw set_hw iram]. rewrite size_in_byte_chunk by done.
  replace (n * 512 / 2) with (n * 256) by (replace (n * 512) with (n * 256 * 2) by lia; by rewrite Z.div_mul).
  destruct (ata_data_in d5 dev lba n) as (Hin & Hp6 & Hs6).
  { rewrite Hp5. cbn. congruence. } { lia. }
  destruct (insw d5 (n * 256)) as [bs d6]. cbn [fst snd] in *. subst bs.
  assert (sectors (sector d5 dev) lba (Z.to_nat n) = sectors (sector d2 dev) lba (Z.to_nat n)) as ->.
  { apply sectors_ext. intros. rewrite Hs5. cbn. by rewrite Hs4, Hs3. }
  set (bs := sectors _ _ _). assert (length bs = (Z.to_nat n * 512)%nat) as Hlen.
  { apply sectors_length. intros. apply ata_sector_len. }
  destruct (store_bytes_spec (iram s) buf bs) as (m & Hm & Hat & Ho).
  { rewrite Hlen. eapply valid_sub; [exact Hv|lia|lia]. }
  { apply sectors_Forall. intros. apply ata_sector_bytes. }
  cbn [iram set_hw set_done set_expecting served] in *. rewrite Hm. ocbn. eexists. split; [done|].
  pose proof (served_channel s d6 true Hr) as Hch. cbn in Hch.
  split; [|split; [|split; [|split]]]; cbn.
  - split; [done|]. split; [done|]. split; [done|exact Hi].
  - exact Hch.
  - intros dv l. rewrite Hs6, Hs5. cbn. by rewrite Hs4, Hs3.
  - exact Hat.
  - intros a Ha. apply Ho. lia.
Qed.

Lemma read_chunk_spec s dev lba buf n :
  ready s → dev = 0 ∨ dev = 1 → 0 ≤ lba ≤ max_lba → 1 ≤ n ≤ 256 → valid (iram s) buf (n * 512) →
  ∃ s', read_chunk s dev lba buf n = Ok s' ∧ ready s' ∧ channel s' = channel s ∧
    same_disk (hw s) (hw s') ∧
    bytes_at (iram s') buf (sectors (sector (hw s) dev) lba (Z.to_nat n)) ∧
    ∀ a, a < buf ∨ buf + n * 512 ≤ a → iram s' !! a = iram s !! a.
Proof.
  intros Hr Hdev Hlba Hn Hv. pose proof Hr as (Hp & _). unfold read_chunk.
  destruct (select_sector_spec s dev lba n Hp Hdev Hlba Hn) as (d1 & -> & Hp1 & Hs1 & Hb1 & Hb2 & Hb3 & H6).
  ocbn. destruct (ata_read d1 Hp1 H6) as [Hp2 Hs2]. rewrite Hb1, Hb2, Hb3 in Hp2. unfold cmd_out.
  destruct (await_data_spec (set_hw s d1) (outb d1 reg_cmd CMD_READ_SECTOR) dev lba buf n) as (s' & Heq & Hr' & Hch & Hs & Hb & Ho);
    [split; [done|apply Hr]|done|done|done|].
  exists s'. split; [exact Heq|]. split; [done|]. split; [done|]. split; [|split; [|done]].
  - intros dv l. by rewrite Hs, Hs2, Hs1.
  - erewrite sectors_ext; [exact Hb|]. intros. cbn. by rewrite Hs2, Hs1.
Qed.

Lemma write_chunk_spec s dev lba buf n bs :
  ready s → dev = 0 ∨ dev = 1 → 0 ≤ lba ≤ max_lba → 1 ≤ n ≤ 256 →
  bytes_at (iram s) buf bs → Forall is_byte bs → Z.of_nat (length bs) = n * 512 →
  ∃ s', write_chunk s dev lba buf n = Ok s' ∧ ready s' ∧ channel s' = channel s ∧ iram s' = iram s ∧
    ∀ dev' l, sector (hw s') dev' l =
      if bool_decide (dev' = dev ∧ lba ≤ l < lba + n) then nth_sector bs (l - lba)
      else sector (hw s) dev' l.
Proof.
  intros Hr Hdev Hlba Hn Hat Hbs Hlen. pose proof Hr as (Hp & He & Hd & Hi). unfold write_chunk.
  destruct (select_sector_spec s dev lba n Hp Hdev Hlba Hn) as (d1 & -> & Hp1 & Hs1 & Hb1 & Hb2 & Hb3 & H6).
  ocbn. destruct (ata_write d1 Hp1 H6) as [Hp2 Hs2]. rewrite Hb1, Hb2, Hb3 in Hp2.
  unfold cmd_out. cbn [hw set_hw set_expecting channel].
  set (d2 := outb d1 reg_cmd CMD_WRITE_SECTOR) in *.
  match goal with |- context [busy_wait ?x] => destruct (busy_wait_spec x) as (d3 & -> & Hp3 & Hl3 & Hs3) end.
  { unfold transferring. cbn. by rewrite Hp2. }
  cbn [hw set_hw set_expecting] in *. pose proof (ata_30s d2). rewrite bool_decide_eq_true_2 by lia. ocbn.
  unfold write2sector. cbn [hw set_hw iram set_expecting]. rewrite size_in_byte_chunk by done.
  replace (Z.to_nat (n * 512)) with (length bs) by lia. rewrite (load_bytes_spec _ _ _ Hat). ocbn.
  destruct (ata_data_out d3 dev lba n bs) as [Hp4 Hs4]; [congruence|lia|done|done|].
  set (d4 := outsw d3 bs) in *.
  pose proof (ata_irq d4) as Hirq. rewrite Hp4 in Hirq. destruct Hirq as (d5 & Hirq & Hp5 & Hs5).
  rewrite (await_spec _ d5) by done. eexists. split; [done|].
  destruct (ata_status d5) as (Hp6 & _ & Hs6 & _).
  pose proof (served_channel s (inb d5 reg_status).2 true Hr) as Hch. cbn in Hch.
  split; [|split; [exact Hch|split; [done|]]]; cbn.
  - split; [cbn; congruence|]. split; [done|]. split; [done|exact Hi].
  - intros dv l. rewrite Hs6, Hs5, Hs4. case_bool_decide; [done|]. by rewrite Hs3, Hs2, Hs1.
Qed.

(** ** Whole requests *)

Lemma secs_this_time_spec k cnt : 0 ≤ k < cnt → cnt < 2 ^ 31 →
  1 ≤ secs_this_time k cnt ≤ 256 ∧ k + secs_this_time k cnt ≤ cnt.
Proof.
  intros Hk Hc. unfold secs_this_time. rewrite !u32_small by lia. zcase; lia.
Qed.

Lemma select_disk_spec s dev : ready s →
  ready (select_disk s dev) ∧ channel (select_disk s dev) = channel s ∧
  iram (select_disk s dev) = iram s ∧ same_disk (hw s) (hw (select_disk s dev)).
Proof.
  intros (Hp & Hr). unfold select_disk. set (v := if dev =? 1 then _ else _).
  destruct (outb_reg (hw s) reg_dev v Hp) as (Hp' & _ & Hs); [unfold reg_dev; lia|].
  split; [split; done|done].
Qed.

(** What is in the range of a request. *)
Definition in_range (dev lba buf cnt : Z) : Prop :=
  (dev = 0 ∨ dev = 1) ∧ 0 ≤ lba ∧ 1 ≤ cnt ∧ lba + cnt ≤ max_lba + 1 ∧
  0 ≤ buf ∧ buf + cnt * 512 ≤ 2 ^ 32.

Definition read_progress s0 dev lba buf cnt (x : Z * ide D) : Prop :=
  let '(k, s) := x in
  0 ≤ k ≤ cnt ∧ ready s ∧ channel s = channel s0 ∧ same_disk (hw s0) (hw s) ∧
  valid (iram s) buf (cnt * 512) ∧
  bytes_at (iram s) buf (sectors (sector (hw s0) dev) lba (Z.to_nat k)) ∧
  ∀ a, a < buf ∨ buf + cnt * 512 ≤ a → iram s !! a = iram s0 !! a.

Lemma ide_read_round s0 dev lba buf cnt k s :
  in_range dev lba buf cnt → k < cnt → read_progress s0 dev lba buf cnt (k, s) →
  ∃ s', read_chunk s dev (u32 (lba + k)) (u32 (buf + k * 512)) (secs_this_time k cnt) = Ok s' ∧
    read_progress s0 dev lba buf cnt (u32 (k + secs_this_time k cnt), s').
Proof.
  intros (Hdev & Hl0 & Hc & Hl & Hb0 & Hb) Hk (Hk0 & Hr & Hch & Hs & Hv & Hat & Ho).
  change (max_lba + 1) with 163840 in Hl. change (2 ^ 32) with 4294967296 in Hb.
  destruct (secs_this_time_spec k cnt) as [Hn Hn']; [lia|lia|].
  set (n := secs_this_time k cnt) in *. rewrite !u32_small by lia.
  destruct (read_chunk_spec s dev (lba + k) (buf + k * 512) n) as (s' & Hs' & Hr' & Hch' & Hd' & Hat' & Ho');
    [done|done|change max_lba with 163839; lia|done|eapply valid_sub; [exact Hv|lia|lia]|].
  exists s'. split; [done|].
  assert (∀ j, length (sectors (sector (hw s0) dev) lba j) = (j * 512)%nat) as Hlen.
  { intros j. apply sectors_length. intros. apply ata_sector_len. }
  split; [lia|]. split; [done|]. split; [congruence|].
  split; [intros dv l; by rewrite Hd', Hs|].
  split; [|split].
  - intros a Ha. destruct (decide (buf + k * 512 ≤ a < buf + k * 512 + n * 512)) as [Hin|Hout].
    + apply (bytes_at_valid _ _ _ Hat'). rewrite sectors_length by (intros; apply ata_sector_len). lia.
    + rewrite Ho' by lia. by apply Hv.
  - rewrite Z2Nat.inj_add, sectors_app by lia. apply bytes_at_app. rewrite Hlen. split.
    + eapply bytes_at_ext; [|exact Hat]. rewrite Hlen. intros a Ha. apply Ho'. lia.
    + replace (buf + Z.of_nat (Z.to_nat k * 512)) with (buf + k * 512) by lia.
      replace (lba + Z.of_nat (Z.to_nat k)) with (lba + k) by lia.
      erewrite sectors_ext; [exact Hat'|]. intros. by rewrite Hs.
  - intros a Ha. rewrite Ho', Ho by lia. done.
Qed.

Lemma unlock_lock s (c : ide D) : channel s = channel (lock_channel c) → 0 ≤ lock_held (channel c) →
  ∃ s', unlock_channel s = Ok s' ∧ channel s' = channel c ∧ hw s' = hw s ∧ iram s' = iram s.
Proof.
  intros Hc H0. unfold unlock_channel. rewrite Hc. cbn [channel lock_channel set_held lock_held].
  rewrite (proj2 (Z.leb_le _ _)) by lia. ocbn. eexists. split; [done|]. split; [|done].
  unfold set_held. rewrite Hc. destruct c as [[]]. cbn. f_equal. lia.
Qed.

Lemma ide_read_spec s dev lba buf cnt :
  ready s → 0 ≤ lock_held (channel s) → in_range dev lba buf cnt → valid (iram s) buf (cnt * 512) →
  ∃ s', ide_read s dev lba buf cnt = Ok s' ∧ channel s' = channel s ∧ ready s' ∧
    same_disk (hw s) (hw s') ∧
    bytes_at (iram s') buf (sectors (sector (hw s) dev) lba (Z.to_nat cnt)) ∧
    ∀ a, a < buf ∨ buf + cnt * 512 ≤ a → iram s' !! a = iram s !! a.
Proof.
  intros Hr Hh Hin Hv. pose proof Hin as (Hdev & Hl0 & Hc & Hl & Hb0 & Hb). unfold ide_read.
  rewrite (proj2 (Z.leb_le lba max_lba)), (proj2 (Z.ltb_lt 0 cnt)) by lia. ocbn.
  set (s0 := lock_channel s). assert (ready s0) as Hr0 by done.
  destruct (select_disk_spec s0 dev Hr0) as (Hr1 & Hch1 & Hm1 & Hs1).
  set (s1 := select_disk s0 dev) in *. set (body := λ '(secs_done, s), _).
  destruct (loop_total body (read_progress s0 dev lba buf cnt) (λ '(k, _), Z.to_nat (cnt - k))
    (λ s', read_progress s0 dev lba buf cnt (cnt, s'))) with (fuel := S (Z.to_nat cnt)) (s := (0, s1))
    as (s2 & -> & Hpr).
  - intros [k x] Hx. unfold body. pose proof Hx as (Hk & _). zcase.
    + left. destruct (ide_read_round s0 dev lba buf cnt k x) as (x' & -> & Hx'); [done|done|done|].
      eexists. split; [done|]. split; [done|]. destruct Hx' as (Hk' & _).
      destruct (secs_this_time_spec k cnt) as [? ?]; [lia|change max_lba with 163839 in *; lia|].
      rewrite u32_small by (change max_lba with 163839 in *; lia). lia.
    + right. exists x. split; [done|]. by assert (k = cnt) as -> by lia.
  - split; [lia|]. split; [done|]. split; [done|]. split; [done|].
    rewrite Hm1. split; [done|]. split; [|done]. change (Z.to_nat 0) with 0%nat. intros i b Hi. cbn in Hi. by rewrite lookup_nil in Hi.
  - lia.
  - ocbn. destruct Hpr as (_ & Hr2 & Hch2 & Hs2 & _ & Hat & Ho).
    destruct (unlock_lock s2 s Hch2 Hh) as (s3 & -> & Hch3 & Hh3 & Hm3).
    exists s3. split; [done|]. split; [done|]. rewrite Hh3, Hm3. split; [|done].
    destruct Hr2 as (Hp2 & Hr2). destruct Hr as (_ & Hrest). split; [congruence|]. by rewrite Hch3.
Qed.

Definition write_progress s0 dev lba (bs : list Z) cnt (x : Z * ide D) : Prop :=
  let '(k, s) := x in
  0 ≤ k ≤ cnt ∧ ready s ∧ channel s = channel s0 ∧ iram s = iram s0 ∧
  ∀ dev' l, sector (hw s) dev' l =
    if bool_decide (dev' = dev ∧ lba ≤ l < lba + k) then nth_sector bs (l - lba)
    else sector (hw s0) dev' l.

Lemma ide_write_round s0 dev lba buf cnt bs k s :
  in_range dev lba buf cnt → k < cnt → Z.of_nat (length bs) = cnt * 512 → Forall is_byte bs →
  bytes_at (iram s0) buf bs → write_progress s0 dev lba bs cnt (k, s) →
  ∃ s', write_chunk s dev (u32 (lba + k)) (u32 (buf + k * 512)) (secs_this_time k cnt) = Ok s' ∧
    write_progress s0 dev lba bs cnt (u32 (k + secs_this_time k cnt), s').
Proof.
  intros (Hdev & Hl0 & Hc & Hl & Hb0 & Hb) Hk Hlen Hbs Hat (Hk0 & Hr & Hch & Hm & Hs).
  change (max_lba + 1) with 163840 in Hl. change (2 ^ 32) with 4294967296 in Hb.
  destruct (secs_this_time_spec k cnt) as [Hn Hn']; [lia|lia|].
  set (n := secs_this_time k cnt) in *. rewrite !u32_small by lia.
  set (chunk := take (Z.to_nat (n * 512)) (drop (Z.to_nat (k * 512)) bs)).
  destruct (write_chunk_spec s dev (lba + k) (buf + k * 512) n chunk) as (s' & Hs' & Hr' & Hch' & Hm' & Hd');
    [done|done|change max_lba with 163839; lia|done| | | |].
  - rewrite Hm. replace (buf + k * 512) with (buf + Z.of_nat (Z.to_nat (k * 512))) by lia.
    by apply bytes_at_take_drop.
  - by apply Forall_take, Forall_drop.
  - unfold chunk. rewrite length_take, length_drop. lia.
  - exists s'. split; [done|]. split; [lia|]. split; [done|]. split; [congruence|]. split; [congruence|].
    intros dev' l. rewrite Hd'. case_bool_decide as H1.
    + rewrite bool_decide_eq_true_2 by lia. unfold chunk. rewrite nth_sector_chunk by lia. f_equal. lia.
    + rewrite Hs. erewrite bool_decide_ext; [done|]. lia.
Qed.

Lemma ide_write_spec s dev lba buf cnt bs :
  ready s → 0 ≤ lock_held (channel s) → in_range dev lba buf cnt →
  bytes_at (iram s) buf bs → Z.of_nat (length bs) = cnt * 512 → Forall is_byte bs →
  ∃ s', ide_write s dev lba buf cnt = Ok s' ∧ channel s' = channel s ∧ ready s' ∧ iram s' = iram s ∧
    ∀ dev' l, sector (hw s') dev' l =
      if bool_decide (dev' = dev ∧ lba ≤ l < lba + cnt) then nth_sector bs (l - lba)
      else sector (hw s) dev' l.
Proof.
  intros Hr Hh Hin Hat Hlen Hbs. pose proof Hin as (Hdev & Hl0 & Hc & Hl & Hb0 & Hb). unfold ide_write.
  rewrite (proj2 (Z.leb_le lba max_lba)), (proj2 (Z.ltb_lt 0 cnt)) by lia. ocbn.
  set (s0 := lock_channel s). assert (ready s0) as Hr0 by done.
  destruct (select_disk_spec s0 dev Hr0) as (Hr1 & Hch1 & Hm1 & Hs1).
  set (s1 := select_disk s0 dev) in *. set (body := λ '(secs_done, s), _).
  destruct (loop_total body (write_progress s0 dev lba bs cnt) (λ '(k, _), Z.to_nat (cnt - k))
    (λ s', write_progress s0 dev lba bs cnt (cnt, s'))) with (fuel := S (Z.to_nat cnt)) (s := (0, s1))
    as (s2 & -> & Hpr).
  - intros [k x] Hx. unfold body. pose proof Hx as (Hk & _). zcase.
    + left. destruct (ide_write_round s0 dev lba buf cnt bs k x) as (x' & -> & Hx'); [done..|].
      eexists. split; [done|]. split; [done|].
      destruct (secs_this_time_spec k cnt) as [? ?]; [lia|change max_lba with 163839 in *; lia|].
      rewrite u32_small by (change max_lba with 163839 in *; lia). lia.
    + right. exists x. split; [done|]. by assert (k = cnt) as -> by lia.
  - split; [lia|]. split; [done|]. split; [done|]. split; [done|].
    intros dev' l. rewrite bool_decide_eq_false_2 by lia. apply Hs1.
  - lia.
  - ocbn. destruct Hpr as (_ & Hr2 & Hch2 & Hm2 & Hs2).
    destruct (unlock_lock s2 s Hch2 Hh) as (s3 & -> & Hch3 & Hh3 & Hm3).
    exists s3. split; [done|]. split; [done|]. rewrite Hh3, Hm3, Hm2. split; [|done].
    destruct Hr2 as (Hp2 & Hr2). destruct Hr as (_ & Hrest). split; [congruence|]. by rewrite Hch3.
Qed.
End protocol.

(** ** The driver as a block device

    One disk of the channel, with a buffer at [buf]. *)
Section device.
Context {D : Type} `{AtaReady D} (dev buf : Z).

Definition device_ok (s : ide D) : Prop :=
  ready s ∧ 0 ≤ lock_held (channel s) ∧ (dev = 0 ∨ dev = 1) ∧
  valid (iram s) buf ((max_lba + 1) * 512) ∧ 0 ≤ buf ∧ buf + (max_lba + 1) * 512 ≤ 2 ^ 32.

Definition device_read (s : ide D) (lba cnt : Z) : outcome (list Z * ide D) :=
  s ← ide_read s dev lba buf cnt;
  bs ← load_bytes (iram s) buf (Z.to_nat (cnt * 512));
  Ok (bs, s).

Definition device_write (s : ide D) (lba : Z) (bs : list Z) (cnt : Z) : outcome (ide D) :=
  m ← store_bytes (iram s) buf bs;
  ide_write (set_iram s m) dev lba buf cnt.

Lemma device_read_ok s lba cnt : device_ok s → 0 ≤ lba → 1 ≤ cnt → lba + cnt ≤ max_lba + 1 →
  ∃ s', device_read s lba cnt = Ok (sectors (sector (hw s) dev) lba (Z.to_nat cnt), s') ∧
    device_ok s' ∧ ∀ l, sector (hw s') dev l = sector (hw s) dev l.
Proof.
  intros (Hr & Hh & Hdev & Hv & Hb0 & Hb) Hl Hc Hlc. unfold device_read.
  destruct (ide_read_spec s dev lba buf cnt) as (s' & -> & Hch & Hr' & Hs & Hat & Ho);
    [done|done|repeat split; lia || done|eapply valid_sub; [exact Hv|lia|lia]|].
  ocbn. set (bs := sectors _ _ _) in *.
  assert (length bs = Z.to_nat (cnt * 512)) as <-.
  { unfold bs. rewrite sectors_length by (intros; apply ata_sector_len). lia. }
  rewrite (load_bytes_spec _ _ _ Hat). ocbn. exists s'. split; [done|].
  split; [|intros; apply Hs]. split; [done|]. rewrite Hch. split; [done|]. split; [done|].
  split; [|done]. intros a Ha. destruct (decide (a < buf + cnt * 512)).
  - apply (bytes_at_valid _ _ _ Hat). unfold bs. rewrite sectors_length by (intros; apply ata_sector_len). lia.
  - rewrite Ho by lia. by apply Hv.
Qed.

Lemma device_write_ok s lba bs cnt : device_ok s → 0 ≤ lba → 1 ≤ cnt → lba + cnt ≤ max_lba + 1 →
  Z.of_nat (length bs) = cnt * 512 → Forall is_byte bs →
  ∃ s', device_write s lba bs cnt = Ok s' ∧ device_ok s' ∧
    ∀ l, sector (hw s') dev l =
      if bool_decide (lba ≤ l < lba + cnt) then nth_sector bs (l - lba) else sector (hw s) dev l.
Proof.
  intros (Hr & Hh & Hdev & Hv & Hb0 & Hb) Hl Hc Hlc Hlen Hbs. unfold device_write.
  destruct (store_bytes_spec (iram s) buf bs) as (m & -> & Hat & Ho);
    [eapply valid_sub; [exact Hv|lia|lia]|done|].
  ocbn. destruct (ide_write_spec (set_iram s m) dev lba buf cnt bs) as (s' & -> & Hch & Hr' & Hm & Hs);
    [done|done|repeat split; lia || done|done|done|done|].
  exists s'. split; [done|]. split.
  - split; [done|]. rewrite Hch, Hm. split; [done|]. split; [done|]. split; [|done]. cbn.
    intros a Ha. destruct (decide (a < buf + cnt * 512)).
    + apply (bytes_at_valid _ _ _ Hat). lia.
    + rewrite Ho by lia. by apply Hv.
  - intros l. rewrite Hs. cbn. erewrite bool_decide_ext; [done|]. tauto.
Qed.

#[export] Instance ide_device : BlockDevice (ide D) := {
  bd_read := device_read;
  bd_write := device_write;
  bd_sector s := sector (hw s) dev;
  bd_ok := device_ok;
  bd_size := max_lba + 1;
  bd_sector_len s := ata_sector_len (hw s) dev;
  bd_sector_bytes s := ata_sector_bytes (hw s) dev;
  bd_read_ok := device_read_ok;
  bd_write_ok := device_write_ok
}.
End device.

(** ** Properties *)

Section properties.
Context {D : Type} `{AtaChannel D}.



(** How patient [busy_wait] is: it gives a drive 29998 waits of 10 ms, five
    minutes, before it reports failure. The comment says 30 seconds; the loop
    condition [time_limit -= 10 >= 0] takes the truth value of [10 >= 0] off the
    limit instead of 10. *)
Theorem busy_wait_patience (s : ide D) : transferring (hw s) →
  ∃ d, busy_wait s = Ok (bool_decide (Z.of_nat (lag (hw s)) ≤ 29998), set_hw s d) ∧
    phase d = phase (hw s) ∧ same_disk (hw s) d.
Proof.
  intros Ht. destruct (busy_wait_spec s Ht) as (d & -> & Hp & _ & Hs). exists d.
  split; [|done]. do 2 f_equal. apply bool_decide_ext. lia.
Qed.
End properties.

(** ** A drive *)
Module IdeExample.
Import RamDisk.

(** A pair of drives that need [a_lag] times 10 ms for their data and, if
    [a_prompt], raise the interrupt at once. *)
Record drive := Drive {
  a_phase : ata_phase;
  a_regs : Z → Z;
  a_lag : nat;
  a_prompt : bool;
  a_disk : Z → Z → list Z
}.
Definition with_phase (d : drive) (p : ata_phase) (n : nat) : drive :=
  Drive p (a_regs d) n (a_prompt d) (a_disk d).
Definition drive_outb (d : drive) (r v : Z) : drive :=
  if r =? reg_cmd then
    if v =? CMD_READ_SECTOR then
      with_phase d (Reading (block_dev (a_regs d)) (block_lba (a_regs d)) (block_count (a_regs d))) 0
    else if v =? CMD_IDENTIFY then with_phase d (Reading (block_dev (a_regs d)) (-1) 1) 0
    else
      with_phase d (DataOut (block_dev (a_regs d)) (block_lba (a_regs d)) (block_count (a_regs d))) 1
  else Drive (a_phase d) (λ r', if r' =? r then u8 v else a_regs d r') (a_lag d) (a_prompt d) (a_disk d).
Definition drive_status (d : drive) : Z :=
  match a_phase d with
  | DataIn _ _ _ | DataOut _ _ _ => if (a_lag d =? 0)%nat then 72 else 200
  | Idle => 64
  | _ => 128
  end.
Definition drive_sector (d : drive) (dev l : Z) : list Z := padded (a_disk d dev l).
Definition drive_insw (d : drive) (n : Z) : list Z * drive :=
  match a_phase d with
  | DataIn dev lba cnt => (sectors (drive_sector d dev) lba (Z.to_nat cnt), with_phase d Idle 0)
  | _ => ([], d)
  end.
Definition drive_outsw (d : drive) (bs : list Z) : drive :=
  match a_phase d with
  | DataOut dev lba cnt =>
      Drive Writing (a_regs d) 0 (a_prompt d) (λ dev' l,
        if bool_decide (dev' = dev ∧ lba ≤ l < lba + cnt) then nth_sector bs (l - lba)
        else a_disk d dev' l)
  | _ => d
  end.
Definition drive_irq (d : drive) : option drive :=
  match a_phase d with
  | Reading dev lba cnt => Some (with_phase d (DataIn dev lba cnt) 2)
  | Writing => Some (with_phase d Idle 0)
  | _ => None
  end.

(** Drives that are never busy for longer than [cap] times 10 ms. *)
Program Definition drive_ata (cap : nat) : AtaChannel drive := {|
  outb := drive_outb;
  inb d _ := (drive_status d, d);
  insw := drive_insw;
  outsw := drive_outsw;
  elapse d := with_phase d (a_phase d) (pred (Nat.min (S cap) (a_lag d)));
  irq := drive_irq;
  prompt := a_prompt;
  phase := a_phase;
  regs := a_regs;
  lag d := Nat.min (S cap) (a_lag d);
  sector := drive_sector
|}.
Next Obligation. intros. apply padded_length. Qed.
Next Obligation. intros. apply padded_bytes. Qed.
Next Obligation.
  intros cap d r v Hp Hr. unfold drive_outb. change reg_cmd with 7.
  destruct (Z.eqb_spec r 7); [lia|]. done.
Qed.
Next Obligation. done. Qed.
Next Obligation. done. Qed.
Next Obligation.
  intros cap d. unfold drive_irq. destruct (a_phase d); try done; eexists; done.
Qed.
Next Obligation.
  intros cap d. cbn [fst snd]. split; [done|]. split; [done|]. split; [done|]. unfold drive_status.
  destruct (a_phase d); try done; destruct (a_lag d); done.
Qed.
Next Obligation. intros cap d. split; [done|]. split; [cbn [a_lag with_phase]; lia|done]. Qed.
Next Obligation. intros cap d dev lba cnt Hp Hl. unfold drive_insw. by rewrite Hp. Qed.
Next Obligation.
  intros cap d dev lba cnt bs Hp Hl Hlen Hbs. unfold drive_outsw. rewrite Hp. split; [done|].
  intros dev' l. unfold drive_sector at 1. cbn [a_disk]. case_bool_decide as Hin; [|done].
  apply padded_id; [eapply nth_sector_length; [done|lia]|]. by apply Forall_take, Forall_drop.
Qed.

#[export] Instance good_drive : AtaChannel drive := drive_ata 2999.
#[export] Instance good_drive_ready : AtaReady drive.
Proof. intros d. change (lag d) with (Nat.min 3000 (a_lag d)). lia. Qed.

(** Two drives with sector [l] of drive [dev] full of [16 * dev + l]. *)
Definition d0 (fast : bool) : drive :=
  Drive Idle (λ _, 0) 0 fast (λ dev l, replicate 512 (16 * dev + l)).
Definition s0 (fast : bool) : ide drive := Ide (IdeChannel 496 46 0 false 0) (d0 fast) (zeros 4096 2048).



(** A drive that is ready after 3500 waits, 35 seconds, is accepted. *)
Lemma busy_wait_patience_witness :
  let H := drive_ata 4000 in
  ∃ d, busy_wait (set_hw (s0 false) (with_phase (d0 false) (DataIn 0 0 1) 3500)) =
    Ok (true, set_hw (s0 false) d) ∧ phase d = DataIn 0 0 1.
Proof.
  intros H. destruct (busy_wait_patience (H := H) (set_hw (s0 false) (with_phase (d0 false) (DataIn 0 0 1) 3500)))
    as (d & Hd & Hp & _); [done|]. exists d. split; [|done]. rewrite Hd, bool_decide_eq_true_2; [done|].
  change (Z.of_nat (Nat.min 4001 3500) ≤ 29998). lia.
Defined.
End IdeExample.
