(* ===== verification/Partition.v ===== *)
(** * device/ide.c: the partitions of a disk

    [partition_scan] reads the partition table of a disk and follows the chain
    of extended partitions. The recursion has fuel: the code itself does not
    bound it. *)

From stdpp Require Import base numbers list.
From Stdlib Require Import ZArith Lia.
From S2P Require Import Prelude Block Stdio.

Record partition_table_entry := PartitionTableEntry {
  fs_type : Z;
  entry_start_lba : Z;
  entry_sec_cnt : Z
}.

(** Entry [i] of the table in the boot sector [bs]. *)
Definition table_entry (bs : list Z) (i : Z) : partition_table_entry :=
  PartitionTableEntry (byte_at bs (446 + 16 * i + 4)) (le32_at bs (446 + 16 * i + 8))
    (le32_at bs (446 + 16 * i + 12)).
Definition partition_table (bs : list Z) : list partition_table_entry :=
  table_entry bs <$> [0; 1; 2; 3].

(** What [partition_scan] fills in of a partition. *)
Record partition := Partition {
  start_lba : Z;
  sec_cnt : Z;
  pname : list Z
}.

Inductive part_ref := prim (i : nat) | logic (i : nat).

Section scan.
Context {D : Type} `{BlockDevice D}.

(** The disk [hd], the globals of the scan and the number of boot sectors it
    holds in memory. *)
Record scan := Scan {
  disk_name : list Z;
  prim_parts : list partition;
  logic_parts : list partition;
  ext_lba_base : Z;
  p_no : nat;
  l_no : nat;
  partition_list : list part_ref;
  boot_sectors : Z;
  sdev : D
}.
Definition set_sdev (s : scan) (d : D) : scan :=
  Scan (disk_name s) (prim_parts s) (logic_parts s) (ext_lba_base s) (p_no s) (l_no s) (partition_list s) (boot_sectors s) d.
Definition set_base (s : scan) (b : Z) : scan :=
  Scan (disk_name s) (prim_parts s) (logic_parts s) b (p_no s) (l_no s) (partition_list s) (boot_sectors s) (sdev s).
Definition set_boot_sectors (s : scan) (n : Z) : scan :=
  Scan (disk_name s) (prim_parts s) (logic_parts s) (ext_lba_base s) (p_no s) (l_no s) (partition_list s) n (sdev s).

Definition part_name (s : scan) (n : Z) : list Z := disk_name s ++ decimal n.

Definition add_primary (s : scan) (ext_lba : Z) (p : partition_table_entry) : outcome scan :=
  if bool_decide (p_no s < length (prim_parts s))%nat then
    let part := Partition (u32 (ext_lba + entry_start_lba p)) (entry_sec_cnt p) (part_name s (Z.of_nat (p_no s) + 1)) in
    let s := Scan (disk_name s) (<[p_no s := part]> (prim_parts s)) (logic_parts s) (ext_lba_base s)
               (S (p_no s)) (l_no s) (partition_list s ++ [prim (p_no s)]) (boot_sectors s) (sdev s) in
    ASSERT (bool_decide (p_no s < 4)%nat);; Ok s
  else Fault.

(** Writing behind [logic_parts[7]] is a [Fault]; the flag says to return. *)
Definition add_logical (s : scan) (ext_lba : Z) (p : partition_table_entry) : outcome (bool * scan) :=
  if bool_decide (l_no s < length (logic_parts s))%nat then
    let part := Partition (u32 (ext_lba + entry_start_lba p)) (entry_sec_cnt p) (part_name s (Z.of_nat (l_no s) + 5)) in
    let s := Scan (disk_name s) (prim_parts s) (<[l_no s := part]> (logic_parts s)) (ext_lba_base s)
               (p_no s) (S (l_no s)) (partition_list s ++ [logic (l_no s)]) (boot_sectors s) (sdev s) in
    Ok (bool_decide (8 ≤ l_no s)%nat, s)
  else Fault.

(** The loop over the four entries; [recur] is [partition_scan] and the flag of
    the result says that the function returned from within the loop. *)
Fixpoint scan_entries (recur : scan → Z → outcome scan) (ext_lba : Z) (ps : list partition_table_entry)
    (s : scan) : outcome (bool * scan) :=
  match ps with
  | [] => Ok (false, s)
  | p :: ps =>
      if fs_type p =? 5 then
        if truth (ext_lba_base s) then
          s ← recur s (u32 (entry_start_lba p + ext_lba_base s));
          scan_entries recur ext_lba ps s
        else
          s ← recur (set_base s (s32 (entry_start_lba p))) (entry_start_lba p);
          scan_entries recur ext_lba ps s
      else if truth (fs_type p) then
        if ext_lba =? 0 then
          s ← add_primary s ext_lba p;
          scan_entries recur ext_lba ps s
        else
          '(ret, s) ← add_logical s ext_lba p;
          if (ret : bool) then Ok (true, s) else scan_entries recur ext_lba ps s
      else scan_entries recur ext_lba ps s
  end.

Fixpoint partition_scan (fuel : nat) (s : scan) (ext_lba : Z) : outcome scan :=
  match fuel with
  | O => OutOfFuel
  | S fuel =>
      let s := set_boot_sectors s (boot_sectors s + 1) in
      '(bs, d) ← bd_read (sdev s) ext_lba 1;
      '(ret, s) ← scan_entries (partition_scan fuel) ext_lba (partition_table bs) (set_sdev s d);
      if (ret : bool) then Ok s else Ok (set_boot_sectors s (boot_sectors s - 1))
  end.
End scan.
Arguments scan D : clear implicits.

(** ** What a scan adds *)

(** A run of sectors: where it starts and how long it is. *)
Definition region : Type := Z * Z.
Definition regions (n : nat) (l : list partition) : list region :=
  (λ p, (start_lba p, sec_cnt p)) <$> take n l.

Definition unused (p : partition_table_entry) : Prop := fs_type p = 0.
Definition holds_data (p : partition_table_entry) : Prop := fs_type p ≠ 0 ∧ fs_type p ≠ 5.
(** The region of an entry of the table in sector [lba]. *)
Definition entry_region (lba : Z) (p : partition_table_entry) : region :=
  (u32 (lba + entry_start_lba p), entry_sec_cnt p).

#[export] Instance unused_dec p : Decision (unused p) := decide (fs_type p = 0).
#[export] Instance holds_data_dec p : Decision (holds_data p) := decide (fs_type p ≠ 0 ∧ fs_type p ≠ 5).
(** The entries of a table that hold data, and no link. *)
Definition data_of (ps : list partition_table_entry) : list partition_table_entry := filter holds_data ps.

Lemma regions_insert (l : list partition) n p : (n < length l)%nat →
  regions (S n) (<[n := p]> l) = regions n l ++ [(start_lba p, sec_cnt p)].
Proof.
  intros Hn. unfold regions. rewrite (take_S_r _ n p) by (by apply list_lookup_insert_eq).
  rewrite take_insert_ge by lia. by rewrite fmap_app.
Qed.

Section spec.
Context {D : Type} `{BlockDevice D}.
Implicit Types (s : scan D).

(** [s'] has the primary partitions [ps], the logical ones [ls] and the list
    elements [refs] more than [s]. *)
Definition adds s s' (ps ls : list region) (refs : list part_ref) : Prop :=
  (length (prim_parts s') = length (prim_parts s) ∧ length (logic_parts s') = length (logic_parts s)) ∧
  (p_no s' = p_no s + length ps ∧ l_no s' = l_no s + length ls)%nat ∧
  regions (p_no s') (prim_parts s') = regions (p_no s) (prim_parts s) ++ ps ∧
  regions (l_no s') (logic_parts s') = regions (l_no s) (logic_parts s) ++ ls ∧
  partition_list s' = partition_list s ++ refs ∧
  bd_ok (sdev s') ∧ ∀ l, bd_sector (sdev s') l = bd_sector (sdev s) l.

Lemma adds_refl s : bd_ok (sdev s) → adds s s [] [] [].
Proof. intros Hok. unfold adds. rewrite !app_nil_r. cbn. repeat split; try done; lia. Qed.

Lemma adds_trans s s1 s2 ps ls refs ps' ls' refs' :
  adds s s1 ps ls refs → adds s1 s2 ps' ls' refs' → adds s s2 (ps ++ ps') (ls ++ ls') (refs ++ refs').
Proof.
  intros ((Hp & Hl) & (Hpn & Hln) & Hrp & Hrl & Hr & Hok & Hs)
    ((Hp' & Hl') & (Hpn' & Hln') & Hrp' & Hrl' & Hr' & Hok' & Hs').
  split; [split; congruence|]. rewrite !length_app. split; [lia|].
  rewrite Hrp', Hrp, Hrl', Hrl, Hr', Hr, !app_assoc. repeat split; try done.
  intros l. by rewrite Hs', Hs.
Qed.

Lemma add_primary_spec s lba p : (p_no s < 3)%nat → length (prim_parts s) = 4%nat → bd_ok (sdev s) →
  ∃ s', add_primary s lba p = Ok s' ∧ adds s s' [entry_region lba p] [] [prim (p_no s)] ∧
    boot_sectors s' = boot_sectors s ∧ ext_lba_base s' = ext_lba_base s.
Proof.
  intros Hn Hl Hok. unfold add_primary. rewrite bool_decide_eq_true_2 by lia. cbn [p_no].
  rewrite bool_decide_eq_true_2 by lia. ocbn. eexists. split; [done|].
  split; [|done]. split; [cbn; by rewrite length_insert|]. cbn [p_no l_no prim_parts logic_parts partition_list sdev].
  split; [cbn; lia|]. rewrite regions_insert, !app_nil_r by lia. done.
Qed.

Lemma add_logical_spec s lba p : (l_no s < 8)%nat → length (logic_parts s) = 8%nat → bd_ok (sdev s) →
  ∃ s', add_logical s lba p = Ok (bool_decide (l_no s = 7)%nat, s') ∧
    adds s s' [] [entry_region lba p] [logic (l_no s)] ∧
    boot_sectors s' = boot_sectors s ∧ ext_lba_base s' = ext_lba_base s.
Proof.
  intros Hn Hl Hok. unfold add_logical. rewrite bool_decide_eq_true_2 by lia. eexists. split.
  { do 2 f_equal. apply bool_decide_ext. cbn [l_no]. lia. }
  split; [|done]. split; [cbn; by rewrite length_insert|]. cbn [p_no l_no prim_parts logic_parts partition_list sdev].
  split; [cbn; lia|]. rewrite regions_insert, !app_nil_r by lia. done.
Qed.

(** The chain of extended partitions from sector [lba] on describes the logical
    partitions [rs]. Links are relative to [base], the first extended partition. *)
Inductive chain (get : Z → list Z) (base : Z) : Z → list region → Prop :=
  | chain_last lba p e1 e2 e3 : 0 < lba < bd_size →
      partition_table (get lba) = [p; e1; e2; e3] → holds_data p → unused e1 → unused e2 → unused e3 →
      chain get base lba [entry_region lba p]
  | chain_link lba p q e2 e3 rs : 0 < lba < bd_size →
      partition_table (get lba) = [p; q; e2; e3] → holds_data p → fs_type q = 5 → unused e2 → unused e3 →
      chain get base (u32 (entry_start_lba q + base)) rs →
      chain get base lba (entry_region lba p :: rs).

Lemma chain_ext get get' base lba rs : (∀ l, get' l = get l) → chain get base lba rs → chain get' base lba rs.
Proof.
  intros Hg. induction 1 as [lba p e1 e2 e3 | lba p q e2 e3 rs ? ? ? ? ? ? _ IH].
  - by apply (chain_last _ _ _ p e1 e2 e3); rewrite ?Hg.
  - by apply (chain_link _ _ _ p q e2 e3); rewrite ?Hg.
Qed.

Lemma scan_unused (recur : scan D → Z → outcome (scan D)) lba p ps s :
  unused p → scan_entries recur lba (p :: ps) s = scan_entries recur lba ps s.
Proof. intros Hp. cbn [scan_entries]. by rewrite Hp. Qed.

Lemma data_type p : holds_data p → (fs_type p =? 5) = false ∧ truth (fs_type p) = true.
Proof. intros [H0 H5]. unfold truth. do 2 zcase; done. Qed.

(** Reading a boot sector with a logical partition in front. The eighth one
    ends the scan, and the boot sector stays in memory. *)
Lemma scan_logical fuel s lba p ps : 0 < lba < bd_size → bd_ok (sdev s) →
  partition_table (bd_sector (sdev s) lba) = p :: ps → holds_data p →
  (l_no s < 8)%nat → length (logic_parts s) = 8%nat →
  ∃ s1, adds s s1 [] [entry_region lba p] [logic (l_no s)] ∧ ext_lba_base s1 = ext_lba_base s ∧
    boot_sectors s1 = boot_sectors s + 1 ∧
    partition_scan (S fuel) s lba =
      if bool_decide (l_no s = 7)%nat then Ok s1
      else '(ret, s) ← scan_entries (partition_scan fuel) lba ps s1;
           if (ret : bool) then Ok s else Ok (set_boot_sectors s (boot_sectors s - 1)).
Proof.
  intros Hlba Hok Htab Hp Hn Hlen. cbn [partition_scan sdev set_boot_sectors].
  destruct (bd_read_ok (sdev s) lba 1 Hok) as (d & -> & Hokd & Hd); [lia|lia|lia|].
  change (Z.to_nat 1) with 1%nat. rewrite sectors_one. ocbn. rewrite Htab. cbn [scan_entries].
  destruct (data_type p Hp) as [-> ->]. rewrite (proj2 (Z.eqb_neq lba 0)) by lia.
  set (s0 := set_sdev _ d). destruct (add_logical_spec s0 lba p) as (s1 & -> & Ha & Hbs & Heb); [done..|].
  exists s1. split; [|split; [done|split; [done|]]].
  - destruct Ha as (? & ? & ? & ? & ? & ? & Hs). repeat split; try done; try tauto.
    intros l. rewrite Hs. apply Hd.
  - ocbn. cbn. by case_bool_decide.
Qed.

(** Following a chain. *)
Lemma chain_scan get base lba rs : chain get base lba rs → 0 < base →
  ∀ fuel s, (length rs ≤ fuel)%nat → bd_ok (sdev s) → (∀ l, bd_sector (sdev s) l = get l) →
    ext_lba_base s = base → length (logic_parts s) = 8%nat → (l_no s + length rs ≤ 8)%nat →
  ∃ s', partition_scan fuel s lba = Ok s' ∧
    adds s s' [] rs (logic <$> seq (l_no s) (length rs)) ∧ ext_lba_base s' = base ∧
    boot_sectors s' = boot_sectors s + (if bool_decide (8 ≤ l_no s')%nat then 1 else 0).
Proof.
  intros Hc Hb. induction Hc as [lba p e1 e2 e3 Hlba Htab Hp He1 He2 He3 | lba p q e2 e3 rs Hlba Htab Hp Hq He2 He3 Hc IH];
    intros fuel s Hf Hok Hget Hbase Hlen Hn; (destruct fuel as [|fuel]; [cbn in Hf; lia|]); cbn [length] in *.
  - destruct (scan_logical fuel s lba p [e1; e2; e3]) as (s1 & Ha & Heb & Hbs & ->);
      [done|done|by rewrite Hget|done|lia|done|].
    assert (l_no s1 = S (l_no s)) as Hl1 by (destruct Ha as (_ & [_ ->] & _); cbn; lia).
    case_bool_decide as H7.
    + exists s1. split; [done|]. split; [done|]. split; [congruence|].
      rewrite bool_decide_eq_true_2 by lia. done.
    + rewrite !scan_unused by done. cbn [scan_entries]. ocbn. eexists. split; [done|]. split; [exact Ha|].
      split; [cbn; congruence|]. cbn. rewrite bool_decide_eq_false_2 by lia. lia.
  - destruct (scan_logical fuel s lba p [q; e2; e3]) as (s1 & Ha & Heb & Hbs & ->);
      [done|done|by rewrite Hget|done|lia|done|].
    assert (l_no s1 = S (l_no s)) as Hl1 by (destruct Ha as (_ & [_ ->] & _); cbn; lia).
    assert (1 ≤ length rs)%nat by (destruct Hc; cbn; lia).
    rewrite bool_decide_eq_false_2 by lia. cbn [scan_entries]. rewrite Hq, Heb, Hbase.
    replace (truth base) with true by (unfold truth; zcase; [lia|done]). ocbn.
    pose proof Ha as ((_ & Hll) & _ & _ & _ & _ & Hok1 & Hs1).
    destruct (IH fuel s1) as (s2 & Hs2 & Ha2 & Heb2 & Hbs2);
      [lia|done|intros l; by rewrite Hs1, Hget|congruence|congruence|lia|].
    rewrite Z.eqb_refl, Hs2. ocbn. rewrite He2, He3. change (0 =? 5) with false. change (truth 0) with false. ocbn.
    eexists. split; [done|].
    split; [|split; [done|]].
    + replace (seq (l_no s) (S (length rs))) with ([l_no s] ++ seq (l_no s1) (length rs)) by (by rewrite Hl1).
      rewrite fmap_app. exact (adds_trans _ _ _ _ _ _ _ _ _ Ha Ha2).
    + cbn [boot_sectors l_no set_boot_sectors]. rewrite Hbs2, Hbs. lia.
Qed.

Lemma scan_primaries (recur : scan D → Z → outcome (scan D)) ps ps' s :
  Forall (λ p, fs_type p ≠ 5) ps → (p_no s + length (data_of ps) ≤ 3)%nat →
  length (prim_parts s) = 4%nat → bd_ok (sdev s) →
  ∃ s', scan_entries recur 0 (ps ++ ps') s = scan_entries recur 0 ps' s' ∧
    adds s s' (entry_region 0 <$> data_of ps) [] (prim <$> seq (p_no s) (length (data_of ps))) ∧
    boot_sectors s' = boot_sectors s ∧ ext_lba_base s' = ext_lba_base s.
Proof.
  revert s. induction ps as [|p ps IH]; intros s Hne Hn Hl Hok.
  - exists s. split; [done|]. split; [by apply adds_refl|done].
  - apply Forall_cons in Hne as [Hp Hne]. unfold data_of in *. rewrite filter_cons in *.
    cbn [app]. case_decide as Hd; cbn [length] in *.
    + destruct (add_primary_spec s 0 p) as (s1 & Hs1 & Ha & Hb & He); [lia|done|done|].
      pose proof Ha as ((Hl1 & _) & (Hp1 & _) & _ & _ & _ & Hok1 & _). cbn in Hp1.
      destruct (IH s1) as (s' & Hs' & Ha' & Hb' & He'); [done|lia|lia|done|].
      exists s'. cbn [scan_entries]. destruct (data_type p Hd) as [-> ->]. change (0 =? 0) with true.
      rewrite Hs1. ocbn. rewrite Hs'. split; [done|]. split; [|split; congruence].
      replace (seq (p_no s) (S (length (filter holds_data ps))))
        with ([p_no s] ++ seq (p_no s1) (length (filter holds_data ps))) by (cbn; do 2 f_equal; lia).
      rewrite fmap_app. exact (adds_trans _ _ _ _ _ _ _ _ _ Ha Ha').
    + rewrite scan_unused; [by apply IH|].
      unfold unused. destruct (decide (fs_type p = 0)); [done|]. by destruct Hd.
Qed.

(** A disk before its scan. *)
Definition fresh_scan s : Prop :=
  bd_ok (sdev s) ∧ p_no s = 0%nat ∧ l_no s = 0%nat ∧
  length (prim_parts s) = 4%nat ∧ length (logic_parts s) = 8%nat.

(** The master boot record is read and the loop starts. *)
Lemma scan_mbr fuel s : bd_ok (sdev s) → 1 ≤ bd_size →
  ∃ s1, adds s s1 [] [] [] ∧ ext_lba_base s1 = ext_lba_base s ∧ boot_sectors s1 = boot_sectors s + 1 ∧
    partition_scan (S fuel) s 0 =
      '(ret, s) ← scan_entries (partition_scan fuel) 0 (partition_table (bd_sector (sdev s) 0)) s1;
      if (ret : bool) then Ok s else Ok (set_boot_sectors s (boot_sectors s - 1)).
Proof.
  intros Hok Hsz. cbn [partition_scan sdev set_boot_sectors].
  destruct (bd_read_ok (sdev s) 0 1 Hok) as (d & -> & Hokd & Hd); [lia|lia|lia|].
  change (Z.to_nat 1) with 1%nat. rewrite sectors_one. ocbn. eexists. split; [|split; [|split; [|done]]]; [|done|done].
  destruct (adds_refl s Hok) as (? & ? & ? & ? & ? & _ & _). done.
Qed.

(** A disk with primary partitions and one extended partition. *)
Lemma partition_scan_spec fuel s ps1 e ps2 rs :
  fresh_scan s → ext_lba_base s = 0 → 1 ≤ bd_size →
  partition_table (bd_sector (sdev s) 0) = ps1 ++ e :: ps2 →
  fs_type e = 5 → Forall (λ p, fs_type p ≠ 5) ps1 → Forall (λ p, fs_type p ≠ 5) ps2 →
  0 < entry_start_lba e < 2 ^ 31 →
  chain (bd_sector (sdev s)) (entry_start_lba e) (entry_start_lba e) rs →
  (length (data_of (ps1 ++ ps2)) ≤ 3)%nat → (length rs ≤ 8)%nat → (length rs < fuel)%nat →
  ∃ s', partition_scan fuel s 0 = Ok s' ∧
    adds s s' (entry_region 0 <$> data_of (ps1 ++ ps2)) rs
      ((prim <$> seq 0 (length (data_of ps1))) ++ (logic <$> seq 0 (length rs)) ++
       (prim <$> seq (length (data_of ps1)) (length (data_of ps2)))) ∧
    ext_lba_base s' = entry_start_lba e ∧
    boot_sectors s' = boot_sectors s + (if bool_decide (length rs = 8%nat) then 1 else 0).
Proof.
  intros (Hok & Hp0 & Hl0 & Hlp & Hll) Hb0 Hsz Htab He Hne1 Hne2 Hst Hc Hn Hrs Hf.
  unfold data_of in Hn. rewrite filter_app, length_app in Hn. fold (data_of ps1) (data_of ps2) in Hn.
  destruct fuel as [|fuel]; [lia|].
  destruct (scan_mbr fuel s Hok Hsz) as (s1 & Ha1 & Hb1 & Hbs1 & ->). rewrite Htab.
  pose proof Ha1 as ((Hlp1 & Hll1) & (Hpn1 & Hln1) & _ & _ & _ & Hok1 & Hs1). cbn in Hpn1, Hln1.
  destruct (scan_primaries (partition_scan fuel) ps1 (e :: ps2) s1) as (s2 & -> & Ha2 & Hbs2 & Hb2);
    [done|lia|lia|done|].
  pose proof Ha2 as ((Hlp2 & Hll2) & (Hpn2 & Hln2) & _ & _ & _ & Hok2 & Hs2). rewrite length_fmap in Hpn2. cbn in Hln2.
  cbn [scan_entries]. rewrite He, Hb2, Hb1, Hb0. change (5 =? 5) with true. change (truth 0) with false. cbv iota.
  rewrite s32_small by lia. set (s3 := set_base s2 _).
  destruct (chain_scan _ _ _ _ Hc (proj1 Hst) fuel s3) as (s4 & -> & Ha4 & Hb4 & Hbs4);
    [lia|done|intros l; cbn; by rewrite Hs2, Hs1|done|cbn; lia|cbn; lia|]. ocbn.
  pose proof Ha4 as ((Hlp4 & Hll4) & (Hpn4 & Hln4) & _ & _ & _ & Hok4 & _). cbn in Hpn4, Hln4.
  destruct (scan_primaries (partition_scan fuel) ps2 [] s4) as (s5 & Hs5 & Ha5 & Hbs5 & Hb5); [done|lia| |done|].
  { cbn in Hlp4. lia. }
  rewrite app_nil_r in Hs5. rewrite Hs5. cbn [scan_entries]. ocbn. eexists. split; [done|].
  pose proof (adds_trans _ _ _ _ _ _ _ _ _ (adds_trans _ _ _ _ _ _ _ _ _ Ha1 Ha2)
    (adds_trans s2 s4 s5 _ _ _ _ _ _ Ha4 Ha5)) as Ha.
  rewrite !app_nil_r in Ha. cbn [app l_no s3 set_base] in Ha.
  rewrite Hpn4, Hpn2, Hpn1, Hp0, Hln2, Hln1, Hl0, !Nat.add_0_r in Ha.
  split; [|split].
  - unfold data_of. rewrite filter_app, fmap_app. exact Ha.
  - cbn [ext_lba_base set_boot_sectors]. rewrite Hb5, Hb4. done.
  - cbn [boot_sectors set_boot_sectors]. rewrite Hbs5, Hbs4. cbn [boot_sectors s3 set_base]. rewrite Hbs2, Hbs1.
    do 2 case_bool_decide; lia.
Qed.

(** ** Properties *)

(** A disk with up to three primary partitions and an extended partition
    with a chain of up to eight logical ones, each in front of the link to the
    next: the scan ends and records exactly these partitions, each where its table
    entry says, the primary ones in [prim_parts], the logical ones in
    [logic_parts], and lists them in the order they are found. The boot sectors it
    read are freed, all but the one of an eighth logical partition. *)
Theorem partition_scan_correct fuel s ps1 e ps2 rs :
  fresh_scan s → ext_lba_base s = 0 → 1 ≤ bd_size →
  partition_table (bd_sector (sdev s) 0) = ps1 ++ e :: ps2 →
  fs_type e = 5 → Forall (λ p, fs_type p ≠ 5) ps1 → Forall (λ p, fs_type p ≠ 5) ps2 →
  0 < entry_start_lba e < 2 ^ 31 →
  chain (bd_sector (sdev s)) (entry_start_lba e) (entry_start_lba e) rs →
  (length (data_of (ps1 ++ ps2)) ≤ 3)%nat → (length rs ≤ 8)%nat → (length rs < fuel)%nat →
  ∃ s', partition_scan fuel s 0 = Ok s' ∧
    regions (p_no s') (prim_parts s') = entry_region 0 <$> data_of (ps1 ++ ps2) ∧
    regions (l_no s') (logic_parts s') = rs ∧
    partition_list s' = partition_list s ++ (prim <$> seq 0 (length (data_of ps1))) ++
      (logic <$> seq 0 (length rs)) ++
      (prim <$> seq (length (data_of ps1)) (length (data_of ps2))) ∧
    boot_sectors s' = boot_sectors s + (if bool_decide (length rs = 8%nat) then 1 else 0).
Proof.
  intros Hf Hb Hsz Htab He H1 H2 Hst Hc Hn Hrs Hfu. pose proof Hf as (_ & Hp0 & Hl0 & _).
  destruct (partition_scan_spec fuel s ps1 e ps2 rs Hf Hb Hsz Htab He H1 H2 Hst Hc Hn Hrs Hfu)
    as (s' & Heq & (_ & _ & Hrp & Hrl & Hr & _) & _ & Hbs).
  rewrite Hp0 in Hrp. rewrite Hl0 in Hrl. exists s'. split; [done|]. split; [done|]. split; [done|]. split; [|done]. by rewrite Hr.
Qed.

(** Four primary partitions, as many as a partition table and
    [prim_parts] hold, stop the kernel: the counter is tested after it was
    increased. *)
Theorem four_primaries_panic fuel s :
  fresh_scan s → 1 ≤ bd_size → Forall holds_data (partition_table (bd_sector (sdev s) 0)) →
  partition_scan (S fuel) s 0 = Panic.
Proof.
  intros (Hok & Hp0 & Hl0 & Hlp & Hll) Hsz Hd.
  destruct (scan_mbr fuel s Hok Hsz) as (s1 & Ha1 & _ & _ & ->).
  pose proof Ha1 as ((Hlp1 & _) & (Hpn1 & _) & _ & _ & _ & Hok1 & _). cbn in Hpn1.
  unfold partition_table in *. cbn [fmap list_fmap] in *.
  set (p0 := table_entry _ 0) in *. set (p1 := table_entry _ 1) in *.
  set (p2 := table_entry _ 2) in *. set (p3 := table_entry _ 3) in *.
  rewrite !Forall_cons in Hd. destruct Hd as (H0 & H1 & H2 & H3 & _).
  destruct (scan_primaries (partition_scan fuel) [p0; p1; p2] [p3] s1) as (s2 & Hs2 & Ha2 & _);
    [repeat constructor; apply H0 || apply H1 || apply H2|unfold data_of; rewrite !filter_cons_True by done; cbn; lia|lia|done|].
  cbn [app] in Hs2. rewrite Hs2. cbn [scan_entries]. destruct (data_type p3 H3) as [-> ->].
  pose proof Ha2 as ((Hlp2 & _) & (Hpn2 & _) & _).
  unfold data_of in Hpn2. rewrite !filter_cons_True in Hpn2 by done. cbn in Hpn2.
  change (0 =? 0) with true. cbv iota. unfold add_primary. rewrite bool_decide_eq_true_2 by lia. cbn [p_no].
  by rewrite bool_decide_eq_false_2 by lia.
Qed.

(** [ext_lba_base] is never reset. When an earlier disk had its extended
    partition at [b], the chain of this disk, correct and starting at [a], is
    looked for at [a + b]: with an empty sector there the scan succeeds and none of
    the logical partitions is found. *)
Theorem second_disk_chain_missed fuel s e e1 e2 e3 rs b :
  fresh_scan s → ext_lba_base s = b → 0 < b → 1 ≤ bd_size →
  partition_table (bd_sector (sdev s) 0) = [e; e1; e2; e3] →
  fs_type e = 5 → unused e1 → unused e2 → unused e3 → 0 < entry_start_lba e →
  chain (bd_sector (sdev s)) (entry_start_lba e) (entry_start_lba e) rs →
  entry_start_lba e + b < bd_size → bd_size ≤ 2 ^ 32 →
  Forall unused (partition_table (bd_sector (sdev s) (entry_start_lba e + b))) →
  (1 ≤ length rs)%nat ∧ ∃ s', partition_scan (S (S fuel)) s 0 = Ok s' ∧ l_no s' = 0%nat ∧
    partition_list s' = partition_list s.
Proof.
  intros (Hok & Hp0 & Hl0 & Hlp & Hll) Hb Hb0 Hsz Htab He He1 He2 He3 Hst Hc Hin Hsz2 Hun.
  split; [destruct Hc; cbn; lia|].
  destruct (scan_mbr (S fuel) s Hok Hsz) as (s1 & Ha1 & Hb1 & Hbs1 & ->). rewrite Htab. cbn [scan_entries].
  rewrite He, Hb1, Hb. change (5 =? 5) with true.
  replace (truth b) with true by (unfold truth; zcase; [lia|done]). cbv iota.
  rewrite u32_small by lia. pose proof Ha1 as (_ & (_ & Hln) & _ & _ & Hpl & Hok1 & Hs1).
  rewrite app_nil_r in Hpl. cbn in Hln.
  cbn [partition_scan sdev set_boot_sectors].
  destruct (bd_read_ok (sdev s1) (entry_start_lba e + b) 1 Hok1) as (d & -> & Hokd & Hd); [lia|lia|lia|].
  change (Z.to_nat 1) with 1%nat. rewrite sectors_one, Hs1. ocbn.
  assert (∀ (recur : scan D → Z → outcome (scan D)) lba ps x, Forall unused ps → scan_entries recur lba ps x = Ok (false, x)) as Hskip.
  { intros recur lba ps x. induction 1; [done|]. by rewrite scan_unused. }
  rewrite Hskip by done. ocbn. rewrite He1, He2, He3. change (0 =? 5) with false. change (truth 0) with false.
  ocbn. eexists. split; [done|]. cbn. split; [lia|done].
Qed.
End spec.

(** ** A disk *)
Module PartitionExample.
Import RamDisk.

(** Boot sectors with the given entries. *)
Definition entry_bytes (p : partition_table_entry) : list Z :=
  [0; 0; 0; 0; fs_type p; 0; 0; 0] ++ le32_bytes (entry_start_lba p) ++ le32_bytes (entry_sec_cnt p).
Definition boot (ps : list partition_table_entry) : list Z := replicate 446 0 ++ (ps ≫= entry_bytes).

Definition mbr1 : list partition_table_entry :=
  [PartitionTableEntry 131 1 9; PartitionTableEntry 5 10 30; PartitionTableEntry 131 50 7; PartitionTableEntry 0 0 0].
Definition disk1 : ramdisk := λ l,
  if l =? 0 then boot mbr1
  else if l =? 10 then boot [PartitionTableEntry 102 1 9; PartitionTableEntry 5 10 20]
  else if l =? 20 then boot [PartitionTableEntry 102 2 8]
  else [].
Definition no_part : partition := Partition 0 0 [].
Definition start (base : Z) (d : ramdisk) : scan ramdisk :=
  Scan [115; 100; 98] (replicate 4 no_part) (replicate 8 no_part) base 0 0 [] 0 d.

Definition free_entry : partition_table_entry := PartitionTableEntry 0 0 0.

Lemma disk1_chain : chain (bd_sector (disk1 : ramdisk)) 10 10 [(11, 9); (22, 8)].
Proof.
  apply (chain_link (D := ramdisk) _ 10 10 (PartitionTableEntry 102 1 9) (PartitionTableEntry 5 10 20)
    free_entry free_entry); try done.
  apply (chain_last (D := ramdisk) _ 10 20 (PartitionTableEntry 102 2 8) free_entry free_entry free_entry); done.
Qed.

Lemma partition_scan_correct_witness :
  ∃ s', partition_scan 9 (start 0 disk1) 0 = Ok s' ∧
    regions (p_no s') (prim_parts s') = [(1, 9); (50, 7)] ∧
    regions (l_no s') (logic_parts s') = [(11, 9); (22, 8)] ∧
    partition_list s' = [prim 0; logic 0; logic 1; prim 1].
Proof.
  destruct (partition_scan_correct 9 (start 0 disk1) [PartitionTableEntry 131 1 9] (PartitionTableEntry 5 10 30)
    [PartitionTableEntry 131 50 7; free_entry] [(11, 9); (22, 8)]) as (s' & Hs & Hp & Hl & Hr & _).
  - by repeat split.
  - done.
  - done.
  - vm_compute; reflexivity.
  - done.
  - by repeat constructor.
  - by repeat constructor.
  - done.
  - exact disk1_chain.
  - vm_compute. lia.
  - cbn. lia.
  - cbn. lia.
  - exists s'. split; [exact Hs|]. split; [rewrite Hp; vm_compute; reflexivity|]. split; [exact Hl|].
    rewrite Hr. vm_compute. reflexivity.
Defined.

Definition disk4 : ramdisk := λ l,
  if l =? 0 then boot (replicate 4 (PartitionTableEntry 131 1 9)) else [].

Lemma four_primaries_panic_witness : partition_scan 1 (start 0 disk4) 0 = Panic.
Proof.
  apply (four_primaries_panic 0 (start 0 disk4)); [repeat split|done|].
  vm_compute. by repeat constructor.
Defined.

Definition disk2 : ramdisk := λ l,
  if l =? 0 then boot [PartitionTableEntry 5 20 30] else if l =? 20 then boot [PartitionTableEntry 102 1 9] else [].

Lemma second_disk_chain_missed_witness :
  ∃ s', partition_scan 2 (start 10 disk2) 0 = Ok s' ∧ l_no s' = 0%nat.
Proof.
  destruct (second_disk_chain_missed 0 (start 10 disk2) (PartitionTableEntry 5 20 30) free_entry
    free_entry free_entry [(21, 9)] 10) as (_ & s' & Hs & Hl & _).
  - by repeat split.
  - done.
  - lia.
  - by vm_compute.
  - vm_compute; reflexivity.
  - done.
  - done.
  - done.
  - done.
  - done.
  - apply (chain_last (D := ramdisk) _ 20 20 (PartitionTableEntry 102 1 9) free_entry free_entry free_entry); done.
  - done.
  - by vm_compute.
  - vm_compute. by repeat constructor.
  - exists s'. split; [exact Hs|exact Hl].
Defined.
End PartitionExample.
