(* ===== verification/FsState.v ===== *)
(** * fs/: the state of the file system

    The structures of the headers of fs/, the mounted partition [cur_part] and
    the tables the file system keeps in memory. Buffers are lists of bytes,
    structures records; an [inode] or a [dir] is an object with an address
    because several tables point to it. The disk is a [BlockDevice].

    [sys_malloc] may return [NULL] at any call: [nulls] says at which of the calls
    to come it does. *)

From stdpp Require Import base numbers list gmap.
From Stdlib Require Import ZArith Lia.
From S2P Require Import Prelude Bitmap Block.

Definition MAX_FILES_PER_PART : Z := 4096.
Definition BITS_PER_SECTOR : Z := 4096.
Definition SECTOR_SIZE : Z := 512.
Definition BLOCK_SIZE : Z := SECTOR_SIZE.
Definition MAX_PATH_LEN : Z := 512.
Definition MAX_FILE_NAME_LEN : Z := 16.
Definition MAX_FILE_OPEN : Z := 32.

(** [enum file_types] and [enum oflags] *)
Definition FT_UNKNOWN : Z := 0.
Definition FT_REGULAR : Z := 1.
Definition FT_DIRECTORY : Z := 2.
Definition O_RDONLY : Z := 0.
Definition O_WRONLY : Z := 1.
Definition O_RDWR : Z := 2.
Definition O_CREAT : Z := 4.
(** [enum whence] *)
Definition SEEK_SET : Z := 1.
Definition SEEK_CUR : Z := 2.
Definition SEEK_END : Z := 3.

Record super_block := SuperBlock {
  magic : Z;
  sb_sec_cnt : Z;
  inode_cnt : Z;
  part_lba_base : Z;
  block_bitmap_lba : Z;
  block_bitmap_sects : Z;
  inode_bitmap_lba : Z;
  inode_bitmap_sects : Z;
  inode_table_lba : Z;
  inode_table_sects : Z;
  data_start_lba : Z;
  root_inode_no : Z;
  dir_entry_size : Z
}.

Record inode := Inode {
  i_no : Z;
  i_size : Z;
  i_open_cnts : Z;
  write_deny : Z;
  i_sectors : list Z
}.

Record dir_entry := DirEntry {
  filename : list Z;
  de_i_no : Z;
  f_type : Z
}.

Record dir := Dir {
  d_inode : Z;
  dir_pos : Z;
  dir_buf : list Z
}.

Record file := File {
  fd_pos : Z;
  fd_flag : Z;
  fd_inode : Z
}.

Inductive bitmap_type := INODE_BITMAP | BLOCK_BITMAP.

(** [struct partition] once it is mounted; [open_inodes] holds the addresses of
    the inodes. *)
Record mounted := Mounted {
  m_start_lba : Z;
  m_sec_cnt : Z;
  sb : super_block;
  block_bitmap : bitmap;
  inode_bitmap : bitmap;
  open_inodes : list Z
}.

Section state.
Context {D : Type} `{BlockDevice D}.

Record fs := Fs {
  cur_part : mounted;
  inodes : gmap Z inode;
  dirs : gmap Z dir;
  file_table : list file;
  fd_table : list Z;
  cwd_inode_nr : Z;
  live : gset Z;
  nulls : list bool;
  disk : D
}.

Definition set_part (s : fs) (p : mounted) : fs :=
  Fs p (inodes s) (dirs s) (file_table s) (fd_table s) (cwd_inode_nr s) (live s) (nulls s) (disk s).
Definition set_inodes (s : fs) (i : gmap Z inode) : fs :=
  Fs (cur_part s) i (dirs s) (file_table s) (fd_table s) (cwd_inode_nr s) (live s) (nulls s) (disk s).
Definition set_dirs (s : fs) (d : gmap Z dir) : fs :=
  Fs (cur_part s) (inodes s) d (file_table s) (fd_table s) (cwd_inode_nr s) (live s) (nulls s) (disk s).
Definition set_file_table (s : fs) (t : list file) : fs :=
  Fs (cur_part s) (inodes s) (dirs s) t (fd_table s) (cwd_inode_nr s) (live s) (nulls s) (disk s).
Definition set_fd_table (s : fs) (t : list Z) : fs :=
  Fs (cur_part s) (inodes s) (dirs s) (file_table s) t (cwd_inode_nr s) (live s) (nulls s) (disk s).
Definition set_heap (s : fs) (l : gset Z) (n : list bool) : fs :=
  Fs (cur_part s) (inodes s) (dirs s) (file_table s) (fd_table s) (cwd_inode_nr s) l n (disk s).
Definition set_disk (s : fs) (d : D) : fs :=
  Fs (cur_part s) (inodes s) (dirs s) (file_table s) (fd_table s) (cwd_inode_nr s) (live s) (nulls s) d.
Definition set_block_bitmap (s : fs) (b : bitmap) : fs :=
  let p := cur_part s in
  set_part s (Mounted (m_start_lba p) (m_sec_cnt p) (sb p) b (inode_bitmap p) (open_inodes p)).
Definition set_inode_bitmap (s : fs) (b : bitmap) : fs :=
  let p := cur_part s in
  set_part s (Mounted (m_start_lba p) (m_sec_cnt p) (sb p) (block_bitmap p) b (open_inodes p)).
Definition set_open_inodes (s : fs) (l : list Z) : fs :=
  let p := cur_part s in
  set_part s (Mounted (m_start_lba p) (m_sec_cnt p) (sb p) (block_bitmap p) (inode_bitmap p) l).

(** [&root_dir], the only [dir] that is not in the heap. *)
Definition root_dir : Z := 1.

(** The heap: a block that is in use has an address of its own. *)
Definition sys_malloc (s : fs) : Z * fs :=
  match nulls s with
  | true :: n => (NULL, set_heap s (live s) n)
  | _ => let p := fresh (live s ∪ {[NULL; root_dir]}) in (p, set_heap s ({[p]} ∪ live s) (tail (nulls s)))
  end.
Definition sys_free (s : fs) (p : Z) : outcome fs :=
  ASSERT (negb (p =? NULL));;
  Ok (set_heap s (live s ∖ {[p]}) (nulls s)).

(** The disk. *)
Definition ide_read (s : fs) (lba cnt : Z) : outcome (list Z * fs) :=
  '(bs, d) ← bd_read (disk s) lba cnt; Ok (bs, set_disk s d).
Definition ide_write (s : fs) (lba : Z) (bs : list Z) (cnt : Z) : outcome fs :=
  d ← bd_write (disk s) lba bs cnt; Ok (set_disk s d).

(** [inode->...] *)
Definition get_inode (s : fs) (p : Z) : outcome inode := from_option_fault (inodes s !! p).
Definition put_inode (s : fs) (p : Z) (i : inode) : fs := set_inodes s (<[p := i]> (inodes s)).
End state.
Arguments fs D : clear implicits.

(** ** Structures in a buffer *)

(** [memcpy(buf + off, bs, ...)] *)
Definition splice (buf : list Z) (off : Z) (bs : list Z) : list Z :=
  take (Z.to_nat off) buf ++ bs ++ drop (Z.to_nat off + length bs) buf.

Definition words_at (bs : list Z) (off : Z) (n : nat) : list Z :=
  (λ i, le32_at bs (off + 4 * i)) <$> seqZ 0 (Z.of_nat n).
Definition words_bytes (ws : list Z) : list Z := ws ≫= le32_bytes.

Definition set_i_size (i : inode) (n : Z) : inode := Inode (i_no i) n (i_open_cnts i) (write_deny i) (i_sectors i).
Definition set_open_cnts (i : inode) (n : Z) : inode := Inode (i_no i) (i_size i) n (write_deny i) (i_sectors i).
Definition set_write_deny (i : inode) (n : Z) : inode := Inode (i_no i) (i_size i) (i_open_cnts i) n (i_sectors i).
Definition set_sector (i : inode) (k : nat) (lba : Z) : inode :=
  Inode (i_no i) (i_size i) (i_open_cnts i) (write_deny i) (<[k := lba]> (i_sectors i)).

(** [inode->i_sectors[k]]; [i_sectors] has 13 elements. *)
Definition i_sector (i : inode) (k : Z) : outcome Z :=
  if 0 <=? k then from_option_fault (i_sectors i !! Z.to_nat k) else Fault.

(** ** Lemmas on buffers *)

Lemma splice_length buf off bs : 0 ≤ off → off + Z.of_nat (length bs) ≤ Z.of_nat (length buf) →
  length (splice buf off bs) = length buf.
Proof. intros H0 Hl. unfold splice. rewrite !length_app, length_take, length_drop. lia. Qed.

Lemma splice_bytes buf off bs : Forall is_byte buf → Forall is_byte bs → Forall is_byte (splice buf off bs).
Proof.
  intros Hb Hbs. unfold splice. apply Forall_app. split; [by apply Forall_take|].
  apply Forall_app. split; [done|]. by apply Forall_drop.
Qed.

Lemma splice_lookup buf off bs (k : nat) : 0 ≤ off → off + Z.of_nat (length bs) ≤ Z.of_nat (length buf) →
  splice buf off bs !! k =
    if decide (off ≤ Z.of_nat k < off + Z.of_nat (length bs)) then bs !! (k - Z.to_nat off)%nat else buf !! k.
Proof.
  intros H0 Hl. unfold splice. rewrite lookup_app.
  destruct (decide (Z.of_nat k < off)) as [Hk|Hk].
  - rewrite lookup_take_lt by lia. rewrite decide_False by lia.
    destruct (lookup_lt_is_Some_2 buf k) as [b Hb]; [lia|]. by rewrite Hb.
  - rewrite (lookup_ge_None_2 (take _ _)) by (rewrite length_take; lia). rewrite length_take, Nat.min_l by lia.
    case_decide as Hin.
    + rewrite lookup_app_l by lia. done.
    + rewrite lookup_app_r by lia. rewrite lookup_drop. f_equal. lia.
Qed.

Lemma byte_at_splice buf off bs k : 0 ≤ off → off + Z.of_nat (length bs) ≤ Z.of_nat (length buf) → 0 ≤ k →
  byte_at (splice buf off bs) k =
    if decide (off ≤ k < off + Z.of_nat (length bs)) then byte_at bs (k - off) else byte_at buf k.
Proof.
  intros H0 Hl Hk. unfold byte_at. rewrite splice_lookup by done.
  case_decide as H1; case_decide as H2; try lia. do 2 f_equal. lia.
Qed.

Lemma words_bytes_length ws : length (words_bytes ws) = (4 * length ws)%nat.
Proof.
  induction ws as [|w ws IH]; [done|].
  change (words_bytes (w :: ws)) with (le32_bytes w ++ words_bytes ws). rewrite length_app, IH. cbn. lia.
Qed.

Lemma words_bytes_ok ws : Forall is_byte (words_bytes ws).
Proof.
  induction ws as [|w ws IH]; [by constructor|].
  change (words_bytes (w :: ws)) with (le32_bytes w ++ words_bytes ws).
  apply Forall_app. split; [apply le32_bytes_ok|done].
Qed.

Lemma words_at_length bs off n : length (words_at bs off n) = n.
Proof. unfold words_at. rewrite length_fmap, length_seqZ. lia. Qed.

Lemma words_at_lookup bs off n (k : nat) : (k < n)%nat →
  words_at bs off n !! k = Some (le32_at bs (off + 4 * Z.of_nat k)).
Proof.
  intros Hk. unfold words_at. rewrite list_lookup_fmap, lookup_seqZ_lt by lia. done.
Qed.

Lemma words_at_range bs off n : Forall is_byte bs → Forall (λ w, 0 ≤ w < 2 ^ 32) (words_at bs off n).
Proof. intros Hb. apply Forall_fmap, Forall_true. intros i. by apply le32_at_range. Qed.

(** Reading words back. *)
Lemma le32_at_words ws (k : nat) w rest : Forall (λ w, 0 ≤ w < 2 ^ 32) ws → ws !! k = Some w →
  le32_at (words_bytes ws ++ rest) (4 * Z.of_nat k) = w.
Proof.
  revert k. induction ws as [|v ws IH]; intros k Hf Hk; [done|]. apply Forall_cons in Hf as [Hv Hf].
  change (words_bytes (v :: ws) ++ rest) with (le32_bytes v ++ (words_bytes ws ++ rest)).
  destruct k as [|k]; cbn in Hk.
  - injection Hk as ->. rewrite le32_at_app_l by (cbn; lia). by apply le32_at_bytes.
  - rewrite le32_at_app_r by (cbn; lia). rewrite <- (IH k Hf Hk). f_equal. cbn [length le32_bytes]. lia.
Qed.

Lemma words_at_bytes ws rest : Forall (λ w, 0 ≤ w < 2 ^ 32) ws →
  words_at (words_bytes ws ++ rest) 0 (length ws) = ws.
Proof.
  intros Hf. apply list_eq. intros k. destruct (decide (k < length ws)%nat) as [Hk|Hk].
  - rewrite words_at_lookup by done. destruct (lookup_lt_is_Some_2 ws k Hk) as [w Hw]. rewrite Hw.
    f_equal. by apply le32_at_words.
  - rewrite !lookup_ge_None_2; [done|lia|]. rewrite words_at_length. lia.
Qed.

Lemma le32_at_slice bs off k : 0 ≤ off → 0 ≤ k → le32_at (drop (Z.to_nat off) bs) k = le32_at bs (off + k).
Proof.
  intros Ho Hk. unfold le32_at, byte_at. rewrite !lookup_drop.
  replace (Z.to_nat off + Z.to_nat k)%nat with (Z.to_nat (off + k)) by lia.
  replace (Z.to_nat off + Z.to_nat (k + 1))%nat with (Z.to_nat (off + k + 1)) by lia.
  replace (Z.to_nat off + Z.to_nat (k + 2))%nat with (Z.to_nat (off + k + 2)) by lia.
  by replace (Z.to_nat off + Z.to_nat (k + 3))%nat with (Z.to_nat (off + k + 3)) by lia.
Qed.

(** ** Sectors of the disk *)

Section sectors_of.
Context {D : Type} `{BlockDevice D}.
Implicit Types (s : fs D) (d : D).

Definition same_sectors d d' : Prop := bd_ok d' ∧ ∀ l, bd_sector d' l = bd_sector d l.

Lemma ide_read1 s lba : bd_ok (disk s) → 0 ≤ lba < bd_size →
  ∃ d, ide_read s lba 1 = Ok (bd_sector (disk s) lba, set_disk s d) ∧ same_sectors (disk s) d.
Proof.
  intros Hok Hl. unfold ide_read. destruct (bd_read_ok (disk s) lba 1 Hok) as (d & -> & Hd & Hs); [lia..|].
  change (Z.to_nat 1) with 1%nat. rewrite sectors_one. by exists d.
Qed.

Lemma ide_write1 s lba bs : bd_ok (disk s) → 0 ≤ lba < bd_size → length bs = 512%nat → Forall is_byte bs →
  ∃ d, ide_write s lba bs 1 = Ok (set_disk s d) ∧ bd_ok d ∧
    ∀ l, bd_sector d l = if bool_decide (l = lba) then bs else bd_sector (disk s) l.
Proof.
  intros Hok Hl Hlen Hbs. unfold ide_write.
  destruct (bd_write_ok (disk s) lba bs 1 Hok) as (d & -> & Hd & Hs); [lia|lia|lia|lia|done|].
  exists d. split; [done|]. split; [done|]. intros l. rewrite Hs. case_bool_decide as H1.
  - rewrite bool_decide_eq_true_2 by lia. replace (l - lba) with 0 by lia. unfold nth_sector.
    change (Z.to_nat (0 * 512)) with 0%nat. by rewrite drop_0, take_ge by lia.
  - by rewrite bool_decide_eq_false_2 by lia.
Qed.

Lemma get_inode_ok s p i : inodes s !! p = Some i → get_inode s p = Ok i.
Proof. unfold get_inode. by intros ->. Qed.

(** Memory while no call fails. *)
Lemma sys_malloc_ok s : nulls s = [] →
  ∃ p, sys_malloc s = (p, set_heap s ({[p]} ∪ live s) []) ∧ (p ∉ live s) ∧ p ≠ NULL.
Proof.
  intros Hn. unfold sys_malloc. rewrite Hn. cbn. set (p := fresh _). exists p. split; [done|].
  pose proof (is_fresh (live s ∪ {[NULL; root_dir]})) as Hf. fold p in Hf. set_solver.
Qed.

Lemma sys_free_ok s p : p ≠ NULL → sys_free s p = Ok (set_heap s (live s ∖ {[p]}) (nulls s)).
Proof. intros Hp. unfold sys_free. by rewrite (proj2 (Z.eqb_neq p NULL)). Qed.
End sectors_of.
