(* ===== verification/FsAlloc.v ===== *)
(** * fs/file.c: bitmaps and descriptors

    Allocating inodes and blocks in the bitmaps of the partition, writing the
    bitmaps back, and the free slots of the file table and of the descriptor table
    of the running thread. *)

From stdpp Require Import base numbers list gmap.
From Stdlib Require Import ZArith Lia.
From S2P Require Import Prelude Bitmap Block FsState ThreadInit.

Section alloc.
Context {D : Type} `{BlockDevice D}.
Implicit Types (s : fs D).

Definition get_free_slot_in_global s : outcome Z :=
  fd_idx ← loop (Z.to_nat MAX_FILE_OPEN) (λ fd_idx,
    if fd_idx <? MAX_FILE_OPEN then
      f ← from_option_fault (file_table s !! Z.to_nat fd_idx);
      if fd_inode f =? NULL then Ok (inr fd_idx) else Ok (inl (fd_idx + 1))
    else Ok (inr fd_idx)) 3;
  if fd_idx =? MAX_FILE_OPEN then Ok (-1) else Ok fd_idx.

Definition pcb_fd_install s (globa_fd_idx : Z) : outcome (Z * fs D) :=
  '(local_fd_idx, s) ← loop (Z.to_nat MAX_FILES_OPEN_PER_PROC) (λ local_fd_idx,
    if local_fd_idx <? MAX_FILES_OPEN_PER_PROC then
      g ← from_option_fault (fd_table s !! Z.to_nat local_fd_idx);
      if g =? -1 then
        Ok (inr (local_fd_idx, set_fd_table s (<[Z.to_nat local_fd_idx := globa_fd_idx]> (fd_table s))))
      else Ok (inl (local_fd_idx + 1))
    else Ok (inr (local_fd_idx, s))) 3;
  if local_fd_idx =? MAX_FILES_OPEN_PER_PROC then Ok (-1, s) else Ok (local_fd_idx, s).

Definition inode_bitmap_alloc s : outcome (Z * fs D) :=
  bit_idx ← bitmap_scan (inode_bitmap (cur_part s)) 1;
  if bit_idx =? -1 then Ok (-1, s)
  else
    b ← bitmap_set (inode_bitmap (cur_part s)) bit_idx 1;
    Ok (bit_idx, set_inode_bitmap s b).

Definition block_bitmap_alloc s : outcome (Z * fs D) :=
  bit_idx ← bitmap_scan (block_bitmap (cur_part s)) 1;
  if bit_idx =? -1 then Ok (-1, s)
  else
    b ← bitmap_set (block_bitmap (cur_part s)) bit_idx 1;
    let s := set_block_bitmap s b in
    Ok (s32 (data_start_lba (sb (cur_part s)) + bit_idx), s).

(** The 512 bytes from [off] on of the array behind a bitmap. *)
Definition bitmap_block (b : bitmap) (off : Z) : outcome (list Z) :=
  if off + 512 <=? Z.of_nat (length (bits b)) then Ok (slice (bits b) off 512) else Fault.

Definition bitmap_sync s (bit_idx : Z) (btmp_type : bitmap_type) : outcome (fs D) :=
  let part := cur_part s in
  let off_sec := bit_idx / 4096 in
  let off_size := u32 (off_sec * BLOCK_SIZE) in
  match btmp_type with
  | INODE_BITMAP =>
      bs ← bitmap_block (inode_bitmap part) off_size;
      ide_write s (u32 (inode_bitmap_lba (sb part) + off_sec)) bs 1
  | BLOCK_BITMAP =>
      bs ← bitmap_block (block_bitmap part) off_size;
      ide_write s (u32 (block_bitmap_lba (sb part) + off_sec)) bs 1
  end.
End alloc.

(** ** Counting free bits *)

Lemma filter_same {A} (P Q : A → Prop) `{!∀ x, Decision (P x), !∀ x, Decision (Q x)} (l : list A) :
  (∀ x, x ∈ l → P x ↔ Q x) → filter P l = filter Q l.
Proof.
  induction l as [|x l IH]; intros Hl; [done|]. rewrite !filter_cons.
  assert (P x ↔ Q x) as Hx by (apply Hl; left). rewrite IH by (intros y Hy; apply Hl; by right).
  destruct (decide (P x)), (decide (Q x)); tauto.
Qed.

Definition free_bits (b : bitmap) : list Z := filter (λ i, bit b i = false) (seqZ 0 (nbits b)).
Definition n_free (b : bitmap) : nat := length (free_bits b).

Lemma n_free_pos b : (0 < n_free b)%nat → ∃ k, 0 ≤ k < nbits b ∧ bit b k = false.
Proof.
  unfold n_free, free_bits. destruct (filter _ _) as [|k l] eqn:E; cbn; [lia|]. intros _. exists k.
  assert (k ∈ k :: l) as Hk by left. rewrite <- E in Hk.
  apply list_elem_of_filter in Hk as [Hf Hin]. apply elem_of_seqZ in Hin. split; [lia|done].
Qed.

Lemma n_free_has b k : 0 ≤ k < nbits b → bit b k = false → (0 < n_free b)%nat.
Proof.
  intros Hk Hf. unfold n_free, free_bits. destruct (filter _ _) as [|x l] eqn:E; [|cbn; lia].
  assert (k ∈ filter (λ i, bit b i = false) (seqZ 0 (nbits b))) as Hin.
  { apply list_elem_of_filter. split; [done|]. apply elem_of_seqZ. lia. }
  rewrite E in Hin. by apply not_elem_of_nil in Hin.
Qed.

(** [b'] is [b] with bit [r] set. *)
Definition bit_set (b b' : bitmap) (r : Z) : Prop :=
  wf_bitmap b' ∧ btmp_bytes_len b' = btmp_bytes_len b ∧ length (bits b') = length (bits b) ∧
  ∀ j, 0 ≤ j → bit b' j = if bool_decide (j = r) then true else bit b j.

Lemma n_free_set b b' r : bit_set b b' r → 0 ≤ r < nbits b → bit b r = false → n_free b = S (n_free b').
Proof.
  intros (_ & Hlen & _ & Hbit) Hr Hf. unfold n_free, free_bits, nbits in *. rewrite Hlen.
  replace (seqZ 0 (btmp_bytes_len b * 8))
    with (seqZ 0 r ++ r :: seqZ (r + 1) (btmp_bytes_len b * 8 - r - 1)).
  - rewrite !filter_app, !filter_cons. rewrite decide_True by done. rewrite decide_False.
    2: { rewrite Hbit, bool_decide_eq_true_2 by lia. done. }
    assert (∀ a n, 0 ≤ a → (∀ i, a ≤ i < a + n → i ≠ r) →
      filter (λ i, bit b' i = false) (seqZ a n) = filter (λ i, bit b i = false) (seqZ a n)) as Hsame.
    { intros a n Ha Hne. apply filter_same. intros i Hi. apply elem_of_seqZ in Hi.
      rewrite Hbit, bool_decide_eq_false_2; [done| |lia]. by apply Hne. }
    rewrite !Hsame by (intros; lia). rewrite !length_app. cbn. lia.
  - replace (r :: seqZ (r + 1) (btmp_bytes_len b * 8 - r - 1)) with (seqZ (0 + r) (btmp_bytes_len b * 8 - r)).
    + rewrite <- seqZ_app by lia. f_equal. lia.
    + rewrite (seqZ_cons (0 + r)) by lia. rewrite Z.add_0_l. do 2 f_equal; lia.
Qed.

(** ** The layout of a partition *)

Section layout.
Context {D : Type} `{BlockDevice D}.
Implicit Types (s : fs D) (d : D) (m : mounted).

(** What [partition_format] lays out and [mount_partition] reads: the block
    bitmap, the inode bitmap, the inode table and the data one behind the other,
    on the disk. *)
Record layout_ok m : Prop := {
  lo_base : 0 ≤ block_bitmap_lba (sb m);
  lo_bbm : 0 ≤ block_bitmap_sects (sb m) ∧ block_bitmap_lba (sb m) + block_bitmap_sects (sb m) ≤ inode_bitmap_lba (sb m);
  lo_ibm : inode_bitmap_lba (sb m) + 1 ≤ inode_table_lba (sb m);
  lo_table : inode_table_lba (sb m) + 608 ≤ data_start_lba (sb m);
  lo_data : data_start_lba (sb m) + nbits (block_bitmap m) ≤ bd_size;
  lo_size : bd_size < 2 ^ 31;
  lo_part : data_start_lba (sb m) ≤ m_start_lba m + m_sec_cnt m < 2 ^ 32;
  lo_bwf : wf_bitmap (block_bitmap m);
  lo_blen : btmp_bytes_len (block_bitmap m) = block_bitmap_sects (sb m) * 512;
  lo_barr : Z.of_nat (length (bits (block_bitmap m))) = block_bitmap_sects (sb m) * 512;
  lo_iwf : wf_bitmap (inode_bitmap m);
  lo_ilen : btmp_bytes_len (inode_bitmap m) = 512;
  lo_iarr : length (bits (inode_bitmap m)) = 512%nat
}.

(** The bounds, for [lia]. *)
Lemma layout_bounds m : layout_ok m →
  0 ≤ block_bitmap_lba (sb m) ∧ 0 ≤ block_bitmap_sects (sb m) ∧
  block_bitmap_lba (sb m) + block_bitmap_sects (sb m) ≤ inode_bitmap_lba (sb m) ∧
  inode_bitmap_lba (sb m) + 1 ≤ inode_table_lba (sb m) ∧
  inode_table_lba (sb m) + 608 ≤ data_start_lba (sb m) ∧
  nbits (block_bitmap m) = block_bitmap_sects (sb m) * 4096 ∧
  data_start_lba (sb m) + nbits (block_bitmap m) ≤ bd_size ∧ bd_size < 2 ^ 31 ∧
  data_start_lba (sb m) ≤ m_start_lba m + m_sec_cnt m < 2 ^ 32.
Proof.
  intros []. unfold nbits in *. repeat match goal with H : _ ∧ _ |- _ => destruct H end. repeat split; lia.
Qed.

(** The number of the block at sector [l]. *)
Definition block_no m (l : Z) : Z := l - data_start_lba (sb m).
(** Sector [l] is a block of the data area. *)
Definition is_block m (l : Z) : Prop := 0 ≤ block_no m l < nbits (block_bitmap m).
Definition block_used m (l : Z) : bool := bit (block_bitmap m) (block_no m l).

(** Only the block bitmap of the partition changes. *)
Definition with_bitmap m (b : bitmap) : mounted :=
  Mounted (m_start_lba m) (m_sec_cnt m) (sb m) b (inode_bitmap m) (open_inodes m).

Lemma layout_set m b r : layout_ok m → bit_set (block_bitmap m) b r → layout_ok (with_bitmap m b).
Proof.
  intros [] (Hwf & Hl & Hn & _). constructor; cbn; unfold nbits in *; congruence || (try rewrite Hl; lia || done).
Qed.

(** [block_bitmap_alloc] takes the first free block. *)
Lemma block_bitmap_alloc_spec s : layout_ok (cur_part s) → (0 < n_free (block_bitmap (cur_part s)))%nat →
  ∃ lba b, block_bitmap_alloc s = Ok (lba, set_block_bitmap s b) ∧ is_block (cur_part s) lba ∧
    block_used (cur_part s) lba = false ∧ bit_set (block_bitmap (cur_part s)) b (block_no (cur_part s) lba) ∧
    data_start_lba (sb (cur_part s)) ≤ lba < bd_size.
Proof.
  intros Hlo Hn. unfold block_bitmap_alloc. pose proof (layout_bounds _ Hlo). pose proof (lo_bwf _ Hlo) as Hwf0.
  pose proof (wf_len _ Hwf0). destruct (bitmap_scan_one _ Hwf0 (n_free_pos _ Hn)) as (r & -> & Hr & Hf & _). ocbn.
  rewrite (proj2 (Z.eqb_neq r (-1))) by lia.
  destruct (bitmap_set_spec (block_bitmap (cur_part s)) r 1) as (b & -> & Hwf & Hbl & Hbn & Hb); [done| |by right|].
  { unfold nbits in Hr. lia. }
  ocbn. rewrite s32_small by (cbn; lia). cbn [cur_part set_block_bitmap set_part sb].
  exists (data_start_lba (sb (cur_part s)) + r), b. split; [done|].
  unfold is_block, block_used, block_no. replace (data_start_lba (sb (cur_part s)) + r - data_start_lba (sb (cur_part s))) with r by lia.
  split; [lia|]. split; [done|]. split; [split; [done|]; split; [done|]; split; [done|exact Hb]|lia].
Qed.

(** Sector [l] of the disk holds its part of the block bitmap. *)
Definition bitmap_sector m (l : Z) : list Z := slice (bits (block_bitmap m)) ((l - block_bitmap_lba (sb m)) * 512) 512.

(** [bitmap_sync] writes the sector of the bitmap with the given bit. *)
Lemma bitmap_sync_spec s k : layout_ok (cur_part s) → bd_ok (disk s) → 0 ≤ k < nbits (block_bitmap (cur_part s)) →
  ∃ d, bitmap_sync s k BLOCK_BITMAP = Ok (set_disk s d) ∧ bd_ok d ∧
    ∀ l, bd_sector d l =
      if bool_decide (l = block_bitmap_lba (sb (cur_part s)) + k / 4096) then bitmap_sector (cur_part s) l
      else bd_sector (disk s) l.
Proof.
  intros Hlo Hok Hk. pose proof (layout_bounds _ Hlo). pose proof (lo_barr _ Hlo). unfold bitmap_sync, bitmap_block.
  set (lba0 := block_bitmap_lba (sb (cur_part s))) in *. set (n := block_bitmap_sects (sb (cur_part s))) in *.
  assert (0 ≤ k / 4096 < n) as Hq by zdlia. pose proof (wf_int _ (lo_bwf _ Hlo)).
  rewrite (u32_small (k / 4096 * BLOCK_SIZE)), (u32_small (lba0 + k / 4096)) by (unfold BLOCK_SIZE, SECTOR_SIZE; lia).
  change BLOCK_SIZE with 512. rewrite (proj2 (Z.leb_le _ _)) by lia. ocbn.
  destruct (ide_write1 s (lba0 + k / 4096) (slice (bits (block_bitmap (cur_part s))) (k / 4096 * 512) 512))
    as (d & -> & Hd & Hs); [done|lia| | |].
  { unfold slice. rewrite length_take, length_drop. lia. }
  { apply Forall_take, Forall_drop, (wf_bytes _ (lo_bwf _ Hlo)). }
  exists d. split; [done|]. split; [done|]. intros l. rewrite Hs. case_bool_decide as Hl; [|done].
  unfold bitmap_sector. fold lba0. do 2 f_equal. lia.
Qed.
End layout.

(** ** A partition *)
Module FsExample.
Import RamDisk.

(** A partition of 5000 sectors at the start of an empty disk. The first block
    and inode belong to the root directory, block 1 to the file at address 100. *)
Definition bits0 (b : Z) : list Z := b :: replicate 511 0.
Definition sb0 : super_block := SuperBlock 425263896 5000 4096 0 2 1 3 1 4 608 612 0 24.
Definition part0 (open : list Z) : mounted :=
  Mounted 0 5000 sb0 (Bitmap 512 (bits0 3)) (Bitmap 512 (bits0 33)) open.
Definition abc : inode := Inode 5 3 2 0 (613 :: replicate 12 0).
Definition disk0 : ramdisk := λ l, if l =? 613 then [97; 98; 99] else [].
Definition fs0 : fs ramdisk :=
  Fs (part0 [100]) {[100 := abc]} ∅
    (replicate 3 (File 0 0 NULL) ++ [File 0 2 100; File 3 0 100] ++ replicate 27 (File 0 0 NULL))
    [0; 1; 2; 3; 4; -1; -1; -1] 0 {[100]} [] disk0.

Lemma wf0 b : 0 ≤ b < 256 → wf_bitmap (Bitmap 512 (bits0 b)).
Proof.
  intros Hb. constructor; [|done|done]. constructor; [done|]. by apply Forall_replicate.
Qed.

Lemma layout0 open : layout_ok (part0 open).
Proof. constructor; try (by apply wf0); cbn; try lia; done. Qed.
End FsExample.
