(* ===== verification/Inode.v ===== *)
(** * fs/inode.c: inodes

    Reading and writing inodes in the inode table, the list of open inodes, and
    giving the blocks of an inode back. *)

From stdpp Require Import base numbers list gmap.
From Stdlib Require Import ZArith Lia.
From S2P Require Import Prelude Bitmap Block FsState FsAlloc.

(** [sizeof(struct inode)]: four words, 13 sectors and the two pointers of
    [inode_tag]. *)
Definition sizeof_inode : Z := 76.

(** An inode in the inode table; [inode_tag] is [NULL] there. *)
Definition inode_bytes (i : inode) : list Z :=
  le32_bytes (i_no i) ++ le32_bytes (i_size i) ++ le32_bytes (i_open_cnts i) ++
  le32_bytes (write_deny i) ++ words_bytes (i_sectors i) ++ replicate 8 0.
Definition inode_at (bs : list Z) (off : Z) : inode :=
  Inode (le32_at bs off) (le32_at bs (off + 4)) (le32_at bs (off + 8)) (le32_at bs (off + 12))
    (words_at bs (off + 16) 13).

Record inode_position := InodePosition {
  two_sec : bool;
  sec_lba : Z;
  off_size : Z
}.

Section inode_ops.
Context {D : Type} `{BlockDevice D}.
Implicit Types (s : fs D).

Definition inode_locate (part : mounted) (inode_no : Z) : outcome inode_position :=
  ASSERT (inode_no <? 4096);;
  let off_size := u32 (inode_no * sizeof_inode) in
  let off_sec := off_size / 512 in
  let off_size_in_sec := off_size mod 512 in
  let left_in_sec := 512 - off_size_in_sec in
  Ok (InodePosition (left_in_sec <? sizeof_inode) (u32 (inode_table_lba (sb part) + off_sec)) off_size_in_sec).

Definition inode_sync s (i : inode) : outcome (fs D) :=
  let part := cur_part s in
  let inode_no := u8 (i_no i) in
  pos ← inode_locate part inode_no;
  ASSERT (sec_lba pos <=? u32 (m_start_lba part + m_sec_cnt part));;
  let pure_inode := set_write_deny (set_open_cnts i 0) 0 in
  if two_sec pos then
    '(inode_buf, s) ← ide_read s (sec_lba pos) 2;
    ide_write s (sec_lba pos) (splice inode_buf (off_size pos) (inode_bytes pure_inode)) 2
  else
    '(inode_buf, s) ← ide_read s (sec_lba pos) 1;
    ide_write s (sec_lba pos) (splice inode_buf (off_size pos) (inode_bytes pure_inode)) 1.

(** The search through the open inodes. *)
Fixpoint find_open (heap : gmap Z inode) (l : list Z) (inode_no : Z) : outcome (option Z) :=
  match l with
  | [] => Ok None
  | p :: l =>
      i ← from_option_fault (heap !! p);
      if i_no i =? inode_no then Ok (Some p) else find_open heap l inode_no
  end.

Definition inode_open s (inode_no : Z) : outcome (Z * fs D) :=
  found ← find_open (inodes s) (open_inodes (cur_part s)) inode_no;
  match found with
  | Some p =>
      i ← get_inode s p;
      Ok (p, put_inode s p (set_open_cnts i (u32 (i_open_cnts i + 1))))
  | None =>
      pos ← inode_locate (cur_part s) inode_no;
      let '(inode_found, s) := sys_malloc s in
      let '(inode_buf, s) := sys_malloc s in
      let cnt := if two_sec pos then 2 else 1 in
      if (inode_found =? NULL) || (inode_buf =? NULL) then Fault
      else
        '(bs, s) ← ide_read s (sec_lba pos) cnt;
        let i := inode_at bs (off_size pos) in
        let s := set_open_inodes s (inode_found :: open_inodes (cur_part s)) in
        let s := put_inode s inode_found (set_open_cnts i 1) in
        s ← sys_free s inode_buf;
        Ok (inode_found, s)
  end.

Definition inode_close s (p : Z) : outcome (fs D) :=
  i ← get_inode s p;
  let i := set_open_cnts i (u32 (i_open_cnts i - 1)) in
  let s := put_inode s p i in
  if i_open_cnts i =? 0 then
    let s := set_open_inodes s (filter (λ q, q ≠ p) (open_inodes (cur_part s))) in
    s ← sys_free s p;
    Ok (set_inodes s (delete p (inodes s)))
  else Ok s.

Definition inode_delete s (inode_no : Z) : outcome (fs D) :=
  ASSERT (inode_no <? 4096);;
  let part := cur_part s in
  pos ← inode_locate part inode_no;
  ASSERT (sec_lba pos <=? u32 (m_start_lba part + m_sec_cnt part));;
  let cnt := if two_sec pos then 2 else 1 in
  '(inode_buf, s) ← ide_read s (sec_lba pos) cnt;
  ide_write s (sec_lba pos) (splice inode_buf (off_size pos) (replicate (Z.to_nat sizeof_inode) 0)) cnt.

(** The addresses of all blocks: the twelve direct ones and, when there is an
    indirect block table, its 128 words. *)
Definition read_all_blocks s (i : inode) : outcome (list Z * fs D) :=
  let direct := take 12 (i_sectors i) in
  table ← i_sector i 12;
  if truth table then
    '(bs, s) ← ide_read s table 1;
    Ok (direct ++ words_at bs 0 128, s)
  else Ok (direct ++ replicate 128 0, s).

(** Giving the block at [lba] back. *)
Definition release_block s (lba : Z) : outcome (fs D) :=
  let block_bitmap_idx := u32 (lba - data_start_lba (sb (cur_part s))) in
  ASSERT (0 <? block_bitmap_idx);;
  b ← bitmap_set (block_bitmap (cur_part s)) block_bitmap_idx 0;
  bitmap_sync (set_block_bitmap s b) block_bitmap_idx BLOCK_BITMAP.

Fixpoint release_blocks s (l : list Z) : outcome (fs D) :=
  match l with
  | [] => Ok s
  | lba :: l =>
      if truth lba then s ← release_block s lba; release_blocks s l else release_blocks s l
  end.

Definition inode_release s (inode_no : Z) : outcome (fs D) :=
  '(p, s) ← inode_open s inode_no;
  i ← get_inode s p;
  ASSERT (i_no i =? inode_no);;
  '(all_blocks, s) ← read_all_blocks s i;
  table ← i_sector i 12;
  s ← (if truth table then release_block s table else Ok s);
  s ← release_blocks s (take (if truth table then 140 else 12) all_blocks);
  b ← bitmap_set (inode_bitmap (cur_part s)) inode_no 0;
  s ← bitmap_sync (set_inode_bitmap s b) inode_no INODE_BITMAP;
  let '(io_buf, s) := sys_malloc s in
  if io_buf =? NULL then Fault
  else
    s ← inode_delete s inode_no;
    s ← sys_free s io_buf;
    inode_close s p.

Definition inode_init (inode_no : Z) : inode := Inode inode_no 0 0 0 (replicate 13 0).
End inode_ops.

(** ** Inodes as bytes *)

(** The word and the inode in the bytes [f] from [o] on. *)
Definition le32_from (f : Z → Z) (o : Z) : Z := f o + f (o + 1) * 2 ^ 8 + f (o + 2) * 2 ^ 16 + f (o + 3) * 2 ^ 24.
Definition inode_from (f : Z → Z) (o : Z) : inode :=
  Inode (le32_from f o) (le32_from f (o + 4)) (le32_from f (o + 8)) (le32_from f (o + 12))
    ((λ k, le32_from f (o + 16 + 4 * k)) <$> seqZ 0 13).

Lemma inode_at_from bs off : inode_at bs off = inode_from (byte_at bs) off.
Proof. done. Qed.

Lemma le32_from_ext f g o o' : (∀ j, 0 ≤ j < 4 → f (o + j) = g (o' + j)) → le32_from f o = le32_from g o'.
Proof.
  intros Hj. unfold le32_from. rewrite <- (Z.add_0_r o), <- (Z.add_0_r o') at 1. rewrite !Hj by lia. done.
Qed.

Lemma inode_from_ext f g o o' : (∀ j, 0 ≤ j < 76 → f (o + j) = g (o' + j)) → inode_from f o = inode_from g o'.
Proof.
  intros Hj. unfold inode_from.
  assert (∀ a, 0 ≤ a ≤ 72 → le32_from f (o + a) = le32_from g (o' + a)) as Hw.
  { intros a Ha. apply le32_from_ext. intros j Hj'. rewrite <- !Z.add_assoc. apply Hj. lia. }
  f_equal; try apply Hw; try lia.
  - rewrite <- (Z.add_0_r o), <- (Z.add_0_r o'). apply Hw. lia.
  - apply list_fmap_ext. intros k i Hi. apply lookup_seqZ in Hi as [-> Hk].
    rewrite <- !(Z.add_assoc _ 16). apply Hw. lia.
Qed.

Definition word (w : Z) : Prop := 0 ≤ w < 2 ^ 32.
(** An inode whose fields are words. *)
Record inode_ok (i : inode) : Prop := {
  io_no : word (i_no i);
  io_size : word (i_size i);
  io_cnts : word (i_open_cnts i);
  io_deny : word (write_deny i);
  io_sectors : Forall word (i_sectors i);
  io_len : length (i_sectors i) = 13%nat
}.

Lemma inode_bytes_length i : length (i_sectors i) = 13%nat → length (inode_bytes i) = 76%nat.
Proof. intros Hl. unfold inode_bytes. rewrite !length_app, words_bytes_length, Hl. done. Qed.

Lemma inode_bytes_ok i : Forall is_byte (inode_bytes i).
Proof.
  unfold inode_bytes. repeat (apply Forall_app; split); try apply le32_bytes_ok; [apply words_bytes_ok|].
  by apply Forall_replicate.
Qed.

(** An inode reads back as what was written. *)
Lemma inode_roundtrip i : inode_ok i → inode_from (byte_at (inode_bytes i)) 0 = i.
Proof.
  intros []. change (inode_at (inode_bytes i) 0 = i). unfold inode_at, inode_bytes.
  destruct i as [no size cnts deny secs]; cbn [i_no i_size i_open_cnts write_deny i_sectors] in *.
  assert (∀ w rest, word w → le32_at (le32_bytes w ++ rest) 0 = w) as Hw.
  { intros w rest Hw. rewrite le32_at_app_l by (cbn; lia). by apply le32_at_bytes. }
  f_equal.
  - by apply Hw.
  - rewrite le32_at_app_r by (cbn; lia). by apply Hw.
  - do 2 rewrite le32_at_app_r by (cbn; lia). by apply Hw.
  - do 3 rewrite le32_at_app_r by (cbn; lia). by apply Hw.
  - rewrite <- (words_at_bytes secs (replicate 8 0)) at 2 by done. rewrite io_len0.
    unfold words_at. apply list_fmap_ext. intros k j Hj. apply lookup_seqZ in Hj as [-> Hk].
    do 4 rewrite le32_at_app_r by (cbn; lia). f_equal. cbn. lia.
Qed.

(** ** The inode table *)

Section table.
Context {D : Type} `{BlockDevice D}.
Implicit Types (s : fs D) (d : D) (m : mounted).

(** Byte [k] of the inode table on the disk [d]. *)
Definition table_byte m d (k : Z) : Z := byte_at (bd_sector d (inode_table_lba (sb m) + k / 512)) (k mod 512).
(** The inode with number [n] on the disk. *)
Definition stored_inode m d (n : Z) : inode := inode_from (table_byte m d) (n * 76).

Lemma inode_locate_spec m n : layout_ok m → 0 ≤ n < 4096 →
  inode_locate m n = Ok (InodePosition (bool_decide (436 < (n * 76) mod 512))
    (inode_table_lba (sb m) + n * 76 / 512) ((n * 76) mod 512)).
Proof.
  intros Hlo Hn. pose proof (layout_bounds _ Hlo). unfold inode_locate. rewrite (proj2 (Z.ltb_lt n 4096)) by lia. ocbn.
  change sizeof_inode with 76.
  rewrite !u32_small by zdlia. do 2 f_equal. zcase; case_bool_decide; done || lia.
Qed.

(** Reading the sectors of inode [n], putting [bs] in its place and writing them
    back. *)
Lemma rewrite_inode s n bs cnt : layout_ok (cur_part s) → bd_ok (disk s) → 0 ≤ n < 4096 →
  length bs = 76%nat → Forall is_byte bs → cnt = (if bool_decide (436 < (n * 76) mod 512) then 2 else 1) →
  let lba := inode_table_lba (sb (cur_part s)) + n * 76 / 512 in
  ∃ d, ('(buf, s) ← ide_read s lba cnt; ide_write s lba (splice buf ((n * 76) mod 512) bs) cnt) = Ok (set_disk s d) ∧
    bd_ok d ∧
    (∀ k, 0 ≤ k < 608 * 512 → table_byte (cur_part s) d k =
       if decide (n * 76 ≤ k < n * 76 + 76) then byte_at bs (k - n * 76) else table_byte (cur_part s) (disk s) k) ∧
    ∀ l, l < inode_table_lba (sb (cur_part s)) ∨ inode_table_lba (sb (cur_part s)) + 608 ≤ l →
      bd_sector d l = bd_sector (disk s) l.
Proof.
  intros Hlo Hok Hn Hlen Hbs Hcnt lba. pose proof (layout_bounds _ Hlo).
  set (t := inode_table_lba (sb (cur_part s))) in *. set (off := (n * 76) mod 512) in *.
  assert (1 ≤ cnt ≤ 2 ∧ off + 76 ≤ cnt * 512 ∧ 0 ≤ off ∧ lba + cnt ≤ t + 608 ∧ t ≤ lba ∧ (lba - t) * 512 + off = n * 76)
    as (Hc & Hoff & Hoff0 & Hend & Hbeg & Hpos).
  { unfold lba, off in *. subst cnt. case_bool_decide; zdlia. }
  clear Hcnt. unfold ide_read at 1. destruct (bd_read_ok (disk s) lba cnt Hok) as (d1 & -> & Hok1 & Hs1); [lia|lia|lia|].
  ocbn. unfold ide_write. cbn [disk set_disk]. set (buf := sectors _ _ _).
  assert (length buf = Z.to_nat (cnt * 512)) as Hbl.
  { unfold buf. rewrite sectors_length by (intros; apply bd_sector_len). lia. }
  destruct (bd_write_ok d1 lba (splice buf off bs) cnt Hok1) as (d2 & -> & Hok2 & Hs2); [lia|lia|lia| | |].
  { rewrite splice_length by lia. lia. }
  { apply splice_bytes; [|done]. apply sectors_Forall. intros; apply bd_sector_bytes. }
  exists d2. split; [done|]. split; [done|]. split.
  - intros k Hk. unfold table_byte. fold t. rewrite Hs2, Hs1. case_bool_decide as Hin.
    + rewrite byte_at_nth_sector by zdlia. rewrite byte_at_splice by (rewrite ?Hbl; zdlia).
      replace ((t + k / 512 - lba) * 512 + k mod 512) with (k - (lba - t) * 512) by zdlia.
      case_decide as H1; case_decide as H2; try (rewrite Hlen in *; lia).
      * f_equal. lia.
      * unfold buf. rewrite byte_at_sectors by (first [intros; apply bd_sector_len | zdlia]). f_equal.
        -- f_equal. zdlia.
        -- zdlia.
    + rewrite decide_False by zdlia. done.
  - intros l Hl. rewrite Hs2, bool_decide_eq_false_2 by lia. apply Hs1.
Qed.

(** [s] with the inode [i] in place [n] of the table. *)
Definition inode_stored m d d' n (i : inode) : Prop :=
  bd_ok d' ∧ stored_inode m d' n = i ∧
  (∀ n', 0 ≤ n' < 4096 → n' ≠ n → stored_inode m d' n' = stored_inode m d n') ∧
  ∀ l, l < inode_table_lba (sb m) ∨ inode_table_lba (sb m) + 608 ≤ l → bd_sector d' l = bd_sector d l.

Lemma table_byte_stored m d d' n bs i : 0 ≤ n < 4096 → bd_ok d' →
  (∀ k, 0 ≤ k < 608 * 512 → table_byte m d' k =
     if decide (n * 76 ≤ k < n * 76 + 76) then byte_at bs (k - n * 76) else table_byte m d k) →
  inode_from (byte_at bs) 0 = i →
  (∀ l, l < inode_table_lba (sb m) ∨ inode_table_lba (sb m) + 608 ≤ l → bd_sector d' l = bd_sector d l) →
  inode_stored m d d' n i.
Proof.
  intros Hn Hok Hk Hi Ho. split; [done|]. split; [|split; [|done]].
  - rewrite <- Hi. apply inode_from_ext. intros j Hj. rewrite Hk, decide_True by lia. f_equal. lia.
  - intros n' Hn' Hne. apply inode_from_ext. intros j Hj. by rewrite Hk, decide_False by lia.
Qed.

(** What [inode_sync] stores: the counter and the flag are cleared. *)
Definition pure (i : inode) : inode := set_write_deny (set_open_cnts i 0) 0.

Lemma pure_ok i : inode_ok i → inode_ok (pure i).
Proof. intros []. constructor; cbn; try done; unfold word; lia. Qed.

Lemma inode_sync_spec s i : layout_ok (cur_part s) → bd_ok (disk s) → inode_ok i → u8 (i_no i) < 4096 →
  ∃ d, inode_sync s i = Ok (set_disk s d) ∧ inode_stored (cur_part s) (disk s) d (u8 (i_no i)) (pure i).
Proof.
  intros Hlo Hok Hi Hn. pose proof (u8_range (i_no i)). unfold inode_sync.
  rewrite inode_locate_spec by (done || lia). ocbn. cbn [sec_lba two_sec off_size]. fold (pure i).
  pose proof (layout_bounds _ Hlo).
  rewrite (u32_small (m_start_lba (cur_part s) + m_sec_cnt (cur_part s))) by lia.
  rewrite (proj2 (Z.leb_le _ _)) by zdlia. ocbn.
  destruct (rewrite_inode s (u8 (i_no i)) (inode_bytes (pure i)) _ Hlo Hok ltac:(lia)
    ltac:(apply inode_bytes_length, Hi) (inode_bytes_ok _) eq_refl) as (d & Heq & Hok' & Htab & Ho).
  exists d. split.
  - rewrite <- Heq. by case_bool_decide.
  - eapply table_byte_stored; [lia|done|exact Htab| |done]. by apply inode_roundtrip, pure_ok.
Qed.

Lemma inode_delete_spec s n : layout_ok (cur_part s) → bd_ok (disk s) → 0 ≤ n < 4096 →
  ∃ d, inode_delete s n = Ok (set_disk s d) ∧
    inode_stored (cur_part s) (disk s) d n (Inode 0 0 0 0 (replicate 13 0)).
Proof.
  intros Hlo Hok Hn. unfold inode_delete. rewrite (proj2 (Z.ltb_lt n 4096)) by lia. ocbn.
  rewrite inode_locate_spec by done. ocbn. cbn [sec_lba two_sec off_size]. pose proof (layout_bounds _ Hlo).
  rewrite (u32_small (m_start_lba (cur_part s) + m_sec_cnt (cur_part s))) by lia.
  rewrite (proj2 (Z.leb_le _ _)) by zdlia. ocbn.
  destruct (rewrite_inode s n (replicate (Z.to_nat sizeof_inode) 0) (if bool_decide (436 < (n * 76) mod 512) then 2 else 1)
    Hlo Hok Hn) as (d & Heq & Hok' & Htab & Ho);
    [done|by apply Forall_replicate|done|].
  exists d. split; [exact Heq|]. eapply table_byte_stored; [lia|done|exact Htab|vm_compute; reflexivity|done].
Qed.

(** The sectors [inode_open] reads hold the inode. *)
Lemma read_inode s n : layout_ok (cur_part s) → bd_ok (disk s) → 0 ≤ n < 4096 →
  let cnt := if bool_decide (436 < (n * 76) mod 512) then 2 else 1 in
  let lba := inode_table_lba (sb (cur_part s)) + n * 76 / 512 in
  ∃ bs d, bd_read (disk s) lba cnt = Ok (bs, d) ∧ same_sectors (disk s) d ∧
    inode_at bs ((n * 76) mod 512) = stored_inode (cur_part s) (disk s) n.
Proof.
  intros Hlo Hok Hn cnt lba. pose proof (layout_bounds _ Hlo).
  assert (1 ≤ cnt ≤ 2 ∧ (n * 76) mod 512 + 76 ≤ cnt * 512) as [Hc Hoff] by (unfold cnt; case_bool_decide; zdlia).
  destruct (bd_read_ok (disk s) lba cnt Hok) as (d & Hr & Hok' & Hs); [unfold lba; zdlia|lia|unfold lba, cnt; case_bool_decide; zdlia|].
  eexists _, d. split; [exact Hr|]. split; [done|]. rewrite inode_at_from. apply inode_from_ext. intros j Hj.
  rewrite byte_at_sectors by (first [intros; apply bd_sector_len | zdlia]). unfold table_byte, lba.
  f_equal; [f_equal|]; zdlia.
Qed.

(** ** The open inodes *)

(** Each open inode has one object, its counter is at least 1. *)
Record cache_ok s : Prop := {
  ca_nodup : NoDup (open_inodes (cur_part s));
  ca_dom p : p ∈ open_inodes (cur_part s) ↔ is_Some (inodes s !! p);
  ca_inode p i : inodes s !! p = Some i → inode_ok i ∧ 1 ≤ i_open_cnts i;
  ca_unique p q i j : inodes s !! p = Some i → inodes s !! q = Some j → i_no i = i_no j → p = q;
  ca_live p : is_Some (inodes s !! p) → p ∈ live s ∧ p ≠ NULL
}.

Lemma find_open_spec (heap : gmap Z inode) l n : (∀ p, p ∈ l → is_Some (heap !! p)) →
  (∃ p i, find_open heap l n = Ok (Some p) ∧ p ∈ l ∧ heap !! p = Some i ∧ i_no i = n) ∨
  (find_open heap l n = Ok None ∧ ∀ p i, p ∈ l → heap !! p = Some i → i_no i ≠ n).
Proof.
  induction l as [|p l IH]; intros Hl; cbn [find_open].
  - right. split; [done|]. intros p i Hp. by apply not_elem_of_nil in Hp.
  - destruct (Hl p) as [i Hi]; [by left|]. rewrite Hi. ocbn. destruct (Z.eqb_spec (i_no i) n) as [Hn|Hn].
    + left. exists p, i. split; [done|]. split; [by left|done].
    + destruct IH as [(q & j & Hf & Hq & Hj & Hjn)|[Hf Hnone]]; [intros; apply Hl; by right| |].
      * left. exists q, j. split; [done|]. split; [by right|done].
      * right. split; [done|]. intros q j Hq Hj. apply elem_of_cons in Hq as [->|Hq]; [congruence|by eapply Hnone].
Qed.

Lemma stored_inode_ok m d n : inode_ok (stored_inode m d n).
Proof.
  assert (∀ o, word (le32_from (table_byte m d) o)) as Hw.
  { intros o. unfold le32_from, word. assert (∀ k, 0 ≤ table_byte m d k < 256) as Hb.
    { intros k. apply byte_at_range, bd_sector_bytes. }
    pose proof (Hb o). pose proof (Hb (o + 1)). pose proof (Hb (o + 2)). pose proof (Hb (o + 3)). lia. }
  constructor; try apply Hw; [|done]. apply Forall_fmap, Forall_true. intros k. apply Hw.
Qed.

(** The object of inode [n] after opening it: the one that was open, with its
    counter increased, or a new one as on the disk. *)
Definition opened s n (p : Z) (i : inode) : Prop :=
  (∃ j, p ∈ open_inodes (cur_part s) ∧ inodes s !! p = Some j ∧ i_no j = n ∧ i = set_open_cnts j (u32 (i_open_cnts j + 1))) ∨
  ((p ∉ open_inodes (cur_part s)) ∧ (p ∉ live s) ∧ (∀ q j, inodes s !! q = Some j → i_no j ≠ n) ∧
   i = set_open_cnts (stored_inode (cur_part s) (disk s) n) 1).

Lemma inode_open_spec s n : cache_ok s → layout_ok (cur_part s) → bd_ok (disk s) → 0 ≤ n < 4096 → nulls s = [] →
  ∃ p i d, opened s n p i ∧ same_sectors (disk s) d ∧
    inode_open s n = Ok (p, let s' := set_heap (put_inode s p i) ({[p]} ∪ live s) [] in
      set_disk (if bool_decide (p ∈ open_inodes (cur_part s)) then s' else set_open_inodes s' (p :: open_inodes (cur_part s))) d) ∧
    p ≠ NULL.
Proof.
  intros Hc Hlo Hok Hn Hnulls. unfold inode_open.
  destruct (find_open_spec (inodes s) (open_inodes (cur_part s)) n) as [(p & j & -> & Hp & Hj & Hjn)|[-> Hnone]].
  { intros p Hp. by apply (ca_dom _ Hc). }
  - ocbn. rewrite (get_inode_ok s p j Hj). ocbn. exists p. eexists _, (disk s). split; [left; by exists j|]. split; [done|].
    rewrite bool_decide_eq_true_2 by done. destruct (ca_live _ Hc p) as [Hlive Hp0]; [by eexists|].
    split; [|done]. do 2 f_equal. rewrite <- Hnulls. replace ({[p]} ∪ live s) with (live s) by (clear -Hlive; set_solver). by destruct s.
  - ocbn. rewrite inode_locate_spec by done. ocbn. cbn [two_sec sec_lba off_size].
    destruct (sys_malloc_ok s Hnulls) as (a & -> & Ha & Ha0).
    destruct (sys_malloc_ok (set_heap s ({[a]} ∪ live s) [])) as (b & -> & Hb & Hb0); [done|].
    rewrite (proj2 (Z.eqb_neq a NULL)), (proj2 (Z.eqb_neq b NULL)) by done. cbv iota. ocbn.
    destruct (read_inode s n Hlo Hok Hn) as (bs & d & Hrd & Hsd & Hat). unfold ide_read.
    cbn [disk set_heap]. rewrite Hrd. ocbn. rewrite Hat. rewrite sys_free_ok by done. ocbn.
    assert (a ∉ open_inodes (cur_part s)) as Hao.
    { intros Hin. apply (ca_dom _ Hc) in Hin. by destruct (ca_live _ Hc a Hin). }
    exists a. eexists _, d. split; [|split; [done|]].
    + right. split; [done|]. split; [done|]. split; [|done]. intros q j Hq. apply (Hnone q j); [|done].
      apply (ca_dom _ Hc). by eexists.
    + rewrite bool_decide_eq_false_2 by done. split; [|done]. do 2 f_equal. unfold set_heap, set_disk, put_inode, set_inodes, set_open_inodes, set_part. cbn.
      f_equal. cbn in Hb. clear -Ha Hb. set_solver.
Qed.

Lemma opened_no s n p i : opened s n p i → i_no (stored_inode (cur_part s) (disk s) n) = n → i_no i = n.
Proof. intros [(j & _ & _ & Hj & ->)|(_ & _ & _ & ->)] Hn; done. Qed.

Lemma opened_cache s n p i d : cache_ok s → opened s n p i → i_no (stored_inode (cur_part s) (disk s) n) = n →
  (∀ q j, inodes s !! q = Some j → i_open_cnts j < 2 ^ 32 - 1) → p ≠ NULL →
  cache_ok (let s' := set_heap (put_inode s p i) ({[p]} ∪ live s) [] in
    set_disk (if bool_decide (p ∈ open_inodes (cur_part s)) then s' else set_open_inodes s' (p :: open_inodes (cur_part s))) d).
Proof.
  intros Hc Ho Hn Hmax Hp0. pose proof (opened_no _ _ _ _ Ho Hn) as Hin.
  assert (∀ q j, inodes s !! q = Some j → i_no j = n → q = p) as Hsole.
  { intros q j Hq Hjn. destruct Ho as [(j' & _ & Hp & Hj' & _)|(_ & _ & Hnone & _)]; [|by destruct (Hnone q j)].
    apply (ca_unique _ Hc q p j j' Hq Hp). congruence. }
  assert (inode_ok i ∧ 1 ≤ i_open_cnts i) as Hi.
  { destruct Ho as [(j & _ & Hp & _ & ->)|(_ & _ & _ & ->)].
    - destruct (ca_inode _ Hc p j Hp) as [[] Hj]. specialize (Hmax p j Hp). unfold word in *. cbn.
      rewrite u32_small by lia. split; [constructor; cbn; try done; unfold word; lia|lia].
    - destruct (stored_inode_ok (cur_part s) (disk s) n). split; [constructor; cbn; try done; unfold word; lia|done]. }
  constructor; cbn zeta.
  - case_bool_decide as Hpo; cbn; [apply (ca_nodup _ Hc)|]. constructor; [done|apply (ca_nodup _ Hc)].
  - intros q. case_bool_decide as Hpo; cbn; rewrite ?elem_of_cons, (ca_dom _ Hc q), lookup_insert_is_Some'; [|naive_solver].
    split; [naive_solver|]. intros [<-|?]; [by apply (ca_dom _ Hc)|done].
  - intros q j. case_bool_decide; cbn; rewrite lookup_insert_Some; (intros [[_ <-]|[_ Hq]]; [done|by apply (ca_inode _ Hc q)]).
  - intros q r j k. case_bool_decide; cbn; rewrite !lookup_insert_Some;
      (intros [[<- <-]|[Hq Hqj]] [[<- <-]|[Hr Hrk]] Heq; [done| | |by apply (ca_unique _ Hc q r j k)]);
      first [symmetry; apply (Hsole r k Hrk); congruence | apply (Hsole q j Hqj); congruence].
  - intros q. case_bool_decide; cbn; rewrite lookup_insert_is_Some';
      (intros [<-|Hq]; [split; [set_solver|done]|destruct (ca_live _ Hc q Hq); split; [set_solver|done]]).
Qed.

Lemma list_filter_all {A} (P : A → Prop) `{!∀ x, Decision (P x)} (l : list A) : (∀ x, x ∈ l → P x) → filter P l = l.
Proof.
  induction l as [|x l IH]; intros Hl; [done|]. rewrite filter_cons_True by (apply Hl; by left).
  f_equal. apply IH. intros y Hy. apply Hl. by right.
Qed.

(** Closing the object just opened. *)
Lemma open_close s n p i d : cache_ok s → opened s n p i → p ≠ NULL →
  (∀ q j, inodes s !! q = Some j → i_open_cnts j < 2 ^ 32 - 1) →
  ∃ s'', inode_close (let s' := set_heap (put_inode s p i) ({[p]} ∪ live s) [] in
      set_disk (if bool_decide (p ∈ open_inodes (cur_part s)) then s' else set_open_inodes s' (p :: open_inodes (cur_part s))) d) p = Ok s'' ∧
    inodes s'' = inodes s ∧ open_inodes (cur_part s'') = open_inodes (cur_part s) ∧ live s'' = live s ∧ disk s'' = d.
Proof.
  intros Hc Ho Hp0 Hmax. unfold inode_close. cbn zeta.
  rewrite (get_inode_ok _ p i) by (case_bool_decide; cbn; apply lookup_insert_eq). ocbn.
  destruct Ho as [(j & Hpo & Hp & _ & ->)|(Hpo & Hpl & _ & ->)].
  - rewrite bool_decide_eq_true_2 by done. destruct (ca_inode _ Hc p j Hp) as [[] Hj]. specialize (Hmax p j Hp).
    unfold word in *. cbn [i_open_cnts set_open_cnts]. rewrite (u32_small (i_open_cnts j + 1)) by lia.
    rewrite u32_small by lia. rewrite (proj2 (Z.eqb_neq _ 0)) by lia. eexists. split; [done|]. cbn.
    split; [|split; [done|split; [|done]]].
    + rewrite insert_insert_eq. apply insert_id. rewrite Hp. destruct j. unfold set_open_cnts. cbn. do 2 f_equal. cbn. lia.
    + destruct (ca_live _ Hc p) as [Hl _]; [by eexists|]. clear -Hl. set_solver.
  - rewrite bool_decide_eq_false_2 by done. cbn [i_open_cnts set_open_cnts]. change (u32 (1 - 1) =? 0) with true. cbv iota.
    rewrite sys_free_ok by done. ocbn. eexists. split; [done|]. cbn. split; [|split; [|split; [|done]]].
    + rewrite insert_insert_eq. rewrite delete_insert_id; [done|].
      destruct (inodes s !! p) as [j|] eqn:E; [|done]. destruct Hpo. apply (ca_dom _ Hc). by eexists.
    + transitivity (filter (λ q, q ≠ p) (p :: open_inodes (cur_part s))); [done|].
      rewrite filter_cons_False by tauto. apply list_filter_all. intros q Hq. by intros ->.
    + clear -Hpl. set_solver.
Qed.

(** ** Properties *)

(** C28. Opening an inode: when it is open already, the caller gets the same object
    with its counter increased; otherwise a new object, with the counter at 1 and
    the contents the inode table holds. Either way there is still one object per
    open inode and every other object is untouched, and [inode_close] undoes it:
    the objects, the list and the memory in use are as before. *)
Theorem inode_open_shares s n :
  cache_ok s → layout_ok (cur_part s) → bd_ok (disk s) → 0 ≤ n < 4096 → nulls s = [] →
  i_no (stored_inode (cur_part s) (disk s) n) = n →
  (∀ q j, inodes s !! q = Some j → i_open_cnts j < 2 ^ 32 - 1) →
  ∃ p i s', inode_open s n = Ok (p, s') ∧ opened s n p i ∧ i_no i = n ∧ inodes s' = <[p := i]> (inodes s) ∧
    cache_ok s' ∧ same_sectors (disk s) (disk s') ∧
    ∃ s'', inode_close s' p = Ok s'' ∧ inodes s'' = inodes s ∧
      open_inodes (cur_part s'') = open_inodes (cur_part s) ∧ live s'' = live s.
Proof.
  intros Hc Hlo Hok Hn Hnulls Hno Hmax.
  destruct (inode_open_spec s n Hc Hlo Hok Hn Hnulls) as (p & i & d & Ho & Hsd & Hopen & Hp0).
  destruct (open_close s n p i d Hc Ho Hp0 Hmax) as (s'' & Hcl & Hin & Hop & Hlv & _).
  eexists p, i, _. split; [exact Hopen|]. split; [done|]. split; [by eapply opened_no|].
  split; [by case_bool_decide|]. split; [by eapply opened_cache|]. split; [by case_bool_decide|].
  exists s''. done.
Qed.

(** [inode_sync] of an inode with a number below 256 and reading it back: the
    table holds exactly the inode, with its counter and flag cleared, every other
    inode of the table is unchanged and so is the rest of the disk. *)
Theorem inode_sync_roundtrip s i :
  layout_ok (cur_part s) → bd_ok (disk s) → inode_ok i → i_no i < 256 →
  ∃ d, inode_sync s i = Ok (set_disk s d) ∧ inode_stored (cur_part s) (disk s) d (i_no i) (pure i).
Proof.
  intros Hlo Hok Hi Hn. assert (u8 (i_no i) = i_no i) as Hu.
  { apply u8_small. pose proof (io_no _ Hi). unfold word in *. lia. }
  destruct (inode_sync_spec s i Hlo Hok Hi) as (d & Hs & Hst); [lia|]. exists d. by rewrite <- Hu.
Qed.

(** [inode_sync] keeps the number of the inode in 8 bits. An inode with a number
    from 256 on is written over the inode with that number modulo 256, inode 256
    over the root directory, and its own place in the table keeps what it had. *)
Theorem inode_sync_overwrites s i :
  layout_ok (cur_part s) → bd_ok (disk s) → inode_ok i → 256 ≤ i_no i < 4096 →
  ∃ d, inode_sync s i = Ok (set_disk s d) ∧
    stored_inode (cur_part s) d (i_no i mod 256) = pure i ∧
    stored_inode (cur_part s) d (i_no i) = stored_inode (cur_part s) (disk s) (i_no i).
Proof.
  intros Hlo Hok Hi Hn. pose proof (u8_range (i_no i)).
  destruct (inode_sync_spec s i Hlo Hok Hi) as (d & Hs & _ & Hst & Ho & _); [lia|].
  exists d. split; [done|]. split; [exact Hst|]. apply Ho; lia.
Qed.
End table.

Module InodeExample.
Import RamDisk FsExample.

Lemma cache0 : cache_ok fs0.
Proof.
  assert (∀ p j, ({[100 := abc]} : gmap Z inode) !! p = Some j → p = 100 ∧ j = abc) as Hs.
  { intros p j Hp. apply lookup_singleton_Some in Hp as [-> <-]. done. }
  constructor; cbn.
  - apply NoDup_singleton.
  - intros p. rewrite list_elem_of_singleton. split.
    + intros ->. rewrite lookup_singleton_eq. by eexists.
    + intros [j Hj]. by apply Hs in Hj as [-> _].
  - intros p j Hp. apply Hs in Hp as [_ ->]. split; [|done]. constructor; try done.
    constructor; [done|]. by apply Forall_replicate.
  - intros p q i j Hp Hq _. apply Hs in Hp as [-> _], Hq as [-> _]. done.
  - intros p [j Hj]. apply Hs in Hj as [-> _]. split; [set_solver|done].
Qed.

Lemma inode_open_shares_witness :
  ∃ p i s', inode_open fs0 0 = Ok (p, s') ∧ inodes s' = <[p := i]> (inodes fs0) ∧ cache_ok s'.
Proof.
  destruct (inode_open_shares fs0 0) as (p & i & s' & Ho & _ & _ & Hin & Hc & _).
  - exact cache0.
  - apply layout0.
  - done.
  - done.
  - done.
  - vm_compute. reflexivity.
  - intros q j Hq. change (({[100 := abc]} : gmap Z inode) !! q = Some j) in Hq.
    apply lookup_singleton_Some in Hq as [_ <-]. done.
  - exists p, i, s'. split; [exact Ho|]. split; [exact Hin|exact Hc].
Defined.

Lemma abc_ok : inode_ok abc.
Proof. exact (proj1 (ca_inode _ cache0 100 abc eq_refl)). Qed.

Lemma inode_sync_roundtrip_witness :
  ∃ d, inode_sync fs0 abc = Ok (set_disk fs0 d) ∧ stored_inode (part0 [100]) d 5 = pure abc.
Proof.
  destruct (inode_sync_roundtrip fs0 abc) as (d & Hs & _ & Hst & _);
    [apply layout0|done|exact abc_ok|done|]. exists d. split; [exact Hs|exact Hst].
Defined.

Lemma inode_sync_overwrites_witness :
  ∃ d, inode_sync fs0 (Inode 256 0 0 0 (replicate 13 0)) = Ok (set_disk fs0 d) ∧
    i_no (stored_inode (part0 [100]) d 0) = 256.
Proof.
  destruct (inode_sync_overwrites fs0 (Inode 256 0 0 0 (replicate 13 0))) as (d & Hs & Hst & _).
  - apply layout0.
  - done.
  - constructor; try done. by apply Forall_replicate.
  - done.
  - exists d. split; [exact Hs|]. exact (f_equal i_no Hst).
Defined.
End InodeExample.
