(* ===== verification/FsFile.v ===== *)
(** * fs/file.c: open files, reading and writing

    A file is opened in a slot of the file table; [file_write] appends to it and
    [file_read] reads from the position in the slot. The address list
    [all_blocks] of both is the block the kernel clears when it is allocated. *)

From stdpp Require Import base numbers list gmap.
From Stdlib Require Import ZArith Lia.
From S2P Require Import Prelude Bitmap Block FsState FsAlloc Inode.

Section file_ops.
Context {D : Type} `{BlockDevice D}.
Implicit Types (s : fs D).

(** [file_table[fd]] *)
Definition get_file s (fd : Z) : outcome file :=
  if 0 <=? fd then from_option_fault (file_table s !! Z.to_nat fd) else Fault.
Definition put_file s (fd : Z) (f : file) : fs D :=
  set_file_table s (<[Z.to_nat fd := f]> (file_table s)).

Definition file_open s (inode_no flag : Z) : outcome (Z * fs D) :=
  fd_idx ← get_free_slot_in_global s;
  if fd_idx =? -1 then Ok (-1, s)
  else
    '(p, s) ← inode_open s inode_no;
    let s := put_file s fd_idx (File 0 flag p) in
    i ← get_inode s p;
    if truth (Z.land flag O_WRONLY) || truth (Z.land flag O_RDWR) then
      if negb (truth (write_deny i)) then
        pcb_fd_install (put_inode s p (set_write_deny i 1)) fd_idx
      else Ok (-1, s)
    else pcb_fd_install s fd_idx.

Definition file_close s (fd : Z) : outcome (Z * fs D) :=
  f ← get_file s fd;
  i ← get_inode s (fd_inode f);
  s ← inode_close (put_inode s (fd_inode f) (set_write_deny i 0)) (fd_inode f);
  Ok (0, put_file s fd (File (fd_pos f) (fd_flag f) NULL)).

(** ** Writing *)

(** [all_blocks[k]] *)
Definition block_at (all_blocks : list Z) (k : Z) : outcome Z :=
  if 0 <=? k then from_option_fault (all_blocks !! Z.to_nat k) else Fault.

(** [ide_read(..., all_blocks + 12, 1)] *)
Definition read_table s (all_blocks : list Z) (table : Z) : outcome (list Z * fs D) :=
  '(bs, s) ← ide_read s table 1;
  Ok (take 12 all_blocks ++ words_at bs 0 128, s).
Definition write_table s (all_blocks : list Z) (table : Z) : outcome (fs D) :=
  ide_write s table (words_bytes (drop 12 all_blocks)) 1.

(** Lines 256-268: the first block of the file. [None] stands for [return -1],
    here and below. *)
Definition first_block s (p : Z) : outcome (option unit * fs D) :=
  i ← get_inode s p;
  b0 ← i_sector i 0;
  if b0 =? 0 then
    '(block_lba, s) ← block_bitmap_alloc s;
    if block_lba =? -1 then Ok (None, s)
    else
      let s := put_inode s p (set_sector i 0 (u32 block_lba)) in
      let block_bitmap_idx := u32 (block_lba - data_start_lba (sb (cur_part s))) in
      ASSERT (negb (block_bitmap_idx =? 0));;
      s ← bitmap_sync s block_bitmap_idx BLOCK_BITMAP;
      Ok (Some tt, s)
  else Ok (Some tt, s).

(** A round of the loops that allocate blocks. The first 12 addresses also go
    into the inode: the loop of the first situation only has such blocks, the one
    of the third situation none. *)
Definition add_block s (p : Z) (all_blocks : list Z) (block_idx : Z) : outcome (option (list Z) * fs D) :=
  '(block_lba, s) ← block_bitmap_alloc s;
  if block_lba =? -1 then Ok (None, s)
  else
    s ← (if block_idx <? 12 then
           i ← get_inode s p;
           b ← i_sector i block_idx;
           ASSERT (b =? 0);;
           Ok (put_inode s p (set_sector i (Z.to_nat block_idx) (u32 block_lba)))
         else Ok s);
    let block_bitmap_idx := u32 (block_lba - data_start_lba (sb (cur_part s))) in
    s ← bitmap_sync s block_bitmap_idx BLOCK_BITMAP;
    Ok (Some (<[Z.to_nat block_idx := u32 block_lba]> all_blocks), s).

Definition add_blocks s (p : Z) (all_blocks : list Z) (from to : Z) : outcome (option (list Z) * fs D) :=
  loop (S (Z.to_nat (to - from))) (λ '(block_idx, all_blocks, s),
    if block_idx <? to then
      '(r, s) ← add_block s p all_blocks block_idx;
      match r with
      | None => Ok (inr (None, s))
      | Some all_blocks => Ok (inl (block_idx + 1, all_blocks, s))
      end
    else Ok (inr (Some all_blocks, s))) (from, all_blocks, s).

(** Lines 282-384: the addresses the write needs. *)
Definition collect_blocks s (p : Z) (has_used will_use : Z) : outcome (option (list Z) * fs D) :=
  i ← get_inode s p;
  let all_blocks := replicate 140 0 in
  let add := u32 (will_use - has_used) in
  if add =? 0 then
    if has_used <=? 12 then
      b ← i_sector i (has_used - 1);
      Ok (Some (<[Z.to_nat (has_used - 1) := b]> all_blocks), s)
    else
      table ← i_sector i 12;
      ASSERT (negb (table =? 0));;
      '(all_blocks, s) ← read_table s all_blocks table;
      Ok (Some all_blocks, s)
  else if will_use <=? 12 then
    b ← i_sector i (has_used - 1);
    ASSERT (negb (b =? 0));;
    add_blocks s p (<[Z.to_nat (has_used - 1) := b]> all_blocks) has_used will_use
  else if has_used <=? 12 then
    b ← i_sector i (has_used - 1);
    let all_blocks := <[Z.to_nat (has_used - 1) := b]> all_blocks in
    '(block_lba, s) ← block_bitmap_alloc s;
    if block_lba =? -1 then Ok (None, s)
    else
      i ← get_inode s p;
      t ← i_sector i 12;
      ASSERT (t =? 0);;
      let s := put_inode s p (set_sector i 12 (u32 block_lba)) in
      '(r, s) ← add_blocks s p all_blocks has_used will_use;
      match r with
      | None => Ok (None, s)
      | Some all_blocks => s ← write_table s all_blocks (u32 block_lba); Ok (Some all_blocks, s)
      end
  else
    table ← i_sector i 12;
    ASSERT (negb (table =? 0));;
    '(all_blocks, s) ← read_table s all_blocks table;
    '(r, s) ← add_blocks s p all_blocks has_used will_use;
    match r with
    | None => Ok (None, s)
    | Some all_blocks => s ← write_table s all_blocks table; Ok (Some all_blocks, s)
    end.

(** Lines 390-410: one round of writing, [src] is what is left of the data. *)
Definition write_chunk s (fd p : Z) (all_blocks src : list Z) (size_left : Z) (first : bool)
    : outcome (Z * fs D) :=
  f ← get_file s fd;
  i ← get_inode s p;
  let sec_idx := i_size i / BLOCK_SIZE in
  sec_lba ← block_at all_blocks sec_idx;
  let sec_off_bytes := i_size i mod BLOCK_SIZE in
  let sec_left_bytes := BLOCK_SIZE - sec_off_bytes in
  let chunk_size := if size_left <? sec_left_bytes then size_left else sec_left_bytes in
  '(io_buf, s) ← (if first : bool then ide_read s sec_lba 1 else Ok (replicate 512 0, s));
  if Z.of_nat (length src) <? chunk_size then Fault
  else
    s ← ide_write s sec_lba (splice io_buf sec_off_bytes (take (Z.to_nat chunk_size) src)) 1;
    let s := put_inode s p (set_i_size i (u32 (i_size i + chunk_size))) in
    Ok (chunk_size, put_file s fd (File (u32 (fd_pos f + chunk_size)) (fd_flag f) (fd_inode f))).

Definition write_data s (fd p : Z) (all_blocks buf : list Z) (count : Z) : outcome (Z * fs D) :=
  loop (S (Z.to_nat count)) (λ '(bytes_written, src, first, s),
    if bytes_written <? count then
      '(chunk_size, s) ← write_chunk s fd p all_blocks src (u32 (count - bytes_written)) first;
      Ok (inl (u32 (bytes_written + chunk_size), drop (Z.to_nat chunk_size) src, false, s))
    else Ok (inr (bytes_written, s))) (0, buf, true, s).

(** Lines 256-412: the write with its buffers allocated. *)
Definition write_file s (fd : Z) (f : file) (i : inode) (buf : list Z) (count : Z) : outcome (option Z * fs D) :=
  let p := fd_inode f in
  '(r, s) ← first_block s p;
  match r with
  | None => Ok (None, s)
  | Some _ =>
      let has_used := i_size i / BLOCK_SIZE + 1 in
      let will_use := u32 (i_size i + count) / BLOCK_SIZE + 1 in
      ASSERT (will_use <=? 140);;
      '(r, s) ← collect_blocks s p has_used will_use;
      match r with
      | None => Ok (None, s)
      | Some all_blocks =>
          let s := put_file s fd (File (u32 (i_size i - 1)) (fd_flag f) p) in
          '(bytes_written, s) ← write_data s fd p all_blocks buf count;
          i ← get_inode s p;
          s ← inode_sync s i;
          Ok (Some bytes_written, s)
      end
  end.

Definition file_write s (fd : Z) (buf : list Z) (count : Z) : outcome (Z * fs D) :=
  f ← get_file s fd;
  i ← get_inode s (fd_inode f);
  if BLOCK_SIZE * 140 <? u32 (i_size i + count) then Ok (-1, s)
  else
    let '(io_buf, s) := sys_malloc s in
    if io_buf =? NULL then Ok (-1, s)
    else
      let '(all_blocks_p, s) := sys_malloc s in
      if all_blocks_p =? NULL then Ok (-1, s)
      else
        '(r, s) ← write_file s fd f i buf count;
        match r with
        | None => Ok (-1, s)
        | Some bytes_written =>
            s ← sys_free s all_blocks_p;
            s ← sys_free s io_buf;
            Ok (s32 bytes_written, s)
        end.

(** ** Reading *)

(** Lines 451-488: the addresses of the blocks [start] to [finish]. *)
Definition collect_read_blocks s (i : inode) (start finish : Z) : outcome (list Z * fs D) :=
  let all_blocks := replicate 140 0 in
  let copy_direct (from to : Z) :=
    take (Z.to_nat from) all_blocks ++ slice (i_sectors i) from (to - from) ++ drop (Z.to_nat to) all_blocks in
  if start =? finish then
    if finish <? 12 then Ok (copy_direct finish (finish + 1), s)
    else
      table ← i_sector i 12;
      read_table s all_blocks table
  else if finish <? 12 then Ok (copy_direct start (finish + 1), s)
  else if start <? 12 then
    table ← i_sector i 12;
    ASSERT (negb (table =? 0));;
    read_table s (copy_direct start 12) table
  else
    table ← i_sector i 12;
    ASSERT (negb (table =? 0));;
    read_table s all_blocks table.

(** The loop of lines 493-508; the bytes are what it stores at [buf_dst]. *)
Definition read_data s (fd : Z) (all_blocks : list Z) (size : Z) : outcome (Z * list Z * fs D) :=
  loop (S (Z.to_nat size)) (λ '(bytes_read, out, s),
    if bytes_read <? size then
      f ← get_file s fd;
      sec_lba ← block_at all_blocks (fd_pos f / BLOCK_SIZE);
      let sec_off_bytes := fd_pos f mod BLOCK_SIZE in
      let sec_left_bytes := BLOCK_SIZE - sec_off_bytes in
      let size_left := u32 (size - bytes_read) in
      let chunk_size := if size_left <? sec_left_bytes then size_left else sec_left_bytes in
      '(io_buf, s) ← ide_read s sec_lba 1;
      let s := put_file s fd (File (u32 (fd_pos f + chunk_size)) (fd_flag f) (fd_inode f)) in
      Ok (inl (u32 (bytes_read + chunk_size), out ++ slice io_buf sec_off_bytes chunk_size, s))
    else Ok (inr (bytes_read, out, s))) (0, [], s).

(** The value returned and the bytes stored at [buf]. Using [io_buf] without
    memory fails the assertion of [memset] or of [sys_free]. *)
Definition file_read s (fd count : Z) : outcome (Z * list Z * fs D) :=
  f ← get_file s fd;
  i ← get_inode s (fd_inode f);
  let past := i_size i <? u32 (fd_pos f + count) in
  let size := if past then u32 (i_size i - fd_pos f) else count in
  if past && (size =? 0) then Ok (-1, [], s)
  else
    let '(io_buf, s) := sys_malloc s in
    let '(all_blocks_p, s) := sys_malloc s in
    if all_blocks_p =? NULL then Ok (-1, [], s)
    else
      let start := fd_pos f / BLOCK_SIZE in
      let finish := u32 (fd_pos f + size) / BLOCK_SIZE in
      ASSERT ((start <? 139) && (finish <? 139));;
      '(all_blocks, s) ← collect_read_blocks s i start finish;
      ASSERT (negb (io_buf =? NULL));;
      '(bytes_read, out, s) ← read_data s fd all_blocks size;
      s ← sys_free s all_blocks_p;
      s ← sys_free s io_buf;
      Ok (s32 bytes_read, out, s).
End file_ops.
