(* ===== verification/FsWrite.v ===== *)
(** * fs/file.c: writing appends

    What a file is in terms of the disk ([file_ok]), how the operations of
    [FsFile] take blocks for it, and that [file_write] appends its data. *)

From stdpp Require Import base numbers list gmap.
From Stdlib Require Import ZArith Lia.
From S2P Require Import Prelude Bitmap Block FsState FsAlloc Inode FsFile.

Section grow.
Context {D : Type} `{BlockDevice D}.
Implicit Types (s : fs D) (d : D) (m : mounted).

(** ** Taking blocks *)

(** [s'] is [s] after taking the free blocks [new]: they are marked in the
    bitmap, in memory and on the disk. Of the sectors behind the bitmap only
    those of [ws] may have changed. *)
Record took s s' (new ws : list Z) : Prop := {
  tk_part : ∃ b, cur_part s' = with_bitmap (cur_part s) b;
  tk_layout : layout_ok (cur_part s');
  tk_nbits : nbits (block_bitmap (cur_part s')) = nbits (block_bitmap (cur_part s));
  tk_new : Forall (λ l, is_block (cur_part s) l ∧ block_used (cur_part s) l = false) new;
  tk_nodup : NoDup new;
  tk_used l : is_block (cur_part s) l →
    block_used (cur_part s') l = block_used (cur_part s) l || bool_decide (l ∈ new);
  tk_free : n_free (block_bitmap (cur_part s)) = (n_free (block_bitmap (cur_part s')) + length new)%nat;
  tk_dirs : dirs s' = dirs s;
  tk_files : file_table s' = file_table s;
  tk_fds : fd_table s' = fd_table s;
  tk_cwd : cwd_inode_nr s' = cwd_inode_nr s;
  tk_heap : live s' = live s ∧ nulls s' = nulls s;
  tk_disk : bd_ok (disk s');
  tk_sectors l : inode_bitmap_lba (sb (cur_part s)) ≤ l → l ∉ ws →
    bd_sector (disk s') l = bd_sector (disk s) l
}.

Lemma took_refl s : layout_ok (cur_part s) → bd_ok (disk s) → took s s [] [].
Proof.
  intros Hlo Hok. constructor; try done.
  - exists (block_bitmap (cur_part s)). by destruct (cur_part s).
  - constructor.
  - intros l _. by rewrite bool_decide_eq_false_2, orb_false_r by apply not_elem_of_nil.
Qed.

Lemma took_sb s s' new ws : took s s' new ws →
  sb (cur_part s') = sb (cur_part s) ∧ inode_bitmap (cur_part s') = inode_bitmap (cur_part s) ∧
  open_inodes (cur_part s') = open_inodes (cur_part s) ∧ m_start_lba (cur_part s') = m_start_lba (cur_part s) ∧
  m_sec_cnt (cur_part s') = m_sec_cnt (cur_part s).
Proof. intros Ht. destruct (tk_part _ _ _ _ Ht) as [b ->]. done. Qed.

Lemma took_block s s' new ws l : took s s' new ws → is_block (cur_part s') l ↔ is_block (cur_part s) l.
Proof.
  intros Ht. unfold is_block, block_no. rewrite (tk_nbits _ _ _ _ Ht).
  by destruct (took_sb _ _ _ _ Ht) as (-> & _).
Qed.

Lemma took_trans s s1 s2 new new' ws ws' : took s s1 new ws → took s1 s2 new' ws' → took s s2 (new ++ new') (ws ++ ws').
Proof.
  intros Ht Ht'. pose proof (took_sb _ _ _ _ Ht) as (Hsb & _).
  assert (Forall (λ l, is_block (cur_part s) l ∧ block_used (cur_part s) l = false ∧ l ∉ new) new') as Hnew'.
  { eapply Forall_impl; [exact (tk_new _ _ _ _ Ht')|]. intros l [Hb Hu].
    apply (took_block _ _ _ _ _ Ht) in Hb. split; [done|]. rewrite (tk_used _ _ _ _ Ht l Hb) in Hu.
    apply orb_false_iff in Hu as [Hu Hn]. split; [done|]. by apply bool_decide_eq_false in Hn. }
  constructor.
  - destruct (tk_part _ _ _ _ Ht) as [b Hb], (tk_part _ _ _ _ Ht') as [b' Hb']. exists b'. by rewrite Hb', Hb.
  - apply (tk_layout _ _ _ _ Ht').
  - by rewrite (tk_nbits _ _ _ _ Ht'), (tk_nbits _ _ _ _ Ht).
  - apply Forall_app. split; [apply (tk_new _ _ _ _ Ht)|]. eapply Forall_impl; [exact Hnew'|]. intros l (? & ? & _). done.
  - apply NoDup_app. split; [apply (tk_nodup _ _ _ _ Ht)|]. split; [|apply (tk_nodup _ _ _ _ Ht')].
    intros l Hl Hl'. rewrite Forall_forall in Hnew'. by apply (Hnew' l Hl').
  - intros l Hl. rewrite (tk_used _ _ _ _ Ht') by (by apply (took_block _ _ _ _ _ Ht)).
    rewrite (tk_used _ _ _ _ Ht l Hl), <- orb_assoc. f_equal. rewrite <- bool_decide_or.
    apply bool_decide_ext. by rewrite elem_of_app.
  - rewrite length_app. pose proof (tk_free _ _ _ _ Ht). pose proof (tk_free _ _ _ _ Ht'). lia.
  - by rewrite (tk_dirs _ _ _ _ Ht'), (tk_dirs _ _ _ _ Ht).
  - by rewrite (tk_files _ _ _ _ Ht'), (tk_files _ _ _ _ Ht).
  - by rewrite (tk_fds _ _ _ _ Ht'), (tk_fds _ _ _ _ Ht).
  - by rewrite (tk_cwd _ _ _ _ Ht'), (tk_cwd _ _ _ _ Ht).
  - destruct (tk_heap _ _ _ _ Ht) as [H1 H2], (tk_heap _ _ _ _ Ht') as [H1' H2']. split; congruence.
  - apply (tk_disk _ _ _ _ Ht').
  - intros l Hl Hw. apply not_elem_of_app in Hw as [Hw Hw'].
    rewrite (tk_sectors _ _ _ _ Ht') by (try rewrite Hsb; done). by apply (tk_sectors _ _ _ _ Ht).
Qed.

(** Inodes do not matter to [took]. *)
Lemma took_inodes s s' new ws i : took s s' new ws → took s (set_inodes s' i) new ws.
Proof. by intros []; constructor. Qed.

(** Allocating a block and writing the bitmap; [i] is what happens to the inodes in between. *)
Lemma alloc_sync s : layout_ok (cur_part s) → bd_ok (disk s) → (0 < n_free (block_bitmap (cur_part s)))%nat →
  ∃ lba s1, block_bitmap_alloc s = Ok (lba, s1) ∧ 0 ≤ lba < bd_size ∧ lba ≠ -1 ∧
    block_no (cur_part s1) lba = block_no (cur_part s) lba ∧ inodes s1 = inodes s ∧
    data_start_lba (sb (cur_part s1)) = data_start_lba (sb (cur_part s)) ∧
    took s s1 [lba] [] ∧
    ∀ i, ∃ s2, bitmap_sync (set_inodes s1 i) (block_no (cur_part s) lba) BLOCK_BITMAP = Ok s2 ∧
      took s s2 [lba] [] ∧ inodes s2 = i.
Proof.
  intros Hlo Hok Hn. pose proof (layout_bounds _ Hlo).
  destruct (block_bitmap_alloc_spec s Hlo Hn) as (lba & b & -> & Hb & Hu & Hset & Hr).
  exists lba, (set_block_bitmap s b). split; [done|]. split; [lia|]. split; [lia|]. split; [done|]. split; [done|]. split; [done|].
  assert (layout_ok (cur_part (set_block_bitmap s b))) as Hlo1 by exact (layout_set _ _ _ Hlo Hset).
  assert (∀ d i, bd_ok d → (∀ l, inode_bitmap_lba (sb (cur_part s)) ≤ l → bd_sector d l = bd_sector (disk s) l) →
    took s (set_disk (set_inodes (set_block_bitmap s b) i) d) [lba] []) as Htook.
  { intros d i Hd Hs. pose proof Hset as (Hwf & Hlen & Hn' & Hbit). constructor; try done.
    - by exists b.
    - cbn. unfold nbits. by rewrite Hlen.
    - by apply Forall_singleton.
    - apply NoDup_singleton.
    - intros l Hl. unfold block_used, block_no. cbn. unfold is_block, block_no in *. rewrite Hbit by lia.
      rewrite orb_comm. case_bool_decide as H1; case_bool_decide as H2; try done.
      + destruct H2. apply list_elem_of_singleton. lia.
      + apply list_elem_of_singleton in H2. lia.
    - cbn. rewrite (n_free_set _ _ _ Hset Hb Hu). lia.
    - intros l Hl _. by apply Hs. }
  split; [exact (Htook (disk s) (inodes s) Hok (λ _ _, eq_refl))|]. intros i.
  destruct (bitmap_sync_spec (set_inodes (set_block_bitmap s b) i) (block_no (cur_part s) lba) Hlo1 Hok) as (d & Hd & Hokd & Hsec).
  { cbn. pose proof Hset as (_ & Hlen & _). unfold nbits. rewrite Hlen. apply Hb. }
  eexists. split; [exact Hd|]. split; [|done]. apply Htook; [done|].
  intros l Hl. rewrite Hsec. cbn. rewrite bool_decide_eq_false_2; [done|].
  unfold is_block in Hb. zdlia.
Qed.

(** ** The allocation loops *)

Definition set_sectors (i : inode) (l : list Z) : inode :=
  Inode (i_no i) (i_size i) (i_open_cnts i) (write_deny i) l.

Lemma block_idx_u32 s lba : layout_ok (cur_part s) → is_block (cur_part s) lba →
  u32 (lba - data_start_lba (sb (cur_part s))) = block_no (cur_part s) lba ∧ u32 lba = lba ∧ 0 < lba < bd_size.
Proof.
  intros Hlo Hb. pose proof (layout_bounds _ Hlo). unfold is_block, block_no in *. rewrite !u32_small by lia. lia.
Qed.

Lemma add_block_spec s p i ab (k : nat) :
  layout_ok (cur_part s) → bd_ok (disk s) → (0 < n_free (block_bitmap (cur_part s)))%nat →
  inodes s !! p = Some i → ((k < 12)%nat → i_sectors i !! k = Some 0) →
  ∃ lba s', add_block s p ab (Z.of_nat k) = Ok (Some (<[k := lba]> ab), s') ∧ took s s' [lba] [] ∧
    inodes s' = <[p := set_sectors i (list_inserts k (take (12 - k) [lba]) (i_sectors i))]> (inodes s).
Proof.
  intros Hlo Hok Hn Hi Hk. unfold add_block.
  destruct (alloc_sync s Hlo Hok Hn) as (lba & s1 & -> & Hr & Hne & Hbn & Hin & Hds & Ht & Hsync). ocbn.
  rewrite (proj2 (Z.eqb_neq lba (-1))) by lia. exists lba.
  pose proof (tk_new _ _ _ _ Ht) as Hnew. apply Forall_singleton in Hnew as [Hb Hu].
  destruct (block_idx_u32 s lba Hlo Hb) as (Hbi & Hlba & _). rewrite Hlba, Nat2Z.id.
  destruct (Z.ltb_spec (Z.of_nat k) 12) as [Hlt|Hge].
  - unfold get_inode, i_sector. rewrite Hin, Hi. ocbn.
    rewrite (proj2 (Z.leb_le 0 (Z.of_nat k))) by lia. rewrite Nat2Z.id, Hk by lia. ocbn.
    change (0 =? 0) with true. ocbn. cbn [cur_part put_inode set_inodes]. rewrite Hds, Hbi.
    destruct (Hsync (<[p := set_sector i k lba]> (inodes s1))) as (s2 & Hs2 & Ht2 & Hi2).
    unfold put_inode. rewrite Hs2. ocbn. exists s2. split; [done|]. split; [done|]. rewrite Hi2, Hin.
    replace (12 - k)%nat with (S (11 - k)) by lia. cbn [take list_inserts].
    by replace (take (11 - k) []) with (@nil Z) by (by rewrite take_nil).
  - ocbn. rewrite Hds, Hbi. destruct (Hsync (inodes s1)) as (s2 & Hs2 & Ht2 & Hi2).
    replace (set_inodes s1 (inodes s1)) with s1 in Hs2 by (by destruct s1). rewrite Hs2. ocbn. exists s2.
    split; [done|]. split; [done|]. rewrite Hi2, Hin.
    replace (12 - k)%nat with 0%nat by lia. cbn [take list_inserts].
    symmetry. apply insert_id. rewrite Hi. by destruct i.
Qed.

Lemma add_blocks_spec p n : ∀ s i ab (a : nat),
  layout_ok (cur_part s) → bd_ok (disk s) → (n ≤ n_free (block_bitmap (cur_part s)))%nat →
  inodes s !! p = Some i → (∀ k, (a ≤ k < 12)%nat → i_sectors i !! k = Some 0) →
  ∃ new s', add_blocks s p ab (Z.of_nat a) (Z.of_nat (a + n)) = Ok (Some (list_inserts a new ab), s') ∧
    length new = n ∧ took s s' new [] ∧
    inodes s' = <[p := set_sectors i (list_inserts a (take (12 - a) new) (i_sectors i))]> (inodes s).
Proof.
  induction n as [|n IH]; intros s i ab a Hlo Hok Hn Hi Hz.
  - unfold add_blocks. rewrite Nat.add_0_r. erewrite loop_exit; [|by rewrite (proj2 (Z.ltb_ge _ _)) by lia].
    exists [], s. split; [done|]. split; [done|]. split; [by apply took_refl|].
    rewrite take_nil. cbn. symmetry. apply insert_id. rewrite Hi. by destruct i.
  - destruct (add_block_spec s p i ab a Hlo Hok ltac:(lia) Hi) as (lba & s1 & Hab & Ht & Hi1).
    { intros Hk. apply Hz. lia. }
    set (i1 := set_sectors i _) in Hi1.
    pose proof (tk_free _ _ _ _ Ht) as Hf. cbn in Hf.
    destruct (IH s1 i1 (<[a := lba]> ab) (S a)) as (new & s2 & Hl & Hlen & Ht2 & Hi2);
      [exact (tk_layout _ _ _ _ Ht)|exact (tk_disk _ _ _ _ Ht)|lia|by rewrite Hi1, lookup_insert_eq| |].
    { intros k Hk. cbn. rewrite list_lookup_inserts_ge; [apply Hz; lia|]. rewrite length_take. cbn. lia. }
    exists (lba :: new), s2. split; [|split; [cbn; lia|split]].
    + unfold add_blocks in *. replace (Z.to_nat (Z.of_nat (a + S n) - Z.of_nat a)) with (S n) by lia.
      replace (Z.to_nat (Z.of_nat (S a + n) - Z.of_nat (S a))) with n in Hl by lia.
      erewrite loop_step.
      2: { rewrite (proj2 (Z.ltb_lt _ _)) by lia. rewrite Hab. ocbn. reflexivity. }
      replace (Z.of_nat a + 1) with (Z.of_nat (S a)) by lia.
      replace (Z.of_nat (a + S n)) with (Z.of_nat (S a + n)) by lia.
      rewrite Hl. cbn [list_inserts]. by rewrite list_insert_inserts_lt by lia.
    + exact (took_trans _ _ _ _ _ _ _ Ht Ht2).
    + rewrite Hi2, Hi1, insert_insert_eq. f_equal. unfold i1, set_sectors. cbn [i_sectors i_no i_size i_open_cnts write_deny].
      f_equal. destruct (decide (a < 12)%nat) as [Ha|Ha].
      * replace (12 - a)%nat with (S (12 - S a)) by lia. cbn [take list_inserts].
        rewrite take_nil. cbn [list_inserts]. by rewrite list_insert_inserts_lt by lia.
      * replace (12 - a)%nat with 0%nat by lia. by replace (12 - S a)%nat with 0%nat by lia.
Qed.

(** ** What a file is *)

Definition table_of (i : inode) : Z := default 0 (i_sectors i !! 12%nat).

(** [bl] are the addresses of the blocks the inode [i] has, in order; [get] is
    the disk. *)
Record block_map (get : Z → list Z) (i : inode) (bl : list Z) : Prop := {
  bm_len : (length bl ≤ 140)%nat;
  bm_sectors : length (i_sectors i) = 13%nat;
  bm_direct k : (k < 12)%nat → i_sectors i !! k = Some (default 0 (bl !! k));
  bm_none : (length bl ≤ 12)%nat → table_of i = 0;
  bm_table : (12 < length bl)%nat → table_of i ≠ 0 ∧
    words_at (get (table_of i)) 0 128 = drop 12 bl ++ replicate (140 - length bl) 0
}.

(** All sectors of the data area the file has. *)
Definition owned (i : inode) (bl : list Z) : list Z :=
  bl ++ if decide (12 < length bl)%nat then [table_of i] else [].

(** The inode object at [p] is [i], with blocks [bl], and the file contains [data]. *)
Record file_ok s (p : Z) (i : inode) (bl data : list Z) : Prop := {
  fo_inode : inodes s !! p = Some i;
  fo_iok : inode_ok i;
  fo_map : block_map (bd_sector (disk s)) i bl;
  fo_count : Z.of_nat (length bl) = i_size i / 512 + 1 ∨ (bl = [] ∧ i_size i = 0);
  fo_nodup : NoDup (owned i bl);
  fo_used : Forall (λ l, is_block (cur_part s) l ∧ block_used (cur_part s) l = true) (owned i bl);
  fo_data : data = take (Z.to_nat (i_size i)) (bl ≫= bd_sector (disk s))
}.

Lemma table_lookup get i bl : block_map get i bl → i_sectors i !! 12%nat = Some (table_of i).
Proof.
  intros Hm. pose proof (bm_sectors _ _ _ Hm). unfold table_of.
  destruct (lookup_lt_is_Some_2 (i_sectors i) 12) as [t ->]; [lia|done].
Qed.

(** [ab] lists the addresses [bl] from index [from] on and zeros behind them. *)
Definition lists (ab bl : list Z) (from : nat) : Prop :=
  length ab = 140%nat ∧ ∀ k, (from ≤ k < 140)%nat → ab !! k = Some (default 0 (bl !! k)).

Lemma lists_weaken ab bl from from' : lists ab bl from → (from ≤ from')%nat → lists ab bl from'.
Proof. intros [Hl Hk] Hle. split; [done|]. intros k Hk'. apply Hk. lia. Qed.

(** The last address in a cleared list. *)
Lemma lists_last bl b : bl !! (length bl - 1)%nat = Some b → (length bl ≤ 140)%nat →
  lists (<[(length bl - 1)%nat := b]> (replicate 140 0)) bl (length bl - 1).
Proof.
  intros Hb Hl. pose proof (lookup_lt_Some _ _ _ Hb). split; [by rewrite length_insert, length_replicate|].
  intros k Hk. destruct (decide (k = length bl - 1)%nat) as [->|Hne].
  - rewrite list_lookup_insert_eq by (rewrite length_replicate; lia). by rewrite Hb.
  - rewrite list_lookup_insert_ne by done. rewrite lookup_replicate_2 by lia.
    by rewrite (lookup_ge_None_2 bl) by lia.
Qed.

(** The indirect block table read behind a cleared list. *)
Lemma lists_table get i bl : block_map get i bl → (12 < length bl)%nat →
  lists (take 12 (replicate 140 0) ++ words_at (get (table_of i)) 0 128) bl 12.
Proof.
  intros Hm Hl. destruct (bm_table _ _ _ Hm Hl) as [_ ->]. pose proof (bm_len _ _ _ Hm).
  split; [rewrite !length_app, length_take, !length_replicate, length_drop; lia|].
  intros k Hk. rewrite lookup_app_r by (rewrite length_take, length_replicate; lia).
  rewrite length_take, length_replicate. change (12 `min` 140)%nat with 12%nat.
  destruct (decide (k < length bl)%nat) as [Hin|Hout].
  - rewrite lookup_app_l by (rewrite length_drop; lia). rewrite lookup_drop.
    replace (12 + (k - 12))%nat with k by lia. destruct (lookup_lt_is_Some_2 bl k Hin) as [x ->]. done.
  - rewrite lookup_app_r by (rewrite length_drop; lia). rewrite lookup_replicate_2 by (rewrite length_drop; lia).
    by rewrite (lookup_ge_None_2 bl) by lia.
Qed.

Lemma lists_add ab bl new from : lists ab bl from → (from ≤ length bl)%nat → (length (bl ++ new) ≤ 140)%nat →
  lists (list_inserts (length bl) new ab) (bl ++ new) from.
Proof.
  intros [Hl Hk] Hf Hn. rewrite length_app in Hn. split; [by rewrite length_inserts|]. intros k Hk'.
  destruct (decide (k < length bl)%nat) as [H1|H1].
  - rewrite list_lookup_inserts_lt, lookup_app_l by done. by apply Hk.
  - destruct (decide (k < length bl + length new)%nat) as [H2|H2].
    + rewrite list_lookup_inserts, lookup_app_r by lia.
      destruct (lookup_lt_is_Some_2 new (k - length bl)) as [x ->]; [lia|done].
    + rewrite list_lookup_inserts_ge, Hk by lia.
      by rewrite (lookup_ge_None_2 (bl ++ new)), (lookup_ge_None_2 bl) by (rewrite ?length_app; lia).
Qed.

(** The table written from such a list. *)
Lemma lists_drop ab bl from : lists ab bl from → (from ≤ 12)%nat → (12 ≤ length bl ≤ 140)%nat →
  drop 12 ab = drop 12 bl ++ replicate (140 - length bl) 0.
Proof.
  intros [Hl Hk] Hf Hn. apply list_eq. intros k. rewrite lookup_drop. destruct (decide (k < 128)%nat) as [H1|H1].
  - rewrite Hk by lia. destruct (decide (12 + k < length bl)%nat) as [H2|H2].
    + rewrite lookup_app_l, lookup_drop by (rewrite length_drop; lia).
      destruct (lookup_lt_is_Some_2 bl (12 + k)) as [x ->]; [lia|done].
    + rewrite lookup_app_r, lookup_replicate_2, (lookup_ge_None_2 bl) by (rewrite ?length_drop; lia). done.
  - rewrite !lookup_ge_None_2; [done| |lia]. rewrite length_app, length_drop, length_replicate. lia.
Qed.

(** ** Collecting the addresses *)

(** After [collect_blocks] the file has the blocks [new] more and [ab] lists the
    addresses from its last old block on. Apart from the bitmap only the
    indirect block table was written. *)
Definition collected s s' (p : Z) (i : inode) (bl ab new : list Z) : Prop := ∃ i' taken ws,
  took s s' taken ws ∧ inodes s' = <[p := i']> (inodes s) ∧ i' = set_sectors i (i_sectors i') ∧
  block_map (bd_sector (disk s')) i' (bl ++ new) ∧ Forall word (i_sectors i') ∧
  owned i' (bl ++ new) ≡ₚ owned i bl ++ taken ∧
  Forall (λ l, l = table_of i' ∧ (12 < length (bl ++ new))%nat) ws ∧
  lists ab (bl ++ new) (length bl - 1).

Lemma took_read s s' new ws d : took s s' new ws → same_sectors (disk s') d → took s (set_disk s' d) new ws.
Proof.
  intros [] [Hok Hs]. constructor; try done. intros l Hl Hw. cbn. rewrite Hs. by apply tk_sectors0.
Qed.

Lemma took_write s s' new ws d t : took s s' new ws → bd_ok d →
  (∀ l, l ≠ t → bd_sector d l = bd_sector (disk s') l) → took s (set_disk s' d) new (ws ++ [t]).
Proof.
  intros [] Hok Hs. constructor; try done. intros l Hl Hw. apply not_elem_of_app in Hw as [Hw Ht].
  cbn. rewrite Hs; [by apply tk_sectors0|]. intros ->. apply Ht. by left.
Qed.

Lemma write_table_spec s ab t : bd_ok (disk s) → 0 ≤ t < bd_size → length ab = 140%nat → Forall word (drop 12 ab) →
  ∃ d, write_table s ab t = Ok (set_disk s d) ∧ bd_ok d ∧ words_at (bd_sector d t) 0 128 = drop 12 ab ∧
    ∀ l, l ≠ t → bd_sector d l = bd_sector (disk s) l.
Proof.
  intros Hok Ht Hl Hw. unfold write_table.
  assert (length (drop 12 ab) = 128%nat) as Hd by (rewrite length_drop; lia).
  destruct (ide_write1 s t (words_bytes (drop 12 ab)) Hok Ht) as (d & -> & Hokd & Hs);
    [rewrite words_bytes_length; lia|apply words_bytes_ok|].
  exists d. split; [done|]. split; [done|]. split.
  - rewrite Hs, bool_decide_eq_true_2 by done. rewrite <- Hd, <- (app_nil_r (words_bytes _)). by apply words_at_bytes.
  - intros l Hne. by rewrite Hs, bool_decide_eq_false_2.
Qed.

Lemma read_table_spec s ab t : bd_ok (disk s) → 0 ≤ t < bd_size →
  ∃ d, read_table s ab t = Ok (take 12 ab ++ words_at (bd_sector (disk s) t) 0 128, set_disk s d) ∧
    same_sectors (disk s) d.
Proof.
  intros Hok Ht. unfold read_table. destruct (ide_read1 s t Hok Ht) as (d & -> & Hs). ocbn. by exists d.
Qed.

(** Blocks are words and lie on the disk. *)
Lemma block_word m l : layout_ok m → is_block m l → word l ∧ 0 < l < bd_size.
Proof. intros Hlo Hb. pose proof (layout_bounds _ Hlo). unfold is_block, block_no, word in *. lia. Qed.

Lemma blocks_words m bl n : layout_ok m → Forall (is_block m) bl → Forall word (drop 12 bl ++ replicate n 0).
Proof.
  intros Hlo Hb. apply Forall_app. split.
  - apply Forall_drop. eapply Forall_impl; [exact Hb|]. intros l Hl. by apply (block_word m).
  - apply Forall_replicate. unfold word. lia.
Qed.

Lemma owned_blocks i bl l : l ∈ bl → l ∈ owned i bl.
Proof. intros Hl. apply elem_of_app. by left. Qed.

Lemma owned_table i bl : (12 < length bl)%nat → table_of i ∈ owned i bl.
Proof. intros Hl. unfold owned. rewrite decide_True by done. apply elem_of_app. right. by left. Qed.

Section cases.
Context s (p : Z) (i : inode) (bl data : list Z).
Hypothesis Hlo : layout_ok (cur_part s).
Hypothesis Hok : bd_ok (disk s).
Hypothesis Hf : file_ok s p i bl data.
Hypothesis Hne : bl ≠ [].

Let Hi : inodes s !! p = Some i := fo_inode _ _ _ _ _ Hf.
Let Hm : block_map (bd_sector (disk s)) i bl := fo_map _ _ _ _ _ Hf.

Lemma last_block_at : ∃ b, bl !! (length bl - 1)%nat = Some b ∧ b ≠ 0.
Proof.
  destruct (lookup_lt_is_Some_2 bl (length bl - 1)) as [b Hb].
  { destruct bl; [done|cbn; lia]. }
  exists b. split; [done|]. apply list_elem_of_lookup_2 in Hb. apply (owned_blocks i) in Hb.
  pose proof (fo_used _ _ _ _ _ Hf) as Hu. rewrite Forall_forall in Hu. destruct (Hu _ Hb) as [Hbl _].
  destruct (block_word _ _ Hlo Hbl). lia.
Qed.

Lemma table_on_disk : (12 < length bl)%nat → 0 < table_of i < bd_size.
Proof.
  intros Hl. pose proof (fo_used _ _ _ _ _ Hf) as Hu. rewrite Forall_forall in Hu.
  destruct (Hu _ (owned_table i bl Hl)) as [Hb _]. by destruct (block_word _ _ Hlo Hb).
Qed.

Lemma used_blocks : Forall (is_block (cur_part s)) bl.
Proof.
  apply Forall_forall. intros l Hl. pose proof (fo_used _ _ _ _ _ Hf) as Hu. rewrite Forall_forall in Hu.
  by apply (Hu l), owned_blocks.
Qed.

(** [file_has_used_blocks - 1] is the index of the last block. *)
Lemma i_sector_last b : bl !! (length bl - 1)%nat = Some b → (length bl ≤ 12)%nat →
  i_sector i (Z.of_nat (length bl) - 1) = Ok b ∧ Z.to_nat (Z.of_nat (length bl) - 1) = (length bl - 1)%nat.
Proof.
  intros Hb Hl. pose proof (lookup_lt_Some _ _ _ Hb). split; [|lia]. unfold i_sector.
  rewrite (proj2 (Z.leb_le _ _)) by lia. replace (Z.to_nat _) with (length bl - 1)%nat by lia.
  rewrite (bm_direct _ _ _ Hm) by lia. by rewrite Hb.
Qed.

Lemma collect_same : ∃ ab s', collect_blocks s p (Z.of_nat (length bl)) (Z.of_nat (length bl)) = Ok (Some ab, s') ∧
  collected s s' p i bl ab [].
Proof.
  unfold collect_blocks, get_inode. rewrite Hi. ocbn. rewrite Z.sub_diag. change (u32 0 =? 0) with true.
  assert (∀ ab s', took s s' [] [] → inodes s' = inodes s → (∀ l, bd_sector (disk s') l = bd_sector (disk s) l) →
    lists ab bl (length bl - 1) → collected s s' p i bl ab []) as Hcol.
  { intros ab s' Ht Hin Hs Hl. exists i, [], []. rewrite !app_nil_r. split; [done|].
    split; [rewrite Hin; symmetry; by apply insert_id|]. split; [by destruct i|].
    split; [|split; [apply (io_sectors _ (fo_iok _ _ _ _ _ Hf))|split; [done|split; [by constructor|done]]]].
    destruct Hm. constructor; try done. intros H12. rewrite Hs. by apply bm_table0. }
  destruct last_block_at as (b & Hb & _). cbv iota. destruct (Z.leb_spec (Z.of_nat (length bl)) 12) as [H12|H12].
  - destruct (i_sector_last b Hb) as [-> ->]; [lia|]. ocbn. eexists _, s. split; [done|].
    apply Hcol; [by apply took_refl|done|done|]. apply lists_last; [done|]. apply (bm_len _ _ _ Hm).
  - unfold i_sector. rewrite (proj2 (Z.leb_le 0 12)) by lia. change (Z.to_nat 12) with 12%nat.
    rewrite (table_lookup _ _ _ Hm). ocbn. pose proof (table_on_disk ltac:(lia)).
    rewrite (proj2 (Z.eqb_neq (table_of i) 0)) by lia. ocbn.
    destruct (read_table_spec s (replicate 140 0) (table_of i)) as (d & -> & Hs); [done|lia|]. ocbn.
    eexists _, _. split; [done|]. apply Hcol; [by apply took_read; [apply took_refl|]|done|apply Hs|].
    eapply lists_weaken; [by apply lists_table; [exact Hm|lia]|lia].
Qed.

(** The inode with the addresses of the direct blocks among [new]; [j] is the
    inode with the table possibly set. *)
Lemma direct_added j new get : i_sectors j = <[12%nat := table_of j]> (i_sectors i) →
  (length (bl ++ new) ≤ 140)%nat →
  let i' := set_sectors j (list_inserts (length bl) (take (12 - length bl) new) (i_sectors j)) in
  table_of i' = table_of j ∧
  (((length (bl ++ new) ≤ 12)%nat → table_of j = 0) →
   ((12 < length (bl ++ new))%nat → table_of j ≠ 0 ∧
     words_at (get (table_of j)) 0 128 = drop 12 (bl ++ new) ++ replicate (140 - length (bl ++ new)) 0) →
   block_map get i' (bl ++ new)).
Proof.
  intros Hj Hn i'. pose proof (bm_sectors _ _ _ Hm) as Hs.
  assert (table_of i' = table_of j) as Ht.
  { unfold i', table_of at 1. cbn [i_sectors set_sectors].
    destruct (decide (length bl ≤ 12)%nat) as [Hl|Hl].
    - rewrite list_lookup_inserts_ge by (rewrite length_take; lia).
      rewrite Hj, list_lookup_insert_eq by lia. done.
    - rewrite list_lookup_inserts_lt by lia. rewrite Hj, list_lookup_insert_eq by lia. done. }
  split; [done|]. intros H0 H1. constructor.
  - done.
  - unfold i'. cbn. by rewrite length_inserts, Hj, length_insert.
  - intros k Hk. unfold i'. cbn [i_sectors set_sectors]. destruct (decide (k < length bl)%nat) as [Hkl|Hkl].
    + rewrite list_lookup_inserts_lt, lookup_app_l by lia.
      rewrite Hj, list_lookup_insert_ne by lia. apply (bm_direct _ _ _ Hm k Hk).
    + rewrite lookup_app_r by lia. destruct (decide (k < length bl + length new)%nat) as [Hkn|Hkn].
      * rewrite list_lookup_inserts.
        -- rewrite lookup_take_lt by lia. destruct (lookup_lt_is_Some_2 new (k - length bl)) as [x ->]; [lia|done].
        -- rewrite length_take. lia.
        -- rewrite Hj, length_insert. lia.
      * rewrite list_lookup_inserts_ge by (rewrite length_take; lia).
        rewrite Hj, list_lookup_insert_ne by lia. rewrite (bm_direct _ _ _ Hm k Hk).
        by rewrite (lookup_ge_None_2 bl), (lookup_ge_None_2 new) by lia.
  - rewrite Ht. done.
  - rewrite Ht. done.
Qed.

Lemma direct_unused k : (length bl ≤ k < 12)%nat → i_sectors i !! k = Some 0.
Proof. intros Hk. rewrite (bm_direct _ _ _ Hm) by lia. by rewrite lookup_ge_None_2 by lia. Qed.

Lemma sectors_words_inserts l k new : Forall word l → Forall word new → Forall word (list_inserts k new l).
Proof.
  intros Hl Hn. revert k. induction Hn as [|x new Hx Hn IH]; intros k; cbn; [done|].
  apply Forall_insert; [apply IH|done].
Qed.

Lemma set_table_same : i_sectors i = <[12%nat := table_of i]> (i_sectors i).
Proof. symmetry. apply list_insert_id. apply (table_lookup _ _ _ Hm). Qed.

Lemma took_words s' new ws : took s s' new ws → Forall word new.
Proof.
  intros Ht. eapply Forall_impl; [exact (tk_new _ _ _ _ Ht)|]. intros l [Hb _]. by apply (block_word _ _ Hlo).
Qed.

Lemma collect_direct n : (1 ≤ n)%nat → (length bl + n ≤ 12)%nat → (n ≤ n_free (block_bitmap (cur_part s)))%nat →
  ∃ ab new s', collect_blocks s p (Z.of_nat (length bl)) (Z.of_nat (length bl + n)) = Ok (Some ab, s') ∧
    length new = n ∧ collected s s' p i bl ab new.
Proof.
  intros Hn H12 Hfree. unfold collect_blocks, get_inode. rewrite Hi. ocbn.
  rewrite (proj2 (Z.eqb_neq (u32 _) 0)) by (rewrite u32_small; lia). rewrite (proj2 (Z.leb_le _ 12)) by lia. cbv iota.
  destruct last_block_at as (b & Hb & Hb0). destruct (i_sector_last b Hb) as [-> ->]; [lia|]. ocbn.
  rewrite (proj2 (Z.eqb_neq b 0)) by lia. ocbn.
  destruct (add_blocks_spec p n s i (<[(length bl - 1)%nat := b]> (replicate 140 0)) (length bl) Hlo Hok Hfree Hi)
    as (new & s' & -> & Hlen & Ht & Hin); [intros; apply direct_unused; lia|].
  destruct (direct_added i new (bd_sector (disk s')) set_table_same) as [Htab Hmap]; [rewrite length_app; lia|].
  eexists _, new, s'. split; [done|]. split; [done|]. exists (set_sectors i (list_inserts (length bl) (take (12 - length bl) new) (i_sectors i))), new, [].
  split; [done|]. split; [done|]. split; [done|]. split; [|split; [|split; [|split; [by constructor|]]]].
  - apply Hmap; rewrite length_app; [|lia]. intros _. apply (bm_none _ _ _ Hm). lia.
  - cbn. apply sectors_words_inserts; [apply (io_sectors _ (fo_iok _ _ _ _ _ Hf))|].
    apply Forall_take. exact (took_words _ _ _ Ht).
  - unfold owned. rewrite !decide_False by (rewrite ?length_app; lia). by rewrite !app_nil_r.
  - apply lists_add; [|lia|rewrite length_app; lia]. apply lists_last; [done|lia].
Qed.

Lemma collect_indirect n : (1 ≤ n)%nat → (12 < length bl)%nat → (length bl + n ≤ 140)%nat →
  (n ≤ n_free (block_bitmap (cur_part s)))%nat →
  ∃ ab new s', collect_blocks s p (Z.of_nat (length bl)) (Z.of_nat (length bl + n)) = Ok (Some ab, s') ∧
    length new = n ∧ collected s s' p i bl ab new.
Proof.
  intros Hn H12 H140 Hfree. unfold collect_blocks, get_inode. rewrite Hi. ocbn.
  rewrite (proj2 (Z.eqb_neq (u32 _) 0)) by (rewrite u32_small; lia).
  rewrite !(proj2 (Z.leb_gt _ 12)) by lia. cbv iota.
  unfold i_sector at 1. rewrite (proj2 (Z.leb_le 0 12)) by lia. change (Z.to_nat 12) with 12%nat.
  rewrite (table_lookup _ _ _ Hm). ocbn. pose proof (table_on_disk H12).
  rewrite (proj2 (Z.eqb_neq (table_of i) 0)) by lia. ocbn.
  destruct (read_table_spec s (replicate 140 0) (table_of i)) as (d & -> & Hs); [done|lia|]. ocbn.
  set (ab := take 12 _ ++ _). assert (lists ab bl 12) as Hab by (apply lists_table; [exact Hm|lia]).
  destruct (add_blocks_spec p n (set_disk s d) i ab (length bl) Hlo (proj1 Hs) Hfree Hi)
    as (new & s1 & -> & Hlen & Ht & Hin); [intros; lia|]. ocbn.
  assert (took s s1 new []) as Ht1.
  { apply (took_trans s (set_disk s d) s1 [] new [] []); [|done]. by apply took_read; [apply took_refl|]. }
  assert (lists (list_inserts (length bl) new ab) (bl ++ new) 12) as Hab'.
  { apply lists_add; [done|lia|rewrite length_app; lia]. }
  destruct (write_table_spec s1 (list_inserts (length bl) new ab) (table_of i)) as (d2 & -> & Hok2 & Hw & Hs2).
  { exact (tk_disk _ _ _ _ Ht1). } { lia. } { apply Hab'. }
  { rewrite (lists_drop _ _ _ Hab') by (rewrite ?length_app; lia). apply (blocks_words (cur_part s)); [done|].
    apply Forall_app. split; [exact used_blocks|]. eapply Forall_impl; [exact (tk_new _ _ _ _ Ht1)|]. by intros l []. }
  ocbn. eexists _, new, _. split; [done|]. split; [done|].
  rewrite (lists_drop _ _ _ Hab') in Hw by (rewrite ?length_app; lia).
  destruct (direct_added i new (bd_sector d2) set_table_same) as [Htab Hmap]; [rewrite length_app; lia|].
  exists (set_sectors i (list_inserts (length bl) (take (12 - length bl) new) (i_sectors i))), new, [table_of i].
  split; [by apply (took_write s s1 new [] d2 (table_of i))|].
  split; [done|]. split; [done|]. split; [|split; [|split; [|split]]].
  - cbn. apply Hmap; rewrite length_app; [lia|]. intros _. split; [lia|]. by rewrite <- length_app.
  - cbn. apply sectors_words_inserts; [apply (io_sectors _ (fo_iok _ _ _ _ _ Hf))|].
    apply Forall_take. exact (took_words _ _ _ Ht1).
  - unfold owned. rewrite !decide_True by (rewrite ?length_app; lia). rewrite Htab.
    rewrite <- !app_assoc. apply Permutation_app_head, Permutation_app_comm.
  - apply Forall_singleton. rewrite Htab. split; [done|]. rewrite length_app. lia.
  - eapply lists_weaken; [exact Hab'|lia].
Qed.

Lemma collect_crossing n : (length bl ≤ 12)%nat → (12 < length bl + n ≤ 140)%nat →
  (S n ≤ n_free (block_bitmap (cur_part s)))%nat →
  ∃ ab new s', collect_blocks s p (Z.of_nat (length bl)) (Z.of_nat (length bl + n)) = Ok (Some ab, s') ∧
    length new = n ∧ collected s s' p i bl ab new.
Proof.
  intros H12 H140 Hfree. unfold collect_blocks.
  rewrite (get_inode_ok s p i) by done. ocbn.
  rewrite (proj2 (Z.eqb_neq (u32 _) 0)) by (rewrite u32_small; lia).
  rewrite (proj2 (Z.leb_gt _ 12)), (proj2 (Z.leb_le _ 12)) by lia. cbv iota.
  destruct last_block_at as (b & Hb & Hb0). destruct (i_sector_last b Hb) as [-> ->]; [lia|]. ocbn.
  destruct (alloc_sync s Hlo Hok ltac:(lia)) as (t & s1 & -> & Hr & Hne1 & _ & Hin1 & _ & Ht1 & _). ocbn.
  rewrite (proj2 (Z.eqb_neq t (-1))) by lia. unfold get_inode. rewrite Hin1, Hi. ocbn.
  unfold i_sector. rewrite (proj2 (Z.leb_le 0 12)) by lia. change (Z.to_nat 12) with 12%nat.
  rewrite (table_lookup _ _ _ Hm), (bm_none _ _ _ Hm H12). ocbn. change (0 =? 0) with true. ocbn.
  pose proof (tk_new _ _ _ _ Ht1) as Hnewt. apply Forall_singleton in Hnewt as [Htb Htu].
  destruct (block_idx_u32 s t Hlo Htb) as (_ & -> & Ht0).
  set (j := set_sector i 12 t). assert (length (i_sectors i) = 13%nat) as Hs13 by apply (bm_sectors _ _ _ Hm).
  assert (table_of j = t) as Hjt by (unfold table_of; cbn; by rewrite list_lookup_insert_eq by lia).
  set (s2 := put_inode s1 p j). assert (took s s2 [t] []) as Ht2 by exact (took_inodes _ _ _ _ _ Ht1).
  pose proof (tk_free _ _ _ _ Ht2) as Hfr. cbn in Hfr.
  destruct (add_blocks_spec p n s2 j (<[(length bl - 1)%nat := b]> (replicate 140 0)) (length bl)
    (tk_layout _ _ _ _ Ht2) (tk_disk _ _ _ _ Ht2)) as (new & s3 & -> & Hlen & Ht3 & Hin3);
    [cbn; lia|by cbn; rewrite lookup_insert_eq|intros k Hk; cbn; rewrite list_lookup_insert_ne by lia; by apply direct_unused|].
  ocbn. pose proof (took_trans _ _ _ _ _ _ _ Ht2 Ht3) as Ht. cbn [app] in Ht.
  set (ab := list_inserts _ _ _). assert (lists ab (bl ++ new) (length bl - 1)) as Hab.
  { apply lists_add; [apply lists_last; [done|lia]|lia|rewrite length_app; lia]. }
  destruct (write_table_spec s3 ab t) as (d & -> & Hokd & Hw & Hsd).
  { exact (tk_disk _ _ _ _ Ht). } { lia. } { apply Hab. }
  { rewrite (lists_drop _ _ _ Hab) by (rewrite ?length_app; lia). apply (blocks_words (cur_part s)); [done|].
    apply Forall_app. split; [exact used_blocks|]. pose proof (tk_new _ _ _ _ Ht) as Hnew.
    apply Forall_cons in Hnew as [_ Hnew]. eapply Forall_impl; [exact Hnew|]. by intros l []. }
  ocbn. eexists _, new, _. split; [done|]. split; [done|].
  rewrite (lists_drop _ _ _ Hab) in Hw by (rewrite ?length_app; lia).
  destruct (direct_added j new (bd_sector d)) as [Htab Hmap]; [by rewrite Hjt|rewrite length_app; lia|].
  rewrite Hjt in Htab, Hmap.
  exists (set_sectors j (list_inserts (length bl) (take (12 - length bl) new) (i_sectors j))), (t :: new), [t].
  split; [by apply (took_write s s3 (t :: new) [] d t)|].
  split; [|split; [done|split; [|split; [|split; [|split]]]]].
  - cbn. rewrite Hin3. cbn. by rewrite Hin1, insert_insert_eq.
  - cbn [disk set_disk]. apply Hmap; rewrite length_app; [lia|]. intros _. split; [lia|]. by rewrite <- length_app.
  - cbn. apply sectors_words_inserts.
    + apply Forall_insert; [apply (io_sectors _ (fo_iok _ _ _ _ _ Hf))|]. by apply (block_word _ _ Hlo).
    + apply Forall_take. pose proof (took_words _ _ _ Ht) as Hwd. by apply Forall_cons in Hwd as [_ ?].
  - unfold owned. rewrite decide_True, decide_False by (rewrite ?length_app; lia). rewrite Htab, app_nil_r, <- app_assoc.
    apply Permutation_app_head. symmetry. apply Permutation_cons_append.
  - apply Forall_singleton. rewrite Htab. split; [done|]. rewrite length_app. lia.
  - exact Hab.
Qed.

(** The number of blocks a write of [n] more blocks takes. *)
Definition blocks_needed (n : nat) : nat :=
  (n + if decide (length bl ≤ 12 < length bl + n)%nat then 1 else 0)%nat.

Lemma collect_blocks_spec n : (length bl + n ≤ 140)%nat → (blocks_needed n ≤ n_free (block_bitmap (cur_part s)))%nat →
  ∃ ab new s', collect_blocks s p (Z.of_nat (length bl)) (Z.of_nat (length bl + n)) = Ok (Some ab, s') ∧
    length new = n ∧ collected s s' p i bl ab new.
Proof.
  intros H140 Hfree. unfold blocks_needed in Hfree. destruct (decide (n = 0%nat)) as [->|Hn].
  { rewrite Nat.add_0_r. destruct collect_same as (ab & s' & -> & Hc). by exists ab, [], s'. }
  destruct (decide (length bl + n ≤ 12)%nat); [apply collect_direct; case_decide; lia|].
  destruct (decide (length bl ≤ 12)%nat); [apply collect_crossing; case_decide; lia|].
  apply collect_indirect; case_decide; lia.
Qed.
End cases.

(** ** The data of a file *)

Lemma concat_length (get : Z → list Z) bl : (∀ l, length (get l) = 512%nat) → length (bl ≫= get) = (length bl * 512)%nat.
Proof.
  intros Hl. induction bl as [|b bl IH]; [done|]. cbn [mbind list_bind]. rewrite length_app, Hl.
  change (list_bind _ _ get bl) with (bl ≫= get). rewrite IH. cbn. lia.
Qed.

Lemma bind_same (get get' : Z → list Z) bl : (∀ l, l ∈ bl → get' l = get l) → bl ≫= get' = bl ≫= get.
Proof.
  induction bl as [|b bl IH]; intros Hl; [done|]. cbn [mbind list_bind]. f_equal; [apply Hl; by left|].
  apply IH. intros l Hin. apply Hl. by right.
Qed.

(** Writing [chunk] at [off] of block [k] appends it to the data before. *)
Lemma append_chunk (get get' : Z → list Z) bl (k : nat) lba old (off : nat) chunk :
  (∀ l, length (get l) = 512%nat) → NoDup bl → bl !! k = Some lba →
  (∀ l, get' l = if bool_decide (l = lba) then splice old (Z.of_nat off) chunk else get l) →
  length old = 512%nat → (off + length chunk ≤ 512)%nat → take off old = take off (get lba) →
  take (k * 512 + off + length chunk) (bl ≫= get') = take (k * 512 + off) (bl ≫= get) ++ chunk.
Proof.
  intros Hl Hnd Hk Hget' Hold Hoff Htk.
  rewrite <- (take_drop_middle bl k lba Hk) in Hnd |- *.
  apply NoDup_app in Hnd as (_ & Hd & Hnd). apply NoDup_cons in Hnd as [Hnin _].
  rewrite !bind_app.
  assert (take k bl ≫= get' = take k bl ≫= get) as ->.
  { apply bind_same. intros l Hin. rewrite Hget', bool_decide_eq_false_2; [done|]. intros ->. apply (Hd lba Hin). by left. }
  assert (length (take k bl ≫= get) = (k * 512)%nat) as Hlen.
  { rewrite concat_length by done. rewrite length_take. apply lookup_lt_Some in Hk. lia. }
  cbn [mbind list_bind]. rewrite Hget', bool_decide_eq_true_2 by done.
  rewrite <- Nat.add_assoc. rewrite (take_app_add' (take k bl ≫= get) _ (k * 512) (off + length chunk)) by done.
  rewrite (take_app_add' (take k bl ≫= get) _ (k * 512) off) by done. rewrite <- app_assoc. f_equal.
  rewrite take_app_le by (rewrite splice_length by lia; lia). unfold splice. rewrite Nat2Z.id.
  rewrite take_app_add' by (rewrite length_take; lia). rewrite take_app_length. rewrite Htk.
  by rewrite take_app_le by (rewrite Hl; lia).
Qed.

(** ** Writing the data *)

Section writing.
Context s (fd p : Z) (f : file) (i : inode) (bl ab data buf : list Z) (count : Z).
Let sz : Z := i_size i.
Hypothesis Hok : bd_ok (disk s).
Hypothesis Hfd : 0 ≤ fd.
Hypothesis Hft : file_table s !! Z.to_nat fd = Some f.
Hypothesis Hpos : word (fd_pos f).
Hypothesis Hi : inodes s !! p = Some i.
Hypothesis Hnd : NoDup bl.
Hypothesis Hon : Forall (λ l, 0 ≤ l < bd_size) bl.
Hypothesis Hab : lists ab bl (Z.to_nat (sz / 512)).
Hypothesis Hlen : Z.of_nat (length bl) = (sz + count) / 512 + 1.
Hypothesis Hbuf : Z.of_nat (length buf) = count.
Hypothesis Hbytes : Forall is_byte buf.
Hypothesis Hsz : 0 ≤ sz ∧ sz + count < 71680.
Hypothesis Hdata : data = take (Z.to_nat sz) (bl ≫= bd_sector (disk s)).

(** [x] is [s] after [w] bytes. *)
Record written x (w : Z) : Prop := {
  wr_part : cur_part x = cur_part s;
  wr_rest : dirs x = dirs s ∧ fd_table x = fd_table s ∧ cwd_inode_nr x = cwd_inode_nr s ∧ live x = live s ∧ nulls x = nulls s;
  wr_files : file_table x = <[Z.to_nat fd := File (u32 (fd_pos f + w)) (fd_flag f) (fd_inode f)]> (file_table s);
  wr_inodes : inodes x = <[p := set_i_size i (sz + w)]> (inodes s);
  wr_disk : bd_ok (disk x);
  wr_sectors l : l ∉ bl → bd_sector (disk x) l = bd_sector (disk s) l;
  wr_data : take (Z.to_nat (sz + w)) (bl ≫= bd_sector (disk x)) = data ++ take (Z.to_nat w) buf
}.

Lemma count_nonneg : 0 ≤ count.
Proof. lia. Qed.

(** How much a round writes with [w] bytes written. *)
Definition chunk_at (w : Z) : Z :=
  let left := 512 - (sz + w) mod 512 in if count - w <? left then count - w else left.

Lemma write_round x w (first : bool) : 0 ≤ w < count → written x w →
  (first = false → (sz + w) mod 512 = 0) →
  ∃ x', write_chunk x fd p ab (drop (Z.to_nat w) buf) (count - w) first = Ok (chunk_at w, x') ∧
    written x' (w + chunk_at w).
Proof.
  intros Hw [Hpt (Hd & Hfdt & Hcwd & Hlv & Hnl) Hfiles Hin Hokx Hsec Hdat] Hfirst. unfold write_chunk, get_file, get_inode.
  rewrite (proj2 (Z.leb_le 0 fd)) by lia. rewrite Hfiles, Hin, lookup_insert_eq.
  rewrite list_lookup_insert_eq by (by eapply lookup_lt_Some). ocbn.
  cbn [i_size set_i_size]. change BLOCK_SIZE with 512. set (k := (sz + w) / 512). set (off := (sz + w) mod 512).
  assert (0 ≤ k ∧ k < Z.of_nat (length bl) ∧ sz / 512 ≤ k < 140 ∧ 0 ≤ off < 512 ∧ sz + w = k * 512 + off)
    as (Hk0 & Hk & Hk140 & Hoff & Hkoff) by (unfold k, off; zdlia).
  destruct (lookup_lt_is_Some_2 bl (Z.to_nat k)) as [lba Hlba]; [lia|].
  assert (block_at ab k = Ok lba) as ->.
  { unfold block_at. rewrite (proj2 (Z.leb_le 0 k)) by lia. destruct Hab as [_ Habk]. rewrite Habk by lia. by rewrite Hlba. }
  ocbn. fold (chunk_at w). change (if count - w <? 512 - off then count - w else 512 - off) with (chunk_at w).
  assert (1 ≤ chunk_at w ≤ 512 - off ∧ chunk_at w ≤ count - w) as [Hc1 Hc2] by (unfold chunk_at; fold off; zcase; lia).
  set (c := chunk_at w) in *. assert (0 ≤ lba < bd_size) as Hlr by exact (Forall_lookup_1 _ _ _ _ Hon Hlba).
  assert (∃ old d, (if first then ide_read x lba 1 else Ok (replicate 512 0, x)) = Ok (old, set_disk x d) ∧
    same_sectors (disk x) d ∧ length old = 512%nat ∧ Forall is_byte old ∧
    take (Z.to_nat off) old = take (Z.to_nat off) (bd_sector d lba)) as (old & d & -> & Hsd & Hold & Hob & Htk).
  { destruct first.
    - destruct (ide_read1 x lba Hokx Hlr) as (d & -> & Hsd). exists (bd_sector (disk x) lba), d. split; [done|].
      split; [done|]. split; [apply bd_sector_len|]. split; [apply bd_sector_bytes|]. by rewrite (proj2 Hsd).
    - exists (replicate 512 0), (disk x). split; [by destruct x|]. split; [done|]. split; [done|].
      split; [by apply Forall_replicate|]. rewrite (Hfirst eq_refl : off = 0). done. }
  ocbn. rewrite length_drop, (proj2 (Z.ltb_ge _ c)) by lia.
  set (chunk := take (Z.to_nat c) (drop (Z.to_nat w) buf)).
  assert (length chunk = Z.to_nat c) as Hcl by (unfold chunk; rewrite length_take, length_drop; lia).
  destruct (ide_write1 (set_disk x d) lba (splice old off chunk)) as (d' & -> & Hokd & Hs');
    [apply Hsd|done|by rewrite splice_length by lia|apply splice_bytes; [done|by apply Forall_take, Forall_drop]|].
  ocbn. eexists. split; [done|]. constructor; cbn [cur_part dirs fd_table cwd_inode_nr live nulls file_table inodes disk put_file put_inode set_file_table set_inodes set_disk].
  - done.
  - done.
  - rewrite Hfiles, list_insert_insert_eq. cbn [fd_pos]. do 2 f_equal. unfold u32. rewrite Zplus_mod_idemp_l. f_equal. lia.
  - rewrite Hin, insert_insert_eq. f_equal. unfold set_i_size. cbn. f_equal. rewrite u32_small by lia. lia.
  - done.
  - intros l Hl. rewrite Hs', bool_decide_eq_false_2.
    + cbn. rewrite (proj2 Hsd). by apply Hsec.
    + intros ->. apply Hl. by eapply list_elem_of_lookup_2.
  - replace (Z.to_nat (sz + (w + c))) with (Z.to_nat k * 512 + Z.to_nat off + length chunk)%nat by lia.
    rewrite (append_chunk (bd_sector d) _ bl (Z.to_nat k) lba old (Z.to_nat off) chunk);
      [|apply bd_sector_len|done|done| |done|lia|done].
    + rewrite (bind_same (bd_sector (disk x)) (bd_sector d)) by (intros; apply Hsd).
      replace (Z.to_nat k * 512 + Z.to_nat off)%nat with (Z.to_nat (sz + w)) by lia. rewrite Hdat, <- app_assoc. f_equal.
      unfold chunk. rewrite take_take_drop. f_equal. lia.
    + intros l. rewrite Hs'. cbn. by rewrite Z2Nat.id by lia.
Qed.

Lemma write_data_loop fuel : ∀ x w (first : bool), 0 ≤ w ≤ count → (Z.to_nat (count - w) < fuel)%nat → written x w →
  (first = false → w = count ∨ (sz + w) mod 512 = 0) →
  ∃ x', loop fuel (λ '(bytes_written, src, first, s),
    if bytes_written <? count then
      '(chunk_size, s) ← write_chunk s fd p ab src (u32 (count - bytes_written)) first;
      Ok (inl (u32 (bytes_written + chunk_size), drop (Z.to_nat chunk_size) src, false, s))
    else Ok (inr (bytes_written, s))) (w, drop (Z.to_nat w) buf, first, x) = Ok (count, x') ∧ written x' count.
Proof.
  induction fuel as [|fuel IH]; intros x w first Hw Hf Hx Hfirst; [lia|].
  destruct (decide (w = count)) as [->|Hne].
  - erewrite loop_exit; [|by rewrite Z.ltb_irrefl]. by exists x.
  - destruct (write_round x w first) as (x' & Hr & Hx'); [lia|done|intros He; destruct (Hfirst He); lia|].
    assert (1 ≤ chunk_at w ≤ count - w ∧ (w + chunk_at w = count ∨ (sz + (w + chunk_at w)) mod 512 = 0)) as [Hc He].
    { unfold chunk_at. zcase; zdlia. }
    erewrite loop_step.
    2: { rewrite (proj2 (Z.ltb_lt w count)) by lia. rewrite (u32_small (count - w)) by lia. rewrite Hr. ocbn.
         rewrite u32_small by lia. rewrite drop_drop. reflexivity. }
    replace (Z.to_nat w + Z.to_nat (chunk_at w))%nat with (Z.to_nat (w + chunk_at w)) by lia.
    apply IH; [lia|lia|done|done].
Qed.

Lemma write_data_spec : ∃ x', write_data s fd p ab buf count = Ok (count, x') ∧ written x' count.
Proof.
  apply (write_data_loop (S (Z.to_nat count)) s 0 true); [lia|lia| |done].
  constructor; try done.
  - rewrite Z.add_0_r. rewrite list_insert_id; [done|]. rewrite Hft, u32_small by exact Hpos. by destruct f.
  - rewrite insert_id; [done|]. rewrite Hi. unfold set_i_size. destruct i; cbn. unfold sz. do 2 f_equal. cbn. lia.
  - rewrite Z.add_0_r, Hdata. cbn. by rewrite app_nil_r.
Qed.
End writing.

(** ** The whole write *)

Lemma file_ok_frame s s' q i bl data : file_ok s q i bl data → inodes s' !! q = Some i →
  (∀ l, l ∈ owned i bl → is_block (cur_part s') l ∧ block_used (cur_part s') l = true ∧
    bd_sector (disk s') l = bd_sector (disk s) l) →
  file_ok s' q i bl data.
Proof.
  intros [Hi Hok Hm Hc Hnd Hu Hd] Hi' Hl. constructor; try done.
  - destruct Hm. constructor; try done. intros H12. rewrite (proj2 (proj2 (Hl _ (owned_table i bl H12)))).
    by apply bm_table0.
  - apply Forall_forall. intros l Hin. by destruct (Hl l Hin) as (? & ? & _).
  - rewrite Hd. f_equal. symmetry. apply bind_same. intros l Hin. by destruct (Hl l (owned_blocks i _ _ Hin)) as (_ & _ & ->).
Qed.

(** The blocks the inode [i'] has after taking [taken]. *)
Lemma owned_grown s s' i i' bl bl' taken ws : layout_ok (cur_part s) →
  took s s' taken ws → NoDup (owned i bl) →
  Forall (λ l, is_block (cur_part s) l ∧ block_used (cur_part s) l = true) (owned i bl) →
  owned i' bl' ≡ₚ owned i bl ++ taken →
  NoDup (owned i' bl') ∧ Forall (λ l, is_block (cur_part s') l ∧ block_used (cur_part s') l = true) (owned i' bl').
Proof.
  intros Hlo Ht Hnd Hu Hp. rewrite Hp. split.
  - apply NoDup_app. split; [done|]. split; [|apply (tk_nodup _ _ _ _ Ht)]. intros l Hl Hl'.
    rewrite Forall_forall in Hu. destruct (Hu l Hl) as [_ Hu1].
    pose proof (tk_new _ _ _ _ Ht) as Hn. rewrite Forall_forall in Hn. destruct (Hn l Hl') as [_ Hu2]. congruence.
  - apply Forall_forall. intros l Hl.
    assert (is_block (cur_part s) l ∧ (block_used (cur_part s) l = true ∨ l ∈ taken)) as [Hb Hor].
    { apply elem_of_app in Hl as [Hl|Hl].
      - rewrite Forall_forall in Hu. destruct (Hu l Hl). auto.
      - pose proof (tk_new _ _ _ _ Ht) as Hn. rewrite Forall_forall in Hn. destruct (Hn l Hl). auto. }
    split; [by apply (took_block _ _ _ _ _ Ht)|]. rewrite (tk_used _ _ _ _ Ht l Hb).
    destruct Hor as [->|Hin]; [done|]. rewrite (bool_decide_eq_true_2 _ Hin). apply orb_true_r.
Qed.

Lemma first_block_spec s p i bl data :
  layout_ok (cur_part s) → bd_ok (disk s) → bit (block_bitmap (cur_part s)) 0 = true →
  file_ok s p i bl data → (bl = [] → 0 < n_free (block_bitmap (cur_part s)))%nat →
  ∃ s' i' bl' taken, first_block s p = Ok (Some tt, s') ∧ file_ok s' p i' bl' data ∧ bl' ≠ [] ∧
    took s s' taken [] ∧ inodes s' = <[p := i']> (inodes s) ∧ i' = set_sectors i (i_sectors i') ∧
    owned i' bl' ≡ₚ owned i bl ++ taken ∧ bl' = bl ++ taken ∧ length bl' = (length bl `max` 1)%nat.
Proof.
  intros Hlo Hok H0 Hf Hn. pose proof Hf as [Hi Hiok Hm Hc Hnd Hu Hd]. unfold first_block, get_inode. rewrite Hi. ocbn.
  unfold i_sector. rewrite (proj2 (Z.leb_le 0 0)) by lia. change (Z.to_nat 0) with 0%nat.
  rewrite (bm_direct _ _ _ Hm) by lia. ocbn. destruct bl as [|b bl].
  - change (default 0 ([] !! 0%nat)) with 0. change (0 =? 0) with true. cbv iota.
    destruct (alloc_sync s Hlo Hok (Hn eq_refl)) as (lba & s1 & -> & Hr & Hne & Hbn & Hin & Hds & Ht & Hsync). ocbn.
    rewrite (proj2 (Z.eqb_neq lba (-1))) by lia.
    pose proof (tk_new _ _ _ _ Ht) as Hnew. apply Forall_singleton in Hnew as [Hb Hus].
    destruct (block_idx_u32 s lba Hlo Hb) as (Hbi & Hlba & Hlr). rewrite Hlba. cbn [cur_part put_inode set_inodes]. rewrite Hds, Hbi.
    rewrite (proj2 (Z.eqb_neq (block_no (cur_part s) lba) 0)).
    2: { intros E. unfold block_used in Hus. rewrite E in Hus. congruence. }
    ocbn. destruct (Hsync (<[p := set_sector i 0 lba]> (inodes s1))) as (s2 & Hs2 & Ht2 & Hi2).
    unfold put_inode. rewrite Hs2. ocbn. rewrite Hin in Hi2.
    assert (length (i_sectors i) = 13%nat) as H13 by apply (bm_sectors _ _ _ Hm).
    exists s2, (set_sector i 0 lba), [lba], [lba]. split; [done|].
    assert (owned (set_sector i 0 lba) [lba] ≡ₚ owned i [] ++ [lba]) as Hown by done.
    destruct (owned_grown s s2 i (set_sector i 0 lba) [] [lba] [lba] [] Hlo Ht2 Hnd Hu Hown) as [Hnd' Hu'].
    split; [|done]. destruct Hc as [Hc|[_ Hz]]; [cbn in Hc; pose proof (io_size _ Hiok); unfold word in *; zdlia|].
    constructor; try done.
    + by rewrite Hi2, lookup_insert_eq.
    + destruct Hiok. constructor; try done; cbn; [|by rewrite length_insert].
      apply Forall_insert; [done|]. by apply (block_word _ _ Hlo).
    + constructor; try done; cbn.
      * lia.
      * by rewrite length_insert.
      * intros k Hk. destruct k as [|k]; [by rewrite list_lookup_insert_eq by lia|].
        rewrite list_lookup_insert_ne by lia. rewrite (bm_direct _ _ _ Hm) by lia. by rewrite !lookup_nil.
      * intros _. unfold table_of. cbn. rewrite list_lookup_insert_ne by lia. apply (bm_none _ _ _ Hm). cbn. lia.
      * lia.
    + left. cbn. rewrite Hz. done.
    + rewrite Hd. cbn. by rewrite Hz.
  - change (default 0 ((b :: bl) !! 0%nat)) with b. rewrite (proj2 (Z.eqb_neq b 0)).
    2: { apply Forall_inv in Hu as [Hb _]. destruct (block_word _ _ Hlo Hb). lia. }
    exists s, i, (b :: bl), []. rewrite !app_nil_r. split; [done|]. split; [done|]. split; [done|].
    split; [by apply took_refl|]. split; [symmetry; by apply insert_id|]. split; [by destruct i|].
    split; [done|]. split; [done|]. cbn. lia.
Qed.

(** The blocks [n] more bytes take. *)
Definition will_use (i : inode) (n : Z) : Z := (i_size i + n) / 512 + 1.
Definition blocks_wanted (i : inode) (bl : list Z) (n : Z) : nat :=
  (Z.to_nat (will_use i n) - length bl +
   if decide (length bl ≤ 12 < Z.to_nat (will_use i n)) then 1 else 0)%nat.

(** [s2] is ready for the data: the file has the blocks [bl2], its data is still [data]. *)
Record prepared s s2 (p : Z) (i i2 : inode) (bl bl2 ab taken data : list Z) : Prop := {
  pr_took : ∃ ws, took s s2 taken ws ∧ Forall (λ l, l ∈ owned i2 bl2) ws;
  pr_inodes : inodes s2 = <[p := i2]> (inodes s);
  pr_inode : i2 = set_sectors i (i_sectors i2);
  pr_map : block_map (bd_sector (disk s2)) i2 bl2;
  pr_words : Forall word (i_sectors i2);
  pr_owned : owned i2 bl2 ≡ₚ owned i bl ++ taken;
  pr_lists : lists ab bl2 (Z.to_nat (i_size i / 512));
  pr_data : data = take (Z.to_nat (i_size i)) (bl2 ≫= bd_sector (disk s2))
}.

Lemma is_block_high m l : layout_ok m → is_block m l → data_start_lba (sb m) ≤ l ∧ inode_bitmap_lba (sb m) ≤ l ∧
  inode_table_lba (sb m) + 608 ≤ l ∧ 0 ≤ l < bd_size.
Proof. intros Hlo Hb. pose proof (layout_bounds _ Hlo). unfold is_block, block_no in Hb. lia. Qed.

Lemma prepare_spec s p i bl data n :
  layout_ok (cur_part s) → bd_ok (disk s) → bit (block_bitmap (cur_part s)) 0 = true →
  file_ok s p i bl data → 0 ≤ n → i_size i + n < 71680 →
  (blocks_wanted i bl n ≤ n_free (block_bitmap (cur_part s)))%nat →
  ∃ s1 s2 i2 bl2 ab taken, first_block s p = Ok (Some tt, s1) ∧
    collect_blocks s1 p (i_size i / 512 + 1) (will_use i n) = Ok (Some ab, s2) ∧
    prepared s s2 p i i2 bl bl2 ab taken data ∧ Z.of_nat (length bl2) = will_use i n.
Proof.
  intros Hlo Hok H0 Hf Hn Hmax Hfree. pose proof (io_size _ (fo_iok _ _ _ _ _ Hf)) as Hsz. unfold word in Hsz.
  assert (0 ≤ i_size i / 512 ∧ i_size i / 512 + 1 ≤ will_use i n ≤ 140) as [Hsz0 Hwill] by (unfold will_use; zdlia).
  assert (Z.of_nat (length bl) = i_size i / 512 + 1 ∨ bl = [] ∧ i_size i / 512 = 0) as Hbl.
  { destruct (fo_count _ _ _ _ _ Hf) as [|[-> ->]]; [by left|right; done]. }
  unfold blocks_wanted in Hfree.
  destruct (first_block_spec s p i bl data Hlo Hok H0 Hf) as
    (s1 & i1 & bl1 & taken1 & Hfb & Hf1 & Hne1 & Ht1 & Hin1 & Hi1 & Hown1 & Hbl1 & Hlen1).
  { intros ->. cbn in Hfree. lia. }
  assert (i_size i1 = i_size i) as Hsz1 by (by rewrite Hi1).
  assert (Z.of_nat (length bl1) = i_size i / 512 + 1) as Hlen.
  { rewrite Hlen1. destruct Hbl as [Hb|[-> Hz]]; cbn; lia. }
  pose proof (tk_free _ _ _ _ Ht1) as Hfr. assert (length bl1 = length bl + length taken1)%nat as Hlt by (by rewrite Hbl1, length_app).
  destruct (collect_blocks_spec s1 p i1 bl1 data (tk_layout _ _ _ _ Ht1) (tk_disk _ _ _ _ Ht1) Hf1 Hne1
    (Z.to_nat (will_use i n) - length bl1)) as (ab & new & s2 & Hcb & Hnew & Hcol); [lia| |].
  { unfold blocks_needed. repeat case_decide; lia. }
  replace (length bl1 + (Z.to_nat (will_use i n) - length bl1))%nat with (Z.to_nat (will_use i n)) in Hcb by lia.
  rewrite Z2Nat.id, Hlen in Hcb by lia.
  destruct Hcol as (i2 & taken2 & ws & Ht2 & Hin2 & Hi2 & Hm2 & Hw2 & Hown2 & Hws & Hab).
  exists s1, s2, i2, (bl1 ++ new), ab, (taken1 ++ taken2). split; [done|]. split; [done|].
  destruct (owned_grown _ _ _ _ _ _ _ _ (tk_layout _ _ _ _ Ht1) Ht2 (fo_nodup _ _ _ _ _ Hf1) (fo_used _ _ _ _ _ Hf1) Hown2) as [Hnd2 Hu2].
  split; [|rewrite length_app; lia]. constructor; try done.
  - exists ([] ++ ws). split; [exact (took_trans _ _ _ _ _ _ _ Ht1 Ht2)|]. eapply Forall_impl; [exact Hws|].
    intros l [-> Hl]. by apply owned_table.
  - by rewrite Hin2, Hin1, insert_insert_eq.
  - rewrite Hi2, Hi1 at 1. done.
  - by rewrite Hown2, Hown1, app_assoc.
  - eapply lists_weaken; [exact Hab|]. lia.
  - rewrite (fo_data _ _ _ _ _ Hf1), Hsz1, list.bind_app, take_app_le by (rewrite concat_length by apply bd_sector_len; zdlia).
    f_equal. symmetry. apply bind_same. intros l Hl. apply (tk_sectors _ _ _ _ Ht2).
    + pose proof (fo_used _ _ _ _ _ Hf1) as Hu1. rewrite Forall_forall in Hu1.
      destruct (Hu1 l (owned_blocks _ _ _ Hl)) as [Hb _]. apply (is_block_high _ _ (tk_layout _ _ _ _ Ht1) Hb).
    + intros Hlw. rewrite Forall_forall in Hws. destruct (Hws l Hlw) as [-> H12].
      unfold owned in Hnd2. rewrite decide_True in Hnd2 by done. apply NoDup_app in Hnd2 as (_ & Hd & _).
      apply (Hd (table_of i2)); [apply elem_of_app; by left|by left].
Qed.

Lemma prepared_blocks s s2 p i i2 bl bl2 ab taken data : layout_ok (cur_part s) → file_ok s p i bl data →
  prepared s s2 p i i2 bl bl2 ab taken data →
  NoDup (owned i2 bl2) ∧
  Forall (λ l, is_block (cur_part s2) l ∧ block_used (cur_part s2) l = true) (owned i2 bl2) ∧
  layout_ok (cur_part s2) ∧ bd_ok (disk s2).
Proof.
  intros Hlo Hf Hp. destruct (pr_took _ _ _ _ _ _ _ _ _ _ Hp) as (ws & Ht & _).
  destruct (owned_grown _ _ _ _ _ _ _ _ Hlo Ht (fo_nodup _ _ _ _ _ Hf) (fo_used _ _ _ _ _ Hf) (pr_owned _ _ _ _ _ _ _ _ _ _ Hp)).
  split; [done|]. split; [done|]. split; [apply (tk_layout _ _ _ _ Ht)|apply (tk_disk _ _ _ _ Ht)].
Qed.

(** What the write leaves: [s2] is the state after [collect_blocks], [x] the one
    after the data, [s'] the end. *)
Lemma write_result s s2 x s' p i i2 bl bl2 ab taken data buf fd f :
  layout_ok (cur_part s) → file_ok s p i bl data → prepared s s2 p i i2 bl bl2 ab taken data →
  Z.of_nat (length bl2) = will_use i (Z.of_nat (length buf)) → i_size i + Z.of_nat (length buf) < 71680 →
  written s2 fd p f i2 bl2 data buf x (Z.of_nat (length buf)) →
  cur_part s' = cur_part x → inodes s' = inodes x →
  (∀ l, l < inode_table_lba (sb (cur_part x)) ∨ inode_table_lba (sb (cur_part x)) + 608 ≤ l →
    bd_sector (disk s') l = bd_sector (disk x) l) →
  file_ok s' p (set_i_size i2 (i_size i + Z.of_nat (length buf))) bl2 (data ++ buf) ∧
  ∀ q iq blq dq, q ≠ p → file_ok s q iq blq dq → (∀ l, l ∈ owned iq blq → l ∉ owned i bl) →
    file_ok s' q iq blq dq.
Proof.
  intros Hlo Hf Hp Hlen Hmax [Hpt _ _ Hin _ Hsec Hdat] Hpart Hinodes Hsync.
  destruct (prepared_blocks _ _ _ _ _ _ _ _ _ _ Hlo Hf Hp) as (Hnd & Hu & Hlo2 & _).
  destruct Hp as [(ws & Ht & Hws) Hin2 Hi2 Hm Hw Hown Hab Hd].
  assert (i_size i2 = i_size i) as Hsz by (by rewrite Hi2). rewrite Hsz in Hin, Hdat.
  pose proof (io_size _ (fo_iok _ _ _ _ _ Hf)) as Hszr. unfold word in Hszr.
  assert (∀ l, is_block (cur_part s2) l → bd_sector (disk s') l = bd_sector (disk x) l) as Hs'.
  { intros l Hb. apply Hsync. rewrite Hpt. right. apply (is_block_high _ _ Hlo2 Hb). }
  rewrite Forall_forall in Hu. split.
  - constructor.
    + by rewrite Hinodes, Hin, lookup_insert_eq.
    + pose proof (fo_iok _ _ _ _ _ Hf) as []. rewrite Hi2. constructor; cbn; try done; [unfold word in *; lia|].
      apply (bm_sectors _ _ _ Hm).
    + destruct Hm. constructor; try done. intros H12. destruct (bm_table0 H12) as [Ht0 Htab]. split; [done|].
      change (table_of (set_i_size i2 _)) with (table_of i2).
      rewrite Hs' by (by apply Hu, owned_table). rewrite Hsec; [done|].
      unfold owned in Hnd. rewrite decide_True in Hnd by done. apply NoDup_app in Hnd as (_ & Hdj & _).
      intros Hin'. apply (Hdj _ Hin'). by left.
    + left. cbn. rewrite Hlen. done.
    + done.
    + apply Forall_forall. intros l Hl. rewrite Hpart, Hpt. by apply Hu.
    + cbn [i_size set_i_size]. rewrite (bind_same (bd_sector (disk x))) by (intros; by apply Hs', Hu, owned_blocks).
      rewrite Hdat. f_equal. rewrite take_ge by lia. done.
  - intros q iq blq dq Hq Hfq Hdis. eapply file_ok_frame; [exact Hfq| |].
    + rewrite Hinodes, Hin, lookup_insert_ne by done. rewrite Hin2, lookup_insert_ne by done. apply (fo_inode _ _ _ _ _ Hfq).
    + intros l Hl. pose proof (fo_used _ _ _ _ _ Hfq) as Huq. rewrite Forall_forall in Huq. destruct (Huq l Hl) as [Hb Hul].
      assert (l ∉ owned i2 bl2) as Hnot.
      { rewrite Hown. apply not_elem_of_app. split; [by apply Hdis|]. intros Htk.
        pose proof (tk_new _ _ _ _ Ht) as Hnew. rewrite Forall_forall in Hnew. destruct (Hnew l Htk). congruence. }
      assert (is_block (cur_part s2) l) as Hb2 by (by apply (took_block _ _ _ _ _ Ht)).
      rewrite Hpart, Hpt. split; [done|]. split; [by rewrite (tk_used _ _ _ _ Ht l Hb), Hul|].
      rewrite Hs' by done. rewrite Hsec by (intros ?; by apply Hnot, owned_blocks).
      apply (tk_sectors _ _ _ _ Ht); [apply (is_block_high _ _ Hlo Hb)|].
      intros Hlw. rewrite Forall_forall in Hws. by apply Hnot, Hws.
Qed.

(** What a write of [buf] to the file at slot [fd] does. *)
Definition appended s s' (fd : Z) (f : file) (i : inode) (bl data buf : list Z) : Prop :=
  let n := Z.of_nat (length buf) in ∃ i' bl',
  file_ok s' (fd_inode f) i' bl' (data ++ buf) ∧ i_no i' = i_no i ∧ i_size i' = i_size i + n ∧
  stored_inode (cur_part s') (disk s') (i_no i) = pure i' ∧
  layout_ok (cur_part s') ∧ bd_ok (disk s') ∧ live s' = live s ∧ nulls s' = nulls s ∧
  (∀ q iq blq dq, q ≠ fd_inode f → file_ok s q iq blq dq → (∀ l, l ∈ owned iq blq → l ∉ owned i bl) →
    file_ok s' q iq blq dq) ∧
  file_table s' = <[Z.to_nat fd := File (u32 (i_size i + n - 1)) (fd_flag f) (fd_inode f)]> (file_table s) ∧
  dirs s' = dirs s ∧ fd_table s' = fd_table s ∧ cwd_inode_nr s' = cwd_inode_nr s.

Section whole.
Context s (fd : Z) (f : file) (i : inode) (bl data buf : list Z).
Let n : Z := Z.of_nat (length buf).
Hypothesis Hlo : layout_ok (cur_part s).
Hypothesis Hok : bd_ok (disk s).
Hypothesis Hfd : 0 ≤ fd.
Hypothesis Hft : file_table s !! Z.to_nat fd = Some f.
Hypothesis Hf : file_ok s (fd_inode f) i bl data.
Hypothesis Hno : i_no i < 256.
Hypothesis Hbs : Forall is_byte buf.
Hypothesis Hmax : i_size i + n < 71680.

(** The data goes out. *)
Lemma prepared_write s2 i2 bl2 ab taken :
  let f2 := File (u32 (i_size i - 1)) (fd_flag f) (fd_inode f) in
  prepared s s2 (fd_inode f) i i2 bl bl2 ab taken data → Z.of_nat (length bl2) = will_use i n →
  ∃ x, write_data (put_file s2 fd f2) fd (fd_inode f) ab buf n = Ok (n, x) ∧
    written s2 fd (fd_inode f) f2 i2 bl2 data buf x n.
Proof.
  intros f2 Hp Hlen. destruct (prepared_blocks s _ _ _ _ _ _ _ _ _ Hlo Hf Hp) as (Hnd & Hu & Hlo2 & Hok2).
  pose proof (pr_took _ _ _ _ _ _ _ _ _ _ Hp) as (ws & Ht & _).
  pose proof (io_size _ (fo_iok _ _ _ _ _ Hf)) as Hszr. unfold word in Hszr.
  assert (i_size i2 = i_size i) as Hsz by (by rewrite (pr_inode _ _ _ _ _ _ _ _ _ _ Hp)).
  destruct (write_data_spec (put_file s2 fd f2) fd (fd_inode f) f2 i2 bl2 ab data buf n) as (x & Hx & Hw);
    rewrite ?Hsz; try done.
  - cbn. rewrite list_lookup_insert_eq; [done|]. rewrite (tk_files _ _ _ _ Ht). by eapply lookup_lt_Some.
  - apply u32_range.
  - cbn. by rewrite (pr_inodes _ _ _ _ _ _ _ _ _ _ Hp), lookup_insert_eq.
  - unfold owned in Hnd. by apply NoDup_app in Hnd as (? & _).
  - apply Forall_forall. intros l Hl. rewrite Forall_forall in Hu. destruct (Hu l (owned_blocks _ _ _ Hl)) as [Hbk _].
    apply (is_block_high _ _ Hlo2 Hbk).
  - apply (pr_lists _ _ _ _ _ _ _ _ _ _ Hp).
  - lia.
  - apply (pr_data _ _ _ _ _ _ _ _ _ _ Hp).
  - exists x. split; [done|]. destruct Hw as [? ? Hxf ? ? ? ?]. constructor; try done.
    cbn in Hxf. by rewrite list_insert_insert_eq in Hxf.
Qed.

Lemma write_file_spec : bit (block_bitmap (cur_part s)) 0 = true →
  (blocks_wanted i bl n ≤ n_free (block_bitmap (cur_part s)))%nat →
  ∃ s', write_file s fd f i buf n = Ok (Some n, s') ∧ appended s s' fd f i bl data buf.
Proof.
  intros H0 Hfree. unfold write_file. cbv zeta. set (p := fd_inode f).
  pose proof (fo_iok _ _ _ _ _ Hf) as Hiok. pose proof (io_size _ Hiok) as Hszr. unfold word in Hszr.
  destruct (prepare_spec s p i bl data n Hlo Hok H0 Hf) as (s1 & s2 & i2 & bl2 & ab & taken & -> & Hcb & Hp & Hlen);
    [lia|done|done|]. ocbn. change BLOCK_SIZE with 512. rewrite (u32_small (i_size i + n)) by lia. fold (will_use i n).
  rewrite (proj2 (Z.leb_le (will_use i n) 140)) by (unfold will_use; zdlia). ocbn. fold p. rewrite Hcb. ocbn.
  destruct (prepared_write s2 i2 bl2 ab taken Hp Hlen) as (x & Hwd & Hx). fold p in Hwd, Hx. rewrite Hwd. ocbn.
  pose proof (pr_took _ _ _ _ _ _ _ _ _ _ Hp) as (ws & Ht & _). pose proof (pr_inode _ _ _ _ _ _ _ _ _ _ Hp) as Hi2.
  assert (i_size i2 = i_size i) as Hsz by (by rewrite Hi2).
  pose proof Hx as [Hpt (Hdr & Hfdt & Hcwd & Hlv & Hnl) Hxf Hxin Hxok _ _].
  rewrite (get_inode_ok x p (set_i_size i2 (i_size i + n))) by (by rewrite Hxin, Hsz, lookup_insert_eq). ocbn.
  set (i' := set_i_size i2 (i_size i + n)).
  assert (inode_ok i') as Hiok'.
  { destruct Hiok. unfold i'. rewrite Hi2. constructor; cbn; try done;
      [unfold word in *; lia|apply (pr_words _ _ _ _ _ _ _ _ _ _ Hp)|apply (bm_sectors _ _ _ (pr_map _ _ _ _ _ _ _ _ _ _ Hp))]. }
  assert (i_no i' = i_no i) as Hno' by (unfold i'; by rewrite Hi2).
  assert (u8 (i_no i') = i_no i) as Hu8 by (rewrite Hno'; apply u8_small; pose proof (io_no _ Hiok); unfold word in *; lia).
  assert (layout_ok (cur_part x)) as Hlox by (rewrite Hpt; apply (tk_layout _ _ _ _ Ht)).
  destruct (inode_sync_spec x i') as (d & -> & Hdok & Hst & _ & Hds); [done|done|done|lia|].
  ocbn. eexists. split; [done|]. rewrite Hu8 in Hst.
  destruct (write_result s s2 x (set_disk x d) p i i2 bl bl2 ab taken data buf fd
    (File (u32 (i_size i - 1)) (fd_flag f) p)) as [Hfin Hothers]; try done.
  exists i', bl2. split; [exact Hfin|]. split; [done|]. split; [done|]. split; [exact Hst|].
  split; [done|]. split; [done|]. cbn. rewrite Hlv, Hnl. destruct (tk_heap _ _ _ _ Ht) as [-> ->].
  split; [done|]. split; [done|]. split; [exact Hothers|]. rewrite Hdr, Hfdt, Hcwd, Hxf.
  rewrite (tk_files _ _ _ _ Ht), (tk_dirs _ _ _ _ Ht), (tk_fds _ _ _ _ Ht), (tk_cwd _ _ _ _ Ht).
  split; [|done]. cbn. do 2 f_equal. unfold u32. rewrite Zplus_mod_idemp_l. f_equal. unfold n. lia.
Qed.
End whole.

(** Nothing depends on what is allocated on the heap. *)
Lemma file_ok_heap s l n p i bl data : file_ok s p i bl data → file_ok (set_heap s l n) p i bl data.
Proof. by intros []; constructor. Qed.

Lemma file_write_spec s fd f i bl data buf :
  let n := Z.of_nat (length buf) in
  layout_ok (cur_part s) → bd_ok (disk s) → bit (block_bitmap (cur_part s)) 0 = true → nulls s = [] →
  0 ≤ fd → file_table s !! Z.to_nat fd = Some f → file_ok s (fd_inode f) i bl data → i_no i < 256 →
  Forall is_byte buf → i_size i + n < 71680 → (blocks_wanted i bl n ≤ n_free (block_bitmap (cur_part s)))%nat →
  ∃ s', file_write s fd buf n = Ok (n, s') ∧ appended s s' fd f i bl data buf.
Proof.
  intros n Hlo Hok H0 Hnulls Hfd Hft Hf Hno Hbs Hmax Hfree.
  pose proof (io_size _ (fo_iok _ _ _ _ _ Hf)) as Hszr. unfold word in Hszr.
  unfold file_write, get_file. rewrite (proj2 (Z.leb_le 0 fd)), Hft by done. ocbn.
  rewrite (get_inode_ok s _ i) by apply (fo_inode _ _ _ _ _ Hf). ocbn. change BLOCK_SIZE with 512.
  rewrite (u32_small (i_size i + n)) by lia. rewrite (proj2 (Z.ltb_ge (512 * 140) _)) by lia.
  destruct (sys_malloc_ok s Hnulls) as (a & -> & Ha & Ha0). rewrite (proj2 (Z.eqb_neq a NULL)) by done. cbv iota.
  destruct (sys_malloc_ok (set_heap s ({[a]} ∪ live s) [])) as (b & -> & Hb & Hb0); [done|].
  rewrite (proj2 (Z.eqb_neq b NULL)) by done. cbv iota.
  match goal with |- context [write_file ?x] => set (s0 := x) end.
  destruct (write_file_spec s0 fd f i bl data buf) as (s1 & Hwf & Happ); try done; [exact (file_ok_heap _ _ _ _ _ _ _ Hf)|].
  fold n in Hwf. rewrite Hwf. ocbn.
  rewrite !sys_free_ok by done. ocbn. rewrite sys_free_ok by done. ocbn. rewrite s32_small by lia.
  eexists. split; [done|]. destruct Happ as (i' & bl' & Hf' & Hno' & Hsz' & Hst & Hlo' & Hok' & Hlv & Hnl & Hoth & Hft').
  exists i', bl'. split; [by do 2 apply file_ok_heap|]. repeat (split; [done|]). split; [|split; [|split]].
  - cbn. rewrite Hlv. cbn. cbn in Hb. clear -Ha Hb. set_solver.
  - cbn. by rewrite Hnl.
  - intros q iq blq dq Hq Hfq Hdis. do 2 apply file_ok_heap. apply Hoth; [done| |done]. by do 2 apply file_ok_heap.
  - exact Hft'.
Qed.

(** ** Properties *)


(** The limits of [file_write]: more than 71680 bytes in the file are
    refused and nothing changes. Exactly 71680 bytes, which the test allows, stop the
    kernel: the file would need 141 blocks. *)
Theorem file_write_limit s fd f i bl data buf count :
  nulls s = [] → 0 ≤ fd → file_table s !! Z.to_nat fd = Some f → file_ok s (fd_inode f) i bl data → bl ≠ [] →
  layout_ok (cur_part s) → 0 ≤ count → i_size i + count < 2 ^ 32 →
  (71680 < i_size i + count → file_write s fd buf count = Ok (-1, s)) ∧
  (i_size i + count = 71680 → file_write s fd buf count = Panic).
Proof.
  intros Hnulls Hfd Hft Hf Hne Hlo Hc Hmax. pose proof (io_size _ (fo_iok _ _ _ _ _ Hf)) as Hszr. unfold word in Hszr.
  unfold file_write, get_file. rewrite (proj2 (Z.leb_le 0 fd)), Hft by done. ocbn.
  rewrite (get_inode_ok s _ i) by apply (fo_inode _ _ _ _ _ Hf). ocbn. change (BLOCK_SIZE * 140) with 71680.
  rewrite (u32_small (i_size i + count)) by lia. split; intros Hsum.
  - by rewrite (proj2 (Z.ltb_lt 71680 _)) by lia.
  - rewrite (proj2 (Z.ltb_ge 71680 _)) by lia.
    destruct (sys_malloc_ok s Hnulls) as (a & -> & Ha & Ha0). rewrite (proj2 (Z.eqb_neq a NULL)) by done. cbv iota.
    destruct (sys_malloc_ok (set_heap s ({[a]} ∪ live s) [])) as (b & -> & Hb & Hb0); [done|].
    rewrite (proj2 (Z.eqb_neq b NULL)) by done. cbv iota. unfold write_file, first_block.
    rewrite (get_inode_ok _ _ i) by apply (fo_inode _ _ _ _ _ Hf). ocbn.
    unfold i_sector. rewrite (proj2 (Z.leb_le 0 0)) by lia. change (Z.to_nat 0) with 0%nat.
    rewrite (bm_direct _ _ _ (fo_map _ _ _ _ _ Hf)) by lia. ocbn. destruct bl as [|x bl]; [done|].
    change (default 0 ((x :: bl) !! 0%nat)) with x. rewrite (proj2 (Z.eqb_neq x 0)).
    + ocbn. rewrite (u32_small (i_size i + count)) by lia. by rewrite Hsum.
    + pose proof (fo_used _ _ _ _ _ Hf) as Hu. apply Forall_inv in Hu as [Hbk _]. destruct (block_word _ _ Hlo Hbk). lia.
Qed.
End grow.

Module FsWriteExample.
Import RamDisk FsExample InodeExample.

Lemma abc_file : file_ok fs0 100 abc [613] [97; 98; 99].
Proof.
  constructor.
  - done.
  - exact abc_ok.
  - constructor; try done; [cbn; lia|..].
    + intros [|k] Hk; [done|]. change (replicate 12 0 !! k = Some (default 0 (@nil Z !! k))).
      by rewrite lookup_replicate_2 by lia.
    + cbn. lia.
  - by left.
  - apply NoDup_singleton.
  - apply Forall_singleton. done.
  - vm_compute. reflexivity.
Qed.


Lemma file_write_limit_witness :
  file_write fs0 3 [] 71678 = Ok (-1, fs0) ∧ file_write fs0 3 (replicate 71677 0) 71677 = Panic.
Proof.
  split; apply (file_write_limit fs0 3 (File 0 2 100) abc [613] [97; 98; 99]);
    try done; try apply abc_file; try apply layout0.
Defined.
End FsWriteExample.
