(* ===== verification/FsRead.v ===== *)
(** * fs/file.c: reading returns the data

    [file_read] against [file_ok] (see [FsWrite]): it returns the bytes of the file
    from the position of the open file on. *)

From stdpp Require Import base numbers list gmap.
From Stdlib Require Import ZArith Lia.
From S2P Require Import Prelude Bitmap Block FsState FsAlloc Inode FsFile FsWrite.

Lemma slice_lookup bs i n (k : nat) : 0 ≤ i → (Z.of_nat k < n) → slice bs i n !! k = bs !! (Z.to_nat i + k)%nat.
Proof. intros Hi Hk. unfold slice. rewrite lookup_take_lt, lookup_drop by lia. done. Qed.

Lemma slice_app bs i n k : 0 ≤ i → 0 ≤ n → 0 ≤ k → slice bs i n ++ slice bs (i + n) k = slice bs i (n + k).
Proof.
  intros Hi Hn Hk. unfold slice. rewrite !Z2Nat.inj_add by lia. rewrite <- drop_drop. by rewrite take_take_drop.
Qed.

Lemma slice_take bs i n k : 0 ≤ i → 0 ≤ n → i + n ≤ k → slice (take (Z.to_nat k) bs) i n = slice bs i n.
Proof.
  intros Hi Hn Hk. apply list_eq. intros j. unfold slice. rewrite !lookup_take. case_decide as Hj; [|done].
  rewrite !lookup_drop, lookup_take. by rewrite decide_True by lia.
Qed.

(** The bytes of block [k] in the concatenation of the blocks. *)
Lemma slice_concat (get : Z → list Z) bl (k : nat) lba off n :
  (∀ l, length (get l) = 512%nat) → bl !! k = Some lba → 0 ≤ off → 0 ≤ n → off + n ≤ 512 →
  slice (bl ≫= get) (Z.of_nat k * 512 + off) n = slice (get lba) off n.
Proof.
  intros Hl Hk Ho Hn Hon. rewrite <- (take_drop_middle bl k lba Hk), bind_app. cbn [mbind list_bind].
  assert (length (take k bl ≫= get) = (k * 512)%nat) as Hlen.
  { rewrite concat_length by done. rewrite length_take. apply lookup_lt_Some in Hk. lia. }
  unfold slice. rewrite drop_app_ge by lia. rewrite drop_app_le by (rewrite Hl; lia).
  rewrite take_app_le by (rewrite length_drop, Hl; lia). do 2 f_equal. lia.
Qed.

Section reading.
Context {D : Type} `{BlockDevice D}.
Implicit Types (s : fs D).

(** [ab] lists the addresses of the blocks [from] to [to]. *)
Definition covers (ab bl : list Z) (from to : Z) : Prop :=
  ∀ k, from ≤ k ≤ to → k < Z.of_nat (length bl) → block_at ab k = from_option_fault (bl !! Z.to_nat k).

Lemma block_at_lookup ab k : 0 ≤ k → block_at ab k = from_option_fault (ab !! Z.to_nat k).
Proof. intros Hk. unfold block_at. by rewrite (proj2 (Z.leb_le 0 k)). Qed.

(** Copying direct addresses. *)
Lemma direct_lookup get i bl from to k : block_map get i bl → 0 ≤ from → from ≤ k < to → to ≤ 12 → k < Z.of_nat (length bl) →
  (take (Z.to_nat from) (replicate 140 0) ++ slice (i_sectors i) from (to - from) ++ drop (Z.to_nat to) (replicate 140 0))
    !! Z.to_nat k = bl !! Z.to_nat k.
Proof.
  intros Hm Hf Hk Ht Hl. pose proof (bm_sectors _ _ _ Hm).
  rewrite lookup_app_r by (rewrite length_take, length_replicate; lia).
  rewrite length_take, length_replicate, Nat.min_l by lia.
  rewrite lookup_app_l by (rewrite slice_length; lia). rewrite slice_lookup by lia.
  replace (Z.to_nat from + (Z.to_nat k - Z.to_nat from))%nat with (Z.to_nat k) by lia.
  rewrite (bm_direct _ _ _ Hm) by lia. destruct (lookup_lt_is_Some_2 bl (Z.to_nat k)) as [x ->]; [lia|done].
Qed.

Lemma direct_length (i : inode) from to : length (i_sectors i) = 13%nat → 0 ≤ from ≤ to → to ≤ 12 →
  length (take (Z.to_nat from) (replicate 140 0) ++ slice (i_sectors i) from (to - from) ++ drop (Z.to_nat to) (replicate 140 0)) = 140%nat.
Proof. intros Hl Hf Ht. rewrite !length_app, length_take, length_drop, length_replicate, slice_length by lia. lia. Qed.

(** Behind the first twelve addresses comes the table. *)
Lemma table_lookup_read get i bl ab k : block_map get i bl → (12 ≤ length ab)%nat → 12 ≤ k < Z.of_nat (length bl) →
  (take 12 ab ++ words_at (get (table_of i)) 0 128) !! Z.to_nat k = bl !! Z.to_nat k.
Proof.
  intros Hm Hab Hk. destruct (bm_table _ _ _ Hm) as [_ ->]; [lia|].
  rewrite lookup_app_r by (rewrite length_take; lia). rewrite length_take, Nat.min_l by lia.
  rewrite lookup_app_l by (rewrite length_drop; lia). rewrite lookup_drop. f_equal. lia.
Qed.

Lemma collect_read_spec s p i bl data start finish :
  layout_ok (cur_part s) → bd_ok (disk s) → file_ok s p i bl data → 0 ≤ start ≤ finish →
  finish < Z.of_nat (length bl) ∨ finish < 12 →
  ∃ ab d, collect_read_blocks s i start finish = Ok (ab, set_disk s d) ∧ same_sectors (disk s) d ∧
    covers ab bl start finish.
Proof.
  intros Hlo Hok Hf Hsf Hfin. pose proof (fo_map _ _ _ _ _ Hf) as Hm. pose proof (bm_sectors _ _ _ Hm) as H13.
  unfold collect_read_blocks.
  assert (i_sector i 12 = Ok (table_of i)) as Htab.
  { unfold i_sector. rewrite (proj2 (Z.leb_le 0 12)) by lia. change (Z.to_nat 12) with 12%nat. by rewrite (table_lookup _ _ _ Hm). }
  assert (same_sectors (disk s) (disk s)) as Hsame by done.
  assert (s = set_disk s (disk s)) as Hself by (by destruct s).
  destruct (decide (finish < 12)) as [H12|H12].
  - rewrite !(proj2 (Z.ltb_lt finish 12)) by done.
    assert (∀ from, 0 ≤ from ≤ start → ∃ ab d, Ok (take (Z.to_nat from) (replicate 140 0) ++
      slice (i_sectors i) from (finish + 1 - from) ++ drop (Z.to_nat (finish + 1)) (replicate 140 0), s) = Ok (ab, set_disk s d) ∧
      same_sectors (disk s) d ∧ covers ab bl start finish) as Hdir.
    { intros from Hfrom. eexists _, (disk s). split; [by rewrite <- Hself|]. split; [done|].
      intros k Hk Hkl. rewrite block_at_lookup by lia. f_equal. by apply (direct_lookup _ _ _ _ _ _ Hm); lia. }
    zcase; [subst finish|]; apply Hdir; lia.
  - assert (12 < length bl)%nat as Hbl by lia. pose proof (table_on_disk s p i bl data Hlo Hf Hbl) as Ht.
    rewrite !(proj2 (Z.ltb_ge finish 12)) by lia. rewrite Htab. ocbn. rewrite (proj2 (Z.eqb_neq (table_of i) 0)) by lia. ocbn.
    assert (∀ ab, (12 ≤ length ab)%nat →
      (∀ k, start ≤ k < 12 → ab !! Z.to_nat k = bl !! Z.to_nat k) →
      ∃ ab' d, read_table s ab (table_of i) = Ok (ab', set_disk s d) ∧ same_sectors (disk s) d ∧ covers ab' bl start finish) as Hread.
    { intros ab Hab Hlow. destruct (read_table_spec s ab (table_of i) Hok ltac:(lia)) as (d & -> & Hs).
      eexists _, d. split; [done|]. split; [done|]. intros k Hk Hkl. rewrite block_at_lookup by lia. f_equal.
      destruct (decide (k < 12)) as [Hk12|Hk12]; [|by apply (table_lookup_read _ _ _ _ _ Hm); lia].
      rewrite lookup_app_l, lookup_take_lt by (rewrite ?length_take; lia). apply Hlow. lia. }
    repeat zcase; try (apply Hread; [rewrite length_replicate; lia|intros; lia]).
    apply Hread; [rewrite direct_length; lia|]. intros k Hk. apply (direct_lookup _ _ _ _ _ _ Hm); lia.
Qed.

(** ** The loop *)

(** [x] is [s] with the position of slot [fd] moved, after reading. *)
Definition moved s x (fd : Z) (f : file) (pos : Z) : Prop :=
  cur_part x = cur_part s ∧ inodes x = inodes s ∧ dirs x = dirs s ∧ fd_table x = fd_table s ∧
  cwd_inode_nr x = cwd_inode_nr s ∧ live x = live s ∧ nulls x = nulls s ∧
  file_table x = <[Z.to_nat fd := File pos (fd_flag f) (fd_inode f)]> (file_table s) ∧
  same_sectors (disk s) (disk x).

Section reading_loop.
Context s (fd : Z) (f : file) (bl ab : list Z) (size : Z).
Let pos : Z := fd_pos f.
Let all : list Z := bl ≫= bd_sector (disk s).
Hypothesis Hok : bd_ok (disk s).
Hypothesis Hfd : 0 ≤ fd.
Hypothesis Hft : file_table s !! Z.to_nat fd = Some f.
Hypothesis Hpos : 0 ≤ pos ∧ 0 ≤ size ∧ pos + size < 2 ^ 31.
Hypothesis Hlen : size = 0 ∨ (pos + size - 1) / 512 < Z.of_nat (length bl).
Hypothesis Hon : Forall (λ l, 0 ≤ l < bd_size) bl.
Hypothesis Hab : covers ab bl (pos / 512) ((pos + size) / 512).

Lemma read_data_loop fuel : ∀ x r, 0 ≤ r ≤ size → (Z.to_nat (size - r) < fuel)%nat → moved s x fd f (pos + r) →
  ∃ x', loop fuel (λ '(bytes_read, out, s),
    if bytes_read <? size then
      f ← get_file s fd;
      sec_lba ← block_at ab (fd_pos f / BLOCK_SIZE);
      let sec_off_bytes := fd_pos f mod BLOCK_SIZE in
      let sec_left_bytes := BLOCK_SIZE - sec_off_bytes in
      let size_left := u32 (size - bytes_read) in
      let chunk_size := if size_left <? sec_left_bytes then size_left else sec_left_bytes in
      '(io_buf, s) ← ide_read s sec_lba 1;
      let s := put_file s fd (File (u32 (fd_pos f + chunk_size)) (fd_flag f) (fd_inode f)) in
      Ok (inl (u32 (bytes_read + chunk_size), out ++ slice io_buf sec_off_bytes chunk_size, s))
    else Ok (inr (bytes_read, out, s))) (r, slice all pos r, x) = Ok (size, slice all pos size, x') ∧
    moved s x' fd f (pos + size).
Proof.
  induction fuel as [|fuel IH]; intros x r Hr Hfu Hx; [lia|].
  destruct (decide (r = size)) as [->|Hne].
  { erewrite loop_exit; [|by rewrite Z.ltb_irrefl]. by exists x. }
  pose proof Hx as (Hpt & Hin & Hdr & Hfdt & Hcwd & Hlv & Hnl & Hfx & Hokx & Hsx).
  set (k := (pos + r) / 512). set (off := (pos + r) mod 512).
  set (c := if size - r <? 512 - off then size - r else 512 - off).
  assert (0 ≤ k ∧ 0 ≤ off < 512 ∧ pos + r = k * 512 + off ∧ pos / 512 ≤ k ≤ (pos + size) / 512 ∧ k < Z.of_nat (length bl) ∧
    1 ≤ c ≤ size - r ∧ c ≤ 512 - off) as (Hk0 & Hoff & Hko & Hkr & Hkl & Hc & Hco).
  { unfold c. assert (0 ≤ off < 512) by (unfold off; zdlia). unfold k, off in *. repeat split; try zcase; zdlia. }
  destruct (lookup_lt_is_Some_2 bl (Z.to_nat k)) as [lba Hlba]; [lia|].
  assert (0 ≤ lba < bd_size) as Hlr by exact (Forall_lookup_1 _ _ _ _ Hon Hlba).
  destruct (ide_read1 x lba Hokx Hlr) as (d & Hrd & Hsd).
  erewrite loop_step.
  2: { rewrite (proj2 (Z.ltb_lt r size)) by lia. unfold get_file. rewrite (proj2 (Z.leb_le 0 fd)) by lia.
       rewrite Hfx, list_lookup_insert_eq by (by eapply lookup_lt_Some). ocbn. cbn [fd_pos fd_flag fd_inode].
       change BLOCK_SIZE with 512. rewrite (u32_small (size - r)) by lia. fold k. rewrite Hab by lia. rewrite Hlba. ocbn.
       rewrite Hrd. ocbn. fold off. fold c. rewrite (u32_small (pos + r + c)), (u32_small (r + c)) by lia. reflexivity. }
  replace (slice all pos r ++ slice (bd_sector (disk x) lba) off c) with (slice all pos (r + c)).
  - replace (pos + r + c) with (pos + (r + c)) by lia. apply IH; [lia|lia|].
    unfold moved. cbn. rewrite Hfx, list_insert_insert_eq. repeat (split; [done|]). split; [apply Hsd|].
    intros l. rewrite (proj2 Hsd). apply Hsx.
  - rewrite <- slice_app by lia. f_equal. rewrite Hsx. unfold all. rewrite Hko.
    rewrite <- (slice_concat _ bl (Z.to_nat k) lba off c) by (done || lia || apply bd_sector_len). f_equal. lia.
Qed.

Lemma read_data_spec : ∃ x, read_data s fd ab size = Ok (size, slice all pos size, x) ∧ moved s x fd f (pos + size).
Proof.
  unfold read_data. replace (@nil Z) with (slice all pos 0) by done.
  apply read_data_loop; [lia|lia|]. unfold moved. rewrite Z.add_0_r. repeat (split; [done|]). split; [|done].
  symmetry. apply list_insert_id. rewrite Hft. by destruct f.
Qed.
End reading_loop.

(** What is left of the file behind [pos], at most [count] bytes. *)
Definition readable (i : inode) (pos count : Z) : Z := if i_size i <? pos + count then i_size i - pos else count.

Lemma file_read_spec s fd f i bl data count :
  layout_ok (cur_part s) → bd_ok (disk s) → nulls s = [] →
  0 ≤ fd → file_table s !! Z.to_nat fd = Some f → file_ok s (fd_inode f) i bl data →
  0 ≤ fd_pos f ≤ i_size i → 0 ≤ count < 2 ^ 31 →
  (fd_pos f + readable i (fd_pos f) count) / 512 < 139 →
  let n := readable i (fd_pos f) count in
  if bool_decide (fd_pos f = i_size i ∧ 0 < count) then file_read s fd count = Ok (-1, [], s)
  else ∃ s', file_read s fd count = Ok (n, slice data (fd_pos f) n, s') ∧ moved s s' fd f (fd_pos f + n).
Proof.
  intros Hlo Hok Hnulls Hfd Hft Hf Hpos Hcount H139 n. pose proof (bm_len _ _ _ (fo_map _ _ _ _ _ Hf)) as H140.
  assert (Z.of_nat (length bl) = i_size i / 512 + 1 ∨ bl = [] ∧ i_size i = 0) as Hbl by exact (fo_count _ _ _ _ _ Hf).
  assert (i_size i < 71680) as Hsz by (destruct Hbl as [Hb|[_ ->]]; zdlia).
  unfold file_read, get_file. rewrite (proj2 (Z.leb_le 0 fd)), Hft by done. ocbn.
  rewrite (get_inode_ok s _ i) by apply (fo_inode _ _ _ _ _ Hf). ocbn.
  rewrite (u32_small (fd_pos f + count)), (u32_small (i_size i - fd_pos f)) by lia. fold (readable i (fd_pos f) count). fold n.
  assert ((i_size i <? fd_pos f + count) && (n =? 0) = bool_decide (fd_pos f = i_size i ∧ 0 < count)) as ->.
  { unfold n, readable. case_bool_decide; repeat zcase; cbn; done || lia. }
  case_bool_decide as Hend; [done|].
  assert (0 ≤ n ≤ count ∧ fd_pos f + n ≤ i_size i) as [Hn Hnsz] by (unfold n, readable; zcase; lia).
  destruct (sys_malloc_ok s Hnulls) as (a & -> & Ha & Ha0).
  destruct (sys_malloc_ok (set_heap s ({[a]} ∪ live s) [])) as (b & -> & Hb & Hb0); [done|].
  rewrite (proj2 (Z.eqb_neq b NULL)), (proj2 (Z.eqb_neq a NULL)) by done. cbv iota.
  change BLOCK_SIZE with 512. rewrite (u32_small (fd_pos f + n)) by lia. fold n in H139.
  rewrite (proj2 (Z.ltb_lt (fd_pos f / 512) 139)), (proj2 (Z.ltb_lt ((fd_pos f + n) / 512) 139)) by zdlia. ocbn.
  match goal with |- context [collect_read_blocks ?y] => set (s0 := y) end.
  assert (file_ok s0 (fd_inode f) i bl data) as Hf0 by exact (file_ok_heap _ _ _ _ _ _ _ Hf).
  destruct (collect_read_spec s0 _ i bl data (fd_pos f / 512) ((fd_pos f + n) / 512) Hlo Hok Hf0) as (ab & d & -> & Hsd & Hcov).
  { zdlia. } { destruct Hbl as [Hb'|[_ Hz]]; [left|right]; zdlia. }
  ocbn. destruct (read_data_spec (set_disk s0 d) fd f bl ab n) as (x & -> & Hx); try done.
  { apply Hsd. } { lia. } { destruct Hbl as [Hb'|[_ Hz]]; [right|left]; zdlia. }
  { apply Forall_forall. intros l Hl. pose proof (fo_used _ _ _ _ _ Hf) as Hu. rewrite Forall_forall in Hu.
    destruct (Hu l (owned_blocks _ _ _ Hl)) as [Hbk _]. apply (is_block_high _ _ Hlo Hbk). }
  ocbn. rewrite !sys_free_ok by done. ocbn. rewrite sys_free_ok by done. ocbn. rewrite s32_small by lia.
  eexists. split.
  - f_equal. f_equal. f_equal. rewrite (fo_data _ _ _ _ _ Hf), slice_take by lia. f_equal. apply bind_same. intros; apply Hsd.
  - destruct Hx as (? & ? & ? & ? & ? & Hlv & Hnl & ? & Hokx & Hsx). unfold moved. cbn. repeat (split; [done|]).
    split; [|split; [|split; [done|split; [done|]]]].
    + rewrite Hlv. cbn. cbn in Hb. clear -Ha Hb. set_solver.
    + by rewrite Hnl.
    + intros l. rewrite Hsx. apply Hsd.
Qed.

Lemma file_data_length s p i bl data : file_ok s p i bl data → length data = Z.to_nat (i_size i).
Proof.
  intros Hf. rewrite (fo_data _ _ _ _ _ Hf), length_take, concat_length by apply bd_sector_len.
  pose proof (io_size _ (fo_iok _ _ _ _ _ Hf)) as Hsz. unfold word in Hsz.
  destruct (fo_count _ _ _ _ _ Hf) as [Hc|[-> ->]]; [zdlia|done].
Qed.

(** ** Properties *)

(** C23. [file_read] at a position inside the file returns the next [count] bytes of
    its contents, or what is left of them, and moves the position behind them; at
    the end of the file it returns -1. The disk, the bitmaps and the memory in use
    do not change. *)
Theorem file_read_correct s fd f i bl data count :
  layout_ok (cur_part s) → bd_ok (disk s) → nulls s = [] →
  0 ≤ fd → file_table s !! Z.to_nat fd = Some f → file_ok s (fd_inode f) i bl data →
  0 ≤ fd_pos f ≤ i_size i → 0 ≤ count < 2 ^ 31 →
  (fd_pos f + readable i (fd_pos f) count) / 512 < 139 →
  let n := readable i (fd_pos f) count in
  if bool_decide (fd_pos f = i_size i ∧ 0 < count) then file_read s fd count = Ok (-1, [], s)
  else ∃ s', file_read s fd count = Ok (n, slice data (fd_pos f) n, s') ∧ moved s s' fd f (fd_pos f + n).
Proof. apply file_read_spec. Qed.

(** What [file_write] wrote reads back: a second descriptor of the file,
    placed at the old end, reads exactly the bytes written. *)
Theorem write_then_read s fd fd2 f f2 i bl data buf :
  let n := Z.of_nat (length buf) in
  layout_ok (cur_part s) → bd_ok (disk s) → bit (block_bitmap (cur_part s)) 0 = true → nulls s = [] →
  0 ≤ fd → file_table s !! Z.to_nat fd = Some f → file_ok s (fd_inode f) i bl data → i_no i < 256 →
  Forall is_byte buf → 0 < n → (i_size i + n) / 512 < 139 →
  (blocks_wanted i bl n ≤ n_free (block_bitmap (cur_part s)))%nat →
  0 ≤ fd2 → fd2 ≠ fd → file_table s !! Z.to_nat fd2 = Some f2 → fd_inode f2 = fd_inode f → fd_pos f2 = i_size i →
  ∃ s' s'', file_write s fd buf n = Ok (n, s') ∧ file_read s' fd2 n = Ok (n, buf, s'') ∧
    moved s' s'' fd2 f2 (i_size i + n).
Proof.
  intros n Hlo Hok H0 Hnulls Hfd Hft Hf Hno Hbs Hn Hmax Hfree Hfd2 Hne Hft2 Hin2 Hpos2.
  pose proof (io_size _ (fo_iok _ _ _ _ _ Hf)) as Hsz. unfold word in Hsz.
  destruct (file_write_spec s fd f i bl data buf) as (s' & Hw & i' & bl' & Hf' & Hno' & Hsz' & _ & Hlo' & Hok' & _ & Hnl & _ & Hft' & _);
    try done; [zdlia|].
  assert (readable i' (fd_pos f2) n = n) as Hr by (unfold readable; rewrite Hsz', Hpos2; fold n; zcase; lia).
  pose proof (file_read_spec s' fd2 f2 i' bl' (data ++ buf) n Hlo' Hok') as Hread. cbn zeta in Hread.
  rewrite Hr in Hread. rewrite bool_decide_eq_false_2 in Hread by (rewrite Hpos2, Hsz'; fold n; lia).
  destruct Hread as (s'' & Hread & Hmv).
  - congruence.
  - done.
  - rewrite Hft', list_lookup_insert_ne; [done|]. lia.
  - by rewrite Hin2.
  - rewrite Hpos2, Hsz'. fold n. lia.
  - zdlia.
  - by rewrite Hpos2.
  - exists s', s''. split; [exact Hw|]. rewrite Hpos2 in Hmv. split; [|exact Hmv]. rewrite Hread. do 2 f_equal. f_equal. rewrite Hpos2. unfold slice.
    rewrite drop_app_ge by (rewrite (file_data_length _ _ _ _ _ Hf); lia).
    rewrite (file_data_length _ _ _ _ _ Hf), Nat.sub_diag, drop_0. apply take_ge. unfold n. lia.
Qed.

(** Although a file may have 140 blocks, reading up to block 139 or further stops
    the kernel. *)
Theorem file_read_last_block_panics s fd f i count :
  nulls s = [] → 0 ≤ fd → file_table s !! Z.to_nat fd = Some f → inodes s !! fd_inode f = Some i →
  0 ≤ fd_pos f < i_size i → i_size i ≤ 71680 → 0 < count < 2 ^ 31 →
  139 ≤ (fd_pos f + readable i (fd_pos f) count) / 512 → file_read s fd count = Panic.
Proof.
  intros Hnulls Hfd Hft Hi Hpos Hsz Hc H139. unfold file_read, get_file.
  rewrite (proj2 (Z.leb_le 0 fd)), Hft by done. ocbn. rewrite (get_inode_ok s _ i) by done. ocbn.
  rewrite (u32_small (fd_pos f + count)), (u32_small (i_size i - fd_pos f)) by lia. fold (readable i (fd_pos f) count).
  set (n := readable i (fd_pos f) count) in *. assert (1 ≤ n ≤ 71680) as Hn by (unfold n, readable; zcase; lia).
  rewrite (proj2 (Z.eqb_neq n 0)), andb_false_r by lia.
  destruct (sys_malloc_ok s Hnulls) as (a & -> & Ha & Ha0).
  destruct (sys_malloc_ok (set_heap s ({[a]} ∪ live s) [])) as (b & -> & Hb & Hb0); [done|].
  rewrite (proj2 (Z.eqb_neq b NULL)) by done. cbv iota. change BLOCK_SIZE with 512.
  rewrite (u32_small (fd_pos f + n)) by lia. rewrite (proj2 (Z.ltb_ge ((fd_pos f + n) / 512) 139)) by lia.
  by rewrite andb_false_r.
Qed.
End reading.

Module FsReadExample.
Import RamDisk FsExample InodeExample FsWriteExample.

Lemma file_read_correct_witness :
  (∃ s', file_read fs0 3 2 = Ok (2, [97; 98], s')) ∧ file_read fs0 4 5 = Ok (-1, [], fs0).
Proof.
  split.
  - destruct (file_read_correct fs0 3 (File 0 2 100) abc [613] [97; 98; 99] 2) as (s' & Hr & _);
      try done; [apply layout0|exact abc_file|]. exists s'. exact Hr.
  - apply (file_read_correct fs0 4 (File 3 0 100) abc [613] [97; 98; 99] 5);
      try done; [apply layout0|exact abc_file].
Defined.

Lemma write_then_read_witness :
  ∃ s' s'', file_write fs0 3 [100; 101] 2 = Ok (2, s') ∧ file_read s' 4 2 = Ok (2, [100; 101], s'') ∧
    moved s' s'' 4 (File 3 0 100) 5.
Proof.
  apply (write_then_read fs0 3 4 (File 0 2 100) (File 3 0 100) abc [613] [97; 98; 99] [100; 101]).
  - apply layout0.
  - done.
  - vm_compute. reflexivity.
  - done.
  - done.
  - done.
  - exact abc_file.
  - done.
  - by repeat constructor.
  - done.
  - done.
  - vm_compute. lia.
  - done.
  - done.
  - done.
  - done.
  - done.
Defined.

(** A file of 71679 bytes. *)
Definition big : inode := Inode 6 71679 1 0 (replicate 13 0).

Lemma file_read_last_block_panics_witness :
  file_read (set_inodes fs0 {[100 := big]}) 3 71679 = Panic.
Proof. by apply (file_read_last_block_panics (set_inodes fs0 {[100 := big]}) 3 (File 0 2 100) big 71679). Defined.
End FsReadExample.
