(* ===== verification/Dir.v ===== *)
(** * fs/dir.c: directories

    Opening and closing directories, and finding, adding, removing and reading
    their entries; also [file_create] of fs/file.c, which adds an entry. An entry
    takes 24 bytes of a sector and no entry crosses a sector. Names are C strings
    without their final 0. *)

From stdpp Require Import base numbers list gmap.
From Stdlib Require Import ZArith Lia.
From S2P Require Import Prelude Bitmap Block FsState FsAlloc Inode FsFile.

(** [sizeof(struct dir_entry)]: 16 characters and two words. *)
Definition sizeof_dir_entry : Z := 24.

Definition dir_entry_bytes (e : dir_entry) : list Z :=
  filename e ++ le32_bytes (de_i_no e) ++ le32_bytes (f_type e).
(** [dir_e[k]] for entries in [buf] *)
Definition entry_at (buf : list Z) (k : Z) : dir_entry :=
  let off := sizeof_dir_entry * k in
  DirEntry (slice buf off 16) (le32_at buf (off + 16)) (le32_at buf (off + 20)).

(** [!strcmp(p, name)] for the string at [off] in [buf]. *)
Fixpoint str_eq (buf : list Z) (off : Z) (name : list Z) : bool :=
  match name with
  | [] => byte_at buf off =? 0
  | c :: name => (byte_at buf off =? c) && str_eq buf (off + 1) name
  end.
(** The same for the name of entry [k]. *)
Definition named (buf : list Z) (k : Z) (name : list Z) : bool := str_eq buf (sizeof_dir_entry * k) name.

Definition dot : list Z := [46].
Definition dotdot : list Z := [46; 46].

(** [SECTOR_SIZE / dir_entry_size] entries of [sizeof_dir_entry] bytes are read
    from a sector: with a smaller size the last ones leave the buffer. *)
Definition entrys_per_sec (size : Z) : outcome Z := if size <? sizeof_dir_entry then Fault else Ok (512 / size).

(** [memcpy(..., p_de, dir_entry_size)] *)
Definition entry_copy (e : dir_entry) (size : Z) : outcome (list Z) :=
  if size <=? sizeof_dir_entry then Ok (take (Z.to_nat size) (dir_entry_bytes e)) else Fault.

Definition create_dir_entry (name : list Z) (inode_no file_type : Z) : outcome dir_entry :=
  ASSERT (Z.of_nat (length name) <=? MAX_FILE_NAME_LEN);;
  Ok (DirEntry (name ++ replicate (16 - length name) 0) inode_no (u8 file_type)).

(** The entries "." and ".." of a directory, and the sector they are alone in. *)
Definition dot_entry (inode_no : Z) : dir_entry := DirEntry (dot ++ replicate 15 0) inode_no FT_DIRECTORY.
Definition dotdot_entry (inode_no : Z) : dir_entry := DirEntry (dotdot ++ replicate 14 0) inode_no FT_DIRECTORY.
Definition first_sector (inode_no parent_no : Z) : list Z :=
  dir_entry_bytes (dot_entry inode_no) ++ dir_entry_bytes (dotdot_entry parent_no) ++ replicate 464 0.

Section dir_ops.
Context {D : Type} `{BlockDevice D}.
Implicit Types (s : fs D).

Definition get_dir s (p : Z) : outcome dir := from_option_fault (dirs s !! p).
Definition put_dir s (p : Z) (d : dir) : fs D := set_dirs s (<[p := d]> (dirs s)).
(** [dir->inode->...] *)
Definition dir_inode s (p : Z) : outcome (Z * inode) :=
  d ← get_dir s p;
  i ← get_inode s (d_inode d);
  Ok (d_inode d, i).

Definition open_root_dir s : outcome (fs D) :=
  '(p, s) ← inode_open s (root_inode_no (sb (cur_part s)));
  let buf := match dirs s !! root_dir with Some d => dir_buf d | None => replicate 512 0 end in
  Ok (put_dir s root_dir (Dir p 0 buf)).

Definition dir_open s (inode_no : Z) : outcome (Z * fs D) :=
  let '(pdir, s) := sys_malloc s in
  '(p, s) ← inode_open s inode_no;
  if pdir =? NULL then Fault
  else Ok (pdir, put_dir s pdir (Dir p 0 (replicate 512 0))).

Definition dir_close s (p : Z) : outcome (fs D) :=
  if p =? root_dir then Ok s
  else
    d ← get_dir s p;
    s ← inode_close s (d_inode d);
    s ← sys_free s p;
    Ok (set_dirs s (delete p (dirs s))).

(** The first entry of the sector in [buf] with the name, of [n] entries. *)
Definition find_name (buf name : list Z) (n : Z) : option Z :=
  head (filter (λ k, named buf k name = true) (seqZ 0 n)).

(** A round of the loop over the blocks. *)
Definition search_block (all_blocks : list Z) (buf_p : Z) (name : list Z) (dir_entry_cnt : Z) (x : Z * fs D)
    : outcome ((Z * fs D) + (option dir_entry * fs D)) :=
  let '(block_idx, s) := x in
  if block_idx <? 140 then
    lba ← block_at all_blocks block_idx;
    if lba =? 0 then Ok (inl (block_idx + 1, s))
    else if buf_p =? NULL then Fault
    else
      '(buf, s) ← ide_read s lba 1;
      match find_name buf name dir_entry_cnt with
      | Some k => Ok (inr (Some (entry_at buf k), s))
      | None => Ok (inl (block_idx + 1, s))
      end
  else Ok (inr (None, s)).

(** The result is the entry that [search_dir_entry] stores, if it returns true. *)
Definition search_dir_entry s (pdir : Z) (name : list Z) : outcome (option dir_entry * fs D) :=
  let '(all_blocks_p, s) := sys_malloc s in
  if all_blocks_p =? NULL then Ok (None, s)
  else
    '(_, i) ← dir_inode s pdir;
    '(all_blocks, s) ← read_all_blocks s i;
    let '(buf_p, s) := sys_malloc s in
    dir_entry_cnt ← entrys_per_sec (dir_entry_size (sb (cur_part s)));
    '(r, s) ← loop 141 (search_block all_blocks buf_p name dir_entry_cnt) (0, s);
    s ← sys_free s buf_p;
    s ← sys_free s all_blocks_p;
    Ok (r, s).

(** The first unused entry of the sector in [buf]. *)
Definition find_unused (buf : list Z) (n : Z) : option Z :=
  head (filter (λ k, f_type (entry_at buf k) = FT_UNKNOWN) (seqZ 0 n)).

(** Lines 163-190: where the block at [block_lba] goes that was allocated for
    [all_blocks[block_idx]], and whether to go on. Storing [i_sectors[13]] leaves
    the array. *)
Definition place_block s (p : Z) (all_blocks : list Z) (block_idx block_lba : Z) : outcome (bool * fs D) :=
  i ← get_inode s p;
  if block_idx <? 12 then
    let s := put_inode s p (set_sector i (Z.to_nat block_idx) (u32 block_lba)) in Ok (true, s)
  else if block_idx =? 12 then
    let s := put_inode s p (set_sector i 12 (u32 block_lba)) in
    '(block_lba', s) ← block_bitmap_alloc s;
    if block_lba' =? -1 then
      let block_bitmap_idx := u32 (block_lba - data_start_lba (sb (cur_part s))) in
      b ← bitmap_set (block_bitmap (cur_part s)) block_bitmap_idx 0;
      Ok (false, put_inode (set_block_bitmap s b) p (set_sector i 12 0))
    else Fault
  else
    table ← i_sector i 12;
    s ← write_table s (<[Z.to_nat block_idx := u32 block_lba]> all_blocks) table;
    Ok (true, s).

(** [dir_inode->i_size += dir_entry_size] *)
Definition grow_dir s (p : Z) : outcome (fs D) :=
  i ← get_inode s p;
  Ok (put_inode s p (set_i_size i (u32 (i_size i + dir_entry_size (sb (cur_part s)))))).

(** Lines 149-198: a new block with the entry. *)
Definition add_dir_block s (p : Z) (all_blocks : list Z) (block_idx : Z) (e : dir_entry) : outcome (bool * fs D) :=
  '(block_lba, s) ← block_bitmap_alloc s;
  if block_lba =? -1 then Ok (false, s)
  else
    let block_bitmap_idx := s32 (block_lba - data_start_lba (sb (cur_part s))) in
    ASSERT (negb (block_bitmap_idx =? -1));;
    s ← bitmap_sync s (u32 block_bitmap_idx) BLOCK_BITMAP;
    '(r, s) ← place_block s p all_blocks block_idx block_lba;
    if (r : bool) then
      bs ← entry_copy e (dir_entry_size (sb (cur_part s)));
      s ← ide_write s (u32 block_lba) (splice (replicate 512 0) 0 bs) 1;
      s ← grow_dir s p;
      Ok (true, s)
    else Ok (false, s).

(** A round of the loop over the blocks. *)
Definition sync_block (p : Z) (all_blocks : list Z) (dir_entrys_per_sec : Z) (e : dir_entry) (x : Z * fs D)
    : outcome ((Z * fs D) + (bool * fs D)) :=
  let '(block_idx, s) := x in
  if block_idx <? 140 then
    lba ← block_at all_blocks block_idx;
    if lba =? 0 then
      '(r, s) ← add_dir_block s p all_blocks block_idx e;
      Ok (inr (r, s))
    else
      '(io_buf, s) ← ide_read s lba 1;
      match find_unused io_buf dir_entrys_per_sec with
      | Some k =>
          bs ← entry_copy e (dir_entry_size (sb (cur_part s)));
          s ← ide_write s lba (splice io_buf (sizeof_dir_entry * k) bs) 1;
          s ← grow_dir s p;
          Ok (inr (true, s))
      | None => Ok (inl (block_idx + 1, s))
      end
  else Ok (inr (false, s)).

Definition sync_dir_entry s (parent_dir : Z) (e : dir_entry) : outcome (bool * fs D) :=
  '(p, i) ← dir_inode s parent_dir;
  let size := dir_entry_size (sb (cur_part s)) in
  dir_entrys_per_sec ← entrys_per_sec size;
  ASSERT (i_size i mod size =? 0);;
  let all_blocks := take 12 (i_sectors i) ++ replicate 128 0 in
  loop 141 (sync_block p all_blocks dir_entrys_per_sec e) (0, s).

(** Lines 254-270: whether the sector has the entry ".", how many other entries
    it has and which of them is for inode [inode_no]. *)
Fixpoint count_entries (buf : list Z) (inode_no : Z) (ks : list Z) (is_dir_first_block : bool) (dir_entry_cnt : Z)
    (found : option Z) : outcome (bool * Z * option Z) :=
  match ks with
  | [] => Ok (is_dir_first_block, dir_entry_cnt, found)
  | k :: ks =>
      if f_type (entry_at buf k) =? FT_UNKNOWN then
        count_entries buf inode_no ks is_dir_first_block dir_entry_cnt found
      else if named buf k dot then count_entries buf inode_no ks true dir_entry_cnt found
      else if named buf k dotdot then count_entries buf inode_no ks is_dir_first_block dir_entry_cnt found
      else
        let dir_entry_cnt := u8 (dir_entry_cnt + 1) in
        if de_i_no (entry_at buf k) =? inode_no then
          ASSERT (bool_decide (found = None));;
          count_entries buf inode_no ks is_dir_first_block dir_entry_cnt (Some k)
        else count_entries buf inode_no ks is_dir_first_block dir_entry_cnt found
  end.

(** Lines 294-298. The loop does not change its index. *)
Definition count_indirect (fuel : nat) (all_blocks : list Z) : outcome Z :=
  loop fuel (λ '(indirect_block_idx, indirect_blocks),
    if indirect_block_idx <? 140 then
      b ← block_at all_blocks indirect_block_idx;
      Ok (inl (indirect_block_idx, if truth b then u32 (indirect_blocks + 1) else indirect_blocks))
    else Ok (inr indirect_blocks)) (12, 0).

(** [bitmap_set(&part->block_bitmap, ..., 0)] and [bitmap_sync] for the block at
    [lba]. *)
Definition free_block s (lba : Z) : outcome (fs D) :=
  let block_bitmap_idx := u32 (lba - data_start_lba (sb (cur_part s))) in
  b ← bitmap_set (block_bitmap (cur_part s)) block_bitmap_idx 0;
  bitmap_sync (set_block_bitmap s b) block_bitmap_idx BLOCK_BITMAP.

(** Lines 282-313: giving the block [all_blocks[block_idx]] back. *)
Definition drop_dir_block s (p : Z) (all_blocks : list Z) (block_idx : Z) : outcome (fs D) :=
  lba ← block_at all_blocks block_idx;
  s ← free_block s lba;
  i ← get_inode s p;
  if block_idx <? 12 then Ok (put_inode s p (set_sector i (Z.to_nat block_idx) 0))
  else
    indirect_blocks ← count_indirect 141 all_blocks;
    ASSERT (1 <=? indirect_blocks);;
    table ← i_sector i 12;
    if 1 <? indirect_blocks then write_table s (<[Z.to_nat block_idx := 0]> all_blocks) table
    else
      s ← free_block s table;
      Ok (put_inode s p (set_sector i 12 0)).

(** Lines 278-323: removing entry [k] of the sector [io_buf] at
    [all_blocks[block_idx]]. *)
Definition remove_entry s (p : Z) (all_blocks : list Z) (block_idx : Z) (io_buf : list Z) (first : bool)
    (cnt k : Z) : outcome (fs D) :=
  let size := dir_entry_size (sb (cur_part s)) in
  ASSERT (1 <=? cnt);;
  s ← (if (cnt =? 1) && negb first then drop_dir_block s p all_blocks block_idx
       else
         lba ← block_at all_blocks block_idx;
         ide_write s lba (take 512 (splice io_buf (sizeof_dir_entry * k) (replicate (Z.to_nat size) 0))) 1);
  i ← get_inode s p;
  ASSERT (size <=? i_size i);;
  let i := set_i_size i (u32 (i_size i - size)) in
  inode_sync (put_inode s p i) i.

(** A round of the loop over the blocks. *)
Definition delete_block (p : Z) (all_blocks : list Z) (dir_entrys_per_sec inode_no : Z) (x : Z * fs D)
    : outcome ((Z * fs D) + (bool * fs D)) :=
  let '(block_idx, s) := x in
  if block_idx <? 140 then
    lba ← block_at all_blocks block_idx;
    if lba =? 0 then Ok (inl (block_idx + 1, s))
    else
      '(io_buf, s) ← ide_read s lba 1;
      '(first, cnt, found) ← count_entries io_buf inode_no (seqZ 0 dir_entrys_per_sec) false 0 None;
      match found with
      | None => Ok (inl (block_idx + 1, s))
      | Some k =>
          s ← remove_entry s p all_blocks block_idx io_buf first cnt k;
          Ok (inr (true, s))
      end
  else Ok (inr (false, s)).

Definition delete_dir_entry s (pdir inode_no : Z) : outcome (bool * fs D) :=
  '(p, i) ← dir_inode s pdir;
  '(all_blocks, s) ← read_all_blocks s i;
  dir_entrys_per_sec ← entrys_per_sec (dir_entry_size (sb (cur_part s)));
  loop 141 (delete_block p all_blocks dir_entrys_per_sec inode_no) (0, s).

(** Lines 361-376: the entry to return, or how far the position has come. *)
Fixpoint next_entry (buf ks : list Z) (size cur_dir_entry_pos pos : Z) : outcome (Z + Z) :=
  match ks with
  | [] => Ok (inl cur_dir_entry_pos)
  | k :: ks =>
      if truth (f_type (entry_at buf k)) then
        if cur_dir_entry_pos <? pos then next_entry buf ks size (u32 (cur_dir_entry_pos + size)) pos
        else ASSERT (cur_dir_entry_pos =? pos);; Ok (inr k)
      else next_entry buf ks size cur_dir_entry_pos pos
  end.

(** The result is the index in [dir_buf] of the entry that is returned. *)
Definition dir_read s (dir : Z) : outcome (option Z * fs D) :=
  '(_, i) ← dir_inode s dir;
  '(all_blocks, s) ← read_all_blocks s i;
  table ← i_sector i 12;
  let block_cnt := if truth table then 140 else 12 in
  let size := dir_entry_size (sb (cur_part s)) in
  dir_entrys_per_sec ← entrys_per_sec size;
  loop 141 (λ '(block_idx, cur_dir_entry_pos, s),
    if block_idx <? block_cnt then
      d ← get_dir s dir;
      if i_size i <=? dir_pos d then Ok (inr (None, s))
      else
        lba ← block_at all_blocks block_idx;
        if lba =? 0 then Ok (inl (block_idx + 1, cur_dir_entry_pos, s))
        else
          '(buf, s) ← ide_read s lba 1;
          r ← next_entry buf (seqZ 0 dir_entrys_per_sec) size cur_dir_entry_pos (dir_pos d);
          match r with
          | inl pos => Ok (inl (block_idx + 1, pos, put_dir s dir (Dir (d_inode d) (dir_pos d) buf)))
          | inr k => Ok (inr (Some k, put_dir s dir (Dir (d_inode d) (u32 (dir_pos d + size)) buf)))
          end
    else Ok (inr (None, s))) (0, 0, s).

Definition dir_is_empty s (dir : Z) : outcome bool :=
  '(_, i) ← dir_inode s dir;
  Ok (i_size i =? u32 (dir_entry_size (sb (cur_part s)) * 2)).

Definition dir_remove s (parent_dir child_dir : Z) : outcome (Z * fs D) :=
  '(_, i) ← dir_inode s child_dir;
  ASSERT (forallb (λ b, b =? 0) (tail (i_sectors i)));;
  let '(io_buf, s) := sys_malloc s in
  if io_buf =? NULL then Ok (-1, s)
  else
    '(_, s) ← delete_dir_entry s parent_dir (i_no i);
    s ← inode_release s (i_no i);
    s ← sys_free s io_buf;
    Ok (0, s).

(** ** fs/file.c: [file_create] *)

(** The rollback of lines 170-184, from the given step on. *)
Definition rollback s (step inode_no fd_idx p io_buf : Z) : outcome (Z * fs D) :=
  let s := if 3 <=? step then put_file s fd_idx (File 0 0 NULL) else s in
  s ← (if 2 <=? step then s ← sys_free s p; Ok (set_inodes s (delete p (inodes s))) else Ok s);
  b ← bitmap_set (inode_bitmap (cur_part s)) (u32 inode_no) 0;
  s ← sys_free (set_inode_bitmap s b) io_buf;
  Ok (-1, s).

Definition file_create s (parent_dir : Z) (name : list Z) (flag : Z) : outcome (Z * fs D) :=
  let '(io_buf, s) := sys_malloc s in
  if io_buf =? NULL then Ok (-1, s)
  else
    '(inode_no, s) ← inode_bitmap_alloc s;
    if inode_no =? -1 then Ok (-1, s)
    else
      let '(p, s) := sys_malloc s in
      if p =? NULL then rollback s 1 inode_no 0 p io_buf
      else
        let s := put_inode s p (inode_init inode_no) in
        fd_idx ← get_free_slot_in_global s;
        if fd_idx =? -1 then rollback s 2 inode_no fd_idx p io_buf
        else
          let s := put_file s fd_idx (File 0 flag p) in
          e ← create_dir_entry name inode_no FT_REGULAR;
          '(r, s) ← sync_dir_entry s parent_dir e;
          if (r : bool) then
            '(_, parent) ← dir_inode s parent_dir;
            s ← inode_sync s parent;
            i ← get_inode s p;
            s ← inode_sync s i;
            s ← bitmap_sync s (u32 inode_no) INODE_BITMAP;
            let s := set_open_inodes s (p :: open_inodes (cur_part s)) in
            i ← get_inode s p;
            let s := put_inode s p (set_open_cnts i 1) in
            s ← sys_free s io_buf;
            pcb_fd_install s fd_idx
          else rollback s 3 inode_no fd_idx p io_buf.
End dir_ops.
