(* ===== verification/FsPath.v ===== *)
(** * fs/fs.c: paths

    Taking paths apart and following them through the directories. A path is a C
    string without its final 0; a name in one of the arrays [name] of 16
    characters is the list of the characters stored from its start on. *)

From stdpp Require Import base numbers list gmap.
From Stdlib Require Import ZArith Lia.
From S2P Require Import Prelude Bitmap Block FsState FsAlloc Inode FsFile Dir.

(** ['/'] *)
Definition slash : Z := 47.

(** [while (c == *p) p++;] *)
Fixpoint skip_slashes (p : list Z) : list Z :=
  match p with
  | [] => []
  | c :: rest => if c =? slash then skip_slashes rest else p
  end.
(** The loop that copies a name: what it stores and where it stops. *)
Fixpoint copy_name (p : list Z) : list Z * list Z :=
  match p with
  | [] => ([], [])
  | c :: rest => if c =? slash then ([], p) else let '(name, p) := copy_name rest in (c :: name, p)
  end.

(** The characters stored at [name_store] and the pointer returned, [None] for
    [NULL]. *)
Definition path_parse (pathname : list Z) : list Z * option (list Z) :=
  let pathname := match pathname with
                  | c :: rest => if c =? slash then skip_slashes rest else pathname
                  | [] => []
                  end in
  let '(name, p) := copy_name pathname in
  (name, match p with [] => None | _ => Some p end).

(** [path_parse] with an array of [MAX_FILE_NAME_LEN] characters. *)
Definition parse_name (p : list Z) : outcome (list Z * option (list Z)) :=
  let '(name, p) := path_parse p in
  if MAX_FILE_NAME_LEN <? Z.of_nat (length name) then Fault else Ok (name, p).
(** [memset(name, 0, MAX_FILE_NAME_LEN); if (p) p = path_parse(p, name);] *)
Definition next_name (p : option (list Z)) : outcome (list Z * option (list Z)) :=
  match p with Some p => parse_name p | None => Ok ([], None) end.

(** [name] is not initialised before the first call of [path_parse]: without a
    first name, [name[0]] is read and was never stored. *)
Definition path_depth_cnt (pathname : list Z) : outcome Z :=
  '(name, p) ← parse_name pathname;
  match name with
  | [] => Fault
  | _ =>
      loop (S (S (length pathname))) (λ '(name, p, depth),
        match name with
        | [] => Ok (inr depth)
        | _ => '(name, p) ← next_name p; Ok (inl (name, p, u32 (depth + 1)))
        end) (name, p, 0)
  end.

Record path_search_record := PathSearchRecord {
  searched_path : list Z;
  parent_dir : Z;
  file_type : Z
}.

(** [!strcmp(pathname, "/") || !strcmp(pathname, "/.") || !strcmp(pathname, "/..")] *)
Definition names_root (pathname : list Z) : bool :=
  bool_decide (pathname = [slash]) || bool_decide (pathname = slash :: dot) || bool_decide (pathname = slash :: dotdot).

(** [strcat(path, "/"); strcat(path, name);] in an array of [MAX_PATH_LEN]
    characters; a name that fills its array has no end. *)
Definition append_name (path name : list Z) : outcome (list Z) :=
  let path := path ++ slash :: name in
  if (Z.of_nat (length name) <? MAX_FILE_NAME_LEN) && (Z.of_nat (length path) <? MAX_PATH_LEN) then Ok path else Fault.

Section search.
Context {D : Type} `{BlockDevice D}.
Implicit Types (s : fs D).

(** The variables of the loop of [search_file]: [cur_dir] is [parent_dir] and
    [dir_e] the entry found last, if any. *)
Record walk := Walk {
  w_name : list Z;
  sub_path : option (list Z);
  w_path : list Z;
  cur_dir : Z;
  parent_inode_no : Z;
  dir_e : option dir_entry
}.

(** A round of the loop, for a name that is not empty. *)
Definition search_round s (w : walk) : outcome ((walk * fs D) + (Z * path_search_record * fs D)) :=
  ASSERT (Z.of_nat (length (w_path w)) <? 512);;
  path ← append_name (w_path w) (w_name w);
  '(found, s) ← search_dir_entry s (cur_dir w) (w_name w);
  match found with
  | Some e =>
      '(name, p) ← next_name (sub_path w);
      if FT_DIRECTORY =? f_type e then
        '(_, i) ← dir_inode s (cur_dir w);
        s ← dir_close s (cur_dir w);
        '(d, s) ← dir_open s (de_i_no e);
        Ok (inl (Walk name p path d (i_no i) (Some e), s))
      else if FT_REGULAR =? f_type e then
        Ok (inr (s32 (de_i_no e), PathSearchRecord path (cur_dir w) FT_REGULAR, s))
      else Ok (inl (Walk name p path (cur_dir w) (parent_inode_no w) (Some e), s))
  | None => Ok (inr (-1, PathSearchRecord path (cur_dir w) FT_UNKNOWN, s))
  end.

(** Lines 299-304. [dir_e] is only there when a name was found. *)
Definition search_end s (w : walk) : outcome (Z * path_search_record * fs D) :=
  s ← dir_close s (cur_dir w);
  '(d, s) ← dir_open s (parent_inode_no w);
  e ← from_option_fault (dir_e w);
  Ok (s32 (de_i_no e), PathSearchRecord (w_path w) d FT_DIRECTORY, s).

Definition search_step (x : walk * fs D) : outcome ((walk * fs D) + (Z * path_search_record * fs D)) :=
  let '(w, s) := x in
  match w_name w with
  | [] => r ← search_end s w; Ok (inr r)
  | _ => search_round s w
  end.

(** The record has been cleared by the caller. *)
Definition search_file s (pathname : list Z) : outcome (Z * path_search_record * fs D) :=
  if names_root pathname then Ok (0, PathSearchRecord [] root_dir FT_DIRECTORY, s)
  else
    let path_len := Z.of_nat (length pathname) in
    ASSERT (bool_decide (head pathname = Some slash) && (1 <? path_len) && (path_len <? MAX_PATH_LEN));;
    '(name, p) ← parse_name pathname;
    loop (S (S (S (length pathname)))) search_step (Walk name p [] root_dir 0 None, s).
End search.

(** ** The names of a path *)

(** What lies between the slashes, and the names among it. *)
Fixpoint split_path (p : list Z) : list (list Z) :=
  match p with
  | [] => [[]]
  | c :: rest =>
      if c =? slash then [] :: split_path rest
      else match split_path rest with n :: ns => (c :: n) :: ns | [] => [[c]] end
  end.
Definition components (p : list Z) : list (list Z) := filter (λ n, n ≠ []) (split_path p).
(** A name that fits the arrays of [MAX_FILE_NAME_LEN] characters. *)
Definition fits (name : list Z) : bool := Z.of_nat (length name) <=? MAX_FILE_NAME_LEN.

Lemma components_slash p : components (slash :: p) = components p.
Proof. done. Qed.

Lemma components_skip p : components (skip_slashes p) = components p.
Proof.
  induction p as [|c p IH]; [done|]. cbn [skip_slashes]. destruct (Z.eqb_spec c slash) as [->|]; [|done].
  by rewrite components_slash.
Qed.

Lemma skip_head p : head (skip_slashes p) ≠ Some slash.
Proof.
  induction p as [|c p IH]; [done|]. cbn [skip_slashes]. destruct (Z.eqb_spec c slash); [done|]. cbn. congruence.
Qed.

(** A path is the name copied first and the rest, which is empty or starts with a
    slash. *)
Lemma copy_name_spec p name rest : copy_name p = (name, rest) →
  p = name ++ rest ∧ (slash ∉ name) ∧ (rest = [] ∨ head rest = Some slash) ∧
  split_path p = match split_path rest with n :: ns => (name ++ n) :: ns | [] => [name] end.
Proof.
  revert name. induction p as [|c p IH]; intros name; cbn [copy_name]; [intros [= <- <-]|].
  { repeat split; [apply not_elem_of_nil|by left]. }
  destruct (Z.eqb_spec c slash) as [->|Hc].
  - intros [= <- <-]. repeat split; [apply not_elem_of_nil|by right].
  - destruct (copy_name p) as [n r] eqn:E. intros [= <- <-]. destruct (IH n eq_refl) as (-> & Hn & Hr & Hs).
    split; [done|]. split; [by rewrite not_elem_of_cons|]. split; [done|]. cbn [split_path].
    rewrite (proj2 (Z.eqb_neq c slash)), Hs by done. by destruct (split_path r).
Qed.

Lemma rest_components p name rest : copy_name p = (name, rest) → name ≠ [] →
  components p = name :: components rest.
Proof.
  intros Hc Hn. destruct (copy_name_spec _ _ _ Hc) as (_ & _ & Hr & Hs). unfold components. rewrite Hs.
  destruct Hr as [->|Hr].
  - cbn. by rewrite app_nil_r, decide_True.
  - destruct rest as [|c rest]; [done|]. injection Hr as ->. cbn [split_path].
    change (slash =? slash) with true. cbv iota. by rewrite app_nil_r, filter_cons_True.
Qed.

(** [path_parse] takes the first name off. *)
Lemma path_parse_spec p name r : path_parse p = (name, r) →
  components p = match name with [] => [] | _ => name :: components (default [] r) end ∧
  (name = [] → r = None) ∧ (∀ q, r = Some q → (length q < length p)%nat).
Proof.
  unfold path_parse. set (p' := match p with [] => [] | _ => _ end).
  assert (components p' = components p ∧ head p' ≠ Some slash ∧ (length p' ≤ length p)%nat) as (Hc & Hh & Hl).
  { unfold p'. destruct p as [|c p]; [done|]. destruct (Z.eqb_spec c slash) as [->|Hc].
    - rewrite components_skip. split; [done|]. split; [apply skip_head|].
      clear. induction p as [|c p IH]; cbn; [lia|]. zcase; cbn in *; lia.
    - split; [done|]. split; [cbn; congruence|lia]. }
  destruct (copy_name p') as [n q] eqn:E. intros [= <- <-]. destruct (copy_name_spec _ _ _ E) as (Hp & _ & Hr & _).
  destruct n as [|c n].
  - destruct Hr as [->|Hr]; [|cbn in Hp; by rewrite <- Hp in Hr].
    cbn in Hp. split; [|done]. rewrite <- Hc, Hp. done.
  - rewrite <- Hc, (rest_components _ _ _ E) by done. split; [by destruct q|]. split; [done|].
    intros q' Hq'. rewrite Hp, length_app in Hl. cbn in Hl. destruct q; [done|]. injection Hq' as <-. cbn in *. lia.
Qed.

(** The names to come, with the one in the array first. *)
Definition pending (name : list Z) (p : option (list Z)) : list (list Z) :=
  match name with [] => [] | _ => name :: components (default [] p) end.

(** The number of rounds a loop over the names can still take. *)
Definition rounds (name : list Z) (p : option (list Z)) : nat :=
  match name with [] => 0 | _ => S (match p with Some q => S (length q) | None => 0 end) end.

Lemma next_name_spec p :
  if forallb fits (take 1 (components (default [] p)))
  then ∃ name q, next_name p = Ok (name, q) ∧ pending name q = components (default [] p) ∧ (name = [] → q = None) ∧
    (rounds name q ≤ match p with Some q => S (length q) | None => 0 end)%nat
  else next_name p = Fault.
Proof.
  destruct p as [p|]; cbn [next_name]; [change (default [] (Some p)) with p|].
  - unfold parse_name. destruct (path_parse p) as [name q] eqn:E. destruct (path_parse_spec _ _ _ E) as (-> & Hq & Hl).
    destruct name as [|c name].
    + exists [], q. rewrite (Hq eq_refl). repeat split. cbn. lia.
    + cbn [take forallb]. rewrite andb_true_r. unfold fits. destruct (Z.leb_spec (Z.of_nat (length (c :: name))) MAX_FILE_NAME_LEN).
      * rewrite (proj2 (Z.ltb_ge _ _)) by done. exists (c :: name), q. repeat split; [done|].
        cbn. destruct q as [q|]; [|lia]. specialize (Hl q eq_refl). lia.
      * by rewrite (proj2 (Z.ltb_lt _ _)).
  - cbn. exists [], None. by split_and!.
Qed.

(** The loop of [path_depth_cnt]. *)
Lemma depth_loop fuel name p depth :
  (rounds name p < fuel)%nat → 0 ≤ depth → depth + Z.of_nat (rounds name p) < 2 ^ 32 → (name = [] → p = None) →
  loop fuel (λ '(name, p, depth),
    match name with
    | [] => Ok (inr depth)
    | _ => '(name, p) ← next_name p; Ok (inl (name, p, u32 (depth + 1)))
    end) (name, p, depth) =
  if forallb fits (tail (pending name p)) then Ok (depth + Z.of_nat (length (pending name p))) else Fault.
Proof.
  revert name p depth. induction fuel as [|fuel IH]; intros name p depth Hf Hd Hw Hn; [lia|]. cbn [loop].
  destruct name as [|c name]; [cbn; by rewrite Z.add_0_r|].
  pose proof (next_name_spec p) as Hnext. cbn [pending tail] in *.
  destruct (components (default [] p)) as [|n ns] eqn:E; cbn [take forallb] in Hnext.
  - destruct Hnext as (name' & q & -> & Hp & Hq & Hr). ocbn. cbn [rounds] in *.
    rewrite u32_small by lia. rewrite IH; [|lia..|done]. rewrite Hp. cbn. f_equal; lia.
  - rewrite andb_true_r in Hnext. destruct (fits n) eqn:Hfits; [|rewrite Hnext; cbn [forallb]; by rewrite Hfits].
    destruct Hnext as (name' & q & -> & Hp & Hq & Hr). ocbn. cbn [rounds] in *.
    rewrite u32_small by lia. rewrite IH; [|lia..|done]. rewrite Hp. cbn [tail forallb]. rewrite Hfits.
    cbn [andb]. destruct (forallb fits ns); [|done]. f_equal. cbn [length]. lia.
Qed.

(** C30. [path_depth_cnt] counts the names of a path: those between the slashes that
    are not empty. Without a name, or with one of more than 16 characters, it
    leaves its array. *)
Theorem path_depth_cnt_correct p :
  Z.of_nat (length p) < 2 ^ 32 - 2 →
  path_depth_cnt p =
    if bool_decide (components p = []) || negb (forallb fits (components p)) then Fault
    else Ok (Z.of_nat (length (components p))).
Proof.
  intros Hl. unfold path_depth_cnt. pose proof (next_name_spec (Some p)) as Hnext. cbn [next_name] in Hnext. change (default [] (Some p)) with p in Hnext.
  destruct (components p) as [|n ns] eqn:E; cbn [take forallb] in Hnext.
  - destruct Hnext as (name & q & -> & Hp & _). ocbn. by destruct name.
  - rewrite bool_decide_eq_false_2 by done. rewrite andb_true_r in Hnext. cbn [orb forallb].
    destruct (fits n) eqn:Hfits; [|by rewrite Hnext]. destruct Hnext as (name & q & -> & Hp & Hq & Hr). ocbn.
    destruct name as [|c name]; [done|]. rewrite depth_loop; [|lia..|done]. rewrite Hp. cbn [tail].
    by destruct (forallb fits ns).
Qed.

Module FsPathExample.
(** "/usr//bin" *)
Definition usr_bin : list Z := [47; 117; 115; 114; 47; 47; 98; 105; 110].

Lemma path_depth_cnt_correct_witness : path_depth_cnt usr_bin = Ok 2.
Proof. rewrite (path_depth_cnt_correct usr_bin) by (cbn; lia). vm_compute. reflexivity. Defined.
End FsPathExample.
