(* ===== verification/FsCalls.v ===== *)
(** * fs/fs.c: the system calls of the file system

    Each call on the state of the file system; the descriptors are those of the
    running thread. Paths and other strings are C strings without their final 0.
    Messages of [printk] are left out; what [sys_write] prints on the screen is
    part of its result. *)

From stdpp Require Import base numbers list gmap.
From Stdlib Require Import ZArith Lia.
From S2P Require Import Prelude Bitmap Block FsState FsAlloc Inode FsFile Dir FsPath.

Definition stdout_no : Z := 1.

(** [strrchr(p, '/') + 1] for a string with a slash: what follows the last one. *)
Fixpoint after_last_slash (p : list Z) : list Z :=
  match p with
  | [] => []
  | c :: rest => if (c =? slash) && negb (bool_decide (slash ∈ rest)) then rest else after_last_slash rest
  end.

(** The C string at the start of [bs], if it ends there. *)
Fixpoint cstring (bs : list Z) : outcome (list Z) :=
  match bs with
  | [] => Fault
  | c :: bs => if c =? 0 then Ok [] else str ← cstring bs; Ok (c :: str)
  end.

Record stat := Stat {
  st_ino : Z;
  st_size : Z;
  st_filetype : Z
}.

Section calls.
Context {D : Type} `{BlockDevice D}.
Implicit Types (s : fs D).

(** ** Files *)

(** [dir_close(searched_record.parent_dir); return ret;] *)
Definition close_and_return s (r : path_search_record) (ret : Z) : outcome (Z * fs D) :=
  s ← dir_close s (parent_dir r); Ok (ret, s).

Definition sys_open s (pathname : list Z) (flags : Z) : outcome (Z * fs D) :=
  match last pathname with
  | None => Fault
  | Some c =>
      if c =? slash then Ok (-1, s)
      else
        ASSERT (flags <=? 7);;
        pathname_depth ← path_depth_cnt pathname;
        '(inode_no, r, s) ← search_file s pathname;
        let found := negb (inode_no =? -1) in
        if file_type r =? FT_DIRECTORY then close_and_return s r (-1)
        else
          path_searched_depth ← path_depth_cnt (searched_path r);
          if negb (pathname_depth =? path_searched_depth) then close_and_return s r (-1)
          else
            let creat := truth (Z.land flags O_CREAT) in
            if negb found && negb creat then close_and_return s r (-1)
            else if found && creat then close_and_return s r (-1)
            else if creat then
              '(fd, s) ← file_create s (parent_dir r) (after_last_slash pathname) flags;
              close_and_return s r fd
            else file_open s (u32 inode_no) flags
  end.

Definition fd_local2global s (local_fd : Z) : outcome Z :=
  global_fd ← (if 0 <=? local_fd then from_option_fault (fd_table s !! Z.to_nat local_fd) else Fault);
  ASSERT ((0 <=? global_fd) && (global_fd <? MAX_FILE_OPEN));;
  Ok global_fd.

Definition sys_close s (fd : Z) : outcome (Z * fs D) :=
  if 2 <? fd then
    _fd ← fd_local2global s fd;
    '(ret, s) ← file_close s _fd;
    Ok (ret, set_fd_table s (<[Z.to_nat fd := -1]> (fd_table s)))
  else Ok (-1, s).

(** The value returned and the text on the screen; the message for a file that
    is not open for writing is left out. The array [tmp_buf] has 1024 characters,
    the last one has to stay 0. *)
Definition sys_write s (fd : Z) (buf : list Z) (count : Z) : outcome (Z * list Z * fs D) :=
  if fd <? 0 then Ok (-1, [], s)
  else if fd =? stdout_no then
    if (1023 <? count) || (Z.of_nat (length buf) <? count) then Fault
    else text ← cstring (take (Z.to_nat count) buf ++ [0]); Ok (s32 count, text, s)
  else
    _fd ← fd_local2global s fd;
    f ← get_file s _fd;
    if truth (Z.land (fd_flag f) O_WRONLY) || truth (Z.land (fd_flag f) O_RDWR) then
      '(bytes_written, s) ← file_write s _fd buf count;
      Ok (s32 bytes_written, [], s)
    else Ok (-1, [], s).

(** The value returned and the bytes stored at [buf], which is not [NULL]. *)
Definition sys_read s (fd count : Z) : outcome (Z * list Z * fs D) :=
  if fd <? 0 then Ok (-1, [], s)
  else
    _fd ← fd_local2global s fd;
    file_read s _fd count.

Definition sys_lseek s (fd offset whence : Z) : outcome (Z * fs D) :=
  if fd <? 0 then Ok (-1, s)
  else
    ASSERT ((0 <? whence) && (whence <? 4));;
    _fd ← fd_local2global s fd;
    pf ← get_file s _fd;
    i ← get_inode s (fd_inode pf);
    let file_size := s32 (i_size i) in
    let new_pos := if whence =? SEEK_SET then offset
                   else if whence =? SEEK_CUR then s32 (s32 (fd_pos pf) + offset)
                   else s32 (file_size + offset) in
    if (new_pos <? 0) || (s32 (file_size - 1) <? new_pos) then Ok (-1, s)
    else Ok (new_pos, put_file s _fd (File new_pos (fd_flag pf) (fd_inode pf))).

(** Lines 480-486: whether a file of the table has inode [inode_no]. *)
Fixpoint in_use (heap : gmap Z inode) (files : list file) (inode_no : Z) : outcome bool :=
  match files with
  | [] => Ok false
  | f :: files =>
      if fd_inode f =? NULL then in_use heap files inode_no
      else
        i ← from_option_fault (heap !! fd_inode f);
        if inode_no =? i_no i then Ok true else in_use heap files inode_no
  end.

Definition sys_unlink s (pathname : list Z) : outcome (Z * fs D) :=
  ASSERT (Z.of_nat (length pathname) <? MAX_PATH_LEN);;
  '(inode_no, r, s) ← search_file s pathname;
  ASSERT (negb (inode_no =? 0));;
  if inode_no =? -1 then close_and_return s r (-1)
  else if file_type r =? FT_DIRECTORY then close_and_return s r (-1)
  else
    used ← in_use (inodes s) (file_table s) (u32 inode_no);
    if (used : bool) then close_and_return s r (-1)
    else
      let '(io_buf, s) := sys_malloc s in
      if io_buf =? NULL then close_and_return s r (-1)
      else
        '(_, s) ← delete_dir_entry s (parent_dir r) (u32 inode_no);
        s ← inode_release s (u32 inode_no);
        s ← sys_free s io_buf;
        close_and_return s r 0.

(** ** Directories *)

(** Lines 614-624. *)
Definition mkdir_rollback s (step : Z) (r : path_search_record) (inode_no io_buf : Z) : outcome (Z * fs D) :=
  s ← (if 2 <=? step then b ← bitmap_set (inode_bitmap (cur_part s)) (u32 inode_no) 0; Ok (set_inode_bitmap s b)
       else Ok s);
  s ← dir_close s (parent_dir r);
  s ← sys_free s io_buf;
  Ok (-1, s).

(** Lines 549-611: making the directory with inode [inode_no]. *)
Definition make_dir s (r : path_search_record) (inode_no io_buf : Z) : outcome (Z * fs D) :=
  '(block_lba, s) ← block_bitmap_alloc s;
  if block_lba =? -1 then mkdir_rollback s 2 r inode_no io_buf
  else
    let block_bitmap_idx := u32 (block_lba - data_start_lba (sb (cur_part s))) in
    ASSERT (negb (block_bitmap_idx =? 0));;
    s ← bitmap_sync s block_bitmap_idx BLOCK_BITMAP;
    '(_, parent) ← dir_inode s (parent_dir r);
    s ← ide_write s (u32 block_lba) (first_sector inode_no (i_no parent)) 1;
    let new_dir_inode :=
      set_i_size (set_sector (inode_init inode_no) 0 (u32 block_lba)) (u32 (2 * dir_entry_size (sb (cur_part s)))) in
    e ← create_dir_entry (after_last_slash (searched_path r)) inode_no FT_DIRECTORY;
    '(ok, s) ← sync_dir_entry s (parent_dir r) e;
    if negb ok then mkdir_rollback s 2 r inode_no io_buf
    else
      '(_, parent) ← dir_inode s (parent_dir r);
      s ← inode_sync s parent;
      s ← inode_sync s new_dir_inode;
      s ← bitmap_sync s (u32 inode_no) INODE_BITMAP;
      s ← sys_free s io_buf;
      close_and_return s r 0.

Definition sys_mkdir s (pathname : list Z) : outcome (Z * fs D) :=
  let '(io_buf, s) := sys_malloc s in
  if io_buf =? NULL then Ok (-1, s)
  else
    '(inode_no, r, s) ← search_file s pathname;
    if negb (inode_no =? -1) then mkdir_rollback s 1 r inode_no io_buf
    else
      pathname_depth ← path_depth_cnt pathname;
      path_searched_depth ← path_depth_cnt (searched_path r);
      if negb (pathname_depth =? path_searched_depth) then mkdir_rollback s 1 r inode_no io_buf
      else
        '(inode_no, s) ← inode_bitmap_alloc s;
        if inode_no =? -1 then mkdir_rollback s 1 r inode_no io_buf
        else make_dir s r inode_no io_buf.

(** The second test of line 631 looks at [name[0]] again, which is ['/']. *)
Definition sys_opendir s (name : list Z) : outcome (Z * fs D) :=
  ASSERT (Z.of_nat (length name) <? MAX_PATH_LEN);;
  let name0 := byte_at name 0 in
  if (name0 =? slash) && ((byte_at name 1 =? 0) || (name0 =? 46)) then Ok (root_dir, s)
  else
    '(inode_no, r, s) ← search_file s name;
    '(ret, s) ← (if negb (inode_no =? -1) && (file_type r =? FT_DIRECTORY) then dir_open s (u32 inode_no)
                 else Ok (NULL, s));
    close_and_return s r ret.

Definition sys_closedir s (dir : Z) : outcome (Z * fs D) :=
  if negb (dir =? NULL) then s ← dir_close s dir; Ok (0, s) else Ok (-1, s).

Definition sys_readdir s (dir : Z) : outcome (option Z * fs D) :=
  ASSERT (negb (dir =? NULL));; dir_read s dir.

Definition sys_rewinddir s (dir : Z) : outcome (fs D) :=
  d ← get_dir s dir; Ok (put_dir s dir (Dir (d_inode d) 0 (dir_buf d))).

Definition sys_rmdir s (pathname : list Z) : outcome (Z * fs D) :=
  '(inode_no, r, s) ← search_file s pathname;
  ASSERT (negb (inode_no =? 0));;
  '(retval, s) ← (if inode_no =? -1 then Ok (-1, s)
                  else if file_type r =? FT_REGULAR then Ok (-1, s)
                  else
                    '(dir, s) ← dir_open s (u32 inode_no);
                    empty ← dir_is_empty s dir;
                    '(retval, s) ← (if negb empty then Ok (-1, s)
                                    else
                                      '(x, s) ← dir_remove s (parent_dir r) dir;
                                      Ok (if x =? 0 then 0 else -1, s));
                    s ← dir_close s dir;
                    Ok (retval, s));
  close_and_return s r retval.

(** ** The working directory *)

Definition get_parent_dir_inode_nr s (child_inode_nr : Z) : outcome (Z * fs D) :=
  '(p, s) ← inode_open s child_inode_nr;
  i ← get_inode s p;
  block_lba ← i_sector i 0;
  ASSERT (data_start_lba (sb (cur_part s)) <=? block_lba);;
  s ← inode_close s p;
  '(io_buf, s) ← ide_read s block_lba 1;
  let e := entry_at io_buf 1 in
  ASSERT ((de_i_no e <? 4096) && (f_type e =? FT_DIRECTORY));;
  Ok (de_i_no e, s).

(** The name appended to [path], [None] when there is no entry. The array has 512
    characters. *)
Definition get_child_dir_name s (p_inode_nr c_inode_nr : Z) (path : list Z) : outcome (option (list Z) * fs D) :=
  '(p, s) ← inode_open s p_inode_nr;
  i ← get_inode s p;
  '(all_blocks, s) ← read_all_blocks s i;
  table ← i_sector i 12;
  let block_cnt := if truth table then 140 else 12 in
  s ← inode_close s p;
  dir_entrys_per_sec ← entrys_per_sec (dir_entry_size (sb (cur_part s)));
  loop 141 (λ '(block_idx, s),
    if block_idx <? block_cnt then
      lba ← block_at all_blocks block_idx;
      if truth lba then
        '(io_buf, s) ← ide_read s lba 1;
        match head (filter (λ k, de_i_no (entry_at io_buf k) = c_inode_nr) (seqZ 0 dir_entrys_per_sec)) with
        | Some k =>
            name ← cstring (drop (Z.to_nat (sizeof_dir_entry * k)) io_buf);
            let path := path ++ slash :: name in
            if Z.of_nat (length path) <? MAX_PATH_LEN then Ok (inr (Some path, s)) else Fault
        | None => Ok (inl (block_idx + 1, s))
        end
      else Ok (inl (block_idx + 1, s))
    else Ok (inr (None, s))) (0, s).

(** Lines 800-805: the names of the path in the opposite order. *)
Fixpoint before_last_slash (p : list Z) : list Z :=
  match p with
  | [] => []
  | c :: rest => if (c =? slash) && negb (bool_decide (slash ∈ rest)) then [] else c :: before_last_slash rest
  end.
Definition reverse_path (p : list Z) : outcome (list Z) :=
  loop (S (length p)) (λ '(full, buf),
    if bool_decide (slash ∈ full) then
      Ok (inl (before_last_slash full, buf ++ slash :: after_last_slash full))
    else Ok (inr buf)) (p, []).

(** The string at [buf], which is not [NULL] and has [size] bytes; [None] stands
    for [NULL]. *)
Definition sys_getcwd s (size : Z) : outcome (option (list Z) * fs D) :=
  let '(io_buf, s) := sys_malloc s in
  if io_buf =? NULL then Ok (None, s)
  else
    let child_inode_nr := cwd_inode_nr s in
    ASSERT ((0 <=? child_inode_nr) && (child_inode_nr <? 4096));;
    if child_inode_nr =? 0 then if size <? 2 then Fault else Ok (Some [slash], s)
    else
      '(r, s) ← loop 513 (λ '(child_inode_nr, path, s),
        if truth child_inode_nr then
          '(parent_inode_nr, s) ← get_parent_dir_inode_nr s child_inode_nr;
          '(r, s) ← get_child_dir_name s parent_inode_nr child_inode_nr path;
          match r with
          | None => Ok (inr (None, s))
          | Some path => Ok (inl (parent_inode_nr, path, s))
          end
        else Ok (inr (Some path, s))) (child_inode_nr, [], s);
      match r with
      | None => s ← sys_free s io_buf; Ok (None, s)
      | Some path =>
          ASSERT (Z.of_nat (length path) <=? size);;
          buf ← reverse_path path;
          if Z.of_nat (length buf) <? size then s ← sys_free s io_buf; Ok (Some buf, s) else Fault
      end.

Definition set_cwd s (n : Z) : fs D :=
  Fs (cur_part s) (inodes s) (dirs s) (file_table s) (fd_table s) n (live s) (nulls s) (disk s).

Definition sys_chdir s (path : list Z) : outcome (Z * fs D) :=
  '(inode_no, r, s) ← search_file s path;
  let dir := negb (inode_no =? -1) && (file_type r =? FT_DIRECTORY) in
  close_and_return (if dir then set_cwd s (u32 inode_no) else s) r (if dir then 0 else -1).

(** The value returned and what is stored in [buf]. *)
Definition sys_stat s (path : list Z) : outcome (Z * option stat * fs D) :=
  if names_root path then
    '(_, i) ← dir_inode s root_dir;
    Ok (0, Some (Stat 0 (i_size i) FT_DIRECTORY), s)
  else
    '(inode_no, r, s) ← search_file s path;
    '(ret, st, s) ← (if negb (inode_no =? -1) then
                       '(p, s) ← inode_open s (u32 inode_no);
                       i ← get_inode s p;
                       s ← inode_close s p;
                       Ok (0, Some (Stat (u32 inode_no) (i_size i) (file_type r)), s)
                     else Ok (-1, None, s));
    s ← dir_close s (parent_dir r);
    Ok (ret, st, s).
End calls.
