(* ===== verification/FsMount.v ===== *)
(** * fs/fs.c: making and mounting a file system

    [partition_format] writes an empty file system to a partition,
    [mount_partition] reads the file system of a partition and [filesys_init] does
    this at the start. A [scan] stands for a disk with the partitions that
    [partition_scan] found on it. Blocks of memory that are never freed are not
    recorded; as in [FsState], [nulls] says which calls of [sys_malloc] fail. *)

From stdpp Require Import base numbers list gmap.
From Stdlib Require Import ZArith Lia.
From S2P Require Import Prelude Bitmap Block Partition FsState FsAlloc Inode FsFile Dir.

Definition fs_magic : Z := 425263896.

(** The 13 words of a super block and, in a sector, 460 bytes behind them. *)
Definition super_block_words (b : super_block) : list Z :=
  [magic b; sb_sec_cnt b; inode_cnt b; part_lba_base b; block_bitmap_lba b; block_bitmap_sects b;
   inode_bitmap_lba b; inode_bitmap_sects b; inode_table_lba b; inode_table_sects b; data_start_lba b;
   root_inode_no b; dir_entry_size b].
Definition super_block_at (bs : list Z) : super_block :=
  let w k := le32_at bs (4 * k) in
  SuperBlock (w 0) (w 1) (w 2) (w 3) (w 4) (w 5) (w 6) (w 7) (w 8) (w 9) (w 10) (w 11) (w 12).

(** ** [partition_format] *)

(** Lines 76-114: the super block and [block_bitmap_bit_len]. *)
Definition format_layout (part : partition) : super_block * Z :=
  let inode_bitmap_sects := DIV_ROUND_UP MAX_FILES_PER_PART BITS_PER_SECTOR in
  let inode_table_sects := DIV_ROUND_UP (sizeof_inode * MAX_FILES_PER_PART) SECTOR_SIZE in
  let used_sects := 1 + 1 + inode_bitmap_sects + inode_table_sects in
  let free_sects := u32 (sec_cnt part - used_sects) in
  let block_bitmap_sects := DIV_ROUND_UP free_sects BITS_PER_SECTOR in
  let block_bitmap_bit_len := u32 (free_sects - block_bitmap_sects) in
  let block_bitmap_sects := DIV_ROUND_UP block_bitmap_bit_len BITS_PER_SECTOR in
  let block_bitmap_lba := u32 (start_lba part + 2) in
  let inode_bitmap_lba := u32 (block_bitmap_lba + block_bitmap_sects) in
  let inode_table_lba := u32 (inode_bitmap_lba + inode_bitmap_sects) in
  let data_start_lba := u32 (inode_table_lba + inode_table_sects) in
  (SuperBlock fs_magic (sec_cnt part) MAX_FILES_PER_PART (start_lba part) block_bitmap_lba block_bitmap_sects
     inode_bitmap_lba inode_bitmap_sects inode_table_lba inode_table_sects data_start_lba 0 sizeof_dir_entry,
   block_bitmap_bit_len).

(** [memset(&buf[off], v, n)] *)
Definition fill (buf : list Z) (off v n : Z) : outcome (list Z) :=
  if off + n <=? Z.of_nat (length buf) then Ok (splice buf off (replicate (Z.to_nat n) v)) else Fault.

(** [buf[k] = f(buf[k])] *)
Definition update_byte (buf : list Z) (k : Z) (f : Z → Z) : outcome (list Z) :=
  b ← from_option_fault (buf !! Z.to_nat k);
  Ok (<[Z.to_nat k := f b]> buf).

(** Lines 137-150: the block bitmap. *)
Definition format_bitmap (buf : list Z) (block_bitmap_bit_len : Z) : outcome (list Z) :=
  buf ← update_byte buf 0 (λ b, Z.lor b 1);
  let last_byte := block_bitmap_bit_len / 8 in
  let last_bit := block_bitmap_bit_len mod 8 in
  buf ← fill buf last_byte 255 (SECTOR_SIZE - last_byte mod SECTOR_SIZE);
  loop 9 (λ '(bit_idx, buf),
    if bit_idx <=? last_bit then
      buf ← update_byte buf last_byte (λ b, u8 (Z.land b (Z.lnot (Z.shiftl 1 bit_idx))));
      Ok (inl (bit_idx + 1, buf))
    else Ok (inr buf)) (0, buf).

Definition root_inode (b : super_block) : inode :=
  Inode 0 (u32 (dir_entry_size b * 2)) 0 0 (data_start_lba b :: replicate 12 0).

(** The first [n] sectors of a buffer. *)
Definition prefix_sectors (buf : list Z) (n : Z) : outcome (list Z) :=
  if n * SECTOR_SIZE <=? Z.of_nat (length buf) then Ok (take (Z.to_nat (n * SECTOR_SIZE)) buf) else Fault.

(** The next call of [sys_malloc]: whether it fails. *)
Definition malloc_fails (nulls : list bool) : bool * list bool :=
  match nulls with b :: nulls => (b, nulls) | [] => (false, []) end.

Section mount.
Context {D : Type} `{BlockDevice D}.

(** [pad] is what the field [pad] of the super block on the stack holds. *)
Definition partition_format (d : D) (nulls : list bool) (part : partition) (pad : list Z) : outcome (D * list bool) :=
  let '(b, bit_len) := format_layout part in
  d ← bd_write d (u32 (start_lba part + 1)) (words_bytes (super_block_words b) ++ pad) 1;
  let buf_size := Z.max (Z.max (block_bitmap_sects b) (inode_bitmap_sects b)) (inode_table_sects b) in
  let buf_size := u32 (buf_size * SECTOR_SIZE) in
  let '(failed, nulls) := malloc_fails nulls in
  if (failed : bool) then Fault
  else
    let cleared := replicate (Z.to_nat buf_size) 0 in
    buf ← format_bitmap cleared bit_len;
    bs ← prefix_sectors buf (block_bitmap_sects b);
    d ← bd_write d (block_bitmap_lba b) bs (block_bitmap_sects b);
    buf ← update_byte cleared 0 (λ b, Z.lor b 1);
    bs ← prefix_sectors buf (inode_bitmap_sects b);
    d ← bd_write d (inode_bitmap_lba b) bs (inode_bitmap_sects b);
    bs ← prefix_sectors (splice cleared 0 (inode_bytes (root_inode b))) (inode_table_sects b);
    d ← bd_write d (inode_table_lba b) bs (inode_table_sects b);
    d ← bd_write d (data_start_lba b) (first_sector 0 0) 1;
    Ok (d, nulls).

(** ** [mount_partition] *)

(** [cur_part->...bits = sys_malloc(sects * SECTOR_SIZE)] and [ide_read]; a request for
    no bytes also returns [NULL]. *)
Definition mount_bitmap (d : D) (nulls : list bool) (lba sects : Z) : outcome (bitmap * D * list bool) :=
  let size := u32 (sects * SECTOR_SIZE) in
  let '(failed, nulls) := malloc_fails nulls in
  if (failed : bool) || (size =? 0) then Panic
  else
    '(bs, d) ← bd_read d lba sects;
    Ok (Bitmap size bs, d, nulls).

(** The body of the [if] of [mount_partition]. Without [sb_buf] the assertion of
    [memset] fails. *)
Definition mount (d : D) (nulls : list bool) (part : partition) : outcome (mounted * D * list bool) :=
  let '(no_buf, nulls) := malloc_fails nulls in
  let '(no_sb, nulls) := malloc_fails nulls in
  if (no_buf : bool) || (no_sb : bool) then Panic
  else
    '(bs, d) ← bd_read d (u32 (start_lba part + 1)) 1;
    let b := super_block_at bs in
    '(bbm, d, nulls) ← mount_bitmap d nulls (block_bitmap_lba b) (block_bitmap_sects b);
    '(ibm, d, nulls) ← mount_bitmap d nulls (inode_bitmap_lba b) (inode_bitmap_sects b);
    Ok (Mounted (start_lba part) (sec_cnt part) b bbm ibm [], d, nulls).

Definition get_part (hd : scan D) (r : part_ref) : option partition :=
  match r with prim i => prim_parts hd !! i | logic i => logic_parts hd !! i end.

(** [list_traversal(&partition_list, mount_partition, part_name)]: [partition_list]
    has the partitions of all disks, [None] when none has the name. *)
Fixpoint mount_partition (disks : list (scan D)) (l : list (nat * part_ref)) (nulls : list bool) (part_name : list Z)
    : outcome (option (mounted * D) * list bool) :=
  match l with
  | [] => Ok (None, nulls)
  | (n, r) :: l =>
      hd ← from_option_fault (disks !! n);
      part ← from_option_fault (get_part hd r);
      if bool_decide (pname part = part_name) then
        '(m, d, nulls) ← mount (sdev hd) nulls part;
        Ok (Some (m, d), nulls)
      else mount_partition disks l nulls part_name
  end.

(** ** [filesys_init] *)

(** [part++] *)
Definition next_part (r : part_ref) : part_ref :=
  match r with prim i => prim (S i) | logic i => logic (S i) end.

(** Lines 877-901: the partitions of a disk, from [part_idx] on. *)
Definition init_disk (hd : scan D) (nulls : list bool) (part_idx : Z) (pad : list Z)
    : outcome (scan D * list bool * Z) :=
  loop 13 (λ '(hd, nulls, part_idx, r),
    if part_idx <? 12 then
      let r := if part_idx =? 4 then logic 0 else r in
      part ← from_option_fault (get_part hd r);
      '(d, nulls) ← (if truth (sec_cnt part) then
                       '(bs, d) ← bd_read (sdev hd) (u32 (start_lba part + 1)) 1;
                       if le32_at bs 0 =? fs_magic then Ok (d, nulls)
                       else partition_format d nulls part pad
                     else Ok (sdev hd, nulls));
      Ok (inl (set_sdev hd d, nulls, part_idx + 1, next_part r))
    else Ok (inr (hd, nulls, part_idx))) (hd, nulls, part_idx, prim 0).

(** The loop over the channels: [disks] are their second disks, the first ones
    are skipped. [part_idx] is not reset. *)
Fixpoint init_disks (disks : list (scan D)) (nulls : list bool) (part_idx : Z) (pad : list Z)
    : outcome (list (scan D) * list bool) :=
  match disks with
  | [] => Ok ([], nulls)
  | hd :: disks =>
      '(hd, nulls, part_idx) ← init_disk hd nulls part_idx pad;
      '(disks, nulls) ← init_disks disks nulls part_idx pad;
      Ok (hd :: disks, nulls)
  end.

(** ["sdb1"] *)
Definition default_part : list Z := [115; 100; 98; 49].
(** [partition_list] as the scans of the disks leave it. *)
Definition all_parts (disks : list (scan D)) : list (nat * part_ref) :=
  concat (imap (λ n hd, (λ r, (n, r)) <$> partition_list hd) disks).

(** [fdt] is the descriptor table of the running thread. *)
Definition filesys_init (disks : list (scan D)) (nulls : list bool) (pad fdt : list Z) : outcome (fs D) :=
  let '(failed, nulls) := malloc_fails nulls in
  if (failed : bool) then Panic
  else
    '(disks, nulls) ← init_disks disks nulls 0 pad;
    '(r, nulls) ← mount_partition disks (all_parts disks) nulls default_part;
    '(m, d) ← from_option_fault r;
    s ← open_root_dir (Fs m ∅ ∅ [] fdt 0 ∅ nulls d);
    Ok (set_file_table s (replicate 32 (File 0 0 NULL))).
End mount.
