(* ===== verification/DirSpec.v ===== *)
(** * fs/dir.c: what the operations do to a directory

    A directory is the sequence of the entries in its blocks. [search_dir_entry]
    finds the first one with a name and [sync_dir_entry] adds one. *)

From stdpp Require Import base numbers list gmap.
From Stdlib Require Import ZArith Lia.
From S2P Require Import Prelude Bitmap Block FsState FsAlloc Inode FsFile FsWrite Dir.

#[export] Instance dir_entry_eq_dec : EqDecision dir_entry.
Proof. solve_decision. Defined.

(** ** Entries in a sector *)

Lemma byte_at_slice buf off n j : 0 ≤ off → 0 ≤ j < n → byte_at (slice buf off n) j = byte_at buf (off + j).
Proof.
  intros Ho Hj. unfold byte_at, slice. rewrite lookup_take_lt, lookup_drop by lia. do 2 f_equal. lia.
Qed.

(** Lists of the same length with the same bytes are equal. *)
Lemma bytes_eq (l l' : list Z) : length l = length l' →
  (∀ j, 0 ≤ j < Z.of_nat (length l) → byte_at l j = byte_at l' j) → l = l'.
Proof.
  intros Hl Hb. apply list_eq. intros k. destruct (decide (k < length l)%nat) as [Hk|Hk].
  - specialize (Hb (Z.of_nat k) ltac:(lia)). unfold byte_at in Hb. rewrite Nat2Z.id in Hb.
    destruct (lookup_lt_is_Some_2 l k Hk) as [x Hx]. destruct (lookup_lt_is_Some_2 l' k) as [y Hy]; [lia|].
    rewrite Hx, Hy in *. cbn in Hb. congruence.
  - rewrite !lookup_ge_None_2 by lia. done.
Qed.

Lemma le32_at_from bs o : le32_at bs o = le32_from (byte_at bs) o.
Proof. done. Qed.

(** An entry depends on its 24 bytes. *)
Lemma entry_at_ext b b' k k' : 0 ≤ k → 0 ≤ k' → 24 * k + 24 ≤ Z.of_nat (length b) → 24 * k' + 24 ≤ Z.of_nat (length b') →
  (∀ r, 0 ≤ r < 24 → byte_at b (24 * k + r) = byte_at b' (24 * k' + r)) → entry_at b k = entry_at b' k'.
Proof.
  intros Hk Hk' Hl Hl' Hb. unfold entry_at, sizeof_dir_entry. rewrite !le32_at_from. f_equal.
  - apply bytes_eq; [rewrite !slice_length by lia; done|]. rewrite slice_length by lia. intros j Hj.
    rewrite !byte_at_slice by lia. apply Hb. lia.
  - apply le32_from_ext. intros j Hj. rewrite <- !Z.add_assoc. apply Hb. lia.
  - apply le32_from_ext. intros j Hj. rewrite <- !Z.add_assoc. apply Hb. lia.
Qed.

(** An entry that can be stored. *)
Record entry_ok (e : dir_entry) : Prop := {
  eo_len : length (filename e) = 16%nat;
  eo_bytes : Forall is_byte (filename e);
  eo_no : word (de_i_no e);
  eo_type : word (f_type e)
}.

Lemma dir_entry_bytes_length e : entry_ok e → length (dir_entry_bytes e) = 24%nat.
Proof. intros []. unfold dir_entry_bytes. rewrite !length_app, !le32_bytes_length. lia. Qed.

Lemma dir_entry_bytes_ok e : entry_ok e → Forall is_byte (dir_entry_bytes e).
Proof. intros []. unfold dir_entry_bytes. by repeat (apply Forall_app; split); try apply le32_bytes_ok. Qed.

Lemma entry_roundtrip e : entry_ok e → entry_at (dir_entry_bytes e) 0 = e.
Proof.
  intros []. destruct e as [name no ft]; cbn [filename de_i_no f_type] in *. unfold entry_at, dir_entry_bytes. cbn [filename de_i_no f_type].
  change (sizeof_dir_entry * 0) with 0. f_equal.
  - unfold slice. change (Z.to_nat 0) with 0%nat. rewrite drop_0, take_app_le by lia. by rewrite take_ge by lia.
  - rewrite le32_at_app_r by lia. rewrite eo_len0. change (0 + 16 - Z.of_nat 16) with 0.
    by rewrite le32_at_app_l, le32_at_bytes by (rewrite ?le32_bytes_length; done || lia).
  - rewrite le32_at_app_r by lia. rewrite eo_len0. change (0 + 20 - Z.of_nat 16) with 4.
    rewrite le32_at_app_r by (rewrite ?le32_bytes_length; lia). rewrite le32_bytes_length. by apply (le32_at_bytes ft).
Qed.

(** Storing an entry changes that entry only. *)
Lemma entry_at_splice buf k e j : length buf = 512%nat → entry_ok e → 0 ≤ k < 21 → 0 ≤ j < 21 →
  entry_at (splice buf (24 * k) (dir_entry_bytes e)) j = if decide (j = k) then e else entry_at buf j.
Proof.
  intros Hl He Hk Hj. pose proof (dir_entry_bytes_length e He) as Hn.
  assert (length (splice buf (24 * k) (dir_entry_bytes e)) = 512%nat) as Hs by (rewrite splice_length; lia).
  case_decide as Hjk; subst.
  - rewrite <- (entry_roundtrip e He) at 2. apply entry_at_ext; [lia..|]. intros r Hr.
    rewrite byte_at_splice by lia. rewrite decide_True by lia. f_equal. lia.
  - apply entry_at_ext; [lia..|]. intros r Hr. rewrite byte_at_splice by lia. by rewrite decide_False by lia.
Qed.

Definition sector_entries (buf : list Z) : list dir_entry := entry_at buf <$> seqZ 0 21.

Lemma sector_entries_splice buf k e : length buf = 512%nat → entry_ok e → 0 ≤ k < 21 →
  sector_entries (splice buf (24 * k) (dir_entry_bytes e)) = <[Z.to_nat k := e]> (sector_entries buf).
Proof.
  intros Hl He Hk. apply list_eq. intros n. unfold sector_entries.
  destruct (decide (n < 21)%nat) as [Hn|Hn].
  - rewrite list_lookup_insert, !list_lookup_fmap, lookup_seqZ_lt, length_fmap, length_seqZ by lia. cbn [fmap option_fmap option_map].
    rewrite entry_at_splice by (done || lia). case_decide as H1; case_decide as H2; try lia; done.
  - rewrite !lookup_ge_None_2; [done| |]; rewrite ?length_insert, length_fmap, length_seqZ; lia.
Qed.

(** ** Names *)

Definition has_name (e : dir_entry) (name : list Z) : bool := str_eq (filename e) 0 name.

Lemma str_eq_slice buf off name j : 0 ≤ off → 0 ≤ j → j + Z.of_nat (length name) ≤ 15 →
  str_eq (slice buf off 16) j name = str_eq buf (off + j) name.
Proof.
  intros Ho. revert j. induction name as [|c name IH]; intros j Hj Hl; cbn [str_eq length] in *.
  - by rewrite byte_at_slice by lia.
  - rewrite byte_at_slice, IH by lia. by rewrite Z.add_assoc.
Qed.

Lemma named_entry buf k name : 0 ≤ k → Z.of_nat (length name) ≤ 15 → named buf k name = has_name (entry_at buf k) name.
Proof.
  intros Hk Hl. unfold named, has_name, entry_at, sizeof_dir_entry. cbn [filename].
  rewrite str_eq_slice by lia. by rewrite Z.add_0_r.
Qed.

(** The first entry with the name. *)
Definition lookup_name (name : list Z) (es : list dir_entry) : option dir_entry :=
  head (filter (λ e, has_name e name = true) es).
Definition used (es : list dir_entry) : list dir_entry := filter (λ e, f_type e ≠ FT_UNKNOWN) es.

Lemma head_filter_fmap {A B} (f : A → B) (P : B → Prop) `{!∀ x, Decision (P x)} (Q : A → Prop) `{!∀ x, Decision (Q x)} l :
  (∀ x, x ∈ l → Q x ↔ P (f x)) → head (filter P (f <$> l)) = f <$> head (filter Q l).
Proof.
  induction l as [|x l IH]; intros Hl; [done|]. rewrite fmap_cons, !filter_cons.
  assert (Q x ↔ P (f x)) as Hx by (apply Hl; left).
  destruct (decide (P (f x))), (decide (Q x)); [done|tauto|tauto|]. apply IH. intros y Hy. apply Hl. by right.
Qed.

Lemma find_name_entry buf name : Z.of_nat (length name) ≤ 15 →
  entry_at buf <$> find_name buf name 21 = lookup_name name (sector_entries buf).
Proof.
  intros Hl. symmetry. apply head_filter_fmap. intros k Hk. apply elem_of_seqZ in Hk.
  by rewrite named_entry by lia.
Qed.

(** The entries in the blocks [bl] of a directory; there is no block at 0. *)
Definition entries_of (get : Z → list Z) (bl : list Z) : list dir_entry :=
  bl ≫= λ lba, if lba =? 0 then [] else sector_entries (get lba).

Lemma entries_app get bl bl' : entries_of get (bl ++ bl') = entries_of get bl ++ entries_of get bl'.
Proof. apply bind_app. Qed.

Lemma entries_cons get lba bl :
  entries_of get (lba :: bl) = (if lba =? 0 then [] else sector_entries (get lba)) ++ entries_of get bl.
Proof. done. Qed.

Lemma entries_same get get' bl : (∀ l, l ∈ bl → l ≠ 0 → get' l = get l) → entries_of get' bl = entries_of get bl.
Proof.
  induction bl as [|l bl IH]; intros Hs; [done|]. rewrite !entries_cons, IH.
  - destruct (Z.eqb_spec l 0); [done|]. by rewrite (Hs l) by (by left || done).
  - intros l' Hl. apply Hs. by right.
Qed.

(** The blocks around block [n]. *)
Lemma entries_middle get bl n lba : bl !! n = Some lba →
  entries_of get bl = entries_of get (take n bl) ++
    (if lba =? 0 then [] else sector_entries (get lba)) ++ entries_of get (drop (S n) bl).
Proof.
  intros Hn. rewrite <- (take_drop_middle bl n lba) at 1 by done. by rewrite entries_app, entries_cons.
Qed.

Lemma head_app {A} (l l' : list A) : head (l ++ l') = match head l with Some x => Some x | None => head l' end.
Proof. by destruct l. Qed.

Section dir_spec.
Context {D : Type} `{BlockDevice D}.
Implicit Types (s : fs D) (d : D).

(** ** Going through the blocks *)

(** The addresses of the blocks of a directory. *)
Definition dir_blocks d (i : inode) : list Z :=
  take 12 (i_sectors i) ++ (if truth (table_of i) then words_at (bd_sector d (table_of i)) 0 128 else replicate 128 0).
Definition dir_entries d (i : inode) : list dir_entry := entries_of (bd_sector d) (dir_blocks d i).

(** The blocks are on the disk. *)
Record readable_dir d (i : inode) : Prop := {
  rd_len : length (i_sectors i) = 13%nat;
  rd_table : 0 ≤ table_of i < bd_size;
  rd_blocks : Forall (λ l, 0 ≤ l < bd_size) (dir_blocks d i)
}.

Lemma dir_blocks_length d i : length (i_sectors i) = 13%nat → length (dir_blocks d i) = 140%nat.
Proof.
  intros Hl. unfold dir_blocks. rewrite length_app, length_take, Hl.
  destruct (truth _); rewrite ?words_at_length, ?length_replicate; done.
Qed.

Lemma same_sectors_refl d : bd_ok d → same_sectors d d.
Proof. done. Qed.

Lemma same_sectors_trans d d' d'' : same_sectors d d' → same_sectors d' d'' → same_sectors d d''.
Proof. intros [_ H1] [Hok H2]. split; [done|]. intros l. by rewrite H2, H1. Qed.

Lemma same_blocks d d' i : same_sectors d d' → dir_blocks d' i = dir_blocks d i.
Proof. intros [_ Hs]. unfold dir_blocks. by rewrite Hs. Qed.

Lemma same_entries d d' i : same_sectors d d' → dir_entries d' i = dir_entries d i.
Proof. intros Hs. unfold dir_entries. rewrite (same_blocks _ _ _ Hs). apply entries_same. intros. apply Hs. Qed.

Lemma table_sector i : length (i_sectors i) = 13%nat → i_sector i 12 = Ok (table_of i).
Proof.
  intros Hl. unfold i_sector, table_of. destruct (lookup_lt_is_Some_2 (i_sectors i) 12) as [t Ht]; [lia|].
  change (Z.to_nat 12) with 12%nat. by rewrite Ht.
Qed.

Lemma read_all_blocks_spec s i : bd_ok (disk s) → readable_dir (disk s) i →
  ∃ d, read_all_blocks s i = Ok (dir_blocks (disk s) i, set_disk s d) ∧ same_sectors (disk s) d.
Proof.
  intros Hok [Hl Ht _]. unfold read_all_blocks, dir_blocks. rewrite table_sector by done. ocbn.
  destruct (truth (table_of i)).
  - destruct (ide_read1 s (table_of i) Hok) as (d & -> & Hd); [lia|]. ocbn. by exists d.
  - exists (disk s). split; [|done]. by destruct s.
Qed.

(** A loop over the blocks that goes on at the first [n] of them and only reads. *)
Lemma skip_blocks {R} (body : Z * fs D → outcome ((Z * fs D) + R)) s (n : nat) : (n ≤ 140)%nat → bd_ok (disk s) →
  (∀ (j : nat) d, (j < n)%nat → same_sectors (disk s) d →
     ∃ d', body (Z.of_nat j, set_disk s d) = Ok (inl (Z.of_nat j + 1, set_disk s d')) ∧ same_sectors (disk s) d') →
  ∃ d, same_sectors (disk s) d ∧ loop 141 body (0, s) = loop (141 - n) body (Z.of_nat n, set_disk s d).
Proof.
  intros Hn Hok Hbody. induction n as [|n IH].
  - exists (disk s). split; [done|]. by destruct s.
  - destruct IH as (d & Hd & ->); [lia|intros; apply Hbody; [lia|done]|].
    destruct (Hbody n d) as (d' & Hb & Hd'); [lia|done|]. exists d'. split; [done|].
    replace (141 - n)%nat with (S (141 - S n)) by lia. rewrite (loop_step _ _ _ _ Hb). do 2 f_equal. lia.
Qed.

Lemma block_at_nth bl (n : nat) lba : bl !! n = Some lba → block_at bl (Z.of_nat n) = Ok lba.
Proof. intros Hn. unfold block_at. rewrite (proj2 (Z.leb_le _ _)), Nat2Z.id, Hn by lia. done. Qed.

Lemma set_disk_twice s d d' : set_disk (set_disk s d) d' = set_disk s d'.
Proof. done. Qed.

(** ** Searching *)

(** Block [lba] has an entry with the name. *)
Definition block_has d (name : list Z) (lba : Z) : Prop := lba ≠ 0 ∧ find_name (bd_sector d lba) name 21 ≠ None.
#[local] Instance block_has_dec d name lba : Decision (block_has d name lba).
Proof. unfold block_has. apply _. Defined.

Lemma lookup_none d name bl : Z.of_nat (length name) ≤ 15 → Forall (λ lba, ¬ block_has d name lba) bl →
  filter (λ e, has_name e name = true) (entries_of (bd_sector d) bl) = [].
Proof.
  intros Hl Hb. induction Hb as [|lba bl Hn Hb IH]; [done|]. rewrite entries_cons, filter_app, IH, app_nil_r.
  destruct (Z.eqb_spec lba 0) as [|H0]; [done|].
  pose proof (find_name_entry (bd_sector d lba) name Hl) as He. unfold lookup_name in He.
  clear IH. destruct (filter _ _); [done|]. destruct (find_name _ _ _) eqn:E; [|done]. destruct Hn. split; [done|]. by rewrite E.
Qed.

(** The loop of [search_dir_entry]. *)
Lemma search_loop s bl buf_p name : bd_ok (disk s) → length bl = 140%nat → Forall (λ l, 0 ≤ l < bd_size) bl →
  buf_p ≠ NULL → Z.of_nat (length name) ≤ 15 →
  ∃ d, loop 141 (search_block bl buf_p name 21) (0, s) =
    Ok (lookup_name name (entries_of (bd_sector (disk s)) bl), set_disk s d) ∧ same_sectors (disk s) d.
Proof.
  intros Hok Hl Hon Hbuf Hname. set (body := search_block bl buf_p name 21).
  assert (∀ (j : nat) lba d, bl !! j = Some lba → ¬ block_has (disk s) name lba → same_sectors (disk s) d →
    ∃ d', body (Z.of_nat j, set_disk s d) = Ok (inl (Z.of_nat j + 1, set_disk s d')) ∧ same_sectors (disk s) d') as Hskip.
  { intros j lba d Hj Hno Hd. pose proof (lookup_lt_Some _ _ _ Hj). unfold body, search_block.
    rewrite (proj2 (Z.ltb_lt _ _)), (block_at_nth _ _ _ Hj) by lia. ocbn.
    destruct (Z.eqb_spec lba 0) as [->|Hz]; [by exists d|]. rewrite (proj2 (Z.eqb_neq buf_p NULL)) by done.
    destruct (ide_read1 (set_disk s d) lba (proj1 Hd)) as (d' & -> & Hd'); [exact (Forall_lookup_1 _ _ _ _ Hon Hj)|].
    ocbn. cbn [disk set_disk] in *. rewrite (proj2 Hd lba). exists d'.
    split; [|by eapply same_sectors_trans].
    destruct (find_name _ _ _) eqn:E; [|done]. destruct Hno. split; [done|]. by rewrite E. }
  destruct (list_find (block_has (disk s) name) bl) as [[n lba]|] eqn:E.
  - apply list_find_Some in E as (Hn & [Hz Hhas] & Hbefore). pose proof (lookup_lt_Some _ _ _ Hn).
    destruct (skip_blocks body s n) as (d & Hd & ->); [lia|done| |].
    { intros j d Hj Hd. destruct (lookup_lt_is_Some_2 bl j) as [l Hl']; [lia|]. by eapply Hskip; [|eapply Hbefore|]. }
    destruct (ide_read1 (set_disk s d) lba (proj1 Hd)) as (d' & Hr & Hd'); [exact (Forall_lookup_1 _ _ _ _ Hon Hn)|].
    exists d'. cbn [disk set_disk] in *. split; [|by eapply same_sectors_trans].
    replace (141 - n)%nat with (S (140 - n)) by lia. apply loop_exit. unfold body, search_block.
    rewrite (proj2 (Z.ltb_lt _ _)), (block_at_nth _ _ _ Hn) by lia. ocbn.
    rewrite (proj2 (Z.eqb_neq lba 0)), (proj2 (Z.eqb_neq buf_p NULL)), Hr by done. ocbn. rewrite (proj2 Hd lba).
    pose proof (find_name_entry (bd_sector (disk s) lba) name Hname) as He.
    rewrite (entries_middle _ bl n lba Hn), (proj2 (Z.eqb_neq lba 0)) by done. unfold lookup_name in *.
    rewrite !filter_app, lookup_none, head_app; [|done|].
    + cbn [head app]. rewrite head_app, <- He. by destruct (find_name _ _ _).
    + apply Forall_forall. intros l Hl'. apply list_elem_of_lookup in Hl' as [j Hj].
      apply lookup_take_Some in Hj as [Hj ?]. by eapply Hbefore.
  - apply list_find_None in E. destruct (skip_blocks body s 140) as (d & Hd & ->); [lia|done| |].
    { intros j d Hj Hd. destruct (lookup_lt_is_Some_2 bl j) as [l Hl']; [lia|]. eapply Hskip; [done| |done].
      exact (Forall_lookup_1 _ _ _ _ E Hl'). }
    exists d. split; [|done]. unfold lookup_name. by rewrite lookup_none.
Qed.

Lemma dir_inode_ok s pdir dd i : dirs s !! pdir = Some dd → inodes s !! d_inode dd = Some i →
  dir_inode s pdir = Ok (d_inode dd, i).
Proof. intros Hd Hi. unfold dir_inode, get_dir. rewrite Hd. ocbn. by rewrite (get_inode_ok _ _ _ Hi). Qed.

(** [search_dir_entry] finds the first entry of a directory with the given name,
    in its direct and indirect blocks, and returns false when there is none. It
    changes nothing and gives its memory back. *)
Theorem search_dir_entry_correct s pdir dd i name :
  nulls s = [] → bd_ok (disk s) → dir_entry_size (sb (cur_part s)) = 24 →
  dirs s !! pdir = Some dd → inodes s !! d_inode dd = Some i → readable_dir (disk s) i → Z.of_nat (length name) ≤ 15 →
  ∃ d, search_dir_entry s pdir name = Ok (lookup_name name (dir_entries (disk s) i), set_disk s d) ∧
    same_sectors (disk s) d.
Proof.
  intros Hnulls Hok Hsize Hdir Hi Hrd Hname. unfold search_dir_entry.
  destruct (sys_malloc_ok s Hnulls) as (a & -> & Ha & Ha0). rewrite (proj2 (Z.eqb_neq a NULL)) by done.
  set (s1 := set_heap s ({[a]} ∪ live s) []). rewrite (dir_inode_ok s1 pdir dd i) by done. ocbn.
  destruct (read_all_blocks_spec s1 i) as (d1 & -> & Hd1); [done|done|]. ocbn.
  destruct (sys_malloc_ok (set_disk s1 d1)) as (b & -> & Hb & Hb0); [done|].
  cbn [cur_part set_heap set_disk s1 live] in *. rewrite Hsize. change (entrys_per_sec 24) with (Ok 21). ocbn.
  set (s2 := set_heap _ _ []).
  destruct (search_loop s2 (dir_blocks (disk s) i) b name) as (d2 & Hloop & Hd2);
    [apply Hd1|by apply dir_blocks_length, Hrd|apply Hrd|done|done|].
  change (disk s2) with d1 in Hd2. change (disk s1) with (disk s). rewrite Hloop. ocbn.
  rewrite (sys_free_ok _ b) by done. ocbn. rewrite (sys_free_ok _ a) by done. ocbn. exists d2. split.
  - do 2 f_equal.
    + f_equal. apply entries_same. intros. apply Hd1.
    + unfold s2, s1, set_disk, set_heap. cbn. rewrite Hnulls. f_equal. clear -Ha Hb; set_solver.
  - by eapply same_sectors_trans.
Qed.

(** ** Adding an entry *)

(** An entry that is not used. *)
Definition blank : dir_entry := DirEntry (replicate 16 0) 0 FT_UNKNOWN.

(** [es'] is [es] with [e] in the place of blank entries [x], or among new blank
    entries [y] and [z]. *)
Definition inserted (es es' : list dir_entry) (e : dir_entry) : Prop := ∃ A x y z B,
  es = A ++ x ++ B ∧ es' = A ++ y ++ e :: z ++ B ∧ Forall (eq blank) x ∧ Forall (eq blank) y ∧ Forall (eq blank) z.

Lemma blank_used l : Forall (eq blank) l → used l = [].
Proof. induction 1 as [|e l <- _ IH]; [done|]. exact IH. Qed.

Lemma blank_unnamed l name : name ≠ [] → Forall (λ c, c ≠ 0) name → Forall (eq blank) l →
  filter (λ e, has_name e name = true) l = [].
Proof.
  intros Hne Hc. induction 1 as [|e l <- _ IH]; [done|]. rewrite filter_cons_False; [done|].
  destruct name as [|c name]; [done|]. apply Forall_cons in Hc as [Hc _]. unfold has_name. cbn [str_eq filename blank].
  change (byte_at (replicate 16 0) 0) with 0. by rewrite (proj2 (Z.eqb_neq 0 c)) by done.
Qed.

Lemma inserted_used es es' e : inserted es es' e → f_type e ≠ FT_UNKNOWN → used es' ≡ₚ e :: used es.
Proof.
  intros (A & x & y & z & B & -> & -> & Hx & Hy & Hz) He. unfold used.
  rewrite !filter_app, filter_cons_True, filter_app by done.
  fold (used x) (used y) (used z). rewrite (blank_used x), (blank_used y), (blank_used z) by done. cbn [app]. by rewrite Permutation_middle.
Qed.

(** Lookups after an insertion. *)
Lemma inserted_lookup es es' e name : inserted es es' e → name ≠ [] → Forall (λ c, c ≠ 0) name →
  lookup_name name es' = if has_name e name then match lookup_name name es with
                                                 | Some e' => lookup_name name es'
                                                 | None => Some e
                                                 end
                         else lookup_name name es.
Proof.
  intros (A & x & y & z & B & -> & -> & Hx & Hy & Hz) Hne Hc. unfold lookup_name.
  rewrite !filter_app, filter_cons, filter_app, (blank_unnamed x), (blank_unnamed y), (blank_unnamed z) by done. cbn [app].
  destruct (has_name e name) eqn:E; [|by rewrite decide_False by done].
  rewrite decide_True, !head_app by done. by destruct (filter _ A); [destruct (filter _ B)|].
Qed.

(** A directory whose blocks are all direct ones. *)
Definition direct (i : inode) : list Z := take 12 (i_sectors i).
Record dir_ok s (p : Z) (i : inode) : Prop := {
  di_inode : inodes s !! p = Some i;
  di_iok : inode_ok i;
  di_table : table_of i = 0;
  di_blocks : Forall (λ l, l = 0 ∨ is_block (cur_part s) l ∧ block_used (cur_part s) l = true) (direct i);
  di_distinct (j k : nat) l : direct i !! j = Some l → direct i !! k = Some l → l ≠ 0 → j = k;
  di_blank : Forall (λ e, f_type e = FT_UNKNOWN → e = blank) (dir_entries (disk s) i);
  di_size : i_size i mod 24 = 0
}.

Lemma direct_twelve i : inode_ok i → length (direct i) = 12%nat.
Proof. intros Hi. unfold direct. rewrite length_take, (io_len _ Hi). done. Qed.

Lemma entries_zero get n : entries_of get (replicate n 0) = [].
Proof. by induction n as [|n IH]. Qed.

Lemma direct_entries d i : table_of i = 0 → dir_entries d i = entries_of (bd_sector d) (direct i).
Proof.
  intros Ht. unfold dir_entries, dir_blocks. rewrite Ht. change (truth 0) with false. cbv iota.
  by rewrite entries_app, entries_zero, app_nil_r.
Qed.

Lemma dir_ok_readable s p i : layout_ok (cur_part s) → dir_ok s p i → readable_dir (disk s) i.
Proof.
  intros Hlo Hd. pose proof (layout_bounds _ Hlo). constructor.
  - apply (io_len _ (di_iok _ _ _ Hd)).
  - rewrite (di_table _ _ _ Hd). lia.
  - unfold dir_blocks. rewrite (di_table _ _ _ Hd). change (truth 0) with false. cbv iota. apply Forall_app. split.
    + eapply Forall_impl; [exact (di_blocks _ _ _ Hd)|]. intros l [->|[Hb _]]; [lia|].
      destruct (block_word _ _ Hlo Hb). lia.
    + apply Forall_replicate. lia.
Qed.

Lemma direct_on_disk s p i (j : nat) l : layout_ok (cur_part s) → dir_ok s p i → direct i !! j = Some l → 0 ≤ l < bd_size.
Proof.
  intros Hlo Hdir Hj. pose proof (layout_bounds _ Hlo).
  destruct (Forall_lookup_1 _ _ _ _ (di_blocks _ _ _ Hdir) Hj) as [->|[Hb _]]; [lia|].
  destruct (block_word _ _ Hlo Hb). lia.
Qed.

(** Block [lba] has room for an entry, or there is none yet. *)
Definition has_room d (lba : Z) : Prop := lba = 0 ∨ find_unused (bd_sector d lba) 21 ≠ None.
#[local] Instance has_room_dec d lba : Decision (has_room d lba).
Proof. unfold has_room. apply _. Defined.

Lemma find_unused_spec buf k : find_unused buf 21 = Some k → 0 ≤ k < 21 ∧ f_type (entry_at buf k) = FT_UNKNOWN.
Proof.
  unfold find_unused. intros Hk. destruct (filter _ _) as [|k' l] eqn:E; [done|]. injection Hk as ->.
  assert (k ∈ k :: l) as Hin by left. rewrite <- E in Hin. apply list_elem_of_filter in Hin as [Hf Hin].
  apply elem_of_seqZ in Hin. split; [lia|done].
Qed.

(** Entry [k] of a sector with what is before and behind it. *)
Lemma sector_middle buf (k : Z) : 0 ≤ k < 21 → ∃ A B, sector_entries buf = A ++ entry_at buf k :: B ∧
  ∀ e, <[Z.to_nat k := e]> (sector_entries buf) = A ++ e :: B.
Proof.
  intros Hk. assert (sector_entries buf !! Z.to_nat k = Some (entry_at buf k)) as Hl.
  { unfold sector_entries. rewrite list_lookup_fmap, lookup_seqZ_lt by lia. cbn. do 2 f_equal. lia. }
  exists (take (Z.to_nat k) (sector_entries buf)), (drop (S (Z.to_nat k)) (sector_entries buf)).
  split; [by rewrite take_drop_middle|]. intros e. apply insert_take_drop. apply lookup_lt_Some in Hl. done.
Qed.

Lemma zero_sector : sector_entries (replicate 512 0) = replicate 21 blank.
Proof. vm_compute. reflexivity. Qed.

Lemma took_same s d s' new ws : same_sectors (disk s) d → took (set_disk s d) s' new ws → took s s' new ws.
Proof.
  intros [_ Hs] [? ? ? ? ? ? ? ? ? ? ? ? ? Hsec]. constructor; try done. intros l Hl Hw. rewrite <- Hs. by apply Hsec.
Qed.
End dir_spec.

Section add_entry.
Context {D : Type} `{BlockDevice D}.
Context (s : fs D) (p : Z) (i : inode) (e : dir_entry).
Context (Hlo : layout_ok (cur_part s)) (Hok : bd_ok (disk s)) (Hsize : dir_entry_size (sb (cur_part s)) = 24).
Context (Hdir : dir_ok s p i) (He : entry_ok e) (Hused : f_type e ≠ FT_UNKNOWN) (Hroom : i_size i < 2 ^ 32 - 24).

(** [s'] is [s] with the entry in the directory: only blocks of the directory and
    the block bitmap are written. *)
Definition entry_added (s' : fs D) : Prop := ∃ i' new ws,
  took s s' new ws ∧ (length new ≤ 1)%nat ∧ (∀ l, l ∈ new ++ ws → l ∈ direct i') ∧ (∀ l, l ∈ direct i' → l ∈ direct i ∨ l ∈ new) ∧ inodes s' = <[p := i']> (inodes s) ∧
  i_no i' = i_no i ∧ i_open_cnts i' = i_open_cnts i ∧ i_size i' = i_size i + 24 ∧ dir_ok s' p i' ∧
  inserted (dir_entries (disk s) i) (dir_entries (disk s') i') e.

(** The directory is as it has to be afterwards. *)
Lemma added_dir_ok (s' : fs D) i' new ws : took s s' new ws → inodes s' !! p = Some i' → inode_ok i' → table_of i' = 0 →
  (∀ l, l ∈ direct i' → l ∈ direct i ∨ l ∈ new) →
  (∀ (j k : nat) l, direct i' !! j = Some l → direct i' !! k = Some l → l ≠ 0 → j = k) →
  inserted (dir_entries (disk s) i) (dir_entries (disk s') i') e → i_size i' = i_size i + 24 → dir_ok s' p i'.
Proof.
  intros Ht Hi Hiok Htab Hsub Hdis Hins Hsz. constructor; try done.
  - apply Forall_forall. intros l Hl. destruct (Hsub l Hl) as [Hold|Hnew].
    + pose proof (proj1 (Forall_forall _ _) (di_blocks _ _ _ Hdir) l Hold) as [->|[Hb Hu]]; [by left|right].
      split; [by apply (took_block _ _ _ _ _ Ht)|]. by rewrite (tk_used _ _ _ _ Ht), Hu.
    + right. pose proof (proj1 (Forall_forall _ _) (tk_new _ _ _ _ Ht) l Hnew) as [Hb _].
      split; [by apply (took_block _ _ _ _ _ Ht)|]. rewrite (tk_used _ _ _ _ Ht) by done.
      rewrite (bool_decide_eq_true_2 _ Hnew). apply orb_true_r.
  - destruct Hins as (A & x & y & z & B & Hes & -> & _ & Hy & Hz). pose proof (di_blank _ _ _ Hdir) as Hbl. rewrite Hes in Hbl.
    rewrite !Forall_app in Hbl. destruct Hbl as (HA & _ & HB). apply Forall_app. split; [done|].
    apply Forall_app. split; [|apply Forall_cons; split; [done|]; apply Forall_app; split; [|done]].
    + eapply Forall_impl; [exact Hy|]. by intros e' <-.
    + eapply Forall_impl; [exact Hz|]. by intros e' <-.
  - rewrite Hsz, Z.add_mod, (di_size _ _ _ Hdir) by lia. done.
Qed.

Lemma entry_copy_ok : entry_copy e 24 = Ok (dir_entry_bytes e).
Proof.
  unfold entry_copy. change (24 <=? sizeof_dir_entry) with true. cbv iota. rewrite take_ge; [done|].
  rewrite dir_entry_bytes_length by done. lia.
Qed.

Lemma grow_dir_ok (x : fs D) j : inodes x !! p = Some j → sb (cur_part x) = sb (cur_part s) → i_size j = i_size i →
  grow_dir x p = Ok (put_inode x p (set_i_size j (i_size i + 24))).
Proof.
  intros Hj Hsb Hsz. unfold grow_dir. rewrite (get_inode_ok _ _ _ Hj). ocbn. rewrite Hsb, Hsize, Hsz.
  pose proof (io_size _ (di_iok _ _ _ Hdir)). unfold word in *. by rewrite u32_small by lia.
Qed.

(** The entry replaces an unused one in block [n] of the directory. *)
Lemma add_in_block (n : nat) lba k d d' : direct i !! n = Some lba → lba ≠ 0 →
  find_unused (bd_sector (disk s) lba) 21 = Some k → same_sectors (disk s) d → bd_ok d' →
  (∀ l, bd_sector d' l = if bool_decide (l = lba) then splice (bd_sector (disk s) lba) (24 * k) (dir_entry_bytes e)
                         else bd_sector d l) →
  entry_added (put_inode (set_disk s d') p (set_i_size i (i_size i + 24))).
Proof.
  intros Hn Hz Hk Hd Hokd Hsec. destruct (find_unused_spec _ _ Hk) as [Hkr Hun].
  set (i' := set_i_size i (i_size i + 24)). set (s' := put_inode (set_disk s d') p i').
  pose proof (Forall_lookup_1 _ _ _ _ (di_blocks _ _ _ Hdir) Hn) as [?|[Hb Hu]]; [done|].
  assert (took s s' [] [lba]) as Ht.
  { apply took_inodes. apply (took_write s s [] [] d' lba); [by apply took_refl|done|]. intros l Hne.
    rewrite Hsec, bool_decide_eq_false_2 by done. apply Hd. }
  assert (entries_of (bd_sector d') (take n (direct i)) = entries_of (bd_sector (disk s)) (take n (direct i)) ∧
    entries_of (bd_sector d') (drop (S n) (direct i)) = entries_of (bd_sector (disk s)) (drop (S n) (direct i))) as [HA HB].
  { split; apply entries_same; intros l Hl Hne; rewrite Hsec, bool_decide_eq_false_2; try apply Hd; intros ->;
      apply list_elem_of_lookup in Hl as [j Hj].
    - apply lookup_take_Some in Hj as [Hj ?]. pose proof (di_distinct _ _ _ Hdir _ _ _ Hj Hn Hne). lia.
    - rewrite lookup_drop in Hj. pose proof (di_distinct _ _ _ Hdir _ _ _ Hj Hn Hne). lia. }
  destruct (sector_middle (bd_sector (disk s) lba) k Hkr) as (A & B & HAB & Hins).
  assert (inserted (dir_entries (disk s) i) (dir_entries d' i') e) as Hi.
  { rewrite !direct_entries by apply (di_table _ _ _ Hdir). change (direct i') with (direct i).
    rewrite (entries_middle _ _ _ _ Hn), (entries_middle (bd_sector d') _ _ _ Hn), HA, HB, Hsec, bool_decide_eq_true_2 by done.
    rewrite (proj2 (Z.eqb_neq lba 0)) by done. rewrite sector_entries_splice, Hins, HAB by (done || apply bd_sector_len).
    exists (entries_of (bd_sector (disk s)) (take n (direct i)) ++ A), [entry_at (bd_sector (disk s) lba) k], [], [],
      (B ++ entries_of (bd_sector (disk s)) (drop (S n) (direct i))).
    rewrite <- !app_assoc. split; [done|]. split; [done|]. split; [|by split]. apply Forall_singleton. symmetry.
    pose proof (di_blank _ _ _ Hdir) as Hbl. rewrite direct_entries in Hbl by apply (di_table _ _ _ Hdir).
    rewrite (entries_middle _ _ _ _ Hn), (proj2 (Z.eqb_neq lba 0)), HAB in Hbl by done.
    rewrite !Forall_app, Forall_cons in Hbl. by apply Hbl. }
  exists i', [], [lba]. split; [done|]. split; [cbn; lia|]. split; [intros l ->%list_elem_of_singleton; by eapply list_elem_of_lookup_2|].
  split; [intros l Hl; by left|]. split; [done|]. split; [done|]. split; [done|]. split; [done|]. split; [|done].
  apply (added_dir_ok s' i' [] [lba]); try done.
  - apply lookup_insert_eq.
  - destruct (di_iok _ _ _ Hdir). constructor; try done. unfold word in *. cbn. lia.
  - apply (di_table _ _ _ Hdir).
  - intros l Hl. by left.
  - apply (di_distinct _ _ _ Hdir).
Qed.

(** The entry is the first one of a new block, block [n] of the directory. *)
Lemma add_new_block (n : nat) lba s1 d' : direct i !! n = Some 0 → took s s1 [lba] [] → bd_ok d' → inodes s1 = inodes s →
  (∀ l, bd_sector d' l = if bool_decide (l = lba) then splice (replicate 512 0) 0 (dir_entry_bytes e)
                         else bd_sector (disk s1) l) →
  entry_added (put_inode (set_disk s1 d') p (set_i_size (set_sector i n lba) (i_size i + 24))).
Proof.
  intros Hn Ht1 Hokd Hin Hsec. set (i' := set_i_size (set_sector i n lba) (i_size i + 24)).
  set (s' := put_inode (set_disk s1 d') p i').
  pose proof (tk_new _ _ _ _ Ht1) as Hnew. apply Forall_singleton in Hnew as [Hb Hu].
  pose proof (lookup_lt_Some _ _ _ Hn) as Hn12. rewrite direct_twelve in Hn12 by apply (di_iok _ _ _ Hdir).
  assert (direct i' = <[n := lba]> (direct i)) as Hdi.
  { unfold direct, i'. cbn. by rewrite take_insert_lt by lia. }
  assert (took s s' [lba] [lba]) as Ht.
  { apply took_inodes. apply (took_write s s1 [lba] [] d' lba); [done|done|]. intros l Hne.
    by rewrite Hsec, bool_decide_eq_false_2. }
  assert (∀ l, l ∈ direct i → l ≠ 0 → bd_sector d' l = bd_sector (disk s) l) as Hsame.
  { intros l Hl Hne. pose proof (proj1 (Forall_forall _ _) (di_blocks _ _ _ Hdir) l Hl) as [?|[Hbl Hul]]; [done|].
    destruct (is_block_high _ _ Hlo Hbl) as (_ & Hh & _). apply (tk_sectors _ _ _ _ Ht l Hh).
    intros ->%list_elem_of_singleton. congruence. }
  assert (lba ≠ 0) as Hz by (destruct (block_word _ _ Hlo Hb); lia).
  assert (inserted (dir_entries (disk s) i) (dir_entries d' i') e) as Hi.
  { assert (table_of i' = 0) as Htab.
    { unfold table_of, i'. cbn. rewrite list_lookup_insert_ne by lia. apply (di_table _ _ _ Hdir). }
    rewrite !direct_entries by (apply (di_table _ _ _ Hdir) || done). rewrite Hdi.
    rewrite (entries_middle _ _ _ _ Hn), (entries_middle (bd_sector d') _ n lba) by (apply list_lookup_insert_eq;
      rewrite direct_twelve by apply (di_iok _ _ _ Hdir); lia).
    rewrite take_insert_ge, drop_insert_lt, Hsec, bool_decide_eq_true_2 by (done || lia).
    rewrite (proj2 (Z.eqb_neq lba 0)) by done. change (0 =? 0) with true. cbv iota.
    rewrite (sector_entries_splice _ 0), zero_sector by (done || lia).
    rewrite (entries_same (bd_sector (disk s)) (bd_sector d') (take n (direct i))),
      (entries_same (bd_sector (disk s)) (bd_sector d') (drop (S n) (direct i))).
    - exists (entries_of (bd_sector (disk s)) (take n (direct i))), [], [], (replicate 20 blank),
        (entries_of (bd_sector (disk s)) (drop (S n) (direct i))).
      split; [done|]. split; [done|]. split; [done|]. split; [done|]. by apply Forall_replicate.
    - intros l Hl. apply Hsame. apply list_elem_of_lookup in Hl as [j Hj]. rewrite lookup_drop in Hj. by eapply list_elem_of_lookup_2.
    - intros l Hl. apply Hsame. apply elem_of_take in Hl as (j & Hj & _). by eapply list_elem_of_lookup_2. }
  assert (∀ l, l ∈ direct i' → l ∈ direct i ∨ l ∈ [lba]) as Hsub.
  { rewrite Hdi. intros l [j Hj]%list_elem_of_lookup. apply list_lookup_insert_Some in Hj as [(_ & -> & _)|[_ Hj]].
    - right. by left.
    - left. by eapply list_elem_of_lookup_2. }
  assert (lba ∈ direct i') as Hlba.
  { rewrite Hdi. apply list_elem_of_lookup. exists n. apply list_lookup_insert_eq.
    rewrite direct_twelve by apply (di_iok _ _ _ Hdir). lia. }
  assert (lba ∉ direct i) as Hfresh.
  { intros Hin'. pose proof (proj1 (Forall_forall _ _) (di_blocks _ _ _ Hdir) lba Hin') as [?|[_ ?]]; congruence. }
  exists i', [lba], [lba]. split; [done|]. split; [done|]. split; [intros l Hl; apply elem_of_app in Hl as [Hl|Hl]; by apply list_elem_of_singleton in Hl as ->|].
  split; [exact Hsub|]. split; [cbn; by rewrite Hin|]. split; [done|]. split; [done|]. split; [done|]. split; [|done].
  apply (added_dir_ok s' i' [lba] [lba]); try done.
  - apply lookup_insert_eq.
  - destruct (di_iok _ _ _ Hdir). constructor; cbn; try done; [unfold word in *; lia| |by rewrite length_insert].
    apply Forall_insert; [done|]. by apply (block_word _ _ Hlo).
  - unfold table_of, i'. cbn. rewrite list_lookup_insert_ne by lia. apply (di_table _ _ _ Hdir).
  - rewrite Hdi. intros j k l [(<- & Hjl & _)|[_ Hj]]%list_lookup_insert_Some [(<- & Hkl & _)|[_ Hk]]%list_lookup_insert_Some Hne.
    + done.
    + subst. destruct Hfresh. by eapply list_elem_of_lookup_2.
    + subst. destruct Hfresh. by eapply list_elem_of_lookup_2.
    + by eapply (di_distinct _ _ _ Hdir).
Qed.

(** [add_dir_block] for a direct block. *)
Lemma add_dir_block_spec (n : nat) ab : direct i !! n = Some 0 → (0 < n_free (block_bitmap (cur_part s)))%nat →
  ∀ d, same_sectors (disk s) d →
  ∃ s', add_dir_block (set_disk s d) p ab (Z.of_nat n) e = Ok (true, s') ∧ entry_added s'.
Proof.
  intros Hn Hfree d Hd. unfold add_dir_block. pose proof (lookup_lt_Some _ _ _ Hn) as Hn12.
  rewrite direct_twelve in Hn12 by apply (di_iok _ _ _ Hdir).
  destruct (alloc_sync (set_disk s d) Hlo (proj1 Hd) Hfree) as (lba & s1 & -> & Hr & Hne & _ & Hin & Hds & Ht1 & Hsync). ocbn.
  rewrite (proj2 (Z.eqb_neq lba (-1))) by lia. rewrite Hds. cbn [cur_part set_disk].
  pose proof (tk_new _ _ _ _ Ht1) as Hnew. apply Forall_singleton in Hnew as [Hb _]. change (is_block (cur_part s) lba) in Hb.
  destruct (block_idx_u32 s lba Hlo Hb) as (Hbi & Hlba & Hl0). pose proof (layout_bounds _ Hlo).
  assert (s32 (lba - data_start_lba (sb (cur_part s))) = block_no (cur_part s) lba) as Hs32.
  { unfold is_block, block_no in *. apply s32_small. lia. }
  assert (u32 (block_no (cur_part s) lba) = block_no (cur_part s) lba) as Hu32.
  { apply u32_small. unfold is_block in Hb. lia. }
  rewrite Hs32, Hu32. rewrite (proj2 (Z.eqb_neq (block_no (cur_part s) lba) (-1))) by (unfold is_block in Hb; lia). ocbn.
  destruct (Hsync (inodes s1)) as (s2 & Hs2 & Ht2 & Hi2).
  replace (set_inodes s1 (inodes s1)) with s1 in Hs2 by (by destruct s1). cbn [cur_part set_disk] in Hs2. rewrite Hs2. ocbn.
  apply (took_same s d s2 [lba] [] Hd) in Ht2. pose proof (took_sb _ _ _ _ Ht2) as (Hsb & _).
  unfold place_block, get_inode. rewrite Hi2, Hin. cbn [inodes set_disk]. rewrite (di_inode _ _ _ Hdir). ocbn.
  rewrite (proj2 (Z.ltb_lt _ _)), Nat2Z.id, Hlba by lia. ocbn. cbn [cur_part put_inode set_inodes].
  rewrite Hsb, Hsize, entry_copy_ok. ocbn.
  destruct (ide_write1 (put_inode s2 p (set_sector i n lba)) lba (splice (replicate 512 0) 0 (dir_entry_bytes e)))
    as (d' & -> & Hd' & Hsec); [apply (tk_disk _ _ _ _ Ht2)|lia| | |].
  { rewrite splice_length, length_replicate by (rewrite ?dir_entry_bytes_length, ?length_replicate by done; lia). done. }
  { apply splice_bytes; [by apply Forall_replicate|by apply dir_entry_bytes_ok]. }
  ocbn. rewrite (grow_dir_ok _ (set_sector i n lba)); [|apply lookup_insert_eq|done|done]. ocbn.
  eexists. split; [done|]. unfold put_inode, set_inodes, set_disk. cbn. rewrite insert_insert_eq.
  apply (add_new_block n lba s2 d'); [done|done|done|by rewrite Hi2|exact Hsec].
Qed.

(** A block to put the entry in: the first one with room, or a new one. *)
Definition room : Prop := ∃ n lba, list_find (has_room (disk s)) (direct i) = Some (n, lba) ∧
  (lba = 0 → (0 < n_free (block_bitmap (cur_part s)))%nat).

Lemma sync_dir_entry_spec pdir dd : dirs s !! pdir = Some dd → d_inode dd = p → room →
  ∃ s', sync_dir_entry s pdir e = Ok (true, s') ∧ entry_added s'.
Proof.
  intros Hdd Hp (n & lba & Hfind & Hfree). apply list_find_Some in Hfind as (Hn & Hhas & Hbefore).
  pose proof (lookup_lt_Some _ _ _ Hn) as Hn12. rewrite direct_twelve in Hn12 by apply (di_iok _ _ _ Hdir).
  unfold sync_dir_entry. rewrite (dir_inode_ok s pdir dd i) by (rewrite ?Hp; try apply (di_inode _ _ _ Hdir); done). ocbn.
  rewrite Hsize. change (entrys_per_sec 24) with (Ok 21). ocbn. rewrite (di_size _ _ _ Hdir). change (0 =? 0) with true. ocbn.
  rewrite Hp. fold (direct i). set (ab := direct i ++ replicate 128 0).
  assert (∀ j, (j < 12)%nat → ab !! j = direct i !! j) as Hab.
  { intros j Hj. apply lookup_app_l. rewrite direct_twelve by apply (di_iok _ _ _ Hdir). lia. }
  pose proof (λ j l, direct_on_disk s p i j l Hlo Hdir) as Hon.
  destruct (skip_blocks (sync_block p ab 21 e) s n) as (d & Hd & ->); [lia|done| |].
  { intros j d Hj Hd. destruct (lookup_lt_is_Some_2 (direct i) j) as [l Hl].
    { rewrite direct_twelve by apply (di_iok _ _ _ Hdir). lia. }
    assert (¬ has_room (disk s) l) as Hno by (eapply Hbefore; [exact Hl|lia]). unfold sync_block.
    rewrite (proj2 (Z.ltb_lt _ _)), (block_at_nth ab j l) by (rewrite ?Hab by lia; done || lia). ocbn.
    destruct (Z.eqb_spec l 0) as [|Hz]; [destruct Hno; by left|].
    destruct (ide_read1 (set_disk s d) l (proj1 Hd) (Hon _ _ Hl)) as (d' & -> & Hd'). ocbn.
    cbn [disk set_disk] in *. rewrite (proj2 Hd l). destruct (find_unused _ _) eqn:E; [destruct Hno; right; congruence|].
    exists d'. split; [done|]. by eapply same_sectors_trans. }
  replace (141 - n)%nat with (S (140 - n)) by lia.
  assert (block_at ab (Z.of_nat n) = Ok lba) as Hat by (apply block_at_nth; rewrite Hab by lia; done).
  destruct (decide (lba = 0)) as [->|Hz].
  - destruct (add_dir_block_spec n ab Hn (Hfree eq_refl) d Hd) as (s' & Hadd & Hs'). exists s'. split; [|done].
    apply loop_exit. unfold sync_block. rewrite (proj2 (Z.ltb_lt _ _)), Hat by lia. ocbn.
    change (0 =? 0) with true. cbv iota. by rewrite Hadd.
  - destruct Hhas as [?|Hhas]; [done|]. destruct (find_unused (bd_sector (disk s) lba) 21) as [k|] eqn:E; [|done].
    destruct (find_unused_spec _ _ E) as [Hk _].
    destruct (ide_read1 (set_disk s d) lba (proj1 Hd) (Hon _ _ Hn)) as (d1 & Hread & Hd1). cbn [disk set_disk] in *.
    rewrite (proj2 Hd lba) in Hread. pose proof (bd_sector_len (disk s) lba) as Hlen.
    destruct (ide_write1 (set_disk s d1) lba (splice (bd_sector (disk s) lba) (24 * k) (dir_entry_bytes e)))
      as (d2 & Hwrite & Hd2 & Hsec); [apply Hd1|by apply Hon in Hn| | |].
    { rewrite splice_length; [done|lia|rewrite dir_entry_bytes_length by done; lia]. }
    { apply splice_bytes; [apply bd_sector_bytes|by apply dir_entry_bytes_ok]. }
    exists (put_inode (set_disk s d2) p (set_i_size i (i_size i + 24))). split.
    + apply loop_exit. unfold sync_block. rewrite (proj2 (Z.ltb_lt _ _)), Hat by lia. ocbn.
      rewrite (proj2 (Z.eqb_neq lba 0)), Hread by done. ocbn. rewrite E. cbn [cur_part set_disk]. rewrite Hsize, entry_copy_ok. ocbn.
      change (sizeof_dir_entry * k) with (24 * k). rewrite set_disk_twice, Hwrite. ocbn.
      by rewrite (grow_dir_ok _ i) by (try apply (di_inode _ _ _ Hdir); done).
    + apply (add_in_block n lba k d1 d2); try done. by eapply same_sectors_trans.
Qed.
End add_entry.

Section dir_theorems.
Context {D : Type} `{BlockDevice D}.
Implicit Types (s : fs D).

End dir_theorems.

(** ** A root directory with one file *)
Module DirExample.
Import RamDisk FsExample.

(** The file "abc" of [FsExample] in the root directory. *)
Definition abc_name : list Z := [97; 98; 99].
Definition abc_entry : dir_entry := DirEntry (abc_name ++ replicate 13 0) 5 FT_REGULAR.
Definition x_entry : dir_entry := DirEntry ([120] ++ replicate 15 0) 6 FT_REGULAR.
Definition root_node : inode := Inode 0 72 1 0 (612 :: replicate 12 0).
Definition root_sector : list Z :=
  dir_entry_bytes (dot_entry 0) ++ dir_entry_bytes (dotdot_entry 0) ++ dir_entry_bytes abc_entry.
Definition disk1 : ramdisk := λ l, if l =? 612 then root_sector else if l =? 613 then [97; 98; 99] else [].
Definition fs1 : fs ramdisk :=
  Fs (part0 [200]) {[200 := root_node]} {[root_dir := Dir 200 0 (replicate 512 0)]}
    (replicate 32 (File 0 0 NULL)) [0; 1; 2; -1; -1; -1; -1; -1] 0 {[200]} [] disk1.

Lemma root_node_ok : inode_ok root_node.
Proof. constructor; try done; [..|by repeat constructor]; unfold word; cbn; lia. Qed.

Lemma root_ok : dir_ok fs1 200 root_node.
Proof.
  constructor.
  - done.
  - exact root_node_ok.
  - done.
  - constructor; [right; split; [|vm_compute; reflexivity]; unfold is_block; vm_compute; split; congruence|].
    apply (Forall_replicate _ 11). by left.
  - assert (∀ (j : nat) l, direct root_node !! j = Some l → l ≠ 0 → j = 0%nat) as Hj.
    { intros [|j] l Hl Hz; [done|]. apply (lookup_replicate_1 11) in Hl as [? _]. done. }
    intros j k l H1 H2 Hz. by rewrite (Hj j l), (Hj k l).
  - apply (bool_decide_unpack _). vm_compute. exact I.
  - done.
Qed.

Lemma root_readable : readable_dir disk1 root_node.
Proof. exact (dir_ok_readable fs1 200 root_node (layout0 [200]) root_ok). Qed.

Lemma search_dir_entry_correct_witness :
  ∃ d, search_dir_entry fs1 root_dir abc_name = Ok (Some abc_entry, set_disk fs1 d).
Proof.
  destruct (search_dir_entry_correct fs1 root_dir (Dir 200 0 (replicate 512 0)) root_node abc_name) as (d & Hs & _);
    [done|done|done|done|done|exact root_readable|cbn; lia|].
  exists d. rewrite Hs. vm_compute. reflexivity.
Defined.

Lemma x_entry_ok : entry_ok x_entry.
Proof. constructor; try done; [by repeat constructor|..]; unfold word; cbn; lia. Qed.

End DirExample.
