(* ===== verification/DirDelete.v ===== *)
(** * fs/dir.c: removing an entry of a directory

    [delete_dir_entry] blanks the entry of an inode, or gives the block back that
    holds nothing else. For an indirect block it does not return. *)

From stdpp Require Import base numbers list gmap.
From Stdlib Require Import ZArith Lia.
From S2P Require Import Prelude Bitmap Block FsState FsAlloc Inode FsFile FsWrite Dir DirSpec.

(** ** Counting the entries of a sector *)

(** The entries [delete_dir_entry] counts, and those for inode [n] among them. *)
Definition ordinary (e : dir_entry) : Prop :=
  f_type e ≠ FT_UNKNOWN ∧ has_name e dot = false ∧ has_name e dotdot = false.
Definition is_dot (e : dir_entry) : Prop := f_type e ≠ FT_UNKNOWN ∧ has_name e dot = true.
Definition names_inode (n : Z) (e : dir_entry) : Prop := ordinary e ∧ de_i_no e = n.
#[export] Instance ordinary_dec e : Decision (ordinary e).
Proof. unfold ordinary. apply _. Defined.
#[export] Instance is_dot_dec e : Decision (is_dot e).
Proof. unfold is_dot. apply _. Defined.
#[export] Instance names_inode_dec n e : Decision (names_inode n e).
Proof. unfold names_inode. apply _. Defined.

Lemma count_entries_spec buf n ks first cnt found : Forall (λ k, 0 ≤ k) ks → 0 ≤ cnt → cnt + Z.of_nat (length ks) < 256 →
  let hits := filter (λ k, names_inode n (entry_at buf k)) ks in
  (length hits ≤ 1)%nat → found = None ∨ hits = [] →
  count_entries buf n ks first cnt found =
    Ok (first || bool_decide (Exists is_dot (entry_at buf <$> ks)),
        cnt + Z.of_nat (length (filter ordinary (entry_at buf <$> ks))),
        match head hits with Some k => Some k | None => found end).
Proof.
  revert first cnt found. induction ks as [|k ks IH]; intros first cnt found Hks Hcnt Hlt hits Hone Hfound.
  { cbn. rewrite orb_false_r, Z.add_0_r. done. }
  apply Forall_cons in Hks as [Hk Hks]. unfold hits in *. clear hits. cbn [length] in Hlt.
  cbn [count_entries]. rewrite !named_entry by (done || cbn; lia). rewrite fmap_cons, !filter_cons in *.
  set (e := entry_at buf k) in *.
  destruct (Z.eqb_spec (f_type e) FT_UNKNOWN) as [Hu|Hu].
  { rewrite (decide_False (P := names_inode n e)) in * by (intros [[? _] _]; done).
    rewrite (decide_False (P := ordinary e)) by (intros [? _]; done). rewrite IH by (done || lia). do 3 f_equal. f_equal.
    apply bool_decide_ext. rewrite Exists_cons. split; [by right|]. intros [[? _]|?]; done. }
  destruct (has_name e dot) eqn:Hdot.
  { rewrite (decide_False (P := names_inode n e)) in * by (intros [(_ & ? & _) _]; congruence).
    rewrite (decide_False (P := ordinary e)) by (intros (_ & ? & _); congruence). rewrite IH by (done || lia).
    do 3 f_equal. rewrite (bool_decide_eq_true_2 (Exists _ (_ :: _))), orb_true_r; [done|]. by left. }
  assert (∀ f, f || bool_decide (Exists is_dot (e :: (entry_at buf <$> ks))) = f || bool_decide (Exists is_dot (entry_at buf <$> ks))) as Hex.
  { intros f. f_equal. apply bool_decide_ext. rewrite Exists_cons. split; [|by right]. intros [[_ ?]|?]; [congruence|done]. }
  destruct (has_name e dotdot) eqn:Hdd.
  { rewrite (decide_False (P := names_inode n e)) in * by (intros [(_ & _ & ?) _]; congruence).
    rewrite (decide_False (P := ordinary e)) by (intros (_ & _ & ?); congruence). rewrite IH by (done || lia). by rewrite Hex. }
  assert (ordinary e) as Hord by done. rewrite (decide_True (P := ordinary e)) by done.
  rewrite (u8_small (cnt + 1)) by lia. destruct (Z.eqb_spec (de_i_no e) n) as [Hn|Hn].
  - rewrite (decide_True (P := names_inode n e)) in * by done. cbn [length head] in *.
    destruct (filter _ ks) as [|? ?] eqn:E; [|cbn in Hone; lia]. destruct Hfound as [->|?]; [|done].
    rewrite bool_decide_eq_true_2 by done. ocbn. rewrite IH; rewrite ?E; try done; try lia; [|by right].
    rewrite Hex. cbn. do 3 f_equal. lia.
  - rewrite (decide_False (P := names_inode n e)) in * by (intros [_ ?]; done). rewrite IH by (done || lia). rewrite Hex.
    cbn [length]. do 3 f_equal. lia.
Qed.

(** The loop that counts the indirect blocks does not end. *)
Lemma count_indirect_diverges fuel all_blocks : length all_blocks = 140%nat → count_indirect fuel all_blocks = OutOfFuel.
Proof.
  intros Hl. unfold count_indirect. apply (loop_diverges _ (λ '(idx, _), idx = 12)); [|done].
  intros [idx n] ->. change (12 <? 140) with true. destruct (lookup_lt_is_Some_2 all_blocks 12) as [b Hb]; [lia|].
  rewrite (block_at_nth all_blocks 12 b Hb : block_at all_blocks 12 = Ok b). ocbn. eexists. split; [done|done].
Qed.

(** ** Finding the entry *)

Lemma filter_fmap_indices {A B} (f : A → B) (P : B → Prop) `{!∀ x, Decision (P x)} (l : list A) :
  filter P (f <$> l) = f <$> filter (λ x, P (f x)) l.
Proof.
  induction l as [|x l IH]; [done|]. rewrite fmap_cons, !filter_cons. destruct (decide (P (f x))); cbn; by rewrite IH.
Qed.

Lemma filter_none {A} (P : A → Prop) `{!∀ x, Decision (P x)} (l : list A) : filter P l = [] ↔ Forall (λ x, ¬ P x) l.
Proof.
  induction l as [|x l IH]; [done|]. rewrite filter_cons, Forall_cons. case_decide; [|tauto].
  split; [done|]. by intros [? _].
Qed.

(** The indices of the entries for inode [n]. *)
Definition hits (buf : list Z) (n : Z) : list Z := filter (λ k, names_inode n (entry_at buf k)) (seqZ 0 21).

Lemma hits_entries buf n : filter (names_inode n) (sector_entries buf) = entry_at buf <$> hits buf n.
Proof. apply filter_fmap_indices. Qed.

Lemma count_sector buf n : (length (hits buf n) ≤ 1)%nat →
  count_entries buf n (seqZ 0 21) false 0 None =
    Ok (bool_decide (Exists is_dot (sector_entries buf)), Z.of_nat (length (filter ordinary (sector_entries buf))), head (hits buf n)).
Proof.
  intros Hh. rewrite count_entries_spec; [| |lia|done|done|by left].
  - rewrite orb_false_l, Z.add_0_l. fold (hits buf n). by destruct (head (hits buf n)).
  - apply Forall_forall. intros k Hk. apply elem_of_seqZ in Hk. lia.
Qed.

(** A block without an entry for the inode is passed over. *)
Lemma skip_block {D : Type} `{BlockDevice D} (s : fs D) d0 d p ab n (j : nat) l :
  same_sectors (disk s) d0 → same_sectors d0 d → (j < 140)%nat → ab !! j = Some l → 0 ≤ l < bd_size →
  (l ≠ 0 → hits (bd_sector (disk s) l) n = []) →
  ∃ d', delete_block p ab 21 n (Z.of_nat j, set_disk (set_disk s d0) d) =
      Ok (inl (Z.of_nat j + 1, set_disk (set_disk s d0) d')) ∧ same_sectors d0 d'.
Proof.
  intros Hd0 Hd Hj Hl Hon Hno. unfold delete_block.
  rewrite (proj2 (Z.ltb_lt _ _)), (block_at_nth ab j l) by (done || lia). ocbn.
  destruct (Z.eqb_spec l 0) as [|Hlz]; [by exists d|].
  destruct (ide_read1 (set_disk s d) l (proj1 Hd) Hon) as (d' & Hr & Hd'). rewrite set_disk_twice in *. rewrite Hr. ocbn.
  cbn [disk set_disk] in *. rewrite (proj2 Hd l), (proj2 Hd0 l). specialize (Hno Hlz).
  rewrite count_sector by (rewrite Hno; cbn; lia). ocbn. rewrite Hno. cbn [head]. exists d'.
  split; [done|]. by eapply same_sectors_trans.
Qed.

Section remove.
Context {D : Type} `{BlockDevice D}.
Context (s : fs D) (p : Z) (i : inode) (n : Z) (e0 : dir_entry).
Context (Hlo : layout_ok (cur_part s)) (Hok : bd_ok (disk s)) (Hsize : dir_entry_size (sb (cur_part s)) = 24).
Context (Hdir : dir_ok s p i).
(** One entry is for the inode. *)
Context (Hone : filter (names_inode n) (dir_entries (disk s) i) = [e0]).

(** Where the entry is. *)
Lemma entry_block : ∃ (nb : nat) lba k, direct i !! nb = Some lba ∧ lba ≠ 0 ∧ hits (bd_sector (disk s) lba) n = [k] ∧
  0 ≤ k < 21 ∧ entry_at (bd_sector (disk s) lba) k = e0 ∧ names_inode n e0 ∧
  ∀ (j : nat) l, direct i !! j = Some l → (j < nb)%nat → l ≠ 0 → hits (bd_sector (disk s) l) n = [].
Proof.
  rewrite direct_entries in Hone by apply (di_table _ _ _ Hdir).
  destruct (list_find (λ l, l ≠ 0 ∧ hits (bd_sector (disk s) l) n ≠ []) (direct i)) as [[nb lba]|] eqn:E.
  - apply list_find_Some in E as (Hn & [Hz Hh] & Hbefore).
    rewrite (entries_middle _ _ _ _ Hn), !filter_app, (proj2 (Z.eqb_neq lba 0)), hits_entries in Hone by done.
    destruct (hits (bd_sector (disk s) lba) n) as [|k [|k' l]] eqn:Ek; [done| |].
    + destruct (filter _ (entries_of _ (take nb _))) as [|? [|? ?]]; cbn in Hone; try done. injection Hone as He _.
      assert (k ∈ hits (bd_sector (disk s) lba) n) as Hk by (rewrite Ek; by left).
      apply list_elem_of_filter in Hk as [Hname Hk]. apply elem_of_seqZ in Hk.
      exists nb, lba, k. split_and!; try done; try lia; [by rewrite <- He|]. intros j l Hj Hlt Hl0.
      destruct (decide (hits (bd_sector (disk s) l) n = [])) as [|Hne]; [done|]. by destruct (Hbefore j l Hj Hlt).
    + destruct (filter _ (entries_of _ (take nb _))) as [|? [|? ?]]; cbn in Hone; done.
  - apply list_find_None in E. exfalso.
    assert (filter (names_inode n) (entries_of (bd_sector (disk s)) (direct i)) = []) as Hno.
    { clear Hone. induction E as [|l bl Hl E IH]; [done|]. rewrite entries_cons, filter_app, IH, app_nil_r.
      destruct (Z.eqb_spec l 0); [done|]. rewrite hits_entries.
      destruct (hits (bd_sector (disk s) l) n) eqn:Eh; [done|]. destruct Hl. done. }
    by rewrite Hno in Hone.
Qed.

(** The entry is gone from the blocks; [i1] is the inode then, its size is not
    changed yet. *)
Record cleared (x : fs D) (i1 : inode) : Prop := {
  cl_part : ∃ b, cur_part x = with_bitmap (cur_part s) b;
  cl_layout : layout_ok (cur_part x);
  cl_nbits : nbits (block_bitmap (cur_part x)) = nbits (block_bitmap (cur_part s));
  cl_used l : is_block (cur_part s) l → block_used (cur_part x) l =
    block_used (cur_part s) l && negb (bool_decide (l ∈ direct i ∧ l ∉ direct i1));
  cl_inodes : inodes x = <[p := i1]> (inodes s);
  cl_iok : inode_ok i1;
  cl_same : i_no i1 = i_no i ∧ i_size i1 = i_size i ∧ table_of i1 = 0;
  cl_direct (j : nat) l : direct i1 !! j = Some l → l ≠ 0 → direct i !! j = Some l;
  cl_rest : dirs x = dirs s ∧ file_table x = file_table s ∧ fd_table x = fd_table s ∧ live x = live s ∧ nulls x = nulls s;
  cl_disk : bd_ok (disk x);
  cl_sectors l : inode_bitmap_lba (sb (cur_part s)) ≤ l → l ∉ direct i → bd_sector (disk x) l = bd_sector (disk s) l;
  cl_entries : inserted (dir_entries (disk x) i1) (dir_entries (disk s) i) e0;
  cl_cnts : i_open_cnts i1 = i_open_cnts i;
  cl_cwd : cwd_inode_nr x = cwd_inode_nr s
}.

Lemma blank_ok : entry_ok blank.
Proof. constructor; try done. by apply (Forall_replicate _ 16). Qed.

Lemma other_blocks (nb : nat) lba get : direct i !! nb = Some lba → lba ≠ 0 →
  (∀ l, l ∈ direct i → l ≠ 0 → l ≠ lba → get l = bd_sector (disk s) l) →
  entries_of get (take nb (direct i)) = entries_of (bd_sector (disk s)) (take nb (direct i)) ∧
  entries_of get (drop (S nb) (direct i)) = entries_of (bd_sector (disk s)) (drop (S nb) (direct i)).
Proof.
  intros Hn Hz Hget. split; apply entries_same; intros l Hl Hne; apply list_elem_of_lookup in Hl as [j Hj].
  - apply lookup_take_Some in Hj as [Hj ?]. apply Hget; [by eapply list_elem_of_lookup_2|done|]. intros ->.
    pose proof (di_distinct _ _ _ Hdir _ _ _ Hj Hn Hne). lia.
  - rewrite lookup_drop in Hj. apply Hget; [by eapply list_elem_of_lookup_2|done|]. intros ->.
    pose proof (di_distinct _ _ _ Hdir _ _ _ Hj Hn Hne). lia.
Qed.

(** Blanking the entry in its sector. *)
Lemma blank_entry (nb : nat) lba k d d' : direct i !! nb = Some lba → lba ≠ 0 → 0 ≤ k < 21 →
  entry_at (bd_sector (disk s) lba) k = e0 → same_sectors (disk s) d → bd_ok d' →
  (∀ l, bd_sector d' l = if bool_decide (l = lba) then splice (bd_sector (disk s) lba) (24 * k) (dir_entry_bytes blank)
                         else bd_sector d l) →
  cleared (set_disk s d') i.
Proof.
  intros Hn Hz Hk He Hd Hokd Hsec. assert (lba ∈ direct i) as Hin by (by eapply list_elem_of_lookup_2).
  destruct (other_blocks nb lba (bd_sector d') Hn Hz) as [HA HB].
  { intros l _ _ Hne. rewrite Hsec, bool_decide_eq_false_2 by done. apply Hd. }
  destruct (sector_middle (bd_sector (disk s) lba) k Hk) as (A & B & HAB & Hins).
  constructor; try done.
  - exists (block_bitmap (cur_part s)). by destruct s as [[]].
  - intros l _. rewrite (bool_decide_eq_false_2 (_ ∧ _)) by tauto. by rewrite andb_true_r.
  - symmetry. apply insert_id, (di_inode _ _ _ Hdir).
  - apply (di_iok _ _ _ Hdir).
  - split_and!; try done. apply (di_table _ _ _ Hdir).
  - intros l Hl Hnot. cbn. rewrite Hsec, bool_decide_eq_false_2; [apply Hd|]. by intros ->.
  - cbn. rewrite !direct_entries by apply (di_table _ _ _ Hdir).
    rewrite (entries_middle (bd_sector (disk s)) _ _ _ Hn), (entries_middle (bd_sector d') _ _ _ Hn), HA, HB, Hsec, bool_decide_eq_true_2 by done.
    rewrite (proj2 (Z.eqb_neq lba 0)) by done. rewrite sector_entries_splice, Hins, HAB, He by (apply blank_ok || done || apply bd_sector_len).
    exists (entries_of (bd_sector (disk s)) (take nb (direct i)) ++ A), [blank], [], [],
      (B ++ entries_of (bd_sector (disk s)) (drop (S nb) (direct i))).
    rewrite <- !app_assoc. split_and!; try done. by apply Forall_singleton.
Qed.

(** The entry "..", if there, is in a block with ".". *)
Definition dots_together : Prop := ∀ lba, lba ∈ direct i → lba ≠ 0 →
  Exists (λ e, f_type e ≠ FT_UNKNOWN ∧ has_name e dotdot = true) (sector_entries (bd_sector (disk s) lba)) →
  Exists is_dot (sector_entries (bd_sector (disk s) lba)).

(** A sector in which the entry is the only one. *)
Lemma alone (nb : nat) lba k : dots_together → direct i !! nb = Some lba → lba ≠ 0 → 0 ≤ k < 21 →
  entry_at (bd_sector (disk s) lba) k = e0 → ordinary e0 →
  length (filter ordinary (sector_entries (bd_sector (disk s) lba))) = 1%nat →
  ¬ Exists is_dot (sector_entries (bd_sector (disk s) lba)) →
  ∃ A B, sector_entries (bd_sector (disk s) lba) = A ++ e0 :: B ∧ Forall (eq blank) A ∧ Forall (eq blank) B.
Proof.
  intros Hdots Hn Hz Hk He Ho Hlen Hnodot. destruct (sector_middle (bd_sector (disk s) lba) k Hk) as (A & B & HAB & _).
  rewrite He in HAB. exists A, B. split; [done|].
  rewrite HAB, filter_app, filter_cons_True, length_app in Hlen by done. cbn in Hlen.
  assert (∀ l, l ⊆ sector_entries (bd_sector (disk s) lba) → length (filter ordinary l) = 0%nat → Forall (eq blank) l) as Hbl.
  { intros l Hl Hf. apply Forall_forall. intros e Hin. symmetry. apply nil_length_inv, filter_none in Hf.
    rewrite Forall_forall in Hf. pose proof (di_blank _ _ _ Hdir) as Hblank.
    rewrite direct_entries, (entries_middle _ _ _ _ Hn), (proj2 (Z.eqb_neq lba 0)) in Hblank by (done || apply (di_table _ _ _ Hdir)).
    rewrite !Forall_app in Hblank. destruct Hblank as (_ & Hblank & _). rewrite Forall_forall in Hblank.
    apply Hblank; [by apply Hl|]. destruct (decide (f_type e = FT_UNKNOWN)) as [|Hu]; [done|]. exfalso.
    destruct (has_name e dot) eqn:E1.
    - apply Hnodot, Exists_exists. exists e. split; [by apply Hl|done].
    - destruct (has_name e dotdot) eqn:E2; [|by apply (Hf e Hin)].
      apply Hnodot, Hdots; [by eapply list_elem_of_lookup_2|done|]. apply Exists_exists. exists e. split; [by apply Hl|done]. }
  rewrite HAB in Hbl. split; apply Hbl; try lia; set_solver.
Qed.

Lemma layout_with m b : layout_ok m → wf_bitmap b → btmp_bytes_len b = btmp_bytes_len (block_bitmap m) →
  length (bits b) = length (bits (block_bitmap m)) → layout_ok (with_bitmap m b).
Proof.
  intros [] Hwf Hl Hn. constructor; cbn; unfold nbits in *; congruence || (try rewrite Hl; lia || done).
Qed.

Lemma free_block_spec (x : fs D) lba : cur_part x = cur_part s → bd_ok (disk x) → is_block (cur_part s) lba →
  ∃ b d, free_block x lba = Ok (set_disk (set_block_bitmap x b) d) ∧ layout_ok (with_bitmap (cur_part s) b) ∧
    nbits b = nbits (block_bitmap (cur_part s)) ∧ bd_ok d ∧
    (∀ l, inode_bitmap_lba (sb (cur_part s)) ≤ l → bd_sector d l = bd_sector (disk x) l) ∧
    ∀ l, is_block (cur_part s) l → bit b (block_no (cur_part s) l) =
      block_used (cur_part s) l && negb (bool_decide (l = lba)).
Proof.
  intros Hp Hokx Hb. unfold free_block. rewrite Hp. destruct (block_idx_u32 s lba Hlo Hb) as (-> & _ & _).
  pose proof (layout_bounds _ Hlo). pose proof (lo_barr _ Hlo) as Harr. pose proof (lo_bwf _ Hlo) as Hwf.
  destruct (bitmap_set_spec (block_bitmap (cur_part s)) (block_no (cur_part s) lba) 0) as (b & -> & Hwf' & Hlen & Hn & Hbit);
    [done|unfold is_block in Hb; lia|by left|]. ocbn.
  assert (cur_part (set_block_bitmap x b) = with_bitmap (cur_part s) b) as Hc by (cbn; by rewrite Hp).
  assert (layout_ok (with_bitmap (cur_part s) b)) as Hlo' by (by apply layout_with).
  assert (nbits b = nbits (block_bitmap (cur_part s))) as Hnb by (unfold nbits; by rewrite Hlen).
  destruct (bitmap_sync_spec (set_block_bitmap x b) (block_no (cur_part s) lba)) as (d & -> & Hd & Hs).
  { by rewrite Hc. }
  { done. }
  { rewrite Hc. cbn. rewrite Hnb. apply Hb. }
  exists b, d. split; [done|]. split; [done|]. split; [done|]. split; [done|]. split.
  - intros l Hl. rewrite Hs, Hc. cbn. rewrite bool_decide_eq_false_2; [done|]. unfold is_block in Hb. zdlia.
  - intros l Hl. unfold is_block in Hl. rewrite Hbit by lia. unfold block_used, block_no.
    case_bool_decide as H1; case_bool_decide as H2; try done; [by rewrite andb_false_r|lia|subst; done|by rewrite andb_true_r].
Qed.

(** Giving the block back in which the entry is the only one. *)
Lemma free_entry_block (nb : nat) lba ab d : direct i !! nb = Some lba → lba ≠ 0 → ab !! nb = Some lba →
  (∃ A B, sector_entries (bd_sector (disk s) lba) = A ++ e0 :: B ∧ Forall (eq blank) A ∧ Forall (eq blank) B) →
  same_sectors (disk s) d →
  ∃ x i1, drop_dir_block (set_disk s d) p ab (Z.of_nat nb) = Ok x ∧ cleared x i1.
Proof.
  intros Hn Hz Hab (A & B & HAB & HA & HB) Hd. unfold drop_dir_block. rewrite (block_at_nth _ _ _ Hab). ocbn.
  pose proof (lookup_lt_Some _ _ _ Hn) as Hnb. rewrite direct_twelve in Hnb by apply (di_iok _ _ _ Hdir).
  destruct (Forall_lookup_1 _ _ _ _ (di_blocks _ _ _ Hdir) Hn) as [?|[Hb Hu]]; [done|].
  destruct (free_block_spec (set_disk s d) lba eq_refl (proj1 Hd) Hb) as (b & d' & -> & Hlo' & Hbits & Hd' & Hsec & Hused). ocbn.
  rewrite (get_inode_ok _ p i) by apply (di_inode _ _ _ Hdir). ocbn.
  rewrite (proj2 (Z.ltb_lt _ _)), Nat2Z.id by lia. eexists _, (set_sector i nb 0). split; [done|].
  set (i1 := set_sector i nb 0).
  assert (direct i1 = <[nb := 0]> (direct i)) as Hdi by (unfold direct, i1; cbn; by rewrite take_insert_lt by lia).
  assert (table_of i1 = 0) as Htab.
  { unfold table_of, i1. cbn. rewrite list_lookup_insert_ne by lia. apply (di_table _ _ _ Hdir). }
  assert (∀ l, l ∈ direct i → l ∉ direct i1 ↔ l = lba) as Hgone.
  { intros l Hl. rewrite Hdi. apply list_elem_of_lookup in Hl as [j Hj]. split.
    - intros Hnot. destruct (decide (j = nb)) as [->|Hne]; [congruence|]. destruct Hnot. apply list_elem_of_lookup.
      exists j. by rewrite list_lookup_insert_ne.
    - intros -> [k Hk]%list_elem_of_lookup. apply list_lookup_insert_Some in Hk as [(_ & ? & _)|[Hne Hk]]; [done|].
      by pose proof (di_distinct _ _ _ Hdir _ _ _ Hk Hn Hz). }
  assert (∀ l, l ∈ direct i → l ≠ 0 → bd_sector d' l = bd_sector (disk s) l) as Hsame.
  { intros l Hl Hne. destruct (proj1 (Forall_forall _ _) (di_blocks _ _ _ Hdir) l Hl) as [?|[Hbl _]]; [done|].
    rewrite Hsec; [apply Hd|]. by apply (is_block_high _ _ Hlo). }
  constructor; try done.
  - by exists b.
  - intros l Hl. change (bit b (block_no (cur_part s) l) = block_used (cur_part s) l && negb (bool_decide (l ∈ direct i ∧ l ∉ direct i1))).
    rewrite Hused by done. do 2 f_equal. apply bool_decide_ext. split.
    + intros ->. assert (lba ∈ direct i) by (by eapply list_elem_of_lookup_2). split; [done|]. by apply Hgone.
    + intros [Hl1 Hl2]. by apply Hgone.
  - destruct (di_iok _ _ _ Hdir). constructor; cbn; try done; [|by rewrite length_insert].
    apply Forall_insert; [done|]. unfold word. lia.
  - rewrite Hdi. intros j l Hj Hne. by apply list_lookup_insert_Some in Hj as [(_ & ? & _)|[_ Hj]].
  - intros l Hl _. cbn. rewrite Hsec by done. apply Hd.
  - change (inserted (dir_entries d' i1) (dir_entries (disk s) i) e0). rewrite (direct_entries d' i1 Htab), (direct_entries (disk s) i) by apply (di_table _ _ _ Hdir). rewrite Hdi.
    destruct (other_blocks nb lba (bd_sector d') Hn Hz) as [HA' HB']; [intros l Hl Hne _; by apply Hsame|].
    rewrite (entries_middle (bd_sector (disk s)) _ _ _ Hn), (entries_middle (bd_sector d') _ nb 0)
      by (apply list_lookup_insert_eq; rewrite direct_twelve by apply (di_iok _ _ _ Hdir); lia).
    rewrite take_insert_ge, drop_insert_lt, HA', HB' by lia. change (0 =? 0) with true.
    rewrite (proj2 (Z.eqb_neq lba 0)), HAB by done.
    exists (entries_of (bd_sector (disk s)) (take nb (direct i))), [], A, B, (entries_of (bd_sector (disk s)) (drop (S nb) (direct i))).
    rewrite <- !app_assoc. by split_and!.
Qed.

(** [s'] is [s] without the entry: the inode is 24 bytes smaller and stored, and
    the blocks the directory has lost are free. *)
Definition entry_removed (s' : fs D) (i' : inode) : Prop :=
  inodes s' = <[p := i']> (inodes s) ∧ i_no i' = i_no i ∧ i_size i' = i_size i - 24 ∧ dir_ok s' p i' ∧
  inserted (dir_entries (disk s') i') (dir_entries (disk s) i) e0 ∧
  layout_ok (cur_part s') ∧ bd_ok (disk s') ∧ stored_inode (cur_part s') (disk s') (i_no i) = pure i' ∧
  (∀ l, is_block (cur_part s) l → block_used (cur_part s') l =
    block_used (cur_part s) l && negb (bool_decide (l ∈ direct i ∧ l ∉ direct i'))) ∧
  (∀ l, data_start_lba (sb (cur_part s)) ≤ l → l ∉ direct i → bd_sector (disk s') l = bd_sector (disk s) l) ∧
  dirs s' = dirs s ∧ file_table s' = file_table s ∧ live s' = live s ∧ nulls s' = nulls s ∧
  fd_table s' = fd_table s ∧ cwd_inode_nr s' = cwd_inode_nr s ∧ i_open_cnts i' = i_open_cnts i ∧
  (∃ b, cur_part s' = with_bitmap (cur_part s) b) ∧ nbits (block_bitmap (cur_part s')) = nbits (block_bitmap (cur_part s)) ∧
  (∀ l, l ∈ direct i' → l = 0 ∨ l ∈ direct i) ∧
  ∀ m, 0 ≤ m < 4096 → m ≠ i_no i → stored_inode (cur_part s') (disk s') m = stored_inode (cur_part s) (disk s) m.

(** The end of [remove_entry]. *)
Lemma shrink_spec x i1 : cleared x i1 → 24 ≤ i_size i → i_no i < 256 →
  ∃ d i', inode_sync (put_inode x p (set_i_size i1 (u32 (i_size i1 - 24)))) (set_i_size i1 (u32 (i_size i1 - 24))) =
    Ok (set_disk (put_inode x p i') d) ∧ entry_removed (set_disk (put_inode x p i') d) i'.
Proof.
  intros [] Hsz Hno. destruct cl_same0 as (Hno1 & Hsz1 & Htab1). pose proof (io_size _ (di_iok _ _ _ Hdir)) as Hw. unfold word in Hw.
  rewrite Hsz1, u32_small by lia. set (i' := set_i_size i1 (i_size i - 24)).
  destruct cl_part0 as [b Hb]. assert (sb (cur_part x) = sb (cur_part s)) as Hsb by (by rewrite Hb).
  assert (inode_ok i') as Hi' by (destruct cl_iok0; constructor; try done; cbn; unfold word; lia).
  assert (u8 (i_no i') = i_no i) as Hu8.
  { cbn. rewrite Hno1. apply u8_small. pose proof (io_no _ (di_iok _ _ _ Hdir)) as [? _]. lia. }
  destruct (inode_sync_spec (put_inode x p i') i' cl_layout0 cl_disk0 Hi') as (d & Hsync & Hd & Hst & Hoth & Hsec); [lia|].
  rewrite Hu8 in *. exists d, i'. split; [done|].
  pose proof (layout_bounds _ Hlo).
  assert (∀ l, data_start_lba (sb (cur_part s)) ≤ l → bd_sector d l = bd_sector (disk x) l) as Hdata.
  { intros l Hl. apply Hsec. right. cbn. rewrite Hsb. lia. }
  assert (∀ l, l ∈ direct i1 → l = 0 ∨ is_block (cur_part s) l ∧ block_used (cur_part s) l = true ∧ l ∈ direct i) as Hbl.
  { intros l Hl. destruct (decide (l = 0)) as [|Hz]; [by left|right]. apply list_elem_of_lookup in Hl as [j Hj].
    apply cl_direct0 in Hj; [|done]. destruct (Forall_lookup_1 _ _ _ _ (di_blocks _ _ _ Hdir) Hj) as [?|[? ?]]; [done|].
    split_and!; try done. by eapply list_elem_of_lookup_2. }
  assert (inserted (dir_entries d i') (dir_entries (disk s) i) e0) as Hins.
  { replace (dir_entries d i') with (dir_entries (disk x) i1); [done|].
    rewrite !direct_entries by done. symmetry. apply entries_same. intros l Hl Hz.
    destruct (Hbl l Hl) as [?|[Hb' _]]; [done|]. apply Hdata, (is_block_high _ _ Hlo Hb'). }
  assert (∀ l, is_block (cur_part x) l ↔ is_block (cur_part s) l) as Hisb.
  { intros l. unfold is_block, block_no. by rewrite cl_nbits0, Hsb. }
  unfold entry_removed. cbn [inodes dirs file_table live nulls disk cur_part put_inode set_inodes set_disk].
  rewrite cl_inodes0, insert_insert_eq. destruct cl_rest0 as (? & ? & ? & ? & ?). split_and!; try done.
  - constructor; try done.
    + cbn. apply lookup_insert_eq.
    + apply Forall_forall. intros l Hl. destruct (Hbl l Hl) as [?|(Hb1 & Hu1 & _)]; [by left|right].
      split; [by apply Hisb|]. cbn. rewrite cl_used0, Hu1, (bool_decide_eq_false_2 (_ ∧ _)) by (tauto || done). done.
    + intros j k l Hj Hk Hz. apply (di_distinct _ _ _ Hdir j k l); [by apply cl_direct0|by apply cl_direct0|done].
    + change (Forall (λ e, f_type e = FT_UNKNOWN → e = blank) (dir_entries d i')). destruct Hins as (A & y & z & w & B & -> & Hes & Hy & _). pose proof (di_blank _ _ _ Hdir) as Hblank.
      rewrite Hes, !Forall_app, Forall_cons, Forall_app in Hblank. destruct Hblank as (HA & _ & _ & _ & HB).
      apply Forall_app. split; [done|]. apply Forall_app. split; [|done]. eapply Forall_impl; [exact Hy|]. by intros e <-.
    + cbn. pose proof (di_size _ _ _ Hdir). replace (i_size i - 24) with (i_size i + (-1) * 24) by lia. by rewrite Z_mod_plus_full.
  - intros l Hl Hnot. rewrite Hdata by done. apply cl_sectors0; [lia|done].
  - by exists b.
  - intros l Hl. destruct (Hbl l Hl) as [?|(_ & _ & ?)]; [by left|by right].
  - intros m Hm Hne. rewrite Hoth by done. unfold stored_inode, table_byte. cbn. rewrite Hsb. apply inode_from_ext. intros j Hj.
    rewrite cl_sectors0; [done|zdlia|]. intros [k Hk]%list_elem_of_lookup.
    destruct (Forall_lookup_1 _ _ _ _ (di_blocks _ _ _ Hdir) Hk) as [?|[Hb' _]]; [zdlia|]. apply (is_block_high _ _ Hlo) in Hb'. zdlia.
Qed.

(** The entry leaves its sector, or the sector the directory. *)
Lemma clear_entry (nb : nat) lba k ab d1 : dots_together → direct i !! nb = Some lba → lba ≠ 0 → 0 ≤ k < 21 →
  entry_at (bd_sector (disk s) lba) k = e0 → ordinary e0 → ab !! nb = Some lba → same_sectors (disk s) d1 →
  let buf := bd_sector (disk s) lba in
  ∃ x i1, (if (Z.of_nat (length (filter ordinary (sector_entries buf))) =? 1) &&
      negb (bool_decide (Exists is_dot (sector_entries buf)))
    then drop_dir_block (set_disk s d1) p ab (Z.of_nat nb)
    else l ← block_at ab (Z.of_nat nb);
      ide_write (set_disk s d1) l (take 512 (splice buf (sizeof_dir_entry * k) (replicate (Z.to_nat 24) 0))) 1)
    = Ok x ∧ cleared x i1.
Proof.
  intros Hdots Hn Hz Hk He Hord Habn Hd1 buf. destruct (_ && _) eqn:E.
  - apply andb_true_iff in E as [E1 E2]. apply Z.eqb_eq in E1. apply negb_true_iff, bool_decide_eq_false in E2.
    apply (free_entry_block nb lba ab d1 Hn Hz Habn); [|done]. apply (alone nb lba k); try done. by apply Nat2Z.inj.
  - rewrite (block_at_nth _ _ _ Habn). ocbn. pose proof (bd_sector_len (disk s) lba) as Hlen. fold buf in Hlen.
    change (replicate (Z.to_nat 24) 0) with (dir_entry_bytes blank). change (sizeof_dir_entry * k) with (24 * k).
    assert (length (splice buf (24 * k) (dir_entry_bytes blank)) = 512%nat) as Hsl.
    { rewrite splice_length; [done|lia|]. rewrite (dir_entry_bytes_length _ blank_ok). lia. }
    rewrite take_ge by lia.
    destruct (ide_write1 (set_disk s d1) lba (splice buf (24 * k) (dir_entry_bytes blank)))
      as (d2 & -> & Hd2 & Hsec); [apply Hd1|by apply (direct_on_disk s p i nb)|done| |].
    { apply splice_bytes; [apply bd_sector_bytes|apply dir_entry_bytes_ok, blank_ok]. }
    eexists _, i. split; [done|]. by apply (blank_entry nb lba k d1 d2).
Qed.

Lemma delete_dir_entry_spec pdir dd : dirs s !! pdir = Some dd → d_inode dd = p → dots_together → 24 ≤ i_size i → i_no i < 256 →
  ∃ s' i', delete_dir_entry s pdir n = Ok (true, s') ∧ entry_removed s' i'.
Proof.
  intros Hdd Hp Hdots Hsz Hno. unfold delete_dir_entry.
  rewrite (dir_inode_ok s pdir dd i) by (rewrite ?Hp; try apply (di_inode _ _ _ Hdir); done). ocbn. rewrite Hp.
  pose proof (dir_ok_readable _ _ _ Hlo Hdir) as Hrd.
  destruct (read_all_blocks_spec s i Hok Hrd) as (d0 & -> & Hd0). ocbn. cbn [cur_part set_disk]. rewrite Hsize.
  change (entrys_per_sec 24) with (Ok 21). ocbn. set (ab := dir_blocks (disk s) i).
  destruct entry_block as (nb & lba & k & Hn & Hz & Hh & Hk & He & [Hord Hnum] & Hbefore).
  pose proof (lookup_lt_Some _ _ _ Hn) as Hnb. pose proof (direct_twelve i (di_iok _ _ _ Hdir)) as Hl12. rewrite Hl12 in Hnb.
  assert (∀ j, (j < 12)%nat → ab !! j = direct i !! j) as Hab.
  { intros j Hj. apply lookup_app_l. fold (direct i). lia. }
  pose proof (λ j l, direct_on_disk s p i j l Hlo Hdir) as Hon.
  destruct (skip_blocks (delete_block p ab 21 n) (set_disk s d0) nb) as (d & Hd & ->); [lia|apply Hd0| |].
  { intros j d Hj Hd. destruct (lookup_lt_is_Some_2 (direct i) j) as [l Hl]; [lia|].
    apply (skip_block s d0 d p ab n j l); [done|done|lia|by rewrite Hab by lia|by eapply Hon|]. intros Hlz. by apply (Hbefore j l). }
  cbn [disk set_disk] in Hd. apply (same_sectors_trans _ _ _ Hd0) in Hd. rewrite set_disk_twice.
  replace (141 - nb)%nat with (S (140 - nb)) by lia.
  destruct (ide_read1 (set_disk s d) lba (proj1 Hd) (Hon _ _ Hn)) as (d1 & Hread & Hd1). cbn [disk set_disk] in *.
  rewrite (proj2 Hd lba) in Hread. apply (same_sectors_trans _ _ _ Hd) in Hd1.
  assert (ab !! nb = Some lba) as Habn by (by rewrite Hab by lia).
  assert (1 ≤ Z.of_nat (length (filter ordinary (sector_entries (bd_sector (disk s) lba))))) as Hcnt.
  { destruct (sector_middle (bd_sector (disk s) lba) k Hk) as (A & B & -> & _). rewrite He, filter_app, filter_cons_True by done.
    rewrite length_app. cbn [length]. lia. }
  destruct (clear_entry nb lba k ab d1 Hdots Hn Hz Hk He Hord Habn Hd1) as (x & i1 & Hrem & Hclr).
  destruct (shrink_spec x i1 Hclr Hsz Hno) as (d3 & i' & Hsync & Hres).
  eexists _, i'. split; [|exact Hres]. apply loop_exit. unfold delete_block.
  rewrite (proj2 (Z.ltb_lt _ _)), (block_at_nth _ _ _ Habn) by lia. ocbn.
  rewrite (proj2 (Z.eqb_neq lba 0)), Hread by done. ocbn. rewrite count_sector by (rewrite Hh; cbn; lia). ocbn. rewrite Hh. cbn [head].
  unfold remove_entry. cbn [cur_part set_disk]. rewrite Hsize, (proj2 (Z.leb_le _ _)) by done. ocbn. rewrite !set_disk_twice.
  rewrite Hrem. ocbn. destruct (cl_same _ _ Hclr) as (_ & Hsz1 & _).
  rewrite (get_inode_ok x p i1) by (rewrite (cl_inodes _ _ Hclr); apply lookup_insert_eq). ocbn.
  rewrite (proj2 (Z.leb_le 24 (i_size i1))) by lia. ocbn. by rewrite Hsync.
Qed.
End remove.

Section delete_theorems.
Context {D : Type} `{BlockDevice D}.
Implicit Types (s : fs D).


(** When the only entry of an indirect block is to be removed, the loop that counts
    the indirect blocks does not change its index: [delete_dir_entry] never
    returns. *)
Theorem delete_in_indirect_block_hangs s pdir dd i n (nb : nat) lba k :
  layout_ok (cur_part s) → bd_ok (disk s) → dir_entry_size (sb (cur_part s)) = 24 →
  dirs s !! pdir = Some dd → inodes s !! d_inode dd = Some i → readable_dir (disk s) i →
  (12 ≤ nb)%nat → dir_blocks (disk s) i !! nb = Some lba → is_block (cur_part s) lba →
  hits (bd_sector (disk s) lba) n = [k] → filter ordinary (sector_entries (bd_sector (disk s) lba)) = [entry_at (bd_sector (disk s) lba) k] →
  ¬ Exists is_dot (sector_entries (bd_sector (disk s) lba)) →
  (∀ (j : nat) l, dir_blocks (disk s) i !! j = Some l → (j < nb)%nat → l ≠ 0 → hits (bd_sector (disk s) l) n = []) →
  (∀ fuel, count_indirect fuel (dir_blocks (disk s) i) = OutOfFuel) ∧ delete_dir_entry s pdir n = OutOfFuel.
Proof.
  intros Hlo Hok Hsize Hdd Hi Hrd H12 Hn Hb Hh Hord Hdot Hbefore.
  pose proof (dir_blocks_length (disk s) i (rd_len _ _ Hrd)) as Hl140. pose proof (lookup_lt_Some _ _ _ Hn) as Hnb.
  split; [intros fuel; by apply count_indirect_diverges|].
  unfold delete_dir_entry. rewrite (dir_inode_ok s pdir dd i) by done. ocbn.
  destruct (read_all_blocks_spec s i Hok Hrd) as (d0 & -> & Hd0). ocbn. cbn [cur_part set_disk]. rewrite Hsize.
  change (entrys_per_sec 24) with (Ok 21). ocbn.
  pose proof (λ j l, Forall_lookup_1 _ _ j l (rd_blocks _ _ Hrd)) as Hon. set (ab := dir_blocks (disk s) i) in *.
  destruct (skip_blocks (delete_block (d_inode dd) ab 21 n) (set_disk s d0) nb) as (d & Hd & ->); [lia|apply Hd0| |].
  { intros j d Hj Hd. destruct (lookup_lt_is_Some_2 ab j) as [l Hl]; [lia|]. cbn [disk set_disk] in Hd.
    apply (skip_block s d0 d _ ab n j l); [done|done|lia|done|by eapply Hon|]. intros Hlz. by apply (Hbefore j l). }
  cbn [disk set_disk] in Hd. apply (same_sectors_trans _ _ _ Hd0) in Hd. rewrite set_disk_twice.
  replace (141 - nb)%nat with (S (140 - nb)) by lia.
  destruct (ide_read1 (set_disk s d) lba (proj1 Hd) (Hon _ _ Hn)) as (d1 & Hread & Hd1). cbn [disk set_disk] in *.
  rewrite (proj2 Hd lba) in Hread. destruct (block_word _ _ Hlo Hb) as [_ Hlba].
  apply (same_sectors_trans _ _ _ Hd) in Hd1.
  destruct (free_block_spec s Hlo (set_disk s d1) lba eq_refl (proj1 Hd1) Hb) as (b & d2 & Hfree & _).
  cbn [loop]. unfold delete_block at 1. rewrite (proj2 (Z.ltb_lt _ _)), (block_at_nth _ _ _ Hn) by lia. ocbn.
  rewrite (proj2 (Z.eqb_neq lba 0)), Hread by lia. ocbn. rewrite count_sector by (rewrite Hh; cbn; lia). ocbn.
  rewrite Hh, Hord, bool_decide_eq_false_2 by done. cbn [head length]. unfold remove_entry, drop_dir_block.
  rewrite set_disk_twice. change (1 <=? Z.of_nat 1) with true. change (Z.of_nat 1 =? 1) with true. ocbn.
  rewrite (block_at_nth _ _ _ Hn). ocbn. rewrite Hfree. ocbn. rewrite (get_inode_ok _ _ i) by done. ocbn.
  rewrite (proj2 (Z.ltb_ge _ _)) by lia. by rewrite count_indirect_diverges.
Qed.
End delete_theorems.

Module DirDeleteExample.
Import RamDisk FsExample DirExample.

Lemma root_dots : dots_together fs1 root_node.
Proof.
  intros lba Hin Hz _. apply list_elem_of_lookup in Hin as [[|j] Hj].
  - injection Hj as <-. apply (bool_decide_unpack _). vm_compute. exact I.
  - apply (lookup_replicate_1 11) in Hj as [? _]. done.
Qed.


(** A directory whose only entry is in its first indirect block. *)
Definition far_node : inode := Inode 0 24 1 0 (replicate 12 0 ++ [614]).
Definition disk2 : ramdisk := λ l, if l =? 614 then le32_bytes 615 else if l =? 615 then dir_entry_bytes abc_entry else [].
Definition fs2 : fs ramdisk :=
  Fs (part0 [200]) {[200 := far_node]} {[root_dir := Dir 200 0 (replicate 512 0)]}
    (replicate 32 (File 0 0 NULL)) [0; 1; 2; -1; -1; -1; -1; -1] 0 {[200]} [] disk2.

Lemma far_readable : readable_dir disk2 far_node.
Proof.
  constructor; [done|cbn; lia|]. apply (bool_decide_unpack _). vm_compute. exact I.
Qed.

Lemma delete_in_indirect_block_hangs_witness : delete_dir_entry fs2 root_dir 5 = OutOfFuel.
Proof.
  apply (delete_in_indirect_block_hangs fs2 root_dir (Dir 200 0 (replicate 512 0)) far_node 5 12 615 0).
  - apply layout0.
  - done.
  - done.
  - done.
  - done.
  - exact far_readable.
  - lia.
  - vm_compute. reflexivity.
  - unfold is_block. vm_compute. split; congruence.
  - vm_compute. reflexivity.
  - vm_compute. reflexivity.
  - apply (bool_decide_unpack _). vm_compute. exact I.
  - intros j l Hj Hlt Hz. destruct Hz. assert (take 12 (dir_blocks disk2 far_node) = replicate 12 0) as Ht by reflexivity.
    assert (take 12 (dir_blocks disk2 far_node) !! j = Some l) as Hl by (rewrite lookup_take_lt; done).
    rewrite Ht in Hl. by apply lookup_replicate_1 in Hl as [-> _].
Defined.
End DirDeleteExample.
