(* ===== verification/FsSearch.v ===== *)
(** * fs/fs.c: following a path

    [search_file] refines a walk through a tree: [resolve] follows the names of a
    path from the root directory through the directories on the disk. The
    directory [search_file] leaves open is the one the walk ends in, and closing it
    undoes the search. *)

From stdpp Require Import base numbers list gmap.
From Stdlib Require Import ZArith Lia.
From S2P Require Import Prelude Bitmap Block FsState FsAlloc Inode FsFile FsWrite Dir DirSpec FsPath.

Section open_dir.
Context {D : Type} `{BlockDevice D}.
Implicit Types (s x : fs D).

(** ** Opening and closing a directory *)

Lemma sys_malloc_not_root s q s' : sys_malloc s = (q, s') → q ≠ root_dir.
Proof.
  unfold sys_malloc. pose proof (is_fresh (live s ∪ {[NULL; root_dir]})) as Hf.
  destruct (nulls s) as [|[] ?]; intros [= <- _]; [set_solver|done|set_solver].
Qed.

Lemma inode_close_frame s p s' : inode_close s p = Ok s' →
  s' = Fs (let m := cur_part s in
           Mounted (m_start_lba m) (m_sec_cnt m) (sb m) (block_bitmap m) (inode_bitmap m) (open_inodes (cur_part s')))
         (inodes s') (dirs s) (file_table s) (fd_table s) (cwd_inode_nr s) (live s') (nulls s) (disk s).
Proof.
  unfold inode_close. destruct (get_inode s p) as [i| | | |]; [ocbn|done..].
  destruct (_ =? 0).
  - unfold sys_free, ASSERT. destruct (negb _); [ocbn|done]. intros [= <-]. done.
  - intros [= <-]. by destruct s as [[]].
Qed.

Lemma inode_close_dirs s p dd : inode_close (set_dirs s dd) p = (s ← inode_close s p; Ok (set_dirs s dd)).
Proof.
  unfold inode_close, get_inode. cbn [inodes set_dirs]. destruct (inodes s !! p) as [i|]; [ocbn|done].
  destruct (_ =? 0); [|done]. unfold sys_free, ASSERT. by destruct (negb _).
Qed.

(** The state after [inode_open]. *)
Definition after_open s (p : Z) (i : inode) (d : D) : fs D :=
  let s' := set_heap (put_inode s p i) ({[p]} ∪ live s) [] in
  set_disk (if bool_decide (p ∈ open_inodes (cur_part s)) then s' else set_open_inodes s' (p :: open_inodes (cur_part s))) d.

Lemma open_close_exact s n p i d : cache_ok s → opened s n p i → p ≠ NULL → nulls s = [] →
  (∀ q j, inodes s !! q = Some j → i_open_cnts j < 2 ^ 32 - 1) →
  inode_close (after_open s p i d) p = Ok (set_disk s d).
Proof.
  intros Hc Ho Hp Hnulls Hmax. destruct (open_close s n p i d Hc Ho Hp Hmax) as (s'' & Hs & Hi & Hop & Hl & Hd).
  change (inode_close (after_open s p i d) p = Ok s'') in Hs. rewrite Hs. f_equal. rewrite (inode_close_frame _ _ _ Hs), Hi, Hop, Hl.
  unfold after_open. destruct s as [[] ? ? ? ? ? ? ? ?]. cbn in *. subst. by case_bool_decide.
Qed.

Lemma cache_ok_heap s l n : cache_ok s → live s ⊆ l → cache_ok (set_heap s l n).
Proof.
  intros Hc Hl. destruct Hc as [? ? ? ? Hlive]. constructor; try done. cbn. intros p Hp. destruct (Hlive p Hp). split; [by apply Hl|done].
Qed.

(** The inode with number [n], as it is in memory or else in the table. *)
Definition view s (n : Z) : inode :=
  match find_open (inodes s) (open_inodes (cur_part s)) n with
  | Ok (Some p) => default (stored_inode (cur_part s) (disk s) n) (inodes s !! p)
  | _ => stored_inode (cur_part s) (disk s) n
  end.

(** The object is the one in memory, when there is one. *)
Lemma view_cases s n : cache_ok s →
  (∃ p, inodes s !! p = Some (view s n) ∧ i_no (view s n) = n) ∨
  ((∀ p j, inodes s !! p = Some j → i_no j ≠ n) ∧ view s n = stored_inode (cur_part s) (disk s) n).
Proof.
  intros Hc. unfold view. destruct (find_open_spec (inodes s) (open_inodes (cur_part s)) n) as [(q & j & -> & Hq & Hj & Hjn)|[-> Hnone]].
  { intros q Hq. by apply (ca_dom _ Hc). }
  - left. exists q. rewrite Hj. done.
  - right. split; [|done]. intros p j Hp. apply (Hnone p j); [|done]. apply (ca_dom _ Hc). by eexists.
Qed.

Lemma view_object s n p j : cache_ok s → inodes s !! p = Some j → i_no j = n → view s n = j.
Proof.
  intros Hc Hp Hn. destruct (view_cases s n Hc) as [(q & Hq & Hqn)|[Hnone _]]; [|by destruct (Hnone p j)].
  assert (q = p) as -> by (apply (ca_unique _ Hc q p _ j Hq Hp); congruence). congruence.
Qed.

Lemma opened_view s n p i : cache_ok s → opened s n p i → ∃ c, i = set_open_cnts (view s n) c.
Proof.
  intros Hc [(j & _ & Hp & Hj & ->)|(_ & _ & Hnone & ->)].
  - rewrite (view_object s n p j Hc Hp Hj). by eexists.
  - destruct (view_cases s n Hc) as [(q & Hq & Hqn)|[_ ->]]; [by destruct (Hnone q _ Hq)|by eexists].
Qed.

(** After opening an inode, every inode looks the same but for the counter. *)
Lemma after_open_view s n p i d m : cache_ok s → opened s n p i → cache_ok (after_open s p i d) → i_no i = n →
  same_sectors (disk s) d → ∃ c, view (after_open s p i d) m = set_open_cnts (view s m) c.
Proof.
  intros Hc Ho Hc' Hin [_ Hd]. destruct (opened_view s n p i Hc Ho) as [c Hi].
  assert (inodes (after_open s p i d) = <[p := i]> (inodes s) ∧ sb (cur_part (after_open s p i d)) = sb (cur_part s) ∧
    disk (after_open s p i d) = d) as (Hino & Hsb & Hdk) by (unfold after_open; by case_bool_decide).
  destruct (view_cases _ m Hc') as [(q & Hq & Hqm)|[Hnone ->]].
  - rewrite Hino in Hq. apply lookup_insert_Some in Hq as [[-> Heq]|[Hne Hq]].
    + exists c. rewrite <- Heq. replace m with n by congruence. done.
    + rewrite (view_object s m q _ Hc Hq Hqm). exists (i_open_cnts (view (after_open s p i d) m)). by destruct (view _ m).
  - rewrite Hino in Hnone. destruct (view_cases s m Hc) as [(q & Hq & Hqm)|[_ ->]].
    + destruct (decide (q = p)) as [->|Hne].
      * destruct (Hnone p i); [apply lookup_insert_eq|]. rewrite Hin. destruct Ho as [(j & _ & Hp & Hj & _)|(_ & Hnl & _)]; [congruence|].
        destruct (ca_live _ Hc p); [by eexists|done].
      * destruct (Hnone q (view s m)); [by rewrite lookup_insert_ne|done].
    + exists (i_open_cnts (stored_inode (cur_part s) (disk s) m)). set (j := stored_inode (cur_part s) (disk s) m).
      replace (set_open_cnts j (i_open_cnts j)) with j by (by destruct j).
      unfold j, stored_inode, table_byte. rewrite Hsb, Hdk. apply inode_from_ext. intros o _. by rewrite Hd.
Qed.

Lemma view_disk s d m : same_sectors (disk s) d → view (set_disk s d) m = view s m.
Proof.
  intros [_ Hd]. unfold view. cbn [inodes cur_part set_disk disk].
  replace (stored_inode (cur_part s) d m) with (stored_inode (cur_part s) (disk s) m); [done|].
  apply inode_from_ext. intros o _. unfold table_byte. by rewrite Hd.
Qed.

(** The entries of a directory and whether it can be read depend on the sectors of
    its inode. *)
Lemma entries_sectors d i j : i_sectors i = i_sectors j → dir_entries d i = dir_entries d j.
Proof. intros Hs. unfold dir_entries, dir_blocks, table_of. by rewrite Hs. Qed.

Lemma readable_sectors d i j : i_sectors i = i_sectors j → readable_dir d j → readable_dir d i.
Proof.
  intros Hs [Hl Ht Hb]. unfold dir_blocks, table_of in *. constructor; unfold dir_blocks, table_of; by rewrite Hs.
Qed.

Lemma readable_same d d' i : same_sectors d d' → readable_dir d i → readable_dir d' i.
Proof. intros Hs [Hl Ht Hb]. constructor; try done. by rewrite (same_blocks _ _ _ Hs). Qed.

(** What the walk needs of the state. *)
Record tree_base s : Prop := {
  tb_cache : cache_ok s;
  tb_layout : layout_ok (cur_part s);
  tb_disk : bd_ok (disk s);
  tb_nulls : nulls s = [];
  tb_size : dir_entry_size (sb (cur_part s)) = 24;
  tb_counts q j : inodes s !! q = Some j → i_open_cnts j < 2 ^ 31;
  tb_dirs q : is_Some (dirs s !! q) → q = root_dir ∨ q ∈ live s
}.

(** In [x], directory [q] is open on inode number [m]; closing it gives [s], but
    for the state of the disk drive. *)
Record at_dir s x (q m : Z) : Prop := {
  ad_inode : ∃ dd i, dirs x !! q = Some dd ∧ inodes x !! d_inode dd = Some i ∧ i_no i = m ∧ i_sectors i = i_sectors (view s m);
  ad_disk : same_sectors (disk s) (disk x);
  ad_nulls : nulls x = [];
  ad_sb : sb (cur_part x) = sb (cur_part s);
  ad_cache : cache_ok x ∧ layout_ok (cur_part x) ∧ ∀ p j, inodes x !! p = Some j → i_open_cnts j < 2 ^ 32 - 1;
  ad_view n : ∃ c, view x n = set_open_cnts (view s n) c;
  ad_close d : same_sectors (disk x) d → ∃ d', dir_close (set_disk x d) q = Ok (set_disk s d') ∧ same_sectors (disk s) d'
}.

Lemma at_dir_disk s x q m d : at_dir s x q m → same_sectors (disk x) d → at_dir s (set_disk x d) q m.
Proof.
  intros [Hi Hd Hn Hsb (Hca & Hlo & Hcn) Hv Hc] Hs. constructor; try done; [by eapply same_sectors_trans|..].
  - split; [by destruct Hca|done].
  - intros n. rewrite view_disk by done. apply Hv.
  - intros d' Hd'. rewrite set_disk_twice. apply Hc. by eapply same_sectors_trans.
Qed.

Lemma dir_open_at s d n : tree_base s → same_sectors (disk s) d → 0 ≤ n < 4096 →
  i_no (stored_inode (cur_part s) (disk s) n) = n →
  ∃ q x, dir_open (set_disk s d) n = Ok (q, x) ∧ at_dir s x q n.
Proof.
  intros [] Hd Hn Hno. unfold dir_open. destruct (sys_malloc (set_disk s d)) as [q s0] eqn:Em.
  pose proof (sys_malloc_not_root _ _ _ Em) as Hroot.
  destruct (sys_malloc_ok (set_disk s d) tb_nulls0) as (q' & Em' & Hq & Hq0). rewrite Em' in Em. injection Em as -> <-.
  cbn [live set_disk] in *. set (s0 := set_heap (set_disk s d) ({[q]} ∪ live s) []).
  assert (cache_ok s0) as Hc0 by (apply cache_ok_heap; [by destruct tb_cache0; constructor|set_solver]).
  assert (∀ m, stored_inode (cur_part s0) (disk s0) m = stored_inode (cur_part s) (disk s) m) as Hst.
  { intros m. apply inode_from_ext. intros j _. unfold table_byte. cbn. by rewrite (proj2 Hd). }
  destruct (inode_open_spec s0 n Hc0 tb_layout0 (proj1 Hd) Hn eq_refl) as (p & i & d1 & Ho & Hd1 & -> & Hp0).
  change (let s' := _ in _) with (after_open s0 p i d1). ocbn. rewrite (proj2 (Z.eqb_neq q NULL)) by done. eexists q, _. split; [done|].
  assert (view s0 n = view s n) as Hview by (unfold view; by rewrite Hst).
  assert (dirs (after_open s0 p i d1) = dirs s ∧ sb (cur_part (after_open s0 p i d1)) = sb (cur_part s) ∧
    inodes (after_open s0 p i d1) = <[p := i]> (inodes s) ∧ nulls (after_open s0 p i d1) = [] ∧
    disk (after_open s0 p i d1) = d1) as (Hdirs & Hsb & Hin & Hnl & Hdk).
  { unfold after_open. by case_bool_decide. }
  assert (i_no i = n) as Hin' by (apply (opened_no _ _ _ _ Ho); by rewrite Hst).
  assert (∀ q j, inodes s0 !! q = Some j → i_open_cnts j < 2 ^ 32 - 1) as Hmax by (intros q' j Hj; specialize (tb_counts0 q' j Hj); lia).
  assert (cache_ok (after_open s0 p i d1)) as Hca by (apply (opened_cache s0 n); try done; by rewrite Hst).
  constructor; cbn [put_dir set_dirs dirs inodes disk nulls cur_part].
  - eexists _, i. split; [apply lookup_insert_eq|]. cbn [d_inode]. rewrite Hin, lookup_insert_eq. split; [done|].
    split; [done|]. rewrite <- Hview. by destruct (opened_view s0 n p i Hc0 Ho) as [c ->].
  - rewrite Hdk. by eapply same_sectors_trans.
  - done.
  - done.
  - split; [by destruct Hca|]. split; [unfold after_open; by case_bool_decide; destruct tb_layout0; constructor|].
    rewrite Hin. intros p' j [[_ <-]|[_ Hj]]%lookup_insert_Some; [|specialize (tb_counts0 p' j Hj); lia].
    destruct Ho as [(j & _ & Hj & _ & ->)|(_ & _ & _ & ->)]; cbn; [|lia]. specialize (tb_counts0 p j Hj).
    destruct (ca_inode _ tb_cache0 p j Hj). rewrite u32_small by lia. lia.
  - intros m. rewrite <- (view_disk s d m Hd). destruct (after_open_view s0 n p i d1 m) as [c Hc]; try done.
    exists c. exact Hc.
  - intros d2 Hd2. exists d2. rewrite Hdk in Hd2. unfold dir_close. rewrite (proj2 (Z.eqb_neq q root_dir)) by done.
    unfold get_dir. cbn [dirs put_dir set_dirs set_disk]. rewrite lookup_insert_eq. ocbn. cbn [d_inode].
    change (set_disk (put_dir _ _ _) d2) with (set_dirs (after_open s0 p i d2) (<[q := Dir p 0 (replicate 512 0)]> (dirs (after_open s0 p i d1)))).
    rewrite inode_close_dirs, (open_close_exact s0 n) by done. ocbn. rewrite sys_free_ok by done. ocbn.
    split; [|eapply same_sectors_trans; [exact Hd|by eapply same_sectors_trans]].
    rewrite Hdirs. cbn. rewrite delete_insert_id.
    + unfold set_disk, set_dirs, set_heap, s0. cbn. rewrite tb_nulls0. do 2 f_equal. clear -Hq. set_solver.
    + destruct (dirs s !! q) eqn:E; [|done]. destruct (tb_dirs0 q) as [?|?]; [by eexists|done|]. done.
Qed.
End open_dir.

(** ** Walking through the directories *)

(** Where a walk ends: a name is missing in directory [dir], a regular file was
    found in it, or the names led to directory [ino], which was found in [dir].
    [searched] are the names looked for. *)
Inductive resolved :=
  | Missing (dir : Z) (searched : list (list Z))
  | IsFile (ino dir : Z) (searched : list (list Z))
  | IsDir (ino dir : Z) (searched : list (list Z)).

(** The walk from directory [dir], found in [parent], with the names of [done]
    behind it. A regular file ends it, whatever follows. *)
Fixpoint resolve (es : Z → list dir_entry) (dir parent : Z) (done names : list (list Z)) : resolved :=
  match names with
  | [] => IsDir dir parent done
  | name :: names =>
      match lookup_name name (es dir) with
      | None => Missing dir (done ++ [name])
      | Some e =>
          if f_type e =? FT_DIRECTORY then resolve es (de_i_no e) dir (done ++ [name]) names
          else IsFile (de_i_no e) dir (done ++ [name])
      end
  end.

(** The path of a sequence of names. *)
Definition join (names : list (list Z)) : list Z := names ≫= λ n, slash :: n.

(** A name as it may occur in a path. *)
Definition name_ok (name : list Z) : Prop := name ≠ [] ∧ Forall (λ c, c ≠ 0) name ∧ Z.of_nat (length name) ≤ 15.

Lemma join_app ns ns' : join (ns ++ ns') = join ns ++ join ns'.
Proof. apply bind_app. Qed.

Section walk.
Context {D : Type} `{BlockDevice D}.
Implicit Types (s x : fs D).

Definition dir_list s (n : Z) : list dir_entry := dir_entries (disk s) (view s n).

(** The directories with the numbers [P] form a tree with the root directory: each
    can be read and has entries for directories of [P] and for files. *)
Record tree s (P : Z → Prop) : Prop := {
  tr_base : tree_base s;
  tr_root : ∃ dd i, dirs s !! root_dir = Some dd ∧ inodes s !! d_inode dd = Some i ∧ i_no i = 0;
  tr_zero : P 0;
  tr_dir n : P n → 0 ≤ n < 4096 ∧ i_no (stored_inode (cur_part s) (disk s) n) = n ∧ readable_dir (disk s) (view s n) ∧
    Forall (λ e, e = blank ∨ f_type e = FT_DIRECTORY ∧ P (de_i_no e) ∨ f_type e = FT_REGULAR ∧ 0 ≤ de_i_no e < 4096) (dir_list s n)
}.

Context (s : fs D) (P : Z → Prop) (Htree : tree s P).
Let Hbase := tr_base _ _ Htree.

Lemma at_root d : same_sectors (disk s) d → at_dir s (set_disk s d) root_dir 0.
Proof.
  intros Hd. constructor; try done.
  - destruct (tr_root _ _ Htree) as (dd & i & Hdd & Hi & Hno). exists dd, i. split_and!; try done.
    by rewrite (view_object s 0 (d_inode dd) i) by (done || apply (tb_cache _ Hbase)).
  - apply (tb_nulls _ Hbase).
  - split; [by destruct (tb_cache _ Hbase)|]. split; [apply (tb_layout _ Hbase)|]. intros p j Hj. pose proof (tb_counts _ Hbase p j Hj). lia.
  - intros n. rewrite view_disk by done. exists (i_open_cnts (view s n)). by destruct (view s n).
  - intros d' Hd'. exists d'. split; [done|]. cbn in Hd'. by eapply same_sectors_trans.
Qed.

(** Searching a name in the directory of the walk. *)
Lemma search_at x q m name : at_dir s x q m → P m → name_ok name →
  ∃ d, search_dir_entry x q name = Ok (lookup_name name (dir_list s m), set_disk x d) ∧ at_dir s (set_disk x d) q m ∧
    dir_inode (set_disk x d) q = dir_inode x q.
Proof.
  intros Hat HP (_ & _ & Hl). destruct (ad_inode _ _ _ _ Hat) as (dd & i & Hdd & Hi & _ & Hsec).
  destruct (tr_dir _ _ Htree m HP) as (_ & _ & Hrd & _).
  destruct (search_dir_entry_correct x q dd i name) as (d & -> & Hd); try done.
  - apply (ad_nulls _ _ _ _ Hat).
  - apply (ad_disk _ _ _ _ Hat).
  - rewrite (ad_sb _ _ _ _ Hat). apply (tb_size _ Hbase).
  - apply (readable_sectors _ _ (view s m)); [done|]. apply (readable_same (disk s)); [apply (ad_disk _ _ _ _ Hat)|done].
  - exists d. split; [|split; [by apply at_dir_disk|done]]. do 2 f_equal. f_equal.
    rewrite (entries_sectors _ _ _ Hsec). apply (same_entries (disk s)), (ad_disk _ _ _ _ Hat).
Qed.

(** An entry with a name is a directory of the tree or a file. *)
Lemma lookup_kind m name e : P m → name_ok name → lookup_name name (dir_list s m) = Some e →
  f_type e = FT_DIRECTORY ∧ P (de_i_no e) ∨ f_type e = FT_REGULAR ∧ 0 ≤ de_i_no e < 4096.
Proof.
  intros HP (Hne & Hc & _) Hl. destruct (tr_dir _ _ Htree m HP) as (_ & _ & _ & Hes). unfold lookup_name in Hl.
  destruct (filter _ _) as [|e' l] eqn:E; [done|]. injection Hl as ->.
  assert (e ∈ e :: l) as Hin by left. rewrite <- E in Hin. apply list_elem_of_filter in Hin as [Hn Hin].
  destruct (proj1 (Forall_forall _ _) Hes e Hin) as [->|?]; [|done].
  pose proof (blank_unnamed [blank] name Hne Hc) as Hb. rewrite filter_cons_True in Hb by done.
  discriminate Hb. by constructor.
Qed.

Lemma s32_ino n : 0 ≤ n < 4096 → s32 n = n.
Proof. intros. apply s32_small. lia. Qed.

(** What [search_file] returns for the end of a walk. *)
Definition answers (r : resolved) (res : Z * path_search_record * fs D) : Prop :=
  let '(ino, rec, x) := res in
  match r with
  | Missing dir searched => ino = -1 ∧ file_type rec = FT_UNKNOWN ∧ searched_path rec = join searched ∧ at_dir s x (parent_dir rec) dir
  | IsFile n dir searched => ino = n ∧ file_type rec = FT_REGULAR ∧ searched_path rec = join searched ∧ at_dir s x (parent_dir rec) dir
  | IsDir n dir searched => ino = n ∧ file_type rec = FT_DIRECTORY ∧ searched_path rec = join searched ∧ at_dir s x (parent_dir rec) dir
  end.

(** A round of [search_file] in directory [m]. *)
Lemma search_round_spec w x m done name' p' :
  name_ok (w_name w) → w_path w = join done → Z.of_nat (length (join (done ++ [w_name w]))) < 512 →
  at_dir s x (cur_dir w) m → P m → next_name (sub_path w) = Ok (name', p') →
  let path := join (done ++ [w_name w]) in
  match lookup_name (w_name w) (dir_list s m) with
  | None => ∃ x', search_round x w = Ok (inr (-1, PathSearchRecord path (cur_dir w) FT_UNKNOWN, x')) ∧ at_dir s x' (cur_dir w) m
  | Some e =>
      if f_type e =? FT_DIRECTORY then
        ∃ q x', search_round x w = Ok (inl (Walk name' p' path q m (Some e), x')) ∧ at_dir s x' q (de_i_no e) ∧ P (de_i_no e)
      else ∃ x', search_round x w = Ok (inr (de_i_no e, PathSearchRecord path (cur_dir w) FT_REGULAR, x')) ∧ at_dir s x' (cur_dir w) m
  end.
Proof.
  destruct w as [nm p path q parent e]. cbn [w_name sub_path w_path cur_dir].
  intros Hnok -> Hlen Hat HP Hnn. destruct (search_at x q m nm Hat HP Hnok) as (d & Hs & Hatd & _).
  rewrite join_app in *. change (join [nm]) with (slash :: nm ++ []) in *. rewrite app_nil_r, length_app in *. cbn [length] in Hlen.
  unfold search_round, append_name. cbn [w_name sub_path w_path cur_dir parent_inode_no dir_e]. destruct Hnok as (Hne & Hc & Hl15).
  rewrite (proj2 (Z.ltb_lt (Z.of_nat (length (join done))) 512)) by lia. ocbn.
  rewrite (proj2 (Z.ltb_lt (Z.of_nat (length nm)) _)) by (unfold MAX_FILE_NAME_LEN; lia).
  rewrite (proj2 (Z.ltb_lt _ MAX_PATH_LEN)) by (rewrite length_app; unfold MAX_PATH_LEN; cbn [length]; lia). ocbn.
  rewrite Hs. ocbn. destruct (lookup_name nm (dir_list s m)) as [e'|] eqn:Elk; [|by eexists].
  rewrite Hnn. ocbn. destruct (lookup_kind m nm e' HP) as [[Hft HPe]|[Hft Hino]]; [done|done|rewrite Hft..].
  - change (FT_DIRECTORY =? FT_DIRECTORY) with true. cbv iota.
    destruct (ad_inode _ _ _ _ Hatd) as (dd & i & Hdd & Hi & Hino & _). rewrite (dir_inode_ok _ _ _ _ Hdd Hi). ocbn.
    destruct (ad_close _ _ _ _ Hatd d) as (d' & Hcl & Hd'); [by apply same_sectors_refl, (ad_disk _ _ _ _ Hatd)|].
    rewrite set_disk_twice in Hcl. rewrite Hcl. ocbn. destruct (tr_dir _ _ Htree _ HPe) as (Hr & Hst & _).
    destruct (dir_open_at s d' (de_i_no e') Hbase Hd' Hr Hst) as (q' & x' & -> & Hat'). ocbn. rewrite Hino. by exists q', x'.
  - change (FT_DIRECTORY =? FT_REGULAR) with false. change (FT_REGULAR =? FT_REGULAR) with true.
    change (FT_REGULAR =? FT_DIRECTORY) with false. cbv iota. rewrite s32_ino by done. by eexists.
Qed.

(** The end of [search_file], in directory [m]. *)
Lemma search_end_spec w x m done e : at_dir s x (cur_dir w) m → P m → P (parent_inode_no w) → dir_e w = Some e → de_i_no e = m →
  w_path w = join done → ∃ res, search_end x w = Ok res ∧ answers (IsDir m (parent_inode_no w) done) res.
Proof.
  intros Hat HP HPp He Hm Hpath. unfold search_end.
  destruct (ad_close _ _ _ _ Hat (disk x)) as (d & Hcl & Hd); [by apply same_sectors_refl, (ad_disk _ _ _ _ Hat)|].
  replace (set_disk x (disk x)) with x in Hcl by (by destruct x). rewrite Hcl. ocbn.
  destruct (tr_dir _ _ Htree _ HPp) as (Hr & Hst & _).
  destruct (dir_open_at s d _ Hbase Hd Hr Hst) as (q' & x' & -> & Hat'). ocbn. rewrite He. ocbn. eexists. split; [done|].
  cbn. destruct (tr_dir _ _ Htree m HP) as (Hmr & _). rewrite Hm, s32_ino by done. done.
Qed.

(** The loop of [search_file]. *)
Lemma walk_loop fuel : ∀ w x m done names,
  pending (w_name w) (sub_path w) = names → Forall name_ok names → (rounds (w_name w) (sub_path w) < fuel)%nat →
  w_path w = join done → Z.of_nat (length (join (done ++ names))) < 512 →
  at_dir s x (cur_dir w) m → P m → P (parent_inode_no w) →
  (names = [] → ∃ e, dir_e w = Some e ∧ de_i_no e = m) →
  ∃ res, loop fuel search_step (w, x) = Ok res ∧ answers (resolve (dir_list s) m (parent_inode_no w) done names) res.
Proof.
  induction fuel as [|fuel IH]; intros w x m done names Hpend Hok Hf Hpath Hlen Hat HP HPp He; [lia|].
  destruct (w_name w) as [|c name] eqn:Ew.
  - cbn in Hpend. subst names. destruct (He eq_refl) as (e' & He' & Hm).
    destruct (search_end_spec w x m done e' Hat HP HPp He' Hm Hpath) as (res & Hend & Hans). exists res. split; [|done].
    apply loop_exit. cbn. by rewrite Ew, Hend.
  - cbn [pending] in Hpend. subst names. rewrite <- Ew in *. apply Forall_cons in Hok as [Hnok Hok].
    set (nm := w_name w) in *. set (rest := components (default [] (sub_path w))) in *.
    replace (done ++ nm :: rest) with ((done ++ [nm]) ++ rest) in Hlen by (by rewrite <- app_assoc).
    assert (forallb fits (take 1 rest) = true) as Hfit.
    { destruct rest as [|n' rest']; [done|]. apply Forall_cons in Hok as [(_ & _ & Hl') _]. cbn. unfold fits.
      rewrite (proj2 (Z.leb_le _ _)) by (unfold MAX_FILE_NAME_LEN; lia). done. }
    pose proof (next_name_spec (sub_path w)) as Hnext. fold rest in Hnext. rewrite Hfit in Hnext.
    destruct Hnext as (name' & p' & Hnn & Hpend' & Hnil & Hrounds).
    assert (search_step (w, x) = search_round x w) as Hstep by (cbn; fold nm; by rewrite Ew).
    pose proof (search_round_spec w x m done name' p' Hnok Hpath) as Hround. fold nm in Hround.
    rewrite join_app, length_app in Hlen. specialize (Hround ltac:(lia) Hat HP Hnn). cbn zeta in Hround. cbn [resolve].
    destruct (lookup_name nm (dir_list s m)) as [e'|].
    2: { destruct Hround as (x' & Hr & Hat'). rewrite (loop_exit _ _ _ _ (eq_trans Hstep Hr)). eexists. split; [done|]. by split_and!. }
    destruct (f_type e' =? FT_DIRECTORY).
    + destruct Hround as (q & x' & Hr & Hat' & HPe). rewrite (loop_step _ _ _ _ (eq_trans Hstep Hr)).
      apply (IH (Walk name' p' (join (done ++ [nm])) q m (Some e'))); cbn [w_name sub_path w_path cur_dir parent_inode_no dir_e]; try done.
      * unfold rounds in Hf. rewrite Ew in Hf. lia.
      * rewrite join_app, length_app. lia.
      * intros _. by exists e'.
    + destruct Hround as (x' & Hr & Hat'). rewrite (loop_exit _ _ _ _ (eq_trans Hstep Hr)). eexists. split; [done|]. by split_and!.
Qed.
End walk.

(** ** Paths *)

Lemma join_filter (Q : list Z → Prop) `{!∀ n, Decision (Q n)} ns : (length (join (filter Q ns)) ≤ length (join ns))%nat.
Proof.
  induction ns as [|n ns IH]; [done|]. rewrite filter_cons. change (n :: ns) with ([n] ++ ns). rewrite join_app, length_app.
  case_decide; [|lia]. change (n :: filter Q ns) with ([n] ++ filter Q ns). rewrite join_app, length_app. lia.
Qed.

Lemma join_split p : length (join (split_path p)) = S (length p).
Proof.
  induction p as [|c p IH]; [done|]. cbn [split_path]. destruct (c =? slash).
  - change ([] :: split_path p) with ([[]] ++ split_path p). rewrite join_app, length_app, IH. done.
  - destruct (split_path p) as [|n ns]; [done|]. change (join ((c :: n) :: ns)) with ((slash :: c :: n) ++ join ns).
    change (join (n :: ns)) with ((slash :: n) ++ join ns) in IH. rewrite length_app in *. cbn [length] in *. lia.
Qed.

Lemma join_components p : (length (join (components (slash :: p))) ≤ length (slash :: p))%nat.
Proof. rewrite components_slash. cbn [length]. rewrite <- join_split. apply join_filter. Qed.

(** A path that [search_file] accepts and that is not the root directory's. *)
Record path_ok (path : list Z) : Prop := {
  po_head : head path = Some slash;
  po_len : 1 < Z.of_nat (length path) < 512;
  po_root : names_root path = false;
  po_names : components path ≠ [] ∧ Forall name_ok (components path)
}.

Lemma resolve_app es names more : ∀ dir parent done,
  match resolve es dir parent done names with
  | IsDir _ _ _ => True
  | r => resolve es dir parent done (names ++ more) = r
  end.
Proof.
  induction names as [|n names IH]; intros dir parent dn; [done|]. cbn [resolve app].
  destruct (lookup_name n (es dir)) as [e|]; [|done]. destruct (_ =? _); [apply IH|done].
Qed.

Lemma split_app p q : split_path (p ++ slash :: q) = split_path p ++ split_path q.
Proof.
  induction p as [|c p IH]; [done|]. cbn [split_path app]. rewrite IH. destruct (c =? slash); [done|].
  destruct (split_path p) as [|n ns] eqn:E; [|done]. pose proof (join_split p) as Hl. by rewrite E in Hl.
Qed.

Lemma components_app p q : components (p ++ slash :: q) = components p ++ components q.
Proof. unfold components. by rewrite split_app, filter_app. Qed.

Section search_theorems.
Context {D : Type} `{BlockDevice D}.
Implicit Types (s : fs D).

Lemma search_file_spec s P path : tree s P → path_ok path →
  ∃ res, search_file s path = Ok res ∧ answers s (resolve (dir_list s) 0 0 [] (components path)) res.
Proof.
  intros Ht [Hhead Hlen Hroot [Hne Hnames]]. unfold search_file. rewrite Hroot.
  rewrite bool_decide_eq_true_2, (proj2 (Z.ltb_lt 1 _)), (proj2 (Z.ltb_lt _ MAX_PATH_LEN)) by (done || unfold MAX_PATH_LEN; lia). ocbn.
  pose proof (next_name_spec (Some path)) as Hnext. cbn [next_name] in Hnext. change (default [] (Some path)) with path in Hnext.
  assert (forallb fits (take 1 (components path)) = true) as Hfit.
  { destruct (components path) as [|n ns]; [done|]. apply Forall_cons in Hnames as [(_ & _ & Hl) _]. cbn. unfold fits.
    rewrite (proj2 (Z.leb_le _ _)) by (unfold MAX_FILE_NAME_LEN; lia). done. }
  rewrite Hfit in Hnext. destruct Hnext as (name & p & -> & Hpend & _ & Hrounds). ocbn.
  apply (walk_loop s P Ht _ (Walk name p [] root_dir 0 None) s 0 [] (components path)); try done.
  - cbn [w_name sub_path]. lia.
  - destruct path as [|c path]; [done|]. injection Hhead as ->. pose proof (join_components path). cbn [app]. lia.
  - replace s with (set_disk s (disk s)) at 2 by (by destruct s). apply (at_root s P Ht).
    apply same_sectors_refl, (tb_disk _ (tr_base _ _ Ht)).
  - apply (tr_zero _ _ Ht).
  - apply (tr_zero _ _ Ht).
Qed.

(** C11. [search_file] follows a path through the directories as the walk [resolve]
    does: it reports the inode of the file or directory the names lead to, or that
    one is missing, the path searched so far, and leaves exactly the directory
    open in which the search ended. Closing it undoes the search. *)
Theorem search_file_correct s P path : tree s P → path_ok path →
  ∃ res, search_file s path = Ok res ∧ answers s (resolve (dir_list s) 0 0 [] (components path)) res.
Proof. apply search_file_spec. Qed.

(** When a path leads to a regular file, [search_file] gives the same answer for
    every longer path: the names behind the file are ignored. [sys_unlink] does
    not compare the depths and removes the file. *)
Theorem search_file_ignores_rest s P path more n dir searched :
  tree s P → path_ok (path ++ slash :: more) →
  resolve (dir_list s) 0 0 [] (components path) = IsFile n dir searched →
  ∃ res, search_file s (path ++ slash :: more) = Ok res ∧ answers s (IsFile n dir searched) res.
Proof.
  intros Ht Hp Hr. destruct (search_file_spec s P _ Ht Hp) as (res & Hs & Ha). exists res. split; [done|].
  rewrite components_app in Ha. pose proof (resolve_app (dir_list s) (components path) (components more) 0 0 []) as Happ.
  rewrite Hr in Happ. by rewrite Happ in Ha.
Qed.
End search_theorems.

Module SearchExample.
Import RamDisk FsExample DirExample.

Lemma cache1 : cache_ok fs1.
Proof.
  assert (∀ p j, ({[200 := root_node]} : gmap Z inode) !! p = Some j → p = 200 ∧ j = root_node) as Hs.
  { intros p j Hp. apply lookup_singleton_Some in Hp as [-> <-]. done. }
  constructor; cbn.
  - apply NoDup_singleton.
  - intros p. rewrite list_elem_of_singleton. split; [intros ->; by eexists|]. intros [j Hj]. by apply Hs in Hj as [-> _].
  - intros p i Hp. apply Hs in Hp as [_ ->]. split; [exact root_node_ok|done].
  - intros p q i j Hp Hq _. apply Hs in Hp as [-> _]. by apply Hs in Hq as [-> _].
  - intros p [j Hj]. apply Hs in Hj as [-> _]. split; [set_solver|done].
Qed.

(** The root directory alone is a tree. *)
Lemma tree1 : tree fs1 (λ n, n = 0).
Proof.
  constructor.
  - constructor; try done; [exact cache1|apply layout0|..].
    + intros q j Hq. cbn in Hq. apply lookup_singleton_Some in Hq as [_ <-]. cbn. lia.
    + intros q [d Hq]. cbn in Hq. apply lookup_singleton_Some in Hq as [<- _]. by left.
  - eexists _, _. split; [done|]. split; done.
  - done.
  - intros n ->. split; [lia|]. split; [vm_compute; reflexivity|]. split; [exact root_readable|].
    apply (bool_decide_unpack _). vm_compute. exact I.
Qed.

(** "/abc" and "/abc/x" *)
Definition abc_path : list Z := slash :: abc_name.
Definition below_abc : list Z := abc_path ++ slash :: [120].

Lemma path_ok_dec p : head p = Some slash → (1 <? Z.of_nat (length p)) && (Z.of_nat (length p) <? 512) = true →
  names_root p = false → components p ≠ [] → forallb (λ n, (1 <=? Z.of_nat (length n)) && (Z.of_nat (length n) <=? 15) &&
    forallb (λ c, negb (c =? 0)) n) (components p) = true → path_ok p.
Proof.
  intros Hh [H1 H2]%andb_true_iff Hr Hc Hn. apply Z.ltb_lt in H1, H2. constructor; try done. split; [done|].
  apply Is_true_true in Hn. rewrite forallb_True, Forall_forall in Hn. apply Forall_forall. intros n Hin. specialize (Hn n Hin).
  apply andb_prop_elim in Hn as [Hn Hz]. apply andb_prop_elim in Hn as [Hl1 Hl2].
  apply Is_true_true, Z.leb_le in Hl1, Hl2. split; [by intros ->|]. split; [|done].
  rewrite forallb_True in Hz. eapply Forall_impl; [exact Hz|]. intros c Hcz. apply Is_true_true, negb_true_iff, Z.eqb_neq in Hcz. done.
Qed.

Lemma search_file_correct_witness :
  ∃ r x, search_file fs1 abc_path = Ok (5, r, x) ∧ file_type r = FT_REGULAR ∧ at_dir fs1 x (parent_dir r) 0.
Proof.
  destruct (search_file_correct fs1 (λ n, n = 0) abc_path) as ([[ino r] x] & Hs & Ha).
  - exact tree1.
  - by apply path_ok_dec.
  - assert (resolve (dir_list fs1) 0 0 [] (components abc_path) = IsFile 5 0 [abc_name]) as Hr by (vm_compute; reflexivity).
    rewrite Hr in Ha. destruct Ha as (-> & Hft & _ & Hat). by exists r, x.
Defined.

Lemma search_file_ignores_rest_witness :
  ∃ r x, search_file fs1 below_abc = Ok (5, r, x) ∧ file_type r = FT_REGULAR.
Proof.
  destruct (search_file_ignores_rest fs1 (λ n, n = 0) abc_path [120] 5 0 [abc_name]) as ([[ino r] x] & Hs & -> & Hft & _).
  - exact tree1.
  - by apply path_ok_dec.
  - vm_compute. reflexivity.
  - by exists r, x.
Defined.
End SearchExample.
