(* ===== verification/FsMountSpec.v ===== *)
(** * fs/fs.c: a new file system

    [partition_format] lays out an empty file system; [mount_partition] and
    [open_root_dir] then give the state the rest of the file system relies on. *)

From stdpp Require Import base numbers list gmap.
From Stdlib Require Import ZArith Lia.
From S2P Require Import Prelude Bitmap Block Partition FsState FsAlloc Inode FsFile FsWrite Dir DirSpec FsPath FsSearch FsMount.

(** ** The block bitmap *)

Lemma update_byte_ok buf k b f : 0 ≤ k → buf !! Z.to_nat k = Some b → update_byte buf k f = Ok (<[Z.to_nat k := f b]> buf).
Proof. intros Hk Hb. unfold update_byte. by rewrite Hb. Qed.

(** The last byte of the bitmap: the bits 0 to [last] are cleared. *)
Definition last_mask (last : Z) : Z := 256 - 2 ^ (last + 1).

Lemma clear_bits_loop (n : nat) last buf : 0 ≤ last < 8 → (n < length buf)%nat →
  loop 9 (λ '(bit_idx, buf),
    if bit_idx <=? last then
      buf ← update_byte buf (Z.of_nat n) (λ b, u8 (Z.land b (Z.lnot (Z.shiftl 1 bit_idx))));
      Ok (inl (bit_idx + 1, buf))
    else Ok (inr buf)) (0, <[n := 255]> buf) = Ok (<[n := last_mask last]> buf).
Proof.
  intros Hlast Hn. set (body := λ _ : Z * list Z, _).
  assert (∀ i v, i <= last → body (i, <[n := v]> buf) = Ok (inl (i + 1, <[n := u8 (Z.land v (Z.lnot (Z.shiftl 1 i)))]> buf))) as Hgo.
  { intros i v Hi. unfold body. rewrite (proj2 (Z.leb_le _ _)) by done. rewrite (update_byte_ok _ _ v) by
      (rewrite ?Nat2Z.id; try apply list_lookup_insert_eq; done || lia). ocbn. by rewrite Nat2Z.id, list_insert_insert_eq. }
  assert (∀ i v, last < i → body (i, <[n := v]> buf) = Ok (inr (<[n := v]> buf))) as Hend.
  { intros i v Hi. unfold body. by rewrite (proj2 (Z.leb_gt _ _)) by lia. }
  assert (last = 0 ∨ last = 1 ∨ last = 2 ∨ last = 3 ∨ last = 4 ∨ last = 5 ∨ last = 6 ∨ last = 7) as Hc by lia.
  clearbody body. destruct Hc as [->|[->|[->|[->|[->|[->|[->| ->]]]]]]];
    repeat (erewrite loop_step by (apply Hgo; lia); cbn [Z.add Pos.add Pos.succ]);
    (erewrite loop_exit by (apply Hend; lia)); reflexivity.
Qed.

Lemma last_mask_bit last r : 0 ≤ last < 8 → 0 ≤ r < 8 → Z.testbit (last_mask last) r = bool_decide (last < r).
Proof.
  intros Hl Hr.
  assert (last = 0 ∨ last = 1 ∨ last = 2 ∨ last = 3 ∨ last = 4 ∨ last = 5 ∨ last = 6 ∨ last = 7) as Hc by lia.
  assert (r = 0 ∨ r = 1 ∨ r = 2 ∨ r = 3 ∨ r = 4 ∨ r = 5 ∨ r = 6 ∨ r = 7) as Hd by lia.
  destruct Hc as [->|[->|[->|[->|[->|[->|[->| ->]]]]]]]; destruct Hd as [->|[->|[->|[->|[->|[->|[->| ->]]]]]]]; reflexivity.
Qed.

Lemma last_mask_byte last : 0 ≤ last < 8 → is_byte (last_mask last).
Proof.
  intros Hl. unfold is_byte, last_mask.
  assert (last = 0 ∨ last = 1 ∨ last = 2 ∨ last = 3 ∨ last = 4 ∨ last = 5 ∨ last = 6 ∨ last = 7) as Hc by lia.
  destruct Hc as [->|[->|[->|[->|[->|[->|[->| ->]]]]]]]; cbn; lia.
Qed.

Lemma testbit_255 r : 0 ≤ r < 8 → Z.testbit 255 r = true.
Proof.
  intros Hr. assert (r = 0 ∨ r = 1 ∨ r = 2 ∨ r = 3 ∨ r = 4 ∨ r = 5 ∨ r = 6 ∨ r = 7) as Hd by lia.
  destruct Hd as [->|[->|[->|[->|[->|[->|[->| ->]]]]]]]; reflexivity.
Qed.

Lemma testbit_1 r : 0 ≤ r → Z.testbit 1 r = bool_decide (r = 0).
Proof. intros Hr. change 1 with (2 ^ 0) at 1. rewrite testbit_pow2 by lia. apply bool_decide_ext. lia. Qed.

(** The bitmap that is written: the first bit is set, and those behind bit
    [bit_len], to the end of its sector. *)
Lemma format_bitmap_spec (n : nat) bit_len : 8 ≤ bit_len → (bit_len / 4096 + 1) * 512 ≤ Z.of_nat n →
  ∃ buf, format_bitmap (replicate n 0) bit_len = Ok buf ∧ length buf = n ∧ Forall is_byte buf ∧
    ∀ k, 0 ≤ k < Z.of_nat n * 8 → bitv buf k = bool_decide (k = 0 ∨ bit_len < k < (bit_len / 4096 + 1) * 4096).
Proof.
  intros H8 Hn. unfold format_bitmap, SECTOR_SIZE. set (q := bit_len / 8). set (r := bit_len mod 8).
  assert (q / 512 = bit_len / 4096) as Hq by (unfold q; rewrite Z.div_div by lia; done).
  assert (0 ≤ r < 8 ∧ 1 ≤ q ∧ bit_len = 8 * q + r) as (Hr & Hq1 & Hbl) by (unfold q, r; zdlia). clearbody q r.
  assert (∃ qn : nat, q = Z.of_nat qn) as [qn ->] by (exists (Z.to_nat q); lia).
  assert (Z.of_nat qn < (Z.of_nat qn / 512 + 1) * 512 ∧ 0 ≤ 512 - Z.of_nat qn mod 512 ∧ Z.of_nat qn + (512 - Z.of_nat qn mod 512) = (Z.of_nat qn / 512 + 1) * 512) as (Hqn & Hm & Hqm) by zdlia.
  rewrite (update_byte_ok _ 0 0) by (done || (apply lookup_replicate_2; lia)). ocbn. change (Z.lor 0 1) with 1. change (Z.to_nat 0) with 0%nat.
  unfold fill. rewrite length_insert, length_replicate, (proj2 (Z.leb_le _ _)) by lia. ocbn.
  set (b1 := <[0%nat := 1]> (replicate n 0)). set (b2 := splice b1 (Z.of_nat qn) (replicate (Z.to_nat (512 - Z.of_nat qn mod 512)) 255)).
  assert (length b1 = n) as Hl1 by (unfold b1; by rewrite length_insert, length_replicate).
  assert (length b2 = n) as Hl2 by (unfold b2; rewrite splice_length; rewrite ?length_replicate; lia).
  assert (∀ k : nat, (k < n)%nat → b2 !! k = Some (if decide (Z.of_nat qn ≤ Z.of_nat k < (Z.of_nat qn / 512 + 1) * 512) then 255 else if decide (k = 0%nat) then 1 else 0)) as Hb2.
  { intros k Hk. unfold b2. rewrite splice_lookup by (rewrite ?length_replicate; lia). rewrite length_replicate.
    replace (Z.of_nat qn + Z.of_nat (Z.to_nat (512 - Z.of_nat qn mod 512))) with ((Z.of_nat qn / 512 + 1) * 512) by lia.
    case_decide; [apply lookup_replicate_2; lia|]. unfold b1. case_decide as H0; [rewrite H0; apply list_lookup_insert_eq; rewrite length_replicate; lia|].
    rewrite list_lookup_insert_ne by done. apply lookup_replicate_2. lia. }
  assert (b2 = <[qn := 255]> b2) as Hid.
  { symmetry. apply list_insert_id. rewrite Hb2 by lia. rewrite decide_True by lia. done. }
  rewrite Hid, clear_bits_loop by lia.
  eexists. split; [done|]. split; [by rewrite length_insert|]. split.
  - apply Forall_insert; [|by apply last_mask_byte]. apply Forall_lookup. intros k x Hx. pose proof (lookup_lt_Some _ _ _ Hx).
    rewrite Hb2 in Hx by lia. injection Hx as <-. unfold is_byte. repeat case_decide; lia.
  - intros k Hk. unfold bitv. assert (0 ≤ k / 8 < Z.of_nat n ∧ 0 ≤ k mod 8 < 8 ∧ k = 8 * (k / 8) + k mod 8) as (Hkn & Hk8 & Hke) by zdlia.
    rewrite list_lookup_insert. case_decide as Hd.
    + rewrite last_mask_bit by done. apply bool_decide_ext. rewrite <- Hq. lia.
    + rewrite Hb2 by lia. case_decide as Hin.
      * rewrite testbit_255 by done. symmetry. apply bool_decide_eq_true_2. rewrite <- Hq. lia.
      * case_decide as H0; [rewrite testbit_1 by lia; apply bool_decide_ext; rewrite <- Hq; lia|].
        rewrite Z.bits_0. symmetry. apply bool_decide_eq_false_2. rewrite <- Hq. lia.
Qed.

(** ** The layout *)

(** The number of data blocks and of sectors of the block bitmap for a partition of
    [cnt] sectors. *)
Definition block_cnt (cnt : Z) : Z := cnt - 611 - (cnt - 611 + 4095) / 4096.
Definition bitmap_sects (cnt : Z) : Z := (block_cnt cnt + 4095) / 4096.
Definition new_super_block (start cnt : Z) : super_block :=
  let bb := bitmap_sects cnt in
  SuperBlock fs_magic cnt 4096 start (start + 2) bb (start + 2 + bb) 1 (start + 3 + bb) 608 (start + 611 + bb) 0 24.

(** A partition that can be formatted. *)
Record part_ok (size : Z) (part : partition) : Prop := {
  pt_start : 0 ≤ start_lba part;
  pt_cnt : 620 ≤ sec_cnt part < 2400000;
  pt_end : start_lba part + sec_cnt part + 4096 ≤ size;
  pt_size : size < 2 ^ 31
}.

Lemma part_bounds size part : part_ok size part →
  8 ≤ block_cnt (sec_cnt part) ∧ 1 ≤ bitmap_sects (sec_cnt part) < 608 ∧
  block_cnt (sec_cnt part) + bitmap_sects (sec_cnt part) + 611 ≤ sec_cnt part ∧
  block_cnt (sec_cnt part) ≤ bitmap_sects (sec_cnt part) * 4096 < block_cnt (sec_cnt part) + 4096.
Proof. intros []. unfold bitmap_sects, block_cnt in *. zdlia. Qed.

Lemma format_layout_eq size part : part_ok size part →
  format_layout part = (new_super_block (start_lba part) (sec_cnt part), block_cnt (sec_cnt part)).
Proof.
  intros Hp. pose proof (part_bounds _ _ Hp) as (Hbc & Hbs & Hsum & _). destruct Hp. unfold format_layout, DIV_ROUND_UP.
  change (u32 (MAX_FILES_PER_PART + BITS_PER_SECTOR - 1) / BITS_PER_SECTOR) with 1.
  change (u32 (sizeof_inode * MAX_FILES_PER_PART + SECTOR_SIZE - 1) / SECTOR_SIZE) with 608.
  unfold BITS_PER_SECTOR. change (1 + 1 + 1 + 608) with 611.
  rewrite (u32_small (sec_cnt part - 611)) by lia. rewrite (u32_small (sec_cnt part - 611 + 4096 - 1)) by lia.
  replace (sec_cnt part - 611 + 4096 - 1) with (sec_cnt part - 611 + 4095) by lia.
  fold (block_cnt (sec_cnt part)). rewrite (u32_small (block_cnt (sec_cnt part))) by lia.
  rewrite (u32_small (block_cnt (sec_cnt part) + 4096 - 1)) by lia.
  replace (block_cnt (sec_cnt part) + 4096 - 1) with (block_cnt (sec_cnt part) + 4095) by lia. fold (bitmap_sects (sec_cnt part)).
  rewrite (u32_small (start_lba part + 2)) by lia. rewrite (u32_small (start_lba part + 2 + bitmap_sects (sec_cnt part))) by lia.
  rewrite (u32_small (start_lba part + 2 + bitmap_sects (sec_cnt part) + 1)) by lia.
  rewrite (u32_small (start_lba part + 2 + bitmap_sects (sec_cnt part) + 1 + 608)) by lia.
  unfold new_super_block. f_equal. f_equal; lia.
Qed.

(** Sectors that were written together. *)
Lemma sectors_written get lba (n : nat) bs : length bs = (n * 512)%nat →
  (∀ l, lba ≤ l < lba + Z.of_nat n → get l = nth_sector bs (l - lba)) → sectors get lba n = bs.
Proof.
  revert lba bs. induction n as [|n IH]; intros lba bs Hl Hget; cbn [sectors].
  - symmetry. apply nil_length_inv. lia.
  - rewrite (IH (lba + 1) (drop 512 bs)).
    + rewrite Hget by lia. replace (lba - lba) with 0 by lia. unfold nth_sector. change (Z.to_nat (0 * 512)) with 0%nat.
      rewrite drop_0. apply take_drop.
    + rewrite length_drop. lia.
    + intros l Hll. rewrite Hget by lia. unfold nth_sector. rewrite drop_drop. do 2 f_equal. lia.
Qed.

Lemma nth_sector_one bs : length bs = 512%nat → nth_sector bs 0 = bs.
Proof. intros Hl. unfold nth_sector. change (Z.to_nat (0 * 512)) with 0%nat. rewrite drop_0. apply take_ge. lia. Qed.

(** The inode table: the root directory's inode and nothing else. *)
Definition new_table (b : super_block) : list Z := inode_bytes (root_inode b) ++ replicate (Z.to_nat 311220) 0.
Definition new_inode_bitmap : list Z := 1 :: replicate 511 0.

Lemma splice_start bs (n k : nat) : length bs = 76%nat → n = (76 + k)%nat → splice (replicate n 0) 0 bs = bs ++ replicate k 0.
Proof.
  intros Hl ->. unfold splice. change (Z.to_nat 0) with 0%nat. rewrite take_0, Hl, drop_replicate.
  by replace (76 + k - (0 + 76))%nat with k by lia.
Qed.

Section format.
Context {D : Type} `{BlockDevice D}.

(** The disk [d'] is [d] with an empty file system on the partition; [bm] is its
    block bitmap. *)
Record formatted (d d' : D) (part : partition) (bm : list Z) : Prop := {
  fm_ok : bd_ok d';
  fm_super : ∃ pad, bd_sector d' (start_lba part + 1) = words_bytes (super_block_words (new_super_block (start_lba part) (sec_cnt part))) ++ pad;
  fm_blocks : sectors (bd_sector d') (start_lba part + 2) (Z.to_nat (bitmap_sects (sec_cnt part))) = bm;
  fm_inodes : bd_sector d' (start_lba part + 2 + bitmap_sects (sec_cnt part)) = new_inode_bitmap;
  fm_table : sectors (bd_sector d') (start_lba part + 3 + bitmap_sects (sec_cnt part)) 608 = new_table (new_super_block (start_lba part) (sec_cnt part));
  fm_root : bd_sector d' (start_lba part + 611 + bitmap_sects (sec_cnt part)) = first_sector 0 0;
  fm_rest l : l ≤ start_lba part ∨ start_lba part + 611 + bitmap_sects (sec_cnt part) < l → bd_sector d' l = bd_sector d l
}.

(** The block bitmap of a new file system. *)
Definition new_bitmap (cnt : Z) (bm : list Z) : Prop :=
  Z.of_nat (length bm) = bitmap_sects cnt * 512 ∧ Forall is_byte bm ∧
  ∀ k, 0 ≤ k < bitmap_sects cnt * 4096 → bitv bm k = bool_decide (k = 0 ∨ block_cnt cnt < k).

Lemma bitv_take bm n k : 0 ≤ k < Z.of_nat n * 8 → bitv (take n bm) k = bitv bm k.
Proof. intros Hk. unfold bitv. rewrite lookup_take_lt by zdlia. done. Qed.

(** The pieces that [partition_format] writes. *)
Lemma format_pieces size part (n : nat) : part_ok size part → Z.of_nat n = 311296 →
  let b := new_super_block (start_lba part) (sec_cnt part) in
  let cleared := replicate n 0 in
  ∃ buf bm buf2, format_bitmap cleared (block_cnt (sec_cnt part)) = Ok buf ∧
    prefix_sectors buf (block_bitmap_sects b) = Ok bm ∧ new_bitmap (sec_cnt part) bm ∧
    update_byte cleared 0 (λ b, Z.lor b 1) = Ok buf2 ∧ prefix_sectors buf2 (inode_bitmap_sects b) = Ok new_inode_bitmap ∧
    prefix_sectors (splice cleared 0 (inode_bytes (root_inode b))) (inode_table_sects b) = Ok (new_table b).
Proof.
  intros Hp Hn b cleared. pose proof (part_bounds _ _ Hp) as (Hbc & Hbs & Hsum & Hbits).
  set (bc := block_cnt (sec_cnt part)) in *. set (bs := bitmap_sects (sec_cnt part)) in *.
  destruct (format_bitmap_spec n bc) as (buf & Hbuf & Hlen & Hbytes & Hbit); [lia|zdlia|].
  exists buf, (take (Z.to_nat (bs * 512)) buf), (<[Z.to_nat 0 := 1]> cleared). split; [done|].
  split; [unfold prefix_sectors, SECTOR_SIZE; cbn [block_bitmap_sects b new_super_block]; fold bs; by rewrite (proj2 (Z.leb_le _ _)) by lia|].
  split; [|split; [|split]].
  - split; [rewrite length_take; lia|]. split; [by apply Forall_take|]. fold bs. intros k Hk. rewrite bitv_take, Hbit by lia.
    apply bool_decide_ext. fold bc. split; [lia|]. intros [?|?]; [by left|right]. zdlia.
  - by rewrite (update_byte_ok _ 0 0) by (done || (apply lookup_replicate_2; lia)).
  - unfold prefix_sectors, SECTOR_SIZE. cbn [inode_bitmap_sects b new_super_block]. unfold cleared.
    rewrite length_insert, length_replicate, (proj2 (Z.leb_le _ _)) by lia.
    assert (n = 512 + (n - 512))%nat as -> by lia. rewrite replicate_add. change (Z.to_nat (1 * 512)) with 512%nat.
    rewrite insert_app_l by (rewrite length_replicate; lia).
    rewrite take_app_le by (rewrite length_insert, length_replicate; lia). reflexivity.
  - assert (length (inode_bytes (root_inode b)) = 76%nat) as H76 by (by apply inode_bytes_length).
    assert (splice cleared 0 (inode_bytes (root_inode b)) = new_table b) as ->.
    { apply splice_start; [exact H76|lia]. }
    assert (Z.of_nat (length (new_table b)) = 311296) as Hl by (unfold new_table; rewrite length_app, length_replicate, H76; lia).
    unfold prefix_sectors, SECTOR_SIZE. cbn [inode_table_sects b new_super_block].
    rewrite Hl, (proj2 (Z.leb_le _ _)) by lia. by rewrite take_ge by lia.
Qed.

Lemma super_words_ok size part : part_ok size part →
  Forall (λ w, 0 ≤ w < 2 ^ 32) (super_block_words (new_super_block (start_lba part) (sec_cnt part))).
Proof.
  intros Hp. pose proof (part_bounds _ _ Hp). destruct Hp. unfold super_block_words, new_super_block, fs_magic.
  repeat (apply Forall_cons; split; [cbn; lia|]). constructor.
Qed.

Lemma root_inode_ok size part : part_ok size part → inode_ok (root_inode (new_super_block (start_lba part) (sec_cnt part))).
Proof.
  intros Hp. pose proof (part_bounds _ _ Hp). destruct Hp. constructor; try done. unfold root_inode. cbn [i_sectors data_start_lba new_super_block].
  apply Forall_cons. split; [unfold word; lia|]. apply (Forall_replicate _ 12). unfold word. lia.
Qed.

Lemma first_sector_ok : length (first_sector 0 0) = 512%nat ∧ Forall is_byte (first_sector 0 0).
Proof. split; [done|]. apply (bool_decide_unpack (Forall (λ b, 0 ≤ b < 256) (first_sector 0 0))). vm_compute. exact I. Qed.

Lemma new_inode_bitmap_ok : Forall is_byte new_inode_bitmap.
Proof. apply (bool_decide_unpack (Forall (λ b, 0 ≤ b < 256) new_inode_bitmap)). vm_compute. exact I. Qed.

Lemma new_table_ok b : length (new_table b) = Z.to_nat 311296 ∧ Forall is_byte (new_table b).
Proof.
  split.
  - unfold new_table. rewrite length_app, length_replicate, inode_bytes_length by done. lia.
  - apply Forall_app. split; [apply inode_bytes_ok|by apply Forall_replicate].
Qed.

(** Five regions one behind the other, written in turn. *)
Lemma five_writes d start n sup bm ibm tab root : bd_ok d → 0 ≤ start → 1 ≤ n → start + 612 + n ≤ bd_size →
  length sup = 512%nat → Z.of_nat (length bm) = n * 512 → length ibm = 512%nat → Z.of_nat (length tab) = 608 * 512 → length root = 512%nat →
  Forall is_byte sup → Forall is_byte bm → Forall is_byte ibm → Forall is_byte tab → Forall is_byte root →
  ∃ d1 d2 d3 d4 d5, bd_write d (start + 1) sup 1 = Ok d1 ∧ bd_write d1 (start + 2) bm n = Ok d2 ∧
    bd_write d2 (start + 2 + n) ibm 1 = Ok d3 ∧ bd_write d3 (start + 3 + n) tab 608 = Ok d4 ∧
    bd_write d4 (start + 611 + n) root 1 = Ok d5 ∧ bd_ok d5 ∧
    bd_sector d5 (start + 1) = sup ∧ sectors (bd_sector d5) (start + 2) (Z.to_nat n) = bm ∧
    bd_sector d5 (start + 2 + n) = ibm ∧ sectors (bd_sector d5) (start + 3 + n) 608 = tab ∧ bd_sector d5 (start + 611 + n) = root ∧
    ∀ l, l ≤ start ∨ start + 611 + n < l → bd_sector d5 l = bd_sector d l.
Proof.
  intros Hok Hst Hn Hend L1 L2 L3 L4 L5 B1 B2 B3 B4 B5.
  destruct (bd_write_ok d (start + 1) sup 1 Hok) as (d1 & H1 & Hok1 & Hs1); [lia..|done|].
  destruct (bd_write_ok d1 (start + 2) bm n Hok1) as (d2 & H2 & Hok2 & Hs2); [lia..|done|].
  destruct (bd_write_ok d2 (start + 2 + n) ibm 1 Hok2) as (d3 & H3 & Hok3 & Hs3); [lia..|done|].
  destruct (bd_write_ok d3 (start + 3 + n) tab 608 Hok3) as (d4 & H4 & Hok4 & Hs4); [lia..|done|].
  destruct (bd_write_ok d4 (start + 611 + n) root 1 Hok4) as (d5 & H5 & Hok5 & Hs5); [lia..|done|].
  exists d1, d2, d3, d4, d5. split_and!; try done.
  - rewrite Hs5, bool_decide_eq_false_2, Hs4, bool_decide_eq_false_2, Hs3, bool_decide_eq_false_2, Hs2, bool_decide_eq_false_2,
      Hs1, bool_decide_eq_true_2, Z.sub_diag by lia. by apply nth_sector_one.
  - apply sectors_written; [lia|]. intros l Hl. rewrite Z2Nat.id in Hl by lia.
    by rewrite Hs5, bool_decide_eq_false_2, Hs4, bool_decide_eq_false_2, Hs3, bool_decide_eq_false_2, Hs2, bool_decide_eq_true_2 by lia.
  - rewrite Hs5, bool_decide_eq_false_2, Hs4, bool_decide_eq_false_2, Hs3, bool_decide_eq_true_2, Z.sub_diag by lia. by apply nth_sector_one.
  - apply sectors_written; [lia|]. intros l Hl. by rewrite Hs5, bool_decide_eq_false_2, Hs4, bool_decide_eq_true_2 by lia.
  - rewrite Hs5, bool_decide_eq_true_2, Z.sub_diag by lia. by apply nth_sector_one.
  - intros l Hl. by rewrite Hs5, bool_decide_eq_false_2, Hs4, bool_decide_eq_false_2, Hs3, bool_decide_eq_false_2, Hs2,
      bool_decide_eq_false_2, Hs1, bool_decide_eq_false_2 by lia.
Qed.

Lemma partition_format_spec d part pad : bd_ok d → part_ok bd_size part → length pad = 460%nat → Forall is_byte pad →
  ∃ d' bm, partition_format d [] part pad = Ok (d', []) ∧ formatted d d' part bm ∧ new_bitmap (sec_cnt part) bm.
Proof.
  intros Hok Hp Hpad Hpb. pose proof (part_bounds _ _ Hp) as (Hbc & Hbs & Hsum & Hbits).
  assert (∃ n : nat, Z.of_nat n = 311296) as [n Hn] by (exists (Z.to_nat 311296); lia).
  destruct (format_pieces _ _ n Hp Hn) as (buf & bm & buf2 & Hbuf & Hbm & Hnew & Hu2 & Hib & Htab).
  set (b := new_super_block (start_lba part) (sec_cnt part)) in *.
  pose proof Hp as [Hst Hcnt Hend Hsz]. pose proof Hnew as (Hbl & Hbb & _).
  assert (Z.of_nat (length (new_table b)) = 608 * 512 ∧ Forall is_byte (new_table b)) as [Htl Htb].
  { destruct (new_table_ok b) as [-> ?]. split; [lia|done]. }
  destruct first_sector_ok as [Hfl Hfb].
  destruct (five_writes d (start_lba part) (bitmap_sects (sec_cnt part)) (words_bytes (super_block_words b) ++ pad) bm new_inode_bitmap
    (new_table b) (first_sector 0 0)) as (d1 & d2 & d3 & d4 & d5 & H1 & H2 & H3 & H4 & H5 & Hok5 & F1 & F2 & F3 & F4 & F5 & F6);
    [exact Hok|exact Hst|lia|lia| |exact Hbl|reflexivity|exact Htl|exact Hfl| |exact Hbb|exact new_inode_bitmap_ok|exact Htb|exact Hfb|].
  { rewrite length_app, words_bytes_length, Hpad. reflexivity. }
  { apply Forall_app. split; [apply words_bytes_ok|exact Hpb]. }
  exists d5, bm. split.
  - unfold partition_format. rewrite (format_layout_eq _ _ Hp). rewrite (u32_small (start_lba part + 1)) by lia. fold b.
    rewrite H1. ocbn. cbn [malloc_fails].
    assert (u32 (Z.max (Z.max (block_bitmap_sects b) (inode_bitmap_sects b)) (inode_table_sects b) * SECTOR_SIZE) = Z.of_nat n) as ->.
    { unfold b. cbn [block_bitmap_sects inode_bitmap_sects inode_table_sects new_super_block]. unfold SECTOR_SIZE. rewrite Hn, u32_small; lia. }
    rewrite Nat2Z.id.
    assert (block_bitmap_lba b = start_lba part + 2 ∧ block_bitmap_sects b = bitmap_sects (sec_cnt part) ∧
      inode_bitmap_lba b = start_lba part + 2 + bitmap_sects (sec_cnt part) ∧ inode_bitmap_sects b = 1 ∧
      inode_table_lba b = start_lba part + 3 + bitmap_sects (sec_cnt part) ∧ inode_table_sects b = 608 ∧
      data_start_lba b = start_lba part + 611 + bitmap_sects (sec_cnt part)) as (E1 & E2 & E3 & E4 & E5 & E6 & E7) by (repeat split).
    cbv iota. rewrite Hbuf. ocbn. rewrite Hbm. ocbn. rewrite E1, E2, H2. ocbn. rewrite Hu2. ocbn. rewrite Hib. ocbn.
    rewrite E3, E4, H3. ocbn. rewrite Htab. ocbn. rewrite E5, E6, H4. ocbn. rewrite E7, H5. reflexivity.
  - split; [|exact Hnew]. constructor; [exact Hok5|by exists pad|exact F2|exact F3|exact F4|exact F5|exact F6].
Qed.

(** ** Mounting *)

Lemma super_block_roundtrip b pad : Forall (λ w, 0 ≤ w < 2 ^ 32) (super_block_words b) →
  super_block_at (words_bytes (super_block_words b) ++ pad) = b.
Proof.
  intros Hw. unfold super_block_at. destruct b as [].
  pose proof (λ k w, le32_at_words _ k w pad Hw) as Hk.
  f_equal; [apply (Hk 0%nat)|apply (Hk 1%nat)|apply (Hk 2%nat)|apply (Hk 3%nat)|apply (Hk 4%nat)|apply (Hk 5%nat)|apply (Hk 6%nat)|
    apply (Hk 7%nat)|apply (Hk 8%nat)|apply (Hk 9%nat)|apply (Hk 10%nat)|apply (Hk 11%nat)|apply (Hk 12%nat)]; reflexivity.
Qed.

Definition new_mounted (part : partition) (bm : list Z) : mounted :=
  Mounted (start_lba part) (sec_cnt part) (new_super_block (start_lba part) (sec_cnt part))
    (Bitmap (bitmap_sects (sec_cnt part) * 512) bm) (Bitmap 512 new_inode_bitmap) [].

Lemma mount_spec d0 d part bm : part_ok bd_size part → formatted d0 d part bm →
  ∃ d', mount d [] part = Ok (new_mounted part bm, d', []) ∧ same_sectors d d'.
Proof.
  intros Hp Hf. pose proof (part_bounds _ _ Hp) as (Hbc & Hbs & Hsum & Hbits). pose proof Hp as [Hst Hcnt Hend Hsz].
  destruct (fm_super _ _ _ _ Hf) as [pad Hsup]. unfold mount. cbn [malloc_fails orb]. rewrite u32_small by lia.
  destruct (bd_read_ok d (start_lba part + 1) 1 (fm_ok _ _ _ _ Hf)) as (d1 & -> & Hok1 & Hs1); [lia..|]. ocbn.
  change (Z.to_nat 1) with 1%nat. rewrite sectors_one, Hsup, super_block_roundtrip by (by eapply super_words_ok).
  unfold mount_bitmap. cbn [malloc_fails]. unfold SECTOR_SIZE.
  cbn [block_bitmap_lba block_bitmap_sects inode_bitmap_lba inode_bitmap_sects new_super_block].
  rewrite (u32_small (bitmap_sects (sec_cnt part) * 512)) by lia. rewrite (proj2 (Z.eqb_neq (bitmap_sects (sec_cnt part) * 512) 0)) by lia. ocbn.
  destruct (bd_read_ok d1 (start_lba part + 2) (bitmap_sects (sec_cnt part)) Hok1) as (d2 & -> & Hok2 & Hs2); [lia..|]. ocbn.
  change (u32 (1 * 512) =? 0) with false. change (u32 (1 * 512)) with 512. cbv iota.
  destruct (bd_read_ok d2 (start_lba part + 2 + bitmap_sects (sec_cnt part)) 1 Hok2) as (d3 & -> & Hok3 & Hs3); [lia..|]. ocbn.
  change (Z.to_nat 1) with 1%nat. rewrite sectors_one, Hs2, Hs1, (fm_inodes _ _ _ _ Hf).
  rewrite (sectors_ext (bd_sector d)) by (intros; apply Hs1). rewrite (fm_blocks _ _ _ _ Hf).
  exists d3. split; [reflexivity|]. split; [done|]. intros l. by rewrite Hs3, Hs2, Hs1.
Qed.

Lemma new_layout part bm : part_ok bd_size part → new_bitmap (sec_cnt part) bm → layout_ok (new_mounted part bm).
Proof.
  intros Hp (Hl & Hb & _). pose proof (part_bounds _ _ Hp) as (Hbc & Hbs & Hsum & Hbits). destruct Hp.
  constructor; unfold nbits; cbn [sb block_bitmap inode_bitmap m_start_lba m_sec_cnt bits btmp_bytes_len new_mounted
    block_bitmap_lba block_bitmap_sects inode_bitmap_lba inode_table_lba data_start_lba new_super_block]; try lia; try done.
  - constructor; unfold nbits; cbn [bits btmp_bytes_len]; [exact Hb|lia|lia].
  - constructor; unfold nbits; cbn [bits btmp_bytes_len]; [exact new_inode_bitmap_ok|cbn; lia|lia].
Qed.

Lemma new_root_inode d0 d part bm : part_ok bd_size part → formatted d0 d part bm →
  stored_inode (new_mounted part bm) d 0 = root_inode (new_super_block (start_lba part) (sec_cnt part)).
Proof.
  intros Hp Hf. set (b := new_super_block _ _). rewrite <- (inode_roundtrip (root_inode b)) by (by eapply root_inode_ok).
  apply inode_from_ext. intros j Hj. unfold table_byte. cbn [sb new_mounted]. fold b.
  pose proof (byte_at_sectors (bd_sector d) (start_lba part + 3 + bitmap_sects (sec_cnt part)) 608 j) as Hbyte.
  rewrite (fm_table _ _ _ _ Hf) in Hbyte. rewrite !Z.add_0_l. change (inode_table_lba b) with (start_lba part + 3 + bitmap_sects (sec_cnt part)).
  change (0 * 76 + j) with j. rewrite <- Hbyte by (try apply bd_sector_len; lia). unfold new_table. fold b.
  apply byte_at_app_l. rewrite inode_bytes_length by done. lia.
Qed.

Lemma formatted_same d0 d d' part bm : formatted d0 d part bm → same_sectors d d' → formatted d0 d' part bm.
Proof.
  intros [H1 H2 H3 H4 H5 H6 H7] [Hok Hs]. constructor; rewrite ?Hs; try done.
  - by rewrite (sectors_ext (bd_sector d)).
  - by rewrite (sectors_ext (bd_sector d)).
  - intros l Hl. by rewrite Hs, H7.
Qed.

(** ** The root directory *)

Lemma cache_ok_ext (s s' : fs D) : cache_ok s → open_inodes (cur_part s') = open_inodes (cur_part s) →
  inodes s' = inodes s → live s' = live s → cache_ok s'.
Proof. intros [H1 H2 H3 H4 H5] Ho Hi Hl. constructor; rewrite ?Ho, ?Hi, ?Hl; done. Qed.

Lemma new_sector_entries : sector_entries (first_sector 0 0) = [dot_entry 0; dotdot_entry 0] ++ replicate 19 blank.
Proof. vm_compute. reflexivity. Qed.

Lemma new_entries_dirs : Forall (λ e, e = blank ∨ f_type e = FT_DIRECTORY ∧ de_i_no e = 0 ∨ f_type e = FT_REGULAR ∧ 0 ≤ de_i_no e < 4096)
  ([dot_entry 0; dotdot_entry 0] ++ replicate 19 blank).
Proof. apply (bool_decide_unpack _). vm_compute. exact I. Qed.

(** The state with the root directory of a new file system open: [p] is the address
    of its inode. *)
Definition opened_root (part : partition) (bm : list Z) (ft : list file) (fdt : list Z) (p : Z) (d : D) : fs D :=
  Fs (Mounted (start_lba part) (sec_cnt part) (new_super_block (start_lba part) (sec_cnt part))
       (Bitmap (bitmap_sects (sec_cnt part) * 512) bm) (Bitmap 512 new_inode_bitmap) [p])
    {[p := set_open_cnts (root_inode (new_super_block (start_lba part) (sec_cnt part))) 1]}
    {[root_dir := Dir p 0 (replicate 512 0)]} ft fdt 0 {[p]} [] d.

Section root.
Context (part : partition) (bm fdt : list Z) (d0 d : D).
Context (Hp : part_ok bd_size part) (Hf : formatted d0 d part bm) (Hnew : new_bitmap (sec_cnt part) bm).
Notation b := (new_super_block (start_lba part) (sec_cnt part)).
Notation root := (set_open_cnts (root_inode b) 1).

Lemma open_root_dir_spec :
  ∃ p d', open_root_dir (Fs (new_mounted part bm) ∅ ∅ [] fdt 0 ∅ [] d) = Ok (opened_root part bm [] fdt p d') ∧
    cache_ok (opened_root part bm [] fdt p d') ∧ same_sectors d d'.
Proof.
  set (s0 := Fs (new_mounted part bm) ∅ ∅ [] fdt 0 ∅ [] d). pose proof (new_root_inode _ _ _ _ Hp Hf) as Hroot.
  assert (cache_ok s0) as Hc0.
  { constructor; cbn; [constructor| | | |]; try (intros p; set_solver).
    - intros p. split; [by intros ?%not_elem_of_nil|]. by intros [? ?].
    - intros p [? ?]. done. }
  destruct (inode_open_spec s0 0 Hc0 (new_layout _ _ Hp Hnew) (fm_ok _ _ _ _ Hf)) as (p & i & d1 & Ho & Hd1 & Hopen & Hp0); [lia|done|].
  assert (i = root) as Hi.
  { destruct Ho as [(j & Hin & _)|(_ & _ & _ & ->)]; [by apply not_elem_of_nil in Hin|]. cbn [cur_part disk s0]. by rewrite Hroot. }
  assert (i_no (stored_inode (cur_part s0) (disk s0) 0) = 0) as Hno by (cbn [cur_part disk s0]; by rewrite Hroot).
  pose proof (opened_cache s0 0 p i d1 Hc0 Ho Hno ltac:(by intros q j Hq) Hp0) as Hc1.
  cbv zeta in Hopen, Hc1. rewrite bool_decide_eq_false_2 in Hopen, Hc1 by apply not_elem_of_nil.
  exists p, d1. unfold open_root_dir. change (root_inode_no (sb (cur_part s0))) with 0. rewrite Hopen. ocbn. subst i.
  assert ({[p]} ∪ ∅ = ({[p]} : gset Z)) as Hlive by (clear; set_solver). split_and!; [|apply (cache_ok_ext _ _ Hc1); try done|done].
  - f_equal. unfold opened_root, put_dir. cbn. by rewrite Hlive.
Qed.

Context (ft : list file) (p : Z) (d1 : D) (Hd1 : same_sectors d d1).
Notation s1 := (opened_root part bm ft fdt p d1).

Lemma data_start_bounds : 0 < data_start_lba b < bd_size.
Proof.
  pose proof (part_bounds _ _ Hp). destruct Hp.
  change (data_start_lba b) with (start_lba part + 611 + bitmap_sects (sec_cnt part)). lia.
Qed.

Lemma new_root_entries : dir_entries d1 root = [dot_entry 0; dotdot_entry 0] ++ replicate 19 blank.
Proof.
  pose proof data_start_bounds. rewrite direct_entries by done. unfold direct.
  change (take 12 (i_sectors root)) with (data_start_lba b :: replicate 11 0).
  rewrite entries_cons, entries_zero, app_nil_r, (proj2 (Z.eqb_neq _ 0)), (proj2 Hd1) by lia.
  rewrite (fm_root _ _ _ _ Hf : bd_sector d (data_start_lba b) = first_sector 0 0). apply new_sector_entries.
Qed.

Lemma new_root_dir : dir_ok s1 p root.
Proof.
  pose proof data_start_bounds. destruct Hnew as (_ & _ & Hbit). pose proof (part_bounds _ _ Hp).
  constructor.
  - apply lookup_singleton_eq.
  - destruct (root_inode_ok _ _ Hp). by constructor.
  - done.
  - unfold direct. change (take 12 (i_sectors root)) with (data_start_lba b :: replicate 11 0).
    apply Forall_cons. split; [right|apply (Forall_replicate _ 11); by left].
    unfold is_block, block_used, block_no. change (data_start_lba (sb (cur_part s1))) with (data_start_lba b). rewrite Z.sub_diag.
    split; [cbn [block_bitmap cur_part]; unfold nbits; cbn; lia|].
    change (bitv bm 0 = true). rewrite Hbit by lia. apply bool_decide_eq_true_2. by left.
  - unfold direct. change (take 12 (i_sectors root)) with (data_start_lba b :: replicate 11 0).
    assert (∀ (j : nat) l, (data_start_lba b :: replicate 11 0) !! j = Some l → l ≠ 0 → j = 0%nat) as Hj.
    { intros [|j] l Hl Hz; [done|]. apply (lookup_replicate_1 11) in Hl as [? _]. done. }
    intros j k l ?? Hz. by rewrite (Hj j l), (Hj k l).
  - change (disk s1) with d1. rewrite new_root_entries. apply (bool_decide_unpack _). vm_compute. exact I.
  - done.
Qed.

Lemma new_root_view : view s1 0 = root.
Proof.
  unfold view. change (open_inodes (cur_part s1)) with [p]. cbn [inodes opened_root find_open]. rewrite lookup_singleton_eq. ocbn.
  change (i_no root =? 0) with true. cbv iota. by rewrite lookup_singleton_eq.
Qed.

(** The whole tree is one directory, of inode 0. *)
Lemma new_tree : cache_ok s1 → tree s1 (λ n, n = 0).
Proof.
  intros Hc. pose proof (new_layout _ _ Hp Hnew) as Hlo.
  assert (layout_ok (cur_part s1)) as Hlo1 by (destruct Hlo; by constructor).
  constructor; [constructor|..]; try done.
  - apply Hd1.
  - intros q j Hq. unfold opened_root in Hq. cbn [inodes] in Hq. apply lookup_singleton_Some in Hq as [_ <-]. cbn. lia.
  - intros q [dd Hq]. unfold opened_root in Hq. cbn [dirs] in Hq. apply lookup_singleton_Some in Hq as [<- _]. by left.
  - exists (Dir p 0 (replicate 512 0)), root. split; [apply lookup_singleton_eq|]. split; [apply lookup_singleton_eq|done].
  - intros n ->. unfold dir_list. rewrite new_root_view. split; [lia|]. split; [|split].
    + trans (i_no (stored_inode (new_mounted part bm) d 0)); [|by rewrite (new_root_inode _ _ _ _ Hp Hf)].
      f_equal. apply inode_from_ext. intros j _. unfold table_byte. change (disk s1) with d1. by rewrite (proj2 Hd1).
    + exact (dir_ok_readable s1 p root Hlo1 new_root_dir).
    + change (disk s1) with d1. rewrite new_root_entries. exact new_entries_dirs.
Qed.
End root.
(** A file system that was just made holds only the root directory: the two entries
    of which name itself. *)
Definition fresh_root (s : fs D) : Prop :=
  tree s (λ n, n = 0) ∧ dir_list s 0 = [dot_entry 0; dotdot_entry 0] ++ replicate 19 blank.

Lemma fresh_opened d0 d part bm fdt : part_ok bd_size part → formatted d0 d part bm → new_bitmap (sec_cnt part) bm →
  ∃ p d', open_root_dir (Fs (new_mounted part bm) ∅ ∅ [] fdt 0 ∅ [] d) = Ok (opened_root part bm [] fdt p d') ∧
    (∀ ft, fresh_root (opened_root part bm ft fdt p d')) ∧ same_sectors d d'.
Proof.
  intros Hp Hf Hn. destruct (open_root_dir_spec part bm fdt d0 d Hp Hf Hn) as (p & d' & Ho & Hc & Hd).
  exists p, d'. split; [done|]. split; [|done]. intros ft. split.
  - eapply new_tree; try done. by apply (cache_ok_ext _ _ Hc).
  - unfold dir_list. rewrite new_root_view. by eapply new_root_entries.
Qed.

(** C14. Round trip of making and mounting a file system: on a partition that lies on
    the disk, [partition_format] succeeds and changes no sector outside of it;
    mounting the partition then gives the block bitmap, the inode bitmap and the super
    block that were written, in a layout on which the operations on files and
    directories rely, and opening the root directory a tree whose only directory is the
    root with the entries [.] and [..]. Of the blocks only that of the root directory
    is in use, up to the number of blocks. *)
Theorem format_then_mount d part pad fdt :
  bd_ok d → part_ok bd_size part → length pad = 460%nat → Forall is_byte pad →
  ∃ d1 d2 m s, partition_format d [] part pad = Ok (d1, []) ∧ mount d1 [] part = Ok (m, d2, []) ∧
    open_root_dir (Fs m ∅ ∅ [] fdt 0 ∅ [] d2) = Ok s ∧
    (∀ l, l < start_lba part ∨ start_lba part + sec_cnt part ≤ l → bd_sector (disk s) l = bd_sector d l) ∧
    layout_ok m ∧ sb m = new_super_block (start_lba part) (sec_cnt part) ∧
    (∀ k, 0 ≤ k < nbits (block_bitmap m) → bit (block_bitmap m) k = bool_decide (k = 0 ∨ block_cnt (sec_cnt part) < k)) ∧
    bits (inode_bitmap m) = new_inode_bitmap ∧ fresh_root s.
Proof.
  intros Hok Hp Hpad Hpb. destruct (partition_format_spec d part pad Hok Hp Hpad Hpb) as (d1 & bm & Hfmt & Hf & Hn).
  destruct (mount_spec d d1 part bm Hp Hf) as (d2 & Hm & Hs2).
  assert (formatted d d2 part bm) as Hf2 by (by eapply formatted_same).
  destruct (fresh_opened d d2 part bm fdt Hp Hf2 Hn) as (p & d3 & Ho & Hfr & Hds).
  exists d1, d2, (new_mounted part bm), (opened_root part bm [] fdt p d3). split_and!; try done.
  - intros l Hl. pose proof (part_bounds _ _ Hp). change (disk _) with d3. rewrite (proj2 Hds). apply (fm_rest _ _ _ _ Hf2). lia.
  - by apply new_layout.
  - intros k Hk. destruct Hn as (_ & _ & Hbit). apply Hbit. unfold nbits in Hk. cbn in Hk. lia.
Qed.

(** C32. [partition_format] clears one bit too many: the loop over the last byte of the
    bitmap runs up to [block_bitmap_last_bit] itself. Unless the number of blocks is
    a multiple of 4096, the block with the number [block_cnt] is marked free although
    there is none: when the bitmap needs as many sectors as were subtracted, its
    sector is the first one behind the partition. *)
Theorem format_frees_outside d part pad :
  bd_ok d → part_ok bd_size part → length pad = 460%nat → Forall is_byte pad →
  block_cnt (sec_cnt part) mod 4096 ≠ 0 → bitmap_sects (sec_cnt part) = (sec_cnt part - 611 + 4095) / 4096 →
  ∃ d1 d2 m, partition_format d [] part pad = Ok (d1, []) ∧ mount d1 [] part = Ok (m, d2, []) ∧
    bit (block_bitmap m) (block_cnt (sec_cnt part)) = false ∧
    data_start_lba (sb m) + block_cnt (sec_cnt part) = start_lba part + sec_cnt part.
Proof.
  intros Hok Hp Hpad Hpb Hmod Hbs. destruct (partition_format_spec d part pad Hok Hp Hpad Hpb) as (d1 & bm & Hfmt & Hf & Hn).
  destruct (mount_spec d d1 part bm Hp Hf) as (d2 & Hm & _). pose proof (part_bounds _ _ Hp) as (Hb8 & _ & _ & Hle).
  exists d1, d2, (new_mounted part bm). split_and!; try done.
  - destruct Hn as (_ & _ & Hbit).
    assert (block_cnt (sec_cnt part) ≠ bitmap_sects (sec_cnt part) * 4096) by (intros E; rewrite E, Z.mod_mul in Hmod; lia).
    trans (bool_decide (block_cnt (sec_cnt part) = 0 ∨ block_cnt (sec_cnt part) < block_cnt (sec_cnt part))); [apply Hbit; lia|].
    apply bool_decide_eq_false_2. lia.
  - cbn [sb new_mounted data_start_lba new_super_block]. rewrite Hbs. unfold block_cnt. lia.
Qed.

(** ** The start of the system *)

(** The disk has one partition, "sdb1". *)
Record one_partition (hd : scan D) (part : partition) : Prop := {
  op_prim : prim_parts hd = part :: replicate 3 (Partition 0 0 []);
  op_logic : logic_parts hd = replicate 8 (Partition 0 0 []);
  op_list : partition_list hd = [prim 0];
  op_name : pname part = default_part;
  op_ok : part_ok bd_size part;
  op_dev : bd_ok (sdev hd)
}.

(** [init_disk] formats the partition unless it has a file system. *)
Definition init_part (d : D) (part : partition) (pad : list Z) : outcome (D * list bool) :=
  '(bs, d) ← bd_read d (u32 (start_lba part + 1)) 1;
  if le32_at bs 0 =? fs_magic then Ok (d, []) else partition_format d [] part pad.

Lemma init_disk_one hd part pad d : one_partition hd part → init_part (sdev hd) part pad = Ok (d, []) →
  init_disk hd [] 0 pad = Ok (set_sdev hd d, [], 12).
Proof.
  intros Hone Hpart. unfold init_disk. set (body := λ _ : scan D * list bool * Z * part_ref, _).
  assert (body (hd, [], 0, prim 0) = Ok (inl (set_sdev hd d, [], 1, prim 1))) as H0.
  { unfold body. change (0 <? 12) with true. change (0 =? 4) with false. cbv iota. unfold get_part. rewrite (op_prim _ _ Hone). cbn [lookup list_lookup from_option_fault]. ocbn.
    assert (sec_cnt part ≠ 0) as Hz%Z.eqb_neq by (destruct (op_ok _ _ Hone); lia). unfold truth. rewrite Hz. cbn [negb].
    fold (init_part (sdev hd) part pad). rewrite Hpart. reflexivity. }
  assert (∀ i r, 0 < i < 12 → get_part (set_sdev hd d) (if i =? 4 then logic 0 else r) = Some (Partition 0 0 []) →
    body (set_sdev hd d, [], i, r) = Ok (inl (set_sdev hd d, [], i + 1, next_part (if i =? 4 then logic 0 else r)))) as Hskip.
  { intros i r Hi Hg. unfold body. rewrite (proj2 (Z.ltb_lt _ _)) by lia. rewrite Hg. ocbn. cbn. by destruct hd. }
  assert (∀ r, body (set_sdev hd d, [], 12, r) = Ok (inr (set_sdev hd d, [], 12))) as Hend by done.
  clearbody body. erewrite loop_step by exact H0.
  repeat (erewrite loop_step by (apply Hskip; [lia|unfold get_part; cbn [set_sdev prim_parts logic_parts];
    rewrite ?(op_prim _ _ Hone), ?(op_logic _ _ Hone); reflexivity]); cbn [Z.add Pos.add Pos.succ Z.eqb Pos.eqb next_part]).
  by erewrite loop_exit by apply Hend.
Qed.

Lemma filesys_init_opened hd part pad fdt d0 d1 bm : one_partition hd part → init_part (sdev hd) part pad = Ok (d1, []) →
  formatted d0 d1 part bm → new_bitmap (sec_cnt part) bm →
  ∃ p d, let s := opened_root part bm (replicate 32 (File 0 0 NULL)) fdt p d in
    filesys_init [hd] [] pad fdt = Ok s ∧ fresh_root s ∧ same_sectors d1 d.
Proof.
  intros Hone Hi Hf Hn. pose proof (op_ok _ _ Hone) as Hp. destruct (mount_spec d0 d1 part bm Hp Hf) as (d2 & Hm & Hs2).
  assert (formatted d0 d2 part bm) as Hf2 by (by eapply formatted_same).
  destruct (fresh_opened d0 d2 part bm fdt Hp Hf2 Hn) as (p & d & Ho & Hfr & Hds).
  exists p, d. split; [|split; [apply Hfr|by eapply same_sectors_trans]].
  unfold filesys_init. cbn [malloc_fails]. cbv iota. cbn [init_disks]. rewrite (init_disk_one hd part pad d1 Hone Hi). ocbn.
  unfold all_parts. cbn [imap set_sdev partition_list]. rewrite (op_list _ _ Hone). cbn [fmap list_fmap concat app mount_partition].
  change ([set_sdev hd d1] !! 0%nat) with (Some (set_sdev hd d1)). ocbn. cbn [get_part set_sdev prim_parts].
  rewrite (op_prim _ _ Hone). cbn [lookup list_lookup from_option_fault]. ocbn. rewrite bool_decide_eq_true_2 by apply (op_name _ _ Hone).
  change (sdev (set_sdev hd d1)) with d1. rewrite Hm. ocbn. cbn [from_option_fault]. ocbn. by rewrite Ho.
Qed.

Lemma filesys_init_one hd part pad fdt d0 d1 bm : one_partition hd part → init_part (sdev hd) part pad = Ok (d1, []) →
  formatted d0 d1 part bm → new_bitmap (sec_cnt part) bm →
  ∃ s, filesys_init [hd] [] pad fdt = Ok s ∧ fresh_root s ∧ same_sectors d1 (disk s).
Proof.
  intros Hone Hi Hf Hn. destruct (filesys_init_opened hd part pad fdt d0 d1 bm Hone Hi Hf Hn) as (p & d & Hs & Hfr & Hd).
  by eexists.
Qed.

Lemma init_part_kept d0 d part bm pad : part_ok bd_size part → formatted d0 d part bm →
  ∃ d', init_part d part pad = Ok (d', []) ∧ same_sectors d d'.
Proof.
  intros Hp Hf. destruct Hp as [Hst Hcnt Hend Hsz] eqn:E. clear E. unfold init_part. rewrite u32_small by lia.
  destruct (bd_read_ok d (start_lba part + 1) 1 (fm_ok _ _ _ _ Hf)) as (d1 & -> & Hok1 & Hs1); [lia..|]. ocbn.
  change (Z.to_nat 1) with 1%nat. destruct (fm_super _ _ _ _ Hf) as [pd ->%(eq_trans (sectors_one _ _))].
  rewrite (le32_at_words _ 0 fs_magic) by (done || by eapply super_words_ok). rewrite Z.eqb_refl. by exists d1.
Qed.

Lemma init_part_new d part pad : bd_ok d → part_ok bd_size part → length pad = 460%nat → Forall is_byte pad →
  le32_at (bd_sector d (start_lba part + 1)) 0 ≠ fs_magic →
  ∃ d0 d1 bm, same_sectors d d0 ∧ init_part d part pad = Ok (d1, []) ∧ formatted d0 d1 part bm ∧ new_bitmap (sec_cnt part) bm.
Proof.
  intros Hok Hp Hpad Hpb Hmag. pose proof Hp as [Hst Hcnt Hend Hsz]. unfold init_part. rewrite u32_small by lia.
  destruct (bd_read_ok d (start_lba part + 1) 1 Hok) as (d0 & -> & Hok0 & Hs0); [lia..|]. ocbn.
  change (Z.to_nat 1) with 1%nat. rewrite sectors_one, (proj2 (Z.eqb_neq _ _)) by done.
  destruct (partition_format_spec d0 part pad Hok0 Hp Hpad Hpb) as (d1 & bm & -> & Hf & Hn). by exists d0, d1, bm.
Qed.

End format.

(** ** Examples *)
Module MountExample.
Import RamDisk.

Definition sdb1 : partition := Partition 2048 5000 default_part.
Definition sdb : scan ramdisk :=
  Scan [115; 100; 98] (sdb1 :: replicate 3 (Partition 0 0 [])) (replicate 8 (Partition 0 0 [])) 0 1 0 [prim 0] 0 (λ _, []).

Lemma sdb1_ok : part_ok (bd_size (D := ramdisk)) sdb1.
Proof. constructor; cbn; lia. Qed.

Lemma pad_ok : length (replicate 460 0) = 460%nat ∧ Forall is_byte (replicate 460 0).
Proof. split; [done|]. by apply Forall_replicate. Qed.

Lemma format_then_mount_witness :
  ∃ d1 d2 m s, partition_format (D := ramdisk) (λ _, []) [] sdb1 (replicate 460 0) = Ok (d1, []) ∧
    mount d1 [] sdb1 = Ok (m, d2, []) ∧ open_root_dir (Fs m ∅ ∅ [] [] 0 ∅ [] d2) = Ok s ∧ fresh_root s.
Proof.
  destruct (format_then_mount (D := ramdisk) (λ _, []) sdb1 (replicate 460 0) []) as (d1 & d2 & m & s & H1 & H2 & H3 & H4);
    [done|exact sdb1_ok|apply pad_ok..|].
  exists d1, d2, m, s. split; [exact H1|]. split; [exact H2|]. split; [exact H3|apply H4].
Defined.

Lemma format_frees_outside_witness :
  ∃ d1 d2 m, partition_format (D := ramdisk) (λ _, []) [] sdb1 (replicate 460 0) = Ok (d1, []) ∧
    mount d1 [] sdb1 = Ok (m, d2, []) ∧ bit (block_bitmap m) 4387 = false ∧ data_start_lba (sb m) + 4387 = 7048.
Proof.
  exact (format_frees_outside (D := ramdisk) (λ _, []) sdb1 (replicate 460 0) I sdb1_ok (proj1 pad_ok) (proj2 pad_ok)
    ltac:(vm_compute; discriminate) ltac:(vm_compute; reflexivity)).
Defined.

End MountExample.
