(* ===== verification/FsCallsSpec.v ===== *)
(** * fs/fs.c: theorems on the system calls

    [sys_lseek] on every branch and at every width, [sys_chdir] and [sys_stat]
    against the walk [resolve] of a path. *)

From stdpp Require Import base numbers list gmap.
From Stdlib Require Import ZArith Lia.
From S2P Require Import Prelude Bitmap Block FsState FsAlloc Inode FsFile Dir DirSpec FsPath FsSearch FsCalls.

Section calls_spec.
Context {D : Type} `{BlockDevice D}.
Implicit Types (s x : fs D).

(** ** [sys_lseek] *)

(** Descriptor [fd] of the running thread stands for file [f], entry [k] of the
    file table, with inode [i]. *)
Record descriptor s (fd k : Z) (f : file) (i : inode) : Prop := {
  fd_local : 0 ≤ fd ∧ fd_table s !! Z.to_nat fd = Some k;
  fd_global : 0 ≤ k < MAX_FILE_OPEN ∧ file_table s !! Z.to_nat k = Some f;
  fd_node : inodes s !! fd_inode f = Some i
}.

Lemma descriptor_ok s fd k f i : descriptor s fd k f i →
  fd_local2global s fd = Ok k ∧ get_file s k = Ok f ∧ get_inode s (fd_inode f) = Ok i.
Proof.
  intros [[Hfd Hl] [Hk Hf] Hi]. unfold fd_local2global, get_file, get_inode.
  rewrite (proj2 (Z.leb_le 0 fd)), Hl by done. cbn [from_option_fault]. ocbn.
  rewrite (proj2 (Z.leb_le 0 k)), (proj2 (Z.ltb_lt k _)) by lia. ocbn. by rewrite Hf, Hi.
Qed.

(** Where the caller asks to go. *)
Definition seek_target (f : file) (i : inode) (offset whence : Z) : Z :=
  (if whence =? SEEK_SET then 0 else if whence =? SEEK_CUR then fd_pos f else i_size i) + offset.

Lemma sys_lseek_spec s fd k f i offset whence : descriptor s fd k f i → 0 < whence < 4 →
  0 ≤ i_size i < 2 ^ 31 → 0 ≤ fd_pos f < 2 ^ 31 → - 2 ^ 31 ≤ offset < 2 ^ 31 →
  let target := seek_target f i offset whence in
  sys_lseek s fd offset whence =
    if bool_decide (0 ≤ target < i_size i) then Ok (target, put_file s k (File target (fd_flag f) (fd_inode f)))
    else Ok (-1, s).
Proof.
  intros Hd Hw Hsz Hpos Hoff target. destruct (descriptor_ok _ _ _ _ _ Hd) as (Hg & Hf & Hi). destruct Hd as [[Hfd _] _ _].
  unfold sys_lseek. rewrite (proj2 (Z.ltb_ge fd 0)) by done.
  rewrite (proj2 (Z.ltb_lt 0 whence)), (proj2 (Z.ltb_lt whence 4)) by lia. ocbn. rewrite Hg. ocbn. rewrite Hf. ocbn. rewrite Hi. ocbn.
  rewrite (s32_small (i_size i)), (s32_small (fd_pos f)), (s32_small (i_size i - 1)) by lia.
  set (pos := if whence =? SEEK_SET then offset else _).
  assert (pos = s32 target ∧ - 2 ^ 31 ≤ target < 2 ^ 32) as [-> Ht].
  { unfold pos, target, seek_target. destruct (whence =? SEEK_SET); [rewrite Z.add_0_l, s32_small by lia; lia|].
    destruct (whence =? SEEK_CUR); split; done || lia. }
  clearbody target. assert (s32 target = target ∧ target < 2 ^ 31 ∨ s32 target = target - 2 ^ 32 ∧ 2 ^ 31 ≤ target) as Hs.
  { destruct (decide (target < 2 ^ 31)); [left; rewrite s32_small by lia; lia|right].
    unfold s32. rewrite u32_small, (proj2 (Z.ltb_ge target _)) by lia. lia. }
  case_bool_decide as Hin.
  - assert (s32 target = target) as -> by lia. rewrite (proj2 (Z.ltb_ge target 0)), (proj2 (Z.ltb_ge (i_size i - 1) target)) by lia. done.
  - destruct (s32 target <? 0) eqn:E; [done|]. apply Z.ltb_ge in E. rewrite (proj2 (Z.ltb_lt (i_size i - 1) _)) by lia. done.
Qed.

(** C29. [sys_lseek] moves to the position asked for, computed without overflow, exactly
    when it lies in the file, and otherwise returns -1 and changes nothing: a sum
    that leaves the range of [int32_t] wraps to a negative number, so no
    overflow is ever taken for a position. *)
Theorem sys_lseek_correct s fd k f i offset whence : descriptor s fd k f i → 0 < whence < 4 →
  0 ≤ i_size i < 2 ^ 31 → 0 ≤ fd_pos f < 2 ^ 31 → - 2 ^ 31 ≤ offset < 2 ^ 31 →
  let target := seek_target f i offset whence in
  sys_lseek s fd offset whence =
    if bool_decide (0 ≤ target < i_size i) then Ok (target, put_file s k (File target (fd_flag f) (fd_inode f)))
    else Ok (-1, s).
Proof. apply sys_lseek_spec. Qed.

(** ** [sys_chdir] *)

(** Closing a directory does not look at the working directory. *)
Lemma dir_close_cwd s q n : dir_close (set_cwd s n) q = (s ← dir_close s q; Ok (set_cwd s n)).
Proof.
  unfold dir_close, get_dir, inode_close, get_inode, sys_free. destruct (q =? root_dir); [done|]. cbn [set_cwd dirs].
  destruct (dirs s !! q) as [d|]; [|done]. cbn [from_option_fault]. ocbn. cbn [set_cwd inodes].
  destruct (inodes s !! d_inode d) as [i|]; [|done]. cbn [from_option_fault]. ocbn. cbn [i_open_cnts set_open_cnts].
  destruct (u32 (i_open_cnts i - 1) =? 0), (d_inode d =? NULL), (q =? NULL); reflexivity.
Qed.

Lemma close_at s x q m : at_dir s x q m → ∃ d, dir_close x q = Ok (set_disk s d) ∧ same_sectors (disk s) d.
Proof.
  intros Hat. destruct (ad_close _ _ _ _ Hat (disk x)) as (d & Hcl & Hd); [by apply same_sectors_refl, (ad_disk _ _ _ _ Hat)|].
  exists d. split; [|done]. by destruct x.
Qed.

(** A walk over names ends at an inode number of the partition. *)
Lemma resolve_range s P names : tree s P → ∀ m parent done, P m → Forall name_ok names →
  match resolve (dir_list s) m parent done names with
  | Missing _ _ => True
  | IsFile n _ _ | IsDir n _ _ => 0 ≤ n < 4096
  end.
Proof.
  intros Ht. induction names as [|name names IH]; intros m parent dn HP Hok; cbn [resolve].
  { apply (tr_dir _ _ Ht m HP). }
  apply Forall_cons in Hok as [Hn Hok]. destruct (lookup_name name (dir_list s m)) as [e|] eqn:El; [|done].
  destruct (lookup_kind s P Ht m name e HP Hn El) as [[Hft HPe]|[Hft Hr]]; rewrite Hft.
  - change (FT_DIRECTORY =? FT_DIRECTORY) with true. cbv iota. by apply IH.
  - change (FT_REGULAR =? FT_DIRECTORY) with false. done.
Qed.

(** The number of the directory that a walk ends in. *)
Definition found_dir (r : resolved) : option Z := match r with IsDir n _ _ => Some n | _ => None end.

(** [sys_chdir] makes the directory that the path leads to the working directory of
    the thread and returns 0; when there is none, it returns -1 and the working
    directory stays. Nothing else changes: what the search opened is closed
    again and no sector is written. *)
Theorem sys_chdir_correct s P path : tree s P → path_ok path →
  ∃ d, same_sectors (disk s) d ∧
    sys_chdir s path =
      match found_dir (resolve (dir_list s) 0 0 [] (components path)) with
      | Some n => Ok (0, set_cwd (set_disk s d) n)
      | None => Ok (-1, set_disk s d)
      end.
Proof.
  intros Ht Hp. destruct (search_file_spec s P path Ht Hp) as ([[ino r] x] & Hs & Ha). unfold sys_chdir, close_and_return.
  pose proof (resolve_range s P _ Ht 0 0 [] (tr_zero _ _ Ht) (proj2 (po_names _ Hp))) as Hrange.
  rewrite Hs. ocbn. destruct (resolve (dir_list s) 0 0 [] (components path)) as [dir sp|n dir sp|n dir sp]; cbn in Ha, Hrange |- *;
    destruct Ha as (-> & Hft & _ & Hat); destruct (close_at _ _ _ _ Hat) as (d & Hcl & Hd); exists d; (split; [done|]); rewrite Hft.
  - change (-1 =? -1) with true. cbn [negb andb]. by rewrite Hcl.
  - change (FT_REGULAR =? FT_DIRECTORY) with false. rewrite andb_false_r. by rewrite Hcl.
  - rewrite (proj2 (Z.eqb_neq n (-1))) by lia. change (FT_DIRECTORY =? FT_DIRECTORY) with true. cbn [negb andb].
    rewrite dir_close_cwd, Hcl, u32_small by lia. done.
Qed.

(** ** [sys_stat] *)

(** Looking at an inode while a directory is open leaves that directory as it was. *)
Lemma stat_inode s x q m n : at_dir s x q m → 0 ≤ n < 4096 →
  ∃ p y i d, inode_open x n = Ok (p, y) ∧ get_inode y p = Ok i ∧ inode_close y p = Ok (set_disk x d) ∧
    i_size i = i_size (view s n) ∧ at_dir s (set_disk x d) q m.
Proof.
  intros Hat Hn. destruct (ad_cache _ _ _ _ Hat) as (Hc & Hlo & Hmax).
  destruct (inode_open_spec x n Hc Hlo (proj1 (ad_disk _ _ _ _ Hat)) Hn (ad_nulls _ _ _ _ Hat)) as (p & i & d & Ho & Hd & -> & Hp0).
  change (let s' := _ in _) with (after_open x p i d). exists p, (after_open x p i d), i, d. split; [done|].
  split; [apply get_inode_ok; unfold after_open; case_bool_decide; cbn; apply lookup_insert_eq|].
  split; [apply (open_close_exact x n); done || apply (ad_nulls _ _ _ _ Hat)|].
  split; [|by apply at_dir_disk]. destruct (opened_view x n p i Hc Ho) as [c ->]. cbn.
  destruct (ad_view _ _ _ _ Hat n) as [c' ->]. done.
Qed.

(** What there is to know about the end of a walk. *)
Definition stat_of s (r : resolved) : Z * option stat :=
  match r with
  | Missing _ _ => (-1, None)
  | IsFile n _ _ => (0, Some (Stat n (i_size (view s n)) FT_REGULAR))
  | IsDir n _ _ => (0, Some (Stat n (i_size (view s n)) FT_DIRECTORY))
  end.

(** [sys_stat] reports the number, the size and the kind of what the path leads to,
    or -1 when there is nothing. Nothing changes: what it opens is closed again and
    no sector is written. *)
Theorem sys_stat_correct s P path : tree s P → path_ok path →
  ∃ d, same_sectors (disk s) d ∧
    sys_stat s path = Ok (stat_of s (resolve (dir_list s) 0 0 [] (components path)), set_disk s d).
Proof.
  intros Ht Hp. destruct (search_file_spec s P path Ht Hp) as ([[ino r] x] & Hs & Ha). unfold sys_stat.
  pose proof (resolve_range s P _ Ht 0 0 [] (tr_zero _ _ Ht) (proj2 (po_names _ Hp))) as Hrange. rewrite (po_root _ Hp), Hs. ocbn.
  destruct (resolve (dir_list s) 0 0 [] (components path)) as [dir sp|n dir sp|n dir sp]; cbn in Ha, Hrange |- *;
    destruct Ha as (-> & Hft & _ & Hat).
  1: { destruct (close_at _ _ _ _ Hat) as (d & Hcl & Hd). exists d. split; [done|]. change (-1 =? -1) with true. cbn [negb]. ocbn. by rewrite Hcl. }
  all: rewrite (proj2 (Z.eqb_neq n (-1))), u32_small by lia; cbn [negb]; cbv iota.
  all: destruct (stat_inode s x (parent_dir r) dir n Hat Hrange) as (p & y & i & d & -> & Hget & Hclose & Hsz & Hat').
  all: destruct (close_at _ _ _ _ Hat') as (d' & Hcl & Hd'); exists d'; (split; [done|]).
  all: ocbn; rewrite Hget; ocbn; rewrite Hclose; ocbn; by rewrite Hcl, Hsz, Hft.
Qed.

(** [sys_stat] on the root directory answers from memory. *)
Lemma sys_stat_root s P path : tree s P → names_root path = true →
  sys_stat s path = Ok (0, Some (Stat 0 (i_size (view s 0)) FT_DIRECTORY), s).
Proof.
  intros Ht Hr. unfold sys_stat. rewrite Hr. destruct (tr_root _ _ Ht) as (dd & i & Hdd & Hi & Hno).
  rewrite (dir_inode_ok s root_dir dd i Hdd Hi). ocbn.
  by rewrite (view_object s 0 (d_inode dd) i) by (done || apply (tb_cache _ (tr_base _ _ Ht))).
Qed.

End calls_spec.

(** ** Examples *)
Module CallsExample.
Import RamDisk FsExample DirExample SearchExample.

(** The file abc of [fs1] as descriptor 3, at position 2 of 5. *)
Definition inode_abc : inode := Inode 5 5 1 0 (replicate 13 0).
Definition fs2 : fs ramdisk := Fs (cur_part fs1) {[8 := inode_abc]} ∅ [File 2 0 8] [0; 1; 2; 0] 0 {[8]} [] (disk fs1).

Lemma descriptor2 : descriptor fs2 3 0 (File 2 0 8) inode_abc.
Proof. constructor; [by split..|by vm_compute]. Qed.

(** Two back from the end, and past the end by an offset that overflows. *)
Lemma sys_lseek_correct_witness :
  sys_lseek fs2 3 (-2) SEEK_END = Ok (3, put_file fs2 0 (File 3 0 8)) ∧ sys_lseek fs2 3 (2 ^ 31 - 1) SEEK_CUR = Ok (-1, fs2).
Proof.
  split.
  - by rewrite (sys_lseek_correct fs2 3 0 (File 2 0 8) inode_abc (-2) SEEK_END descriptor2)
      by (done || unfold SEEK_END, inode_abc; cbn; lia).
  - by rewrite (sys_lseek_correct fs2 3 0 (File 2 0 8) inode_abc (2 ^ 31 - 1) SEEK_CUR descriptor2)
      by (done || unfold SEEK_CUR, inode_abc; cbn; lia).
Defined.

(** "/./.": the root directory. *)
Definition root_path : list Z := [47; 46; 47; 46].

Lemma sys_chdir_correct_witness : ∃ d, sys_chdir fs1 root_path = Ok (0, set_cwd (set_disk fs1 d) 0).
Proof.
  destruct (sys_chdir_correct fs1 (λ n, n = 0) root_path tree1) as (d & _ & Hc); [by apply path_ok_dec|].
  assert (found_dir (resolve (dir_list fs1) 0 0 [] (components root_path)) = Some 0) as Hr by (vm_compute; reflexivity).
  rewrite Hr in Hc. by exists d.
Defined.
Lemma sys_stat_correct_witness : ∃ d, sys_stat fs1 abc_path = Ok (0, Some (Stat 5 0 FT_REGULAR), set_disk fs1 d).
Proof.
  destruct (sys_stat_correct fs1 (λ n, n = 0) abc_path tree1) as (d & _ & Hs); [by apply path_ok_dec|].
  assert (stat_of fs1 (resolve (dir_list fs1) 0 0 [] (components abc_path)) = (0, Some (Stat 5 0 FT_REGULAR))) as Hr by (vm_compute; reflexivity).
  rewrite Hr in Hs. by exists d.
Defined.
End CallsExample.
