(* ===== verification/FsCreate.v ===== *)
(** * fs/file.c: creating a file

    What [file_create] does when every step succeeds: it takes the first free
    inode, fills a slot of the file table, adds the entry to the directory, writes
    the inodes and the inode bitmap to the disk and installs a descriptor. *)

From stdpp Require Import base numbers list gmap.
From Stdlib Require Import ZArith Lia.
From S2P Require Import Prelude Bitmap Block FsState ThreadInit FsAlloc Inode FsFile FsWrite FsRead Dir FsPath DirSpec FsSearch.
From S2P Require Import FsCalls FsCallsSpec.

(** A loop that counts from [a] and ends in round [k]. *)
Lemma loop_first {R : Type} (body : Z → outcome (Z + R)) k r fuel : body k = Ok (inr r) →
  ∀ a, a ≤ k → (∀ j, a ≤ j < k → body j = Ok (inl (j + 1))) → (Z.to_nat (k - a) < fuel)%nat → loop fuel body a = Ok r.
Proof.
  intros Hk. induction fuel as [|fuel IH]; intros a Ha Hj Hf; [lia|].
  destruct (decide (a = k)) as [->|Hne]; [by apply loop_exit|].
  rewrite (loop_step _ _ _ _ (Hj a ltac:(lia))). apply IH; [lia| |lia]. intros j Hr. apply Hj. lia.
Qed.

Section pieces.
Context {D : Type} `{BlockDevice D}.
Implicit Types (s : fs D).

(** ** Slots and descriptors *)

(** [k] is the first free slot of the file table behind the standard streams. *)
Definition free_slot s (k : Z) : Prop :=
  3 ≤ k < MAX_FILE_OPEN ∧ (∃ f, file_table s !! Z.to_nat k = Some f ∧ fd_inode f = NULL) ∧
  ∀ j, 3 ≤ j < k → ∃ f, file_table s !! Z.to_nat j = Some f ∧ fd_inode f ≠ NULL.

(** [fd] is the first free descriptor of the running thread. *)
Definition free_fd s (fd : Z) : Prop :=
  3 ≤ fd < MAX_FILES_OPEN_PER_PROC ∧ fd_table s !! Z.to_nat fd = Some (-1) ∧
  ∀ j, 3 ≤ j < fd → ∃ g, fd_table s !! Z.to_nat j = Some g ∧ g ≠ -1.

Lemma get_free_slot_spec s k : free_slot s k → get_free_slot_in_global s = Ok k.
Proof.
  intros (Hk & (f & Hf & Hnull) & Hbefore). unfold get_free_slot_in_global, MAX_FILE_OPEN in *.
  rewrite (loop_first _ k k).
  - ocbn. by rewrite (proj2 (Z.eqb_neq k 32)) by lia.
  - rewrite (proj2 (Z.ltb_lt k 32)), Hf by lia. ocbn. by rewrite Hnull.
  - lia.
  - intros j Hj. destruct (Hbefore j Hj) as (g & Hg & Hne). rewrite (proj2 (Z.ltb_lt j 32)), Hg by lia. ocbn.
    by rewrite (proj2 (Z.eqb_neq _ _) Hne).
  - lia.
Qed.

Lemma pcb_fd_install_spec s fd k : free_fd s fd →
  pcb_fd_install s k = Ok (fd, set_fd_table s (<[Z.to_nat fd := k]> (fd_table s))).
Proof.
  intros (Hfd & Hf & Hbefore). unfold pcb_fd_install, MAX_FILES_OPEN_PER_PROC in *.
  rewrite (loop_first _ fd (fd, set_fd_table s (<[Z.to_nat fd := k]> (fd_table s)))).
  - ocbn. by rewrite (proj2 (Z.eqb_neq fd 8)) by lia.
  - by rewrite (proj2 (Z.ltb_lt fd 8)), Hf by lia.
  - lia.
  - intros j Hj. destruct (Hbefore j Hj) as (g & Hg & Hne). rewrite (proj2 (Z.ltb_lt j 8)), Hg by lia. ocbn.
    by rewrite (proj2 (Z.eqb_neq _ _) Hne).
  - lia.
Qed.

(** ** The inode bitmap *)

(** Only the inode bitmap of the partition changes. *)
Definition with_inode_bitmap (m : mounted) (b : bitmap) : mounted :=
  Mounted (m_start_lba m) (m_sec_cnt m) (sb m) (block_bitmap m) b (open_inodes m).

Lemma layout_inode_bitmap m b : layout_ok m → wf_bitmap b → btmp_bytes_len b = btmp_bytes_len (inode_bitmap m) →
  length (bits b) = length (bits (inode_bitmap m)) → layout_ok (with_inode_bitmap m b).
Proof. intros [] Hwf Hl Hn. constructor; cbn; congruence || done. Qed.

(** [inode_bitmap_alloc] takes the first free inode. *)
Lemma inode_bitmap_alloc_spec s n : layout_ok (cur_part s) → first_free (inode_bitmap (cur_part s)) n →
  ∃ b, inode_bitmap_alloc s = Ok (n, set_inode_bitmap s b) ∧ bit_set (inode_bitmap (cur_part s)) b n.
Proof.
  intros Hlo Hn. unfold inode_bitmap_alloc. pose proof (lo_iwf _ Hlo) as Hwf. pose proof (wf_len _ Hwf).
  destruct Hn as (Hr & Hf & Hb).
  destruct (bitmap_scan_one (inode_bitmap (cur_part s)) Hwf) as (r & -> & Hr' & Hf' & Hb'); [by exists n|]. ocbn.
  assert (r = n) as ->.
  { destruct (Z.lt_trichotomy r n) as [Hlt|[->|Hlt]]; [|done|].
    - rewrite Hb in Hf' by lia. done.
    - rewrite Hb' in Hf by lia. done. }
  rewrite (proj2 (Z.eqb_neq n (-1))) by lia.
  destruct (bitmap_set_spec (inode_bitmap (cur_part s)) n 1) as (b & -> & Hb1 & Hb2 & Hb3 & Hb4); [done| |by right|].
  { unfold nbits in Hr. lia. }
  ocbn. exists b. split; [done|]. by split_and!.
Qed.

(** [bitmap_sync] writes the only sector of the inode bitmap. *)
Lemma inode_bitmap_sync_spec s n : layout_ok (cur_part s) → bd_ok (disk s) → 0 ≤ n < 4096 →
  ∃ d, bitmap_sync s n INODE_BITMAP = Ok (set_disk s d) ∧ bd_ok d ∧
    ∀ l, bd_sector d l = if bool_decide (l = inode_bitmap_lba (sb (cur_part s))) then bits (inode_bitmap (cur_part s))
                         else bd_sector (disk s) l.
Proof.
  intros Hlo Hok Hn. pose proof (layout_bounds _ Hlo). pose proof (lo_iarr _ Hlo) as Harr. unfold bitmap_sync, bitmap_block.
  rewrite (Z.div_small n 4096) by lia. change (u32 (0 * BLOCK_SIZE)) with 0.
  rewrite Harr. change (0 + 512 <=? Z.of_nat 512) with true. cbv iota. ocbn.
  rewrite Z.add_0_r, u32_small by lia. unfold slice. rewrite drop_0, take_ge by (rewrite Harr; done).
  destruct (ide_write1 s (inode_bitmap_lba (sb (cur_part s))) (bits (inode_bitmap (cur_part s)))) as (d & -> & Hd & Hs);
    [done|lia|done|apply (wf_bytes _ (lo_iwf _ Hlo))|]. by exists d.
Qed.
End pieces.

(** ** The new file *)

Section created.
Context {D : Type} `{BlockDevice D}.
Implicit Types (s x : fs D).

(** A directory depends on its blocks. *)
Lemma dir_ok_frame s s' p i : dir_ok s p i → inodes s' !! p = Some i →
  (∀ l, l ∈ direct i → l ≠ 0 → is_block (cur_part s') l ∧ block_used (cur_part s') l = true ∧
    bd_sector (disk s') l = bd_sector (disk s) l) →
  dir_ok s' p i ∧ dir_entries (disk s') i = dir_entries (disk s) i.
Proof.
  intros [Hi Hok Ht Hb Hd Hbl Hsz] Hi' Hl.
  assert (dir_entries (disk s') i = dir_entries (disk s) i) as He.
  { rewrite !direct_entries by done. apply entries_same. intros l Hin Hz. by apply Hl. }
  split; [|done]. constructor; try done; [|by rewrite He]. apply Forall_forall. intros l Hin.
  destruct (decide (l = 0)) as [->|Hz]; [by left|right]. by destruct (Hl l Hin Hz) as (? & ? & _).
Qed.

(** An inode in the table depends on the sectors of the table. *)
Lemma stored_frame m d d' n : 0 ≤ n < 4096 →
  (∀ l, inode_table_lba (sb m) ≤ l < inode_table_lba (sb m) + 608 → bd_sector d' l = bd_sector d l) →
  stored_inode m d' n = stored_inode m d n.
Proof.
  intros Hn Hl. apply inode_from_ext. intros j Hj. unfold table_byte. rewrite Hl by zdlia. done.
Qed.

(** Taking blocks for a directory does not change the inode table. *)
Lemma took_stored s x new ws m : took s x new ws → (∀ l, l ∈ ws → l = 0 ∨ is_block (cur_part x) l) → 0 ≤ m < 4096 →
  stored_inode (cur_part x) (disk x) m = stored_inode (cur_part s) (disk s) m.
Proof.
  intros Ht Hws Hm. destruct (took_sb _ _ _ _ Ht) as (Hsb & _). pose proof (layout_bounds _ (tk_layout _ _ _ _ Ht)).
  unfold stored_inode, table_byte. rewrite Hsb in *. apply (stored_frame (cur_part s)); [done|]. intros l Hl.
  apply (tk_sectors _ _ _ _ Ht); [lia|]. intros Hlw. destruct (Hws l Hlw) as [->|Hb]; [lia|].
  unfold is_block, block_no in Hb. rewrite Hsb in Hb. lia.
Qed.

(** The inode of a new file, once it is open. *)
Definition new_inode (n : Z) : inode := set_open_cnts (inode_init n) 1.
Definition entry_named (name : list Z) (n ft : Z) : dir_entry := DirEntry (name ++ replicate (16 - length name) 0) n ft.
Definition new_entry (name : list Z) (n : Z) : dir_entry := entry_named name n FT_REGULAR.

Lemma entry_named_ok name n ft : name_ok name → Forall is_byte name → word n → word ft → entry_ok (entry_named name n ft).
Proof.
  intros (_ & _ & Hl) Hb Hn Hft. constructor; cbn; [rewrite length_app, length_replicate; lia| |done|done].
  apply Forall_app. split; [done|]. by apply Forall_replicate.
Qed.

Lemma create_dir_entry_ok name n ft : name_ok name → u8 ft = ft → create_dir_entry name n ft = Ok (entry_named name n ft).
Proof. intros (_ & _ & Hl) Hft. unfold create_dir_entry, MAX_FILE_NAME_LEN. by rewrite (proj2 (Z.leb_le _ 16)), Hft by lia. Qed.


(** [s'] is [s] with the empty file [name] in the directory with inode [i] at
    [pi]: its inode has number [n] and address [p], slot [k] of the file table and
    descriptor [fd] stand for it. *)
Record created s (pi : Z) (i : inode) (name : list Z) (flag n p k fd : Z) s' : Prop := {
  cr_dir : ∃ i', inodes s' = <[p := new_inode n]> (<[pi := i']> (inodes s)) ∧ i_no i' = i_no i ∧ i_size i' = i_size i + 24 ∧
    i_open_cnts i' = i_open_cnts i ∧
    dir_ok s' pi i' ∧ inserted (dir_entries (disk s) i) (dir_entries (disk s') i') (new_entry name n) ∧
    stored_inode (cur_part s') (disk s') (i_no i) = pure i';
  cr_stored : stored_inode (cur_part s') (disk s') n = inode_init n;
  cr_others m : 0 ≤ m < 4096 → m ≠ n → m ≠ i_no i →
    stored_inode (cur_part s') (disk s') m = stored_inode (cur_part s) (disk s) m;
  cr_bit : bit_set (inode_bitmap (cur_part s)) (inode_bitmap (cur_part s')) n;
  cr_bitmap : bd_sector (disk s') (inode_bitmap_lba (sb (cur_part s))) = bits (inode_bitmap (cur_part s'));
  cr_blocks l : is_block (cur_part s) l → block_used (cur_part s) l = true →
    is_block (cur_part s') l ∧ block_used (cur_part s') l = true ∧ (l ∉ direct i → bd_sector (disk s') l = bd_sector (disk s) l);
  cr_free : (n_free (block_bitmap (cur_part s)) ≤ S (n_free (block_bitmap (cur_part s'))))%nat;
  cr_part : sb (cur_part s') = sb (cur_part s) ∧ open_inodes (cur_part s') = p :: open_inodes (cur_part s);
  cr_tables : file_table s' = <[Z.to_nat k := File 0 flag p]> (file_table s) ∧ fd_table s' = <[Z.to_nat fd := k]> (fd_table s);
  cr_rest : dirs s' = dirs s ∧ cwd_inode_nr s' = cwd_inode_nr s;
  cr_heap : live s' = {[p]} ∪ live s ∧ nulls s' = [] ∧ (p ∉ live s) ∧ p ≠ NULL;
  cr_layout : layout_ok (cur_part s');
  cr_disk : bd_ok (disk s')
}.
(** Steps b to d of [file_create]: both inodes and the inode bitmap go to the
    disk [d]. *)
Record synced x (i1 j : inode) (d : D) : Prop := {
  sy_disk : bd_ok d;
  sy_parent : stored_inode (cur_part x) d (i_no i1) = pure i1;
  sy_new : stored_inode (cur_part x) d (i_no j) = pure j;
  sy_others m : 0 ≤ m < 4096 → m ≠ i_no j → m ≠ i_no i1 → stored_inode (cur_part x) d m = stored_inode (cur_part x) (disk x) m;
  sy_bitmap : bd_sector d (inode_bitmap_lba (sb (cur_part x))) = bits (inode_bitmap (cur_part x));
  sy_data l : data_start_lba (sb (cur_part x)) ≤ l → bd_sector d l = bd_sector (disk x) l
}.

Lemma sync_inodes x i1 j : layout_ok (cur_part x) → bd_ok (disk x) → inode_ok i1 → i_no i1 < 256 → inode_ok j → i_no j < 256 →
  i_no i1 ≠ i_no j →
  ∃ d1 d2 d, inode_sync x i1 = Ok (set_disk x d1) ∧ inode_sync (set_disk x d1) j = Ok (set_disk x d2) ∧
    bitmap_sync (set_disk x d2) (i_no j) INODE_BITMAP = Ok (set_disk x d) ∧ synced x i1 j d.
Proof.
  intros Hlo Hok Hi1 Hno Hi2 Hn Hne. pose proof (io_no _ Hi1) as Hw. pose proof (io_no _ Hi2) as Hw2. unfold word in Hw, Hw2.
  pose proof (layout_bounds _ Hlo).
  assert (u8 (i_no i1) = i_no i1 ∧ u8 (i_no j) = i_no j) as [Hu1 Hu2] by (split; apply u8_small; lia).
  destruct (inode_sync_spec x i1 Hlo Hok Hi1) as (d1 & H1 & Hok1 & Hs1 & Ho1 & Hl1); [lia|]. rewrite Hu1 in *.
  destruct (inode_sync_spec (set_disk x d1) j) as (d2 & H2 & Hok2 & Hs2 & Ho2 & Hl2); [done|done|done|lia|].
  cbn [cur_part disk set_disk] in *. rewrite Hu2 in *.
  destruct (inode_bitmap_sync_spec (set_disk x d2) (i_no j)) as (d & H3 & Hokd & Hs3); [done|done|lia|]. cbn [cur_part disk set_disk] in Hs3.
  assert (∀ m, 0 ≤ m < 4096 → stored_inode (cur_part x) d m = stored_inode (cur_part x) d2 m) as Hst.
  { intros m Hm. apply stored_frame; [done|]. intros l Hl. rewrite Hs3, bool_decide_eq_false_2 by lia. done. }
  exists d1, d2, d. split; [done|]. split; [done|]. split; [done|]. constructor.
  - done.
  - rewrite Hst, Ho2 by lia. done.
  - rewrite Hst, Hs2 by lia. done.
  - intros m Hm Hmn Hmi. rewrite Hst, Ho2, Ho1 by lia. done.
  - by rewrite Hs3, bool_decide_eq_true_2.
  - intros l Hl. rewrite Hs3, bool_decide_eq_false_2, Hl2, Hl1 by lia. done.
Qed.
End created.

Section create.
Context {D : Type} `{BlockDevice D}.
Context (s : fs D) (pdir : Z) (dd : dir) (i : inode) (name : list Z) (flag n k fd : Z).
Context (Hlo : layout_ok (cur_part s)) (Hok : bd_ok (disk s)) (Hnulls : nulls s = []).
Context (Hsize : dir_entry_size (sb (cur_part s)) = 24) (Hcache : cache_ok s).
Context (Hdd : dirs s !! pdir = Some dd) (Hdir : dir_ok s (d_inode dd) i) (Hino : i_no i < 256).
Context (Hgrow : i_size i < 2 ^ 32 - 24) (Hroom : room s i).
Context (Hname : name_ok name) (Hbytes : Forall is_byte name).
Context (Hfree : first_free (inode_bitmap (cur_part s)) n) (Hn : n < 256).
Context (Hclosed : ∀ q j, inodes s !! q = Some j → i_no j ≠ n).
Context (Hslot : free_slot s k) (Hfd : free_fd s fd).

Lemma n_range : 0 ≤ n < 256.
Proof. destruct Hfree. lia. Qed.

Lemma new_entry_ok : entry_ok (new_entry name n).
Proof. pose proof n_range. apply entry_named_ok; try done; unfold word, FT_REGULAR; lia. Qed.

Lemma inode_init_ok : inode_ok (inode_init n).
Proof. pose proof n_range. constructor; try done; unfold word; cbn; try lia. by apply (Forall_replicate _ 13). Qed.

(** The state in which the entry is added. *)
Definition with_slot (a p : Z) (b : bitmap) : fs D :=
  Fs (with_inode_bitmap (cur_part s) b) (<[p := inode_init n]> (inodes s)) (dirs s)
    (<[Z.to_nat k := File 0 flag p]> (file_table s)) (fd_table s) (cwd_inode_nr s) ({[p]} ∪ ({[a]} ∪ live s)) [] (disk s).

Lemma with_slot_dir a p b : p ∉ live s → bit_set (inode_bitmap (cur_part s)) b n →
  layout_ok (cur_part (with_slot a p b)) ∧ dir_ok (with_slot a p b) (d_inode dd) i ∧
  inodes (with_slot a p b) !! d_inode dd = Some i ∧ d_inode dd ≠ p.
Proof.
  intros Hp Hb. assert (d_inode dd ≠ p) as Hne.
  { intros <-. apply Hp. apply (ca_live _ Hcache). rewrite (di_inode _ _ _ Hdir). by eexists. }
  assert (inodes (with_slot a p b) !! d_inode dd = Some i) as Hi.
  { cbn. rewrite lookup_insert_ne by done. apply (di_inode _ _ _ Hdir). }
  split; [by destruct Hb as (? & ? & ? & _); apply layout_inode_bitmap|]. split; [|done].
  apply (dir_ok_frame s); [done|done|]. intros l Hl Hz.
  pose proof (proj1 (Forall_forall _ _) (di_blocks _ _ _ Hdir) l Hl) as [?|[? ?]]; done.
Qed.
(** The state [file_create] ends in, when [x] is the one with the entry and [d] the
    disk with the inodes. *)
Definition finished (a p : Z) (x : fs D) (d : D) : fs D :=
  set_fd_table
    (set_heap (put_inode (set_open_inodes (set_disk x d) (p :: open_inodes (cur_part x))) p (new_inode n)) (live x ∖ {[a]}) (nulls x))
    (<[Z.to_nat fd := k]> (fd_table x)).

Lemma finished_created a p b x i' new ws d : a ∉ live s → p ∉ {[a]} ∪ live s → p ≠ NULL → bit_set (inode_bitmap (cur_part s)) b n →
  took (with_slot a p b) x new ws → (length new ≤ 1)%nat → (∀ l, l ∈ new ++ ws → l ∈ direct i') → (∀ l, l ∈ direct i' → l ∈ direct i ∨ l ∈ new) →
  inodes x = <[d_inode dd := i']> (<[p := inode_init n]> (inodes s)) → i_no i' = i_no i → i_open_cnts i' = i_open_cnts i →
  i_size i' = i_size i + 24 → dir_ok x (d_inode dd) i' →
  inserted (dir_entries (disk s) i) (dir_entries (disk x) i') (new_entry name n) → synced x i' (inode_init n) d →
  created s (d_inode dd) i name flag n p k fd (finished a p x d).
Proof.
  intros Ha Hp Hp0 Hb Ht Hone Hws Hsub Hin Hno Hcn Hsz Hdx Hins Hsy.
  destruct (tk_part _ _ _ _ Ht) as [bb Hpart]. pose proof (tk_layout _ _ _ _ Ht) as Hlx. pose proof (layout_bounds _ Hlx).
  destruct (with_slot_dir a p b) as (_ & _ & _ & Hne); [clear -Hp; set_solver|done|].
  assert (∀ l, l ∈ direct i' → l ≠ 0 → is_block (cur_part x) l ∧ block_used (cur_part x) l = true) as Hblk.
  { intros l Hl Hz. by destruct (proj1 (Forall_forall _ _) (di_blocks _ _ _ Hdx) l Hl) as [?|?]. }
  assert (∀ l, is_block (cur_part x) l → data_start_lba (sb (cur_part x)) ≤ l) as Hdata.
  { intros l Hl. unfold is_block, block_no in Hl. lia. }
  assert (sb (cur_part x) = sb (cur_part s)) as Hsb by (by rewrite Hpart).
  destruct (dir_ok_frame x (finished a p x d) (d_inode dd) i' Hdx) as [Hdf Hef].
  { cbn. rewrite lookup_insert_ne, Hin by done. apply lookup_insert_eq. }
  { intros l Hl Hz. destruct (Hblk l Hl Hz) as [H1 H2]. split; [done|]. split; [done|]. apply (sy_data _ _ _ _ Hsy). by apply Hdata. }
  constructor.
  - exists i'. split.
    { cbn. rewrite Hin, (insert_insert_ne (inodes s)), insert_insert_eq by done. done. }
    split_and!; try done; [by rewrite Hef|]. rewrite <- Hno. apply (sy_parent _ _ _ _ Hsy).
  - apply (sy_new _ _ _ _ Hsy).
  - intros m Hm Hmn Hmi. etrans; [apply (sy_others _ _ _ _ Hsy m); [done|done|by rewrite Hno]|].
    apply (took_stored _ _ _ _ _ Ht); [|done]. intros l Hl. destruct (decide (l = 0)); [by left|right].
    apply Hblk; [|done]. apply Hws, elem_of_app. by right.
  - cbn. by rewrite Hpart.
  - rewrite <- Hsb. apply (sy_bitmap _ _ _ _ Hsy).
  - intros l Hl Hu. split; [by apply (took_block _ _ _ _ _ Ht)|]. split; [change (block_used (cur_part x) l = true); rewrite (tk_used _ _ _ _ Ht l Hl); apply orb_true_iff; by left|]. intros Hnd.
    etrans; [apply (sy_data _ _ _ _ Hsy), Hdata, (took_block _ _ _ _ _ Ht); exact Hl|].
    apply (tk_sectors _ _ _ _ Ht).
    { apply (took_block _ _ _ _ _ Ht) in Hl. apply Hdata in Hl. rewrite Hsb in *. cbn. lia. }
    intros Hlw. destruct (Hsub l) as [?|Hnew]; [apply Hws, elem_of_app; by right|done|].
    pose proof (proj1 (Forall_forall _ _) (tk_new _ _ _ _ Ht) l Hnew) as [_ Hfree']. cbn in Hfree'.
    change (block_used (cur_part s) l = false) in Hfree'. congruence.
  - pose proof (tk_free _ _ _ _ Ht) as Hfr. cbn in Hfr |- *. lia.
  - cbn. by rewrite Hpart.
  - cbn. by rewrite (tk_files _ _ _ _ Ht), (tk_fds _ _ _ _ Ht).
  - cbn. by rewrite (tk_dirs _ _ _ _ Ht), (tk_cwd _ _ _ _ Ht).
  - destruct (tk_heap _ _ _ _ Ht) as [Hlv Hnl]. cbn. rewrite Hlv, Hnl. cbn. split_and!; [|done|clear -Hp; set_solver|done].
    clear -Ha Hp. set_solver.
  - cbn. destruct Hlx. by constructor.
  - apply (sy_disk _ _ _ _ Hsy).
Qed.
(** Taking the inode and the slot. *)
Lemma file_create_prepares : ∃ a p b, a ∉ live s ∧ p ∉ {[a]} ∪ live s ∧ a ≠ NULL ∧ p ≠ NULL ∧
  bit_set (inode_bitmap (cur_part s)) b n ∧
  ∀ x, sync_dir_entry (with_slot a p b) pdir (new_entry name n) = Ok (true, x) →
  file_create s pdir name flag =
    ('(_, parent) ← dir_inode x pdir;
     x ← inode_sync x parent;
     j ← get_inode x p;
     x ← inode_sync x j;
     x ← bitmap_sync x (u32 n) INODE_BITMAP;
     let x := set_open_inodes x (p :: open_inodes (cur_part x)) in
     j ← get_inode x p;
     let x := put_inode x p (set_open_cnts j 1) in
     x ← sys_free x a;
     pcb_fd_install x k).
Proof.
  destruct (sys_malloc_ok s Hnulls) as (a & Ha & Hal & Ha0).
  set (s1 := set_heap s ({[a]} ∪ live s) []) in *.
  destruct (inode_bitmap_alloc_spec s1 n Hlo Hfree) as (b & Hb & Hset).
  destruct (sys_malloc_ok (set_inode_bitmap s1 b)) as (p & Hp & Hpl & Hp0); [done|].
  exists a, p, b. split; [done|]. split; [done|]. split; [done|]. split; [done|]. split; [done|]. intros x Hx.
  unfold file_create. rewrite Ha, (proj2 (Z.eqb_neq a NULL)), Hb by done. ocbn. pose proof n_range.
  rewrite (proj2 (Z.eqb_neq n (-1))), Hp, (proj2 (Z.eqb_neq p NULL)) by (done || lia). cbv iota.
  rewrite (get_free_slot_spec _ k) by exact Hslot. ocbn. destruct Hslot as [Hk _].
  rewrite (proj2 (Z.eqb_neq k (-1))) by lia. rewrite create_dir_entry_ok by done. ocbn. fold (new_entry name n).
  match goal with |- context [sync_dir_entry ?y pdir] => change y with (with_slot a p b) end. by rewrite Hx.
Qed.

Lemma file_create_spec : ∃ p s', file_create s pdir name flag = Ok (fd, s') ∧
  created s (d_inode dd) i name flag n p k fd s'.
Proof.
  destruct file_create_prepares as (a & p & b & Ha & Hp & Ha0 & Hp0 & Hb & Hcreate). pose proof n_range.
  destruct (with_slot_dir a p b) as (Hlp & Hdp & Hip & Hne); [clear -Hp; set_solver|done|].
  destruct (sync_dir_entry_spec (with_slot a p b) (d_inode dd) i (new_entry name n) Hlp Hok Hsize Hdp new_entry_ok ltac:(done) Hgrow
    pdir dd Hdd eq_refl Hroom) as (x & Hsync & i' & new & ws & Ht & Hone & Hws & Hsub & Hin & Hno & Hcn & Hsz & Hdx & Hins).
  rewrite (Hcreate x Hsync). rewrite (dir_inode_ok x pdir dd i');
    [|by rewrite (tk_dirs _ _ _ _ Ht)|apply (di_inode _ _ _ Hdx)]. ocbn.
  assert (inodes x !! p = Some (inode_init n)) as Hxp by (rewrite Hin, lookup_insert_ne by done; apply lookup_insert_eq).
  destruct (sync_inodes x i' (inode_init n)) as (d1 & d2 & d & -> & Hs2 & Hs3 & Hsy).
  - apply (tk_layout _ _ _ _ Ht).
  - apply (tk_disk _ _ _ _ Ht).
  - apply (di_iok _ _ _ Hdx).
  - by rewrite Hno.
  - exact inode_init_ok.
  - cbn. lia.
  - rewrite Hno. apply (Hclosed (d_inode dd)), (di_inode _ _ _ Hdir).
  - ocbn. rewrite (get_inode_ok (set_disk x d1) p _ Hxp). ocbn. rewrite Hs2. ocbn. change (i_no (inode_init n)) with n in Hs3. rewrite u32_small, Hs3 by lia. ocbn.
    rewrite (get_inode_ok _ p (inode_init n)) by exact Hxp. ocbn. rewrite sys_free_ok by done. ocbn.
    rewrite (pcb_fd_install_spec _ fd); [|unfold free_fd; cbn; by rewrite (tk_fds _ _ _ _ Ht)].
    exists p, (finished a p x d). split; [done|]. by eapply finished_created.
Qed.
End create.

(** ** What follows for the file *)

Section consequences.
Context {D : Type} `{BlockDevice D}.
Context (s s' : fs D) (pi : Z) (i : inode) (name : list Z) (flag n p k fd : Z).
Context (Hcr : created s pi i name flag n p k fd s').
Context (Hcache : cache_ok s) (Hpi : inodes s !! pi = Some i) (Hn : 0 ≤ n < 256).
Context (Hclosed : ∀ q j, inodes s !! q = Some j → i_no j ≠ n).

(** The object of the new file is a new one, the others are as before but for the
    directory. *)
Lemma created_inodes : inodes s !! p = None ∧ inodes s' !! p = Some (new_inode n) ∧
  ∃ i', inodes s' !! pi = Some i' ∧ i_no i' = i_no i ∧ i_open_cnts i' = i_open_cnts i ∧ inode_ok i' ∧
    ∀ q, q ≠ p → q ≠ pi → inodes s' !! q = inodes s !! q.
Proof.
  destruct (cr_dir _ _ _ _ _ _ _ _ _ _ Hcr) as (i' & Hin & Hno & _ & Hcn & Hdir & _).
  destruct (cr_heap _ _ _ _ _ _ _ _ _ _ Hcr) as (_ & _ & Hp & _).
  assert (inodes s !! p = None) as Hnone.
  { apply eq_None_not_Some. intros Hs. by apply (ca_live _ Hcache) in Hs as [? _]. }
  split; [done|]. split; [rewrite Hin; apply lookup_insert_eq|]. exists i'.
  split; [apply (di_inode _ _ _ Hdir)|]. split; [done|]. split; [done|]. split; [apply (di_iok _ _ _ Hdir)|].
  intros q Hq1 Hq2. by rewrite Hin, !lookup_insert_ne by done.
Qed.

Lemma created_cache : cache_ok s'.
Proof.
  destruct created_inodes as (Hnone & Hp & i' & Hi' & Hno & Hcn & Hiok & Hother).
  destruct (cr_part _ _ _ _ _ _ _ _ _ _ Hcr) as [_ Hopen]. destruct (cr_heap _ _ _ _ _ _ _ _ _ _ Hcr) as (Hlive & _ & Hpl & Hp0).
  assert (pi ≠ p) as Hne by (intros ->; congruence).
  assert (∀ q j, inodes s' !! q = Some j → q = p ∧ j = new_inode n ∨
    q ≠ p ∧ ∃ j0, inodes s !! q = Some j0 ∧ i_no j = i_no j0 ∧ i_open_cnts j = i_open_cnts j0 ∧ (inode_ok j0 → inode_ok j)) as Hold.
  { intros q j Hj. destruct (decide (q = p)) as [->|Hqp]; [left; split; congruence|right]. split; [done|].
    destruct (decide (q = pi)) as [->|Hqi].
    - exists i. replace j with i' by congruence. by split_and!.
    - exists j. rewrite Hother in Hj by done. by split_and!. }
  constructor.
  - rewrite Hopen. constructor; [|apply (ca_nodup _ Hcache)]. rewrite (ca_dom _ Hcache), Hnone. by intros [].
  - intros q. rewrite Hopen, elem_of_cons, (ca_dom _ Hcache). split.
    + intros [->|Hq]; [by eexists|]. destruct (decide (q = pi)) as [->|Hqi]; [by eexists|].
      rewrite Hother; [done| |done]. intros ->. rewrite Hnone in Hq. by destruct Hq.
    + intros [j Hj]. destruct (Hold q j Hj) as [[-> _]|(_ & j0 & Hj0 & _)]; [by left|right; by eexists].
  - intros q j Hj. destruct (Hold q j Hj) as [[_ ->]|(_ & j0 & Hj0 & _ & Hc & Hok)].
    + split; [|done]. constructor; try done; unfold word; cbn; try lia. by apply (Forall_replicate _ 13).
    + destruct (ca_inode _ Hcache q j0 Hj0) as [Hok0 Hc0]. split; [by apply Hok|lia].
  - intros q q' j j' Hj Hj' Heq. destruct (Hold q j Hj) as [[-> ->]|(Hq & j0 & Hj0 & Hn0 & _)], (Hold q' j' Hj') as [[-> ->]|(Hq' & j1 & Hj1 & Hn1 & _)].
    + done.
    + destruct (Hclosed _ _ Hj1). cbn in Heq. congruence.
    + destruct (Hclosed _ _ Hj0). cbn in Heq. congruence.
    + apply (ca_unique _ Hcache q q' j0 j1); congruence.
  - rewrite Hlive. intros q [j Hj]. destruct (Hold q j Hj) as [[-> _]|(_ & j0 & Hj0 & _)]; [split; [set_solver|done]|].
    destruct (ca_live _ Hcache q); [by eexists|]. split; [set_solver|done].
Qed.

(** The file is empty. *)
Lemma created_file : file_ok s' p (new_inode n) [] [].
Proof.
  destruct created_inodes as (_ & Hp & _). constructor; try done.
  - by apply (ca_inode _ created_cache p).
  - constructor; try done; [cbn; lia| |cbn; lia]. intros j Hj. cbn [i_sectors new_inode set_open_cnts inode_init].
    apply (lookup_replicate_2 13). lia.
  - by right.
  - constructor.
Qed.

(** The other files keep their contents. *)
Lemma created_others q j bl data : q ≠ pi → file_ok s q j bl data → (∀ l, l ∈ owned j bl → l ∉ direct i) → file_ok s' q j bl data.
Proof.
  intros Hq Hf Hdis. destruct created_inodes as (Hnone & _ & i' & _ & _ & _ & _ & Hother).
  pose proof (fo_inode _ _ _ _ _ Hf) as Hqj.
  apply (file_ok_frame s); [done|rewrite Hother; [done| |done]; congruence|]. intros l Hl.
  destruct (proj1 (Forall_forall _ _) (fo_used _ _ _ _ _ Hf) l Hl) as [Hb Hu].
  destruct (cr_blocks _ _ _ _ _ _ _ _ _ _ Hcr l Hb Hu) as (? & ? & Hsec). split_and!; [done|done|]. by apply Hsec, Hdis.
Qed.
End consequences.

(** The new entry has the name of the file and no other. *)
Lemma str_eq_padded (name' : list Z) : ∀ (pre name : list Z) z, (0 < z)%nat → Forall (λ c, c ≠ 0) name → Forall (λ c, c ≠ 0) name' →
  str_eq (pre ++ name ++ replicate z 0) (Z.of_nat (length pre)) name' = bool_decide (name' = name).
Proof.
  assert (∀ pre c rest, byte_at (pre ++ c :: rest) (Z.of_nat (length pre)) = c) as Hat.
  { intros pre c rest. unfold byte_at. by rewrite Nat2Z.id, list_lookup_middle. }
  induction name' as [|c' name' IH]; intros pre name z Hz Hn Hn'; cbn [str_eq].
  - destruct name as [|c name].
    + destruct z as [|z]; [lia|]. cbn [replicate app]. rewrite Hat. done.
    + cbn [app]. rewrite Hat, bool_decide_eq_false_2 by done. apply Forall_cons in Hn as [Hc _]. by apply Z.eqb_neq.
  - apply Forall_cons in Hn' as [Hc' Hn']. destruct name as [|c name].
    + destruct z as [|z]; [lia|]. cbn [replicate app]. rewrite Hat, bool_decide_eq_false_2 by done.
      by rewrite (proj2 (Z.eqb_neq 0 c')) by done.
    + cbn [app]. rewrite Hat. apply Forall_cons in Hn as [_ Hn]. destruct (Z.eqb_spec c c') as [->|Hne]; cbn [andb].
      * replace (pre ++ c' :: name ++ replicate z 0) with ((pre ++ [c']) ++ name ++ replicate z 0) by (by rewrite <- app_assoc).
        replace (Z.of_nat (length pre) + 1) with (Z.of_nat (length (pre ++ [c']))) by (rewrite length_app; cbn; lia).
        rewrite IH by done. apply bool_decide_ext. split; congruence.
      * symmetry. apply bool_decide_eq_false_2. congruence.
Qed.

Lemma has_name_new name n ft name' : name_ok name → name_ok name' → has_name (entry_named name n ft) name' = bool_decide (name' = name).
Proof. intros (_ & Hn & Hl) (_ & Hn' & _). apply (str_eq_padded name' []); try done. lia. Qed.

Section create_theorems.
Context {D : Type} `{BlockDevice D}.
Implicit Types (s : fs D).

(** What [file_create] needs to succeed: a directory with room for the entry, an
    inode that is free and not open, a slot and a descriptor. Inode numbers from
    256 on do not reach the disk. *)
Record can_create s (dd : dir) (i : inode) (name : list Z) (n k fd : Z) : Prop := {
  cc_layout : layout_ok (cur_part s);
  cc_disk : bd_ok (disk s);
  cc_nulls : nulls s = [];
  cc_size : dir_entry_size (sb (cur_part s)) = 24;
  cc_cache : cache_ok s;
  cc_dir : dir_ok s (d_inode dd) i ∧ i_no i < 256 ∧ i_size i < 2 ^ 32 - 24 ∧ room s i;
  cc_name : name_ok name ∧ Forall is_byte name;
  cc_inode : first_free (inode_bitmap (cur_part s)) n ∧ n < 256;
  cc_closed q j : inodes s !! q = Some j → i_no j ≠ n;
  cc_slots : free_slot s k ∧ free_fd s fd
}.

(** The directory with the new file: its entries are those of before and the new
    one, which is what its name stands for. *)
Definition listed s s' (pi : Z) (i : inode) (name : list Z) (n : Z) : Prop := ∃ i', inodes s' !! pi = Some i' ∧
  used (dir_entries (disk s') i') ≡ₚ new_entry name n :: used (dir_entries (disk s) i) ∧
  ∀ name', name_ok name' → lookup_name name (dir_entries (disk s) i) = None →
    lookup_name name' (dir_entries (disk s') i') =
      if bool_decide (name' = name) then Some (new_entry name n) else lookup_name name' (dir_entries (disk s) i).

Lemma created_listed s s' pi i name flag n p k fd : created s pi i name flag n p k fd s' → name_ok name →
  listed s s' pi i name n.
Proof.
  intros Hcr Hname. destruct (cr_dir _ _ _ _ _ _ _ _ _ _ Hcr) as (i' & _ & _ & _ & _ & Hdir & Hins & _).
  exists i'. split; [apply (di_inode _ _ _ Hdir)|]. split; [by apply inserted_used|].
  intros name' Hn' Hnone. pose proof Hn' as (Hne & Hc & _). rewrite (inserted_lookup _ _ _ _ Hins Hne Hc), (has_name_new name n FT_REGULAR) by done.
  case_bool_decide as Heq; [|done]. subst. by rewrite Hnone.
Qed.

(** C6. [file_create] makes an empty file: it returns a descriptor for it, its inode
    and its entry in the directory are on the disk together with the inode bitmap,
    looking up its name finds it and looking up another name finds what it found
    before. The other files keep their contents, only the new inode stays
    allocated. *)
Theorem file_create_correct s pdir dd i name flag n k fd :
  can_create s dd i name n k fd → dirs s !! pdir = Some dd →
  ∃ p s', file_create s pdir name flag = Ok (fd, s') ∧ created s (d_inode dd) i name flag n p k fd s' ∧
    cache_ok s' ∧ file_ok s' p (new_inode n) [] [] ∧ listed s s' (d_inode dd) i name n ∧
    ∀ q j bl data, q ≠ d_inode dd → file_ok s q j bl data → (∀ l, l ∈ owned j bl → l ∉ direct i) → file_ok s' q j bl data.
Proof.
  intros [] Hdd. destruct cc_dir0 as (Hdir & Hino & Hgrow & Hroom), cc_name0, cc_inode0 as [Hfree Hn], cc_slots0.
  destruct (file_create_spec s pdir dd i name flag n k fd) as (p & s' & Hc & Hcr); try done.
  assert (0 ≤ n < 256) by (destruct Hfree; lia). pose proof (di_inode _ _ _ Hdir) as Hpi.
  exists p, s'. split; [done|]. split; [done|]. split; [by eapply created_cache|]. split; [by eapply created_file|].
  split; [by eapply created_listed|]. intros q j bl data. by eapply created_others.
Qed.
(** ** When a resource is missing *)

(** Bitmaps with the same bits are the same. *)
Lemma bitmap_same (b b' : bitmap) : wf_bitmap b → wf_bitmap b' → btmp_bytes_len b' = btmp_bytes_len b →
  length (bits b') = length (bits b) → (∀ j, 0 ≤ j → bit b' j = bit b j) → b' = b.
Proof.
  intros [Hb _ _] [Hb' _ _] Hl Hn Hbit. destruct b as [len l], b' as [len' l']. cbn in *. subst len'. f_equal.
  apply list_eq_same_length with (n := length l); [done|done|]. intros k x y Hk Hx Hy.
  pose proof (Forall_lookup_1 _ _ _ _ Hb' Hx) as Rx. pose proof (Forall_lookup_1 _ _ _ _ Hb Hy) as Ry.
  apply Z.bits_inj'. intros o Ho. destruct (decide (o < 8)).
  - specialize (Hbit (8 * Z.of_nat k + o) ltac:(lia)). unfold bit, bitv in Hbit. cbn [bits] in Hbit.
    replace (Z.to_nat ((8 * Z.of_nat k + o) / 8)) with k in Hbit by zdlia. replace ((8 * Z.of_nat k + o) mod 8) with o in Hbit by zdlia.
    by rewrite Hx, Hy in Hbit.
  - rewrite !(testbit_above _ 8) by (cbv beta in Rx, Ry; change (2 ^ 8) with 256; lia). done.
Qed.

(** Taking a bit and giving it back. *)
Lemma bit_given_back m b n : layout_ok m → first_free (inode_bitmap m) n → bit_set (inode_bitmap m) b n →
  bitmap_set b n 0 = Ok (inode_bitmap m).
Proof.
  intros Hlo (Hr & Hf & _) (Hwf & Hl & Hn & Hb). pose proof (lo_iwf _ Hlo) as Hwf0. pose proof (wf_len _ Hwf0).
  destruct (bitmap_set_spec b n 0) as (b' & -> & Hwf' & Hl' & Hn' & Hb'); [done| |by left|].
  { rewrite Hn. unfold nbits in Hr. lia. }
  f_equal. apply bitmap_same; try congruence. intros j Hj. rewrite Hb', Hb by done. case_bool_decide; [by subst|done].
Qed.

(** A state is what its fields are; only the inode bitmap of the partition may be written anew. *)
Lemma fs_eq (s s' : fs D) : cur_part s = with_inode_bitmap (cur_part s') (inode_bitmap (cur_part s')) → inodes s = inodes s' → dirs s = dirs s' →
  file_table s = file_table s' → fd_table s = fd_table s' → cwd_inode_nr s = cwd_inode_nr s' → live s = live s' →
  nulls s = nulls s' → disk s = disk s' → s = s'.
Proof. destruct s, s' as [[] ? ? ? ? ? ? ? ?]. cbn. intros. by subst. Qed.

(** Every slot behind the standard streams is taken. *)
Definition slots_full s : Prop := ∀ j, 3 ≤ j < MAX_FILE_OPEN → ∃ f, file_table s !! Z.to_nat j = Some f ∧ fd_inode f ≠ NULL.

Lemma no_free_slot s : slots_full s → get_free_slot_in_global s = Ok (-1).
Proof.
  intros Hfull. unfold get_free_slot_in_global, slots_full, MAX_FILE_OPEN in *. rewrite (loop_first _ 32 32).
  - done.
  - done.
  - lia.
  - intros j Hj. destruct (Hfull j Hj) as (g & Hg & Hne). rewrite (proj2 (Z.ltb_lt j 32)), Hg by lia. ocbn.
    by rewrite (proj2 (Z.eqb_neq _ _) Hne).
  - cbn. lia.
Qed.

(** C31. When the table of open files is full, or there is no memory for the inode,
    [file_create] returns -1 and gives back the inode and the memory it has taken:
    the state is the one before. *)
Theorem file_create_rolls_back s pdir name flag n :
  layout_ok (cur_part s) → cache_ok s → first_free (inode_bitmap (cur_part s)) n →
  (nulls s = [] → slots_full s → file_create s pdir name flag = Ok (-1, s)) ∧
  (nulls s = [false; true] → file_create s pdir name flag = Ok (-1, set_heap s (live s) [])).
Proof.
  intros Hlo Hcache Hfree. pose proof (lo_iwf _ Hlo) as Hwf. pose proof (wf_len _ Hwf). pose proof (wf_int _ Hwf).
  assert (0 ≤ n < 2 ^ 31) as Hn by (destruct Hfree as [? _]; lia). split.
  - intros Hnulls Hfull. destruct (sys_malloc_ok s Hnulls) as (a & Ha & Hal & Ha0). set (s1 := set_heap s ({[a]} ∪ live s) []) in *.
    destruct (inode_bitmap_alloc_spec s1 n Hlo Hfree) as (b & Hb & Hset).
    destruct (sys_malloc_ok (set_inode_bitmap s1 b)) as (p & Hp & Hpl & Hp0); [done|].
    unfold file_create. rewrite Ha, (proj2 (Z.eqb_neq a NULL)), Hb by done. ocbn.
    rewrite (proj2 (Z.eqb_neq n (-1))), Hp, (proj2 (Z.eqb_neq p NULL)) by (done || lia). cbv iota.
    rewrite no_free_slot by exact Hfull. ocbn. change (-1 =? -1) with true. cbv iota.
    unfold rollback. change (3 <=? 2) with false. change (2 <=? 2) with true. cbv iota. rewrite sys_free_ok by done. ocbn.
    rewrite u32_small by lia. cbn [cur_part set_inodes set_heap put_inode set_inode_bitmap set_part inode_bitmap s1].
    rewrite (bit_given_back (cur_part s) b n) by done. ocbn. rewrite sys_free_ok by done. ocbn. do 2 f_equal.
    assert (delete p (<[p := inode_init n]> (inodes s)) = inodes s) as Hdel.
    { apply delete_insert_id, eq_None_not_Some. intros [Hin _]%(ca_live _ Hcache). apply Hpl. cbn. clear -Hin. set_solver. }
    assert (({[p]} ∪ ({[a]} ∪ live s)) ∖ {[p]} ∖ {[a]} = live s) as Hlive by (cbn in Hpl; clear -Hal Hpl; set_solver).
    apply fs_eq; try reflexivity; [exact Hdel|exact Hlive|done].
  - intros Hnulls. unfold file_create, sys_malloc at 1. rewrite Hnulls. cbn [tail].
    pose proof (is_fresh (live s ∪ {[NULL; root_dir]})) as Hfr. set (a := fresh (live s ∪ {[NULL; root_dir]})) in *.
    assert (a ≠ NULL ∧ a ∉ live s) as [Ha0 Hal] by (clear -Hfr; set_solver). set (s1 := set_heap s ({[a]} ∪ live s) [true]).
    destruct (inode_bitmap_alloc_spec s1 n Hlo Hfree) as (b & Hb & Hset).
    rewrite (proj2 (Z.eqb_neq a NULL)), Hb by done. ocbn. rewrite (proj2 (Z.eqb_neq n (-1))) by lia.
    unfold sys_malloc. cbn [nulls set_inode_bitmap set_part s1 set_heap]. change (NULL =? NULL) with true. cbv iota.
    unfold rollback. change (3 <=? 1) with false. change (2 <=? 1) with false. cbv iota. ocbn. rewrite u32_small by lia.
    cbn [cur_part set_heap set_inode_bitmap set_part inode_bitmap].
    rewrite (bit_given_back (cur_part s) b n) by done. ocbn. rewrite sys_free_ok by done. ocbn. do 2 f_equal.
    assert (({[a]} ∪ live s) ∖ {[a]} = live s) as Hlive by (clear -Hal; set_solver).
    apply fs_eq; try reflexivity; exact Hlive.
Qed.
End create_theorems.

Module CreateExample.
Import RamDisk FsExample DirExample SearchExample.

(** The file "x" in the root directory of [fs1]: inode 1, slot 3, descriptor 3. *)
Definition root : dir := Dir 200 0 (replicate 512 0).

Lemma only_root q j : inodes fs1 !! q = Some j → j = root_node.
Proof. cbn. by intros [_ <-]%lookup_singleton_Some. Qed.

Lemma can_create_x : can_create fs1 root root_node [120] 1 3 3.
Proof.
  constructor.
  - apply layout0.
  - done.
  - done.
  - done.
  - exact cache1.
  - split; [exact root_ok|]. split; [done|]. split; [cbn; lia|]. exists 0%nat, 612. split; [vm_compute; reflexivity|done].
  - split; [split; [done|split; [by repeat constructor|cbn; lia]]|by repeat constructor].
  - split; [|lia]. split; [vm_compute; split; congruence|]. split; [vm_compute; reflexivity|].
    intros k Hk. assert (k = 0) as -> by lia. vm_compute. reflexivity.
  - intros q j Hj. by rewrite (only_root q j Hj).
  - split; (split; [unfold MAX_FILE_OPEN, MAX_FILES_OPEN_PER_PROC; lia|split; [|intros j Hj; lia]]); [|done]. exists (File 0 0 NULL). by split.
Qed.

Lemma file_create_correct_witness :
  ∃ p s', file_create fs1 root_dir [120] O_RDWR = Ok (3, s') ∧ file_ok s' p (new_inode 1) [] [] ∧
    bit (inode_bitmap (cur_part s')) 1 = true.
Proof.
  destruct (file_create_correct fs1 root_dir root root_node [120] O_RDWR 1 3 3 can_create_x eq_refl)
    as (p & s' & Hc & Hcr & _ & Hf & _).
  exists p, s'. split; [exact Hc|]. split; [exact Hf|].
  destruct (cr_bit _ _ _ _ _ _ _ _ _ _ Hcr) as (_ & _ & _ & Hbit). rewrite Hbit by lia. done.
Defined.

(** [fs1] with every slot taken, and without memory for the inode. *)
Definition fs1_full : fs ramdisk :=
  Fs (cur_part fs1) (inodes fs1) (dirs fs1) (replicate 32 (File 0 0 200)) (fd_table fs1) 0 (live fs1) [] (disk fs1).
Definition fs1_short : fs ramdisk := set_heap fs1 (live fs1) [false; true].

Lemma file_create_rolls_back_witness : file_create fs1_full root_dir [120] O_RDWR = Ok (-1, fs1_full) ∧
  file_create fs1_short root_dir [120] O_RDWR = Ok (-1, fs1).
Proof.
  split.
  - destruct (file_create_rolls_back fs1_full root_dir [120] O_RDWR 1) as [Hfull _].
    + apply (cc_layout _ _ _ _ _ _ _ can_create_x).
    + destruct cache1. by constructor.
    + apply (cc_inode _ _ _ _ _ _ _ can_create_x).
    + apply Hfull; [reflexivity|]. intros j Hj. exists (File 0 0 200). split; [|done].
      apply lookup_replicate_2. unfold MAX_FILE_OPEN in Hj. lia.
  - destruct (file_create_rolls_back fs1_short root_dir [120] O_RDWR 1) as [_ Hshort].
    + apply (cc_layout _ _ _ _ _ _ _ can_create_x).
    + by apply cache_ok_heap; [exact cache1|].
    + apply (cc_inode _ _ _ _ _ _ _ can_create_x).
    + by apply Hshort.
Defined.
End CreateExample.
