(* ===== verification/FsOpen.v ===== *)
(** * fs/fs.c: a file from its creation on

    [sys_open] with [O_CREAT] for a file in the root directory, and what the calls
    do with the descriptor it returns: what is written is what is read. *)

From stdpp Require Import base numbers list gmap.
From Stdlib Require Import ZArith Lia.
From S2P Require Import Prelude Bitmap Block Partition FsState ThreadInit FsAlloc Inode FsFile FsWrite FsRead Dir FsPath DirSpec.
From S2P Require Import FsSearch FsCalls FsMount FsMountSpec FsCallsSpec FsCreate.

(** ** The path of a file in the root directory *)

Record root_name (name : list Z) : Prop := {
  rn_ok : name_ok name;
  rn_slash : slash ∉ name;
  rn_dots : name ≠ dot ∧ name ≠ dotdot
}.

Lemma copy_whole name : slash ∉ name → copy_name name = (name, []).
Proof.
  induction name as [|c name IH]; [done|]. rewrite not_elem_of_cons. intros [Hc Hn]. cbn.
  by rewrite (proj2 (Z.eqb_neq c slash)), IH by done.
Qed.

Lemma parse_root_name name : root_name name → parse_name (slash :: name) = Ok (name, None).
Proof.
  intros [(Hne & _ & Hl) Hs _]. unfold parse_name, path_parse. change (slash =? slash) with true. cbv iota.
  replace (skip_slashes name) with name.
  - rewrite copy_whole by done. unfold MAX_FILE_NAME_LEN. by rewrite (proj2 (Z.ltb_ge 16 _)) by lia.
  - destruct name as [|c name]; [done|]. apply not_elem_of_cons in Hs as [Hc _]. cbn. by rewrite (proj2 (Z.eqb_neq c slash)) by done.
Qed.

Lemma depth_root_name name : root_name name → path_depth_cnt (slash :: name) = Ok 1.
Proof.
  intros Hn. unfold path_depth_cnt. rewrite parse_root_name by done. ocbn. destruct Hn as [(Hne & _ & _) _ _].
  by destruct name.
Qed.

Lemma after_slash name : slash ∉ name → after_last_slash (slash :: name) = name.
Proof. intros Hs. cbn [after_last_slash]. change (slash =? slash) with true. by rewrite bool_decide_eq_false_2. Qed.

Lemma last_root_name name : root_name name → ∃ c, last (slash :: name) = Some c ∧ c ≠ slash.
Proof.
  intros [(Hne & _ & _) Hs _]. destruct name as [|c' name'] using rev_ind; [done|].
  exists c'. split; [exact (last_snoc c' (slash :: name'))|]. intros ->. apply Hs, elem_of_app. right. by left.
Qed.

Lemma not_root name : root_name name → names_root (slash :: name) = false.
Proof.
  intros [(Hne & _ & _) _ [H1 H2]]. unfold names_root. by rewrite !bool_decide_eq_false_2 by congruence.
Qed.

Section open_root.
Context {D : Type} `{BlockDevice D}.
Implicit Types (s : fs D).

(** At the root directory, nothing has been opened. *)
Lemma at_root_same s x m : at_dir s x root_dir m → ∃ d, x = set_disk s d ∧ same_sectors (disk s) d.
Proof.
  intros Hat. destruct (ad_close _ _ _ _ Hat (disk x)) as (d & Hclose & Hd); [by apply same_sectors_refl, (ad_disk _ _ _ _ Hat)|].
  unfold dir_close in Hclose. change (root_dir =? root_dir) with true in Hclose. cbv iota in Hclose.
  exists d. split; [|done]. assert (set_disk x (disk x) = set_disk s d) as <- by congruence. by destruct x.
Qed.

(** The search for a file in the root directory. *)
Lemma search_root s P name : tree s P → root_name name →
  match lookup_name name (dir_list s 0) with
  | None => ∃ d, search_file s (slash :: name) = Ok (-1, PathSearchRecord (slash :: name) root_dir FT_UNKNOWN, set_disk s d) ∧
      same_sectors (disk s) d
  | Some e => f_type e ≠ FT_DIRECTORY →
      ∃ d, search_file s (slash :: name) = Ok (de_i_no e, PathSearchRecord (slash :: name) root_dir FT_REGULAR, set_disk s d) ∧
        same_sectors (disk s) d
  end.
Proof.
  intros Ht Hn. unfold search_file. rewrite not_root, parse_root_name by done.
  assert (at_dir s s root_dir 0) as Hroot.
  { pose proof (at_root s P Ht (disk s) (same_sectors_refl _ (tb_disk _ (tr_base _ _ Ht)))) as Ha.
    by replace (set_disk s (disk s)) with s in Ha by (by destruct s). }
  destruct Hn as [(Hne & Hc & Hl) Hs _]. rewrite bool_decide_eq_true_2 by done.
  assert (1 < Z.of_nat (length (slash :: name)) < MAX_PATH_LEN) as Hlen.
  { unfold MAX_PATH_LEN. destruct name; [done|]. cbn [length] in *. lia. }
  rewrite (proj2 (Z.ltb_lt 1 _)), (proj2 (Z.ltb_lt _ MAX_PATH_LEN)) by lia. ocbn. unfold MAX_PATH_LEN in Hlen.
  assert (∀ r, search_round s (Walk name None [] root_dir 0 None) = Ok (inr r) →
    loop (S (S (S (length (slash :: name))))) search_step (Walk name None [] root_dir 0 None, s) = Ok r) as Hloop.
  { intros r Hr. apply loop_exit. unfold search_step. cbn [w_name]. destruct name; [done|]. exact Hr. }
  pose proof (search_round_spec s P Ht (Walk name None [] root_dir 0 None) s 0 [] [] None (conj Hne (conj Hc Hl)) eq_refl) as Hround.
  cbn [w_name sub_path w_path cur_dir app] in Hround. change (join [name]) with (slash :: name ++ []) in Hround.
  rewrite app_nil_r in Hround. specialize (Hround ltac:(lia) Hroot (tr_zero _ _ Ht) eq_refl). cbv zeta in Hround.
  destruct (lookup_name name (dir_list s 0)) as [e|].
  - intros Hft. rewrite (proj2 (Z.eqb_neq _ _) Hft) in Hround. destruct Hround as (x & Hr & Hat).
    destruct (at_root_same s x 0 Hat) as (d & -> & Hd). exists d. split; [|done]. by apply Hloop.
  - destruct Hround as (x & Hr & Hat). destruct (at_root_same s x 0 Hat) as (d & -> & Hd). exists d. split; [|done]. by apply Hloop.
Qed.

(** Creating depends on the sectors of the disk only. *)
Lemma created_same s d pi i name flag n p k fd s' : same_sectors (disk s) d → created (set_disk s d) pi i name flag n p k fd s' →
  created s pi i name flag n p k fd s'.
Proof.
  intros [_ Hd] [Hdir Hst Hoth Hbit Hbm Hbl Hfr Hpart Htab Hrest Hheap Hlo Hok]. constructor; try done.
  - destruct Hdir as (i' & Hin & Hno & Hsz & Hcn & Hdi & Hins & Hpi). exists i'. split_and!; try done.
    replace (dir_entries (disk s) i) with (dir_entries (disk (set_disk s d)) i); [done|].
    unfold dir_entries, dir_blocks. cbn [disk set_disk]. rewrite Hd. apply entries_same. intros l _ _. apply Hd.
  - intros m Hm Hmn Hmi. rewrite Hoth by done. apply stored_frame; [done|]. intros l _. apply Hd.
  - intros l Hl Hu. destruct (Hbl l Hl Hu) as (? & ? & Hsec). split_and!; try done. intros Hnd. rewrite Hsec by done. apply Hd.
Qed.

Lemma can_create_same s d dd i name n k fd : same_sectors (disk s) d → can_create s dd i name n k fd →
  can_create (set_disk s d) dd i name n k fd.
Proof.
  intros [Hok Hd] [? ? ? ? Hcache (Hdir & Hino & Hgrow & n0 & lba & Hfind & Hlba) ? ? ? ?]. constructor; try done; [by destruct Hcache|].
  split; [|split; [done|split; [done|]]].
  - destruct (dir_ok_frame s (set_disk s d) (d_inode dd) i Hdir) as [? _]; [apply (di_inode _ _ _ Hdir)| |done].
    intros l Hl Hz. pose proof (proj1 (Forall_forall _ _) (di_blocks _ _ _ Hdir) l Hl) as [?|[? ?]]; [done|]. by split_and!.
  - exists n0, lba. split; [|done]. rewrite <- Hfind. apply list_find_ext. intros l. unfold has_room.
    cbn [disk set_disk]. by rewrite Hd.
Qed.

(** The calls that create: [O_CREAT] is set. *)
Lemma creating flags : 4 ≤ flags ≤ 7 → truth (Z.land flags O_CREAT) = true.
Proof. intros Hf. assert (flags = 4 ∨ flags = 5 ∨ flags = 6 ∨ flags = 7) as [->|[->|[->| ->]]] by lia; done. Qed.

Lemma sys_open_create_spec s P dd i name flags n k fd :
  tree s P → can_create s dd i name n k fd → dirs s !! root_dir = Some dd → root_name name →
  lookup_name name (dir_entries (disk s) i) = None → 4 ≤ flags ≤ 7 →
  ∃ p s', sys_open s (slash :: name) flags = Ok (fd, s') ∧ created s (d_inode dd) i name flags n p k fd s'.
Proof.
  intros Ht Hcc Hdd Hn Hnone Hflags. destruct (last_root_name name Hn) as (c & Hlast & Hc). unfold sys_open.
  rewrite Hlast, (proj2 (Z.eqb_neq c slash)), (proj2 (Z.leb_le flags 7)), depth_root_name by (done || lia). ocbn.
  assert (lookup_name name (dir_list s 0) = None) as Hnone0.
  { pose proof (at_root s P Ht (disk s) (same_sectors_refl _ (tb_disk _ (tr_base _ _ Ht)))) as Ha.
    destruct (ad_inode _ _ _ _ Ha) as (dd' & j & Hdd' & Hj & _ & Hsec). cbn in Hdd', Hj. rewrite Hdd in Hdd'. injection Hdd' as <-.
    destruct (cc_dir _ _ _ _ _ _ _ Hcc) as [Hdir _]. rewrite (di_inode _ _ _ Hdir) in Hj. injection Hj as <-.
    unfold dir_list. by rewrite <- (entries_sectors _ _ _ Hsec). }
  pose proof (search_root s P name Ht Hn) as Hsearch. rewrite Hnone0 in Hsearch. destruct Hsearch as (d & -> & Hd). ocbn. cbn [file_type searched_path parent_dir].
  change (FT_UNKNOWN =? FT_DIRECTORY) with false. cbv iota. rewrite depth_root_name by done. ocbn.
  rewrite Z.eqb_refl, creating, (after_slash name (rn_slash _ Hn)) by done. cbn [negb andb].
  change (-1 =? -1) with true. cbv iota. cbn [negb andb]. cbv iota.
  destruct (can_create_same s d dd i name n k fd Hd Hcc) as [? ? ? ? ? (? & ? & ? & ?) [? ?] [? ?] ? [? ?]].
  destruct (file_create_spec (set_disk s d) root_dir dd i name flags n k fd) as (p & s' & -> & Hcr); try done.
  ocbn. exists p, s'. split; [done|]. by eapply created_same.
Qed.

(** The descriptor of the new file. *)
Lemma created_descriptor s s' pi i name flag n p k fd : created s pi i name flag n p k fd s' → free_slot s k → free_fd s fd →
  descriptor s' fd k (File 0 flag p) (new_inode n).
Proof.
  intros Hcr (Hk & (f & Hf & _) & _) (Hfd & Hg & _). destruct (cr_tables _ _ _ _ _ _ _ _ _ _ Hcr) as [Hft Hfdt].
  destruct (cr_dir _ _ _ _ _ _ _ _ _ _ Hcr) as (i' & Hin & _). constructor.
  - split; [lia|]. rewrite Hfdt. apply list_lookup_insert_eq. by eapply lookup_lt_Some.
  - split; [lia|]. rewrite Hft. apply list_lookup_insert_eq. by eapply lookup_lt_Some.
  - rewrite Hin. apply lookup_insert_eq.
Qed.

(** [sys_open] with [O_CREAT], for a name the root directory does not have, makes an
    empty file there and returns a descriptor for it: the file is on the disk and
    listed in the directory, and the open inodes stay consistent. *)
Theorem sys_open_creates s P dd i name flags n k fd :
  tree s P → can_create s dd i name n k fd → dirs s !! root_dir = Some dd → root_name name →
  lookup_name name (dir_entries (disk s) i) = None → 4 ≤ flags ≤ 7 →
  ∃ p s', sys_open s (slash :: name) flags = Ok (fd, s') ∧ created s (d_inode dd) i name flags n p k fd s' ∧
    cache_ok s' ∧ descriptor s' fd k (File 0 flags p) (new_inode n) ∧ file_ok s' p (new_inode n) [] [] ∧
    listed s s' (d_inode dd) i name n.
Proof.
  intros Ht Hcc Hdd Hn Hnone Hflags.
  destruct (sys_open_create_spec s P dd i name flags n k fd) as (p & s' & Hopen & Hcr); try done. exists p, s'.
  destruct Hcc as [? ? ? ? ? (Hdir & _) [? ?] [[? _] ?] ? [? ?]]. pose proof (di_inode _ _ _ Hdir).
  split; [done|]. split; [done|]. split; [eapply created_cache; try done; lia|]. split; [by eapply created_descriptor|].
  split; [eapply created_file; try done; lia|]. by eapply created_listed.
Qed.

(** Writing through a descriptor. *)
Lemma sys_write_spec s fd k f i bl data buf : descriptor s fd k f i → 3 ≤ fd →
  truth (Z.land (fd_flag f) O_WRONLY) || truth (Z.land (fd_flag f) O_RDWR) = true →
  let n := Z.of_nat (length buf) in
  layout_ok (cur_part s) → bd_ok (disk s) → bit (block_bitmap (cur_part s)) 0 = true → nulls s = [] →
  file_ok s (fd_inode f) i bl data → i_no i < 256 → Forall is_byte buf → i_size i + n < 71680 →
  (blocks_wanted i bl n ≤ n_free (block_bitmap (cur_part s)))%nat →
  ∃ s', sys_write s fd buf n = Ok (n, [], s') ∧ appended s s' k f i bl data buf.
Proof.
  intros Hd Hfd Hflag n Hlo Hok H0 Hnulls Hf Hno Hb Hmax Hfree. destruct (descriptor_ok _ _ _ _ _ Hd) as (Hg & Hget & _).
  destruct Hd as [_ [Hk Hft] _]. pose proof (io_size _ (fo_iok _ _ _ _ _ Hf)) as Hsz. unfold word in Hsz. unfold sys_write.
  rewrite (proj2 (Z.ltb_ge fd 0)), (proj2 (Z.eqb_neq fd stdout_no)), Hg by (unfold stdout_no; lia). ocbn. rewrite Hget. ocbn.
  rewrite Hflag. destruct (file_write_spec s k f i bl data buf) as (s' & Hw & Happ); try done; [lia|].
  fold n in Hw. rewrite Hw. ocbn. rewrite s32_small by lia. by exists s'.
Qed.

(** Writing, going back to where the data starts and reading. *)
Lemma write_seek_read s fd k f i bl data buf : descriptor s fd k f i → 3 ≤ fd →
  truth (Z.land (fd_flag f) O_WRONLY) || truth (Z.land (fd_flag f) O_RDWR) = true →
  let n := Z.of_nat (length buf) in
  layout_ok (cur_part s) → bd_ok (disk s) → bit (block_bitmap (cur_part s)) 0 = true → nulls s = [] →
  file_ok s (fd_inode f) i bl data → i_no i < 256 → Forall is_byte buf → 0 < n → (i_size i + n) / 512 < 139 →
  (blocks_wanted i bl n ≤ n_free (block_bitmap (cur_part s)))%nat →
  ∃ s2 s3 s4, sys_write s fd buf n = Ok (n, [], s2) ∧ sys_lseek s2 fd (i_size i) SEEK_SET = Ok (i_size i, s3) ∧
    sys_read s3 fd n = Ok (n, buf, s4).
Proof.
  intros Hd Hfd Hflag n Hlo Hok H0 Hnulls Hf Hno Hb Hn Hmax Hfree.
  pose proof (io_size _ (fo_iok _ _ _ _ _ Hf)) as Hsz. unfold word in Hsz. fold n in Hfree.
  destruct (sys_write_spec s fd k f i bl data buf) as (s2 & Hw & i2 & bl2 & Hf2 & _ & Hsz2 & _ & Hlo2 & Hok2 & _ & Hnl2 & _ & Hft2 & _ & Hfd2 & _);
    try done; [fold n; zdlia|]. fold n in Hw, Hsz2, Hft2. destruct Hd as [[Hfd0 Hloc] [Hk Hft] _].
  assert (descriptor s2 fd k (File (u32 (i_size i + n - 1)) (fd_flag f) (fd_inode f)) i2) as Hd2.
  { constructor; [by rewrite Hfd2| |apply (fo_inode _ _ _ _ _ Hf2)]. split; [done|]. rewrite Hft2. apply list_lookup_insert_eq.
    by eapply lookup_lt_Some. }
  pose proof (sys_lseek_spec s2 fd k _ i2 (i_size i) SEEK_SET Hd2) as Hseek. cbn [fd_pos fd_flag fd_inode] in Hseek.
  unfold seek_target in Hseek. change (SEEK_SET =? SEEK_SET) with true in Hseek. cbv zeta iota in Hseek.
  rewrite Z.add_0_l, bool_decide_eq_true_2 in Hseek by lia.
  set (s3 := put_file s2 k (File (i_size i) (fd_flag f) (fd_inode f))) in *.
  pose proof (file_read_spec s3 k (File (i_size i) (fd_flag f) (fd_inode f)) i2 bl2 (data ++ buf) n Hlo2 Hok2) as Hread.
  assert (readable i2 (i_size i) n = n) as Hr by (unfold readable; rewrite Hsz2; zcase; lia).
  cbn [fd_pos fd_flag fd_inode] in Hread. rewrite Hr, bool_decide_eq_false_2 in Hread by lia.
  destruct Hread as (s4 & Hread & _); [by rewrite <- Hnulls, <- Hnl2|lia| |by destruct Hf2|lia|zdlia|done|].
  { apply list_lookup_insert_eq. rewrite Hft2, length_insert. by eapply lookup_lt_Some. }
  exists s2, s3, s4. split; [done|]. split; [apply Hseek; rewrite ?u32_small by zdlia; unfold SEEK_SET; zdlia|]. unfold sys_read. rewrite (proj2 (Z.ltb_ge fd 0)) by lia.
  destruct (descriptor_ok _ _ _ _ _ Hd2) as (Hg & _). change (fd_local2global s3 fd) with (fd_local2global s2 fd).
  rewrite Hg. ocbn. rewrite Hread. do 2 f_equal. f_equal. unfold slice. rewrite <- (file_data_length _ _ _ _ _ Hf).
  rewrite drop_app_length. apply take_ge. lia.
Qed.

(** A file that is created, written, and read from its start gives back what was
    written, all through the system calls and the descriptor that [sys_open]
    returned. *)
Theorem create_write_read s P dd i name flags n k fd buf :
  let len := Z.of_nat (length buf) in
  tree s P → can_create s dd i name n k fd → dirs s !! root_dir = Some dd → root_name name →
  lookup_name name (dir_entries (disk s) i) = None → 5 ≤ flags ≤ 7 → bit (block_bitmap (cur_part s)) 0 = true →
  Forall is_byte buf → 0 < len → len / 512 < 139 →
  (blocks_wanted (new_inode n) [] len < n_free (block_bitmap (cur_part s)))%nat →
  ∃ s1 s2 s3 s4, sys_open s (slash :: name) flags = Ok (fd, s1) ∧ sys_write s1 fd buf len = Ok (len, [], s2) ∧
    sys_lseek s2 fd 0 SEEK_SET = Ok (0, s3) ∧ sys_read s3 fd len = Ok (len, buf, s4).
Proof.
  intros len Ht Hcc Hdd Hn Hnone Hflags H0 Hb Hlen Hmax Hfree.
  destruct (sys_open_create_spec s P dd i name flags n k fd) as (p & s1 & Hopen & Hcr); try done; [lia|].
  destruct Hcc as [? ? ? ? ? (Hdir & _) [? ?] [[? _] ?] ? [Hslot Hfd]]. pose proof (di_inode _ _ _ Hdir).
  pose proof (created_descriptor _ _ _ _ _ _ _ _ _ _ Hcr Hslot Hfd) as Hd.
  assert (file_ok s1 p (new_inode n) [] []) as Hf by (eapply created_file; try done; lia).
  destruct (n_free_pos (block_bitmap (cur_part s))) as (b & Hb1 & _); [lia|].
  pose proof (cr_free _ _ _ _ _ _ _ _ _ _ Hcr). destruct Hfd as [Hfd _].
  destruct (cr_blocks _ _ _ _ _ _ _ _ _ _ Hcr (data_start_lba (sb (cur_part s)))) as (_ & Hu & _).
  { unfold is_block, block_no. lia. }
  { unfold block_used, block_no. by rewrite Z.sub_diag. }
  destruct (write_seek_read s1 fd k (File 0 flags p) (new_inode n) [] [] buf) as (s2 & s3 & s4 & Hw & Hs & Hr); try done.
  - lia.
  - cbn [fd_flag]. assert (flags = 5 ∨ flags = 6 ∨ flags = 7) as [->|[->| ->]] by lia; done.
  - apply (cr_layout _ _ _ _ _ _ _ _ _ _ Hcr).
  - apply (cr_disk _ _ _ _ _ _ _ _ _ _ Hcr).
  - unfold block_used, block_no in Hu. by rewrite (proj1 (cr_part _ _ _ _ _ _ _ _ _ _ Hcr)), Z.sub_diag in Hu.
  - apply (cr_heap _ _ _ _ _ _ _ _ _ _ Hcr).
  - fold len. clearbody len. lia.
  - exists s1, s2, s3, s4. by split_and!.
Qed.
(** ** The first file of a new file system *)

Section first_file.
Context (part : partition) (bm fdt : list Z) (d0 d d1 : D) (p : Z).
Context (Hp : part_ok bd_size part) (Hf : formatted d0 d part bm) (Hnew : new_bitmap (sec_cnt part) bm) (Hd1 : same_sectors d d1).
Notation b := (new_super_block (start_lba part) (sec_cnt part)).
Notation root := (set_open_cnts (root_inode b) 1).
Notation s1 := (opened_root part bm (replicate 32 (File 0 0 NULL)) fdt p d1).
Context (Hfresh : fresh_root s1).

(** There are blocks left. *)
Lemma new_free_blocks : (Z.to_nat (block_cnt (sec_cnt part) - 1) ≤ n_free (block_bitmap (cur_part s1)))%nat.
Proof.
  destruct Hnew as (_ & _ & Hbit). pose proof (part_bounds _ _ Hp). unfold n_free, free_bits.
  change (block_bitmap (cur_part s1)) with (Bitmap (bitmap_sects (sec_cnt part) * 512) bm).
  rewrite <- (length_seqZ 1 (block_cnt (sec_cnt part) - 1)). apply submseteq_length, NoDup_submseteq; [apply NoDup_seqZ|].
  intros k Hk%elem_of_seqZ. apply list_elem_of_filter. unfold nbits. cbn [btmp_bytes_len].
  assert (block_cnt (sec_cnt part) ≤ bitmap_sects (sec_cnt part) * 4096) by (unfold bitmap_sects; zdlia).
  split; [|apply elem_of_seqZ; lia]. change (bitv bm k = false). rewrite Hbit by lia. apply bool_decide_eq_false_2. lia.
Qed.

Lemma new_lookup name : root_name name → lookup_name name (dir_entries d1 root) = None.
Proof.
  intros [(Hne & Hc & Hl) _ [Hd Hdd]]. rewrite (new_root_entries part bm d0 d Hp Hf d1 Hd1). unfold lookup_name.
  rewrite filter_app, (blank_unnamed (replicate 19 blank)) by (try done; by apply Forall_replicate).
  rewrite !filter_cons, !decide_False; [done|..].
  - change (has_name (dotdot_entry 0) name) with (str_eq ([] ++ dotdot ++ replicate 14 0) (Z.of_nat (length (@nil Z))) name).
    rewrite str_eq_padded, bool_decide_eq_false_2 by (done || lia || by repeat constructor). done.
  - change (has_name (dot_entry 0) name) with (str_eq ([] ++ dot ++ replicate 15 0) (Z.of_nat (length (@nil Z))) name).
    rewrite str_eq_padded, bool_decide_eq_false_2 by (done || lia || by repeat constructor). done.
Qed.

Lemma new_has_room : list_find (has_room d1) (direct root) = Some (0%nat, data_start_lba b).
Proof.
  apply list_find_Some. split; [done|]. split; [right|intros j y _ Hj; lia].
  rewrite (proj2 Hd1), (fm_root _ _ _ _ Hf : bd_sector d (data_start_lba b) = first_sector 0 0). vm_compute. discriminate.
Qed.

Lemma new_first_inode : first_free (inode_bitmap (cur_part s1)) 1.
Proof.
  split; [vm_compute; split; congruence|]. split; [vm_compute; reflexivity|].
  intros k Hk. assert (k = 0) as -> by lia. vm_compute. reflexivity.
Qed.

Lemma new_closed q j : inodes s1 !! q = Some j → i_no j ≠ 1.
Proof. intros Hj. unfold opened_root in Hj. cbn [inodes] in Hj. by apply lookup_singleton_Some in Hj as [_ <-]. Qed.

Lemma new_block_zero : bit (block_bitmap (cur_part s1)) 0 = true.
Proof.
  destruct Hnew as (_ & _ & Hbit). change (bitv bm 0 = true). pose proof (part_bounds _ _ Hp). rewrite Hbit by lia.
  apply bool_decide_eq_true_2. by left.
Qed.

Lemma new_can_create name : fdt !! 3%nat = Some (-1) → name_ok name → Forall is_byte name →
  can_create s1 (Dir p 0 (replicate 512 0)) root name 1 3 3.
Proof.
  intros Hfdt Hname Hbytes. destruct Hfresh as [Ht _]. pose proof (tr_base _ _ Ht) as []. constructor; try done.
  - split; [by eapply new_root_dir|]. split; [done|]. split; [done|].
    exists 0%nat, (data_start_lba b). split; [exact new_has_room|]. pose proof (data_start_bounds part Hp). lia.
  - split; [exact new_first_inode|lia].
  - exact new_closed.
  - split; (split; [unfold MAX_FILE_OPEN, MAX_FILES_OPEN_PER_PROC; lia|split; [|intros j Hj; lia]]); [|done]. exists (File 0 0 NULL). by split.
Qed.
End first_file.

(** C4. From a blank disk to a file: [filesys_init] makes a file system on the partition,
    [sys_open] creates the first file in it, and what is written to the file is
    what is read from its start. *)
Theorem first_file_reads_back hd part pad fdt name flags buf :
  let len := Z.of_nat (length buf) in
  one_partition hd part → length pad = 460%nat → Forall is_byte pad →
  le32_at (bd_sector (sdev hd) (start_lba part + 1)) 0 ≠ fs_magic → fdt !! 3%nat = Some (-1) →
  root_name name → Forall is_byte name → 5 ≤ flags ≤ 7 → Forall is_byte buf → 0 < len → len / 512 < 139 →
  Z.of_nat (blocks_wanted (new_inode 1) [] len) < block_cnt (sec_cnt part) - 1 →
  ∃ s s1 s2 s3 s4, filesys_init [hd] [] pad fdt = Ok s ∧ sys_open s (slash :: name) flags = Ok (3, s1) ∧
    sys_write s1 3 buf len = Ok (len, [], s2) ∧ sys_lseek s2 3 0 SEEK_SET = Ok (0, s3) ∧ sys_read s3 3 len = Ok (len, buf, s4).
Proof.
  intros len Hone Hpad Hpb Hmag Hfdt Hn Hnb Hflags Hb Hlen Hmax Hfree. pose proof (op_ok _ _ Hone) as Hp.
  destruct (init_part_new (sdev hd) part pad) as (d0 & d & bm & _ & Hi & Hf & Hnew); [apply Hone|done..|].
  destruct (filesys_init_opened hd part pad fdt d0 d bm Hone Hi Hf Hnew) as (p & d1 & Hinit & Hfresh & Hd1).
  set (s := opened_root part bm (replicate 32 (File 0 0 NULL)) fdt p d1) in *.
  pose proof (new_free_blocks part bm fdt d1 p Hp Hnew) as Hblocks. change (opened_root _ _ _ _ _ _) with s in Hblocks.
  destruct (create_write_read s (λ n, n = 0) (Dir p 0 (replicate 512 0))
    (set_open_cnts (root_inode (new_super_block (start_lba part) (sec_cnt part))) 1) name flags 1 3 3 buf)
    as (s1 & s2 & s3 & s4 & Ho & Hw & Hs & Hr); try done.
  - apply Hfresh.
  - eapply new_can_create; try done. apply Hn.
  - by eapply new_lookup.
  - by eapply new_block_zero.
  - fold len. lia.
  - exists s, s1, s2, s3, s4. by split_and!.
Qed.
End open_root.

Module OpenExample.
Import RamDisk FsExample DirExample SearchExample CreateExample MountExample.

Lemma root_name_x : root_name [120].
Proof. constructor; [apply (cc_name _ _ _ _ _ _ _ can_create_x)|by intros ?%list_elem_of_singleton|done]. Qed.

Lemma sys_open_creates_witness : ∃ p s', sys_open fs1 (slash :: [120]) (Z.lor O_CREAT O_RDWR) = Ok (3, s') ∧
  descriptor s' 3 3 (File 0 6 p) (new_inode 1).
Proof.
  destruct (sys_open_creates fs1 (λ n, n = 0) root root_node [120] 6 1 3 3 tree1 can_create_x eq_refl root_name_x)
    as (p & s' & Ho & _ & _ & Hd & _); [vm_compute; reflexivity|lia|].
  exists p, s'. split; [exact Ho|exact Hd].
Defined.

(** "hi" *)
Lemma create_write_read_witness : ∃ s1 s2 s3 s4, sys_open fs1 (slash :: [120]) 6 = Ok (3, s1) ∧
  sys_write s1 3 [104; 105] 2 = Ok (2, [], s2) ∧ sys_lseek s2 3 0 SEEK_SET = Ok (0, s3) ∧
  sys_read s3 3 2 = Ok (2, [104; 105], s4).
Proof.
  apply (create_write_read fs1 (λ n, n = 0) root root_node [120] 6 1 3 3 [104; 105]).
  - exact tree1.
  - exact can_create_x.
  - reflexivity.
  - exact root_name_x.
  - vm_compute. reflexivity.
  - lia.
  - vm_compute. reflexivity.
  - by repeat constructor.
  - cbn. lia.
  - done.
  - apply Nat.ltb_lt. vm_compute. reflexivity.
Defined.
Lemma first_file_reads_back_witness : ∃ s s1 s2 s3 s4,
  filesys_init [sdb] [] (replicate 460 0) [0; 1; 2; -1; -1; -1; -1; -1] = Ok s ∧ sys_open s (slash :: [120]) 6 = Ok (3, s1) ∧
  sys_write s1 3 [104; 105] 2 = Ok (2, [], s2) ∧ sys_lseek s2 3 0 SEEK_SET = Ok (0, s3) ∧ sys_read s3 3 2 = Ok (2, [104; 105], s4).
Proof.
  apply (first_file_reads_back sdb sdb1 (replicate 460 0) [0; 1; 2; -1; -1; -1; -1; -1] [120] 6 [104; 105]).
  - by constructor; [..|exact sdb1_ok|].
  - apply pad_ok.
  - apply pad_ok.
  - vm_compute. discriminate.
  - reflexivity.
  - exact root_name_x.
  - by repeat constructor.
  - lia.
  - by repeat constructor.
  - cbn. lia.
  - done.
  - vm_compute. reflexivity.
Defined.
End OpenExample.
