(* ===== verification/FsUnlink.v ===== *)
(** * fs/inode.c, fs/fs.c: removing a file

    [inode_release] gives the blocks of a file and its inode back, [sys_unlink]
    also takes its entry out of the directory. *)

From stdpp Require Import base numbers list gmap.
From Stdlib Require Import ZArith Lia.
From S2P Require Import Prelude Bitmap Block FsState ThreadInit FsAlloc Inode FsFile FsWrite FsRead Dir FsPath DirSpec DirDelete.
From S2P Require Import FsSearch FsCalls FsCallsSpec FsCreate FsOpen.

(** ** Giving blocks back *)

Section freeing.
Context {D : Type} `{BlockDevice D}.
Implicit Types (s x : fs D).

(** [s'] is [s] with the blocks of [ls] marked free: only sectors of the block bitmap
    are written. *)
Record freed s s' (ls : list Z) : Prop := {
  fr_part : ∃ b, cur_part s' = with_bitmap (cur_part s) b;
  fr_layout : layout_ok (cur_part s');
  fr_nbits : nbits (block_bitmap (cur_part s')) = nbits (block_bitmap (cur_part s));
  fr_used l : is_block (cur_part s) l → block_used (cur_part s') l = block_used (cur_part s) l && negb (bool_decide (l ∈ ls));
  fr_rest : inodes s' = inodes s ∧ dirs s' = dirs s ∧ file_table s' = file_table s ∧ fd_table s' = fd_table s ∧
    cwd_inode_nr s' = cwd_inode_nr s ∧ live s' = live s ∧ nulls s' = nulls s;
  fr_disk : bd_ok (disk s');
  fr_sectors l : inode_bitmap_lba (sb (cur_part s)) ≤ l → bd_sector (disk s') l = bd_sector (disk s) l
}.

Lemma freed_refl s d : layout_ok (cur_part s) → same_sectors (disk s) d → freed s (set_disk s d) [].
Proof.
  intros Hlo [Hok Hs]. constructor; try done.
  - exists (block_bitmap (cur_part s)). by destruct s as [[]].
  - intros l _. rewrite bool_decide_eq_false_2 by apply not_elem_of_nil. by rewrite andb_true_r.
Qed.

Lemma freed_block s s' ls l : freed s s' ls → is_block (cur_part s') l ↔ is_block (cur_part s) l.
Proof. intros Hf. destruct (fr_part _ _ _ Hf) as [b Hb]. unfold is_block, block_no. rewrite (fr_nbits _ _ _ Hf), Hb. done. Qed.

Lemma freed_trans s s1 s2 ls ls' : freed s s1 ls → freed s1 s2 ls' → freed s s2 (ls ++ ls').
Proof.
  intros H1 H2. destruct (fr_part _ _ _ H1) as [b1 Hb1]. destruct (fr_part _ _ _ H2) as [b2 Hb2]. constructor.
  - exists b2. by rewrite Hb2, Hb1.
  - apply (fr_layout _ _ _ H2).
  - rewrite (fr_nbits _ _ _ H2). apply (fr_nbits _ _ _ H1).
  - intros l Hl. rewrite (fr_used _ _ _ H2) by (by apply (freed_block _ _ _ _ H1)). rewrite (fr_used _ _ _ H1), <- andb_assoc, <- negb_orb by done.
    do 2 f_equal. rewrite <- bool_decide_or. apply bool_decide_ext. by rewrite elem_of_app.
  - destruct (fr_rest _ _ _ H1) as (? & ? & ? & ? & ? & ? & ?), (fr_rest _ _ _ H2) as (? & ? & ? & ? & ? & ? & ?). split_and!; congruence.
  - apply (fr_disk _ _ _ H2).
  - intros l Hl. rewrite (fr_sectors _ _ _ H2), (fr_sectors _ _ _ H1); [done|done|]. by rewrite Hb1.
Qed.

Lemma release_block_spec s lba : layout_ok (cur_part s) → bd_ok (disk s) → is_block (cur_part s) lba → 0 < block_no (cur_part s) lba →
  ∃ s', release_block s lba = Ok s' ∧ freed s s' [lba].
Proof.
  intros Hlo Hok Hb H0. destruct (free_block_spec s Hlo s lba eq_refl Hok Hb) as (b & d & Hfree & Hlo' & Hnb & Hd & Hs & Hbit).
  exists (set_disk (set_block_bitmap s b) d). split.
  - unfold release_block. destruct (block_idx_u32 s lba Hlo Hb) as (Hidx & _ & _). rewrite Hidx, (proj2 (Z.ltb_lt 0 _)) by done. ocbn.
    unfold free_block in Hfree. rewrite Hidx in Hfree. exact Hfree.
  - constructor; try done; [by exists b|]. intros l Hl. unfold block_used at 1.
    change (block_no (cur_part (set_disk (set_block_bitmap s b) d)) l) with (block_no (cur_part s) l).
    change (block_bitmap (cur_part (set_disk (set_block_bitmap s b) d))) with b. rewrite Hbit by done. do 2 f_equal.
    apply bool_decide_ext. by rewrite list_elem_of_singleton.
Qed.

(** A list of addresses, with zeros for blocks that are not there. *)
Lemma release_blocks_spec l : ∀ s, layout_ok (cur_part s) → bd_ok (disk s) →
  Forall (λ lba, lba ≠ 0 → is_block (cur_part s) lba ∧ 0 < block_no (cur_part s) lba) l →
  ∃ s', release_blocks s l = Ok s' ∧ freed s s' (filter (λ lba, lba ≠ 0) l).
Proof.
  induction l as [|lba l IH]; intros s Hlo Hok Hl; cbn [release_blocks].
  { exists s. split; [done|]. pose proof (freed_refl s (disk s) Hlo (same_sectors_refl _ Hok)) as Hf. by destruct s. }
  apply Forall_cons in Hl as [Hb Hl]. unfold truth. destruct (Z.eqb_spec lba 0) as [->|Hz]; cbn [negb].
  - rewrite filter_cons_False by (intros Hne; by apply Hne). by apply IH.
  - rewrite filter_cons_True by done. destruct (Hb Hz) as [Hb1 Hb0].
    destruct (release_block_spec s lba Hlo Hok Hb1 Hb0) as (s1 & -> & Hf1). ocbn.
    destruct (IH s1) as (s' & -> & Hf2); [apply (fr_layout _ _ _ Hf1)|apply (fr_disk _ _ _ Hf1)| |].
    + eapply Forall_impl; [exact Hl|]. intros l' Hl' Hz'. destruct (Hl' Hz') as [? ?]. split; [by apply (freed_block _ _ _ _ Hf1)|].
      destruct (fr_part _ _ _ Hf1) as [b Hpb]. rewrite Hpb. done.
    + exists s'. split; [done|]. by apply (freed_trans s s1 s' [lba]).
Qed.
End freeing.

(** ** [inode_release] *)

Section release.
Context {D : Type} `{BlockDevice D}.
Implicit Types (s x : fs D) (d : D).

(** The addresses of the blocks of a file, as [read_all_blocks] lists them. *)
Lemma file_addresses d i bl : block_map (bd_sector d) i bl → dir_blocks d i = bl ++ replicate (140 - length bl) 0.
Proof.
  intros [Hlen Hsec Hdir Hnone Htab]. unfold dir_blocks.
  assert (take 12 (i_sectors i) = take 12 (bl ++ replicate 140 0)) as ->.
  { apply list_eq. intros k. destruct (decide (k < 12)%nat) as [Hk|Hk].
    - rewrite !lookup_take_lt, Hdir by done. destruct (bl !! k) as [b|] eqn:E; [by rewrite (lookup_app_l_Some _ _ _ _ E)|].
      apply lookup_ge_None in E. rewrite lookup_app_r by done. symmetry. apply lookup_replicate_2. lia.
    - rewrite !lookup_take_ge by lia. done. }
  destruct (decide (12 < length bl)%nat) as [Hl|Hl].
  - destruct (Htab Hl) as [Ht ->]. unfold truth. rewrite (proj2 (Z.eqb_neq _ 0)) by done. cbn [negb].
    rewrite take_app_le by lia. by rewrite app_assoc, take_drop.
  - rewrite (Hnone ltac:(lia)). change (truth 0) with false. cbv iota.
    rewrite take_app_ge, take_replicate, <- app_assoc, <- replicate_add by lia. do 2 f_equal. lia.
Qed.

Lemma filter_addresses bl (k m : nat) : Forall (λ l, l ≠ 0) bl → (length bl ≤ k)%nat →
  filter (λ l, l ≠ 0) (take k (bl ++ replicate m 0)) = bl.
Proof.
  intros Hb Hk. rewrite take_app_ge, take_replicate, filter_app by done.
  assert (∀ j, filter (λ l : Z, l ≠ 0) (replicate j 0) = []) as ->.
  { induction j as [|j IH]; [done|]. cbn [replicate]. rewrite filter_cons_False by (intros Hne; by apply Hne). done. }
  rewrite app_nil_r. induction Hb as [|l bl Hl _ IH]; [done|]. rewrite filter_cons_True by done. f_equal. apply IH. cbn in Hk. lia.
Qed.

(** A file that is closed: [bl] are its blocks, none of them the first block of the
    partition. *)
Record stored_file s (n : Z) (bl : list Z) : Prop := {
  sf_range : 0 ≤ n < 4096;
  sf_no : i_no (stored_inode (cur_part s) (disk s) n) = n;
  sf_closed q j : inodes s !! q = Some j → i_no j ≠ n;
  sf_map : block_map (bd_sector (disk s)) (stored_inode (cur_part s) (disk s) n) bl;
  sf_used : Forall (λ l, is_block (cur_part s) l ∧ 0 < block_no (cur_part s) l) (owned (stored_inode (cur_part s) (disk s) n) bl)
}.

(** [s'] is [s] without the file. *)
Record released s s' (n : Z) (bl : list Z) : Prop := {
  rl_part : m_start_lba (cur_part s') = m_start_lba (cur_part s) ∧ m_sec_cnt (cur_part s') = m_sec_cnt (cur_part s) ∧
    sb (cur_part s') = sb (cur_part s) ∧ open_inodes (cur_part s') = open_inodes (cur_part s);
  rl_nbits : nbits (block_bitmap (cur_part s')) = nbits (block_bitmap (cur_part s));
  rl_blocks l : is_block (cur_part s) l → block_used (cur_part s') l = block_used (cur_part s) l &&
    negb (bool_decide (l ∈ owned (stored_inode (cur_part s) (disk s) n) bl));
  rl_bits j : 0 ≤ j → bit (inode_bitmap (cur_part s')) j = bit (inode_bitmap (cur_part s)) j && negb (bool_decide (j = n));
  rl_bitmap : bd_sector (disk s') (inode_bitmap_lba (sb (cur_part s))) = bits (inode_bitmap (cur_part s'));
  rl_stored : stored_inode (cur_part s') (disk s') n = Inode 0 0 0 0 (replicate 13 0);
  rl_others m : 0 ≤ m < 4096 → m ≠ n → stored_inode (cur_part s') (disk s') m = stored_inode (cur_part s) (disk s) m;
  rl_sectors l : data_start_lba (sb (cur_part s)) ≤ l → bd_sector (disk s') l = bd_sector (disk s) l;
  rl_rest : inodes s' = inodes s ∧ dirs s' = dirs s ∧ file_table s' = file_table s ∧ fd_table s' = fd_table s ∧
    cwd_inode_nr s' = cwd_inode_nr s ∧ live s' = live s ∧ nulls s' = [];
  rl_layout : layout_ok (cur_part s');
  rl_disk : bd_ok (disk s')
}.

(** The blocks of the file that is open in [x]. *)
Lemma release_all x p i bl : layout_ok (cur_part x) → bd_ok (disk x) → inodes x !! p = Some i → block_map (bd_sector (disk x)) i bl →
  Forall (λ l, is_block (cur_part x) l ∧ 0 < block_no (cur_part x) l) (owned i bl) →
  ∃ all_blocks x1 x2 y, read_all_blocks x i = Ok (all_blocks, x1) ∧ i_sector i 12 = Ok (table_of i) ∧
    (if truth (table_of i) then release_block x1 (table_of i) else Ok x1) = Ok x2 ∧
    release_blocks x2 (take (if truth (table_of i) then 140 else 12) all_blocks) = Ok y ∧
    freed x y ((if decide (12 < length bl)%nat then [table_of i] else []) ++ bl).
Proof.
  intros Hlo Hok Hi Hmap Hown. pose proof (file_addresses _ _ _ Hmap) as Haddr.
  assert (Forall (λ l, is_block (cur_part x) l ∧ 0 < block_no (cur_part x) l) bl) as Hbl.
  { apply Forall_forall. intros l Hl. by apply (proj1 (Forall_forall _ _) Hown), owned_blocks. }
  assert (Forall (λ l, l ≠ 0) bl) as Hnz.
  { eapply Forall_impl; [exact Hbl|]. intros l [Hb _]. destruct (block_word _ _ Hlo Hb). lia. }
  assert (0 ≤ table_of i < bd_size) as Htab.
  { destruct (decide (12 < length bl)%nat) as [Hl|Hl].
    - destruct (proj1 (Forall_forall _ _) Hown _ (owned_table i bl Hl)) as [Hb _]. destruct (block_word _ _ Hlo Hb). lia.
    - rewrite (bm_none _ _ _ Hmap) by lia. pose proof (layout_bounds _ Hlo). lia. }
  destruct (read_all_blocks_spec x i Hok) as (d & Hread & Hd).
  { constructor; [apply (bm_sectors _ _ _ Hmap)|done|]. rewrite Haddr. apply Forall_app. split.
    - eapply Forall_impl; [exact Hbl|]. intros l [Hb _]. destruct (block_word _ _ Hlo Hb). lia.
    - apply Forall_replicate. pose proof (layout_bounds _ Hlo). lia. }
  exists (dir_blocks (disk x) i), (set_disk x d). rewrite Haddr in *.
  pose proof (table_sector i (bm_sectors _ _ _ Hmap)) as Hsec. pose proof (freed_refl x d Hlo Hd) as Hf0.
  assert (∀ y ls (k : nat), freed x y ls → (length bl ≤ k)%nat →
    ∃ z, release_blocks y (take k (bl ++ replicate (140 - length bl) 0)) = Ok z ∧ freed x z (ls ++ bl)) as Hrel.
  { intros y ls k Hy Hk. destruct (release_blocks_spec (take k (bl ++ replicate (140 - length bl) 0)) y) as (z & -> & Hz);
      [apply (fr_layout _ _ _ Hy)|apply (fr_disk _ _ _ Hy)| |].
    - apply Forall_take, Forall_app. split; [|by apply Forall_replicate]. eapply Forall_impl; [exact Hbl|]. intros l [Hb H0] _.
      split; [by apply (freed_block _ _ _ _ Hy)|]. destruct (fr_part _ _ _ Hy) as [b ->]. done.
    - rewrite filter_addresses in Hz by done. exists z. split; [done|]. by eapply freed_trans. }
  unfold truth. destruct (decide (12 < length bl)%nat) as [Hl|Hl].
  - destruct (bm_table _ _ _ Hmap Hl) as [Hz _]. rewrite (proj2 (Z.eqb_neq _ 0)) by done. cbn [negb].
    destruct (proj1 (Forall_forall _ _) Hown _ (owned_table i bl Hl)) as [Hb H0].
    destruct (release_block_spec (set_disk x d) (table_of i)) as (y & -> & Hy); [done|apply Hd|done|done|].
    destruct (Hrel y [table_of i] (Z.to_nat 140)) as (z & Hz' & Hfz).
    + by apply (freed_trans x _ y [] [table_of i] Hf0).
    + pose proof (bm_len _ _ _ Hmap). lia.
    + exists y, z. by split_and!.
  - rewrite (bm_none _ _ _ Hmap) in Hsec |- * by lia. change (0 =? 0) with true. cbn [negb].
    destruct (Hrel (set_disk x d) [] (Z.to_nat 12) Hf0) as (z & Hz' & Hfz); [lia|]. exists (set_disk x d), z. by split_and!.
Qed.

(** Closing the only user of an inode. *)
Lemma close_last x p j : inodes x !! p = Some j → i_open_cnts j = 1 → p ≠ NULL →
  inode_close x p =
    Ok (set_inodes (set_heap (set_open_inodes x (filter (λ q, q ≠ p) (open_inodes (cur_part x)))) (live x ∖ {[p]}) (nulls x))
          (delete p (inodes x))).
Proof.
  intros Hj Hc Hp. unfold inode_close. rewrite (get_inode_ok _ _ _ Hj). ocbn. cbn [i_open_cnts set_open_cnts]. rewrite Hc.
  change (u32 (1 - 1) =? 0) with true. cbv iota. rewrite sys_free_ok by done. ocbn.
  unfold set_inodes, set_heap, set_open_inodes, set_part, put_inode. cbn. by rewrite delete_insert_eq.
Qed.

(** Clearing the bit of the inode. *)
Lemma clear_inode_bit x n : layout_ok (cur_part x) → bd_ok (disk x) → 0 ≤ n < 4096 →
  ∃ b d, bitmap_set (inode_bitmap (cur_part x)) n 0 = Ok b ∧
    bitmap_sync (set_inode_bitmap x b) n INODE_BITMAP = Ok (set_disk (set_inode_bitmap x b) d) ∧
    layout_ok (with_inode_bitmap (cur_part x) b) ∧ bd_ok d ∧
    (∀ j, 0 ≤ j → bit b j = bit (inode_bitmap (cur_part x)) j && negb (bool_decide (j = n))) ∧
    ∀ l, bd_sector d l = if bool_decide (l = inode_bitmap_lba (sb (cur_part x))) then bits b else bd_sector (disk x) l.
Proof.
  intros Hlo Hok Hn. pose proof (lo_iarr _ Hlo).
  destruct (bitmap_set_spec (inode_bitmap (cur_part x)) n 0) as (b & Hset & Hwf & Hbl & Hbn & Hbit);
    [apply (lo_iwf _ Hlo)|lia|by left|].
  assert (layout_ok (with_inode_bitmap (cur_part x) b)) as Hlo' by (by apply layout_inode_bitmap).
  destruct (inode_bitmap_sync_spec (set_inode_bitmap x b) n Hlo' Hok Hn) as (d & Hsync & Hd & Hs).
  exists b, d. split; [done|]. split; [done|]. split; [done|]. split; [done|]. split; [|exact Hs].
  intros j Hj. rewrite Hbit by done. case_bool_decide; [by rewrite andb_false_r|by rewrite andb_true_r].
Qed.

(** [inode_open] of an inode that is not open, before the object is used. *)
Definition held s (p : Z) (i : inode) (d : D) : fs D :=
  set_disk (set_open_inodes (set_heap (put_inode s p i) ({[p]} ∪ live s) []) (p :: open_inodes (cur_part s))) d.

(** What is left when the blocks are free in [y], the bit is cleared in [b] and on the disk
    [d1], and the inode is cleared on the disk [d2]. *)
Lemma released_state s n p bl d0 y b d1 d2 q : cache_ok s → layout_ok (cur_part s) → p ∉ open_inodes (cur_part s) → p ∉ live s →
  let i := stored_inode (cur_part s) (disk s) n in
  same_sectors (disk s) d0 → freed (held s p (set_open_cnts i 1) d0) y ((if decide (12 < length bl)%nat then [table_of i] else []) ++ bl) →
  layout_ok (with_inode_bitmap (cur_part y) b) →
  (∀ j, 0 ≤ j → bit b j = bit (inode_bitmap (cur_part y)) j && negb (bool_decide (j = n))) →
  (∀ l, bd_sector d1 l = if bool_decide (l = inode_bitmap_lba (sb (cur_part y))) then bits b else bd_sector (disk y) l) →
  q ∉ live y → inode_stored (with_inode_bitmap (cur_part y) b) d1 d2 n (Inode 0 0 0 0 (replicate 13 0)) →
  released s (Fs (cur_part (set_open_inodes (set_inode_bitmap y b) (filter (λ q, q ≠ p) (open_inodes (cur_part y)))))
    (delete p (inodes y)) (dirs y) (file_table y) (fd_table y) (cwd_inode_nr y) ((({[q]} ∪ live y) ∖ {[q]}) ∖ {[p]}) [] d2) n bl.
Proof.
  intros Hc Hlo Hpo Hpl i Hd0 Hf Hlob Hbit Hs1 Hq (Hd2 & Hst & Hoth & Hs2).
  destruct (fr_rest _ _ _ Hf) as (Hyi & Hyd & Hyf & Hyt & Hyc & Hyl & Hyn). destruct (fr_part _ _ _ Hf) as [bb Hyp].
  pose proof (layout_bounds _ Hlo). assert (sb (cur_part y) = sb (cur_part s)) as Hsb by (by rewrite Hyp).
  assert (∀ l, inode_bitmap_lba (sb (cur_part s)) < l → bd_sector d1 l = bd_sector (disk s) l) as Hsame.
  { intros l Hl. rewrite Hs1, Hsb, bool_decide_eq_false_2 by lia. rewrite (fr_sectors _ _ _ Hf) by (cbn; lia). apply Hd0. }
  constructor.
  - split_and!; [cbn; by rewrite Hyp..|]. transitivity (filter (λ q, q ≠ p) (open_inodes (cur_part y))); [done|]. rewrite Hyp.
    transitivity (filter (λ q, q ≠ p) (p :: open_inodes (cur_part s))); [done|].
    rewrite filter_cons_False by (intros Hne; by apply Hne). apply list_filter_all. intros q' Hq' ->. done.
  - exact (fr_nbits _ _ _ Hf).
  - intros l Hl. transitivity (block_used (cur_part y) l); [done|]. rewrite (fr_used _ _ _ Hf l Hl). do 2 f_equal.
    apply bool_decide_ext. unfold owned. rewrite !elem_of_app. tauto.
  - intros j Hj. cbn. rewrite Hbit, Hyp by done. done.
  - cbn [disk]. trans (bd_sector d1 (inode_bitmap_lba (sb (cur_part s)))).
    + apply Hs2. cbn. rewrite Hsb. lia.
    + rewrite Hs1, Hsb, bool_decide_eq_true_2 by done. done.
  - exact Hst.
  - intros m Hm Hmn. etrans; [apply (Hoth m Hm Hmn)|]. unfold stored_inode, table_byte. cbn. rewrite Hsb.
    apply (stored_frame (cur_part s)); [done|]. intros l Hl. apply Hsame. lia.
  - intros l Hl. cbn [disk]. etrans; [apply Hs2; cbn; rewrite Hsb; lia|]. apply Hsame. lia.
  - cbn. rewrite Hyi, Hyd, Hyf, Hyt, Hyc, Hyl. cbn. split_and!; try done.
    + apply delete_insert_id, eq_None_not_Some. intros Hs. by apply (ca_live _ Hc) in Hs as [? _].
    + rewrite Hyl in Hq. cbn in Hq. clear -Hq Hpl. set_solver.
  - cbn. rewrite Hyp in Hlob |- *. cbn in Hlob |- *. destruct Hlob. by constructor.
  - done.
Qed.

Lemma inode_release_spec s n bl : cache_ok s → layout_ok (cur_part s) → bd_ok (disk s) → nulls s = [] → stored_file s n bl →
  ∃ s', inode_release s n = Ok s' ∧ released s s' n bl.
Proof.
  intros Hc Hlo Hok Hnulls [Hn Hno Hclosed Hmap Hown]. unfold inode_release.
  destruct (inode_open_spec s n Hc Hlo Hok Hn Hnulls) as (p & i & d0 & Ho & Hd0 & -> & Hp0).
  destruct Ho as [(j & _ & Hj & Hjn & _)|(Hpo & Hpl & _ & ->)]; [by destruct (Hclosed _ _ Hj)|].
  rewrite bool_decide_eq_false_2 by done. cbv zeta. ocbn. set (i := stored_inode (cur_part s) (disk s) n) in *.
  fold (held s p (set_open_cnts i 1) d0). set (x := held s p _ d0). assert (layout_ok (cur_part x)) as Hlox by (destruct Hlo; by constructor).
  rewrite (get_inode_ok x p (set_open_cnts i 1)) by apply lookup_insert_eq. ocbn. cbn [i_no set_open_cnts]. rewrite Hno, Z.eqb_refl. ocbn.
  destruct (release_all x p (set_open_cnts i 1) bl) as (ab & x1 & x2 & y & -> & Hsec & Hr1 & Hr2 & Hf); [done|apply Hd0|apply lookup_insert_eq| |done|].
  { destruct Hmap as [? ? ? ? Htab]. constructor; try done. intros Hl. destruct (Htab Hl) as [? Hw]. split; [done|].
    cbn [disk x set_disk]. by rewrite (proj2 Hd0). }
  ocbn. rewrite Hsec. ocbn. rewrite Hr1. ocbn. rewrite Hr2. ocbn.
  destruct (fr_rest _ _ _ Hf) as (Hyi & _ & _ & _ & _ & _ & Hyn).
  destruct (clear_inode_bit y n (fr_layout _ _ _ Hf) (fr_disk _ _ _ Hf) Hn) as (b & d1 & -> & Hsync & Hlob & Hd1 & Hbit & Hs1).
  ocbn. rewrite Hsync. ocbn.
  destruct (sys_malloc_ok (set_disk (set_inode_bitmap y b) d1)) as (q & -> & Hq & Hq0); [exact Hyn|].
  rewrite (proj2 (Z.eqb_neq q NULL)) by done. cbv iota.
  match goal with |- context [inode_delete ?w n] => destruct (inode_delete_spec w n) as (d2 & -> & Hst); [exact Hlob|done|done|] end. ocbn.
  rewrite sys_free_ok by done. ocbn. rewrite (close_last _ p (set_open_cnts i 1)); [|cbn; rewrite Hyi; apply lookup_insert_eq|done|done].
  eexists. split; [done|]. by apply (released_state s n p bl d0 y b d1 d2 q).
Qed.
End release.

(** ** [sys_unlink] *)

Section unlink.
Context {D : Type} `{BlockDevice D}.
Implicit Types (s x : fs D) (d : D).

(** The objects of the other inodes stay when a directory changes. *)
Lemma cache_update s s' p i i' : cache_ok s → inodes s !! p = Some i → inodes s' = <[p := i']> (inodes s) →
  i_no i' = i_no i → i_open_cnts i' = i_open_cnts i → inode_ok i' →
  open_inodes (cur_part s') = open_inodes (cur_part s) → live s' = live s → cache_ok s'.
Proof.
  intros Hc Hi Hin Hno Hcn Hok Hop Hlv.
  assert (∀ q j, inodes s' !! q = Some j → ∃ j0, inodes s !! q = Some j0 ∧ i_no j = i_no j0 ∧ inode_ok j ∧ 1 ≤ i_open_cnts j) as Hold.
  { intros q j. rewrite Hin. intros [[-> <-]|[Hne Hq]]%lookup_insert_Some.
    - exists i. split_and!; try done. rewrite Hcn. by eapply (ca_inode _ Hc).
    - exists j. split_and!; try done; by apply (ca_inode _ Hc q). }
  assert (∀ q, is_Some (inodes s' !! q) ↔ is_Some (inodes s !! q)) as Hdom.
  { intros q. rewrite Hin. destruct (decide (q = p)) as [->|Hne]; [|by rewrite lookup_insert_ne].
    rewrite lookup_insert_eq, Hi. split; by eexists. }
  constructor.
  - rewrite Hop. apply (ca_nodup _ Hc).
  - intros q. rewrite Hop, Hdom. apply (ca_dom _ Hc).
  - intros q j Hj. by destruct (Hold q j Hj) as (_ & _ & _ & ? & ?).
  - intros q q' j j' Hj Hj' Heq. destruct (Hold q j Hj) as (j0 & Hj0 & Hn0 & _), (Hold q' j' Hj') as (j1 & Hj1 & Hn1 & _).
    apply (ca_unique _ Hc q q' j0 j1); congruence.
  - intros q. rewrite Hlv, Hdom. apply (ca_live _ Hc).
Qed.

(** No descriptor stands for the inode. *)
Lemma in_use_closed (heap : gmap Z inode) files n : (∀ q j, heap !! q = Some j → i_no j ≠ n) →
  Forall (λ f, fd_inode f = NULL ∨ is_Some (heap !! fd_inode f)) files → in_use heap files n = Ok false.
Proof.
  intros Hn. induction 1 as [|f files Hf _ IH]; [done|]. cbn [in_use]. destruct (Z.eqb_spec (fd_inode f) NULL) as [|Hz]; [done|].
  destruct Hf as [?|[j Hj]]; [done|]. rewrite Hj. ocbn. rewrite (proj2 (Z.eqb_neq n (i_no j))); [done|]. intros ->. by apply (Hn _ _ Hj).
Qed.

(** The file [name] of the root directory, entry [e] of inode [i], that nobody uses. *)
Record can_unlink s (dd : dir) (i : inode) (name : list Z) (e : dir_entry) (bl : list Z) : Prop := {
  cu_dir : dirs s !! root_dir = Some dd ∧ dir_ok s (d_inode dd) i ∧ i_no i < 256 ∧ 24 ≤ i_size i ∧ dots_together s i;
  cu_name : root_name name;
  cu_entry : filter (λ e, has_name e name = true) (dir_entries (disk s) i) = [e] ∧
    filter (names_inode (de_i_no e)) (dir_entries (disk s) i) = [e] ∧ f_type e = FT_REGULAR;
  cu_file : stored_file s (de_i_no e) bl ∧ de_i_no e ≠ 0;
  cu_apart l : l ∈ owned (stored_inode (cur_part s) (disk s) (de_i_no e)) bl → l ∉ direct i;
  cu_table : Forall (λ f, fd_inode f = NULL ∨ is_Some (inodes s !! fd_inode f)) (file_table s)
}.

(** [s'] is [s] without the file. *)
Record unlinked s (pi : Z) (i : inode) (e : dir_entry) (bl : list Z) s' : Prop := {
  un_dir : ∃ i', inodes s' = <[pi := i']> (inodes s) ∧ i_no i' = i_no i ∧ i_size i' = i_size i - 24 ∧ dir_ok s' pi i' ∧
    inserted (dir_entries (disk s') i') (dir_entries (disk s) i) e ∧ stored_inode (cur_part s') (disk s') (i_no i) = pure i' ∧
    ∀ l, is_block (cur_part s) l → block_used (cur_part s') l = block_used (cur_part s) l &&
      negb (bool_decide (l ∈ direct i ∧ l ∉ direct i')) &&
      negb (bool_decide (l ∈ owned (stored_inode (cur_part s) (disk s) (de_i_no e)) bl));
  un_stored : stored_inode (cur_part s') (disk s') (de_i_no e) = Inode 0 0 0 0 (replicate 13 0);
  un_others m : 0 ≤ m < 4096 → m ≠ de_i_no e → m ≠ i_no i →
    stored_inode (cur_part s') (disk s') m = stored_inode (cur_part s) (disk s) m;
  un_bits j : 0 ≤ j → bit (inode_bitmap (cur_part s')) j = bit (inode_bitmap (cur_part s)) j && negb (bool_decide (j = de_i_no e));
  un_bitmap : bd_sector (disk s') (inode_bitmap_lba (sb (cur_part s))) = bits (inode_bitmap (cur_part s'));
  un_sectors l : data_start_lba (sb (cur_part s)) ≤ l → l ∉ direct i → bd_sector (disk s') l = bd_sector (disk s) l;
  un_rest : dirs s' = dirs s ∧ file_table s' = file_table s ∧ fd_table s' = fd_table s ∧ cwd_inode_nr s' = cwd_inode_nr s ∧
    live s' = live s ∧ nulls s' = [];
  un_part : sb (cur_part s') = sb (cur_part s) ∧ nbits (block_bitmap (cur_part s')) = nbits (block_bitmap (cur_part s));
  un_cache : cache_ok s';
  un_layout : layout_ok (cur_part s');
  un_disk : bd_ok (disk s')
}.

(** The root directory as the walk sees it. *)
Lemma root_list s P dd i : tree s P → dirs s !! root_dir = Some dd → inodes s !! d_inode dd = Some i →
  dir_list s 0 = dir_entries (disk s) i ∧ i_no i = 0.
Proof.
  intros Ht Hdd Hi. destruct (tr_root _ _ Ht) as (dd' & j & Hdd' & Hj & Hno). rewrite Hdd in Hdd'. injection Hdd' as <-.
  rewrite Hi in Hj. injection Hj as <-. split; [|done]. unfold dir_list.
  by rewrite (view_object s 0 (d_inode dd) i) by (done || apply (tb_cache _ (tr_base _ _ Ht))).
Qed.

(** After the entry is gone the file itself is as before. *)
Lemma removed_file s x pi i e bl y i' : cache_ok s → layout_ok (cur_part s) → dir_ok s pi i → cur_part x = cur_part s →
  same_sectors (disk s) (disk x) → inodes x = inodes s →
  stored_file s (de_i_no e) bl → (∀ l, l ∈ owned (stored_inode (cur_part s) (disk s) (de_i_no e)) bl → l ∉ direct i) →
  entry_removed x pi i e y i' → stored_file y (de_i_no e) bl ∧
    stored_inode (cur_part y) (disk y) (de_i_no e) = stored_inode (cur_part s) (disk s) (de_i_no e).
Proof.
  intros Hc Hlo Hdir Hpx Hdx Hix [Hn Hno Hclosed Hmap Hown] Hapart
    (Hin & Hno' & _ & _ & _ & _ & _ & _ & _ & Hsec & _ & _ & _ & _ & _ & _ & _ & [b Hpy] & Hnb & _ & Hoth).
  assert (stored_inode (cur_part y) (disk y) (de_i_no e) = stored_inode (cur_part s) (disk s) (de_i_no e)) as Hst.
  { rewrite Hoth; [|done|intros Heq; by apply (Hclosed pi i (di_inode _ _ _ Hdir))]. rewrite Hpx. apply stored_frame; [done|].
    intros l _. apply Hdx. }
  split; [|done]. constructor; rewrite ?Hst; try done.
  - intros q j. rewrite Hin, Hix. intros [[-> <-]|[_ Hq]]%lookup_insert_Some; [|by eapply Hclosed].
    rewrite Hno'. apply (Hclosed _ _ (di_inode _ _ _ Hdir)).
  - destruct Hmap as [? ? ? ? Htab]. constructor; try done. intros Hl. destruct (Htab Hl) as [? Hw]. split; [done|].
    pose proof (owned_table (stored_inode (cur_part s) (disk s) (de_i_no e)) bl Hl) as Ho.
    rewrite Hsec; [by rewrite (proj2 Hdx)| |by apply Hapart]. rewrite Hpx.
    apply (is_block_high _ _ Hlo). by apply (proj1 (Forall_forall _ _) Hown) in Ho as [? _].
  - eapply Forall_impl; [exact Hown|]. intros l [Hb H0]. unfold is_block, block_no in *. rewrite Hnb, Hpy, Hpx. done.
Qed.

(** The state at the end: [q] is the buffer. *)
Lemma unlinked_state s x pi i e bl y i' z q : cache_ok s → layout_ok (cur_part s) → dir_ok s pi i → cur_part x = cur_part s →
  same_sectors (disk s) (disk x) → inodes x = inodes s → dirs x = dirs s → file_table x = file_table s → fd_table x = fd_table s →
  cwd_inode_nr x = cwd_inode_nr s → live x = {[q]} ∪ live s → q ∉ live s →
  (∀ l, l ∈ owned (stored_inode (cur_part s) (disk s) (de_i_no e)) bl → l ∉ direct i) → 0 ≤ i_no i < 4096 → de_i_no e ≠ i_no i →
  stored_inode (cur_part y) (disk y) (de_i_no e) = stored_inode (cur_part s) (disk s) (de_i_no e) →
  entry_removed x pi i e y i' → released y z (de_i_no e) bl →
  unlinked s pi i e bl (set_heap z (live z ∖ {[q]}) (nulls z)).
Proof.
  intros Hc Hlo Hdir Hpx Hdx Hix Hdirs Hft Hfd Hcwd Hlv Hq Hapart Hino Hne Hsto
    (Hin & Hno & Hsz & Hdy & Hins & Hloy & Hoky & Hpi & Hused & Hsec & Hyd & Hyf & Hyl & Hyn & Hyt & Hyc & Hcn & [b Hpy] & Hnb & Hsub & Hoth) Hrl.
  destruct (rl_rest _ _ _ _ Hrl) as (Hzi & Hzd & Hzf & Hzt & Hzc & Hzl & Hzn).
  destruct (rl_part _ _ _ _ Hrl) as (_ & _ & Hzsb & Hzo). assert (sb (cur_part y) = sb (cur_part s)) as Hsb by (by rewrite Hpy, Hpx).
  assert (∀ l, is_block (cur_part y) l ↔ is_block (cur_part s) l) as Hyb by (intros l; unfold is_block, block_no; by rewrite Hnb, Hsb, Hpx).
  assert (∀ l, is_block (cur_part z) l ↔ is_block (cur_part y) l) as Hzb.
  { intros l. unfold is_block, block_no. by rewrite (rl_nbits _ _ _ _ Hrl), Hzsb. }
  set (f := set_heap z _ _).
  destruct (dir_ok_frame y f pi i' Hdy) as [Hdf Hef]; [cbn; rewrite Hzi; apply (di_inode _ _ _ Hdy)| |].
  { intros l Hl Hz. destruct (proj1 (Forall_forall _ _) (di_blocks _ _ _ Hdy) l Hl) as [?|[Hb Hu]]; [done|].
    split; [by apply Hzb|]. split.
    - change (block_used (cur_part z) l = true). rewrite (rl_blocks _ _ _ _ Hrl l Hb), Hu, Hsto, bool_decide_eq_false_2; [done|].
      intros Ho. apply (Hapart l Ho). by destruct (Hsub l Hl).
    - apply (rl_sectors _ _ _ _ Hrl). apply (is_block_high _ _ Hloy Hb). }
  constructor.
  - exists i'. split; [by cbn; rewrite Hzi, Hin, Hix|]. split; [done|]. split; [done|]. split; [done|].
    split; [rewrite Hef, <- (same_entries _ _ i Hdx); done|]. split.
    + etrans; [apply (rl_others _ _ _ _ Hrl); congruence|]. done.
    + intros l Hl. change (block_used (cur_part f) l) with (block_used (cur_part z) l).
      rewrite (rl_blocks _ _ _ _ Hrl), Hsto, Hused by (try apply Hyb; rewrite ?Hpx; done). by rewrite Hpx.
  - apply (rl_stored _ _ _ _ Hrl).
  - intros m Hm Hmn Hmi. etrans; [apply (rl_others _ _ _ _ Hrl); done|]. rewrite Hoth, Hpx by done.
    apply stored_frame; [done|]. intros l _. apply Hdx.
  - intros j Hj. etrans; [apply (rl_bits _ _ _ _ Hrl j Hj)|]. by rewrite Hpy, Hpx.
  - rewrite <- Hsb. apply (rl_bitmap _ _ _ _ Hrl).
  - intros l Hl Hnl. cbn. rewrite (rl_sectors _ _ _ _ Hrl), Hsec by (rewrite ?Hsb, ?Hpx; done). apply Hdx.
  - cbn. rewrite Hzd, Hzf, Hzt, Hzc, Hzl, Hzn, Hyd, Hyf, Hyt, Hyc, Hyl, Hlv. split_and!; try done. clear -Hq. set_solver.
  - cbn. by rewrite Hzsb, Hsb, (rl_nbits _ _ _ _ Hrl), Hnb, Hpx.
  - apply (cache_update s f pi i i'); try done.
    + apply (di_inode _ _ _ Hdir).
    + by cbn; rewrite Hzi, Hin, Hix.
    + apply (di_iok _ _ _ Hdy).
    + cbn. by rewrite Hzo, Hpy, Hpx.
    + cbn. rewrite Hzl, Hyl, Hlv. clear -Hq. set_solver.
  - apply (rl_layout _ _ _ _ Hrl).
  - apply (rl_disk _ _ _ _ Hrl).
Qed.

(** Taking out the only entry with a name. *)
Lemma inserted_name es es' e name : inserted es es' e → name ≠ [] → Forall (λ c, c ≠ 0) name →
  filter (λ e, has_name e name = true) es' = [e] → lookup_name name es = None.
Proof.
  intros (A & u & v & w & B & -> & -> & Hu & Hv & Hw) Hne Hc Hf. unfold lookup_name.
  rewrite !filter_app, filter_cons, filter_app in Hf. rewrite !filter_app.
  rewrite (blank_unnamed v name Hne Hc Hv), (blank_unnamed w name Hne Hc Hw) in Hf. rewrite (blank_unnamed u name Hne Hc Hu).
  assert (has_name e name = true) as He.
  { assert (e ∈ [e]) as Hin by left. rewrite <- Hf in Hin. destruct (decide (has_name e name = true)) as [|Hno]; [done|].
    cbn [app] in Hin. apply elem_of_app in Hin as [Hin|Hin]; by apply list_elem_of_filter in Hin as [? _]. }
  rewrite decide_True in Hf by done. cbn [app] in *. apply (f_equal length) in Hf. rewrite length_app in Hf. cbn [length] in Hf.
  destruct (filter _ A); [|cbn in Hf; lia]. destruct (filter _ B); [done|cbn in Hf; lia].
Qed.

Lemma sys_unlink_spec s P dd i name e bl : tree s P → can_unlink s dd i name e bl →
  ∃ s', sys_unlink s (slash :: name) = Ok (0, s') ∧ unlinked s (d_inode dd) i e bl s'.
Proof.
  intros Ht [(Hdd & Hdir & Hino & Hsz & Hdots) Hn (Hnm & Hone & Hft) [Hsf Hn0] Hapart Htab]. pose proof (tr_base _ _ Ht) as Hbase.
  pose proof (tb_cache _ Hbase) as Hc. pose proof (tb_layout _ Hbase) as Hlo. pose proof (di_inode _ _ _ Hdir) as Hpi.
  destruct (root_list s P dd i Ht Hdd Hpi) as [Hlist Hno0]. destruct (sf_range _ _ _ Hsf) as [Hr0 Hr1].
  assert (lookup_name name (dir_list s 0) = Some e) as Hlk by (unfold lookup_name; by rewrite Hlist, Hnm).
  pose proof (search_root s P name Ht Hn) as Hsearch. rewrite Hlk in Hsearch.
  destruct Hsearch as (d & Hsearch & Hd); [by rewrite Hft|]. unfold sys_unlink.
  assert (Z.of_nat (length (slash :: name)) < MAX_PATH_LEN) as Hlen.
  { destruct (rn_ok _ Hn) as (_ & _ & ?). unfold MAX_PATH_LEN. cbn [length]. lia. }
  rewrite (proj2 (Z.ltb_lt _ _) Hlen). ocbn. rewrite Hsearch. ocbn. rewrite (proj2 (Z.eqb_neq _ 0)), (proj2 (Z.eqb_neq _ (-1))) by lia.
  ocbn. cbn [file_type parent_dir]. change (FT_REGULAR =? FT_DIRECTORY) with false. cbv iota. rewrite u32_small by lia.
  rewrite (in_use_closed (inodes (set_disk s d)) (file_table (set_disk s d))) by (done || apply (sf_closed _ _ _ Hsf)). ocbn.
  destruct (sys_malloc_ok (set_disk s d) (tb_nulls _ Hbase)) as (q & -> & Hq & Hq0). rewrite (proj2 (Z.eqb_neq q NULL)) by done. cbv iota.
  set (x := set_heap _ _ _).
  destruct (dir_ok_frame s x (d_inode dd) i Hdir) as [Hdx Hex]; [done| |].
  { intros l Hl Hz. destruct (proj1 (Forall_forall _ _) (di_blocks _ _ _ Hdir) l Hl) as [?|[? ?]]; [done|]. split_and!; try done. apply Hd. }
  destruct (delete_dir_entry_spec x (d_inode dd) i (de_i_no e) e Hlo (proj1 Hd) (tb_size _ Hbase) Hdx) with (pdir := root_dir) (dd := dd)
    as (y & i' & -> & Hrem); try done.
  { by rewrite Hex. }
  { intros lba Hl Hz Hdd'. cbn in Hdd' |- *. rewrite (proj2 Hd) in *. by apply Hdots. }
  ocbn. destruct (removed_file s x (d_inode dd) i e bl y i') as [Hsfy Hsto]; try done.
  destruct (inode_release_spec y (de_i_no e) bl) as (z & -> & Hrl); [|apply Hrem|apply Hrem| |done|].
  { destruct Hrem as (Hin & Hno & _ & Hdy & _ & _ & _ & _ & _ & _ & _ & _ & Hyl & _ & _ & _ & Hcn & [b Hpy] & _).
    apply (cache_update x y (d_inode dd) i i'); try done; [by apply cache_ok_heap; [destruct Hc|cbn; set_solver]|apply (di_iok _ _ _ Hdy)|by rewrite Hpy]. }
  { destruct Hrem as (_ & _ & _ & _ & _ & _ & _ & _ & _ & _ & _ & _ & _ & Hyn & _). by rewrite Hyn. }
  ocbn. rewrite sys_free_ok by done. ocbn. eexists. split; [done|].
  apply (unlinked_state s x (d_inode dd) i e bl y i' z q); try done; lia.
Qed.

(** The other files of the partition. *)
Lemma unlinked_others s pi i e bl s' q j bl' data : unlinked s pi i e bl s' → layout_ok (cur_part s) → q ≠ pi → file_ok s q j bl' data →
  (∀ l, l ∈ owned j bl' → l ∉ direct i ∧ l ∉ owned (stored_inode (cur_part s) (disk s) (de_i_no e)) bl) → file_ok s' q j bl' data.
Proof.
  intros Hun Hlo Hq Hf Hdis. destruct (un_part _ _ _ _ _ _ Hun) as [Hsb Hnb]. destruct (un_dir _ _ _ _ _ _ Hun) as (i' & Hin & _ & _ & _ & _ & _ & Hused).
  apply (file_ok_frame s); [done|rewrite Hin, lookup_insert_ne by done; apply (fo_inode _ _ _ _ _ Hf)|]. intros l Hl.
  destruct (proj1 (Forall_forall _ _) (fo_used _ _ _ _ _ Hf) l Hl) as [Hb Hu]. destruct (Hdis l Hl) as [H1 H2].
  split; [unfold is_block, block_no in *; by rewrite Hsb, Hnb|]. split.
  - rewrite Hused, Hu by done. rewrite !bool_decide_eq_false_2 by tauto. done.
  - apply (un_sectors _ _ _ _ _ _ Hun); [|done]. apply (is_block_high _ _ Hlo Hb).
Qed.

(** C7. [sys_unlink] of a file in the root directory that nobody has open: it returns 0,
    the entry is gone, so the name is not found any more while every other name is
    found as before; the blocks and the inode of the file are free, in memory
    and on the disk, and the inode is cleared. The open inodes stay consistent and
    the other files keep their contents. *)
Theorem sys_unlink_removes s P dd i name e bl : tree s P → can_unlink s dd i name e bl →
  ∃ s' i', sys_unlink s (slash :: name) = Ok (0, s') ∧ unlinked s (d_inode dd) i e bl s' ∧ inodes s' !! d_inode dd = Some i' ∧
    used (dir_entries (disk s) i) ≡ₚ e :: used (dir_entries (disk s') i') ∧
    lookup_name name (dir_entries (disk s') i') = None ∧
    (∀ name', name_ok name' → has_name e name' = false →
      lookup_name name' (dir_entries (disk s') i') = lookup_name name' (dir_entries (disk s) i)) ∧
    ∀ q j bl' data, q ≠ d_inode dd → file_ok s q j bl' data →
      (∀ l, l ∈ owned j bl' → l ∉ direct i ∧ l ∉ owned (stored_inode (cur_part s) (disk s) (de_i_no e)) bl) → file_ok s' q j bl' data.
Proof.
  intros Ht Hcu. destruct (sys_unlink_spec s P dd i name e bl Ht Hcu) as (s' & Hs & Hun). exists s'.
  destruct (un_dir _ _ _ _ _ _ Hun) as (i' & Hin & _ & _ & _ & Hins & _). exists i'. destruct Hcu as [_ [(Hne & Hc & _) _ _] (Hnm & _ & Hft) _ _ _].
  split; [done|]. split; [done|]. split; [rewrite Hin; apply lookup_insert_eq|]. split; [apply inserted_used; [done|by rewrite Hft]|].
  split; [by eapply inserted_name|]. split.
  - intros name' (Hne' & Hc' & _) Hhas. by rewrite (inserted_lookup _ _ e name' Hins Hne' Hc'), Hhas.
  - intros q j bl' data. apply (unlinked_others _ _ _ _ _ _ _ _ _ _ Hun), (tb_layout _ (tr_base _ _ Ht)).
Qed.
End unlink.

Module UnlinkExample.
Import RamDisk FsExample DirExample SearchExample.

(** The file "abc" of the root directory with its inode on the disk, closed. *)
Definition abc_closed : inode := Inode 5 3 0 0 (613 :: replicate 12 0).
Definition disk3 : ramdisk := λ l, if l =? 4 then replicate 380 0 ++ inode_bytes abc_closed else disk1 l.
Definition fs3 : fs ramdisk := set_disk fs1 disk3.
Definition root : dir := Dir 200 0 (replicate 512 0).

Lemma root_ok3 : dir_ok fs3 200 root_node.
Proof.
  apply (dir_ok_frame fs1); [exact root_ok|done|]. intros l Hl Hz.
  destruct (proj1 (Forall_forall _ _) (di_blocks _ _ _ root_ok) l Hl) as [?|[? ?]]; [done|]. split_and!; try done.
  apply elem_of_cons in Hl as [->|Hl]; [done|]. by apply (elem_of_replicate_inv _ 11) in Hl as ->.
Qed.

Lemma tree3 : tree fs3 (λ n, n = 0).
Proof.
  destruct (tr_base _ _ tree1). constructor; [by constructor; try done; destruct tb_cache|apply (tr_root _ _ tree1)|done|].
  intros n ->. split; [lia|]. split; [vm_compute; reflexivity|]. split.
  - exact (dir_ok_readable fs3 200 root_node (layout0 [200]) root_ok3).
  - apply (bool_decide_unpack _). vm_compute. exact I.
Qed.

Lemma root_dots3 : dots_together fs3 root_node.
Proof.
  intros lba Hin Hz _. apply list_elem_of_lookup in Hin as [[|j] Hj].
  - injection Hj as <-. apply (bool_decide_unpack _). vm_compute. exact I.
  - apply (lookup_replicate_1 11) in Hj as [? _]. done.
Qed.

Lemma abc_stored : stored_inode (cur_part fs3) (disk fs3) 5 = abc_closed.
Proof. vm_compute. reflexivity. Qed.

Lemma can_unlink_abc : can_unlink fs3 root root_node abc_name abc_entry [613].
Proof.
  constructor.
  - split; [done|]. split; [exact root_ok3|]. split; [done|]. split; [cbn; lia|]. exact root_dots3.
  - constructor; [split; [done|split; [by repeat constructor|cbn; lia]]| |done]. apply (bool_decide_unpack _). vm_compute. exact I.
  - split; [vm_compute; reflexivity|]. split; [vm_compute; reflexivity|done].
  - split; [|done]. change (de_i_no abc_entry) with 5. constructor; rewrite ?abc_stored; try done.
    + intros q j Hj. cbn in Hj. apply lookup_singleton_Some in Hj as [_ <-]. done.
    + constructor; try done; [cbn; lia| |cbn; lia]. intros [|k] Hk; [done|]. apply (lookup_replicate_2 12). lia.
    + apply Forall_singleton. unfold is_block. vm_compute. repeat split; congruence.
  - change (de_i_no abc_entry) with 5. rewrite abc_stored. intros l ->%list_elem_of_singleton. apply (bool_decide_unpack _). vm_compute. exact I.
  - apply (Forall_replicate _ 32). by left.
Qed.

Lemma sys_unlink_removes_witness : ∃ s', sys_unlink fs3 (slash :: abc_name) = Ok (0, s') ∧
  bit (inode_bitmap (cur_part s')) 5 = false ∧ block_used (cur_part s') 613 = false.
Proof.
  destruct (sys_unlink_removes fs3 (λ n, n = 0) root root_node abc_name abc_entry [613] tree3 can_unlink_abc) as (s' & i' & Hs & Hun & _).
  exists s'. split; [exact Hs|]. split; [rewrite (un_bits _ _ _ _ _ _ Hun) by (cbn; lia); apply andb_false_r|].
  destruct (un_dir _ _ _ _ _ _ Hun) as (j & _ & _ & _ & _ & _ & _ & Hu). rewrite Hu.
  - change (de_i_no abc_entry) with 5. rewrite abc_stored, (bool_decide_eq_true_2 (613 ∈ _)) by (by left). apply andb_false_r.
  - unfold is_block. vm_compute. split; congruence.
Defined.
End UnlinkExample.
