(* ===== verification/FsMkdir.v ===== *)
(** * fs/fs.c: making a directory

    [sys_mkdir] in the root directory: the new directory is on the disk with its
    entries [.] and [..], the root directory lists it, and the tree of
    directories has grown by it; [sys_chdir] can then enter it. *)

From stdpp Require Import base numbers list gmap.
From Stdlib Require Import ZArith Lia.
From S2P Require Import Prelude Bitmap Block FsState ThreadInit FsAlloc Inode FsFile FsWrite FsRead Dir FsPath DirSpec FsSearch.
From S2P Require Import FsCalls FsCallsSpec FsCreate FsOpen FsUnlink.

(** ** The first sector of a directory *)

Lemma dots_ok n : word n → entry_ok (dot_entry n) ∧ entry_ok (dotdot_entry n).
Proof. intros Hn. split; constructor; try done; by repeat constructor. Qed.

Lemma first_sector_bytes n m : word n → word m → length (first_sector n m) = 512%nat ∧ Forall is_byte (first_sector n m).
Proof.
  intros Hn Hm. destruct (dots_ok n Hn) as [H1 _], (dots_ok m Hm) as [_ H2]. split; [done|]. unfold first_sector.
  rewrite !Forall_app. split_and!; [by apply dir_entry_bytes_ok..|by apply Forall_replicate].
Qed.

Lemma first_sector_entries n m : word n → word m →
  sector_entries (first_sector n m) = [dot_entry n; dotdot_entry m] ++ replicate 19 blank.
Proof.
  intros Hn Hm. destruct (dots_ok n Hn) as [H1 _], (dots_ok m Hm) as [_ H2].
  assert (first_sector n m = splice (splice (replicate 512 0) (24 * 0) (dir_entry_bytes (dot_entry n))) (24 * 1)
    (dir_entry_bytes (dotdot_entry m))) as -> by reflexivity.
  rewrite !sector_entries_splice, zero_sector by (done || lia). reflexivity.
Qed.

(** The inode of a new directory with its only block [lba]. *)
Definition dir_node (n lba : Z) : inode := Inode n 48 0 0 (lba :: replicate 12 0).

Lemma dir_node_ok n lba : word n → word lba → inode_ok (dir_node n lba).
Proof.
  intros Hn Hl. constructor; try done. cbn [i_sectors dir_node]. apply Forall_cons. split; [done|]. by apply (Forall_replicate _ 12).
Qed.

Lemma dir_node_entries {D : Type} `{BlockDevice D} (d : D) n lba es : lba ≠ 0 → sector_entries (bd_sector d lba) = es →
  dir_entries d (dir_node n lba) = es.
Proof.
  intros Hl <-. rewrite direct_entries by done. unfold direct. change (take 12 (i_sectors (dir_node n lba))) with (lba :: replicate 11 0).
  by rewrite entries_cons, entries_zero, app_nil_r, (proj2 (Z.eqb_neq lba 0)).
Qed.

(** ** The steps of [make_dir] *)

Section make.
Context {D : Type} `{BlockDevice D}.
Context (z : fs D) (dd : dir) (i : inode) (name : list Z) (n a : Z).
Context (Hlo : layout_ok (cur_part z)) (Hok : bd_ok (disk z)) (Hsize : dir_entry_size (sb (cur_part z)) = 24).
Context (Hdd : dirs z !! root_dir = Some dd) (Hdir : dir_ok z (d_inode dd) i) (Hino : i_no i < 256).
Context (Hgrow : i_size i < 2 ^ 32 - 24) (n0 : nat) (lba0 : Z) (Hfind : list_find (has_room (disk z)) (direct i) = Some (n0, lba0)).
Context (Hfree : (2 ≤ n_free (block_bitmap (cur_part z)))%nat) (Hzero : bit (block_bitmap (cur_part z)) 0 = true).
Context (Hname : name_ok name) (Hslash : slash ∉ name) (Hbytes : Forall is_byte name).
Context (Hn : 0 ≤ n < 256) (Hne : i_no i ≠ n) (Ha : a ≠ NULL).

(** [x] is [z] with the new directory, whose inode and whose parent's go to the disk [d]. *)
Record made_on (lba : Z) (x : fs D) (i' : inode) (new ws : list Z) (d : D) : Prop := {
  mo_took : took z x (lba :: new) (lba :: ws);
  mo_written : ∀ l, l ∈ new ++ ws → l ∈ direct i';
  mo_direct : ∀ l, l ∈ direct i' → l ∈ direct i ∨ l ∈ new;
  mo_inodes : inodes x = <[d_inode dd := i']> (inodes z);
  mo_parent : i_no i' = i_no i ∧ i_open_cnts i' = i_open_cnts i ∧ i_size i' = i_size i + 24;
  mo_dir : dir_ok x (d_inode dd) i';
  mo_inserted : inserted (dir_entries (disk z) i) (dir_entries (disk x) i') (entry_named name n FT_DIRECTORY);
  mo_sector : bd_sector (disk x) lba = first_sector n (i_no i);
  mo_synced : synced x i' (dir_node n lba) d
}.

(** A block for the directory. *)
Lemma mkdir_block : ∃ lba s1 s2 d, block_bitmap_alloc z = Ok (lba, s1) ∧ lba ≠ -1 ∧ u32 lba = lba ∧
  data_start_lba (sb (cur_part s1)) = data_start_lba (sb (cur_part z)) ∧
  u32 (lba - data_start_lba (sb (cur_part z))) ≠ 0 ∧
  bitmap_sync s1 (u32 (lba - data_start_lba (sb (cur_part z)))) BLOCK_BITMAP = Ok s2 ∧ inodes s2 = inodes z ∧ dirs s2 = dirs z ∧
  ide_write s2 lba (first_sector n (i_no i)) 1 = Ok (set_disk s2 d) ∧ took z (set_disk s2 d) [lba] [lba] ∧
  bd_sector d lba = first_sector n (i_no i).
Proof.
  destruct (alloc_sync z Hlo Hok) as (lba & s1 & Halloc & Hr & Hm1 & _ & Hin & Hds & Ht1 & Hsync); [lia|].
  pose proof (tk_new _ _ _ _ Ht1) as Hnew. apply Forall_singleton in Hnew as [Hb Hu].
  destruct (block_idx_u32 z lba Hlo Hb) as (Hbi & Hlba & Hl0).
  destruct (Hsync (inodes s1)) as (s2 & Hs2 & Ht2 & Hi2). replace (set_inodes s1 (inodes s1)) with s1 in Hs2 by (by destruct s1).
  destruct (first_sector_bytes n (i_no i)) as [Hfl Hfb]; [unfold word; lia|apply (io_no _ (di_iok _ _ _ Hdir))|].
  destruct (ide_write1 s2 lba (first_sector n (i_no i)) (tk_disk _ _ _ _ Ht2)) as (d & Hw & Hokd & Hsec); [lia|done|done|].
  exists lba, s1, s2, d. rewrite Hbi. split_and!; try done.
  - intros E. unfold block_used in Hu. rewrite E in Hu. congruence.
  - congruence.
  - apply (tk_dirs _ _ _ _ Ht2).
  - apply (took_write z s2 [lba] [] d lba Ht2 Hokd). intros l Hl. by rewrite Hsec, bool_decide_eq_false_2.
  - by rewrite Hsec, bool_decide_eq_true_2.
Qed.

(** The parent still has room. *)
Lemma mkdir_parent lba s2 d : inodes s2 = inodes z → took z (set_disk s2 d) [lba] [lba] →
  dir_ok (set_disk s2 d) (d_inode dd) i ∧ room (set_disk s2 d) i ∧ dir_entries d i = dir_entries (disk z) i ∧ lba ∉ direct i.
Proof.
  intros Hin Ht. pose proof (tk_new _ _ _ _ Ht) as Hnew. apply Forall_singleton in Hnew as [Hb Hu].
  assert (lba ≠ 0) as Hl0 by (destruct (block_word _ _ Hlo Hb); lia).
  assert (lba ∉ direct i) as Hnot.
  { intros Hl. destruct (proj1 (Forall_forall _ _) (di_blocks _ _ _ Hdir) lba Hl) as [?|[_ ?]]; congruence. }
  assert (∀ l, l ∈ direct i → l ≠ 0 → is_block (cur_part (set_disk s2 d)) l ∧ block_used (cur_part (set_disk s2 d)) l = true ∧
    bd_sector d l = bd_sector (disk z) l) as Hsame.
  { intros l Hl Hz. destruct (proj1 (Forall_forall _ _) (di_blocks _ _ _ Hdir) l Hl) as [?|[Hbl Hul]]; [done|].
    split; [by apply (took_block _ _ _ _ _ Ht)|]. split; [by rewrite (tk_used _ _ _ _ Ht), Hul|].
    apply (tk_sectors _ _ _ _ Ht); [apply (is_block_high _ _ Hlo Hbl)|]. intros ->%list_elem_of_singleton. done. }
  destruct (dir_ok_frame z (set_disk s2 d) (d_inode dd) i Hdir) as [Hd2 He2]; [cbn; rewrite Hin; apply (di_inode _ _ _ Hdir)|done|].
  split; [done|]. split; [|done]. exists n0, lba0. split.
  - assert (∀ k l, direct i !! k = Some l → has_room d l ↔ has_room (disk z) l) as Heq.
    { intros k l Hl. unfold has_room. destruct (decide (l = 0)) as [->|Hz]; [tauto|].
      destruct (Hsame l) as (_ & _ & ->); [by eapply list_elem_of_lookup_2|done|done]. }
    apply list_find_Some in Hfind as (H1 & H2 & H3). apply list_find_Some. split; [done|]. split; [by eapply Heq|].
    intros j l Hj Hlt. rewrite (Heq j l Hj). by eapply H3.
  - intros _. pose proof (tk_free _ _ _ _ Ht) as Hf. cbn [length] in Hf. lia.
Qed.

Lemma make_dir_spec : ∃ lba x i' new ws d, made_on lba x i' new ws d ∧
  make_dir z (PathSearchRecord (slash :: name) root_dir FT_UNKNOWN) n a =
    Ok (0, set_heap (set_disk x d) (live x ∖ {[a]}) (nulls x)).
Proof.
  destruct mkdir_block as (lba & s1 & s2 & d1 & Halloc & Hm1 & Hlba & Hds & Hidx & Hsync & Hin & Hdirs & Hwrite & Ht & Hsec).
  destruct (mkdir_parent lba s2 d1 Hin Ht) as (Hd2 & Hroom & Hes & Hnot).
  pose proof (took_sb _ _ _ _ Ht) as (Hsb & _). cbn [cur_part set_disk] in Hsb.
  unfold make_dir. rewrite Halloc. ocbn. rewrite (proj2 (Z.eqb_neq lba (-1))), Hds, (proj2 (Z.eqb_neq _ 0) Hidx), Hsync by done. ocbn.
  cbn [parent_dir searched_path]. rewrite (dir_inode_ok s2 root_dir dd i) by (rewrite ?Hdirs, ?Hin; try apply (di_inode _ _ _ Hdir); done).
  ocbn. rewrite Hlba, Hwrite. ocbn. rewrite after_slash, create_dir_entry_ok by done. ocbn.
  destruct (sync_dir_entry_spec (set_disk s2 d1) (d_inode dd) i (entry_named name n FT_DIRECTORY)) with (pdir := root_dir) (dd := dd)
    as (x & -> & i' & new & ws & Htx & Hone & Hws & Hsub & Hinx & Hno & Hcn & Hsz & Hdx & Hins); try done.
  { apply (tk_layout _ _ _ _ Ht). }
  { apply (tk_disk _ _ _ _ Ht). }
  { cbn. by rewrite Hsb. }
  { apply entry_named_ok; try done; unfold word, FT_DIRECTORY; lia. }
  { cbn. by rewrite Hdirs. }
  ocbn. cbn [negb]. cbv iota. rewrite (dir_inode_ok x root_dir dd i');
    [|rewrite (tk_dirs _ _ _ _ Htx); cbn; by rewrite Hdirs|apply (di_inode _ _ _ Hdx)]. ocbn. cbn [cur_part set_disk]. rewrite Hsb, Hsize.
  change (set_i_size (set_sector (inode_init n) 0 lba) (u32 (2 * 24))) with (dir_node n lba).
  pose proof (tk_new _ _ _ _ Ht) as Hb. apply Forall_singleton in Hb as [Hb _].
  destruct (sync_inodes x i' (dir_node n lba)) as (d2 & d3 & d & -> & Hs2 & Hs3 & Hsy).
  { apply (tk_layout _ _ _ _ Htx). }
  { apply (tk_disk _ _ _ _ Htx). }
  { apply (di_iok _ _ _ Hdx). }
  { by rewrite Hno. }
  { apply dir_node_ok; [unfold word; lia|by apply (block_word _ _ Hlo)]. }
  { cbn. lia. }
  { by rewrite Hno. }
  cbn [i_no dir_node] in Hs3. ocbn. rewrite Hs2. ocbn. rewrite u32_small, Hs3 by lia. ocbn. rewrite sys_free_ok by done. ocbn.
  exists lba, x, i', new, ws, d. split; [|done]. pose proof (took_trans _ _ _ _ _ _ _ Ht Htx) as Hall.
  constructor; try done; [by rewrite <- Hin|cbn in Hins; by rewrite <- Hes|]. rewrite <- Hsec.
  apply (tk_sectors _ _ _ _ Htx); [cbn; rewrite Hsb; apply (is_block_high _ _ Hlo Hb)|]. intros Hl.
  destruct (Hsub lba) as [?|Hl']; [apply Hws, elem_of_app; by right|done|].
  pose proof (tk_nodup _ _ _ _ Hall) as Hnd. apply NoDup_cons in Hnd as [Hnd _]. done.
Qed.
End make.

(** ** The new directory *)

Section made.
Context {D : Type} `{BlockDevice D}.
Implicit Types (s : fs D).

(** What [sys_mkdir] needs to succeed: room for an entry in the root directory, a name
    that is not there, a free inode with a number below 256 that is not open,
    and two free blocks. *)
Record can_mkdir s (dd : dir) (i : inode) (name : list Z) (n : Z) : Prop := {
  cm_root : dirs s !! root_dir = Some dd ∧ dir_ok s (d_inode dd) i ∧ i_size i < 2 ^ 32 - 24;
  cm_room : ∃ n0 lba0, list_find (has_room (disk s)) (direct i) = Some (n0, lba0);
  cm_blocks : (2 ≤ n_free (block_bitmap (cur_part s)))%nat ∧ bit (block_bitmap (cur_part s)) 0 = true;
  cm_name : root_name name ∧ Forall is_byte name ∧ lookup_name name (dir_entries (disk s) i) = None;
  cm_inode : first_free (inode_bitmap (cur_part s)) n ∧ n < 256;
  cm_closed q j : inodes s !! q = Some j → i_no j ≠ n
}.

(** [s'] is [s] with the empty directory [name] in the directory with inode [i] at
    [pi]; its inode has number [n] and its entries are in block [lba]. *)
Record made s (pi : Z) (i : inode) (name : list Z) (n lba : Z) s' : Prop := {
  md_dir : ∃ i', inodes s' = <[pi := i']> (inodes s) ∧ i_no i' = i_no i ∧ i_size i' = i_size i + 24 ∧
    i_open_cnts i' = i_open_cnts i ∧ dir_ok s' pi i' ∧
    inserted (dir_entries (disk s) i) (dir_entries (disk s') i') (entry_named name n FT_DIRECTORY) ∧
    stored_inode (cur_part s') (disk s') (i_no i) = pure i' ∧ (lba ∉ direct i') ∧
    ∀ l, l ∈ direct i' → l ∈ direct i ∨ block_used (cur_part s) l = false;
  md_stored : stored_inode (cur_part s') (disk s') n = dir_node n lba;
  md_sector : bd_sector (disk s') lba = first_sector n (i_no i);
  md_block : is_block (cur_part s') lba ∧ block_used (cur_part s) lba = false ∧ block_used (cur_part s') lba = true;
  md_others m : 0 ≤ m < 4096 → m ≠ n → m ≠ i_no i →
    stored_inode (cur_part s') (disk s') m = stored_inode (cur_part s) (disk s) m;
  md_bit : bit_set (inode_bitmap (cur_part s)) (inode_bitmap (cur_part s')) n;
  md_bitmap : bd_sector (disk s') (inode_bitmap_lba (sb (cur_part s))) = bits (inode_bitmap (cur_part s'));
  md_used l : is_block (cur_part s) l → block_used (cur_part s) l = true →
    is_block (cur_part s') l ∧ block_used (cur_part s') l = true ∧ (l ∉ direct i → bd_sector (disk s') l = bd_sector (disk s) l);
  md_part : sb (cur_part s') = sb (cur_part s) ∧ open_inodes (cur_part s') = open_inodes (cur_part s);
  md_rest : dirs s' = dirs s ∧ file_table s' = file_table s ∧ fd_table s' = fd_table s ∧ cwd_inode_nr s' = cwd_inode_nr s ∧
    live s' = live s ∧ nulls s' = [];
  md_layout : layout_ok (cur_part s');
  md_disk : bd_ok (disk s')
}.

(** The state before [make_dir]. *)
Definition with_number s (a : Z) (b : bitmap) (d : D) : fs D :=
  Fs (with_inode_bitmap (cur_part s) b) (inodes s) (dirs s) (file_table s) (fd_table s) (cwd_inode_nr s) ({[a]} ∪ live s) [] d.

Lemma made_on_made s dd i name n a b d0 lba x i' new ws d : layout_ok (cur_part s) → a ∉ live s → 0 ≤ n < 256 → i_no i < 256 →
  same_sectors (disk s) d0 → dir_ok s (d_inode dd) i → bit_set (inode_bitmap (cur_part s)) b n →
  made_on (with_number s a b d0) dd i name n lba x i' new ws d →
  made s (d_inode dd) i name n lba (set_heap (set_disk x d) (live x ∖ {[a]}) (nulls x)).
Proof.
  intros Hlo Ha Hn Hino [Hok0 Hd0] Hdir Hb [Ht Hws Hsub Hin (Hno & Hcn & Hsz) Hdx Hins Hsec Hsy].
  destruct (tk_part _ _ _ _ Ht) as [bb Hpart]. pose proof (tk_layout _ _ _ _ Ht) as Hlx. pose proof (layout_bounds _ Hlx).
  assert (sb (cur_part x) = sb (cur_part s)) as Hsb by (by rewrite Hpart).
  pose proof (tk_new _ _ _ _ Ht) as Hnew. apply Forall_cons in Hnew as [[Hlb Hlu] Hnew].
  change (is_block (cur_part s) lba) in Hlb. change (block_used (cur_part s) lba = false) in Hlu.
  assert (∀ l, l ∈ new → block_used (cur_part s) l = false) as Hfresh.
  { intros l Hl. apply (proj1 (Forall_forall _ _) Hnew l Hl). }
  assert (∀ l, is_block (cur_part x) l → bd_sector d l = bd_sector (disk x) l) as Hdata.
  { intros l Hl. apply (sy_data _ _ _ _ Hsy), (is_block_high _ _ Hlx Hl). }
  assert (∀ l, l ∈ direct i' → l ≠ 0 → is_block (cur_part x) l ∧ block_used (cur_part x) l = true) as Hblk.
  { intros l Hl Hz. by destruct (proj1 (Forall_forall _ _) (di_blocks _ _ _ Hdx) l Hl) as [?|?]. }
  assert (∀ l, is_block (cur_part s) l → is_block (cur_part x) l) as Hisb by (intros l; apply (took_block _ _ _ _ _ Ht)).
  destruct (block_word _ _ Hlo Hlb) as [_ Hl0].
  assert (lba ∉ direct i') as Hnot.
  { intros Hl. destruct (Hsub lba Hl) as [Hold|Hl'].
    - destruct (proj1 (Forall_forall _ _) (di_blocks _ _ _ Hdir) lba Hold) as [?|[_ ?]]; [lia|congruence].
    - pose proof (tk_nodup _ _ _ _ Ht) as Hnd. by apply NoDup_cons in Hnd as [? _]. }
  destruct (dir_ok_frame x (set_heap (set_disk x d) (live x ∖ {[a]}) (nulls x)) (d_inode dd) i' Hdx) as [Hdf Hef].
  { apply (di_inode _ _ _ Hdx). }
  { intros l Hl Hz. destruct (Hblk l Hl Hz) as [H1 H2]. split_and!; [done|done|]. by apply Hdata. }
  constructor.
  - exists i'. split_and!; try done.
    + rewrite Hef. replace (dir_entries (disk s) i) with (dir_entries d0 i); [done|].
      unfold dir_entries, dir_blocks. rewrite Hd0. apply entries_same. intros l _ _. apply Hd0.
    + rewrite <- Hno. apply (sy_parent _ _ _ _ Hsy).
    + intros l Hl. destruct (Hsub l Hl) as [?|?]; [by left|right; by apply Hfresh].
  - apply (sy_new _ _ _ _ Hsy).
  - cbn. rewrite Hdata; [done|by apply Hisb].
  - split; [by apply Hisb|]. split; [done|]. change (block_used (cur_part x) lba = true). rewrite (tk_used _ _ _ _ Ht lba Hlb).
    rewrite bool_decide_eq_true_2 by left. apply orb_true_r.
  - intros m Hm Hmn Hmi. etrans; [apply (sy_others _ _ _ _ Hsy m); [done|done|by rewrite Hno]|].
    etrans; [apply (took_stored _ _ _ _ m Ht)|].
    { intros l [->|Hl]%elem_of_cons; [right; by apply Hisb|]. destruct (decide (l = 0)); [by left|right].
      apply Hblk; [|done]. apply Hws, elem_of_app. by right. }
    { done. }
    trans (stored_inode (cur_part s) d0 m); [done|]. apply stored_frame; [done|]. intros l _. apply Hd0.
  - cbn. by rewrite Hpart.
  - rewrite <- Hsb. apply (sy_bitmap _ _ _ _ Hsy).
  - intros l Hl Hu. split; [by apply Hisb|].
    split; [change (block_used (cur_part x) l = true); rewrite (tk_used _ _ _ _ Ht l Hl); apply orb_true_iff; by left|]. intros Hnd.
    cbn. rewrite Hdata by (by apply Hisb). rewrite <- Hd0. apply (tk_sectors _ _ _ _ Ht).
    { cbn. apply (is_block_high _ _ Hlo Hl). }
    intros [->|Hl']%elem_of_cons; [congruence|]. destruct (Hsub l) as [?|Hln]; [apply Hws, elem_of_app; by right|done|].
    rewrite (Hfresh l Hln) in Hu. done.
  - cbn. by rewrite Hpart.
  - destruct (tk_heap _ _ _ _ Ht) as [Hlv Hnl]. cbn. rewrite Hlv, Hnl, (tk_dirs _ _ _ _ Ht), (tk_files _ _ _ _ Ht), (tk_fds _ _ _ _ Ht), (tk_cwd _ _ _ _ Ht).
    split_and!; try done. cbn. clear -Ha. set_solver.
  - done.
  - apply (sy_disk _ _ _ _ Hsy).
Qed.

Lemma tree_heap s P l : tree s P → live s ⊆ l → tree (set_heap s l []) P.
Proof.
  intros [[? ? ? ? ? ? Hd] ? ? ?] Hl. constructor; try done. constructor; try done; [by apply cache_ok_heap|].
  intros q Hq. destruct (Hd q Hq) as [?|?]; [by left|right]. by apply Hl.
Qed.

Lemma sys_mkdir_spec s P dd i name n : tree s P → can_mkdir s dd i name n →
  ∃ lba s', sys_mkdir s (slash :: name) = Ok (0, s') ∧ made s (d_inode dd) i name n lba s'.
Proof.
  intros Ht [(Hdd & Hdir & Hgrow) (n0 & lba0 & Hfind) [Hfree Hzero] (Hname & Hbytes & Hnone) [Hff Hn] Hclosed].
  assert (0 ≤ n < 256) as Hnr by (destruct Hff; lia). destruct (tr_base _ _ Ht) as [Hcache Hlo Hok Hnulls Hsize _ _].
  destruct (root_list s P dd i Ht Hdd (di_inode _ _ _ Hdir)) as [Hlist Hi0].
  destruct (sys_malloc_ok s Hnulls) as (a & Ha & Hal & Ha0). unfold sys_mkdir. rewrite Ha, (proj2 (Z.eqb_neq a NULL)) by done.
  set (s1 := set_heap s ({[a]} ∪ live s) []) in *.
  pose proof (search_root s1 P name (tree_heap s P ({[a]} ∪ live s) Ht ltac:(set_solver)) Hname) as Hsearch.
  change (dir_list s1 0) with (dir_list s 0) in Hsearch. rewrite Hlist, Hnone in Hsearch. destruct Hsearch as (d0 & -> & Hd0).
  change (disk s1) with (disk s) in Hd0. ocbn. change (negb (-1 =? -1)) with false. cbv iota.
  rewrite !depth_root_name by done. ocbn. cbn [searched_path]. rewrite depth_root_name by done. ocbn. change (negb (1 =? 1)) with false. cbv iota.
  destruct (inode_bitmap_alloc_spec (set_disk s1 d0) n Hlo Hff) as (b & -> & Hb). ocbn.
  rewrite (proj2 (Z.eqb_neq n (-1))) by lia.
  change (set_inode_bitmap (set_disk s1 d0) b) with (with_number s a b d0).
  destruct (make_dir_spec (with_number s a b d0) dd i name n a) with (n0 := n0) (lba0 := lba0)
    as (lba & x & i' & new & ws & d & Hmo & ->); try done.
  - destruct Hb as (? & ? & ? & _). by apply layout_inode_bitmap.
  - apply Hd0.
  - destruct (dir_ok_frame s (with_number s a b d0) (d_inode dd) i Hdir) as [? _]; [apply (di_inode _ _ _ Hdir)| |done].
    intros l Hl Hz. pose proof (proj1 (Forall_forall _ _) (di_blocks _ _ _ Hdir) l Hl) as [?|[? ?]]; [done|]. split_and!; [done|done|apply Hd0].
  - lia.
  - rewrite <- Hfind. apply list_find_ext. intros l. unfold has_room. cbn [disk with_number]. by rewrite (proj2 Hd0).
  - apply Hname.
  - apply Hname.
  - apply (Hclosed (d_inode dd)), (di_inode _ _ _ Hdir).
  - eexists lba, _. split; [done|]. eapply made_on_made; try done. lia.
Qed.
End made.

(** ** The tree with the new directory *)

Section grown.
Context {D : Type} `{BlockDevice D}.

(** The directories below the root have blocks of their own. *)
Definition dirs_apart (s : fs D) (P : Z → Prop) : Prop := ∀ m, P m → m ≠ 0 → table_of (view s m) = 0 ∧
  Forall (λ l, l = 0 ∨ is_block (cur_part s) l ∧ block_used (cur_part s) l = true ∧ (l ∉ direct (view s 0))) (direct (view s m)).

Context (s : fs D) (P : Z → Prop) (pi : Z) (dd : dir) (i : inode) (name : list Z) (n lba : Z) (s' : fs D).
Context (Ht : tree s P) (Hdd : dirs s !! root_dir = Some dd) (Hpi : d_inode dd = pi) (Hi : inodes s !! pi = Some i) (Hi0 : i_no i = 0).
Context (Hmade : made s pi i name n lba s') (Hn : 0 ≤ n < 256) (Hclosed : ∀ q j, inodes s !! q = Some j → i_no j ≠ n).
Let Hcache := tb_cache _ (tr_base _ _ Ht).
Let grown (m : Z) : Prop := P m ∨ m = n.

Lemma made_cache : cache_ok s'.
Proof.
  destruct (md_dir _ _ _ _ _ _ _ Hmade) as (i' & Hin & Hno & _ & Hcn & Hdir & _).
  apply (cache_update s s' pi i i'); try done.
  - apply (di_iok _ _ _ Hdir).
  - apply (md_part _ _ _ _ _ _ _ Hmade).
  - apply (md_rest _ _ _ _ _ _ _ Hmade).
Qed.

Lemma made_root : ∃ i', view s' 0 = i' ∧ inodes s' !! pi = Some i' ∧ i_no i' = 0 ∧ dir_ok s' pi i' ∧
  inserted (dir_list s 0) (dir_list s' 0) (entry_named name n FT_DIRECTORY) ∧ (lba ∉ direct i') ∧
  ∀ l, l ∈ direct i' → l ∈ direct (view s 0) ∨ block_used (cur_part s) l = false.
Proof.
  destruct (md_dir _ _ _ _ _ _ _ Hmade) as (i' & Hin & Hno & _ & Hcn & Hdir & Hins & _ & Hnot & Hsub).
  pose proof (di_inode _ _ _ Hdir) as Hi'. assert (i_no i' = 0) as Hz by congruence.
  exists i'. unfold dir_list. rewrite (view_object s' 0 pi i' made_cache Hi' Hz), (view_object s 0 pi i Hcache Hi Hi0). by split_and!.
Qed.

Lemma made_view_new : view s' n = dir_node n lba.
Proof.
  destruct (md_dir _ _ _ _ _ _ _ Hmade) as (i' & Hin & Hno & _).
  destruct (view_cases s' n made_cache) as [(q & Hq & Hqn)|[_ ->]]; [|apply (md_stored _ _ _ _ _ _ _ Hmade)].
  rewrite Hin in Hq. apply lookup_insert_Some in Hq as [[-> Heq]|[_ Hq]]; [|by destruct (Hclosed q _ Hq)].
  destruct (Hclosed _ _ Hi). rewrite <- Heq in Hqn. congruence.
Qed.

Lemma made_view_other m : 0 ≤ m < 4096 → m ≠ n → m ≠ 0 → view s' m = view s m.
Proof.
  intros Hm Hmn Hm0. destruct (md_dir _ _ _ _ _ _ _ Hmade) as (i' & Hin & Hno & _).
  destruct (view_cases s' m made_cache) as [(q & Hq & Hqm)|[Hnone ->]]; rewrite Hin in *.
  - apply lookup_insert_Some in Hq as [[-> Heq]|[_ Hq]]; [rewrite <- Heq in Hqm; congruence|].
    by rewrite (view_object s m q _ Hcache Hq Hqm).
  - destruct (view_cases s m Hcache) as [(q & Hq & Hqm)|[_ ->]].
    + destruct (Hnone q (view s m)); [|done]. rewrite lookup_insert_ne; [done|]. intros <-. congruence.
    + apply (md_others _ _ _ _ _ _ _ Hmade); congruence.
Qed.

(** Other directories keep their entries. *)
Lemma made_list_other m : dirs_apart s P → P m → m ≠ n → m ≠ 0 →
  readable_dir (disk s') (view s m) ∧ dir_entries (disk s') (view s m) = dir_list s m.
Proof.
  intros Hap HP Hmn Hm0. destruct (Hap m HP Hm0) as [Htab Hbl]. destruct (tr_dir _ _ Ht m HP) as (_ & _ & [Hlen Hrt Hrb] & _).
  split.
  - constructor; try done. unfold dir_blocks in *. by rewrite Htab in *.
  - unfold dir_list. rewrite !direct_entries by done. apply entries_same. intros l Hl Hz.
    destruct (proj1 (Forall_forall _ _) Hbl l Hl) as [?|(Hb & Hu & Hnot)]; [done|]. apply (md_used _ _ _ _ _ _ _ Hmade); [done|done|].
    by rewrite (view_object s 0 pi i Hcache Hi Hi0) in Hnot.
Qed.

Lemma made_new_list : dir_list s' n = [dot_entry n; dotdot_entry 0] ++ replicate 19 blank.
Proof.
  destruct (md_block _ _ _ _ _ _ _ Hmade) as (Hb & _). destruct (block_word _ _ (md_layout _ _ _ _ _ _ _ Hmade) Hb).
  unfold dir_list. rewrite made_view_new. apply dir_node_entries; [lia|]. rewrite (md_sector _ _ _ _ _ _ _ Hmade), Hi0.
  apply first_sector_entries; unfold word; lia.
Qed.

Lemma made_base : tree_base s'.
Proof.
  pose proof (tr_base _ _ Ht) as [_ _ _ _ Hsize Hcounts Hdirs]. destruct (md_rest _ _ _ _ _ _ _ Hmade) as (Hd & _ & _ & _ & Hlv & Hnl).
  destruct (md_dir _ _ _ _ _ _ _ Hmade) as (i' & Hin & _ & _ & Hcn & _). constructor.
  - exact made_cache.
  - apply (md_layout _ _ _ _ _ _ _ Hmade).
  - apply (md_disk _ _ _ _ _ _ _ Hmade).
  - done.
  - by rewrite (proj1 (md_part _ _ _ _ _ _ _ Hmade)).
  - intros q j. rewrite Hin. intros [[-> <-]|[_ Hq]]%lookup_insert_Some; [rewrite Hcn; by eapply Hcounts|by eapply Hcounts].
  - intros q. rewrite Hd, Hlv. apply Hdirs.
Qed.

Lemma made_tree : dirs_apart s P → tree s' grown.
Proof.
  intros Hap. destruct made_root as (i' & Hv0 & Hi' & Hz & Hdir & Hins & _). pose proof made_base as Hbase.
  destruct (md_block _ _ _ _ _ _ _ Hmade) as (Hb & _). destruct (block_word _ _ (md_layout _ _ _ _ _ _ _ Hmade) Hb) as [_ Hlba].
  assert (n ≠ 0) as Hn0 by (intros ->; by destruct (Hclosed pi i)).
  constructor; [done| |left; apply (tr_zero _ _ Ht)|].
  - exists dd, i'. rewrite (proj1 (md_rest _ _ _ _ _ _ _ Hmade)), Hpi. by split_and!.
  - intros m Hm. destruct (decide (m = n)) as [->|Hmn].
    { rewrite made_new_list, made_view_new, (md_stored _ _ _ _ _ _ _ Hmade). split; [lia|]. split; [done|]. split.
      - constructor; [done|cbn; lia|]. unfold dir_blocks. change (truth (table_of (dir_node n lba))) with false. cbv iota.
        change (take 12 (i_sectors (dir_node n lba))) with (lba :: replicate 11 0). apply Forall_app.
        split; [apply Forall_cons; split; [lia|]; apply (Forall_replicate _ 11)|apply (Forall_replicate _ 128)]; lia.
      - apply Forall_app. split; [|apply (Forall_replicate _ 19); by left]. apply Forall_cons. split; [right; left; split; [done|by right]|].
        apply Forall_singleton. right. left. split; [done|]. left. apply (tr_zero _ _ Ht). }
    destruct Hm as [HP|?]; [|done]. destruct (tr_dir _ _ Ht m HP) as (Hr & Hst & _ & Hes).
    assert (∀ es, Forall (λ e, e = blank ∨ f_type e = FT_DIRECTORY ∧ P (de_i_no e) ∨ f_type e = FT_REGULAR ∧ 0 ≤ de_i_no e < 4096) es →
      Forall (λ e, e = blank ∨ f_type e = FT_DIRECTORY ∧ grown (de_i_no e) ∨ f_type e = FT_REGULAR ∧ 0 ≤ de_i_no e < 4096) es) as Hmono.
    { intros es He. eapply Forall_impl; [exact He|]. unfold grown. naive_solver. }
    split; [done|]. destruct (decide (m = 0)) as [->|Hm0].
    + destruct (md_dir _ _ _ _ _ _ _ Hmade) as (i'' & Hin & _ & _ & _ & _ & _ & Hsto & _). rewrite Hi0 in Hsto.
      assert (i'' = i') as -> by (rewrite Hin, lookup_insert_eq in Hi'; congruence).
      rewrite Hsto, Hv0. split; [done|]. split; [apply (dir_ok_readable s' pi); [apply (md_layout _ _ _ _ _ _ _ Hmade)|done]|].
      destruct Hins as (A & x & y & z & B & Hold & -> & _ & Hy & Hz'). apply Hmono in Hes. rewrite Hold in Hes.
      rewrite !Forall_app in Hes. destruct Hes as (HA & _ & HB). rewrite !Forall_app, Forall_cons, Forall_app.
      split_and!; try done; [eapply Forall_impl; [exact Hy|]; by intros e <-; left|right; left; split; [done|by right]|
        eapply Forall_impl; [exact Hz'|]; by intros e <-; left].
    + destruct (made_list_other m Hap HP Hmn Hm0) as [Hrd Hl]. unfold dir_list. rewrite made_view_other by done.
      split; [|split; [done|rewrite Hl; by apply Hmono]].
      rewrite (md_others _ _ _ _ _ _ _ Hmade); congruence.
Qed.

Lemma made_apart : dirs_apart s P → dirs_apart s' grown.
Proof.
  intros Hap m Hm Hm0. destruct made_root as (i' & Hv0 & _ & _ & _ & _ & Hnot & Hsub). rewrite Hv0.
  destruct (decide (m = n)) as [->|Hmn].
  - rewrite made_view_new. split; [done|]. destruct (md_block _ _ _ _ _ _ _ Hmade) as (Hb & _ & Hu).
    change (direct (dir_node n lba)) with (lba :: replicate 11 0). apply Forall_cons. split; [by right|]. apply (Forall_replicate _ 11). by left.
  - destruct Hm as [HP|?]; [|done]. destruct (tr_dir _ _ Ht m HP) as (Hr & _). rewrite made_view_other by done.
    destruct (Hap m HP Hm0) as [Htab Hbl]. split; [done|]. eapply Forall_impl; [exact Hbl|].
    intros l [?|(Hb & Hu & Hl)]; [by left|right]. destruct (md_used _ _ _ _ _ _ _ Hmade l Hb Hu) as (? & ? & _).
    split_and!; try done. intros Hl'. destruct (Hsub l Hl'); congruence.
Qed.
End grown.

(** The path of a name in the root directory. *)
Lemma root_path_ok name : root_name name → path_ok (slash :: name) ∧ components (slash :: name) = [name].
Proof.
  intros Hn. pose proof Hn as [(Hne & Hc & Hl) Hs _].
  assert (components (slash :: name) = [name]) as Heq.
  { rewrite components_slash. by rewrite (rest_components name name []) by (done || by apply copy_whole). }
  split; [|done]. constructor; [done| |by apply not_root|].
  - destruct name; [done|]. cbn [length] in *. lia.
  - rewrite Heq. split; [done|]. by apply Forall_singleton.
Qed.

Section mkdir_theorems.
Context {D : Type} `{BlockDevice D}.
Implicit Types (s : fs D).

Lemma made_lookup s s' name n name' : name_ok name → name_ok name' → lookup_name name (dir_list s 0) = None →
  inserted (dir_list s 0) (dir_list s' 0) (entry_named name n FT_DIRECTORY) →
  lookup_name name' (dir_list s' 0) =
    if bool_decide (name' = name) then Some (entry_named name n FT_DIRECTORY) else lookup_name name' (dir_list s 0).
Proof.
  intros Hn Hn' Hnone Hins. pose proof Hn' as (Hne & Hc & _). rewrite (inserted_lookup _ _ _ _ Hins Hne Hc), has_name_new by done.
  case_bool_decide as Heq; [|done]. subst. by rewrite Hnone.
Qed.

Lemma made_others s s' pi i name n lba q j bl data : made s pi i name n lba s' → q ≠ pi → file_ok s q j bl data →
  (∀ l, l ∈ owned j bl → l ∉ direct i) → file_ok s' q j bl data.
Proof.
  intros Hm Hq Hf Hdis. destruct (md_dir _ _ _ _ _ _ _ Hm) as (i' & Hin & _).
  apply (file_ok_frame s); [done|rewrite Hin, lookup_insert_ne by done; apply (fo_inode _ _ _ _ _ Hf)|]. intros l Hl.
  destruct (proj1 (Forall_forall _ _) (fo_used _ _ _ _ _ Hf) l Hl) as [Hb Hu].
  destruct (md_used _ _ _ _ _ _ _ Hm l Hb Hu) as (? & ? & Hsec). split_and!; [done|done|]. by apply Hsec, Hdis.
Qed.

Lemma sys_mkdir_tree s P dd i name n : tree s P → dirs_apart s P → can_mkdir s dd i name n →
  let grown m := P m ∨ m = n in
  ∃ lba s', sys_mkdir s (slash :: name) = Ok (0, s') ∧ made s (d_inode dd) i name n lba s' ∧ tree s' grown ∧ dirs_apart s' grown ∧
    dir_list s' n = [dot_entry n; dotdot_entry 0] ++ replicate 19 blank ∧
    (∀ m, P m → m ≠ 0 → m ≠ n → dir_list s' m = dir_list s m) ∧
    inserted (dir_list s 0) (dir_list s' 0) (entry_named name n FT_DIRECTORY) ∧ lookup_name name (dir_list s 0) = None.
Proof.
  intros Ht Hap Hcm grown. destruct (sys_mkdir_spec s P dd i name n Ht Hcm) as (lba & s' & Hs & Hmade).
  destruct Hcm as [(Hdd & Hdir & _) _ _ (Hname & _ & Hnone) [[? _] ?] Hclosed].
  pose proof (di_inode _ _ _ Hdir) as Hi. destruct (root_list s P dd i Ht Hdd Hi) as [Hlist Hi0].
  assert (0 ≤ n < 256) as Hn by lia. exists lba, s'. split; [done|]. split; [done|].
  split; [by eapply made_tree|]. split; [by eapply made_apart|]. split; [by eapply made_new_list|].
  destruct (made_root s P (d_inode dd) i name n lba s') as (i' & _ & _ & _ & _ & Hins & _); [done..|].
  split; [|split; [done|by rewrite Hlist]]. intros m HP Hm0 Hmn.
  destruct (tr_dir _ _ Ht m HP) as (Hr & _). unfold dir_list at 1. erewrite made_view_other by done.
  by eapply made_list_other.
Qed.

(** C8. [sys_mkdir] of a new name in the root directory returns 0 and makes an empty
    directory: its inode, its block with the entries [.] and [..], the entry in the
    root directory and the inode bitmap are on the disk. The directories form
    a tree again, which has the new one in addition; every other name and every other
    directory is found as before, and files keep their contents. *)
Theorem sys_mkdir_makes s P dd i name n : tree s P → dirs_apart s P → can_mkdir s dd i name n →
  let grown m := P m ∨ m = n in
  ∃ lba s', sys_mkdir s (slash :: name) = Ok (0, s') ∧ made s (d_inode dd) i name n lba s' ∧ tree s' grown ∧ dirs_apart s' grown ∧
    dir_list s' n = [dot_entry n; dotdot_entry 0] ++ replicate 19 blank ∧
    (∀ m, P m → m ≠ 0 → m ≠ n → dir_list s' m = dir_list s m) ∧
    (∀ name', name_ok name' → lookup_name name' (dir_list s' 0) =
       if bool_decide (name' = name) then Some (entry_named name n FT_DIRECTORY) else lookup_name name' (dir_list s 0)) ∧
    ∀ q j bl data, q ≠ d_inode dd → file_ok s q j bl data → (∀ l, l ∈ owned j bl → l ∉ direct i) → file_ok s' q j bl data.
Proof.
  intros Ht Hap Hcm grown.
  destruct (sys_mkdir_tree s P dd i name n Ht Hap Hcm) as (lba & s' & Hs & Hmade & Ht' & Hap' & Hnew & Hold & Hins & Hnone).
  destruct Hcm as [_ _ _ ([Hok _ _] & _) _ _]. exists lba, s'. split_and!; try done.
  - intros name' Hn'. by apply made_lookup.
  - intros q j bl data. by eapply made_others.
Qed.

(** [sys_chdir] enters the new directory. *)
Lemma mkdir_chdir_spec s' P name n : tree s' P → root_name name →
  lookup_name name (dir_list s' 0) = Some (entry_named name n FT_DIRECTORY) →
  ∃ d, sys_chdir s' (slash :: name) = Ok (0, set_cwd (set_disk s' d) n) ∧ same_sectors (disk s') d.
Proof.
  intros Ht Hn Hl. destruct (root_path_ok name Hn) as [Hp Hc]. destruct (sys_chdir_correct s' P _ Ht Hp) as (d & Hd & Hs).
  exists d. rewrite Hs, Hc. cbn [resolve]. by rewrite Hl.
Qed.
End mkdir_theorems.

Module MkdirExample.
Import RamDisk FsExample DirExample SearchExample CreateExample OpenExample.

(** The directory "x" in the root directory of [fs1]. *)
Lemma can_mkdir_x : can_mkdir fs1 root root_node [120] 1.
Proof.
  pose proof can_create_x as [_ _ _ _ _ (Hdir & _ & Hgrow & n0 & lba0 & Hfind & _) [_ Hbytes] Hinode Hclosed _]. constructor.
  - by split_and!.
  - by exists n0, lba0.
  - split; [apply Nat.leb_le; vm_compute; reflexivity|vm_compute; reflexivity].
  - split; [exact root_name_x|]. split; [done|vm_compute; reflexivity].
  - done.
  - done.
Qed.

Lemma apart1 : dirs_apart fs1 (λ n, n = 0).
Proof. by intros m ->. Qed.

Lemma sys_mkdir_makes_witness : ∃ s', sys_mkdir fs1 [47; 120] = Ok (0, s') ∧ tree s' (λ m, m = 0 ∨ m = 1) ∧
  lookup_name [120] (dir_list s' 0) = Some (entry_named [120] 1 FT_DIRECTORY).
Proof.
  destruct (sys_mkdir_makes fs1 (λ n, n = 0) root root_node [120] 1 tree1 apart1 can_mkdir_x)
    as (lba & s' & Hs & _ & Ht & _ & _ & _ & Hl & _).
  exists s'. split; [exact Hs|]. split; [exact Ht|]. rewrite Hl; [reflexivity|apply root_name_x].
Defined.
End MkdirExample.
