(* ===== verification/FsCwd.v ===== *)
(** * fs/fs.c: the working directory

    [sys_getcwd] goes up from the working directory by the entries [..] and looks for
    the name of each directory in its parent: it gives back the path that leads
    from the root directory to it. *)

From stdpp Require Import base numbers list gmap.
From Stdlib Require Import ZArith Lia.
From S2P Require Import Prelude Bitmap Block Partition FsState ThreadInit FsAlloc Inode FsFile FsWrite FsRead Dir FsPath DirSpec FsSearch.
From S2P Require Import FsCalls FsMount FsMountSpec FsCallsSpec FsCreate FsOpen FsUnlink FsMkdir.

(** ** Strings *)

Lemma cstring_padded name rest : Forall (λ c, c ≠ 0) name → cstring (name ++ 0 :: rest) = Ok name.
Proof.
  induction 1 as [|c name Hc _ IH]; [done|]. cbn. by rewrite (proj2 (Z.eqb_neq c 0)), IH by done.
Qed.

(** The name of an entry, as a string in its sector. *)
Lemma entry_string buf k name n ft : 0 ≤ k → name_ok name → entry_at buf k = entry_named name n ft →
  cstring (drop (Z.to_nat (sizeof_dir_entry * k)) buf) = Ok name.
Proof.
  intros Hk (_ & Hc & Hl) He. apply (f_equal filename) in He. cbn [filename entry_at entry_named] in He. unfold slice in He.
  rewrite <- (take_drop (Z.to_nat 16) (drop _ buf)), He.
  replace (16 - length name)%nat with (S (15 - length name)) by lia. cbn [replicate]. rewrite <- app_assoc. by apply cstring_padded.
Qed.

(** The path with its names in the opposite order is turned around. *)
Lemma join_snoc names name : join (names ++ [name]) = join names ++ slash :: name.
Proof. unfold join. rewrite bind_app. cbn. by rewrite app_nil_r. Qed.

Lemma last_slash p name : slash ∉ name → before_last_slash (p ++ slash :: name) = p ∧ after_last_slash (p ++ slash :: name) = name.
Proof.
  intros Hn. induction p as [|c p [IH1 IH2]]; cbn [app before_last_slash after_last_slash].
  - change (slash =? slash) with true. by rewrite bool_decide_eq_false_2.
  - rewrite (bool_decide_eq_true_2 (slash ∈ p ++ slash :: name)) by (apply elem_of_app; right; left).
    rewrite andb_false_r, IH1. split; [done|]. by destruct (c =? slash).
Qed.

Lemma reverse_path_spec names : Forall (λ name, slash ∉ name) names → reverse_path (join (reverse names)) = Ok (join names).
Proof.
  intros Hn. unfold reverse_path.
  assert (∀ fuel done, (length names < fuel)%nat →
    loop fuel (λ '(full, buf), if bool_decide (slash ∈ full) then Ok (inl (before_last_slash full, buf ++ slash :: after_last_slash full))
                               else Ok (inr buf)) (join (reverse names), done) = Ok (done ++ join names)) as Hloop.
  { induction Hn as [|name names Hname Hn IH]; intros [|fuel] done Hf; cbn [length] in Hf; try lia.
    - cbn. by rewrite app_nil_r.
    - rewrite reverse_cons, join_snoc. destruct (last_slash (join (reverse names)) name Hname) as [H1 H2].
      erewrite loop_step by (rewrite bool_decide_eq_true_2 by (apply elem_of_app; right; left); rewrite H1, H2; reflexivity).
      rewrite IH by lia. f_equal. unfold join. cbn. by rewrite <- app_assoc. }
  apply (Hloop _ []). rewrite Nat.lt_succ_r. clear. rewrite <- (length_reverse names). induction (reverse names) as [|m l IH]; [done|].
  unfold join in *. cbn. rewrite length_app. lia.
Qed.

Section cwd.
Context {D : Type} `{BlockDevice D}.
Implicit Types (s : fs D).

(** The directory with inode [m] is reached from the root by [names], and its entries
    lead back: [..] names its parent, where the first entry with its number has its
    name. *)
Inductive located s : Z → list (list Z) → Prop :=
  | located_root : located s 0 []
  | located_child m p lba rest names name :
      located s p names → m ≠ 0 → name_ok name → slash ∉ name →
      i_sectors (view s m) = lba :: rest → data_start_lba (sb (cur_part s)) ≤ lba →
      dir_list s m !! 1%nat = Some (dotdot_entry p) →
      head (filter (λ e, de_i_no e = m) (dir_list s p)) = Some (entry_named name m FT_DIRECTORY) →
      located s m (names ++ [name]).

Lemma located_heap s l n m names : located s m names → located (set_heap s l n) m names.
Proof. induction 1; [constructor|by econstructor]. Qed.

(** Looking at an inode. *)
Lemma look_inode s d n : tree_base s → same_sectors (disk s) d → 0 ≤ n < 4096 →
  ∃ p i y, inode_open (set_disk s d) n = Ok (p, y) ∧ get_inode y p = Ok i ∧ i_sectors i = i_sectors (view s n) ∧
    same_sectors (disk s) (disk y) ∧ sb (cur_part y) = sb (cur_part s) ∧ ∀ d', inode_close (set_disk y d') p = Ok (set_disk s d').
Proof.
  intros [Hc Hlo _ Hnulls _ Hcounts _] Hd Hn. assert (cache_ok (set_disk s d)) as Hc' by (by destruct Hc).
  destruct (inode_open_spec (set_disk s d) n Hc' Hlo (proj1 Hd) Hn Hnulls) as (p & i & d1 & Ho & Hd1 & Hopen & Hp0).
  exists p, i, (after_open (set_disk s d) p i d1). split; [exact Hopen|].
  split; [apply get_inode_ok; unfold after_open; case_bool_decide; cbn; apply lookup_insert_eq|].
  split; [destruct (opened_view _ n p i Hc' Ho) as [c ->]; by rewrite view_disk|].
  split; [unfold after_open; cbn; by eapply same_sectors_trans|].
  split; [unfold after_open; by case_bool_decide|]. intros d'.
  change (set_disk (after_open (set_disk s d) p i d1) d') with (after_open (set_disk s d) p i d').
  rewrite (open_close_exact (set_disk s d) n); [done..|]. intros q j Hq. pose proof (Hcounts q j Hq). lia.
Qed.

Lemma get_parent_spec s P d m p lba rest : tree s P → same_sectors (disk s) d → P m →
  i_sectors (view s m) = lba :: rest → data_start_lba (sb (cur_part s)) ≤ lba → dir_list s m !! 1%nat = Some (dotdot_entry p) →
  P p ∧ ∃ d', get_parent_dir_inode_nr (set_disk s d) m = Ok (p, set_disk s d') ∧ same_sectors (disk s) d'.
Proof.
  intros Ht Hd HP Hsec Hlba Hdots. pose proof (tr_base _ _ Ht) as Hb. destruct (tr_dir _ _ Ht m HP) as (Hm & _ & Hrd & Hes).
  assert (P p) as Hp by (destruct (Forall_lookup_1 _ _ _ _ Hes Hdots) as [?|[[_ ?]|[? _]]]; done).
  split; [done|]. destruct (tr_dir _ _ Ht p Hp) as (Hpr & _). pose proof (layout_bounds _ (tb_layout _ Hb)).
  destruct (look_inode s d m Hb Hd Hm) as (q & i & y & Ho & Hi & Hs & Hdy & Hsb & Hclose). unfold get_parent_dir_inode_nr.
  rewrite Ho. ocbn. rewrite Hi. ocbn. unfold i_sector. rewrite Hs, Hsec. change (Z.to_nat 0) with 0%nat. cbn [lookup list_lookup]. change (0 <=? 0) with true. ocbn.
  rewrite Hsb, (proj2 (Z.leb_le _ _) Hlba). ocbn. specialize (Hclose (disk y)).
  replace (set_disk y (disk y)) with y in Hclose by (by destruct y). rewrite Hclose. ocbn.
  assert (0 ≤ lba < bd_size) as Hon.
  { pose proof (rd_blocks _ _ Hrd) as Hbl. unfold dir_blocks in Hbl. rewrite Hsec in Hbl. by apply Forall_cons in Hbl as [? _]. }
  destruct (ide_read1 (set_disk s (disk y)) lba (proj1 Hdy) Hon) as (d' & -> & Hd'). ocbn. cbn [disk set_disk] in *.
  assert (entry_at (bd_sector (disk y) lba) 1 = dotdot_entry p) as ->.
  { rewrite (proj2 Hdy). unfold dir_list, dir_entries, dir_blocks in Hdots. rewrite Hsec in Hdots. cbn [take app] in Hdots.
    rewrite entries_cons, (proj2 (Z.eqb_neq lba 0)) in Hdots by lia.
    rewrite lookup_app_l in Hdots by (unfold sector_entries; rewrite length_fmap, length_seqZ; lia).
    unfold sector_entries in Hdots. rewrite list_lookup_fmap, lookup_seqZ_lt in Hdots by lia. by apply (inj Some) in Hdots. }
  cbn [de_i_no f_type dotdot_entry]. rewrite (proj2 (Z.ltb_lt p 4096)) by lia. change (FT_DIRECTORY =? FT_DIRECTORY) with true. ocbn.
  exists d'. split; [done|]. by eapply same_sectors_trans.
Qed.

(** The first entry that satisfies a condition, with its block and its place there. *)
Lemma first_entry (Q : dir_entry → Prop) `{!∀ e, Decision (Q e)} get bl e : head (filter Q (entries_of get bl)) = Some e →
  ∃ (n : nat) lba k, bl !! n = Some lba ∧ lba ≠ 0 ∧ head (filter (λ k, Q (entry_at (get lba) k)) (seqZ 0 21)) = Some k ∧
    entry_at (get lba) k = e ∧
    ∀ (j : nat) l, (j < n)%nat → bl !! j = Some l → l ≠ 0 → filter (λ k, Q (entry_at (get l) k)) (seqZ 0 21) = [].
Proof.
  induction bl as [|lba bl IH]; [done|]. rewrite entries_cons, filter_app. intros Hh.
  assert (filter Q (sector_entries (get lba)) = entry_at (get lba) <$> filter (λ k, Q (entry_at (get lba) k)) (seqZ 0 21)) as Hf.
  { unfold sector_entries. clear. induction (seqZ 0 21) as [|k ks IHk]; [done|]. rewrite fmap_cons, !filter_cons.
    case_decide; rewrite IHk; done. }
  assert (lba = 0 ∨ filter (λ k, Q (entry_at (get lba) k)) (seqZ 0 21) = [] → head (filter Q (entries_of get bl)) = Some e) as Hskip.
  { intros Hz. destruct (Z.eqb_spec lba 0) as [->|Hne]; [done|]. destruct Hz as [?|Hz]; [done|]. by rewrite Hf, Hz in Hh. }
  destruct (decide (lba = 0)) as [->|Hne].
  { destruct IH as (n & l & k & H1 & H2 & H3 & H4 & H5); [apply Hskip; by left|]. exists (S n), l, k. split_and!; try done.
    intros [|j] l' Hj Hl Hz; [cbn in Hl; congruence|]. apply (H5 j); [lia|done|done]. }
  destruct (filter (λ k, Q (entry_at (get lba) k)) (seqZ 0 21)) as [|k ks] eqn:E.
  - destruct IH as (n & l & k & H1 & H2 & H3 & H4 & H5); [apply Hskip; by right|]. exists (S n), l, k. split_and!; try done.
    intros [|j] l' Hj Hl Hz; [by injection Hl as <-|]. apply (H5 j); [lia|done|done].
  - exists 0%nat, lba, k. rewrite E. rewrite (proj2 (Z.eqb_neq lba 0)), Hf in Hh by done. cbn in Hh. injection Hh as <-.
    split_and!; try done. intros j l Hj. lia.
Qed.

Lemma get_child_spec s P d p m name path : tree s P → same_sectors (disk s) d → P p → name_ok name →
  head (filter (λ e, de_i_no e = m) (dir_list s p)) = Some (entry_named name m FT_DIRECTORY) →
  Z.of_nat (length (path ++ slash :: name)) < 512 →
  ∃ d', get_child_dir_name (set_disk s d) p m path = Ok (Some (path ++ slash :: name), set_disk s d') ∧ same_sectors (disk s) d'.
Proof.
  intros Ht Hd HP Hname Hhead Hlen. pose proof (tr_base _ _ Ht) as Hb. destruct (tr_dir _ _ Ht p HP) as (Hp & _ & Hrd & _).
  destruct (look_inode s d p Hb Hd Hp) as (q & i & y & Ho & Hi & Hs & Hdy & Hsb & Hclose). unfold get_child_dir_name.
  rewrite Ho. ocbn. rewrite Hi. ocbn. assert (readable_dir (disk y) i) as Hri.
  { apply (readable_sectors _ _ (view s p)); [done|]. by apply (readable_same (disk s)). }
  destruct (read_all_blocks_spec y i (proj1 Hdy) Hri) as (d1 & -> & Hd1). ocbn. rewrite (table_sector i (rd_len _ _ Hri)). ocbn.
  rewrite Hclose. ocbn. cbn [cur_part set_disk]. rewrite (tb_size _ Hb). change (entrys_per_sec 24) with (Ok 21). ocbn.
  assert (dir_blocks (disk y) i = dir_blocks (disk s) (view s p)) as ->.
  { rewrite (same_blocks (disk s) (disk y) i Hdy). unfold dir_blocks, table_of. by rewrite Hs. }
  assert (table_of i = table_of (view s p)) as -> by (unfold table_of; by rewrite Hs).
  assert (same_sectors (disk s) d1) as Hd1' by (by eapply same_sectors_trans).
  destruct (first_entry (λ e, de_i_no e = m) _ _ _ Hhead) as (n & lba & k & Hn & Hz & Hk & Hke & Hbefore).
  set (bl := dir_blocks (disk s) (view s p)) in *. pose proof (dir_blocks_length (disk s) _ (rd_len _ _ Hrd)) as Hbl. fold bl in Hbl.
  set (cnt := if truth (table_of (view s p)) then 140 else 12).
  assert (Z.of_nat n < cnt) as Hcnt.
  { pose proof (lookup_lt_Some _ _ _ Hn). unfold cnt. destruct (truth (table_of (view s p))) eqn:E; [lia|].
    destruct (decide (n < 12)%nat); [lia|]. unfold bl, dir_blocks in Hn. rewrite E in Hn.
    rewrite lookup_app_r in Hn by (rewrite length_take; lia). apply lookup_replicate_1 in Hn as [? _]. congruence. }
  match goal with |- context [loop 141 ?b _] => set (body := b) end.
  destruct (skip_blocks body (set_disk s d1) n) as (d2 & Hd2 & ->); [apply lookup_lt_Some in Hn; lia|apply Hd1'| |].
  { intros j d' Hj Hd'. destruct (lookup_lt_is_Some_2 bl j) as [l Hl]; [apply lookup_lt_Some in Hn; lia|]. unfold body.
    rewrite (proj2 (Z.ltb_lt _ cnt)), (block_at_nth _ _ _ Hl) by lia. ocbn. unfold truth.
    destruct (Z.eqb_spec l 0) as [->|Hl0]; cbn [negb]; [by exists d'|]. cbn [disk set_disk] in Hd'.
    destruct (ide_read1 (set_disk (set_disk s d1) d') l (proj1 Hd')) as (d'' & -> & Hd'');
      [exact (Forall_lookup_1 _ _ _ _ (rd_blocks _ _ Hrd) Hl)|]. ocbn. cbn [disk set_disk] in *.
    rewrite (proj2 Hd' l), (proj2 Hd1' l), (Hbefore j l Hj Hl Hl0). cbn [head]. exists d''. split; [done|]. by eapply same_sectors_trans. }
  cbn [disk set_disk] in Hd2. destruct (ide_read1 (set_disk (set_disk s d1) d2) lba (proj1 Hd2)) as (d3 & Hr & Hd3);
    [exact (Forall_lookup_1 _ _ _ _ (rd_blocks _ _ Hrd) Hn)|]. cbn [disk set_disk] in Hr, Hd3.
  exists d3. split; [|eapply same_sectors_trans; [exact Hd1'|]; by eapply same_sectors_trans].
  replace (141 - n)%nat with (S (140 - n)) by (apply lookup_lt_Some in Hn; lia). apply loop_exit. unfold body.
  rewrite (proj2 (Z.ltb_lt _ cnt)), (block_at_nth _ _ _ Hn) by lia. ocbn. unfold truth. rewrite (proj2 (Z.eqb_neq lba 0)) by done. cbn [negb].
  rewrite Hr. ocbn. rewrite (proj2 Hd2 lba), (proj2 Hd1' lba), Hk. cbv iota.
  assert (0 ≤ k) as Hk0.
  { apply head_Some_elem_of in Hk. apply list_elem_of_filter in Hk as [_ Hk]. apply elem_of_seqZ in Hk. lia. }
  rewrite (entry_string _ k name m FT_DIRECTORY) by done. ocbn. unfold MAX_PATH_LEN. by rewrite (proj2 (Z.ltb_lt _ 512)).
Qed.

(** Climbing from a directory to the root. *)
Lemma climb s P m names : tree s P → located s m names → ∀ fuel path d, same_sectors (disk s) d → P m →
  Z.of_nat (length (path ++ join (reverse names))) < 512 → (length names < fuel)%nat →
  ∃ d', loop fuel (λ '(child_inode_nr, path, s),
      if truth child_inode_nr then
        '(parent_inode_nr, s) ← get_parent_dir_inode_nr s child_inode_nr;
        '(r, s) ← get_child_dir_name s parent_inode_nr child_inode_nr path;
        match r with
        | None => Ok (inr (None, s))
        | Some path => Ok (inl (parent_inode_nr, path, s))
        end
      else Ok (inr (Some path, s))) (m, path, set_disk s d) = Ok (Some (path ++ join (reverse names)), set_disk s d') ∧
    same_sectors (disk s) d'.
Proof.
  intros Ht. induction 1 as [|m p lba rest names name Hloc IH Hm Hname Hsl Hsec Hlba Hdots Hhead]; intros [|fuel] path d Hd HP Hlen Hf; try lia.
  - exists d. split; [|done]. cbn [reverse join]. rewrite app_nil_r. by apply loop_exit.
  - destruct (get_parent_spec s P d m p lba rest Ht Hd HP Hsec Hlba Hdots) as (Hp & d1 & Hpar & Hd1).
    rewrite reverse_snoc in *. change (join (name :: reverse names)) with ((slash :: name) ++ join (reverse names)) in *.
    rewrite app_assoc in *. rewrite length_app in Hlen.
    destruct (get_child_spec s P d1 p m name path Ht Hd1 Hp Hname Hhead) as (d2 & Hch & Hd2); [lia|].
    destruct (IH fuel (path ++ slash :: name) d2 Hd2 Hp) as (d3 & Hl & Hd3); [rewrite length_app; lia|rewrite length_app in Hf; cbn in Hf; lia|].
    exists d3. split; [|done]. rewrite <- Hl. apply loop_step. unfold truth. rewrite (proj2 (Z.eqb_neq m 0)) by done. cbn [negb].
    rewrite Hpar. ocbn. by rewrite Hch.
Qed.

Lemma located_names s m names : located s m names → Forall (λ name, slash ∉ name) names ∧ (m = 0 ↔ names = []).
Proof.
  induction 1 as [|m p lba rest names name _ [IH _] Hm _ Hsl _ _ _ _]; [done|]. split; [|split; [done|by intros [_ ?]%app_nil]].
  apply Forall_app. split; [done|by apply Forall_singleton].
Qed.

Lemma join_reverse_length names : length (join (reverse names)) = length (join names).
Proof.
  induction names as [|name names IH]; [done|]. rewrite reverse_cons, join_snoc, length_app, IH.
  change (join (name :: names)) with ((slash :: name) ++ join names). rewrite length_app. cbn. lia.
Qed.

Lemma join_long names : (length names ≤ length (join names))%nat.
Proof.
  induction names as [|name names IH]; [done|]. change (join (name :: names)) with ((slash :: name) ++ join names).
  rewrite length_app. cbn. lia.
Qed.

(** The path of a directory, from the names on the way to it. *)
Definition full_path (names : list (list Z)) : list Z := match names with [] => [slash] | _ => join names end.

Lemma sys_getcwd_spec s P names size : tree s P → P (cwd_inode_nr s) → located s (cwd_inode_nr s) names →
  Z.of_nat (length (join names)) < 512 → 2 ≤ size → Z.of_nat (length (join names)) < size →
  ∃ s', sys_getcwd s size = Ok (Some (full_path names), s') ∧
    match names with
    | [] => ∃ a, s' = set_heap s ({[a]} ∪ live s) [] ∧ a ∉ live s
    | _ => ∃ d, s' = set_disk s d ∧ same_sectors (disk s) d
    end.
Proof.
  intros Ht HP Hloc Hlen Hsize Hfit. pose proof (tr_base _ _ Ht) as Hb. destruct (tr_dir _ _ Ht _ HP) as (Hr & _).
  destruct (located_names s _ names Hloc) as [Hsl Hz]. destruct (sys_malloc_ok s (tb_nulls _ Hb)) as (a & Ha & Hal & Ha0).
  unfold sys_getcwd. rewrite Ha, (proj2 (Z.eqb_neq a NULL)) by done. set (s1 := set_heap s ({[a]} ∪ live s) []).
  change (cwd_inode_nr s1) with (cwd_inode_nr s).
  rewrite (proj2 (Z.leb_le 0 _)), (proj2 (Z.ltb_lt _ 4096)) by lia. ocbn. cbn [andb]. ocbn.
  destruct names as [|name names'] eqn:E.
  { rewrite (proj2 Hz eq_refl). change (0 =? 0) with true. cbv iota. rewrite (proj2 (Z.ltb_ge size 2)) by lia. exists s1. split; [done|by exists a]. }
  rewrite <- E in *. assert (cwd_inode_nr s ≠ 0) as Hne by (rewrite Hz, E; done). rewrite (proj2 (Z.eqb_neq _ 0)) by done.
  destruct (climb s1 P (cwd_inode_nr s) names (tree_heap s P ({[a]} ∪ live s) Ht ltac:(set_solver)) (located_heap _ _ _ _ _ Hloc)
    513 [] (disk s1)) as (d & Hloop & Hd); [apply same_sectors_refl, (tb_disk _ Hb)|done|..].
  { cbn [app]. by rewrite join_reverse_length. }
  { pose proof (join_long names). lia. }
  replace (set_disk s1 (disk s1)) with s1 in Hloop by done. rewrite Hloop. ocbn. cbn [app].
  rewrite join_reverse_length, (proj2 (Z.leb_le _ size)) by lia. ocbn. rewrite (reverse_path_spec names Hsl). ocbn.
  rewrite (proj2 (Z.ltb_lt _ size)), sys_free_ok by done. ocbn. exists (set_disk s d).
  assert (full_path names = join names) as -> by (by rewrite E). split; [|by exists d].
  do 2 f_equal. unfold set_heap, set_disk, s1. cbn. rewrite (tb_nulls _ Hb). f_equal. clear -Hal. set_solver.
Qed.
End cwd.

(** ** Making a directory and going there *)

Section there.
Context {D : Type} `{BlockDevice D}.
Implicit Types (s : fs D).

Lemma dir_list_disk s d m : same_sectors (disk s) d → dir_list (set_disk s d) m = dir_list s m.
Proof. intros Hd. unfold dir_list. rewrite view_disk by done. cbn [disk set_disk]. by apply same_entries. Qed.

Lemma tree_disk s P d : tree s P → same_sectors (disk s) d → tree (set_disk s d) P.
Proof.
  intros [[Hc ? ? ? ? ? ?] ? ? Hdirs] Hd. constructor; try done; [constructor; try done; [by destruct Hc|apply Hd]|].
  intros m HP. destruct (Hdirs m HP) as (Hr & Hno & Hrd & Hes). rewrite view_disk, dir_list_disk by done.
  split; [done|]. split; [|split; [by apply (readable_same (disk s))|done]].
  rewrite <- Hno at 2. f_equal. apply stored_frame; [done|]. intros l _. apply Hd.
Qed.

Lemma tree_cwd s P n : tree s P → tree (set_cwd s n) P.
Proof. intros [[Hc ? ? ? ? ? ?] ? ? ?]. constructor; try done. constructor; try done. by destruct Hc. Qed.

(** The entries of the new directory lead back to the root. *)
Lemma inserted_first es es' name n : inserted es es' (entry_named name n FT_DIRECTORY) → n ≠ 0 → Forall (λ e, de_i_no e ≠ n) es →
  head (filter (λ e, de_i_no e = n) es') = Some (entry_named name n FT_DIRECTORY).
Proof.
  intros (A & x & y & z & B & -> & -> & _ & Hy & _) Hn Hes. apply Forall_app in Hes as [HA _].
  assert (∀ l, Forall (λ e, de_i_no e ≠ n) l → filter (λ e, de_i_no e = n) l = []) as Hnil.
  { induction 1 as [|e l He _ IH]; [done|]. by rewrite filter_cons_False. }
  rewrite !filter_app, (Hnil A), (Hnil y), filter_cons_True; [done|done| |done].
  eapply Forall_impl; [exact Hy|]. by intros e <-.
Qed.

Lemma mkdir_chdir_located s P dd i name n : tree s P → dirs_apart s P → can_mkdir s dd i name n →
  Forall (λ e, de_i_no e ≠ n) (dir_list s 0) →
  ∃ s1 s2, sys_mkdir s (slash :: name) = Ok (0, s1) ∧ sys_chdir s1 (slash :: name) = Ok (0, s2) ∧
    tree s2 (λ m, P m ∨ m = n) ∧ cwd_inode_nr s2 = n ∧ located s2 n [name].
Proof.
  intros Ht Hap Hcm Hnot.
  destruct (sys_mkdir_tree s P dd i name n Ht Hap Hcm) as (lba & s1 & Hs & Hmade & Ht1 & _ & Hnew & _ & Hins & Hnone).
  destruct Hcm as [(Hdd & Hdir & _) _ _ (Hname & _ & _) [[? _] ?] Hclosed]. pose proof Hname as [Hok Hsl _].
  pose proof (di_inode _ _ _ Hdir) as Hi. destruct (root_list s P dd i Ht Hdd Hi) as [_ Hi0].
  assert (n ≠ 0) as Hn0 by (intros ->; by destruct (Hclosed _ _ Hi)).
  destruct (mkdir_chdir_spec s1 _ name n Ht1 Hname) as (d & Hc & Hd).
  { rewrite (made_lookup s s1 name n name) by done. by rewrite bool_decide_eq_true_2. }
  exists s1, (set_cwd (set_disk s1 d) n). split; [done|]. split; [done|]. split; [by apply tree_cwd, tree_disk|]. split; [done|].
  assert (∀ m, dir_list (set_cwd (set_disk s1 d) n) m = dir_list s1 m) as Hl by (intros m; exact (dir_list_disk s1 d m Hd)).
  destruct (md_block _ _ _ _ _ _ _ Hmade) as (Hb & _). pose proof (is_block_high _ _ (md_layout _ _ _ _ _ _ _ Hmade) Hb) as [Hbl _].
  apply (located_child _ n 0 lba (replicate 12 0) [] name); try done.
  - constructor.
  - change (view (set_cwd (set_disk s1 d) n) n) with (view (set_disk s1 d) n). rewrite view_disk by done.
    by rewrite (made_view_new s P (d_inode dd) dd i name n lba s1).
  - by rewrite Hl, Hnew.
  - rewrite Hl. by eapply inserted_first.
Qed.

Lemma mkdir_chdir_getcwd_spec s P dd i name n size : tree s P → dirs_apart s P → can_mkdir s dd i name n →
  Forall (λ e, de_i_no e ≠ n) (dir_list s 0) → Z.of_nat (length name) + 1 < size →
  ∃ s1 s2 s3, sys_mkdir s (slash :: name) = Ok (0, s1) ∧ sys_chdir s1 (slash :: name) = Ok (0, s2) ∧
    sys_getcwd s2 size = Ok (Some (slash :: name), s3).
Proof.
  intros Ht Hap Hcm Hnot Hsize. destruct (mkdir_chdir_located s P dd i name n Ht Hap Hcm Hnot) as (s1 & s2 & Hm & Hc & Ht2 & Hw & Hloc).
  destruct (cm_name _ _ _ _ _ Hcm) as ([(Hne & _ & Hl) _ _] & _).
  assert (join [name] = slash :: name) as Hj by (cbn; by rewrite app_nil_r). rewrite <- Hw in Hloc at 1.
  destruct (sys_getcwd_spec s2 _ [name] size Ht2) as (s3 & Hg & _); rewrite ?Hj; cbn [length].
  - by right.
  - done.
  - lia.
  - destruct name; [done|]. cbn in Hsize. lia.
  - lia.
  - exists s1, s2, s3. split_and!; try done. by rewrite Hg; cbn [full_path]; rewrite Hj.
Qed.

(** C9. [sys_getcwd] gives back the path of the working directory, at any depth: the
    names by which it is reached from the root. Nothing changes, but in the root
    directory, where the buffer stays allocated. *)
Theorem sys_getcwd_correct s P names size : tree s P → P (cwd_inode_nr s) → located s (cwd_inode_nr s) names →
  Z.of_nat (length (join names)) < 512 → 2 ≤ size → Z.of_nat (length (join names)) < size →
  ∃ s', sys_getcwd s size = Ok (Some (full_path names), s') ∧
    match names with
    | [] => ∃ a, s' = set_heap s ({[a]} ∪ live s) [] ∧ a ∉ live s
    | _ => ∃ d, s' = set_disk s d ∧ same_sectors (disk s) d
    end.
Proof. apply sys_getcwd_spec. Qed.

(** C5. From a blank disk to a directory: [filesys_init] makes a file system, [sys_mkdir] a
    directory in it and [sys_chdir] enters that; [sys_getcwd] then gives back its
    path. *)
Theorem first_dir_entered hd part pad fdt name size : one_partition hd part → length pad = 460%nat → Forall is_byte pad →
  le32_at (bd_sector (sdev hd) (start_lba part + 1)) 0 ≠ fs_magic → 2 < block_cnt (sec_cnt part) →
  root_name name → Forall is_byte name → Z.of_nat (length name) + 1 < size →
  ∃ s s1 s2 s3, filesys_init [hd] [] pad fdt = Ok s ∧ sys_mkdir s (slash :: name) = Ok (0, s1) ∧
    sys_chdir s1 (slash :: name) = Ok (0, s2) ∧ sys_getcwd s2 size = Ok (Some (slash :: name), s3).
Proof.
  intros Hone Hpad Hpb Hmag Hcnt Hn Hnb Hsize. pose proof (op_ok _ _ Hone) as Hp.
  destruct (init_part_new (sdev hd) part pad) as (d0 & d & bm & _ & Hi & Hf & Hnew); [apply Hone|done..|].
  destruct (filesys_init_opened hd part pad fdt d0 d bm Hone Hi Hf Hnew) as (p & d1 & Hinit & [Ht Hes] & Hd1).
  set (s := opened_root part bm (replicate 32 (File 0 0 NULL)) fdt p d1) in *.
  pose proof (new_free_blocks part bm fdt d1 p Hp Hnew) as Hblocks. change (opened_root _ _ _ _ _ _) with s in Hblocks.
  destruct (mkdir_chdir_getcwd_spec s (λ n, n = 0) (Dir p 0 (replicate 512 0))
    (set_open_cnts (root_inode (new_super_block (start_lba part) (sec_cnt part))) 1) name 1 size Ht) as (s1 & s2 & s3 & Hm & Hc & Hg).
  - by intros m ->.
  - constructor.
    + split; [apply lookup_singleton_eq|]. split; [by eapply new_root_dir|done].
    + exists 0%nat, (data_start_lba (new_super_block (start_lba part) (sec_cnt part))). by eapply new_has_room.
    + split; [lia|by eapply new_block_zero].
    + split; [done|]. split; [done|]. by eapply new_lookup.
    + split; [apply new_first_inode|lia].
    + apply new_closed.
  - rewrite Hes. apply (bool_decide_unpack _). vm_compute. exact I.
  - done.
  - exists s, s1, s2, s3. by split_and!.
Qed.
End there.

Module CwdExample.
Import RamDisk FsExample DirExample SearchExample CreateExample OpenExample MountExample MkdirExample.

(** In the directory "x" made in [fs1]. *)
Lemma sys_getcwd_correct_witness : ∃ s s', cwd_inode_nr s = 1 ∧ sys_getcwd (D := ramdisk) s 100 = Ok (Some [47; 120], s').
Proof.
  destruct (mkdir_chdir_located fs1 (λ n, n = 0) root root_node [120] 1 tree1 apart1 can_mkdir_x) as (s1 & s2 & _ & _ & Ht & Hw & Hloc).
  { apply (bool_decide_unpack _). vm_compute. exact I. }
  destruct (sys_getcwd_correct s2 (λ m, m = 0 ∨ m = 1) [[120]] 100 Ht) as (s3 & Hg & _);
    [rewrite Hw; by right|by rewrite Hw|cbn; lia|lia|cbn; lia|].
  exists s2, s3. split; [exact Hw|exact Hg].
Defined.

Lemma first_dir_entered_witness : ∃ s s1 s2 s3, filesys_init [sdb] [] (replicate 460 0) [] = Ok s ∧
  sys_mkdir s [47; 120] = Ok (0, s1) ∧ sys_chdir s1 [47; 120] = Ok (0, s2) ∧ sys_getcwd s2 100 = Ok (Some [47; 120], s3).
Proof.
  apply (first_dir_entered sdb sdb1 (replicate 460 0) [] [120] 100).
  - by constructor; [..|exact sdb1_ok|].
  - apply pad_ok.
  - apply pad_ok.
  - vm_compute. discriminate.
  - vm_compute. reflexivity.
  - exact root_name_x.
  - by repeat constructor.
  - cbn. lia.
Defined.
End CwdExample.
