(* ===== verification/Tss.v ===== *)
(** * userprog/tss.c: the task state segment and the segment descriptors

    The kernel keeps one task state segment, of which the processor takes the
    stack for an interrupt in a user program, and adds three descriptors to the
    table that the loader made: the segment and the code and data segments of
    user programs. The decoding of a descriptor follows the processor's format. *)

From stdpp Require Import base numbers list.
From Stdlib Require Import ZArith Lia.
From S2P Require Import Prelude.

(** ** kernel/global.h *)

Definition DESC_G_4K : Z := 1.
Definition DESC_D_32 : Z := 1.
Definition DESC_L : Z := 0.
Definition DESC_AVL : Z := 0.
Definition DESC_P : Z := 1.
Definition DESC_DPL_0 : Z := 0.
Definition DESC_DPL_3 : Z := 3.
Definition DESC_S_CODE : Z := 1.
Definition DESC_S_DATA : Z := DESC_S_CODE.
Definition DESC_S_SYS : Z := 0.
Definition DESC_TYPE_CODE : Z := 8.
Definition DESC_TYPE_DATA : Z := 2.
Definition DESC_TYPE_TSS : Z := 9.
Definition RPL0 : Z := 0.
Definition RPL3 : Z := 3.
Definition TI_GDT : Z := 0.
Definition SELECTOR_K_DATA : Z := Z.shiftl 2 3 + Z.shiftl TI_GDT 2 + RPL0.
Definition SELECTOR_K_STACK : Z := SELECTOR_K_DATA.
Definition SELECTOR_U_CODE : Z := Z.shiftl 5 3 + Z.shiftl TI_GDT 2 + RPL3.
Definition SELECTOR_U_DATA : Z := Z.shiftl 6 3 + Z.shiftl TI_GDT 2 + RPL3.
Definition SELECTOR_TSS : Z := Z.shiftl 4 3 + Z.shiftl TI_GDT 2 + RPL0.
Definition GDT_ATTR_HIGH : Z := Z.shiftl DESC_G_4K 7 + Z.shiftl DESC_D_32 6 + Z.shiftl DESC_L 5 + Z.shiftl DESC_AVL 4.
Definition GDT_CODE_ATTR_LOW_DPL3 : Z := Z.shiftl DESC_P 7 + Z.shiftl DESC_DPL_3 5 + Z.shiftl DESC_S_CODE 4 + DESC_TYPE_CODE.
Definition GDT_DATA_ATTR_LOW_DPL3 : Z := Z.shiftl DESC_P 7 + Z.shiftl DESC_DPL_3 5 + Z.shiftl DESC_S_DATA 4 + DESC_TYPE_DATA.
Definition TSS_DESC_D : Z := 0.
Definition TSS_ATTR_HIGH : Z := Z.shiftl DESC_G_4K 7 + Z.shiftl TSS_DESC_D 6 + Z.shiftl DESC_L 5 + Z.shiftl DESC_AVL 4 + 0.
Definition TSS_ATTR_LOW : Z := Z.shiftl DESC_P 7 + Z.shiftl DESC_DPL_0 5 + Z.shiftl DESC_S_SYS 4 + DESC_TYPE_TSS.

Record gdt_desc := GdtDesc {
  limit_low_word : Z;
  base_low_word : Z;
  base_mid_byte : Z;
  attr_low_byte : Z;
  limit_high_attr_high : Z;
  base_high_byte : Z
}.

(** ** Operations *)

(** The segment: 27 words. *)
Record tss := Tss {
  backlink : Z;
  esp0 : Z; ss0 : Z;
  esp1 : Z; ss1 : Z;
  esp2 : Z; ss2 : Z;
  tss_cr3 : Z; tss_eip : Z; tss_eflags : Z;
  tss_eax : Z; tss_ecx : Z; tss_edx : Z; tss_ebx : Z;
  tss_esp : Z; tss_ebp : Z; tss_esi : Z; tss_edi : Z;
  tss_es : Z; tss_cs : Z; tss_ss : Z; tss_ds : Z; tss_fs : Z; tss_gs : Z;
  ldt : Z; trace : Z; io_base : Z
}.
Definition sizeof_tss : Z := 27 * 4.

Definition update_tss_esp (t : tss) (pthread : Z) : tss :=
  Tss (backlink t) (u32 (pthread + PG_SIZE)) (ss0 t) (esp1 t) (ss1 t) (esp2 t) (ss2 t) (tss_cr3 t) (tss_eip t) (tss_eflags t)
    (tss_eax t) (tss_ecx t) (tss_edx t) (tss_ebx t) (tss_esp t) (tss_ebp t) (tss_esi t) (tss_edi t)
    (tss_es t) (tss_cs t) (tss_ss t) (tss_ds t) (tss_fs t) (tss_gs t) (ldt t) (trace t) (io_base t).

(** The segment cleared but for the two words that [tss_init] sets. *)
Definition first_tss (ss0 io_base : Z) : tss :=
  Tss 0 0 ss0 0 0 0 0 0 0 0 0 0 0 0 0 0 0 0 0 0 0 0 0 0 0 0 io_base.

Definition make_gdt_desc (desc_addr limit attr_low attr_high : Z) : gdt_desc :=
  GdtDesc (u16 (Z.land limit 65535)) (u16 (Z.land desc_addr 65535)) (u8 (Z.shiftr (Z.land desc_addr 16711680) 16))
    (u8 attr_low) (u8 (Z.shiftr (Z.land limit 983040) 16 + u8 attr_high)) (u8 (Z.shiftr desc_addr 24)).

(** What the processor knows of the tables: the descriptors and the operands of [lgdt]
    and [ltr]. *)
Record segments := Segments {
  the_tss : tss;
  gdt : list gdt_desc;
  gdtr : Z;
  tr : Z
}.

(** The table has room for seven descriptors at [0xc0000900]; [tss_addr] is the
    address of [tss]. *)
Definition tss_init (s : segments) (tss_addr : Z) : segments :=
  let g := <[4%nat := make_gdt_desc tss_addr (sizeof_tss - 1) TSS_ATTR_LOW TSS_ATTR_HIGH]> (gdt s) in
  let g := <[5%nat := make_gdt_desc 0 1048575 GDT_CODE_ATTR_LOW_DPL3 GDT_ATTR_HIGH]> g in
  let g := <[6%nat := make_gdt_desc 0 1048575 GDT_DATA_ATTR_LOW_DPL3 GDT_ATTR_HIGH]> g in
  Segments (first_tss SELECTOR_K_STACK sizeof_tss) g (Z.lor (8 * 7 - 1) (Z.shiftl 3221227776 16)) SELECTOR_TSS.

(** ** The processor's view of a descriptor *)

Definition desc_base (d : gdt_desc) : Z := base_low_word d + base_mid_byte d * 2 ^ 16 + base_high_byte d * 2 ^ 24.
Definition desc_limit (d : gdt_desc) : Z := limit_low_word d + limit_high_attr_high d mod 16 * 2 ^ 16.
Definition desc_granular (d : gdt_desc) : bool := Z.testbit (limit_high_attr_high d) 7.
Definition desc_dpl (d : gdt_desc) : Z := attr_low_byte d / 2 ^ 5 mod 4.
Definition desc_present (d : gdt_desc) : bool := Z.testbit (attr_low_byte d) 7.
(** The last offset in the segment: the limit counts bytes or pages. *)
Definition last_offset (d : gdt_desc) : Z :=
  if desc_granular d then desc_limit d * 4096 + 4095 else desc_limit d.

(** The entry a selector names and the privilege level it asks for. *)
Definition selected (s : segments) (sel : Z) : option gdt_desc := gdt s !! Z.to_nat (sel / 8).
Definition rpl (sel : Z) : Z := sel mod 4.

(** ** Lemmas *)

Lemma land_16711680 a : 0 ≤ a → Z.shiftr (Z.land a 16711680) 16 = a / 2 ^ 16 mod 2 ^ 8.
Proof.
  intros Ha. apply Z.bits_inj'. intros j Hj. rewrite Z.shiftr_spec, Z.land_spec by done.
  rewrite Z.testbit_mod_pow2, Z.div_pow2_bits by lia. change 16711680 with (Z.shiftl (Z.ones 8) 16).
  rewrite Z.shiftl_spec, Z.testbit_ones_nonneg by lia. replace (j + 16 - 16) with j by lia. apply andb_comm.
Qed.

Lemma land_983040 a : 0 ≤ a → Z.shiftr (Z.land a 983040) 16 = a / 2 ^ 16 mod 2 ^ 4.
Proof.
  intros Ha. apply Z.bits_inj'. intros j Hj. rewrite Z.shiftr_spec, Z.land_spec by done.
  rewrite Z.testbit_mod_pow2, Z.div_pow2_bits by lia. change 983040 with (Z.shiftl (Z.ones 4) 16).
  rewrite Z.shiftl_spec, Z.testbit_ones_nonneg by lia. replace (j + 16 - 16) with j by lia. apply andb_comm.
Qed.

(** [make_gdt_desc] builds the descriptor that the processor reads back as the given
    base, 20-bit limit and attributes, whatever they are: no field of the scattered
    format runs into another. *)
Lemma gdt_desc_roundtrip base limit low high :
  0 ≤ base < 2 ^ 32 → 0 ≤ limit < 2 ^ 20 → 0 ≤ low < 256 → 0 ≤ high < 256 → high mod 16 = 0 →
  let d := make_gdt_desc base limit low high in
  desc_base d = base ∧ desc_limit d = limit ∧ attr_low_byte d = low ∧ limit_high_attr_high d / 16 = high / 16.
Proof.
  intros Hb Hl Hlow Hhigh Hnib d. unfold d, desc_base, desc_limit, make_gdt_desc.
  cbn [base_low_word base_mid_byte base_high_byte limit_low_word limit_high_attr_high attr_low_byte].
  rewrite land_16711680, land_983040, Z.shiftr_div_pow2 by lia. change 65535 with (Z.ones 16). rewrite !Z.land_ones by lia.
  change (2 ^ 32) with 4294967296 in *. change (2 ^ 20) with 1048576 in *. change (2 ^ 16) with 65536. change (2 ^ 24) with 16777216.
  change (2 ^ 8) with 256. change (2 ^ 4) with 16.
  rewrite (u16_small (limit mod 65536)), (u16_small (base mod 65536)), (u8_small high), (u8_small low) by zdlia.
  rewrite (u8_small (base / 65536 mod 256)), (u8_small (base / 16777216)) by zdlia.
  rewrite (u8_small (limit / 65536 mod 16 + high)) by zdlia. split_and!; zdlia.
Qed.

(** ** Properties *)

(** [tss_init] makes the selectors of user programs usable: they name present
    descriptors of privilege level 3 for all of memory, the selector of the task
    register names the segment at [tss_addr], and the first four descriptors, the
    kernel's, stay. *)
Theorem tss_init_segments s tss_addr : length (gdt s) = 7%nat → 0 ≤ tss_addr < 2 ^ 32 →
  let s' := tss_init s tss_addr in
  (∀ sel, sel = SELECTOR_U_CODE ∨ sel = SELECTOR_U_DATA → ∃ d, selected s' sel = Some d ∧ rpl sel = 3 ∧
     desc_present d = true ∧ desc_dpl d = 3 ∧ desc_base d = 0 ∧ last_offset d = 2 ^ 32 - 1) ∧
  (∃ d, selected s' (tr s') = Some d ∧ desc_present d = true ∧ desc_dpl d = 0 ∧ desc_base d = tss_addr) ∧
  ss0 (the_tss s') = SELECTOR_K_STACK ∧ take 4 (gdt s') = take 4 (gdt s).
Proof.
  intros Hl Ha s'. destruct s as [t g gr r]. cbn [gdt] in Hl.
  destruct g as [|g0 [|g1 [|g2 [|g3 [|g4 [|g5 [|g6 [|? ?]]]]]]]]; try discriminate Hl. clear Hl.
  split; [|split; [|split; done]].
  - intros sel [->| ->]; eexists; (split; [reflexivity|]); repeat split; vm_compute; reflexivity.
  - eexists. split; [reflexivity|]. split; [reflexivity|]. split; [reflexivity|].
    apply (gdt_desc_roundtrip tss_addr (sizeof_tss - 1) TSS_ATTR_LOW TSS_ATTR_HIGH Ha); vm_compute; try split; congruence.
Qed.

(** The segment is described with a limit that counts pages, so it reaches far behind the
    structure: [io_base], set to the size of the structure to say that there
    is no permission bitmap for the ports, is an offset inside the segment, and the
    processor takes what lies behind the structure for the bitmap. *)
Theorem tss_io_bitmap_inside s tss_addr : length (gdt s) = 7%nat → 0 ≤ tss_addr < 2 ^ 32 →
  let s' := tss_init s tss_addr in
  ∃ d, selected s' (tr s') = Some d ∧ io_base (the_tss s') = sizeof_tss ∧
    last_offset d = 442367 ∧ io_base (the_tss s') + 2 ^ 13 < last_offset d.
Proof.
  intros Hl Ha s'. destruct s as [t g gr r]. cbn [gdt] in Hl.
  destruct g as [|g0 [|g1 [|g2 [|g3 [|g4 [|g5 [|g6 [|? ?]]]]]]]]; try discriminate Hl. clear Hl.
  eexists. split; [reflexivity|]. repeat split.
Qed.

Module TssExample.
(** The loader's table: four descriptors and room for three. *)
Definition loaded : segments := Segments (first_tss 0 0) (replicate 7 (GdtDesc 0 0 0 0 0 0)) 0 0.

Lemma tss_init_segments_witness : ∃ d, selected (tss_init loaded 3221246016) SELECTOR_U_CODE = Some d ∧ desc_dpl d = 3.
Proof.
  destruct (tss_init_segments loaded 3221246016) as (Hu & _); [done|lia|].
  destruct (Hu SELECTOR_U_CODE) as (d & Hd & _ & _ & Hp & _); [by left|]. by exists d.
Defined.

Lemma tss_io_bitmap_inside_witness : ∃ d, selected (tss_init loaded 3221246016) SELECTOR_TSS = Some d ∧ last_offset d = 442367.
Proof.
  destruct (tss_io_bitmap_inside loaded 3221246016) as (d & Hd & _ & Ho & _); [done|lia|]. by exists d.
Defined.
End TssExample.
