(* ===== verification/Entry.v ===== *)
(** * kernel/kernel.asm: the entry points of interrupts and system calls

    An interrupt finds its way to a C function and back through a few instructions
    that save the registers on the kernel's stack and restore them. The stack is
    a list of words, the top first; the C functions keep to their calling
    convention: they may change [eax], [ecx], [edx] and the words of their arguments. *)

From stdpp Require Import base numbers list.
From Stdlib Require Import ZArith Lia.
From S2P Require Import Prelude Tss.

(** ** The processor *)

Record cpu := Cpu {
  c_eax : Z; c_ecx : Z; c_edx : Z; c_ebx : Z;
  c_esp : Z; c_ebp : Z; c_esi : Z; c_edi : Z;
  c_ds : Z; c_es : Z; c_fs : Z; c_gs : Z;
  c_eip : Z; c_cs : Z; c_eflags : Z; c_ss : Z
}.

(** What a C function has left in the registers it need not preserve and in
    the words of its arguments. *)
Record clobbered := Clobbered {
  k_eax : Z; k_ecx : Z; k_edx : Z;
  k_args : list Z
}.

(** The processor accepts an interrupt: it pushes the place to return to, with the stack of
    the interrupted program when the privilege level changes, and an error code
    for some exceptions. *)
Definition pushes_error (vec : Z) : bool := bool_decide (vec ∈ [8; 10; 11; 12; 13; 14; 17]).
Definition accept (c : cpu) (err : option Z) (stack : list Z) : list Z :=
  let stack := if rpl (c_cs c) =? 0 then stack else c_esp c :: c_ss c :: stack in
  let stack := c_eip c :: c_cs c :: c_eflags c :: stack in
  match err with Some e => e :: stack | None => stack end.

(** [iretd] *)
Definition iretd (c : cpu) (stack : list Z) : outcome (cpu * list Z) :=
  match stack with
  | eip :: cs :: eflags :: stack =>
      let back esp ss := Cpu (c_eax c) (c_ecx c) (c_edx c) (c_ebx c) esp (c_ebp c) (c_esi c) (c_edi c)
                           (c_ds c) (c_es c) (c_fs c) (c_gs c) eip cs eflags ss in
      if rpl cs =? 0 then Ok (back (c_esp c) (c_ss c), stack)
      else match stack with
           | esp :: ss :: stack => Ok (back esp ss, stack)
           | _ => Fault
           end
  | _ => Fault
  end.

(** ** The instructions of kernel.asm *)

(** [push ds; push es; push fs; push gs; pushad]; the value pushed for [esp] is not used. *)
Definition save (c : cpu) (sp : Z) (stack : list Z) : list Z :=
  [c_edi c; c_esi c; c_ebp c; sp; c_ebx c; c_edx c; c_ecx c; c_eax c; c_gs c; c_fs c; c_es c; c_ds c] ++ stack.

Definition intr_exit (c : cpu) (stack : list Z) : outcome (cpu * list Z) :=
  match stack with
  | _ :: edi :: esi :: ebp :: _ :: ebx :: edx :: ecx :: eax :: gs :: fs :: es :: ds :: _ :: stack =>
      iretd (Cpu eax ecx edx ebx (c_esp c) ebp esi edi ds es fs gs (c_eip c) (c_cs c) (c_eflags c) (c_ss c)) stack
  | _ => Fault
  end.

(** The registers while the handler runs and after it. *)
Definition returned (c : cpu) (k : clobbered) : cpu :=
  Cpu (k_eax k) (k_ecx k) (k_edx k) (c_ebx c) (c_esp c) (c_ebp c) (c_esi c) (c_edi c)
      (c_ds c) (c_es c) (c_fs c) (c_gs c) (c_eip c) (c_cs c) (c_eflags c) (c_ss c).

(** The order of the VECTOR lines: each line adds one entry to [intr_entry_table]; [true] for
    ERROR_CODE, which pushes nothing. *)
Definition error_vectors : list Z := [8; 10; 11; 13; 14; 17; 24; 26; 27; 29; 30].
Definition intr_entry_table : list (Z * bool) :=
  (λ v, (v, bool_decide (v ∈ error_vectors))) <$> (seqZ 0 96 ++ seqZ 97 32).

Section entries.
Context {W : Type}.

(** The entry of a VECTOR line. Both interrupt controllers are told that the interrupt is over
    before [handler], what [idt_table] has for the vector, runs; [out] is a write to a port. *)
Definition intr_entry (entry : Z * bool) (c : cpu) (err : option Z) (sp : Z) (stack : list Z) (out : Z → Z → W → W)
    (handler : Z → W → outcome (clobbered * W)) (w : W) : outcome (cpu * list Z * W) :=
  let '(vec, error_code) := entry in
  let stack := accept c err stack in
  let stack := if error_code then stack else 0 :: stack in
  let stack := save c sp stack in
  let w := out 32 32 (out 160 32 w) in
  '(k, w) ← handler vec w;
  match k_args k with
  | [a] => '(c, stack) ← intr_exit (returned c k) (a :: stack); Ok (c, stack, w)
  | _ => Fault
  end.

(** [syscall_handler]: [table] is [syscall_table], of which [call] makes a call with the three
    words on the stack. *)
Definition syscall_handler {F : Type} (table : list (option F)) (call : F → Z → Z → Z → W → outcome (clobbered * W))
    (c : cpu) (sp : Z) (stack : list Z) (w : W) : outcome (cpu * list Z * W) :=
  let stack := 128 :: save c sp (0 :: accept c None stack) in
  f ← from_option_fault (table !! Z.to_nat (c_eax c));
  f ← from_option_fault f;
  '(k, w) ← call f (c_ebx c) (c_ecx c) (c_edx c) w;
  let c := returned c k in
  let stack := <[8%nat := c_eax c]> stack in
  '(c, stack) ← intr_exit c stack;
  Ok (c, stack, w).
End entries.

(** ** Lemmas *)

Lemma iretd_accept c c' stack : c_esp c' = c_esp c → c_ss c' = c_ss c →
  iretd c' (accept c None stack) =
  Ok (Cpu (c_eax c') (c_ecx c') (c_edx c') (c_ebx c') (c_esp c) (c_ebp c') (c_esi c') (c_edi c')
        (c_ds c') (c_es c') (c_fs c') (c_gs c') (c_eip c) (c_cs c) (c_eflags c) (c_ss c), stack).
Proof.
  intros H1 H2. unfold iretd, accept. cbn. destruct (rpl (c_cs c) =? 0); [by rewrite H1, H2|done].
Qed.

(** With one word above the place to return to, [intr_exit] restores the saved registers. *)
Lemma intr_exit_saved c c' a sp e stack : c_esp c' = c_esp c → c_ss c' = c_ss c →
  intr_exit c' (a :: save c sp (e :: accept c None stack)) = Ok (c, stack).
Proof. intros H1 H2. cbn [save app intr_exit]. rewrite (iretd_accept c) by done. by destruct c. Qed.

Lemma syscall_exit c c' v sp stack : c_esp c' = c_esp c → c_ss c' = c_ss c →
  intr_exit c' (<[8%nat := v]> (128 :: save c sp (0 :: accept c None stack))) =
  Ok (Cpu v (c_ecx c) (c_edx c) (c_ebx c) (c_esp c) (c_ebp c) (c_esi c) (c_edi c)
        (c_ds c) (c_es c) (c_fs c) (c_gs c) (c_eip c) (c_cs c) (c_eflags c) (c_ss c), stack).
Proof.
  intros H1 H2. transitivity (iretd (Cpu v (c_ecx c) (c_edx c) (c_ebx c) (c_esp c') (c_ebp c) (c_esi c) (c_edi c) (c_ds c) (c_es c)
    (c_fs c) (c_gs c) (c_eip c') (c_cs c') (c_eflags c') (c_ss c')) (accept c None stack)); [reflexivity|].
  by rewrite (iretd_accept c) by done.
Qed.

Lemma entry_vector i : 0 ≤ i < 128 →
  intr_entry_table !! Z.to_nat i = Some (if i <? 96 then i else i + 1, bool_decide ((if i <? 96 then i else i + 1) ∈ error_vectors)).
Proof.
  intros Hi. unfold intr_entry_table. rewrite list_lookup_fmap. destruct (Z.ltb_spec i 96).
  - rewrite lookup_app_l by (rewrite length_seqZ; lia). rewrite lookup_seqZ_lt by lia. by replace (0 + Z.of_nat (Z.to_nat i)) with i by lia.
  - rewrite lookup_app_r by (rewrite length_seqZ; lia). rewrite length_seqZ, lookup_seqZ_lt by lia.
    by replace (97 + Z.of_nat (Z.to_nat i - Z.to_nat 96)) with (i + 1) by lia.
Qed.

(** ** Properties *)

(** C21. A device interrupt is invisible to the program it interrupts: whatever the handler of vector
    32 to 47 does to the registers that a C function may change and to its argument,
    the registers, the segments and both stacks are as before when the program
    goes on; both controllers were told that the interrupt is over, and the handler was called once, with the number of its vector. *)
Theorem interrupt_transparent {W} v c sp stack (out : Z → Z → W → W) (handler : Z → W → outcome (clobbered * W)) w k w' a :
  32 ≤ v < 48 → handler v (out 32 32 (out 160 32 w)) = Ok (k, w') → k_args k = [a] →
  ∃ entry, intr_entry_table !! Z.to_nat v = Some entry ∧ pushes_error v = false ∧
    intr_entry entry c None sp stack out handler w = Ok (c, stack, w').
Proof.
  intros Hv Hh Ha. eexists. split; [apply entry_vector; lia|]. destruct (Z.ltb_spec v 96); [|lia].
  assert (pushes_error v = false ∧ bool_decide (v ∈ error_vectors) = false) as [-> E].
  { split; apply bool_decide_eq_false_2; unfold error_vectors; rewrite !elem_of_cons, elem_of_nil; lia. }
  split; [done|]. rewrite E. unfold intr_entry. rewrite Hh. ocbn. rewrite Ha.
  by rewrite (intr_exit_saved c).
Qed.

(** [intr_entry_table] has no entry for vector 96 and one entry less than the
    descriptor table has gates: the gate of vector [v] leads, from 96 on, to the entry
    of vector [v + 1], whose handler is called and whose number it is given. *)
Theorem entry_table_shifted v : 96 ≤ v < 128 →
  length intr_entry_table = 128%nat ∧ ∃ b, intr_entry_table !! Z.to_nat v = Some (v + 1, b).
Proof.
  intros Hv. split; [done|]. eexists. rewrite entry_vector by lia. by destruct (Z.ltb_spec v 96); [lia|].
Qed.

Module EntryExample.
Definition program : cpu := Cpu 1 2 3 4 3221225000 6 7 8 51 51 51 0 134512700 43 514 51.

(** The clock interrupts a program of privilege level 3; the handler counts, the ports keep what is written. *)
Definition record (port v : Z) (w : Z * list (Z * Z)) : Z * list (Z * Z) := (w.1, w.2 ++ [(port, v)]).
Definition count (vec : Z) (w : Z * list (Z * Z)) : outcome (clobbered * (Z * list (Z * Z))) := Ok (Clobbered 9 9 9 [vec], (w.1 + 1, w.2)).

Lemma interrupt_transparent_witness :
  ∃ entry, intr_entry entry program None 0 [5] record count (10, []) = Ok (program, [5], (11, [(160, 32); (32, 32)])).
Proof.
  destruct (interrupt_transparent 32 program 0 [5] record count (10, []) (Clobbered 9 9 9 [32]) (11, [(160, 32); (32, 32)]) 32)
    as (entry & _ & _ & H); [lia|done|done|].
  exists entry. exact H.
Defined.

Lemma entry_table_shifted_witness : ∃ b, intr_entry_table !! 100%nat = Some (101, b).
Proof. destruct (entry_table_shifted 100) as (_ & b & H); [lia|]. exists b. exact H. Defined.
End EntryExample.
