(* ===== verification/Process.v ===== *)
(** * userprog/process.c: processes

    A process is a thread with a page directory of its own. [create_page_dir] makes
    one that shares the kernel's part with the directory in use, the rest is empty;
    [start_process] is what the new thread runs first: it fills in the frame from which
    [intr_exit] enters the user program. The memory is that of [Pool]: bytes by
    physical address, reached through the page tables. *)

From stdpp Require Import base numbers list gmap.
From Stdlib Require Import ZArith Lia.
From S2P Require Import Prelude Mem Bitmap Interrupt Thread Timer Sync ThreadInit Paging Pool Heap Tss Entry.

(** ** Copying through the page tables *)

Definition vload8 (m : mem) (d va : Z) : outcome Z := pa ← translate m d va; load8 m pa.
Definition vstore8 (m : mem) (d va v : Z) : outcome mem := pa ← translate m d va; store8 m pa v.

(** [memcpy(dst, src, n)] *)
Fixpoint vcopy (m : mem) (d dst src : Z) (n : nat) : outcome mem :=
  match n with
  | O => Ok m
  | S n =>
      b ← vload8 m d src;
      m ← vstore8 m d dst b;
      vcopy m d (u32 (dst + 1)) (u32 (src + 1)) n
  end.
Definition vmemcpy (m : mem) (d dst src : Z) (n : nat) : outcome mem :=
  ASSERT (negb (dst =? NULL) && negb (src =? NULL));;
  vcopy m d dst src n.

(** ** Operations *)

Definition default_prio : Z := 31.
Definition USER_STACK3_VADDR : Z := 3221225472 - 4096.
Definition USER_VADDR_START : Z := 134512640.
Definition EFLAGS_MBS : Z := Z.shiftl 1 1.
Definition EFLAGS_IF_1 : Z := Z.shiftl 1 9.
Definition EFLAGS_IOPL_0 : Z := Z.shiftl 0 12.

(** The frame that [intr_exit] pops, lowest address first; [esp_dummy] is skipped. *)
Record intr_stack := IntrStack {
  vec_no : Z;
  r_edi : Z; r_esi : Z; r_ebp : Z; esp_dummy : Z;
  r_ebx : Z; r_edx : Z; r_ecx : Z; r_eax : Z;
  r_gs : Z; r_fs : Z; r_es : Z; r_ds : Z;
  err_code : Z;
  r_eip : Z; r_cs : Z; r_eflags : Z; r_esp : Z; r_ss : Z
}.

(** The frame as the words on the stack. *)
Definition frame_words (f : intr_stack) : list Z :=
  [vec_no f; r_edi f; r_esi f; r_ebp f; esp_dummy f; r_ebx f; r_edx f; r_ecx f; r_eax f;
   r_gs f; r_fs f; r_es f; r_ds f; err_code f; r_eip f; r_cs f; r_eflags f; r_esp f; r_ss f].

(** The address of the frame, what it holds and the memory; [vec] and [err] are
    what its words [vec_no] and [err_code] held, which stay. [self_kstack] is a
    pointer to words. *)
Definition start_process (k : mm) (cur : task_struct) (filename_ vec err : Z) : outcome (Z * intr_stack * mm) :=
  let proc_stack := u32 (self_kstack cur + 4 * sizeof_thread_stack) in
  '(page, k) ← get_a_page k PF_USER USER_STACK3_VADDR;
  Ok (proc_stack,
      IntrStack vec 0 0 0 0 0 0 0 0 0 SELECTOR_U_DATA SELECTOR_U_DATA SELECTOR_U_DATA err filename_ SELECTOR_U_CODE
        (Z.lor (Z.lor EFLAGS_IOPL_0 EFLAGS_MBS) EFLAGS_IF_1) (u32 (page + PG_SIZE)) SELECTOR_U_DATA,
      k).

(** [create_page_dir]: the address of the directory, [NULL] without a page. *)
Definition create_page_dir (k : mm) : outcome (Z * mm) :=
  '(page_dir_vaddr, k) ← get_kernel_pages k 1;
  if page_dir_vaddr =? NULL then Ok (NULL, k)
  else
    m ← vmemcpy (phys k) (dir k) (u32 (page_dir_vaddr + 768 * 4)) (u32 (4294963200 + 768 * 4)) 1024;
    new_page_dir_phy_addr ← addr_v2p m (dir k) page_dir_vaddr;
    m ← vstore32 m (dir k) (u32 (page_dir_vaddr + 1023 * 4)) (user_entry new_page_dir_phy_addr);
    Ok (page_dir_vaddr, set_phys k m).

(** The space of a new process. The array of the bitmap lies in the pages it was
    allocated, which are longer than the bitmap. *)
Definition create_user_vaddr_bitmap (k : mm) : outcome (virtual_addr * mm) :=
  let bytes := (3221225472 - USER_VADDR_START) / PG_SIZE / 8 in
  let bitmap_pg_cnt := u32 (bytes + PG_SIZE - 1) / PG_SIZE in
  '(bits, k) ← get_kernel_pages k bitmap_pg_cnt;
  if bits =? NULL then Panic
  else
    b ← bitmap_init (Bitmap bytes (replicate (Z.to_nat (bitmap_pg_cnt * PG_SIZE)) 0));
    Ok (VirtualAddr b USER_VADDR_START, k).

(** The kernel with its memory: the page tables and pools, the memory as the kernel
    sees it, and the spaces of the processes by the address of their control block. *)
Record system := System {
  kern : kernel;
  pages_of : mm;
  seen : machine;
  vspaces : gmap Z virtual_addr
}.

(** The offset of [u_block_desc] in a control block. *)
Definition off_u_block_desc : Z := 68.

Definition with_pgdir (p : task_struct) (d : Z) : task_struct :=
  TaskStruct (self_kstack p) (pid p) (status p) (name p) (priority p) (ticks p) (elapsed_ticks p)
    d (fd_table p) (cwd_inode_nr p) (stack_magic p).

Section execute.
Context `{AddrV2P}.

(** [kernel_thread] and [start] are the addresses of the functions; interrupts are
    off while the process enters the lists. *)
Definition process_execute (x : system) (kernel_thread start filename : Z) (name : list Z) : outcome system :=
  '(thread, k) ← get_kernel_pages (pages_of x) 1;
  ASSERT (negb (thread =? NULL));;
  let s := Machine (zeros thread PG_SIZE ∪ ram (seen x)) (eflags (seen x)) in
  '(p, kn) ← init_thread (kern x) thread name default_prio;
  '(v, k) ← create_user_vaddr_bitmap k;
  let '(p, stack) := thread_create p kernel_thread start filename in
  '(d, k) ← create_page_dir k;
  let p := with_pgdir p d in
  s ← block_desc_init s (thread + off_u_block_desc);
  ks' ← thread_enqueue (ks (sy kn)) thread p;
  Ok (System (Kernel (set_ks (sy kn) ks') (next_pid kn) (<[self_kstack p := stack]> (kthread_stacks kn)))
        k s (<[thread := v]> (vspaces x))).
End execute.

(** ** The directory of a process *)

(** The directory at [f] has the kernel's entries of the directory at [d], no
    entries for the user and itself as the last one. *)
Record process_dir (m : mem) (d f : Z) : Prop := {
  pd_wf : pt_wf m f;
  pd_kernel i : 768 ≤ i < 1023 → load32 m (f + 4 * i) = load32 m (d + 4 * i);
  pd_user i : 0 ≤ i < 768 → load32 m (f + 4 * i) = Ok 0
}.

(** Through it the kernel sees what it sees through [d], and a user program nothing. *)
Lemma process_dir_kernel m d f va : process_dir m d f → 3221225472 ≤ va < 4290772992 →
  translate m f va = translate m d va.
Proof. intros Hd Hva. unfold translate. rewrite (pd_kernel _ _ _ Hd); [done|]. change (2 ^ 22) with 4194304. zdlia. Qed.

Lemma process_dir_user m d f va : process_dir m d f → 0 ≤ va < 3221225472 → translate m f va = Fault.
Proof.
  intros Hd Hva. unfold translate. rewrite (pd_user _ _ _ Hd); [done|]. change (2 ^ 22) with 4194304. zdlia.
Qed.

Lemma process_dir_self m d f : process_dir m d f → translate m f 4294963200 = Ok f.
Proof.
  intros Hd. destruct (pt_self _ _ (pd_wf _ _ _ Hd)) as (e & He & Hp & Hb). unfold translate.
  change (4294963200 / 2 ^ 22) with 1023. change (4294963200 / 2 ^ 12 mod 1024) with 1023.
  rewrite He. ocbn. rewrite Hp, Hb, He. ocbn. rewrite Hp, Hb. f_equal. apply Z.add_0_r.
Qed.

Lemma load32_shift (m m' : mem) p q : (∀ j, 0 ≤ j < 4 → m !! (p + j) = m' !! (q + j)) → load32 m p = load32 m' q.
Proof.
  intros H. unfold load32, load8. pose proof (H 0 ltac:(lia)) as H0. rewrite !Z.add_0_r in H0. by rewrite H0, !H by lia.
Qed.

Lemma load32_zero (m : mem) p : (∀ j, 0 ≤ j < 4 → m !! (p + j) = Some 0) → load32 m p = Ok 0.
Proof.
  intros H. unfold load32, load8. pose proof (H 0 ltac:(lia)) as H0. rewrite !Z.add_0_r in H0. by rewrite H0, !H by lia.
Qed.

(** ** Writing to one page *)

(** The page at [va] is mapped to frame [f], which is clear and holds none of the
    tables in use. *)
Section page.
Context (k : mm) (va f : Z).
Hypothesis Hk : mm_inv k.
Hypothesis Hva : managed va ∧ va mod 4096 = 0.
Hypothesis Hmap : maps (phys k) (dir k) va f.
Hypothesis Hzero : ∀ a, f ≤ a < f + 4096 → phys k !! a = Some 0.
Hypothesis Hnd : f ≠ dir k.

Lemma frame_facts : f mod 4096 = 0 ∧ ¬ is_table (phys k) (dir k) f ∧ ¬ (f = dir k).
Proof using Hk Hva Hmap Hzero Hnd.
  split; [by eapply maps_aligned|]. destruct (mi_mapped _ Hk va f) as [_ Hnt]; [apply Hva|done|].
  split; [|done]. by intros Hit%Hnt.
Qed.

(** [m] differs from the memory of [k] in the frame at most. *)
Record written (m : mem) : Prop := {
  wr_wf : wf_mem m;
  wr_same a : ¬ (f ≤ a < f + 4096) → m !! a = phys k !! a;
  wr_valid a : is_Some (phys k !! a) → is_Some (m !! a)
}.

Lemma written_refl : written (phys k).
Proof using Hk. constructor; try done. apply (pt_mem _ _ (mi_pt _ Hk)). Qed.

Lemma written_insert m a v : written m → f ≤ a < f + 4096 → written (<[a := u8 v]> m).
Proof.
  intros [H1 H2 H3] Ha. constructor.
  - intros x b. rewrite lookup_insert. case_decide; [intros [= <-]; apply u8_range|apply H1].
  - intros x Hx. rewrite lookup_insert_ne by lia. by apply H2.
  - intros x Hx. apply lookup_insert_is_Some'. right. by apply H3.
Qed.

Lemma written_inv m : written m → mm_inv (set_phys k m).
Proof using Hk Hva Hmap Hzero Hnd. destruct frame_facts as (Ha & Hnt & _). intros [H1 H2 H3]. by apply (data_write_inv k f). Qed.

(** The page tables stay, so every address leads where it did. *)
Lemma written_translate m x : written m → 0 ≤ x < 2 ^ 32 → translate m (dir k) x = translate (phys k) (dir k) x.
Proof using Hk Hva Hmap Hzero Hnd.
  destruct frame_facts as (Ha & Hnt & _). intros [H1 H2 H3] Hx. pose proof (va_bounds x Hx) as [Hi Hj]. unfold translate.
  rewrite (data_write_pde k f m Hk Ha Hnt H2) by done.
  destruct (load32 (phys k) (dir k + 4 * (x / 2 ^ 22))) as [e| | | |] eqn:He; try done. ocbn.
  destruct (entry_present e) eqn:Hp; [|done].
  assert (table_of (phys k) (dir k) x (entry_base e)) as Ht by (by exists e).
  destruct (table_base _ _ _ _ (mi_pt _ Hk) Ht) as [_ Hal].
  assert (is_table (phys k) (dir k) (entry_base e)) as Hit.
  { destruct (decide (x / 2 ^ 22 = 1023)) as [E|]; [left|right; exists (x / 2 ^ 22), e; split_and!; done || lia].
    destruct (pt_self _ _ (mi_pt _ Hk)) as (e' & He' & _ & Hb'). rewrite E in He. congruence. }
  by rewrite (data_write_load k f m Ha Hnt H2 (entry_base e)) by (done || lia).
Qed.

Lemma page_translate m j : written m → 0 ≤ j < 4096 → translate m (dir k) (va + j) = Ok (f + j).
Proof using Hk Hva Hmap Hzero Hnd.
  intros Hm Hj. destruct Hva as [Hv Ha]. unfold managed in Hv. rewrite written_translate by (done || lia).
  apply (maps_page _ _ _ (va + j)) in Hmap; [|zdlia]. apply maps_translate in Hmap as (pa & -> & ->). f_equal. zdlia.
Qed.

(** The directory in use, through its own entry. *)
Lemma self_translate m j : written m → 0 ≤ j < 4096 → translate m (dir k) (4294963200 + j) = Ok (dir k + j).
Proof using Hk Hva Hmap Hzero Hnd.
  intros Hm Hj. rewrite written_translate by (done || lia). destruct (pt_self _ _ (mi_pt _ Hk)) as (e & He & Hp & Hb). unfold translate.
  change (2 ^ 22) with 4194304. change (2 ^ 12) with 4096.
  replace ((4294963200 + j) / 4194304) with 1023 by zdlia. rewrite He. ocbn. rewrite Hp, Hb.
  replace ((4294963200 + j) / 4096 mod 1024) with 1023 by zdlia. rewrite He. ocbn. rewrite Hp, Hb. f_equal. zdlia.
Qed.

Lemma written_dir m a : written m → dir k ≤ a < dir k + 4096 → m !! a = phys k !! a.
Proof using Hk Hva Hmap Hzero Hnd.
  intros Hm Ha. destruct frame_facts as (Hal & _ & Hne). apply (wr_same _ Hm).
  destruct (frames_apart f (dir k) Hal (proj2 (pt_dir _ _ (mi_pt _ Hk))) Hne); lia.
Qed.

(** The rest of the copy of the kernel's entries, from byte [j] of the frame on. *)
Lemma vcopy_spec n : ∀ j m, written m → 3072 ≤ j → j + Z.of_nat n = 4096 →
  ∃ m', vcopy m (dir k) (va + j) (4294963200 + j) n = Ok m' ∧ written m' ∧
    ∀ a, f ≤ a < f + 4096 → m' !! a = if bool_decide (f + j ≤ a) then phys k !! (dir k + (a - f)) else m !! a.
Proof using Hk Hva Hmap Hzero Hnd.
  destruct frame_facts as (Hal & _ & Hne). pose proof Hva as [Hv Hva0]. unfold managed in Hv.
  induction n as [|n IH]; intros j m Hm Hj Hn.
  { exists m. split; [done|]. split; [done|]. intros a Ha. by rewrite bool_decide_eq_false_2 by lia. }
  cbn [vcopy]. unfold vload8 at 1, vstore8 at 1. rewrite self_translate by (done || lia). ocbn.
  destruct (pt_dir_valid _ _ (mi_pt _ Hk) (dir k + j)) as [b Hb]; [lia|].
  rewrite (load8_Some m (dir k + j) b) by (rewrite written_dir by (done || lia); done). ocbn.
  rewrite page_translate by (done || lia). ocbn.
  assert (is_Some (m !! (f + j))) as Hfj.
  { apply (wr_valid _ Hm). rewrite Hzero by lia. by eexists. }
  rewrite store8_valid by done. ocbn.
  assert (0 ≤ b < 256) as Hbr by (by eapply (pt_mem _ _ (mi_pt _ Hk))).
  set (m1 := <[f + j := u8 b]> m). assert (written m1) as Hm1 by (apply written_insert; [done|lia]).
  assert (∀ m' : mem, (∀ a, f ≤ a < f + 4096 → m' !! a = if bool_decide (f + (j + 1) ≤ a) then phys k !! (dir k + (a - f)) else m1 !! a) →
    ∀ a, f ≤ a < f + 4096 → m' !! a = if bool_decide (f + j ≤ a) then phys k !! (dir k + (a - f)) else m !! a) as Hstep.
  { intros m' Hm' a Ha. rewrite Hm' by done. unfold m1. destruct (decide (a = f + j)) as [->|].
    - rewrite bool_decide_eq_false_2, bool_decide_eq_true_2, lookup_insert_eq, u8_small by lia. replace (f + j - f) with j by lia. done.
    - rewrite lookup_insert_ne by done. repeat case_bool_decide; lia || done. }
  destruct (decide (n = 0%nat)) as [->|].
  { exists m1. split; [done|]. split; [done|]. apply Hstep. intros a Ha. by rewrite bool_decide_eq_false_2 by lia. }
  rewrite !u32_small by lia. rewrite <- !Z.add_assoc. destruct (IH (j + 1) m1 Hm1) as (m' & Hc & Hw & Ha); [lia..|].
  exists m'. split; [done|]. split; [done|]. by apply Hstep.
Qed.

Lemma written_put32 m a v : written m → f ≤ a → a + 4 ≤ f + 4096 → written (put32 m a v).
Proof. intros Hm H1 H2. unfold put32. repeat (apply written_insert; [|lia]). done. Qed.

(** The memory after the copy and the store of the last entry. *)
Lemma new_directory m : 0 ≤ f < 2 ^ 32 → written m →
  (∀ a, f ≤ a < f + 4096 → m !! a = if bool_decide (f + 3072 ≤ a) then phys k !! (dir k + (a - f)) else phys k !! a) →
  process_dir (put32 m (f + 4092) (user_entry f)) (dir k) f.
Proof using Hk Hva Hmap Hzero Hnd.
  intros Hf Hm Hcopy. destruct frame_facts as (Hal & Hnt & _). set (m2 := put32 m (f + 4092) (user_entry f)).
  assert (written m2) as Hm2 by (apply written_put32; [done|lia..]).
  assert (∀ i, 768 ≤ i < 1023 → load32 m2 (f + 4 * i) = load32 (phys k) (dir k + 4 * i)) as Hkern.
  { intros i Hi. apply load32_shift. intros j Hj. unfold m2. rewrite put32_lookup_ne, Hcopy, bool_decide_eq_true_2 by lia. f_equal. lia. }
  assert (∀ i, 0 ≤ i < 1024 → load32 m2 (dir k + 4 * i) = load32 (phys k) (dir k + 4 * i)) as Hdir.
  { intros i Hi. apply load32_lookup_ext. intros a Ha. apply written_dir; [done|lia]. }
  assert (∀ i, 0 ≤ i < 768 → load32 m2 (f + 4 * i) = Ok 0) as Huser.
  { intros i Hi. apply load32_zero. intros j Hj. unfold m2. rewrite put32_lookup_ne, Hcopy, bool_decide_eq_false_2 by lia. apply Hzero. lia. }
  constructor; [|intros i Hi; rewrite Hkern, Hdir by lia; done|done].
  pose proof (written_inv _ Hm2) as Hinv. destruct (entry_make f Hf Hal) as (_ & Eb & Ep & Er). constructor.
  - apply (wr_wf _ Hm2).
  - done.
  - intros a Ha. apply (wr_valid _ Hm2). rewrite Hzero by lia. by eexists.
  - exists (user_entry f). split; [|done]. change (f + 4 * 1023) with (f + 4092). unfold m2. rewrite load32_put32_eq. by rewrite u32_small.
  - intros i e Hi He Hp. destruct (decide (i < 768)) as [H|H]; [rewrite Huser in He by lia; by injection He as <-|].
    rewrite Hkern, <- Hdir in He by lia. split; [by eapply (pt_table _ _ (mi_pt _ Hinv) i)|].
    rewrite Hdir in He by lia. intros E. apply Hnt. right. by exists i, e.
Qed.
End page.

(** ** The parts of a process *)

(** The new directory, at physical address [f]. *)
Record dir_made (k k' : mm) (va f : Z) : Prop := {
  dm_inv : mm_inv k';
  dm_dir : dir k' = dir k;
  dm_va : managed va ∧ va ≠ NULL ∧ translate (phys k') (dir k') va = Ok f;
  dm_al : va mod 4096 = 0 ∧ f ≠ dir k';
  dm_new : process_dir (phys k') (dir k') f;
  dm_data a : data_byte k a → phys k' !! a = phys k !! a;
  dm_user : user_pool k' = user_pool k
}.

Lemma create_page_dir_spec k q :
  mm_inv k → space_inv k PF_KERNEL →
  (∃ s, 0 ≤ s ∧ s + 1 ≤ nbits (vaddr_bitmap (kernel_vaddr k)) ∧ free_run (vaddr_bitmap (kernel_vaddr k)) s 1) →
  resources k PF_KERNEL (1 + q) →
  ∃ va f k', create_page_dir k = Ok (va, k') ∧ dir_made k k' va f ∧ resources k' PF_KERNEL q.
Proof.
  intros Hk Hsp Hex Hres. destruct (get_kernel_pages_spec k 1 q Hk Hsp ltac:(lia) Hex Hres)
    as (va & r & k1 & Hget & [Hk1 Hd1 [Eva Hal] (Hr & Hrn & _) _ Hz Hfree Hdata _ _ _ _ _ Huser] & Hres1).
  destruct Hsp as [_ _ [Hs1 Hs2] _]. cbn [vspace] in Hs1, Hs2. unfold PG_SIZE in *.
  assert (managed va) as Hv by (unfold managed; lia).
  destruct (Hz va) as (f & Htr & _); [lia|].
  assert (maps (phys k1) (dir k1) va f) as Hmap by (apply maps_translate; exists f; split; [done|lia]).
  assert (∀ a, f ≤ a < f + 4096 → phys k1 !! a = Some 0) as Hzero.
  { intros a Ha. destruct (Hz (va + (a - f))) as (pa & Htr' & Hpa); [lia|].
    assert (va / 4096 = (va + (a - f)) / 4096) as Hpg by zdlia. pose proof (maps_page _ _ _ _ _ Hpg Hmap) as Hm'.
    apply maps_translate in Hm' as (pa' & Htr'' & E).
    assert (pa = pa') as <- by congruence. replace ((va + (a - f)) mod 4096) with (a - f) in E by zdlia.
    replace pa with a in Hpa by lia. done. }
  assert (free_in (kernel_pool k) f) as Hff by (apply (Hfree 0); [lia|by rewrite Z.add_0_r]).
  destruct (free_in_range _ _ _ (pool_of_wf k PF_KERNEL Hk) Hff) as (_ & Hf & Hfal & _).
  assert (f ≠ dir k1) as Hnd by (rewrite Hd1; by apply (free_not_dir k PF_KERNEL)).
  destruct (vcopy_spec k1 va f Hk1 (conj Hv Hal) Hmap Hzero Hnd 1024 3072 (phys k1) (written_refl k1 f Hk1)) as (m1 & Hc & Hw1 & Hcopy); [lia..|].
  set (m2 := put32 m1 (f + 4092) (user_entry f)).
  assert (written k1 f m2) as Hw2 by (apply written_put32; [done|lia..]).
  pose proof (new_directory k1 va f Hk1 (conj Hv Hal) Hmap Hzero Hnd m1 ltac:(lia) Hw1 Hcopy) as Hpd. fold m2 in Hpd.
  exists va, f, (set_phys k1 m2). split.
  - unfold create_page_dir. rewrite Hget. ocbn. rewrite (proj2 (Z.eqb_neq va NULL)) by (unfold NULL, managed in *; lia).
    unfold vmemcpy. unfold managed in Hv. rewrite !u32_small by lia.
    rewrite (proj2 (Z.eqb_neq (va + 768 * 4) NULL)) by (unfold NULL; lia). change (4294963200 + 768 * 4 =? NULL) with false. ocbn.
    change (768 * 4) with 3072. rewrite Hc. ocbn.
    pose proof (written_inv k1 va f Hk1 (conj Hv Hal) Hmap Hzero Hnd m1 Hw1) as Hi1.
    rewrite (addr_v2p_spec m1 (dir k1) va f (mi_pt _ Hi1)) by (lia ||
      (rewrite <- (Z.add_0_r va), (page_translate k1 va f) by (done || lia); f_equal; lia)). ocbn.
    unfold vstore32. rewrite (page_translate k1 va f) by (done || lia). ocbn. change (1023 * 4) with 4092.
    rewrite store32_valid; [done|]. intros a Ha. apply (wr_valid _ _ _ Hw1). rewrite Hzero by lia. by eexists.
  - split; [|done]. constructor; try done.
    + exact (written_inv k1 va f Hk1 (conj Hv Hal) Hmap Hzero Hnd m2 Hw2).
    + split; [done|]. split; [unfold NULL, managed in *; lia|]. cbn [phys dir set_phys].
      rewrite <- (Z.add_0_r va), (page_translate k1 va f) by (done || lia). f_equal. lia.
    + intros a Ha. cbn [phys set_phys]. rewrite (wr_same _ _ _ Hw2), Hdata; [done|done|].
      destruct (data_byte_apart k a f Hk Ha); [by right; left; left|done|lia|lia].
Qed.

Lemma user_bitmap_bytes : (3221225472 - USER_VADDR_START) / PG_SIZE / 8 = 94199.
Proof. reflexivity. Qed.

(** A cleared bitmap in a cleared area of [n] bytes. *)
Lemma bitmap_init_clear bytes (n : nat) : 0 ≤ bytes ≤ Z.of_nat n →
  bitmap_init (Bitmap bytes (replicate n 0)) = Ok (Bitmap bytes (replicate n 0)).
Proof.
  intros Hb. unfold bitmap_init. cbn [btmp_bytes_len bits]. rewrite length_replicate, (proj2 (Z.ltb_ge _ _)) by lia.
  rewrite drop_replicate, <- replicate_add. do 3 f_equal. lia.
Qed.

Lemma clear_wf bytes (n : nat) : 0 ≤ bytes ≤ Z.of_nat n → bytes * 8 < 2 ^ 31 - 16 → wf_bitmap (Bitmap bytes (replicate n 0)).
Proof. intros Hb Hm. constructor; cbn [bits btmp_bytes_len]; [by apply Forall_replicate|by rewrite length_replicate|done]. Qed.

Lemma clear_bit bytes (n : nat) i : 0 ≤ i < Z.of_nat n * 8 → bit (Bitmap bytes (replicate n 0)) i = false.
Proof. intros Hi. unfold bit, bitv. cbn [bits]. rewrite lookup_replicate_2 by zdlia. apply Z.bits_0. Qed.

(** The space of a process: free, from the first address of a program to the
    kernel's part of memory. *)
Record user_space (v : virtual_addr) : Prop := {
  us_wf : wf_bitmap (vaddr_bitmap v);
  us_start : vaddr_start v = USER_VADDR_START;
  us_nbits : nbits (vaddr_bitmap v) = 753592;
  us_end : vaddr_start v + nbits (vaddr_bitmap v) * PG_SIZE = 3221225472;
  us_free i : 0 ≤ i < nbits (vaddr_bitmap v) → bit (vaddr_bitmap v) i = false
}.

Lemma create_user_vaddr_bitmap_spec k q :
  mm_inv k → space_inv k PF_KERNEL →
  (∃ s, 0 ≤ s ∧ s + 23 ≤ nbits (vaddr_bitmap (kernel_vaddr k)) ∧ free_run (vaddr_bitmap (kernel_vaddr k)) s 23) →
  resources k PF_KERNEL (23 + q) →
  ∃ v va r k', create_user_vaddr_bitmap k = Ok (v, k') ∧ kernel_pages k k' va r 23 ∧ user_space v ∧ resources k' PF_KERNEL q.
Proof.
  intros Hk Hsp Hex Hres. destruct (get_kernel_pages_spec k 23 q Hk Hsp ltac:(lia) Hex Hres) as (va & r & k1 & Hget & Hkp & Hres1).
  pose proof (sp_range _ _ Hsp) as [Hmin _]. cbn [vspace] in Hmin. pose proof (kp_va _ _ _ _ _ Hkp) as [Eva _].
  pose proof (kp_run _ _ _ _ _ Hkp) as [Hr _].
  assert (u32 (94199 + PG_SIZE - 1) / PG_SIZE = 23) as Hpg by reflexivity.
  unfold create_user_vaddr_bitmap. rewrite user_bitmap_bytes, Hpg, Hget. ocbn.
  rewrite (proj2 (Z.eqb_neq va NULL)) by (unfold NULL, PG_SIZE in *; lia).
  assert (∃ n : nat, n = Z.to_nat (23 * PG_SIZE) ∧ Z.of_nat n = 94208) as (n & En & Hn)
    by (eexists; split; [reflexivity|unfold PG_SIZE; lia]).
  rewrite <- En, bitmap_init_clear by lia. ocbn. eexists _, va, r, k1. split; [reflexivity|]. split; [done|]. split; [|done].
  constructor; try done; [by apply clear_wf; lia|]. intros i Hi. unfold nbits in Hi. cbn in Hi. apply clear_bit. lia.
Qed.

(** ** The stack of a user program *)

Lemma pool_acquire_inv k pf : mm_inv k → mm_inv (pool_acquire k pf).
Proof. intros [H1 [] [] H4 H5 H6 H7 H8]. destruct pf; by constructor. Qed.

Lemma palloc_depth p f p' : palloc p = Ok (f, p') → depth p' = depth p.
Proof.
  unfold palloc. intros H. apply bind_ok in H as (i & _ & H). destruct (i =? -1); [by injection H as _ <-|].
  apply bind_ok in H as (b & _ & H). by injection H as _ <-.
Qed.

(** A page at an address of its own choice for a user program. *)
Record page_given (k k' : mm) (va f i : Z) : Prop := {
  pg_inv : mm_inv k';
  pg_dir : dir k' = dir k;
  pg_new : maps (phys k') (dir k) va f;
  pg_frame : free_in (user_pool k) f;
  pg_other va' f' : managed va' → va' / 4096 ≠ va / 4096 → maps (phys k') (dir k) va' f' ↔ maps (phys k) (dir k) va' f';
  pg_data a : data_byte k a → phys k' !! a = phys k !! a;
  pg_bits j : 0 ≤ j → bit (vaddr_bitmap (userprog_vaddr k')) j = if bool_decide (j = i) then true else bit (vaddr_bitmap (userprog_vaddr k)) j
}.

Lemma get_a_page_user k va i : mm_inv k → Pool.pgdir k ≠ NULL → managed va →
  wf_bitmap (vaddr_bitmap (userprog_vaddr k)) → va = vaddr_start (userprog_vaddr k) + i * 4096 →
  0 ≤ vaddr_start (userprog_vaddr k) → 0 < i < nbits (vaddr_bitmap (userprog_vaddr k)) →
  (∀ f, ¬ maps (phys k) (dir k) va f) → 0 ≤ depth (user_pool k) →
  (0 < free_count (user_pool k))%nat → (0 < free_count (kernel_pool k))%nat →
  ∃ f k', get_a_page k PF_USER va = Ok (va, k') ∧ page_given k k' va f i.
Proof.
  intros Hk Hpg Hva Hwf Ei Hst Hi Hno Hdep Huf Hkf. unfold get_a_page. set (k0 := pool_acquire k PF_USER).
  change (Pool.pgdir k0) with (Pool.pgdir k). rewrite (proj2 (Z.eqb_neq _ _) Hpg). ocbn.
  change (vspace k0 PF_USER) with (userprog_vaddr k). set (v := userprog_vaddr k) in *.
  assert (s32 (u32 (va - vaddr_start v) / PG_SIZE) = i) as ->.
  { unfold managed, PG_SIZE in *. rewrite Ei. replace (vaddr_start v + i * 4096 - vaddr_start v) with (i * 4096) by lia.
    pose proof (wf_int _ Hwf). rewrite u32_small by lia. rewrite Z.div_mul by lia. apply s32_small. lia. }
  rewrite (proj2 (Z.ltb_lt 0 i)) by lia. ocbn.
  destruct (bitmap_set_spec (vaddr_bitmap v) i 1 Hwf) as (b & -> & _ & _ & _ & Hbit);
    [pose proof (wf_len _ Hwf); unfold nbits in *; lia|by right|]. ocbn.
  set (k1 := set_vspace k0 PF_USER (VirtualAddr b (vaddr_start v))).
  assert (mm_inv k1) as Hk1 by (by apply mm_inv_space, pool_acquire_inv).
  destruct (palloc_spec k1 PF_USER Hk1 Huf) as (f & p' & Hpal & Hk2 & Hfresh & Hff & _ & _ & _). rewrite Hpal. ocbn.
  destruct Hfresh as (Hf0 & Hfr). rewrite (proj2 (Z.eqb_neq f NULL)) by (unfold NULL; lia).
  destruct (page_table_add_spec (set_pool k1 PF_USER p') va f Hk2 Hva Hno (conj Hf0 Hfr) Hkf) as (k3 & -> & [I Dr N O U _ _ S _ A]). ocbn.
  unfold pool_release. change (pool_of k3 PF_USER) with (user_pool k3). rewrite U.
  apply palloc_depth in Hpal. change (depth (pool_of k1 PF_USER)) with (depth (user_pool k) + 1) in Hpal.
  rewrite (proj2 (Z.leb_le 1 _)) by (cbn; lia). ocbn. eexists f, _. split; [done|].
  assert (mm_inv (set_pool k3 PF_USER p')) as I' by (by destruct k3; cbn in U; subst). constructor; try done.
  - destruct I' as [H1 H2 [] H4 H5 H6 H7 H8]. by constructor.
  - intros j Hj. cbn [userprog_vaddr set_pool]. rewrite S. cbn. by rewrite Hbit.
Qed.

(** The processor at the first instruction of the program at [fn]. *)
Definition program_start (fn : Z) : cpu :=
  Cpu 0 0 0 0 3221225472 0 0 0 SELECTOR_U_DATA SELECTOR_U_DATA SELECTOR_U_DATA 0 fn SELECTOR_U_CODE 514 SELECTOR_U_DATA.

Lemma program_start_level fn : let c := program_start fn in
  rpl (c_cs c) = 3 ∧ rpl (c_ss c) = 3 ∧ Z.testbit (c_eflags c) 9 = true ∧ c_eflags c / 2 ^ 12 mod 4 = 0.
Proof. done. Qed.

(** [start_process], run by a new process whose space is as [create_user_vaddr_bitmap]
    made it: it maps the page below the kernel's part of memory for the stack, at
    a frame that was free, keeps every other mapping and the contents of the
    pages in use, and leaves at the top of the kernel stack, inside its page, the frame
    that starts the program: at its first instruction, in privilege level 3 with
    interrupts on and no right to use ports, and with an empty stack. *)
Lemma start_process_spec k cur page fn vec err :
  mm_inv k → Pool.pgdir k ≠ NULL → vaddr_start (userprog_vaddr k) = USER_VADDR_START →
  wf_bitmap (vaddr_bitmap (userprog_vaddr k)) → nbits (vaddr_bitmap (userprog_vaddr k)) = 753592 →
  (∀ f, ¬ maps (phys k) (dir k) USER_STACK3_VADDR f) → 0 ≤ depth (user_pool k) →
  (0 < free_count (user_pool k))%nat → (0 < free_count (kernel_pool k))%nat →
  0 < page < 4294959104 → self_kstack cur = page + PG_SIZE - 4 * sizeof_intr_stack - 4 * sizeof_thread_stack →
  ∃ sp fr f k', start_process k cur fn vec err = Ok (sp, fr, k') ∧ page_given k k' USER_STACK3_VADDR f 753591 ∧
    page + sizeof_task_struct ≤ sp ∧ sp + sizeof_intr_stack ≤ page + PG_SIZE ∧
    ∀ c, intr_exit c (frame_words fr) = Ok (program_start fn, []).
Proof.
  intros Hk Hpg Hst Hwf Hnb Hno Hdep Hu Hkf Hpage Hsp.
  destruct (get_a_page_user k USER_STACK3_VADDR 753591) as (f & k' & Hg & Hgiven);
    [done|done|unfold managed, USER_STACK3_VADDR; lia|done|by rewrite Hst|by rewrite Hst|lia|done..|].
  unfold start_process. rewrite Hg. ocbn. do 4 eexists. split; [reflexivity|]. split; [exact Hgiven|].
  rewrite Hsp. unfold sizeof_task_struct, sizeof_intr_stack, sizeof_thread_stack, PG_SIZE. rewrite u32_small by lia.
  split; [lia|]. split; [lia|]. done.
Qed.


(** ** Properties *)

(** [create_page_dir], with a page to give: it returns the address of a new directory,
    at the physical address [f], through which every address of the kernel, but for the
    self-map, leads where it leads through the directory in use, and no address of a
    user program leads anywhere; its last entry is itself. The directory in use and the
    contents of the pages in use stay. *)
Theorem create_page_dir_correct k :
  mm_inv k → space_inv k PF_KERNEL →
  (∃ s, 0 ≤ s ∧ s + 1 ≤ nbits (vaddr_bitmap (kernel_vaddr k)) ∧ free_run (vaddr_bitmap (kernel_vaddr k)) s 1) →
  resources k PF_KERNEL 1 →
  ∃ va f k', create_page_dir k = Ok (va, k') ∧ mm_inv k' ∧ dir k' = dir k ∧
    translate (phys k') (dir k') va = Ok f ∧ pt_wf (phys k') f ∧
    (∀ a, 3221225472 ≤ a < 4290772992 → translate (phys k') f a = translate (phys k') (dir k') a) ∧
    (∀ a, 0 ≤ a < 3221225472 → translate (phys k') f a = Fault) ∧
    translate (phys k') f 4294963200 = Ok f ∧
    (∀ a, data_byte k a → phys k' !! a = phys k !! a).
Proof.
  intros Hk Hsp Hex Hres. destruct (create_page_dir_spec k 0 Hk Hsp Hex Hres) as (va & f & k' & Heq & [I Dr (_ & _ & T) _ N A _] & _).
  exists va, f, k'. split_and!; try done.
  - apply N.
  - intros a Ha. by apply process_dir_kernel.
  - intros a Ha. by apply (process_dir_user _ (dir k')).
  - by apply (process_dir_self _ (dir k')).
Qed.
