(* ===== verification/ProcessSpec.v ===== *)
(** * userprog/process.c: a process is made and started

    [process_execute] put together from the parts of [Process], the thread functions of
    [ThreadInit] and the block descriptors of [Heap]: three requests for pages
    follow each other, so the lemmas say what the first ones leave for the others. *)

From stdpp Require Import base numbers list gmap strings.
From Stdlib Require Import ZArith Lia.
From S2P Require Import Prelude Mem Bitmap Interrupt KList Thread Timer Sync ThreadInit Paging Pool Heap Tss Entry Process.

(** ** One request after the other *)

(** A free run that was long enough for two requests is long enough for the second
    when the first has been served: pages are given from the first place on that fits. *)
Lemma run_after k k' va r n s N :
  kernel_pages k k' va r n → 0 ≤ n ≤ N → 0 ≤ s →
  free_run (vaddr_bitmap (kernel_vaddr k)) s N → free_run (vaddr_bitmap (kernel_vaddr k')) (s + n) (N - n).
Proof.
  intros Hk Hn Hs Hrun j Hj. rewrite (kp_bits _ _ _ _ _ Hk) by lia.
  assert (r ≤ s). { destruct (decide (s < r)); [|lia]. destruct (kp_first _ _ _ _ _ Hk s); [lia|]. intros i Hi. apply Hrun. lia. }
  rewrite bool_decide_eq_false_2 by lia. apply Hrun. lia.
Qed.

(** A page that the space manages has room for a control block and the stacks. *)
Lemma page_given_range k k' va r n :
  kernel_pages k k' va r n → space_inv k PF_KERNEL → 1 ≤ n → 4194304 ≤ va ∧ va + PG_SIZE ≤ 4290772992.
Proof.
  intros Hk Hsp Hn. destruct (sp_range _ _ Hsp) as [H1 H2]. destruct (kp_va _ _ _ _ _ Hk) as [-> _].
  destruct (kp_run _ _ _ _ _ Hk) as (Hr & Hrn & _). cbn [vspace] in *. unfold PG_SIZE in *. lia.
Qed.

(** ** Running in the directory of a process *)

(** The memory manager when a process runs: its directory is in use, [pgdir] the address
    where the kernel sees it and [v] its space. *)
Definition in_process (k : mm) (f pgdir : Z) (v : virtual_addr) : mm :=
  MM (phys k) f (kernel_pool k) (user_pool k) (kernel_vaddr k) pgdir v.

Section handover.
Context (k : mm) (va f : Z).
Hypothesis Hk : mm_inv k.
Hypothesis Hva : managed va.
Hypothesis Hmap : maps (phys k) (dir k) va f.
Hypothesis Hnd : f ≠ dir k.
Hypothesis Hpd : process_dir (phys k) (dir k) f.

Lemma process_entry i e : 0 ≤ i < 1023 → load32 (phys k) (f + 4 * i) = Ok e → entry_present e = true →
  768 ≤ i ∧ load32 (phys k) (dir k + 4 * i) = Ok e.
Proof using Hpd.
  intros Hi He Hp. destruct (decide (i < 768)) as [H|H].
  - rewrite (pd_user _ _ _ Hpd) in He by lia. by injection He as <-.
  - rewrite (pd_kernel _ _ _ Hpd) in He by lia. by split; [lia|].
Qed.

(** The process has the kernel's pages and no others. *)
Lemma process_maps va' f' : managed va' →
  maps (phys k) f va' f' ↔ 3221225472 ≤ va' ∧ maps (phys k) (dir k) va' f'.
Proof using Hpd.
  intros Hv. unfold managed in Hv. rewrite !maps_translate. destruct (decide (va' < 3221225472)) as [H|H].
  - rewrite (process_dir_user _ (dir k) f va') by (done || lia). split; [by intros (? & [=] & _)|lia].
  - rewrite (process_dir_kernel _ (dir k) f va') by (done || lia). split; [|by intros [_ ?]]. by split; [lia|].
Qed.

Lemma process_table t : is_table (phys k) f t → t = f ∨ is_table (phys k) (dir k) t ∧ t ≠ dir k.
Proof using Hk Hpd.
  intros [->|(i & e & Hi & He & Hp & <-)]; [by left|right]. destruct (process_entry i e Hi He Hp) as [_ He'].
  split; [right; by exists i, e|]. by apply (pt_table _ _ (mi_pt _ Hk) i).
Qed.

Lemma process_dir_inv pgdir v : mm_inv (in_process k f pgdir v).
Proof using Hk Hva Hmap Hnd Hpd.
  pose proof Hk as [_ Hkp Hup Hap Htab Hinj Hm Hsh]. split; cbn [in_process phys Pool.dir kernel_pool user_pool]; try done.
  - apply Hpd.
  - intros t [->|[Ht _]]%process_table; [by apply (Hm va f)|by apply (Htab t)].
  - intros i j e e' Hi Hj He He' Hp Hp' E.
    destruct (process_entry i e) as [_ He1]; [lia|done|done|]. destruct (process_entry j e') as [_ He1']; [lia|done|done|].
    by apply (Hinj i j e e').
  - intros va' f' Hv' [_ Hm']%process_maps; [|done]. destruct (Hm va' f' Hv' Hm') as [Hnf Hd].
    split; [done|]. intros [?|[Ht Hn]]%process_table; [done|]. by apply Hd in Ht.
  - intros va1 va2 f' Hv1 Hv2 [_ H1]%process_maps [_ H2]%process_maps; try done. by apply (Hsh va1 va2 f').
Qed.
End handover.

(** ** The new process *)

Section execute.
Context `{AddrV2P}.

(** The system before a process is made: memory and threads are as they should be, no
    free page is taken for a control block, nobody is at the lock of the process numbers. *)
Record system_inv (x : system) : Prop := {
  si_mm : mm_inv (pages_of x);
  si_space : space_inv (pages_of x) PF_KERNEL;
  si_sched : sched_inv (ks (sy (kern x)));
  si_lock : locks (sy (kern x)) !! pid_lock = Some lock_init;
  si_main : is_Some (st (ks (sy (kern x))) (main_thread (ks (sy (kern x)))));
  si_free i : 0 ≤ i < nbits (vaddr_bitmap (kernel_vaddr (pages_of x))) →
    bit (vaddr_bitmap (kernel_vaddr (pages_of x))) i = false →
    st (ks (sy (kern x))) (vaddr_start (kernel_vaddr (pages_of x)) + i * PG_SIZE) = None
}.

(** The seven empty block descriptors at [descs]. *)
Definition empty_descs (m : mem) (descs : Z) : Prop :=
  ∀ i, 0 ≤ i < 7 → load32 m (block_size (desc_of descs i)) = Ok (bs i) ∧
    load32 m (blocks_per_arena (desc_of descs i)) = Ok (bpa i) ∧ dll m (free_list (desc_of descs i)) [].

Lemma init_thread_spec k thread nm prio :
  sched_inv (ks (sy k)) → locks (sy k) !! pid_lock = Some lock_init →
  thread ≠ main_thread (ks (sy k)) → (length nm < 16)%nat →
  ∃ p, init_thread k thread nm prio = Ok (p, pid_taken k) ∧
    ∀ kt f a, thread_create p kt f a = (new_task k thread nm prio, ThreadStack 0 0 0 0 kt f a).
Proof.
  intros Hs Hl Hm Hnm. unfold init_thread.
  rewrite allocate_pid_free by (done || (intros E; pose proof (inv_cur _ Hs) as Hc; rewrite E, (core_null _ (inv_core _ Hs)) in Hc; done)).
  ocbn. unfold copy_name. destruct (Nat.ltb_spec (length nm) 16); [|lia]. ocbn.
  rewrite ks_pid_taken, bool_decide_eq_false_2 by done. by eexists.
Qed.

(** The block descriptors in a control block at the start of a cleared page. *)
Lemma u_block_desc_init s thread :
  0 < thread → thread + PG_SIZE < 2 ^ 32 →
  ∃ m, block_desc_init (Machine (zeros thread PG_SIZE ∪ ram s) (eflags s)) (thread + off_u_block_desc) = Ok (Machine m (eflags s)) ∧
    empty_descs m (thread + off_u_block_desc) ∧ ∀ a, ¬ (thread ≤ a < thread + PG_SIZE) → m !! a = ram s !! a.
Proof.
  intros H0 H1. unfold PG_SIZE, off_u_block_desc in *. destruct (block_desc_init_spec (thread + 68) (Machine (zeros thread 4096 ∪ ram s) (eflags s)))
    as (m & Hb & Hout & _ & Hd); [lia|lia|intros a Ha; apply union_valid with (n := 4096) (p := thread); [left; apply zeros_valid|lia]|].
  exists m. split; [done|]. split; [done|]. intros a Ha. rewrite Hout by lia. cbn [ram].
  by rewrite lookup_union_r by (by rewrite zeros_lookup, bool_decide_eq_false_2).
Qed.
(** What [process_execute] has added to the system [x]: the process [t]. *)
Record process_made (x x' : system) (t kt start fn : Z) (nm : list Z) (p : task_struct) : Prop := {
  pm_mm : mm_inv (pages_of x');
  pm_dir : Pool.dir (pages_of x') = Pool.dir (pages_of x);
  pm_page : t mod PG_SIZE = 0 ∧ 4194304 ≤ t ∧ t + PG_SIZE ≤ 4290772992;
  pm_sched : sched_inv (ks (sy (kern x')));
  pm_running : running_thread (ks (sy (kern x'))) = running_thread (ks (sy (kern x)));
  pm_ready : thread_ready_list (ks (sy (kern x'))) = thread_ready_list (ks (sy (kern x))) ++ [t];
  pm_all : thread_all_list (ks (sy (kern x'))) = thread_all_list (ks (sy (kern x))) ++ [t];
  pm_tasks : tasks (ks (sy (kern x'))) = <[t := p]> (tasks (ks (sy (kern x))));
  pm_task : p = with_pgdir (new_task (kern x) t nm default_prio) (Thread.pgdir p);
  pm_pid : next_pid (kern x') = pid p;
  pm_pgdir : ∃ f, managed (Thread.pgdir p) ∧ Thread.pgdir p ≠ NULL ∧ Thread.pgdir p mod 4096 = 0 ∧ f ≠ Pool.dir (pages_of x') ∧
    translate (phys (pages_of x')) (Pool.dir (pages_of x')) (Thread.pgdir p) = Ok f ∧
    process_dir (phys (pages_of x')) (Pool.dir (pages_of x')) f;
  pm_space : ∃ v, vspaces x' = <[t := v]> (vspaces x) ∧ user_space v;
  pm_stack : kthread_stacks (kern x') = <[self_kstack p := ThreadStack 0 0 0 0 kt start fn]> (kthread_stacks (kern x));
  pm_descs : empty_descs (ram (seen x')) (t + off_u_block_desc);
  pm_seen a : ¬ (t ≤ a < t + PG_SIZE) → ram (seen x') !! a = ram (seen x) !! a;
  pm_data a : data_byte (pages_of x) a → phys (pages_of x') !! a = phys (pages_of x) !! a;
  pm_user : user_pool (pages_of x') = user_pool (pages_of x)
}.

(** Bytes that hold data before a request hold data after it. *)
Lemma data_byte_after k k' va r n a : kernel_pages k k' va r n → data_byte k a → data_byte k' a.
Proof.
  intros Hk (va' & f & Hv & Hm & Ha). exists va', f. rewrite (kp_dir _ _ _ _ _ Hk).
  split; [done|]. split; [rewrite <- (kp_dir _ _ _ _ _ Hk); by eapply (kp_kept _ _ _ _ _ Hk)|done].
Qed.

Lemma process_execute_spec x kt start fn nm q :
  system_inv x → resources (pages_of x) PF_KERNEL (25 + q) → (length nm < 16)%nat →
  (∃ s, 0 ≤ s ∧ s + 25 ≤ nbits (vaddr_bitmap (kernel_vaddr (pages_of x))) ∧ free_run (vaddr_bitmap (kernel_vaddr (pages_of x))) s 25) →
  ∃ x' t p, process_execute x kt start fn nm = Ok x' ∧ process_made x x' t kt start fn nm p ∧ resources (pages_of x') PF_KERNEL q.
Proof.
  intros [Hk Hsp Hsch Hl Hmain Hfree] Hres Hnm (s & Hs0 & Hsn & Hrun). unfold process_execute.
  destruct (get_kernel_pages_spec (pages_of x) 1 (24 + q) Hk Hsp ltac:(lia)) as (t & r & k1 & -> & K1 & R1);
    [exists s; split_and!; [done|lia|intros i Hi; apply Hrun; lia]|done|]. ocbn.
  pose proof (page_given_range _ _ _ _ _ K1 Hsp ltac:(lia)) as [Ht0 Ht1].
  pose proof (kp_va _ _ _ _ _ K1) as [Et Hal]. destruct (kp_run _ _ _ _ _ K1) as (Hr0 & Hrn & Hrr).
  assert (st (ks (sy (kern x))) t = None) as Htn. { rewrite Et. apply Hfree; [lia|]. apply Hrr. lia. }
  assert (t ≠ NULL) as Hnull by (unfold NULL; lia). rewrite (proj2 (Z.eqb_neq _ _) Hnull). ocbn.
  destruct (init_thread_spec (kern x) t nm default_prio Hsch Hl) as (p0 & -> & Hcr); [intros ->; rewrite Htn in Hmain; by destruct Hmain|done|]. ocbn.
  pose proof (run_after _ _ _ _ _ s 25 K1 ltac:(lia) Hs0 Hrun) as Hrun1. pose proof (kp_nbits _ _ _ _ _ K1) as Hn1.
  destruct (create_user_vaddr_bitmap_spec k1 (1 + q) (kp_inv _ _ _ _ _ K1) (kp_space _ _ _ _ _ K1)) as (v & va2 & r2 & k2 & -> & K2 & Hv & R2);
    [exists (s + 1); split_and!; [lia|lia|intros i Hi; apply Hrun1; lia]|done|]. ocbn.
  rewrite Hcr.
  pose proof (run_after _ _ _ _ _ (s + 1) 24 K2 ltac:(lia) ltac:(lia) Hrun1) as Hrun2. pose proof (kp_nbits _ _ _ _ _ K2) as Hn2.
  destruct (create_page_dir_spec k2 q (kp_inv _ _ _ _ _ K2) (kp_space _ _ _ _ _ K2)) as (d & f & k3 & -> & [M1 M2 (M3 & M3' & M6) [M7 M7'] M4 M5 M8] & R3);
    [exists (s + 24); split_and!; [lia|lia|intros i Hi; apply Hrun2; lia]|done|]. ocbn.
  destruct (u_block_desc_init (seen x) t) as (m & -> & Hd & Hout); [lia|unfold PG_SIZE in *; lia|]. ocbn.
  rewrite ks_pid_taken. set (p := with_pgdir (new_task (kern x) t nm default_prio) d).
  destruct (thread_enqueue_spec (ks (sy (kern x))) t p Hsch Htn Hnull eq_refl)
    as (s' & -> & S1 & S2 & _ & _ & _ & S3 & S4 & S5 & _). ocbn.
  do 3 eexists. split; [reflexivity|]. split; [|done]. constructor; try done.
  - cbn [pages_of]. by rewrite M2, (kp_dir _ _ _ _ _ K2), (kp_dir _ _ _ _ _ K1).
  - split; [exact Hal|done].
  - by exists f.
  - by exists v.
  - intros a Ha. cbn [pages_of]. pose proof (data_byte_after _ _ _ _ _ _ K1 Ha) as Ha1.
    rewrite M5, (kp_data _ _ _ _ _ K2), (kp_data _ _ _ _ _ K1); try done. by eapply data_byte_after.
  - cbn [pages_of]. by rewrite M8, (kp_user _ _ _ _ _ K2), (kp_user _ _ _ _ _ K1).
Qed.

(** The first stack of a process lies in its page, above the control block. *)
Lemma process_stack x x' t kt start fn nm p : process_made x x' t kt start fn nm p →
  self_kstack p = t + PG_SIZE - 4 * sizeof_intr_stack - 4 * sizeof_thread_stack.
Proof.
  intros Hm. destruct (pm_page _ _ _ _ _ _ _ _ Hm) as (_ & H1 & H2). rewrite (pm_task _ _ _ _ _ _ _ _ Hm).
  cbn [self_kstack with_pgdir new_task]. unfold PG_SIZE, sizeof_intr_stack, sizeof_thread_stack in *.
  rewrite (u32_small (t + 4096)), (u32_small (t + 4096 - 304)), u32_small by lia. lia.
Qed.

(** The process runs: its directory is in use, at [f], and its space is [v]. *)
Lemma process_runs x x' t kt start fn nm p : process_made x x' t kt start fn nm p →
  ∃ f v, translate (phys (pages_of x')) (Pool.dir (pages_of x')) (Thread.pgdir p) = Ok f ∧
    process_dir (phys (pages_of x')) (Pool.dir (pages_of x')) f ∧
    vspaces x' !! t = Some v ∧ user_space v ∧ mm_inv (in_process (pages_of x') f (Thread.pgdir p) v) ∧
    ∀ va f', managed va → va < 3221225472 → ¬ maps (phys (pages_of x')) f va f'.
Proof.
  intros Hm. destruct (pm_pgdir _ _ _ _ _ _ _ _ Hm) as (f & Hv & Hn & Hal & Hnd & Htr & Hpd).
  destruct (pm_space _ _ _ _ _ _ _ _ Hm) as (v & Hs & Hus). exists f, v. rewrite Hs, lookup_insert_eq. split_and!; try done.
  - apply (process_dir_inv _ (Thread.pgdir p)); try done; [by eapply pm_mm|]. apply maps_translate. exists f. split; [done|lia].
  - intros va f' Hva Hlt [? _]%(process_maps (pages_of x') f Hpd va f' Hva). lia.
Qed.

(** ** Properties *)

(** C17. [process_execute], with pages to give and nobody else at the lock of the process
    numbers: the new process stands at the end of both lists, ready, with a fresh
    number, the standard descriptors and a first stack that runs [start_process] on the
    program; its space is free, and its directory shows the kernel's pages and
    nothing below them. The invariants of the scheduler and of the memory
    manager are kept, in the running directory and in the new one, and so are the
    contents of the pages in use. *)
Theorem process_execute_correct x kt start fn nm :
  system_inv x → resources (pages_of x) PF_KERNEL 25 → (length nm < 16)%nat →
  (∃ s, 0 ≤ s ∧ s + 25 ≤ nbits (vaddr_bitmap (kernel_vaddr (pages_of x))) ∧ free_run (vaddr_bitmap (kernel_vaddr (pages_of x))) s 25) →
  ∃ x' t p f v, process_execute x kt start fn nm = Ok x' ∧
    sched_inv (ks (sy (kern x'))) ∧
    thread_ready_list (ks (sy (kern x'))) = thread_ready_list (ks (sy (kern x))) ++ [t] ∧
    thread_all_list (ks (sy (kern x'))) = thread_all_list (ks (sy (kern x))) ++ [t] ∧
    tasks (ks (sy (kern x'))) = <[t := p]> (tasks (ks (sy (kern x)))) ∧
    status p = TASK_READY ∧ pid p = s16 (next_pid (kern x) + 1) ∧ fd_table p = [0; 1; 2; -1; -1; -1; -1; -1] ∧
    kthread_stacks (kern x') !! self_kstack p = Some (ThreadStack 0 0 0 0 kt start fn) ∧
    t + sizeof_task_struct ≤ self_kstack p ∧ self_kstack p + sizeof_thread_stack + sizeof_intr_stack ≤ t + PG_SIZE ∧
    empty_descs (ram (seen x')) (t + off_u_block_desc) ∧
    vspaces x' !! t = Some v ∧ user_space v ∧
    translate (phys (pages_of x')) (Pool.dir (pages_of x')) (Thread.pgdir p) = Ok f ∧
    (∀ va, 3221225472 ≤ va < 4290772992 → translate (phys (pages_of x')) f va = translate (phys (pages_of x')) (Pool.dir (pages_of x')) va) ∧
    (∀ va, 0 ≤ va < 3221225472 → translate (phys (pages_of x')) f va = Fault) ∧
    mm_inv (pages_of x') ∧ mm_inv (in_process (pages_of x') f (Thread.pgdir p) v) ∧
    (∀ a, data_byte (pages_of x) a → phys (pages_of x') !! a = phys (pages_of x) !! a).
Proof.
  intros Hx Hres Hnm Hrun. destruct (process_execute_spec x kt start fn nm 0 Hx Hres Hnm Hrun) as (x' & t & p & Heq & Hm & _).
  destruct (process_runs _ _ _ _ _ _ _ _ Hm) as (f & v & Htr & Hpd & Hv & Hus & Hin & _). pose proof (process_stack _ _ _ _ _ _ _ _ Hm) as Hsp.
  destruct Hm as [M1 _ _ M4 _ M6 M7 M8 M9 M10 _ _ M13 M14 _ M16 _].
  exists x', t, p, f, v. rewrite M13, lookup_insert_eq, Hsp. unfold sizeof_task_struct, sizeof_intr_stack, sizeof_thread_stack, PG_SIZE.
  split_and!; try done; try (by rewrite M9); try lia.
  - intros va Hva. by apply process_dir_kernel.
  - intros va Hva. by apply (process_dir_user _ (Pool.dir (pages_of x'))).
Qed.

(** C16. From [process_execute] to the program: when the new process runs for the first time,
    in its own directory, its first stack calls [start_process] with the program, which
    returns: the page of the user stack is mapped to a free frame, and the
    frame from which [intr_exit] loads the registers, inside the page of
    the process, starts the program at its first instruction in privilege level 3, with
    interrupts on, I/O privilege level 0 and an empty stack. *)
Theorem process_starts_program x kt start fn nm vec err :
  system_inv x → resources (pages_of x) PF_KERNEL 26 → (length nm < 16)%nat →
  (∃ s, 0 ≤ s ∧ s + 25 ≤ nbits (vaddr_bitmap (kernel_vaddr (pages_of x))) ∧ free_run (vaddr_bitmap (kernel_vaddr (pages_of x))) s 25) →
  (0 < free_count (user_pool (pages_of x)))%nat → 0 ≤ depth (user_pool (pages_of x)) →
  ∃ x' t p f v, process_execute x kt start fn nm = Ok x' ∧ tasks (ks (sy (kern x'))) !! t = Some p ∧
    kthread_stacks (kern x') !! self_kstack p = Some (ThreadStack 0 0 0 0 kt start fn) ∧
    translate (phys (pages_of x')) (Pool.dir (pages_of x')) (Thread.pgdir p) = Ok f ∧ vspaces x' !! t = Some v ∧
    let k := in_process (pages_of x') f (Thread.pgdir p) v in
    ∃ sp fr g k', start_process k p fn vec err = Ok (sp, fr, k') ∧ page_given k k' USER_STACK3_VADDR g 753591 ∧
      t + sizeof_task_struct ≤ sp ∧ sp + sizeof_intr_stack ≤ t + PG_SIZE ∧
      ∃ c', (∀ c, intr_exit c (frame_words fr) = Ok (c', [])) ∧ c_eip c' = fn ∧ c_esp c' = 3221225472 ∧
        rpl (c_cs c') = 3 ∧ rpl (c_ss c') = 3 ∧ Z.testbit (c_eflags c') 9 = true ∧ c_eflags c' / 2 ^ 12 mod 4 = 0.
Proof.
  intros Hx Hres Hnm Hrun Hu Hdep. destruct (process_execute_spec x kt start fn nm 1 Hx Hres Hnm Hrun) as (x' & t & p & Heq & Hm & R).
  destruct (process_runs _ _ _ _ _ _ _ _ Hm) as (f & v & Htr & _ & Hv & Hus & Hin & Hno). pose proof (process_stack _ _ _ _ _ _ _ _ Hm) as Hsp.
  exists x', t, p, f, v. rewrite (pm_tasks _ _ _ _ _ _ _ _ Hm), (pm_stack _ _ _ _ _ _ _ _ Hm), !lookup_insert_eq.
  do 5 (split; [done|]). destruct (pm_pgdir _ _ _ _ _ _ _ _ Hm) as (_ & _ & Hn & _).
  destruct (pm_page _ _ _ _ _ _ _ _ Hm) as (_ & Ht0 & Ht1). unfold PG_SIZE in Ht1. cbn [resources] in R.
  edestruct (start_process_spec (in_process (pages_of x') f (Thread.pgdir p) v) p t fn vec err)
    as (sp & fr & g & k' & H1 & H2 & H3 & H4 & H5); cycle -1;
    [by exists sp, fr, g, k'; do 4 (split; [done|]); exists (program_start fn)|..]; try done; try apply Hus.
  - intros g. apply Hno; unfold managed, USER_STACK3_VADDR; lia.
  - cbn [user_pool in_process]. by rewrite (pm_user _ _ _ _ _ _ _ _ Hm).
  - cbn [user_pool in_process]. by rewrite (pm_user _ _ _ _ _ _ _ _ Hm).
  - cbn [kernel_pool in_process]. lia.
  - lia.
Qed.
End execute.

(** ** A small machine *)

Module ProcessExample.
#[local] Instance example_v2p : AddrV2P := λ v, v - 3221225472.

(** The directory at 4096, 56 frames of the kernel from 2 MB on and eight for processes
    behind them. The first page of the kernel's heap, of 32, holds the idle thread. *)
Definition blank_memory : mem := zeros 4096 4096 ∪ zeros 2097152 262144.
Definition kpool : pool := Pool (Bitmap 7 (replicate 8 0)) 2097152 229376 0.
Definition upool : pool := Pool (Bitmap 1 [0; 0]) 2326528 32768 0.
Definition heap : virtual_addr := VirtualAddr (Bitmap 4 [1; 0; 0; 0; 255]) K_HEAP_START.
Definition mm0 : mm := MM (put32 blank_memory (4096 + 4 * 1023) (4096 + 7)) 4096 kpool upool heap 0 heap.
Definition machine0 : system := System BootExample.booted mm0 (Machine ∅ 0) ∅.

Lemma mm0_inv : mm_inv mm0 ∧ ∀ va f, managed va → ¬ maps (phys mm0) (Pool.dir mm0) va f.
Proof.
  assert (blank blank_memory) as Hb by (apply union_blank; apply zeros_blank).
  assert (valid blank_memory 4096 4096) as Hv by (apply union_valid; left; apply zeros_valid).
  assert (valid blank_memory 2097152 262144) as Hp by (apply union_valid; right; apply zeros_valid).
  apply unmapped_inv.
  - by apply blank_directory_wf; [..|done].
  - apply pool_wf_valid; [done|]. apply put32_valid. eapply valid_sub; [exact Hp|done|done].
  - apply pool_wf_valid; [done|]. apply put32_valid. eapply valid_sub; [exact Hp|done|done].
  - done.
  - intros i Hi. by apply blank_directory_pde.
  - done.
Qed.

Lemma heap_free i : 0 ≤ i < 32 → bit (vaddr_bitmap heap) i = (i =? 0).
Proof.
  intros Hi. rewrite <- (Z2Nat.id i) by lia. assert (Z.to_nat i < 32)%nat as Hn by lia. revert Hn.
  generalize (Z.to_nat i). intros n Hn. do 32 (destruct n as [|n]; [reflexivity|]). lia.
Qed.

Lemma mm0_space : space_inv mm0 PF_KERNEL.
Proof.
  split; cbn [vspace kernel_vaddr mm0].
  - split; [apply wf_bitmap_b_ok|..]; by vm_compute.
  - done.
  - done.
  - intros i f Hi _. apply mm0_inv. unfold managed, PG_SIZE. change (nbits _) with 32 in Hi. cbn. unfold K_HEAP_START. lia.
Qed.

Lemma machine0_inv : system_inv machine0.
Proof.
  assert (sched_inv (ks (sy BootExample.booted))) as Hs by (apply sched_inv_b_ok; by vm_compute).
  constructor; cbn [kern pages_of machine0].
  - apply mm0_inv.
  - exact mm0_space.
  - exact Hs.
  - by vm_compute.
  - by eexists; vm_compute.
  - intros i Hi Hb. change (nbits _) with 32 in Hi. cbn [kernel_vaddr mm0] in *. rewrite heap_free in Hb by done.
    apply Z.eqb_neq in Hb. unfold PG_SIZE. cbn [vaddr_start heap]. unfold K_HEAP_START.
    destruct (st _ (3222274048 + i * 4096)) eqn:E; [|done]. assert (is_Some (st (ks (sy BootExample.booted)) (3222274048 + i * 4096))) as Hin by (by eexists).
    apply (inv_all _ Hs) in Hin. change (thread_all_list _) with [3221872640; 3222274048] in Hin.
    rewrite elem_of_cons, list_elem_of_singleton in Hin. lia.
Qed.

Lemma heap_run n : 0 ≤ n ≤ 31 → ∃ s, 0 ≤ s ∧ s + n ≤ nbits (vaddr_bitmap (kernel_vaddr (pages_of machine0))) ∧
  free_run (vaddr_bitmap (kernel_vaddr (pages_of machine0))) s n.
Proof.
  intros Hn. exists 1. split; [lia|]. split; [change (nbits _) with 32; lia|]. intros i Hi. cbn [pages_of machine0 kernel_vaddr mm0].
  rewrite heap_free by lia. apply Z.eqb_neq. lia.
Qed.

Lemma create_page_dir_correct_witness : ∃ va f k', create_page_dir mm0 = Ok (va, k') ∧ translate (phys k') f 4294963200 = Ok f.
Proof.
  destruct (create_page_dir_correct mm0) as (va & f & k' & Heq & _ & _ & _ & _ & _ & _ & Hself & _);
    [apply mm0_inv|apply mm0_space|apply (heap_run 1); lia|change (2 * 1 ≤ free_count kpool)%nat; vm_compute; lia|].
  exists va, f, k'. split; [exact Heq|exact Hself].
Defined.

Lemma process_execute_correct_witness :
  ∃ x' t, process_execute machine0 16 48 134512640 (bytes "init") = Ok x' ∧
    thread_ready_list (ks (sy (kern x'))) = [3222274048; t].
Proof.
  destruct (process_execute_correct machine0 16 48 134512640 (bytes "init")) as (x' & t & p & f & v & Heq & _ & Hr & _);
    [apply machine0_inv|change (2 * 25 ≤ free_count kpool)%nat; vm_compute; lia|vm_compute; lia|apply (heap_run 25); lia|].
  exists x', t. split; [exact Heq|exact Hr].
Defined.

Lemma process_starts_program_witness :
  ∃ x' k p sp fr k' c, process_execute machine0 16 48 134512640 (bytes "init") = Ok x' ∧
    start_process k p 134512640 0 0 = Ok (sp, fr, k') ∧
    intr_exit EntryExample.program (frame_words fr) = Ok (c, []) ∧ c_eip c = 134512640.
Proof.
  destruct (process_starts_program machine0 16 48 134512640 (bytes "init") 0 0)
    as (x' & t & p & f & v & Heq & _ & _ & _ & _ & sp & fr & g & k' & Hst & _ & _ & _ & c & Hx & He & _);
    [apply machine0_inv|change (2 * 26 ≤ free_count kpool)%nat; vm_compute; lia|vm_compute; lia|apply (heap_run 25); lia
    |change (0 < free_count upool)%nat; vm_compute; lia|change (0 ≤ depth upool); done|].
  do 7 eexists. split; [exact Heq|]. split; [exact Hst|]. split; [apply Hx|exact He].
Defined.
End ProcessExample.
