(* ===== verification/Syscall.v ===== *)
(** * userprog/syscall-init.c, lib/user/syscall.c: system calls

    A user program calls one of four functions of the kernel through [int 0x80]: the
    number of the function is in [eax], the arguments are in [ebx], [ecx] and [edx], and
    [syscall_handler] of [Entry] finds the function in [syscall_table]. What the
    functions do is an interface; sys_malloc and sys_free of the heap implement it. *)

From stdpp Require Import base numbers list gmap.
From Stdlib Require Import ZArith Lia.
From S2P Require Import Prelude Mem Interrupt Thread Paging Pool Heap HeapPages Tss Entry.

(** ** The table *)

Definition SYS_GETPID : Z := 0.
Definition SYS_WRITE : Z := 1.
Definition SYS_MALLOC : Z := 2.
Definition SYS_FREE : Z := 3.
Definition syscall_nr : Z := 32.

(** The addresses of the functions; [None] is an entry that was not set. *)
Inductive syscall := sys_getpid_ | sys_write_ | sys_malloc_ | sys_free_.

Definition syscall_init (syscall_table : list (option syscall)) : list (option syscall) :=
  let t := <[Z.to_nat SYS_GETPID := Some sys_getpid_]> syscall_table in
  let t := <[Z.to_nat SYS_WRITE := Some sys_write_]> t in
  let t := <[Z.to_nat SYS_MALLOC := Some sys_malloc_]> t in
  <[Z.to_nat SYS_FREE := Some sys_free_]> t.

(** ** The functions *)

(** What the functions of other parts of the kernel do, on their state. *)
Class SysFunctions (R : Type) := {
  do_write : Z → Z → Z → R → outcome (Z * R);
  do_malloc : Z → R → outcome (Z * R);
  do_free : Z → R → outcome R
}.

Definition sys_getpid (s : kstate) : outcome Z :=
  p ← from_option_fault (tasks s !! running_thread s);
  Ok (u32 (pid p)).

Section calls.
Context {R : Type} `{SysFunctions R}.

(** A call with three words on the stack; [junk] is what it leaves in [eax] when it returns nothing,
    in [ecx] and [edx] and in the words. *)
Definition call (junk : clobbered) (f : syscall) (a1 a2 a3 : Z) (w : kstate * R) : outcome (clobbered * (kstate * R)) :=
  let '(s, r) := w in
  let ret v := Clobbered (u32 v) (k_ecx junk) (k_edx junk) (k_args junk) in
  match f with
  | sys_getpid_ => v ← sys_getpid s; Ok (ret v, (s, r))
  | sys_write_ => '(v, r) ← do_write (s32 a1) a2 a3 r; Ok (ret v, (s, r))
  | sys_malloc_ => '(v, r) ← do_malloc a1 r; Ok (ret v, (s, r))
  | sys_free_ => r ← do_free a1 r; Ok (junk, (s, r))
  end.

(** ** lib/user/syscall.c *)

(** The program, the kernel's stack and what the kernel keeps. *)
Record user := User { prog : cpu; kstack : list Z; world : kstate * R }.

Context (table : list (option syscall)) (junk : clobbered) (sp : Z).

(** [int $0x80] *)
Definition int80 (u : user) : outcome user :=
  '(c, st, w) ← syscall_handler table (call junk) (prog u) sp (kstack u) (world u);
  Ok (User c st w).

(** The registers as the constraints of the [asm] statement ask for. *)
Definition with_args (u : user) (number : Z) (b c d : option Z) : user :=
  let p := prog u in
  User (Cpu number (default (c_ecx p) c) (default (c_edx p) d) (default (c_ebx p) b) (c_esp p) (c_ebp p) (c_esi p) (c_edi p)
          (c_ds p) (c_es p) (c_fs p) (c_gs p) (c_eip p) (c_cs p) (c_eflags p) (c_ss p)) (kstack u) (world u).
Definition retval (r : outcome user) : outcome (Z * user) := u ← r; Ok (s32 (c_eax (prog u)), u).

Definition _syscall0 (u : user) (number : Z) := retval (int80 (with_args u number None None None)).
Definition _syscall1 (u : user) (number a1 : Z) := retval (int80 (with_args u number (Some a1) None None)).
Definition _syscall2 (u : user) (number a1 a2 : Z) := retval (int80 (with_args u number (Some a1) (Some a2) None)).
Definition _syscall3 (u : user) (number a1 a2 a3 : Z) := retval (int80 (with_args u number (Some a1) (Some a2) (Some a3))).

Definition getpid (u : user) : outcome (Z * user) := '(v, u) ← _syscall0 u SYS_GETPID; Ok (u32 v, u).
Definition write (u : user) (fd buf count : Z) : outcome (Z * user) :=
  '(v, u) ← _syscall3 u SYS_WRITE (u32 fd) buf count; Ok (u32 v, u).
Definition malloc (u : user) (size : Z) : outcome (Z * user) := '(v, u) ← _syscall1 u SYS_MALLOC size; Ok (u32 v, u).
Definition free (u : user) (ptr : Z) : outcome user := '(_, u) ← _syscall1 u SYS_FREE ptr; Ok u.

(** ** Lemmas *)

(** The program after a call: the value is in [eax], the other registers are as they were set. *)
Definition after (u : user) (v : Z) (w : kstate * R) : user :=
  let p := prog u in
  User (Cpu v (c_ecx p) (c_edx p) (c_ebx p) (c_esp p) (c_ebp p) (c_esi p) (c_edi p)
          (c_ds p) (c_es p) (c_fs p) (c_gs p) (c_eip p) (c_cs p) (c_eflags p) (c_ss p)) (kstack u) w.

Lemma int80_call u f k w : table !! Z.to_nat (c_eax (prog u)) = Some (Some f) →
  call junk f (c_ebx (prog u)) (c_ecx (prog u)) (c_edx (prog u)) (world u) = Ok (k, w) →
  int80 u = Ok (after u (k_eax k) w).
Proof.
  intros Ht Hc. unfold int80, syscall_handler. rewrite Ht. ocbn. rewrite Hc. ocbn.
  by rewrite (syscall_exit (prog u)).
Qed.

(** Besides the registers for the arguments and the result, a call leaves everything as it was, the stack of
    the kernel too. *)
Definition same_program (u u' : user) : Prop :=
  let p := prog u in let p' := prog u' in
  c_esp p' = c_esp p ∧ c_ebp p' = c_ebp p ∧ c_esi p' = c_esi p ∧ c_edi p' = c_edi p ∧
  c_ds p' = c_ds p ∧ c_es p' = c_es p ∧ c_fs p' = c_fs p ∧ c_gs p' = c_gs p ∧
  c_eip p' = c_eip p ∧ c_cs p' = c_cs p ∧ c_eflags p' = c_eflags p ∧ c_ss p' = c_ss p ∧ kstack u' = kstack u.

Lemma same_program_trans u1 u2 u3 : same_program u1 u2 → same_program u2 u3 → same_program u1 u3.
Proof. unfold same_program. intros (-> & -> & -> & -> & -> & -> & -> & -> & -> & -> & -> & -> & ->). done. Qed.

(** A call with a number and arguments in the registers. *)
Lemma retval_call u number b c d f k w : table !! Z.to_nat number = Some (Some f) →
  call junk f (default (c_ebx (prog u)) b) (default (c_ecx (prog u)) c) (default (c_edx (prog u)) d) (world u) = Ok (k, w) →
  ∃ u', retval (int80 (with_args u number b c d)) = Ok (s32 (k_eax k), u') ∧ same_program u u' ∧ world u' = w.
Proof.
  intros Ht Hc. unfold retval. rewrite (int80_call _ f k w) by done. ocbn. eexists. split; [done|]. by split_and!.
Qed.
End calls.

Definition first_table : list (option syscall) := syscall_init (replicate (Z.to_nat syscall_nr) None).

(** ** The heap behind malloc and free *)

Section user_heap.
Context {P : Type} `{PageAllocator P} (env : heap_env) (fresh_junk : Z → Z).
Context (file_write : Z → Z → Z → heap P → outcome (Z * heap P)).

#[local] Instance heap_functions : SysFunctions (heap P) := {|
  do_write := file_write;
  do_malloc size h := Heap.sys_malloc env fresh_junk h size;
  do_free ptr h := Heap.sys_free env h ptr
|}.

(** [malloc] of a user program. *)
Lemma malloc_spec junk sp (u : user (R := heap P)) s h fl regs size :
  world u = (s, h) → heap_inv (env_descs env) h fl regs → 0 < size < env_pool_size env →
  pages_needed size < 3840 → pa_room (pages h) (pages_needed size) → 0 ≤ held h →
  ∃ x n h' fl' regs' u', malloc first_table junk sp u size = Ok (x, u') ∧ size ≤ n ∧
    allocated (env_descs env) h h' fl regs fl' regs' x n ∧ held h' = held h ∧ same_program u u' ∧ world u' = (s, h').
Proof.
  intros Hw Hinv Hs Hn Hroom Hheld.
  destruct (sys_malloc_spec (env_descs env) env fresh_junk h fl regs size eq_refl Hinv Hs Hn Hroom Hheld)
    as (x & n & h' & fl' & regs' & Heq & Hsz & Hal & Hheld').
  assert (live fl' regs' x n) as Hl by (apply (al_live _ _ _ _ _ _ _ _ _ Hal); by right).
  destruct (live_pos _ _ _ _ _ _ (al_inv _ _ _ _ _ _ _ _ _ Hal) Hl) as [Hx _].
  pose proof (live_below _ _ _ _ _ _ (al_inv _ _ _ _ _ _ _ _ _ Hal) Hl) as Hx'.
  destruct (retval_call first_table junk sp u SYS_MALLOC (Some size) None None sys_malloc_
    (Clobbered (u32 x) (k_ecx junk) (k_edx junk) (k_args junk)) (s, h')) as (u' & Hc & Hsame & Hw'); [done|rewrite Hw; cbn; by rewrite Heq|].
  exists x, n, h', fl', regs', u'. split; [|done]. unfold malloc, _syscall1. rewrite Hc. ocbn. cbn [k_eax].
  by rewrite u32_s32, u32_small by lia.
Qed.

(** [free] of a user program. *)
Lemma free_spec junk sp (u : user (R := heap P)) s h fl regs x n :
  world u = (s, h) → heap_inv (env_descs env) h fl regs → live fl regs x n →
  (in_kernel env = true → ∀ a, pa_region (pages h) a → K_HEAP_START ≤ a) → 0 ≤ held h →
  ∃ h' fl' regs' u', free first_table junk sp u x = Ok u' ∧ freed (env_descs env) h h' fl regs fl' regs' x ∧
    same_program u u' ∧ world u' = (s, h').
Proof.
  intros Hw Hinv Hl Hk Hheld.
  destruct (sys_free_spec (env_descs env) env h fl regs x n eq_refl Hinv Hl Hk Hheld) as (h' & fl' & regs' & Heq & Hfr).
  destruct (retval_call first_table junk sp u SYS_FREE (Some x) None None sys_free_ junk (s, h')) as (u' & Hc & Hsame & Hw');
    [done|rewrite Hw; cbn; by rewrite Heq|].
  exists h', fl', regs', u'. split; [|done]. unfold free, _syscall1. by rewrite Hc.
Qed.
End user_heap.

(** ** Properties *)

(** C22. Each function of lib/user/syscall.c reaches the function of the kernel it names, with its
    arguments in their order, and returns what that one returned; to the program
    nothing else is visible of the call, and the kernel's stack is as before. A number that
    [syscall_init] has not set leads to a call of address 0 or behind the table. *)
Theorem syscalls_reach_kernel {R} `{SysFunctions R} junk sp (u : user (R := R)) s r :
  world u = (s, r) →
  (∀ p, tasks s !! running_thread s = Some p →
     ∃ u', getpid first_table junk sp u = Ok (u32 (pid p), u') ∧ same_program u u' ∧ world u' = (s, r)) ∧
  (∀ fd buf count v r', -2147483648 ≤ fd < 2147483648 → do_write fd buf count r = Ok (v, r') →
     ∃ u', write first_table junk sp u fd buf count = Ok (u32 v, u') ∧ same_program u u' ∧ world u' = (s, r')) ∧
  (∀ size v r', do_malloc size r = Ok (v, r') →
     ∃ u', malloc first_table junk sp u size = Ok (u32 v, u') ∧ same_program u u' ∧ world u' = (s, r')) ∧
  (∀ ptr r', do_free ptr r = Ok r' →
     ∃ u', free first_table junk sp u ptr = Ok u' ∧ same_program u u' ∧ world u' = (s, r')) ∧
  (∀ number, 4 ≤ number → _syscall0 first_table junk sp u number = Fault).
Proof.
  intros Hw. set (ret v := Clobbered (u32 v) (k_ecx junk) (k_edx junk) (k_args junk)). split_and!.
  - intros p Hp. destruct (retval_call first_table junk sp u SYS_GETPID None None None sys_getpid_ (ret (u32 (pid p))) (s, r))
      as (u' & Hc & ?); [done|rewrite Hw; cbn; unfold sys_getpid; by rewrite Hp|].
    exists u'. split; [|done]. unfold getpid, _syscall0. rewrite Hc. ocbn. unfold ret. cbn [k_eax]. rewrite u32_s32. by rewrite (u32_small (u32 _)) by apply u32_range.
  - intros fd buf count v r' Hfd Hd.
    destruct (retval_call first_table junk sp u SYS_WRITE (Some (u32 fd)) (Some buf) (Some count) sys_write_ (ret v) (s, r'))
      as (u' & Hc & ?); [done| |exists u'; split; [|done]; unfold write, _syscall3; rewrite Hc; ocbn; unfold ret; cbn [k_eax]; by rewrite u32_s32].
    rewrite Hw. cbn. by rewrite s32_u32, s32_small, Hd by lia.
  - intros size v r' Hd. destruct (retval_call first_table junk sp u SYS_MALLOC (Some size) None None sys_malloc_ (ret v) (s, r'))
      as (u' & Hc & ?); [done|by rewrite Hw; cbn; rewrite Hd|].
    exists u'. split; [|done]. unfold malloc, _syscall1. rewrite Hc. ocbn. unfold ret. cbn [k_eax]. by rewrite u32_s32.
  - intros ptr r' Hd. destruct (retval_call first_table junk sp u SYS_FREE (Some ptr) None None sys_free_ junk (s, r'))
      as (u' & Hc & ?); [done|by rewrite Hw; cbn; rewrite Hd|].
    exists u'. split; [|done]. unfold free, _syscall1. by rewrite Hc.
  - intros number Hn. unfold _syscall0, retval, int80, syscall_handler. cbn [prog with_args c_eax].
    assert (first_table !! Z.to_nat number = None ∨ first_table !! Z.to_nat number = Some None) as [->| ->]; [|done..].
    unfold first_table, syscall_init. rewrite !list_lookup_insert_ne by (unfold SYS_GETPID, SYS_WRITE, SYS_MALLOC, SYS_FREE; lia).
    destruct (decide (number < 32)); [right; by apply lookup_replicate_2; unfold syscall_nr; lia|left].
    apply lookup_ge_None_2. rewrite length_replicate. unfold syscall_nr. lia.
Qed.


Module SyscallExample.
(** A kernel that keeps a list of what was written and gives out the addresses from a counter. *)
Definition tiny : Type := list (Z * Z * Z) * Z.
#[local] Instance tiny_functions : SysFunctions tiny := {|
  do_write fd buf count r := Ok (count, (r.1 ++ [(fd, buf, count)], r.2));
  do_malloc size r := Ok (r.2, (r.1, r.2 + size));
  do_free ptr r := Ok r
|}.
Definition threads : kstate := KState ∅ [] [] 0 0 0 INTR_OFF ∅ 0 0.
Definition junk : clobbered := Clobbered 9 9 9 [9; 9; 9].

Lemma syscalls_reach_kernel_witness :
  ∃ u', write (R := tiny) first_table junk 0 (User EntryExample.program [] (threads, ([], 64))) 1 500 6 = Ok (6, u') ∧
    world u' = (threads, ([(1, 500, 6)], 64)).
Proof.
  destruct (syscalls_reach_kernel junk 0 (User EntryExample.program [] (threads, (([], 64) : tiny))) threads ([], 64) eq_refl)
    as (_ & Hwrite & _).
  destruct (Hwrite 1 500 6 6 ([(1, 500, 6)], 64)) as (u' & H1 & _ & H2); [lia|done|]. exists u'. split; [exact H1|exact H2].
Defined.

#[local] Instance example_pages : PageAllocator mm := pool_allocator PF_KERNEL.
Definition no_write (fd buf count : Z) (h : heap mm) : outcome (Z * heap mm) := Ok (-1, h).

End SyscallExample.
