(* ===== verification/IdeInit.v ===== *)
(** * device/ide.c: finding the disks

    [ide_init] sets up each channel, asks each of its two drives who it is and scans
    the partitions of the second one. What it prints is returned as a value. *)

From stdpp Require Import base numbers list gmap.
From Stdlib Require Import ZArith Lia.
From S2P Require Import Prelude Mem Block Interrupt Stdio Ide Partition.

(** ** Text from a drive *)

(** Storing to an array of characters. *)
Definition put (buf : list Z) (i v : Z) : outcome (list Z) :=
  if bool_decide (0 ≤ i < Z.of_nat (length buf)) then Ok (<[Z.to_nat i := v]> buf) else Fault.

(** [idx] is a [uint8_t]; [dst] is the string from the pointer on. A loop that ends takes at most
    128 rounds. *)
Definition swap_round (len : Z) : Z * list Z * list Z → outcome (Z * list Z * list Z + list Z) := λ '(idx, dst, buf),
  if idx <? len then
    match dst with
    | a :: b :: dst =>
        buf ← put buf (idx + 1) a;
        buf ← put buf idx b;
        Ok (inl (u8 (idx + 2), dst, buf))
    | _ => Fault
    end
  else buf ← put buf idx 0; Ok (inr buf).
Definition swap_pairs_bytes (dst buf : list Z) (len : Z) : outcome (list Z) :=
  loop (Z.to_nat 129) (swap_round len) (0, dst, buf).

(** ** Drives that say who they are *)

(** The answer to IDENTIFY DEVICE, 512 bytes, comes like a sector that is read; it
    has no address, here it is that of number -1. *)
Class AtaIdentify D `{AtaChannel D} :=
  ata_identify : ∀ d, phase d = Idle →
    phase (outb d reg_cmd CMD_IDENTIFY) = Reading (block_dev (regs d)) (-1) 1 ∧
    ∀ dev l, sector (outb d reg_cmd CMD_IDENTIFY) dev l = sector d dev l.

(** What [identify_disk] prints of a drive. *)
Record disk_info := DiskInfo {
  info_sn : list Z;
  info_module : list Z;
  info_sectors : Z;
  info_capacity : Z
}.

(** What [ide_init] keeps of a disk and of a channel. *)
Record disk := Disk {
  hd_name : list Z;
  my_channel : Z;
  hd_dev : Z;
  hd_prim : list partition;
  hd_logic : list partition
}.

Section init.
Context {D : Type} `{AtaIdentify D} `{!AtaReady D}.

(** The array [buf] of 64 characters holds [junk] at first; [id_info] is the address of the
    other array. *)
Definition identify_disk (s : ide D) (dev_no id_info : Z) (junk : list Z) : outcome (disk_info * ide D) :=
  let s := select_disk s dev_no in
  let s := cmd_out s CMD_IDENTIFY in
  s ← interrupt_window s ≫= wait_disk;
  '(ok, s) ← busy_wait s;
  if negb ok then Panic
  else
    s ← read_from_sector s id_info 1;
    info ← load_bytes (iram s) id_info 512;
    buf ← swap_pairs_bytes (drop 20 info) junk 20;
    let sn := buf in
    let buf := replicate 64 0 in
    buf ← swap_pairs_bytes (drop 54 info) buf 40;
    let sectors := le32_at info (60 * 2) in
    Ok (DiskInfo (take 20 sn) (take 40 buf) sectors (u32 (sectors * 512) / 1024 / 1024), s).

Record chan := Chan {
  chan_name : list Z;
  chan_ide : ide D;
  devices : list disk
}.

(** The globals of ide.c, the table of interrupt handlers and what was printed. *)
Record disks := Disks {
  channel_cnt : Z;
  channels : list chan;
  ext_base : Z;
  parts : list (Z * part_ref);
  leaked : Z;
  idt_table : list Z;
  infos : list disk_info
}.

Definition no_partition : partition := Partition 0 0 [].
(** A disk as the image of the kernel has it. *)
Definition blank_disk : disk := Disk [] 0 0 (replicate 4 no_partition) (replicate 8 no_partition).

(** The two loops; [hd_handler] is the address of intr_hd_handler, [junk] and [id_info] are
    those of [identify_disk], [buf] is the buffer of the boot sectors and [fuel] bounds the
    chain of extended partitions. Disks are numbered from 0 over both channels. *)
Context (hd_handler id_info buf : Z) (junk : list Z) (fuel : nat).

Definition setup_disk (s : disks) (channel_no dev_no : Z) : outcome disks :=
  ch ← from_option_fault (channels s !! Z.to_nat channel_no);
  hd ← from_option_fault (devices ch !! Z.to_nat dev_no);
  let hd := Disk [115; 100; u8 (97 + channel_no * 2 + dev_no)] channel_no dev_no (hd_prim hd) (hd_logic hd) in
  '(info, i) ← identify_disk (chan_ide ch) dev_no id_info junk;
  let upd ch hd i ext refs n :=
    Disks (channel_cnt s) (<[Z.to_nat channel_no := Chan (chan_name ch) i (<[Z.to_nat dev_no := hd]> (devices ch))]> (channels s))
      ext (parts s ++ (pair (channel_no * 2 + dev_no) <$> refs)) n (idt_table s) (infos s ++ [info]) in
  if negb (dev_no =? 0) then
    let _ := ide_device dev_no buf in
    sc ← partition_scan fuel (Scan (hd_name hd) (hd_prim hd) (hd_logic hd) (ext_base s) 0 0 [] (leaked s) i) 0;
    Ok (upd ch (Disk (hd_name hd) channel_no dev_no (prim_parts sc) (logic_parts sc)) (sdev sc)
          (ext_lba_base sc) (partition_list sc) (boot_sectors sc))
  else Ok (upd ch hd i (ext_base s) [] (leaked s)).

Definition setup_channel (s : disks) (channel_no : Z) : outcome disks :=
  ch ← from_option_fault (channels s !! Z.to_nat channel_no);
  let i := chan_ide ch in
  let c := if channel_no =? 0 then IdeChannel 496 46 0 false 0
           else if channel_no =? 1 then IdeChannel 368 47 0 false 0
           else IdeChannel (port_base (channel i)) (irq_no (channel i)) 0 false 0 in
  t ← register_handler (idt_table s) (irq_no c) hd_handler;
  let ch := Chan ([105; 100; 101] ++ decimal channel_no) (Ide c (hw i) (iram i)) (devices ch) in
  let s := Disks (channel_cnt s) (<[Z.to_nat channel_no := ch]> (channels s)) (ext_base s) (parts s) (leaked s) t (infos s) in
  loop 3 (λ '(dev_no, s),
    if dev_no <? 2 then s ← setup_disk s channel_no dev_no; Ok (inl (u8 (dev_no + 1), s))
    else Ok (inr s)) (0, s).

(** [hd_cnt] is the byte at [0x475]. *)
Definition ide_init (s : disks) (hd_cnt : Z) : outcome disks :=
  ASSERT (0 <? hd_cnt);;
  let s := Disks (u8 ((hd_cnt + 2 - 1) / 2)) (channels s) (ext_base s) [] (leaked s) (idt_table s) (infos s) in
  loop (Z.to_nat 257) (λ '(channel_no, s),
    if channel_no <? channel_cnt s then s ← setup_channel s channel_no; Ok (inl (u8 (channel_no + 1), s))
    else Ok (inr s)) (0, s).

(** [partition_info]: what is printed of a partition of the list. *)
Definition partition_info (s : disks) (p : Z * part_ref) : option (list Z * Z * Z) :=
  ch ← channels s !! Z.to_nat (p.1 / 2);
  hd ← devices ch !! Z.to_nat (p.1 mod 2);
  part ← match p.2 with prim i => hd_prim hd !! i | logic i => hd_logic hd !! i end;
  Some (pname part, start_lba part, sec_cnt part).
End init.
Arguments chan D : clear implicits.
Arguments disks D : clear implicits.

(** ** Swapping *)

Fixpoint swap_pairs (l : list Z) : list Z :=
  match l with
  | a :: b :: l => b :: a :: swap_pairs l
  | l => l
  end.

(** Induction over pairs. *)
Lemma pairs_ind (P : list Z → Prop) :
  P [] → (∀ a, P [a]) → (∀ a b l, P l → P (a :: b :: l)) → ∀ l, P l.
Proof.
  intros H0 H1 H2 l. cut (P l ∧ ∀ a, P (a :: l)); [by intros [? _]|].
  induction l as [|a l [IH1 IH2]]; split; auto.
Qed.

Lemma swap_pairs_length l : length (swap_pairs l) = length l.
Proof. induction l using pairs_ind; cbn; congruence. Qed.

Lemma swap_pairs_involutive l : swap_pairs (swap_pairs l) = l.
Proof. induction l using pairs_ind; cbn; congruence. Qed.

Lemma put_app pre buf (i : nat) v : (i < length buf)%nat →
  put (pre ++ buf) (Z.of_nat (length pre) + Z.of_nat i) v = Ok (pre ++ <[i := v]> buf).
Proof.
  intros Hi. unfold put. rewrite bool_decide_eq_true_2 by (rewrite length_app; lia).
  replace (Z.to_nat _) with (length pre + i)%nat by lia. by rewrite insert_app_r.
Qed.

Lemma put_app0 pre x buf v : put (pre ++ x :: buf) (Z.of_nat (length pre)) v = Ok (pre ++ v :: buf).
Proof. rewrite <- (Z.add_0_r (Z.of_nat _)). apply (put_app pre (x :: buf) 0 v). cbn. lia. Qed.

(** The rest of the loop, from an even index on: [l] is still to be swapped. *)
Lemma swap_loop l : ∀ fuel (pre rest buf : list Z), Nat.Even (length l) → (length l < 2 * fuel)%nat →
  (length pre + length l ≤ 254)%nat → (length l < length buf)%nat →
  loop fuel (swap_round (Z.of_nat (length pre + length l))) (Z.of_nat (length pre), l ++ rest, pre ++ buf) =
  Ok (pre ++ swap_pairs l ++ 0 :: drop (S (length l)) buf).
Proof.
  induction l as [|a|a b l IH] using pairs_ind; intros fuel pre rest buf He Hf Hl Hb;
    (destruct fuel as [|fuel]; [cbn in Hf; lia|]); cbn [length] in *.
  - apply loop_exit. unfold swap_round. rewrite Nat.add_0_r, Z.ltb_irrefl. destruct buf as [|x buf]; [cbn in Hb; lia|].
    by rewrite put_app0.
  - by destruct He as [n He]; lia.
  - destruct buf as [|x [|y buf]]; cbn [length] in Hb; [lia|lia|].
    rewrite (loop_step _ _ _ (Z.of_nat (length (pre ++ [b; a])), l ++ rest, (pre ++ [b; a]) ++ buf)).
    + replace (length pre + S (S (length l)))%nat with (length (pre ++ [b; a]) + length l)%nat by (rewrite length_app; cbn; lia).
      rewrite IH; [|destruct He as [n He]; exists (n - 1)%nat; lia|lia|rewrite length_app; cbn; lia|lia].
      cbn [swap_pairs drop]. by rewrite <- app_assoc.
    + unfold swap_round. rewrite (proj2 (Z.ltb_lt _ _)) by lia. cbn [app].
      pose proof (put_app pre (x :: y :: buf) 1 a ltac:(cbn; lia)) as Hp. change (Z.of_nat 1) with 1 in Hp. rewrite Hp. ocbn. clear Hp.
      change (<[1%nat := a]> (x :: y :: buf)) with (x :: a :: buf).
      rewrite put_app0. ocbn.
      rewrite u8_small, length_app by lia. cbn [length]. rewrite <- app_assoc. repeat f_equal. lia.
Qed.

(** [swap_pairs_bytes] for an even number of characters. *)
Lemma swap_pairs_bytes_spec dst buf len : Z.even len = true → 0 ≤ len ≤ 254 → len ≤ Z.of_nat (length dst) → len < Z.of_nat (length buf) →
  swap_pairs_bytes dst buf len = Ok (swap_pairs (take (Z.to_nat len) dst) ++ 0 :: drop (S (Z.to_nat len)) buf).
Proof.
  intros He Hl Hd Hb. assert (length (take (Z.to_nat len) dst) = Z.to_nat len) as Ht by (rewrite length_take; lia).
  unfold swap_pairs_bytes. pose proof (swap_loop (take (Z.to_nat len) dst) (Z.to_nat 129) [] (drop (Z.to_nat len) dst) buf) as H.
  rewrite take_drop, Ht in H. cbn [length Nat.add app] in H. rewrite Z2Nat.id in H by lia. apply H; [|lia|lia|lia].
  apply Z.even_spec in He as [n ->]. exists (Z.to_nat n). lia.
Qed.

(** ** A drive identifies itself *)

(** What the answer [id] of a drive says. *)
Definition drive_info (id : list Z) : disk_info :=
  DiskInfo (swap_pairs (slice id 20 20)) (swap_pairs (slice id 54 40)) (le32_at id 120) (u32 (le32_at id 120 * 512) / 1024 / 1024).

Section identify.
Context {D : Type} `{AtaIdentify D} `{!AtaReady D}.
Implicit Types s : ide D.

Lemma selected_dev s dev : ready s → dev = 0 ∨ dev = 1 → block_dev (regs (hw (select_disk s dev))) = dev.
Proof.
  intros [Hp _] Hdev. unfold select_disk. set (v := if dev =? 1 then _ else _). cbn [hw set_hw].
  destruct (outb_reg (hw s) reg_dev v Hp) as (_ & Hr & _); [unfold reg_dev; lia|]. unfold block_dev. rewrite Hr. cbn.
  unfold v. by destruct Hdev as [-> | ->].
Qed.

Lemma swapped_text (bs buf : list Z) (i : nat) len : Z.even len = true → 0 ≤ len ≤ 254 →
  (i + Z.to_nat len ≤ length bs)%nat → len < Z.of_nat (length buf) →
  ∃ buf', swap_pairs_bytes (drop i bs) buf len = Ok buf' ∧ take (Z.to_nat len) buf' = swap_pairs (slice bs (Z.of_nat i) len).
Proof.
  intros He Hl Hi Hb. rewrite swap_pairs_bytes_spec by (done || (rewrite length_drop; lia)). eexists. split; [done|].
  unfold slice. rewrite Nat2Z.id, take_app_length'; [done|]. rewrite swap_pairs_length, length_take, length_drop. lia.
Qed.

Lemma identify_disk_spec s dev id_info junk :
  ready s → dev = 0 ∨ dev = 1 → valid (iram s) id_info 512 → length junk = 64%nat →
  ∃ s', identify_disk s dev id_info junk = Ok (drive_info (sector (hw s) dev (-1)), s') ∧ ready s' ∧
    channel s' = channel s ∧ same_disk (hw s) (hw s') ∧ ∀ a, is_Some (iram s !! a) → is_Some (iram s' !! a).
Proof.
  intros Hr Hdev Hv Hj. unfold identify_disk. destruct (select_disk_spec s dev Hr) as (Hr1 & Hch1 & Hm1 & Hs1).
  set (s1 := select_disk s dev) in *. destruct (ata_identify (hw s1) (proj1 Hr1)) as [Hp2 Hs2].
  unfold s1 in Hp2 at 2. rewrite selected_dev in Hp2 by done.
  destruct (await_data_spec s1 (outb (hw s1) reg_cmd CMD_IDENTIFY) dev (-1) id_info 1) as (s' & Heq & Hr' & Hch & Hs & Hb & Ho);
    [done|done|lia|by rewrite Hm1|].
  unfold await_data in Heq. apply bind_ok in Heq as (s3 & E3 & Heq). apply bind_ok in Heq as ([ok s4] & E4 & Heq). destruct ok; [|done].
  unfold cmd_out. change (set_hw _ _) with (set_hw (set_expecting s1 true) (outb (hw s1) reg_cmd CMD_IDENTIFY)).
  rewrite E3. ocbn. rewrite E4. ocbn. cbn [negb] in Heq. change (u8 1) with 1 in Heq. rewrite Heq. clear Heq E3 E4.
  change (Z.to_nat 1) with 1%nat in Hb. rewrite sectors_one, Hs2, Hs1 in Hb. set (id := sector (hw s) dev (-1)) in *.
  assert (length id = 512%nat) as Hlen by apply ata_sector_len.
  assert (load_bytes (iram s') id_info 512 = Ok id) as Hlb by (rewrite <- Hlen; by apply load_bytes_spec).
  cbn [mbind outcome_bind]. rewrite Hlb. ocbn.
  destruct (swapped_text id junk 20 20) as (b1 & -> & Hb1); [done|lia|lia|lia|]. ocbn.
  destruct (swapped_text id (replicate 64 0) 54 40) as (b2 & -> & Hb2); [done|lia|lia|rewrite length_replicate; lia|]. ocbn.
  exists s'. split; [unfold drive_info; do 3 f_equal; [exact Hb1|exact Hb2]|]. split; [done|]. split; [congruence|]. split.
  - intros dv l. by rewrite Hs, Hs2, Hs1.
  - intros a Ha. destruct (decide (id_info ≤ a < id_info + 512)) as [Hin|Hout].
    + apply (bytes_at_valid _ _ _ Hb). rewrite Hlen. lia.
    + rewrite Ho by lia. by rewrite Hm1.
Qed.
End identify.

(** ** Setting up the first channel *)

Section setup.
Context {D : Type} `{AtaIdentify D} `{!AtaReady D}.
Context (hd_handler id_info buf : Z) (junk : list Z) (fuel : nat).
Hypothesis Hjunk : length junk = 64%nat.
Hypothesis Hbuf : 0 ≤ buf ∧ buf + (max_lba + 1) * 512 ≤ 2 ^ 32.
Implicit Types (s : disks D) (i : ide D).

(** The buffers are in memory. *)
Definition buffers i : Prop := valid (iram i) id_info 512 ∧ valid (iram i) buf ((max_lba + 1) * 512).

Lemma buffers_kept i i' : (∀ a, is_Some (iram i !! a) → is_Some (iram i' !! a)) → buffers i → buffers i'.
Proof. intros Hk [H1 H2]. split; intros a Ha; apply Hk; [by apply H1|by apply H2]. Qed.

(** The first drive is only asked who it is. *)
Lemma setup_master s ch rest : channels s = ch :: rest → devices ch = [blank_disk; blank_disk] → ready (chan_ide ch) → buffers (chan_ide ch) →
  ∃ i, setup_disk id_info buf junk fuel s 0 0 =
    Ok (Disks (channel_cnt s) (Chan (chan_name ch) i (<[0%nat := Disk [115; 100; 97] 0 0 (replicate 4 no_partition) (replicate 8 no_partition)]>
          (devices ch)) :: rest) (ext_base s) (parts s) (leaked s) (idt_table s) (infos s ++ [drive_info (sector (hw (chan_ide ch)) 0 (-1))])) ∧
    ready i ∧ channel i = channel (chan_ide ch) ∧ same_disk (hw (chan_ide ch)) (hw i) ∧ buffers i.
Proof using H0 Hjunk.
  intros Hc Hdv Hr Hb. unfold setup_disk. rewrite Hc. change (Z.to_nat 0) with 0%nat. cbn [lookup list_lookup]. ocbn. rewrite Hdv. ocbn.
  destruct (identify_disk_spec (chan_ide ch) 0 id_info junk Hr) as (i & -> & Hr' & Hch & Hs & Hk); [by left|apply Hb|done|]. ocbn.
  exists i. split; [by rewrite app_nil_r|]. split_and!; try done. by eapply buffers_kept.
Qed.

(** The second one is scanned for partitions. *)
Section slave.
Context (ps1 ps2 : list partition_table_entry) (e : partition_table_entry) (rs : list region).

(** The drive in state [d] has the partition table [ps1 ++ e :: ps2], with the extended partition
    [e] and the logical partitions [rs]. *)
Record partitioned (d : D) : Prop := {
  pt_entries : partition_table (sector d 1 0) = ps1 ++ e :: ps2;
  pt_link : fs_type e = 5 ∧ Forall (λ p, fs_type p ≠ 5) ps1 ∧ Forall (λ p, fs_type p ≠ 5) ps2;
  pt_base : 0 < entry_start_lba e < 2 ^ 31;
  pt_chain : chain (H := ide_device 1 buf) (sector d 1) (entry_start_lba e) (entry_start_lba e) rs;
  pt_count : (length (data_of (ps1 ++ ps2)) ≤ 3)%nat ∧ (length rs ≤ 8)%nat
}.

(** The partitions in the order in which they are found. *)
Definition found : list part_ref :=
  (prim <$> seq 0 (length (data_of ps1))) ++ (logic <$> seq 0 (length rs)) ++
  (prim <$> seq (length (data_of ps1)) (length (data_of ps2))).

Lemma setup_slave s ch rest : channels s = ch :: rest → devices ch !! 1%nat = Some blank_disk → ready (chan_ide ch) → 0 ≤ lock_held (channel (chan_ide ch)) →
  buffers (chan_ide ch) → partitioned (hw (chan_ide ch)) → (length rs < fuel)%nat → ext_base s = 0 →
  ∃ i hd, setup_disk id_info buf junk fuel s 0 1 =
    Ok (Disks (channel_cnt s) (Chan (chan_name ch) i (<[1%nat := hd]> (devices ch)) :: rest) (entry_start_lba e)
          (parts s ++ (pair 1 <$> found)) (leaked s + (if bool_decide (length rs = 8%nat) then 1 else 0)) (idt_table s)
          (infos s ++ [drive_info (sector (hw (chan_ide ch)) 1 (-1))])) ∧
    ready i ∧ (∀ l, sector (hw i) 1 l = sector (hw (chan_ide ch)) 1 l) ∧ (hd_name hd = [115; 100; 98] ∧ my_channel hd = 0) ∧
    regions (length (data_of (ps1 ++ ps2))) (hd_prim hd) = entry_region 0 <$> data_of (ps1 ++ ps2) ∧ regions (length rs) (hd_logic hd) = rs.
Proof using H0 Hjunk Hbuf.
  intros Hc Hdv Hr Hh Hb [Htab (He & H1 & H2) Hst Hch [Hn Hrs]] Hf Hext. unfold setup_disk. rewrite Hc.
  change (Z.to_nat 0) with 0%nat. change (Z.to_nat 1) with 1%nat. cbn [lookup list_lookup]. ocbn. rewrite Hdv. ocbn.
  destruct (identify_disk_spec (chan_ide ch) 1 id_info junk Hr) as (i & -> & Hr' & Hchan & Hs & Hk); [by right|apply Hb|done|]. ocbn.
  change (negb (1 =? 0)) with true. cbv iota. pose proof (buffers_kept _ _ Hk Hb) as [_ Hbv].
  set (sc := Scan _ _ _ _ _ _ _ _ i).
  assert (fresh_scan (H := ide_device 1 buf) sc) as Hfresh.
  { split; [|done]. split; [done|]. cbn [sdev sc]. rewrite Hchan. split; [done|]. split; [by right|]. split; [done|]. apply Hbuf. }
  destruct (partition_scan_spec (H := ide_device 1 buf) fuel sc ps1 e ps2 rs Hfresh)
    as (sc' & Heq & Hadd & Hbase & Hbs); try done.
  { cbn. by rewrite Hs. }
  { cbn [bd_sector ide_device sdev sc]. revert Hch. apply chain_ext. intros l. apply Hs. }
  rewrite Heq. ocbn. destruct Hadd as (_ & (Hpn & Hln) & Hrp & Hrl & Hpl & Hok & Hsec). rewrite length_fmap in Hpn. cbn in Hpn, Hln.
  rewrite Hpn in Hrp. rewrite Hln in Hrl. do 2 eexists. split; [by rewrite Hpl, Hbase, Hbs|]. split; [apply Hok|].
  split; [|split; [done|split; [exact Hrp|exact Hrl]]].
  intros l. etransitivity; [apply Hsec|]. apply Hs.
Qed.
End slave.

(** The first channel as a whole. *)
Lemma setup_channel_spec ps1 ps2 e rs s ch rest :
  channels s = ch :: rest → phase (hw (chan_ide ch)) = Idle → buffers (chan_ide ch) → devices ch = [blank_disk; blank_disk] →
  partitioned ps1 ps2 e rs (hw (chan_ide ch)) → (length rs < fuel)%nat → ext_base s = 0 → (46 < length (idt_table s))%nat →
  ∃ i hd, setup_channel hd_handler id_info buf junk fuel s 0 =
    Ok (Disks (channel_cnt s) (Chan [105; 100; 101; 48] i [Disk [115; 100; 97] 0 0 (replicate 4 no_partition) (replicate 8 no_partition); hd] :: rest)
          (entry_start_lba e) (parts s ++ (pair 1 <$> found ps1 ps2 rs)) (leaked s + (if bool_decide (length rs = 8%nat) then 1 else 0))
          (<[46%nat := hd_handler]> (idt_table s))
          (infos s ++ [drive_info (sector (hw (chan_ide ch)) 0 (-1)); drive_info (sector (hw (chan_ide ch)) 1 (-1))])) ∧
    ready i ∧ (∀ l, sector (hw i) 1 l = sector (hw (chan_ide ch)) 1 l) ∧ (hd_name hd = [115; 100; 98] ∧ my_channel hd = 0) ∧
    regions (length (data_of (ps1 ++ ps2))) (hd_prim hd) = entry_region 0 <$> data_of (ps1 ++ ps2) ∧ regions (length rs) (hd_logic hd) = rs.
Proof using H0 Hjunk Hbuf.
  intros Hc Hp Hb Hdev Hpt Hf Hext Hidt. unfold setup_channel. rewrite Hc. change (Z.to_nat 0) with 0%nat. cbn [lookup list_lookup]. ocbn.
  change (0 =? 0) with true. cbv iota. cbn [irq_no]. unfold register_handler. change (u8 46) with 46.
  rewrite (proj2 (Z.leb_gt _ _)) by lia. ocbn. change (decimal 0) with [48]. change (Z.to_nat 46) with 46%nat. cbn [insert list_insert app].
  set (i0 := Ide (IdeChannel 496 46 0 false 0) _ _). assert (ready i0) as Hr0 by (split; [done|]; split_and!; try done; by left).
  set (ch0 := Chan _ i0 _). set (s0 := Disks _ _ _ _ _ _ _).
  destruct (setup_master s0 ch0 rest eq_refl Hdev Hr0 Hb) as (i1 & Hm & Hr1 & Hch1 & Hs1 & Hb1).
  set (s1 := Disks _ (Chan _ i1 _ :: rest) _ _ _ _ _) in Hm.
  destruct (setup_slave ps1 ps2 e rs s1 _ rest eq_refl ltac:(by cbn; rewrite Hdev) Hr1) as (i2 & hd & Hsl & Hr2 & Hs2 & Hnm & Hrp & Hrl);
    [cbn [chan_ide]; rewrite Hch1; done|done| |done|done|].
  { destruct Hpt as [P1 P2 P3 P4 P5]. constructor; cbn [chan_ide]; try done; [rewrite Hs1; exact P1|]. revert P4. apply chain_ext. intros l. apply Hs1. }
  cbn [loop]. change (0 <? 2) with true. cbv iota. rewrite Hm. ocbn. change (u8 (0 + 1)) with 1. change (1 <? 2) with true. cbv iota.
  rewrite Hsl. ocbn. change (u8 (1 + 1)) with 2. change (2 <? 2) with false. cbv iota. exists i2, hd. split.
  - unfold s1, s0, ch0, i0. cbn. rewrite ?Hdev, <- app_assoc. cbn. rewrite Hs1. done.
  - split; [done|]. split; [|done]. intros l. rewrite Hs2. cbn. apply Hs1.
Qed.
End setup.

(** ** Properties *)

(** [ide_init] with the two drives of one channel: each is asked who it is and answers, the second
    one, whose partition table has up to three primary partitions and a chain of up to eight logical
    ones, is scanned. It returns with the channel at its ports, its handler registered and
    no request pending; the drives are named sda and sdb, the list has exactly the partitions of the
    table, in their order, each with its place on the disk; serial number and model are
    printed with the bytes of each word swapped back; the disk is not written. *)
Theorem ide_init_finds_disks {D} `{AtaIdentify D} `{!AtaReady D} hd_handler id_info buf junk fuel
    (s : disks D) ch c1 ps1 ps2 e rs hd_cnt :
  1 ≤ hd_cnt ≤ 2 → length junk = 64%nat → 0 ≤ buf ∧ buf + (max_lba + 1) * 512 ≤ 2 ^ 32 →
  channels s = [ch; c1] → phase (hw (chan_ide ch)) = Idle → buffers id_info buf (chan_ide ch) → devices ch = [blank_disk; blank_disk] →
  partitioned buf ps1 ps2 e rs (hw (chan_ide ch)) → (length rs < fuel)%nat → ext_base s = 0 → (46 < length (idt_table s))%nat →
  ∃ s' i sda sdb, ide_init hd_handler id_info buf junk fuel s hd_cnt = Ok s' ∧ channel_cnt s' = 1 ∧
    channels s' = [Chan [105; 100; 101; 48] i [sda; sdb]; c1] ∧ ready i ∧ idt_table s' = <[46%nat := hd_handler]> (idt_table s) ∧
    hd_name sda = [115; 100; 97] ∧ (hd_name sdb = [115; 100; 98] ∧ my_channel sdb = 0) ∧
    regions (length (data_of (ps1 ++ ps2))) (hd_prim sdb) = entry_region 0 <$> data_of (ps1 ++ ps2) ∧ regions (length rs) (hd_logic sdb) = rs ∧
    parts s' = pair 1 <$> found ps1 ps2 rs ∧
    infos s' = infos s ++ [drive_info (sector (hw (chan_ide ch)) 0 (-1)); drive_info (sector (hw (chan_ide ch)) 1 (-1))] ∧
    (∀ l, sector (hw i) 1 l = sector (hw (chan_ide ch)) 1 l).
Proof.
  intros Hcnt Hj Hbuf Hc Hp Hb Hdev Hpt Hf Hext Hidt. unfold ide_init. rewrite (proj2 (Z.ltb_lt 0 hd_cnt)) by lia. ocbn.
  assert (u8 ((hd_cnt + 2 - 1) / 2) = 1) as -> by (assert (hd_cnt = 1 ∨ hd_cnt = 2) as [->| ->] by lia; done).
  set (s0 := Disks 1 _ _ _ _ _ _).
  destruct (setup_channel_spec hd_handler id_info buf junk fuel Hj Hbuf ps1 ps2 e rs s0 ch [c1] Hc Hp Hb Hdev Hpt Hf Hext Hidt)
    as (i & hd & Heq & Hr & Hs & Hn & Hrp & Hrl).
  change (Z.to_nat 257) with (S (S 255)). cbn [loop]. change (channel_cnt s0) with 1. change (0 <? 1) with true. cbv iota.
  rewrite Heq. ocbn. change (u8 (0 + 1)) with 1. change (channel_cnt s0) with 1. cbn [channel_cnt]. change (1 <? 1) with false. cbv iota.
  do 4 eexists. split; [reflexivity|]. cbn [channel_cnt channels idt_table parts infos]. split_and!; try done; apply Hn.
Qed.

(** The text of a drive is stored with the two bytes of each word exchanged: for up to 254 characters
    [swap_pairs_bytes] ends, and what it was applied to twice is the text itself. *)
Theorem swap_pairs_bytes_twice dst buf buf' len : Z.even len = true → 0 ≤ len ≤ 254 → len ≤ Z.of_nat (length dst) →
  len < Z.of_nat (length buf) → len < Z.of_nat (length buf') →
  ∃ once twice, swap_pairs_bytes dst buf len = Ok once ∧ swap_pairs_bytes once buf' len = Ok twice ∧
    take (Z.to_nat len) twice = take (Z.to_nat len) dst.
Proof.
  intros He Hl Hd Hb Hb'. rewrite swap_pairs_bytes_spec by done. do 2 eexists. split; [reflexivity|].
  assert (length (swap_pairs (take (Z.to_nat len) dst)) = Z.to_nat len) as Hsl by (rewrite swap_pairs_length, length_take; lia).
  rewrite swap_pairs_bytes_spec by (done || (rewrite length_app, Hsl; cbn [length]; lia)). split; [reflexivity|].
  rewrite (take_app_length' (swap_pairs (take _ dst))) by done. rewrite take_app_length'; [apply swap_pairs_involutive|]. by rewrite swap_pairs_length, Hsl.
Qed.

(** ** Two drives *)

Module InitExample.
Import RamDisk PartitionExample IdeExample.

#[local] Instance drive_identify : AtaIdentify drive.
Proof. intros d Hp. done. Qed.

(** The first drive is empty, the second has the partitions of [PartitionExample]. *)
Definition pair0 : drive := Drive Idle (λ _, 0) 0 false (λ dev l, if dev =? 1 then disk1 l else []).
Definition ram0 : mem := zeros 4096 83886080 ∪ zeros 100000000 512.
Definition chan0 : chan drive := Chan [] (Ide (IdeChannel 0 0 0 false 0) pair0 ram0) [blank_disk; blank_disk].
Definition cold : disks drive := Disks 0 [chan0; chan0] 0 [] 0 (replicate 129 7) [].

Lemma pair0_partitioned : partitioned 4096 [PartitionTableEntry 131 1 9] [PartitionTableEntry 131 50 7; free_entry]
  (PartitionTableEntry 5 10 30) [(11, 9); (22, 8)] pair0.
Proof.
  constructor; [by vm_compute|by repeat constructor|done| |vm_compute; lia].
  apply (chain_link (H := ide_device 1 4096) _ 10 10 (PartitionTableEntry 102 1 9) (PartitionTableEntry 5 10 20)
    free_entry free_entry); [done|by vm_compute|by vm_compute|done|done|done|].
  apply (chain_last (H := ide_device 1 4096) _ 10 20 (PartitionTableEntry 102 2 8) free_entry free_entry free_entry); [done|by vm_compute|by vm_compute|done..].
Qed.

Lemma chan0_buffers : buffers 100000000 4096 (chan_ide chan0).
Proof.
  split; cbn [iram chan_ide chan0]; unfold ram0; [apply union_valid; right; apply zeros_valid|apply union_valid; left; apply zeros_valid].
Qed.

Lemma ide_init_finds_disks_witness :
  ∃ s', ide_init 99 100000000 4096 (replicate 64 5) 9 cold 2 = Ok s' ∧
    parts s' = [(1, prim 0); (1, logic 0); (1, logic 1); (1, prim 1)] ∧ idt_table s' !! 46%nat = Some 99.
Proof.
  destruct (ide_init_finds_disks 99 100000000 4096 (replicate 64 5) 9 cold chan0 chan0 [PartitionTableEntry 131 1 9]
    [PartitionTableEntry 131 50 7; free_entry] (PartitionTableEntry 5 10 30) [(11, 9); (22, 8)] 2)
    as (s' & i & sda & sdb & Heq & _ & _ & _ & Hidt & _ & _ & _ & _ & Hp & _);
    [lia|done|done|done|done|apply chan0_buffers|done|apply pair0_partitioned|cbn; lia|done|cbn; lia|].
  exists s'. split; [exact Heq|]. split; [rewrite Hp; vm_compute; reflexivity|by rewrite Hidt].
Defined.

Lemma swap_pairs_bytes_twice_witness :
  ∃ once, swap_pairs_bytes [69; 76; 80; 72] (replicate 8 0) 4 = Ok once ∧ take 4 once = [76; 69; 72; 80].
Proof.
  destruct (swap_pairs_bytes_twice [69; 76; 80; 72] (replicate 8 0) (replicate 8 0) 4) as (once & _ & H1 & _); [done|lia|cbn; lia|cbn; lia|cbn; lia|].
  exists once. split; [exact H1|]. vm_compute in H1. injection H1 as <-. reflexivity.
Defined.
End InitExample.
