(* ===== verification/MemInit.v ===== *)
(** * kernel/memory.c: mem_init

    The memory manager starts on the page tables that the loader has made: the first megabyte at
    its own address and at 3 GB, and empty tables for the rest of the kernel's part. From
    there [mem_init] establishes the invariant of [Pool] and the empty heap of [Heap]. *)

From stdpp Require Import base numbers list gmap.
From Stdlib Require Import ZArith Lia.
From S2P Require Import Prelude Mem Bitmap Interrupt KList Paging Pool Heap HeapPages.

(** [mem_init]: the size of memory is at [0xb00]; [area] is where [mem_pool_init] puts its bitmaps. *)
Definition mem_init (s : machine) (area : list Z) (k_block_descs : Z) : outcome (pool * pool * virtual_addr * machine) :=
  mem_bytes_total ← load32 (ram s) 2816;
  '(kp, up, kv) ← mem_pool_init mem_bytes_total area;
  s ← block_desc_init s k_block_descs;
  Ok (kp, up, kv, s).

(** ** What the loader leaves *)

Definition PAGE_DIR_TABLE_POS : Z := 1048576.

(** The table that entry [i] of the directory names, when it names one. *)
Definition loader_table (i : Z) : option Z :=
  if bool_decide (i = 0 ∨ i = 768) then Some (PAGE_DIR_TABLE_POS + 4096)
  else if bool_decide (769 ≤ i < 1023) then Some (PAGE_DIR_TABLE_POS + 8192 + (i - 769) * 4096)
  else None.

(** setup_page of boot/loader.S, on memory that was clear: [all_mem] bytes with the directory and its tables
    in the second megabyte. *)
Record loaded (m : mem) (all_mem : Z) : Prop := {
  ld_wf : wf_mem m;
  ld_ram : valid m 0 all_mem;
  ld_pde i : 0 ≤ i < 1023 → load32 m (PAGE_DIR_TABLE_POS + 4 * i) = Ok (from_option user_entry 0 (loader_table i));
  ld_self : load32 m (PAGE_DIR_TABLE_POS + 4 * 1023) = Ok (user_entry PAGE_DIR_TABLE_POS);
  ld_pte i : 0 ≤ i < 1024 → load32 m (PAGE_DIR_TABLE_POS + 4096 + 4 * i) = Ok (if i <? 256 then user_entry (i * 4096) else 0);
  ld_empty t i : 0 ≤ t < 254 → 0 ≤ i < 1024 → load32 m (PAGE_DIR_TABLE_POS + 8192 + t * 4096 + 4 * i) = Ok 0
}.

Lemma user_entry_names f : 0 ≤ f < 2 ^ 32 → f mod 4096 = 0 → entry_base (user_entry f) = f ∧ entry_present (user_entry f) = true.
Proof. intros Hf Ha. by destruct (entry_make f Hf Ha) as (_ & Hb & Hp & _). Qed.

Lemma loader_table_range i t : loader_table i = Some t →
  1052672 ≤ t < 2097152 ∧ t mod 4096 = 0 ∧ (i = 0 ∨ 768 ≤ i < 1023).
Proof.
  unfold loader_table, PAGE_DIR_TABLE_POS. case_bool_decide; [intros [= <-]; split_and!; done || lia|]. case_bool_decide; intros [= <-].
  split_and!; [lia..|zdlia|lia].
Qed.

Lemma loader_table_inj i j t : 1 ≤ i → 1 ≤ j → loader_table i = Some t → loader_table j = Some t → i = j.
Proof.
  unfold loader_table, PAGE_DIR_TABLE_POS. intros Hi Hj. repeat case_bool_decide; intros E1 E2; simplify_eq; lia.
Qed.

Section loader.
Context (m : mem) (all_mem : Z).
Hypothesis Hl : loaded m all_mem.
Hypothesis Hmem : 2097152 ≤ all_mem ≤ 2 ^ 32.
Notation D := PAGE_DIR_TABLE_POS.

(** A present entry of the directory. *)
Lemma loader_entry i e : 0 ≤ i < 1023 → load32 m (D + 4 * i) = Ok e → entry_present e = true →
  loader_table i = Some (entry_base e).
Proof using Hl.
  intros Hi He Hp. rewrite (ld_pde _ _ Hl) in He by done. injection He as <-.
  destruct (loader_table i) as [t|] eqn:E; [|done]. cbn in *. destruct (loader_table_range _ _ E) as (Ht & Ha & _).
  by destruct (user_entry_names t) as [-> _]; [lia|done|].
Qed.

Lemma loader_pt_wf : pt_wf m D.
Proof using Hl Hmem.
  constructor; [apply Hl|done|eapply valid_sub; [apply (ld_ram _ _ Hl)|unfold PAGE_DIR_TABLE_POS; lia|unfold PAGE_DIR_TABLE_POS; lia]| |].
  - exists (user_entry D). split; [apply (ld_self _ _ Hl)|]. by destruct (user_entry_names D) as [-> ->].
  - intros i e Hi He Hp. apply (loader_entry i e Hi He) in Hp. apply loader_table_range in Hp as (Hr & Ha & _).
    split; [|unfold PAGE_DIR_TABLE_POS; lia]. eapply valid_sub; [apply (ld_ram _ _ Hl)|lia|zdlia].
Qed.

Lemma loader_is_table t : is_table m D t → 1048576 ≤ t < 2097152.
Proof using Hl.
  intros [->|(i & e & Hi & He & Hp & <-)]; [unfold PAGE_DIR_TABLE_POS; lia|]. apply (loader_entry i e Hi He) in Hp.
  apply loader_table_range in Hp. lia.
Qed.

(** Of the managed addresses only the first megabyte of the kernel is mapped. *)
Lemma loader_maps va f : managed va → maps m D va f →
  va / 4096 = 786432 + f / 4096 ∧ 0 ≤ f < 1048576 ∧ f mod 4096 = 0.
Proof using Hl.
  intros Hva (t & pte & (e & He & Hp & <-) & Hpte & Hpp & <-). pose proof (managed_idx _ Hva) as Hi.
  apply (loader_entry (va / 2 ^ 22) e) in Hp; [|lia|done]. unfold slot in Hpte. change (2 ^ 12) with 4096 in Hpte. change (2 ^ 22) with 4194304 in *.
  set (j := va / 4096 mod 1024) in Hpte. assert (0 ≤ j < 1024) as Hj by (unfold j; zdlia).
  unfold loader_table in Hp. case_bool_decide as E1; [|case_bool_decide as E2; [|done]]; injection Hp as Hp; rewrite <- Hp in Hpte.
  - rewrite (ld_pte _ _ Hl) in Hpte by done. injection Hpte as <-. destruct (Z.ltb_spec j 256); [|done].
    destruct (user_entry_names (j * 4096)) as [-> _]; [lia|zdlia|]. unfold j in *. zdlia.
  - rewrite (ld_empty _ _ Hl) in Hpte by lia. by injection Hpte as <-.
Qed.

(** With pools above the tables, the invariant of the memory manager holds. *)
Lemma loader_inv kp up kv v : pool_wf m kp → pool_wf m up → 2097152 ≤ phy_addr_start kp →
  phy_addr_start kp + nbits (pool_bitmap kp) * PG_SIZE ≤ phy_addr_start up → mm_inv (MM m D kp up kv 0 v).
Proof using Hl Hmem.
  intros Hkp Hup Hst Hap.
  assert (∀ f, free_frame (MM m D kp up kv 0 v) f → 2097152 ≤ f) as Hfree.
  { pose proof (wf_len _ (pw_bitmap _ _ Hkp)). intros f [(i & Hi & -> & _)|(i & Hi & -> & _)]; cbn in *; unfold nbits, PG_SIZE in *; lia. }
  constructor; cbn [phys Pool.dir kernel_pool user_pool]; try done.
  - apply loader_pt_wf.
  - intros f Ht%loader_is_table Hf%Hfree. lia.
  - intros i j e e' Hi Hj He He' Hp Hp' E. apply (loader_entry i) in Hp; [|lia|done]. apply (loader_entry j) in Hp'; [|lia|done].
    apply (loader_table_inj i j (entry_base e)); [lia|lia|done|congruence].
  - intros va f Hva Hm. destruct (loader_maps va f Hva Hm) as (_ & Hf & _). split; [intros Hff%Hfree; lia|]. intros Ht%loader_is_table. lia.
  - intros va va' f Hva Hva' Hm Hm'. destruct (loader_maps va f Hva Hm) as (-> & _). by destruct (loader_maps va' f Hva' Hm') as (-> & _).
Qed.
End loader.

(** ** After mem_init *)

Lemma all_free_count p : (∀ i, 0 ≤ i < nbits (pool_bitmap p) → bit (pool_bitmap p) i = false) →
  free_count p = Z.to_nat (nbits (pool_bitmap p)).
Proof.
  intros Hf. unfold free_count. rewrite <- (length_seqZ 0 (nbits (pool_bitmap p))).
  assert (Forall (λ i, bit (pool_bitmap p) i = false) (seqZ 0 (nbits (pool_bitmap p)))) as Hall.
  { apply Forall_forall. intros i Hi%elem_of_seqZ. apply Hf. lia. }
  induction Hall as [|i l Hi _ IH]; [done|]. rewrite filter_cons_True by done. cbn. by rewrite IH.
Qed.

Lemma pools_made_wf m all_mem area kp up kv : pools_made all_mem area kp up kv → valid m 0 all_mem → all_mem ≤ 2 ^ 32 →
  pool_wf m kp ∧ pool_wf m up.
Proof.
  intros [(W1 & W2 & _) [E1 E2] Hap Hend _ _ _ _ _ _ _] Hv Hm. pose proof (wf_len _ W1). pose proof (wf_len _ W2).
  unfold nbits, PG_SIZE in *. rewrite E1 in *. split; (constructor; [done| |unfold nbits, PG_SIZE; lia|]).
  - by rewrite E1.
  - intros i Hi. eapply valid_sub; [exact Hv|..]; unfold nbits, PG_SIZE in *; lia.
  - done.
  - intros i Hi. eapply valid_sub; [exact Hv|..]; unfold nbits, PG_SIZE in *; lia.
Qed.

(** The byte behind the bitmap of the kernel's heap starts with a bit in use. *)
Definition heap_guard (area : list Z) (kp up : pool) : Prop :=
  ∃ b, area !! Z.to_nat (2 * btmp_bytes_len (pool_bitmap kp) + btmp_bytes_len (pool_bitmap up)) = Some b ∧ Z.testbit b 0 = true.

Lemma heap_guarded all_mem area kp up kv : pools_made all_mem area kp up kv → heap_guard area kp up → guarded (vaddr_bitmap kv).
Proof.
  intros [(W1 & W2 & W3) _ _ _ _ [_ Hn] _ _ _ [Hlen Hb] _] (b & Hat & Hbit). pose proof (wf_len _ W1). pose proof (wf_len _ W2).
  assert (btmp_bytes_len (vaddr_bitmap kv) = btmp_bytes_len (pool_bitmap kp)) as El by (unfold nbits in Hn; lia).
  set (n := Z.to_nat (btmp_bytes_len (pool_bitmap kp) + btmp_bytes_len (pool_bitmap up))) in *.
  assert (drop n area !! Z.to_nat (btmp_bytes_len (pool_bitmap kp)) = Some b) as Hd.
  { rewrite lookup_drop. rewrite <- Hat. f_equal. unfold n. lia. }
  constructor; [done| |].
  - rewrite Hlen, El. apply lookup_lt_Some in Hd. lia.
  - rewrite Hb by lia. unfold bit, bitv, nbits. cbn [bits]. rewrite El, Z.div_mul, Hd by lia. by rewrite Z.mod_mul.
Qed.

Section establish.
Context (m : mem) (all_mem : Z) (area : list Z) (kp up : pool) (kv uv : virtual_addr).
Hypothesis Hl : loaded m all_mem.
Hypothesis Hmem : 2097152 ≤ all_mem ∧ (all_mem - 2097152) / 4096 < 65536.
Hypothesis Hmade : pools_made all_mem area kp up kv.
Let k := MM m PAGE_DIR_TABLE_POS kp up kv 0 uv.

Lemma start_inv : mm_inv k.
Proof using Hl Hmem Hmade.
  assert (2097152 ≤ all_mem ≤ 2 ^ 32) as Hm by zdlia. pose proof Hmade as [_ [E1 _] Hap _ _ _ _ _ _ _ _].
  destruct (pools_made_wf m _ _ _ _ _ Hmade (ld_ram _ _ Hl)) as [W1 W2]; [lia|]. apply (loader_inv m all_mem); try done. lia.
Qed.

Lemma heap_pages : nbits (vaddr_bitmap kv) < 65536.
Proof using Hmem Hmade.
  destruct Hmade as [(_ & W2 & _) _ _ _ Hall [_ ->] _ _ _ _ _]. pose proof (wf_len _ W2). unfold nbits in *. lia.
Qed.

Lemma start_space : heap_guard area kp up → space_inv k PF_KERNEL.
Proof using Hl Hmem Hmade.
  intros Hg. pose proof heap_pages. pose proof Hmade as [(W1 & _) _ _ _ _ [E1 E2] _ _ _ _ _]. pose proof (wf_len _ W1).
  constructor; cbn [vspace kernel_vaddr k]; rewrite ?E1.
  - by eapply heap_guarded.
  - done.
  - unfold K_HEAP_START, PG_SIZE. lia.
  - intros i f Hi _ Hm. rewrite E2 in Hi. unfold nbits, K_HEAP_START, PG_SIZE in *.
    destruct (loader_maps m all_mem Hl (3222274048 + i * 4096) f) as (E & Hf & _); [unfold managed; lia|exact Hm|]. zdlia.
Qed.

Lemma start_pages : heap_guard area kp up → pages_inv PF_KERNEL k.
Proof using Hl Hmem Hmade.
  intros Hg. constructor; [apply start_inv|by apply start_space|cbn; rewrite (proj1 (pm_start _ _ _ _ _ Hmade)); lia|].
  intros i Hi Hb. unfold space_bits in *. cbn [vspace kernel_vaddr k] in *. rewrite (proj2 (pm_heap _ _ _ _ _ Hmade)) in Hi.
  destruct (pm_kfree _ _ _ _ _ Hmade i Hi) as [_ E]. congruence.
Qed.
End establish.

(** ** Properties *)

(** C20. [mem_init], on the memory and the page tables that the loader leaves and with up to 258 MB: it
    returns; the frames above 2 MB are divided into two disjoint pools, all free, inside the memory,
    with fewer than 16 left out; the invariant of the memory manager holds. When the byte behind
    the bitmap of the heap is in use, the kernel's heap is ready too: its pages are
    free and unmapped, and no block is allocated. *)
Theorem mem_init_establishes s area k_block_descs m all_mem uv :
  load32 (ram s) 2816 = Ok all_mem → loaded m all_mem → 2097152 ≤ all_mem → (all_mem - 2097152) / 4096 < 65536 →
  (all_mem - 2097152) / 4096 ≤ Z.of_nat (length area) * 4 → Forall (λ b, 0 ≤ b < 256) area →
  0 < k_block_descs → k_block_descs + 168 < 2 ^ 32 - 8 → valid (ram s) k_block_descs 168 →
  (∀ a, is_Some (ram s !! a) → a < K_HEAP_START) →
  ∃ kp up kv s', mem_init s area k_block_descs = Ok (kp, up, kv, s') ∧ eflags s' = eflags s ∧
    let k := MM m PAGE_DIR_TABLE_POS kp up kv 0 uv in
    mm_inv k ∧ phy_addr_start kp = 2097152 ∧
    phy_addr_start up + nbits (pool_bitmap up) * PG_SIZE ≤ all_mem ∧
    (all_mem - 2097152) / 4096 - 16 < nbits (pool_bitmap kp) + nbits (pool_bitmap up) ∧
    free_count kp = Z.to_nat (nbits (pool_bitmap kp)) ∧ free_count up = Z.to_nat (nbits (pool_bitmap up)) ∧
    (heap_guard area kp up → space_inv k PF_KERNEL ∧
       let _ := pool_allocator PF_KERNEL in heap_rel k_block_descs (Heap s' k 0) ∅).
Proof.
  intros Hat Hl H1 H2 H3 H4 Hd1 Hd2 Hv Hram. unfold mem_init. rewrite Hat. ocbn.
  destruct (mem_pool_init_spec all_mem area H1 H2 H3 H4) as (kp & up & kv & -> & Hmade). ocbn.
  destruct (block_desc_init_spec k_block_descs s Hd1 Hd2 Hv) as (m' & Heq & _). rewrite Heq. ocbn.
  exists kp, up, kv, (Machine m' (eflags s)). split; [done|]. split; [done|]. set (k := MM m _ kp up kv 0 uv).
  split; [by apply (start_inv m all_mem area)|]. split; [apply Hmade|]. split; [apply Hmade|]. split; [apply Hmade|].
  split; [apply all_free_count; apply Hmade|]. split; [apply all_free_count; apply Hmade|].
  intros Hg. split; [by apply (start_space m all_mem area)|]. cbv zeta.
  destruct (block_desc_init_inv (P := mm) (H := pool_allocator PF_KERNEL) (HeapEnv true k_block_descs 0) s k 0 Hd1 Hd2 Hv) as (m2 & Heq2 & _ & Hinv & Hno).
  - by apply (start_pages m all_mem area).
  - intros a Ha [Hr _]. specialize (Hram a Ha). unfold region_of in Hr. cbn [vspace kernel_vaddr k] in Hr.
    rewrite (proj1 (pm_heap _ _ _ _ _ Hmade)) in Hr. lia.
  - cbn [env_descs] in *. assert (m2 = m') as -> by congruence. exists (λ _, []), ∅. split; [exact Hinv|].
    intros x n. rewrite lookup_empty. split; [intros Hx; by apply Hno in Hx|done].
Qed.

(** ** A machine of 4 MB *)

Module MemInitExample.
Fixpoint write_words (m : mem) (a : Z) (ws : list Z) : mem :=
  match ws with [] => m | w :: ws => write_words (put32 m a w) (a + 4) ws end.

Lemma write_words_other m ws : ∀ a p, p + 4 ≤ a ∨ a + 4 * Z.of_nat (length ws) ≤ p → load32 (write_words m a ws) p = load32 m p.
Proof.
  revert m. induction ws as [|w ws IH]; intros m a p Hp; [done|]. cbn [write_words length] in *.
  rewrite IH by lia. apply load32_put32_ne. lia.
Qed.

Lemma write_words_at m ws (i : nat) w : ∀ a, ws !! i = Some w → 0 ≤ w < 2 ^ 32 → load32 (write_words m a ws) (a + 4 * Z.of_nat i) = Ok w.
Proof.
  revert m i. induction ws as [|w' ws IH]; intros m i a Hi Hw; [done|]. destruct i as [|i]; cbn in Hi.
  - injection Hi as ->. cbn [write_words]. rewrite write_words_other by lia. rewrite Z.add_0_r, load32_put32_eq, u32_small by lia. done.
  - cbn [write_words]. replace (a + 4 * Z.of_nat (S i)) with (a + 4 + 4 * Z.of_nat i) by lia. by apply IH.
Qed.

Lemma write_words_wf m ws : ∀ a, wf_mem m → wf_mem (write_words m a ws).
Proof. revert m. induction ws as [|w ws IH]; intros m a Hm; [done|]. by apply IH, put32_wf. Qed.

Lemma write_words_valid m ws p n : ∀ a, valid m p n → valid (write_words m a ws) p n.
Proof. revert m. induction ws as [|w ws IH]; intros m a Hm; [done|]. by apply IH, put32_valid. Qed.

(** The words of a function on the numbers below [n]. *)
Lemma words_at (f : Z → Z) n m a i : 0 ≤ i < n → 0 ≤ f i < 2 ^ 32 → load32 (write_words m a (f <$> seqZ 0 n)) (a + 4 * i) = Ok (f i).
Proof.
  intros Hi Hf. replace i with (Z.of_nat (Z.to_nat i)) at 1 by lia. apply write_words_at; [|done].
  rewrite list_lookup_fmap, lookup_seqZ_lt by lia. cbn. do 2 f_equal. lia.
Qed.

Definition pde (i : Z) : Z := from_option user_entry 0 (loader_table i).
Definition pte (i : Z) : Z := if i <? 256 then user_entry (i * 4096) else 0.
Definition clear : mem := zeros 0 4194304.
Definition m0 : mem :=
  write_words (write_words (put32 clear (1048576 + 4 * 1023) (user_entry 1048576)) 1048576 (pde <$> seqZ 0 1023)) 1052672 (pte <$> seqZ 0 1024).

Lemma entry_word f : 0 ≤ f < 2 ^ 32 → f mod 4096 = 0 → 0 ≤ user_entry f < 2 ^ 32.
Proof. intros Hf Ha. by destruct (entry_make f Hf Ha) as (_ & _ & _ & Hr). Qed.

Lemma pde_word i : 0 ≤ pde i < 2 ^ 32.
Proof.
  unfold pde. destruct (loader_table i) as [t|] eqn:E; cbn; [|lia]. apply loader_table_range in E as (Ht & Ha & _). apply entry_word; [lia|done].
Qed.

Lemma pte_word i : 0 ≤ i → 0 ≤ pte i < 2 ^ 32.
Proof. intros Hi. unfold pte. destruct (Z.ltb_spec i 256); [|lia]. apply entry_word; [lia|zdlia]. Qed.

Lemma clear_word p : 0 ≤ p → p + 4 ≤ 4194304 → load32 clear p = Ok 0.
Proof.
  intros H1 H2. unfold load32, load8, clear. rewrite !zeros_lookup, !bool_decide_eq_true_2 by lia. done.
Qed.

Lemma m0_loaded : loaded m0 4194304.
Proof.
  unfold m0. constructor; unfold PAGE_DIR_TABLE_POS.
  - do 2 apply write_words_wf. apply put32_wf. intros a b. unfold clear. rewrite zeros_lookup. case_bool_decide; [intros [= <-]; lia|done].
  - do 2 apply write_words_valid. apply put32_valid, zeros_valid.
  - intros i Hi. rewrite write_words_other by (left; lia). fold (pde i). apply words_at; [lia|apply pde_word].
  - rewrite write_words_other by (left; lia). rewrite write_words_other by (right; rewrite length_fmap, length_seqZ; lia).
    rewrite load32_put32_eq, u32_small; [done|]. apply entry_word; [lia|done].
  - intros i Hi. fold (pte i). change (1048576 + 4096) with 1052672. apply words_at; [lia|apply pte_word; lia].
  - intros t i Ht Hi. rewrite write_words_other by (right; rewrite length_fmap, length_seqZ; lia).
    rewrite write_words_other by (right; rewrite length_fmap, length_seqZ; lia). rewrite load32_put32_ne by lia. apply clear_word; lia.
Qed.

(** The kernel's view: the size of memory and room for the descriptors. *)
Definition s0 : machine := Machine (put32 (zeros 0 65536) 2816 4194304) 0.
Definition area0 : list Z := replicate 256 1.
Definition no_space : virtual_addr := VirtualAddr (Bitmap 0 []) 0.

Lemma mem_init_establishes_witness :
  ∃ kp up kv s', mem_init s0 area0 4096 = Ok (kp, up, kv, s') ∧ mm_inv (MM m0 PAGE_DIR_TABLE_POS kp up kv 0 no_space).
Proof.
  destruct (mem_init_establishes s0 area0 4096 m0 4194304 no_space) as (kp & up & kv & s' & Heq & _ & Hinv & _).
  - cbn [ram s0]. rewrite load32_put32_eq. done.
  - exact m0_loaded.
  - lia.
  - done.
  - done.
  - by apply Forall_replicate.
  - lia.
  - lia.
  - cbn [ram s0]. apply put32_valid. eapply valid_sub; [apply zeros_valid|lia|lia].
  - intros a. cbn [ram s0]. intros [b Hb]. destruct (decide (2816 ≤ a < 2820)); [unfold K_HEAP_START; lia|].
    rewrite put32_lookup_ne, zeros_lookup in Hb by lia. case_bool_decide; [unfold K_HEAP_START; lia|done].
  - exists kp, up, kv, s'. split; [exact Heq|exact Hinv].
Defined.
End MemInitExample.
