(* ===== verification/Startup.v ===== *)
(** * device/console.c, kernel/debug.c, kernel/interrupt.c: the screen and the end of the kernel

    The console prints under a lock. [panic_spin] and [general_intr_handler] print what went wrong and
    stop the kernel. The output routines of lib/kernel/print.S are an interface. Last comes [idt_init],
    which puts the parts of [Interrupt] together. *)

From stdpp Require Import base numbers list gmap strings.
From Stdlib Require Import ZArith Lia Ascii.
From S2P Require Import Prelude Mem Bitmap Interrupt KList Thread Timer Sync ThreadInit IOQueue Keyboard Paging Pool Heap HeapPages MemInit Tss Entry Syscall.

(** ** The screen *)

Class Screen (S : Type) := {
  put_char : S → Z → S;
  put_str : S → string → S;
  put_int : S → Z → S;
  set_cursor : S → Z → S
}.

(** The character that starts a line. *)
Definition nl : string := String (Ascii.ascii_of_nat 10) EmptyString.

(** [while(1);] *)
Definition spin (fuel : nat) : outcome unit := loop fuel (λ _ : unit, Ok (inl tt)) tt.

Section screen.
Context {S : Type} `{Screen S}.

(** kernel/debug.c: what it leaves of the machine and the screen, and how it goes on. *)
Definition panic_spin (fuel : nat) (s : machine) (sc : S) (filename : string) (line : Z) (func condition : string)
    : machine * S * outcome unit :=
  let '(_, s) := intr_disable s in
  let sc := put_str sc (nl +:+ nl +:+ nl +:+ "!!!!! error !!!!!" +:+ nl) in
  let sc := put_str (put_str (put_str sc "filename:") filename) nl in
  let sc := put_str (put_int (put_str sc "line:0x") (u32 line)) nl in
  let sc := put_str (put_str (put_str sc "function:") func) nl in
  let sc := put_str (put_str (put_str sc "condition:") condition) nl in
  (s, sc, spin fuel).

(** kernel/interrupt.c; [cr2] is the address of a page fault. *)
Definition general_intr_handler (fuel : nat) (sc : S) (intr_name : list string) (cr2 vec_nr : Z) : outcome (S * outcome unit) :=
  if (vec_nr =? 39) || (vec_nr =? 47) then Ok (sc, Ok tt)
  else
    let sc := set_cursor sc 0 in
    let sc := Nat.iter 320 (λ sc, put_char sc 32) sc in
    let sc := set_cursor sc 0 in
    let sc := put_str sc ("!!!!! exception message begin !!!!!" +:+ nl) in
    let sc := set_cursor sc 88 in
    name ← from_option_fault (intr_name !! Z.to_nat vec_nr);
    let sc := put_str sc name in
    let sc := if vec_nr =? 14 then put_int (put_str sc (nl +:+ "page fault addr is ")) cr2 else sc in
    let sc := put_str sc (nl +:+ "!!!!! exception message end !!!!!" +:+ nl) in
    Ok (sc, spin fuel).

(** device/console.c *)
Definition console_lock : Z := 2.
Section console.
Context `{AddrV2P}.
Definition console_init (σ : sys) : sys := set_lock σ console_lock lock_init.
Definition console_acquire (σ : sys) : outcome sys := call_acquire σ console_lock.
Definition console_release (σ : sys) : outcome sys := call_release σ console_lock.
Definition console_put_str (σ : sys) (sc : S) (str : string) : outcome (sys * S) :=
  σ ← console_acquire σ; let sc := put_str sc str in σ ← console_release σ; Ok (σ, sc).
Definition console_put_char (σ : sys) (sc : S) (char_asci : Z) : outcome (sys * S) :=
  σ ← console_acquire σ; let sc := put_char sc (u8 char_asci) in σ ← console_release σ; Ok (σ, sc).
Definition console_put_int (σ : sys) (sc : S) (num : Z) : outcome (sys * S) :=
  σ ← console_acquire σ; let sc := put_int sc num in σ ← console_release σ; Ok (σ, sc).
End console.
End screen.

(** ** [idt_init] *)

Definition idt_init (intr_entry_table : list Z) (syscall_handler general_intr_handler idt_addr : Z)
    : outcome (list gate_desc * list Z * list string * list (Z * Z) * Z) :=
  idt ← idt_desc_init intr_entry_table syscall_handler;
  let '(idt_table, intr_name) := exception_init general_intr_handler in
  Ok (idt, idt_table, intr_name, pic_init, idt_operand idt_addr).

(** ** Lemmas *)

Lemma spin_never fuel : spin fuel = OutOfFuel.
Proof. apply (loop_diverges _ (λ _, True)); [|done]. intros [] _. by exists tt. Qed.

Lemma length_intr_name h : length (exception_init h).2 = 129%nat.
Proof. done. Qed.

(** Printing between acquiring and releasing the free lock of the console: the statements of
    both calls run to their end, and the lock is as it was. *)
Lemma console_locked `{AddrV2P} {A} σ (a : A) : running_thread (ks σ) ≠ NULL → locks σ !! console_lock = Some lock_init →
  (σ1 ← console_acquire σ; σ2 ← console_release σ1; Ok (σ2, a)) = Ok (set_pc σ Sync.User, a).
Proof.
  intros Hcur Hfree. unfold console_acquire, console_release. rewrite call_acquire_free by done. ocbn.
  rewrite call_release_held. ocbn. by rewrite (moved_id σ _ _ _ Hfree).
Qed.

Lemma pc_of_set_user σ t : pc_of σ (running_thread (ks σ)) = Sync.User → pc_of (set_pc σ Sync.User) t = pc_of σ t.
Proof.
  intros Hpc. unfold set_pc, pc_of at 1. cbn. rewrite lookup_insert. case_decide as E; [|done]. by rewrite <- E, Hpc.
Qed.

(** ** Properties *)

(** With the lock of the console free, each of the three output routines of console.c prints exactly once and
    returns, with the lock free again and scheduler, locks and threads as before. *)
Theorem console_prints {S} `{Screen S} `{AddrV2P} σ (sc : S) str c n :
  running_thread (ks σ) ≠ NULL → pc_of σ (running_thread (ks σ)) = Sync.User → locks σ !! console_lock = Some lock_init →
  ∃ σ', console_put_str σ sc str = Ok (σ', put_str sc str) ∧ console_put_char σ sc c = Ok (σ', put_char sc (u8 c)) ∧
    console_put_int σ sc n = Ok (σ', put_int sc n) ∧ ks σ' = ks σ ∧ locks σ' = locks σ ∧ ∀ t, pc_of σ' t = pc_of σ t.
Proof.
  intros Hcur Hpc Hfree. exists (set_pc σ Sync.User). split_and!; [by apply console_locked..|done|done|].
  intros t. by apply pc_of_set_user.
Qed.

(** A vector without a handler of its own stops the kernel: [general_intr_handler] prints and then never returns, however
    long it runs, except for the two vectors of spurious interrupts, where it returns at once and prints nothing.
    A failed assertion stops it as well, with interrupts off. *)
Theorem faults_stop {S} `{Screen S} (sc : S) h cr2 v fuel s filename line func condition : 0 ≤ v < IDT_DESC_CNT →
  (∃ sc', general_intr_handler fuel sc (exception_init h).2 cr2 v =
     Ok (sc', if bool_decide (v = 39 ∨ v = 47) then Ok tt else OutOfFuel) ∧ (v = 39 ∨ v = 47 → sc' = sc)) ∧
  ∃ s' sc', panic_spin fuel s sc filename line func condition = (s', sc', OutOfFuel) ∧ intr_get_status s' = INTR_OFF ∧ ram s' = ram s.
Proof.
  intros Hv. unfold IDT_DESC_CNT in Hv. split.
  - unfold general_intr_handler. destruct (Z.eqb_spec v 39) as [->|H1]; [by eexists|]. destruct (Z.eqb_spec v 47) as [->|H2]; [by eexists|].
    cbn [orb]. cbv zeta. destruct (lookup_lt_is_Some_2 (exception_init h).2 (Z.to_nat v)) as [nm Hnm]; [rewrite length_intr_name; lia|].
    rewrite Hnm. ocbn. rewrite spin_never, bool_decide_eq_false_2 by tauto. eexists. split; [done|]. tauto.
  - unfold panic_spin. destruct (intr_disable s) as [old s'] eqn:E. rewrite spin_never. do 2 eexists. split; [done|].
    replace s' with (intr_disable s).2 by (by rewrite E). split; [apply intr_disable_off|apply intr_disable_ram].
Qed.

(** ** A screen *)

Module ScreenExample.
Import BootExample.
#[local] Existing Instance boot_v2p.

(** What was printed so far. *)
#[local] Instance text_screen : Screen string := {|
  put_char sc c := sc +:+ String (Ascii.ascii_of_N (Z.to_N c)) EmptyString;
  put_str sc s := sc +:+ s;
  put_int sc _ := sc +:+ "#";
  set_cursor sc _ := sc
|}.

Definition with_console : sys := console_init (sy booted).

Lemma console_prints_witness : ∃ σ', console_put_str with_console "" "hello" = Ok (σ', "hello") ∧ locks σ' = locks with_console.
Proof.
  destruct (console_prints with_console "" "hello" 0 0) as (σ' & H1 & _ & _ & _ & H2 & _); [by vm_compute..|].
  exists σ'. split; [exact H1|exact H2].
Defined.

Lemma faults_stop_witness : ∃ sc', general_intr_handler 1000 "" (exception_init 0).2 4096 14 = Ok (sc', OutOfFuel).
Proof.
  destruct (faults_stop "" 0 4096 14 1000 (Machine ∅ 514) "memory.c" 1 "f" "c") as ((sc' & H1 & _) & _); [by vm_compute|].
  exists sc'. exact H1.
Defined.
End ScreenExample.
