(* ===== verification/Boot.v ===== *)
(** * kernel/init.c: init_all

    [init_all] puts the parts of the kernel together, in the order of the code: interrupts,
    memory, threads, the devices, the segments and the system calls; with interrupts on it
    then looks for the disks and mounts the file system. [start_kernel] is the part before
    [ide_init]. *)

From stdpp Require Import base numbers list gmap strings.
From Stdlib Require Import ZArith Lia.
From S2P Require Import Prelude Mem Bitmap Interrupt KList Thread Timer Sync ThreadInit IOQueue Keyboard Paging Pool Heap HeapPages MemInit Tss Entry Syscall Startup.
From S2P Require Import Block Ide Partition FsState FsMount IdeInit.

(** ** The state and the calls *)

(** Addresses in the kernel's image: the entry points, with the word behind their table, the
    handlers and the tables. *)
Record image := Image {
  entry_table : list Z;
  at_syscall_handler : Z;
  at_general_handler : Z;
  at_timer_handler : Z;
  at_keyboard_handler : Z;
  at_hd_handler : Z;
  at_kernel_thread : Z;
  at_idle : Z;
  at_idt : Z;
  at_tss : Z;
  at_block_descs : Z
}.

(** What the kernel keeps of the processor and of its globals. *)
Record os := Os {
  threads : kernel;
  cpu_view : machine;
  pages : mm;
  gates : list gate_desc;
  handlers : list Z;
  names : list string;
  idtr : Z;
  port_writes : list (Z * Z);
  segs : segments;
  keys : kbd;
  calls : list (option syscall)
}.

(** The lock of the keyboard's buffer. *)
Definition kbd_lock : Z := 3.

Section init.
Context `{AddrV2P} (img : image).

(** [area] is the memory behind the bitmaps and [b] that of the keyboard's buffer. *)
Definition start_kernel (o : os) (area b : list Z) : outcome os :=
  '(idt, idt_table, intr_name, pic, operand) ←
     idt_init (entry_table img) (at_syscall_handler img) (at_general_handler img) (at_idt img);
  '(kp, up, kv, s) ← mem_init (cpu_view o) area (at_block_descs img);
  let k := MM (phys (pages o)) (Pool.dir (pages o)) kp up kv (Pool.pgdir (pages o)) (userprog_vaddr (pages o)) in
  '(page, k) ← get_kernel_pages k 1;
  t ← thread_init (threads o) page (at_kernel_thread img) (at_idle img);
  '(pit, idt_table) ← timer_init (at_timer_handler img) idt_table;
  let σ := console_init (sy t) in
  '(σ, kb, idt_table) ← keyboard_init σ (keys o) kbd_lock b (at_keyboard_handler img) idt_table;
  let sg := tss_init (segs o) (at_tss img) in
  let table := syscall_init (calls o) in
  let '(_, s) := intr_enable s in
  let σ := set_ks σ (set_intr (ks σ) (intr_get_status s)) in
  Ok (Os (Kernel σ (next_pid t) (kthread_stacks t)) s k idt idt_table intr_name operand
         (port_writes o ++ pic ++ pit) sg kb table).

Context {D : Type} `{AtaIdentify D} `{!AtaReady D} (id_info buf : Z) (junk : list Z) (fuel : nat).

(** The disks that [filesys_init] looks at: the second one of each channel. *)
Definition second_disks (s : disks D) : list (scan (ide D)) :=
  omap (λ ch, hd ← devices ch !! 1%nat;
    Some (Scan (hd_name hd) (hd_prim hd) (hd_logic hd) (ext_base s) 0 0
            (snd <$> filter (λ p, p.1 = my_channel hd * 2 + 1) (parts s)) (leaked s) (chan_ide ch)))
    (take (Z.to_nat (channel_cnt s)) (channels s)).

Definition set_handlers (s : disks D) (t : list Z) : disks D :=
  Disks (channel_cnt s) (channels s) (ext_base s) (parts s) (leaked s) t (infos s).

(** [nulls] and [pad] are as in [filesys_init], [hd_cnt] is the byte that the BIOS left. *)
Definition init_all (o : os) (area b : list Z) (ds : disks D) (hd_cnt : Z) (nulls : list bool) (pad : list Z)
    : outcome (os * disks D * fs (ide D)) :=
  o ← start_kernel o area b;
  ds ← ide_init (at_hd_handler img) id_info buf junk fuel (set_handlers ds (handlers o)) hd_cnt;
  main ← from_option_fault (tasks (ks (sy (threads o))) !! running_thread (ks (sy (threads o))));
  f ← filesys_init (H := ide_device 1 buf) (second_disks ds) nulls pad (Thread.fd_table main);
  Ok (o, ds, f).
End init.

(** ** Lemmas *)

(** The gates: the entry points for the kernel alone, and the one for system calls. *)
Lemma idt_desc_init_spec entries handler : (129 ≤ length entries)%nat →
  idt_desc_init entries handler =
    Ok ((make_idt_desc IDT_DESC_ATTR_DPL0 <$> take 128 entries) ++ [make_idt_desc IDT_DESC_ATTR_DPL3 handler]).
Proof.
  intros Hl. unfold idt_desc_init. set (step := λ '(i, idt), _).
  assert (∀ n i, (i + n = 129)%nat → loop (S n) step (Z.of_nat i, make_idt_desc IDT_DESC_ATTR_DPL0 <$> take i entries) =
    Ok (make_idt_desc IDT_DESC_ATTR_DPL0 <$> take 129 entries)) as Hloop.
  { induction n as [|n IH]; intros i Hi.
    - apply loop_exit. assert (i = 129%nat) as -> by lia. done.
    - destruct (lookup_lt_is_Some_2 entries i) as [f Hf]; [lia|].
      rewrite (loop_step _ _ _ (Z.of_nat (S i), make_idt_desc IDT_DESC_ATTR_DPL0 <$> take (S i) entries)); [apply IH; lia|].
      unfold step. unfold IDT_DESC_CNT. rewrite (proj2 (Z.ltb_lt _ _)), Nat2Z.id, Hf by lia. ocbn.
      rewrite (take_S_r _ _ _ Hf), fmap_app. do 3 f_equal. lia. }
  change (loop _ step _) with (loop (S 129) step (Z.of_nat 0, make_idt_desc IDT_DESC_ATTR_DPL0 <$> take 0 entries)).
  rewrite (Hloop 129%nat 0%nat eq_refl). ocbn. change (Z.to_nat (IDT_DESC_CNT - 1)) with 128%nat. f_equal.
  destruct (lookup_lt_is_Some_2 entries 128) as [f Hf]; [lia|]. rewrite (take_S_r _ _ _ Hf), fmap_app.
  assert (length (make_idt_desc IDT_DESC_ATTR_DPL0 <$> take 128 entries) = 128%nat) as Hn by (rewrite length_fmap, length_take; lia).
  rewrite <- Hn at 1. by rewrite insert_app_r_alt, Hn, Nat.sub_diag by lia.
Qed.

Lemma register_ok t v h : 0 ≤ v < Z.of_nat (length t) → v < 256 → register_handler t v h = Ok (<[Z.to_nat v := h]> t).
Proof. intros Hv H8. unfold register_handler. rewrite u8_small by lia. by rewrite (proj2 (Z.leb_gt _ _)) by lia. Qed.

(** What of the system does not depend on a new lock or on the interrupt flag. *)
Lemma started_lock σ l : started σ → started (set_lock σ l lock_init).
Proof.
  intros [Hs Hm Hp Hl]. split; try done. intros l' lk. cbn. rewrite lookup_insert. case_decide; [by intros [= <-]|]. apply Hl.
Qed.

Lemma started_intr σ i : started σ → started (set_ks σ (set_intr (ks σ) i)).
Proof. intros [Hs Hm Hp Hl]. split; try done. destruct Hs as [[] ? ? ?]. split; [by split|done..]. Qed.

Lemma intr_enable_on s : intr_get_status (intr_enable s).2 = INTR_ON.
Proof.
  unfold intr_enable. destruct (intr_get_status s) eqn:E; [|done]. cbn. rewrite intr_get_status_bit. cbn.
  change EFLAGS_IF with (2 ^ 9). by rewrite Z.lor_spec, testbit_pow2, orb_true_r by lia.
Qed.

(** The partitions of one disk in the list of all. *)
Lemma filter_tag {A} (n : Z) (l : list A) : (filter (λ p, p.1 = n) (pair n <$> l)).*2 = l.
Proof. induction l as [|x l IH]; [done|]. rewrite fmap_cons, filter_cons_True by done. rewrite fmap_cons. by f_equal. Qed.

(** ** The start *)

(** What the loader and the image of the kernel leave for [init_all]. *)
Record powered_on (img : image) (o : os) (all_mem : Z) (area b : list Z) : Prop := {
  on_size : load32 (ram (cpu_view o)) 2816 = Ok all_mem;
  on_mem : 4 * 1024 * 1024 ≤ all_mem ∧ (all_mem - 2097152) / 4096 < 65536;
  on_area : (all_mem - 2097152) / 4096 ≤ Z.of_nat (length area) * 4 ∧ Forall (λ b, 0 ≤ b < 256) area;
  on_guard kp up kv : mem_pool_init all_mem area = Ok (kp, up, kv) → heap_guard area kp up;
  on_tables : loaded (phys (pages o)) all_mem;
  on_dir : Pool.dir (pages o) = PAGE_DIR_TABLE_POS ∧ Pool.pgdir (pages o) = 0;
  on_descs : 0 < at_block_descs img ∧ at_block_descs img + 168 < 2 ^ 32 - 8;
  on_descs_ram : valid (ram (cpu_view o)) (at_block_descs img) 168;
  on_main : 0 < running_thread (ks (sy (threads o))) < K_HEAP_START;
  on_threads : tasks (ks (sy (threads o))) = ∅ ∧ resume (ks (sy (threads o))) = ∅ ∧ locks (sy (threads o)) = ∅ ∧
    pcs (sy (threads o)) = ∅ ∧ next_pid (threads o) = 0;
  on_entries : (129 ≤ length (entry_table img))%nat;
  on_calls : calls o = replicate (Z.to_nat syscall_nr) None;
  on_keys : length b = Z.to_nat bufsize
}.

(** A kernel that has been started. *)
Record running_kernel (img : image) (o o' : os) : Prop := {
  rk_threads : started (sy (threads o'));
  rk_main : running_thread (ks (sy (threads o'))) = running_thread (ks (sy (threads o)));
  rk_main_task : ∃ p, tasks (ks (sy (threads o'))) !! running_thread (ks (sy (threads o'))) = Some p ∧ pid p = 1;
  rk_idle : thread_ready_list (ks (sy (threads o'))) = [idle_thread (ks (sy (threads o')))];
  rk_intr : intr (ks (sy (threads o'))) = INTR_ON ∧ intr_get_status (cpu_view o') = INTR_ON;
  rk_locks l : l = console_lock ∨ l = kbd_lock → locks (sy (threads o')) !! l = Some lock_init;
  rk_memory : mm_inv (pages o') ∧ space_inv (pages o') PF_KERNEL;
  rk_idle_page a : let page := idle_thread (ks (sy (threads o'))) in page ≤ a < page + 4096 →
    ∃ pa, translate (phys (pages o')) (Pool.dir (pages o')) a = Ok pa ∧ phys (pages o') !! pa = Some 0;
  rk_gates : gates o' = (make_idt_desc IDT_DESC_ATTR_DPL0 <$> take 128 (entry_table img)) ++
    [make_idt_desc IDT_DESC_ATTR_DPL3 (at_syscall_handler img)];
  rk_handlers : handlers o' = <[33%nat := at_keyboard_handler img]> (<[32%nat := at_timer_handler img]> (replicate 129 (at_general_handler img)));
  rk_segs : segs o' = tss_init (segs o) (at_tss img);
  rk_keys : wf_ioqueue (kbd_buf (keys o')) ∧ contents (kbd_buf (keys o')) = [] ∧ ioq_lock (kbd_buf (keys o')) = kbd_lock;
  rk_calls : calls o' = first_table
}.

(** The memory and the page of the idle thread. *)
Lemma first_page img o all_mem area b : powered_on img o all_mem area b →
  ∃ kp up kv s page r k', mem_init (cpu_view o) area (at_block_descs img) = Ok (kp, up, kv, s) ∧
    let k := MM (phys (pages o)) (Pool.dir (pages o)) kp up kv (Pool.pgdir (pages o)) (userprog_vaddr (pages o)) in
    get_kernel_pages k 1 = Ok (page, k') ∧ kernel_pages k k' page r 1 ∧ vaddr_start kv = K_HEAP_START.
Proof.
  intros [Hsz [Hm1 Hm2] [Ha1 Ha2] Hg Ht [Hd Hp] [Hb1 Hb2] Hbr _ _ _ _ _]. unfold mem_init. rewrite Hsz. ocbn.
  destruct (mem_pool_init_spec all_mem area ltac:(lia) Hm2 Ha1 Ha2) as (kp & up & kv & Hmp & Hmade). rewrite Hmp. ocbn.
  destruct (block_desc_init_spec (at_block_descs img) (cpu_view o) Hb1 Hb2 Hbr) as (m' & Heq & _). rewrite Heq. ocbn.
  rewrite Hd, Hp. set (k := MM (phys (pages o)) PAGE_DIR_TABLE_POS kp up kv 0 (userprog_vaddr (pages o))).
  pose proof Hmade as [_ _ _ _ _ [Hst Hn] Hfree _ _ _ Hhalf].
  assert (8 < nbits (pool_bitmap kp)) as Hk8 by zdlia.
  destruct (get_kernel_pages_spec k 1 0) as (page & r & k' & Hget & Hkp & _).
  - apply (start_inv _ all_mem area); [done|lia|done].
  - apply (start_space _ all_mem area); [done|lia|done|by eapply Hg].
  - lia.
  - exists 0. cbn [kernel_vaddr k]. split; [lia|]. split; [lia|]. intros j Hj. apply Hfree. lia.
  - cbn. rewrite all_free_count by apply Hfree. lia.
  - exists kp, up, kv, (Machine m' (eflags (cpu_view o))), page, r, k'. done.
Qed.

Lemma start_kernel_spec `{AddrV2P} img o all_mem area b : powered_on img o all_mem area b →
  ∃ o', start_kernel img o area b = Ok o' ∧ running_kernel img o o'.
Proof.
  intros Hon. destruct (first_page _ _ _ _ _ Hon) as (kp & up & kv & s & page & r & k' & Hmem & Hget & Hkp & Hst).
  pose proof Hon as [_ _ _ _ _ _ _ _ Hmain (Ht1 & Ht2 & Ht3 & Ht4 & Ht5) Hent Hcalls Hb].
  assert (K_HEAP_START ≤ page) as Hpage.
  { pose proof (kp_va _ _ _ _ _ Hkp) as [-> _]. pose proof (kp_run _ _ _ _ _ Hkp) as [? _]. cbn. rewrite Hst. unfold PG_SIZE. lia. }
  destruct (thread_init_spec (threads o) page (at_kernel_thread img) (at_idle img)) as
    (t & p1 & p2 & Hti & Hs & Hr & _ & Hrun & Hidle & Hp1 & Hpid & _); try done; [unfold NULL, K_HEAP_START in *; lia..|].
  unfold start_kernel, idt_init. rewrite idt_desc_init_spec by done. unfold exception_init. ocbn. cbv zeta. rewrite Hmem. ocbn.
  rewrite Hget. ocbn. rewrite Hti. ocbn. unfold timer_init. change (Z.to_nat IDT_DESC_CNT) with 129%nat.
  rewrite register_ok by (rewrite ?length_replicate; lia). ocbn. unfold keyboard_init, ioqueue_init, console_init.
  rewrite register_ok by (rewrite ?length_insert, ?length_replicate; lia). ocbn.
  destruct (intr_enable s) as [old s'] eqn:E. assert (intr_get_status s' = INTR_ON) as Hon'.
  { replace s' with (intr_enable s).2 by (by rewrite E). apply intr_enable_on. }
  eexists. split; [reflexivity|].
  constructor; cbn [threads cpu_view pages gates handlers segs keys calls sy]; try done.
  - by apply started_intr, started_lock, started_lock.
  - exists p1. split; [|done]. cbn. by rewrite Hrun.
  - cbn. by rewrite Hidle.
  - intros l [->| ->]; cbn; rewrite !lookup_insert; [rewrite decide_False by done|]; by rewrite decide_True.
  - split; apply Hkp.
  - intros a. cbn [ks set_ks idle_thread set_intr set_lock]. rewrite Hidle. intros Ha. apply (kp_zero _ _ _ _ _ Hkp). unfold PG_SIZE. lia.
  - by rewrite Hcalls.
Qed.

(** ** Properties *)


(** ** A machine of 4 MB with two drives *)

Module InitAllExample.
Import RamDisk PartitionExample IdeExample MemInitExample BootExample InitExample.
#[local] Existing Instance boot_v2p.
#[local] Existing Instance drive_identify.

Definition img : image := Image (seqZ 100 129) 300 301 302 303 304 305 306 3221245000 3221246016 4096.
Definition cold_os : os :=
  Os power_on s0 (MM m0 PAGE_DIR_TABLE_POS (Pool (Bitmap 0 []) 0 0 0) (Pool (Bitmap 0 []) 0 0 0) no_space 0 no_space) [] [] [] 0 []
     Tss.TssExample.loaded (Kbd false false false false false (IOQueue 0 0 0 [] 0 0)) (replicate 32 None).

Lemma cold_on : powered_on img cold_os 4194304 area0 (replicate 64 0).
Proof.
  constructor.
  - cbn [cpu_view cold_os ram s0]. rewrite load32_put32_eq. reflexivity.
  - split; [lia|reflexivity].
  - split; [unfold area0; rewrite length_replicate; vm_compute; discriminate|by apply Forall_replicate].
  - intros kp up kv Heq. vm_compute in Heq. injection Heq as <- <- _. exists 1. by vm_compute.
  - exact m0_loaded.
  - split; reflexivity.
  - cbn. lia.
  - cbn [cpu_view cold_os ram s0]. apply put32_valid. eapply valid_sub; [apply zeros_valid|cbn; lia|cbn; lia].
  - cbn. unfold K_HEAP_START. lia.
  - by split_and!.
  - cbn [entry_table img]. by rewrite length_seqZ.
  - reflexivity.
  - reflexivity.
Qed.

End InitAllExample.
