(* ===== verification/Main.v ===== *)
(** * kernel/main.c: the kernel's main function

    [main] starts the kernel with [init_all] and then prints what [sys_stat] says
    about [/] and [/dir1]. The text of a [printf] is that of [Stdio.render], handed
    to [sys_write]. The messages of the kernel's own parts are left out. *)

From stdpp Require Import base numbers list gmap strings.
From Stdlib Require Import ZArith Lia.
From S2P Require Import Prelude Mem KString Thread Paging Stdio Startup Block Ide Partition IdeInit Boot.
From S2P Require Import FsState FsAlloc Inode FsFile FsWrite Dir DirSpec FsPath FsSearch FsCalls FsMount FsMountSpec FsCallsSpec.

(** The characters of a string. *)
Definition chars (s : string) : list Z := (λ c, Z.of_nat (Ascii.nat_of_ascii c)) <$> String.list_ascii_of_string s.

Arguments chars s%_string_scope.

Definition root_path : list Z := chars "/".
Definition dir1_path : list Z := chars "/dir1".
(** The format of both calls of [printf], with the path they name. *)
Definition info_format (path : list Z) : list Z :=
  path ++ chars ("`s info" +:+ nl +:+ "   i_no:%d" +:+ nl +:+ "   size:%d" +:+ nl +:+ "   filetype:%s" +:+ nl).
Definition type_name (st : stat) : list Z := if st_filetype st =? 2 then chars "directory" else chars "regular".
Definition greeting : list Z := chars ("I am kernel" +:+ nl).

Section main.
Context {D : Type} `{BlockDevice D}.
Implicit Types (s : fs D).

(** [printf(format, ...)]: the text that reaches the screen. *)
Definition print s (format : list Z) (args : list arg) : outcome (list Z * fs D) :=
  text ← from_option_fault (render format args);
  '(_, out, s) ← sys_write s stdout_no text (Z.of_nat (length text));
  Ok (out, s).

Definition print_info s (path : list Z) (obj_stat : stat) : outcome (list Z * fs D) :=
  print s (info_format path) [AInt (s32 (st_ino obj_stat)); AInt (s32 (st_size obj_stat)); AStr (type_name obj_stat)].

(** Lines 26-38. [obj_stat] is what the variable holds before: [sys_stat] does not
    store to it when there is no such file, and its result is not looked at. *)
Definition main_reports s (obj_stat : stat) : outcome (list Z * fs D) :=
  '(_, st, s) ← sys_stat s root_path;
  let obj_stat := default obj_stat st in
  '(text, s) ← print_info s root_path obj_stat;
  '(_, st, s) ← sys_stat s dir1_path;
  let obj_stat := default obj_stat st in
  '(text', s) ← print_info s dir1_path obj_stat;
  Ok (text ++ text', s).

(** The text that describes [st]. *)
Definition info_text (path : list Z) (st : stat) : list Z :=
  path ++ chars ("`s info" +:+ nl +:+ "   i_no:") ++ decimal (s32 (st_ino st)) ++ chars (nl +:+ "   size:") ++
  decimal (s32 (st_size st)) ++ chars (nl +:+ "   filetype:") ++ type_name st ++ chars nl.

Lemma digits_short fuel base v : (length (digits fuel base v) ≤ fuel)%nat.
Proof.
  revert v. induction fuel as [|fuel IH]; intros v; [done|]. cbn [digits]. rewrite length_app. cbn.
  specialize (IH (v / base)). destruct (truth (v / base)); cbn; lia.
Qed.

Lemma decimal_short z : (length (decimal z) ≤ 34)%nat.
Proof.
  unfold decimal. destruct (z <? 0); cbn [length].
  - pose proof (digits_short 33 10 (- z)). lia.
  - pose proof (digits_short 33 10 z). lia.
Qed.

(** A text without a 0 goes to the screen as it is. *)
Lemma cstring_whole text : Forall (λ c, c ≠ 0) text → cstring (text ++ [0]) = Ok text.
Proof.
  induction 1 as [|c text Hc _ IH]; [done|]. cbn. by rewrite (proj2 (Z.eqb_neq c 0)), IH by done.
Qed.

Lemma sys_write_screen s text : Forall (λ c, c ≠ 0) text → (length text ≤ 1023)%nat →
  sys_write s stdout_no text (Z.of_nat (length text)) = Ok (Z.of_nat (length text), text, s).
Proof.
  intros Hc Hl. unfold sys_write. change (stdout_no <? 0) with false. change (stdout_no =? stdout_no) with true. cbv iota.
  rewrite (proj2 (Z.ltb_ge 1023 _)), (proj2 (Z.ltb_ge _ (Z.of_nat (length text)))) by lia. cbn [orb].
  rewrite Nat2Z.id, firstn_all, cstring_whole by done. ocbn. by rewrite s32_small by lia.
Qed.

(** The texts have no 0 and fit. *)
Lemma decimal_nonzero z : Forall (λ c, c ≠ 0) (decimal (s32 z)).
Proof.
  eapply Forall_impl; [apply decimal_ok; unfold s32; pose proof (u32_range z); zcase; lia|]. intros c Hc. unfold char_ok in Hc. lia.
Qed.

Lemma info_text_ok path st : Forall (λ c, c ≠ 0) path → (length path ≤ 15)%nat →
  Forall (λ c, c ≠ 0) (info_text path st) ∧ (length (info_text path st) ≤ 1023)%nat.
Proof.
  intros Hp Hl. unfold info_text.
  assert (∀ s : string, forallb (λ c, negb (c =? 0)) (chars s) = true → Forall (λ c, c ≠ 0) (chars s)) as Hlit.
  { intros s Hs. apply Is_true_true in Hs. rewrite forallb_True in Hs. eapply Forall_impl; [exact Hs|].
    intros c Hc. by apply Is_true_true, negb_true_iff, Z.eqb_neq in Hc. }
  split.
  - rewrite !Forall_app. split_and!; try done; try apply decimal_nonzero; try (apply Hlit; vm_compute; reflexivity).
    unfold type_name. destruct (_ =? _); apply Hlit; vm_compute; reflexivity.
  - pose proof (decimal_short (s32 (st_ino st))). pose proof (decimal_short (s32 (st_size st))).
    assert (length (type_name st) ≤ 9)%nat by (unfold type_name; destruct (_ =? _); vm_compute; lia).
    rewrite !length_app. change (length (chars ("`s info" +:+ nl +:+ "   i_no:"))) with 16%nat.
    change (length (chars (nl +:+ "   size:"))) with 9%nat. change (length (chars (nl +:+ "   filetype:"))) with 13%nat.
    change (length (chars nl)) with 1%nat. lia.
Qed.

(** A format without directives in its first part. *)
Lemma render_text pre rest args : 37 ∉ pre → render (pre ++ rest) args = app pre <$> render rest args.
Proof.
  induction pre as [|c pre IH]; intros Hp; [cbn [app]; destruct (render rest args); reflexivity|]. apply not_elem_of_cons in Hp as [Hc Hp].
  cbn [app render]. rewrite (proj2 (Z.eqb_neq c 37)), IH by done. by destruct (render rest args).
Qed.

Lemma render_info z1 z2 t :
  render (info_format []) [AInt z1; AInt z2; AStr t] =
    Some (chars ("`s info" +:+ nl +:+ "   i_no:") ++ decimal z1 ++ chars (nl +:+ "   size:") ++ decimal z2 ++
          chars (nl +:+ "   filetype:") ++ t ++ chars nl).
Proof.
  assert (info_format [] = chars ("`s info" +:+ nl +:+ "   i_no:") ++ 37 :: 100 :: (chars (nl +:+ "   size:") ++
    37 :: 100 :: (chars (nl +:+ "   filetype:") ++ 37 :: 115 :: (chars nl ++ [])))) as -> by (vm_compute; reflexivity).
  assert (∀ rest z args, render (37 :: 100 :: rest) (AInt z :: args) = app (decimal z) <$> render rest args) as Hd by done.
  assert (∀ rest u args, render (37 :: 115 :: rest) (AStr u :: args) = app u <$> render rest args) as Hs by done.
  rewrite render_text, Hd, render_text, Hd, render_text, Hs, render_text by (apply (bool_decide_unpack _); vm_compute; exact I).
  cbn [render fmap option_fmap option_map]. by rewrite app_nil_r.
Qed.

Lemma print_info_spec s path st : Forall (λ c, c ≠ 0) path → 37 ∉ path → (length path ≤ 15)%nat →
  print_info s path st = Ok (info_text path st, s).
Proof.
  intros Hp Hpc Hl. unfold print_info, print. change (info_format path) with (path ++ info_format []).
  rewrite render_text, render_info by done. cbn [fmap option_fmap option_map]. ocbn.
  destruct (info_text_ok path st Hp Hl) as [Hc Hlen]. fold (info_text path st). by rewrite sys_write_screen.
Qed.

(** What [main] knows of [/dir1] when it prints: the answer of [sys_stat], or what it
    said about [/] when there is no [/dir1]. *)
Definition dir1_stat s : stat :=
  default (Stat 0 (i_size (view s 0)) FT_DIRECTORY) (stat_of s (resolve (dir_list s) 0 0 [] [chars "dir1"])).2.

(** [main], once the kernel has started, reports the number, the size and the kind of
    the root directory, and then those of [/dir1]; when there is no [/dir1], it repeats
    those of the root directory under that name. Nothing changes. *)
Theorem main_reports_correct s P obj : tree s P →
  ∃ d, same_sectors (disk s) d ∧ main_reports s obj =
    Ok (info_text root_path (Stat 0 (i_size (view s 0)) FT_DIRECTORY) ++ info_text dir1_path (dir1_stat s), set_disk s d).
Proof.
  intros Ht. unfold main_reports. rewrite (sys_stat_root s P root_path Ht) by reflexivity. ocbn.
  rewrite print_info_spec by (done || by repeat constructor || apply (bool_decide_unpack _); vm_compute; exact I). ocbn.
  destruct (sys_stat_correct s P dir1_path Ht) as (d & Hd & Hst).
  { constructor; try done. split; [done|]. apply Forall_singleton. split; [done|]. split; [by repeat constructor|cbn; lia]. }
  change (components dir1_path) with [chars "dir1"] in Hst. unfold dir1_stat.
  destruct (stat_of s _) as [r st]. rewrite Hst. ocbn. cbn [default].
  rewrite print_info_spec by (done || by repeat constructor || apply (bool_decide_unpack _); vm_compute; exact I). ocbn. by exists d.
Qed.

(** On a disk with a new file system, [filesys_init] and the reports of [main]: both
    paths are described as a directory of 48 bytes with inode 0, although there is
    no [/dir1]. *)
Theorem main_on_new_disk hd part pad fdt obj : one_partition hd part → length pad = 460%nat → Forall is_byte pad →
  le32_at (bd_sector (sdev hd) (start_lba part + 1)) 0 ≠ fs_magic →
  ∃ s d, filesys_init [hd] [] pad fdt = Ok s ∧ lookup_name (chars "dir1") (dir_list s 0) = None ∧
    main_reports s obj =
      Ok (info_text root_path (Stat 0 48 FT_DIRECTORY) ++ info_text dir1_path (Stat 0 48 FT_DIRECTORY), set_disk s d).
Proof.
  intros Hone Hpad Hpb Hmag. destruct (init_part_new (sdev hd) part pad) as (d0 & d & bm & _ & Hi & Hf & Hnew);
    [apply Hone|apply Hone|done..|].
  destruct (filesys_init_opened hd part pad fdt d0 d bm Hone Hi Hf Hnew) as (p & d1 & Hinit & [Ht Hes] & Hd1).
  set (s := opened_root part bm (replicate 32 (File 0 0 NULL)) fdt p d1) in *.
  destruct (main_reports_correct s _ obj Ht) as (d' & _ & Hrep).
  assert (lookup_name (chars "dir1") (dir_list s 0) = None) as Hnone by (rewrite Hes; vm_compute; reflexivity).
  exists s, d'. split; [exact Hinit|]. split; [done|]. rewrite Hrep. unfold dir1_stat. cbn [resolve]. rewrite Hnone.
  unfold s. by rewrite new_root_view.
Qed.
End main.

(** ** The whole function *)

Section start.
Context `{Thread.AddrV2P} {D : Type} `{AtaIdentify D} `{!AtaReady D}.
Context (img : image) (id_info buf : Z) (junk : list Z) (fuel : nat).

(** The text on the screen and the state in which [main] stays, in [while(1)]. *)
Definition main (o : os) (area b : list Z) (ds : disks D) (hd_cnt : Z) (nulls : list bool) (pad : list Z) (obj_stat : stat)
    : outcome (list Z * os * disks D * fs (ide D)) :=
  '(o, ds, f) ← init_all img id_info buf junk fuel o area b ds hd_cnt nulls pad;
  '(text, f) ← main_reports (H := ide_device 1 buf) f obj_stat;
  Ok (greeting ++ text, o, ds, f).
End start.

Module MainExample.
Import RamDisk FsExample DirExample SearchExample MountExample.

(** "/`s info", "   i_no:0", "   size:72", "   filetype:directory" and the same for /dir1 *)
Lemma main_reports_correct_witness : ∃ d, main_reports fs1 (Stat 7 7 7) =
  Ok (chars ("/`s info" +:+ nl +:+ "   i_no:0" +:+ nl +:+ "   size:72" +:+ nl +:+ "   filetype:directory" +:+ nl +:+
             "/dir1`s info" +:+ nl +:+ "   i_no:0" +:+ nl +:+ "   size:72" +:+ nl +:+ "   filetype:directory" +:+ nl), set_disk fs1 d).
Proof.
  destruct (main_reports_correct fs1 (λ n, n = 0) (Stat 7 7 7) tree1) as (d & _ & Hm). exists d. rewrite Hm.
  apply (f_equal (λ x, Ok (x, set_disk fs1 d))). vm_compute. reflexivity.
Defined.

Lemma main_on_new_disk_witness : ∃ s d, filesys_init [sdb] [] (replicate 460 0) [] = Ok s ∧
  main_reports s (Stat 7 7 7) =
    Ok (info_text root_path (Stat 0 48 FT_DIRECTORY) ++ info_text dir1_path (Stat 0 48 FT_DIRECTORY), set_disk s d).
Proof.
  destruct (main_on_new_disk sdb sdb1 (replicate 460 0) [] (Stat 7 7 7)) as (s & d & H1 & _ & H2);
    [by constructor; [..|exact sdb1_ok|]|apply pad_ok..|vm_compute; discriminate|].
  exists s, d. split; [exact H1|exact H2].
Defined.
End MainExample.
